(* ===== verification/_CoqProject ===== *)
-Q . S2P
Prelude.v
Text.v
StateM.v
BleFrame.v
RingBuf.v
TuyaList.v
Queue.v
WorkQueue.v
Crc.v
Tools.v
SwTimer.v
TimeService.v
Event.v
Cipher.v
Hash.v
Endian.v
AiAttr.v
AiPacket.v
Symmetry.v
Protocol.v
AiSession.v
Threads.v
AiClient.v
DpSchema.v
BleDp.v
IotDp.v
Kv.v
BleCrypt.v
BleMgr.v
Json.v
BleChannel.v
KvStore.v
IotClient.v
IotActivation.v
HashMap.v
MemHeap.v
MemClient.v
