(* ===== verification/Prelude.v ===== *)
(** * TuyaOpen: a verification library for its embedded core

    TuyaOpen is an IoT device framework in C. This library models the parts of
    it that carry its own logic (buffers, queues and tasks, timers and time,
    events, the wire formats of the BLE, LAN and cloud channels, and the data
    points a device reports), and proves what makes them correct. Paths below
    are relative to the repository root; [UTIL] stands for
    [tools/porting/adapter/utilities].

    ** The files

    - [Prelude] (this file): fixed-width integers, bounds-checked buffers, return
      codes, shared list lemmas and the closure of a step relation.
    - [Text]: string literals and the conversions of [printf] as byte lists.
    - [StateM]: programs over a state that can fault, with the rules to reason
      about them backwards ([wp]), forwards ([triple]) and about what they leave.
    - [BleFrame]: [src/tuya_cloud_service/ble/ble_trsmitr.c], which cuts a frame
      into subpackages and puts it together again, and the two loops of
      [ble_mgr.c] around it ([ble_packet_trsmitr], [ble_packet_resp]).
    - [BleCrypt]: [src/tuya_cloud_service/ble/ble_cryption.c], the keys, the device
      identifier and the cipher of the BLE channel; [BleMgr]: [ble_mgr.c], which seals,
      numbers and answers the packets, pairs and advertises.
    - [BleChannel]: [src/tuya_cloud_service/ble/ble_channel.c], requests larger than a
      packet, and [src/tuya_cloud_service/netcfg/ble_netcfg.c], which takes the network and
      the token out of them. [Json]: what the cloud service asks of cJSON, as a class.
    - [RingBuf]: [UTIL/src/tuya_ringbuf.c], a byte ring.
    - [TuyaList]: [UTIL/src/tuya_list.c] and [UTIL/include/tuya_list.h], the
      intrusive list, on an explicit heap of links.
    - [Queue]: [UTIL/src/tuya_queue.c], a bounded queue whose nodes are linked by
      [TuyaList]; it states the contract [FifoQueue] and implements it.
    - [WorkQueue]: [src/tal_system/src/tal_workqueue.c] and
      [tal_workq_service.c], proved against [FifoQueue] and against the contract
      [Semaphore] of the operating system.
    - [SwTimer]: [src/tal_system/src/tal_sw_timer.c], the ordered active list, the
      standby list and the dispatcher.
    - [TimeService]: [src/tal_system/src/tal_time_serivce.c], calendar, clock,
      time zone and summer time.
    - [Event]: [src/tal_system/src/tal_event.c], publish and subscribe.
    - [Crc]: [src/common/utilities/crc32i.c] and [crc_16.c].
    - [Tools]: [src/common/utilities/mix_method.c] and [UTIL/src/tuya_tools.c].
    - [Cipher]: [src/libtls/src/cipher_wrapper.c] over mbedtls, which is the class
      [MbedtlsCipher]; [GcmCipher], with its instances [Aes128Gcm] and [Aes256Gcm],
      adds the documented laws of the cipher.
    - [Hash]: [src/tal_security/src/tal_hash.c] and [mbedtls/mbedtls_hash.c], digests
      and the MACs built on them, over a digest [Md] with the laws [MdLaws].
    - [Endian]: the byte order macros of [UTIL/include/tuya_cloud_types.h].
    - [AiAttr] and [AiPacket]: [src/tuya_ai_service/svc_ai_basic/src/tuya_ai_protocol.c],
      version 1 at security level 4: the attributes of every request and their parser;
      the packets, which are signed, encrypted and cut into fragments. [AiSession]: the
      derivation of the keys, connecting, the requests and the replies of that file.
    - [Threads]: programs that pause where they wait, with the rules to show what holds
      although others act at the pauses (rely and guarantee).
    - [AiClient]: [src/tuya_ai_service/svc_ai_basic/src/tuya_ai_client.c], the thread that
      brings the channel up and keeps it up, against the contract [AiBasic], of which
      [session_basic] is the instance that [AiSession] gives. Its handlers are programs of
      [Threads]: they pause before and after every operation of the protocol and every
      request, and in every sleep, and [client_step] interleaves them with the callbacks of
      the timers, the delayed work and other callers at these pauses.
    - [Protocol]: [src/tuya_cloud_service/protocol/tuya_protocol.c] (packets 2.3
      and 3.5, frames 3.5) and [src/common/utilities/uni_random.c].
    - [DpSchema]: [src/tuya_cloud_service/schema/dp_schema.c], the data points of a
      device, their cache and their reports; [BleDp]:
      [src/tuya_cloud_service/ble/ble_dp.c], the key-length-value form of the BLE
      channel; [IotDp]: [src/tuya_cloud_service/schema/tuya_iot_dp.c], the entry
      points that send a report over the connected channel, mark what the broker
      acknowledges and synchronise the rest, with the dumps of [dp_schema.c].
    - [Symmetry]: [src/tal_security/src/tal_symmetry.c] and
      [mbedtls/mbedtls_symmetry.c], AES over the class [MbedtlsAes]; [AesLaws] has
      the documented laws of the cipher.
    - [Kv]: [src/tal_kv/src/kv_serialize.c] (records as JSON) and [tal_kv.c]
      (encrypted files), over the classes [LittleFs] and [Base64Laws] and a JSON
      parser.
    - [KvStore]: what the cloud service asks of a key-value store, as a class; the
      files of [Kv] and a map in memory are its instances.
    - [IotClient]: [src/tuya_cloud_service/cloud/tuya_iot.c], the device client, with
      the stored part of [tuya_endpoint.c]: pairing, activation, connection, reset, and
      the calls of other threads ([iot_step]). [IotActivation]: its runs, from the
      answer of the cloud to the next start, the reset, and the way from the start to
      the connection.
    - [HashMap]: [UTIL/src/tuya_hashmap.c] over [UTIL/include/tuya_hlist.h], a
      chained hash table on linked nodes.
    - [MemHeap]: [UTIL/src/tuya_mem_heap.c], the allocator on byte-addressed
      memory, with its blocks and free list; [MemClient]: the same calls as its
      clients see them, as a map of live buffers.

    ** How the code is represented

    A definition has the name of the C function it translates (leading
    underscores dropped). A pointer argument that the code compares with [NULL]
    is an [option]; a struct is a record; the globals of a file are a record that
    is passed in and returned. A function that can touch memory returns an
    [option]: [None] is an access outside the buffer (or through a null or freed
    pointer), which C leaves undefined. So a theorem that gives [Some] shows the
    accesses are in bounds, and a theorem that gives [None] shows an input on
    which they are not. Return codes stay integers ([OPRT_OK] and the negative
    [OPRT_] codes). Every store into a narrow integer wraps ([u8], [u16], [u32]).
    The success of an allocation, the clock, the random source, the callbacks and
    the library calls of mbedtls and cJSON are arguments. Locks are not
    represented inside an operation; where the code acts outside its lock the
    model has separate steps ([WorkQueue.lstep], [SwTimer.dispatch_step] and
    [SwTimer.dispatch_call], [AiClient.client_step]). Between two pauses of a handler its
    assignments are one step. A callback of [Event] acts on a state of its own and does not
    call the event manager again.

    ** What is shown

    - Refinement: the ring is a bounded byte FIFO and loses nothing over a
      session; the linked list is a list under every sequence of operations; the
      queue is a bounded FIFO with both insertion ends, in every operation with
      its return code; the key-value store is a finite map, through encryption and
      the file system, as long as the files can be closed, which is where the file system
      commits them; the event manager is a map from event names to ordered
      subscribers, for every sequence of operations; the hash map is an
      association list, newest entry first; the heap gives its clients disjoint
      aligned buffers that keep what is stored in them, and is whole again when
      all are released.
    - Wire formats: a BLE frame that is encoded and reassembled comes back
      unchanged, for every packet length from 7 on; a packet of either protocol
      that is packed and parsed with the same key gives its JSON text, and a frame
      gives its object. A received BLE packet of at least nine bytes that fits the
      subpackage buffer never makes the reassembly leave its buffers. A message of the
      AI channel that is sent, in one packet or in fragments, is read back whole by a
      peer with the same keys, for every way the transport cuts the bytes; every
      request builds the attributes of its fields, in order and at their widths, which the
      parser accepts and gives back. The MACs are HMAC.
    - The client of the AI channel: in every interleaving of its thread, timers, delayed
      work and callers it runs only after a whole handshake on one connection, though that
      connection can have been closed since ([ai_client_runs_closed]), the waiting
      times stay in their table and the heartbeat in its limit; when everything below it
      succeeds it runs after six rounds; while the setup or the request before it fails
      with the gateway online it backs off. A session that was set up and connected keeps
      nothing of an earlier one, has the derived keys, and the reply of the server decides it.
    - The BLE channel: what one side seals and sends the other side delivers once and
      unchanged, whatever the radio cuts it into; a packet that was taken is not taken
      again; a request larger than a packet arrives whole and each of its pieces is
      acknowledged with what was received, and pairing hands over the
      network and the token that the phone sent, or nothing; an advertisement fits its 31
      bytes for every name and product. A reset that comes in the clear is obeyed.
    - The device client: whatever other threads ask between and within its passes, it
      talks to the cloud only when it is activated and has a schema; an activation
      survives a restart; a reset forgets it and keeps the device id, over a store that
      carries out its removals, whose codes the reset ignores; pairing ends with a
      connected client when the network, the cloud and the store do their part.
    - Storage: a record of typed entries that is written and read back gives the
      same values, through printing, base64, padding, AES and the file system; the
      text never exceeds the buffer computed for it. Padded AES gives its input
      back in both modes, and counter mode does not depend on how the input is cut.
    - Tasks: under every interleaving of clients, worker and cancellers no
      wake-up is lost, the error branches of the loop are not reached, tasks run
      in the order they were scheduled, and a task that is accepted is run.
    - Timers: the invariant of the lists holds in every reachable state and no
      operation fails on it; one dispatch fires exactly the expired timers, in
      order and with their own arguments, starts the periodic ones again, and computes the
      time to the next one, if no period is zero.
    - Time: conversion in both directions over all 32-bit times, with the day of
      the week; the clock across one turn of the millisecond counter.
    - Data points: the values a report accepts are the ones cached afterwards and
      nothing else changes, while a retransmission is neither checked nor cached; the JSON
      text of an accepted report fits the size computed for it, if it names each data point
      once; an acknowledged report leaves the reported values in the
      cloud, and one round of synchronisation sends every local value and leaves none
      local. Objects put on
      the BLE wire come back as the same objects; the parser of the wire form
      accepts exactly the lists of whole entries and never leaves its packet.
    - Checksums, sorting, hex and version strings against reference definitions.
    - Faults: inputs on which the code leaves its buffers, drops data or accepts
      what it should refuse, as theorems about the definitions as they are.

    ** Fuel

    Loops over a counter recurse on it. The other loops have fuel, and each
    theorem gives an amount that is enough: [length buf + 1] subpackages for a
    frame, since each carries at least one byte; the number of items for a
    traversal; the bytes of the region for the walks of the heap, whose blocks
    are at least nine bytes long; the number of expired timers plus one for the dispatcher; the
    number of bytes received for the packets of the AI channel, none of which is empty; 138
    years and 12 months for the calendar of 32-bit times; 32 for bit counts.

    ** What is not modelled

    The business layer of the AI channel, the sessions of the local network
    ([tuya_lan.c]), the selection of the network link ([netmgr.c]), the sessions of the
    BLE manager that other files register (the dispatcher of [ble_dp.c] among them), the requests of the device client to the cloud and its upgrade
    notifications, delayed work, the debug variants of the heap, the parser of the
    schema text beyond its scan, and time-zone strings. In [AiClient] the creation and
    release of the thread and its timers are left out, and buffers that are freed twice
    or left dangling; in [IotClient] [tuya_iot_destroy] is. Version 2 of the AI channel
    and its other security levels are compiled out. Network, radio, display, audio and
    driver layers are calls into platforms; mbedtls, cJSON, lwIP, LVGL, MQTT and HTTP
    clients are
    third-party code. *)
From Stdlib Require Import ZArith Lia.
From stdpp Require Import base tactics option list numbers.

Local Open Scope Z_scope.

(** * Machine integers

    A C integer of width [w] is a [Z]; every store into a variable of a given
    type goes through the wrap function of that type. *)

Definition wrap (w z : Z) : Z := z mod 2 ^ w.
Definition u8 (z : Z) : Z := wrap 8 z.
Definition u16 (z : Z) : Z := wrap 16 z.
Definition u32 (z : Z) : Z := wrap 32 z.
Definition u64 (z : Z) : Z := wrap 64 z.

Definition swrap (w z : Z) : Z := (z + 2 ^ (w - 1)) mod 2 ^ w - 2 ^ (w - 1).
Definition s8 (z : Z) : Z := swrap 8 z.
Definition s16 (z : Z) : Z := swrap 16 z.
Definition s32 (z : Z) : Z := swrap 32 z.

Definition is_u8 (z : Z) : Prop := 0 <= z < 256.
Definition is_u16 (z : Z) : Prop := 0 <= z < 65536.
Definition is_u32 (z : Z) : Prop := 0 <= z < 4294967296.
Definition is_u64 (z : Z) : Prop := 0 <= z < 18446744073709551616.

(** A byte buffer. *)
Definition bytes_ok (l : list Z) : Prop := Forall is_u8 l.

Lemma wrap_small w z : 0 <= z < 2 ^ w -> wrap w z = z.
Proof. apply Z.mod_small. Qed.
Lemma u8_small z : is_u8 z -> u8 z = z.
Proof. unfold is_u8. intros. apply wrap_small. lia. Qed.

Lemma u16_small z : is_u16 z -> u16 z = z.
Proof. unfold is_u16. intros. apply wrap_small. lia. Qed.
Lemma u32_small z : is_u32 z -> u32 z = z.
Proof. unfold is_u32. intros. apply wrap_small. lia. Qed.
Lemma u64_small z : is_u64 z -> u64 z = z.
Proof. unfold is_u64. intros. apply wrap_small. lia. Qed.
Lemma lxor_u8 a b : is_u8 a -> is_u8 b -> is_u8 (Z.lxor a b).
Proof.
  unfold is_u8. intros Ha Hb. assert (0 <= Z.lxor a b) by (apply Z.lxor_nonneg; lia). split; [done|].
  destruct (Z.eq_dec (Z.lxor a b) 0) as [->|]; [done|].
  assert (forall x, 0 <= x < 256 -> Z.log2 x < 8) as Hl.
  { intros x Hx. destruct (Z.eq_dec x 0) as [->|]; [done|]. apply Z.log2_lt_pow2; lia. }
  apply (Z.log2_lt_pow2 _ 8); [lia|]. pose proof (Z.log2_lxor a b). pose proof (Hl a Ha). pose proof (Hl b Hb). lia.
Qed.
Lemma u8_range z : is_u8 (u8 z).
Proof. unfold is_u8, u8, wrap. pose proof (Z.mod_pos_bound z (2 ^ 8)); lia. Qed.
Lemma u16_range z : is_u16 (u16 z).
Proof. unfold is_u16, u16, wrap. pose proof (Z.mod_pos_bound z (2 ^ 16)); lia. Qed.
Lemma u32_range z : is_u32 (u32 z).
Proof. unfold is_u32, u32, wrap. pose proof (Z.mod_pos_bound z (2 ^ 32)); lia. Qed.
Lemma u64_range z : is_u64 (u64 z).
Proof. unfold is_u64, u64, wrap. pose proof (Z.mod_pos_bound z (2 ^ 64)); lia. Qed.
Lemma s32_small z : -2147483648 <= z < 2147483648 -> s32 z = z.
Proof. intros H. unfold s32, swrap. rewrite Z.mod_small; simpl; lia. Qed.

Create HintDb widths.
#[export] Hint Resolve u8_range u16_range u32_range u64_range : widths.

(** [norm_widths] removes the wrap-arounds whose argument [lia] bounds. *)
Ltac norm_widths :=
  repeat match goal with
    | |- context [u8 ?x] => rewrite (u8_small x) by (unfold is_u8 in *; lia)
    | |- context [u16 ?x] => rewrite (u16_small x) by (unfold is_u16 in *; lia)
    | |- context [u32 ?x] => rewrite (u32_small x) by (unfold is_u32 in *; lia)
    | |- context [u64 ?x] => rewrite (u64_small x) by (unfold is_u64 in *; lia)
    | |- context [s32 ?x] => rewrite (s32_small x) by lia
    end.

(** [bool_hyps] turns the boolean tests of the code into arithmetic facts. *)
Ltac bool_hyps :=
  repeat match goal with
    | H : (_ && _)%bool = true |- _ => apply andb_true_iff in H; destruct H
    | H : (_ || _)%bool = false |- _ => apply orb_false_iff in H; destruct H
    | H : negb _ = true |- _ => apply negb_true_iff in H
    | H : negb _ = false |- _ => apply negb_false_iff in H
    | H : (_ =? _) = true |- _ => apply Z.eqb_eq in H
    | H : (_ =? _) = false |- _ => apply Z.eqb_neq in H
    | H : (_ <? _) = true |- _ => apply Z.ltb_lt in H
    | H : (_ <? _) = false |- _ => apply Z.ltb_ge in H
    | H : (_ <=? _) = true |- _ => apply Z.leb_le in H
    | H : (_ <=? _) = false |- _ => apply Z.leb_gt in H
    end.

(** Case split on the boolean tests of the goal, as facts. *)
Ltac case_bool :=
  match goal with
  | |- context [?a =? ?b] => destruct (Z.eqb_spec a b)
  | |- context [?a <? ?b] => destruct (Z.ltb_spec a b)
  | |- context [?a <=? ?b] => destruct (Z.leb_spec a b)
  end.

(** Decide a boolean test of the goal by arithmetic. *)
Ltac decide_bool :=
  match goal with
  | |- context [?a =? ?b] =>
      first [ replace (a =? b) with true by (symmetry; apply Z.eqb_eq; lia)
            | replace (a =? b) with false by (symmetry; apply Z.eqb_neq; lia) ]
  | |- context [?a <? ?b] =>
      first [ replace (a <? b) with true by (symmetry; apply Z.ltb_lt; lia)
            | replace (a <? b) with false by (symmetry; apply Z.ltb_ge; lia) ]
  | |- context [?a <=? ?b] =>
      first [ replace (a <=? b) with true by (symmetry; apply Z.leb_le; lia)
            | replace (a <=? b) with false by (symmetry; apply Z.leb_gt; lia) ]
  end.

(** A decidable fact of all bytes, by evaluation. *)
Lemma below_forall n (P : Z -> bool) :
  forallb P (seqZ 0 n) = true -> forall x, 0 <= x < n -> P x = true.
Proof.
  intros H x Hx. rewrite forallb_forall in H. apply H.
  apply list_elem_of_In, elem_of_seqZ. lia.
Qed.

(** * Buffers

    Memory accesses are partial: [None] is an access outside the object.
    [rd] and [wr] are an array read and write, [slice] and [blit] are the
    source and the destination of a [memcpy]. *)

Section Buffers.
Context {A : Type}.
Implicit Types l pre suf src : list A.

Definition zlen l : Z := Z.of_nat (length l).

Definition rd l (i : Z) : option A :=
  if 0 <=? i then l !! Z.to_nat i else None.

Definition wr l (i : Z) (v : A) : option (list A) :=
  if (0 <=? i) && (i <? zlen l) then Some (<[Z.to_nat i := v]> l) else None.

Definition slice l (off n : Z) : option (list A) :=
  if (0 <=? off) && (0 <=? n) && (off + n <=? zlen l)
  then Some (take (Z.to_nat n) (drop (Z.to_nat off) l)) else None.

Definition blit l (off : Z) src : option (list A) :=
  if (0 <=? off) && (off + zlen src <=? zlen l)
  then Some (take (Z.to_nat off) l ++ src ++ drop (Z.to_nat (off + zlen src)) l)
  else None.

Lemma zlen_nonneg l : 0 <= zlen l.
Proof. unfold zlen. lia. Qed.

Lemma zlen_app l1 l2 : zlen (l1 ++ l2) = zlen l1 + zlen l2.
Proof. unfold zlen. rewrite length_app. lia. Qed.

Lemma zlen_cons (x : A) l : zlen (x :: l) = 1 + zlen l.
Proof. unfold zlen. cbn [length]. lia. Qed.

Lemma zlen_nil : zlen [] = 0.
Proof. reflexivity. Qed.

Lemma zlen_one (x : A) : zlen [x] = 1.
Proof. reflexivity. Qed.

Lemma zlen_take n l : 0 <= n <= zlen l -> zlen (take (Z.to_nat n) l) = n.
Proof. unfold zlen. intros. rewrite length_take. lia. Qed.

Lemma zlen_drop n l : 0 <= n <= zlen l -> zlen (drop (Z.to_nat n) l) = zlen l - n.
Proof. unfold zlen. intros. rewrite length_drop. lia. Qed.

Lemma zlen_nat l : Z.to_nat (zlen l) = length l.
Proof. unfold zlen. lia. Qed.

Lemma zlen_nat_app pre suf : Z.to_nat (zlen pre) = length pre.
Proof. unfold zlen. lia. Qed.

Lemma rd_mid pre (x : A) suf : rd (pre ++ x :: suf) (zlen pre) = Some x.
Proof.
  unfold rd, zlen. destruct (Z.leb_spec 0 (Z.of_nat (length pre))); [|lia].
  rewrite Nat2Z.id. by rewrite list_lookup_middle.
Qed.

Lemma rd_Some l i : 0 <= i < zlen l -> is_Some (rd l i).
Proof.
  unfold rd, zlen. intros. destruct (Z.leb_spec 0 i); [|lia].
  apply lookup_lt_is_Some. lia.
Qed.

Lemma rd_None l i : i < 0 \/ zlen l <= i -> rd l i = None.
Proof.
  unfold rd, zlen. intros. destruct (Z.leb_spec 0 i); [|done].
  apply lookup_ge_None. lia.
Qed.

Lemma wr_mid pre (x : A) suf v :
  wr (pre ++ x :: suf) (zlen pre) v = Some (pre ++ v :: suf).
Proof.
  unfold wr. pose proof (zlen_nonneg pre). pose proof (zlen_nonneg suf).
  rewrite zlen_app, zlen_cons.
  destruct (Z.leb_spec 0 (zlen pre)); [|lia].
  destruct (Z.ltb_spec (zlen pre) (zlen pre + (1 + zlen suf))); [|lia]. simpl.
  rewrite zlen_nat_app by exact suf.
  replace (length pre) with (length pre + 0)%nat by lia.
  by rewrite insert_app_r.
Qed.

Lemma wr_Some l i v l' : wr l i v = Some l' -> 0 <= i < zlen l /\ zlen l' = zlen l.
Proof.
  unfold wr. destruct (_ && _) eqn:E; [|done]. intros [= <-].
  bool_hyps. unfold zlen in *. rewrite length_insert. lia.
Qed.

Lemma slice_mid pre src suf :
  slice (pre ++ src ++ suf) (zlen pre) (zlen src) = Some src.
Proof.
  unfold slice. pose proof (zlen_nonneg pre). pose proof (zlen_nonneg src).
  pose proof (zlen_nonneg suf). rewrite !zlen_app.
  destruct (Z.leb_spec 0 (zlen pre)); [|lia].
  destruct (Z.leb_spec 0 (zlen src)); [|lia].
  destruct (Z.leb_spec (zlen pre + zlen src) (zlen pre + (zlen src + zlen suf))); [|lia].
  simpl. f_equal. rewrite !zlen_nat_app by exact suf.
  by rewrite drop_app_length, take_app_length.
Qed.

Lemma slice_suffix pre src : slice (pre ++ src) (zlen pre) (zlen src) = Some src.
Proof. pose proof (slice_mid pre src []) as H. by rewrite app_nil_r in H. Qed.

Lemma slice_prefix src suf : slice (src ++ suf) 0 (zlen src) = Some src.
Proof. apply (slice_mid []). Qed.

Lemma slice_whole l n : zlen l = n -> slice l 0 n = Some l.
Proof. intros <-. pose proof (slice_prefix l []) as H. by rewrite app_nil_r in H. Qed.
Lemma slice_prefix_n src suf n : zlen src = n -> slice (src ++ suf) 0 n = Some src.
Proof. intros <-. apply slice_prefix. Qed.

Lemma slice_mid_n pre src suf off n :
  zlen pre = off -> zlen src = n -> slice (pre ++ src ++ suf) off n = Some src.
Proof. intros <- <-. apply slice_mid. Qed.

Lemma slice_eq l off n :
  0 <= off -> 0 <= n -> off + n <= zlen l ->
  slice l off n = Some (take (Z.to_nat n) (drop (Z.to_nat off) l)).
Proof.
  intros. unfold slice.
  destruct (Z.leb_spec 0 off); [|lia]. destruct (Z.leb_spec 0 n); [|lia].
  by destruct (Z.leb_spec (off + n) (zlen l)); [|lia].
Qed.

Lemma slice_None l off n :
  0 <= n -> zlen l < off + n -> slice l off n = None.
Proof.
  intros. unfold slice. destruct (Z.leb_spec (off + n) (zlen l)); [lia|].
  by rewrite andb_false_r.
Qed.

Lemma slice_len l off n r : slice l off n = Some r -> zlen r = n.
Proof.
  unfold slice. destruct (_ && _) eqn:E; [|done]. intros [= <-].
  bool_hyps. unfold zlen in *. rewrite length_take, length_drop. lia.
Qed.

Lemma blit_mid pre old src suf :
  zlen old = zlen src ->
  blit (pre ++ old ++ suf) (zlen pre) src = Some (pre ++ src ++ suf).
Proof.
  intros Heq. unfold blit. pose proof (zlen_nonneg pre). pose proof (zlen_nonneg src).
  pose proof (zlen_nonneg suf). rewrite !zlen_app.
  destruct (Z.leb_spec 0 (zlen pre)); [|lia].
  destruct (Z.leb_spec (zlen pre + zlen src) (zlen pre + (zlen old + zlen suf))); [|lia].
  simpl. f_equal. unfold zlen in *. f_equal; [|f_equal].
  - rewrite Nat2Z.id. by rewrite take_app_length.
  - rewrite app_assoc. apply drop_app_length'. rewrite length_app. lia.
Qed.

Lemma blit_prefix old src suf : zlen old = zlen src -> blit (old ++ suf) 0 src = Some (src ++ suf).
Proof. apply (blit_mid []). Qed.

Lemma blit_len l off src r : blit l off src = Some r -> zlen r = zlen l.
Proof.
  unfold blit. destruct (_ && _) eqn:E; [|done]. intros [= <-].
  bool_hyps. unfold zlen in *. rewrite !length_app, length_take, length_drop. lia.
Qed.

(** [memcpy] to the front of what is left of a buffer behind a cursor. *)
Lemma blit_cursor pre suf src :
  zlen src <= zlen suf ->
  blit (pre ++ suf) (zlen pre) src
  = Some (pre ++ src ++ drop (Z.to_nat (zlen src)) suf).
Proof.
  intros Hle. rewrite <- (take_drop (Z.to_nat (zlen src)) suf) at 1.
  apply blit_mid. apply zlen_take. pose proof (zlen_nonneg src). lia.
Qed.

(** The same, with the bytes written so far in front. *)
Lemma blit_step pre suf src off :
  zlen pre = off -> zlen src <= zlen suf ->
  exists suf', blit (pre ++ suf) off src = Some ((pre ++ src) ++ suf') /\ zlen suf' = zlen suf - zlen src.
Proof.
  intros <- H. rewrite blit_cursor, app_assoc by done. eexists. split; [done|].
  apply zlen_drop. pose proof (zlen_nonneg src). lia.
Qed.

Lemma blit_front l src :
  zlen src <= zlen l -> blit l 0 src = Some (src ++ drop (Z.to_nat (zlen src)) l).
Proof. apply (blit_cursor []). Qed.

Lemma blit_None l off src : zlen l < off + zlen src -> blit l off src = None.
Proof.
  intros. unfold blit. destruct (Z.leb_spec (off + zlen src) (zlen l)); [lia|].
  by rewrite andb_false_r.
Qed.

Lemma ztake_app pre suf : take (Z.to_nat (zlen pre)) (pre ++ suf) = pre.
Proof. unfold zlen. by rewrite Nat2Z.id, take_app_length. Qed.

Lemma zdrop_app pre suf : drop (Z.to_nat (zlen pre)) (pre ++ suf) = suf.
Proof. unfold zlen. by rewrite Nat2Z.id, drop_app_length. Qed.

Lemma ztake_all n l : zlen l <= n -> take (Z.to_nat n) l = l.
Proof. unfold zlen. intros. apply take_ge. lia. Qed.

Lemma zdrop_all n l : zlen l <= n -> drop (Z.to_nat n) l = [].
Proof. unfold zlen. intros. apply drop_ge. lia. Qed.

Lemma zlen_zero l : zlen l = 0 -> l = [].
Proof. destruct l; [done|]. rewrite zlen_cons. pose proof (zlen_nonneg l). lia. Qed.
End Buffers.

#[export] Hint Resolve zlen_nonneg : widths.
Create Rewrite HintDb zlen.
#[export] Hint Rewrite @zlen_app @zlen_one @zlen_cons : zlen.

(** Any list is a prefix of a given length and the rest. *)
Lemma split_at {A} (l : list A) n :
  0 <= n <= zlen l -> exists pre suf, l = pre ++ suf /\ zlen pre = n.
Proof.
  intros H. exists (take (Z.to_nat n) l), (drop (Z.to_nat n) l).
  split; [by rewrite take_drop | by apply zlen_take].
Qed.

(** A list cut at two places. *)
Lemma split_at2 {A} (l : list A) n m :
  0 <= n -> 0 <= m -> n + m <= zlen l ->
  exists a b c, l = a ++ b ++ c /\ zlen a = n /\ zlen b = m.
Proof.
  intros Hn Hm Hl. destruct (split_at l n) as (a & l' & -> & Ha); [lia|].
  rewrite zlen_app in Hl. destruct (split_at l' m) as (b & c & -> & Hb); [lia|].
  by exists a, b, c.
Qed.

(** A filled buffer, [memset(p, v, n)]. *)
Definition zrepl {A} (n : Z) (v : A) : list A := replicate (Z.to_nat n) v.

Lemma zlen_zrepl {A} n (v : A) : 0 <= n -> zlen (zrepl n v) = n.
Proof. unfold zlen, zrepl. intros. rewrite length_replicate. lia. Qed.

(** * Integers in memory, little endian *)

Fixpoint le_val (l : list Z) : Z := match l with [] => 0 | b :: l' => b + 256 * le_val l' end.
Fixpoint le_bytes (n : nat) (z : Z) : list Z :=
  match n with O => [] | S n' => z mod 256 :: le_bytes n' (z / 256) end.


Lemma le_bytes_len n z : length (le_bytes n z) = n.
Proof. revert z. induction n as [|n IH]; intros z; cbn; [done|]. by rewrite IH. Qed.

Lemma le_val_bytes n z : le_val (le_bytes n z) = z mod 2 ^ (8 * Z.of_nat n).
Proof.
  revert z. induction n as [|n IH]; intros z; cbn [le_bytes le_val].
  { change (2 ^ (8 * Z.of_nat 0)) with 1. by rewrite Z.mod_1_r. }
  rewrite IH. replace (8 * Z.of_nat (S n)) with (8 + 8 * Z.of_nat n) by lia.
  rewrite Z.pow_add_r by lia. change (2 ^ 8) with 256.
  rewrite (Z.rem_mul_r z 256) by (try apply Z.pow_pos_nonneg; lia). done.
Qed.

Lemma le_val_range l : bytes_ok l -> 0 <= le_val l < 2 ^ (8 * zlen l).
Proof.
  induction l as [|b l IH]; intros Hb; cbn [le_val]; [done|].
  apply Forall_cons_1 in Hb as [Hb Hl]. specialize (IH Hl). rewrite zlen_cons.
  pose proof (zlen_nonneg l). replace (8 * (1 + zlen l)) with (8 + 8 * zlen l) by lia.
  rewrite Z.pow_add_r by lia. change (2 ^ 8) with 256. unfold is_u8 in Hb. lia.
Qed.

Lemma swrap_range w z : 0 < w -> - 2 ^ (w - 1) <= swrap w z < 2 ^ (w - 1).
Proof.
  intros Hw. unfold swrap. pose proof (Z.mod_pos_bound (z + 2 ^ (w - 1)) (2 ^ w) ltac:(lia)).
  assert (2 ^ w = 2 * 2 ^ (w - 1)) by (rewrite <- Z.pow_succ_r by lia; f_equal; lia). lia.
Qed.

Lemma swrap_mod w z : 0 < w -> - 2 ^ (w - 1) <= z < 2 ^ (w - 1) -> swrap w (z mod 2 ^ w) = z.
Proof.
  intros Hw Hz. unfold swrap. rewrite Z.add_mod_idemp_l by (apply Z.pow_nonzero; lia).
  assert (2 ^ w = 2 * 2 ^ (w - 1)) by (rewrite <- Z.pow_succ_r by lia; f_equal; lia).
  rewrite Z.mod_small; lia.
Qed.

(** * Return codes (src/common/include/tuya_error_code.h) *)

Definition OPRT_OK : Z := 0.
Definition OPRT_COM_ERROR : Z := -1.
Definition OPRT_INVALID_PARM : Z := -2.
Definition OPRT_MALLOC_FAILED : Z := -3.
Definition OPRT_NOT_SUPPORTED : Z := -4.
Definition OPRT_NOT_FOUND : Z := -6.
Definition OPRT_CJSON_PARSE_ERR : Z := -8.
Definition OPRT_CJSON_GET_ERR : Z := -9.
Definition OPRT_KVS_WR_FAIL : Z := -17.
Definition OPRT_KVS_RD_FAIL : Z := -18.
Definition OPRT_EXCEED_UPPER_LIMIT : Z := -24.
Definition OPRT_BUFFER_NOT_ENOUGH : Z := -31.
Definition OPRT_VERSION_FMT_ERR : Z := -36.
Definition OPRT_SVC_DP_ID_NOT_FOUND : Z := -3585.
Definition OPRT_SVC_DP_TP_NOT_MATCH : Z := -3586.
Definition OPRT_SVC_DP_TYPE_PROP_ILLEGAL : Z := -3588.
Definition OPRT_BASE_EVENT_INVALID_EVENT_NAME : Z := -3840.
Definition OPRT_BASE_EVENT_INVALID_EVENT_DESC : Z := -3841.
Definition OPRT_SVC_BT_API_TRSMITR_CONTINUE : Z := -7936.
Definition OPRT_SVC_BT_API_TRSMITR_ERROR : Z := -7937.

(** * Transition sequences *)

Section Star.
Context {S : Type} (step : S -> S -> Prop).

Inductive star : S -> S -> Prop :=
| star_refl s : star s s
| star_step s1 s2 s3 : step s1 s2 -> star s2 s3 -> star s1 s3.

(** Rule induction for invariants: what holds initially and is kept by
    every step holds in every reachable state. *)
Lemma star_invariant (I : S -> Prop) :
  (forall s s', I s -> step s s' -> I s') ->
  forall s s', star s s' -> I s -> I s'.
Proof. intros Hstep s s' H. induction H; eauto. Qed.
End Star.
