(* ===== verification/Text.v ===== *)
(** Text as bytes: string literals, quoting and the decimal conversions of
    [printf], shared by the modules that build JSON. *)
From Stdlib Require Import ZArith Lia String Ascii.
From stdpp Require Import base tactics option list numbers.
From S2P Require Import Prelude.

Local Open Scope Z_scope.

(** The bytes of a string literal. *)
Definition str (s : string) : list Z :=
  (fun c => Z.of_nat (nat_of_ascii c)) <$> list_ascii_of_string s.

(** [%u]: the digits of a 32-bit number, most significant first. *)
Fixpoint dec_digits (fuel : nat) (z : Z) (acc : list Z) : list Z :=
  match fuel with
  | O => acc
  | S f => let acc := (48 + z mod 10) :: acc in
           if z <? 10 then acc else dec_digits f (z / 10) acc
  end.
Definition print_u32 (z : Z) : list Z := dec_digits 10 z [].

Definition quoted (s : string) : list Z := [34] ++ str s ++ [34].

(** [%d]: an [int]. *)
Definition print_int (z : Z) : list Z := if z <? 0 then 45 :: print_u32 (- z) else print_u32 z.

Lemma dec_digits_len fuel z acc : zlen (dec_digits fuel z acc) <= Z.of_nat fuel + zlen acc.
Proof.
  revert z acc. induction fuel as [|f IH]; intros z acc; cbn [dec_digits]; [lia|].
  case_bool; [rewrite zlen_cons; lia|]. specialize (IH (z / 10) ((48 + z mod 10) :: acc)).
  rewrite zlen_cons in IH. lia.
Qed.

(** A number below [10 ^ d] has at most [d] digits. *)
Lemma dec_digits_bound d fuel z acc :
  0 <= z < 10 ^ Z.of_nat (S d) -> zlen (dec_digits fuel z acc) <= Z.of_nat (S d) + zlen acc.
Proof.
  revert fuel z acc. induction d as [|d IH]; intros fuel z acc Hz.
  - destruct fuel as [|f]; cbn [dec_digits]; [lia|]. destruct (Z.ltb_spec z 10); [rewrite zlen_cons; lia|].
    change (10 ^ Z.of_nat 1) with 10 in Hz. lia.
  - destruct fuel as [|f]; cbn [dec_digits]; [lia|]. case_bool; [rewrite zlen_cons; lia|].
    specialize (IH f (z / 10) ((48 + z mod 10) :: acc)). rewrite zlen_cons in IH.
    rewrite (Nat2Z.inj_succ (S d)), Z.pow_succ_r in Hz by lia.
    enough (0 <= z / 10 < 10 ^ Z.of_nat (S d)) by lia.
    split; [apply Z.div_pos; lia|]. apply Z.div_lt_upper_bound; lia.
Qed.

(** A number of at least [10 ^ d] has more than [d] digits. *)
Lemma dec_digits_lower d fuel z acc :
  (d < fuel)%nat -> 10 ^ Z.of_nat d <= z -> Z.of_nat d + 1 + zlen acc <= zlen (dec_digits fuel z acc).
Proof.
  assert (forall f z acc, zlen acc <= zlen (dec_digits f z acc)) as Hge.
  { induction f as [|f IH]; intros y a; cbn [dec_digits]; [lia|]. case_bool; [rewrite zlen_cons; lia|].
    specialize (IH (y / 10) ((48 + y mod 10) :: a)). rewrite zlen_cons in IH. lia. }
  revert fuel z acc. induction d as [|d IH]; intros fuel z acc Hf Hz; (destruct fuel as [|f]; [lia|]); cbn [dec_digits].
  - case_bool; [rewrite zlen_cons; lia|]. specialize (Hge f (z / 10) ((48 + z mod 10) :: acc)).
    rewrite zlen_cons in Hge. lia.
  - rewrite Nat2Z.inj_succ, Z.pow_succ_r in Hz by lia. pose proof (Z.pow_pos_nonneg 10 (Z.of_nat d)).
    destruct (Z.ltb_spec z 10); [lia|]. specialize (IH f (z / 10) ((48 + z mod 10) :: acc)).
    rewrite zlen_cons in IH. enough (10 ^ Z.of_nat d <= z / 10) by lia. apply Z.div_le_lower_bound; lia.
Qed.

Lemma print_u32_len z : zlen (print_u32 z) <= 10.
Proof. pose proof (dec_digits_len 10 z []) as H. by rewrite (zlen_nil (A:=Z)) in H. Qed.

Lemma print_u32_byte z : is_u8 z -> zlen (print_u32 z) <= 3.
Proof.
  intros Hz. unfold is_u8 in Hz. pose proof (dec_digits_bound 2 10 z []) as H.
  rewrite (zlen_nil (A:=Z)) in H. change (10 ^ Z.of_nat 3) with 1000 in H. unfold print_u32. lia.
Qed.

Lemma print_int_len z : zlen (print_int z) <= 11.
Proof.
  unfold print_int. pose proof (print_u32_len z). pose proof (print_u32_len (- z)).
  case_bool; [rewrite zlen_cons|]; lia.
Qed.

(** Characters of a text: no terminator among them. *)
Definition chars_ok (l : list Z) : Prop := Forall (fun c => 0 < c < 256) l.

Lemma chars_bytes l : chars_ok l -> Forall is_u8 l /\ Forall (fun c => c <> 0) l.
Proof. intros H. split; (eapply Forall_impl; [|exact H]; intros c Hc; cbn in *; unfold is_u8; lia). Qed.

Lemma dec_digits_chars fuel z acc : 0 <= z -> chars_ok acc -> chars_ok (dec_digits fuel z acc).
Proof.
  revert z acc. induction fuel as [|f IH]; intros z acc Hz Ha; cbn [dec_digits]; [done|].
  assert (chars_ok ((48 + z mod 10) :: acc)) by (constructor; [pose proof (Z.mod_pos_bound z 10); lia|done]).
  case_bool; [done|]. apply IH; [apply Z.div_pos; lia|done].
Qed.

Lemma print_int_chars z : chars_ok (print_int z).
Proof.
  unfold print_int, print_u32. destruct (Z.ltb_spec z 0).
  - constructor; [lia|]. apply dec_digits_chars; [lia|constructor].
  - apply dec_digits_chars; [lia|constructor].
Qed.
