(* ===== verification/StateM.v ===== *)
(** Programs over a state that can fault, and the rules to reason about them: the form of
    the models whose handlers are sequences of calls. *)
From Stdlib Require Import ZArith.
From stdpp Require Import base tactics option.
From S2P Require Import Prelude.

(** [None] is a fault. *)
Definition ST (S A : Type) : Type := S -> option (A * S).
#[export] Instance st_ret {S} : MRet (ST S) := fun A a s => Some (a, s).
#[export] Instance st_bind {S} : MBind (ST S) := fun A B f m s => r ← m s; f r.1 r.2.

Definition st_gets {S A} (f : S -> A) : ST S A := fun s => Some (f s, s).
Definition st_modify {S} (f : S -> S) : ST S unit := fun s => Some (tt, f s).
Definition st_pure {S A} (x : option A) : ST S A := fun s => a ← x; Some (a, s).

(** Computing with the operations. *)
Lemma st_bind_run {S A B} (m : ST S A) (f : A -> ST S B) s a s1 : m s = Some (a, s1) -> (m ≫= f) s = f a s1.
Proof. intros H. unfold mbind, st_bind. by rewrite H. Qed.
Lemma st_bind_inv {S A B} (m : ST S A) (f : A -> ST S B) s b s' :
  (m ≫= f) s = Some (b, s') -> exists a s1, m s = Some (a, s1) /\ f a s1 = Some (b, s').
Proof. unfold mbind, st_bind. destruct (m s) as [[a s1]|]; [|done]. intros H. by exists a, s1. Qed.

Lemma st_pure_inv {S A} (x : option A) (s : S) a s' : st_pure x s = Some (a, s') -> x = Some a /\ s' = s.
Proof. unfold st_pure. destruct x; [|done]. intros E. by injection E as -> ->. Qed.

(** [triple P m Q]: started where [P] holds, [m] ends, if it does, where [Q] holds. *)
Definition triple {S A} (P : S -> Prop) (m : ST S A) (Q : A -> S -> Prop) : Prop :=
  forall s a s', P s -> m s = Some (a, s') -> Q a s'.

Section Rules.
Context {S : Type}.
Implicit Types (P : S -> Prop).

Lemma triple_bind {A B} P (m : ST S A) Q (f : A -> ST S B) R :
  triple P m Q -> (forall a, triple (Q a) (f a) R) -> triple P (m ≫= f) R.
Proof. intros Hm Hf s b s' HP H. apply st_bind_inv in H as (a & s1 & H1 & H2). by eapply Hf; [eapply Hm|]. Qed.
Lemma triple_ret {A} P (a : A) (Q : A -> S -> Prop) : (forall s, P s -> Q a s) -> triple P (mret a) Q.
Proof. intros H s b s' HP E. injection E as <- <-. by apply H. Qed.
Lemma triple_weaken {A} P P' (m : ST S A) (Q Q' : A -> S -> Prop) :
  triple P m Q -> (forall s, P' s -> P s) -> (forall a s, Q a s -> Q' a s) -> triple P' m Q'.
Proof. intros Hm Hp Hq s a s' Hs H. eapply Hq, Hm; [|exact H]. by apply Hp. Qed.
End Rules.

(** A program that leaves what [f] shows of the state. *)
Definition leaves {S X A} (f : S -> X) (m : ST S A) : Prop := forall s a s', m s = Some (a, s') -> f s' = f s.

Section Leaves.
Context {S X : Type} {f : S -> X}.
Lemma leaves_bind {A B} (m : ST S A) (g : A -> ST S B) : leaves f m -> (forall a, leaves f (g a)) -> leaves f (m ≫= g).
Proof. intros Hm Hg s b s' E. apply st_bind_inv in E as (a & s1 & E1 & E2). rewrite (Hg _ _ _ _ E2). by eapply Hm. Qed.
Lemma leaves_ret {A} (a : A) : leaves f (mret a).
Proof. intros s b s' E. by injection E as _ <-. Qed.
Lemma leaves_pure {A} (x : option A) : leaves f (st_pure x).
Proof. intros s b s' E. unfold st_pure in E. destruct x; [|done]. by injection E as _ <-. Qed.
Lemma leaves_gets {A} (g : S -> A) : leaves f (st_gets g).
Proof. intros s b s' E. by injection E as _ <-. Qed.
Lemma leaves_modify g : (forall s, f (g s) = f s) -> leaves f (st_modify g).
Proof. intros Hg s b s' E. injection E as _ <-. apply Hg. Qed.
End Leaves.

Create HintDb leaves.
#[export] Hint Resolve leaves_ret leaves_pure leaves_gets : leaves.

(** Follows a program whose parts are in the database. *)
Ltac leaves_step :=
  cbv beta zeta;
  lazymatch goal with
  | |- leaves _ (_ ≫= _) => apply leaves_bind; [|intros ?]
  | |- leaves _ (match ?x with _ => _ end) => destruct x
  | |- _ => solve [eauto with leaves]
  end.
Ltac leaves_tac := repeat leaves_step.

(** [wp m Q s]: from [s], [m] ends without a fault where [Q] holds. *)
Definition wp {S A} (m : ST S A) (Q : A -> S -> Prop) (s : S) : Prop := exists a s', m s = Some (a, s') /\ Q a s'.

Section Wp.
Context {S : Type}.
Lemma wp_bind {A B} (m : ST S A) (f : A -> ST S B) Q s : wp m (fun a => wp (f a) Q) s -> wp (m ≫= f) Q s.
Proof. intros (a & s1 & E & b & s2 & E2 & HQ). exists b, s2. split; [|done]. by rewrite (st_bind_run _ _ _ _ _ E). Qed.
Lemma wp_ret {A} (a : A) (Q : A -> S -> Prop) s : Q a s -> wp (mret a) Q s.
Proof. intros H. by exists a, s. Qed.
Lemma wp_gets {A} (f : S -> A) (Q : A -> S -> Prop) s : Q (f s) s -> wp (st_gets f) Q s.
Proof. intros H. by exists (f s), s. Qed.
Lemma wp_modify f (Q : unit -> S -> Prop) s : Q tt (f s) -> wp (st_modify f) Q s.
Proof. intros H. by exists tt, (f s). Qed.
Lemma wp_pure {A} (x : option A) a (Q : A -> S -> Prop) s : x = Some a -> Q a s -> wp (st_pure x) Q s.
Proof. intros -> H. by exists a, s. Qed.
Lemma wp_weaken {A} (m : ST S A) (Q Q' : A -> S -> Prop) s : wp m Q s -> (forall a s', Q a s' -> Q' a s') -> wp m Q' s.
Proof. intros (a & s' & E & H) HQ. exists a, s'. split; [done|by apply HQ]. Qed.
Lemma wp_run {A} (m : ST S A) a s s' (Q : A -> S -> Prop) : m s = Some (a, s') -> Q a s' -> wp m Q s.
Proof. intros E H. by exists a, s'. Qed.
(** What a program that ends leaves it also leaves where it ends. *)
Lemma wp_leaves {A X} (f : S -> X) (m : ST S A) (Q : A -> S -> Prop) s :
  leaves f m -> wp m Q s -> wp m (fun a s' => Q a s' /\ f s' = f s) s.
Proof. intros Hl (a & s' & E & H). exists a, s'. split; [done|]. split; [done|by eapply Hl]. Qed.
End Wp.
