(* ===== verification/BleFrame.v ===== *)
(** The BLE frame transmitter: [src/tuya_cloud_service/ble/ble_trsmitr.c] and
    the reassembly and response loops of [ble_mgr.c] built on it. *)
From Stdlib Require Import ZArith Lia.
From stdpp Require Import base tactics option list numbers.
From S2P Require Import Prelude.

Local Open Scope Z_scope.

(** * Data *)

Definition BLE_FRAME_PKG_INIT : Z := 0.
Definition BLE_FRAME_PKG_FIRST : Z := 1.
Definition BLE_FRAME_PKG_MIDDLE : Z := 2.
Definition BLE_FRAME_PKG_END : Z := 3.
Definition BLE_FRAME_SEQ_LMT : Z := 16.
Definition TUYA_BLE_AIR_FRAME_MAX : Z := 1024.

Record ble_frame_trsmitr_t := {
  total : Z;            (* uint32_t *)
  version : Z;          (* uint8_t *)
  seq : Z;              (* uint8_t *)
  pkg_desc : Z;         (* uint8_t *)
  subpkg_num : Z;       (* uint32_t *)
  pkg_trsmitr_cnt : Z;  (* uint32_t *)
  subpkg_len : Z;       (* uint32_t *)
  subpkg : list Z       (* the buffer behind uint8_t *subpkg *)
}.

(** The two static variables of the module. *)
Record ble_globals := {
  s_ble_frame_seq : Z;         (* uint8_t *)
  s_ble_frame_packet_len : Z   (* uint16_t *)
}.

(** * Operations *)

Definition ble_frame_packet_len_get (g : ble_globals) : Z := s_ble_frame_packet_len g.

Definition ble_frame_packet_len_set (g : ble_globals) (len : Z) : ble_globals :=
  {| s_ble_frame_seq := s_ble_frame_seq g; s_ble_frame_packet_len := len |}.

(** [malloc_ok] is the outcome of the two allocations. *)
Definition ble_frame_trsmitr_create (g : ble_globals) (malloc_ok : bool * bool)
  : option ble_frame_trsmitr_t :=
  if fst malloc_ok && snd malloc_ok then
    Some {| total := 0; version := 0; seq := 0; pkg_desc := BLE_FRAME_PKG_INIT;
            subpkg_num := 0; pkg_trsmitr_cnt := 0; subpkg_len := 0;
            subpkg := zrepl (ble_frame_packet_len_get g) 0 |}
  else None.

Definition ble_frame_subpacket_len_get (t : ble_frame_trsmitr_t) : Z := subpkg_len t.
Definition ble_frame_subpacket_get (t : ble_frame_trsmitr_t) : list Z := subpkg t.

(** [return (s >= LMT) ? 0 : s++] *)
Definition ble_frame_seq_get (g : ble_globals) : Z * ble_globals :=
  if BLE_FRAME_SEQ_LMT <=? s_ble_frame_seq g then (0, g)
  else (s_ble_frame_seq g,
        {| s_ble_frame_seq := u8 (s_ble_frame_seq g + 1);
           s_ble_frame_packet_len := s_ble_frame_packet_len g |}).

(** The variable-length number loop of the encoder: [n] rounds are left. *)
Fixpoint num_encode (n : nat) (buf : list Z) (off tmp : Z) : option (list Z * Z) :=
  match n with
  | O => Some (buf, off)
  | S n' =>
      buf1 ← wr buf off (u8 (tmp mod 0x80));
      buf2 ← (if tmp / 0x80 =? 0 then Some buf1
              else v ← rd buf1 off; wr buf1 off (u8 (Z.lor v 0x80)));
      if tmp / 0x80 =? 0 then Some (buf2, u8 (off + 1))
      else num_encode n' buf2 (u8 (off + 1)) (tmp / 0x80)
  end.

(** The header: subpackage number and, in the first subpackage, the frame
    length and the version/sequence byte. *)
Definition header_encode (t : ble_frame_trsmitr_t) (len : Z) : option (list Z * Z) :=
  '(b1, off1) ← num_encode 4 (subpkg t) 0 (subpkg_num t);
  if subpkg_num t =? 0 then
    '(b2, off2) ← num_encode 4 b1 off1 len;
    b3 ← wr b2 off2 (u8 (Z.lor (Z.shiftl (version t) 4) (Z.land (seq t) 0x0f)));
    Some (b3, u8 (off2 + 1))
  else Some (b1, off1).

Definition send_init (g : ble_globals) (t : ble_frame_trsmitr_t) (ver len : Z)
  : ble_globals * ble_frame_trsmitr_t :=
  if pkg_desc t =? BLE_FRAME_PKG_INIT then
    let '(sq, g') := ble_frame_seq_get g in
    (g', {| total := len; version := ver; seq := sq; pkg_desc := pkg_desc t;
            subpkg_num := 0; pkg_trsmitr_cnt := 0;
            subpkg_len := subpkg_len t; subpkg := subpkg t |})
  else (g, t).

(** The encoder behind its reset: header, payload, bookkeeping. *)
Definition send_body (g : ble_globals) (t : ble_frame_trsmitr_t) (buf : list Z) (len : Z)
  : option (Z * ble_frame_trsmitr_t) :=
  '(b, off) ← header_encode t len;
  let send_data := u16 (ble_frame_packet_len_get g - off) in
  let send_data := if u32 (len - pkg_trsmitr_cnt t) <? send_data
                   then u16 (u32 (len - pkg_trsmitr_cnt t)) else send_data in
  data ← slice buf (pkg_trsmitr_cnt t) send_data;
  b' ← blit b off data;
  let cnt := u32 (pkg_trsmitr_cnt t + send_data) in
  let more := cnt <? total t in
  Some (if more then OPRT_SVC_BT_API_TRSMITR_CONTINUE else OPRT_OK,
        {| total := total t; version := version t; seq := seq t;
           pkg_desc := if more
                       then (if subpkg_num t =? 0 then BLE_FRAME_PKG_FIRST
                             else BLE_FRAME_PKG_MIDDLE)
                       else BLE_FRAME_PKG_END;
           subpkg_num := if more then u32 (subpkg_num t + 1) else subpkg_num t;
           pkg_trsmitr_cnt := cnt;
           subpkg_len := u32 (off + send_data);
           subpkg := b' |}).

(** The whole encoder; [None] as transmitter is the null pointer, [None] as
    result is an access outside [buf] or [subpkg]. *)
Definition ble_frame_trsmitr_send_pkg_encode (g : ble_globals)
    (trsmitr : option ble_frame_trsmitr_t) (ver : Z) (buf : list Z) (len : Z)
  : option (Z * ble_globals * option ble_frame_trsmitr_t) :=
  match trsmitr with
  | None => Some (OPRT_INVALID_PARM, g, None)
  | Some t0 =>
    let '(g, t) := send_init g t0 ver len in
    if (0x10000000 <=? subpkg_num t) || (0x10000000 <=? len)
    then Some (OPRT_COM_ERROR, g, Some t)
    else '(rc, t') ← send_body g t buf len; Some (rc, g, Some t')
  end.

(** The number loop of the decoder: [acc] accumulates from the value the
    variable had, and the rounds stop at a byte without the top bit. *)
Fixpoint num_decode (n : nat) (raw : list Z) (off mult acc : Z) : option (Z * Z) :=
  match n with
  | O => Some (acc, off)
  | S n' =>
      digit ← rd raw off;
      let acc := u32 (acc + u32 (Z.land digit 0x7f * mult)) in
      if Z.land digit 0x80 =? 0 then Some (acc, u8 (off + 1))
      else num_decode n' raw (u8 (off + 1)) (u32 (mult * 0x80)) acc
  end.

Definition recv_reset (t : ble_frame_trsmitr_t) (desc : Z) : ble_frame_trsmitr_t :=
  {| total := 0; version := 0; seq := 0; pkg_desc := desc; subpkg_num := subpkg_num t;
     pkg_trsmitr_cnt := 0; subpkg_len := subpkg_len t; subpkg := subpkg t |}.

Definition set_desc (t : ble_frame_trsmitr_t) (desc : Z) : ble_frame_trsmitr_t :=
  {| total := total t; version := version t; seq := seq t; pkg_desc := desc;
     subpkg_num := subpkg_num t; pkg_trsmitr_cnt := pkg_trsmitr_cnt t;
     subpkg_len := subpkg_len t; subpkg := subpkg t |}.

(** Order check of a subpackage that is not the first one. *)
Definition recv_order (t : ble_frame_trsmitr_t) (num : Z) : option Z :=
  if pkg_desc t =? BLE_FRAME_PKG_FIRST then None
  else if num <? subpkg_num t then Some OPRT_SVC_BT_API_TRSMITR_ERROR
  else if num =? subpkg_num t then Some OPRT_SVC_BT_API_TRSMITR_CONTINUE
  else if 1 <? u32 (num - subpkg_num t) then Some OPRT_SVC_BT_API_TRSMITR_ERROR
  else None.

(** The frame length, version and sequence of the first subpackage. *)
Definition recv_first (t : ble_frame_trsmitr_t) (raw : list Z) (off : Z)
  : option (ble_frame_trsmitr_t * Z * bool) :=
  if subpkg_num t =? 0 then
    '(tot, off1) ← num_decode 4 raw off 1 (total t);
    let t1 := {| total := tot; version := version t; seq := seq t; pkg_desc := pkg_desc t;
                 subpkg_num := subpkg_num t; pkg_trsmitr_cnt := pkg_trsmitr_cnt t;
                 subpkg_len := subpkg_len t; subpkg := subpkg t |} in
    if 0x10000000 <=? tot then Some (t1, off1, false)
    else
      vs ← rd raw off1;
      Some ({| total := tot; version := Z.shiftr (Z.land vs 0xf0) 4; seq := Z.land vs 0x0f;
               pkg_desc := pkg_desc t; subpkg_num := subpkg_num t;
               pkg_trsmitr_cnt := pkg_trsmitr_cnt t;
               subpkg_len := subpkg_len t; subpkg := subpkg t |}, u8 (off1 + 1), true)
  else Some (t, off, true).

(** The copy of the payload into the transmitter. *)
Definition recv_copy (t : ble_frame_trsmitr_t) (raw : list Z) (raw_data_len off : Z)
  : option (Z * ble_frame_trsmitr_t) :=
  let recv_data := u16 (raw_data_len - off) in
  let recv_data := if u32 (total t - pkg_trsmitr_cnt t) <? recv_data
                   then u16 (u32 (total t - pkg_trsmitr_cnt t)) else recv_data in
  data ← slice raw off recv_data;
  b ← blit (subpkg t) 0 data;
  let cnt := u32 (pkg_trsmitr_cnt t + recv_data) in
  let more := cnt <? total t in
  Some (if more then OPRT_SVC_BT_API_TRSMITR_CONTINUE else OPRT_OK,
        {| total := total t; version := version t; seq := seq t;
           pkg_desc := if more then pkg_desc t else BLE_FRAME_PKG_END;
           subpkg_num := subpkg_num t; pkg_trsmitr_cnt := cnt;
           subpkg_len := recv_data; subpkg := b |}).

(** The whole decoder. [raw] is the readable memory behind [raw_data]. *)
Definition ble_frame_trsmitr_recv_pkg_decode (trsmitr : option ble_frame_trsmitr_t)
    (raw_data : option (list Z)) (raw_data_len : Z)
  : option (Z * option ble_frame_trsmitr_t) :=
  match raw_data, trsmitr with
  | Some raw, Some t0 =>
    let t0 := if pkg_desc t0 =? BLE_FRAME_PKG_INIT then recv_reset t0 (pkg_desc t0) else t0 in
    '(num, off) ← num_decode 4 raw 0 1 0;
    let t := if num =? 0 then recv_reset t0 BLE_FRAME_PKG_FIRST
             else set_desc t0 BLE_FRAME_PKG_MIDDLE in
    if 0x10000000 <=? subpkg_num t then Some (OPRT_COM_ERROR, Some t)
    else match recv_order t num with
    | Some rc => Some (rc, Some t)
    | None =>
      let t := {| total := total t; version := version t; seq := seq t;
                  pkg_desc := pkg_desc t; subpkg_num := num;
                  pkg_trsmitr_cnt := pkg_trsmitr_cnt t;
                  subpkg_len := subpkg_len t; subpkg := subpkg t |} in
      '(t, off, ok) ← recv_first t raw off;
      if ok : bool then
        '(rc, t') ← recv_copy t raw raw_data_len off; Some (rc, Some t')
      else Some (OPRT_COM_ERROR, Some t)
    end
  | _, _ => Some (OPRT_INVALID_PARM, trsmitr)
  end.

(** ** Reassembly in ble_mgr.c *)

Record ble_packet_recv_t := {
  trsmitr : ble_frame_trsmitr_t;
  raw_len : Z;            (* uint32_t *)
  raw_buf : list Z        (* uint8_t[TUYA_BLE_AIR_FRAME_MAX] *)
}.

Definition ble_packet_trsmitr (p : ble_packet_recv_t) (buf : list Z) (len : Z)
  : option (Z * ble_packet_recv_t) :=
  '(rt, t') ← ble_frame_trsmitr_recv_pkg_decode (Some (trsmitr p)) (Some buf) (u16 len);
  t ← t';
  if negb (rt =? OPRT_OK) && negb (rt =? OPRT_SVC_BT_API_TRSMITR_CONTINUE)
  then Some (rt, {| trsmitr := t; raw_len := 0; raw_buf := zrepl TUYA_BLE_AIR_FRAME_MAX 0 |})
  else
    let fresh := (pkg_desc t =? BLE_FRAME_PKG_FIRST)
                 || ((pkg_desc t =? BLE_FRAME_PKG_END) && (subpkg_num t =? 0)) in
    let rl := if fresh then 0 else raw_len p in
    let rb := if fresh then zrepl TUYA_BLE_AIR_FRAME_MAX 0 else raw_buf p in
    let n := ble_frame_subpacket_len_get t in
    if u32 (rl + n) <=? TUYA_BLE_AIR_FRAME_MAX then
      data ← slice (ble_frame_subpacket_get t) 0 n;
      rb' ← blit rb rl data;
      Some (rt, {| trsmitr := t; raw_len := u32 (rl + n); raw_buf := rb' |})
    else Some (OPRT_INVALID_PARM,
               {| trsmitr := t; raw_len := u32 (rl + n); raw_buf := rb |}).

(** ** The response loop of [ble_packet_resp]

    [send] is [tal_ble_server_common_send]: the return code of the radio for
    the subpackages sent so far and the next one. One round encodes a
    subpackage, checks the return code, sends, and stores the return code of
    the send in the same variable [rt] that the loop condition tests
    ([TUYA_CALL_ERR_GOTO] assigns it). *)
Section Resp.
Variable send : list (list Z) -> list Z -> Z.

Fixpoint resp_loop (fuel : nat) (g : ble_globals) (t : option ble_frame_trsmitr_t)
    (outbuf : list Z) (outlen : Z) (air : list (list Z))
  : option (Z * ble_globals * list (list Z)) :=
  match fuel with
  | O => None
  | S f =>
    '(rt, g, t) ← ble_frame_trsmitr_send_pkg_encode g t 4 outbuf outlen;
    if negb (rt =? OPRT_OK) && negb (rt =? OPRT_SVC_BT_API_TRSMITR_CONTINUE)
    then Some (rt, g, air)
    else
      t' ← t;
      pkt ← slice (ble_frame_subpacket_get t') 0 (ble_frame_subpacket_len_get t');
      let rt := send air pkt in
      let air := air ++ [pkt] in
      if negb (rt =? OPRT_OK) then Some (rt, g, air)
      else if rt =? OPRT_SVC_BT_API_TRSMITR_CONTINUE
           then resp_loop f g t outbuf outlen air
           else Some (rt, g, air)
  end.
End Resp.

(** * The variable-length numbers *)

(** What the encoder writes for [v] in at most [n] bytes. *)
Fixpoint num_bytes (n : nat) (v : Z) : list Z :=
  match n with
  | O => []
  | S n' => if v / 128 =? 0 then [v mod 128] else (v mod 128 + 128) :: num_bytes n' (v / 128)
  end.

Lemma lor_top x : 0 <= x < 128 -> Z.lor x 0x80 = x + 128.
Proof.
  intros H. apply Z.eqb_eq. revert x H.
  apply (below_forall 128 (fun x => Z.lor x 0x80 =? x + 128)). by vm_compute.
Qed.

Lemma land_top x : is_u8 x -> (Z.land x 0x80 =? 0) = (x <? 128).
Proof.
  intros H. apply eqb_prop. revert x H.
  apply (below_forall 256 (fun x => eqb (Z.land x 0x80 =? 0) (x <? 128))). by vm_compute.
Qed.

Lemma land_low x : is_u8 x -> Z.land x 0x7f = x mod 128.
Proof.
  intros H. apply Z.eqb_eq. revert x H.
  apply (below_forall 256 (fun x => Z.land x 0x7f =? x mod 128)). by vm_compute.
Qed.

Lemma num_bytes_len n v : 0 <= zlen (num_bytes n v) <= Z.of_nat n.
Proof.
  revert v. induction n as [|n IH]; intros v; cbn [num_bytes]; [done|].
  destruct (_ =? _); [rewrite zlen_one|rewrite zlen_cons; specialize (IH (v / 128))]; lia.
Qed.

Lemma num_bytes_pos n v : 1 <= zlen (num_bytes (S n) v).
Proof.
  cbn [num_bytes]. pose proof (num_bytes_len n (v / 128)).
  destruct (_ =? _); [rewrite zlen_one|rewrite zlen_cons]; lia.
Qed.

Lemma num_bytes_u8 n v : 0 <= v -> bytes_ok (num_bytes n v).
Proof.
  revert v. induction n as [|n IH]; intros v Hv; cbn [num_bytes]; [by constructor|].
  pose proof (Z.mod_pos_bound v 128).
  destruct (_ =? _); constructor; [unfold is_u8; lia|by constructor|unfold is_u8; lia|].
  apply IH. apply Z.div_pos; lia.
Qed.

(** The encoder loop writes [num_bytes] at its cursor. *)
Lemma num_encode_spec n v pre suf :
  0 <= v -> zlen pre + Z.of_nat n < 256 -> zlen (num_bytes n v) <= zlen suf ->
  exists suf', num_encode n (pre ++ suf) (zlen pre) v
    = Some (pre ++ num_bytes n v ++ suf', zlen pre + zlen (num_bytes n v))
    /\ zlen suf = zlen (num_bytes n v) + zlen suf'.
Proof.
  revert v pre suf. induction n as [|n IH]; intros v pre suf Hv Hoff Hlen.
  { exists suf. cbn [num_encode num_bytes]. by rewrite (zlen_nil (A:=Z)), Z.add_0_r. }
  destruct suf as [|x suf].
  { cbn [num_bytes] in Hlen. rewrite (zlen_nil (A:=Z)) in Hlen.
    pose proof (num_bytes_len n (v / 128)). destruct (_ =? _);
      [rewrite zlen_one in Hlen|rewrite zlen_cons in Hlen]; lia. }
  rewrite (zlen_cons x) in Hlen. pose proof (Z.mod_pos_bound v 128) as Hm.
  pose proof (zlen_nonneg pre). cbn [num_encode]. cbn [num_bytes] in Hlen |- *.
  rewrite wr_mid. cbn [mbind option_bind]. norm_widths.
  destruct (v / 0x80 =? 0) eqn:E; cbn [mbind option_bind].
  { exists suf. rewrite zlen_one, zlen_cons. split; [done|lia]. }
  rewrite rd_mid. cbn [mbind option_bind]. rewrite wr_mid. cbn [mbind option_bind].
  rewrite lor_top by lia. norm_widths.
  specialize (IH (v / 128) (pre ++ [v mod 128 + 128]) suf) as (suf' & IH & IHl).
  { apply Z.div_pos; lia. }
  { rewrite zlen_app, zlen_one; lia. }
  { rewrite zlen_cons in Hlen. lia. }
  exists suf'. rewrite zlen_app, zlen_one, <- app_assoc in IH. cbn [app] in IH.
  rewrite IH, !zlen_cons, <- app_assoc. split; [|lia]. by rewrite Z.add_assoc.
Qed.

(** The decoder loop inverts it. *)
Lemma num_decode_spec n v pre suf mult acc :
  (0 < n)%nat -> 0 <= v < 128 ^ Z.of_nat n ->
  0 <= acc < mult -> mult * 128 ^ Z.of_nat n < 4294967296 ->
  zlen pre + Z.of_nat n < 256 ->
  num_decode n (pre ++ num_bytes n v ++ suf) (zlen pre) mult acc
  = Some (acc + mult * v, zlen pre + zlen (num_bytes n v)).
Proof.
  revert v pre mult acc. induction n as [|n IH]; intros v pre mult acc Hn Hv Ha Hb Ho; [lia|].
  rewrite Nat2Z.inj_succ, Z.pow_succ_r in Hv, Hb by lia.
  pose proof (Z.mod_pos_bound v 128) as Hm. pose proof (Z.div_mod v 128) as Hdm.
  pose proof (zlen_nonneg pre). pose proof (Z.pow_pos_nonneg 128 (Z.of_nat n)) as Hp.
  assert (0 <= v / 128 < 128 ^ Z.of_nat n) as Hq.
  { split; [apply Z.div_pos; lia|apply Z.div_lt_upper_bound; lia]. }
  assert (0 <= v mod 128 * mult <= 127 * mult) by nia.
  assert (128 * mult <= mult * (128 * 128 ^ Z.of_nat n)) by nia.
  cbn [num_decode num_bytes]. destruct (Z.eqb_spec (v / 128) 0) as [E|E].
  - cbn [app]. rewrite rd_mid. cbn [mbind option_bind].
    rewrite land_low, land_top, Z.mod_mod by (unfold is_u8; lia).
    decide_bool. rewrite zlen_one. norm_widths.
    replace (v mod 128) with v by lia. by rewrite (Z.mul_comm v).
  - cbn [app]. rewrite rd_mid. cbn [mbind option_bind].
    rewrite land_low, land_top by (unfold is_u8; lia).
    replace ((v mod 128 + 128) mod 128) with (v mod 128)
      by (rewrite <- Zplus_mod_idemp_r, Z.mod_same, Z.add_0_r, Z.mod_mod; lia).
    decide_bool.
    destruct n as [|n]; [rewrite Z.pow_0_r in Hq; lia|].
    specialize (IH (v / 128) (pre ++ [v mod 128 + 128]) (mult * 128) (acc + v mod 128 * mult)).
    rewrite zlen_app, zlen_one, <- app_assoc in IH. cbn [app] in IH.
    replace (u32 (acc + u32 (v mod 128 * mult))) with (acc + v mod 128 * mult)
      by (norm_widths; done).
    norm_widths.
    rewrite IH by lia. rewrite zlen_cons. f_equal. f_equal; [|lia].
    rewrite Hdm at 3 by lia. ring.
Qed.

(** * One subpackage *)

(** The header of subpackage [num] of a frame of [len] bytes. *)
Definition header_bytes (num len ver sq : Z) : list Z :=
  num_bytes 4 num ++
  (if num =? 0
   then num_bytes 4 len ++ [u8 (Z.lor (Z.shiftl ver 4) (Z.land sq 0x0f))] else []).

Lemma header_bytes_len num len ver sq : 1 <= zlen (header_bytes num len ver sq) <= 6.
Proof.
  unfold header_bytes. pose proof (num_bytes_len 4 len). destruct (Z.eqb_spec num 0) as [->|].
  - rewrite !zlen_app, zlen_one. change (zlen (num_bytes 4 0)) with 1. lia.
  - rewrite app_nil_r. pose proof (num_bytes_len 4 num). pose proof (num_bytes_pos 3 num). lia.
Qed.

Lemma header_encode_spec t len :
  0 <= subpkg_num t -> 0 <= len -> 6 <= zlen (subpkg t) ->
  exists suf, header_encode t len
    = Some (header_bytes (subpkg_num t) len (version t) (seq t) ++ suf,
            zlen (header_bytes (subpkg_num t) len (version t) (seq t)))
    /\ zlen (subpkg t) = zlen (header_bytes (subpkg_num t) len (version t) (seq t)) + zlen suf.
Proof.
  intros Hn Hl Hb. unfold header_encode, header_bytes.
  destruct (num_encode_spec 4 (subpkg_num t) [] (subpkg t)) as (s1 & E1 & L1);
    [lia|by vm_compute|pose proof (num_bytes_len 4 (subpkg_num t)); lia|].
  rewrite (zlen_nil (A:=Z)) in E1. cbn [app] in E1. rewrite E1. cbn [mbind option_bind].
  destruct (Z.eqb_spec (subpkg_num t) 0) as [H0|H0].
  2: { exists s1. rewrite app_nil_r. rewrite Z.add_0_l. auto. }
  assert (zlen (num_bytes 4 (subpkg_num t)) = 1) as Hone by (by rewrite H0).
  pose proof (num_bytes_len 4 len).
  destruct (num_encode_spec 4 len (num_bytes 4 (subpkg_num t)) s1) as (s2 & E2 & L2); [lia..|].
  rewrite Z.add_0_l, E2. cbn [mbind option_bind].
  destruct s2 as [|x s2]; [rewrite (zlen_nil (A:=Z)) in L2; lia|]. rewrite zlen_cons in L2.
  rewrite app_assoc, <- zlen_app, wr_mid. cbn [mbind option_bind].
  exists s2. rewrite !zlen_app, zlen_one, <- !app_assoc. norm_widths.
  split; [|lia]. by rewrite Z.add_assoc.
Qed.

(** The sender in the middle of a frame: [cnt] bytes of [len] are out and
    subpackage [num] is next. *)
Definition sending (t : ble_frame_trsmitr_t) (plen len ver sq num cnt : Z) : Prop :=
  total t = len /\ version t = ver /\ seq t = sq /\ subpkg_num t = num
  /\ pkg_trsmitr_cnt t = cnt /\ zlen (subpkg t) = plen.

(** Payload bytes of the next subpackage. *)
Definition chunk (plen len ver sq num cnt : Z) : Z :=
  Z.min (plen - zlen (header_bytes num len ver sq)) (len - cnt).

Lemma send_body_spec g t buf len ver sq num cnt :
  let plen := s_ble_frame_packet_len g in
  let h := header_bytes num len ver sq in
  let k := chunk plen len ver sq num cnt in
  sending t plen len ver sq num cnt ->
  7 <= plen < 65536 -> 0 <= num < 0x10000000 -> len < 0x10000000 -> zlen buf = len ->
  0 <= cnt <= len ->
  exists t' suf,
    send_body g t buf len
    = Some (if cnt + k <? len then OPRT_SVC_BT_API_TRSMITR_CONTINUE else OPRT_OK, t')
    /\ subpkg t' = (h ++ take (Z.to_nat k) (drop (Z.to_nat cnt) buf)) ++ suf
    /\ subpkg_len t' = zlen h + k
    /\ sending t' plen len ver sq (if cnt + k <? len then num + 1 else num) (cnt + k)
    /\ pkg_desc t' = (if cnt + k <? len
                      then (if num =? 0 then BLE_FRAME_PKG_FIRST else BLE_FRAME_PKG_MIDDLE)
                      else BLE_FRAME_PKG_END).
Proof.
  intros plen h k (Ht & Hv & Hs & Hnum & Hc & Hb) Hp Hn Hlen Hbuf Hcnt.
  pose proof (header_bytes_len num len ver sq) as Hh. fold h in Hh.
  assert (k = Z.min (plen - zlen h) (len - cnt)) as Hk by done.
  assert (s_ble_frame_packet_len g = plen) as Hg by done.
  destruct (header_encode_spec t len) as (suf & E & L); [lia..|].
  rewrite Hnum, Hv, Hs in E, L. fold h in E, L. clearbody h k plen. unfold send_body, ble_frame_packet_len_get.
  rewrite E, Ht, Hc, Hg. cbn [mbind option_bind]. norm_widths.
  replace (if len - cnt <? plen - zlen h then u16 (len - cnt) else plen - zlen h) with k
    by (rewrite Hk; case_bool; norm_widths; lia).
  rewrite slice_eq by lia. cbn [mbind option_bind].
  set (data := take (Z.to_nat k) (drop (Z.to_nat cnt) buf)).
  assert (zlen data = k) as Hd by (apply zlen_take; rewrite zlen_drop; lia).
  rewrite blit_cursor by lia. cbn [mbind option_bind].
  eexists _, _. split; [norm_widths; reflexivity|]. cbn [subpkg subpkg_len pkg_desc].
  rewrite <- app_assoc. split; [done|]. norm_widths. split; [done|]. rewrite Hnum.
  split; [|done]. unfold sending; cbn. repeat split; auto; norm_widths; try done.
  rewrite !zlen_app, zlen_drop by lia. lia.
Qed.

(** A receiver that has [cnt] bytes of the current frame, the last
    subpackage being [num]. *)
Definition receiving (t : ble_frame_trsmitr_t) (len ver sq num cnt : Z) : Prop :=
  total t = len /\ version t = ver /\ seq t = sq /\ subpkg_num t = num
  /\ pkg_trsmitr_cnt t = cnt.

Lemma version_seq_byte ver sq :
  0 <= ver < 16 -> 0 <= sq < 16 ->
  let b := u8 (Z.lor (Z.shiftl ver 4) (Z.land sq 0x0f)) in
  Z.shiftr (Z.land b 0xf0) 4 = ver /\ Z.land b 0x0f = sq.
Proof.
  intros Hv Hs.
  pose (P := fun x => let b := u8 (Z.lor (Z.shiftl (x / 16) 4) (Z.land (x mod 16) 0x0f)) in
    (Z.shiftr (Z.land b 0xf0) 4 =? x / 16) && (Z.land b 0x0f =? x mod 16)).
  assert (P (ver * 16 + sq) = true) as H.
  { apply (below_forall 256); [by vm_compute|lia]. }
  unfold P in H. rewrite Z.div_add_l, Z.div_small, Z.add_0_r in H by lia.
  rewrite Z.add_comm, Z.mod_add, Z.mod_small in H by lia. by bool_hyps.
Qed.

(** The payload copy takes exactly the payload of the subpackage. *)
Lemma recv_copy_spec t h data len cnt :
  total t = len -> pkg_trsmitr_cnt t = cnt -> 0 <= cnt -> cnt + zlen data <= len ->
  len < 0x10000000 -> zlen h + zlen data < 65536 -> zlen data <= zlen (subpkg t) ->
  exists t' suf,
    recv_copy t (h ++ data) (zlen (h ++ data)) (zlen h)
    = Some (if cnt + zlen data <? len then OPRT_SVC_BT_API_TRSMITR_CONTINUE else OPRT_OK, t')
    /\ subpkg t' = data ++ suf /\ subpkg_len t' = zlen data
    /\ zlen (subpkg t') = zlen (subpkg t)
    /\ receiving t' len (version t) (seq t) (subpkg_num t) (cnt + zlen data)
    /\ pkg_desc t' = (if cnt + zlen data <? len then pkg_desc t else BLE_FRAME_PKG_END).
Proof.
  intros Ht Hc H0 Hle Hlen Hh Hb. pose proof (zlen_nonneg h). pose proof (zlen_nonneg data).
  unfold recv_copy. rewrite Ht, Hc, zlen_app. norm_widths.
  replace (zlen h + zlen data - zlen h) with (zlen data) by lia.
  replace (if len - cnt <? zlen data then u16 (len - cnt) else zlen data) with (zlen data)
    by (case_bool; norm_widths; lia).
  rewrite slice_suffix. cbn [mbind option_bind].
  rewrite blit_front by done. cbn [mbind option_bind].
  eexists _, _. split; [norm_widths; reflexivity|]. cbn. repeat split; auto.
  rewrite zlen_app, zlen_drop by lia. lia.
Qed.

(** What the decoder reads back from a header. *)
Lemma header_num_decode num len ver sq data :
  0 <= num < 0x10000000 ->
  num_decode 4 (header_bytes num len ver sq ++ data) 0 1 0
  = Some (num, zlen (num_bytes 4 num)).
Proof.
  intros Hn. unfold header_bytes. rewrite <- app_assoc.
  pose proof (num_decode_spec 4 num [] ((if num =? 0
    then num_bytes 4 len ++ [u8 (Z.lor (Z.shiftl ver 4) (Z.land sq 0x0f))] else []) ++ data) 1 0) as E.
  cbn [app] in E. rewrite (zlen_nil (A:=Z)), !Z.add_0_l, !Z.mul_1_l in E.
  apply E; simpl; lia.
Qed.

Lemma header_first_eq len ver sq data :
  header_bytes 0 len ver sq ++ data
  = num_bytes 4 0 ++ num_bytes 4 len ++ u8 (Z.lor (Z.shiftl ver 4) (Z.land sq 0x0f)) :: data.
Proof. unfold header_bytes. cbn [Z.eqb]. by rewrite <- !app_assoc. Qed.

Lemma header_first_len len ver sq :
  zlen (header_bytes 0 len ver sq) = zlen (num_bytes 4 0) + zlen (num_bytes 4 len) + 1.
Proof. unfold header_bytes. cbn [Z.eqb]. rewrite !zlen_app, zlen_one. lia. Qed.

Lemma header_first_decode t len ver sq data :
  0 <= ver < 16 -> 0 <= sq < 16 -> 0 <= len < 0x10000000 ->
  subpkg_num t = 0 -> total t = 0 ->
  recv_first t (header_bytes 0 len ver sq ++ data) (zlen (num_bytes 4 0))
  = Some ({| total := len; version := ver; seq := sq; pkg_desc := pkg_desc t;
             subpkg_num := 0; pkg_trsmitr_cnt := pkg_trsmitr_cnt t;
             subpkg_len := subpkg_len t; subpkg := subpkg t |},
          zlen (header_bytes 0 len ver sq), true).
Proof.
  intros Hv Hs Hl Hn Ht. pose proof (num_bytes_len 4 len). unfold recv_first.
  rewrite Hn, Ht, header_first_eq, header_first_len.
  rewrite num_decode_spec by (change (zlen (num_bytes 4 0)) with 1; lia).
  cbn [mbind option_bind]. rewrite Z.add_0_l, Z.mul_1_l. cbn [Z.eqb]. decide_bool.
  rewrite app_assoc, <- zlen_app, rd_mid. cbn [mbind option_bind].
  destruct (version_seq_byte ver sq Hv Hs) as [-> ->].
  rewrite zlen_app. change (zlen (num_bytes 4 0)) with 1. norm_widths. done.
Qed.

Lemma recv_order_next t num :
  pkg_desc t <> BLE_FRAME_PKG_FIRST -> 0 <= subpkg_num t < 0x10000000 -> subpkg_num t = num - 1 ->
  recv_order t num = None.
Proof.
  intros Hd Hr Hn. unfold recv_order. destruct (Z.eqb_spec (pkg_desc t) BLE_FRAME_PKG_FIRST); [done|].
  rewrite Hn. norm_widths. repeat decide_bool. done.
Qed.

(** The decoder on a subpackage that the encoder made, in order. *)
Lemma decode_spec t len ver sq num cnt data :
  let raw := header_bytes num len ver sq ++ data in
  0 <= ver < 16 -> 0 <= sq < 16 -> 0 <= num < 0x10000000 -> len < 0x10000000 ->
  0 <= subpkg_num t < 0x10000000 -> 0 <= cnt -> cnt + zlen data <= len ->
  zlen data < 65000 -> zlen data <= zlen (subpkg t) ->
  (if num =? 0 then cnt = 0
   else pkg_desc t <> BLE_FRAME_PKG_INIT /\ receiving t len ver sq (num - 1) cnt) ->
  exists t' suf,
    ble_frame_trsmitr_recv_pkg_decode (Some t) (Some raw) (zlen raw)
    = Some (if cnt + zlen data <? len then OPRT_SVC_BT_API_TRSMITR_CONTINUE else OPRT_OK,
            Some t')
    /\ subpkg t' = data ++ suf /\ subpkg_len t' = zlen data
    /\ zlen (subpkg t') = zlen (subpkg t)
    /\ receiving t' len ver sq num (cnt + zlen data)
    /\ pkg_desc t' = (if cnt + zlen data <? len
                      then (if num =? 0 then BLE_FRAME_PKG_FIRST else BLE_FRAME_PKG_MIDDLE)
                      else BLE_FRAME_PKG_END).
Proof.
  intros raw Hv Hs Hn Hl Ht H0 Hle Hd Hb Hst. unfold raw.
  pose proof (header_bytes_len num len ver sq) as Hh. pose proof (zlen_nonneg data).
  unfold ble_frame_trsmitr_recv_pkg_decode. rewrite header_num_decode by lia.
  cbn [mbind option_bind]. destruct (Z.eqb_spec num 0) as [->|Hnz].
  - (* first subpackage *)
    subst cnt. set (t0 := if pkg_desc t =? BLE_FRAME_PKG_INIT then _ else t).
    assert (subpkg_num t0 = subpkg_num t /\ subpkg t0 = subpkg t) as [Hn0 Hb0]
      by (unfold t0; destruct (_ =? _); done).
    clearbody t0. unfold recv_order, recv_reset. cbn [subpkg_num pkg_desc]. rewrite Hn0.
    destruct (Z.leb_spec 0x10000000 (subpkg_num t)); [lia|].
    change (BLE_FRAME_PKG_FIRST =? BLE_FRAME_PKG_FIRST) with true. cbv iota.
    rewrite header_first_decode by (done || lia). cbn [mbind option_bind].
    edestruct recv_copy_spec as (t' & suf & E' & R'); [..|rewrite E'];
      cbn [total pkg_trsmitr_cnt subpkg] in *; try reflexivity; try lia; [by rewrite Hb0|].
    cbn [mbind option_bind].
    exists t', suf. cbn [pkg_desc version seq subpkg_num] in R'. rewrite Hb0 in R'. done.
  - (* the others *)
    destruct Hst as [Hini (Htot & Hver & Hseq & Hnum & Hcnt)].
    destruct (Z.eqb_spec (pkg_desc t) BLE_FRAME_PKG_INIT); [done|].
    cbn [set_desc subpkg_num]. destruct (Z.leb_spec 0x10000000 (subpkg_num t)); [lia|].
    rewrite recv_order_next by (done || lia).
    unfold recv_first. cbn [subpkg_num]. decide_bool. cbn [mbind option_bind].
    assert (zlen (num_bytes 4 num) = zlen (header_bytes num len ver sq)) as ->
      by (unfold header_bytes; decide_bool; by rewrite app_nil_r).
    edestruct (recv_copy_spec) as (t' & suf & E' & R'); [..|rewrite E'];
      cbn [set_desc total pkg_trsmitr_cnt subpkg] in *; try done; try lia.
    cbn [mbind option_bind]. exists t', suf.
    cbn [set_desc pkg_desc version seq subpkg_num] in R'. by rewrite Hver, Hseq in R'.
Qed.

(** * A whole frame *)

(** The sender's loop: encode until the encoder stops asking for more. *)
Fixpoint send_frame (fuel : nat) (g : ble_globals) (t : option ble_frame_trsmitr_t)
    (ver : Z) (buf : list Z) (len : Z) : option (Z * list (list Z)) :=
  match fuel with
  | O => None
  | S f =>
    '(rc, g', t') ← ble_frame_trsmitr_send_pkg_encode g t ver buf len;
    x ← t';
    pkt ← slice (ble_frame_subpacket_get x) 0 (ble_frame_subpacket_len_get x);
    if rc =? OPRT_SVC_BT_API_TRSMITR_CONTINUE
    then '(rc', pkts) ← send_frame f g' t' ver buf len; Some (rc', pkt :: pkts)
    else Some (rc, [pkt])
  end.

(** The receiver on a sequence of subpackages: the return code of the last
    one and the state after it. *)
Fixpoint recv_frame (p : ble_packet_recv_t) (rc : Z) (pkts : list (list Z))
  : option (Z * ble_packet_recv_t) :=
  match pkts with
  | [] => Some (rc, p)
  | pkt :: pkts' =>
    '(rc', p') ← ble_packet_trsmitr p pkt (zlen pkt);
    recv_frame p' rc' pkts'
  end.

(** The pieces of one frame: each is asked to continue, the last one completes it. *)
Inductive takes : ble_packet_recv_t -> list (list Z) -> ble_packet_recv_t -> Prop :=
| takes_last p pkt p' : ble_packet_trsmitr p pkt (zlen pkt) = Some (OPRT_OK, p') -> takes p [pkt] p'
| takes_more p pkt p1 pkts p' :
    ble_packet_trsmitr p pkt (zlen pkt) = Some (OPRT_SVC_BT_API_TRSMITR_CONTINUE, p1) -> takes p1 pkts p' -> takes p (pkt :: pkts) p'.

Lemma takes_recv_frame p pkts p' rc : takes p pkts p' -> recv_frame p rc pkts = Some (OPRT_OK, p').
Proof.
  intros H. revert rc. induction H as [p pkt p' E|p pkt p1 pkts p' E _ IH]; intros rc; cbn [recv_frame]; rewrite E; [done|apply IH].
Qed.

(** The receiver [p] holds [acc], the bytes of the subpackages before [num]. *)
Definition collected (p : ble_packet_recv_t) (len ver sq num : Z) (acc : list Z) : Prop :=
  zlen (raw_buf p) = TUYA_BLE_AIR_FRAME_MAX /\
  (if num =? 0 then acc = []
   else pkg_desc (trsmitr p) <> BLE_FRAME_PKG_INIT
        /\ receiving (trsmitr p) len ver sq (num - 1) (zlen acc)
        /\ raw_len p = zlen acc /\ exists suf, raw_buf p = acc ++ suf).

Lemma packet_recv_spec p len ver sq num acc data :
  let raw := header_bytes num len ver sq ++ data in
  0 <= ver < 16 -> 0 <= sq < 16 -> 0 <= num < 0x10000000 -> len <= TUYA_BLE_AIR_FRAME_MAX ->
  0 <= subpkg_num (trsmitr p) < 0x10000000 -> zlen acc + zlen data <= len ->
  zlen data <= zlen (subpkg (trsmitr p)) ->
  collected p len ver sq num acc ->
  exists p',
    ble_packet_trsmitr p raw (zlen raw)
    = Some (if zlen acc + zlen data <? len
            then OPRT_SVC_BT_API_TRSMITR_CONTINUE else OPRT_OK, p')
    /\ zlen (subpkg (trsmitr p')) = zlen (subpkg (trsmitr p))
    /\ subpkg_num (trsmitr p') = num
    /\ raw_len p' = zlen (acc ++ data)
    /\ (exists suf, raw_buf p' = (acc ++ data) ++ suf) /\ version (trsmitr p') = ver
    /\ (zlen acc + zlen data < len -> collected p' len ver sq (num + 1) (acc ++ data)).
Proof.
  intros raw Hv Hs Hn Hl Ht Hle Hb [HB Hst]. unfold TUYA_BLE_AIR_FRAME_MAX in Hl.
  pose proof (header_bytes_len num len ver sq). pose proof (zlen_nonneg data).
  pose proof (zlen_nonneg acc).
  edestruct (decode_spec (trsmitr p) len ver sq num (zlen acc) data)
    as (t' & suf & E & Hsub & Hsl & Hzl & Hrec & Hdesc); try eassumption; try lia.
  { destruct (num =? 0); [by subst|by destruct Hst as (? & ? & _)]. }
  unfold ble_packet_trsmitr. subst raw. rewrite u16_small
    by (unfold is_u16; rewrite zlen_app; lia).
  rewrite E. cbn [mbind option_bind]. set (rc := if _ <? _ then _ else _).
  assert (negb (rc =? OPRT_OK) && negb (rc =? OPRT_SVC_BT_API_TRSMITR_CONTINUE) = false) as ->
    by (unfold rc; by destruct (_ <? _)).
  destruct Hrec as (Htot & Hver & Hsq & Hnum & Hcnt).
  set (fresh := _ || _).
  assert (fresh = (num =? 0)) as ->.
  { unfold fresh. rewrite Hdesc, Hnum. by destruct (_ <? _), (num =? 0). }
  unfold ble_frame_subpacket_len_get, ble_frame_subpacket_get. rewrite Hsl.
  assert (exists old, (if num =? 0 then zrepl TUYA_BLE_AIR_FRAME_MAX 0 else raw_buf p) = acc ++ old
    /\ zlen (acc ++ old) = TUYA_BLE_AIR_FRAME_MAX) as (old & -> & Ho).
  { destruct (num =? 0); [subst; by eexists|]. destruct Hst as (_ & _ & _ & s & Es).
    exists s. by rewrite <- Es. }
  assert ((if num =? 0 then 0 else raw_len p) = zlen acc) as ->
    by (destruct (num =? 0); [by subst|apply Hst]).
  norm_widths. unfold TUYA_BLE_AIR_FRAME_MAX in *. rewrite zlen_app in Ho.
  destruct (Z.leb_spec (zlen acc + zlen data) 1024); [|lia].
  rewrite Hsub, slice_prefix. cbn [mbind option_bind].
  rewrite blit_cursor by lia. cbn [mbind option_bind].
  eexists. split; [reflexivity|]. cbn [trsmitr raw_len raw_buf]. rewrite zlen_app.
  split_and!; [done..|eexists; apply app_assoc|done|]. intros Hmore.
  rewrite app_assoc. unfold collected, TUYA_BLE_AIR_FRAME_MAX. cbn [trsmitr raw_len raw_buf]. rewrite !zlen_app.
  rewrite zlen_drop by lia. split; [lia|]. decide_bool.
  split_and!; [|unfold receiving; split_and!; auto; lia|done|by eexists].
  rewrite Hdesc. decide_bool. by destruct (num =? 0).
Qed.

Lemma sending_chunk plen len ver sq num cnt :
  7 <= plen -> 0 <= cnt <= len ->
  0 <= chunk plen len ver sq num cnt <= len - cnt
  /\ zlen (header_bytes num len ver sq) + chunk plen len ver sq num cnt <= plen
  /\ (cnt < len -> 1 <= chunk plen len ver sq num cnt).
Proof.
  intros. unfold chunk. pose proof (header_bytes_len num len ver sq). lia.
Qed.


(** Sender and receiver in lock step from subpackage [num] on. *)
Lemma frame_rest fuel g t g1 t1 p buf ver sq num cnt :
  let len := zlen buf in
  let plen := s_ble_frame_packet_len g1 in
  0 <= ver < 16 -> 0 <= sq < 16 -> 7 <= plen < 65536 -> len <= TUYA_BLE_AIR_FRAME_MAX ->
  send_init g t ver len = (g1, t1) -> sending t1 plen len ver sq num cnt ->
  0 <= num <= cnt -> cnt <= len -> (Z.to_nat (len - cnt) < fuel)%nat ->
  0 <= subpkg_num (trsmitr p) < 0x10000000 -> plen <= zlen (subpkg (trsmitr p)) ->
  collected p len ver sq num (take (Z.to_nat cnt) buf) ->
  exists pkts p',
    send_frame fuel g (Some t) ver buf len = Some (OPRT_OK, pkts)
    /\ Forall (fun pkt => zlen pkt <= plen) pkts
    /\ takes p pkts p'
    /\ raw_len p' = len /\ (exists suf, raw_buf p' = buf ++ suf)
    /\ version (trsmitr p') = ver /\ zlen (subpkg (trsmitr p')) = zlen (subpkg (trsmitr p)).
Proof.
  revert g t g1 t1 p num cnt. induction fuel as [|fuel IH];
    intros g t g1 t1 p num cnt len plen Hv Hs Hp Hl Hini Hsend Hnum Hcnt Hf Hr Hb Hcol; [lia|].
  unfold TUYA_BLE_AIR_FRAME_MAX in Hl.
  assert (subpkg_num t1 = num) as Hn1 by apply Hsend.
  pose proof (header_bytes_len num len ver sq) as Hhl.
  destruct (sending_chunk plen len ver sq num cnt) as (Hk1 & Hk2 & Hk3); [lia..|].
  destruct (send_body_spec g1 t1 buf len ver sq num cnt) as (t' & suf & E & Hsub & Hsl & Hs' & Hd');
    try done; try lia. fold plen in E, Hsub, Hsl, Hs', Hd'.
  cbn [send_frame]. unfold ble_frame_trsmitr_send_pkg_encode. rewrite Hini, Hn1.
  destruct (Z.leb_spec 0x10000000 num); [lia|]. destruct (Z.leb_spec 0x10000000 len); [lia|].
  cbn [orb]. rewrite E. cbn [mbind option_bind].
  unfold ble_frame_subpacket_get, ble_frame_subpacket_len_get. rewrite Hsub, Hsl.
  set (k := chunk plen len ver sq num cnt) in *.
  set (data := take (Z.to_nat k) (drop (Z.to_nat cnt) buf)) in *.
  assert (zlen data = k) as Hdl by (apply zlen_take; rewrite zlen_drop; lia).
  rewrite <- Hdl, <- zlen_app, slice_prefix, Hdl. cbn [mbind option_bind].
  assert (take (Z.to_nat cnt) buf ++ data = take (Z.to_nat (cnt + k)) buf) as Hacc.
  { unfold data. rewrite take_take_drop. f_equal. lia. }
  assert (zlen (take (Z.to_nat cnt) buf) = cnt) as Hca by (apply zlen_take; lia).
  destruct (packet_recv_spec p len ver sq num (take (Z.to_nat cnt) buf) data)
    as (p1 & Ep & Hpb & Hpn & Hpl & Hpr & Hpv & Hpc); try done; try lia.
  rewrite Hca, Hdl in Ep, Hpc. rewrite Hacc in Hpl, Hpr, Hpc.
  destruct (Z.ltb_spec (cnt + k) len) as [Hm|Hm].
  - change (_ =? _) with true. cbv iota.
    destruct (IH g1 t' g1 t' p1 (num + 1) (cnt + k)) as (pkts & p' & Ef & Hall & Hrf & R);
      try done; try lia.
    { unfold send_init. rewrite Hd'. by destruct (num =? 0). }
    { apply Hpc. lia. }
    fold len in Ef. rewrite Ef. cbn [mbind option_bind]. eexists _, p'. split; [reflexivity|].
    split; [constructor; [rewrite zlen_app; lia|done]|]. destruct R as (R1 & R2 & R3 & R4). rewrite R4. split; [|done].
    by eapply takes_more.
  - change (_ =? _) with false. cbv iota. eexists _, p1. split; [reflexivity|].
    split; [constructor; [rewrite zlen_app; lia|constructor]|].
    split; [by apply takes_last|].
    replace (take (Z.to_nat (cnt + k)) buf) with buf in *
      by (symmetry; apply take_ge; unfold len, zlen in *; lia). done.
Qed.

(** The sender only reads the frame: what follows it in memory is not sent. *)
Lemma slice_more (l rest d : list Z) off n : slice l off n = Some d -> slice (l ++ rest) off n = Some d.
Proof.
  unfold slice. rewrite zlen_app. pose proof (zlen_nonneg rest). destruct (Z.leb_spec 0 off), (Z.leb_spec 0 n); try done.
  destruct (Z.leb_spec (off + n) (zlen l)); [|done]. destruct (Z.leb_spec (off + n) (zlen l + zlen rest)); [|lia]. cbn [andb].
  intros [= <-]. f_equal. unfold zlen in *. rewrite drop_app_le, take_app_le by (rewrite ?length_drop; lia). done.
Qed.
Lemma send_body_more g t buf rest len r : send_body g t buf len = Some r -> send_body g t (buf ++ rest) len = Some r.
Proof.
  unfold send_body. destruct (header_encode t len) as [[b off]|]; [|done]. cbn [mbind option_bind].
  cbv zeta. generalize (if u32 (len - pkg_trsmitr_cnt t) <? u16 (ble_frame_packet_len_get g - off)
    then u16 (u32 (len - pkg_trsmitr_cnt t)) else u16 (ble_frame_packet_len_get g - off)). intros n.
  destruct (slice buf (pkg_trsmitr_cnt t) n) eqn:E; [|done]. by rewrite (slice_more _ rest _ _ _ E).
Qed.
Lemma encode_more g t ver buf rest len x :
  ble_frame_trsmitr_send_pkg_encode g t ver buf len = Some x -> ble_frame_trsmitr_send_pkg_encode g t ver (buf ++ rest) len = Some x.
Proof.
  unfold ble_frame_trsmitr_send_pkg_encode. destruct t; [|done]. destruct (send_init _ _ _ _). case_match; [done|].
  destruct (send_body _ _ buf len) as [y|] eqn:E; [|done]. by rewrite (send_body_more _ _ _ rest _ _ E).
Qed.
Lemma send_frame_more fuel g t ver buf rest len r :
  send_frame fuel g t ver buf len = Some r -> send_frame fuel g t ver (buf ++ rest) len = Some r.
Proof.
  revert g t r. induction fuel as [|fuel IH]; intros g t r; [done|]. cbn [send_frame].
  destruct (ble_frame_trsmitr_send_pkg_encode g t ver buf len) as [[[rc g'] t']|] eqn:E1; [|done]. rewrite (encode_more _ _ _ _ rest _ _ E1). cbn [mbind option_bind].
  destruct t' as [x|]; [|done]. cbn [mbind option_bind]. destruct (slice _ _ _); [|done]. cbn [mbind option_bind]. case_match; [|done].
  destruct (send_frame fuel g' (Some x) ver buf len) as [y|] eqn:E; [|done]. by rewrite (IH _ _ _ E).
Qed.

(** * Properties *)

(** What a fresh transmitter becomes on its first call. *)
Lemma send_init_fresh g t ver len :
  ble_frame_trsmitr_create g (true, true) = Some t ->
  0 <= s_ble_frame_seq g -> 0 <= s_ble_frame_packet_len g ->
  exists g1 t1 sq, send_init g t ver len = (g1, t1)
    /\ s_ble_frame_packet_len g1 = s_ble_frame_packet_len g /\ 0 <= sq < 16
    /\ sending t1 (s_ble_frame_packet_len g) len ver sq 0 0.
Proof.
  intros [= <-] Hsq Hp. unfold send_init, ble_frame_seq_get, BLE_FRAME_SEQ_LMT.
  cbn [pkg_desc]. change (BLE_FRAME_PKG_INIT =? BLE_FRAME_PKG_INIT) with true. cbv iota.
  destruct (Z.leb_spec 16 (s_ble_frame_seq g));
    [eexists _, _, 0|eexists _, _, (s_ble_frame_seq g)];
    (split; [reflexivity|]); (split; [done|]); (split; [lia|]); split_and!; try done; by apply zlen_zrepl.
Qed.

(** A frame of at most 1024 bytes, sent by a fresh transmitter whose
    packet length is at least 7 (the largest first header plus one byte) and
    taken by a receiver whose subpackage buffer is as large, arrives whole: the
    sender's loop ends with [OPRT_OK] within [len + 1] rounds, no subpackage is
    longer than the packet length, the receiver answers [OPRT_OK] on the last
    one and its buffer then starts with exactly the bytes that were sent, with
    [raw_len] their number; whatever the receiver was doing before. *)
Theorem ble_frame_roundtrip g t p buf ver :
  let plen := s_ble_frame_packet_len g in
  ble_frame_trsmitr_create g (true, true) = Some t ->
  0 <= s_ble_frame_seq g -> 7 <= plen < 65536 -> 0 <= ver < 16 ->
  zlen buf <= TUYA_BLE_AIR_FRAME_MAX ->
  zlen (raw_buf p) = TUYA_BLE_AIR_FRAME_MAX -> plen <= zlen (subpkg (trsmitr p)) ->
  0 <= subpkg_num (trsmitr p) < 0x10000000 ->
  exists pkts p',
    send_frame (S (length buf)) g (Some t) ver buf (zlen buf) = Some (OPRT_OK, pkts)
    /\ Forall (fun pkt => zlen pkt <= plen) pkts
    /\ recv_frame p OPRT_OK pkts = Some (OPRT_OK, p')
    /\ raw_len p' = zlen buf
    /\ slice (raw_buf p') 0 (raw_len p') = Some buf.
Proof.
  intros plen Hc Hsq Hp Hv Hl HB Hb Hn.
  destruct (send_init_fresh g t ver (zlen buf)) as (g1 & t1 & sq & Hi & Hg1 & Hs & Ht1);
    [done|lia..|].
  destruct (frame_rest (S (length buf)) g t g1 t1 p buf ver sq 0 0)
    as (pkts & p' & E & Hall & Hr & Hlen & (suf & Hbuf) & _);
    try (rewrite ?Hg1; done || (unfold zlen in *; lia)).
  exists pkts, p'. apply (takes_recv_frame _ _ _ OPRT_OK) in Hr. rewrite Hlen, Hbuf. unfold plen. rewrite <- Hg1. auto using slice_prefix.
Qed.

Lemma ble_frame_roundtrip_witness :
  let g := {| s_ble_frame_seq := 0; s_ble_frame_packet_len := 20 |} in
  let t := {| total := 0; version := 0; seq := 0; pkg_desc := 0; subpkg_num := 0;
              pkg_trsmitr_cnt := 0; subpkg_len := 0; subpkg := zrepl 20 0 |} in
  let buf := zrepl 100 7 in
  exists pkts p',
    send_frame 101 g (Some t) 4 buf (zlen buf) = Some (OPRT_OK, pkts)
    /\ Forall (fun pkt => zlen pkt <= 20) pkts
    /\ recv_frame {| trsmitr := t; raw_len := 0; raw_buf := zrepl 1024 0 |} OPRT_OK pkts
       = Some (OPRT_OK, p')
    /\ raw_len p' = zlen buf
    /\ slice (raw_buf p') 0 (raw_len p') = Some buf.
Proof.
  intros g t buf.
  apply (ble_frame_roundtrip g t {| trsmitr := t; raw_len := 0; raw_buf := zrepl 1024 0 |} buf 4);
    done.
Defined.

(** The sequence numbers of [n] successive frames. *)
Fixpoint frame_seqs (n : nat) (g : ble_globals) : list Z :=
  match n with
  | O => []
  | S n' => let '(s, g') := ble_frame_seq_get g in s :: frame_seqs n' g'
  end.

Lemma frame_seqs_stuck n g :
  BLE_FRAME_SEQ_LMT <= s_ble_frame_seq g -> frame_seqs n g = replicate n 0.
Proof.
  intros H. induction n as [|n IH]; [done|]. cbn [frame_seqs replicate].
  unfold ble_frame_seq_get. destruct (Z.leb_spec BLE_FRAME_SEQ_LMT (s_ble_frame_seq g)); [|lia].
  by rewrite IH.
Qed.

Lemma frame_seqs_count k n g :
  0 <= s_ble_frame_seq g -> s_ble_frame_seq g + Z.of_nat k = BLE_FRAME_SEQ_LMT ->
  frame_seqs (k + n) g = seqZ (s_ble_frame_seq g) (Z.of_nat k) ++ replicate n 0.
Proof.
  unfold BLE_FRAME_SEQ_LMT. revert g. induction k as [|k IH]; intros g H0 Hk.
  { apply frame_seqs_stuck. unfold BLE_FRAME_SEQ_LMT. lia. }
  rewrite seqZ_cons by lia. cbn [Nat.add frame_seqs app]. unfold ble_frame_seq_get, BLE_FRAME_SEQ_LMT.
  destruct (Z.leb_spec 16 (s_ble_frame_seq g)); [lia|]. f_equal. norm_widths.
  rewrite IH; cbn [s_ble_frame_seq]; [|lia..]. by rewrite <- Z.add_1_r, Nat2Z.inj_succ, Z.pred_succ.
Qed.

(** From start-up the frame sequence numbers are 0, 1, ..., 15 and then 0
    for ever: at the limit the counter is not reset, so every later frame
    carries sequence number 0. *)
Theorem ble_frame_seq_sticks g n :
  s_ble_frame_seq g = 0 -> frame_seqs (16 + n) g = seqZ 0 16 ++ replicate n 0.
Proof.
  intros H. rewrite (frame_seqs_count 16) by (rewrite H; done). by rewrite H.
Qed.

Lemma ble_frame_seq_sticks_witness :
  frame_seqs 18 {| s_ble_frame_seq := 0; s_ble_frame_packet_len := 1024 |}
  = [0; 1; 2; 3; 4; 5; 6; 7; 8; 9; 10; 11; 12; 13; 14; 15; 0; 0].
Proof.
  apply (ble_frame_seq_sticks {| s_ble_frame_seq := 0; s_ble_frame_packet_len := 1024 |} 2).
  reflexivity.
Defined.

Lemma encode_fresh g t ver buf :
  ble_frame_trsmitr_create g (true, true) = Some t ->
  0 <= s_ble_frame_seq g -> 7 <= s_ble_frame_packet_len g < 65536 ->
  zlen buf < 0x10000000 ->
  exists g' t' sq suf,
    let h := header_bytes 0 (zlen buf) ver sq in
    let k := chunk (s_ble_frame_packet_len g) (zlen buf) ver sq 0 0 in
    ble_frame_trsmitr_send_pkg_encode g (Some t) ver buf (zlen buf)
    = Some (if k <? zlen buf then OPRT_SVC_BT_API_TRSMITR_CONTINUE else OPRT_OK, g', Some t')
    /\ subpkg t' = (h ++ take (Z.to_nat k) buf) ++ suf /\ subpkg_len t' = zlen h + k.
Proof.
  intros Hc Hs Hp Hl. pose proof (zlen_nonneg buf).
  destruct (send_init_fresh g t ver (zlen buf)) as (g1 & t1 & sq & Hi & Hg1 & Hsq & Ht1);
    [done|lia..|].
  assert (subpkg_num t1 = 0) as Hn by apply Ht1. rewrite <- Hg1 in *.
  destruct (send_body_spec g1 t1 buf (zlen buf) ver sq 0 0) as (t' & suf & E & Hsub & Hsl & _);
    try done; try lia.
  exists g1, t', sq, suf. split; [|done]. unfold ble_frame_trsmitr_send_pkg_encode.
  rewrite Hi, Hn. destruct (Z.leb_spec 0x10000000 (zlen buf)); [lia|]. cbn [orb Z.leb].
  change (0x10000000 <=? 0) with false. cbv iota beta. cbn [orb]. by rewrite E.
Qed.

(** The response loop ends after its first round, whatever the radio says. *)
Lemma resp_once send fuel g t buf rest :
  ble_frame_trsmitr_create g (true, true) = Some t -> 0 <= s_ble_frame_seq g -> 7 <= s_ble_frame_packet_len g < 65536 -> zlen buf < 0x10000000 ->
  exists x, resp_loop send (S fuel) g (Some t) (buf ++ rest) (zlen buf) [] = Some x.
Proof.
  intros Hc Hs Hp Hl. destruct (encode_fresh g t 4 buf Hc Hs Hp Hl) as (g' & t' & sq & suf & E & Hsub & Hsl).
  set (k := chunk _ _ _ _ _ _) in *. cbn [resp_loop]. rewrite (encode_more _ _ _ _ rest _ _ E). cbn [mbind option_bind].
  assert (forall b : bool, negb ((if b then OPRT_SVC_BT_API_TRSMITR_CONTINUE else OPRT_OK) =? OPRT_OK)
    && negb ((if b then OPRT_SVC_BT_API_TRSMITR_CONTINUE else OPRT_OK) =? OPRT_SVC_BT_API_TRSMITR_CONTINUE) = false) as -> by (by intros []).
  unfold ble_frame_subpacket_get, ble_frame_subpacket_len_get. rewrite Hsub, Hsl.
  destruct (sending_chunk (s_ble_frame_packet_len g) (zlen buf) 4 sq 0 0) as (Hk & _ & _); [lia|pose proof (zlen_nonneg buf); lia|]. fold k in Hk.
  rewrite slice_prefix_n by (rewrite zlen_app, zlen_take; lia). cbn [mbind option_bind].
  generalize (send [] (header_bytes 0 (zlen buf) 4 sq ++ take (Z.to_nat k) buf)). intros rt.
  destruct (Z.eqb_spec rt OPRT_OK) as [->|]; cbn [negb]; [|by eexists]. change (OPRT_OK =? OPRT_SVC_BT_API_TRSMITR_CONTINUE) with false. by eexists.
Qed.

(** A response that does not fit one packet is cut: with a radio that
    accepts everything, the response loop sends a single subpackage of at most
    [plen] bytes, header included, and returns [OPRT_OK] although bytes of the
    response are left. The return code of the send overwrites the variable
    that the loop condition tests, so the loop never starts its second round,
    whatever its fuel. *)
Theorem ble_packet_resp_truncates send fuel g t outbuf :
  let plen := s_ble_frame_packet_len g in
  ble_frame_trsmitr_create g (true, true) = Some t ->
  0 <= s_ble_frame_seq g -> 7 <= plen < 65536 ->
  plen <= zlen outbuf < 0x10000000 -> (forall air pkt, send air pkt = OPRT_OK) ->
  exists g' pkt,
    resp_loop send (S fuel) g (Some t) outbuf (zlen outbuf) [] = Some (OPRT_OK, g', [pkt])
    /\ zlen pkt = plen.
Proof.
  intros plen Hc Hs Hp Hl Hok.
  destruct (encode_fresh g t 4 outbuf) as (g' & t' & sq & suf & E & Hsub & Hsl); [done|lia..|].
  pose proof (header_bytes_len 0 (zlen outbuf) 4 sq).
  assert (chunk plen (zlen outbuf) 4 sq 0 0 = plen - zlen (header_bytes 0 (zlen outbuf) 4 sq))
    as Hk by (unfold chunk; lia).
  fold plen in E, Hsub, Hsl. rewrite Hk in E, Hsub, Hsl.
  set (h := header_bytes 0 (zlen outbuf) 4 sq) in *.
  destruct (Z.ltb_spec (plen - zlen h) (zlen outbuf)); [|lia].
  set (data := take (Z.to_nat (plen - zlen h)) outbuf) in *.
  assert (zlen data = plen - zlen h) as Hd by (apply zlen_take; lia).
  cbn [resp_loop]. rewrite E. cbn [mbind option_bind].
  change (negb _ && negb _) with false. cbv iota.
  unfold ble_frame_subpacket_get, ble_frame_subpacket_len_get. rewrite Hsub, Hsl, <- Hd.
  rewrite <- zlen_app, slice_prefix. cbn [mbind option_bind]. rewrite Hok.
  exists g', (h ++ data). split; [reflexivity|]. rewrite zlen_app. lia.
Qed.

Lemma ble_packet_resp_truncates_witness :
  let g := {| s_ble_frame_seq := 0; s_ble_frame_packet_len := 20 |} in
  exists t g' pkt,
    resp_loop (fun _ _ => OPRT_OK) 10 g (Some t) (zrepl 100 7) (zlen (zrepl 100 7)) []
    = Some (OPRT_OK, g', [pkt]) /\ zlen pkt = 20.
Proof.
  intros g. eexists. apply (ble_packet_resp_truncates (fun _ _ => OPRT_OK) 9 g _ (zrepl 100 7));
    [reflexivity|done..].
Defined.

(** A packet length below 3, which the peer may request, makes the encoder
    write outside the subpackage buffer, whatever the frame. *)
Theorem ble_encode_tiny_packet_oob g t ver buf :
  0 <= s_ble_frame_packet_len g < 3 -> zlen buf < 0x10000000 ->
  ble_frame_trsmitr_create g (true, true) = Some t ->
  ble_frame_trsmitr_send_pkg_encode g (Some t) ver buf (zlen buf) = None.
Proof.
  intros Hp Hl [= <-]. unfold ble_frame_trsmitr_send_pkg_encode, send_init.
  cbn [pkg_desc]. change (BLE_FRAME_PKG_INIT =? BLE_FRAME_PKG_INIT) with true. cbv iota.
  destruct (ble_frame_seq_get g) as [sq g'].
  destruct (Z.leb_spec 0x10000000 (zlen buf)); [lia|]. cbn [subpkg_num]. cbn [orb Z.leb].
  change (0x10000000 <=? 0) with false. cbv iota. cbn [orb].
  unfold send_body, header_encode, ble_frame_packet_len_get. cbn [subpkg_num subpkg].
  assert (s_ble_frame_packet_len g = 0 \/ s_ble_frame_packet_len g = 1 \/ s_ble_frame_packet_len g = 2)
    as [-> | [-> | ->]] by lia; [done|done|].
  cbn -[u8 Z.div Z.modulo]. by destruct (zlen buf / 128 =? 0).
Qed.

Lemma ble_encode_tiny_packet_oob_witness :
  let g := {| s_ble_frame_seq := 0; s_ble_frame_packet_len := 2 |} in
  exists t, ble_frame_trsmitr_send_pkg_encode g (Some t) 4 [1; 2] (zlen [1; 2]) = None.
Proof.
  intros g. eexists. apply (ble_encode_tiny_packet_oob g _ 4 [1; 2]); [done|done|reflexivity].
Defined.

(** ** Arbitrary input *)

Lemma num_decode_total n raw off mult acc :
  0 <= off -> off + Z.of_nat n <= zlen raw -> off + Z.of_nat n < 256 -> is_u32 acc ->
  exists v off', num_decode n raw off mult acc = Some (v, off')
    /\ off <= off' <= off + Z.of_nat n /\ is_u32 v.
Proof.
  revert off mult acc. induction n as [|n IH]; intros off mult acc H0 Hl Ho Ha.
  { exists acc, off. split; [done|]. split; [lia|done]. }
  cbn [num_decode]. destruct (rd_Some raw off) as [d Hd]; [lia|]. rewrite Hd.
  cbn [mbind option_bind]. norm_widths. destruct (_ =? 0).
  - eexists _, _. split; [reflexivity|]. split; [lia|apply u32_range].
  - destruct (IH (off + 1) (u32 (mult * 0x80)) (u32 (acc + u32 (Z.land d 0x7f * mult))))
      as (v & o & E & Hr & Hv); [lia..|apply u32_range|].
    exists v, o. split; [done|]. split; [lia|done].
Qed.

(** Well-formedness of a receiver: the buffers have their sizes and the
    stored lengths stay inside them. *)
Record receiver_ok (t : ble_frame_trsmitr_t) (plen : Z) : Prop := {
  ok_subpkg : zlen (subpkg t) = plen;
  ok_len : 0 <= subpkg_len t <= plen;
  ok_total : is_u32 (total t);
  ok_cnt : is_u32 (pkg_trsmitr_cnt t)
}.

Lemma recv_copy_total t raw off plen :
  receiver_ok t plen -> 0 <= off <= zlen raw -> zlen raw < 65536 -> zlen raw - off <= plen ->
  exists rc t', recv_copy t raw (zlen raw) off = Some (rc, t') /\ receiver_ok t' plen.
Proof.
  intros [Hs Hl Ht Hc] Ho Hr Hp. unfold recv_copy. norm_widths.
  set (n := if u32 (total t - pkg_trsmitr_cnt t) <? zlen raw - off then _ else _).
  assert (0 <= n <= zlen raw - off) as Hn.
  { unfold n. pose proof (u32_range (total t - pkg_trsmitr_cnt t)) as Hu. unfold is_u32 in Hu.
    destruct (Z.ltb_spec (u32 (total t - pkg_trsmitr_cnt t)) (zlen raw - off)); norm_widths; lia. }
  clearbody n. rewrite slice_eq by lia. cbn [mbind option_bind].
  set (data := take _ _). assert (zlen data = n) as Hd by (apply zlen_take; rewrite zlen_drop; lia).
  rewrite blit_front by lia. cbn [mbind option_bind]. eexists _, _. split; [reflexivity|].
  split; cbn; [|lia|done|apply u32_range]. rewrite zlen_app, zlen_drop; lia.
Qed.

Lemma receiver_ok_reset t d plen : receiver_ok t plen -> receiver_ok (recv_reset t d) plen.
Proof. intros []. by split. Qed.

Lemma receiver_ok_desc t d plen : receiver_ok t plen -> receiver_ok (set_desc t d) plen.
Proof. intros []. by split. Qed.

Lemma recv_decode_total t raw plen :
  receiver_ok t plen -> 9 <= zlen raw < 65536 -> zlen raw <= plen ->
  exists rc t', ble_frame_trsmitr_recv_pkg_decode (Some t) (Some raw) (zlen raw) = Some (rc, Some t')
    /\ receiver_ok t' plen.
Proof.
  intros Hok Hr Hp. unfold ble_frame_trsmitr_recv_pkg_decode.
  set (t0 := if pkg_desc t =? BLE_FRAME_PKG_INIT then _ else _).
  assert (receiver_ok t0 plen) as Hok0
    by (unfold t0; destruct (_ =? _); auto using receiver_ok_reset).
  clearbody t0.
  destruct (num_decode_total 4 raw 0 1 0) as (num & off & E & Ho & Hn); [lia..|done|].
  rewrite E. cbn [mbind option_bind].
  set (t1 := if num =? 0 then _ else _).
  assert (receiver_ok t1 plen) as Hok1
    by (unfold t1; destruct (num =? 0); auto using receiver_ok_reset, receiver_ok_desc).
  clearbody t1. destruct (_ <=? _); [by eexists _, _|].
  destruct (recv_order t1 num); [by eexists _, _|].
  unfold recv_first. cbn [subpkg_num total]. destruct Hok1. destruct (num =? 0).
  - destruct (num_decode_total 4 raw off 1 (total t1)) as (tot & off1 & E1 & Ho1 & Hn1); [lia..|done|].
    rewrite E1. cbn [mbind option_bind]. destruct (_ <=? _); cbn [mbind option_bind];
      [eexists _, _; split; [done|by split]|].
    destruct (rd_Some raw off1) as [vs ->]; [lia|]. cbn [mbind option_bind]. norm_widths.
    edestruct recv_copy_total as (rc & t' & Ec & Hok'); [split|..|rewrite Ec]; try done; try lia.
    by eexists _, _.
  - cbn [mbind option_bind].
    edestruct recv_copy_total as (rc & t' & Ec & Hok'); [split|..|rewrite Ec]; try done; try lia.
    by eexists _, _.
Qed.

(** No packet of 9 or more bytes that fits the subpackage buffer makes the
    reassembly touch memory out of bounds, whatever its contents and whatever
    the state of the receiver: it returns a code, keeps the sizes of its
    buffers and the well-formedness of its transmitter, and its length grows
    by at most one subpackage. *)
Theorem ble_packet_trsmitr_safe p buf plen :
  receiver_ok (trsmitr p) plen -> plen < 65536 -> 9 <= zlen buf <= plen ->
  zlen (raw_buf p) = TUYA_BLE_AIR_FRAME_MAX -> 0 <= raw_len p < 0xFFFF0000 ->
  exists rc p', ble_packet_trsmitr p buf (zlen buf) = Some (rc, p')
    /\ receiver_ok (trsmitr p') plen
    /\ zlen (raw_buf p') = TUYA_BLE_AIR_FRAME_MAX
    /\ 0 <= raw_len p' <= raw_len p + plen
    /\ (rc = OPRT_OK -> raw_len p' <= TUYA_BLE_AIR_FRAME_MAX).
Proof.
  intros Hok Hp Hb HB Hl. destruct (recv_decode_total (trsmitr p) buf plen) as (rt & t & E & Hok');
    [done|lia..|]. unfold ble_packet_trsmitr, TUYA_BLE_AIR_FRAME_MAX in *. norm_widths.
  rewrite E. cbn [mbind option_bind]. destruct (negb _ && negb _).
  { eexists _, _. split; [done|]. cbn [trsmitr raw_len raw_buf]. rewrite zlen_zrepl by lia.
    split; [done|]. destruct Hok. lia. }
  unfold ble_frame_subpacket_len_get, ble_frame_subpacket_get. destruct Hok' as [Hs Hsl Ht Hc].
  set (fresh := _ || _).
  assert (zlen (if fresh then zrepl 1024 0 else raw_buf p) = 1024) as Hrb by (by destruct fresh).
  assert (0 <= (if fresh then 0 else raw_len p) <= raw_len p) as Hrl by (destruct fresh; lia).
  set (rl := if fresh then 0 else raw_len p) in *. set (rb := if fresh then _ else raw_buf p) in *.
  clearbody rl rb. norm_widths. destruct (Z.leb_spec (rl + subpkg_len t) 1024).
  - rewrite slice_eq by lia. cbn [mbind option_bind].
    destruct (split_at rb rl) as (pre & suf & -> & <-); [lia|]. rewrite zlen_app in Hrb.
    rewrite blit_cursor by (rewrite zlen_take; rewrite ?zlen_drop; lia). cbn [mbind option_bind].
    eexists _, _. split; [reflexivity|]. cbn [trsmitr raw_len raw_buf].
    split; [done|]. rewrite !zlen_app, zlen_drop; rewrite ?zlen_take; rewrite ?zlen_drop; lia.
  - eexists _, _. split; [reflexivity|]. cbn [trsmitr raw_len raw_buf].
    split; [done|]. split; [done|]. split; [lia|done].
Qed.

Lemma ble_packet_trsmitr_safe_witness :
  let t := {| total := 77; version := 0; seq := 0; pkg_desc := 2; subpkg_num := 5;
              pkg_trsmitr_cnt := 99; subpkg_len := 3; subpkg := zrepl 20 0 |} in
  let p := {| trsmitr := t; raw_len := 1020; raw_buf := zrepl 1024 0 |} in
  exists rc p', ble_packet_trsmitr p (zrepl 12 255) 12 = Some (rc, p')
    /\ receiver_ok (trsmitr p') 20 /\ zlen (raw_buf p') = 1024
    /\ 0 <= raw_len p' <= 1040 /\ (rc = OPRT_OK -> raw_len p' <= 1024).
Proof.
  intros t p. apply (ble_packet_trsmitr_safe p (zrepl 12 255) 20); done.
Defined.

(** A packet longer than the subpackage buffer is not refused: the copy of
    a first subpackage overruns the buffer as soon as the announced frame and
    the payload are longer than it. *)
Theorem ble_decode_long_packet_overruns t len ver sq data :
  0 <= ver < 16 -> 0 <= sq < 16 -> len < 0x10000000 -> subpkg_num t < 0x10000000 ->
  zlen data <= len -> zlen data < 65000 -> zlen (subpkg t) < zlen data ->
  let raw := header_bytes 0 len ver sq ++ data in
  ble_frame_trsmitr_recv_pkg_decode (Some t) (Some raw) (zlen raw) = None.
Proof.
  intros Hv Hs Hl Hn Hd Hz Hb raw. unfold raw.
  pose proof (header_bytes_len 0 len ver sq). pose proof (zlen_nonneg (subpkg t)).
  unfold ble_frame_trsmitr_recv_pkg_decode. rewrite header_num_decode by lia.
  cbn [mbind option_bind Z.eqb].
  set (t0 := if pkg_desc t =? BLE_FRAME_PKG_INIT then _ else t).
  assert (subpkg_num t0 = subpkg_num t /\ subpkg t0 = subpkg t) as [Hn0 Hb0]
    by (unfold t0; destruct (_ =? _); done).
  clearbody t0. unfold recv_order, recv_reset. cbn [subpkg_num pkg_desc]. rewrite Hn0.
  destruct (Z.leb_spec 0x10000000 (subpkg_num t)); [lia|].
  change (BLE_FRAME_PKG_FIRST =? BLE_FRAME_PKG_FIRST) with true. cbv iota.
  rewrite header_first_decode by (done || lia). cbn [mbind option_bind].
  unfold recv_copy. cbn [total pkg_trsmitr_cnt subpkg]. rewrite Z.sub_0_r, zlen_app.
  replace (zlen (header_bytes 0 len ver sq) + zlen data - zlen (header_bytes 0 len ver sq))
    with (zlen data) by lia. norm_widths.
  destruct (Z.ltb_spec len (zlen data)); [lia|]. rewrite slice_suffix. cbn [mbind option_bind].
  rewrite blit_None by (rewrite Hb0; lia). done.
Qed.

Lemma ble_decode_long_packet_overruns_witness :
  let t := {| total := 0; version := 0; seq := 0; pkg_desc := 0; subpkg_num := 0;
              pkg_trsmitr_cnt := 0; subpkg_len := 0; subpkg := zrepl 20 0 |} in
  let raw := header_bytes 0 100 4 0 ++ zrepl 30 1 in
  ble_frame_trsmitr_recv_pkg_decode (Some t) (Some raw) (zlen raw) = None.
Proof. intros t. apply (ble_decode_long_packet_overruns t 100 4 0 (zrepl 30 1)); done. Defined.

(** A repeated subpackage is stored twice: the decoder answers
    [CONTINUE] without touching its payload, and the reassembly appends the
    payload of the previous subpackage once more. *)
Theorem ble_duplicate_appended_twice p acc suf num len ver sq data dup :
  let t := trsmitr p in
  0 < num < 0x10000000 -> subpkg_num t = num -> pkg_desc t <> BLE_FRAME_PKG_INIT ->
  raw_buf p = acc ++ suf -> raw_len p = zlen acc -> zlen data + zlen acc <= TUYA_BLE_AIR_FRAME_MAX ->
  zlen data <= zlen suf -> subpkg_len t = zlen data -> take (length data) (subpkg t) = data ->
  zlen dup < 65000 ->
  exists p' suf', ble_packet_trsmitr p (header_bytes num len ver sq ++ dup)
                                  (zlen (header_bytes num len ver sq ++ dup))
             = Some (OPRT_SVC_BT_API_TRSMITR_CONTINUE, p')
    /\ raw_buf p' = (acc ++ data) ++ suf' /\ raw_len p' = zlen (acc ++ data)
    /\ pkg_trsmitr_cnt (trsmitr p') = pkg_trsmitr_cnt t.
Proof.
  intros t Hn Hnum Hini Hb Hrl Hm Hs Hsl Ht Hd. unfold TUYA_BLE_AIR_FRAME_MAX in *.
  pose proof (header_bytes_len num len ver sq). pose proof (zlen_nonneg dup).
  pose proof (zlen_nonneg acc). pose proof (zlen_nonneg data).
  unfold ble_packet_trsmitr. rewrite u16_small by (unfold is_u16; rewrite zlen_app; lia).
  unfold ble_frame_trsmitr_recv_pkg_decode. rewrite header_num_decode by lia.
  cbn [mbind option_bind]. fold t. destruct (Z.eqb_spec (pkg_desc t) BLE_FRAME_PKG_INIT); [done|].
  destruct (Z.eqb_spec num 0); [lia|]. unfold recv_order. cbn [set_desc subpkg_num pkg_desc].
  rewrite Hnum. destruct (Z.leb_spec 0x10000000 num); [lia|]. rewrite Z.ltb_irrefl, Z.eqb_refl.
  cbn -[zlen u32 slice blit zrepl Z.leb]. unfold ble_frame_subpacket_len_get, ble_frame_subpacket_get.
  cbn [subpkg_len subpkg]. rewrite Hsl, Hrl, Hb. norm_widths. unfold TUYA_BLE_AIR_FRAME_MAX.
  destruct (Z.leb_spec (zlen acc + zlen data) 1024); [|lia].
  rewrite <- (take_drop (length data) (subpkg t)), Ht, slice_prefix. cbn [mbind option_bind].
  rewrite blit_cursor by done. cbn [mbind option_bind]. eexists _, _. split; [reflexivity|].
  cbn [raw_buf raw_len trsmitr]. rewrite zlen_app, app_assoc. done.
Qed.

Lemma ble_duplicate_appended_twice_witness :
  let t := {| total := 9; version := 4; seq := 0; pkg_desc := 2; subpkg_num := 1;
              pkg_trsmitr_cnt := 6; subpkg_len := 3; subpkg := [4; 5; 6; 0; 0; 0; 0] |} in
  let p := {| trsmitr := t; raw_len := 6; raw_buf := [1; 2; 3; 4; 5; 6] ++ zrepl 1018 0 |} in
  exists p' suf', ble_packet_trsmitr p (header_bytes 1 9 4 0 ++ [4; 5; 6])
                                     (zlen (header_bytes 1 9 4 0 ++ [4; 5; 6]))
             = Some (OPRT_SVC_BT_API_TRSMITR_CONTINUE, p')
    /\ raw_buf p' = ([1; 2; 3; 4; 5; 6] ++ [4; 5; 6]) ++ suf' /\ raw_len p' = 9
    /\ pkg_trsmitr_cnt (trsmitr p') = 6.
Proof.
  intros t p. apply (ble_duplicate_appended_twice p [1; 2; 3; 4; 5; 6] (zrepl 1018 0) 1 9 4 0 [4; 5; 6]);
    done.
Defined.
