(* ===== verification/RingBuf.v ===== *)
(** The byte ring buffer of [tools/porting/adapter/utilities/src/tuya_ringbuf.c]
    and its refinement to a bounded first-in first-out list of bytes. *)
From Stdlib Require Import ZArith Lia.
From stdpp Require Import base tactics option list numbers.
From S2P Require Import Prelude.

Local Open Scope Z_scope.

(** * Data *)

Inductive RINGBUFF_TYPE_E := OVERFLOW_STOP_TYPE | OVERFLOW_COVERAGE_TYPE.

Record RINGBUFF_T := {
  rtype : RINGBUFF_TYPE_E;
  rin : Z;              (* uint32_t in *)
  rout : Z;             (* uint32_t out *)
  rlen : Z;             (* uint32_t len *)
  buff : list Z         (* uint8_t buff[] *)
}.

Definition set_in (r : RINGBUFF_T) (i : Z) (b : list Z) : RINGBUFF_T :=
  {| rtype := rtype r; rin := i; rout := rout r; rlen := rlen r; buff := b |}.
Definition set_out (r : RINGBUFF_T) (o : Z) : RINGBUFF_T :=
  {| rtype := rtype r; rin := rin r; rout := o; rlen := rlen r; buff := buff r |}.

(** * Operations

    A ring buffer handle is a pointer, [None] the null pointer; [None] as the
    result of an operation is an access outside an object. *)

Definition ringbuff_init (r : RINGBUFF_T) (len : Z) : RINGBUFF_T :=
  {| rtype := rtype r; rin := 0; rout := 0; rlen := len; buff := buff r |}.

(** [dest] says whether the out pointer is there; [mem] is what the allocator
    returns for [len] bytes, uninitialised. *)
Definition tuya_ring_buff_create (len : Z) (type : RINGBUFF_TYPE_E) (dest : bool)
    (mem : option (list Z)) : Z * option RINGBUFF_T :=
  match type with
  | OVERFLOW_COVERAGE_TYPE => (OPRT_NOT_SUPPORTED, None)
  | OVERFLOW_STOP_TYPE =>
    if negb dest || (len =? 0) then (OPRT_INVALID_PARM, None)
    else match mem with
    | None => (OPRT_MALLOC_FAILED, None)
    | Some b =>
        (OPRT_OK, Some (ringbuff_init
           {| rtype := type; rin := 0; rout := 0; rlen := 0; buff := b |} len))
    end
  end.

Definition tuya_ring_buff_reset (ringbuff : option RINGBUFF_T) : Z * option RINGBUFF_T :=
  match ringbuff with
  | None => (OPRT_INVALID_PARM, None)
  | Some r => (OPRT_OK, Some (ringbuff_init r (rlen r)))
  end.

Definition tuya_ring_buff_free_size_get (ringbuff : option RINGBUFF_T) : Z :=
  match ringbuff with
  | None => 0
  | Some r =>
    let size := if rin r =? rout r then rlen r
                else if rin r <? rout r then u32 (rout r - rin r)
                else u32 (rlen r - u32 (rin r - rout r)) in
    u32 (size - 1)
  end.

Definition tuya_ring_buff_used_size_get (ringbuff : option RINGBUFF_T) : Z :=
  match ringbuff with
  | None => 0
  | Some r =>
    if rin r =? rout r then 0
    else if rout r <? rin r then u32 (rin r - rout r)
    else u32 (rlen r - u32 (rout r - rin r))
  end.

Definition GET_MIN (x y : Z) : Z := if x <? y then x else y.

Definition tuya_ring_buff_write (ringbuff : option RINGBUFF_T) (data : option (list Z)) (len : Z)
  : option (Z * option RINGBUFF_T) :=
  match ringbuff, data with
  | Some r, Some pdata =>
    if len =? 0 then Some (0, Some r) else
    let free_len := tuya_ring_buff_free_size_get (Some r) in
    let len := GET_MIN free_len len in
    if len =? 0 then Some (0, Some r) else
    let tmp_len := GET_MIN (u32 (rlen r - rin r)) len in
    src ← slice pdata 0 tmp_len;
    b ← blit (buff r) (rin r) src;
    let i := u32 (rin r + tmp_len) in
    let len := u32 (len - tmp_len) in
    '(b, i) ← (if 0 <? len then
                 src ← slice pdata tmp_len len;
                 b' ← blit b 0 src; Some (b', len)
               else Some (b, i));
    let i := if rlen r <=? i then 0 else i in
    Some (u32 (tmp_len + len), Some (set_in r i b))
  | _, _ => Some (0, ringbuff)
  end.

(** [data] is the caller's destination; it comes back with what was copied. *)
Definition tuya_ring_buff_read (ringbuff : option RINGBUFF_T) (data : option (list Z)) (len : Z)
  : option (Z * option RINGBUFF_T * option (list Z)) :=
  match ringbuff, data with
  | Some r, Some pdata =>
    if len =? 0 then Some (0, Some r, data) else
    let used_len := tuya_ring_buff_used_size_get (Some r) in
    let len := GET_MIN used_len len in
    if len =? 0 then Some (0, Some r, data) else
    let tmp_len := GET_MIN (u32 (rlen r - rout r)) len in
    src ← slice (buff r) (rout r) tmp_len;
    d ← blit pdata 0 src;
    let o := u32 (rout r + tmp_len) in
    let len := u32 (len - tmp_len) in
    '(d, o) ← (if 0 <? len then
                 src ← slice (buff r) 0 len;
                 d' ← blit d tmp_len src; Some (d', len)
               else Some (d, o));
    let o := if rlen r <=? o then 0 else o in
    Some (u32 (tmp_len + len), Some (set_out r o), Some d)
  | _, _ => Some (0, ringbuff, data)
  end.

Definition tuya_ring_buff_discard (ringbuff : option RINGBUFF_T) (len : Z)
  : Z * option RINGBUFF_T :=
  match ringbuff with
  | Some r =>
    if len =? 0 then (0, Some r) else
    let used_len := tuya_ring_buff_used_size_get (Some r) in
    let len := GET_MIN used_len len in
    if len =? 0 then (0, Some r) else
    let tmp_len := GET_MIN (u32 (rlen r - rout r)) len in
    let o := u32 (rout r + tmp_len) in
    let len := u32 (len - tmp_len) in
    let o := if 0 <? len then len else o in
    let o := if rlen r <=? o then 0 else o in
    (u32 (tmp_len + len), Some (set_out r o))
  | None => (0, None)
  end.

Definition tuya_ring_buff_peek (ringbuff : option RINGBUFF_T) (data : option (list Z)) (len : Z)
  : option (Z * option (list Z)) :=
  match ringbuff, data with
  | Some r, Some pdata =>
    if len =? 0 then Some (0, data) else
    let used_len := tuya_ring_buff_used_size_get (Some r) in
    let len := GET_MIN len used_len in
    if len =? 0 then Some (0, data) else
    let tmp_len := GET_MIN (u32 (rlen r - rout r)) len in
    src ← slice (buff r) (rout r) tmp_len;
    d ← blit pdata 0 src;
    let len := u32 (len - tmp_len) in
    d ← (if 0 <? len then
           src ← slice (buff r) 0 len;
           blit d tmp_len src
         else Some d);
    Some (u32 (tmp_len + len), Some d)
  | _, _ => Some (0, data)
  end.

(** * Representation

    The bytes a ring buffer holds lie between [out] and [in], in one piece or
    in two. *)

Inductive ring_repr (r : RINGBUFF_T) : list Z -> Prop :=
| repr_lin a c b :
    buff r = a ++ c ++ b -> rout r = zlen a -> rin r = zlen a + zlen c ->
    0 < zlen b -> ring_repr r c
| repr_wrap c2 f c1 :
    buff r = c2 ++ f ++ c1 -> rin r = zlen c2 -> rout r = zlen c2 + zlen f ->
    0 < zlen f -> 0 < zlen c1 -> ring_repr r (c1 ++ c2).

(** The invariant of a ring buffer object that holds [c]. *)
Definition ring_holds (r : RINGBUFF_T) (c : list Z) : Prop :=
  ring_repr r c /\ rlen r = zlen (buff r) /\ zlen (buff r) < 4294967296.

Lemma GET_MIN_min x y : GET_MIN x y = Z.min x y.
Proof. unfold GET_MIN. case_bool; lia. Qed.

(** What is in the buffer, computed. *)
Definition contents (r : RINGBUFF_T) : list Z :=
  if rout r <=? rin r
  then take (Z.to_nat (rin r - rout r)) (drop (Z.to_nat (rout r)) (buff r))
  else drop (Z.to_nat (rout r)) (buff r) ++ take (Z.to_nat (rin r)) (buff r).

(** The indices are in range and the object has its size. *)
Definition ring_ok (r : RINGBUFF_T) : Prop :=
  0 <= rin r < rlen r /\ 0 <= rout r < rlen r /\ rlen r = zlen (buff r) /\ is_u32 (rlen r).

Lemma ring_holds_spec r c : ring_holds r c -> ring_ok r /\ contents r = c.
Proof.
  unfold ring_holds, ring_ok, contents, is_u32.
  intros ([a c' b E Ho Hi Hb | c2 f c1 E Hi Ho Hf Hc1] & Hl & Hz);
    rewrite Hl, Hi, Ho; rewrite E in Hz |- *; rewrite !zlen_app in *.
  - pose proof (zlen_nonneg a). pose proof (zlen_nonneg c'). split; [lia|].
    destruct (Z.leb_spec (zlen a) (zlen a + zlen c')); [|lia].
    replace (zlen a + zlen c' - zlen a) with (zlen c') by lia.
    by rewrite zdrop_app, ztake_app.
  - pose proof (zlen_nonneg c2). split; [lia|].
    destruct (Z.leb_spec (zlen c2 + zlen f) (zlen c2)); [lia|].
    rewrite ztake_app, <- zlen_app, app_assoc, zdrop_app. done.
Qed.

Lemma ring_ok_holds r : ring_ok r -> ring_holds r (contents r).
Proof.
  intros (Hi & Ho & Hl & Hz). unfold is_u32 in Hz. split; [|lia]. unfold contents.
  destruct (Z.leb_spec (rout r) (rin r)).
  - destruct (split_at2 (buff r) (rout r) (rin r - rout r)) as (a & c & b & E & Ha & Hc); [lia..|].
    pose proof E as El. apply (f_equal zlen) in El. rewrite !zlen_app in El.
    rewrite E, <- Ha, zdrop_app, <- Hc, ztake_app in *. eapply repr_lin; try eassumption; lia.
  - destruct (split_at2 (buff r) (rin r) (rout r - rin r)) as (a & c & b & E & Ha & Hc); [lia..|].
    pose proof E as El. apply (f_equal zlen) in El. rewrite !zlen_app in El.
    replace (drop (Z.to_nat (rout r)) (buff r)) with b
      by (rewrite E, app_assoc; replace (rout r) with (zlen (a ++ c)) by (rewrite zlen_app; lia);
          by rewrite zdrop_app).
    replace (take (Z.to_nat (rin r)) (buff r)) with a by (by rewrite E, <- Ha, ztake_app).
    eapply repr_wrap; try eassumption; lia.
Qed.

(** * Sizes *)

Lemma free_size_spec r c :
  ring_holds r c -> tuya_ring_buff_free_size_get (Some r) = rlen r - 1 - zlen c.
Proof.
  intros (Hr & Hl & Hz). unfold tuya_ring_buff_free_size_get.
  destruct Hr as [a c b E Ho Hi Hb | c2 f c1 E Hi Ho Hf Hc1];
    rewrite Hl, Hi, Ho; rewrite E in Hz |- *; rewrite !zlen_app in *.
  - pose proof (zlen_nonneg a). pose proof (zlen_nonneg c).
    repeat case_bool; norm_widths; lia.
  - pose proof (zlen_nonneg c2). repeat case_bool; norm_widths; lia.
Qed.

Lemma used_size_spec r c :
  ring_holds r c -> tuya_ring_buff_used_size_get (Some r) = zlen c.
Proof.
  intros (Hr & Hl & Hz). unfold tuya_ring_buff_used_size_get.
  destruct Hr as [a c b E Ho Hi Hb | c2 f c1 E Hi Ho Hf Hc1];
    rewrite Hl, Hi, Ho; rewrite E in Hz |- *; rewrite !zlen_app in *.
  - pose proof (zlen_nonneg a). pose proof (zlen_nonneg c).
    repeat case_bool; norm_widths; lia.
  - pose proof (zlen_nonneg c2). repeat case_bool; norm_widths; lia.
Qed.

(** * The operations on the representation *)

(** The copy of [d] into the free part, by case on whether it wraps. *)
Lemma write_linear r a c b d rest :
  buff r = a ++ c ++ b -> rout r = zlen a -> rin r = zlen a + zlen c ->
  rlen r = zlen (buff r) -> zlen (buff r) < 4294967296 ->
  0 < zlen d -> zlen d <= zlen a + zlen b - 1 -> 0 < zlen b ->
  exists r', tuya_ring_buff_write (Some r) (Some (d ++ rest)) (zlen d) = Some (zlen d, Some r')
    /\ ring_holds r' (c ++ d) /\ rlen r' = rlen r.
Proof.
  intros E Ho Hi Hl Hz Hd Hk Hb.
  assert (ring_holds r c) as Hh by (split; [eapply repr_lin|]; eauto).
  unfold tuya_ring_buff_write. destruct (Z.eqb_spec (zlen d) 0); [lia|].
  rewrite (free_size_spec r c Hh). rewrite !GET_MIN_min. rewrite E, !zlen_app in *.
  pose proof (zlen_nonneg a). pose proof (zlen_nonneg c).
  rewrite Z.min_r by lia. destruct (Z.eqb_spec (zlen d) 0); [lia|]. rewrite Hi. norm_widths.
  replace (rlen r - (zlen a + zlen c)) with (zlen b) by lia.
  destruct (Z.lt_total (zlen d) (zlen b)) as [Hlt | [Heq | Hgt]].
  - rewrite Z.min_r by lia. rewrite slice_prefix. cbn [mbind option_bind].
    rewrite (app_assoc a c b), <- (zlen_app a c), blit_cursor by lia. rewrite (zlen_app a c).
    cbn [mbind option_bind].
    rewrite Z.sub_diag. norm_widths. cbn [Z.ltb Z.compare mbind option_bind].
    rewrite Z.add_0_r. norm_widths. destruct (Z.leb_spec (rlen r) (zlen a + zlen c + zlen d));
      [lia|]. eexists. split; [reflexivity|]. split; [|done].
    split; cbn [set_in rlen buff]; [|autorewrite with zlen; rewrite zlen_drop; lia].
    eapply (repr_lin _ a (c ++ d) _); cbn [set_in buff rout rin];
      [by rewrite <- !app_assoc|done|rewrite !zlen_app; lia|rewrite zlen_drop; lia].
  - rewrite Z.min_r by lia. rewrite slice_prefix. cbn [mbind option_bind].
    rewrite (app_assoc a c b), <- (zlen_app a c), blit_cursor by lia. rewrite (zlen_app a c).
    cbn [mbind option_bind].
    rewrite Z.sub_diag. norm_widths. cbn [Z.ltb Z.compare mbind option_bind].
    rewrite Z.add_0_r. norm_widths. destruct (Z.leb_spec (rlen r) (zlen a + zlen c + zlen d));
      [|lia]. eexists. split; [reflexivity|]. split; [|done].
    rewrite zdrop_all, app_nil_r by lia.
    split; cbn [set_in rlen buff]; [|autorewrite with zlen; lia].
    rewrite <- (app_nil_r (c ++ d)).
    eapply (repr_wrap _ [] a (c ++ d)); cbn [set_in buff rout rin];
      [by rewrite <- !app_assoc|done|rewrite (zlen_nil (A:=Z)); lia|lia|rewrite zlen_app; lia].
  - rewrite Z.min_l by lia.
    destruct (split_at d (zlen b)) as (d1 & d2 & -> & Hd1); [lia|]. rewrite zlen_app in *.
    rewrite <- Hd1, <- app_assoc, slice_prefix. cbn [mbind option_bind].
    rewrite (app_assoc a c b), <- (zlen_app a c), blit_cursor by lia. rewrite (zlen_app a c).
    cbn [mbind option_bind].
    replace (zlen d1 + zlen d2 - zlen d1) with (zlen d2) by lia. norm_widths.
    destruct (Z.ltb_spec 0 (zlen d2)); [|lia]. rewrite slice_mid. cbn [mbind option_bind].
    rewrite (zdrop_all _ b), app_nil_r by lia.
    rewrite <- !app_assoc, blit_front by (autorewrite with zlen; lia). cbn [mbind option_bind].
    destruct (split_at a (zlen d2)) as (a1 & a2 & -> & Ha1); [lia|]. rewrite zlen_app in *.
    rewrite <- Ha1, <- !app_assoc, zdrop_app. destruct (Z.leb_spec (rlen r) (zlen a1)); [lia|].
    norm_widths. eexists. split; [reflexivity|]. split; [|done].
    split; cbn [set_in rlen buff]; [|autorewrite with zlen; lia].
    rewrite (app_assoc c). eapply (repr_wrap _ d2 a2 (c ++ d1)); cbn [set_in buff rout rin];
      [done|lia..|rewrite zlen_app; lia].
Qed.

Lemma write_wrapped r c2 f c1 d rest :
  buff r = c2 ++ f ++ c1 -> rin r = zlen c2 -> rout r = zlen c2 + zlen f ->
  rlen r = zlen (buff r) -> zlen (buff r) < 4294967296 ->
  0 < zlen d -> zlen d <= zlen f - 1 -> 0 < zlen c1 ->
  exists r', tuya_ring_buff_write (Some r) (Some (d ++ rest)) (zlen d) = Some (zlen d, Some r')
    /\ ring_holds r' ((c1 ++ c2) ++ d) /\ rlen r' = rlen r.
Proof.
  intros E Hi Ho Hl Hz Hd Hk Hc1.
  assert (ring_holds r (c1 ++ c2)) as Hh by (split; [eapply repr_wrap|]; eauto; lia).
  unfold tuya_ring_buff_write. destruct (Z.eqb_spec (zlen d) 0); [lia|].
  rewrite (free_size_spec r _ Hh). rewrite !GET_MIN_min. rewrite E, !zlen_app in *.
  pose proof (zlen_nonneg c2). rewrite Z.min_r by lia.
  destruct (Z.eqb_spec (zlen d) 0); [lia|]. rewrite Hi. norm_widths. rewrite Z.min_r by lia.
  rewrite slice_prefix. cbn [mbind option_bind]. rewrite blit_cursor by (rewrite zlen_app; lia).
  cbn [mbind option_bind]. rewrite Z.sub_diag. norm_widths. cbn [Z.ltb Z.compare mbind option_bind].
  rewrite Z.add_0_r. norm_widths. destruct (Z.leb_spec (rlen r) (zlen c2 + zlen d)); [lia|].
  eexists. split; [reflexivity|]. split; [|done].
  destruct (split_at f (zlen d)) as (f1 & f2 & -> & Hf1); [lia|]. rewrite zlen_app in *.
  rewrite <- Hf1, <- app_assoc, zdrop_app, Hf1.
  split; cbn [set_in rlen buff]; [|autorewrite with zlen; lia]. rewrite <- app_assoc.
  eapply (repr_wrap _ (c2 ++ d) f2 c1); cbn [set_in buff rout rin];
    [by rewrite <- app_assoc|rewrite zlen_app; lia..|lia|lia].
Qed.

Lemma write_cut r pdata n free :
  tuya_ring_buff_free_size_get (Some r) = free -> 0 <= n -> 0 <= free ->
  tuya_ring_buff_write (Some r) (Some pdata) n
  = tuya_ring_buff_write (Some r) (Some pdata) (Z.min n free).
Proof.
  intros Hf Hn H0. unfold tuya_ring_buff_write. rewrite Hf, !GET_MIN_min.
  replace (Z.min free (Z.min n free)) with (Z.min free n) by lia.
  destruct (Z.eqb_spec n 0), (Z.eqb_spec (Z.min n free) 0); try done; [lia|].
  by destruct (Z.eqb_spec (Z.min free n) 0); [|lia].
Qed.

(** A write stores as much of the data as there is room for, behind what the
    buffer holds. *)
Lemma write_spec r c pdata n :
  ring_holds r c -> 0 <= n <= zlen pdata ->
  let k := Z.min n (rlen r - 1 - zlen c) in
  exists r', tuya_ring_buff_write (Some r) (Some pdata) n = Some (k, Some r')
    /\ ring_holds r' (c ++ take (Z.to_nat k) pdata) /\ rlen r' = rlen r.
Proof.
  intros Hh Hn k. pose proof (free_size_spec r c Hh) as Hf.
  assert (zlen c <= rlen r - 1) as Hc.
  { destruct Hh as ([a c' b E _ _ ? | c2 f c1 E _ _ ? ?] & -> & _); rewrite E, !zlen_app;
      [pose proof (zlen_nonneg a)|]; lia. }
  rewrite (write_cut _ _ _ _ Hf) by lia. fold k.
  assert (0 <= k <= n /\ k <= rlen r - 1 - zlen c) as Hk by lia. clearbody k.
  destruct (Z.eq_dec k 0) as [E0|E0].
  { rewrite E0. exists r. by rewrite take_0, app_nil_r. }
  destruct (split_at pdata k) as (d & rest & -> & Hd); [lia|]. rewrite <- Hd, ztake_app.
  revert Hk. destruct Hh as ([a c' b E Ho Hi Hb | c2 f c1 E Hi Ho Hp Hc1] & Hl & Hz); intros Hk.
  - eapply write_linear; eauto; [lia|]. rewrite E, !zlen_app in Hl. lia.
  - eapply write_wrapped; eauto; [lia|]. rewrite E, !zlen_app in Hl. rewrite zlen_app in Hk. lia.
Qed.

(** ** Taking bytes out *)

(** The two copies out of the buffer, shared by read and peek. *)
Lemma ring_front r c k :
  ring_holds r c -> 0 < k <= zlen c ->
  let tmp := Z.min (rlen r - rout r) k in
  exists s1 s2, slice (buff r) (rout r) tmp = Some s1
    /\ (0 < k - tmp -> slice (buff r) 0 (k - tmp) = Some s2)
    /\ (0 >= k - tmp -> s2 = [])
    /\ s1 ++ s2 = take (Z.to_nat k) c /\ zlen s1 = tmp /\ zlen s2 = k - tmp.
Proof.
  intros ([a c' b E Ho Hi Hb | c2 f c1 E Hi Ho Hf Hc1] & Hl & Hz) Hk tmp; unfold tmp; clear tmp;
    rewrite Hl, Ho; rewrite E in Hz |- *; rewrite !zlen_app in *.
  - destruct (split_at c' k) as (p & q & -> & Hp); [lia|]. rewrite zlen_app in *.
    pose proof (zlen_nonneg q). rewrite Z.min_r by lia. exists p, [].
    rewrite <- Hp, <- !app_assoc, slice_mid, ztake_app, app_nil_r, Z.sub_diag.
    split_and!; done || lia.
  - replace (zlen c2 + (zlen f + zlen c1) - (zlen c2 + zlen f)) with (zlen c1) by lia.
    destruct (Z.le_gt_cases k (zlen c1)) as [Hle|Hgt].
    + rewrite Z.min_r by lia. destruct (split_at c1 k) as (p & q & -> & Hp); [lia|].
      exists p, []. rewrite (app_assoc c2), <- Hp, <- zlen_app, slice_mid.
      rewrite <- (app_assoc p q c2), ztake_app, app_nil_r, Z.sub_diag. split_and!; done || lia.
    + rewrite Z.min_l by lia. destruct (split_at c2 (k - zlen c1)) as (p & q & -> & Hp); [lia|].
      exists c1, p. rewrite app_assoc, <- zlen_app, slice_suffix, <- !app_assoc, <- Hp, slice_prefix.
      replace k with (zlen (c1 ++ p)) by (rewrite zlen_app; lia).
      rewrite (app_assoc c1), ztake_app. split_and!; done || lia.
Qed.

(** The output index after [k] bytes are taken. *)
Definition advance (r : RINGBUFF_T) (k : Z) : Z :=
  let tmp := Z.min (rlen r - rout r) k in
  let o := if 0 <? k - tmp then k - tmp else rout r + tmp in
  if rlen r <=? o then 0 else o.

Lemma ring_advance r c k :
  ring_holds r c -> 0 < k <= zlen c ->
  ring_holds (set_out r (advance r k)) (drop (Z.to_nat k) c).
Proof.
  intros ([a c' b E Ho Hi Hb | c2 f c1 E Hi Ho Hf Hc1] & Hl & Hz) Hk; unfold advance;
    (split; [|done]); rewrite Hl, Ho; rewrite E in Hz |- *; rewrite !zlen_app in *.
  - destruct (split_at c' k) as (p & q & -> & Hp); [lia|]. rewrite zlen_app in *.
    pose proof (zlen_nonneg q). pose proof (zlen_nonneg a). rewrite Z.min_r, Z.sub_diag by lia.
    cbn [Z.ltb Z.compare]. destruct (Z.leb_spec (zlen a + (zlen p + zlen q + zlen b)) (zlen a + k));
      [lia|]. rewrite <- Hp, zdrop_app.
    eapply (repr_lin _ (a ++ p) q b); cbn [set_out buff rout rin];
      [rewrite E, <- !app_assoc; done|rewrite zlen_app; lia..|done].
  - replace (zlen c2 + (zlen f + zlen c1) - (zlen c2 + zlen f)) with (zlen c1) by lia.
    pose proof (zlen_nonneg c2). destruct (Z.lt_total k (zlen c1)) as [Hlt | [Heq | Hgt]].
    + rewrite Z.min_r, Z.sub_diag by lia. cbn [Z.ltb Z.compare].
      destruct (split_at c1 k) as (p & q & -> & Hp); [lia|]. rewrite zlen_app in *.
      destruct (Z.leb_spec (zlen c2 + (zlen f + (zlen p + zlen q))) (zlen c2 + zlen f + k)); [lia|].
      rewrite <- Hp, <- app_assoc, zdrop_app.
      eapply (repr_wrap _ c2 (f ++ p) q); cbn [set_out buff rout rin];
        [rewrite E, <- !app_assoc; done|done|rewrite ?zlen_app; lia..].
    + rewrite Z.min_r, Z.sub_diag by lia. cbn [Z.ltb Z.compare].
      destruct (Z.leb_spec (zlen c2 + (zlen f + zlen c1)) (zlen c2 + zlen f + k)); [|lia].
      rewrite Heq, zdrop_app. eapply (repr_lin _ [] c2 (f ++ c1)); cbn [set_out buff rout rin];
        [done|done|rewrite (zlen_nil (A:=Z)); lia|rewrite zlen_app; lia].
    + rewrite Z.min_l by lia. destruct (Z.ltb_spec 0 (k - zlen c1)); [|lia].
      destruct (Z.leb_spec (zlen c2 + (zlen f + zlen c1)) (k - zlen c1)); [lia|].
      destruct (split_at c2 (k - zlen c1)) as (p & q & -> & Hp); [lia|]. rewrite zlen_app in *.
      replace k with (zlen (c1 ++ p)) at 2 by (rewrite zlen_app; lia).
      rewrite (app_assoc c1), zdrop_app.
      eapply (repr_lin _ p q (f ++ c1)); cbn [set_out buff rout rin];
        [rewrite E, <- !app_assoc; done|lia..|rewrite zlen_app; lia].
Qed.

Lemma holds_bounds r c :
  ring_holds r c -> 0 <= rout r < rlen r /\ zlen c < rlen r /\ rlen r < 4294967296.
Proof.
  intros H. pose proof (zlen_nonneg c). destruct (ring_holds_spec _ _ H) as [(Hi & Ho & Hl & Hz) Hc].
  unfold is_u32 in Hz. split_and!; try lia.
  destruct H as ([a c' b E _ _ ? | c2 f c1 E _ _ ? ?] & -> & _); rewrite E, !zlen_app;
    [pose proof (zlen_nonneg a)|]; lia.
Qed.

(** The two copies into the caller's buffer. *)
Lemma copy_out (dst s1 s2 : list Z) :
  zlen s1 + zlen s2 <= zlen dst ->
  blit dst 0 s1 = Some (s1 ++ drop (Z.to_nat (zlen s1)) dst)
  /\ blit (s1 ++ drop (Z.to_nat (zlen s1)) dst) (zlen s1) s2
     = Some ((s1 ++ s2) ++ drop (Z.to_nat (zlen s1 + zlen s2)) dst).
Proof.
  intros H. pose proof (zlen_nonneg s1). pose proof (zlen_nonneg s2).
  split; [by apply blit_front; lia|]. rewrite blit_cursor by (rewrite zlen_drop; lia).
  rewrite drop_drop, <- app_assoc. by rewrite Z2Nat.inj_add by lia.
Qed.

(** A read moves the oldest bytes to the front of the destination. *)
Lemma read_spec r c dst n :
  ring_holds r c -> 0 <= n <= zlen dst ->
  let k := Z.min n (zlen c) in
  exists r', tuya_ring_buff_read (Some r) (Some dst) n
    = Some (k, Some r', Some (take (Z.to_nat k) c ++ drop (Z.to_nat k) dst))
    /\ ring_holds r' (drop (Z.to_nat k) c) /\ rlen r' = rlen r.
Proof.
  intros Hh Hn k. destruct (holds_bounds _ _ Hh) as (Ho & Hc & Hl). pose proof (zlen_nonneg c).
  unfold tuya_ring_buff_read. rewrite (used_size_spec r c Hh), !GET_MIN_min, (Z.min_comm (zlen c)).
  fold k. assert (0 <= k <= n /\ k <= zlen c) as Hk by lia.
  destruct (Z.eqb_spec n 0) as [->|Hn0].
  { exists r. by replace k with 0 by lia. }
  destruct (Z.eqb_spec k 0) as [Ek|Hk0]; [exists r; by rewrite Ek|]. clearbody k.
  destruct (ring_front r c k Hh) as (s1 & s2 & E1 & E2 & E2' & Es & L1 & L2); [lia|].
  destruct (copy_out dst s1 s2) as [B1 B2]; [lia|]. norm_widths. rewrite E1. cbn [mbind option_bind].
  rewrite B1. cbn [mbind option_bind]. exists (set_out r (advance r k)).
  split; [|split; [apply ring_advance; [done|lia]|done]]. rewrite <- Es.
  replace (zlen s1 + zlen s2) with k in B2 by lia. unfold advance. rewrite <- L1 in E2, E2' |- *.
  destruct (Z.ltb_spec 0 (k - zlen s1)) as [Hm|Hm].
  - rewrite E2 by lia. cbn [mbind option_bind]. rewrite B2. cbn [mbind option_bind]. norm_widths.
    by replace (zlen s1 + (k - zlen s1)) with k by lia.
  - rewrite (E2' ltac:(lia)), (zlen_nil (A:=Z)), app_nil_r in *. cbn [mbind option_bind].
    replace (zlen s1) with k by lia. rewrite Z.sub_diag, Z.add_0_r. norm_widths. done.
Qed.

(** A peek copies the same bytes. *)
Lemma peek_spec r c dst n :
  ring_holds r c -> 0 <= n <= zlen dst ->
  let k := Z.min n (zlen c) in
  tuya_ring_buff_peek (Some r) (Some dst) n
  = Some (k, Some (take (Z.to_nat k) c ++ drop (Z.to_nat k) dst)).
Proof.
  intros Hh Hn k. destruct (holds_bounds _ _ Hh) as (Ho & Hc & Hl). pose proof (zlen_nonneg c).
  unfold tuya_ring_buff_peek. rewrite (used_size_spec r c Hh), !GET_MIN_min.
  fold k. assert (0 <= k <= n /\ k <= zlen c) as Hk by lia.
  destruct (Z.eqb_spec n 0) as [->|Hn0]; [by replace k with 0 by lia|].
  destruct (Z.eqb_spec k 0) as [Ek|Hk0]; [by rewrite Ek|]. clearbody k.
  destruct (ring_front r c k Hh) as (s1 & s2 & E1 & E2 & E2' & Es & L1 & L2); [lia|].
  destruct (copy_out dst s1 s2) as [B1 B2]; [lia|]. norm_widths. rewrite E1. cbn [mbind option_bind].
  rewrite B1. cbn [mbind option_bind]. rewrite <- Es.
  replace (zlen s1 + zlen s2) with k in B2 by lia. rewrite <- L1 in E2, E2' |- *.
  replace (zlen s1 + (k - zlen s1)) with k by lia.
  destruct (Z.ltb_spec 0 (k - zlen s1)) as [Hm|Hm].
  - rewrite E2 by lia. cbn [mbind option_bind]. by rewrite B2.
  - rewrite (E2' ltac:(lia)), (zlen_nil (A:=Z)), app_nil_r in *. cbn [mbind option_bind].
    by replace (zlen s1) with k by lia.
Qed.

(** A discard drops them. *)
Lemma discard_spec r c n :
  ring_holds r c -> 0 <= n ->
  let k := Z.min n (zlen c) in
  exists r', tuya_ring_buff_discard (Some r) n = (k, Some r')
    /\ ring_holds r' (drop (Z.to_nat k) c) /\ rlen r' = rlen r.
Proof.
  intros Hh Hn k. destruct (holds_bounds _ _ Hh) as (Ho & Hc & Hl). pose proof (zlen_nonneg c).
  unfold tuya_ring_buff_discard. rewrite (used_size_spec r c Hh), !GET_MIN_min, (Z.min_comm (zlen c)).
  fold k. assert (0 <= k <= n /\ k <= zlen c) as Hk by lia.
  destruct (Z.eqb_spec n 0) as [->|Hn0].
  { exists r. by replace k with 0 by lia. }
  destruct (Z.eqb_spec k 0) as [Ek|Hk0]; [exists r; by rewrite Ek|]. clearbody k.
  exists (set_out r (advance r k)). split; [|split; [apply ring_advance; [done|lia]|done]].
  norm_widths. unfold advance. f_equal. lia.
Qed.

(** * Properties *)

(** What a client does with a ring buffer. *)
Inductive ring_op :=
| RWrite (data : list Z)
| RRead (n : Z)
| RDiscard (n : Z)
| RPeek (n : Z)
| RReset.

(** One operation on the implementation: the new state, the bytes accepted and
    the bytes that left the buffer. *)
Definition ring_exec (r : RINGBUFF_T) (op : ring_op) : option (RINGBUFF_T * list Z * list Z) :=
  match op with
  | RWrite data =>
      '(k, r') ← tuya_ring_buff_write (Some r) (Some data) (zlen data);
      r'' ← r'; Some (r'', take (Z.to_nat k) data, [])
  | RRead n =>
      '(k, r', d) ← tuya_ring_buff_read (Some r) (Some (zrepl n 0)) n;
      r'' ← r'; d' ← d; Some (r'', [], take (Z.to_nat k) d')
  | RDiscard n =>
      '(_, d) ← tuya_ring_buff_peek (Some r) (Some (zrepl n 0)) n;
      d' ← d; let '(k, r') := tuya_ring_buff_discard (Some r) n in
      r'' ← r'; Some (r'', [], take (Z.to_nat k) d')
  | RPeek n =>
      '(_, _) ← tuya_ring_buff_peek (Some r) (Some (zrepl n 0)) n; Some (r, [], [])
  | RReset =>
      let '(_, r') := tuya_ring_buff_reset (Some r) in
      r'' ← r'; Some (r'', [], contents r)
  end.

(** The abstract machine: a list of at most [cap] bytes. *)
Definition fifo_exec (cap : Z) (c : list Z) (op : ring_op) : list Z * list Z * list Z :=
  match op with
  | RWrite data => let acc := take (Z.to_nat (cap - zlen c)) data in (c ++ acc, acc, [])
  | RRead n | RDiscard n => (drop (Z.to_nat n) c, [], take (Z.to_nat n) c)
  | RPeek n => (c, [], [])
  | RReset => ([], [], c)
  end.

Definition op_ok (op : ring_op) : Prop :=
  match op with RRead n | RDiscard n | RPeek n => 0 <= n | _ => True end.

Lemma ztake_min {A} (l : list A) n : take (Z.to_nat (Z.min n (zlen l))) l = take (Z.to_nat n) l.
Proof.
  destruct (Z.le_gt_cases n (zlen l)); [by rewrite Z.min_l|].
  rewrite Z.min_r, !ztake_all by lia. done.
Qed.

Lemma zdrop_min {A} (l : list A) n : drop (Z.to_nat (Z.min n (zlen l))) l = drop (Z.to_nat n) l.
Proof.
  destruct (Z.le_gt_cases n (zlen l)); [by rewrite Z.min_l|].
  rewrite Z.min_r, !zdrop_all by lia. done.
Qed.

Lemma taken_front (c d : list Z) n :
  0 <= n -> take (Z.to_nat (Z.min n (zlen c))) (take (Z.to_nat (Z.min n (zlen c))) c ++ d)
            = take (Z.to_nat n) c.
Proof.
  intros. pose proof (zlen_nonneg c).
  replace (Z.min n (zlen c)) with (zlen (take (Z.to_nat (Z.min n (zlen c))) c)) at 1
    by (apply zlen_take; lia).
  by rewrite ztake_app, ztake_min.
Qed.

Lemma ring_exec_ok r op :
  ring_ok r -> op_ok op ->
  exists r' acc del, ring_exec r op = Some (r', acc, del)
    /\ ring_ok r' /\ rlen r' = rlen r
    /\ fifo_exec (rlen r - 1) (contents r) op = (contents r', acc, del).
Proof.
  intros Hok Hop. pose proof (ring_ok_holds r Hok) as Hh.
  destruct op as [data|n|n|n|]; cbn [ring_exec fifo_exec op_ok] in *.
  - destruct (write_spec r (contents r) data (zlen data) Hh) as (r' & -> & Hr' & Hl);
      [pose proof (zlen_nonneg data); lia|]. cbn [mbind option_bind].
    eexists _, _, _. split; [reflexivity|]. destruct (ring_holds_spec _ _ Hr') as [? ->].
    rewrite Z.min_comm, ztake_min. done.
  - destruct (read_spec r (contents r) (zrepl n 0) n Hh) as (r' & -> & Hr' & Hl);
      [rewrite zlen_zrepl; lia|]. cbn [mbind option_bind].
    eexists _, _, _. split; [reflexivity|]. destruct (ring_holds_spec _ _ Hr') as [? ->].
    rewrite taken_front, zdrop_min by done. done.
  - rewrite (peek_spec r (contents r) (zrepl n 0) n Hh) by (rewrite zlen_zrepl; lia).
    cbn [mbind option_bind].
    destruct (discard_spec r (contents r) n Hh Hop) as (r' & -> & Hr' & Hl). cbn [mbind option_bind].
    eexists _, _, _. split; [reflexivity|]. destruct (ring_holds_spec _ _ Hr') as [? ->].
    rewrite taken_front, zdrop_min by done. done.
  - rewrite (peek_spec r (contents r) (zrepl n 0) n Hh) by (rewrite zlen_zrepl; lia).
    cbn [mbind option_bind]. by eexists _, _, _.
  - eexists _, _, _. split; [reflexivity|]. destruct Hok as (Hi & Ho & Hl & Hz).
    split; [|done]. unfold ring_ok, ringbuff_init; cbn. split_and!; done || lia.
Qed.

(** (C8) The ring buffer refines a first-in first-out list of bytes of capacity
    [len - 1]: every operation, in every state with valid indices, completes
    without leaving its memory, keeps the indices valid and the length, and
    does to the contents exactly what the abstract machine does, the accepted
    and the delivered bytes included. *)
Theorem ring_refines_fifo r op :
  ring_ok r -> op_ok op ->
  exists r' acc del, ring_exec r op = Some (r', acc, del)
    /\ ring_ok r' /\ rlen r' = rlen r
    /\ fifo_exec (rlen r - 1) (contents r) op = (contents r', acc, del).
Proof. apply ring_exec_ok. Qed.

Lemma ring_refines_fifo_witness :
  let r := {| rtype := OVERFLOW_STOP_TYPE; rin := 1; rout := 3; rlen := 4; buff := [7; 0; 0; 9] |} in
  exists r' acc del, ring_exec r (RWrite [5; 6]) = Some (r', acc, del)
    /\ ring_ok r' /\ rlen r' = 4
    /\ fifo_exec 3 [9; 7] (RWrite [5; 6]) = (contents r', acc, del).
Proof.
  intros r. apply (ring_refines_fifo r (RWrite [5; 6])); [|exact I].
  unfold ring_ok, is_u32, r, zlen; cbn; lia.
Defined.

(** A whole session: the logs of accepted and delivered bytes. *)
Fixpoint ring_run (r : RINGBUFF_T) (ops : list ring_op) : option (RINGBUFF_T * list Z * list Z) :=
  match ops with
  | [] => Some (r, [], [])
  | op :: ops' =>
      '(r1, a1, d1) ← ring_exec r op;
      '(r2, a2, d2) ← ring_run r1 ops';
      Some (r2, a1 ++ a2, d1 ++ d2)
  end.

Lemma fifo_conserves cap c op c' acc del :
  op_ok op -> fifo_exec cap c op = (c', acc, del) -> c ++ acc = del ++ c'.
Proof.
  intros Hop. destruct op as [data|n|n|n|]; cbn; intros [= <- <- <-]; rewrite ?app_nil_r; auto;
    by rewrite take_drop.
Qed.

(** No byte is lost, invented or reordered over any session of writes,
    reads, discards, peeks and resets: what was in the buffer followed by all
    accepted bytes equals all delivered (or discarded) bytes followed by what
    is left; and every session runs to its end. *)
Theorem ring_session_conserves r ops :
  ring_ok r -> Forall op_ok ops ->
  exists r' acc del, ring_run r ops = Some (r', acc, del)
    /\ ring_ok r' /\ contents r ++ acc = del ++ contents r'.
Proof.
  intros Hok Hops. revert r Hok. induction Hops as [|op ops Hop _ IH]; intros r Hok.
  { exists r, [], []. by rewrite app_nil_r. }
  destruct (ring_exec_ok r op Hok Hop) as (r1 & a1 & d1 & E1 & Hok1 & _ & F1).
  destruct (IH r1 Hok1) as (r2 & a2 & d2 & E2 & Hok2 & C2).
  cbn [ring_run]. rewrite E1. cbn [mbind option_bind]. rewrite E2. cbn [mbind option_bind].
  eexists _, _, _. split; [reflexivity|]. split; [done|].
  by rewrite app_assoc, (fifo_conserves _ _ _ _ _ _ Hop F1), <- !app_assoc, C2.
Qed.

Lemma ring_session_conserves_witness :
  let r := {| rtype := OVERFLOW_STOP_TYPE; rin := 0; rout := 0; rlen := 4; buff := [0; 0; 0; 0] |} in
  exists r' acc del, ring_run r [RWrite [1; 2]; RRead 1; RWrite [3; 4; 5]; RDiscard 2] = Some (r', acc, del)
    /\ ring_ok r' /\ [] ++ acc = del ++ contents r'.
Proof.
  intros r. apply (ring_session_conserves r); [unfold ring_ok, is_u32, r, zlen; cbn; lia|].
  repeat constructor; cbn; lia.
Defined.

(** A created buffer is empty and valid. *)
Lemma ring_create_ok len type mem :
  0 < len < 4294967296 -> type = OVERFLOW_STOP_TYPE -> zlen mem = len ->
  exists r, tuya_ring_buff_create len type true (Some mem) = (OPRT_OK, Some r)
    /\ ring_ok r /\ contents r = [].
Proof.
  intros Hl -> Hm. unfold tuya_ring_buff_create. destruct (Z.eqb_spec len 0); [lia|].
  cbn [negb orb]. eexists. split; [reflexivity|]. split; [|done].
  unfold ring_ok, is_u32; cbn. lia.
Qed.
