(* ===== verification/TuyaList.v ===== *)
(** The intrusive doubly linked list of
    [tools/porting/adapter/utilities/src/tuya_list.c] and [tuya_list.h], on an
    explicit heap, and its refinement to a list of nodes. *)
From Stdlib Require Import ZArith Lia.
From stdpp Require Import base tactics option list numbers gmap.
From S2P Require Import Prelude.

(** * The heap

    A list node is an address; the two fields of [struct tuya_list_head] are
    two maps. A store to an address that is not allocated fails. *)

Abbreviation loc := positive.

Record lheap := { next : gmap loc loc; prev : gmap loc loc }.

Definition set_next (h : lheap) (p v : loc) : option lheap :=
  _ ← next h !! p; Some {| next := <[p := v]> (next h); prev := prev h |}.
Definition set_prev (h : lheap) (p v : loc) : option lheap :=
  _ ← prev h !! p; Some {| next := next h; prev := <[p := v]> (prev h) |}.

(** * Operations *)

Definition INIT_LIST_HEAD (h : lheap) (p : loc) : option lheap :=
  h ← set_next h p p; set_prev h p p.

Definition list_add_ (h : lheap) (pNew pPrev pNext : loc) : option lheap :=
  h ← set_prev h pNext pNew;
  h ← set_next h pNew pNext;
  h ← set_prev h pNew pPrev;
  set_next h pPrev pNew.

Definition list_del_ (h : lheap) (pPrev pNext : loc) : option lheap :=
  h ← set_prev h pNext pPrev;
  set_next h pPrev pNext.

Definition tuya_list_empty (h : lheap) (pHead : loc) : option bool :=
  n ← next h !! pHead; Some (bool_decide (n = pHead)).

Definition tuya_list_add (h : lheap) (pNew pHead : loc) : option lheap :=
  n ← next h !! pHead; list_add_ h pNew pHead n.

Definition tuya_list_add_tail (h : lheap) (pNew pHead : loc) : option lheap :=
  p ← prev h !! pHead; list_add_ h pNew p pHead.

Definition tuya_list_splice (h : lheap) (pList pHead : loc) : option lheap :=
  pFirst ← next h !! pList;
  if decide (pFirst = pList) then Some h
  else
    pLast ← prev h !! pList;
    pAt ← next h !! pHead;
    h ← set_prev h pFirst pHead;
    h ← set_next h pHead pFirst;
    h ← set_next h pLast pAt;
    set_prev h pAt pLast.

Definition tuya_list_del (h : lheap) (pEntry : loc) : option lheap :=
  p ← prev h !! pEntry; n ← next h !! pEntry; list_del_ h p n.

Definition tuya_list_del_init (h : lheap) (pEntry : loc) : option lheap :=
  p ← prev h !! pEntry; n ← next h !! pEntry;
  h ← list_del_ h p n; INIT_LIST_HEAD h pEntry.

(** [tuya_list_for_each]: the nodes the loop visits when its body leaves the
    list alone; [None] when the fuel does not reach the head again. *)
Fixpoint for_each_from (fuel : nat) (h : lheap) (pos head : loc) : option (list loc) :=
  if decide (pos = head) then Some []
  else match fuel with
  | O => None
  | S f => n ← next h !! pos; l ← for_each_from f h n head; Some (pos :: l)
  end.

Definition tuya_list_for_each (fuel : nat) (h : lheap) (head : loc) : option (list loc) :=
  n ← next h !! head; for_each_from fuel h n head.

(** [tuya_list_for_each_safe] with a body that unlinks the current node: the
    successor is read before the body runs. *)
Fixpoint for_each_safe_del (fuel : nat) (h : lheap) (p head : loc) : option lheap :=
  n ← next h !! p;
  if decide (p = head) then Some h
  else match fuel with
  | O => None
  | S f => h ← tuya_list_del h p; for_each_safe_del f h n head
  end.

(** * Chains

    [chain f a l b]: following [f] from [a] visits [l] and then reaches [b]. *)
Fixpoint chain (f : gmap loc loc) (a : loc) (l : list loc) (b : loc) : Prop :=
  match l with
  | [] => f !! a = Some b
  | x :: l' => f !! a = Some x /\ chain f x l' b
  end.

Definition last_of (a : loc) (l : list loc) : loc := List.last l a.
Definition first_of (l : list loc) (b : loc) : loc := hd b l.

Lemma last_of_cons a x l : last_of a (x :: l) = last_of x l.
Proof.
  unfold last_of. revert a x. induction l as [|y l IH]; intros a x; [done|].
  change (List.last (x :: y :: l) a) with (List.last (y :: l) a). by rewrite !IH.
Qed.

Lemma last_of_in a l : last_of a l ∈ a :: l.
Proof.
  revert a. induction l as [|x l IH]; intros a; [left|]. rewrite last_of_cons. right. apply IH.
Qed.

Lemma last_of_snoc a l x : last_of a (l ++ [x]) = x.
Proof. apply List.last_last. Qed.

Lemma last_of_reverse b l : last_of b (reverse l) = first_of l b.
Proof. destruct l; [done|]. rewrite reverse_cons, last_of_snoc. done. Qed.

Lemma first_of_reverse a l : first_of (reverse l) a = last_of a l.
Proof. rewrite <- (reverse_involutive l) at 2. by rewrite last_of_reverse. Qed.

Lemma first_of_in l b : first_of l b ∈ l ++ [b].
Proof. destruct l; set_solver. Qed.

Lemma chain_ext f g a l b : (forall x, x ∈ a :: l -> f !! x = g !! x) -> chain f a l b -> chain g a l b.
Proof.
  revert a. induction l as [|x l IH]; intros a H; cbn; rewrite <- (H a) by set_solver; [done|].
  intros [? ?]. split; [done|]. apply IH; [set_solver|done].
Qed.

Lemma chain_insert f a l b p v : p ∉ a :: l -> chain f a l b -> chain (<[p := v]> f) a l b.
Proof.
  intros Hp. apply chain_ext. intros x Hx. rewrite lookup_insert_ne; [done|]. by intros ->.
Qed.

Lemma chain_app f a l1 x l2 b : chain f a (l1 ++ x :: l2) b <-> chain f a l1 x /\ chain f x l2 b.
Proof.
  revert a. induction l1 as [|y l1 IH]; intros a; cbn; [done|]. rewrite IH. tauto.
Qed.

Lemma chain_lookup f a l b x : chain f a l b -> x ∈ a :: l -> is_Some (f !! x).
Proof.
  revert a. induction l as [|y l IH]; intros a; cbn.
  - intros H Hx. apply list_elem_of_singleton in Hx. subst. eauto.
  - intros [H1 H2] Hx. apply elem_of_cons in Hx as [->|Hx]; eauto.
Qed.

(** The successor of the last node before a cut. *)
Lemma chain_cut f a l1 l2 b : chain f a (l1 ++ l2) b -> f !! last_of a l1 = Some (first_of l2 b).
Proof.
  revert a. induction l1 as [|x l1 IH]; intros a.
  - destruct l2; cbn; tauto.
  - cbn [app chain]. intros [_ H]. rewrite last_of_cons. auto.
Qed.

Lemma chain_first f a l b : chain f a l b -> f !! a = Some (first_of l b).
Proof. apply (chain_cut f a [] l b). Qed.

(** Linking a node in, and out, in one direction. *)
Lemma chain_link f a l1 l2 b p :
  NoDup (a :: l1 ++ l2) -> p ∉ a :: l1 ++ l2 -> chain f a (l1 ++ l2) b ->
  chain (<[last_of a l1 := p]> (<[p := first_of l2 b]> f)) a (l1 ++ p :: l2) b.
Proof.
  revert a. induction l1 as [|x l1 IH]; intros a Hnd Hp Hc.
  - cbn [app last_of List.last] in *. unfold last_of. cbn [List.last chain app].
    rewrite lookup_insert_eq. split; [done|].
    apply NoDup_cons in Hnd as [Ha _]. apply not_elem_of_cons in Hp as [Hpa Hp].
    destruct l2 as [|y l2]; cbn in *.
    + rewrite lookup_insert_ne, lookup_insert_eq by done. done.
    + rewrite lookup_insert_ne, lookup_insert_eq by done. split; [done|].
      apply chain_insert; [done|]. apply chain_insert; [done|]. apply Hc.
  - cbn [app chain] in *. rewrite last_of_cons. destruct Hc as [Hf Hc].
    apply NoDup_cons in Hnd as [Ha Hnd]. pose proof (last_of_in x l1).
    split.
    + rewrite !lookup_insert_ne; [done|set_solver|set_solver].
    + apply IH; [done|set_solver|done].
Qed.

Lemma chain_unlink f a l1 e l2 b :
  NoDup (a :: l1 ++ e :: l2) -> chain f a (l1 ++ e :: l2) b ->
  chain (<[last_of a l1 := first_of l2 b]> f) a (l1 ++ l2) b.
Proof.
  revert a. induction l1 as [|x l1 IH]; intros a Hnd Hc.
  - cbn [app] in *. unfold last_of. cbn [List.last]. destruct Hc as [_ Hc].
    destruct l2 as [|y l2]; cbn [chain first_of hd app] in *; rewrite lookup_insert_eq; [done|].
    split; [done|]. apply chain_insert; [|apply Hc].
    apply NoDup_cons in Hnd as [Ha _]. set_solver.
  - cbn [app chain] in *. rewrite last_of_cons. destruct Hc as [Hf Hc].
    apply NoDup_cons in Hnd as [Ha Hnd]. pose proof (last_of_in x l1). split.
    + rewrite lookup_insert_ne; [done|set_solver].
    + by apply IH.
Qed.

(** * The representation of a list *)

(** [dll h head l]: the nodes of the list [head] are [l], in order. *)
Record dll (h : lheap) (head : loc) (l : list loc) : Prop := {
  dll_nodup : NoDup (head :: l);
  dll_next : chain (next h) head l head;
  dll_prev : chain (prev h) head (reverse l) head
}.

Lemma dll_nodup_rev h head l : dll h head l -> NoDup (head :: reverse l).
Proof.
  intros [Hn _ _]. apply NoDup_cons in Hn as [? ?]. apply NoDup_cons.
  split; [by rewrite elem_of_reverse|by rewrite reverse_Permutation].
Qed.

(** Heaps that agree outside a set of nodes. *)
Definition same_except (h h' : lheap) (s : list loc) : Prop :=
  forall x, x ∉ s -> next h' !! x = next h !! x /\ prev h' !! x = prev h !! x.

(** Allocated nodes stay allocated. *)
Definition allocated (h : lheap) (x : loc) : Prop := is_Some (next h !! x) /\ is_Some (prev h !! x).

Lemma dll_allocated h head l x : dll h head l -> x ∈ head :: l -> allocated h x.
Proof.
  intros [_ Hn Hp] Hx. split; [by eapply chain_lookup|]. eapply chain_lookup; [done|].
  apply elem_of_cons in Hx as [->|?]; [left|right; by rewrite elem_of_reverse].
Qed.

Lemma set_next_ok h p v :
  is_Some (next h !! p) -> set_next h p v = Some {| next := <[p := v]> (next h); prev := prev h |}.
Proof. intros [? E]. unfold set_next. by rewrite E. Qed.

Lemma set_prev_ok h p v :
  is_Some (prev h !! p) -> set_prev h p v = Some {| next := next h; prev := <[p := v]> (prev h) |}.
Proof. intros [? E]. unfold set_prev. by rewrite E. Qed.

Lemma insert_is_Some {V} (m : gmap loc V) p v x : is_Some (m !! x) -> is_Some (<[p := v]> m !! x).
Proof. intros H. destruct (decide (p = x)); [subst; rewrite lookup_insert_eq|rewrite lookup_insert_ne]; eauto. Qed.

Lemma init_ok h p :
  allocated h p -> exists h', INIT_LIST_HEAD h p = Some h' /\ dll h' p [] /\ same_except h h' [p].
Proof.
  intros [Hn Hp]. unfold INIT_LIST_HEAD. rewrite set_next_ok by done. cbn [mbind option_bind].
  rewrite set_prev_ok by done. eexists. split; [done|]. split.
  - split; cbn; rewrite ?lookup_insert_eq; auto. apply NoDup_singleton.
  - intros x Hx. cbn. rewrite !lookup_insert_ne by set_solver. done.
Qed.

Lemma nodup_middle (a p : loc) l1 l2 :
  NoDup (a :: l1 ++ p :: l2) <-> NoDup (a :: l1 ++ l2) /\ p ∉ a :: l1 ++ l2.
Proof.
  rewrite <- Permutation_middle, Permutation_swap, (NoDup_cons p). tauto.
Qed.

(** Insertion in the middle. *)
Lemma list_add_ok h head l1 l2 p :
  dll h head (l1 ++ l2) -> allocated h p -> p ∉ head :: l1 ++ l2 ->
  exists h', list_add_ h p (last_of head l1) (first_of l2 head) = Some h'
    /\ dll h' head (l1 ++ p :: l2) /\ same_except h h' (p :: head :: l1 ++ l2).
Proof.
  intros Hd [Hpn Hpp] Hp. pose proof (dll_nodup_rev _ _ _ Hd) as Hnr.
  destruct (dll_allocated _ _ _ (last_of head l1) Hd) as [Hln _].
  { pose proof (last_of_in head l1). set_solver. }
  destruct (dll_allocated _ _ _ (first_of l2 head) Hd) as [_ Hfp].
  { pose proof (first_of_in l2 head). set_solver. }
  unfold list_add_. rewrite set_prev_ok by done. cbn [mbind option_bind].
  rewrite set_next_ok by done. cbn [mbind option_bind].
  rewrite set_prev_ok by (by apply insert_is_Some). cbn [mbind option_bind].
  rewrite set_next_ok by (by apply insert_is_Some). eexists. split; [done|].
  destruct Hd as [Hnd Hn Hv]. split; [split; cbn [next prev]|].
  - by apply nodup_middle.
  - by apply chain_link.
  - rewrite reverse_app, reverse_cons, <- app_assoc. cbn [app]. rewrite reverse_app in *.
    rewrite insert_insert_ne by (pose proof (first_of_in l2 head); set_solver).
    rewrite <- (last_of_reverse head l2), <- (first_of_reverse head l1).
    apply chain_link; [done| |done]. set_solver.
  - intros x Hx. cbn [next prev]. pose proof (last_of_in head l1). pose proof (first_of_in l2 head).
    rewrite !lookup_insert_ne by set_solver. done.
Qed.

(** Removal from the middle. *)
Lemma list_del_ok h head l1 e l2 :
  dll h head (l1 ++ e :: l2) ->
  exists h', tuya_list_del h e = Some h'
    /\ dll h' head (l1 ++ l2) /\ same_except h h' (head :: l1 ++ l2)
    /\ next h' !! e = next h !! e /\ prev h' !! e = prev h !! e.
Proof.
  intros Hd. pose proof (dll_nodup_rev _ _ _ Hd) as Hnr. pose proof Hd as [Hnd Hn Hv].
  rewrite reverse_app, reverse_cons, <- app_assoc in Hnr, Hv. cbn [app] in Hnr, Hv.
  pose proof Hn as Hn'. apply chain_app in Hn' as [_ Hne]. apply (chain_cut _ _ [] l2) in Hne.
  pose proof Hv as Hv'. apply chain_app in Hv' as [_ Hpe]. apply (chain_cut _ _ [] (reverse l1)) in Hpe.
  rewrite first_of_reverse in Hpe. unfold last_of in Hne, Hpe. cbn [List.last] in Hne, Hpe.
  fold (last_of head l1) in Hpe.
  unfold tuya_list_del, list_del_. rewrite Hpe, Hne. cbn [mbind option_bind].
  destruct (dll_allocated _ _ _ (last_of head l1) Hd) as [Hln _].
  { pose proof (last_of_in head l1). set_solver. }
  destruct (dll_allocated _ _ _ (first_of l2 head) Hd) as [_ Hfp].
  { pose proof (first_of_in l2 head). set_solver. }
  rewrite set_prev_ok by done. cbn [mbind option_bind]. rewrite set_next_ok by done.
  eexists. split; [done|].
  assert (e ∉ head :: l1 ++ l2) as He.
  { apply nodup_middle in Hnd. apply Hnd. }
  pose proof (last_of_in head l1). pose proof (first_of_in l2 head).
  split_and!; [split; cbn [next prev]|intros x Hx; cbn [next prev]..|cbn [next]|cbn [prev]];
    try (rewrite !lookup_insert_ne by set_solver; done).
  - apply nodup_middle in Hnd. apply Hnd.
  - by eapply chain_unlink.
  - rewrite reverse_app, <- (last_of_reverse head l2), <- (first_of_reverse head l1).
    by eapply chain_unlink.
Qed.

(** * The public operations *)

Lemma add_ok h head l p :
  dll h head l -> allocated h p -> p ∉ head :: l ->
  exists h', tuya_list_add h p head = Some h'
    /\ dll h' head (p :: l) /\ same_except h h' (p :: head :: l).
Proof.
  intros Hd Ha Hp. unfold tuya_list_add.
  rewrite (chain_first _ _ _ _ (dll_next _ _ _ Hd)). cbn [mbind option_bind].
  by apply (list_add_ok h head [] l p).
Qed.

Lemma add_tail_ok h head l p :
  dll h head l -> allocated h p -> p ∉ head :: l ->
  exists h', tuya_list_add_tail h p head = Some h'
    /\ dll h' head (l ++ [p]) /\ same_except h h' (p :: head :: l).
Proof.
  intros Hd Ha Hp. unfold tuya_list_add_tail.
  rewrite (chain_first _ _ _ _ (dll_prev _ _ _ Hd)), first_of_reverse. cbn [mbind option_bind].
  destruct (list_add_ok h head l [] p) as (h' & E & D & S); rewrite ?app_nil_r in *; try done.
  eauto.
Qed.

Lemma empty_ok h head l : dll h head l -> tuya_list_empty h head = Some (bool_decide (l = [])).
Proof.
  intros Hd. unfold tuya_list_empty.
  rewrite (chain_first _ _ _ _ (dll_next _ _ _ Hd)). cbn [mbind option_bind]. f_equal.
  apply bool_decide_ext. destruct l as [|x l]; cbn; [done|]. split; [|done].
  intros ->. destruct Hd as [Hnd _ _]. apply NoDup_cons in Hnd as [Hn _]. set_solver.
Qed.

Lemma for_each_from_ok fuel h a l head :
  (length l <= fuel)%nat -> head ∉ l -> chain (next h) a l head ->
  for_each_from fuel h (first_of l head) head = Some l.
Proof.
  revert a l. induction fuel as [|f IH]; intros a [|x l] Hl Hn Hc; cbn in Hl |- *;
    rewrite ?decide_True by done; try done; [lia|].
  rewrite decide_False by set_solver. destruct Hc as [_ Hc].
  rewrite (chain_first _ _ _ _ Hc). cbn [mbind option_bind].
  rewrite (IH x l) by (lia || set_solver || done). done.
Qed.

(** A traversal visits the nodes in order. *)
Lemma for_each_ok fuel h head l :
  dll h head l -> (length l <= fuel)%nat -> tuya_list_for_each fuel h head = Some l.
Proof.
  intros [Hnd Hn _] Hf. unfold tuya_list_for_each. rewrite (chain_first _ _ _ _ Hn).
  cbn [mbind option_bind]. apply NoDup_cons in Hnd as [Hh _].
  by eapply for_each_from_ok.
Qed.

Lemma for_each_safe_del_ok fuel h head l :
  (length l <= fuel)%nat -> dll h head l ->
  exists h', for_each_safe_del fuel h (first_of l head) head = Some h' /\ dll h' head []
    /\ same_except h h' (head :: l).
Proof.
  revert h l. induction fuel as [|f IH]; intros h [|x l] Hl Hd; cbn in Hl; [|lia| |];
    cbn [for_each_safe_del first_of hd].
  1-2: rewrite (chain_first _ _ _ _ (dll_next _ _ _ Hd)); cbn [mbind option_bind];
       rewrite decide_True by done; eexists; split; [done|]; split; [done|]; intros ? ?; done.
  pose proof (dll_next _ _ _ Hd) as [_ Hx]. rewrite (chain_first _ _ _ _ Hx). cbn [mbind option_bind].
  pose proof (dll_nodup _ _ _ Hd) as Hnd. apply NoDup_cons in Hnd as [Hh _].
  rewrite decide_False by set_solver.
  destruct (list_del_ok h head [] x l Hd) as (h1 & E1 & D1 & S1 & _). rewrite E1. cbn [mbind option_bind].
  destruct (IH h1 l) as (h2 & E2 & D2 & S2); [lia|done|]. exists h2. split; [done|]. split; [done|].
  intros y Hy. destruct (S1 y) as [<- <-]; [set_solver|]. apply S2. set_solver.
Qed.

(** ** Splicing *)

Definition tail_chain (f : gmap loc loc) (l : list loc) (b : loc) : Prop :=
  match l with [] => True | y :: l' => chain f y l' b end.

(** The last node of [m] is made to point to what follows it. *)
Lemma chain_redirect f a m c l b :
  NoDup (a :: m ++ l) -> chain f a m c -> tail_chain f l b ->
  chain (<[last_of a m := first_of l b]> f) a (m ++ l) b.
Proof.
  revert a. induction m as [|x m IH]; intros a Hnd Hc Ht.
  - cbn [app] in *. unfold last_of. cbn [List.last]. apply NoDup_cons in Hnd as [Ha _].
    destruct l as [|y l]; cbn; rewrite lookup_insert_eq; [done|]. split; [done|].
    by apply chain_insert.
  - cbn [app chain] in *. rewrite last_of_cons. destruct Hc as [Hf Hc].
    apply NoDup_cons in Hnd as [Ha Hnd]. pose proof (last_of_in x m). split.
    + rewrite lookup_insert_ne; [done|set_solver].
    + by apply IH.
Qed.

Lemma chain_tail f a l b : chain f a l b -> tail_chain f l b.
Proof. destruct l; cbn; tauto. Qed.

Lemma tail_chain_insert f l b p v : p ∉ l -> tail_chain f l b -> tail_chain (<[p := v]> f) l b.
Proof. destruct l; [done|]. apply chain_insert. Qed.

Lemma tail_chain_redirect f L m b :
  NoDup m -> m <> [] -> tail_chain f m L -> tail_chain (<[last_of L m := b]> f) m b.
Proof.
  destruct m as [|x m]; [done|]. intros Hnd _ Hc. cbn [tail_chain] in *. rewrite last_of_cons.
  pose proof (chain_redirect f x m L [] b) as H. rewrite app_nil_r in H. by apply H.
Qed.

(** One direction of a splice. *)
Lemma chain_splice f L m H l :
  NoDup (H :: m ++ l) -> m <> [] -> chain f L m L -> chain f H l H ->
  chain (<[last_of L m := first_of l H]> (<[H := first_of m L]> f)) H (m ++ l) H.
Proof.
  destruct m as [|x m]; [done|]. intros Hnd _ [_ Hm] Hl. rewrite last_of_cons.
  cbn [app chain first_of hd]. apply NoDup_cons in Hnd as [HH Hnd]. pose proof (last_of_in x m). split.
  - rewrite lookup_insert_ne, lookup_insert_eq; [done|]. cbn [app] in HH. set_solver.
  - apply (chain_redirect _ x m L); [done|apply chain_insert; [cbn [app] in HH; set_solver|done]|].
    apply tail_chain_insert; [cbn [app] in HH; set_solver|by eapply chain_tail].
Qed.

Lemma chain_splice_rev f L m H l :
  NoDup (H :: l ++ m) -> m <> [] -> chain f L m L -> chain f H l H ->
  chain (<[last_of H l := first_of m L]> (<[last_of L m := H]> f)) H (l ++ m) H.
Proof.
  intros Hnd Hne Hm Hl. replace (first_of m L) with (first_of m H) by (by destruct m).
  assert (last_of L m ∈ m) as Hlast.
  { clear -Hne. destruct m; [done|]. rewrite last_of_cons. apply last_of_in. }
  rewrite app_comm_cons in Hnd. apply NoDup_app in Hnd as (Hnl & Hdis & Hnm).
  apply (chain_redirect _ H l H).
  - rewrite app_comm_cons. by apply NoDup_app.
  - apply chain_insert; [|done]. intros Hin. by apply (Hdis _ Hin).
  - apply tail_chain_redirect; [done|done|by eapply chain_tail].
Qed.

(** Splicing a list into another puts its nodes, in order, in front of
    those of the target, and the links of both directions agree; an empty
    list is left alone. *)
Theorem tuya_list_splice_ok h L m H l :
  dll h L m -> dll h H l -> NoDup (L :: H :: m ++ l) ->
  exists h', tuya_list_splice h L H = Some h' /\ dll h' H (m ++ l).
Proof.
  intros Dm Dl Hnd. unfold tuya_list_splice. apply NoDup_cons in Hnd as [HL Hnd].
  rewrite (chain_first _ _ _ _ (dll_next _ _ _ Dm)). cbn [mbind option_bind].
  destruct (decide (m = [])) as [->|Hne].
  { rewrite decide_True by done. by exists h. }
  assert (first_of m L ∈ m) as Hfm by (destruct m; [done|left]).
  assert (last_of L m ∈ m) as Hlm.
  { clear -Hne. destruct m; [done|]. rewrite last_of_cons. apply last_of_in. }
  rewrite decide_False by (intros E; rewrite E in Hfm; set_solver).
  rewrite (chain_first _ _ _ _ (dll_prev _ _ _ Dm)), (chain_first _ _ _ _ (dll_next _ _ _ Dl)).
  cbn [mbind option_bind]. rewrite first_of_reverse.
  destruct (dll_allocated _ _ _ (first_of m L) Dm) as [_ H1]; [set_solver|].
  destruct (dll_allocated _ _ _ H Dl) as [H2 _]; [set_solver|].
  destruct (dll_allocated _ _ _ (last_of L m) Dm) as [H3 _]; [set_solver|].
  destruct (dll_allocated _ _ _ (first_of l H) Dl) as [_ H4].
  { pose proof (first_of_in l H). set_solver. }
  rewrite set_prev_ok by done. cbn [mbind option_bind]. rewrite set_next_ok by done.
  cbn [mbind option_bind]. rewrite set_next_ok by (by apply insert_is_Some).
  cbn [mbind option_bind]. rewrite set_prev_ok by (by apply insert_is_Some).
  eexists. split; [done|]. split; cbn [next prev]; [done| |].
  - apply chain_splice; [done|done|apply Dm|apply Dl].
  - rewrite reverse_app, <- (last_of_reverse H l), <- (last_of_reverse L m), <- (first_of_reverse L m).
    apply chain_splice_rev; [|intros E; apply Hne; by rewrite <- (reverse_involutive m), E|apply Dm|apply Dl].
    rewrite <- reverse_app. apply NoDup_cons in Hnd as [? ?].
    apply NoDup_cons. split; [by rewrite elem_of_reverse|by rewrite reverse_Permutation].
Qed.

Lemma tuya_list_splice_ok_witness :
  let h := {| next := list_to_map [(1, 2); (2, 3); (3, 1); (4, 5); (5, 4)];
              prev := list_to_map [(1, 3); (2, 1); (3, 2); (4, 5); (5, 4)] |}%positive in
  exists h', tuya_list_splice h 1 4 = Some h' /\ dll h' 4 [2; 3; 5]%positive.
Proof.
  intros h. apply (tuya_list_splice_ok h 1 [2; 3]%positive 4 [5]%positive); repeat split; try done;
    apply (bool_decide_unpack _); vm_compute; exact I.
Defined.

(** ** Sequences of operations *)

Inductive list_op := LAdd (p : loc) | LAddTail (p : loc) | LDel (p : loc) | LDelInit (p : loc).

Definition exec_heap (h : lheap) (head : loc) (op : list_op) : option lheap :=
  match op with
  | LAdd p => tuya_list_add h p head
  | LAddTail p => tuya_list_add_tail h p head
  | LDel p => tuya_list_del h p
  | LDelInit p => tuya_list_del_init h p
  end.

(** What the operation means on the list of nodes; [None] where the caller
    breaks its side of the contract. *)
Definition exec_list (head : loc) (l : list loc) (op : list_op) : option (list loc) :=
  match op with
  | LAdd p => if decide (p ∈ head :: l) then None else Some (p :: l)
  | LAddTail p => if decide (p ∈ head :: l) then None else Some (l ++ [p])
  | LDel p | LDelInit p => if decide (p ∈ l) then Some (filter (.≠ p) l) else None
  end.

Definition op_node (op : list_op) : loc :=
  match op with LAdd p | LAddTail p | LDel p | LDelInit p => p end.

Fixpoint run_heap (h : lheap) (head : loc) (ops : list list_op) : option lheap :=
  match ops with [] => Some h | op :: ops' => h' ← exec_heap h head op; run_heap h' head ops' end.

Fixpoint run_list (head : loc) (l : list loc) (ops : list list_op) : option (list loc) :=
  match ops with [] => Some l | op :: ops' => l' ← exec_list head l op; run_list head l' ops' end.

Definition keeps (h h' : lheap) : Prop := forall x, allocated h x -> allocated h' x.

Lemma set_next_keeps h p v h' : set_next h p v = Some h' -> keeps h h'.
Proof.
  unfold set_next. destruct (next h !! p); [|done]. intros [= <-] x [? ?].
  split; [by apply insert_is_Some|done].
Qed.

Lemma set_prev_keeps h p v h' : set_prev h p v = Some h' -> keeps h h'.
Proof.
  unfold set_prev. destruct (prev h !! p); [|done]. intros [= <-] x [? ?].
  split; [done|by apply insert_is_Some].
Qed.

(** A heap operation is a sequence of field stores, and each of them keeps
    what is allocated. *)
Ltac solve_keeps :=
  repeat match goal with
  | H : mbind _ ?m = Some _ |- _ => destruct m eqn:?; cbn [mbind option_bind] in H; [|done]
  end;
  let x := fresh "x" in let Hx := fresh "Hx" in
  intros x Hx;
  repeat match goal with
  | H : set_next ?a _ _ = Some _, Ha : allocated ?a _ |- _ => apply (set_next_keeps _ _ _ _ H) in Ha
  | H : set_prev ?a _ _ = Some _, Ha : allocated ?a _ |- _ => apply (set_prev_keeps _ _ _ _ H) in Ha
  end; done.

Lemma exec_keeps h head op h' : exec_heap h head op = Some h' -> keeps h h'.
Proof.
  destruct op; cbn; unfold tuya_list_add, tuya_list_add_tail, tuya_list_del, tuya_list_del_init,
    INIT_LIST_HEAD, list_add_, list_del_; intros H; solve_keeps.
Qed.

Lemma filter_absent (p : loc) (l : list loc) : p ∉ l -> filter (.≠ p) l = l.
Proof.
  induction l as [|x l IH]; intros Hp; [done|]. apply not_elem_of_cons in Hp as [Hx Hp].
  rewrite filter_cons_True by (by intros ->). by rewrite IH.
Qed.

Lemma filter_middle (p : loc) (l1 l2 : list loc) : p ∉ l1 ++ l2 -> filter (.≠ p) (l1 ++ p :: l2) = l1 ++ l2.
Proof.
  intros Hp. rewrite filter_app, filter_cons_False by tauto. rewrite <- filter_app.
  by apply filter_absent.
Qed.

Lemma del_exec h head l p :
  dll h head l -> p ∈ l ->
  exists h', tuya_list_del h p = Some h' /\ dll h' head (filter (.≠ p) l)
    /\ next h' !! p = next h !! p /\ prev h' !! p = prev h !! p.
Proof.
  intros Hd Hp. apply list_elem_of_split in Hp as (l1 & l2 & ->).
  pose proof (dll_nodup _ _ _ Hd) as Hnd. apply nodup_middle in Hnd as [_ Hnd].
  rewrite filter_middle by set_solver.
  destruct (list_del_ok h head l1 p l2 Hd) as (h' & E & D & _ & ? & ?). by exists h'.
Qed.

Lemma exec_refines h head l op l' :
  dll h head l -> allocated h (op_node op) -> exec_list head l op = Some l' ->
  exists h', exec_heap h head op = Some h' /\ dll h' head l'.
Proof.
  intros Hd Ha. destruct op as [p|p|p|p]; cbn in *; destruct (decide _) as [Hin|Hin]; try done;
    intros [= <-].
  - destruct (add_ok h head l p) as (h' & E & D & _); [done..|]. by exists h'.
  - destruct (add_tail_ok h head l p) as (h' & E & D & _); [done..|]. by exists h'.
  - destruct (del_exec h head l p) as (h' & E & D & _); [done..|]. by exists h'.
  - destruct (del_exec h head l p) as (h1 & E & D & Hn & Hp); [done..|].
    unfold tuya_list_del_init. unfold tuya_list_del in E. destruct Ha as [[n En] [q Eq]].
    rewrite Eq, En in *. cbn [mbind option_bind] in *. rewrite E. cbn [mbind option_bind].
    destruct (init_ok h1 p) as (h2 & E2 & _ & S2); [by split; rewrite ?Hn, ?Hp; eauto|].
    exists h2. split; [done|]. destruct D as [Dn Dx Dp].
    assert (p ∉ head :: filter (.≠ p) l) as Hpn.
    { apply not_elem_of_cons. split; [|rewrite list_elem_of_filter; tauto].
      intros ->. apply (dll_nodup _ _ _) in Hd. apply NoDup_cons in Hd. tauto. }
    split; [done|eapply chain_ext; [|exact Dx]|eapply chain_ext; [|exact Dp]];
      intros x Hx; symmetry; apply S2; set_solver.
Qed.

(** Any sequence of insertions at either end and removals, on allocated
    nodes, has on the heap exactly the effect it has on the list of nodes:
    whenever the abstract list accepts the sequence (no node inserted twice,
    no absent node removed), the code runs it without touching a node that is
    not allocated and ends with the heap representing the resulting list in
    both directions, so that a traversal returns it. *)
Theorem tuya_list_refines h head l ops l' :
  dll h head l -> Forall (fun op => allocated h (op_node op)) ops ->
  run_list head l ops = Some l' ->
  exists h', run_heap h head ops = Some h' /\ dll h' head l'
    /\ tuya_list_for_each (length l') h' head = Some l'.
Proof.
  intros Hd Hall. revert h l Hd Hall. induction ops as [|op ops IH]; intros h l Hd Hall; cbn.
  - intros [= <-]. exists h. split; [done|]. split; [done|]. by apply for_each_ok.
  - apply Forall_cons in Hall as [Ha Hall].
    destruct (exec_list head l op) as [l1|] eqn:El; [|done]. cbn [mbind option_bind]. intros Hr.
    destruct (exec_refines h head l op l1) as (h1 & E & D1); [done..|]. rewrite E.
    cbn [mbind option_bind]. apply (IH h1 l1 D1); [|done].
    eapply Forall_impl; [exact Hall|]. intros o. by apply (exec_keeps _ _ _ _ E).
Qed.

Lemma tuya_list_refines_witness :
  let h := {| next := list_to_map [(1, 1); (2, 9); (3, 9); (4, 9)];
              prev := list_to_map [(1, 1); (2, 9); (3, 9); (4, 9)] |}%positive in
  exists h', run_heap h 1 [LAddTail 2; LAdd 3; LAddTail 4; LDelInit 2]%positive = Some h'
    /\ dll h' 1 [3; 4]%positive /\ tuya_list_for_each 2 h' 1 = Some [3; 4]%positive.
Proof.
  intros h. apply (tuya_list_refines h 1%positive []).
  - split; try done. apply NoDup_singleton.
  - repeat constructor; vm_compute; eauto.
  - reflexivity.
Defined.
