(* ===== verification/Queue.v ===== *)
(** The bounded queue of [tools/porting/adapter/utilities/src/tuya_queue.c], on
    the linked list of [TuyaList], and the first-in first-out contract it
    implements, stated as a class its clients are verified against. *)
From Stdlib Require Import ZArith Lia.
From stdpp Require Import base tactics option list numbers gmap.
From S2P Require Import Prelude TuyaList.

Local Open Scope Z_scope.

Section Queue.
(** An item is an opaque object of [item_size] bytes that is copied whole. *)
Context {A : Type}.

(** * Data *)

(** The memory: the list links and the [data] member of each queue item. *)
Record qmem := { links : lheap; items : gmap loc A }.

Record TUYA_QUEUE_T := {
  item_size : Z;    (* uint32_t *)
  queue_len : Z;    (* uint32_t *)
  queue_free : Z;   (* uint32_t *)
  head : loc        (* &queue->head *)
}.

Inductive ENQUEUE_POLICY_E := POLICY_SEND_TO_BACK | POLICY_SEND_TO_FRONT.

Definition set_free (q : TUYA_QUEUE_T) (n : Z) : TUYA_QUEUE_T :=
  {| item_size := item_size q; queue_len := queue_len q; queue_free := n; head := head q |}.

(** [tkl_system_malloc] of a list node hands out address [p], with unspecified
    links; [tkl_system_free] gives the node back. *)
Definition node_alloc (h : lheap) (p : loc) : lheap :=
  {| next := <[p := p]> (next h); prev := <[p := p]> (prev h) |}.
Definition node_free (h : lheap) (p : loc) : lheap :=
  {| next := delete p (next h); prev := delete p (prev h) |}.

(** * Operations

    A handle is a pointer, [None] the null pointer. [None] as the result is an
    access to memory that is not allocated. [alloc] is the answer of the
    allocator; the lock is held around every access to the list, so each
    operation is one atomic step. *)

Definition enqueue (m : qmem) (handle : option TUYA_QUEUE_T) (item : option A)
    (policy : ENQUEUE_POLICY_E) (alloc : option loc)
  : option (Z * qmem * option TUYA_QUEUE_T) :=
  match handle, item with
  | Some q, Some x =>
    match alloc with
    | None => Some (OPRT_MALLOC_FAILED, m, handle)
    | Some p =>
      h ← INIT_LIST_HEAD (node_alloc (links m) p) p;
      let m' := {| links := h; items := <[p := x]> (items m) |} in
      if 0 <? queue_free q then
        h' ← (match policy with
              | POLICY_SEND_TO_BACK => tuya_list_add_tail h p (head q)
              | POLICY_SEND_TO_FRONT => tuya_list_add h p (head q)
              end);
        Some (OPRT_OK, {| links := h'; items := items m' |},
              Some (set_free q (u32 (queue_free q - 1))))
      else Some (OPRT_EXCEED_UPPER_LIMIT,
                 {| links := node_free h p; items := delete p (items m') |}, handle)
    end
  | _, _ => Some (OPRT_INVALID_PARM, m, handle)
  end.

(** [qhead] is the address of the list head inside the allocated object,
    [lock_ok] the outcome of the mutex creation. *)
Definition tuya_queue_create (m : qmem) (qlen size : Z) (dest : bool)
    (qhead : option loc) (lock_ok : bool) : Z * qmem * option TUYA_QUEUE_T :=
  if negb dest || (qlen =? 0) || (size =? 0) then (OPRT_INVALID_PARM, m, None)
  else match qhead with
  | None => (OPRT_MALLOC_FAILED, m, None)
  | Some hd =>
    if lock_ok then
      match INIT_LIST_HEAD (node_alloc (links m) hd) hd with
      | Some h => (OPRT_OK, {| links := h; items := items m |},
          Some {| item_size := size; queue_len := qlen; queue_free := qlen; head := hd |})
      | None => (OPRT_COM_ERROR, m, None)
      end
    else (OPRT_COM_ERROR, m, None)
  end.

Definition tuya_queue_input (m : qmem) (handle : option TUYA_QUEUE_T) (item : option A)
    (alloc : option loc) := enqueue m handle item POLICY_SEND_TO_BACK alloc.

Definition tuya_queue_input_instant (m : qmem) (handle : option TUYA_QUEUE_T) (item : option A)
    (alloc : option loc) := enqueue m handle item POLICY_SEND_TO_FRONT alloc.

(** The item leaves through [out] when the caller gave a buffer. *)
Definition tuya_queue_output (m : qmem) (handle : option TUYA_QUEUE_T) (want : bool)
  : option (Z * qmem * option TUYA_QUEUE_T * option A) :=
  match handle with
  | None => Some (OPRT_INVALID_PARM, m, None, None)
  | Some q =>
    if queue_free q <? queue_len q then
      p ← next (links m) !! head q;
      x ← items m !! p;
      h ← tuya_list_del (links m) p;
      Some (OPRT_OK, {| links := node_free h p; items := delete p (items m) |},
            Some (set_free q (u32 (queue_free q + 1))), if want then Some x else None)
    else Some (OPRT_NOT_FOUND, m, handle, None)
  end.

Definition tuya_queue_peek (m : qmem) (handle : option TUYA_QUEUE_T) (want : bool)
  : option (Z * option A) :=
  match handle with
  | Some q =>
    if negb want then Some (OPRT_INVALID_PARM, None)
    else if queue_free q <? queue_len q then
      p ← next (links m) !! head q; x ← items m !! p; Some (OPRT_OK, Some x)
    else Some (OPRT_NOT_FOUND, None)
  | None => Some (OPRT_INVALID_PARM, None)
  end.

(** The traversal: the callback may change the item in place and stops the
    loop by returning false. The list is not changed, so the nodes visited
    are those of [tuya_list_for_each]. *)
Fixpoint traverse_nodes (cb : A -> A * bool) (its : gmap loc A) (ps : list loc)
  : option (gmap loc A) :=
  match ps with
  | [] => Some its
  | p :: ps' =>
      x ← its !! p;
      let '(x', go) := cb x in
      if go then traverse_nodes cb (<[p := x']> its) ps' else Some (<[p := x']> its)
  end.

Definition tuya_queue_traverse (fuel : nat) (m : qmem) (handle : option TUYA_QUEUE_T)
    (cb : option (A -> A * bool)) : option (Z * qmem) :=
  match handle, cb with
  | Some q, Some f =>
      ps ← tuya_list_for_each fuel (links m) (head q);
      its ← traverse_nodes f (items m) ps;
      Some (OPRT_OK, {| links := links m; items := its |})
  | _, _ => Some (OPRT_INVALID_PARM, m)
  end.

(** The clearing loop: the successor is read, then the node is unlinked and
    freed. *)
Fixpoint clear_loop (fuel : nat) (m : qmem) (p hd : loc) : option qmem :=
  n ← next (links m) !! p;
  if decide (p = hd) then Some m
  else match fuel with
  | O => None
  | S f =>
      h ← tuya_list_del (links m) p;
      clear_loop f {| links := node_free h p; items := delete p (items m) |} n hd
  end.

Definition tuya_queue_clear (fuel : nat) (m : qmem) (handle : option TUYA_QUEUE_T)
  : option (Z * qmem * option TUYA_QUEUE_T) :=
  match handle with
  | None => Some (OPRT_INVALID_PARM, m, None)
  | Some q =>
      p ← next (links m) !! head q;
      m' ← clear_loop fuel m p (head q);
      Some (OPRT_OK, m', Some (set_free q (queue_len q)))
  end.

(** [get_batch]: the loop over the nodes with its two counters; [dst] is the
    caller's array of items. *)
Fixpoint batch_loop (its : gmap loc A) (ps : list loc) (start num index count : Z) (dst : list A)
  : option (Z * Z * list A) :=
  match ps with
  | [] => Some (index, count, dst)
  | p :: ps' =>
      if index <? start then batch_loop its ps' start num (u32 (index + 1)) count dst
      else if num <=? count then Some (index, count, dst)
      else x ← its !! p; dst' ← wr dst count x;
           batch_loop its ps' start num index (u32 (count + 1)) dst'
  end.

Definition tuya_queue_get_batch (fuel : nat) (m : qmem) (handle : option TUYA_QUEUE_T)
    (start : Z) (dst : option (list A)) (num : Z) : option (Z * option (list A)) :=
  match handle, dst with
  | Some q, Some d =>
    if num =? 0 then Some (OPRT_INVALID_PARM, dst)
    else
      ps ← tuya_list_for_each fuel (links m) (head q);
      '(index, count, d') ← batch_loop (items m) ps start num 0 0 d;
      Some (if negb (index =? start) || negb (count =? num) then OPRT_NOT_FOUND else OPRT_OK, Some d')
  | _, _ => Some (OPRT_INVALID_PARM, dst)
  end.

(** [while ((count-- > 0) && (OPRT_OK == op_ret))], [n] rounds left. *)
Fixpoint delete_loop (n : nat) (m : qmem) (handle : option TUYA_QUEUE_T) (op_ret : Z)
  : option (Z * qmem * option TUYA_QUEUE_T) :=
  match n with
  | O => Some (op_ret, m, handle)
  | S n' =>
      if op_ret =? OPRT_OK then
        '(rc, m', q', _) ← tuya_queue_output m handle false;
        delete_loop n' m' q' rc
      else Some (op_ret, m, handle)
  end.

Definition tuya_queue_delete_batch (m : qmem) (handle : option TUYA_QUEUE_T) (num : Z)
  : option (Z * qmem * option TUYA_QUEUE_T) :=
  match handle with
  | None => Some (OPRT_INVALID_PARM, m, None)
  | Some _ => if num =? 0 then Some (OPRT_INVALID_PARM, m, handle)
              else delete_loop (Z.to_nat num) m handle OPRT_OK
  end.

Definition tuya_queue_get_free_num (handle : option TUYA_QUEUE_T) : Z :=
  match handle with None => 0 | Some q => queue_free q end.
Definition tuya_queue_get_used_num (handle : option TUYA_QUEUE_T) : Z :=
  match handle with None => 0 | Some q => u32 (queue_len q - queue_free q) end.
Definition tuya_queue_get_max_num (handle : option TUYA_QUEUE_T) : Z :=
  match handle with None => 0 | Some q => queue_len q end.

(** * Representation *)

(** The queue [q] holds the items [xs], oldest first. *)
Record queue_holds (m : qmem) (q : TUYA_QUEUE_T) (ps : list loc) (xs : list A) : Prop := {
  qh_list : dll (links m) (head q) ps;
  qh_items : Forall2 (fun p x => items m !! p = Some x) ps xs;
  qh_free : queue_free q = queue_len q - zlen xs;
  qh_cap : zlen xs <= queue_len q;
  qh_len : is_u32 (queue_len q)
}.

(** An address the allocator may hand out. *)
Definition fresh (q : TUYA_QUEUE_T) (ps : list loc) (p : loc) : Prop :=
  p ∉ head q :: ps.

Lemma zlen_Forall2 {B C} (P : B -> C -> Prop) l k : Forall2 P l k -> zlen l = zlen k.
Proof. intros H. unfold zlen. by rewrite (Forall2_length _ _ _ H). Qed.

(** Links of other nodes do not matter. *)
Lemma dll_outside h h' hd l p :
  dll h hd l -> p ∉ hd :: l -> same_except h h' [p] -> dll h' hd l.
Proof.
  intros [Hn Hx Hp] Hni Hs. split; [done|eapply chain_ext; [|exact Hx]|eapply chain_ext; [|exact Hp]];
    intros x Hx'; symmetry; apply Hs; set_solver.
Qed.

Lemma same_except_trans h1 h2 h3 s : same_except h1 h2 s -> same_except h2 h3 s -> same_except h1 h3 s.
Proof. intros H1 H2 x Hx. destruct (H1 x Hx) as [<- <-]. auto. Qed.

Lemma same_except_alloc h p : same_except h (node_alloc h p) [p].
Proof. intros x Hx. cbn. rewrite !lookup_insert_ne by set_solver. done. Qed.

Lemma same_except_free h p : same_except h (node_free h p) [p].
Proof. intros x Hx. cbn. rewrite !lookup_delete_ne by set_solver. done. Qed.

Lemma items_ext (its its' : gmap loc A) ps xs :
  (forall p, p ∈ ps -> its' !! p = its !! p) ->
  Forall2 (fun p x => its !! p = Some x) ps xs -> Forall2 (fun p x => its' !! p = Some x) ps xs.
Proof.
  intros He H. revert He. induction H as [|q y ps xs Hq H IH]; intros He; constructor.
  - rewrite He by left. done.
  - apply IH. intros p Hp. apply He. by right.
Qed.

Lemma items_insert (its : gmap loc A) ps xs p (x : A) :
  p ∉ ps -> Forall2 (fun q y => its !! q = Some y) ps xs ->
  Forall2 (fun q y => <[p := x]> its !! q = Some y) ps xs.
Proof. intros Hp. apply items_ext. intros q Hq. rewrite lookup_insert_ne by set_solver. done. Qed.

Lemma items_delete (its : gmap loc A) ps (xs : list A) p :
  p ∉ ps -> Forall2 (fun q y => its !! q = Some y) ps xs ->
  Forall2 (fun q y => delete p its !! q = Some y) ps xs.
Proof. intros Hp. apply items_ext. intros q Hq. rewrite lookup_delete_ne by set_solver. done. Qed.

(** A new node is there and the list is not touched. *)
Lemma node_init h hd l p :
  dll h hd l -> p ∉ hd :: l ->
  exists h', INIT_LIST_HEAD (node_alloc h p) p = Some h' /\ dll h' hd l /\ allocated h' p
    /\ same_except h h' [p].
Proof.
  intros Hd Hp. destruct (init_ok (node_alloc h p) p) as (h' & E & Hd' & Hs).
  { split; cbn; rewrite lookup_insert_eq; eauto. }
  pose proof (same_except_trans _ _ _ _ (same_except_alloc h p) Hs) as Hs'.
  exists h'. split_and!; [done|by eapply dll_outside| |done].
  eapply dll_allocated; [done|left].
Qed.

(** * The operations on the representation *)

Definition place (policy : ENQUEUE_POLICY_E) {B} (xs : list B) (x : B) : list B :=
  match policy with POLICY_SEND_TO_BACK => xs ++ [x] | POLICY_SEND_TO_FRONT => x :: xs end.

Lemma zlen_place policy {B} (xs : list B) x : zlen (place policy xs x) = zlen xs + 1.
Proof. destruct policy; cbn [place]; rewrite ?zlen_app, ?zlen_one, ?zlen_cons; lia. Qed.

Lemma enqueue_ok m q ps xs x policy p :
  queue_holds m q ps xs -> fresh q ps p -> zlen xs < queue_len q ->
  exists m' q', enqueue m (Some q) (Some x) policy (Some p) = Some (OPRT_OK, m', Some q')
    /\ queue_holds m' q' (place policy ps p) (place policy xs x) /\ queue_len q' = queue_len q
    /\ head q' = head q.
Proof.
  intros [Hl Hi Hf Hc Hu] Hp Hlt. unfold enqueue.
  destruct (node_init _ _ _ _ Hl Hp) as (h & -> & Hd & Ha & Hs). cbn [mbind option_bind].
  destruct (Z.ltb_spec 0 (queue_free q)); [|lia]. pose proof (zlen_nonneg xs).
  unfold is_u32 in Hu. norm_widths.
  assert (exists h', match policy with
              | POLICY_SEND_TO_BACK => tuya_list_add_tail h p (head q)
              | POLICY_SEND_TO_FRONT => tuya_list_add h p (head q)
              end = Some h' /\ dll h' (head q) (place policy ps p)) as (h' & -> & Hd').
  { destruct policy; [destruct (add_tail_ok h (head q) ps p) as (h' & ? & ? & _)|
      destruct (add_ok h (head q) ps p) as (h' & ? & ? & _)]; eauto. }
  cbn [mbind option_bind]. eexists _, _. split; [reflexivity|]. split; [|done].
  split; cbn [links items head set_free queue_free queue_len]; [done| | | |done].
  - assert (Forall2 (fun q0 y => <[p := x]> (items m) !! q0 = Some y) ps xs)
      by (apply items_insert; [by apply not_elem_of_cons in Hp as [_ ?]|done]).
    destruct policy; cbn [place]; [apply Forall2_app; [done|constructor; [|constructor]]|constructor];
      try done; by rewrite lookup_insert_eq.
  - rewrite zlen_place. lia.
  - rewrite zlen_place. lia.
Qed.

Lemma enqueue_full m q ps xs x policy p :
  queue_holds m q ps xs -> fresh q ps p -> zlen xs = queue_len q ->
  exists m', enqueue m (Some q) (Some x) policy (Some p) = Some (OPRT_EXCEED_UPPER_LIMIT, m', Some q)
    /\ queue_holds m' q ps xs.
Proof.
  intros [Hl Hi Hf Hc Hu] Hp Hlt. unfold enqueue.
  destruct (node_init _ _ _ _ Hl Hp) as (h & -> & Hd & Ha & Hs). cbn [mbind option_bind].
  destruct (Z.ltb_spec 0 (queue_free q)); [lia|]. eexists. split; [reflexivity|].
  split; cbn [links items]; try done.
  - eapply dll_outside; [exact Hd|done|apply same_except_free].
  - apply not_elem_of_cons in Hp as [_ Hp]. apply items_delete; [done|]. by apply items_insert.
Qed.

(** Unlinking and freeing the first node. *)
Lemma free_first m hd p ps x xs :
  dll (links m) hd (p :: ps) -> Forall2 (fun q y => items m !! q = Some y) (p :: ps) (x :: xs) ->
  next (links m) !! hd = Some p /\ items m !! p = Some x
  /\ exists h, tuya_list_del (links m) p = Some h
    /\ dll (node_free h p) hd ps
    /\ Forall2 (fun q y => delete p (items m) !! q = Some y) ps xs.
Proof.
  intros Hd Hi. apply Forall2_cons in Hi as [Hp Hi]. pose proof (dll_nodup _ _ _ Hd) as Hnd.
  split; [apply (dll_next _ _ _ Hd)|]. split; [done|].
  destruct (list_del_ok _ hd [] p ps Hd) as (h & E & D & _). exists h. split; [done|].
  apply (nodup_middle hd p [] ps) in Hnd as [_ Hnd]. cbn [app] in Hnd. split.
  - eapply dll_outside; [exact D|done|apply same_except_free].
  - apply items_delete; [set_solver|done].
Qed.

Lemma output_ok m q ps x xs want :
  queue_holds m q ps (x :: xs) ->
  exists m' q' ps', tuya_queue_output m (Some q) want
      = Some (OPRT_OK, m', Some q', if want then Some x else None)
    /\ queue_holds m' q' ps' xs /\ queue_len q' = queue_len q /\ head q' = head q.
Proof.
  intros [Hl Hi Hf Hc Hu]. unfold tuya_queue_output. rewrite zlen_cons in *.
  pose proof (zlen_nonneg xs). destruct ps as [|p ps]; [by apply Forall2_nil_inv_l in Hi|].
  destruct (Z.ltb_spec (queue_free q) (queue_len q)); [|lia].
  destruct (free_first _ _ _ _ _ _ Hl Hi) as (E1 & E2 & h & E & D & I).
  rewrite E1. cbn [mbind option_bind]. rewrite E2. cbn [mbind option_bind]. rewrite E. cbn [mbind option_bind]. unfold is_u32 in Hu. norm_widths.
  eexists _, _, ps. split; [reflexivity|]. split; [|done].
  split; cbn [links items head set_free queue_free queue_len]; try done; lia.
Qed.

Lemma output_empty m q ps want :
  queue_holds m q ps [] -> tuya_queue_output m (Some q) want = Some (OPRT_NOT_FOUND, m, Some q, None).
Proof.
  intros [Hl Hi Hf Hc Hu]. unfold tuya_queue_output. rewrite (zlen_nil (A:=A)) in *.
  by destruct (Z.ltb_spec (queue_free q) (queue_len q)); [lia|].
Qed.

Lemma clear_loop_ok fuel m hp ps xs :
  (length ps <= fuel)%nat -> dll (links m) hp ps ->
  Forall2 (fun q y => items m !! q = Some y) ps xs ->
  exists m', clear_loop fuel m (first_of ps hp) hp = Some m' /\ dll (links m') hp [].
Proof.
  revert m ps xs. induction fuel as [|f IH]; intros m [|p ps] xs Hl Hd Hi; cbn in Hl; [|lia| |];
    cbn [clear_loop first_of hd].
  1-2: rewrite (chain_first _ _ _ _ (dll_next _ _ _ Hd)); cbn [mbind option_bind];
       rewrite decide_True by done; eauto.
  destruct xs as [|x xs]; [by apply Forall2_nil_inv_r in Hi|].
  pose proof (dll_next _ _ _ Hd) as [_ Hx]. rewrite (chain_first _ _ _ _ Hx). cbn [mbind option_bind].
  pose proof (dll_nodup _ _ _ Hd) as Hnd. apply NoDup_cons in Hnd as [Hh _].
  rewrite decide_False by set_solver.
  destruct (free_first _ _ _ _ _ _ Hd Hi) as (_ & _ & h & -> & D & I). cbn [mbind option_bind].
  by eapply IH; [lia| |].
Qed.

Lemma clear_ok fuel m q ps xs :
  queue_holds m q ps xs -> (length xs <= fuel)%nat ->
  exists m' q', tuya_queue_clear fuel m (Some q) = Some (OPRT_OK, m', Some q')
    /\ queue_holds m' q' [] [] /\ queue_len q' = queue_len q /\ head q' = head q.
Proof.
  intros [Hl Hi Hf Hc Hu] Hfu. unfold tuya_queue_clear.
  rewrite (chain_first _ _ _ _ (dll_next _ _ _ Hl)). cbn [mbind option_bind].
  destruct (clear_loop_ok fuel m (head q) ps xs) as (m' & -> & D);
    [by rewrite (Forall2_length _ _ _ Hi)|done|done|].
  cbn [mbind option_bind]. eexists _, _. split; [reflexivity|]. split; [|done].
  split; cbn [links items head set_free queue_free queue_len]; try done; rewrite (zlen_nil (A:=A));
    [lia|unfold is_u32 in Hu; lia].
Qed.

(** The effect of a traversal on the items. *)
Fixpoint visit (cb : A -> A * bool) (xs : list A) : list A :=
  match xs with
  | [] => []
  | x :: xs' => let '(x', go) := cb x in if go then x' :: visit cb xs' else x' :: xs'
  end.

Lemma visit_len cb xs : zlen (visit cb xs) = zlen xs.
Proof.
  induction xs as [|x xs IH]; cbn [visit]; [done|]. destruct (cb x) as [x' []]; rewrite !zlen_cons; lia.
Qed.

Lemma traverse_nodes_ok cb (its : gmap loc A) ps xs :
  NoDup ps -> Forall2 (fun q y => its !! q = Some y) ps xs ->
  exists its', traverse_nodes cb its ps = Some its'
    /\ Forall2 (fun q y => its' !! q = Some y) ps (visit cb xs)
    /\ (forall q, q ∉ ps -> its' !! q = its !! q).
Proof.
  revert its xs. induction ps as [|p ps IH]; intros its xs Hnd Hi.
  { apply Forall2_nil_inv_l in Hi as ->. exists its. by repeat constructor. }
  destruct xs as [|x xs]; [by apply Forall2_nil_inv_r in Hi|].
  apply Forall2_cons in Hi as [Hp Hi]. apply NoDup_cons in Hnd as [Hnp Hnd].
  cbn [traverse_nodes visit]. rewrite Hp. cbn [mbind option_bind]. destruct (cb x) as [x' []].
  - destruct (IH (<[p := x']> its) xs Hnd) as (its' & -> & F & O); [by apply items_insert|].
    exists its'. split; [done|]. split.
    + constructor; [|done]. rewrite O by done. by rewrite lookup_insert_eq.
    + intros q Hq. rewrite O by set_solver. rewrite lookup_insert_ne by set_solver. done.
  - eexists. split; [done|]. split.
    + constructor; [by rewrite lookup_insert_eq|by apply items_insert].
    + intros q Hq. rewrite lookup_insert_ne by set_solver. done.
Qed.

Lemma traverse_ok fuel m q ps xs cb :
  queue_holds m q ps xs -> (length xs <= fuel)%nat ->
  exists m', tuya_queue_traverse fuel m (Some q) (Some cb) = Some (OPRT_OK, m')
    /\ queue_holds m' q ps (visit cb xs).
Proof.
  intros [Hl Hi Hf Hc Hu] Hfu. unfold tuya_queue_traverse.
  rewrite (for_each_ok fuel _ _ ps Hl) by (by rewrite (Forall2_length _ _ _ Hi)).
  cbn [mbind option_bind]. pose proof (dll_nodup _ _ _ Hl) as Hnd. apply NoDup_cons in Hnd as [_ Hnd].
  destruct (traverse_nodes_ok cb _ _ _ Hnd Hi) as (its & -> & F & _). cbn [mbind option_bind].
  eexists. split; [reflexivity|]. split; cbn [links items]; try done; by rewrite visit_len.
Qed.

(** ** Batches *)

Lemma batch_take its ps xs start num index count pre suf :
  Forall2 (fun q y => its !! q = Some y) ps xs -> start <= index ->
  zlen pre = count -> count <= num -> num <= zlen (pre ++ suf) -> is_u32 num ->
  let k := Z.min (num - count) (zlen xs) in
  batch_loop its ps start num index count (pre ++ suf)
  = Some (index, count + k, pre ++ take (Z.to_nat k) xs ++ drop (Z.to_nat k) suf).
Proof.
  intros Hi Hs. revert count pre suf. induction Hi as [|p x ps xs Hp Hi IH];
    intros count pre suf Hc Hn Hd Hu k.
  { unfold k. rewrite (zlen_nil (A:=A)), Z.min_r, Z.add_0_r by lia. done. }
  cbn [batch_loop]. destruct (Z.ltb_spec index start); [lia|]. unfold k.
  rewrite zlen_cons. pose proof (zlen_nonneg xs). pose proof (zlen_nonneg pre).
  destruct (Z.leb_spec num count) as [Hge|Hlt].
  { by replace (Z.min (num - count) (1 + zlen xs)) with 0 by lia; rewrite Z.add_0_r. }
  rewrite Hp. cbn [mbind option_bind]. destruct suf as [|y suf].
  { rewrite app_nil_r in Hd. lia. }
  rewrite <- Hc, wr_mid. cbn [mbind option_bind]. unfold is_u32 in Hu. norm_widths.
  specialize (IH (count + 1) (pre ++ [x]) suf). rewrite <- app_assoc in IH. cbn [app] in IH.
  rewrite zlen_app, zlen_cons in Hd. rewrite Hc, IH.
  - replace (Z.min (num - count) (1 + zlen xs)) with (1 + Z.min (num - (count + 1)) (zlen xs)) by lia.
    rewrite Z2Nat.inj_add by lia. change (Z.to_nat 1) with 1%nat. cbn [Nat.add take drop].
    rewrite Z.add_assoc, <- !app_assoc. done.
  - rewrite zlen_app, zlen_one. lia.
  - lia.
  - rewrite zlen_app, zlen_cons. lia.
  - done.
Qed.

Lemma batch_skip its ps xs start num index dst :
  Forall2 (fun q y => its !! q = Some y) ps xs -> 0 <= index <= start -> start < 4294967296 ->
  batch_loop its ps start num index 0 dst
  = if start - index <=? zlen xs
    then batch_loop its (drop (Z.to_nat (start - index)) ps) start num start 0 dst
    else Some (index + zlen xs, 0, dst).
Proof.
  intros Hi. revert index. induction Hi as [|p x ps xs Hp Hi IH]; intros index Hs Hu.
  - rewrite (zlen_nil (A:=A)). destruct (Z.leb_spec (start - index) 0).
    + by replace index with start by lia; rewrite drop_nil.
    + cbn. by rewrite Z.add_0_r.
  - cbn [batch_loop]. rewrite zlen_cons. pose proof (zlen_nonneg xs).
    destruct (Z.ltb_spec index start) as [Hlt|Hge].
    + norm_widths. rewrite IH by lia.
      destruct (Z.leb_spec (start - (index + 1)) (zlen xs)), (Z.leb_spec (start - index) (1 + zlen xs));
        try lia; [|by rewrite Z.add_assoc].
      replace (Z.to_nat (start - index)) with (S (Z.to_nat (start - (index + 1)))) by lia. done.
    + replace index with start by lia. rewrite Z.sub_diag.
      destruct (Z.leb_spec 0 (1 + zlen xs)); [|lia].
      change (drop (Z.to_nat 0) (p :: ps)) with (p :: ps). cbn [batch_loop]. by rewrite Z.ltb_irrefl.
Qed.

(** [get_batch] returns exactly the items at positions [start, start + num)
    when the queue has them, and reports otherwise. *)
Lemma get_batch_ok fuel m q ps xs start num dst :
  queue_holds m q ps xs -> (length xs <= fuel)%nat -> 0 <= start -> is_u32 start ->
  0 < num <= zlen dst -> is_u32 num ->
  exists d, tuya_queue_get_batch fuel m (Some q) start (Some dst) num
    = Some (if start + num <=? zlen xs then OPRT_OK else OPRT_NOT_FOUND, Some d)
    /\ (start + num <= zlen xs ->
        d = take (Z.to_nat num) (drop (Z.to_nat start) xs) ++ drop (Z.to_nat num) dst).
Proof.
  intros [Hl Hi Hf Hc Hu] Hfu Hs Hsu Hn Hnu. unfold tuya_queue_get_batch, is_u32 in *.
  destruct (Z.eqb_spec num 0); [lia|]. pose proof (zlen_nonneg xs).
  rewrite (for_each_ok fuel _ _ ps Hl) by (by rewrite (Forall2_length _ _ _ Hi)).
  cbn [mbind option_bind]. rewrite (batch_skip _ _ xs) by (done || lia). rewrite Z.sub_0_r.
  destruct (Z.leb_spec start (zlen xs)) as [Hle|Hgt].
  - rewrite (batch_take _ _ (drop (Z.to_nat start) xs) start num start 0 [] dst);
      [|by apply Forall2_drop|done|done|lia|cbn; lia|done].
    cbn [mbind option_bind app]. rewrite zlen_drop, Z.sub_0_r, Z.add_0_l, Z.eqb_refl by lia.
    cbn [negb orb]. eexists. split.
    + repeat f_equal. destruct (Z.eqb_spec (Z.min num (zlen xs - start)) num),
        (Z.leb_spec (start + num) (zlen xs)); done || lia.
    + intros Hok. by rewrite Z.min_l by lia.
  - cbn [mbind option_bind]. destruct (Z.eqb_spec (0 + zlen xs) start); [lia|]. cbn [negb orb].
    destruct (Z.leb_spec (start + num) (zlen xs)); [lia|]. eexists. split; [done|]. lia.
Qed.

Lemma delete_loop_ok n m q ps xs :
  queue_holds m q ps xs -> (n <= length xs)%nat ->
  exists m' q' ps', delete_loop n m (Some q) OPRT_OK = Some (OPRT_OK, m', Some q')
    /\ queue_holds m' q' ps' (drop n xs) /\ queue_len q' = queue_len q /\ head q' = head q.
Proof.
  revert m q ps xs. induction n as [|n IH]; intros m q ps xs Hq Hn.
  { eexists _, _, _. split; [reflexivity|]. by rewrite drop_0. }
  destruct xs as [|x xs]; cbn in Hn; [lia|]. cbn [delete_loop drop].
  change (OPRT_OK =? OPRT_OK) with true. cbv iota.
  destruct (output_ok m q ps x xs false Hq) as (m1 & q1 & ps1 & -> & H1 & L1 & G1).
  cbn [mbind option_bind]. destruct (IH m1 q1 ps1 xs H1) as (m2 & q2 & ps2 & E & H2 & L2 & G2); [lia|].
  rewrite E. eexists _, _, _. split; [reflexivity|]. split; [done|]. by rewrite <- L1, <- G1.
Qed.

Lemma delete_loop_short n m q ps xs :
  queue_holds m q ps xs -> (length xs < n)%nat ->
  exists m' q' ps', delete_loop n m (Some q) OPRT_OK = Some (OPRT_NOT_FOUND, m', Some q')
    /\ queue_holds m' q' ps' [] /\ queue_len q' = queue_len q /\ head q' = head q.
Proof.
  revert m q ps xs. induction n as [|n IH]; intros m q ps xs Hq Hn; [lia|].
  cbn [delete_loop]. change (OPRT_OK =? OPRT_OK) with true. cbv iota.
  destruct xs as [|x xs]; cbn in Hn.
  - rewrite (output_empty m q ps false Hq). cbn [mbind option_bind].
    exists m, q, ps. by destruct n.
  - destruct (output_ok m q ps x xs false Hq) as (m1 & q1 & ps1 & -> & H1 & L1 & G1).
    cbn [mbind option_bind]. destruct (IH m1 q1 ps1 xs H1) as (m2 & q2 & ps2 & E & H2 & L2 & G2); [lia|].
    rewrite E. eexists _, _, _. split; [reflexivity|]. split; [done|]. by rewrite <- L1, <- G1.
Qed.
End Queue.

Arguments qmem : clear implicits.

(** * Properties *)

Section Refinement.
Context {A : Type}.

Inductive queue_op :=
| QInput (x : A) (p : loc)        (* p: the node the allocator hands out *)
| QInstant (x : A) (p : loc)
| QOutput
| QPeek
| QTraverse (cb : A -> A * bool)
| QDelete (num : Z)
| QClear.

(** One operation on the implementation: return code, new state, item out. *)
Definition queue_exec (m : qmem A) (q : TUYA_QUEUE_T) (op : queue_op)
  : option (Z * qmem A * option TUYA_QUEUE_T * option A) :=
  let fuel := Z.to_nat (queue_len q) in
  match op with
  | QInput x p => '(rc, m', q') ← tuya_queue_input m (Some q) (Some x) (Some p); Some (rc, m', q', None)
  | QInstant x p =>
      '(rc, m', q') ← tuya_queue_input_instant m (Some q) (Some x) (Some p); Some (rc, m', q', None)
  | QOutput => tuya_queue_output m (Some q) true
  | QPeek => '(rc, x) ← tuya_queue_peek m (Some q) true; Some (rc, m, Some q, x)
  | QTraverse cb => '(rc, m') ← tuya_queue_traverse fuel m (Some q) (Some cb); Some (rc, m', Some q, None)
  | QDelete n => '(rc, m', q') ← tuya_queue_delete_batch m (Some q) n; Some (rc, m', q', None)
  | QClear => '(rc, m', q') ← tuya_queue_clear fuel m (Some q); Some (rc, m', q', None)
  end.

(** The specification: a list of at most [cap] items. *)
Definition fifo_step (cap : Z) (xs : list A) (op : queue_op) : Z * list A * option A :=
  match op with
  | QInput x _ => if zlen xs <? cap then (OPRT_OK, xs ++ [x], None) else (OPRT_EXCEED_UPPER_LIMIT, xs, None)
  | QInstant x _ => if zlen xs <? cap then (OPRT_OK, x :: xs, None) else (OPRT_EXCEED_UPPER_LIMIT, xs, None)
  | QOutput => match xs with x :: xs' => (OPRT_OK, xs', Some x) | [] => (OPRT_NOT_FOUND, [], None) end
  | QPeek => match xs with x :: _ => (OPRT_OK, xs, Some x) | [] => (OPRT_NOT_FOUND, [], None) end
  | QTraverse cb => (OPRT_OK, visit cb xs, None)
  | QDelete n => if n =? 0 then (OPRT_INVALID_PARM, xs, None)
                 else if n <=? zlen xs then (OPRT_OK, drop (Z.to_nat n) xs, None)
                 else (OPRT_NOT_FOUND, [], None)
  | QClear => (OPRT_OK, [], None)
  end.

Definition queue_op_ok (q : TUYA_QUEUE_T) (ps : list loc) (op : queue_op) : Prop :=
  match op with
  | QInput _ p | QInstant _ p => fresh q ps p
  | QDelete n => 0 <= n
  | _ => True
  end.

Lemma enqueue_exec (m : qmem A) q ps (xs : list A) x policy p :
  queue_holds m q ps xs -> fresh q ps p ->
  exists rc m' q' ps' xs', enqueue m (Some q) (Some x) policy (Some p) = Some (rc, m', Some q')
    /\ queue_holds m' q' ps' xs' /\ queue_len q' = queue_len q /\ head q' = head q
    /\ (rc, xs') = (if zlen xs <? queue_len q then (OPRT_OK, place policy xs x)
                    else (OPRT_EXCEED_UPPER_LIMIT, xs)).
Proof.
  intros Hq Hp. pose proof (qh_cap _ _ _ _ Hq). destruct (Z.ltb_spec (zlen xs) (queue_len q)).
  - destruct (enqueue_ok m q ps xs x policy p) as (m' & q' & E & H1 & H2 & H3); [done..|]. eauto 12.
  - destruct (enqueue_full m q ps xs x policy p) as (m' & E & H1); [done|done|lia|]. eauto 12.
Qed.

Lemma peek_ok (m : qmem A) q ps xs :
  queue_holds m q ps xs ->
  tuya_queue_peek m (Some q) true
  = Some (match xs with [] => OPRT_NOT_FOUND | _ => OPRT_OK end, match xs with [] => None | x :: _ => Some x end).
Proof.
  intros [Hl Hi Hf Hc Hu]. unfold tuya_queue_peek. cbn [negb]. destruct xs as [|x xs].
  - rewrite (zlen_nil (A:=A)) in *. by destruct (Z.ltb_spec (queue_free q) (queue_len q)); [lia|].
  - rewrite zlen_cons in *. pose proof (zlen_nonneg xs).
    destruct (Z.ltb_spec (queue_free q) (queue_len q)); [|lia].
    destruct ps as [|p ps]; [by apply Forall2_nil_inv_l in Hi|].
    destruct (free_first _ _ _ _ _ _ Hl Hi) as (-> & E & _). cbn [mbind option_bind]. by rewrite E.
Qed.

(** One step of the implementation is one step of the specification. *)
Lemma queue_exec_ok (m : qmem A) q ps xs op :
  queue_holds m q ps xs -> queue_op_ok q ps op ->
  exists rc m' q' out ps' xs', queue_exec m q op = Some (rc, m', Some q', out)
    /\ queue_holds m' q' ps' xs' /\ queue_len q' = queue_len q
    /\ fifo_step (queue_len q) xs op = (rc, xs', out).
Proof.
  intros Hq Hop. pose proof (qh_cap _ _ _ _ Hq) as Hcap.
  assert (length xs <= Z.to_nat (queue_len q))%nat as Hfu by (unfold zlen in Hcap; lia).
  destruct op as [x p|x p| | |cb|n|]; cbn [queue_exec fifo_step queue_op_ok] in *.
  1-2: unfold tuya_queue_input, tuya_queue_input_instant;
    edestruct (enqueue_exec m q ps xs x) as (rc & m' & q' & ps' & xs' & E & H1 & H2 & H3 & H4);
    [exact Hq|exact Hop|]; rewrite E; cbn [mbind option_bind]; eexists _, _, _, _, ps', xs';
    (split; [reflexivity|]); (split; [done|]); (split; [done|]);
    destruct (zlen xs <? queue_len q); by injection H4 as -> ->.
  - destruct xs as [|x xs].
    + rewrite (output_empty m q ps true Hq). eauto 12.
    + destruct (output_ok m q ps x xs true Hq) as (m' & q' & ps' & -> & ? & ? & ?). eauto 12.
  - rewrite (peek_ok m q ps xs Hq). cbn [mbind option_bind].
    destruct xs; eexists _, _, _, _, ps, _; (split; [reflexivity|]); eauto.
  - destruct (traverse_ok _ m q ps xs cb Hq Hfu) as (m' & -> & ?). cbn [mbind option_bind]. eauto 12.
  - unfold tuya_queue_delete_batch. destruct (Z.eqb_spec n 0); [cbn [mbind option_bind]; eauto 12|].
    destruct (Z.leb_spec n (zlen xs)) as [Hle|Hgt]; unfold zlen in *.
    + destruct (delete_loop_ok (Z.to_nat n) m q ps xs Hq) as (m' & q' & ps' & -> & ? & ? & ?);
        [lia|]. cbn [mbind option_bind]. eauto 12.
    + destruct (delete_loop_short (Z.to_nat n) m q ps xs Hq) as (m' & q' & ps' & -> & ? & ? & ?);
        [lia|]. cbn [mbind option_bind]. eauto 12.
  - destruct (clear_ok _ m q ps xs Hq Hfu) as (m' & q' & -> & ? & ? & ?). cbn [mbind option_bind].
    eauto 12.
Qed.
End Refinement.

(** (C13) The queue refines a bounded list: whatever operation is applied to a
    queue that holds the items [xs] (an input at either end on a fresh node,
    an output, a peek, a traversal with a callback, a batch deletion, a
    clear), the linked-list implementation completes without touching memory
    it does not own, returns the code and the item that the list machine
    returns, and holds the list machine's items afterwards, the free counter
    included. *)
Theorem tuya_queue_refines_fifo {A} (m : qmem A) q ps xs op :
  queue_holds m q ps xs -> queue_op_ok q ps op ->
  exists rc m' q' out ps' xs', queue_exec m q op = Some (rc, m', Some q', out)
    /\ queue_holds m' q' ps' xs' /\ queue_len q' = queue_len q
    /\ fifo_step (queue_len q) xs op = (rc, xs', out).
Proof. apply queue_exec_ok. Qed.

Lemma tuya_queue_refines_fifo_witness :
  let m := {| links := {| next := list_to_map [(1, 2); (2, 1)]; prev := list_to_map [(1, 2); (2, 1)] |};
              items := {[ 2 := 70%Z ]} |}%positive in
  let q := {| item_size := 4; queue_len := 2; queue_free := 1; head := 1%positive |} in
  exists rc m' q' out ps' xs', queue_exec m q (QInstant 80 3%positive) = Some (rc, m', Some q', out)
    /\ queue_holds m' q' ps' xs' /\ queue_len q' = 2
    /\ fifo_step 2 [70] (QInstant 80 3%positive) = (rc, xs', out).
Proof.
  intros m q. apply (tuya_queue_refines_fifo m q [2%positive] [70] (QInstant 80 3%positive)).
  - split; [|by repeat constructor|done..]. split; try done.
    apply (bool_decide_unpack _). vm_compute. exact I.
  - apply (bool_decide_unpack _). vm_compute. exact I.
Defined.

(** A batch read delivers the [num] items from position [start] in
    order, without dequeuing them, exactly when the queue has them; otherwise
    it answers [OPRT_NOT_FOUND]. *)
Theorem tuya_queue_get_batch_spec {A} fuel (m : qmem A) q ps xs start num dst :
  queue_holds m q ps xs -> (length xs <= fuel)%nat -> is_u32 start ->
  0 < num <= zlen dst -> is_u32 num ->
  exists d, tuya_queue_get_batch fuel m (Some q) start (Some dst) num
    = Some (if start + num <=? zlen xs then OPRT_OK else OPRT_NOT_FOUND, Some d)
    /\ (start + num <= zlen xs ->
        d = take (Z.to_nat num) (drop (Z.to_nat start) xs) ++ drop (Z.to_nat num) dst).
Proof. intros. eapply get_batch_ok; eauto. unfold is_u32 in *. lia. Qed.

Lemma tuya_queue_get_batch_spec_witness :
  let m := {| links := {| next := list_to_map [(1, 2); (2, 3); (3, 1)];
                          prev := list_to_map [(1, 3); (2, 1); (3, 2)] |};
              items := list_to_map [(2, 70%Z); (3, 80%Z)] |}%positive in
  let q := {| item_size := 4; queue_len := 5; queue_free := 3; head := 1%positive |} in
  exists d, tuya_queue_get_batch 5 m (Some q) 1 (Some [0; 0]) 1 = Some (OPRT_OK, Some d)
    /\ (2 <= 2 -> d = [80; 0]).
Proof.
  intros m q.
  apply (tuya_queue_get_batch_spec 5 m q [2; 3]%positive [70; 80] 1 1 [0; 0]); try done.
  - split; [|by repeat constructor|done..]. split; try done.
    apply (bool_decide_unpack _). vm_compute. exact I.
  - cbn. lia.
Defined.

(** * The contract of a queue, for its clients *)

Class FifoQueue (Q A : Type) := {
  q_rep : Q -> list A -> Prop;
  q_cap : Q -> Z;
  q_fresh : Q -> loc -> Prop;
  q_push : ENQUEUE_POLICY_E -> Q -> A -> option loc -> option (Z * Q);
  q_pop : Q -> option (Z * Q * option A);
  q_map : (A -> A) -> Q -> option (Z * Q);
  q_used : Q -> Z;

  q_push_room pol q xs x p :
    q_rep q xs -> q_fresh q p -> zlen xs < q_cap q ->
    exists q', q_push pol q x (Some p) = Some (OPRT_OK, q')
      /\ q_rep q' (place pol xs x) /\ q_cap q' = q_cap q;
  q_push_full pol q xs x p :
    q_rep q xs -> q_fresh q p -> zlen xs = q_cap q ->
    exists q', q_push pol q x (Some p) = Some (OPRT_EXCEED_UPPER_LIMIT, q')
      /\ q_rep q' xs /\ q_cap q' = q_cap q;
  q_push_nomem pol q xs x :
    q_rep q xs -> q_push pol q x None = Some (OPRT_MALLOC_FAILED, q);
  q_pop_some q x xs :
    q_rep q (x :: xs) ->
    exists q', q_pop q = Some (OPRT_OK, q', Some x) /\ q_rep q' xs /\ q_cap q' = q_cap q;
  q_pop_none q : q_rep q [] -> q_pop q = Some (OPRT_NOT_FOUND, q, None);
  q_map_ok f q xs :
    q_rep q xs -> exists q', q_map f q = Some (OPRT_OK, q') /\ q_rep q' (f <$> xs) /\ q_cap q' = q_cap q;
  q_used_ok q xs : q_rep q xs -> q_used q = zlen xs;
  q_cap_ok q xs : q_rep q xs -> zlen xs <= q_cap q
}.

Section Instance_.
Context {A : Type}.

Definition queue_state : Type := qmem A * TUYA_QUEUE_T.

Definition queue_push (pol : ENQUEUE_POLICY_E) (s : queue_state) (x : A) (p : option loc)
  : option (Z * queue_state) :=
  '(rc, m, q) ← enqueue (fst s) (Some (snd s)) (Some x) pol p; q' ← q; Some (rc, (m, q')).

Definition queue_pop (s : queue_state) : option (Z * queue_state * option A) :=
  '(rc, m, q, x) ← tuya_queue_output (fst s) (Some (snd s)) true; q' ← q; Some (rc, (m, q'), x).

Definition queue_map (f : A -> A) (s : queue_state) : option (Z * queue_state) :=
  '(rc, m) ← tuya_queue_traverse (Z.to_nat (queue_len (snd s))) (fst s) (Some (snd s))
               (Some (fun x => (f x, true)));
  Some (rc, (m, snd s)).

Lemma visit_all (f : A -> A) xs : visit (fun x => (f x, true)) xs = f <$> xs.
Proof. induction xs as [|x xs IH]; cbn; [done|]. by rewrite IH. Qed.

#[global] Program Instance tuya_queue_fifo : FifoQueue queue_state A := {|
  q_rep s xs := exists ps, queue_holds (fst s) (snd s) ps xs;
  q_cap s := queue_len (snd s);
  q_fresh s p := p ∉ head (snd s) :: default [] (tuya_list_for_each (Z.to_nat (queue_len (snd s)))
                                        (links (fst s)) (head (snd s)));
  q_push := queue_push;
  q_pop := queue_pop;
  q_map := queue_map;
  q_used s := tuya_queue_get_used_num (Some (snd s))
|}.
Next Obligation.
  intros pol [m q] xs x p [ps Hq] Hp Hl. cbn [fst snd] in *.
  rewrite (for_each_ok _ _ _ ps (qh_list _ _ _ _ Hq)) in Hp.
  2: { pose proof (zlen_Forall2 _ _ _ (qh_items _ _ _ _ Hq)). unfold zlen in *. lia. }
  destruct (enqueue_ok m q ps xs x pol p Hq Hp Hl) as (m' & q' & E & H1 & H2 & H3).
  unfold queue_push. cbn [fst snd]. rewrite E. cbn [mbind option_bind].
  exists (m', q'). split; [done|]. cbn. eauto.
Qed.
Next Obligation.
  intros pol [m q] xs x p [ps Hq] Hp Hl. cbn [fst snd] in *.
  rewrite (for_each_ok _ _ _ ps (qh_list _ _ _ _ Hq)) in Hp.
  2: { pose proof (zlen_Forall2 _ _ _ (qh_items _ _ _ _ Hq)). unfold zlen in *. lia. }
  destruct (enqueue_full m q ps xs x pol p Hq Hp Hl) as (m' & E & H1).
  unfold queue_push. cbn [fst snd]. rewrite E. cbn [mbind option_bind].
  exists (m', q). split; [done|]. cbn. eauto.
Qed.
Next Obligation. intros pol [m q] xs x [ps Hq]. done. Qed.
Next Obligation.
  intros [m q] x xs [ps Hq]. cbn [fst snd] in *.
  destruct (output_ok m q ps x xs true Hq) as (m' & q' & ps' & E & H1 & H2 & H3).
  unfold queue_pop. cbn [fst snd]. rewrite E. cbn [mbind option_bind].
  exists (m', q'). split; [done|]. cbn. eauto.
Qed.
Next Obligation.
  intros [m q] [ps Hq]. unfold queue_pop. cbn [fst snd] in *.
  by rewrite (output_empty m q ps true Hq).
Qed.
Next Obligation.
  intros f [m q] xs [ps Hq]. cbn in Hq. pose proof (qh_cap _ _ _ _ Hq) as Hc. unfold queue_map. cbn [fst snd].
  destruct (traverse_ok (Z.to_nat (queue_len q)) m q ps xs (fun x => (f x, true)) Hq) as (m' & -> & H);
    [unfold zlen in Hc; lia|].
  cbn [mbind option_bind]. exists (m', q). split; [done|]. rewrite visit_all in H. cbn. eauto.
Qed.
Next Obligation.
  intros [m q] xs [ps [Hl Hi Hf Hc Hu]]. cbn [fst snd tuya_queue_get_used_num] in *. unfold is_u32 in Hu. pose proof (zlen_nonneg xs).
  norm_widths. lia.
Qed.
Next Obligation. intros [m q] xs [ps Hq]. apply (qh_cap _ _ _ _ Hq). Qed.
End Instance_.
