(* ===== verification/WorkQueue.v ===== *)
(** The work queue of [src/tal_system/src/tal_workqueue.c] and the two service
    queues of [tal_workq_service.c]. Everything is proved against the contract
    [FifoQueue] of the queue and the contract [Semaphore] of the operating
    system's counting semaphore. *)
From Stdlib Require Import ZArith Lia.
From stdpp Require Import base tactics option list numbers gmap.
From S2P Require Import Prelude TuyaList Queue.

Local Open Scope Z_scope.

(** * Data *)

(** Code and data pointers; [None] is the null pointer. *)
Abbreviation ptr := (option Z).

Record WORK_ITEM_T := { cb : ptr; data : ptr }.

#[global] Instance WORK_ITEM_T_eq_dec : EqDecision WORK_ITEM_T.
Proof. solve_decision. Defined.

(** A counting semaphore: [sem_wait] is the successful return of a blocking
    wait, [None] while the count is zero. *)
Class Semaphore (S : Type) := {
  sem_count : S -> Z;
  sem_max : S -> Z;
  sem_post : S -> Z * S;
  sem_wait : S -> option S;
  sem_post_ok s : sem_count s < sem_max s ->
    exists s', sem_post s = (OPRT_OK, s') /\ sem_count s' = sem_count s + 1 /\ sem_max s' = sem_max s;
  sem_wait_ok s s' : sem_wait s = Some s' ->
    0 < sem_count s /\ sem_count s' = sem_count s - 1 /\ sem_max s' = sem_max s;
  sem_wait_pos s : 0 < sem_count s -> is_Some (sem_wait s)
}.

(** * Creation and release

    The resources a call acquires and gives back; each external creation is
    represented by its return code. *)
Inductive resource := RMem | RQueue | RSem | RThread.
#[global] Instance resource_eq_dec : EqDecision resource.
Proof. solve_decision. Defined.

Definition tal_workqueue_create (queue_len : Z) (thread_cfg handle : bool)
    (calloc_ok : bool) (queue_rc sem_rc thread_rc : Z) : Z * bool * list resource :=
  if (queue_len =? 0) || negb thread_cfg || negb handle then (OPRT_INVALID_PARM, false, [])
  else if negb calloc_ok then (OPRT_MALLOC_FAILED, false, [])
  else
    let live := [RMem] in
    if negb (queue_rc =? OPRT_OK) then (queue_rc, false, filter (.≠ RMem) live)
    else
      let live := live ++ [RQueue] in
      if negb (sem_rc =? OPRT_OK)
      then (sem_rc, false, filter (.≠ RMem) (filter (.≠ RQueue) live))
      else
        let live := live ++ [RSem] in
        if negb (thread_rc =? OPRT_OK)
        then (thread_rc, false, filter (.≠ RMem) (filter (.≠ RQueue) (filter (.≠ RSem) live)))
        else (thread_rc, true, live ++ [RThread]).

Section WorkQueue.
Context {Q S : Type} `{!FifoQueue Q WORK_ITEM_T} `{!Semaphore S}.

Record TAL_WORKQUEUE_T := { queue : Q; sem : S; last_cb : ptr }.

(** * Operations *)

(** Both scheduling functions: the item is copied into the queue, then the
    semaphore is posted. *)
Definition schedule (pol : ENQUEUE_POLICY_E) (handle : option TAL_WORKQUEUE_T) (c d : ptr)
    (alloc : option loc) : option (Z * option TAL_WORKQUEUE_T) :=
  match handle, c with
  | Some w, Some _ =>
      '(rc, q) ← q_push pol (queue w) {| cb := c; data := d |} alloc;
      if rc =? OPRT_OK then
        let '(rc', s) := sem_post (sem w) in
        Some (rc', Some {| queue := q; sem := s; last_cb := last_cb w |})
      else Some (rc, Some {| queue := q; sem := sem w; last_cb := last_cb w |})
  | _, _ => Some (OPRT_INVALID_PARM, handle)
  end.

Definition tal_workqueue_schedule := schedule POLICY_SEND_TO_BACK.
Definition tal_workqueue_schedule_instant := schedule POLICY_SEND_TO_FRONT.

(** [__work_cancel_traverse] on one item. *)
Definition work_cancel_traverse (dst src : WORK_ITEM_T) : WORK_ITEM_T :=
  let same_cb := match cb dst with Some c => bool_decide (cb src = Some c) | None => false end in
  let same_data := match data dst with Some d => bool_decide (data src = Some d) | None => false end in
  if same_cb || same_data then {| cb := None; data := data src |} else src.

Definition tal_workqueue_cancel (handle : option TAL_WORKQUEUE_T) (c d : ptr)
  : option (Z * option TAL_WORKQUEUE_T) :=
  match handle with
  | None => Some (OPRT_INVALID_PARM, None)
  | Some w =>
    match c, d with
    | None, None => Some (OPRT_INVALID_PARM, handle)
    | _, _ =>
      '(rc, q) ← q_map (work_cancel_traverse {| cb := c; data := d |}) (queue w);
      Some (rc, Some {| queue := q; sem := sem w; last_cb := last_cb w |})
    end
  end.

(** The return type is [uint16_t], the error code included. *)
Definition tal_workqueue_get_num (handle : option TAL_WORKQUEUE_T) : Z :=
  match handle with None => u16 OPRT_INVALID_PARM | Some w => u16 (q_used (queue w)) end.

(** ** The worker thread and its clients

    One round of [__work_thread_cb] waits for the semaphore, takes an item and
    calls it; a client is between its enqueue and its post for a while. The
    atomic steps of all of them interleave. *)
Inductive worker_state :=
| WIdle                       (* before the wait *)
| WToken                      (* the wait returned *)
| WRun (it : WORK_ITEM_T).    (* the item is taken *)

Record system := {
  sq : Q;
  ss : S;
  posting : nat;                (* clients that have enqueued and not posted yet *)
  worker : worker_state;
  taken : list WORK_ITEM_T;     (* history: items dequeued so far *)
  called : list (Z * ptr)       (* history: callbacks run so far *)
}.

Definition call (it : WORK_ITEM_T) : list (Z * ptr) :=
  match cb it with Some c => [(c, data it)] | None => [] end.

Inductive label := LIn (pol : ENQUEUE_POLICY_E) (it : WORK_ITEM_T) | LCancel (c d : ptr) | LTau.

Inductive lstep : system -> label -> system -> Prop :=
| step_enqueue s pol c d p q :
    q_fresh (sq s) p ->
    q_push pol (sq s) {| cb := Some c; data := d |} (Some p) = Some (OPRT_OK, q) ->
    lstep s (LIn pol {| cb := Some c; data := d |})
      {| sq := q; ss := ss s; posting := Datatypes.S (posting s); worker := worker s;
         taken := taken s; called := called s |}
| step_refused s pol c d p q :
    q_fresh (sq s) p ->
    q_push pol (sq s) {| cb := Some c; data := d |} (Some p) = Some (OPRT_EXCEED_UPPER_LIMIT, q) ->
    lstep s LTau
      {| sq := q; ss := ss s; posting := posting s; worker := worker s;
         taken := taken s; called := called s |}
| step_post s n rc s' :
    posting s = Datatypes.S n -> sem_post (ss s) = (rc, s') ->
    lstep s LTau
      {| sq := sq s; ss := s'; posting := n; worker := worker s;
         taken := taken s; called := called s |}
| step_wait s s' :
    worker s = WIdle -> sem_wait (ss s) = Some s' ->
    lstep s LTau
      {| sq := sq s; ss := s'; posting := posting s; worker := WToken;
         taken := taken s; called := called s |}
| step_output s q it :
    worker s = WToken -> q_pop (sq s) = Some (OPRT_OK, q, Some it) ->
    lstep s LTau
      {| sq := q; ss := ss s; posting := posting s; worker := WRun it;
         taken := taken s ++ [it]; called := called s |}
| step_output_failed s q rc o :
    worker s = WToken -> q_pop (sq s) = Some (rc, q, o) -> rc <> OPRT_OK ->
    lstep s LTau
      {| sq := q; ss := ss s; posting := posting s; worker := WIdle;
         taken := taken s; called := called s |}
| step_call s it :
    worker s = WRun it ->
    lstep s LTau
      {| sq := sq s; ss := ss s; posting := posting s; worker := WIdle;
         taken := taken s; called := called s ++ call it |}
| step_cancel s c d q :
    c <> None \/ d <> None ->
    q_map (work_cancel_traverse {| cb := c; data := d |}) (sq s) = Some (OPRT_OK, q) ->
    lstep s (LCancel c d)
      {| sq := q; ss := ss s; posting := posting s; worker := worker s;
         taken := taken s; called := called s |}.

Definition step (s s' : system) : Prop := exists l, lstep s l s'.

(** * The semaphore counts the queue *)

Definition token (w : worker_state) : Z := match w with WToken => 1 | _ => 0 end.

(** Every item in the queue is matched by a unit of the semaphore, by a client
    about to post, or by the worker that has waited for it. *)
Record sys_inv (s : system) (xs : list WORK_ITEM_T) : Prop := {
  inv_rep : q_rep (sq s) xs;
  inv_count : zlen xs = sem_count (ss s) + Z.of_nat (posting s) + token (worker s);
  inv_sem : 0 <= sem_count (ss s);
  inv_max : sem_max (ss s) = q_cap (sq s)
}.

(** What a step does to the items dequeued so far and to those in the queue. *)
Definition effect (l : label) (tk xs tk' xs' : list WORK_ITEM_T) : Prop :=
  match l with
  | LIn pol it => tk' = tk /\ xs' = place pol xs it
  | LCancel c d => tk' = tk /\ xs' = work_cancel_traverse {| cb := c; data := d |} <$> xs
  | LTau => tk' ++ xs' = tk ++ xs
  end.

(** A push that returned [OPRT_OK] had room; one that was refused had none. *)
Lemma push_inv pol q xs it p rc q' :
  q_rep q xs -> q_fresh q p -> q_push pol q it (Some p) = Some (rc, q') ->
  q_cap q' = q_cap q /\
  ((rc = OPRT_OK /\ q_rep q' (place pol xs it)) \/ (rc = OPRT_EXCEED_UPPER_LIMIT /\ q_rep q' xs)).
Proof.
  intros Hr Hf E. pose proof (q_cap_ok _ _ Hr).
  destruct (Z.eq_dec (zlen xs) (q_cap q)) as [Hfull|Hroom].
  - destruct (q_push_full pol _ _ it p Hr Hf Hfull) as (q'' & E' & ? & ?).
    rewrite E in E'. injection E' as -> ->. auto.
  - destruct (q_push_room pol _ _ it p Hr Hf) as (q'' & E' & ? & ?); [lia|].
    rewrite E in E'. injection E' as -> ->. auto.
Qed.

Lemma lstep_inv s l s' xs :
  sys_inv s xs -> lstep s l s' ->
  exists xs', sys_inv s' xs' /\ effect l (taken s) xs (taken s') xs'.
Proof.
  intros [Hr Hc H0 Hm] Hstep. destruct Hstep as
    [s pol c d p q Hf E|s pol c d p q Hf E|s n rc s' Hn E|s s' Hw E|s q it Hw E|s q rc o Hw E Hrc|s it Hw|s c d q Hcd E];
    cbn [effect taken].
  - destruct (push_inv _ _ _ _ _ _ _ Hr Hf E) as [Hcap [[_ Hr']|[? _]]]; [|done].
    eexists. split; [|done]. split; cbn [posting worker sq ss]; [done| |done|congruence].
    rewrite zlen_place. lia.
  - destruct (push_inv _ _ _ _ _ _ _ Hr Hf E) as [Hcap [[? _]|[_ Hr']]]; [done|].
    exists xs. split; [|done]. split; cbn [posting worker sq ss]; done || congruence.
  - pose proof (q_cap_ok _ _ Hr). rewrite Hn in Hc.
    assert (0 <= token (worker s)) by (by destruct (worker s)).
    destruct (sem_post_ok (ss s)) as (s'' & E' & Hc' & Hm'); [lia|]. rewrite E in E'. injection E' as -> ->.
    exists xs. split; [|done]. split; cbn [posting worker sq ss]; done || lia || congruence.
  - destruct (sem_wait_ok _ _ E) as (Hp & Hc' & Hm'). rewrite Hw in Hc. cbn in Hc.
    exists xs. split; [|done]. split; cbn [posting worker sq ss token]; done || lia || congruence.
  - rewrite Hw in Hc. cbn in Hc. destruct xs as [|x xs].
    { rewrite (q_pop_none _ Hr) in E. discriminate. }
    destruct (q_pop_some _ _ _ Hr) as (q' & E' & Hr' & Hc'). rewrite E in E'. injection E' as -> ->.
    rewrite zlen_cons in Hc. exists xs. split; [|by rewrite <- app_assoc].
    split; cbn [posting worker sq ss token]; done || lia || congruence.
  - rewrite Hw in Hc. cbn in Hc. destruct xs as [|x xs].
    { rewrite (zlen_nil (A:=WORK_ITEM_T)) in Hc. lia. }
    destruct (q_pop_some _ _ _ Hr) as (q' & E' & _). rewrite E in E'. injection E' as -> -> ->. done.
  - rewrite Hw in Hc. cbn in Hc. exists xs. split; [|done].
    split; cbn [posting worker sq ss token]; done || lia.
  - destruct (q_map_ok (work_cancel_traverse {| cb := c; data := d |}) _ _ Hr) as (q' & E' & Hr' & Hc').
    rewrite E in E'. injection E' as ->. eexists. split; [|done].
    split; cbn [posting worker sq ss]; [done| |done|congruence]. unfold zlen in *. by rewrite length_fmap.
Qed.

Lemma reachable_inv s s' xs : sys_inv s xs -> star step s s' -> exists xs', sys_inv s' xs'.
Proof.
  intros H Hs. eapply (star_invariant step (fun s => exists xs, sys_inv s xs)); eauto.
  intros s1 s2 [xs1 H1] [l Hl]. destruct (lstep_inv _ _ _ _ H1 Hl) as (xs2 & H2 & _). eauto.
Qed.

(** A system just after [tal_workqueue_create]. *)
Definition initial (s : system) : Prop :=
  q_rep (sq s) [] /\ sem_count (ss s) = 0 /\ sem_max (ss s) = q_cap (sq s)
  /\ posting s = O /\ worker s = WIdle /\ taken s = [] /\ called s = [].

Lemma initial_inv s : initial s -> sys_inv s [].
Proof. intros (Hr & Hc & Hm & Hp & Hw & _). split; rewrite ?Hp, ?Hw, ?Hc; done. Qed.

(** ** Runs *)

Inductive run : system -> list label -> system -> Prop :=
| run_nil s : run s [] s
| run_cons s1 l s2 ls s3 : lstep s1 l s2 -> run s2 ls s3 -> run s1 (l :: ls) s3.

(** The items scheduled at the back, in order. *)
Definition scheduled (ls : list label) : list WORK_ITEM_T :=
  ls ≫= fun l => match l with LIn _ it => [it] | _ => [] end.

Definition back_only (l : label) : Prop :=
  match l with LIn POLICY_SEND_TO_BACK _ | LTau => True | _ => False end.

Lemma run_back s ls s' xs :
  sys_inv s xs -> Forall back_only ls -> run s ls s' ->
  exists xs', sys_inv s' xs' /\ taken s' ++ xs' = taken s ++ xs ++ scheduled ls.
Proof.
  intros Hi Hb Hr. revert xs Hi Hb. induction Hr as [s|s1 l s2 ls s3 Hs Hr IH]; intros xs Hi Hb.
  { exists xs. by rewrite app_nil_r. }
  apply Forall_cons in Hb as [Hl Hb]. destruct (lstep_inv _ _ _ _ Hi Hs) as (xs2 & Hi2 & He).
  destruct (IH xs2 Hi2 Hb) as (xs3 & Hi3 & E3). exists xs3. split; [done|]. rewrite E3, app_assoc.
  destruct l as [[|] it| |]; cbn in He; try done.
  - destruct He as [-> ->]. cbn. by rewrite <- !app_assoc.
  - rewrite He. cbn. by rewrite <- app_assoc.
Qed.

(** Callbacks are called exactly for the items taken, in that order, the item
    being run excepted. *)
Definition running (w : worker_state) : list (Z * ptr) :=
  match w with WRun it => call it | _ => [] end.

Lemma lstep_called s l s' :
  called s ++ running (worker s) = taken s ≫= call -> lstep s l s' ->
  called s' ++ running (worker s') = taken s' ≫= call.
Proof.
  intros H Hs. destruct Hs; cbn [called taken worker running] in *;
    repeat match goal with E : worker _ = _ |- _ => rewrite E in H; cbn [running] in H end;
    rewrite ?app_nil_r in *; try done.
  rewrite bind_app, <- H. cbn. by rewrite app_nil_r.
Qed.

Lemma run_called s ls s' :
  called s ++ running (worker s) = taken s ≫= call -> run s ls s' ->
  called s' ++ running (worker s') = taken s' ≫= call.
Proof. intros H Hr. induction Hr; [done|]. apply IHHr. by eapply lstep_called. Qed.

(** ** The worker drains the queue *)

Lemma run_app s1 ls1 s2 ls2 s3 : run s1 ls1 s2 -> run s2 ls2 s3 -> run s1 (ls1 ++ ls2) s3.
Proof. induction 1; [done|]. intros. econstructor; eauto. Qed.

(** A number of internal steps. *)
Definition taus (s s' : system) : Prop := exists n, run s (replicate n LTau) s'.

Lemma taus_refl s : taus s s.
Proof. exists O. constructor. Qed.

Lemma taus_step s1 s2 s3 : lstep s1 LTau s2 -> taus s2 s3 -> taus s1 s3.
Proof. intros H [n Hr]. exists (Datatypes.S n). econstructor; eauto. Qed.

Lemma taus_trans s1 s2 s3 : taus s1 s2 -> taus s2 s3 -> taus s1 s3.
Proof. intros [n Hn] [k Hk]. exists (n + k)%nat. rewrite replicate_add. by eapply run_app. Qed.

(** The clients that have enqueued can all post. *)
Lemma drain_posts n s xs :
  posting s = n -> sys_inv s xs ->
  exists s', taus s s' /\ sys_inv s' xs /\ posting s' = O
    /\ worker s' = worker s /\ called s' = called s.
Proof.
  revert s. induction n as [|n IH]; intros s Hn Hi.
  { exists s. split; [apply taus_refl|done]. }
  destruct (sem_post (ss s)) as [rc s'] eqn:E.
  assert (lstep s LTau {| sq := sq s; ss := s'; posting := n; worker := worker s;
                          taken := taken s; called := called s |}) as Hl by by eapply step_post.
  destruct Hi as [Hr Hc H0 Hm]. pose proof (q_cap_ok _ _ Hr). rewrite Hn in Hc.
  assert (0 <= token (worker s)) by (by destruct (worker s)).
  destruct (sem_post_ok (ss s)) as (s'' & E' & Hc' & Hm'); [lia|]. rewrite E in E'. injection E' as -> ->.
  edestruct IH as (s2 & Ht & ?); [| |exists s2; split; [by eapply taus_step|done]]; [done|].
  split; cbn [posting worker sq ss]; done || lia || congruence.
Qed.

(** With a token in hand the worker takes the first item and calls it. *)
Lemma serve_token s x xs :
  sys_inv s (x :: xs) -> worker s = WToken ->
  exists s', taus s s' /\ sys_inv s' xs /\ posting s' = posting s /\ worker s' = WIdle
    /\ called s' = called s ++ call x.
Proof.
  intros [Hr Hc H0 Hm] Hw. destruct (q_pop_some _ _ _ Hr) as (q' & E & Hr' & Hc').
  rewrite Hw, zlen_cons in Hc. cbn in Hc.
  eexists. split.
  - eapply taus_step; [by eapply step_output|]. eapply taus_step; [by eapply step_call|]. apply taus_refl.
  - split; [|done]. split; cbn [posting worker sq ss token]; done || lia || congruence.
Qed.

Lemma drain_idle xs s :
  sys_inv s xs -> posting s = O -> worker s = WIdle ->
  exists s', taus s s' /\ sys_inv s' [] /\ worker s' = WIdle /\ called s' = called s ++ (xs ≫= call).
Proof.
  revert s. induction xs as [|x xs IH]; intros s Hi Hp Hw.
  { exists s. cbn. rewrite app_nil_r. split; [apply taus_refl|done]. }
  destruct Hi as [Hr Hc H0 Hm]. rewrite Hp, Hw, zlen_cons in Hc. cbn in Hc. pose proof (zlen_nonneg xs).
  destruct (sem_wait_pos (ss s)) as [s' E]; [lia|]. destruct (sem_wait_ok _ _ E) as (_ & Hc' & Hm').
  edestruct (serve_token {| sq := sq s; ss := s'; posting := posting s; worker := WToken;
                            taken := taken s; called := called s |} x xs)
    as (s2 & Ht & Hi2 & Hp2 & Hw2 & Hca2); [|done|].
  { split; cbn [posting worker sq ss token]; rewrite ?zlen_cons, ?Hp; done || lia || congruence. }
  destruct (IH s2 Hi2) as (s3 & Ht3 & Hi3 & Hw3 & Hca3); [by rewrite Hp2|done|].
  exists s3. split_and!; [|done..|].
  - eapply taus_step; [by eapply step_wait|]. by eapply taus_trans.
  - rewrite Hca3, Hca2. cbn. by rewrite <- app_assoc.
Qed.

(** From any state of the invariant the pending posts and the worker alone can
    empty the queue, and call what it held in order. *)
Lemma drain s xs :
  sys_inv s xs ->
  exists s', taus s s' /\ sys_inv s' [] /\ worker s' = WIdle
    /\ called s' = called s ++ running (worker s) ++ (xs ≫= call).
Proof.
  intros Hi. destruct (drain_posts _ s xs eq_refl Hi) as (s1 & Ht1 & Hi1 & Hp1 & Hw1 & Hc1).
  rewrite <- Hw1, <- Hc1. destruct (worker s1) as [| |it] eqn:Hw; cbn [running].
  - destruct (drain_idle _ _ Hi1 Hp1 Hw) as (s2 & Ht2 & ?). exists s2. split; [by eapply taus_trans|done].
  - destruct xs as [|x xs].
    { destruct Hi1 as [_ Hc H0 _]. rewrite Hw in Hc. unfold zlen in Hc. cbn in Hc. lia. }
    destruct (serve_token _ _ _ Hi1 Hw) as (s2 & Ht2 & Hi2 & Hp2 & Hw2 & Hc2).
    destruct (drain_idle _ _ Hi2 (eq_trans Hp2 Hp1) Hw2) as (s3 & Ht3 & Hi3 & Hw3 & Hc3). exists s3.
    split_and!; [by do 2 (eapply taus_trans; [done|])|done..|]. rewrite Hc3, Hc2. cbn. by rewrite <- app_assoc.
  - edestruct (drain_idle xs {| sq := sq s1; ss := ss s1; posting := posting s1; worker := WIdle;
                                taken := taken s1; called := called s1 ++ call it |})
      as (s2 & Ht2 & Hi2 & Hw2 & Hc2); [|done..|].
    { destruct Hi1 as [Hr Hc H0 Hm]. rewrite Hw in Hc. by split. }
    exists s2. split_and!; [|done..|by rewrite Hc2; cbn [called]; rewrite <- app_assoc].
    eapply taus_trans; [done|]. eapply taus_step; [by eapply step_call|]. done.
Qed.

(** A scheduling call that returns [OPRT_OK] is an enqueue step followed by a
    post step of the same client. *)
Lemma schedule_steps pol s w c d p w' xs :
  sys_inv s xs -> sq s = queue w -> ss s = sem w -> q_fresh (queue w) p ->
  schedule pol (Some w) (Some c) d (Some p) = Some (OPRT_OK, Some w') ->
  exists s', run s [LIn pol {| cb := Some c; data := d |}; LTau] s'
    /\ sys_inv s' (place pol xs {| cb := Some c; data := d |})
    /\ sq s' = queue w' /\ ss s' = sem w' /\ worker s' = worker s /\ called s' = called s.
Proof.
  intros Hi Hq Hs Hf. unfold schedule. destruct (q_push _ _ _ _) as [[rc q]|] eqn:E; [|done]. cbn.
  destruct (Z.eqb_spec rc OPRT_OK) as [->|]; [|congruence].
  destruct (sem_post (sem w)) as [rc s'] eqn:Es. intros [= -> <-]. rewrite <- Hq in *. rewrite <- Hs in *.
  pose proof (step_enqueue s pol c d p q Hf E) as Ha.
  pose proof (step_post {| sq := q; ss := ss s; posting := Datatypes.S (posting s); worker := worker s;
    taken := taken s; called := called s |} (posting s) OPRT_OK s' eq_refl Es) as Hb.
  destruct (lstep_inv _ _ _ _ Hi Ha) as (ys & Hy & _ & ->).
  destruct (lstep_inv _ _ _ _ Hy Hb) as (zs & Hz & Ez). apply app_inv_head in Ez as ->.
  eexists. split; [|split; [exact Hz|done]].
  eapply run_cons; [exact Ha|]. eapply run_cons; [exact Hb|]. apply run_nil.
Qed.

(** A cancelled item stays in the queue without its callback, the others are
    not touched. *)
Lemma cancel_item c d it :
  work_cancel_traverse {| cb := c; data := d |} it
  = if bool_decide ((c <> None /\ cb it = c) \/ (d <> None /\ data it = d))
    then {| cb := None; data := data it |} else it.
Proof.
  unfold work_cancel_traverse. cbn [cb data].
  destruct c as [c|], d as [d|]; repeat case_bool_decide; cbn; try done; naive_solver.
Qed.
End WorkQueue.

(** * The service queues *)

(** [tal_workq_service.c]: the two static handles. [create] gives the outcome of
    the two calls of [tal_workqueue_create]; a handle released on the error
    path is listed. *)
Record workq_globals (W : Type) := { wq_system : option W; wq_highpri : option W }.
Arguments wq_system {W}. Arguments wq_highpri {W}. Arguments Build_workq_globals {W}.

Definition tal_workq_init {W} (g : workq_globals W) (create1 create2 : Z * option W)
  : Z * workq_globals W * list W :=
  match wq_system g with
  | Some _ => (OPRT_OK, g, [])
  | None =>
    let '(rt1, w1) := create1 in
    if negb (rt1 =? OPRT_OK) then
      (rt1, {| wq_system := None; wq_highpri := None |}, option_list (wq_highpri g))
    else
      let '(rt2, w2) := create2 in
      if negb (rt2 =? OPRT_OK)
      then (rt2, {| wq_system := None; wq_highpri := None |}, option_list w1 ++ option_list (wq_highpri g))
      else (OPRT_OK, {| wq_system := w1; wq_highpri := w2 |}, [])
  end.

Inductive WORKQ_SERVICE_E := WORKQ_SYSTEM | WORKQ_HIGHTPRI.

Definition tal_workq_get_handle {W} (g : workq_globals W) (service : WORKQ_SERVICE_E) : option W :=
  match service with WORKQ_SYSTEM => wq_system g | WORKQ_HIGHTPRI => wq_highpri g end.

(** * Properties *)

(** A counting semaphore, to instantiate the contract. *)
#[global] Program Instance counter_sem : Semaphore (Z * Z) := {|
  sem_count s := fst s;
  sem_max s := snd s;
  sem_post s := if fst s <? snd s then (OPRT_OK, (fst s + 1, snd s)) else (OPRT_COM_ERROR, s);
  sem_wait s := if 0 <? fst s then Some (fst s - 1, snd s) else None
|}.
Next Obligation. intros [c m] H. cbn in *. destruct (Z.ltb_spec c m); [|lia]. by eexists. Qed.
Next Obligation.
  intros [c m] s'. cbn. destruct (Z.ltb_spec 0 c); [|done]. intros [= <-]. cbn. auto.
Qed.
Next Obligation. intros [c m] H. cbn in *. destruct (Z.ltb_spec 0 c); [by eexists|lia]. Qed.

(** A fresh work queue for two items. *)
Definition demo_queue : @queue_state WORK_ITEM_T :=
  ({| links := {| next := {[ 1%positive := 1%positive ]}; prev := {[ 1%positive := 1%positive ]} |};
      items := ∅ |},
   {| item_size := 8; queue_len := 2; queue_free := 2; head := 1%positive |}).

Definition demo_system : @system (@queue_state WORK_ITEM_T) (Z * Z) :=
  {| sq := demo_queue; ss := (0, 2); posting := 0; worker := WIdle; taken := []; called := [] |}.

Lemma demo_initial : initial demo_system.
Proof.
  split; [|done]. exists []. split; try done. split; try done. apply NoDup_singleton.
Qed.

(** The same after a client has enqueued an item, and after it has posted. *)
Definition demo_item : WORK_ITEM_T := {| cb := Some 5; data := None |}.

Definition demo_enqueued : @system (@queue_state WORK_ITEM_T) (Z * Z) :=
  {| sq := match q_push POLICY_SEND_TO_BACK demo_queue demo_item (Some 2%positive) with
           | Some (_, q) => q | None => demo_queue end;
     ss := (0, 2); posting := 1; worker := WIdle; taken := []; called := [] |}.

Definition demo_posted : @system (@queue_state WORK_ITEM_T) (Z * Z) :=
  {| sq := sq demo_enqueued; ss := (1, 2); posting := 0; worker := WIdle; taken := []; called := [] |}.

Lemma demo_step1 : lstep demo_system (LIn POLICY_SEND_TO_BACK demo_item) demo_enqueued.
Proof.
  refine (step_enqueue demo_system POLICY_SEND_TO_BACK 5 None 2%positive (sq demo_enqueued) _ eq_refl).
  apply (bool_decide_unpack _). vm_compute. exact I.
Qed.

Lemma demo_step2 : lstep demo_enqueued LTau demo_posted.
Proof. exact (step_post demo_enqueued 0 OPRT_OK (1, 2) eq_refl eq_refl). Qed.

Lemma demo_star1 : star step demo_system demo_enqueued.
Proof. eapply star_step; [|apply star_refl]. eexists. apply demo_step1. Qed.

Lemma demo_star2 : star step demo_system demo_posted.
Proof.
  eapply star_step; [eexists; apply demo_step1|]. eapply star_step; [|apply star_refl].
  eexists. apply demo_step2.
Qed.

(** In every state the clients, the worker and the cancelling threads can
    reach from a fresh work queue, under every interleaving: when the worker's
    wait has returned, the queue has an item and the dequeue succeeds; and when
    a client has enqueued, the semaphore is below its maximum and the post
    succeeds. Neither error branch of the worker loop or of the scheduling
    functions is ever taken. *)
Theorem workqueue_tokens {Q S} `{!FifoQueue Q WORK_ITEM_T} `{!Semaphore S} (s0 s : @system Q S) :
  initial s0 -> star step s0 s ->
  (worker s = WToken -> exists q it, q_pop (sq s) = Some (OPRT_OK, q, Some it))
  /\ (posting s <> O -> exists s', sem_post (ss s) = (OPRT_OK, s')).
Proof.
  intros Hi Hs. destruct (reachable_inv _ _ _ (initial_inv _ Hi) Hs) as [xs [Hr Hc H0 Hm]].
  pose proof (q_cap_ok _ _ Hr). split.
  - intros Hw. rewrite Hw in Hc. cbn in Hc. destruct xs as [|x xs].
    { rewrite (zlen_nil (A:=WORK_ITEM_T)) in Hc. lia. }
    destruct (q_pop_some _ _ _ Hr) as (q' & E & _). eauto.
  - intros Hp. assert (0 <= token (worker s)) by (by destruct (worker s)).
    destruct (sem_post_ok (ss s)) as (s' & E & _); [lia|]. eauto.
Qed.

Lemma workqueue_tokens_witness : exists s', sem_post (ss demo_enqueued) = (OPRT_OK, s').
Proof.
  apply (workqueue_tokens demo_system demo_enqueued demo_initial demo_star1). discriminate.
Defined.

(** (C26) No wake-up is lost: in every reachable state in which items are
    queued, either a client still has its post to do, or the worker has an item
    or a token in hand, or the worker's wait returns at once. *)
Theorem workqueue_no_lost_wakeup {Q S} `{!FifoQueue Q WORK_ITEM_T} `{!Semaphore S}
    (s0 s : @system Q S) :
  initial s0 -> star step s0 s -> 0 < q_used (sq s) ->
  posting s <> O \/ worker s <> WIdle \/ is_Some (sem_wait (ss s)).
Proof.
  intros Hi Hs Hx. destruct (reachable_inv _ _ _ (initial_inv _ Hi) Hs) as [ys [Hr Hc H0 Hm]].
  rewrite (q_used_ok _ _ Hr) in Hx.
  destruct (decide (posting s = O)) as [Hp|]; [|auto]. destruct (worker s) eqn:Hw; [|by auto..].
  right. right. apply sem_wait_pos. rewrite Hp in Hc. cbn in Hc. lia.
Qed.

Lemma workqueue_no_lost_wakeup_witness :
  0 < q_used (sq demo_posted) /\
  (posting demo_posted <> O \/ worker demo_posted <> WIdle \/ is_Some (sem_wait (ss demo_posted))).
Proof.
  split; [reflexivity|].
  apply (workqueue_no_lost_wakeup demo_system demo_posted demo_initial demo_star2). reflexivity.
Defined.

(** Work scheduled at the back of the queue is run first-in first-out and
    exactly once: over any run with no instant scheduling and no cancellation,
    from a fresh work queue and under any interleaving, the items taken by the
    worker followed by those still queued are exactly the accepted items in the
    order of their acceptance, and the callbacks called (the one in progress
    included) are those of the items taken, in the same order. *)
Theorem workqueue_fifo {Q S} `{!FifoQueue Q WORK_ITEM_T} `{!Semaphore S} (s0 s : @system Q S) ls :
  initial s0 -> Forall back_only ls -> run s0 ls s ->
  exists queued, q_rep (sq s) queued
    /\ taken s ++ queued = scheduled ls
    /\ called s ++ running (worker s) = taken s ≫= call.
Proof.
  intros Hi Hb Hr. destruct (run_back _ _ _ _ (initial_inv _ Hi) Hb Hr) as (xs & [Hq _ _ _] & E).
  destruct Hi as (_ & _ & _ & _ & Hw & Ht & Hc). rewrite Ht in E.
  exists xs. split; [done|]. split; [done|]. eapply run_called; [|exact Hr].
  by rewrite Hw, Ht, Hc.
Qed.

Lemma workqueue_fifo_witness :
  exists queued, q_rep (sq demo_posted) queued
    /\ taken demo_posted ++ queued = [demo_item]
    /\ called demo_posted ++ running (worker demo_posted) = taken demo_posted ≫= call.
Proof.
  apply (workqueue_fifo demo_system demo_posted [LIn POLICY_SEND_TO_BACK demo_item; LTau]);
    [apply demo_initial|by repeat constructor|].
  eapply run_cons; [apply demo_step1|]. eapply run_cons; [apply demo_step2|apply run_nil].
Defined.

(** A cancellation that names a callback, a datum or both succeeds and
    disarms, in the whole queue, exactly the items that match one of the two
    (it does not require both to match): they keep their place and their data
    and lose their callback; every other item is as before. *)
Theorem workqueue_cancel_spec {Q S} `{!FifoQueue Q WORK_ITEM_T} `{!Semaphore S}
    (w : @TAL_WORKQUEUE_T Q S) xs c d :
  q_rep (queue w) xs -> c <> None \/ d <> None ->
  exists w', tal_workqueue_cancel (Some w) c d = Some (OPRT_OK, Some w')
    /\ q_rep (queue w') ((fun it =>
         if bool_decide ((c <> None /\ cb it = c) \/ (d <> None /\ data it = d))
         then {| cb := None; data := data it |} else it) <$> xs)
    /\ tal_workqueue_get_num (Some w') = tal_workqueue_get_num (Some w).
Proof.
  intros Hr Hcd. unfold tal_workqueue_cancel, tal_workqueue_get_num.
  destruct (q_map_ok (work_cancel_traverse {| cb := c; data := d |}) _ _ Hr) as (q & E & Hr' & _).
  exists {| queue := q; sem := sem w; last_cb := last_cb w |}. split.
  { destruct c, d; try (rewrite E; done). naive_solver. }
  cbn [queue]. rewrite (q_used_ok _ _ Hr'), (q_used_ok _ _ Hr). unfold zlen. rewrite length_fmap.
  split; [|done]. erewrite list_fmap_ext; [exact Hr'|]. intros i x _. cbn. by rewrite cancel_item.
Qed.

Lemma workqueue_cancel_spec_witness :
  let w := {| queue := demo_queue; sem := (0, 2); last_cb := None |} in
  exists w', tal_workqueue_cancel (Some w) (Some 5) None = Some (OPRT_OK, Some w')
    /\ q_rep (queue w') [] /\ tal_workqueue_get_num (Some w') = tal_workqueue_get_num (Some w).
Proof.
  intros w. apply (workqueue_cancel_spec w []); [apply demo_initial|by left].
Defined.

(** Creation leaves no resource behind when it fails. *)
Lemma create_no_leak len cfg hd ok qrc src trc rc live :
  tal_workqueue_create len cfg hd ok qrc src trc = (rc, false, live) -> live = [].
Proof.
  unfold tal_workqueue_create.
  repeat match goal with |- context [if ?b then _ else _] => destruct b end;
    intros [= <- <-]; reflexivity.
Qed.

(** The service has both queues or none. *)
Lemma workq_init_both {W} (g : workq_globals W) c1 c2 rt g' rel :
  (is_Some (wq_system g) <-> is_Some (wq_highpri g)) ->
  (fst c1 = OPRT_OK <-> is_Some (snd c1)) -> (fst c2 = OPRT_OK <-> is_Some (snd c2)) ->
  tal_workq_init g c1 c2 = (rt, g', rel) ->
  (is_Some (wq_system g') <-> is_Some (wq_highpri g')) /\ (rt = OPRT_OK <-> is_Some (wq_system g')).
Proof.
  intros Hg H1 H2. unfold tal_workq_init. destruct (wq_system g) as [w|] eqn:Ew.
  { intros [= <- <- <-]. rewrite Ew. naive_solver. }
  destruct c1 as [rt1 w1], c2 as [rt2 w2]. cbn [fst snd] in *.
  destruct (Z.eqb_spec rt1 OPRT_OK) as [E1|E1]; cbn [negb].
  - destruct (Z.eqb_spec rt2 OPRT_OK) as [E2|E2]; cbn [negb]; intros [= <- <- <-]; cbn.
    + tauto.
    + split; [done|]. split; [done|]. by intros [].
  - intros [= <- <- <-]; cbn. split; [done|]. split; [done|]. by intros [].
Qed.

(** (C24) A task that [tal_workqueue_schedule] or [tal_workqueue_schedule_instant]
    accepts is run: from every reachable state of the queue, a call that returns
    [OPRT_OK] is the enqueue step followed by the post step, and from there the
    posts under way and the worker alone reach a state with an empty queue and
    an idle worker in which the callback has been called with its data, after
    (before, for an instant one) what was queued already. *)
Theorem workqueue_schedule_runs {Q S} `{!FifoQueue Q WORK_ITEM_T} `{!Semaphore S}
    (s0 s : @system Q S) (w w' : @TAL_WORKQUEUE_T Q S) (instant : bool) c d p :
  initial s0 -> star step s0 s -> sq s = queue w -> ss s = sem w -> q_fresh (queue w) p ->
  (if instant then tal_workqueue_schedule_instant else tal_workqueue_schedule)
    (Some w) (Some c) d (Some p) = Some (OPRT_OK, Some w') ->
  exists s1 s2 queued,
    run s [LIn (if instant then POLICY_SEND_TO_FRONT else POLICY_SEND_TO_BACK)
               {| cb := Some c; data := d |}; LTau] s1
    /\ sq s1 = queue w' /\ ss s1 = sem w'
    /\ q_rep (sq s) queued
    /\ taus s1 s2 /\ worker s2 = WIdle /\ q_used (sq s2) = 0
    /\ called s2 = called s ++ running (worker s)
         ++ (if instant then (c, d) :: (queued ≫= call) else (queued ≫= call) ++ [(c, d)]).
Proof.
  intros Hi Hst Hq Hs Hf E. set (pol := if instant then POLICY_SEND_TO_FRONT else POLICY_SEND_TO_BACK).
  assert (schedule pol (Some w) (Some c) d (Some p) = Some (OPRT_OK, Some w')) as E' by (by destruct instant).
  destruct (reachable_inv _ _ _ (initial_inv _ Hi) Hst) as [xs Hxs].
  destruct (schedule_steps pol s w c d p w' xs Hxs Hq Hs Hf E')
    as (s1 & Hrun & Hx1 & Hq1 & Hs1 & Hw1 & Hc1).
  destruct (drain _ _ Hx1) as (s2 & Ht & Hi2 & Hw2 & Hc2).
  exists s1, s2, xs. split_and!; try done; [apply Hxs| |].
  - by rewrite (q_used_ok _ _ (inv_rep _ _ Hi2)).
  - rewrite Hc2, Hw1, Hc1. subst pol. destruct instant; cbn; [done|]. by rewrite bind_app.
Qed.

Lemma workqueue_schedule_runs_witness :
  let w := {| queue := demo_queue; sem := (0, 2); last_cb := None |} in
  exists w' s1 s2 queued,
    tal_workqueue_schedule (Some w) (Some 5) None (Some 2%positive) = Some (OPRT_OK, Some w')
    /\ run demo_system [LIn POLICY_SEND_TO_BACK demo_item; LTau] s1
    /\ taus s1 s2 /\ called s2 = [] ++ [] ++ (queued ≫= call) ++ [(5, None)].
Proof.
  intros w. edestruct (workqueue_schedule_runs demo_system demo_system w
    {| queue := sq demo_enqueued; sem := (1, 2); last_cb := None |} false 5 None 2%positive demo_initial)
    as (s1 & s2 & queued & Hr & _ & _ & _ & Ht & _ & _ & Hc); [apply star_refl|done|done| |reflexivity|].
  - apply (bool_decide_unpack _). vm_compute. exact I.
  - eexists _, s1, s2, queued. split; [reflexivity|]. done.
Defined.
