(* ===== verification/Crc.v ===== *)
(** The checksums of [src/common/utilities]: the table-driven CRC-32 of
    [crc32i.c] and the bitwise CRC-16 of [crc_16.c], against the bitwise
    definition of a reflected cyclic redundancy check. *)
From Stdlib Require Import ZArith Lia.
From stdpp Require Import base tactics option list numbers.
From S2P Require Import Prelude.

Local Open Scope Z_scope.

(** * The code *)

Definition s_crc32 : list Z := [
  0x00000000; 0x77073096; 0xEE0E612C; 0x990951BA;
  0x076DC419; 0x706AF48F; 0xE963A535; 0x9E6495A3;
  0x0EDB8832; 0x79DCB8A4; 0xE0D5E91E; 0x97D2D988;
  0x09B64C2B; 0x7EB17CBD; 0xE7B82D07; 0x90BF1D91;
  0x1DB71064; 0x6AB020F2; 0xF3B97148; 0x84BE41DE;
  0x1ADAD47D; 0x6DDDE4EB; 0xF4D4B551; 0x83D385C7;
  0x136C9856; 0x646BA8C0; 0xFD62F97A; 0x8A65C9EC;
  0x14015C4F; 0x63066CD9; 0xFA0F3D63; 0x8D080DF5;
  0x3B6E20C8; 0x4C69105E; 0xD56041E4; 0xA2677172;
  0x3C03E4D1; 0x4B04D447; 0xD20D85FD; 0xA50AB56B;
  0x35B5A8FA; 0x42B2986C; 0xDBBBC9D6; 0xACBCF940;
  0x32D86CE3; 0x45DF5C75; 0xDCD60DCF; 0xABD13D59;
  0x26D930AC; 0x51DE003A; 0xC8D75180; 0xBFD06116;
  0x21B4F4B5; 0x56B3C423; 0xCFBA9599; 0xB8BDA50F;
  0x2802B89E; 0x5F058808; 0xC60CD9B2; 0xB10BE924;
  0x2F6F7C87; 0x58684C11; 0xC1611DAB; 0xB6662D3D;
  0x76DC4190; 0x01DB7106; 0x98D220BC; 0xEFD5102A;
  0x71B18589; 0x06B6B51F; 0x9FBFE4A5; 0xE8B8D433;
  0x7807C9A2; 0x0F00F934; 0x9609A88E; 0xE10E9818;
  0x7F6A0DBB; 0x086D3D2D; 0x91646C97; 0xE6635C01;
  0x6B6B51F4; 0x1C6C6162; 0x856530D8; 0xF262004E;
  0x6C0695ED; 0x1B01A57B; 0x8208F4C1; 0xF50FC457;
  0x65B0D9C6; 0x12B7E950; 0x8BBEB8EA; 0xFCB9887C;
  0x62DD1DDF; 0x15DA2D49; 0x8CD37CF3; 0xFBD44C65;
  0x4DB26158; 0x3AB551CE; 0xA3BC0074; 0xD4BB30E2;
  0x4ADFA541; 0x3DD895D7; 0xA4D1C46D; 0xD3D6F4FB;
  0x4369E96A; 0x346ED9FC; 0xAD678846; 0xDA60B8D0;
  0x44042D73; 0x33031DE5; 0xAA0A4C5F; 0xDD0D7CC9;
  0x5005713C; 0x270241AA; 0xBE0B1010; 0xC90C2086;
  0x5768B525; 0x206F85B3; 0xB966D409; 0xCE61E49F;
  0x5EDEF90E; 0x29D9C998; 0xB0D09822; 0xC7D7A8B4;
  0x59B33D17; 0x2EB40D81; 0xB7BD5C3B; 0xC0BA6CAD;
  0xEDB88320; 0x9ABFB3B6; 0x03B6E20C; 0x74B1D29A;
  0xEAD54739; 0x9DD277AF; 0x04DB2615; 0x73DC1683;
  0xE3630B12; 0x94643B84; 0x0D6D6A3E; 0x7A6A5AA8;
  0xE40ECF0B; 0x9309FF9D; 0x0A00AE27; 0x7D079EB1;
  0xF00F9344; 0x8708A3D2; 0x1E01F268; 0x6906C2FE;
  0xF762575D; 0x806567CB; 0x196C3671; 0x6E6B06E7;
  0xFED41B76; 0x89D32BE0; 0x10DA7A5A; 0x67DD4ACC;
  0xF9B9DF6F; 0x8EBEEFF9; 0x17B7BE43; 0x60B08ED5;
  0xD6D6A3E8; 0xA1D1937E; 0x38D8C2C4; 0x4FDFF252;
  0xD1BB67F1; 0xA6BC5767; 0x3FB506DD; 0x48B2364B;
  0xD80D2BDA; 0xAF0A1B4C; 0x36034AF6; 0x41047A60;
  0xDF60EFC3; 0xA867DF55; 0x316E8EEF; 0x4669BE79;
  0xCB61B38C; 0xBC66831A; 0x256FD2A0; 0x5268E236;
  0xCC0C7795; 0xBB0B4703; 0x220216B9; 0x5505262F;
  0xC5BA3BBE; 0xB2BD0B28; 0x2BB45A92; 0x5CB36A04;
  0xC2D7FFA7; 0xB5D0CF31; 0x2CD99E8B; 0x5BDEAE1D;
  0x9B64C2B0; 0xEC63F226; 0x756AA39C; 0x026D930A;
  0x9C0906A9; 0xEB0E363F; 0x72076785; 0x05005713;
  0x95BF4A82; 0xE2B87A14; 0x7BB12BAE; 0x0CB61B38;
  0x92D28E9B; 0xE5D5BE0D; 0x7CDCEFB7; 0x0BDBDF21;
  0x86D3D2D4; 0xF1D4E242; 0x68DDB3F8; 0x1FDA836E;
  0x81BE16CD; 0xF6B9265B; 0x6FB077E1; 0x18B74777;
  0x88085AE6; 0xFF0F6A70; 0x66063BCA; 0x11010B5C;
  0x8F659EFF; 0xF862AE69; 0x616BFFD3; 0x166CCF45;
  0xA00AE278; 0xD70DD2EE; 0x4E048354; 0x3903B3C2;
  0xA7672661; 0xD06016F7; 0x4969474D; 0x3E6E77DB;
  0xAED16A4A; 0xD9D65ADC; 0x40DF0B66; 0x37D83BF0;
  0xA9BCAE53; 0xDEBB9EC5; 0x47B2CF7F; 0x30B5FFE9;
  0xBDBDF21C; 0xCABAC28A; 0x53B39330; 0x24B4A3A6;
  0xBAD03605; 0xCDD70693; 0x54DE5729; 0x23D967BF;
  0xB3667A2E; 0xC4614AB8; 0x5D681B02; 0x2A6F2B94;
  0xB40BBE37; 0xC30C8EA1; 0x5A05DF1B; 0x2D02EF8D
].

Definition CRC32_INT_VALUE : Z := 0xFFFFFFFF.
Definition CRC32_XOR_VALUE : Z := 0xFFFFFFFF.

Definition hash_crc32i_init : Z := CRC32_INT_VALUE.

(** The loop body; the table access is partial. *)
Definition crc32_byte (hash b : Z) : option Z :=
  t ← rd s_crc32 (Z.land (Z.lxor hash b) 0xFF);
  Some (Z.lxor t (Z.shiftr hash 8)).

(** [for (; size != 0; size--)]: [size] bytes of the memory [data]. *)
Fixpoint crc32_loop (size : nat) (hash : Z) (data : list Z) : option Z :=
  match size with
  | O => Some hash
  | S n => match data with
           | [] => None
           | b :: data' => h ← crc32_byte hash b; crc32_loop n h data'
           end
  end.

Definition hash_crc32i_update (hash : Z) (data : list Z) (size : Z) : option Z :=
  crc32_loop (Z.to_nat size) hash data.

Definition hash_crc32i_finish (hash : Z) : Z := Z.lxor hash CRC32_XOR_VALUE.

Definition hash_crc32i_total (data : list Z) (size : Z) : option Z :=
  h ← hash_crc32i_update hash_crc32i_init data size; Some (hash_crc32i_finish h).

(** One of the eight rounds of [get_crc_16] on [crc] and the data byte [ds]. *)
Definition crc16_round (crc ds : Z) : Z * Z :=
  (Z.lxor (Z.shiftr crc 1) (if Z.testbit (Z.lxor crc ds) 0 then 0xa001 else 0), Z.shiftr ds 1).

Fixpoint crc16_rounds (n : nat) (crc ds : Z) : Z * Z :=
  match n with
  | O => (crc, ds)
  | S n' => let '(c, d) := crc16_round crc ds in crc16_rounds n' c d
  end.

Fixpoint crc16_loop (size : nat) (crc : Z) (data : list Z) : option Z :=
  match size with
  | O => Some crc
  | S n => match data with
           | [] => None
           | b :: data' => crc16_loop n (fst (crc16_rounds 8 crc b)) data'
           end
  end.

Definition get_crc_16 (data : list Z) (size : Z) : option Z :=
  crc16_loop (Z.to_nat size) 0xffff data.

(** * The reference

    One bit of a reflected cyclic redundancy check with polynomial [poly]. *)
Section Reference.
Variable poly : Z.

Definition crc_bit (x : Z) : Z := Z.lxor (Z.shiftr x 1) (if Z.testbit x 0 then poly else 0).

Fixpoint crc_bits (n : nat) (x : Z) : Z :=
  match n with O => x | S n' => crc_bits n' (crc_bit x) end.

(** The register after one more byte, and after a message. *)
Definition crc_step (h b : Z) : Z := crc_bits 8 (Z.lxor h b).
Definition crc_ref (h : Z) (msg : list Z) : Z := fold_left crc_step msg h.

Lemma crc_ref_app h a b : crc_ref h (a ++ b) = crc_ref (crc_ref h a) b.
Proof. apply fold_left_app. Qed.

Lemma crc_ref_cons h x a : crc_ref h (x :: a) = crc_ref (crc_step h x) a.
Proof. reflexivity. Qed.

Lemma crc_step_eq h b : crc_step h b = crc_bits 8 (Z.lxor h b).
Proof. reflexivity. Qed.

(** ** Linearity *)

Lemma crc_bit_lxor x y : crc_bit (Z.lxor x y) = Z.lxor (crc_bit x) (crc_bit y).
Proof.
  unfold crc_bit. rewrite Z.shiftr_lxor, Z.lxor_spec.
  destruct (Z.testbit x 0), (Z.testbit y 0); cbn [xorb];
    rewrite ?Z.lxor_0_r; apply Z.bits_inj; intros i; rewrite !Z.lxor_spec;
    destruct (Z.testbit (x ≫ 1) i), (Z.testbit (y ≫ 1) i), (Z.testbit poly i); done.
Qed.

Lemma crc_bits_lxor n x y : crc_bits n (Z.lxor x y) = Z.lxor (crc_bits n x) (crc_bits n y).
Proof. revert x y. induction n as [|n IH]; intros; cbn; [done|]. by rewrite crc_bit_lxor, IH. Qed.

Lemma crc_bit_double x : crc_bit (2 * x) = x.
Proof.
  unfold crc_bit. rewrite Z.testbit_even_0, Z.lxor_0_r, Z.shiftr_div_pow2 by lia.
  change (2 ^ 1) with 2. rewrite Z.mul_comm. apply Z.div_mul. lia.
Qed.

Lemma crc_bits_shift n x : crc_bits n (Z.shiftl x (Z.of_nat n)) = x.
Proof.
  revert x. induction n as [|n IH]; intros x; [apply Z.shiftl_0_r|]. cbn [crc_bits].
  replace (Z.shiftl x (Z.of_nat (S n))) with (2 * Z.shiftl x (Z.of_nat n)).
  - by rewrite crc_bit_double.
  - rewrite !Z.shiftl_mul_pow2, Nat2Z.inj_succ, Z.pow_succ_r by lia. lia.
Qed.

(** A word is its low byte and the rest. *)
Lemma split_byte x : x = Z.lxor (Z.land x 0xFF) (Z.shiftl (Z.shiftr x 8) 8).
Proof.
  apply Z.bits_inj. intros i. destruct (Z.neg_nonneg_cases i) as [Hi|Hi]; [by rewrite !Z.testbit_neg_r|].
  rewrite Z.lxor_spec, Z.land_spec, Z.shiftl_spec by lia.
  change 0xFF with (Z.ones 8). destruct (Z.lt_ge_cases i 8).
  - rewrite Z.ones_spec_low, (Z.testbit_neg_r _ (i - 8)), andb_true_r, xorb_false_r by lia. done.
  - rewrite Z.ones_spec_high, andb_false_r, Z.shiftr_spec by lia. cbn.
    by replace (i - 8 + 8) with i by lia.
Qed.

(** The step by table: what the low byte becomes in eight rounds, and the rest
    moved down. *)
Lemma crc_bits_table x : crc_bits 8 x = Z.lxor (crc_bits 8 (Z.land x 0xFF)) (Z.shiftr x 8).
Proof. rewrite (split_byte x) at 1. by rewrite crc_bits_lxor, (crc_bits_shift 8). Qed.
End Reference.

(** * CRC-32 *)

Definition CRC32_POLY : Z := 0xEDB88320.

Lemma land_byte x : 0 <= Z.land x 0xFF < 256.
Proof. change 0xFF with (Z.ones 8). rewrite Z.land_ones by lia. apply Z.mod_pos_bound. lia. Qed.

Lemma shiftr_byte b : is_u8 b -> Z.shiftr b 8 = 0.
Proof. intros H. rewrite Z.shiftr_div_pow2 by lia. apply Z.div_small. apply H. Qed.

(** The constants of the table are what eight rounds make of an index. *)
Lemma s_crc32_entry i : 0 <= i < 256 -> rd s_crc32 i = Some (crc_bits CRC32_POLY 8 i).
Proof.
  intros Hi. apply (bool_decide_unpack _), Is_true_eq_left. revert i Hi.
  apply (below_forall 256 (fun i => bool_decide (rd s_crc32 i = Some (crc_bits CRC32_POLY 8 i)))).
  by vm_compute.
Qed.

Lemma crc32_byte_step h b : is_u8 b -> crc32_byte h b = Some (crc_step CRC32_POLY h b).
Proof.
  intros Hb. unfold crc32_byte. rewrite s_crc32_entry by apply land_byte. cbn [mbind option_bind].
  unfold crc_step. rewrite (crc_bits_table _ (Z.lxor h b)), Z.shiftr_lxor, (shiftr_byte b Hb).
  by rewrite Z.lxor_0_r.
Qed.

Lemma crc32_loop_ref msg rest h :
  bytes_ok msg -> crc32_loop (length msg) h (msg ++ rest) = Some (crc_ref CRC32_POLY h msg).
Proof.
  intros Hm. revert h. induction Hm as [|b msg Hb Hm IH]; intros h; [done|].
  cbn [length crc32_loop app]. rewrite crc32_byte_step by done. cbn [mbind option_bind]. apply IH.
Qed.

Lemma crc32_update_ref msg rest h :
  bytes_ok msg -> hash_crc32i_update h (msg ++ rest) (zlen msg) = Some (crc_ref CRC32_POLY h msg).
Proof. intros. unfold hash_crc32i_update, zlen. rewrite Nat2Z.id. by apply crc32_loop_ref. Qed.

(** ** Injectivity, for error detection *)

Lemma u32_bits x i : is_u32 x -> 32 <= i -> Z.testbit x i = false.
Proof.
  intros Hx Hi. destruct (Z.eq_dec x 0) as [->|Hn]; [apply Z.bits_0|].
  apply Z.bits_above_log2; [apply Hx|]. apply Z.log2_lt_pow2; [unfold is_u32 in Hx; lia|].
  unfold is_u32 in Hx. assert (2 ^ 32 <= 2 ^ i) by (apply Z.pow_le_mono_r; lia). lia.
Qed.

Lemma bits_u32 x : 0 <= x -> (forall i, 32 <= i -> Z.testbit x i = false) -> is_u32 x.
Proof.
  intros H0 H. split; [done|]. destruct (Z.lt_ge_cases x 4294967296) as [|Hge]; [done|].
  assert (32 <= Z.log2 x) as Hl by (apply (Z.log2_le_mono (2 ^ 32)); lia).
  pose proof (H _ Hl) as Hb. rewrite Z.bit_log2 in Hb by lia. done.
Qed.

Lemma lxor_u32 x y : is_u32 x -> is_u32 y -> is_u32 (Z.lxor x y).
Proof.
  intros Hx Hy. apply bits_u32; [apply Z.lxor_nonneg; unfold is_u32 in *; lia|].
  intros i Hi. rewrite Z.lxor_spec, !u32_bits by done. done.
Qed.

Lemma crc_bit_u32 x : is_u32 x -> is_u32 (crc_bit CRC32_POLY x).
Proof.
  intros Hx. unfold crc_bit. apply lxor_u32.
  - rewrite Z.shiftr_div_pow2 by lia. change (2 ^ 1) with 2. unfold is_u32 in *.
    split; [apply Z.div_pos; lia|apply Z.div_lt_upper_bound; lia].
  - destruct (Z.testbit x 0); done.
Qed.

(** One round loses nothing: its top bit is the bit that was shifted out. *)
Lemma crc_bit_inj x y :
  is_u32 x -> is_u32 y -> crc_bit CRC32_POLY x = crc_bit CRC32_POLY y -> x = y.
Proof.
  intros Hx Hy E. assert (Z.testbit x 0 = Z.testbit y 0) as E0.
  { apply (f_equal (fun z => Z.testbit z 31)) in E. unfold crc_bit in E.
    rewrite !Z.lxor_spec, !Z.shiftr_spec, !(u32_bits _ (31 + 1)) in E by (done || lia).
    by destruct (Z.testbit x 0), (Z.testbit y 0). }
  unfold crc_bit in E. rewrite E0 in E.
  apply (f_equal (fun z => Z.lxor z (if Z.testbit y 0 then CRC32_POLY else 0))) in E.
  rewrite !Z.lxor_assoc, Z.lxor_nilpotent, !Z.lxor_0_r in E.
  apply Z.bits_inj. intros i. destruct (Z.lt_trichotomy i 0) as [Hi|[->|Hi]].
  - by rewrite !Z.testbit_neg_r.
  - done.
  - apply (f_equal (fun z => Z.testbit z (i - 1))) in E. rewrite !Z.shiftr_spec in E by lia.
    by replace (i - 1 + 1) with i in E by lia.
Qed.

Lemma crc_bits_u32 n x : is_u32 x -> is_u32 (crc_bits CRC32_POLY n x).
Proof. revert x. induction n as [|n IH]; intros x Hx; [done|]. apply IH. by apply crc_bit_u32. Qed.

Lemma crc_bits_inj n x y :
  is_u32 x -> is_u32 y -> crc_bits CRC32_POLY n x = crc_bits CRC32_POLY n y -> x = y.
Proof.
  revert x y. induction n as [|n IH]; intros x y Hx Hy E; [done|].
  apply crc_bit_inj; [done|done|]. apply IH; auto using crc_bit_u32.
Qed.

Lemma lxor_cancel_l h x y : Z.lxor h x = Z.lxor h y -> x = y.
Proof.
  intros E. apply (f_equal (Z.lxor h)) in E.
  by rewrite <- !Z.lxor_assoc, Z.lxor_nilpotent, !Z.lxor_0_l in E.
Qed.

Lemma u8_u32 b : is_u8 b -> is_u32 b.
Proof. unfold is_u8, is_u32. lia. Qed.

Lemma crc_step_u32 h b : is_u32 h -> is_u8 b -> is_u32 (crc_step CRC32_POLY h b).
Proof. intros. apply crc_bits_u32, lxor_u32; auto using u8_u32. Qed.

Lemma crc_ref_u32 msg h : is_u32 h -> bytes_ok msg -> is_u32 (crc_ref CRC32_POLY h msg).
Proof.
  intros Hh Hm. revert h Hh. induction Hm as [|b msg Hb Hm IH]; intros h Hh; [done|].
  rewrite crc_ref_cons. apply IH. by apply crc_step_u32.
Qed.

Lemma crc_ref_inj msg h h' :
  is_u32 h -> is_u32 h' -> bytes_ok msg ->
  crc_ref CRC32_POLY h msg = crc_ref CRC32_POLY h' msg -> h = h'.
Proof.
  intros Hh Hh' Hm. revert h h' Hh Hh'. induction Hm as [|b msg Hb Hm IH]; intros h h' Hh Hh' E; [done|].
  rewrite !crc_ref_cons in E. apply IH in E; [|by apply crc_step_u32..].
  rewrite !crc_step_eq in E. apply crc_bits_inj in E; [|apply lxor_u32; auto using u8_u32..].
  rewrite !(Z.lxor_comm _ b) in E. by apply lxor_cancel_l in E.
Qed.

Lemma byte_detected h x y suf :
  is_u32 h -> is_u8 x -> is_u8 y -> bytes_ok suf ->
  crc_ref CRC32_POLY (crc_step CRC32_POLY h x) suf = crc_ref CRC32_POLY (crc_step CRC32_POLY h y) suf ->
  x = y.
Proof.
  intros Hh Hx Hy Hs E. apply crc_ref_inj in E; [|by apply crc_step_u32..|done].
  rewrite !crc_step_eq in E. apply crc_bits_inj in E; [|apply lxor_u32; auto using u8_u32..]. by apply lxor_cancel_l in E.
Qed.

(** * CRC-16 *)

Definition CRC16_POLY : Z := 0xa001.

Lemma crc16_round_ref crc ds c d :
  crc16_round crc ds = (c, d) -> Z.lxor c d = crc_bit CRC16_POLY (Z.lxor crc ds).
Proof.
  unfold crc16_round, crc_bit. intros [= <- <-]. rewrite Z.shiftr_lxor, !Z.lxor_assoc. f_equal.
  apply Z.lxor_comm.
Qed.

Lemma crc16_rounds_ref n crc ds c d :
  crc16_rounds n crc ds = (c, d) ->
  Z.lxor c d = crc_bits CRC16_POLY n (Z.lxor crc ds) /\ d = Z.shiftr ds (Z.of_nat n).
Proof.
  revert crc ds. induction n as [|n IH]; intros crc ds.
  { intros [= <- <-]. by rewrite Z.shiftr_0_r. }
  cbn [crc16_rounds crc_bits]. destruct (crc16_round crc ds) as [c1 d1] eqn:E. intros H.
  apply IH in H as [H1 H2]. rewrite (crc16_round_ref _ _ _ _ E) in H1. split; [done|].
  injection E as <- <-. rewrite H2, Z.shiftr_shiftr by lia. f_equal. lia.
Qed.

Lemma lxor_u16 x y : is_u16 x -> is_u16 y -> is_u16 (Z.lxor x y).
Proof.
  unfold is_u16. intros Hx Hy. assert (0 <= Z.lxor x y) by (apply Z.lxor_nonneg; lia). split; [done|].
  destruct (Z.eq_dec (Z.lxor x y) 0) as [->|]; [done|].
  assert (forall z, 0 <= z < 65536 -> Z.log2 z < 16) as Hl.
  { intros z Hz. destruct (Z.eq_dec z 0) as [->|]; [done|]. apply Z.log2_lt_pow2; lia. }
  apply (Z.log2_lt_pow2 _ 16); [lia|]. pose proof (Z.log2_lxor x y). pose proof (Hl x Hx). pose proof (Hl y Hy). lia.
Qed.
Lemma crc16_bit_u16 x : is_u16 x -> is_u16 (crc_bit CRC16_POLY x).
Proof.
  intros Hx. unfold crc_bit. apply lxor_u16; [|by destruct (Z.testbit x 0)].
  rewrite Z.shiftr_div_pow2 by lia. change (2 ^ 1) with 2. unfold is_u16 in *. Z.div_mod_to_equations; lia.
Qed.
Lemma crc16_ref_u16 msg h : is_u16 h -> bytes_ok msg -> is_u16 (crc_ref CRC16_POLY h msg).
Proof.
  intros Hh Hm. revert h Hh. induction Hm as [|b msg Hb Hm IH]; intros h Hh; [done|].
  rewrite crc_ref_cons. apply IH. unfold crc_step. assert (is_u16 (Z.lxor h b)) as Hx.
  { apply lxor_u16; [done|]. unfold is_u8, is_u16 in *. lia. }
  generalize dependent (Z.lxor h b). generalize 8%nat. intros n. induction n as [|n IHn]; intros x Hx; [done|]. apply IHn. by apply crc16_bit_u16.
Qed.

Lemma crc16_loop_ref msg rest crc :
  bytes_ok msg -> crc16_loop (length msg) crc (msg ++ rest) = Some (crc_ref CRC16_POLY crc msg).
Proof.
  intros Hm. revert crc. induction Hm as [|b msg Hb Hm IH]; intros crc; [done|].
  cbn [length crc16_loop app]. rewrite IH, crc_ref_cons, crc_step_eq. f_equal. f_equal.
  destruct (crc16_rounds 8 crc b) as [c d] eqn:E. apply crc16_rounds_ref in E as [E1 E2].
  change (Z.of_nat 8) with 8 in E2. rewrite (shiftr_byte b Hb) in E2. subst d.
  by rewrite Z.lxor_0_r in E1.
Qed.

(** * Properties *)

(** The table-driven CRC-32 computes the bitwise CRC-32/IEEE of the
    message for every message and every length: the whole computation reads
    only the table and the message, its result is the reflected CRC with
    polynomial 0xEDB88320, initial value and final xor 0xFFFFFFFF. *)
Theorem crc32_total_correct msg rest :
  bytes_ok msg ->
  hash_crc32i_total (msg ++ rest) (zlen msg)
  = Some (Z.lxor (crc_ref CRC32_POLY 0xFFFFFFFF msg) 0xFFFFFFFF).
Proof. intros H. unfold hash_crc32i_total. by rewrite crc32_update_ref. Qed.

(** "123456789", whose CRC-32 is 0xCBF43926. *)
Lemma crc32_total_correct_witness :
  hash_crc32i_total ([49; 50; 51; 52; 53; 54; 55; 56; 57] ++ []) 9
  = Some (Z.lxor (crc_ref CRC32_POLY 0xFFFFFFFF [49; 50; 51; 52; 53; 54; 55; 56; 57]) 0xFFFFFFFF)
  /\ Z.lxor (crc_ref CRC32_POLY 0xFFFFFFFF [49; 50; 51; 52; 53; 54; 55; 56; 57]) 0xFFFFFFFF = 0xCBF43926.
Proof.
  split; [|vm_compute; reflexivity].
  apply (crc32_total_correct [49; 50; 51; 52; 53; 54; 55; 56; 57] []).
  repeat constructor; unfold is_u8; lia.
Defined.

(** CRC-32 detects every corruption confined to one byte, and the
    checksum may be computed in pieces: if two messages agree except in one
    byte and the code computes the same total for both, they are equal; and
    updating with two buffers in turn is updating with their concatenation. *)
Theorem crc32_detects_byte_error pre x y suf h1 h2 :
  bytes_ok pre -> is_u8 x -> is_u8 y -> bytes_ok suf ->
  hash_crc32i_update hash_crc32i_init pre (zlen pre) = Some h1 ->
  hash_crc32i_update h1 (x :: suf) (zlen (x :: suf)) = Some h2 ->
  hash_crc32i_total (pre ++ x :: suf) (zlen (pre ++ x :: suf)) = Some (hash_crc32i_finish h2)
  /\ (hash_crc32i_total (pre ++ x :: suf) (zlen (pre ++ x :: suf))
      = hash_crc32i_total (pre ++ y :: suf) (zlen (pre ++ y :: suf)) -> x = y).
Proof.
  intros Hp Hx Hy Hs E1 E2. unfold hash_crc32i_total, hash_crc32i_finish.
  assert (forall z, is_u8 z -> bytes_ok (pre ++ z :: suf)) as Hz
    by (intros; apply Forall_app; split; [done|by constructor]).
  pose proof (crc32_update_ref pre [] hash_crc32i_init Hp) as P1. rewrite app_nil_r in P1.
  assert (bytes_ok (x :: suf)) as Hxs by (by constructor).
  pose proof (crc32_update_ref (x :: suf) [] h1 Hxs) as P2. rewrite app_nil_r in P2.
  rewrite P1 in E1. rewrite P2 in E2. apply (inj Some) in E1. apply (inj Some) in E2. subst h1 h2.
  pose proof (crc32_update_ref (pre ++ x :: suf) [] hash_crc32i_init (Hz x Hx)) as Px.
  pose proof (crc32_update_ref (pre ++ y :: suf) [] hash_crc32i_init (Hz y Hy)) as Py.
  rewrite app_nil_r in Px, Py. rewrite Px, Py. cbn [mbind option_bind].
  rewrite !crc_ref_app, !crc_ref_cons.
  assert (is_u32 (crc_ref CRC32_POLY hash_crc32i_init pre)) as Hh by (apply crc_ref_u32; done).
  revert Hh. generalize (crc_ref CRC32_POLY hash_crc32i_init pre). intros h Hh.
  split; [reflexivity|]. intros E. apply (inj Some) in E.
  apply (byte_detected h x y suf); try done.
  rewrite !(Z.lxor_comm _ CRC32_XOR_VALUE) in E. by apply lxor_cancel_l in E.
Qed.

Lemma crc32_detects_byte_error_witness :
  hash_crc32i_total ([1] ++ 2 :: [3]) 3 = Some (hash_crc32i_finish 0xAA437FE2)
  /\ (hash_crc32i_total ([1] ++ 2 :: [3]) 3 = hash_crc32i_total ([1] ++ 7 :: [3]) 3 -> 2 = 7).
Proof.
  apply (crc32_detects_byte_error [1] 2 7 [3] 0x5AFA20E4 0xAA437FE2);
    [repeat constructor; unfold is_u8; lia|unfold is_u8; lia|unfold is_u8; lia|
     repeat constructor; unfold is_u8; lia|vm_compute; reflexivity|vm_compute; reflexivity].
Defined.

(** The bitwise loop of [get_crc_16], which keeps the register and the
    data byte apart, computes the reflected CRC-16 with polynomial 0xA001 and
    initial value 0xFFFF of every message. *)
Theorem crc16_correct msg rest :
  bytes_ok msg -> get_crc_16 (msg ++ rest) (zlen msg) = Some (crc_ref CRC16_POLY 0xffff msg).
Proof. intros H. unfold get_crc_16, zlen. rewrite Nat2Z.id. by apply crc16_loop_ref. Qed.

Lemma crc16_correct_witness :
  get_crc_16 ([49; 50; 51; 52; 53; 54; 55; 56; 57] ++ []) 9
  = Some (crc_ref CRC16_POLY 0xffff [49; 50; 51; 52; 53; 54; 55; 56; 57])
  /\ crc_ref CRC16_POLY 0xffff [49; 50; 51; 52; 53; 54; 55; 56; 57] = 0x4B37.
Proof.
  split; [|vm_compute; reflexivity].
  apply (crc16_correct [49; 50; 51; 52; 53; 54; 55; 56; 57] []).
  repeat constructor; unfold is_u8; lia.
Defined.
