(* ===== verification/Tools.v ===== *)
(** The byte, string and number helpers of [src/common/utilities/mix_method.c]
    and [tools/porting/adapter/utilities/src/tuya_tools.c]. *)
From Stdlib Require Import ZArith Lia Sorted.
From stdpp Require Import base tactics option list numbers sorting.
From S2P Require Import Prelude.

Local Open Scope Z_scope.

(** * Hexadecimal text *)

Definition asc2hex (c : Z) : Z :=
  if (48 <=? c) && (c <=? 57) then u8 (c - 48)
  else if (97 <=? c) && (c <=? 102) then u8 (c - 97 + 10)
  else if (65 <=? c) && (c <=? 70) then u8 (c - 65 + 10)
  else 0.

(** [for (i = 0; i < lenstr; i += 2)], [n] rounds from [i]. *)
Fixpoint ascs2hex_loop (n : nat) (i : Z) (hex ascs : list Z) : option (list Z) :=
  match n with
  | O => Some hex
  | S n' =>
      a ← rd ascs i; b ← rd ascs (i + 1);
      let h4 := asc2hex a in
      let l4 := asc2hex b in
      hex' ← wr hex (i / 2) (u8 (Z.shiftl h4 4 + l4));
      ascs2hex_loop n' (i + 2) hex' ascs
  end.

Definition ascs2hex (hex ascs : list Z) (srclen : Z) : option (list Z) :=
  let lenstr := srclen - Z.rem srclen 2 in
  if lenstr =? 0 then Some hex else ascs2hex_loop (Z.to_nat (lenstr / 2)) 0 hex ascs.

Definition hex_digit (d : Z) : Z := let c := 48 + d in if 57 <? c then c + 7 else c.

Fixpoint hex2str_loop (n : nat) (i : Z) (dest src : list Z) : option (list Z) :=
  match n with
  | O => Some dest
  | S n' =>
      x ← rd src i;
      let ddh := hex_digit (x / 16) in
      let ddl := hex_digit (x mod 16) in
      d1 ← wr dest (i * 2) ddh;
      d2 ← wr d1 (i * 2 + 1) ddl;
      hex2str_loop n' (i + 1) d2 src
  end.

Definition hex2str (dest src : list Z) (nLen : Z) : option (list Z) :=
  d ← hex2str_loop (Z.to_nat nLen) 0 dest src;
  wr d (nLen * 2) 0.

Definition to_lower : list Z := [48; 49; 50; 51; 52; 53; 54; 55; 56; 57; 97; 98; 99; 100; 101; 102].
Definition to_upper : list Z := [48; 49; 50; 51; 52; 53; 54; 55; 56; 57; 65; 66; 67; 68; 69; 70].

Fixpoint byte2str_loop (n : nat) (i : Z) (tmp dest src : list Z) : option (list Z) :=
  match n with
  | O => Some dest
  | S n' =>
      x ← rd src i;
      a ← rd tmp (Z.shiftr (Z.land x 0xF0) 4);
      d1 ← wr dest (i * 2) a;
      b ← rd tmp (Z.land x 0x0F);
      d2 ← wr d1 (i * 2 + 1) b;
      byte2str_loop n' (i + 1) tmp d2 src
  end.

Definition byte2str (dest src : list Z) (nLen : Z) (upper : bool) : option (list Z) :=
  d ← byte2str_loop (Z.to_nat nLen) 0 (if upper then to_upper else to_lower) dest src;
  wr d (nLen * 2) 0.

(** [tuya_tools.c] has the same three functions under its own names. *)
Definition tuya_asc2hex (c : Z) : Z := asc2hex c.
Definition tuya_ascs2hex (hex ascs : list Z) (srclen : Z) : option (list Z) := ascs2hex hex ascs srclen.
Definition tuya_hex2str (str hex : list Z) (hexlen : Z) : option (list Z) := hex2str str hex hexlen.

(** A character string is the memory behind its pointer; [str] is the text
    with its terminator. *)
Definition cstr (s : list Z) : list Z := s ++ [0].
Definition text_ok (s : list Z) : Prop := Forall (fun c => 0 < c < 256) s.

(** [strlen]: [None] when no terminator is found. *)
Fixpoint strlen (p : list Z) : option Z :=
  match p with
  | [] => None
  | c :: p' => if c =? 0 then Some 0 else n ← strlen p'; Some (n + 1)
  end.

(** The memory of the copy; [Some None] is a null argument or a failed allocation. *)
Definition mm_strdup (malloc : Z -> bool) (str : option (list Z)) : option (option (list Z)) :=
  match str with
  | None => Some None
  | Some s =>
      n ← strlen s;
      if negb (malloc (n + 1)) then Some None
      else t ← slice s 0 n; Some (Some (t ++ [0]))
  end.

Fixpoint mac_loop (n : nat) (i count : Z) (colon : bool) (str mac : list Z) : option (list Z) :=
  match n with
  | O => Some mac
  | S n' =>
      a ← rd str count; b ← rd str (count + 1);
      mac' ← wr mac i (u8 (Z.land (Z.shiftl (asc2hex a) 4) 0xF0 + Z.land (asc2hex b) 0x0F));
      let count := count + 2 in
      mac_loop n' (i + 1) (if colon then count + 1 else count) colon str mac'
  end.

Definition string2mac (str mac : list Z) : option (Z * list Z) :=
  len ← strlen str;
  if negb (len =? 12) && negb (len =? 17) then Some (-1, mac)
  else m ← mac_loop 6 0 0 (len =? 17) str mac; Some (0, m).

(** * Comparison *)

(** [while (!(ret = *src - *dst) && *dst) ++src, ++dst;] *)
Fixpoint strcmp_loop (src dst : list Z) : option Z :=
  match src, dst with
  | a :: src', b :: dst' => if (a - b =? 0) && negb (b =? 0) then strcmp_loop src' dst' else Some (a - b)
  | _, _ => None
  end.

Definition uni_strcmp (src dst : list Z) : option Z :=
  ret ← strcmp_loop src dst;
  Some (if ret <? 0 then -1 else if 0 <? ret then 1 else ret).

Definition tuya_strcmp (src dst : list Z) : option Z := uni_strcmp src dst.

Definition TOLOWER (c : Z) : Z := if (65 <=? c) && (c <=? 90) then c - 65 + 97 else c.

Fixpoint strncasecmp_loop (p1 p2 : list Z) (cnt n : Z) : option Z :=
  match p1, p2 with
  | a :: p1', b :: p2' =>
      let result := TOLOWER a - TOLOWER b in
      if result =? 0 then
        let cnt := cnt + 1 in
        if n <=? cnt then Some result
        else if a =? 0 then Some (-1)
        else if b =? 0 then Some 1
        else strncasecmp_loop p1' p2' cnt n
      else Some result
  | _, _ => None
  end.

(** [same] says whether the two pointers are equal. *)
Definition tuya_strncasecmp (same : bool) (s1 s2 : list Z) (n : Z) : option Z :=
  if same then Some 0 else strncasecmp_loop s1 s2 0 n.

(** [for (i = len - 1 - idx; i >= 0; i--)], from the [n]th position down. *)
Fixpoint revr_loop (n : nat) (str : list Z) (ch : Z) : option Z :=
  match n with
  | O => Some (-2)
  | S i => c ← rd str (Z.of_nat i); if c =? ch then Some (Z.of_nat i) else revr_loop i str ch
  end.

Definition str_revr_find_ch (str : option (list Z)) (revr_index ch : Z) : option Z :=
  match str with
  | None => Some (-1)
  | Some p =>
      len ← strlen p;
      if len <=? revr_index then Some (-1)
      else revr_loop (Z.to_nat (len - 1 - revr_index + 1)) p ch
  end.

(** * Sorting *)

(** One comparison of the inner loop. *)
Definition sort_swap (is_ascend : bool) (buf : list Z) (i : Z) : option (list Z) :=
  a ← rd buf i; b ← rd buf (i + 1);
  if (if is_ascend then b <? a else a <? b)
  then buf1 ← wr buf i b; wr buf1 (i + 1) a
  else Some buf.

Fixpoint sort_inner (n : nat) (i : Z) (is_ascend : bool) (buf : list Z) : option (list Z) :=
  match n with
  | O => Some buf
  | S n' => buf' ← sort_swap is_ascend buf i; sort_inner n' (i + 1) is_ascend buf'
  end.

(** [for (j = 1; j < buf_cnt; j++)], with [m = buf_cnt - j] comparisons in the
    round. *)
Fixpoint sort_outer (m : nat) (is_ascend : bool) (buf : list Z) : option (list Z) :=
  match m with
  | O => Some buf
  | S m' => buf' ← sort_inner m 0 is_ascend buf; sort_outer m' is_ascend buf'
  end.

Definition byte_sort (is_ascend : bool) (buf : list Z) (buf_cnt : Z) : option (list Z) :=
  sort_outer (Z.to_nat (buf_cnt - 1)) is_ascend buf.

Definition tuya_byte_sort (is_ascend : bool) (buf : list Z) (len : Z) : option (list Z) :=
  byte_sort is_ascend buf len.

(** * Versions *)

(** The loop of [is_valid_version]: [last] is the character before [ver]. *)
Fixpoint version_loop (ver : list Z) (last : option Z) (dot section_num_count : Z) : option Z :=
  match ver with
  | [] => None
  | c :: ver' =>
    if c =? 0 then
      Some (match last with Some l => if l =? 46 then 0 else 1 | None => 1 end)
    else if c =? 46 then
      if (match last with None => true | Some l => l =? 46 end) then Some 0
      else if 2 <? dot + 1 then Some 0
      else version_loop ver' (Some c) (dot + 1) 0
    else if (48 <=? c) && (c <=? 57) then
      if 8 <? section_num_count + 1 then Some 0
      else version_loop ver' (Some c) dot (section_num_count + 1)
    else Some 0
  end.

Definition is_valid_version (ver : option (list Z)) : option Z :=
  match ver with
  | None => Some 0
  | Some p =>
      len ← strlen p;
      if (10 <? len) || (len =? 0) then Some 0 else version_loop p None 0 0
  end.

(** The loop of [versionString2int]: the value [v] of the section so far is a
    static [unsigned char]; an [int] is kept as its 32 bits. *)
Fixpoint version_int_loop (s : list Z) (v acc : Z) : option Z :=
  match s with
  | [] => None
  | c :: s' =>
    if c =? 0 then Some acc
    else if c =? 46 then version_int_loop s' 0 (u32 (Z.shiftl acc 8))
    else
      let v := u8 (v * 10 + asc2hex c) in
      nx ← rd s' 0;
      let acc := if (nx =? 46) || (nx =? 0) then Z.lor acc v else acc in
      version_int_loop s' v acc
  end.

Definition versionString2int (s : list Z) : option Z :=
  len ← strlen s;
  if len <=? 0 then Some OPRT_INVALID_PARM else version_int_loop s 0 0.

Definition tuya_isalpha (c : Z) : Z :=
  if ((65 <=? c) && (c <=? 90)) || ((97 <=? c) && (c <=? 122)) then c else 0.
Definition tuya_tolower (c : Z) : Z := if (65 <=? c) && (c <=? 90) then c - 65 + 97 else c.
Definition tuya_toupper (c : Z) : Z := if (97 <=? c) && (c <=? 122) then c - 97 + 65 else c.

(** * Numbers *)

Fixpoint str2num_loop (n : nat) (i : Z) (str : list Z) (value : Z) : option (option Z) :=
  match n with
  | O => Some (Some value)
  | S n' =>
      c ← rd str i;
      if (48 <=? c) && (c <=? 57) then str2num_loop n' (i + 1) str (u32 (value * 10 + (c - 48)))
      else Some None
  end.

(** [TRUE] and the number, or [FALSE] ([Some None]). *)
Definition tuya_str2num (str : list Z) (len : Z) : option (option Z) :=
  str2num_loop (Z.to_nat len) 0 str 0.

(** [for (i = index; i < index + len; i++)] with an 8-bit [i]. *)
Fixpoint intArray_loop (fuel : nat) (i limit num : Z) (arr : list Z) : option (option Z) :=
  if i <? limit then
    match fuel with
    | O => None
    | S f =>
        match rd arr i with
        | None => Some None
        | Some d => intArray_loop f (u8 (i + 1)) limit (u32 (u32 (num * 10) + d)) arr
        end
    end
  else Some (Some num).

(** [None]: out of fuel; [Some None]: a read outside the array. *)
Definition tuya_intArray2int (fuel : nat) (arr : list Z) (index len : Z) : option (option Z) :=
  if len <=? index then Some (Some 0xFFFFFFFF)
  else intArray_loop fuel (u8 index) (u32 (index + len)) 0 arr.

(** [do { tmp /= 10; i++; } while (tmp != 0);] *)
Fixpoint digits_count (fuel : nat) (tmp i : Z) : option Z :=
  match fuel with
  | O => None
  | S f => let tmp := tmp / 10 in
           let i := u8 (i + 1) in
           if tmp =? 0 then Some i else digits_count f tmp i
  end.

Fixpoint digits_fill (fuel : nat) (tmp i : Z) (arr : list Z) : option (Z * list Z) :=
  if tmp =? 0 then Some (i, arr)
  else match fuel with
  | O => None
  | S f => arr' ← wr arr i (tmp mod 10); digits_fill f (tmp / 10) (u8 (i + 1)) arr'
  end.

(** [for (i = 0; i < len / 2; i++)] swaps the ends, [n] rounds left. *)
Fixpoint reverse_loop (n : nat) (i len : Z) (buf : list Z) : option (list Z) :=
  match n with
  | O => Some buf
  | S n' =>
      tmp ← rd buf i; y ← rd buf (len - 1 - i);
      b1 ← wr buf i y; b2 ← wr b1 (len - 1 - i) tmp;
      reverse_loop n' (i + 1) len b2
  end.

Definition tuya_buff_reverse (buf : list Z) (len : Z) : option (list Z) :=
  reverse_loop (Z.to_nat (len / 2)) 0 len buf.

Definition tuya_int2intArray (num : Z) (arr : list Z) (len : Z) : option (Z * list Z) :=
  i ← digits_count 11 num 0;
  if len <? i then Some (0, arr)
  else '(n, arr') ← digits_fill 11 num 0 arr;
       arr'' ← tuya_buff_reverse arr' n; Some (n, arr'').

Fixpoint data_reverse_loop (n : nat) (i max_len : Z) (dst src : list Z) : option (list Z) :=
  match n with
  | O => Some dst
  | S n' => x ← rd src (max_len - 1); d ← wr dst i x; data_reverse_loop n' (i + 1) (max_len - 1) d src
  end.

Definition tuya_data_reverse (dst src : list Z) (srclen : Z) : option (list Z) :=
  data_reverse_loop (Z.to_nat srclen) 0 srclen dst src.

(** [for (count = 0; num; ++count) num &= (num - 1);] *)
Fixpoint bit1_loop (fuel : nat) (num count : Z) : option Z :=
  if num =? 0 then Some count
  else match fuel with O => None | S f => bit1_loop f (Z.land num (u32 (num - 1))) (count + 1) end.

Definition tuya_bit1_count (num : Z) : option Z := bit1_loop 32 num 0.

(** [while (temp & 0x80000000) { temp <<= 1; count++; }] *)
Fixpoint zeros_loop (fuel : nat) (temp count : Z) : option Z :=
  if Z.land temp 0x80000000 =? 0 then Some count
  else match fuel with O => None | S f => zeros_loop f (u32 (Z.shiftl temp 1)) (count + 1) end.

Definition tuya_leading_zeros_count (num : Z) : option Z := zeros_loop 32 (u32 (Z.lnot num)) 0.

Fixpoint sum8_loop (n : nat) (idx sum : Z) (buf : list Z) : option Z :=
  match n with O => Some sum | S n' => x ← rd buf idx; sum8_loop n' (idx + 1) (u8 (sum + x)) buf end.
Definition tuya_check_sum8 (buf : list Z) (len : Z) : option Z := sum8_loop (Z.to_nat len) 0 0 buf.

Fixpoint sum16_loop (n : nat) (idx sum : Z) (buf : list Z) : option Z :=
  match n with O => Some sum | S n' => x ← rd buf idx; sum16_loop n' (idx + 1) (u16 (sum + x)) buf end.
Definition tuya_check_sum16 (buf : list Z) (len : Z) : option Z := sum16_loop (Z.to_nat len) 0 0 buf.

(** * Hexadecimal text: proofs *)

Definition hex_text (src : list Z) : list Z :=
  src ≫= fun x => [hex_digit (x / 16); hex_digit (x mod 16)].

Lemma asc2hex_digit d : 0 <= d < 16 -> asc2hex (hex_digit d) = d.
Proof.
  intros H. apply Z.eqb_eq. revert d H.
  apply (below_forall 16 (fun d => asc2hex (hex_digit d) =? d)). by vm_compute.
Qed.

Lemma hex_join x : is_u8 x -> u8 (Z.shiftl (x / 16) 4 + x mod 16) = x.
Proof.
  intros H. rewrite Z.shiftl_mul_pow2 by lia. change (2 ^ 4) with 16.
  replace (x / 16 * 16 + x mod 16) with x by (pose proof (Z.div_mod x 16); lia).
  by apply u8_small.
Qed.

Lemma zlen_hex_text src : zlen (hex_text src) = 2 * zlen src.
Proof.
  unfold hex_text. induction src as [|x src IH]; [done|]. cbn [mbind list_bind].
  rewrite zlen_app, IH, !zlen_cons, (zlen_nil (A:=Z)). lia.
Qed.

Lemma hex2str_loop_ok n i pre suf s1 s2 rest :
  length s2 = n -> zlen s1 = i -> zlen pre = 2 * i -> 2 * zlen s2 <= zlen suf ->
  hex2str_loop n i (pre ++ suf) (s1 ++ s2 ++ rest)
  = Some (pre ++ hex_text s2 ++ drop (2 * n) suf).
Proof.
  revert i pre suf s1 s2. induction n as [|n IH]; intros i pre suf s1 s2 Hn Hi Hp Hs.
  { destruct s2; [|done]. by rewrite Nat.mul_0_r, drop_0. }
  destruct s2 as [|x s2]; [done|]. injection Hn as Hn. rewrite zlen_cons in Hs.
  pose proof (zlen_nonneg s2).
  destruct suf as [|a [|b suf]]; rewrite ?zlen_cons, ?(zlen_nil (A:=Z)) in Hs; [lia|lia|].
  cbn [hex2str_loop app]. rewrite <- Hi, rd_mid. cbn [mbind option_bind]. rewrite Hi.
  replace (i * 2) with (zlen pre) by lia. rewrite wr_mid. cbn [mbind option_bind].
  rewrite (cons_middle (hex_digit (x / 16)) pre (b :: suf)), app_assoc.
  replace (zlen pre + 1) with (zlen (pre ++ [hex_digit (x / 16)])) by (rewrite zlen_app, zlen_one; lia).
  rewrite wr_mid. cbn [mbind option_bind]. rewrite cons_middle, app_assoc, (cons_middle x s1), app_assoc.
  rewrite (IH (i + 1)); [|done|rewrite zlen_app, zlen_one; lia|rewrite !zlen_app, !zlen_one; lia|lia].
  rewrite <- !app_assoc. replace (2 * S n)%nat with (S (S (2 * n))) by lia. done.
Qed.

Lemma strlen_before s r : text_ok s -> strlen (s ++ 0 :: r) = Some (zlen s).
Proof.
  intros Hs. induction Hs as [|c s Hc Hs IH]; [done|]. cbn [app strlen]. destruct (Z.eqb_spec c 0); [lia|].
  rewrite IH. cbn. by rewrite zlen_cons, Z.add_comm.
Qed.

Lemma hex2str_text src rest dest : 2 * zlen src + 1 <= zlen dest ->
  exists suf, hex2str dest (src ++ rest) (zlen src) = Some (hex_text src ++ 0 :: suf) /\ zlen suf = zlen dest - 2 * zlen src - 1.
Proof.
  intros Hd. unfold hex2str. pose proof (zlen_nonneg src) as H0. pose proof (zlen_hex_text src) as Ht.
  pose proof (hex2str_loop_ok (length src) 0 [] dest [] src rest eq_refl eq_refl eq_refl) as E.
  cbn [app] in E. rewrite zlen_nat, E by lia. cbn [mbind option_bind].
  assert (zlen (drop (2 * length src) dest) = zlen dest - 2 * zlen src) as Hl by (unfold zlen in *; rewrite length_drop; lia).
  destruct (drop (2 * length src) dest) as [|x suf]; [change (zlen (@nil Z)) with 0 in Hl; lia|].
  replace (zlen src * 2) with (zlen (hex_text src)) by lia. rewrite wr_mid. exists suf. rewrite zlen_cons in Hl. split; [done|lia].
Qed.

Lemma ascs2hex_loop_ok n i pre suf a1 s rest :
  length s = n -> bytes_ok s -> zlen a1 = i -> i = 2 * zlen pre -> zlen s <= zlen suf ->
  ascs2hex_loop n i (pre ++ suf) (a1 ++ hex_text s ++ rest) = Some (pre ++ s ++ drop n suf).
Proof.
  revert i pre suf a1 s. induction n as [|n IH]; intros i pre suf a1 s Hn Hb Hi Hp Hs.
  { destruct s; [|done]. by rewrite drop_0. }
  destruct s as [|x s]; [done|]. injection Hn as Hn. apply Forall_cons in Hb as [Hx Hb].
  rewrite zlen_cons in Hs. pose proof (zlen_nonneg s).
  destruct suf as [|a suf]; rewrite ?zlen_cons, ?(zlen_nil (A:=Z)) in Hs; [lia|].
  cbn [ascs2hex_loop hex_text mbind list_bind app]. fold (hex_text s).
  set (h := hex_digit (x / 16)). set (l := hex_digit (x mod 16)).
  rewrite <- Hi at 1. rewrite rd_mid. cbn [mbind option_bind].
  rewrite (cons_middle h a1), (app_assoc a1).
  replace (i + 1) with (zlen (a1 ++ [h])) by (rewrite zlen_app, zlen_one; lia).
  rewrite rd_mid. cbn [mbind option_bind]. replace (i / 2) with (zlen pre)
    by (rewrite Hp, Z.mul_comm, Z.div_mul; lia).
  unfold is_u8 in Hx. pose proof (Z.mod_pos_bound x 16).
  assert (asc2hex h = x / 16) as -> by (apply asc2hex_digit; split;
    [apply Z.div_pos|apply Z.div_lt_upper_bound]; lia).
  assert (asc2hex l = x mod 16) as -> by (apply asc2hex_digit; lia).
  rewrite hex_join by (unfold is_u8; lia).
  rewrite wr_mid. cbn [mbind option_bind].
  rewrite (cons_middle l (a1 ++ [h])), (app_assoc (a1 ++ [h])), (cons_middle x pre), (app_assoc pre).
  rewrite (IH (i + 2)); [|done|done|rewrite !zlen_app, !zlen_one; lia|rewrite zlen_app, zlen_one; lia|lia].
  by rewrite <- !app_assoc.
Qed.

(** * Sorting: proofs *)

Section Sorting.
Variable asc : bool.

(** The order the array is sorted in. *)
Definition sle (a b : Z) : Prop := if asc then a <= b else b <= a.

Lemma sle_trans a b c : sle a b -> sle b c -> sle a c.
Proof. unfold sle. destruct asc; lia. Qed.

Lemma swap_ok pre x y suf :
  sort_swap asc (pre ++ x :: y :: suf) (zlen pre)
  = Some (if (if asc then y <? x else x <? y) then pre ++ y :: x :: suf else pre ++ x :: y :: suf).
Proof.
  unfold sort_swap. rewrite rd_mid. cbn [mbind option_bind].
  rewrite (cons_middle x pre), app_assoc.
  replace (zlen pre + 1) with (zlen (pre ++ [x])) by (by rewrite zlen_app).
  rewrite rd_mid. cbn [mbind option_bind]. rewrite <- app_assoc. cbn [app].
  destruct (if asc then y <? x else x <? y); [|done].
  rewrite wr_mid. cbn [mbind option_bind]. rewrite (cons_middle y pre), app_assoc.
  replace (zlen (pre ++ [x])) with (zlen (pre ++ [y])) by (by rewrite !zlen_app).
  rewrite wr_mid. by rewrite <- app_assoc.
Qed.

(** A pass moves a largest element to the end of its range. *)
Lemma inner_ok n i pre x l suf :
  length l = n -> zlen pre = i ->
  exists l' m, sort_inner n i asc (pre ++ x :: l ++ suf) = Some (pre ++ l' ++ m :: suf)
    /\ m :: l' ≡ₚ x :: l /\ Forall (fun y => sle y m) l'.
Proof.
  revert i pre x l. induction n as [|n IH]; intros i pre x l Hn Hi.
  { destruct l; [|done]. exists [], x. by repeat split. }
  destruct l as [|y l]; [done|]. injection Hn as Hn. cbn [sort_inner app].
  rewrite <- Hi, swap_ok. cbn [mbind option_bind]. rewrite Hi.
  destruct (if asc then y <? x else x <? y) eqn:E.
  - rewrite (cons_middle y pre), app_assoc.
    destruct (IH (i + 1) (pre ++ [y]) x l Hn) as (l' & m & -> & Hp & Hf); [rewrite zlen_app, zlen_one; lia|].
    exists (y :: l'), m. rewrite <- app_assoc. split; [done|]. split.
    + rewrite (Permutation_swap y x), <- Hp. apply Permutation_swap.
    + constructor; [|done]. apply (sle_trans _ x).
      * unfold sle. destruct asc; bool_hyps; lia.
      * assert (x ∈ m :: l') as Hx by (rewrite Hp; left). apply elem_of_cons in Hx as [->|Hx];
          [unfold sle; destruct asc; lia|]. rewrite Forall_forall in Hf. auto.
  - rewrite (cons_middle x pre), app_assoc.
    destruct (IH (i + 1) (pre ++ [x]) y l Hn) as (l' & m & -> & Hp & Hf); [rewrite zlen_app, zlen_one; lia|].
    exists (x :: l'), m. rewrite <- app_assoc. split; [done|]. split.
    + rewrite <- Hp. apply Permutation_swap.
    + constructor; [|done]. apply (sle_trans _ y).
      * unfold sle. destruct asc; bool_hyps; lia.
      * assert (y ∈ m :: l') as Hy by (rewrite Hp; left). apply elem_of_cons in Hy as [->|Hy];
          [unfold sle; destruct asc; lia|]. rewrite Forall_forall in Hf. auto.
Qed.

Lemma outer_ok m a s :
  length a = S m -> StronglySorted sle s -> Forall (fun x => Forall (sle x) s) a ->
  exists r, sort_outer m asc (a ++ s) = Some r /\ r ≡ₚ a ++ s /\ StronglySorted sle r.
Proof.
  revert a s. induction m as [|m IH]; intros a s Ha Hs Hf.
  { destruct a as [|x [|]]; try done. exists (x :: s). apply Forall_cons in Hf as [Hx _].
    split; [done|]. split; [done|]. by constructor. }
  destruct a as [|x l]; [done|]. injection Ha as Ha. cbn [sort_outer].
  destruct (inner_ok (S m) 0 [] x l s Ha eq_refl) as (l' & k & E & Hp & Hk). cbn [app] in E |- *.
  rewrite E. cbn [mbind option_bind].
  destruct (IH l' (k :: s)) as (r & Er & Hpr & Hsr).
  - apply Permutation_length in Hp. cbn in Hp. lia.
  - constructor; [done|]. rewrite Forall_forall in Hf. apply Hf. rewrite <- Hp. left.
  - rewrite Forall_forall in *. intros y Hy. constructor; [auto|]. apply Hf. rewrite <- Hp. by right.
  - exists r. split; [done|]. split; [|done]. rewrite Hpr, <- Permutation_middle.
    change (k :: l' ++ s) with ((k :: l') ++ s). by rewrite Hp.
Qed.

Lemma byte_sort_ok buf :
  exists r, byte_sort asc buf (zlen buf) = Some r /\ r ≡ₚ buf /\ StronglySorted sle r.
Proof.
  unfold byte_sort. destruct buf as [|x l]; [exists []; by repeat constructor|].
  destruct (outer_ok (length l) (x :: l) []) as (r & E & Hp & Hs);
    [done|constructor|by apply Forall_forall; intros; constructor|].
  rewrite app_nil_r in E, Hp. exists r. split; [|done].
  replace (Z.to_nat (zlen (x :: l) - 1)) with (length l) by (rewrite zlen_cons; unfold zlen; lia). done.
Qed.
End Sorting.

(** * Versions: proofs *)

Definition digit (c : Z) : Prop := 48 <= c <= 57.
Definition section_ok (d : list Z) : Prop := 1 <= zlen d <= 8 /\ Forall digit d.
Definition tails (secs : list (list Z)) : list Z := secs ≫= cons 46.

(** What may follow when the current section has [cnt] digits and [dot] dots
    have been seen. *)
Definition rest_ok (cnt dot : Z) (s : list Z) : Prop :=
  exists d secs, s = d ++ tails secs /\ Forall digit d /\ 1 <= cnt + zlen d <= 8
    /\ Forall section_ok secs /\ dot + zlen secs <= 2.

Lemma rest_ok_nil cnt dot : 0 <= cnt <= 8 -> 0 <= dot <= 2 -> rest_ok cnt dot [] <-> 0 < cnt.
Proof.
  intros Hc Hd. split.
  - intros ([|] & [|] & E & _ & Hr & _); try done. rewrite (zlen_nil (A:=Z)) in Hr. lia.
  - intros H. exists [], []. rewrite (zlen_nil (A:=Z)), (zlen_nil (A:=list Z)).
    split_and!; try done; lia.
Qed.

Lemma rest_ok_dot cnt dot s :
  0 <= cnt <= 8 -> rest_ok cnt dot (46 :: s) <-> 0 < cnt /\ dot + 1 <= 2 /\ rest_ok 0 (dot + 1) s.
Proof.
  intros Hc. split.
  - intros (d & secs & E & Hd & Hr & Hs & Hn). destruct d as [|c d].
    2: { injection E as <- _. apply Forall_cons in Hd as [[] _]. lia. }
    destruct secs as [|sec secs]; [done|]. cbn in E. injection E as ->.
    apply Forall_cons in Hs as [[Hs1 Hs2] Hs]. rewrite (zlen_nil (A:=Z)) in Hr. rewrite zlen_cons in Hn.
    pose proof (zlen_nonneg secs). split; [lia|]. split; [lia|]. exists sec, secs. split_and!; try done; lia.
  - intros (H1 & H2 & d & secs & -> & Hd & Hr & Hs & Hn). exists [], (d :: secs).
    rewrite (zlen_nil (A:=Z)), zlen_cons. split_and!; try done; try lia. constructor; [|done].
    split; [lia|done].
Qed.

Lemma rest_ok_digit cnt dot c s :
  digit c -> rest_ok cnt dot (c :: s) <-> rest_ok (cnt + 1) dot s.
Proof.
  intros Hc. split.
  - intros (d & secs & E & Hd & Hr & Hs & Hn). destruct d as [|c' d].
    { destruct secs as [|sec secs]; [done|]. injection E as -> _. destruct Hc. lia. }
    injection E as -> ->. apply Forall_cons in Hd as [_ Hd]. rewrite zlen_cons in Hr.
    exists d, secs. split_and!; try done; lia.
  - intros (d & secs & -> & Hd & Hr & Hs & Hn). exists (c :: d), secs. rewrite zlen_cons.
    split_and!; try done; try lia. by constructor.
Qed.

Lemma rest_ok_other cnt dot c s : c <> 46 -> ~ digit c -> ~ rest_ok cnt dot (c :: s).
Proof.
  intros H1 H2 (d & secs & E & Hd & _). destruct d as [|c' d].
  - destruct secs; [done|]. injection E as -> _. done.
  - injection E as -> _. apply Forall_cons in Hd as [? _]. done.
Qed.

Lemma rest_ok_bound cnt dot s : 8 < cnt -> ~ rest_ok cnt dot s.
Proof. intros H (d & secs & _ & _ & Hr & _). pose proof (zlen_nonneg d). lia. Qed.

Definition last_ok (last : option Z) (cnt : Z) : Prop :=
  match last with None => cnt = 0 | Some l => (l = 46 /\ cnt = 0) \/ (l <> 46 /\ 0 < cnt) end.

Lemma version_loop_ok s last dot cnt :
  text_ok s -> 0 <= cnt <= 8 -> 0 <= dot <= 2 -> last_ok last cnt -> (last = None -> s <> []) ->
  (version_loop (cstr s) last dot cnt = Some 1 <-> rest_ok cnt dot s)
  /\ (version_loop (cstr s) last dot cnt = Some 0 \/ version_loop (cstr s) last dot cnt = Some 1).
Proof.
  intros Hs. revert last dot cnt. induction Hs as [|c s Hc Hs IH]; intros last dot cnt H1 H2 Hl Hn;
    unfold cstr in *; cbn [app version_loop].
  { rewrite rest_ok_nil by done. destruct last as [l|]; [|exfalso; by apply Hn].
    destruct Hl as [[-> ->]|[Hl Hp]]; cbn.
    - split; [split; [done|lia]|auto].
    - destruct (Z.eqb_spec l 46); [done|]. split; [done|auto]. }
  destruct (Z.eqb_spec c 0); [lia|]. destruct (Z.eqb_spec c 46) as [->|Hne].
  - rewrite rest_ok_dot by done. destruct last as [l|].
    2: { cbn in Hl. split; [split; [done|lia]|auto]. }
    destruct Hl as [[-> ->]|[Hl Hp]]; cbn [orb].
    { rewrite Z.eqb_refl. split; [split; [done|lia]|auto]. }
    destruct (Z.eqb_spec l 46); [done|]. destruct (Z.ltb_spec 2 (dot + 1)).
    { split; [split; [done|lia]|auto]. }
    destruct (IH (Some 46) (dot + 1) 0) as [IH1 IH2]; [lia|lia|by left|done|].
    split; [|done]. rewrite IH1. split; [intros; split_and!; done || lia|tauto].
  - destruct ((48 <=? c) && (c <=? 57)) eqn:Ed.
    + bool_hyps. assert (digit c) as Hd by (split; lia). rewrite rest_ok_digit by done.
      destruct (Z.ltb_spec 8 (cnt + 1)).
      { split; [|auto]. split; [done|]. intros Hr. by apply rest_ok_bound in Hr. }
      apply IH; [lia|done| |done]. right. lia.
    + split; [|auto]. split; [done|]. intros Hr. exfalso. revert Hr. apply rest_ok_other; [done|].
      intros [? ?]. apply andb_false_iff in Ed as [E|E]; bool_hyps; lia.
Qed.

Lemma strlen_cstr s : text_ok s -> strlen (cstr s) = Some (zlen s).
Proof.
  unfold cstr. induction 1 as [|c s Hc Hs IH]; [done|]. cbn [app strlen].
  destruct (Z.eqb_spec c 0); [lia|]. rewrite IH. cbn [mbind option_bind]. rewrite zlen_cons. f_equal. lia.
Qed.

(** * Numbers: proofs *)

Fixpoint pop (p : positive) : Z :=
  match p with xH => 1 | xO p => pop p | xI p => 1 + pop p end.
Definition popcount (z : Z) : Z := match z with Z.pos p => pop p | _ => 0 end.

Lemma land_double a b : Z.land (2 * a) (2 * b + 1) = 2 * Z.land a b.
Proof.
  apply Z.bits_inj. intros i. rewrite Z.land_spec. destruct (Z.lt_trichotomy i 0) as [Hi|[->|Hi]].
  - by rewrite !Z.testbit_neg_r.
  - by rewrite !Z.testbit_even_0.
  - replace i with (Z.succ (i - 1)) by lia.
    rewrite Z.testbit_odd_succ, !Z.testbit_even_succ, Z.land_spec by lia. done.
Qed.

Lemma popcount_double z : popcount (2 * z) = popcount z.
Proof. by destruct z. Qed.

Lemma popcount_clear p : popcount (Z.land (Z.pos p) (Z.pos p - 1)) = pop p - 1.
Proof.
  induction p as [p IH|p IH|]; [| |done].
  - replace (Z.pos p~1 - 1) with (2 * Z.pos p) by lia. rewrite Z.land_comm.
    replace (Z.pos p~1) with (2 * Z.pos p + 1) by lia.
    rewrite land_double, Z.land_diag, popcount_double. cbn. lia.
  - replace (Z.pos p~0 - 1) with (2 * (Z.pos p - 1) + 1) by lia.
    replace (Z.pos p~0) with (2 * Z.pos p) by lia. rewrite land_double, popcount_double. apply IH.
Qed.

Lemma pop_bound p : 1 <= pop p <= Z.log2 (Z.pos p) + 1.
Proof.
  induction p as [p IH|p IH|]; [| |done]; cbn [pop].
  - replace (Z.pos p~1) with (2 * Z.pos p + 1) by lia. rewrite Z.log2_succ_double by lia. lia.
  - replace (Z.pos p~0) with (2 * Z.pos p) by lia. rewrite Z.log2_double by lia. lia.
Qed.

Lemma bit1_loop_ok fuel num count :
  is_u32 num -> popcount num <= Z.of_nat fuel -> bit1_loop fuel num count = Some (count + popcount num).
Proof.
  revert num count. induction fuel as [|f IH]; intros num count Hn Hf; destruct num as [|p|p];
    try (unfold is_u32 in Hn; lia); cbn [bit1_loop Z.eqb].
  - cbn. f_equal. lia.
  - exfalso. pose proof (pop_bound p). cbn in Hf. lia.
  - cbn. f_equal. lia.
  - unfold is_u32 in Hn. norm_widths. pose proof (popcount_clear p) as Hp. cbn [popcount] in Hf |- *.
    rewrite IH, Hp; [f_equal; lia| |lia].
    split; [apply Z.land_nonneg; lia|].
    pose proof (Z.land_nonneg (Z.pos p) (Z.pos p - 1)).
    assert (Z.land (Z.pos p) (Z.pos p - 1) <= Z.pos p); [|lia].
    apply Z.ldiff_le; [lia|]. apply Z.bits_inj. intros i. rewrite Z.ldiff_spec, Z.land_spec, Z.bits_0.
    by destruct (Z.testbit (Z.pos p) i), (Z.testbit (Z.pos p - 1) i).
Qed.

(** The top bit of the shifted complement is the complement of a bit. *)
Lemma top_bit num c :
  0 <= c < 32 -> (Z.land (u32 (Z.shiftl (Z.lnot num) c)) 0x80000000 =? 0) = Z.testbit num (31 - c).
Proof.
  intros Hc. unfold u32, wrap.
  assert (Z.land ((Z.shiftl (Z.lnot num) c) mod 2 ^ 32) 0x80000000
          = if Z.testbit num (31 - c) then 0 else 0x80000000) as ->.
  2: by destruct (Z.testbit num (31 - c)).
  apply Z.bits_inj. intros i. rewrite Z.land_spec. change 0x80000000 with (2 ^ 31).
  destruct (Z.neg_nonneg_cases i); [by rewrite !Z.testbit_neg_r|].
  rewrite Z.pow2_bits_eqb by lia. destruct (Z.eqb_spec 31 i) as [<-|Hi].
  - rewrite Z.mod_pow2_bits_low, Z.shiftl_spec, Z.lnot_spec, andb_true_r by lia.
    destruct (Z.testbit num (31 - c)); [by rewrite Z.bits_0|by rewrite Z.pow2_bits_true].
  - rewrite andb_false_r. destruct (Z.testbit num (31 - c)); [by rewrite Z.bits_0|].
    rewrite Z.pow2_bits_false by lia. done.
Qed.

Lemma u32_shift_step x c :
  0 <= c -> u32 (Z.shiftl (u32 (Z.shiftl x c)) 1) = u32 (Z.shiftl x (c + 1)).
Proof.
  intros Hc. unfold u32, wrap. rewrite !Z.shiftl_mul_pow2, Z.pow_add_r by lia.
  rewrite Z.mul_mod_idemp_l by lia. f_equal. lia.
Qed.

Lemma zeros_loop_ok fuel num c :
  0 <= c <= 32 -> Z.of_nat fuel = 32 - c -> 0 <= num < 2 ^ (32 - c) ->
  zeros_loop fuel (u32 (Z.shiftl (Z.lnot num) c)) c
  = Some (if num =? 0 then 32 else 31 - Z.log2 num).
Proof.
  revert c. induction fuel as [|f IH]; intros c Hc Hf Hn.
  { replace c with 32 in * by lia. change (2 ^ (32 - 32)) with 1 in Hn. replace num with 0 by lia.
    vm_compute. reflexivity. }
  cbn [zeros_loop]. rewrite top_bit by lia. destruct (Z.testbit num (31 - c)) eqn:E.
  - destruct (Z.eqb_spec num 0) as [E0|Hz]; [by rewrite E0, Z.bits_0 in E|]. f_equal.
    assert (Z.log2 num < 32 - c) by (apply Z.log2_lt_pow2; lia).
    assert (31 - c <= Z.log2 num); [|lia].
    destruct (Z.le_gt_cases (31 - c) (Z.log2 num)) as [|Hgt]; [done|].
    rewrite Z.bits_above_log2 in E by lia. done.
  - rewrite u32_shift_step by lia. apply IH; [lia|lia|]. split; [lia|].
    destruct (Z.eq_dec num 0) as [E0|Hz]; [rewrite E0; apply Z.pow_pos_nonneg; lia|].
    apply Z.log2_lt_cancel. rewrite Z.log2_pow2 by lia.
    assert (Z.log2 num < 32 - c) by (apply Z.log2_lt_pow2; lia).
    assert (Z.log2 num <> 31 - c); [|lia]. intros El. rewrite <- El, Z.bit_log2 in E by lia. done.
Qed.

Lemma intArray_stuck fuel i limit num arr :
  0 <= i <= zlen arr -> zlen arr < limit -> zlen arr < 256 ->
  intArray_loop fuel i limit num arr = None \/ intArray_loop fuel i limit num arr = Some None.
Proof.
  revert i num. induction fuel as [|f IH]; intros i num Hi Hl Ha; cbn [intArray_loop].
  { destruct (Z.ltb_spec i limit); [auto|lia]. }
  destruct (Z.ltb_spec i limit); [|lia]. destruct (rd arr i) as [d|] eqn:E; [|auto].
  assert (i < zlen arr).
  { destruct (Z.lt_ge_cases i (zlen arr)); [done|]. rewrite rd_None in E by lia. done. }
  apply IH; [|done|done]. rewrite u8_small by (unfold is_u8; lia). lia.
Qed.

(** * Properties *)

(** [hex2str] and [ascs2hex] are inverse: the text written for any bytes
    (two upper-case digits per byte and a terminator, within [2 n + 1] bytes
    of the destination) is read back as exactly those bytes. *)
Theorem hex_roundtrip src dest hex :
  bytes_ok src -> 2 * zlen src + 1 <= zlen dest -> zlen src <= zlen hex ->
  exists text, hex2str dest src (zlen src) = Some text
    /\ slice text 0 (2 * zlen src + 1) = Some (cstr (hex_text src))
    /\ ascs2hex hex text (2 * zlen src) = Some (src ++ drop (length src) hex).
Proof.
  intros Hb Hd Hh. pose proof (zlen_nonneg src) as H0. pose proof (zlen_hex_text src) as Ht.
  destruct (hex2str_text src [] dest Hd) as (rest & E & _). rewrite app_nil_r in E. rewrite E.
  exists (hex_text src ++ 0 :: rest). split; [done|]. split.
  - rewrite (cons_middle 0 (hex_text src) rest), app_assoc.
    replace (2 * zlen src + 1) with (zlen (cstr (hex_text src))) by (unfold cstr; rewrite zlen_app, zlen_one; lia).
    apply slice_prefix.
  - unfold ascs2hex. replace (Z.rem (2 * zlen src) 2) with 0
      by (rewrite Z.mul_comm, Z.rem_mul; lia). rewrite Z.sub_0_r.
    destruct (Z.eqb_spec (2 * zlen src) 0) as [Ez|Ez].
    { assert (src = []) as -> by (apply zlen_zero; lia). by rewrite drop_0. }
    replace (2 * zlen src / 2) with (zlen src) by (rewrite Z.mul_comm, Z.div_mul; lia).
    rewrite zlen_nat.
    apply (ascs2hex_loop_ok (length src) 0 [] hex [] src (0 :: rest)); done || lia.
Qed.

Lemma hex_roundtrip_witness :
  exists text, hex2str (zrepl 7 9) [0; 171; 255] 3 = Some text
    /\ slice text 0 7 = Some (cstr (hex_text [0; 171; 255]))
    /\ ascs2hex (zrepl 4 8) text 6 = Some ([0; 171; 255] ++ [8]).
Proof.
  apply (hex_roundtrip [0; 171; 255] (zrepl 7 9) (zrepl 4 8));
    [repeat constructor; unfold is_u8; lia|done|done].
Defined.

(** [byte_sort] terminates, never leaves its buffer, and turns it into a
    permutation of itself that is sorted in the requested direction. *)
Theorem byte_sort_correct asc buf :
  exists r, byte_sort asc buf (zlen buf) = Some r /\ r ≡ₚ buf /\ StronglySorted (sle asc) r.
Proof. apply byte_sort_ok. Qed.

(** [is_valid_version] accepts exactly the strings of at most 10
    characters that are one to three sections of one to eight decimal digits
    joined by single dots, and answers 0 for every other string. *)
Theorem is_valid_version_spec s :
  text_ok s ->
  (is_valid_version (Some (cstr s)) = Some 1
   <-> zlen s <= 10 /\ exists first secs, s = first ++ tails secs /\ section_ok first
         /\ Forall section_ok secs /\ zlen secs <= 2)
  /\ (is_valid_version (Some (cstr s)) = Some 0 \/ is_valid_version (Some (cstr s)) = Some 1).
Proof.
  intros Hs. unfold is_valid_version. rewrite strlen_cstr by done. cbn [mbind option_bind].
  pose proof (zlen_nonneg s). destruct (Z.ltb_spec 10 (zlen s)); cbn [orb].
  { split; [split; [done|lia]|auto]. }
  destruct (Z.eqb_spec (zlen s) 0) as [E|E].
  { apply zlen_zero in E as ->. split; [|auto]. split; [done|].
    intros (_ & [|] & secs & E & [Hd _] & _); [rewrite (zlen_nil (A:=Z)) in Hd; lia|done]. }
  destruct (version_loop_ok s None 0 0) as [H1 H2]; [done|lia|lia|done|by intros _ ->|].
  split; [|done]. rewrite H1. unfold rest_ok, section_ok. rewrite ?Z.add_0_l. split.
  - intros (d & secs & ? & ? & ? & ? & ?). split; [lia|]. exists d, secs. split_and!; try done; lia.
  - intros (_ & d & secs & ? & [? ?] & ? & ?). exists d, secs. split_and!; try done; lia.
Qed.

Lemma is_valid_version_spec_witness :
  let s := [49; 46; 50; 51] in
  (is_valid_version (Some (cstr s)) = Some 1
   <-> zlen s <= 10 /\ exists first secs, s = first ++ tails secs /\ section_ok first
         /\ Forall section_ok secs /\ zlen secs <= 2)
  /\ (is_valid_version (Some (cstr s)) = Some 0 \/ is_valid_version (Some (cstr s)) = Some 1).
Proof. intros s. apply (is_valid_version_spec s). repeat constructor; lia. Defined.

(** The lexicographic order of strings. *)
Fixpoint lex (s t : list Z) : Z :=
  match s, t with
  | [], [] => 0
  | [], _ => -1
  | _, [] => 1
  | a :: s', b :: t' => if a <? b then -1 else if b <? a then 1 else lex s' t'
  end.

(** [uni_strcmp] decides the lexicographic order and reads no further than the
    terminators. *)
Lemma uni_strcmp_lex s t r1 r2 :
  text_ok s -> text_ok t -> uni_strcmp (cstr s ++ r1) (cstr t ++ r2) = Some (lex s t).
Proof.
  unfold uni_strcmp, cstr. intros Hs. revert t. induction Hs as [|a s Ha Hs IH]; intros t Ht.
  - destruct Ht as [|b t Hb Ht]; [done|]. cbn -[Z.sub]. destruct (Z.eqb_spec (0 - b) 0); [lia|].
    cbn [andb mbind option_bind]. destruct (Z.ltb_spec (0 - b) 0); [done|lia].
  - destruct Ht as [|b t Hb Ht]; cbn [app strcmp_loop lex].
    + destruct (Z.eqb_spec (a - 0) 0); [lia|]. cbn [andb mbind option_bind].
      destruct (Z.ltb_spec (a - 0) 0); [lia|]. by destruct (Z.ltb_spec 0 (a - 0)); [|lia].
    + destruct (Z.eqb_spec (a - b) 0).
      * destruct (Z.eqb_spec b 0); [lia|]. cbn [andb negb]. rewrite IH by done.
        by destruct (Z.ltb_spec a b), (Z.ltb_spec b a); try lia.
      * cbn [andb mbind option_bind].
        destruct (Z.ltb_spec (a - b) 0), (Z.ltb_spec 0 (a - b)), (Z.ltb_spec a b), (Z.ltb_spec b a);
          try lia; done.
Qed.

Lemma strncasecmp_equal s r1 r2 cnt n :
  text_ok s -> cnt + zlen s + 1 < n -> strncasecmp_loop (cstr s ++ r1) (cstr s ++ r2) cnt n = Some (-1).
Proof.
  unfold cstr. intros Hs. revert cnt. induction Hs as [|a s Ha Hs IH]; intros cnt Hn; cbn [app strncasecmp_loop].
  - rewrite (zlen_nil (A:=Z)) in Hn. rewrite Z.sub_diag, Z.eqb_refl.
    by destruct (Z.leb_spec n (cnt + 1)); [lia|].
  - rewrite zlen_cons in Hn. pose proof (zlen_nonneg s). rewrite Z.sub_diag, Z.eqb_refl.
    destruct (Z.leb_spec n (cnt + 1)); [lia|]. destruct (Z.eqb_spec a 0); [lia|]. apply IH. lia.
Qed.

(** [tuya_strncasecmp] answers -1, "the second is longer", on two equal
    strings whenever the limit exceeds their length by more than one: at the
    common terminator the check of the first string wins before equality is
    reported. (With a limit of at most the length plus one it answers 0.) *)
Theorem tuya_strncasecmp_equal_strings s r1 r2 n :
  text_ok s -> zlen s + 1 < n -> tuya_strncasecmp false (cstr s ++ r1) (cstr s ++ r2) n = Some (-1).
Proof. intros. by apply strncasecmp_equal. Qed.

Lemma tuya_strncasecmp_equal_strings_witness :
  tuya_strncasecmp false (cstr [97; 98] ++ []) (cstr [97; 98] ++ []) 8 = Some (-1).
Proof. apply (tuya_strncasecmp_equal_strings [97; 98] [] [] 8); [repeat constructor; lia|done]. Defined.

(** [tuya_intArray2int] with a start index inside an array of [len]
    digits never returns a number: the loop runs to [index + len], past the
    end of the array. *)
Theorem tuya_intArray2int_overrun fuel arr index :
  0 < index < zlen arr -> zlen arr < 256 ->
  tuya_intArray2int fuel arr index (zlen arr) = None
  \/ tuya_intArray2int fuel arr index (zlen arr) = Some None.
Proof.
  intros Hi Ha. unfold tuya_intArray2int. destruct (Z.leb_spec (zlen arr) index); [lia|].
  norm_widths. apply intArray_stuck; lia.
Qed.

Lemma tuya_intArray2int_overrun_witness :
  tuya_intArray2int 100 [1; 2; 3] 1 3 = None \/ tuya_intArray2int 100 [1; 2; 3] 1 3 = Some None.
Proof. apply (tuya_intArray2int_overrun 100 [1; 2; 3] 1); done. Defined.

(** The bit counters are right for every 32-bit number: [tuya_bit1_count]
    is the number of ones of the binary representation and
    [tuya_leading_zeros_count] the number of zeros above its highest one (32
    for 0); both loops end within 32 rounds. *)
Theorem bit_counts_correct num :
  is_u32 num ->
  tuya_bit1_count num = Some (popcount num)
  /\ tuya_leading_zeros_count num = Some (if num =? 0 then 32 else 31 - Z.log2 num).
Proof.
  intros Hn. pose proof Hn as [H0 Hlt]. split.
  - apply bit1_loop_ok; [done|]. destruct num as [|p|p]; cbn; try lia.
    pose proof (pop_bound p). assert (Z.log2 (Z.pos p) < 32) by (apply Z.log2_lt_pow2; lia). lia.
  - unfold tuya_leading_zeros_count. rewrite <- (Z.shiftl_0_r (Z.lnot num)).
    by apply zeros_loop_ok; [lia..|].
Qed.

Lemma bit_counts_correct_witness :
  tuya_bit1_count 0xF0F0 = Some (popcount 0xF0F0)
  /\ tuya_leading_zeros_count 0xF0F0 = Some (31 - Z.log2 0xF0F0).
Proof. apply (bit_counts_correct 0xF0F0). unfold is_u32. lia. Defined.
