(* ===== verification/SwTimer.v ===== *)
(** The software timers of [src/tal_system/src/tal_sw_timer.c].

    The two linked lists are represented by the sequences of their nodes: that
    the pointer implementation realises the insertions and removals used here
    is what [TuyaList] proves. *)
From Stdlib Require Import ZArith Lia Sorted.
From stdpp Require Import base tactics option list numbers gmap.
From S2P Require Import Prelude TuyaList.

Local Open Scope Z_scope.

(** * Data *)

Inductive TIMER_TYPE := TAL_TIMER_ONCE | TAL_TIMER_CYCLE.

Record TIMER_T := {
  cb : Z;                (* TAL_TIMER_CB, not null *)
  data : Z;              (* void * *)
  expire_time : Z;       (* uint64_t *)
  interval : Z;          (* TIME_MS *)
  is_running : bool;
  type : TIMER_TYPE
}.

(** [s_timer_mgr] and the allocated timers; a timer is known by its address. *)
Record SW_TIMER_MGR_T := {
  list_active : list loc;
  list_standby : list loc;
  total_cnt : Z;         (* uint16_t *)
  running_cnt : Z;       (* uint16_t *)
  timers : gmap loc TIMER_T
}.

Definition set_timer (t : TIMER_T) (e : Z) (i : Z) (r : bool) (ty : TIMER_TYPE) : TIMER_T :=
  {| cb := cb t; data := data t; expire_time := e; interval := i; is_running := r; type := ty |}.

(** * Operations

    [None] is the use of a timer that is not allocated. [now_ms] combines the
    clock reading of [tal_time_get_system_time]. *)

Definition now_ms (sec ms : Z) : Z := u64 (sec * 1000 + ms).

(** [tuya_list_del]: the node leaves the list it is in. *)
Definition unlink (p : loc) (l : list loc) : list loc := filter (.≠ p) l.

(** The search loop of [__timer_attach]: in front of the first timer that does
    not expire earlier. *)
Fixpoint attach_at (ts : gmap loc TIMER_T) (e : Z) (p : loc) (l : list loc) : option (list loc) :=
  match l with
  | [] => Some [p]
  | q :: l' =>
      t ← ts !! q;
      if e <=? expire_time t then Some (p :: q :: l')
      else l'' ← attach_at ts e p l'; Some (q :: l'')
  end.

Definition timer_attach (m : SW_TIMER_MGR_T) (p : loc) : option SW_TIMER_MGR_T :=
  t ← timers m !! p;
  act ← attach_at (timers m) (expire_time t) p (unlink p (list_active m));
  Some {| list_active := act; list_standby := unlink p (list_standby m);
          total_cnt := total_cnt m; running_cnt := running_cnt m; timers := timers m |}.

(** One pass of the [do ... while] of [__timer_dispatch] up to the unlock: the
    timer to call, or the time to wait ([None]: wait for ever). *)
Inductive dispatch_result := Fire (p : loc) | Wait (next_expired : option Z).

Definition dispatch_step (m : SW_TIMER_MGR_T) (nowMS : Z) : option (SW_TIMER_MGR_T * dispatch_result) :=
  match list_active m with
  | [] => Some (m, Wait None)
  | p :: _ =>
      t ← timers m !! p;
      if nowMS <? expire_time t then Some (m, Wait (Some (u64 (expire_time t - nowMS))))
      else match type t with
      | TAL_TIMER_ONCE =>
          Some ({| list_active := unlink p (list_active m);
                   list_standby := unlink p (list_standby m) ++ [p];
                   total_cnt := total_cnt m; running_cnt := u16 (running_cnt m - 1);
                   timers := <[p := set_timer t (expire_time t) (interval t) false (type t)]> (timers m) |},
                Fire p)
      | TAL_TIMER_CYCLE =>
          m' ← timer_attach {| list_active := list_active m; list_standby := list_standby m;
                   total_cnt := total_cnt m; running_cnt := running_cnt m;
                   timers := <[p := set_timer t (u64 (nowMS + interval t)) (interval t) (is_running t) (type t)]>
                               (timers m) |} p;
          Some (m', Fire p)
      end
  end.

(** The callback is called after the unlock, with the fields of the timer. *)
Definition dispatch_call (m : SW_TIMER_MGR_T) (p : loc) : option (Z * loc * Z) :=
  t ← timers m !! p; Some (cb t, p, data t).

(** The whole of [__timer_dispatch] while nothing else runs and the clock
    stands: the calls in order and the time to wait; [None] out of fuel. *)
Fixpoint timer_dispatch (fuel : nat) (m : SW_TIMER_MGR_T) (nowMS : Z)
  : option (SW_TIMER_MGR_T * list (Z * loc * Z) * option Z) :=
  match fuel with
  | O => None
  | S f =>
      '(m', r) ← dispatch_step m nowMS;
      match r with
      | Wait n => Some (m', [], n)
      | Fire p =>
          c ← dispatch_call m' p;
          '(m'', cs, n) ← timer_dispatch f m' nowMS; Some (m'', c :: cs, n)
      end
  end.

Definition tal_sw_timer_create (m : SW_TIMER_MGR_T) (func : option Z) (arg : Z) (dest : bool)
    (alloc : option loc) : Z * SW_TIMER_MGR_T * option loc :=
  match func with
  | None => (OPRT_INVALID_PARM, m, None)
  | Some f =>
    if negb dest then (OPRT_INVALID_PARM, m, None)
    else match alloc with
    | None => (OPRT_MALLOC_FAILED, m, None)
    | Some p =>
      (OPRT_OK,
       {| list_active := list_active m; list_standby := list_standby m ++ [p];
          total_cnt := u16 (total_cnt m + 1); running_cnt := running_cnt m;
          timers := <[p := {| cb := f; data := arg; expire_time := 0; interval := 0;
                              is_running := false; type := TAL_TIMER_ONCE |}]> (timers m) |}, Some p)
    end
  end.

Definition tal_sw_timer_delete (m : SW_TIMER_MGR_T) (timer_id : option loc)
  : option (Z * SW_TIMER_MGR_T) :=
  match timer_id with
  | None => Some (OPRT_INVALID_PARM, m)
  | Some p =>
      t ← timers m !! p;
      Some (OPRT_OK,
        {| list_active := unlink p (list_active m); list_standby := unlink p (list_standby m);
           total_cnt := u16 (total_cnt m - 1);
           running_cnt := if is_running t then u16 (running_cnt m - 1) else running_cnt m;
           timers := delete p (timers m) |})
  end.

Definition tal_sw_timer_stop (m : SW_TIMER_MGR_T) (timer_id : option loc)
  : option (Z * SW_TIMER_MGR_T) :=
  match timer_id with
  | None => Some (OPRT_INVALID_PARM, m)
  | Some p =>
      t ← timers m !! p;
      if is_running t then
        Some (OPRT_OK,
          {| list_active := unlink p (list_active m); list_standby := unlink p (list_standby m) ++ [p];
             total_cnt := total_cnt m; running_cnt := u16 (running_cnt m - 1);
             timers := <[p := set_timer t (expire_time t) (interval t) false (type t)]> (timers m) |})
      else Some (OPRT_OK, m)
  end.

(** The result is a [BOOL_T]; the error code of the null pointer is not zero. *)
Definition tal_sw_timer_is_running (m : SW_TIMER_MGR_T) (timer_id : option loc) : option Z :=
  match timer_id with
  | None => Some OPRT_INVALID_PARM
  | Some p => t ← timers m !! p; Some (if is_running t then 1 else 0)
  end.

Definition tal_sw_timer_remain_time_get (m : SW_TIMER_MGR_T) (timer_id : option loc)
    (remain_time : option Z) (nowMS : Z) : option (Z * option Z) :=
  match timer_id, remain_time with
  | Some p, Some r =>
      t ← timers m !! p;
      if negb (is_running t) then Some (s32 (interval t), Some r)
      else Some (OPRT_OK, Some (if nowMS <? expire_time t then u32 (expire_time t - nowMS) else 0))
  | _, _ => Some (OPRT_INVALID_PARM, remain_time)
  end.

Definition tal_sw_timer_start (m : SW_TIMER_MGR_T) (timer_id : option loc) (time_ms : Z)
    (timer_type : TIMER_TYPE) (nowMS : Z) : option (Z * SW_TIMER_MGR_T) :=
  match timer_id with
  | None => Some (OPRT_INVALID_PARM, m)
  | Some p =>
      t ← timers m !! p;
      let cnt := if is_running t then running_cnt m else u16 (running_cnt m + 1) in
      let iv := if time_ms =? 0 then interval t else time_ms in
      m' ← timer_attach {| list_active := list_active m; list_standby := list_standby m;
             total_cnt := total_cnt m; running_cnt := cnt;
             timers := <[p := set_timer t (u64 (nowMS + iv)) iv true timer_type]> (timers m) |} p;
      Some (OPRT_OK, m')
  end.

Definition tal_sw_timer_trigger (m : SW_TIMER_MGR_T) (timer_id : option loc)
  : option (Z * SW_TIMER_MGR_T) :=
  match timer_id with
  | None => Some (OPRT_INVALID_PARM, m)
  | Some p =>
      t ← timers m !! p;
      let ts := <[p := set_timer t 0 (interval t) (is_running t) (type t)]> (timers m) in
      Some (OPRT_OK,
        if is_running t then
          {| list_active := p :: unlink p (list_active m); list_standby := unlink p (list_standby m);
             total_cnt := total_cnt m; running_cnt := running_cnt m; timers := ts |}
        else {| list_active := list_active m; list_standby := list_standby m;
                total_cnt := total_cnt m; running_cnt := running_cnt m; timers := ts |})
  end.

Definition tal_sw_timer_get_num (m : SW_TIMER_MGR_T) : Z := running_cnt m.

(** * The invariant *)

Definition earlier (ts : gmap loc TIMER_T) (p q : loc) : Prop :=
  forall a b, ts !! p = Some a -> ts !! q = Some b -> expire_time a <= expire_time b.

Record timers_ok (m : SW_TIMER_MGR_T) : Prop := {
  ok_nodup : NoDup (list_active m ++ list_standby m);
  ok_dom p : p ∈ list_active m ++ list_standby m <-> is_Some (timers m !! p);
  ok_active p t : p ∈ list_active m -> timers m !! p = Some t -> is_running t = true;
  ok_standby p t : p ∈ list_standby m -> timers m !! p = Some t -> is_running t = false;
  ok_sorted : StronglySorted (earlier (timers m)) (list_active m);
  ok_expire p t : timers m !! p = Some t -> is_u64 (expire_time t);
  ok_total : total_cnt m = u16 (zlen (list_active m ++ list_standby m));
  ok_running : running_cnt m = u16 (zlen (list_active m))
}.

Lemma u16_add x k : u16 (u16 x + k) = u16 (x + k).
Proof. unfold u16, wrap. apply Zplus_mod_idemp_l. Qed.

Lemma u16_sub x k : u16 (u16 x - k) = u16 (x - k).
Proof. unfold u16, wrap. apply Zminus_mod_idemp_l. Qed.

Lemma u16_u16 x : u16 (u16 x) = u16 x.
Proof. unfold u16, wrap. apply Z.mod_mod. lia. Qed.

Lemma unlink_in p l : NoDup l -> p ∈ l -> l ≡ₚ p :: unlink p l.
Proof.
  intros Hn Hp. apply list_elem_of_split in Hp as (l1 & l2 & ->). unfold unlink.
  rewrite <- Permutation_middle in Hn. apply NoDup_cons in Hn as [Hp _].
  by rewrite filter_middle, <- Permutation_middle.
Qed.

Lemma unlink_out p l : p ∉ l -> unlink p l = l.
Proof. apply filter_absent. Qed.

Lemma elem_unlink p q l : q ∈ unlink p l <-> q <> p /\ q ∈ l.
Proof. unfold unlink. by rewrite list_elem_of_filter. Qed.

Lemma sorted_unlink R p l : StronglySorted R l -> StronglySorted R (unlink p l).
Proof.
  unfold unlink. induction 1 as [|x l Hs IH Hf]; [constructor|]. rewrite filter_cons.
  destruct (decide (x <> p)); [|done]. constructor; [done|].
  rewrite Forall_forall in *. intros y Hy. apply Hf. by apply list_elem_of_filter in Hy as [_ ?].
Qed.

Lemma sorted_ext ts ts' l :
  (forall x, x ∈ l -> ts' !! x = ts !! x) ->
  StronglySorted (earlier ts) l -> StronglySorted (earlier ts') l.
Proof.
  intros He Hs. revert He. induction Hs as [|x l Hs IH Hf]; intros He; constructor.
  - apply IH. intros y Hy. apply He. by right.
  - rewrite Forall_forall in *. intros y Hy a b Ha Hb.
    rewrite He in Ha by left. rewrite He in Hb by (by right). by apply (Hf y Hy).
Qed.

(** What a manager is once the timer [p] has left its list. *)
Record detached (m : SW_TIMER_MGR_T) (p : loc) (t : TIMER_T) (A S : list loc) : Prop := {
  det_nodup : NoDup (p :: A ++ S);
  det_dom q : q ∈ p :: A ++ S <-> is_Some (timers m !! q);
  det_active q u : q ∈ A -> timers m !! q = Some u -> is_running u = true;
  det_standby q u : q ∈ S -> timers m !! q = Some u -> is_running u = false;
  det_sorted : StronglySorted (earlier (timers m)) A;
  det_total : total_cnt m = u16 (zlen (A ++ S) + 1);
  det_running : running_cnt m = u16 (zlen A + if is_running t then 1 else 0)
}.

Lemma zlen_perm {B} (l k : list B) : l ≡ₚ k -> zlen l = zlen k.
Proof. intros H. unfold zlen. by rewrite H. Qed.

Lemma detach m p t :
  timers_ok m -> timers m !! p = Some t ->
  detached m p t (unlink p (list_active m)) (unlink p (list_standby m)).
Proof.
  intros [Hnd Hdom Hact Hst Hso Hex Htot Hrun] Hp.
  assert (p ∈ list_active m ++ list_standby m) as Hin by (apply Hdom; eauto).
  assert (list_active m ++ list_standby m ≡ₚ p :: unlink p (list_active m) ++ unlink p (list_standby m)) as HP.
  { rewrite (unlink_in p (list_active m ++ list_standby m) Hnd Hin). unfold unlink. by rewrite filter_app. }
  assert (zlen (list_active m) = zlen (unlink p (list_active m)) + (if is_running t then 1 else 0)) as HL.
  { apply NoDup_app in Hnd as (HA & Hdis & HS). apply elem_of_app in Hin as [Hi|Hi].
    - rewrite (Hact p t) by done. rewrite (zlen_perm _ _ (unlink_in p _ HA Hi)), zlen_cons. lia.
    - rewrite (Hst p t) by done. rewrite unlink_out; [lia|]. intros Ha. by apply (Hdis p Ha). }
  split.
  - by rewrite <- HP.
  - intros q. by rewrite <- HP.
  - intros q u Hq. apply Hact. by apply elem_unlink in Hq as [_ ?].
  - intros q u Hq. apply Hst. by apply elem_unlink in Hq as [_ ?].
  - by apply sorted_unlink.
  - rewrite Htot, (zlen_perm _ _ HP), zlen_cons. f_equal. lia.
  - by rewrite Hrun, HL.
Qed.

(** Putting the timer back, running or not. *)
Lemma reattach_active m p t t' A S A' :
  timers_ok m -> detached m p t A S -> timers m !! p = Some t ->
  is_running t' = true -> is_u64 (expire_time t') -> A' ≡ₚ p :: A ->
  StronglySorted (earlier (<[p := t']> (timers m))) A' ->
  timers_ok {| list_active := A'; list_standby := S; total_cnt := total_cnt m;
               running_cnt := if is_running t then running_cnt m else u16 (running_cnt m + 1);
               timers := <[p := t']> (timers m) |}.
Proof.
  intros Hm [Hnd Hdom Hact Hst Hso Htot Hrun] Hp Hr He HP Hs.
  apply NoDup_cons in Hnd as [Hpn Hnd]. split; cbn [list_active list_standby total_cnt running_cnt timers].
  - rewrite HP. cbn. by constructor.
  - intros q. rewrite HP. destruct (decide (q = p)) as [->|Hq].
    + rewrite lookup_insert_eq. split; [eauto|intros _; left].
    + rewrite lookup_insert_ne by done. rewrite <- Hdom. done.
  - intros q u Hq. destruct (decide (q = p)) as [->|Hne].
    + rewrite lookup_insert_eq. by intros [= <-].
    + rewrite lookup_insert_ne by done. apply Hact. rewrite HP in Hq. set_solver.
  - intros q u Hq. rewrite lookup_insert_ne by set_solver. by apply Hst.
  - done.
  - intros q u. destruct (decide (q = p)) as [->|Hne].
    + rewrite lookup_insert_eq. by intros [= <-].
    + rewrite lookup_insert_ne by done. apply (ok_expire _ Hm).
  - rewrite Htot, (zlen_perm (A' ++ S) (p :: A ++ S)) by (by rewrite HP). rewrite zlen_cons. f_equal. lia.
  - rewrite (zlen_perm _ _ HP), zlen_cons, Hrun. destruct (is_running t); [f_equal; lia|].
    rewrite Z.add_0_r, u16_add. f_equal. lia.
Qed.

Lemma reattach_standby m p t t' A S :
  timers_ok m -> detached m p t A S -> timers m !! p = Some t ->
  is_running t' = false -> is_u64 (expire_time t') ->
  timers_ok {| list_active := A; list_standby := S ++ [p]; total_cnt := total_cnt m;
               running_cnt := if is_running t then u16 (running_cnt m - 1) else running_cnt m;
               timers := <[p := t']> (timers m) |}.
Proof.
  intros Hm [Hnd Hdom Hact Hst Hso Htot Hrun] Hp Hr He.
  apply NoDup_cons in Hnd as [Hpn Hnd].
  assert (A ++ S ++ [p] ≡ₚ p :: A ++ S) as HP by (rewrite app_assoc, Permutation_app_comm; done).
  split; cbn [list_active list_standby total_cnt running_cnt timers].
  - rewrite HP. by constructor.
  - intros q. rewrite HP. destruct (decide (q = p)) as [->|Hq].
    + rewrite lookup_insert_eq. split; [eauto|intros _; left].
    + rewrite lookup_insert_ne by done. rewrite <- Hdom. done.
  - intros q u Hq. rewrite lookup_insert_ne by set_solver. by apply Hact.
  - intros q u Hq. destruct (decide (q = p)) as [->|Hne].
    + rewrite lookup_insert_eq. by intros [= <-].
    + rewrite lookup_insert_ne by done. apply Hst. set_solver.
  - eapply sorted_ext; [|exact Hso]. intros x Hx. rewrite lookup_insert_ne; [done|set_solver].
  - intros q u. destruct (decide (q = p)) as [->|Hne].
    + rewrite lookup_insert_eq. by intros [= <-].
    + rewrite lookup_insert_ne by done. apply (ok_expire _ Hm).
  - rewrite Htot, (zlen_perm _ _ HP), zlen_cons. f_equal. lia.
  - rewrite Hrun. destruct (is_running t); [rewrite u16_sub; f_equal; lia|f_equal; lia].
Qed.

Lemma attach_at_ok ts e p l :
  (forall q, q ∈ l -> is_Some (ts !! q)) -> StronglySorted (earlier ts) l ->
  (forall t, ts !! p = Some t -> expire_time t = e) ->
  exists l', attach_at ts e p l = Some l' /\ l' ≡ₚ p :: l /\ StronglySorted (earlier ts) l'.
Proof.
  intros Hd Hs He. induction Hs as [|q l Hs IH Hf].
  { exists [p]. split; [done|]. split; [done|]. by repeat constructor. }
  cbn [attach_at]. destruct (Hd q) as [t Ht]; [left|]. rewrite Ht. cbn [mbind option_bind].
  rewrite Forall_forall in Hf. destruct (Z.leb_spec e (expire_time t)) as [Hle|Hgt].
  - eexists. split; [done|]. split; [done|]. constructor; [by constructor; [|rewrite Forall_forall]|].
    rewrite Forall_forall. intros x Hx a b Ha Hb. rewrite (He a Ha).
    apply elem_of_cons in Hx as [->|Hx]; [by simplify_eq|].
    pose proof (Hf x Hx t b Ht Hb). lia.
  - destruct IH as (l' & E & HP & Hs'); [intros; apply Hd; by right|]. rewrite E. cbn [mbind option_bind].
    exists (q :: l'). split; [done|]. split; [rewrite HP; apply Permutation_swap|].
    constructor; [done|]. rewrite Forall_forall. intros x Hx. rewrite HP in Hx.
    apply elem_of_cons in Hx as [->|Hx]; [|auto]. intros a b Ha Hb. rewrite (He b Hb). simplify_eq. lia.
Qed.

(** Re-attaching a timer whose fields were updated. *)
Lemma timer_attach_ok m p t t' :
  timers_ok m -> timers m !! p = Some t -> is_running t' = true -> is_u64 (expire_time t') ->
  exists m', timer_attach {| list_active := list_active m; list_standby := list_standby m;
      total_cnt := total_cnt m;
      running_cnt := if is_running t then running_cnt m else u16 (running_cnt m + 1);
      timers := <[p := t']> (timers m) |} p = Some m'
    /\ timers_ok m' /\ timers m' = <[p := t']> (timers m)
    /\ list_active m' ≡ₚ p :: unlink p (list_active m) /\ list_standby m' = unlink p (list_standby m).
Proof.
  intros Hm Hp Hr He. pose proof (detach m p t Hm Hp) as Hdet. unfold timer_attach.
  cbn [timers list_active list_standby total_cnt running_cnt]. rewrite lookup_insert_eq. cbn [mbind option_bind].
  pose proof Hdet as [Hnd Hdom Hact Hst Hso Htot Hrun]. apply NoDup_cons in Hnd as [Hpn Hnd].
  destruct (attach_at_ok (<[p := t']> (timers m)) (expire_time t') p (unlink p (list_active m)))
    as (l' & E & HP & Hs).
  - intros q Hq. apply insert_is_Some. apply Hdom. set_solver.
  - eapply sorted_ext; [|exact Hso]. intros x Hx. rewrite lookup_insert_ne; [done|set_solver].
  - intros u. rewrite lookup_insert_eq. by intros [= <-].
  - rewrite E. cbn [mbind option_bind]. eexists. split; [reflexivity|].
    split; [|done]. eapply reattach_active; eauto.
Qed.

(** ** Every operation keeps the invariant *)

Inductive timer_op :=
| OpCreate (f arg : Z) (p : loc)
| OpDelete (p : loc)
| OpStop (p : loc)
| OpStart (p : loc) (time_ms : Z) (ty : TIMER_TYPE) (now : Z)
| OpTrigger (p : loc)
| OpDispatch (now : Z).

Definition timer_exec (m : SW_TIMER_MGR_T) (op : timer_op) : option (Z * SW_TIMER_MGR_T) :=
  match op with
  | OpCreate f arg p => let '(rc, m', _) := tal_sw_timer_create m (Some f) arg true (Some p) in Some (rc, m')
  | OpDelete p => tal_sw_timer_delete m (Some p)
  | OpStop p => tal_sw_timer_stop m (Some p)
  | OpStart p ms ty now => tal_sw_timer_start m (Some p) ms ty now
  | OpTrigger p => tal_sw_timer_trigger m (Some p)
  | OpDispatch now => '(m', _) ← dispatch_step m now; Some (OPRT_OK, m')
  end.

(** The caller's side: new timers get unused addresses, the others exist. *)
Definition timer_op_ok (m : SW_TIMER_MGR_T) (op : timer_op) : Prop :=
  match op with
  | OpCreate _ _ p => timers m !! p = None
  | OpDelete p | OpStop p | OpStart p _ _ _ | OpTrigger p => is_Some (timers m !! p)
  | OpDispatch _ => True
  end.

Lemma create_ok m f arg p :
  timers_ok m -> timers m !! p = None ->
  timers_ok {| list_active := list_active m; list_standby := list_standby m ++ [p];
    total_cnt := u16 (total_cnt m + 1); running_cnt := running_cnt m;
    timers := <[p := {| cb := f; data := arg; expire_time := 0; interval := 0;
                        is_running := false; type := TAL_TIMER_ONCE |}]> (timers m) |}.
Proof.
  intros [Hnd Hdom Hact Hst Hso Hex Htot Hrun] Hp.
  assert (p ∉ list_active m ++ list_standby m) as Hpn.
  { intros Hin. apply Hdom in Hin as [? ?]. congruence. }
  assert (list_active m ++ list_standby m ++ [p] ≡ₚ p :: list_active m ++ list_standby m) as HP
    by (rewrite app_assoc, Permutation_app_comm; done).
  split; cbn [list_active list_standby total_cnt running_cnt timers].
  - rewrite HP. by constructor.
  - intros q. rewrite HP. destruct (decide (q = p)) as [->|Hq].
    + rewrite lookup_insert_eq. split; [eauto|intros _; left].
    + rewrite lookup_insert_ne, <- Hdom by done. set_solver.
  - intros q u Hq. rewrite lookup_insert_ne by set_solver. by apply Hact.
  - intros q u Hq. destruct (decide (q = p)) as [->|Hne].
    + rewrite lookup_insert_eq. by intros [= <-].
    + rewrite lookup_insert_ne by done. apply Hst. set_solver.
  - eapply sorted_ext; [|exact Hso]. intros x Hx. rewrite lookup_insert_ne; [done|set_solver].
  - intros q u. destruct (decide (q = p)) as [->|Hne].
    + rewrite lookup_insert_eq. by intros [= <-].
    + rewrite lookup_insert_ne by done. apply Hex.
  - rewrite Htot, u16_add, (zlen_perm _ _ HP), zlen_cons. f_equal. lia.
  - done.
Qed.

Lemma delete_ok m p t :
  timers_ok m -> timers m !! p = Some t ->
  timers_ok {| list_active := unlink p (list_active m); list_standby := unlink p (list_standby m);
    total_cnt := u16 (total_cnt m - 1);
    running_cnt := if is_running t then u16 (running_cnt m - 1) else running_cnt m;
    timers := delete p (timers m) |}.
Proof.
  intros Hm Hp. destruct (detach m p t Hm Hp) as [Hnd Hdom Hact Hst Hso Htot Hrun].
  apply NoDup_cons in Hnd as [Hpn Hnd]. split; cbn [list_active list_standby total_cnt running_cnt timers].
  - done.
  - intros q. destruct (decide (q = p)) as [->|Hq].
    + rewrite lookup_delete_eq. split; [done|by intros []].
    + rewrite lookup_delete_ne, <- Hdom by done. set_solver.
  - intros q u Hq. rewrite lookup_delete_ne by set_solver. by apply Hact.
  - intros q u Hq. rewrite lookup_delete_ne by set_solver. by apply Hst.
  - eapply sorted_ext; [|exact Hso]. intros x Hx. rewrite lookup_delete_ne; [done|set_solver].
  - intros q u. destruct (decide (q = p)) as [->|Hne].
    + by rewrite lookup_delete_eq.
    + rewrite lookup_delete_ne by done. apply (ok_expire _ Hm).
  - rewrite Htot, u16_sub. f_equal. lia.
  - rewrite Hrun. destruct (is_running t); [rewrite u16_sub; f_equal; lia|f_equal; lia].
Qed.

Lemma trigger_ok m p t :
  timers_ok m -> timers m !! p = Some t ->
  exists m', tal_sw_timer_trigger m (Some p) = Some (OPRT_OK, m') /\ timers_ok m'.
Proof.
  intros Hm Hp. pose proof (detach m p t Hm Hp) as Hdet. unfold tal_sw_timer_trigger.
  rewrite Hp. cbn [mbind option_bind]. eexists. split; [reflexivity|].
  set (t' := set_timer t 0 (interval t) (is_running t) (type t)).
  destruct (is_running t) eqn:Hr.
  - pose proof (reattach_active m p t t' _ _ (p :: unlink p (list_active m)) Hm Hdet Hp) as H.
    rewrite Hr in H. apply H; [done|done|done|].
    pose proof Hdet as [Hnd _ _ _ Hso _ _]. apply NoDup_cons in Hnd as [Hpn _]. constructor.
    + eapply sorted_ext; [|exact Hso]. intros x Hx. rewrite lookup_insert_ne; [done|set_solver].
    + rewrite Forall_forall. intros x Hx a b. rewrite lookup_insert_eq. intros [= <-].
      rewrite lookup_insert_ne by set_solver. intros Hb. apply (ok_expire _ Hm) in Hb.
      unfold is_u64 in Hb. cbn. lia.
  - destruct Hm as [Hnd Hdom Hact Hst Hso Hex Htot Hrun].
    assert (p ∉ list_active m) as Hpa.
    { intros Hin. by rewrite (Hact p t Hin Hp) in Hr. }
    split; cbn [list_active list_standby total_cnt running_cnt timers]; try done.
    + intros q. rewrite Hdom. destruct (decide (q = p)) as [->|Hq].
      * rewrite lookup_insert_eq, Hp. split; eauto.
      * by rewrite lookup_insert_ne.
    + intros q u Hq. rewrite lookup_insert_ne by set_solver. by apply Hact.
    + intros q u Hq. destruct (decide (q = p)) as [->|Hne].
      * rewrite lookup_insert_eq. by intros [= <-].
      * rewrite lookup_insert_ne by done. by apply Hst.
    + eapply sorted_ext; [|exact Hso]. intros x Hx. rewrite lookup_insert_ne; [done|set_solver].
    + intros q u. destruct (decide (q = p)) as [->|Hne].
      * rewrite lookup_insert_eq. by intros [= <-].
      * rewrite lookup_insert_ne by done. apply Hex.
Qed.

Lemma stop_ok m p t :
  timers_ok m -> timers m !! p = Some t ->
  exists m', tal_sw_timer_stop m (Some p) = Some (OPRT_OK, m') /\ timers_ok m'.
Proof.
  intros Hm Hp. unfold tal_sw_timer_stop. rewrite Hp. cbn [mbind option_bind].
  destruct (is_running t) eqn:Hr; [|by eexists]. eexists. split; [reflexivity|].
  pose proof (reattach_standby m p t (set_timer t (expire_time t) (interval t) false (type t)) _ _
    Hm (detach m p t Hm Hp) Hp eq_refl) as H.
  rewrite Hr in H. apply H. by apply (ok_expire _ Hm) in Hp.
Qed.

Lemma start_ok m p t ms ty now :
  timers_ok m -> timers m !! p = Some t ->
  exists m', tal_sw_timer_start m (Some p) ms ty now = Some (OPRT_OK, m') /\ timers_ok m'
    /\ p ∈ list_active m'
    /\ timers m' !! p = Some (set_timer t (u64 (now + if ms =? 0 then interval t else ms))
                                (if ms =? 0 then interval t else ms) true ty).
Proof.
  intros Hm Hp. unfold tal_sw_timer_start. rewrite Hp. cbn [mbind option_bind].
  edestruct (timer_attach_ok m p t) as (m' & E & Hm' & Ht & HA & _); [done|exact Hp| | |].
  3: { rewrite E. cbn [mbind option_bind]. eexists. split; [reflexivity|]. split; [done|].
       split; [rewrite HA; left|]. by rewrite Ht, lookup_insert_eq. }
  - done.
  - cbn. apply u64_range.
Qed.

(** The effect of one pass of the dispatcher that fires. *)
(** A timer after its callback: a periodic one starts again, the other stops. *)
Definition fired (now : Z) (t : TIMER_T) : TIMER_T :=
  match type t with
  | TAL_TIMER_ONCE => set_timer t (expire_time t) (interval t) false (type t)
  | TAL_TIMER_CYCLE => set_timer t (u64 (now + interval t)) (interval t) true (type t)
  end.

Lemma dispatch_fire m now p rest t :
  timers_ok m -> list_active m = p :: rest -> timers m !! p = Some t -> expire_time t <= now ->
  exists m', dispatch_step m now = Some (m', Fire p) /\ timers_ok m'
    /\ timers m' = <[p := fired now t]> (timers m)
    /\ match type t with
       | TAL_TIMER_ONCE => list_active m' = rest
       | TAL_TIMER_CYCLE => attach_at (timers m') (u64 (now + interval t)) p rest = Some (list_active m')
       end.
Proof.
  intros Hm HA Hp Hle. unfold dispatch_step. rewrite HA, Hp. cbn [mbind option_bind].
  destruct (Z.ltb_spec now (expire_time t)); [lia|].
  assert (is_running t = true) as Hr by (eapply (ok_active _ Hm); [rewrite HA; left|done]).
  assert (unlink p (p :: rest) = rest) as Hrest.
  { pose proof (ok_nodup _ Hm) as Hnd. rewrite HA in Hnd. cbn [app] in Hnd. apply NoDup_cons in Hnd as [Hn _].
    unfold unlink. rewrite filter_cons_False by (intros H'; by apply H').
    apply filter_absent. set_solver. }
  unfold fired. destruct (type t) eqn:Hty.
  - eexists. split; [reflexivity|]. split.
    + pose proof (reattach_standby m p t (set_timer t (expire_time t) (interval t) false TAL_TIMER_ONCE) _ _
        Hm (detach m p t Hm Hp) Hp eq_refl) as H'.
      rewrite Hr, HA in H'. apply H'. by apply (ok_expire _ Hm) in Hp.
    + cbn [timers list_active]. rewrite Hrest. split_and!; done.
  - pose proof (timer_attach_ok m p t (set_timer t (u64 (now + interval t)) (interval t) true TAL_TIMER_CYCLE)
      Hm Hp eq_refl) as H'.
    rewrite Hr, HA in H'. rewrite Hr. destruct H' as (m' & E & Hm' & Ht & _); [cbn; apply u64_range|].
    rewrite E. cbn [mbind option_bind]. eexists. split; [reflexivity|]. split; [done|].
    split; [exact Ht|]. unfold timer_attach in E.
    cbn [timers list_active] in E. rewrite lookup_insert_eq in E. cbn [mbind option_bind] in E.
    rewrite Hrest in E.
    destruct (attach_at _ _ _ rest) as [act|] eqn:Ea; [|done]. injection E as <-. exact Ea.
Qed.

Lemma dispatch_ok m now :
  timers_ok m -> exists m' r, dispatch_step m now = Some (m', r) /\ timers_ok m'.
Proof.
  intros Hm. destruct (list_active m) as [|p rest] eqn:HA.
  { unfold dispatch_step. rewrite HA. by eexists _, _. }
  destruct (proj1 (ok_dom _ Hm p)) as [t Ht]; [rewrite HA; left|].
  destruct (Z.lt_ge_cases now (expire_time t)) as [Hlt|Hge].
  - unfold dispatch_step. rewrite HA, Ht. cbn [mbind option_bind].
    destruct (Z.ltb_spec now (expire_time t)); [|lia]. by eexists _, _.
  - destruct (dispatch_fire m now p rest t Hm HA Ht) as (m' & E & Hm' & _); [lia|]. eauto.
Qed.

Lemma timer_exec_ok m op :
  timers_ok m -> timer_op_ok m op -> exists m', timer_exec m op = Some (OPRT_OK, m') /\ timers_ok m'.
Proof.
  intros Hm Hop. destruct op as [f arg p|p|p|p ms ty now|p|now]; cbn [timer_exec timer_op_ok] in *.
  - eexists. split; [reflexivity|]. by apply create_ok.
  - destruct Hop as [t Ht]. unfold tal_sw_timer_delete. rewrite Ht. cbn [mbind option_bind].
    eexists. split; [reflexivity|]. by apply delete_ok.
  - destruct Hop as [t Ht]. by eapply stop_ok.
  - destruct Hop as [t Ht]. destruct (start_ok m p t ms ty now Hm Ht) as (m' & ? & ? & _). eauto.
  - destruct Hop as [t Ht]. by eapply trigger_ok.
  - destruct (dispatch_ok m now Hm) as (m' & r & -> & Hm'). cbn [mbind option_bind]. eauto.
Qed.

(** ** What a dispatch fires *)

Definition is_expired (ts : gmap loc TIMER_T) (now : Z) (p : loc) : bool :=
  match ts !! p with Some t => expire_time t <=? now | None => false end.

(** The running timers whose time has come, in the order of the list. *)
Definition expired (m : SW_TIMER_MGR_T) (now : Z) : list loc :=
  filter (fun p => is_expired (timers m) now p = true) (list_active m).

Lemma attach_at_filter (P : loc -> Prop) `{!forall x, Decision (P x)} ts e p l l' :
  ~ P p -> attach_at ts e p l = Some l' -> filter P l' = filter P l.
Proof.
  intros Hp. revert l'. induction l as [|q l IH]; intros l'; cbn [attach_at].
  { intros [= <-]. by rewrite filter_cons_False. }
  destruct (ts !! q); [|done]. cbn [mbind option_bind]. destruct (_ <=? _).
  - intros [= <-]. by rewrite filter_cons_False.
  - destruct (attach_at ts e p l) as [l''|]; [|done]. cbn [mbind option_bind]. intros [= <-].
    rewrite !filter_cons. by rewrite (IH l'').
Qed.

Lemma filter_ext (P Q : loc -> Prop) `{!forall x, Decision (P x)} `{!forall x, Decision (Q x)} (l : list loc) :
  (forall x, x ∈ l -> P x <-> Q x) -> filter P l = filter Q l.
Proof.
  induction l as [|x l IH]; intros He; [done|]. rewrite !filter_cons, IH by set_solver.
  destruct (decide (P x)) as [Hp|Hp], (decide (Q x)) as [Hq|Hq]; try done; exfalso;
    [apply Hq, He|apply Hp, He]; done || left.
Qed.

(** Positive periods, within the range of the clock. *)
Definition periods_ok (m : SW_TIMER_MGR_T) (now : Z) : Prop :=
  forall p t, timers m !! p = Some t -> type t = TAL_TIMER_CYCLE ->
    0 < interval t /\ now + interval t < 18446744073709551616.

Lemma dispatch_progress m now p rest t :
  timers_ok m -> 0 <= now -> periods_ok m now ->
  list_active m = p :: rest -> timers m !! p = Some t -> expire_time t <= now ->
  exists m', dispatch_step m now = Some (m', Fire p) /\ timers_ok m' /\ periods_ok m' now
    /\ (forall q, dispatch_call m' q = dispatch_call m q) /\ timers m' = <[p := fired now t]> (timers m)
    /\ expired m now = p :: expired m' now.
Proof.
  intros Hm H0 Hper HA Hp Hle.
  destruct (dispatch_fire m now p rest t Hm HA Hp Hle) as (m' & E & Hm' & Ht & Hact).
  exists m'. split; [done|]. split; [done|].
  assert (p ∉ rest) as Hpr.
  { pose proof (ok_nodup _ Hm) as Hnd. rewrite HA in Hnd. apply NoDup_cons in Hnd as [Hn _]. set_solver. }
  split; [|split; [|split; [done|]]].
  - intros q u. rewrite Ht. destruct (decide (q = p)) as [->|Hq].
    + rewrite lookup_insert_eq. intros [= <-]. specialize (Hper p t Hp). unfold fired. by destruct (type t) eqn:Ety; cbn; rewrite ?Ety.
    + rewrite lookup_insert_ne by done. apply Hper.
  - intros q. unfold dispatch_call. rewrite Ht. destruct (decide (q = p)) as [->|Hq]; [|by rewrite lookup_insert_ne].
    rewrite lookup_insert_eq, Hp. cbn [mbind option_bind]. unfold fired. by destruct (type t).
  - unfold expired. rewrite HA, filter_cons_True.
    2: { unfold is_expired. rewrite Hp. by apply Z.leb_le. }
    f_equal.
    assert (filter (fun q => is_expired (timers m) now q = true) rest
            = filter (fun q => is_expired (timers m') now q = true) rest) as ->.
    { apply filter_ext. intros q Hq. unfold is_expired. rewrite Ht, lookup_insert_ne by set_solver. done. }
    destruct (type t) eqn:Ety.
    + by rewrite Hact.
    + symmetry. eapply attach_at_filter; [|exact Hact].
      unfold is_expired. rewrite Ht, lookup_insert_eq. unfold fired. rewrite Ety. cbn [expire_time set_timer]. destruct (Hper p t Hp Ety) as [Hpos Hmax].
      rewrite u64_small by (unfold is_u64; lia). destruct (Z.leb_spec (now + interval t) now); [lia|done].
Qed.

Lemma sorted_none_expired m now :
  timers_ok m -> expired m now = [] ->
  match list_active m with
  | [] => True
  | p :: _ => exists t, timers m !! p = Some t /\ now < expire_time t
  end.
Proof.
  intros Hm He. unfold expired in He. destruct (list_active m) as [|p rest] eqn:HA; [done|].
  destruct (proj1 (ok_dom _ Hm p)) as [t Ht]; [rewrite HA; left|]. exists t. split; [done|].
  destruct (Z.lt_ge_cases now (expire_time t)) as [|Hge]; [done|].
  rewrite filter_cons_True in He; [done|]. unfold is_expired. rewrite Ht. apply Z.leb_le. lia.
Qed.

Lemma expired_cons m now p ps :
  timers_ok m -> expired m now = p :: ps ->
  exists rest t, list_active m = p :: rest /\ timers m !! p = Some t /\ expire_time t <= now.
Proof.
  intros Hm He. unfold expired in He. destruct (list_active m) as [|q rest] eqn:HA; [done|].
  destruct (proj1 (ok_dom _ Hm q)) as [t Ht]; [rewrite HA; left|].
  destruct (Z.le_gt_cases (expire_time t) now) as [Hle|Hgt].
  - rewrite filter_cons_True in He by (unfold is_expired; rewrite Ht; by apply Z.leb_le).
    injection He as -> _. eauto.
  - (* the earliest timer is not due, so none is *)
    exfalso. assert (p ∈ expired m now) as Hin by (unfold expired; rewrite HA, He; left).
    unfold expired in Hin. apply list_elem_of_filter in Hin as [Hx Hin]. unfold is_expired in Hx.
    destruct (timers m !! p) as [u|] eqn:Hu; [|done]. apply Z.leb_le in Hx.
    pose proof (ok_sorted _ Hm) as Hs. rewrite HA in Hs, Hin. apply StronglySorted_inv in Hs as [_ Hf].
    apply elem_of_cons in Hin as [->|Hin]; [simplify_eq; lia|].
    rewrite Forall_forall in Hf. pose proof (Hf p Hin t u Ht Hu). lia.
Qed.

Lemma expired_nodup m now : timers_ok m -> NoDup (expired m now).
Proof. intros Hm. apply NoDup_filter. apply ok_nodup in Hm. by apply NoDup_app in Hm as [? _]. Qed.

Lemma dispatch_all fuel m now :
  timers_ok m -> 0 <= now -> periods_ok m now -> (length (expired m now) < fuel)%nat ->
  exists m' calls next, timer_dispatch fuel m now = Some (m', calls, next)
    /\ Some <$> calls = dispatch_call m <$> expired m now
    /\ (forall p, timers m' !! p = (if bool_decide (p ∈ expired m now) then fired now <$> timers m !! p else timers m !! p))
    /\ timers_ok m' /\ expired m' now = []
    /\ match list_active m' with
       | [] => next = None
       | p :: _ => exists t, timers m' !! p = Some t /\ next = Some (expire_time t - now)
       end.
Proof.
  revert m. induction fuel as [|f IH]; intros m Hm H0 Hper Hf; [lia|].
  destruct (expired m now) as [|p ps] eqn:He.
  - pose proof (sorted_none_expired m now Hm He) as Hn. cbn [timer_dispatch]. unfold dispatch_step.
    destruct (list_active m) as [|p rest] eqn:HA.
    + cbn [mbind option_bind]. exists m, [], None. rewrite HA. by split_and!.
    + destruct Hn as (t & Ht & Hlt). rewrite Ht. cbn [mbind option_bind].
      destruct (Z.ltb_spec now (expire_time t)); [|lia]. cbn [mbind option_bind].
      pose proof (ok_expire _ Hm p t Ht) as Hex. unfold is_u64 in Hex. norm_widths.
      exists m, [], (Some (expire_time t - now)). rewrite HA. split_and!; try done. by exists t.
  - destruct (expired_cons m now p ps Hm He) as (rest & t & HA & Ht & Hle).
    destruct (dispatch_progress m now p rest t Hm H0 Hper HA Ht Hle) as (m1 & E1 & Hm1 & Hper1 & Hc & Ht1 & Hexp).
    rewrite He in Hexp. injection Hexp as Hexp. cbn in Hf. cbn [timer_dispatch].
    destruct (IH m1 Hm1 H0 Hper1) as (m2 & cs & n & E2 & Hcs & Hts & Hm2 & He2 & Hn); [rewrite <- Hexp; lia|].
    assert (dispatch_call m1 p = Some (cb t, p, data t)) as Hp by (unfold dispatch_call; rewrite Ht1, lookup_insert_eq; unfold fired; by destruct (type t)).
    rewrite E1. cbn [mbind option_bind]. rewrite Hp. cbn [mbind option_bind]. rewrite E2. cbn [mbind option_bind].
    eexists _, _, _. split; [reflexivity|]. rewrite Hexp. split_and!; try done.
    + rewrite !fmap_cons, Hcs, <- Hp, Hc. f_equal. apply list_fmap_ext. intros _ q _. apply Hc.
    + assert (p ∉ expired m1 now) as Hpn.
      { pose proof (expired_nodup m now Hm) as Hnd. rewrite He, Hexp in Hnd. by apply NoDup_cons in Hnd as [? _]. }
      intros q. rewrite Hts, Ht1. destruct (decide (q = p)) as [->|Hq].
      * rewrite bool_decide_false, bool_decide_true by (done || left). by rewrite lookup_insert_eq, Ht.
      * rewrite lookup_insert_ne by done. by rewrite (bool_decide_ext (q ∈ p :: expired m1 now) (q ∈ expired m1 now)) by set_solver.
Qed.

(** * Properties *)

Definition timer_step (m m' : SW_TIMER_MGR_T) : Prop :=
  exists op rc, timer_op_ok m op /\ timer_exec m op = Some (rc, m').

(** The manager as [tal_sw_timer_init] leaves it. *)
Definition timer_mgr_init : SW_TIMER_MGR_T :=
  {| list_active := []; list_standby := []; total_cnt := 0; running_cnt := 0; timers := ∅ |}.

Lemma timer_mgr_init_ok : timers_ok timer_mgr_init.
Proof.
  split; cbn; try done; try constructor.
  - by intros H%not_elem_of_nil.
  - by intros [].
Qed.

(** (C20) In every state reachable from initialisation by creations, deletions,
    starts, stops, triggers and dispatch passes on live timers, in any order:
    every timer is in exactly one of the two lists and nowhere else, the active
    list holds exactly the running timers in order of expiry, the two counters
    are the lengths of the lists (modulo 2^16), and the next operation on a
    live timer succeeds. *)
Theorem sw_timer_invariant m op :
  star timer_step timer_mgr_init m -> timer_op_ok m op ->
  timers_ok m /\ exists m', timer_exec m op = Some (OPRT_OK, m') /\ timers_ok m'.
Proof.
  intros Hs Hop. assert (timers_ok m) as Hm.
  { eapply (star_invariant timer_step timers_ok); [|exact Hs|apply timer_mgr_init_ok].
    intros m1 m2 H1 (o & rc & Ho & E). destruct (timer_exec_ok m1 o H1 Ho) as (m' & E' & Hm').
    rewrite E in E'. by injection E' as -> ->. }
  split; [done|]. by apply timer_exec_ok.
Qed.

Lemma sw_timer_invariant_witness :
  timers_ok timer_mgr_init /\
  exists m', timer_exec timer_mgr_init (OpCreate 7 0 1%positive) = Some (OPRT_OK, m') /\ timers_ok m'.
Proof. apply (sw_timer_invariant timer_mgr_init (OpCreate 7 0 1%positive)); [apply star_refl|done]. Defined.

(** (C40) A dispatch while the clock stands at [now] and nothing else interferes, with
    periodic timers of positive periods, ends after one round more than timers are due and
    calls exactly the running timers that are due, each once, in order of expiry and with its
    own callback and argument; a periodic one then starts again from [now], the others of
    them are stopped, and no other timer is changed; afterwards no running timer is due, and the time to wait is the distance to the earliest
    one (for ever when none is running). *)
Theorem sw_timer_dispatch_fires m now :
  timers_ok m -> 0 <= now -> periods_ok m now ->
  exists m' calls next,
    timer_dispatch (S (length (expired m now))) m now = Some (m', calls, next)
    /\ Some <$> calls = dispatch_call m <$> expired m now
    /\ (forall p, timers m' !! p = (if bool_decide (p ∈ expired m now) then fired now <$> timers m !! p else timers m !! p))
    /\ timers_ok m' /\ expired m' now = []
    /\ match list_active m' with
       | [] => next = None
       | p :: _ => exists t, timers m' !! p = Some t /\ next = Some (expire_time t - now)
       end.
Proof. intros. apply dispatch_all; auto. Qed.

(** A periodic timer and two others, which are due before it and between its rounds. *)
Definition demo_timers : SW_TIMER_MGR_T :=
  foldl (fun m op => from_option snd m (timer_exec m op)) timer_mgr_init
    [OpCreate 7 0 1%positive; OpCreate 8 0 2%positive; OpCreate 9 0 3%positive; OpStart 1%positive 100 TAL_TIMER_CYCLE 0;
     OpStart 2%positive 40 TAL_TIMER_ONCE 0; OpStart 3%positive 150 TAL_TIMER_ONCE 0].

Lemma exec_all_ok ops : forall m, timers_ok m ->
  (fix go m ops := match ops with [] => True | op :: ops => timer_op_ok m op /\ go (from_option snd m (timer_exec m op)) ops end) m ops ->
  timers_ok (foldl (fun m op => from_option snd m (timer_exec m op)) m ops).
Proof.
  induction ops as [|op ops IH]; intros m Hm H; [done|]. destruct H as [Ho H].
  destruct (timer_exec_ok m op Hm Ho) as (m' & E & Hm'). rewrite E in H. cbn [foldl]. rewrite E. by apply IH.
Qed.
Lemma demo_timers_ok : timers_ok demo_timers.
Proof. apply exec_all_ok; [apply timer_mgr_init_ok|]. split_and!; try done; by vm_compute; eexists. Qed.

Lemma sw_timer_dispatch_fires_witness :
  exists m' calls, timer_dispatch 3 demo_timers 120 = Some (m', calls, Some 30) /\ Some <$> calls = [Some (8, 2%positive, 0); Some (7, 1%positive, 0)].
Proof.
  destruct (sw_timer_dispatch_fires demo_timers 120 demo_timers_ok ltac:(done)) as (m' & calls & next & E & Ec & _).
  - intros p t H. assert (p = 1 \/ p = 2 \/ p = 3)%positive as Hp.
    { pose proof (proj2 (ok_dom _ demo_timers_ok p) (mk_is_Some _ _ H)) as Hin.
      change (list_active demo_timers ++ list_standby demo_timers) with [2; 1; 3]%positive in Hin. set_solver. }
    destruct Hp as [-> | [-> | ->]]; vm_compute in H; injection H as <-; done.
  - exists m', calls. split; [|exact Ec]. change (S (length (expired demo_timers 120))) with 3%nat in E.
    assert (next = Some 30) as <-; [|exact E]. vm_compute in E. by injection E as _ _ <-.
Defined.

(** A due periodic timer with period 0. *)
Definition due_zero (m : SW_TIMER_MGR_T) (now : Z) (p : loc) : Prop :=
  exists t, timers m !! p = Some t /\ type t = TAL_TIMER_CYCLE /\ interval t = 0
    /\ expire_time t <= now /\ p ∈ list_active m.

Lemma due_zero_first m now p :
  timers_ok m -> due_zero m now p ->
  exists q rest u, list_active m = q :: rest /\ timers m !! q = Some u /\ expire_time u <= now.
Proof.
  intros Hm (t & Ht & _ & _ & He & Hin).
  assert (p ∈ expired m now) as Hp.
  { apply list_elem_of_filter. split; [|done]. unfold is_expired. rewrite Ht. by apply Z.leb_le. }
  destruct (expired m now) as [|a ps] eqn:Ea; [by apply not_elem_of_nil in Hp|].
  destruct (expired_cons m now a ps Hm Ea) as (rest' & v & ? & ? & ?). by exists a, rest', v.
Qed.

(** The node that is attached is in the list, and no other leaves it. *)
Lemma attach_at_elem ts e p l l' q : attach_at ts e p l = Some l' -> q ∈ l' <-> q = p \/ q ∈ l.
Proof.
  revert l'. induction l as [|x l IH]; intros l'; cbn [attach_at].
  { intros [= <-]. set_solver. }
  destruct (ts !! x); [|done]. cbn [mbind option_bind]. destruct (_ <=? _).
  - intros [= <-]. set_solver.
  - destruct (attach_at ts e p l) as [l''|]; [|done]. cbn [mbind option_bind]. intros [= <-].
    specialize (IH l'' eq_refl). set_solver.
Qed.

(** It stays due whatever timer the dispatcher fires. *)
Lemma due_zero_kept m now p q rest u :
  timers_ok m -> is_u64 now -> due_zero m now p ->
  list_active m = q :: rest -> timers m !! q = Some u -> expire_time u <= now ->
  exists m' t', dispatch_step m now = Some (m', Fire q) /\ timers m' !! q = Some t'
    /\ timers_ok m' /\ due_zero m' now p.
Proof.
  intros Hm Hnow (w & Hw & Hwt & Hwi & Hwe & Hin) HA Hq Hle.
  destruct (dispatch_fire m now q rest u Hm HA Hq Hle) as (m' & E & Hm' & Ht & Hact).
  exists m', (fired now u). split; [done|]. split; [by rewrite Ht, lookup_insert_eq|]. split; [done|].
  rewrite HA in Hin. unfold due_zero. destruct (decide (q = p)) as [->|Hne].
  - assert (u = w) as -> by congruence. rewrite Hwt in Hact.
    exists (fired now w). rewrite Ht, lookup_insert_eq. unfold fired. rewrite Hwt. split_and!; try done.
    + cbn [expire_time set_timer]. by rewrite Hwi, Z.add_0_r, u64_small.
    + eapply attach_at_elem; eauto.
  - exists w. rewrite Ht, lookup_insert_ne by done. split_and!; try done.
    apply elem_of_cons in Hin as [->|Hin]; [done|]. destruct (type u).
    + by rewrite Hact.
    + eapply attach_at_elem; eauto.
Qed.

(** A periodic timer with period 0 (the interval a timer has when it is
    started with time 0 and never had another) keeps the dispatcher busy for
    ever once it is due: at a standing clock no number of rounds ends the
    loop. *)
Theorem sw_timer_zero_period_spins fuel m now p :
  timers_ok m -> is_u64 now -> due_zero m now p -> timer_dispatch fuel m now = None.
Proof.
  intros Hm Hnow Hz. revert m Hm Hz. induction fuel as [|f IH]; intros m Hm Hz; [done|].
  cbn [timer_dispatch]. destruct (due_zero_first m now p Hm Hz) as (q & rest & u & HA & Hq & Hle).
  destruct (due_zero_kept m now p q rest u Hm Hnow Hz HA Hq Hle) as (m' & t' & -> & Ht & Hm' & Hz').
  cbn [mbind option_bind]. unfold dispatch_call. rewrite Ht. cbn [mbind option_bind].
  by rewrite (IH m' Hm' Hz').
Qed.

(** A manager with one periodic timer of period 0, just started at time 5. *)
Definition demo_mgr : SW_TIMER_MGR_T :=
  {| list_active := [1%positive]; list_standby := []; total_cnt := 1; running_cnt := 1;
     timers := {[ 1%positive := {| cb := 7; data := 0; expire_time := 5; interval := 0;
                                   is_running := true; type := TAL_TIMER_CYCLE |} ]} |}.

Lemma demo_mgr_steps : star timer_step timer_mgr_init demo_mgr.
Proof.
  eapply star_step; [exists (OpCreate 7 0 1%positive); eexists; split; [done|reflexivity]|].
  eapply star_step; [exists (OpStart 1%positive 0 TAL_TIMER_CYCLE 5); eexists; split|].
  - cbn. rewrite lookup_insert_eq. eauto.
  - vm_compute. reflexivity.
  - apply star_refl.
Qed.

Lemma demo_mgr_ok : timers_ok demo_mgr.
Proof.
  eapply (star_invariant timer_step timers_ok); [|exact demo_mgr_steps|apply timer_mgr_init_ok].
  intros m1 m2 H1 (o & rc & Ho & E). destruct (timer_exec_ok m1 o H1 Ho) as (m' & E' & Hm').
  rewrite E in E'. by injection E' as -> ->.
Qed.

Lemma sw_timer_zero_period_spins_witness : timer_dispatch 1000 demo_mgr 9 = None.
Proof.
  apply (sw_timer_zero_period_spins 1000 demo_mgr 9 1%positive); [apply demo_mgr_ok|unfold is_u64; lia|].
  eexists. split; [reflexivity|]. cbn. split_and!; try done. left.
Defined.

(** The dispatcher uses a timer after it has released the lock: if
    another thread deletes the timer that has just been selected before its
    callback is called, the deletion succeeds and the call then reads a timer
    that is no longer allocated. *)
Theorem sw_timer_call_after_delete m now m1 p :
  timers_ok m -> dispatch_step m now = Some (m1, Fire p) ->
  exists m2, tal_sw_timer_delete m1 (Some p) = Some (OPRT_OK, m2) /\ timers_ok m2
    /\ dispatch_call m2 p = None.
Proof.
  intros Hm E. destruct (list_active m) as [|q rest] eqn:HA.
  { unfold dispatch_step in E. rewrite HA in E. discriminate. }
  destruct (proj1 (ok_dom _ Hm q)) as [t Ht]; [rewrite HA; left|].
  destruct (Z.lt_ge_cases now (expire_time t)) as [Hlt|Hge].
  { unfold dispatch_step in E. rewrite HA, Ht in E. cbn [mbind option_bind] in E.
    destruct (Z.ltb_spec now (expire_time t)); [discriminate|lia]. }
  destruct (dispatch_fire m now q rest t Hm HA Ht) as (m' & E' & Hm' & Ht' & _); [lia|].
  rewrite E in E'. injection E' as -> ->.
  assert (timers m' !! q = Some (fired now t)) as Hq by (by rewrite Ht', lookup_insert_eq).
  unfold tal_sw_timer_delete. rewrite Hq. cbn [mbind option_bind]. eexists. split; [reflexivity|].
  split; [by apply delete_ok|]. unfold dispatch_call. cbn [timers]. by rewrite lookup_delete_eq.
Qed.

Lemma sw_timer_call_after_delete_witness :
  exists m1 m2, dispatch_step demo_mgr 9 = Some (m1, Fire 1%positive)
    /\ tal_sw_timer_delete m1 (Some 1%positive) = Some (OPRT_OK, m2) /\ timers_ok m2
    /\ dispatch_call m2 1%positive = None.
Proof.
  destruct (dispatch_step demo_mgr 9) as [[m1 [p|]]|] eqn:E; [|by vm_compute in E..].
  assert (p = 1%positive) as -> by (vm_compute in E; congruence).
  destruct (sw_timer_call_after_delete demo_mgr 9 m1 1%positive demo_mgr_ok E) as (m2 & ? & ? & ?).
  exists m1, m2. auto.
Defined.
