(* ===== verification/TimeService.v ===== *)
(** The time service of [src/tal_system/src/tal_time_serivce.c]: calendar
    conversion, the running clock and local time. *)
From Stdlib Require Import ZArith Lia.
From stdpp Require Import base tactics option list numbers.
From S2P Require Import Prelude.

Local Open Scope Z_scope.

(** * Data *)

Definition SEC_PER_DAY : Z := 86400.
Definition SEC_PER_HOUR : Z := 3600.

Definition SEC_PER_YR : list Z := [31536000; 31622400].
Definition SEC_PER_MT : list (list Z) := [
  [2678400; 2419200; 2678400; 2592000; 2678400; 2592000; 2678400; 2678400; 2592000; 2678400; 2592000; 2678400];
  [2678400; 2505600; 2678400; 2592000; 2678400; 2592000; 2678400; 2678400; 2592000; 2678400; 2592000; 2678400]].

Record POSIX_TM_S := {
  tm_sec : Z; tm_min : Z; tm_hour : Z; tm_mday : Z; tm_mon : Z; tm_year : Z; tm_wday : Z  (* int *)
}.

Record SUM_ZONE_S := { posix_min : Z; posix_max : Z }.
Definition SUM_ZONE_TAB_LMT : Z := 6.

(** The static variables. [s_time_sz_tbl] is the list of its [cnt] zones. *)
Record time_globals := {
  s_time_last_ms : Z;          (* SYS_TIME_T, 64 bits *)
  s_time_tz_sync : bool;
  s_time_tz : Z;               (* int *)
  s_time_sz_tbl : list SUM_ZONE_S;
  s_time_cloud_sync : bool;
  s_time_cloud_posix : Z;      (* TIME_T, 32 bits *)
  s_time_disable_update : bool;
  last_ms : Z;                 (* statics of tal_time_get_system_time *)
  roll_ms : Z
}.

(** * Calendar *)

Definition is_leap (yr : Z) : Z :=
  if Z.rem yr 100 =? 0 then (if Z.rem yr 400 =? 0 then 1 else 0)
  else (if Z.rem yr 4 =? 0 then 1 else 0).

Definition is_valid_date_time (tm : POSIX_TM_S) : Z :=
  if 59 <? tm_sec tm then -1
  else if 59 <? tm_min tm then -1
  else if 23 <? tm_hour tm then -1
  else if (tm_year tm + 1900 <? 1970) || (2111 <? tm_year tm + 1900) then -1
  else if 12 <=? tm_mon tm then -1
  else if (tm_mon tm =? 1)
          && (if is_leap (tm_year tm + 1900) =? 0 then 28 <? tm_mday tm else 29 <? tm_mday tm) then -1
  else if ((tm_mon tm =? 3) || (tm_mon tm =? 5) || (tm_mon tm =? 8) || (tm_mon tm =? 10))
          && (30 <? tm_mday tm) then -1
  else if (tm_mday tm <? 1) || (31 <? tm_mday tm) then -1
  else 0.

Definition dow_table : list Z := [0; 3; 2; 5; 0; 3; 5; 1; 4; 6; 2; 4].

(** [month] from 1; the year is an [uint16_t], the sum an [int]. *)
Definition get_day_of_week (month day year : Z) : option Z :=
  let year := if month <? 3 then u16 (year - 1) else year in
  t ← rd dow_table (month - 1);
  Some (u8 (Z.rem (year + year / 4 - year / 100 + year / 400 + t + day) 7)).

(** [for (i = 1970; i < year; i++)], [n] rounds from year [i]. *)
Fixpoint mk_years (n : nat) (i time : Z) : option Z :=
  match n with
  | O => Some time
  | S n' => s ← rd SEC_PER_YR (is_leap i); mk_years n' (i + 1) (u32 (time + s))
  end.

Fixpoint mk_months (n : nat) (i : Z) (mt : list Z) (time : Z) : option Z :=
  match n with
  | O => Some time
  | S n' => s ← rd mt i; mk_months n' (i + 1) mt (u32 (time + s))
  end.

Definition tal_time_mktime (tm : option POSIX_TM_S) : option Z :=
  match tm with
  | None => Some 0
  | Some tm =>
      let year := tm_year tm + 1900 in
      time ← mk_years (Z.to_nat (year - 1970)) 1970 0;
      let leapyr := if is_leap year =? 0 then 0 else 1 in
      mt ← rd SEC_PER_MT leapyr;
      time ← mk_months (Z.to_nat (tm_mon tm)) 0 mt time;
      let time := u32 (time + (tm_mday tm - 1) * SEC_PER_DAY) in
      let time := u32 (time + tm_hour tm * SEC_PER_HOUR) in
      let time := u32 (time + tm_min tm * 60) in
      Some (u32 (time + tm_sec tm))
  end.

(** The two [while (1)] loops; [None] out of fuel or outside a table. *)
Fixpoint gm_years (fuel : nat) (ltm year : Z) : option (Z * Z) :=
  match fuel with
  | O => None
  | S f =>
      s ← rd SEC_PER_YR (is_leap year);
      if ltm <? s then Some (ltm, year) else gm_years f (u32 (ltm - s)) (year + 1)
  end.

Fixpoint gm_months (fuel : nat) (mt : list Z) (ltm mon : Z) : option (Z * Z) :=
  match fuel with
  | O => None
  | S f =>
      s ← rd mt mon;
      if ltm <? s then Some (ltm, mon) else gm_months f mt (u32 (ltm - s)) (mon + 1)
  end.

Definition tal_time_gmtime_r (tm : Z) : option POSIX_TM_S :=
  '(ltm, year) ← gm_years 138 tm 1970;
  mt ← rd SEC_PER_MT (is_leap year);
  '(ltm, mon) ← gm_months 12 mt ltm 0;
  let mday := ltm / SEC_PER_DAY + 1 in
  let ltm := ltm mod SEC_PER_DAY in
  let hour := ltm / SEC_PER_HOUR in
  let ltm := ltm mod SEC_PER_HOUR in
  wday ← get_day_of_week (u8 (mon + 1)) (u8 mday) (u16 year);
  Some {| tm_sec := ltm mod 60; tm_min := ltm / 60; tm_hour := hour; tm_mday := mday;
          tm_mon := mon; tm_year := year - 1900; tm_wday := wday |}.

(** * The clock

    [now] is the reading of [tal_system_get_millisecond]. *)

Definition set_clock (g : time_globals) (posix last : Z) : time_globals :=
  {| s_time_last_ms := last; s_time_tz_sync := s_time_tz_sync g; s_time_tz := s_time_tz g;
     s_time_sz_tbl := s_time_sz_tbl g; s_time_cloud_sync := s_time_cloud_sync g;
     s_time_cloud_posix := posix; s_time_disable_update := s_time_disable_update g;
     last_ms := last_ms g; roll_ms := roll_ms g |}.

Definition tal_time_set_posix (g : time_globals) (time update_source now : Z) : Z * time_globals :=
  if s_time_disable_update g then (OPRT_OK, g)
  else
    let g := set_clock g time now in
    (OPRT_OK,
     if update_source =? 1 then
       {| s_time_last_ms := s_time_last_ms g; s_time_tz_sync := s_time_tz_sync g; s_time_tz := s_time_tz g;
          s_time_sz_tbl := s_time_sz_tbl g; s_time_cloud_sync := true;
          s_time_cloud_posix := s_time_cloud_posix g; s_time_disable_update := s_time_disable_update g;
          last_ms := last_ms g; roll_ms := roll_ms g |}
     else g).

Definition tal_time_get_cur_posix (g : time_globals) : Z := s_time_cloud_posix g.

Definition tal_time_check_time_sync (g : time_globals) : Z :=
  if s_time_cloud_sync g then OPRT_OK else OPRT_COM_ERROR.
Definition tal_time_check_time_zone_sync (g : time_globals) : Z :=
  if s_time_tz_sync g then OPRT_OK else OPRT_COM_ERROR.

(** The recycle step the two readers share. *)
Definition clock_recycle (g : time_globals) (now : Z) : time_globals :=
  if now <? s_time_last_ms g
  then set_clock g (u32 (s_time_cloud_posix g + u64 (0x100000000 - s_time_last_ms g) / 1000)) 0
  else g.

Definition tal_time_get_posix (g : time_globals) (now : Z) : Z * time_globals :=
  let g := clock_recycle g now in
  (u32 (s_time_cloud_posix g + u64 (now - s_time_last_ms g) / 1000), g).

Definition tal_time_get_posix_ms (g : time_globals) (now : Z) : Z * time_globals :=
  let g := clock_recycle g now in
  (u64 (u64 (s_time_cloud_posix g * 1000) + u64 (now - s_time_last_ms g)), g).

(** [TIME_S] and [TIME_MS] are [unsigned long]. *)
Definition tal_time_get_system_time (g : time_globals) (now : Z) : Z * Z * time_globals :=
  let roll := if now <? last_ms g then u64 (roll_ms g + 0x100000000) else roll_ms g in
  let t := u64 (now + roll) in
  (t / 1000, t mod 1000,
   {| s_time_last_ms := s_time_last_ms g; s_time_tz_sync := s_time_tz_sync g; s_time_tz := s_time_tz g;
      s_time_sz_tbl := s_time_sz_tbl g; s_time_cloud_sync := s_time_cloud_sync g;
      s_time_cloud_posix := s_time_cloud_posix g; s_time_disable_update := s_time_disable_update g;
      last_ms := now; roll_ms := roll |}).

Definition tal_time_set (g : time_globals) (tm : POSIX_TM_S) (now : Z) : option (Z * time_globals) :=
  if is_valid_date_time tm =? 0 then
    time ← tal_time_mktime (Some tm); Some (tal_time_set_posix g time 2 now)
  else Some (OPRT_COM_ERROR, g).

Definition tal_time_get (g : time_globals) (dest : bool) (now : Z)
  : option (Z * time_globals * option POSIX_TM_S) :=
  if dest then
    let '(curtime, g') := tal_time_get_posix g now in
    tm ← tal_time_gmtime_r curtime; Some (OPRT_OK, g', Some tm)
  else Some (OPRT_INVALID_PARM, g, None).

(** * Zones *)

Definition in_zone (time : Z) (z : SUM_ZONE_S) : bool :=
  (posix_min z <=? time) && (time <=? posix_max z).

Definition tal_time_is_in_sum_zone (g : time_globals) (time : Z) : bool :=
  existsb (in_zone time) (s_time_sz_tbl g).

(** [__is_in_sum_zone] reads the clock twice. *)
Definition is_in_sum_zone (g : time_globals) (now1 now2 : Z) : bool * time_globals :=
  let '(time, g) := tal_time_get_posix g now1 in
  let '(time2, g) := tal_time_get_posix g now2 in
  if time2 <? time then (false, g) else (tal_time_is_in_sum_zone g time, g).

Definition tal_time_set_sum_zone_tbl (g : time_globals) (zone : option (list SUM_ZONE_S)) (cnt : Z)
  : option time_globals :=
  tbl ← (match zone with
         | None => Some []
         | Some z => if cnt =? 0 then Some []
                     else slice z 0 (if SUM_ZONE_TAB_LMT <? cnt then SUM_ZONE_TAB_LMT else cnt)
         end);
  Some {| s_time_last_ms := s_time_last_ms g; s_time_tz_sync := s_time_tz_sync g; s_time_tz := s_time_tz g;
          s_time_sz_tbl := tbl; s_time_cloud_sync := s_time_cloud_sync g;
          s_time_cloud_posix := s_time_cloud_posix g; s_time_disable_update := s_time_disable_update g;
          last_ms := last_ms g; roll_ms := roll_ms g |}.

Definition tal_time_get_time_zone_seconds (g : time_globals) : Z * Z := (OPRT_OK, s_time_tz g).

Definition tal_time_set_time_zone_seconds (g : time_globals) (time_zone_sec : Z) : Z * time_globals :=
  (OPRT_OK,
   {| s_time_last_ms := s_time_last_ms g; s_time_tz_sync := true; s_time_tz := time_zone_sec;
      s_time_sz_tbl := s_time_sz_tbl g; s_time_cloud_sync := s_time_cloud_sync g;
      s_time_cloud_posix := s_time_cloud_posix g; s_time_disable_update := s_time_disable_update g;
      last_ms := last_ms g; roll_ms := roll_ms g |}).

(** The clock readings of the calls are [now], [now1] and [now2]. *)
Definition tal_time_get_local_time_custom (g : time_globals) (in_time : Z) (dest : bool) (now now1 now2 : Z)
  : option (Z * time_globals * option POSIX_TM_S) :=
  if negb dest then Some (OPRT_INVALID_PARM, g, None)
  else
    let '(local_time, g) :=
      if in_time =? 0
      then let '(t, g) := tal_time_get_posix g now in (u32 (t + s_time_tz g), g)
      else (u32 (in_time + s_time_tz g), g) in
    let '(summer, g) := is_in_sum_zone g now1 now2 in
    let local_time := if summer : bool then u32 (local_time + SEC_PER_HOUR) else local_time in
    tm ← tal_time_gmtime_r local_time; Some (OPRT_OK, g, Some tm).

Definition tal_time_get_sum_time_posix (g : time_globals) (now now1 now2 : Z) : Z * time_globals :=
  let '(time, g) := tal_time_get_posix g now in
  let '(summer, g) := is_in_sum_zone g now1 now2 in
  (if summer : bool then u32 (time + SEC_PER_HOUR) else time, g).

Definition tal_time_get_sum_time (g : time_globals) (now now1 now2 : Z)
  : option (Z * time_globals * POSIX_TM_S) :=
  let '(time, g) := tal_time_get_sum_time_posix g now now1 now2 in
  tm ← tal_time_gmtime_r time; Some (OPRT_OK, g, tm).

Definition tal_time_get_sum_zone (g : time_globals) (dest : bool) : Z * option (list SUM_ZONE_S) :=
  if dest then (OPRT_OK, Some (s_time_sz_tbl g)) else (OPRT_INVALID_PARM, None).

Definition tal_time_config_update (g : time_globals) (disable : bool) : Z * time_globals :=
  (OPRT_OK,
   {| s_time_last_ms := s_time_last_ms g; s_time_tz_sync := s_time_tz_sync g; s_time_tz := s_time_tz g;
      s_time_sz_tbl := s_time_sz_tbl g; s_time_cloud_sync := s_time_cloud_sync g;
      s_time_cloud_posix := s_time_cloud_posix g; s_time_disable_update := disable;
      last_ms := last_ms g; roll_ms := roll_ms g |}).

(** [tal_time_service_init] when the mutex can be created: [inited] says that it
    already was. *)
Definition tal_time_service_init (g : time_globals) (inited : bool) (mutex_rc now : Z) : Z * time_globals :=
  if inited then (OPRT_OK, g)
  else if negb (mutex_rc =? OPRT_OK) then (mutex_rc, g)
  else (OPRT_OK,
   {| s_time_last_ms := now; s_time_tz_sync := s_time_tz_sync g; s_time_tz := s_time_tz g;
      s_time_sz_tbl := []; s_time_cloud_sync := s_time_cloud_sync g;
      s_time_cloud_posix := 0; s_time_disable_update := s_time_disable_update g;
      last_ms := last_ms g; roll_ms := roll_ms g |}).

(** * Calendar: proofs *)

Definition yr_secs (y : Z) : Z := if is_leap y =? 0 then 31536000 else 31622400.

Lemma is_leap_cases y : is_leap y = 0 \/ is_leap y = 1.
Proof. unfold is_leap. repeat case_bool; auto. Qed.

Lemma rd_yr y : rd SEC_PER_YR (is_leap y) = Some (yr_secs y).
Proof. unfold yr_secs. by destruct (is_leap_cases y) as [-> | ->]. Qed.

Lemma yr_secs_range y : 31536000 <= yr_secs y <= 31622400.
Proof. unfold yr_secs. case_bool; lia. Qed.

(** Seconds of [n] years from year [i]. *)
Fixpoint years_sum (n : nat) (i : Z) : Z :=
  match n with O => 0 | S n' => yr_secs i + years_sum n' (i + 1) end.

Lemma years_sum_nonneg n i : 0 <= years_sum n i.
Proof.
  revert i. induction n as [|n IH]; intros i; cbn; [lia|].
  pose proof (IH (i + 1)). pose proof (yr_secs_range i). lia.
Qed.

Lemma mk_years_ok n i time :
  0 <= time -> time + years_sum n i < 4294967296 -> mk_years n i time = Some (time + years_sum n i).
Proof.
  revert i time. induction n as [|n IH]; intros i time H0 H; cbn [mk_years years_sum] in *.
  { f_equal. lia. }
  rewrite rd_yr. cbn [mbind option_bind]. pose proof (years_sum_nonneg n (i + 1)).
  pose proof (yr_secs_range i). norm_widths. rewrite IH by lia. f_equal. lia.
Qed.

Lemma gm_years_ok fuel n i r :
  (n < fuel)%nat -> 0 <= r < yr_secs (i + Z.of_nat n) -> years_sum n i + r < 4294967296 ->
  gm_years fuel (years_sum n i + r) i = Some (r, i + Z.of_nat n).
Proof.
  revert n i. induction fuel as [|f IH]; intros n i Hn Hr Hs; [lia|]. cbn [gm_years].
  rewrite rd_yr. cbn [mbind option_bind]. destruct n as [|n]; cbn [years_sum] in *.
  - rewrite Z.add_0_r in *. rewrite Z.add_0_l. destruct (Z.ltb_spec r (yr_secs i)); [done|lia].
  - pose proof (years_sum_nonneg n (i + 1)). pose proof (yr_secs_range i).
    destruct (Z.ltb_spec (yr_secs i + years_sum n (i + 1) + r) (yr_secs i)); [lia|].
    replace (yr_secs i + years_sum n (i + 1) + r - yr_secs i) with (years_sum n (i + 1) + r) by lia.
    norm_widths. replace (i + Z.of_nat (S n)) with (i + 1 + Z.of_nat n) in * by lia.
    apply IH; lia.
Qed.

Lemma years_split fuel i t :
  0 <= t < 31536000 * Z.of_nat fuel ->
  exists n r, (n < fuel)%nat /\ t = years_sum n i + r /\ 0 <= r < yr_secs (i + Z.of_nat n).
Proof.
  revert i t. induction fuel as [|f IH]; intros i t Ht; [lia|].
  destruct (Z.lt_ge_cases t (yr_secs i)).
  - exists O, t. cbn [years_sum]. rewrite Z.add_0_r. split; [lia|]. split; lia.
  - pose proof (yr_secs_range i). destruct (IH (i + 1) (t - yr_secs i)) as (n & r & Hn & Et & Hr); [lia|].
    exists (S n), r. cbn [years_sum]. split; [lia|]. split; [lia|].
    by replace (i + Z.of_nat (S n)) with (i + 1 + Z.of_nat n) by lia.
Qed.

(** ** Months *)

Definition sumz (l : list Z) : Z := foldr Z.add 0 l.

Lemma sumz_app l k : sumz (l ++ k) = sumz l + sumz k.
Proof. unfold sumz. induction l as [|x l IH]; cbn; [done|]. rewrite IH. lia. Qed.

Lemma sumz_nonneg l : Forall (fun x => 0 <= x) l -> 0 <= sumz l.
Proof. unfold sumz. induction 1; cbn; lia. Qed.

Lemma mk_months_ok l pre suf time :
  Forall (fun x => 0 <= x) l -> 0 <= time -> time + sumz l < 4294967296 ->
  mk_months (length l) (zlen pre) (pre ++ l ++ suf) time = Some (time + sumz l).
Proof.
  intros Hl. revert pre time. induction Hl as [|x l Hx Hl IH]; intros pre time H0 H.
  { cbn. f_equal. lia. }
  cbn [length mk_months app]. cbn [sumz foldr] in H. fold (sumz l) in H. pose proof (sumz_nonneg l Hl).
  rewrite rd_mid. cbn [mbind option_bind]. norm_widths. rewrite (cons_middle x), app_assoc.
  replace (zlen pre + 1) with (zlen (pre ++ [x])) by (by rewrite zlen_app).
  rewrite IH by lia. cbn [sumz foldr]. fold (sumz l). f_equal. lia.
Qed.

Lemma gm_months_ok l fuel pre x suf r :
  Forall (fun y => 0 <= y) l -> (length l < fuel)%nat -> 0 <= r < x -> sumz l + r < 4294967296 ->
  gm_months fuel (pre ++ l ++ x :: suf) (sumz l + r) (zlen pre) = Some (r, zlen pre + zlen l).
Proof.
  intros Hl. revert fuel pre. induction Hl as [|y l Hy Hl IH]; intros fuel pre Hf Hr Hs.
  - destruct fuel as [|f]; [cbn in Hf; lia|]. cbn [gm_months app sumz foldr]. rewrite rd_mid.
    cbn [mbind option_bind]. destruct (Z.ltb_spec (0 + r) x); [|lia]. f_equal. f_equal.
    rewrite (zlen_nil (A:=Z)). lia.
  - destruct fuel as [|f]; [cbn in Hf; lia|]. cbn [length] in Hf. cbn [gm_months app].
    cbn [sumz foldr] in Hs |- *. fold (sumz l) in Hs |- *. pose proof (sumz_nonneg l Hl).
    rewrite rd_mid. cbn [mbind option_bind]. destruct (Z.ltb_spec (y + sumz l + r) y); [lia|].
    replace (y + sumz l + r - y) with (sumz l + r) by lia. norm_widths.
    rewrite (cons_middle y), app_assoc.
    replace (zlen pre + 1) with (zlen (pre ++ [y])) by (by rewrite zlen_app).
    rewrite IH by lia. rewrite zlen_app, zlen_one, zlen_cons. f_equal. f_equal. lia.
Qed.

Lemma months_split l t :
  Forall (fun y => 0 <= y) l -> 0 <= t < sumz l ->
  exists l1 x l2 r, l = l1 ++ x :: l2 /\ t = sumz l1 + r /\ 0 <= r < x.
Proof.
  intros Hl. revert t. induction Hl as [|y l Hy Hl IH]; intros t Ht; cbn [sumz foldr] in Ht; [lia|].
  fold (sumz l) in Ht. destruct (Z.lt_ge_cases t y).
  - exists [], y, l, t. cbn. split; [done|]. lia.
  - destruct (IH (t - y)) as (l1 & x & l2 & r & -> & Et & Hr); [lia|].
    exists (y :: l1), x, l2, r. cbn [sumz foldr]. fold (sumz l1). split; [done|]. lia.
Qed.

Definition mt_of (y : Z) : list Z := if is_leap y =? 0 then default [] (SEC_PER_MT !! 0%nat)
                                     else default [] (SEC_PER_MT !! 1%nat).

Lemma rd_mt y : rd SEC_PER_MT (is_leap y) = Some (mt_of y).
Proof. unfold mt_of. by destruct (is_leap_cases y) as [-> | ->]. Qed.

Lemma mt_of_ok y :
  Forall (fun x => 0 <= x) (mt_of y) /\ sumz (mt_of y) = yr_secs y /\ length (mt_of y) = 12%nat.
Proof.
  unfold mt_of, yr_secs. destruct (is_leap y =? 0); split_and!; try done; repeat constructor; lia.
Qed.

(** ** Day of the week *)

(** Sakamoto's sum without the day. *)
Definition dow_base (month year : Z) : Z :=
  let year := if month <? 3 then year - 1 else year in
  year + year / 4 - year / 100 + year / 400 + default 0 (rd dow_table (month - 1)).

Definition dow_check (nm : Z) : bool :=
  let n := nm / 12 in let mon := nm mod 12 in let y := 1970 + n in
  let d := (years_sum (Z.to_nat n) 1970 + sumz (take (Z.to_nat mon) (mt_of y))) / 86400 in
  (dow_base (mon + 1) y mod 7 =? (d + 3) mod 7) && (0 <=? dow_base (mon + 1) y).

Lemma dow_check_all nm : 0 <= nm < 1644 -> dow_check nm = true.
Proof. apply (below_forall 1644). by vm_compute. Qed.

Lemma day_of_week_ok n mon d :
  (n < 137)%nat -> 0 <= mon < 12 -> 1 <= d < 32 ->
  let y := 1970 + Z.of_nat n in
  get_day_of_week (u8 (mon + 1)) (u8 d) (u16 y)
  = Some (((years_sum n 1970 + sumz (take (Z.to_nat mon) (mt_of y))) / 86400 + (d - 1) + 4) mod 7).
Proof.
  intros Hn Hm Hd y. norm_widths.
  pose proof (dow_check_all (Z.of_nat n * 12 + mon)) as H. unfold dow_check in H.
  replace ((Z.of_nat n * 12 + mon) / 12) with (Z.of_nat n) in H by (rewrite Z.div_add_l, Z.div_small; lia).
  replace ((Z.of_nat n * 12 + mon) mod 12) with mon in H
    by (rewrite Z.add_comm, Z.mod_add, Z.mod_small; lia).
  specialize (H ltac:(lia)). rewrite Nat2Z.id in H. fold y in H. bool_hyps. unfold get_day_of_week.
  assert (exists t, rd dow_table (mon + 1 - 1) = Some t) as [t Et] by (apply rd_Some; change (zlen dow_table) with 12; lia).
  rewrite Et. cbn [mbind option_bind]. unfold dow_base in *. rewrite Et in *. cbn [from_option] in *. unfold id in *.
  replace (if mon + 1 <? 3 then u16 (y - 1) else y) with (if mon + 1 <? 3 then y - 1 else y)
    by (case_bool; [rewrite u16_small; [done|unfold is_u16; lia]|done]).
  set (yy := if mon + 1 <? 3 then y - 1 else y) in *.
  set (b := yy + yy / 4 - yy / 100 + yy / 400 + t) in *. clearbody b.
  rewrite Z.rem_mod_nonneg by lia. f_equal.
  rewrite u8_small by (unfold is_u8; pose proof (Z.mod_pos_bound (b + d) 7); lia).
  set (D := (years_sum n 1970 + sumz (take (Z.to_nat mon) (mt_of y))) / 86400) in *.
  replace (D + (d - 1) + 4) with ((D + 3) + d) by lia.
  rewrite (Zplus_mod b), (Zplus_mod (D + 3)). congruence.
Qed.

(** ** The two conversions *)

(** Seconds of the month [mon] (from 0) of year [y]. *)
Definition month_len (y mon : Z) : Z := default 0 (rd (mt_of y) mon).

(** The date [n] years after 1970, its broken-down form and its posix time. *)
Definition date_of (n : nat) (mon d h mi s w : Z) : POSIX_TM_S :=
  {| tm_sec := s; tm_min := mi; tm_hour := h; tm_mday := d; tm_mon := mon;
     tm_year := 1970 + Z.of_nat n - 1900; tm_wday := w |}.

Definition date_start (n : nat) (mon : Z) : Z :=
  years_sum n 1970 + sumz (take (Z.to_nat mon) (mt_of (1970 + Z.of_nat n))).

Definition date_secs (n : nat) (mon d h mi s : Z) : Z :=
  date_start n mon + ((d - 1) * 86400 + h * 3600 + mi * 60 + s).

Lemma mt_split y mon :
  0 <= mon < 12 ->
  mt_of y = take (Z.to_nat mon) (mt_of y) ++ month_len y mon :: drop (S (Z.to_nat mon)) (mt_of y).
Proof.
  intros Hm. destruct (mt_of_ok y) as (_ & _ & Hl). unfold month_len, rd.
  destruct (Z.leb_spec 0 mon); [|lia].
  destruct (lookup_lt_is_Some_2 (mt_of y) (Z.to_nat mon)) as [x Ex]; [lia|].
  rewrite Ex. cbn [from_option]. unfold id. by rewrite take_drop_middle.
Qed.

Lemma mt_take y mon :
  0 <= mon < 12 ->
  Forall (fun x => 0 <= x) (take (Z.to_nat mon) (mt_of y))
  /\ 0 <= sumz (take (Z.to_nat mon) (mt_of y))
  /\ sumz (take (Z.to_nat mon) (mt_of y)) + month_len y mon <= yr_secs y
  /\ length (take (Z.to_nat mon) (mt_of y)) = Z.to_nat mon.
Proof.
  intros Hm. destruct (mt_of_ok y) as (Hf & Hs & Hl).
  rewrite (mt_split y mon Hm) in Hf. apply Forall_app in Hf as [Hf1 [_ Hf3]%Forall_cons_1].
  pose proof (sumz_nonneg _ Hf1). pose proof (sumz_nonneg _ Hf3).
  rewrite (mt_split y mon Hm), sumz_app in Hs. cbn [sumz foldr] in Hs.
  fold (sumz (drop (S (Z.to_nat mon)) (mt_of y))) in Hs.
  split_and!; [done|done|lia|]. rewrite length_take. lia.
Qed.

Lemma mktime_ok n mon d h mi s w :
  0 <= mon < 12 -> 1 <= d -> 0 <= h -> 0 <= mi -> 0 <= s ->
  date_secs n mon d h mi s < 4294967296 ->
  tal_time_mktime (Some (date_of n mon d h mi s w)) = Some (date_secs n mon d h mi s).
Proof.
  intros Hm Hd Hh Hi Hs Hb. unfold date_secs, date_start in Hb. set (y := 1970 + Z.of_nat n) in *.
  destruct (mt_take y mon Hm) as (Hf & H0 & _ & Hl). pose proof (years_sum_nonneg n 1970).
  unfold tal_time_mktime, date_of. cbn [tm_year tm_mon tm_mday tm_hour tm_min tm_sec].
  replace (1970 + Z.of_nat n - 1900 + 1900) with y by lia.
  replace (Z.to_nat (y - 1970)) with n by lia.
  rewrite mk_years_ok by lia. cbn [mbind option_bind].
  replace (if is_leap y =? 0 then 0 else 1) with (is_leap y) by (by destruct (is_leap_cases y) as [-> | ->]).
  rewrite rd_mt. cbn [mbind option_bind]. rewrite Z.add_0_l.
  pose proof (mk_months_ok (take (Z.to_nat mon) (mt_of y)) []
                (month_len y mon :: drop (S (Z.to_nat mon)) (mt_of y)) (years_sum n 1970)) as Hk.
  rewrite Hl in Hk. cbn [app] in Hk. rewrite <- mt_split in Hk by done.
  change (zlen (@nil Z)) with 0 in Hk.
  rewrite Hk by (done || lia). cbn [mbind option_bind]. unfold SEC_PER_DAY, SEC_PER_HOUR.
  norm_widths. f_equal. unfold date_secs, date_start. fold y. lia.
Qed.

Lemma years_sum_days n i : (86400 | years_sum n i).
Proof.
  revert i. induction n as [|n IH]; intros i; cbn [years_sum]; [by exists 0|].
  apply Z.divide_add_r; [|apply IH]. unfold yr_secs.
  destruct (_ =? 0); [by exists 365 | by exists 366].
Qed.

Lemma sumz_days y k : (86400 | sumz (take k (mt_of y))).
Proof.
  assert (Forall (fun x => (86400 | x)) (take k (mt_of y))) as H.
  { apply Forall_take. unfold mt_of. destruct (_ =? 0);
      repeat first [apply List.Forall_nil | apply List.Forall_cons];
      first [by exists 28 | by exists 29 | by exists 30 | by exists 31]. }
  revert H. generalize (take k (mt_of y)). induction 1; cbn [sumz foldr].
  - by exists 0.
  - by apply Z.divide_add_r.
Qed.

Lemma date_start_days n mon : exists q, date_start n mon = q * 86400.
Proof. destruct (Z.divide_add_r 86400 _ _ (years_sum_days n 1970) (sumz_days (1970 + Z.of_nat n) (Z.to_nat mon))) as [q E].
  exists q. exact E. Qed.

Lemma month_len_max y mon : 0 <= mon < 12 -> 28 * 86400 <= month_len y mon <= 31 * 86400.
Proof.
  intros Hm. unfold month_len, mt_of, rd. destruct (Z.leb_spec 0 mon); [|lia].
  assert (exists k, (k < 12)%nat /\ Z.to_nat mon = k) as (k & Hk & ->) by (exists (Z.to_nat mon); lia).
  destruct (_ =? 0); do 12 (destruct k as [|k]; [cbn; lia|]); lia.
Qed.

Lemma gmtime_ok n mon d h mi s :
  (n < 137)%nat -> 0 <= mon < 12 -> 1 <= d -> d * 86400 <= month_len (1970 + Z.of_nat n) mon ->
  0 <= h < 24 -> 0 <= mi < 60 -> 0 <= s < 60 -> date_secs n mon d h mi s < 4294967296 ->
  tal_time_gmtime_r (date_secs n mon d h mi s)
  = Some (date_of n mon d h mi s ((date_secs n mon d h mi s / 86400 + 4) mod 7)).
Proof.
  intros Hn Hm Hd Hdl Hh Hi Hs Hb. pose proof (years_sum_nonneg n 1970).
  destruct (date_start_days n mon) as [q Eq].
  unfold date_secs in *. set (r := (d - 1) * 86400 + h * 3600 + mi * 60 + s) in *.
  unfold date_start in Hb |- * at 1. set (y := 1970 + Z.of_nat n) in *.
  destruct (mt_take y mon Hm) as (Hf & H0 & Hy & Hl). set (m := sumz _) in *.
  unfold tal_time_gmtime_r. rewrite <- Z.add_assoc.
  rewrite (gm_years_ok 138 n 1970 (m + r)) by (fold y; lia). fold y. cbn [mbind option_bind].
  rewrite rd_mt. cbn [mbind option_bind].
  pose proof (gm_months_ok (take (Z.to_nat mon) (mt_of y)) 12 [] (month_len y mon)
                (drop (S (Z.to_nat mon)) (mt_of y)) r) as Hk.
  cbn [app] in Hk. rewrite <- mt_split in Hk by done. change (zlen (@nil Z)) with 0 in Hk. fold m in Hk.
  rewrite Hk by (done || lia). cbn [mbind option_bind].
  replace (0 + zlen (take (Z.to_nat mon) (mt_of y))) with mon by (unfold zlen; lia).
  pose proof (month_len_max y mon Hm).
  replace (r / SEC_PER_DAY) with (d - 1)
    by (apply (Z.div_unique _ _ _ (h * 3600 + mi * 60 + s)); unfold SEC_PER_DAY; lia).
  replace (r mod SEC_PER_DAY) with (h * 3600 + mi * 60 + s)
    by (apply (Z.mod_unique _ _ (d - 1)); unfold SEC_PER_DAY; lia).
  replace ((h * 3600 + mi * 60 + s) / SEC_PER_HOUR) with h
    by (apply (Z.div_unique _ _ _ (mi * 60 + s)); unfold SEC_PER_HOUR; lia).
  replace ((h * 3600 + mi * 60 + s) mod SEC_PER_HOUR) with (mi * 60 + s)
    by (apply (Z.mod_unique _ _ h); unfold SEC_PER_HOUR; lia).
  replace ((mi * 60 + s) / 60) with mi by (apply (Z.div_unique _ _ _ s); lia).
  replace ((mi * 60 + s) mod 60) with s by (apply (Z.mod_unique _ _ mi); lia).
  replace (d - 1 + 1) with d by lia.
  pose proof (day_of_week_ok n mon d Hn Hm ltac:(lia)) as Hw. cbv zeta in Hw. fold y in Hw. fold m in Hw.
  rewrite Hw. cbn [mbind option_bind]. unfold date_of. do 2 f_equal.
  change (years_sum n 1970 + m) with (date_start n mon). rewrite Eq. f_equal.
  rewrite Z.div_mul by lia.
  replace ((q * 86400 + r) / 86400) with (q + (d - 1))
    by (apply (Z.div_unique _ _ _ (h * 3600 + mi * 60 + s)); lia). lia.
Qed.

(** ** Dates the service accepts *)

(** A date with no negative field that a 32-bit posix time can express. *)
Definition date_fits (tm : POSIX_TM_S) : Prop :=
  is_valid_date_time tm = 0 /\ 0 <= tm_sec tm /\ 0 <= tm_min tm /\ 0 <= tm_hour tm /\ 0 <= tm_mon tm
  /\ tm_year tm <= 205.

Definition days_in_month (y mon : Z) : Z :=
  if mon =? 1 then (if is_leap y =? 0 then 28 else 29)
  else if (mon =? 3) || (mon =? 5) || (mon =? 8) || (mon =? 10) then 30 else 31.

Lemma month_len_days y mon : 0 <= mon < 12 -> month_len y mon = days_in_month y mon * 86400.
Proof.
  intros Hm. unfold month_len, mt_of, rd, days_in_month. destruct (Z.leb_spec 0 mon); [|lia].
  assert (exists k, (k < 12)%nat /\ mon = Z.of_nat k) as (k & Hk & ->) by (exists (Z.to_nat mon); lia).
  rewrite Nat2Z.id. destruct (is_leap y =? 0); do 12 (destruct k as [|k]; [reflexivity|]); lia.
Qed.

Lemma valid_date_time_iff tm :
  is_valid_date_time tm = 0 <->
  tm_sec tm <= 59 /\ tm_min tm <= 59 /\ tm_hour tm <= 23 /\ 70 <= tm_year tm <= 211 /\ tm_mon tm < 12
  /\ 1 <= tm_mday tm <= days_in_month (tm_year tm + 1900) (tm_mon tm).
Proof.
  unfold is_valid_date_time, days_in_month. destruct (is_leap (tm_year tm + 1900) =? 0).
  all: repeat (case_bool; cbn [orb andb]; try lia).
Qed.

Lemma years_sum_fits n : (n < 136)%nat -> years_sum n 1970 + yr_secs (1970 + Z.of_nat n) < 4294967296.
Proof.
  intros Hn.
  pose proof (below_forall 136 (fun k => years_sum (Z.to_nat k) 1970 + yr_secs (1970 + k) <? 4294967296)
                ltac:(by vm_compute) (Z.of_nat n) ltac:(lia)) as H.
  cbv beta in H. bool_hyps. by rewrite Nat2Z.id in H.
Qed.

Definition with_wday (tm : POSIX_TM_S) (w : Z) : POSIX_TM_S :=
  {| tm_sec := tm_sec tm; tm_min := tm_min tm; tm_hour := tm_hour tm; tm_mday := tm_mday tm;
     tm_mon := tm_mon tm; tm_year := tm_year tm; tm_wday := w |}.

Lemma date_fits_parts tm :
  date_fits tm ->
  exists n, (n < 136)%nat /\ 0 <= tm_mon tm < 12 /\ 1 <= tm_mday tm
    /\ tm_mday tm * 86400 <= month_len (1970 + Z.of_nat n) (tm_mon tm)
    /\ 0 <= tm_hour tm < 24 /\ 0 <= tm_min tm < 60 /\ 0 <= tm_sec tm < 60
    /\ (forall w, with_wday tm w = date_of n (tm_mon tm) (tm_mday tm) (tm_hour tm) (tm_min tm) (tm_sec tm) w)
    /\ 0 <= date_secs n (tm_mon tm) (tm_mday tm) (tm_hour tm) (tm_min tm) (tm_sec tm) < 4294967296.
Proof.
  intros (Hv & Hs & Hi & Hh & Hm & Hy). apply valid_date_time_iff in Hv as (? & ? & ? & ? & ? & Hd).
  exists (Z.to_nat (tm_year tm - 70)).
  replace (1970 + Z.of_nat (Z.to_nat (tm_year tm - 70))) with (tm_year tm + 1900) by lia.
  rewrite month_len_days by lia.
  pose proof (years_sum_fits (Z.to_nat (tm_year tm - 70)) ltac:(lia)) as Hf.
  pose proof (years_sum_nonneg (Z.to_nat (tm_year tm - 70)) 1970).
  pose proof (mt_take (tm_year tm + 1900) (tm_mon tm) ltac:(lia)) as (_ & Ht0 & Ht & _).
  rewrite month_len_days in Ht by lia.
  replace (1970 + Z.of_nat (Z.to_nat (tm_year tm - 70))) with (tm_year tm + 1900) in Hf by lia.
  unfold date_secs, date_start.
  replace (1970 + Z.of_nat (Z.to_nat (tm_year tm - 70))) with (tm_year tm + 1900) by lia.
  split_and!; try lia. intros w. unfold with_wday, date_of. f_equal. lia.
Qed.

(** Setting a date and reading it back: for every date the service accepts,
    with no negative field and before 2106, [tal_time_mktime] yields a 32-bit
    posix time from which [tal_time_gmtime_r] returns the same date, with the
    weekday the day count gives (1970-01-01 is a Thursday). *)
Theorem time_date_roundtrip (tm : POSIX_TM_S) :
  date_fits tm ->
  exists t, tal_time_mktime (Some tm) = Some t /\ is_u32 t
    /\ tal_time_gmtime_r t = Some (with_wday tm ((t / 86400 + 4) mod 7)).
Proof.
  intros (n & Hn & Hm & Hd & Hdl & Hh & Hi & Hs & Ew & Hb)%date_fits_parts.
  eexists. split; [|split; [exact Hb|]].
  - assert (with_wday tm (tm_wday tm) = tm) as Et by (by destruct tm).
    rewrite <- Et at 1. rewrite Ew. apply mktime_ok; lia.
  - rewrite Ew. apply gmtime_ok; lia.
Qed.

Lemma time_date_roundtrip_witness :
  exists t, tal_time_mktime (Some (date_of 54 1 29 23 59 59 0)) = Some t /\ is_u32 t
    /\ tal_time_gmtime_r t = Some (with_wday (date_of 54 1 29 23 59 59 0) ((t / 86400 + 4) mod 7)).
Proof. apply time_date_roundtrip. unfold date_fits. cbn. split; [by vm_compute|lia]. Defined.

Lemma posix_date (t : Z) :
  is_u32 t ->
  exists tm, tal_time_gmtime_r t = Some tm /\ is_valid_date_time tm = 0
    /\ tal_time_mktime (Some tm) = Some t.
Proof.
  intros Ht. unfold is_u32 in Ht.
  destruct (years_split 137 1970 t ltac:(lia)) as (n & r & Hn & -> & Hr).
  set (y := 1970 + Z.of_nat n) in *. destruct (mt_of_ok y) as (Hf & Hsum & Hl). rewrite <- Hsum in Hr.
  destruct (months_split _ r Hf Hr) as (l1 & x & l2 & r' & Emt & -> & Hr').
  set (mon := zlen l1). assert (0 <= mon < 12) as Hm.
  { unfold mon, zlen. rewrite Emt, length_app in Hl. cbn [length] in Hl. lia. }
  assert (x = month_len y mon) as ->.
  { unfold month_len, mon. by rewrite Emt, rd_mid. }
  assert (take (Z.to_nat mon) (mt_of y) = l1) as E1 by (unfold mon; by rewrite Emt, ztake_app).
  pose proof (month_len_days y mon Hm).
  set (d := r' / 86400). set (s := r' mod 86400).
  set (h := s / 3600). set (m := s mod 3600 / 60). set (c := s mod 3600 mod 60).
  pose proof (Z.div_mod r' 86400 ltac:(lia)). pose proof (Z.mod_pos_bound r' 86400 ltac:(lia)).
  pose proof (Z.div_mod s 3600 ltac:(lia)). pose proof (Z.mod_pos_bound s 3600 ltac:(lia)).
  pose proof (Z.div_mod (s mod 3600) 60 ltac:(lia)). pose proof (Z.mod_pos_bound (s mod 3600) 60 ltac:(lia)).
  fold d s in H0, H1. fold h in H2. fold m c in H4, H5.
  assert (date_secs n mon (d + 1) h m c = years_sum n 1970 + (sumz l1 + r')) as Ed.
  { unfold date_secs, date_start. fold y. rewrite E1. lia. }
  rewrite <- Ed in *. exists (date_of n mon (d + 1) h m c ((date_secs n mon (d + 1) h m c / 86400 + 4) mod 7)).
  split; [apply gmtime_ok; fold y; lia|]. split; [|apply mktime_ok; lia].
  apply valid_date_time_iff. cbn.
  replace (1970 + Z.of_nat n - 1900 + 1900) with y by lia. lia.
Qed.

(** (C34) Every 32-bit posix time: both loops of [tal_time_gmtime_r] end inside
    their tables (138 years and 12 months of fuel are enough), the date it
    returns is one the service accepts, and [tal_time_mktime] maps it back. *)
Theorem time_posix_roundtrip (t : Z) :
  is_u32 t ->
  exists tm, tal_time_gmtime_r t = Some tm /\ is_valid_date_time tm = 0
    /\ tal_time_mktime (Some tm) = Some t.
Proof. apply posix_date. Qed.

Lemma time_posix_roundtrip_witness :
  exists tm, tal_time_gmtime_r 4294967295 = Some tm /\ is_valid_date_time tm = 0
    /\ tal_time_mktime (Some tm) = Some 4294967295.
Proof. apply time_posix_roundtrip. unfold is_u32. lia. Defined.

(** * The clock: proofs *)

(** The posix time [p] set when the millisecond counter read [m0]. *)
Definition clock_set_at (g : time_globals) (p m0 : Z) : Prop :=
  s_time_cloud_posix g = p /\ s_time_last_ms g = m0 /\ 0 <= p < 4294967296 /\ 0 <= m0 < 4294967296.

Lemma clock_set_set_posix g p src m0 :
  s_time_disable_update g = false -> 0 <= p < 4294967296 -> 0 <= m0 < 4294967296 ->
  clock_set_at (snd (tal_time_set_posix g p src m0)) p m0.
Proof. intros Hg Hp Hm. unfold tal_time_set_posix. rewrite Hg. by destruct (src =? 1). Qed.

Lemma get_posix_before g p m0 now :
  clock_set_at g p m0 -> m0 <= now < 4294967296 -> p + (now - m0) / 1000 < 4294967296 ->
  tal_time_get_posix g now = (p + (now - m0) / 1000, g).
Proof.
  intros (Ep & Em & Hp & Hm) Hn Hb. unfold tal_time_get_posix, clock_recycle. rewrite Em.
  destruct (Z.ltb_spec now m0); [lia|]. rewrite Ep, Em. norm_widths.
  pose proof (Z.div_pos (now - m0) 1000). norm_widths. done.
Qed.

Lemma get_posix_after g p m0 now :
  clock_set_at g p m0 -> 0 <= now < m0 -> p + (4294967296 - m0) / 1000 + now / 1000 < 4294967296 ->
  exists g', tal_time_get_posix g now = (p + (4294967296 - m0) / 1000 + now / 1000, g')
    /\ clock_set_at g' (p + (4294967296 - m0) / 1000) 0.
Proof.
  intros (Ep & Em & Hp & Hm) Hn Hb. unfold tal_time_get_posix, clock_recycle. rewrite Em.
  destruct (Z.ltb_spec now m0); [|lia]. rewrite Ep. cbn [set_clock s_time_cloud_posix s_time_last_ms].
  pose proof (Z.div_pos (4294967296 - m0) 1000). pose proof (Z.div_pos now 1000).
  rewrite Z.sub_0_r. norm_widths. eexists. split; [done|].
  unfold clock_set_at. cbn. lia.
Qed.

(** The running clock: after [tal_time_set_posix] at counter value [m0],
    a reading of the wrapping 32-bit millisecond counter any [e] milliseconds
    later, less than one turn, is the set time plus the elapsed seconds, exact
    when the counter has not wrapped and at most one second behind when it has. *)
Theorem time_clock_one_turn (g : time_globals) (p src m0 e : Z) :
  s_time_disable_update g = false -> 0 <= p -> 0 <= m0 < 4294967296 ->
  0 <= e < 4294967296 -> p + e / 1000 < 4294967296 ->
  let g1 := snd (tal_time_set_posix g p src m0) in
  let r := fst (tal_time_get_posix g1 ((m0 + e) mod 4294967296)) in
  (m0 + e < 4294967296 -> r = p + e / 1000) /\ r <= p + e / 1000 <= r + 1.
Proof.
  intros Hg Hp Hm He Hb g1. pose proof (Z.div_pos e 1000).
  pose proof (clock_set_set_posix g p src m0 Hg ltac:(lia) Hm) as Hc. fold g1 in Hc.
  destruct (Z.lt_ge_cases (m0 + e) 4294967296).
  - rewrite Z.mod_small by lia. rewrite (get_posix_before g1 p m0) by
      (done || (replace (m0 + e - m0) with e by lia) || lia; lia).
    replace (m0 + e - m0) with e by lia. cbn. lia.
  - replace ((m0 + e) mod 4294967296) with (m0 + e - 4294967296)
      by (apply (Z.mod_unique _ _ 1); lia).
    set (a := 4294967296 - m0). set (b := m0 + e - 4294967296).
    assert (a / 1000 + b / 1000 <= e / 1000 <= a / 1000 + b / 1000 + 1) as Hd.
    { replace e with (a + b) by lia. Z.to_euclidean_division_equations. lia. }
    destruct (get_posix_after g1 p m0 b Hc) as (g' & -> & _); [lia|fold a; lia|].
    cbn. fold a. lia.
Qed.

Lemma time_clock_one_turn_witness :
  let g := {| s_time_last_ms := 0; s_time_tz_sync := false; s_time_tz := 0; s_time_sz_tbl := [];
              s_time_cloud_sync := false; s_time_cloud_posix := 0; s_time_disable_update := false;
              last_ms := 0; roll_ms := 0 |} in
  let g1 := snd (tal_time_set_posix g 1700000000 1 4294967000) in
  let r := fst (tal_time_get_posix g1 ((4294967000 + 1500) mod 4294967296)) in
  (4294967000 + 1500 < 4294967296 -> r = 1700000000 + 1500 / 1000)
  /\ r <= 1700000000 + 1500 / 1000 <= r + 1.
Proof. intros g. apply (time_clock_one_turn g 1700000000 1 4294967000 1500); [done|lia|lia|lia|by vm_compute]. Defined.

(** The second turn is lost: the recycle step stores 0 as the last counter
    value, which no later reading is below, so that from the second wrap on the
    clock runs back by a whole turn (49.7 days), until the time is set again:
    a reading [b] of the second turn after a reading [a] of the first one, with
    [b] no later in its turn, does not return a later time, though a whole turn
    less the difference has passed. *)
Theorem time_second_wrap_lost (g : time_globals) (p m0 a b : Z) :
  clock_set_at g p m0 -> 0 <= b <= a -> a < m0 ->
  p + (4294967296 - m0) / 1000 + a / 1000 < 4294967296 ->
  let '(r1, g1) := tal_time_get_posix g a in
  let '(r2, _) := tal_time_get_posix g1 b in
  r2 <= r1.
Proof.
  intros Hc Hb Ha Hp. destruct (get_posix_after g p m0 a Hc) as (g1 & -> & Hc1); [lia|lia|].
  pose proof (Z.div_le_mono b a 1000). rewrite (get_posix_before g1 _ 0 b Hc1).
  - rewrite Z.sub_0_r. lia.
  - destruct Hc as (_ & _ & _ & ?). lia.
  - rewrite Z.sub_0_r. lia.
Qed.

Lemma time_second_wrap_lost_witness :
  let g := {| s_time_last_ms := 5000000; s_time_tz_sync := false; s_time_tz := 0; s_time_sz_tbl := [];
              s_time_cloud_sync := true; s_time_cloud_posix := 1700000000; s_time_disable_update := false;
              last_ms := 0; roll_ms := 0 |} in
  let '(r1, g1) := tal_time_get_posix g 4000000 in
  let '(r2, _) := tal_time_get_posix g1 1000 in
  r2 <= r1.
Proof.
  intros g. apply (time_second_wrap_lost g 1700000000 5000000 4000000 1000);
    [by vm_compute|lia|lia|by vm_compute].
Defined.

(** * Local time *)

Lemma clock_recycle_tbl g now : s_time_sz_tbl (clock_recycle g now) = s_time_sz_tbl g
  /\ s_time_tz (clock_recycle g now) = s_time_tz g.
Proof. unfold clock_recycle. by destruct (now <? s_time_last_ms g). Qed.

Lemma get_posix_reads g p m0 now :
  clock_set_at g p m0 -> m0 <= now < 4294967296 -> p + (now - m0) / 1000 < 4294967296 ->
  is_in_sum_zone g now now = (tal_time_is_in_sum_zone g (p + (now - m0) / 1000), g).
Proof.
  intros Hc Hn Hb. unfold is_in_sum_zone. rewrite !(get_posix_before g p m0 now Hc Hn Hb).
  destruct (Z.ltb_spec (p + (now - m0) / 1000) (p + (now - m0) / 1000)); [lia|done].
Qed.

(** [tal_time_get_local_time_custom] of a time of the past or the future:
    the date is that of the given time in the zone, moved by an hour when the
    *current* time lies in a summer zone; whether [in_time] itself lies in one is
    not looked at. *)
Theorem time_local_custom_spec (g : time_globals) (p m0 now in_time : Z) :
  clock_set_at g p m0 -> m0 <= now < 4294967296 -> p + (now - m0) / 1000 < 4294967296 ->
  in_time <> 0 ->
  let summer := tal_time_is_in_sum_zone g (p + (now - m0) / 1000) in
  exists tm, tal_time_get_local_time_custom g in_time true now now now = Some (OPRT_OK, g, Some tm)
    /\ tal_time_mktime (Some tm) = Some (u32 (in_time + s_time_tz g + (if summer then SEC_PER_HOUR else 0))).
Proof.
  intros Hc Hn Hb Hi summer. unfold tal_time_get_local_time_custom. cbn [negb].
  destruct (Z.eqb_spec in_time 0); [done|]. rewrite (get_posix_reads g p m0 now Hc Hn Hb). fold summer.
  set (t := if summer then u32 (u32 (in_time + s_time_tz g) + SEC_PER_HOUR) else u32 (in_time + s_time_tz g)).
  assert (t = u32 (in_time + s_time_tz g + (if summer then SEC_PER_HOUR else 0))) as <-.
  { subst t. unfold u32, wrap. destruct summer; [by rewrite Zplus_mod_idemp_l|by rewrite Z.add_0_r]. }
  assert (is_u32 t) as Ht by (subst t; destruct summer; apply u32_range).
  destruct (posix_date t Ht) as (tm & -> & _ & Hm). by exists tm.
Qed.

Lemma time_local_custom_spec_witness :
  let g := {| s_time_last_ms := 0; s_time_tz_sync := true; s_time_tz := 3600;
              s_time_sz_tbl := [ {| posix_min := 1711846800; posix_max := 1729990800 |} ];
              s_time_cloud_sync := true; s_time_cloud_posix := 1720000000; s_time_disable_update := false;
              last_ms := 0; roll_ms := 0 |} in
  exists tm, tal_time_get_local_time_custom g 1704067200 true 5000 5000 5000 = Some (OPRT_OK, g, Some tm)
    /\ tal_time_mktime (Some tm) = Some (u32 (1704067200 + 3600 + 3600)).
Proof.
  intros g. apply (time_local_custom_spec g 1720000000 0 5000 1704067200);
    [by vm_compute|lia|by vm_compute|lia].
Defined.
