(* ===== verification/Event.v ===== *)
(** The publish/subscribe manager of [src/tal_system/src/tal_event.c]. *)
From Stdlib Require Import ZArith Lia.
From stdpp Require Import base tactics option list numbers.
From S2P Require Import Prelude.

Local Open Scope Z_scope.

(** * Data

    A C string is its bytes without the terminator, [None] is [NULL]; a callback
    is its address, 0 is [NULL]. The linked lists are the lists of their nodes
    from the head on ([TuyaList] is their pointer-level model). *)

Notation name_t := (list Z) (only parsing).

Definition EVENT_NAME_MAX_LEN : Z := 16.
Definition EVENT_DESC_MAX_LEN : Z := 32.

Definition SUBSCRIBE_TYPE_NORMAL : Z := 0.
Definition SUBSCRIBE_TYPE_EMERGENCY : Z := 1.
Definition SUBSCRIBE_TYPE_ONETIME : Z := 2.

Record SUBSCRIBE_NODE_T := { s_name : name_t; s_desc : name_t; s_type : Z; s_cb : Z }.
Record EVENT_NODE_T := { e_name : name_t; subscribe_root : list SUBSCRIBE_NODE_T }.
Record EVENT_MANAGE_T := {
  inited : bool;
  event_cnt : Z;
  event_root : list EVENT_NODE_T;
  free_subscribe_root : list SUBSCRIBE_NODE_T
}.

(** * Helpers of the module *)

Definition event_name_is_valid (name : option name_t) : bool :=
  match name with
  | None => false
  | Some n => negb ((EVENT_NAME_MAX_LEN <? zlen n) || (zlen n <=? 0))
  end.

Definition event_desc_is_valid (desc : option name_t) : bool :=
  match desc with
  | None => false
  | Some d => negb ((EVENT_DESC_MAX_LEN <? zlen d) || (zlen d <=? 0))
  end.

(** [tuya_list_add] or [tuya_list_add_tail], by the type. *)
Definition attach (s : SUBSCRIBE_NODE_T) (l : list SUBSCRIBE_NODE_T) : list SUBSCRIBE_NODE_T :=
  if s_type s =? SUBSCRIBE_TYPE_EMERGENCY then s :: l else l ++ [s].

(** The loop of [_event_node_create_init] over the free subscribers: what is left
    of them, and the list of the new event. *)
Fixpoint claim_free (name : name_t) (free subs : list SUBSCRIBE_NODE_T)
  : list SUBSCRIBE_NODE_T * list SUBSCRIBE_NODE_T :=
  match free with
  | [] => ([], subs)
  | f :: free' =>
      if bool_decide (s_name f = name) then claim_free name free' (attach f subs)
      else let '(rest, subs') := claim_free name free' subs in (f :: rest, subs')
  end.

Definition event_node_create_init (m : EVENT_MANAGE_T) (malloc_ok : bool) (name : name_t)
  : option EVENT_NODE_T * EVENT_MANAGE_T :=
  if malloc_ok then
    let '(free, subs) := claim_free name (free_subscribe_root m) [] in
    let event := {| e_name := name; subscribe_root := subs |} in
    (Some event, {| inited := inited m; event_cnt := event_cnt m + 1;
                    event_root := event_root m ++ [event]; free_subscribe_root := free |})
  else (None, m).

(** The first event of the name. *)
Fixpoint event_node_get (root : list EVENT_NODE_T) (name : name_t) : option EVENT_NODE_T :=
  match root with
  | [] => None
  | e :: root' => if bool_decide (e_name e = name) then Some e else event_node_get root' name
  end.

Definition same_free (subscribe entry : SUBSCRIBE_NODE_T) : bool :=
  bool_decide (s_name entry = s_name subscribe) && bool_decide (s_desc entry = s_desc subscribe)
  && (s_cb entry =? s_cb subscribe).

Definition same_sub (subscribe entry : SUBSCRIBE_NODE_T) : bool :=
  bool_decide (s_desc entry = s_desc subscribe) && (s_cb entry =? s_cb subscribe).

Definition event_node_get_free_subscribe (free : list SUBSCRIBE_NODE_T) (subscribe : SUBSCRIBE_NODE_T)
  : option SUBSCRIBE_NODE_T := find (same_free subscribe) free.

Definition event_node_get_subscribe (subs : list SUBSCRIBE_NODE_T) (subscribe : SUBSCRIBE_NODE_T)
  : option SUBSCRIBE_NODE_T := find (same_sub subscribe) subs.

(** [tuya_list_del] of the node the search found: the first one of the predicate. *)
Fixpoint remove_first (p : SUBSCRIBE_NODE_T -> bool) (l : list SUBSCRIBE_NODE_T) : list SUBSCRIBE_NODE_T :=
  match l with [] => [] | x :: l' => if p x then l' else x :: remove_first p l' end.

Definition event_node_add_free_subscribe (free : list SUBSCRIBE_NODE_T) (malloc_ok : bool)
    (subscribe : SUBSCRIBE_NODE_T) : Z * list SUBSCRIBE_NODE_T :=
  match event_node_get_free_subscribe free subscribe with
  | Some _ => (OPRT_OK, free)
  | None => if malloc_ok then (OPRT_OK, free ++ [subscribe]) else (OPRT_MALLOC_FAILED, free)
  end.

Definition event_node_add_subscribe (subs : list SUBSCRIBE_NODE_T) (malloc_ok : bool)
    (subscribe : SUBSCRIBE_NODE_T) : Z * list SUBSCRIBE_NODE_T :=
  match event_node_get_subscribe subs subscribe with
  | Some _ => (OPRT_OK, subs)
  | None => if malloc_ok then (OPRT_OK, attach subscribe subs) else (OPRT_MALLOC_FAILED, subs)
  end.

Definition event_node_del_free_subscribe (free : list SUBSCRIBE_NODE_T) (subscribe : SUBSCRIBE_NODE_T)
  : Z * list SUBSCRIBE_NODE_T :=
  match event_node_get_free_subscribe free subscribe with
  | None => (OPRT_OK, free)
  | Some _ => (OPRT_OK, remove_first (same_free subscribe) free)
  end.

Definition event_node_del_subscribe (subs : list SUBSCRIBE_NODE_T) (subscribe : SUBSCRIBE_NODE_T)
  : Z * list SUBSCRIBE_NODE_T :=
  match event_node_get_subscribe subs subscribe with
  | None => (OPRT_OK, subs)
  | Some _ => (OPRT_OK, remove_first (same_sub subscribe) subs)
  end.

(** [_event_node_dispatch]. Callbacks have a state of their own, of type [W]: [run cb w] is
    the status that callback [cb] returns for the data of the event, and the state it
    leaves; they do not call back into the manager, whose mutex the caller holds. The
    result: the code, the callbacks called in order, the subscribers left, and the state. *)
Section Dispatch.
Context {W : Type}.
Fixpoint event_node_dispatch (run : Z -> W -> Z * W) (subs : list SUBSCRIBE_NODE_T) (rt : Z) (w : W)
  : Z * list Z * list SUBSCRIBE_NODE_T * W :=
  match subs with
  | [] => (rt, [], [], w)
  | entry :: subs' =>
      let '(rt, w, called) := if s_cb entry =? 0 then (rt, w, []) else (run (s_cb entry) w, [s_cb entry]) in
      let '(rt, calls, kept, w) := event_node_dispatch run subs' rt w in
      (rt, called ++ calls, if s_type entry =? SUBSCRIBE_TYPE_ONETIME then kept else entry :: kept, w)
  end.
End Dispatch.

(** The store of a new subscriber list into the event of the name. *)
Fixpoint set_subs (root : list EVENT_NODE_T) (name : name_t) (subs : list SUBSCRIBE_NODE_T) : list EVENT_NODE_T :=
  match root with
  | [] => []
  | e :: root' => if bool_decide (e_name e = name) then {| e_name := e_name e; subscribe_root := subs |} :: root'
                  else e :: set_subs root' name subs
  end.

Definition with_root (m : EVENT_MANAGE_T) (root : list EVENT_NODE_T) : EVENT_MANAGE_T :=
  {| inited := inited m; event_cnt := event_cnt m; event_root := root;
     free_subscribe_root := free_subscribe_root m |}.
Definition with_free (m : EVENT_MANAGE_T) (free : list SUBSCRIBE_NODE_T) : EVENT_MANAGE_T :=
  {| inited := inited m; event_cnt := event_cnt m; event_root := event_root m; free_subscribe_root := free |}.

(** * The interface *)

Definition tal_event_init (m : EVENT_MANAGE_T) : Z * EVENT_MANAGE_T :=
  if inited m then (OPRT_OK, m)
  else (OPRT_OK, {| inited := true; event_cnt := 0; event_root := []; free_subscribe_root := [] |}).

Definition tal_event_publish {W} (m : EVENT_MANAGE_T) (malloc_ok : bool) (run : Z -> W -> Z * W) (name : option name_t) (w : W)
  : Z * list Z * EVENT_MANAGE_T * W :=
  let m := if inited m then m else snd (tal_event_init m) in
  match name with
  | Some n =>
      if negb (event_name_is_valid name) then (OPRT_BASE_EVENT_INVALID_EVENT_NAME, [], m, w)
      else
        let '(event, m) := match event_node_get (event_root m) n with
                           | Some e => (Some e, m)
                           | None => event_node_create_init m malloc_ok n
                           end in
        match event with
        | None => (OPRT_MALLOC_FAILED, [], m, w)
        | Some e =>
            let '(rt, calls, kept, w) := event_node_dispatch run (subscribe_root e) OPRT_OK w in
            (rt, calls, with_root m (set_subs (event_root m) n kept), w)
        end
  | None => (OPRT_BASE_EVENT_INVALID_EVENT_NAME, [], m, w)
  end.

Definition tal_event_subscribe (m : EVENT_MANAGE_T) (malloc_ok : bool) (name desc : option name_t) (cb type : Z)
  : Z * EVENT_MANAGE_T :=
  let m := if inited m then m else snd (tal_event_init m) in
  if negb (event_desc_is_valid desc) then (OPRT_BASE_EVENT_INVALID_EVENT_DESC, m)
  else if negb (event_name_is_valid name) then (OPRT_BASE_EVENT_INVALID_EVENT_NAME, m)
  else
    let n := default [] name in
    let subscribe := {| s_name := n; s_desc := default [] desc; s_type := type; s_cb := cb |} in
    match event_node_get (event_root m) n with
    | None =>
        let '(rt, free) := event_node_add_free_subscribe (free_subscribe_root m) malloc_ok subscribe in
        (rt, with_free m free)
    | Some e =>
        let '(rt, subs) := event_node_add_subscribe (subscribe_root e) malloc_ok subscribe in
        (rt, with_root m (set_subs (event_root m) n subs))
    end.

Definition tal_event_unsubscribe (m : EVENT_MANAGE_T) (name desc : option name_t) (cb : Z) : Z * EVENT_MANAGE_T :=
  let m := if inited m then m else snd (tal_event_init m) in
  if negb (event_desc_is_valid desc) then (OPRT_BASE_EVENT_INVALID_EVENT_DESC, m)
  else if negb (event_name_is_valid name) then (OPRT_BASE_EVENT_INVALID_EVENT_NAME, m)
  else
    let n := default [] name in
    let subscribe := {| s_name := n; s_desc := default [] desc; s_type := 0; s_cb := cb |} in
    match event_node_get (event_root m) n with
    | None =>
        let '(rt, free) := event_node_del_free_subscribe (free_subscribe_root m) subscribe in
        (rt, with_free m free)
    | Some e =>
        let '(rt, subs) := event_node_del_subscribe (subscribe_root e) subscribe in
        (rt, with_root m (set_subs (event_root m) n subs))
    end.

(** * The abstract manager: one ordered list of subscribers per name *)

Definition spec_state : Type := name_t -> list SUBSCRIBE_NODE_T.

Definition spec_set (st : spec_state) (n : name_t) (l : list SUBSCRIBE_NODE_T) : spec_state :=
  fun n' => if bool_decide (n' = n) then l else st n'.

Section Runs.
Context {W : Type}.

Inductive event_op :=
| Subscribe (name desc : option name_t) (cb type : Z)
| Unsubscribe (name desc : option name_t) (cb : Z)
| Publish (name : option name_t) (run : Z -> W -> Z * W).

(** What the caller sees: the code and the callbacks called. *)
Definition outcome : Type := Z * list Z.

(** The callbacks one after the other: the status of the last one, [rt] when there is none,
    and the state they leave. *)
Definition run_calls (run : Z -> W -> Z * W) (calls : list Z) (rt : Z) (w : W) : Z * W :=
  fold_left (fun s cb => run cb s.2) calls (rt, w).

Definition spec_step (st : spec_state) (op : event_op) (w : W) : outcome * spec_state * W :=
  match op with
  | Subscribe name desc cb type =>
      if negb (event_desc_is_valid desc) then ((OPRT_BASE_EVENT_INVALID_EVENT_DESC, []), st, w)
      else if negb (event_name_is_valid name) then ((OPRT_BASE_EVENT_INVALID_EVENT_NAME, []), st, w)
      else
        let n := default [] name in
        let s := {| s_name := n; s_desc := default [] desc; s_type := type; s_cb := cb |} in
        ((OPRT_OK, []), spec_set st n (if existsb (same_sub s) (st n) then st n else attach s (st n)), w)
  | Unsubscribe name desc cb =>
      if negb (event_desc_is_valid desc) then ((OPRT_BASE_EVENT_INVALID_EVENT_DESC, []), st, w)
      else if negb (event_name_is_valid name) then ((OPRT_BASE_EVENT_INVALID_EVENT_NAME, []), st, w)
      else
        let n := default [] name in
        let s := {| s_name := n; s_desc := default [] desc; s_type := 0; s_cb := cb |} in
        ((OPRT_OK, []), spec_set st n (List.filter (fun e => negb (same_sub s e)) (st n)), w)
  | Publish name run =>
      if negb (event_name_is_valid name) then ((OPRT_BASE_EVENT_INVALID_EVENT_NAME, []), st, w)
      else
        let n := default [] name in
        let calls := List.filter (fun cb => negb (cb =? 0)) (s_cb <$> st n) in
        let '(rt, w) := run_calls run calls OPRT_OK w in
        ((rt, calls), spec_set st n (List.filter (fun e => negb (s_type e =? SUBSCRIBE_TYPE_ONETIME)) (st n)), w)
  end.

Definition event_step (m : EVENT_MANAGE_T) (op : event_op) (w : W) : outcome * EVENT_MANAGE_T * W :=
  match op with
  | Subscribe name desc cb type => let '(rt, m) := tal_event_subscribe m true name desc cb type in ((rt, []), m, w)
  | Unsubscribe name desc cb => let '(rt, m) := tal_event_unsubscribe m name desc cb in ((rt, []), m, w)
  | Publish name run => let '(rt, calls, m, w) := tal_event_publish m true run name w in ((rt, calls), m, w)
  end.

Fixpoint event_run (m : EVENT_MANAGE_T) (ops : list event_op) (w : W) : list outcome * EVENT_MANAGE_T * W :=
  match ops with
  | [] => ([], m, w)
  | op :: ops' => let '(o, m, w) := event_step m op w in let '(os, m, w) := event_run m ops' w in (o :: os, m, w)
  end.

Fixpoint spec_run (st : spec_state) (ops : list event_op) (w : W) : list outcome * spec_state * W :=
  match ops with
  | [] => ([], st, w)
  | op :: ops' => let '(o, st, w) := spec_step st op w in let '(os, st, w) := spec_run st ops' w in (o :: os, st, w)
  end.
End Runs.
#[global] Arguments event_op : clear implicits.

(** * The refinement *)

(** The subscribers of a name: those of its event, or the free ones in the order
    in which a new event would take them over. *)
Definition subscribers (m : EVENT_MANAGE_T) (n : name_t) : list SUBSCRIBE_NODE_T :=
  match event_node_get (event_root m) n with
  | Some e => subscribe_root e
  | None => snd (claim_free n (free_subscribe_root m) [])
  end.

Definition sub_key (s : SUBSCRIBE_NODE_T) : name_t * Z := (s_desc s, s_cb s).

Record event_wf (m : EVENT_MANAGE_T) : Prop := {
  wf_cnt : event_cnt m = zlen (event_root m);
  wf_names : NoDup (e_name <$> event_root m);
  wf_free : forall f, f ∈ free_subscribe_root m -> event_node_get (event_root m) (s_name f) = None;
  wf_keys : forall n, NoDup (sub_key <$> subscribers m n)
}.

(** ** Lists of subscribers *)

Definition named (n : name_t) (s : SUBSCRIBE_NODE_T) : bool := bool_decide (s_name s = n).

Definition attach_all (acc l : list SUBSCRIBE_NODE_T) : list SUBSCRIBE_NODE_T :=
  fold_left (fun acc s => attach s acc) l acc.

Lemma claim_free_eq n free acc :
  claim_free n free acc = (List.filter (fun s => negb (named n s)) free, attach_all acc (List.filter (named n) free)).
Proof.
  revert acc. induction free as [|f free IH]; intros acc; [done|]. cbn [claim_free List.filter].
  fold (named n f). destruct (named n f); cbn [negb].
  - apply IH.
  - by rewrite IH.
Qed.

Lemma attach_perm s l : attach s l ≡ₚ s :: l.
Proof. unfold attach. destruct (_ =? _); [done|]. by rewrite Permutation_app_comm. Qed.

Lemma attach_all_perm acc l : attach_all acc l ≡ₚ l ++ acc.
Proof.
  revert acc. induction l as [|s l IH]; intros acc; [done|]. unfold attach_all in *. cbn [fold_left].
  rewrite IH, attach_perm. by rewrite <- Permutation_middle.
Qed.

Lemma attach_all_snoc acc l s : attach_all acc (l ++ [s]) = attach s (attach_all acc l).
Proof. unfold attach_all. by rewrite fold_left_app. Qed.

Lemma filter_attach p s l :
  List.filter p (attach s l) = if p s then attach s (List.filter p l) else List.filter p l.
Proof.
  unfold attach. destruct (_ =? _); cbn; [done|]. rewrite List.filter_app. cbn.
  destruct (p s); [done|by rewrite app_nil_r].
Qed.

Lemma filter_attach_all p acc l :
  List.filter p (attach_all acc l) = attach_all (List.filter p acc) (List.filter p l).
Proof.
  unfold attach_all. revert acc. induction l as [|s l IH]; intros acc; [done|]. cbn [fold_left List.filter].
  rewrite IH, filter_attach. by destruct (p s).
Qed.

Lemma filter_filter_list {A} (p q : A -> bool) l :
  List.filter p (List.filter q l) = List.filter (fun x => q x && p x) l.
Proof. induction l as [|x l IH]; [done|]. cbn. destruct (q x); cbn; [by rewrite IH|done]. Qed.

Lemma filter_ext_elem {A} (p q : A -> bool) l :
  (forall x, x ∈ l -> p x = q x) -> List.filter p l = List.filter q l.
Proof.
  intros H. apply List.filter_ext_in. intros x Hx. apply H. by apply list_elem_of_In.
Qed.

Lemma elem_filter {A} (p : A -> bool) x l : x ∈ List.filter p l <-> x ∈ l /\ p x = true.
Proof. rewrite !list_elem_of_In. apply filter_In. Qed.

Lemma same_sub_key s e : same_sub s e = true <-> sub_key e = sub_key s.
Proof.
  unfold same_sub, sub_key. rewrite andb_true_iff, bool_decide_eq_true, Z.eqb_eq. split.
  - intros [-> ->]. done.
  - by intros [= -> ->].
Qed.

Lemma same_free_named s e : same_free s e = named (s_name s) e && same_sub s e.
Proof. unfold same_free, same_sub, named. by rewrite andb_assoc. Qed.

(** Removing the first match removes all of them when keys are distinct. *)
Lemma remove_first_filter (p : SUBSCRIBE_NODE_T -> bool) l :
  (forall x y, p x = true -> p y = true -> sub_key x = sub_key y) ->
  NoDup (sub_key <$> List.filter p l) -> remove_first p l = List.filter (fun e => negb (p e)) l.
Proof.
  intros Hp. induction l as [|x l IH]; [done|]. cbn. destruct (p x) eqn:Ex; cbn.
  - intros [Hx _]%list.NoDup_cons. symmetry.
    transitivity (List.filter (fun _ => true) l).
    + apply filter_ext_elem. intros y Hy. destruct (p y) eqn:Ey; [|done]. destruct Hx.
      rewrite (Hp x y Ex Ey). apply list_elem_of_fmap_2. by apply elem_filter.
    + clear. induction l; cbn; congruence.
  - intros Hn. by rewrite IH.
Qed.

Lemma filter_none {A} (p : A -> bool) l : existsb p l = false -> List.filter (fun x => negb (p x)) l = l.
Proof.
  induction l as [|x l IH]; [done|]. cbn. intros [-> H]%orb_false_iff. cbn. by rewrite IH.
Qed.

Lemma fmap_filter_NoDup p l : NoDup (sub_key <$> l) -> NoDup (sub_key <$> List.filter p l).
Proof.
  induction l as [|x l IH]; [done|]. cbn. intros [Hx Hn]%list.NoDup_cons. destruct (p x); [|by apply IH].
  cbn. apply list.NoDup_cons. split; [|by apply IH]. intros (y & Ey & Hy%elem_filter)%list_elem_of_fmap. destruct Hx.
  rewrite Ey. apply list_elem_of_fmap_2. tauto.
Qed.

Lemma attach_NoDup s l :
  NoDup (sub_key <$> l) -> existsb (same_sub s) l = false -> NoDup (sub_key <$> attach s l).
Proof.
  intros Hn He. rewrite (attach_perm s l). cbn. apply list.NoDup_cons. split; [|done].
  intros (e & Ee & Hin)%list_elem_of_fmap. apply not_true_iff_false in He. destruct He.
  apply existsb_exists. exists e. split; [by apply list_elem_of_In|]. by apply same_sub_key.
Qed.

Lemma find_existsb {A} (p : A -> bool) l :
  (find p l = None /\ existsb p l = false) \/ (exists x, find p l = Some x /\ existsb p l = true).
Proof. induction l as [|x l IH]; cbn; [by left|]. destruct (p x); cbn; [right; eauto|done]. Qed.

Lemma existsb_elem {A} (p : A -> bool) l k :
  (forall x, x ∈ l /\ p x = true <-> x ∈ k /\ p x = true) -> existsb p l = existsb p k.
Proof.
  intros H. apply eq_true_iff_eq. rewrite !existsb_exists.
  split; intros (x & Hx & Hp); rewrite <- list_elem_of_In in Hx; exists x;
    rewrite <- list_elem_of_In; apply H; done.
Qed.

(** ** Events *)

Lemma event_get_name root n e : event_node_get root n = Some e -> e_name e = n.
Proof. induction root as [|x root IH]; cbn; [done|]. case_bool_decide; [by intros [= <-]|done]. Qed.

Lemma event_get_set root n subs n' :
  event_node_get (set_subs root n subs) n'
  = if bool_decide (n' = n) then (fun e => {| e_name := e_name e; subscribe_root := subs |}) <$> event_node_get root n
    else event_node_get root n'.
Proof.
  induction root as [|x root IH]; cbn; [by case_bool_decide|].
  destruct (bool_decide_reflect (e_name x = n)) as [Ex|Ex]; cbn.
  - rewrite Ex. rewrite (bool_decide_ext (n = n') (n' = n)) by done.
    by case_bool_decide.
  - rewrite IH. destruct (bool_decide_reflect (n' = n)) as [E|E]; [|done].
    rewrite E. by rewrite (bool_decide_false (e_name x = n)).
Qed.

Lemma set_subs_names root n subs : e_name <$> set_subs root n subs = e_name <$> root.
Proof. induction root as [|x root IH]; cbn; [done|]. case_bool_decide; cbn; [done|by f_equal]. Qed.

Lemma event_get_snoc root e n :
  event_node_get (root ++ [e]) n
  = match event_node_get root n with
    | Some x => Some x
    | None => if bool_decide (e_name e = n) then Some e else None
    end.
Proof. induction root as [|x root IH]; cbn; [done|]. destruct (bool_decide (e_name x = n)); [done|apply IH]. Qed.

Lemma event_get_None root n : event_node_get root n = None -> n ∉ e_name <$> root.
Proof.
  induction root as [|x root IH]; cbn; [intros _ H; by apply elem_of_nil in H|].
  case_bool_decide as E; [done|]. intros Hn [H|H]%elem_of_cons; [congruence|by apply IH].
Qed.

Lemma subscribers_free m n :
  event_node_get (event_root m) n = None ->
  subscribers m n = attach_all [] (List.filter (named n) (free_subscribe_root m)).
Proof. intros H. unfold subscribers. by rewrite H, claim_free_eq. Qed.

(** ** The three ways the state changes *)

Definition changes_to (m m' : EVENT_MANAGE_T) (n : name_t) (l : list SUBSCRIBE_NODE_T) : Prop :=
  event_wf m' /\ inited m' = inited m
  /\ forall n', subscribers m' n' = if bool_decide (n' = n) then l else subscribers m n'.

Lemma keys_after m m' n l :
  event_wf m -> NoDup (sub_key <$> l) ->
  (forall n', subscribers m' n' = if bool_decide (n' = n) then l else subscribers m n') ->
  forall n', NoDup (sub_key <$> subscribers m' n').
Proof. intros Hw Hl Hs n'. rewrite Hs. case_bool_decide; [done|by apply wf_keys]. Qed.

Lemma change_event m n e subs :
  event_wf m -> event_node_get (event_root m) n = Some e -> NoDup (sub_key <$> subs) ->
  changes_to m (with_root m (set_subs (event_root m) n subs)) n subs.
Proof.
  intros Hw He Hn.
  assert (forall n', subscribers (with_root m (set_subs (event_root m) n subs)) n'
                     = if bool_decide (n' = n) then subs else subscribers m n') as Hs.
  { intros n'. unfold subscribers. cbn. rewrite event_get_set. case_bool_decide; [|done]. by rewrite He. }
  split; [|done]. split.
  - cbn. rewrite (wf_cnt m Hw). unfold zlen.
    rewrite <- (length_fmap e_name (set_subs _ _ _)), set_subs_names, length_fmap. done.
  - cbn. rewrite set_subs_names. apply (wf_names m Hw).
  - cbn. intros f Hf. rewrite event_get_set. pose proof (wf_free m Hw f Hf).
    case_bool_decide as E; [congruence|done].
  - by apply (keys_after m _ n subs).
Qed.

Lemma change_free m n free :
  event_wf m -> event_node_get (event_root m) n = None ->
  (forall n', n' <> n -> List.filter (named n') free = List.filter (named n') (free_subscribe_root m)) ->
  (forall f, f ∈ free -> s_name f = n \/ f ∈ free_subscribe_root m) ->
  NoDup (sub_key <$> attach_all [] (List.filter (named n) free)) ->
  changes_to m (with_free m free) n (attach_all [] (List.filter (named n) free)).
Proof.
  intros Hw He Ho Hf Hn.
  assert (forall n', subscribers (with_free m free) n'
    = if bool_decide (n' = n) then attach_all [] (List.filter (named n) free) else subscribers m n') as Hs.
  { intros n'. unfold subscribers. cbn. case_bool_decide as E.
    - subst n'. by rewrite He, claim_free_eq.
    - rewrite !claim_free_eq. by rewrite (Ho n' E). }
  split; [|done]. split; cbn.
  - apply (wf_cnt m Hw).
  - apply (wf_names m Hw).
  - intros f Hin. destruct (Hf f Hin) as [->|H]; [done|by apply wf_free].
  - by apply (keys_after m _ n (attach_all [] (List.filter (named n) free))).
Qed.

Lemma filter_named_other n n' l :
  n' <> n -> List.filter (named n') (List.filter (fun s => negb (named n s)) l) = List.filter (named n') l.
Proof.
  intros Hn. rewrite filter_filter_list. apply filter_ext_elem. intros s _. unfold named.
  destruct (bool_decide_reflect (s_name s = n)); cbn; [|done].
  rewrite bool_decide_false; [done|congruence].
Qed.

Lemma create_event m n :
  event_wf m -> event_node_get (event_root m) n = None ->
  exists e m', event_node_create_init m true n = (Some e, m')
    /\ event_node_get (event_root m') n = Some e /\ subscribe_root e = subscribers m n
    /\ changes_to m m' n (subscribers m n).
Proof.
  intros Hw He. unfold event_node_create_init. rewrite claim_free_eq, <- subscribers_free by done.
  eexists _, _. split; [reflexivity|]. cbn. rewrite event_get_snoc, He. cbn. rewrite bool_decide_true by done.
  split; [done|]. split; [done|]. set (m' := {| inited := _ |}).
  assert (forall n', subscribers m' n' = if bool_decide (n' = n) then subscribers m n else subscribers m n') as Hs.
  { intros n'. unfold subscribers at 1. cbn. rewrite event_get_snoc. cbn.
    destruct (bool_decide_reflect (n' = n)) as [->|Hn].
    - rewrite He. by rewrite bool_decide_true.
    - rewrite (bool_decide_false (n = n')) by congruence. unfold subscribers.
      destruct (event_node_get (event_root m) n'); [done|].
      by rewrite !claim_free_eq, filter_named_other. }
  split; [|done]. split; cbn.
  - rewrite (wf_cnt m Hw), zlen_app. done.
  - rewrite fmap_app. cbn. apply list.NoDup_app. split; [apply (wf_names m Hw)|]. split; [|apply NoDup_singleton].
    intros x Hx ->%list_elem_of_singleton. by apply (event_get_None _ _ He).
  - intros f [Hf Hne]%elem_filter. rewrite event_get_snoc, (wf_free m Hw f Hf). cbn.
    unfold named in Hne. apply negb_true_iff, bool_decide_eq_false in Hne.
    rewrite bool_decide_false; [done|congruence].
  - apply (keys_after m m' n (subscribers m n)); [done|by apply wf_keys|done].
Qed.

(** ** The operations *)

Lemma subscribe_ok m n s :
  event_wf m -> s_name s = n ->
  let l := if existsb (same_sub s) (subscribers m n) then subscribers m n else attach s (subscribers m n) in
  match event_node_get (event_root m) n with
  | None => exists free, event_node_add_free_subscribe (free_subscribe_root m) true s = (OPRT_OK, free)
      /\ changes_to m (with_free m free) n l
  | Some e => exists subs, event_node_add_subscribe (subscribe_root e) true s = (OPRT_OK, subs)
      /\ changes_to m (with_root m (set_subs (event_root m) n subs)) n l
  end.
Proof.
  intros Hw Hn l. pose proof (wf_keys m Hw n) as Hk.
  assert (NoDup (sub_key <$> l)) as Hl.
  { unfold l. destruct (existsb _ _) eqn:E; [done|by apply attach_NoDup]. }
  destruct (event_node_get (event_root m) n) as [e|] eqn:He.
  - assert (subscribers m n = subscribe_root e) as Es by (unfold subscribers; by rewrite He).
    unfold event_node_add_subscribe, event_node_get_subscribe. unfold l in *. rewrite Es in *.
    destruct (find_existsb (same_sub s) (subscribe_root e)) as [[-> Ee]|(x & -> & Ee)]; rewrite Ee in *;
      (eexists; split; [done|]; by apply (change_event m n e)).
  - assert (existsb (same_free s) (free_subscribe_root m) = existsb (same_sub s) (subscribers m n)) as Ex.
    { rewrite subscribers_free by done. apply eq_true_iff_eq. rewrite !existsb_exists.
      setoid_rewrite <- list_elem_of_In. setoid_rewrite attach_all_perm. setoid_rewrite app_nil_r.
      setoid_rewrite elem_filter. setoid_rewrite same_free_named. setoid_rewrite andb_true_iff. rewrite Hn.
      unfold same_sub. setoid_rewrite andb_true_iff. split; intros (x & Hx); exists x; tauto. }
    unfold event_node_add_free_subscribe, event_node_get_free_subscribe. unfold l in *. rewrite <- Ex in *.
    destruct (find_existsb (same_free s) (free_subscribe_root m)) as [[-> Ee]|(x & -> & Ee)]; rewrite Ee in *.
    + eexists. split; [done|]. rewrite subscribers_free, <- attach_all_snoc in * by done.
      assert (List.filter (named n) (free_subscribe_root m ++ [s])
              = List.filter (named n) (free_subscribe_root m) ++ [s]) as Ef.
      { rewrite List.filter_app. cbn. unfold named at 2. by rewrite bool_decide_true. }
      rewrite <- Ef in *. apply change_free; try done.
      * intros n' Hne. rewrite List.filter_app. cbn. unfold named at 2. rewrite bool_decide_false by congruence.
        by rewrite app_nil_r.
      * intros f [Hf|Hf%list_elem_of_singleton]%elem_of_app; [by right|left; congruence].
    + eexists. split; [done|]. rewrite subscribers_free in * by done. apply change_free; try done. by right.
Qed.

Lemma unsubscribe_ok m n s :
  event_wf m -> s_name s = n ->
  let l := List.filter (fun e => negb (same_sub s e)) (subscribers m n) in
  match event_node_get (event_root m) n with
  | None => exists free, event_node_del_free_subscribe (free_subscribe_root m) s = (OPRT_OK, free)
      /\ changes_to m (with_free m free) n l
  | Some e => exists subs, event_node_del_subscribe (subscribe_root e) s = (OPRT_OK, subs)
      /\ changes_to m (with_root m (set_subs (event_root m) n subs)) n l
  end.
Proof.
  intros Hw Hn l. pose proof (wf_keys m Hw n) as Hk.
  assert (NoDup (sub_key <$> l)) as Hl by (by apply fmap_filter_NoDup).
  assert (forall x y, same_sub s x = true -> same_sub s y = true -> sub_key x = sub_key y) as Hss.
  { intros x y Hx%same_sub_key Hy%same_sub_key. congruence. }
  destruct (event_node_get (event_root m) n) as [e|] eqn:He.
  - assert (subscribers m n = subscribe_root e) as Es by (unfold subscribers; by rewrite He).
    unfold event_node_del_subscribe, event_node_get_subscribe. unfold l in *. rewrite Es in *.
    rewrite remove_first_filter; [|done|by apply fmap_filter_NoDup].
    destruct (find_existsb (same_sub s) (subscribe_root e)) as [[-> Ee]|(x & -> & Ee)].
    + eexists. split; [done|].
      assert (List.filter (fun e => negb (same_sub s e)) (subscribe_root e) = subscribe_root e) as Ef
        by (by apply filter_none).
      rewrite Ef in *. by apply (change_event m n e).
    + eexists. split; [done|]. by apply (change_event m n e).
  - rewrite subscribers_free in Hk by done. unfold l in *.
    set (free' := List.filter (fun e => negb (same_free s e)) (free_subscribe_root m)).
    assert (List.filter (fun e => negb (same_sub s e)) (subscribers m n)
            = attach_all [] (List.filter (named n) free')) as El.
    { rewrite subscribers_free, filter_attach_all by done. cbn. f_equal. unfold free'.
      rewrite !filter_filter_list. apply filter_ext_elem. intros x _. rewrite same_free_named, Hn.
      by destruct (named n x), (same_sub s x). }
    rewrite El in *. unfold event_node_del_free_subscribe, event_node_get_free_subscribe.
    assert (forall n', n' <> n -> List.filter (named n') free' = List.filter (named n') (free_subscribe_root m)) as Ho.
    { intros n' Hne. unfold free'. rewrite filter_filter_list. apply filter_ext_elem. intros x _.
      rewrite same_free_named, Hn. unfold named. destruct (bool_decide_reflect (s_name x = n')); cbn;
        [|by rewrite andb_false_r]. by rewrite bool_decide_false by congruence. }
    assert (changes_to m (with_free m free') n (attach_all [] (List.filter (named n) free'))) as Hc.
    { apply change_free; try done. intros f [Hf _]%elem_filter. by right. }
    destruct (find_existsb (same_free s) (free_subscribe_root m)) as [[-> Ee]|(x & -> & Ee)].
    + eexists. split; [done|].
      replace (free_subscribe_root m) with free' by (by apply filter_none). done.
    + eexists. split; [done|]. rewrite remove_first_filter; [done| |].
      * intros a b. rewrite !same_free_named, !andb_true_iff. intros [_ Ha] [_ Hb]. by apply Hss.
      * rewrite attach_all_perm, app_nil_r in Hk.
        replace (List.filter (same_free s) (free_subscribe_root m))
          with (List.filter (same_sub s) (List.filter (named n) (free_subscribe_root m))).
        { by apply fmap_filter_NoDup. }
        rewrite filter_filter_list. apply filter_ext_elem. intros y _. by rewrite same_free_named, Hn.
Qed.

Lemma event_dispatch_ok {W} (run : Z -> W -> Z * W) subs rt w :
  event_node_dispatch run subs rt w
  = let calls := List.filter (fun cb => negb (cb =? 0)) (s_cb <$> subs) in
    let '(rt, w) := run_calls run calls rt w in
    (rt, calls, List.filter (fun e => negb (s_type e =? SUBSCRIBE_TYPE_ONETIME)) subs, w).
Proof.
  unfold run_calls. revert rt w. induction subs as [|s subs IH]; intros rt w; [done|]. cbn.
  destruct (s_cb s =? 0); cbn; [|destruct (run (s_cb s) w) as [rt' w']]; rewrite IH; cbn;
    destruct (fold_left _ _ _) as [rt2 w2]; by destruct (s_type s =? SUBSCRIBE_TYPE_ONETIME).
Qed.

(** ** Runs *)

(** The manager as each operation sees it: initialised on first use. *)
Definition ready (m : EVENT_MANAGE_T) : EVENT_MANAGE_T := if inited m then m else snd (tal_event_init m).

Definition refines (m : EVENT_MANAGE_T) (st : spec_state) : Prop :=
  event_wf (ready m) /\ forall n, subscribers (ready m) n = st n.

Lemma ready_inited m : inited (ready m) = true.
Proof. unfold ready, tal_event_init. by destruct (inited m) eqn:E. Qed.

Lemma refines_change m st n m' l :
  (forall n', subscribers (ready m) n' = st n') -> changes_to (ready m) m' n l -> refines m' (spec_set st n l).
Proof.
  intros Hs (Hw & Hi & Hc). rewrite ready_inited in Hi.
  unfold refines, ready. rewrite Hi. split; [done|]. intros n'. rewrite Hc. unfold spec_set.
  by case_bool_decide.
Qed.

Lemma refines_ready m st : refines m st -> refines (ready m) st.
Proof.
  assert (ready (ready m) = ready m) as E by (unfold ready at 1; by rewrite ready_inited).
  unfold refines. by rewrite E.
Qed.

Lemma publish_ok {W} m n (run : Z -> W -> Z * W) w :
  event_wf m ->
  let calls := List.filter (fun cb => negb (cb =? 0)) (s_cb <$> subscribers m n) in
  let l := List.filter (fun e => negb (s_type e =? SUBSCRIBE_TYPE_ONETIME)) (subscribers m n) in
  exists e m1 m',
    (match event_node_get (event_root m) n with
     | Some e => (Some e, m)
     | None => event_node_create_init m true n end) = (Some e, m1)
    /\ event_node_dispatch run (subscribe_root e) OPRT_OK w = (let '(rt, w) := run_calls run calls OPRT_OK w in (rt, calls, l, w))
    /\ with_root m1 (set_subs (event_root m1) n l) = m' /\ changes_to m m' n l.
Proof.
  intros Hw calls l. pose proof (wf_keys m Hw n) as Hk.
  assert (NoDup (sub_key <$> l)) as Hl by (by apply fmap_filter_NoDup).
  destruct (event_node_get (event_root m) n) as [e|] eqn:He.
  - assert (subscribers m n = subscribe_root e) as Es by (unfold subscribers; by rewrite He).
    eexists e, m, _. split; [done|]. rewrite event_dispatch_ok, <- Es. split; [done|]. split; [done|].
    by apply (change_event m n e).
  - destruct (create_event m n Hw He) as (e & m1 & Ec & Ee & Es & Hw1 & Hi1 & Hs1).
    eexists e, m1, _. split; [done|]. rewrite event_dispatch_ok, Es. split; [done|]. split; [done|].
    destruct (change_event m1 n e l Hw1 Ee Hl) as (Hw2 & Hi2 & Hs2).
    split; [done|]. split; [congruence|]. intros n'. rewrite Hs2. case_bool_decide; [done|].
    rewrite Hs1. by rewrite bool_decide_false.
Qed.

Lemma event_step_refines {W} m st (op : event_op W) w o m' w' :
  refines m st -> event_step m op w = (o, m', w') -> exists st', spec_step st op w = (o, st', w') /\ refines m' st'.
Proof.
  intros Hr. pose proof (refines_ready m st Hr) as Hr'. destruct Hr as [Hw Hs]. destruct op as [name desc cb ty|name desc cb|name run]; cbn [event_step spec_step].
  - unfold tal_event_subscribe. fold (ready m).
    destruct (event_desc_is_valid desc); cbn [negb]; [|intros [= <- <- <-]; by eexists]. destruct (event_name_is_valid name); cbn [negb]; [|intros [= <- <- <-]; by eexists].
    set (n := default [] name). set (s := {| s_name := n |}).
    pose proof (subscribe_ok (ready m) n s Hw eq_refl) as H. cbv zeta in H. rewrite Hs in H.
    destruct (event_node_get _ _); destruct H as (x & -> & H); intros [= <- <- <-];
      (eexists; split; [done|]; by apply (refines_change m st)).
  - unfold tal_event_unsubscribe. fold (ready m).
    destruct (event_desc_is_valid desc); cbn [negb]; [|intros [= <- <- <-]; by eexists]. destruct (event_name_is_valid name); cbn [negb]; [|intros [= <- <- <-]; by eexists].
    set (n := default [] name). set (s := {| s_name := n |}).
    pose proof (unsubscribe_ok (ready m) n s Hw eq_refl) as H. cbv zeta in H. rewrite Hs in H.
    destruct (event_node_get _ _); destruct H as (x & -> & H); intros [= <- <- <-];
      (eexists; split; [done|]; by apply (refines_change m st)).
  - unfold tal_event_publish. fold (ready m). destruct name as [n|]; [|intros [= <- <- <-]; by eexists].
    destruct (event_name_is_valid (Some n)); cbn [negb]; [|intros [= <- <- <-]; by eexists].
    destruct (publish_ok (ready m) n run w Hw) as (e & m1 & m2 & -> & Ed & Em & Hc). rewrite Hs in *.
    rewrite Ed. cbn [from_option]. change (id n) with n. destruct (run_calls _ _ _ _) as [rt w2]. rewrite Em. intros [= <- <- <-].
    eexists. split; [done|]. by apply (refines_change m st).
Qed.

Lemma event_run_refines {W} (ops : list (event_op W)) : forall m st w os m' w',
  refines m st -> event_run m ops w = (os, m', w') -> exists st', spec_run st ops w = (os, st', w') /\ refines m' st'.
Proof.
  induction ops as [|op ops IH]; intros m st w os m' w' Hr; cbn [event_run spec_run]; [intros [= <- <- <-]; by eexists|].
  destruct (event_step m op w) as [[o m1] w1] eqn:E1. destruct (event_run m1 ops w1) as [[os2 m2] w2] eqn:E2. intros [= <- <- <-].
  destruct (event_step_refines _ _ _ _ _ _ _ Hr E1) as (st1 & -> & Hr1). destruct (IH _ _ _ _ _ _ Hr1 E2) as (st2 & -> & Hr2). by eexists.
Qed.

(** The zeroed [g_event_manager]. *)
Definition g_event_manager : EVENT_MANAGE_T :=
  {| inited := false; event_cnt := 0; event_root := []; free_subscribe_root := [] |}.

Lemma g_event_manager_refines : refines g_event_manager (fun _ => []).
Proof. split; [|done]. split; cbn; [done|apply NoDup_nil_2|by intros f Hf%elem_of_nil|intros n; apply NoDup_nil_2]. Qed.

(** (C14) The event manager keeps one ordered list of subscribers per event name: every
    sequence of subscribe, unsubscribe and publish calls (valid or not, initialisation
    included, memory not exhausted, and callbacks that may change a state of their own but
    do not call the manager) returns the codes, calls the callbacks, in the order, and
    leaves their state, as the manager with such lists does: emergency
    subscribers in front, the others behind, duplicates ignored, one-time
    subscribers gone after a publish; whether a subscriber came before or after
    the event existed makes no difference. In every state the event table is in
    order: the counter is the number of events, no two events have the same name,
    no name with an event has free subscribers, and no name has two subscribers
    with the same description and callback. The code of a publish is the status of the last
    callback; the comment of the function promises a failure when any of them fails, which
    is not what it does. *)
Theorem event_refines_spec {W} (ops : list (event_op W)) (w : W) :
  exists os m w', event_run g_event_manager ops w = (os, m, w')
    /\ (exists st, spec_run (fun _ => []) ops w = (os, st, w') /\ forall n, subscribers (ready m) n = st n)
    /\ event_wf (ready m).
Proof.
  destruct (event_run g_event_manager ops w) as [[os m] w'] eqn:E. exists os, m, w'. split; [done|].
  destruct (event_run_refines ops _ _ _ _ _ _ g_event_manager_refines E) as (st & Es & [Hw Hs]). split; [by exists st|done].
Qed.

(** The failure of a subscriber is masked: the code [tal_event_publish]
    returns is the status of the last callback alone, so that it is [OPRT_OK]
    whenever the last one succeeds, though earlier ones failed. *)
Theorem event_publish_masks_failure (run : Z -> Z) (name d1 d2 : name_t) (cb1 cb2 : Z) :
  event_name_is_valid (Some name) = true -> event_desc_is_valid (Some d1) = true ->
  event_desc_is_valid (Some d2) = true -> d1 <> d2 -> cb1 <> 0 -> cb2 <> 0 ->
  run cb1 <> OPRT_OK -> run cb2 = OPRT_OK ->
  exists m, event_run g_event_manager
         [Subscribe (Some name) (Some d1) cb1 SUBSCRIBE_TYPE_NORMAL;
          Subscribe (Some name) (Some d2) cb2 SUBSCRIBE_TYPE_NORMAL; Publish (Some name) (fun cb w => (run cb, w))] tt
  = ([(OPRT_OK, []); (OPRT_OK, []); (OPRT_OK, [cb1; cb2])], m, tt).
Proof.
  intros Hn Hd1 Hd2 Hd H1 H2 _ Hr.
  match goal with |- exists m, event_run ?a ?b ?c = _ => destruct (event_run a b c) as [[os m] w'] eqn:E end.
  destruct (event_run_refines _ _ _ _ _ _ _ g_event_manager_refines E) as (st & Es & _). exists m. revert Es.
  cbn [spec_run spec_step]. rewrite Hn, Hd1, Hd2. cbn [negb from_option existsb]. unfold id.
  unfold spec_set. rewrite !bool_decide_true by done. cbn. unfold same_sub. cbn.
  rewrite (bool_decide_false (d1 = d2)) by done. cbn.
  apply Z.eqb_neq in H1, H2. unfold run_calls. cbn. rewrite H1, H2. cbn. rewrite Hr. by intros [= <- _ <-].
Qed.

Lemma event_publish_masks_failure_witness : exists m,
  event_run g_event_manager
         [Subscribe (Some [109]) (Some [97]) 1000 SUBSCRIBE_TYPE_NORMAL;
          Subscribe (Some [109]) (Some [98]) 2000 SUBSCRIBE_TYPE_NORMAL;
          Publish (Some [109]) (fun cb w => (if cb =? 1000 then -1 else 0, w))] tt
  = ([(OPRT_OK, []); (OPRT_OK, []); (OPRT_OK, [1000; 2000])], m, tt).
Proof.
  apply (event_publish_masks_failure (fun cb => if cb =? 1000 then -1 else 0) [109] [97] [98] 1000 2000); done.
Defined.
