(* ===== verification/Cipher.v ===== *)
(** The authenticated-encryption wrappers of [src/libtls/src/cipher_wrapper.c]
    over the cipher layer of mbedTLS, which is the interface [MbedtlsCipher]. *)
From Stdlib Require Import ZArith Lia.
From stdpp Require Import base tactics option list numbers.
From S2P Require Import Prelude.

Local Open Scope Z_scope.

(** * The mbedTLS interface

    The functions of [mbedtls/cipher.h] the wrappers call. A context is
    determined by the cipher type and the key of [mbedtls_cipher_setkey]; the
    two [_ext] functions return their code and the bytes they put into the
    output buffer, whose number is what they store into [olen]. *)

Definition MBEDTLS_CIPHER_AES_128_GCM : Z := 14.
Definition MBEDTLS_CIPHER_AES_256_GCM : Z := 16.
Definition MBEDTLS_ENCRYPT : Z := 1.
Definition MBEDTLS_DECRYPT : Z := 0.

Class MbedtlsCipher := {
  (* mbedtls_cipher_info_from_type and mbedtls_cipher_info_get_key_bitlen *)
  info_key_bitlen : Z -> option Z;
  cipher_setup : Z -> Z;
  cipher_block_size : Z -> Z;
  cipher_setkey : Z -> list Z -> Z -> Z;
  auth_encrypt_ext : Z -> list Z -> list Z -> list Z -> list Z -> Z -> Z * list Z;
  auth_decrypt_ext : Z -> list Z -> list Z -> list Z -> list Z -> Z -> Z * list Z
}.

(** What mbedTLS documents of AES-GCM with a 16-byte tag, when the library is built
    with it: the context can be set up with every key of [klen] bytes, encryption
    appends the tag to a ciphertext as long as the plaintext, and decryption of what
    encryption made is the plaintext. [nlen] is the length of the nonce. *)
Class GcmCipher `{MbedtlsCipher} (ct klen nlen : Z) : Prop := {
  gcm_klen : 0 < klen <= 64;
  gcm_bitlen : info_key_bitlen ct = Some (klen * 8);
  gcm_setup : cipher_setup ct = 0;
  gcm_block : cipher_block_size ct = 16;
  gcm_setkey key op : zlen key = klen -> cipher_setkey ct key op = 0;
  gcm_encrypt key nonce ad data :
    zlen key = klen -> zlen nonce = nlen ->
    exists out, auth_encrypt_ext ct key nonce ad data 16 = (0, out) /\ zlen out = zlen data + 16;
  gcm_decrypt key nonce ad data out :
    zlen key = klen -> zlen nonce = nlen ->
    auth_encrypt_ext ct key nonce ad data 16 = (0, out) ->
    auth_decrypt_ext ct key nonce ad out 16 = (0, data)
}.

(** The two ciphers in use: AES-128 with the 12-byte nonce of the LAN and cloud
    packets, AES-256 with the 16-byte vector of the AI channel. *)
Class Aes128Gcm `{MbedtlsCipher} : Prop := aes128_gcm : GcmCipher MBEDTLS_CIPHER_AES_128_GCM 16 12.
Class Aes256Gcm `{MbedtlsCipher} : Prop := aes256_gcm : GcmCipher MBEDTLS_CIPHER_AES_256_GCM 32 16.
#[export] Existing Instance aes128_gcm.
#[export] Existing Instance aes256_gcm.

(** * The wrappers

    A pointer argument is the memory from that address on. [malloc n] says
    whether an allocation of [n] bytes succeeds, [size_t] wraps at [szw] bits. *)

Record cipher_params_t := {
  p_key : list Z; p_nonce : list Z; p_ad : list Z; p_data : list Z;
  key_len : Z; nonce_len : Z; ad_len : Z; data_len : Z; cipher_type : Z
}.

Definition size_t (szw z : Z) : Z := wrap szw z.

Section Wrappers.
Context `{MbedtlsCipher} (malloc : Z -> bool) (szw : Z).

(** The result is the return code with the bytes copied to [output] and to
    [tag], if it comes that far; [None] is an access outside an object. *)
Definition mbedtls_cipher_auth_encrypt_wrapper (input : option cipher_params_t) (tag_len : Z)
  : option (Z * option (list Z * list Z)) :=
  match input with
  | None => Some (OPRT_INVALID_PARM, None)
  | Some input =>
      match info_key_bitlen (cipher_type input) with
      | None => Some (OPRT_INVALID_PARM, None)
      | Some bits =>
          let ret := cipher_setup (cipher_type input) in
          if negb (ret =? 0) then Some (ret, None)
          else if negb (size_t szw (key_len input * 8) =? bits) then Some (OPRT_INVALID_PARM, None)
          else
            key ← slice (p_key input) 0 (bits / 8);
            let ret := cipher_setkey (cipher_type input) key MBEDTLS_ENCRYPT in
            if negb (ret =? 0) then Some (ret, None)
            else if negb (malloc (size_t szw (data_len input + tag_len))) then None
            else
              nonce ← slice (p_nonce input) 0 (nonce_len input);
              ad ← slice (p_ad input) 0 (ad_len input);
              data ← slice (p_data input) 0 (data_len input);
              let '(ret, enc_tmpbuf) :=
                auth_encrypt_ext (cipher_type input) key nonce ad data tag_len in
              let olen := size_t szw (zlen enc_tmpbuf - tag_len) in
              out ← slice enc_tmpbuf 0 olen;
              tag ← slice enc_tmpbuf olen tag_len;
              Some (ret, Some (out, tag))
      end
  end.

(** The result is the return code with the bytes written to [output]. *)
Definition mbedtls_cipher_auth_decrypt_wrapper (input : option cipher_params_t) (tag : list Z) (tag_len : Z)
  : option (Z * option (list Z)) :=
  match input with
  | None => Some (OPRT_INVALID_PARM, None)
  | Some input =>
      match info_key_bitlen (cipher_type input) with
      | None => Some (OPRT_OK, None)
      | Some bits =>
          let ret := cipher_setup (cipher_type input) in
          if negb (ret =? 0) then Some (ret, None)
          else if cipher_block_size (cipher_type input) =? 0 then Some (OPRT_OK, None)
          else
            key ← slice (p_key input) 0 (bits / 8);
            if negb (cipher_setkey (cipher_type input) key MBEDTLS_DECRYPT =? 0) then Some (OPRT_OK, None)
            else
              let tmp_len := size_t szw (data_len input + tag_len) in
              if negb (malloc tmp_len) then Some (OPRT_MALLOC_FAILED, None)
              else
                data ← slice (p_data input) 0 (data_len input);
                tmp ← blit (zrepl tmp_len 0) 0 data;
                t ← slice tag 0 tag_len;
                tmp ← blit tmp (data_len input) t;
                nonce ← slice (p_nonce input) 0 (nonce_len input);
                ad ← slice (p_ad input) 0 (ad_len input);
                let '(ret, out) := auth_decrypt_ext (cipher_type input) key nonce ad tmp tag_len in
                Some (ret, Some out)
      end
  end.

(** A failing [mbedtls_cipher_setkey] does not change [ret], so the decrypt
    wrapper reports success without having decrypted or authenticated. *)
Lemma decrypt_wrapper_setkey_fails input key bits tag tag_len :
  info_key_bitlen (cipher_type input) = Some bits -> cipher_setup (cipher_type input) = 0 ->
  cipher_block_size (cipher_type input) <> 0 ->
  slice (p_key input) 0 (bits / 8) = Some key ->
  cipher_setkey (cipher_type input) key MBEDTLS_DECRYPT <> 0 ->
  mbedtls_cipher_auth_decrypt_wrapper (Some input) tag tag_len = Some (OPRT_OK, None).
Proof.
  intros Hb Hs Hk Hsl Hf. unfold mbedtls_cipher_auth_decrypt_wrapper. rewrite Hb, Hs, Hsl. cbn.
  by rewrite (proj2 (Z.eqb_neq _ _) Hk), (proj2 (Z.eqb_neq _ _) Hf).
Qed.
End Wrappers.

(** * AES-GCM through the wrappers *)

(** The parameters of a call of one of the clients. *)
Definition gcm_params (ct : Z) (key nonce ad data : list Z) (klen nlen alen dlen : Z) : cipher_params_t :=
  {| p_key := key; p_nonce := nonce; p_ad := ad; p_data := data; key_len := klen;
     nonce_len := nlen; ad_len := alen; data_len := dlen; cipher_type := ct |}.

Section Gcm.
Context `{!MbedtlsCipher} {ty klen nlen : Z} `{!GcmCipher ty klen nlen} (malloc : Z -> bool) (szw : Z).
Context (Hmalloc : forall n, malloc n = true) (Hszw : 32 <= szw).

Lemma size_t_small z : 0 <= z < 4294967296 -> size_t szw z = z.
Proof.
  intros Hz. apply wrap_small. pose proof (Z.pow_le_mono_r 2 32 szw). lia.
Qed.

Implicit Types key nonce ad data : list Z.

Lemma gcm_encrypt_wrapper key key' nonce nonce' ad ad' data data' :
  zlen key = klen -> zlen nonce = nlen -> zlen data + 16 < 4294967296 ->
  exists ct tag,
    mbedtls_cipher_auth_encrypt_wrapper malloc szw
      (Some (gcm_params ty (key ++ key') (nonce ++ nonce') (ad ++ ad') (data ++ data')
               klen nlen (zlen ad) (zlen data))) 16 = Some (0, Some (ct, tag))
    /\ zlen ct = zlen data /\ zlen tag = 16
    /\ auth_encrypt_ext ty key nonce ad data 16 = (0, ct ++ tag).
Proof.
  intros Hk Hn Hd. destruct (gcm_encrypt key nonce ad data Hk Hn) as (out & Eo & Ho).
  pose proof (zlen_nonneg data).
  destruct (split_at out (zlen data)) as (ct & tag & -> & Hct); [lia|]. rewrite zlen_app in Ho.
  exists ct, tag. unfold mbedtls_cipher_auth_encrypt_wrapper, gcm_params.
  cbn [p_key p_nonce p_ad p_data key_len nonce_len ad_len data_len cipher_type].
  pose proof gcm_klen as Hkl. rewrite gcm_bitlen, gcm_setup, (size_t_small (klen * 8)), (Z.eqb_refl (klen * 8)), Z.div_mul by lia.
  rewrite (slice_prefix_n key) by done. cbn [mbind option_bind].
  rewrite gcm_setkey by done. rewrite Hmalloc, (slice_prefix_n nonce), !slice_prefix by done. cbn.
  rewrite Eo, zlen_app. replace (zlen ct + zlen tag - 16) with (zlen ct) by lia.
  rewrite size_t_small by lia. rewrite slice_prefix. cbn.
  replace (slice (ct ++ tag) (zlen ct) 16) with (Some tag)
    by (symmetry; replace 16 with (zlen tag) by lia; apply slice_suffix).
  split_and!; [done|lia|lia|done].
Qed.

Lemma gcm_decrypt_wrapper key key' nonce nonce' ad ad' data ct ct' tag tag' :
  zlen key = klen -> zlen nonce = nlen -> zlen ct + 16 < 4294967296 -> zlen tag = 16 ->
  auth_encrypt_ext ty key nonce ad data 16 = (0, ct ++ tag) ->
  forall kl,
  mbedtls_cipher_auth_decrypt_wrapper malloc szw
    (Some (gcm_params ty (key ++ key') (nonce ++ nonce') (ad ++ ad') (ct ++ ct')
             kl nlen (zlen ad) (zlen ct))) (tag ++ tag') 16 = Some (0, Some data).
Proof.
  intros Hk Hn Hc Ht He kl. pose proof (zlen_nonneg ct).
  unfold mbedtls_cipher_auth_decrypt_wrapper, gcm_params.
  cbn [p_key p_nonce p_ad p_data key_len nonce_len ad_len data_len cipher_type].
  rewrite gcm_bitlen, gcm_setup, gcm_block, Z.div_mul by lia.
  rewrite (slice_prefix_n key) by done. cbn [mbind option_bind].
  rewrite gcm_setkey by done. rewrite Hmalloc, size_t_small by lia. cbn [mbind option_bind negb Z.eqb].
  rewrite (slice_prefix ct). cbn [mbind option_bind negb Z.eqb].
  rewrite (blit_front _ ct) by (rewrite zlen_zrepl; lia). cbn [mbind option_bind negb Z.eqb].
  rewrite (slice_prefix_n tag) by done. cbn [mbind option_bind negb Z.eqb].
  rewrite blit_cursor by (rewrite zlen_drop; rewrite ?zlen_zrepl; lia). cbn [mbind option_bind negb Z.eqb].
  rewrite zdrop_all by (rewrite zlen_drop; rewrite ?zlen_zrepl; lia). rewrite app_nil_r.
  rewrite (slice_prefix_n nonce), (slice_prefix ad) by done. cbn.
  by rewrite (gcm_decrypt key nonce ad data).
Qed.
End Gcm.

(** * A toy instance, for witnesses: the key stream is the first key byte and
    the tag is sixteen zero bytes. *)

Definition toy_xor (key data : list Z) : list Z := (fun b => Z.lxor b (hd 0 key)) <$> data.

#[export] Instance toy_cipher : MbedtlsCipher := {
  info_key_bitlen t :=
    if t =? MBEDTLS_CIPHER_AES_128_GCM then Some 128 else if t =? MBEDTLS_CIPHER_AES_256_GCM then Some 256 else None;
  cipher_setup _ := 0;
  cipher_block_size _ := 16;
  cipher_setkey _ key _ := if (zlen key =? 16) || (zlen key =? 32) then 0 else -1;
  auth_encrypt_ext _ key _ _ data tag_len := (0, toy_xor key data ++ zrepl tag_len 0);
  auth_decrypt_ext _ key _ _ data tag_len :=
    let n := (length data - Z.to_nat tag_len)%nat in
    if decide (drop n data = zrepl tag_len 0) then (0, toy_xor key (take n data)) else (-25344, [])
}.

Lemma toy_xor_len key data : length (toy_xor key data) = length data.
Proof. apply length_fmap. Qed.

Lemma toy_gcm_cipher ct klen nlen :
  0 < klen <= 64 -> info_key_bitlen ct = Some (klen * 8) -> klen = 16 \/ klen = 32 -> GcmCipher ct klen nlen.
Proof.
  intros Hk Hb Hkl. split; try done.
  - intros key op E. cbn. rewrite E. by destruct Hkl as [-> | ->].
  - intros key nonce ad data _ _. eexists. split; [done|]. unfold zlen, zrepl.
    rewrite length_app, toy_xor_len, length_replicate. lia.
  - intros key nonce ad data out _ _ [= <-]. cbn -[zrepl].
    replace (length (toy_xor key data ++ zrepl 16 0%Z) - Z.to_nat 16)%nat with (length (toy_xor key data))
      by (rewrite length_app; unfold zrepl; rewrite length_replicate; lia).
    rewrite drop_app_length, decide_True by done. rewrite take_app_length. f_equal.
    unfold toy_xor. rewrite <- list_fmap_compose. rewrite <- (list_fmap_id data) at 2.
    apply list_fmap_ext. intros i x _. cbn. rewrite Z.lxor_assoc, Z.lxor_nilpotent. apply Z.lxor_0_r.
Qed.

#[export] Instance toy_gcm : Aes128Gcm.
Proof. apply toy_gcm_cipher; [lia|done|by left]. Qed.
#[export] Instance toy_gcm256 : Aes256Gcm.
Proof. apply toy_gcm_cipher; [lia|done|by right]. Qed.
