(* ===== verification/Hash.v ===== *)
(** Digests and message authentication codes: [src/tal_security/src/tal_hash.c] over
    the wrappers of [src/tal_security/src/mbedtls/mbedtls_hash.c]. The digest functions
    of mbedTLS are the record [Md]. *)
From Stdlib Require Import ZArith Lia.
From stdpp Require Import base tactics option list numbers.
From S2P Require Import Prelude.

Local Open Scope Z_scope.

(** * The mbedTLS interface

    One algorithm of mbedTLS: the context, the context after [_init], and the
    functions, which return their code, what they write and the new context. The first
    argument of [md_starts] is the [is224] of SHA-256. *)
Record Md := {
  md_ctx : Type;
  md_init : md_ctx;
  md_starts : Z -> md_ctx -> Z * md_ctx;
  md_update : md_ctx -> list Z -> Z * md_ctx;
  md_finish : md_ctx -> Z * list Z * md_ctx
}.

Definition HMAC_BLOCK : Z := 64.

Section Algorithm.
Context (M : Md) (size : Z) (malloc : Z -> bool) (ctx_size : Z).

(** A [TKL_HASH_HANDLE]; [None] is [NULL]. *)
Abbreviation handle := (option (md_ctx M)).

Definition tkl_create_init : Z * handle :=
  if malloc ctx_size then (OPRT_OK, Some (md_init M)) else (OPRT_MALLOC_FAILED, None).

Definition tkl_free (ctx : handle) : Z := OPRT_OK.

Definition md_rc (rc : Z) : Z := if negb (rc =? 0) then OPRT_COM_ERROR else OPRT_OK.

Definition tkl_starts_ret (ctx : handle) (is224 : Z) : option (Z * handle) :=
  c ← ctx;
  let '(rc, c) := md_starts M is224 c in
  Some (md_rc rc, Some c).

Definition tkl_update_ret (ctx : handle) (input : list Z) (ilen : Z) : option (Z * handle) :=
  c ← ctx;
  d ← slice input 0 ilen;
  let '(rc, c) := md_update M c d in
  Some (md_rc rc, Some c).

(** The third component is what is written to [output], whose size is [size]. *)
Definition tkl_finish_ret (ctx : handle) : option (Z * handle * list Z) :=
  c ← ctx;
  let '(rc, d, c) := md_finish M c in
  if size <? zlen d then None else Some (md_rc rc, Some c, d).

(** The first step that fails ends the others; the handle is freed in any case. *)
Definition tal_ret (input : list Z) (ilen is224 : Z) : option (Z * list Z) :=
  let '(ret, ctx) := tkl_create_init in
  if negb (ret =? OPRT_OK) then Some (ret, [])
  else
    '(ret, ctx) ← tkl_starts_ret ctx is224;
    if negb (ret =? OPRT_OK) then Some (Z.lor ret (tkl_free ctx), [])
    else
      '(ret, ctx) ← tkl_update_ret ctx input ilen;
      if negb (ret =? OPRT_OK) then Some (Z.lor ret (tkl_free ctx), [])
      else
        '(ret, ctx, output) ← tkl_finish_ret ctx;
        Some (Z.lor ret (tkl_free ctx), output).

(** * HMAC *)

Record tal_hash_mac_context_t := { mac_ctx : handle; ipad : list Z; opad : list Z }.

Definition tal_mac_create_init : Z * tal_hash_mac_context_t :=
  let '(ret, c) := tkl_create_init in
  (ret, {| mac_ctx := c; ipad := zrepl HMAC_BLOCK 0; opad := zrepl HMAC_BLOCK 0 |}).

(** [for (i = 0; i < keylen; i++)]: [n] rounds from [i] on. *)
Fixpoint ipad_loop (n : nat) (i : Z) (key ip op : list Z) : option (list Z * list Z) :=
  match n with
  | O => Some (ip, op)
  | S n =>
      k ← rd key i; a ← rd ip i; b ← rd op i;
      ip ← wr ip i (u8 (Z.lxor a k));
      op ← wr op i (u8 (Z.lxor b k));
      ipad_loop n (i + 1) key ip op
  end.

Definition with_ctx (h : tal_hash_mac_context_t) (c : handle) : tal_hash_mac_context_t :=
  {| mac_ctx := c; ipad := ipad h; opad := opad h |}.

Definition tal_mac_starts (h : tal_hash_mac_context_t) (key : list Z) (keylen : Z)
  : option (Z * tal_hash_mac_context_t) :=
  '(ret, key, keylen) ←
    (if HMAC_BLOCK <? keylen then '(ret, sum) ← tal_ret key keylen 0; Some (ret, sum, size)
     else Some (OPRT_OK, key, keylen));
  if negb (ret =? OPRT_OK) then Some (ret, h)
  else
    '(ip, op) ← ipad_loop (Z.to_nat keylen) 0 key (zrepl HMAC_BLOCK 0x36) (zrepl HMAC_BLOCK 0x5C);
    '(ret, c) ← tkl_starts_ret (mac_ctx h) 0;
    let h := {| mac_ctx := c; ipad := ip; opad := op |} in
    if negb (ret =? OPRT_OK) then Some (ret, h)
    else
      '(ret, c) ← tkl_update_ret c ip HMAC_BLOCK;
      Some (ret, with_ctx h c).

Definition tal_mac_update (h : tal_hash_mac_context_t) (input : list Z) (ilen : Z)
  : option (Z * tal_hash_mac_context_t) :=
  '(ret, c) ← tkl_update_ret (mac_ctx h) input ilen;
  Some (ret, with_ctx h c).

(** The third component is what is written to [output]. *)
Definition tal_mac_finish (h : tal_hash_mac_context_t) : option (Z * tal_hash_mac_context_t * list Z) :=
  '(ret, c, tmp) ← tkl_finish_ret (mac_ctx h);
  if negb (ret =? OPRT_OK) then Some (ret, with_ctx h c, [])
  else
    '(ret, c) ← tkl_starts_ret c 0;
    if negb (ret =? OPRT_OK) then Some (ret, with_ctx h c, [])
    else
      '(ret, c) ← tkl_update_ret c (opad h) HMAC_BLOCK;
      if negb (ret =? OPRT_OK) then Some (ret, with_ctx h c, [])
      else
        '(ret, c) ← tkl_update_ret c tmp size;
        if negb (ret =? OPRT_OK) then Some (ret, with_ctx h c, [])
        else
          '(ret, c, output) ← tkl_finish_ret c;
          Some (ret, with_ctx h c, output).

Definition tal_mac_free (h : option tal_hash_mac_context_t) : Z :=
  match h with Some h => tkl_free (mac_ctx h) | None => OPRT_OK end.

Definition tal_mac (key : list Z) (keylen : Z) (input : list Z) (ilen : Z) : option (Z * list Z) :=
  let '(ret, h) := tal_mac_create_init in
  if negb (ret =? OPRT_OK) then Some (Z.lor ret (tal_mac_free (Some h)), [])
  else
    '(ret, h) ← tal_mac_starts h key keylen;
    if negb (ret =? OPRT_OK) then Some (Z.lor ret (tal_mac_free (Some h)), [])
    else
      '(ret, h) ← tal_mac_update h input ilen;
      if negb (ret =? OPRT_OK) then Some (Z.lor ret (tal_mac_free (Some h)), [])
      else
        '(ret, h, output) ← tal_mac_finish h;
        Some (Z.lor ret (tal_mac_free (Some h)), output).
End Algorithm.

(** * The three algorithms *)

Section Named.
Context (sha256 sha1 md5 : Md) (malloc : Z -> bool) (ctx_size : Z).

Definition SHA256_SIZE : Z := 32.
Definition SHA1_SIZE : Z := 20.
Definition MD5_SIZE : Z := 16.

Definition tal_sha256_ret := tal_ret sha256 SHA256_SIZE malloc ctx_size.
Definition tal_sha1_ret (input : list Z) (ilen : Z) := tal_ret sha1 SHA1_SIZE malloc ctx_size input ilen 0.
Definition tal_md5_ret (input : list Z) (ilen : Z) := tal_ret md5 MD5_SIZE malloc ctx_size input ilen 0.

Definition tal_sha256_mac_starts := tal_mac_starts sha256 SHA256_SIZE malloc ctx_size.
Definition tal_sha256_mac_finish := tal_mac_finish sha256 SHA256_SIZE.
Definition tal_sha256_mac := tal_mac sha256 SHA256_SIZE malloc ctx_size.
Definition tal_sha1_mac_starts := tal_mac_starts sha1 SHA1_SIZE malloc ctx_size.
Definition tal_sha1_mac_finish := tal_mac_finish sha1 SHA1_SIZE.
Definition tal_sha1_mac := tal_mac sha1 SHA1_SIZE malloc ctx_size.
End Named.

(** * What mbedTLS documents of a digest

    [absorbed c l]: the context has taken in [l] since it was started; no call fails, and
    [finish] writes the digest [H l] of [size] bytes. *)
Record MdLaws (M : Md) (size : Z) (H : list Z -> list Z) (absorbed : md_ctx M -> list Z -> Prop) : Prop := {
  starts_law c : exists c', md_starts M 0 c = (0, c') /\ absorbed c' [];
  update_law c l d : absorbed c l -> exists c', md_update M c d = (0, c') /\ absorbed c' (l ++ d);
  finish_law c l : absorbed c l -> exists c', md_finish M c = (0, H l, c');
  size_law l : zlen (H l) = size;
  bytes_law l : bytes_ok (H l)
}.

(** HMAC as RFC 2104 defines it. *)
Definition hmac_key (H : list Z -> list Z) (key : list Z) : list Z :=
  let k := if HMAC_BLOCK <? zlen key then H key else key in
  k ++ zrepl (HMAC_BLOCK - zlen k) 0.
Definition hmac (H : list Z -> list Z) (key m : list Z) : list Z :=
  let k := hmac_key H key in
  H ((Z.lxor 0x5C <$> k) ++ H ((Z.lxor 0x36 <$> k) ++ m)).

(** The rest of a pad: [n] bytes [c], into which the key bytes are mixed. *)
Lemma ipad_loop_ok key : forall pre suf a b x y n,
  bytes_ok key -> is_u8 x -> is_u8 y -> zlen a = zlen pre -> zlen b = zlen pre -> zlen key <= n ->
  ipad_loop (length key) (zlen pre) (pre ++ key ++ suf) (a ++ zrepl n x) (b ++ zrepl n y)
  = Some (a ++ (Z.lxor x <$> key) ++ zrepl (n - zlen key) x, b ++ (Z.lxor y <$> key) ++ zrepl (n - zlen key) y).
Proof.
  induction key as [|k key IH]; intros pre suf a b x y n Hok Hx Hy Ha Hb Hn.
  - cbn. rewrite zlen_nil, Z.sub_0_r. done.
  - apply list.Forall_cons in Hok as [Hk Hok]. rewrite zlen_cons in Hn. pose proof (zlen_nonneg key).
    assert (forall c : Z, zrepl n c = c :: zrepl (n - 1) c) as Hz.
    { intros c. unfold zrepl. replace (Z.to_nat n) with (S (Z.to_nat (n - 1))) by lia. done. }
    cbn [length ipad_loop]. rewrite !Hz. cbn [app]. rewrite rd_mid. cbn [mbind option_bind].
    rewrite <- Ha at 1. rewrite rd_mid. cbn [mbind option_bind]. rewrite <- Hb at 1. rewrite rd_mid. cbn [mbind option_bind].
    rewrite <- Ha at 1. rewrite wr_mid. cbn [mbind option_bind]. rewrite <- Hb at 1. rewrite wr_mid. cbn [mbind option_bind].
    rewrite !u8_small by (apply lxor_u8; done).
    specialize (IH (pre ++ [k]) suf (a ++ [Z.lxor x k]) (b ++ [Z.lxor y k]) x y (n - 1) Hok Hx Hy).
    rewrite <- !app_assoc in IH. cbn [app] in IH. rewrite !zlen_app, !zlen_one in IH.
    rewrite IH by lia. rewrite zlen_cons. cbn [fmap list_fmap app].
    replace (n - 1 - zlen key) with (n - (1 + zlen key)) by lia. done.
Qed.

Section Correct.
Context (M : Md) (size ctx_size : Z) (malloc : Z -> bool) (H : list Z -> list Z) (absorbed : md_ctx M -> list Z -> Prop).
Context (L : MdLaws M size H absorbed) (Hm : malloc ctx_size = true).

Lemma tkl_starts_ok c : exists c', tkl_starts_ret M (Some c) 0 = Some (OPRT_OK, Some c') /\ absorbed c' [].
Proof. destruct (starts_law _ _ _ _ L c) as (c' & E & Ha). exists c'. unfold tkl_starts_ret. cbn. by rewrite E. Qed.

Lemma tkl_update_ok c l d d' :
  absorbed c l -> exists c', tkl_update_ret M (Some c) (d ++ d') (zlen d) = Some (OPRT_OK, Some c') /\ absorbed c' (l ++ d).
Proof.
  intros Ha. destruct (update_law _ _ _ _ L c l d Ha) as (c' & E & Ha'). exists c'. unfold tkl_update_ret. cbn.
  rewrite slice_prefix. cbn. by rewrite E.
Qed.

Lemma tkl_finish_ok c l : absorbed c l -> exists c', tkl_finish_ret M size (Some c) = Some (OPRT_OK, Some c', H l).
Proof.
  intros Ha. destruct (finish_law _ _ _ _ L c l Ha) as (c' & E). exists c'. unfold tkl_finish_ret. cbn. rewrite E.
  rewrite (size_law _ _ _ _ L), Z.ltb_irrefl. done.
Qed.

Lemma mac_create_ok : tkl_create_init M malloc ctx_size = (OPRT_OK, Some (md_init M)).
Proof. unfold tkl_create_init. by rewrite Hm. Qed.

Ltac step E := rewrite E; cbn [mbind option_bind]; change (negb (OPRT_OK =? OPRT_OK)) with false; cbv iota.

Lemma tal_ret_ok d d' : tal_ret M size malloc ctx_size (d ++ d') (zlen d) 0 = Some (OPRT_OK, H d).
Proof.
  unfold tal_ret. rewrite mac_create_ok. change (negb (OPRT_OK =? OPRT_OK)) with false. cbv iota.
  destruct (tkl_starts_ok (md_init M)) as (c1 & E1 & A1). step E1.
  destruct (tkl_update_ok c1 [] d d' A1) as (c2 & E2 & A2). step E2.
  destruct (tkl_finish_ok c2 _ A2) as (c3 & E3). step E3. done.
Qed.

Lemma hmac_key_small key key' : bytes_ok key -> size <= HMAC_BLOCK ->
  exists k k', hmac_key H key = k ++ zrepl (HMAC_BLOCK - zlen k) 0 /\ bytes_ok k /\ zlen k <= HMAC_BLOCK
    /\ (if HMAC_BLOCK <? zlen key then '(ret, sum) ← tal_ret M size malloc ctx_size (key ++ key') (zlen key) 0; Some (ret, sum, size)
        else Some (OPRT_OK, key ++ key', zlen key)) = Some (OPRT_OK, k ++ k', zlen k).
Proof.
  intros Hk Hs. unfold hmac_key. destruct (HMAC_BLOCK <? zlen key) eqn:E.
  - exists (H key), []. rewrite tal_ret_ok, app_nil_r. cbn.
    rewrite (size_law _ _ _ _ L). split_and!; try done. apply (bytes_law _ _ _ _ L).
  - exists key, key'. apply Z.ltb_ge in E. done.
Qed.

Lemma zlen_hmac_key key : bytes_ok key -> size <= HMAC_BLOCK -> zlen (hmac_key H key) = HMAC_BLOCK.
Proof.
  intros Hk Hs. destruct (hmac_key_small key [] Hk Hs) as (k & k' & E & _ & Hl & _). pose proof (zlen_nonneg k).
  rewrite E, zlen_app, zlen_zrepl by lia. lia.
Qed.

Lemma tal_mac_starts_ok key key' h : mac_ctx M h <> None -> bytes_ok key -> size <= HMAC_BLOCK ->
  exists c, tal_mac_starts M size malloc ctx_size h (key ++ key') (zlen key)
    = Some (OPRT_OK, {| mac_ctx := Some c; ipad := Z.lxor 0x36 <$> hmac_key H key; opad := Z.lxor 0x5C <$> hmac_key H key |})
    /\ absorbed c (Z.lxor 0x36 <$> hmac_key H key).
Proof.
  intros Hc Hk Hs. destruct (hmac_key_small key key' Hk Hs) as (k & k' & E & Hok & Hl & Er).
  unfold tal_mac_starts. step Er. pose proof (zlen_nonneg k).
  pose proof (ipad_loop_ok k [] k' [] [] 0x36 0x5C HMAC_BLOCK Hok ltac:(done) ltac:(done) eq_refl eq_refl Hl) as Hp.
  cbn [app] in Hp. change (zlen []) with 0 in Hp. rewrite zlen_nat, Hp. cbn [mbind option_bind].
  assert (forall x, (Z.lxor x <$> k) ++ zrepl (HMAC_BLOCK - zlen k) x = Z.lxor x <$> hmac_key H key) as Hf.
  { intros x. rewrite E, fmap_app. f_equal. unfold zrepl. rewrite fmap_replicate. by rewrite Z.lxor_0_r. }
  rewrite !Hf. destruct h as [[c0|] ip op]; [|done]. cbn [mac_ctx].
  destruct (tkl_starts_ok c0) as (c1 & E1 & A1). step E1.
  assert (zlen (Z.lxor 0x36 <$> hmac_key H key) = HMAC_BLOCK) as Hz.
  { unfold zlen. rewrite length_fmap. by apply zlen_hmac_key. }
  destruct (tkl_update_ok c1 [] (Z.lxor 0x36 <$> hmac_key H key) [] A1) as (c2 & E2 & A2).
  rewrite app_nil_r, Hz in E2. step E2. eauto.
Qed.

Lemma tal_mac_ok key key' input input' : bytes_ok key -> size <= HMAC_BLOCK ->
  tal_mac M size malloc ctx_size (key ++ key') (zlen key) (input ++ input') (zlen input) = Some (OPRT_OK, hmac H key input).
Proof.
  intros Hk Hs. unfold tal_mac, tal_mac_create_init. rewrite mac_create_ok. change (negb (OPRT_OK =? OPRT_OK)) with false. cbv iota.
  destruct (tal_mac_starts_ok key key' {| mac_ctx := Some (md_init M); ipad := zrepl HMAC_BLOCK 0; opad := zrepl HMAC_BLOCK 0 |})
    as (c1 & E1 & A1); [done..|]. step E1.
  unfold tal_mac_update. cbn [mac_ctx]. destruct (tkl_update_ok c1 _ input input' A1) as (c2 & E2 & A2). step E2.
  unfold tal_mac_finish, with_ctx. cbn [mac_ctx ipad opad]. destruct (tkl_finish_ok c2 _ A2) as (c3 & E3). step E3.
  destruct (tkl_starts_ok c3) as (c4 & E4 & A4). step E4.
  assert (zlen (Z.lxor 0x5C <$> hmac_key H key) = HMAC_BLOCK) as Hz.
  { unfold zlen. rewrite length_fmap. by apply zlen_hmac_key. }
  destruct (tkl_update_ok c4 [] (Z.lxor 0x5C <$> hmac_key H key) [] A4) as (c5 & E5 & A5). rewrite app_nil_r, Hz in E5. step E5.
  set (inner := H _) in *. destruct (tkl_update_ok c5 _ inner [] A5) as (c6 & E6 & A6).
  rewrite app_nil_r in E6. unfold inner in E6 at 2. rewrite (size_law _ _ _ _ L) in E6. step E6.
  destruct (tkl_finish_ok c6 _ A6) as (c7 & E7). step E7. done.
Qed.
End Correct.

(** (C29) The two message authentication codes are HMAC over their digest, for keys of every
    length, if the digest behaves as mbedTLS documents it and memory is available. *)
Theorem tal_mac_is_hmac (sha256 sha1 : Md) (H256 H1 : list Z -> list Z) abs256 abs1 (malloc : Z -> bool) (ctx_size : Z)
  (key input : list Z) :
  MdLaws sha256 SHA256_SIZE H256 abs256 -> MdLaws sha1 SHA1_SIZE H1 abs1 -> malloc ctx_size = true -> bytes_ok key ->
  tal_sha256_mac sha256 malloc ctx_size key (zlen key) input (zlen input) = Some (OPRT_OK, hmac H256 key input)
  /\ tal_sha1_mac sha1 malloc ctx_size key (zlen key) input (zlen input) = Some (OPRT_OK, hmac H1 key input).
Proof.
  intros L256 L1 Hm Hk.
  pose proof (tal_mac_ok sha256 SHA256_SIZE ctx_size malloc H256 abs256 L256 Hm key [] input [] Hk ltac:(done)) as E1.
  pose proof (tal_mac_ok sha1 SHA1_SIZE ctx_size malloc H1 abs1 L1 Hm key [] input [] Hk ltac:(done)) as E2.
  rewrite !app_nil_r in E1, E2. done.
Qed.

(** * A toy digest: the sum of the input in the first byte of [n]. *)
Definition toy_digest (n : Z) (l : list Z) : list Z := u8 (foldr Z.add 0 l) :: zrepl (n - 1) 0.
Definition toy_md (n : Z) : Md :=
  {| md_ctx := list Z; md_init := []; md_starts _ _ := (0, []); md_update c d := (0, c ++ d);
     md_finish c := (0, toy_digest n c, c) |}.

Lemma toy_md_laws n : 1 <= n -> MdLaws (toy_md n) n (toy_digest n) eq.
Proof.
  intros Hn. split; cbn.
  - eauto.
  - intros c l d ->. eauto.
  - intros c l ->. eauto.
  - intros l. unfold toy_digest. rewrite zlen_cons, zlen_zrepl by lia. lia.
  - intros l. constructor; [apply u8_range|]. unfold zrepl. apply list.Forall_replicate. done.
Qed.

Lemma tal_mac_is_hmac_witness :
  tal_sha256_mac (toy_md 32) (fun _ => true) 108 (zrepl 70 1) 70 [1; 2; 3] 3
    = Some (OPRT_OK, hmac (toy_digest 32) (zrepl 70 1) [1; 2; 3])
  /\ tal_sha1_mac (toy_md 20) (fun _ => true) 108 (zrepl 70 1) 70 [1; 2; 3] 3
    = Some (OPRT_OK, hmac (toy_digest 20) (zrepl 70 1) [1; 2; 3]).
Proof.
  apply (tal_mac_is_hmac (toy_md 32) (toy_md 20) (toy_digest 32) (toy_digest 20) eq eq (fun _ => true) 108 (zrepl 70 1) [1; 2; 3]).
  - by apply toy_md_laws.
  - by apply toy_md_laws.
  - done.
  - apply list.Forall_replicate. done.
Defined.
