(* ===== verification/Endian.v ===== *)
(** Byte order: the swap macros of [UTIL/include/tuya_cloud_types.h] on a
    little-endian host, and the words they put on the wire. *)
From Stdlib Require Import ZArith Lia.
From stdpp Require Import base tactics option list numbers.
From S2P Require Import Prelude.

Local Open Scope Z_scope.

(** * The words of a host in memory and on the wire *)

(** The words of a little-endian host in memory. *)
Definition le_load (l : list Z) : Z := foldr (fun b acc => b + 256 * acc) 0 l.
Definition le_store (z : Z) : list Z :=
  [z mod 256; z / 256 mod 256; z / 65536 mod 256; z / 16777216 mod 256].

Definition DWORD_SWAP (X : Z) : Z :=
  Z.shiftl (Z.land X 0xff) 24 + Z.shiftl (Z.land X 0xff00) 8
  + Z.shiftr (Z.land X 0xff0000) 8 + Z.shiftr (Z.land X 0xff000000) 24.
Definition UNI_HTONL (X : Z) : Z := DWORD_SWAP X.
Definition UNI_NTOHL (X : Z) : Z := DWORD_SWAP X.
Definition WORD_SWAP (X : Z) : Z := Z.land (Z.lor (Z.shiftl X 8) (Z.shiftr X 8)) 0xffff.
Definition UNI_HTONS (X : Z) : Z := WORD_SWAP X.
Definition UNI_NTOHS (X : Z) : Z := WORD_SWAP X.

(** [unsigned long] has 32 bits on the targets; [X] has 64. *)
Definition DDWORD_SWAP (X : Z) : Z :=
  let temp_low := u32 (DWORD_SWAP (u32 (Z.land X 0xffffffff))) in
  let temp_high := u32 (DWORD_SWAP (u32 (Z.shiftr X 32))) in
  Z.lor (u64 (Z.shiftl (Z.lor 0 temp_low) 32)) temp_high.
Definition UNI_HTONLL (X : Z) : Z := DDWORD_SWAP X.
Definition UNI_NTOHLL (X : Z) : Z := DDWORD_SWAP X.

(** * Words: proofs *)

Definition be_bytes (z : Z) : list Z :=
  [z / 16777216 mod 256; z / 65536 mod 256; z / 256 mod 256; z mod 256].

Lemma land_255 x k : 0 <= k -> Z.land x (Z.shiftl 255 k) = Z.shiftl (x / 2 ^ k mod 256) k.
Proof.
  intros Hk. change 256 with (2 ^ 8). rewrite <- Z.shiftr_div_pow2, <- Z.land_ones by lia.
  apply Z.bits_inj'. intros n Hn. rewrite Z.land_spec, !Z.shiftl_spec by lia.
  destruct (Z.lt_ge_cases n k).
  - rewrite !(Z.testbit_neg_r _ (n - k)) by lia. by rewrite andb_false_r.
  - rewrite Z.land_spec, Z.shiftr_spec by lia. by replace (n - k + k) with n by lia.
Qed.

Lemma dword_swap_eq x :
  DWORD_SWAP x = (x mod 256) * 16777216 + (x / 256 mod 256) * 65536
                 + (x / 65536 mod 256) * 256 + x / 16777216 mod 256.
Proof.
  unfold DWORD_SWAP. change 0xff with (Z.shiftl 255 0). change 0xff00 with (Z.shiftl 255 8).
  change 0xff0000 with (Z.shiftl 255 16). change 0xff000000 with (Z.shiftl 255 24).
  rewrite !land_255 by lia. rewrite Z.shiftl_shiftl by lia. rewrite !Z.shiftr_shiftl_l by lia.
  rewrite !Z.shiftl_mul_pow2 by lia. change (2 ^ 0) with 1. rewrite Z.div_1_r.
  change (2 ^ 8) with 256. change (2 ^ 16) with 65536. change (2 ^ 24) with 16777216.
  change (2 ^ (0 + 24)) with 16777216. change (2 ^ (16 - 8)) with 256. change (2 ^ (24 - 24)) with 1. lia.
Qed.

Lemma bytes_of_word a b c d :
  0 <= a < 256 -> 0 <= b < 256 -> 0 <= c < 256 -> 0 <= d < 256 ->
  let z := a + 256 * (b + 256 * (c + 256 * d)) in
  z mod 256 = a /\ z / 256 mod 256 = b /\ z / 65536 mod 256 = c /\ z / 16777216 mod 256 = d.
Proof.
  intros Ha Hb Hc Hd z. subst z. change 65536 with (256 * 256). change 16777216 with (256 * (256 * 256)).
  rewrite <- !Z.div_div by lia.
  assert (forall p q, 0 <= p < 256 -> (p + 256 * q) mod 256 = p /\ (p + 256 * q) / 256 = q) as E.
  { intros p q Hp. rewrite (Z.mul_comm 256 q). rewrite Z.mod_add, Z.div_add by lia.
    rewrite Z.mod_small, Z.div_small by lia. lia. }
  rewrite !(proj2 (E a _ Ha)), !(proj2 (E b _ Hb)), !(proj2 (E c _ Hc)), (Z.mod_small d) by lia.
  rewrite (proj1 (E a _ Ha)), (proj1 (E b _ Hb)), (proj1 (E c _ Hc)). done.
Qed.

Lemma word_of_bytes x :
  is_u32 x -> x mod 256 + 256 * (x / 256 mod 256 + 256 * (x / 65536 mod 256 + 256 * (x / 16777216 mod 256))) = x.
Proof.
  unfold is_u32. intros Hx. change 65536 with (256 * 256). change 16777216 with (256 * (256 * 256)).
  rewrite <- !Z.div_div by lia. pose proof (Z.div_mod x 256). pose proof (Z.div_mod (x / 256) 256).
  pose proof (Z.div_mod (x / 256 / 256) 256).
  rewrite (Z.mod_small (x / 256 / 256 / 256)); [lia|].
  rewrite !Z.div_div by lia. split; [apply Z.div_pos; lia|apply Z.div_lt_upper_bound; lia].
Qed.

Lemma byte_mod x : 0 <= x mod 256 < 256.
Proof. apply Z.mod_pos_bound. lia. Qed.

(** A word goes onto the wire most significant byte first... *)
Lemma store_htonl x : le_store (UNI_HTONL x) = be_bytes x.
Proof.
  unfold UNI_HTONL, le_store, be_bytes. rewrite dword_swap_eq.
  set (a := x mod 256). set (b := x / 256 mod 256). set (c := x / 65536 mod 256). set (d := x / 16777216 mod 256).
  replace (a * 16777216 + b * 65536 + c * 256 + d) with (d + 256 * (c + 256 * (b + 256 * a))) by lia.
  by destruct (bytes_of_word d c b a) as (-> & -> & -> & ->); try apply byte_mod.
Qed.

(** ... and comes back as the word. *)
Lemma ntohl_load x : is_u32 x -> UNI_NTOHL (le_load (be_bytes x)) = x.
Proof.
  intros Hx. unfold UNI_NTOHL, le_load, be_bytes. cbn [foldr]. rewrite dword_swap_eq, Z.mul_0_r, Z.add_0_r.
  set (a := x mod 256). set (b := x / 256 mod 256). set (c := x / 65536 mod 256). set (d := x / 16777216 mod 256).
  destruct (bytes_of_word d c b a) as (E1 & E2 & E3 & E4); try apply byte_mod.
  rewrite E1, E2, E3, E4. pose proof (word_of_bytes x Hx). fold a b c d in H. lia.
Qed.

Lemma be_bytes_len x : zlen (be_bytes x) = 4.
Proof. done. Qed.

Lemma le_store_bytes x : le_store x = le_bytes 4 x.
Proof. unfold le_store. cbn [le_bytes]. rewrite !Z.div_div by lia. done. Qed.

Lemma le_load_val l : le_load l = le_val l.
Proof. induction l as [|b l IH]; [done|]. unfold le_load in *. cbn [foldr le_val]. by rewrite IH. Qed.

(** * Words of any width, most significant byte first *)

Definition be (n : nat) (z : Z) : list Z := rev (le_bytes n z).
Definition be_val (l : list Z) : Z := le_val (rev l).

Lemma be_len n z : length (be n z) = n.
Proof. unfold be. by rewrite length_rev, le_bytes_len. Qed.

Lemma zlen_be n z : zlen (be n z) = Z.of_nat n.
Proof. unfold zlen. by rewrite be_len. Qed.

Lemma be_val_be n z : be_val (be n z) = z mod 2 ^ (8 * Z.of_nat n).
Proof. unfold be_val, be. by rewrite rev_involutive, le_val_bytes. Qed.

Lemma le_bytes_ok n z : bytes_ok (le_bytes n z).
Proof. revert z. induction n as [|n IH]; intros z; constructor; [apply byte_mod|apply IH]. Qed.

Lemma be_ok n z : bytes_ok (be n z).
Proof. unfold be, bytes_ok. apply List.Forall_rev, le_bytes_ok. Qed.

Lemma le_bytes_val l : bytes_ok l -> le_bytes (length l) (le_val l) = l.
Proof.
  induction l as [|b l IH]; intros Hl; [done|]. apply list.Forall_cons in Hl as [Hb Hl]. cbn [length le_val le_bytes].
  assert ((b + 256 * le_val l) mod 256 = b /\ (b + 256 * le_val l) / 256 = le_val l) as [-> ->].
  { unfold is_u8 in Hb. rewrite (Z.mul_comm 256), Z.mod_add, Z.div_add by lia. rewrite Z.mod_small, Z.div_small by lia. lia. }
  by rewrite IH.
Qed.

Lemma lor_shift a b k : 0 <= k -> 0 <= b < 2 ^ k -> Z.lor (Z.shiftl a k) b = a * 2 ^ k + b.
Proof.
  intros Hk Hb. rewrite <- Z.shiftl_mul_pow2 by done.
  assert (Z.land (Z.shiftl a k) b = 0) as H0.
  { apply Z.bits_inj'. intros n Hn. rewrite Z.land_spec, Z.bits_0.
    destruct (Z.lt_ge_cases n k).
    - rewrite Z.shiftl_spec_low by lia. done.
    - destruct (Z.eq_dec b 0) as [->|]; [by rewrite Z.bits_0, andb_false_r|].
      rewrite (Z.bits_above_log2 b n), andb_false_r; [done|lia|]. apply Z.log2_lt_pow2; [lia|].
      pose proof (Z.pow_le_mono_r 2 k n). lia. }
  rewrite <- Z.lxor_lor, <- Z.add_nocarry_lxor by done. done.
Qed.

(** The swaps turn a word round. *)
Lemma word_swap_rev x : is_u16 x -> WORD_SWAP x = le_val (be 2 x).
Proof.
  unfold is_u16. intros Hx. unfold WORD_SWAP. rewrite Z.shiftr_div_pow2 by lia. change (2 ^ 8) with 256.
  assert (0 <= x / 256 < 256) as Hd by (split; [apply Z.div_pos; lia|apply Z.div_lt_upper_bound; lia]).
  rewrite lor_shift by (change (2 ^ 8) with 256; lia). change 0xffff with (Z.ones 16). rewrite Z.land_ones by lia.
  change (2 ^ 8) with 256. change (2 ^ 16) with 65536. unfold be. cbn [le_bytes rev app le_val]. rewrite (Z.mod_small (x / 256)) by lia.
  pose proof (Z.div_mod x 256). pose proof (byte_mod x).
  rewrite <- (Z.mod_unique_pos (x * 256 + x / 256) 65536 (x / 256) (x / 256 + 256 * (x mod 256))); lia.
Qed.

Lemma be_bytes_be x : be_bytes x = be 4 x.
Proof. unfold be_bytes, be. cbn [le_bytes rev app]. rewrite !Z.div_div by lia. done. Qed.

Lemma dword_swap_rev x : DWORD_SWAP x = le_val (be 4 x).
Proof. rewrite dword_swap_eq, <- be_bytes_be. unfold be_bytes. cbn [le_val]. lia. Qed.

Lemma le_val_app l1 l2 : le_val (l1 ++ l2) = le_val l1 + 2 ^ (8 * zlen l1) * le_val l2.
Proof.
  induction l1 as [|b l1 IH]; cbn [app le_val].
  - change (2 ^ (8 * zlen [])) with 1. lia.
  - rewrite IH, zlen_cons. pose proof (zlen_nonneg l1).
    replace (2 ^ (8 * (1 + zlen l1))) with (256 * 2 ^ (8 * zlen l1))
      by (replace (8 * (1 + zlen l1)) with (8 + 8 * zlen l1) by lia; rewrite Z.pow_add_r by lia; lia). lia.
Qed.

Lemma be_val_range n x : 0 <= le_val (be n x) < 2 ^ (8 * Z.of_nat n).
Proof. rewrite <- zlen_be with (z := x). apply le_val_range, be_ok. Qed.

Lemma le_bytes_app n m x : le_bytes (n + m) x = le_bytes n x ++ le_bytes m (x / 2 ^ (8 * Z.of_nat n)).
Proof.
  revert x. induction n as [|n IH]; intros x; cbn [Nat.add le_bytes app].
  - change (8 * Z.of_nat 0) with 0. by rewrite Z.div_1_r.
  - rewrite IH, Z.div_div by lia. do 3 f_equal.
    replace (8 * Z.of_nat (S n)) with (8 + 8 * Z.of_nat n) by lia. rewrite Z.pow_add_r by lia. done.
Qed.

Lemma le_bytes_mod n x : le_bytes n (x mod 2 ^ (8 * Z.of_nat n)) = le_bytes n x.
Proof.
  rewrite <- le_val_bytes. rewrite <- (le_bytes_len n x) at 1. apply le_bytes_val, le_bytes_ok.
Qed.

Lemma ddword_swap_rev x : is_u64 x -> DDWORD_SWAP x = le_val (be 8 x).
Proof.
  intros Hx. unfold DDWORD_SWAP, be. rewrite (le_bytes_app 4 4), rev_app_distr, le_val_app.
  fold (be 4 x). fold (be 4 (x / 2 ^ (8 * Z.of_nat 4))). rewrite zlen_be.
  rewrite !dword_swap_rev, Z.lor_0_l. change (8 * Z.of_nat 4) with 32 in *.
  assert (u32 (Z.land x 0xffffffff) = x mod 2 ^ 32) as ->.
  { change 0xffffffff with (Z.ones 32). rewrite Z.land_ones by lia. unfold u32, wrap. by rewrite Z.mod_mod. }
  assert (u32 (Z.shiftr x 32) = x / 2 ^ 32) as ->.
  { rewrite Z.shiftr_div_pow2 by lia. apply u32_small. unfold is_u32, is_u64 in *.
    split; [apply Z.div_pos; lia|apply Z.div_lt_upper_bound; lia]. }
  pose proof (be_val_range 4 (x mod 2 ^ 32)) as Hl. pose proof (be_val_range 4 (x / 2 ^ 32)) as Hh.
  change (8 * Z.of_nat 4) with 32 in Hl, Hh.
  assert (be 4 (x mod 2 ^ 32) = be 4 x) as E by (unfold be; f_equal; apply (le_bytes_mod 4 x)).
  rewrite E in *. rewrite !(u32_small (le_val _)) by (unfold is_u32; lia).
  rewrite (u64_small (Z.shiftl _ _)) by (rewrite Z.shiftl_mul_pow2 by lia; unfold is_u64; lia).
  rewrite lor_shift by lia. lia.
Qed.

(** What the code does with a word before [memcpy] puts it on the wire, and back. *)
Lemma swap_store n swap x : swap x = le_val (be n x) -> le_bytes n (swap x) = be n x.
Proof. intros ->. rewrite <- (be_len n x) at 1. apply le_bytes_val, be_ok. Qed.

Lemma swap_load n swap x : 0 <= x < 2 ^ (8 * Z.of_nat n) ->
  (forall y, 0 <= y < 2 ^ (8 * Z.of_nat n) -> swap y = le_val (be n y)) -> swap (le_val (be n x)) = x.
Proof.
  intros Hx Hs. rewrite Hs by apply be_val_range. unfold be at 1.
  replace (le_bytes n (le_val (be n x))) with (be n x)
    by (rewrite <- (be_len n x) at 2; symmetry; apply le_bytes_val, be_ok).
  change (be_val (be n x) = x). rewrite be_val_be. by apply Z.mod_small.
Qed.

Lemma store_htons x : is_u16 x -> le_bytes 2 (UNI_HTONS x) = be 2 x.
Proof. intros Hx. apply (swap_store 2 WORD_SWAP), word_swap_rev, Hx. Qed.
Lemma store_htonl_be x : le_bytes 4 (UNI_HTONL x) = be 4 x.
Proof. apply (swap_store 4 DWORD_SWAP), dword_swap_rev. Qed.
Lemma store_htonll x : is_u64 x -> le_bytes 8 (UNI_HTONLL x) = be 8 x.
Proof. intros Hx. apply (swap_store 8 DDWORD_SWAP), ddword_swap_rev, Hx. Qed.
Lemma load_ntohs x : is_u16 x -> UNI_NTOHS (le_val (be 2 x)) = x.
Proof. intros Hx. apply (swap_load 2 WORD_SWAP); [exact Hx|]. intros y Hy. apply word_swap_rev, Hy. Qed.
Lemma load_ntohl x : is_u32 x -> UNI_NTOHL (le_val (be 4 x)) = x.
Proof. intros Hx. apply (swap_load 4 DWORD_SWAP); [exact Hx|]. intros y _. apply dword_swap_rev. Qed.
Lemma load_ntohll x : is_u64 x -> UNI_NTOHLL (le_val (be 8 x)) = x.
Proof. intros Hx. apply (swap_load 8 DDWORD_SWAP); [exact Hx|]. intros y Hy. apply ddword_swap_rev, Hy. Qed.
Lemma ntohl_range l : is_u32 (UNI_NTOHL l).
Proof. unfold UNI_NTOHL. rewrite dword_swap_rev. apply be_val_range. Qed.
