(* ===== verification/AiAttr.v ===== *)
(** The attributes of the AI channel, version 1 of the protocol:
    [src/tuya_ai_service/svc_ai_basic/src/tuya_ai_protocol.c], creation, packing, parsing
    and the attribute lists of the requests. *)
From Stdlib Require Import ZArith Lia String.
From stdpp Require Import base tactics option list numbers.
From S2P Require Import Prelude Text Endian Tools.

Local Open Scope Z_scope.

Definition ATTR_PT_U8 : Z := 1.
Definition ATTR_PT_U16 : Z := 2.
Definition ATTR_PT_U32 : Z := 3.
Definition ATTR_PT_U64 : Z := 4.
Definition ATTR_PT_BYTES : Z := 5.
Definition ATTR_PT_STR : Z := 6.

Definition AI_ATTR_CLIENT_TYPE : Z := 11.
Definition AI_ATTR_CLIENT_ID : Z := 12.
Definition AI_ATTR_ENCRYPT_RANDOM : Z := 13.
Definition AI_ATTR_SIGN_RANDOM : Z := 14.
Definition AI_ATTR_MAX_FRAGMENT_LEN : Z := 15.
Definition AI_ATTR_READ_BUFFER_SIZE : Z := 16.
Definition AI_ATTR_WRITE_BUFFER_SIZE : Z := 17.
Definition AI_ATTR_DERIVED_ALGORITHM : Z := 18.
Definition AI_ATTR_DERIVED_IV : Z := 19.
Definition AI_ATTR_PING_INTERVAL : Z := 20.
Definition AI_ATTR_USER_NAME : Z := 21.
Definition AI_ATTR_PASSWORD : Z := 22.
Definition AI_ATTR_CONNECTION_ID : Z := 23.
Definition AI_ATTR_CONNECT_STATUS_CODE : Z := 24.
Definition AI_ATTR_LAST_EXPIRE_TS : Z := 25.
Definition AI_ATTR_CONNECT_CLOSE_ERR_CODE : Z := 31.
Definition AI_ATTR_BIZ_CODE : Z := 41.
Definition AI_ATTR_BIZ_TAG : Z := 42.
Definition AI_ATTR_SESSION_ID : Z := 43.
Definition AI_ATTR_AGENT_TOKEN : Z := 45.
Definition AI_ATTR_SESSION_CLOSE_ERR_CODE : Z := 51.
Definition AI_ATTR_EVENT_ID : Z := 61.
Definition AI_ATTR_EVENT_TS : Z := 62.
Definition AI_ATTR_CMD_DATA : Z := 65.
Definition AI_ATTR_VIDEO_CODEC_TYPE : Z := 71.
Definition AI_ATTR_VIDEO_SAMPLE_RATE : Z := 72.
Definition AI_ATTR_VIDEO_WIDTH : Z := 73.
Definition AI_ATTR_VIDEO_HEIGHT : Z := 74.
Definition AI_ATTR_VIDEO_FPS : Z := 75.
Definition AI_ATTR_AUDIO_CODEC_TYPE : Z := 81.
Definition AI_ATTR_AUDIO_SAMPLE_RATE : Z := 82.
Definition AI_ATTR_AUDIO_CHANNELS : Z := 83.
Definition AI_ATTR_AUDIO_DEPTH : Z := 84.
Definition AI_ATTR_AUDIO_FRAME_SIZE : Z := 85.
Definition AI_ATTR_IMAGE_FORMAT : Z := 91.
Definition AI_ATTR_IMAGE_WIDTH : Z := 92.
Definition AI_ATTR_IMAGE_HEIGHT : Z := 93.
Definition AI_ATTR_FILE_FORMAT : Z := 101.
Definition AI_ATTR_FILE_NAME : Z := 102.
Definition AI_ATTR_USER_DATA : Z := 111.
Definition AI_ATTR_SESSION_ID_LIST : Z := 112.
Definition AI_ATTR_CLIENT_TS : Z := 113.
Definition AI_ATTR_SERVER_TS : Z := 114.

(** [SIZEOF(AI_ATTRIBUTE_T)] and [OFFSOF(AI_ATTRIBUTE_T, value)] of the packed struct. *)
Definition AI_ATTRIBUTE_SIZE : Z := 15.
Definition AI_ATTRIBUTE_VALUE_OFF : Z := 7.

(** The union: the member that was written last. Reading another member is not given a
    meaning. The memory behind the pointers is the content; [None] is [NULL]. *)
Inductive AI_ATTR_VALUE :=
| v_u8 (v : Z)
| v_u16 (v : Z)
| v_u32 (v : Z)
| v_u64 (v : Z)
| v_bytes (p : option (list Z))
| v_str (p : option (list Z)).

Record AI_ATTRIBUTE_T := { a_type : Z; payload_type : Z; a_length : Z; a_value : AI_ATTR_VALUE }.

(** A union that was cleared with [memset]. *)
Definition value_zero : AI_ATTR_VALUE := v_u64 0.

(** * Creation *)

Section Create.
Context (malloc : Z -> bool).

(** [value] is the memory the caller points at. The result is [None] for an access outside
    memory, [Some None] for [NULL]. *)
Definition tuya_ai_create_attribute (type pt : Z) (value : list Z) (len : Z) : option (option AI_ATTRIBUTE_T) :=
  if negb (malloc AI_ATTRIBUTE_SIZE) then Some None
  else
    v ← (if pt =? ATTR_PT_U8 then v ← rd value 0; Some (v_u8 v)
         else if pt =? ATTR_PT_U16 then b ← slice value 0 2; Some (v_u16 (le_val b))
         else if pt =? ATTR_PT_U32 then b ← slice value 0 4; Some (v_u32 (le_val b))
         else if pt =? ATTR_PT_U64 then b ← slice value 0 8; Some (v_u64 (le_val b))
         else if pt =? ATTR_PT_BYTES then
           if negb (malloc len) then None else b ← slice value 0 len; Some (v_bytes (Some b))
         else if pt =? ATTR_PT_STR then s ← mm_strdup malloc (Some value); Some (v_str s)
         else Some value_zero);
    Some (Some {| a_type := type; payload_type := pt; a_length := len; a_value := v |}).

(** [__ai_check_attr_created]: the count and the attributes, or none when one is [NULL]. *)
Definition ai_check_attr_created (l : list (option AI_ATTRIBUTE_T)) : Z * list AI_ATTRIBUTE_T :=
  match mapM id l with Some attrs => (OPRT_OK, attrs) | None => (OPRT_MALLOC_FAILED, []) end.

(** The attributes a request creates, in order: the array has ten places. *)
Definition AI_MAX_ATTR_NUM : Z := 10.
Definition created (l : list (option (option AI_ATTRIBUTE_T))) : option (Z * list AI_ATTRIBUTE_T) :=
  if AI_MAX_ATTR_NUM <? zlen l then None else attrs ← mapM id l; Some (ai_check_attr_created attrs).

(** In the requests, [le_bytes n v] is the memory of a variable of [n] bytes; each call
    names the type of the attribute, the tag and the length for itself. *)

(** [if (p) { ... }] *)
Definition when {A B} (p : option A) (f : A -> option (option B)) : list (option (option B)) :=
  match p with Some x => [f x] | None => [] end.

(** * The requests *)

Record AI_SERVER_CFG_INFO_T := {
  username : list Z; credential : list Z; client_id : list Z; derived_algorithm : list Z; derived_iv : list Z }.

Definition AI_RANDOM_LEN : Z := 32.
Definition ATTR_CLIENT_TYPE_DEVICE : Z := 1.

Definition create_conn_close_attrs (code : Z) :=
  created [tuya_ai_create_attribute AI_ATTR_CONNECT_CLOSE_ERR_CODE ATTR_PT_U16 (le_bytes 2 code) 2].

Definition create_auth_req_attrs (cfg : AI_SERVER_CFG_INFO_T) :=
  created [(n ← strlen (username cfg); tuya_ai_create_attribute AI_ATTR_USER_NAME ATTR_PT_STR (username cfg) n);
            (n ← strlen (credential cfg); tuya_ai_create_attribute AI_ATTR_PASSWORD ATTR_PT_STR (credential cfg) n)].

(** The compile-time settings are arguments. *)
Definition create_clt_hello_attrs (read_buf write_buf heartbeat max_fragment : Z)
  (crypt_random sign_random : list Z) (connection_id : option (list Z)) (cfg : AI_SERVER_CFG_INFO_T) :=
  created ([tuya_ai_create_attribute AI_ATTR_CLIENT_TYPE ATTR_PT_U8 (le_bytes 1 ATTR_CLIENT_TYPE_DEVICE) 1;
            (n ← strlen (client_id cfg); tuya_ai_create_attribute AI_ATTR_CLIENT_ID ATTR_PT_STR (client_id cfg) n);
            (n ← strlen (derived_algorithm cfg); tuya_ai_create_attribute AI_ATTR_DERIVED_ALGORITHM ATTR_PT_STR (derived_algorithm cfg) n);
            (n ← strlen (derived_iv cfg); tuya_ai_create_attribute AI_ATTR_DERIVED_IV ATTR_PT_STR (derived_iv cfg) n);
            tuya_ai_create_attribute AI_ATTR_ENCRYPT_RANDOM ATTR_PT_STR crypt_random AI_RANDOM_LEN;
            tuya_ai_create_attribute AI_ATTR_SIGN_RANDOM ATTR_PT_STR sign_random AI_RANDOM_LEN;
            tuya_ai_create_attribute AI_ATTR_MAX_FRAGMENT_LEN ATTR_PT_U32 (le_bytes 4 max_fragment) 4]
           ++ (if 0 <? read_buf then [tuya_ai_create_attribute AI_ATTR_READ_BUFFER_SIZE ATTR_PT_U32 (le_bytes 4 read_buf) 4] else [])
           ++ (if 0 <? write_buf then [tuya_ai_create_attribute AI_ATTR_WRITE_BUFFER_SIZE ATTR_PT_U32 (le_bytes 4 write_buf) 4] else [])
           ++ when connection_id (fun p => n ← strlen p; tuya_ai_create_attribute AI_ATTR_CONNECTION_ID ATTR_PT_STR p n)
           ++ (if 0 <? heartbeat then [tuya_ai_create_attribute AI_ATTR_PING_INTERVAL ATTR_PT_U32 (le_bytes 4 (heartbeat * 1000)) 4] else [])).

Definition create_refresh_req_attrs (connection_id : option (list Z)) :=
  created (when connection_id (fun p => n ← strlen p; tuya_ai_create_attribute AI_ATTR_CONNECTION_ID ATTR_PT_STR p n)).

(** [ts] is [tal_time_get_posix_ms()]. *)
Definition create_ping_attrs (ts : Z) :=
  created [tuya_ai_create_attribute AI_ATTR_CLIENT_TS ATTR_PT_U64 (le_bytes 8 ts) 8].

Record AI_SESSION_NEW_ATTR_T := {
  biz_code : Z; biz_tag : Z; token : option (list Z); s_id : list Z; s_user_data : option (list Z); s_user_len : Z }.

Definition create_seesion_new_attrs (session : AI_SESSION_NEW_ATTR_T) :=
  created ([(n ← strlen (s_id session); tuya_ai_create_attribute AI_ATTR_SESSION_ID ATTR_PT_STR (s_id session) n);
            tuya_ai_create_attribute AI_ATTR_BIZ_CODE ATTR_PT_U32 (le_bytes 4 (biz_code session)) 4;
            tuya_ai_create_attribute AI_ATTR_BIZ_TAG ATTR_PT_U64 (le_bytes 8 (biz_tag session)) 8]
           ++ when (token session) (fun p => n ← strlen p; tuya_ai_create_attribute AI_ATTR_AGENT_TOKEN ATTR_PT_STR p n)
           ++ when (s_user_data session) (fun p => tuya_ai_create_attribute AI_ATTR_USER_DATA ATTR_PT_BYTES p (s_user_len session))).

Definition create_seesion_close_attrs (session_id : list Z) (code : Z) :=
  created [(n ← strlen session_id; tuya_ai_create_attribute AI_ATTR_SESSION_ID ATTR_PT_STR session_id n);
            tuya_ai_create_attribute AI_ATTR_SESSION_CLOSE_ERR_CODE ATTR_PT_U16 (le_bytes 2 code) 2].

Record AI_ATTR_OPTION_T := { user_len : Z; user_data : option (list Z); session_id_list : option (list Z) }.

(** What the media requests append. *)
Definition option_attrs (o : AI_ATTR_OPTION_T) :=
  when (user_data o) (fun p => tuya_ai_create_attribute AI_ATTR_USER_DATA ATTR_PT_BYTES p (user_len o))
  ++ when (session_id_list o) (fun p => n ← strlen p; tuya_ai_create_attribute AI_ATTR_SESSION_ID_LIST ATTR_PT_STR p n).

Record AI_VIDEO_ATTR_BASE_T := { v_codec_type : Z; v_sample_rate : Z; v_width : Z; v_height : Z; v_fps : Z }.

Definition create_video_attrs (video : AI_VIDEO_ATTR_BASE_T) (option : AI_ATTR_OPTION_T) :=
  created ([tuya_ai_create_attribute AI_ATTR_VIDEO_CODEC_TYPE ATTR_PT_U16 (le_bytes 2 (v_codec_type video)) 2;
            tuya_ai_create_attribute AI_ATTR_VIDEO_SAMPLE_RATE ATTR_PT_U32 (le_bytes 4 (v_sample_rate video)) 4;
            tuya_ai_create_attribute AI_ATTR_VIDEO_WIDTH ATTR_PT_U16 (le_bytes 2 (v_width video)) 2;
            tuya_ai_create_attribute AI_ATTR_VIDEO_HEIGHT ATTR_PT_U16 (le_bytes 2 (v_height video)) 2;
            tuya_ai_create_attribute AI_ATTR_VIDEO_FPS ATTR_PT_U16 (le_bytes 2 (v_fps video)) 2] ++ option_attrs option).

Record AI_AUDIO_ATTR_BASE_T := { codec_type : Z; sample_rate : Z; channels : Z; bit_depth : Z; frame_size : Z }.
Definition AUDIO_CODEC_SPEEX : Z := 108.

Definition create_audio_attrs (audio : AI_AUDIO_ATTR_BASE_T) (option : AI_ATTR_OPTION_T) :=
  created ([tuya_ai_create_attribute AI_ATTR_AUDIO_CODEC_TYPE ATTR_PT_U16 (le_bytes 2 (codec_type audio)) 2;
            tuya_ai_create_attribute AI_ATTR_AUDIO_SAMPLE_RATE ATTR_PT_U32 (le_bytes 4 (sample_rate audio)) 4;
            tuya_ai_create_attribute AI_ATTR_AUDIO_CHANNELS ATTR_PT_U16 (le_bytes 2 (channels audio)) 2;
            tuya_ai_create_attribute AI_ATTR_AUDIO_DEPTH ATTR_PT_U16 (le_bytes 2 (bit_depth audio)) 2]
           ++ (if codec_type audio =? AUDIO_CODEC_SPEEX then
                 [if 0 <? frame_size audio
                  then tuya_ai_create_attribute AI_ATTR_AUDIO_FRAME_SIZE ATTR_PT_U16 (le_bytes 2 (frame_size audio)) 2
                  else tuya_ai_create_attribute AI_ATTR_AUDIO_FRAME_SIZE ATTR_PT_U16 (le_bytes 2 42) 2]
               else [])
           ++ option_attrs option).

Record AI_IMAGE_ATTR_BASE_T := { i_format : Z; i_width : Z; i_height : Z }.

Definition create_image_attrs (image : AI_IMAGE_ATTR_BASE_T) (option : AI_ATTR_OPTION_T) :=
  created ([tuya_ai_create_attribute AI_ATTR_IMAGE_FORMAT ATTR_PT_U8 (le_bytes 1 (i_format image)) 1]
           ++ (if 0 <? i_width image then [tuya_ai_create_attribute AI_ATTR_IMAGE_WIDTH ATTR_PT_U16 (le_bytes 2 (i_width image)) 2] else [])
           ++ (if 0 <? i_height image then [tuya_ai_create_attribute AI_ATTR_IMAGE_HEIGHT ATTR_PT_U16 (le_bytes 2 (i_height image)) 2] else [])
           ++ option_attrs option).

Record AI_FILE_ATTR_BASE_T := { f_format : Z; file_name : list Z }.

Definition create_file_attrs (file : AI_FILE_ATTR_BASE_T) (option : AI_ATTR_OPTION_T) :=
  created ([tuya_ai_create_attribute AI_ATTR_FILE_FORMAT ATTR_PT_U8 (le_bytes 1 (f_format file)) 1;
            (n ← strlen (file_name file); tuya_ai_create_attribute AI_ATTR_FILE_NAME ATTR_PT_STR (file_name file) n)]
           ++ option_attrs option).

Definition create_text_attrs (session_ids : option (list Z)) :=
  created (when session_ids (fun p => n ← strlen p; tuya_ai_create_attribute AI_ATTR_SESSION_ID_LIST ATTR_PT_STR p n)).

Record AI_EVENT_ATTR_T := {
  e_session_id : list Z; event_id : list Z; cmd_data : option (list Z); e_user_len : Z; e_user_data : option (list Z) }.
Definition AI_EVENT_END : Z := 2.

(** [ts] is [tal_time_get_posix_ms()]. *)
Definition create_event_attrs (event : AI_EVENT_ATTR_T) (type ts : Z) :=
  created ([(n ← strlen (e_session_id event); tuya_ai_create_attribute AI_ATTR_SESSION_ID ATTR_PT_STR (e_session_id event) n);
            (n ← strlen (event_id event); tuya_ai_create_attribute AI_ATTR_EVENT_ID ATTR_PT_STR (event_id event) n)]
           ++ when (cmd_data event) (fun p => n ← strlen p; tuya_ai_create_attribute AI_ATTR_CMD_DATA ATTR_PT_STR p n)
           ++ (if type =? AI_EVENT_END then [tuya_ai_create_attribute AI_ATTR_EVENT_TS ATTR_PT_U64 (le_bytes 8 ts) 8] else [])
           ++ when (e_user_data event) (fun p => tuya_ai_create_attribute AI_ATTR_USER_DATA ATTR_PT_BYTES p (e_user_len event))).
End Create.

(** * Packing *)

(** The memory [memcpy] copies the value from; the outer [None] is a pointer that is
    [NULL] or another member of the union, [Some None] an unknown type. *)
Definition value_mem (attr : AI_ATTRIBUTE_T) : option (option (list Z)) :=
  let pt := payload_type attr in
  if pt =? ATTR_PT_U8 then match a_value attr with v_u8 v => Some (Some [u8 v]) | _ => None end
  else if pt =? ATTR_PT_U16 then match a_value attr with v_u16 v => Some (Some (le_bytes 2 (UNI_HTONS v))) | _ => None end
  else if pt =? ATTR_PT_U32 then match a_value attr with v_u32 v => Some (Some (le_bytes 4 (UNI_HTONL v))) | _ => None end
  else if pt =? ATTR_PT_U64 then match a_value attr with v_u64 v => Some (Some (le_bytes 8 (UNI_HTONLL v))) | _ => None end
  else if pt =? ATTR_PT_BYTES then match a_value attr with v_bytes (Some p) => Some (Some p) | _ => None end
  else if pt =? ATTR_PT_STR then match a_value attr with v_str (Some p) => Some (Some p) | _ => None end
  else Some None.

(** The body of the loop over the attributes: return code, buffer and new offset. *)
Definition put_attr (buf : list Z) (offset : Z) (attr : AI_ATTRIBUTE_T) : option (Z * list Z * Z) :=
  buf ← blit buf offset (le_bytes 2 (UNI_HTONS (a_type attr)));
  let offset := u32 (offset + 2) in
  buf ← blit buf offset [payload_type attr];
  let offset := u32 (offset + 1) in
  buf ← blit buf offset (le_bytes 4 (UNI_HTONL (a_length attr)));
  let offset := u32 (offset + 4) in
  mem ← value_mem attr;
  match mem with
  | None => Some (OPRT_COM_ERROR, buf, offset)
  | Some mem =>
      v ← slice mem 0 (a_length attr);
      buf ← blit buf offset v;
      Some (OPRT_OK, buf, u32 (offset + a_length attr))
  end.

Fixpoint put_attrs (attrs : list AI_ATTRIBUTE_T) (buf : list Z) (offset : Z) : option (Z * list Z * Z) :=
  match attrs with
  | [] => Some (OPRT_OK, buf, offset)
  | a :: attrs =>
      '(rt, buf, offset) ← put_attr buf offset a;
      if negb (rt =? OPRT_OK) then Some (rt, buf, offset) else put_attrs attrs buf offset
  end.

Fixpoint attrs_size (attrs : list AI_ATTRIBUTE_T) (len : Z) : Z :=
  match attrs with [] => len | a :: attrs => attrs_size attrs (u32 (len + (AI_ATTRIBUTE_VALUE_OFF + a_length a))) end.

(** The return code with [*out], if it is set. *)
Definition tuya_pack_user_attrs (malloc : Z -> bool) (attrs : list AI_ATTRIBUTE_T) : option (Z * option (list Z)) :=
  let attr_len := attrs_size attrs 0 in
  if negb (malloc attr_len) then Some (OPRT_MALLOC_FAILED, None)
  else
    '(rt, buf, _) ← put_attrs attrs (zrepl attr_len 0) 0;
    if negb (rt =? OPRT_OK) then Some (rt, None) else Some (OPRT_OK, Some buf).

(** * Parsing *)

Definition ai_check_attr_vaild (attr : AI_ATTRIBUTE_T) : bool :=
  let pt := payload_type attr in
  if ((a_type attr =? AI_ATTR_CONNECT_STATUS_CODE) || (a_type attr =? AI_ATTR_CONNECT_CLOSE_ERR_CODE))
     && negb (pt =? ATTR_PT_U16) then false
  else if pt =? ATTR_PT_U8 then a_length attr =? 1
  else if pt =? ATTR_PT_U16 then a_length attr =? 2
  else if pt =? ATTR_PT_U32 then a_length attr =? 4
  else if pt =? ATTR_PT_U64 then a_length attr =? 8
  else if (pt =? ATTR_PT_STR) || (pt =? ATTR_PT_BYTES) then negb (a_length attr =? 0)
  else true.

(** The loop of [tuya_ai_get_attr_num]: [None] is a read outside the buffer,
    [Some None] that the fuel is used up. *)
Fixpoint num_loop (fuel : nat) (de_buf : list Z) (attr_len offset idx : Z) : option (option Z) :=
  if negb (offset <? attr_len) then Some (Some idx)
  else
    match fuel with
    | O => Some None
    | S fuel =>
        let offset := u32 (u32 (offset + 2) + 1) in
        b ← slice de_buf offset 4;
        let offset := u32 (offset + 4) in
        num_loop fuel de_buf attr_len (u32 (offset + u32 (UNI_NTOHL (le_val b)))) (u32 (idx + 1))
    end.

Definition tuya_ai_get_attr_num (fuel : nat) (de_buf : list Z) (attr_len : Z) : option (option Z) :=
  num_loop fuel de_buf attr_len 0 0.

(** [memcpy] of the first bytes of a word that was zero. *)
Definition load_part (de_buf : list Z) (offset len : Z) (n : nat) : option Z :=
  b ← slice de_buf offset (if len <=? Z.of_nat n then len else Z.of_nat n);
  Some (le_val (b ++ zrepl (Z.of_nat n - zlen b) 0)).

(** The return code, [*offset] and [*attr]. *)
Definition tuya_ai_get_attr_value (de_buf : list Z) (offset : Z) : option (Z * Z * AI_ATTRIBUTE_T) :=
  b ← slice de_buf offset 2;
  let type := UNI_NTOHS (le_val b) in
  let offset := u32 (offset + 2) in
  pt ← rd de_buf offset;
  let offset := u32 (offset + 1) in
  b ← slice de_buf offset 4;
  let len := u32 (UNI_NTOHL (le_val b)) in
  let offset := u32 (offset + 4) in
  v ← (if pt =? ATTR_PT_U8 then v ← load_part de_buf offset len 1; Some (Some (v_u8 v))
       else if pt =? ATTR_PT_U16 then v ← load_part de_buf offset len 2; Some (Some (v_u16 (UNI_NTOHS v)))
       else if pt =? ATTR_PT_U32 then v ← load_part de_buf offset len 4; Some (Some (v_u32 (UNI_NTOHL v)))
       else if pt =? ATTR_PT_U64 then v ← load_part de_buf offset len 8; Some (Some (v_u64 (UNI_NTOHLL v)))
       else if pt =? ATTR_PT_BYTES then Some (Some (v_bytes (Some (drop (Z.to_nat offset) de_buf))))
       else if pt =? ATTR_PT_STR then Some (Some (v_str (Some (drop (Z.to_nat offset) de_buf))))
       else Some None);
  let attr := {| a_type := type; payload_type := pt; a_length := len; a_value := default value_zero v |} in
  if bool_decide (v = None) then Some (OPRT_COM_ERROR, offset, attr)
  else if u32 (offset + len) <? offset then Some (OPRT_COM_ERROR, offset, attr)
  else
    let offset := u32 (offset + len) in
    if negb (ai_check_attr_vaild attr) then Some (OPRT_COM_ERROR, offset, attr) else Some (OPRT_OK, offset, attr).

(** The loop of [tuya_parse_user_attrs]: [num] is the size of the array, [attrs] its
    first elements. *)
Fixpoint parse_loop (fuel : nat) (buf : list Z) (attr_len num offset : Z) (attrs : list AI_ATTRIBUTE_T)
  : option (option (Z * list AI_ATTRIBUTE_T)) :=
  if negb (offset <? attr_len) then Some (Some (OPRT_OK, attrs))
  else
    match fuel with
    | O => Some None
    | S fuel =>
        if num <=? zlen attrs then None
        else
          '(rt, offset, a) ← tuya_ai_get_attr_value buf offset;
          if negb (rt =? OPRT_OK) then Some (Some (rt, attrs)) else parse_loop fuel buf attr_len num offset (attrs ++ [a])
    end.

(** The return code with [*attr_out] and [*attr_num], if they are set. *)
Definition tuya_parse_user_attrs (malloc : Z -> bool) (fuel : nat) (buf : list Z) (attr_len : Z)
  : option (option (Z * option (list AI_ATTRIBUTE_T * Z))) :=
  n ← tuya_ai_get_attr_num fuel buf attr_len;
  match n with
  | None => Some None
  | Some num =>
      if negb (malloc (u32 (num * AI_ATTRIBUTE_SIZE))) then Some (Some (OPRT_MALLOC_FAILED, None))
      else
        r ← parse_loop fuel buf attr_len num 0 [];
        match r with
        | None => Some None
        | Some (rt, attrs) =>
            if negb (rt =? OPRT_OK) then Some (Some (rt, None)) else Some (Some (OPRT_OK, Some (attrs, num)))
        end
  end.

(** * Well-formed attributes and their bytes *)

(** What an attribute has on the wire. *)
Definition value_wire (a : AI_ATTRIBUTE_T) : list Z :=
  match a_value a with
  | v_u8 v => [v]
  | v_u16 v => be 2 v
  | v_u32 v => be 4 v
  | v_u64 v => be 8 v
  | v_bytes p | v_str p => take (Z.to_nat (a_length a)) (default [] p)
  end.
Definition attr_wire (a : AI_ATTRIBUTE_T) : list Z :=
  be 2 (a_type a) ++ [payload_type a] ++ be 4 (a_length a) ++ value_wire a.
Definition attrs_wire (l : list AI_ATTRIBUTE_T) : list Z := mjoin (attr_wire <$> l).

(** The union holds the member its tag names, the length is that of the member, and the
    two status codes are 16-bit numbers. *)
Definition attr_ok (a : AI_ATTRIBUTE_T) : Prop :=
  is_u16 (a_type a)
  /\ (a_type a = AI_ATTR_CONNECT_STATUS_CODE \/ a_type a = AI_ATTR_CONNECT_CLOSE_ERR_CODE -> payload_type a = ATTR_PT_U16)
  /\ match a_value a with
     | v_u8 v => payload_type a = ATTR_PT_U8 /\ a_length a = 1 /\ is_u8 v
     | v_u16 v => payload_type a = ATTR_PT_U16 /\ a_length a = 2 /\ is_u16 v
     | v_u32 v => payload_type a = ATTR_PT_U32 /\ a_length a = 4 /\ is_u32 v
     | v_u64 v => payload_type a = ATTR_PT_U64 /\ a_length a = 8 /\ is_u64 v
     | v_bytes (Some p) => payload_type a = ATTR_PT_BYTES /\ 1 <= a_length a <= zlen p
     | v_str (Some p) => payload_type a = ATTR_PT_STR /\ 1 <= a_length a <= zlen p
     | _ => False
     end.

(** The attribute a parser makes of it, with [suf] behind it in the buffer. *)
Definition received (a : AI_ATTRIBUTE_T) (suf : list Z) : AI_ATTRIBUTE_T :=
  {| a_type := a_type a; payload_type := payload_type a; a_length := a_length a;
     a_value := match a_value a with
                | v_bytes _ => v_bytes (Some (value_wire a ++ suf))
                | v_str _ => v_str (Some (value_wire a ++ suf))
                | v => v
                end |}.
Fixpoint received_all (l : list AI_ATTRIBUTE_T) (suf : list Z) : list AI_ATTRIBUTE_T :=
  match l with [] => [] | a :: l => received a (attrs_wire l ++ suf) :: received_all l suf end.

Lemma zlen_value_wire a : attr_ok a -> zlen (value_wire a) = a_length a.
Proof.
  intros (_ & _ & H). unfold value_wire. destruct (a_value a) as [v|v|v|v|[p|]|[p|]]; try done; rewrite ?zlen_be; try lia.
  - change (zlen [v]) with 1. lia.
  - cbn [from_option id]. apply zlen_take. lia.
  - cbn [from_option id]. apply zlen_take. lia.
Qed.

Lemma attr_len_pos a : attr_ok a -> 1 <= a_length a.
Proof. intros (_ & _ & H). destruct (a_value a) as [v|v|v|v|[p|]|[p|]]; (lia || done). Qed.

Lemma zlen_attr_wire a : attr_ok a -> zlen (attr_wire a) = 7 + a_length a.
Proof.
  intros H. unfold attr_wire. rewrite !zlen_app, !zlen_be, zlen_value_wire by done. change (zlen [payload_type a]) with 1. lia.
Qed.

Lemma attrs_wire_cons a l : attrs_wire (a :: l) = attr_wire a ++ attrs_wire l.
Proof. done. Qed.

(** Compares the tags of the attributes. *)
Ltac eval_tags :=
  unfold ATTR_PT_U8, ATTR_PT_U16, ATTR_PT_U32, ATTR_PT_U64, ATTR_PT_BYTES, ATTR_PT_STR; cbn [Z.eqb Pos.eqb orb].

(** ** Packing *)

Lemma value_mem_ok a : attr_ok a -> a_length a < 4294967296 ->
  exists m, value_mem a = Some (Some m) /\ slice m 0 (a_length a) = Some (value_wire a).
Proof.
  intros H Hl. pose proof (zlen_value_wire a H) as Hz. pose proof H as (_ & _ & Hv). unfold value_mem, value_wire in *.
  destruct (a_value a) as [v|v|v|v|[p|]|[p|]]; try done; destruct Hv as [-> Hv]; eval_tags;
    eexists; (split; [reflexivity|]).
  - rewrite u8_small by apply Hv. by apply slice_whole.
  - rewrite store_htons by apply Hv. by apply slice_whole.
  - rewrite store_htonl_be. by apply slice_whole.
  - rewrite store_htonll by apply Hv. by apply slice_whole.
  - cbn [from_option id] in *. rewrite slice_eq by lia. by rewrite drop_0.
  - cbn [from_option id] in *. rewrite slice_eq by lia. by rewrite drop_0.
Qed.

Lemma put_attr_ok a pre suf :
  attr_ok a -> zlen (attr_wire a) <= zlen suf -> zlen pre + zlen suf < 4294967296 ->
  exists suf', put_attr (pre ++ suf) (zlen pre) a = Some (OPRT_OK, (pre ++ attr_wire a) ++ suf', zlen pre + zlen (attr_wire a))
    /\ zlen suf' = zlen suf - zlen (attr_wire a).
Proof.
  intros Ha Hs H32. pose proof (zlen_attr_wire a Ha) as Hw. pose proof (attr_len_pos a Ha). pose proof (zlen_nonneg pre).
  rewrite Hw in Hs. unfold put_attr. rewrite store_htons by apply Ha. rewrite store_htonl_be.
  destruct (blit_step pre suf (be 2 (a_type a)) (zlen pre) eq_refl) as (s1 & -> & L1); [rewrite zlen_be; lia|].
  cbn [mbind option_bind]. rewrite zlen_be in L1. rewrite (u32_small (zlen pre + 2)) by (unfold is_u32; lia).
  destruct (blit_step (pre ++ be 2 (a_type a)) s1 [payload_type a] (zlen pre + 2)) as (s2 & -> & L2);
    [rewrite zlen_app, zlen_be; lia|change (zlen [payload_type a]) with 1; lia|].
  cbn [mbind option_bind]. change (zlen [payload_type a]) with 1 in L2. rewrite (u32_small (zlen pre + 2 + 1)) by (unfold is_u32; lia).
  destruct (blit_step ((pre ++ be 2 (a_type a)) ++ [payload_type a]) s2 (be 4 (a_length a)) (zlen pre + 2 + 1)) as (s3 & -> & L3);
    [rewrite !zlen_app, zlen_be; change (zlen [payload_type a]) with 1; lia|rewrite zlen_be; lia|].
  cbn [mbind option_bind]. rewrite zlen_be in L3. rewrite (u32_small (zlen pre + 2 + 1 + 4)) by (unfold is_u32; lia).
  destruct (value_mem_ok a Ha) as (m & -> & Hm); [lia|]. cbn [mbind option_bind]. rewrite Hm. cbn [mbind option_bind].
  pose proof (zlen_value_wire a Ha) as Hv.
  destruct (blit_step (((pre ++ be 2 (a_type a)) ++ [payload_type a]) ++ be 4 (a_length a)) s3 (value_wire a) (zlen pre + 2 + 1 + 4)) as (s4 & -> & L4);
    [rewrite !zlen_app, !zlen_be; change (zlen [payload_type a]) with 1; lia|lia|].
  cbn [mbind option_bind]. exists s4. rewrite u32_small by (unfold is_u32; lia). rewrite Hw. split; [|lia].
  unfold attr_wire. rewrite <- !app_assoc. do 2 f_equal. lia.
Qed.

Lemma put_attrs_ok l pre suf :
  Forall attr_ok l -> zlen (attrs_wire l) <= zlen suf -> zlen pre + zlen suf < 4294967296 ->
  exists suf', put_attrs l (pre ++ suf) (zlen pre) = Some (OPRT_OK, (pre ++ attrs_wire l) ++ suf', zlen pre + zlen (attrs_wire l))
    /\ zlen suf' = zlen suf - zlen (attrs_wire l).
Proof.
  intros Hl. revert pre suf. induction Hl as [|a l Ha Hl IH]; intros pre suf Hs H32.
  - exists suf. cbn [put_attrs]. change (attrs_wire []) with (@nil Z). rewrite app_nil_r. change (zlen []) with 0.
    split; [do 2 f_equal; lia|lia].
  - rewrite attrs_wire_cons, zlen_app in *. pose proof (zlen_nonneg (attrs_wire l)). cbn [put_attrs].
    destruct (put_attr_ok a pre suf Ha) as (s1 & -> & L1); [lia|lia|]. cbn [mbind option_bind].
    change (negb (OPRT_OK =? OPRT_OK)) with false. cbv iota.
    rewrite <- zlen_app. destruct (IH (pre ++ attr_wire a) s1) as (s2 & E2 & L2); [lia|rewrite zlen_app; lia|].
    exists s2. rewrite E2. rewrite <- !app_assoc, !zlen_app. split; [do 2 f_equal; lia|lia].
Qed.

Lemma attrs_size_eq l n :
  Forall attr_ok l -> 0 <= n -> n + zlen (attrs_wire l) < 4294967296 -> attrs_size l n = n + zlen (attrs_wire l).
Proof.
  intros Hl. revert n. induction Hl as [|a l Ha Hl IH]; intros n H0 Hn; [cbn [attrs_size]; change (zlen (attrs_wire [])) with 0; lia|].
  rewrite attrs_wire_cons, zlen_app, (zlen_attr_wire a) in * by done. pose proof (zlen_nonneg (attrs_wire l)).
  pose proof (attr_len_pos a Ha). cbn [attrs_size]. unfold AI_ATTRIBUTE_VALUE_OFF. rewrite u32_small by (unfold is_u32; lia).
  rewrite IH by lia. lia.
Qed.

Lemma pack_user_attrs_ok malloc l :
  (forall n, malloc n = true) -> Forall attr_ok l -> zlen (attrs_wire l) < 4294967296 ->
  tuya_pack_user_attrs malloc l = Some (OPRT_OK, Some (attrs_wire l)).
Proof.
  intros Hm Hl H32. unfold tuya_pack_user_attrs. rewrite Hm. cbn [negb]. rewrite (attrs_size_eq l 0) by (done || lia).
  rewrite Z.add_0_l. pose proof (zlen_nonneg (attrs_wire l)).
  destruct (put_attrs_ok l [] (zrepl (zlen (attrs_wire l)) 0) Hl) as (s & E & L); rewrite ?zlen_zrepl by lia; [lia|change (zlen []) with 0; lia|].
  cbn [app] in E. change (zlen []) with 0 in E. rewrite E. cbn [mbind option_bind]. change (negb (OPRT_OK =? OPRT_OK)) with false.
  cbv iota. rewrite zlen_zrepl in L by lia. rewrite (zlen_zero s) by lia. by rewrite app_nil_r.
Qed.

(** ** Parsing *)

Lemma load_part_ok buf off len n w :
  0 <= len -> len = Z.of_nat n -> slice buf off len = Some w -> load_part buf off len n = Some (le_val w).
Proof.
  intros H0 Hn Hs. unfold load_part. rewrite Hn, Z.leb_refl, <- Hn, Hs. cbn [mbind option_bind].
  rewrite (slice_len _ _ _ _ Hs), Z.sub_diag. change (zrepl 0 0) with (@nil Z). by rewrite app_nil_r.
Qed.

Lemma check_received a suf : attr_ok a -> ai_check_attr_vaild (received a suf) = true.
Proof.
  intros (_ & Hs & Hv). unfold ai_check_attr_vaild. cbn [a_type payload_type a_length received].
  assert (((a_type a =? AI_ATTR_CONNECT_STATUS_CODE) || (a_type a =? AI_ATTR_CONNECT_CLOSE_ERR_CODE))
          && negb (payload_type a =? ATTR_PT_U16) = false)%bool as ->.
  { destruct (Z.eqb_spec (a_type a) AI_ATTR_CONNECT_STATUS_CODE); [by rewrite Hs by tauto|].
    destruct (Z.eqb_spec (a_type a) AI_ATTR_CONNECT_CLOSE_ERR_CODE); [by rewrite Hs by tauto|]. done. }
  destruct (a_value a) as [v|v|v|v|[p|]|[p|]]; try done; destruct Hv as [-> Hv]; eval_tags;
    try (apply Z.eqb_eq; lia).
  all: cbn; destruct (Z.eqb_spec (a_length a) 0); (lia || done).
Qed.

Lemma value_parsed a pre suf :
  attr_ok a -> zlen pre + zlen (value_wire a ++ suf) < 4294967296 ->
  let buf := pre ++ value_wire a ++ suf in
  let off := zlen pre in
  (if payload_type a =? ATTR_PT_U8 then v ← load_part buf off (a_length a) 1; Some (Some (v_u8 v))
   else if payload_type a =? ATTR_PT_U16 then v ← load_part buf off (a_length a) 2; Some (Some (v_u16 (UNI_NTOHS v)))
   else if payload_type a =? ATTR_PT_U32 then v ← load_part buf off (a_length a) 4; Some (Some (v_u32 (UNI_NTOHL v)))
   else if payload_type a =? ATTR_PT_U64 then v ← load_part buf off (a_length a) 8; Some (Some (v_u64 (UNI_NTOHLL v)))
   else if payload_type a =? ATTR_PT_BYTES then Some (Some (v_bytes (Some (drop (Z.to_nat off) buf))))
   else if payload_type a =? ATTR_PT_STR then Some (Some (v_str (Some (drop (Z.to_nat off) buf))))
   else Some None) = Some (Some (a_value (received a suf))).
Proof.
  intros Ha H32 buf off. pose proof (zlen_value_wire a Ha) as Hz.
  assert (slice buf off (a_length a) = Some (value_wire a)) as Hs by (apply slice_mid_n; done).
  assert (drop (Z.to_nat off) buf = value_wire a ++ suf) as -> by apply zdrop_app.
  destruct Ha as (_ & _ & Hv). unfold received. cbn [a_value].
  destruct (a_value a) as [v|v|v|v|[p|]|[p|]] eqn:Ev; try done; destruct Hv as [-> Hv]; eval_tags.
  - erewrite load_part_ok; [|lia|lia|exact Hs]. unfold value_wire. rewrite Ev. cbn. do 3 f_equal. lia.
  - erewrite load_part_ok; [|lia|lia|exact Hs]. unfold value_wire. rewrite Ev. cbn -[be]. rewrite load_ntohs; [done|apply Hv].
  - erewrite load_part_ok; [|lia|lia|exact Hs]. unfold value_wire. rewrite Ev. cbn -[be]. rewrite load_ntohl; [done|apply Hv].
  - erewrite load_part_ok; [|lia|lia|exact Hs]. unfold value_wire. rewrite Ev. cbn -[be]. rewrite load_ntohll; [done|apply Hv].
  - done.
  - done.
Qed.

(** The two readers walk over the same head of an attribute. *)
Lemma attr_head a pre suf :
  let buf := pre ++ attr_wire a ++ suf in
  let p1 := zlen pre + 2 in
  slice buf (zlen pre) 2 = Some (be 2 (a_type a)) /\ rd buf p1 = Some (payload_type a)
  /\ slice buf (p1 + 1) 4 = Some (be 4 (a_length a))
  /\ buf = (pre ++ be 2 (a_type a) ++ [payload_type a] ++ be 4 (a_length a)) ++ value_wire a ++ suf
  /\ zlen (pre ++ be 2 (a_type a) ++ [payload_type a] ++ be 4 (a_length a)) = p1 + 1 + 4.
Proof.
  intros buf p1. subst buf p1. unfold attr_wire. rewrite <- !app_assoc. split_and!.
  - by apply slice_mid_n.
  - rewrite (app_assoc pre). cbn [app]. replace (zlen pre + 2) with (zlen (pre ++ be 2 (a_type a)))
      by (rewrite zlen_app, zlen_be; lia). apply rd_mid.
  - rewrite 2!app_assoc. apply slice_mid_n; [rewrite !zlen_app, zlen_be; change (zlen [payload_type a]) with 1; lia|apply zlen_be].
  - done.
  - rewrite !zlen_app, !zlen_be. change (zlen [payload_type a]) with 1. lia.
Qed.

Lemma get_attr_value_ok a pre suf :
  attr_ok a -> zlen (pre ++ attr_wire a ++ suf) < 4294967296 ->
  tuya_ai_get_attr_value (pre ++ attr_wire a ++ suf) (zlen pre)
  = Some (OPRT_OK, zlen pre + zlen (attr_wire a), received a suf).
Proof.
  intros Ha H32. rewrite (zlen_attr_wire a Ha). pose proof (zlen_nonneg pre). pose proof (zlen_nonneg suf).
  pose proof (attr_len_pos a Ha). rewrite !zlen_app, (zlen_attr_wire a Ha) in H32.
  destruct (attr_head a pre suf) as (E1 & E2 & E3 & E4 & E5).
  unfold tuya_ai_get_attr_value. rewrite E1. cbn [mbind option_bind].
  rewrite (u32_small (zlen pre + 2)) by (unfold is_u32; lia). rewrite E2. cbn [mbind option_bind].
  rewrite (u32_small (zlen pre + 2 + 1)) by (unfold is_u32; lia). rewrite E3. cbn [mbind option_bind].
  rewrite load_ntohs by apply Ha. rewrite load_ntohl by (unfold is_u32; lia).
  rewrite (u32_small (a_length a)) by (unfold is_u32; lia).
  rewrite (u32_small (zlen pre + 2 + 1 + 4)) by (unfold is_u32; lia). rewrite E4, <- E5.
  rewrite value_parsed; [|done|rewrite E5, zlen_app, (zlen_value_wire a Ha); lia].
  cbn [mbind option_bind from_option id]. rewrite bool_decide_eq_false_2 by done. rewrite E5.
  rewrite u32_small by (unfold is_u32; lia). case_bool; [lia|].
  change {| a_type := a_type a; payload_type := payload_type a; a_length := a_length a; a_value := a_value (received a suf) |}
    with (received a suf). rewrite check_received by done. cbn [negb]. do 2 f_equal. f_equal. lia.
Qed.

Lemma num_loop_ok l : forall fuel pre suf idx,
  Forall attr_ok l -> zlen (pre ++ attrs_wire l ++ suf) < 4294967296 -> (List.length l <= fuel)%nat -> 0 <= idx ->
  idx + zlen l < 4294967296 ->
  num_loop fuel (pre ++ attrs_wire l ++ suf) (zlen pre + zlen (attrs_wire l)) (zlen pre) idx = Some (Some (idx + zlen l)).
Proof.
  induction l as [|a l IH]; intros fuel pre suf idx Hl H32 Hf H0 Hi.
  - change (zlen (attrs_wire [])) with 0. destruct fuel; cbn [num_loop]; case_bool; try lia; cbn; do 2 f_equal; rewrite Z.add_0_r; done.
  - apply list.Forall_cons in Hl as [Ha Hl]. destruct fuel as [|fuel]; [cbn in Hf; lia|]. cbn [num_loop].
    rewrite attrs_wire_cons in *. rewrite zlen_cons in Hi. pose proof (zlen_nonneg pre). pose proof (zlen_nonneg l).
    rewrite !zlen_app in H32. pose proof (zlen_nonneg suf). pose proof (attr_len_pos a Ha). pose proof (zlen_nonneg (attrs_wire l)).
    rewrite (zlen_attr_wire a Ha) in H32. rewrite zlen_app, (zlen_attr_wire a Ha). case_bool; [|lia]. cbn [negb].
    rewrite <- !app_assoc. destruct (attr_head a pre (attrs_wire l ++ suf)) as (_ & _ & E3 & _ & _).
    rewrite (u32_small (zlen pre + 2)), (u32_small (zlen pre + 2 + 1)) by (unfold is_u32; lia). rewrite E3. cbn [mbind option_bind].
    rewrite load_ntohl by (unfold is_u32; lia). rewrite (u32_small (a_length a)) by (unfold is_u32; lia).
    rewrite (u32_small (zlen pre + 2 + 1 + 4)) by (unfold is_u32; lia).
    rewrite (u32_small (zlen pre + 2 + 1 + 4 + a_length a)) by (unfold is_u32; lia).
    rewrite (u32_small (idx + 1)) by (unfold is_u32; lia).
    replace (zlen pre + 2 + 1 + 4 + a_length a) with (zlen (pre ++ attr_wire a)) by (rewrite zlen_app, (zlen_attr_wire a Ha); lia).
    replace (zlen pre + (7 + a_length a + zlen (attrs_wire l))) with (zlen (pre ++ attr_wire a) + zlen (attrs_wire l))
      by (rewrite zlen_app, (zlen_attr_wire a Ha); lia).
    rewrite (app_assoc pre). rewrite IH; [rewrite zlen_cons; do 2 f_equal; lia|done| |cbn in Hf; lia|lia|lia].
    rewrite !zlen_app, (zlen_attr_wire a Ha). lia.
Qed.

Lemma parse_loop_ok l : forall fuel pre suf num done,
  Forall attr_ok l -> zlen (pre ++ attrs_wire l ++ suf) < 4294967296 -> (List.length l <= fuel)%nat -> zlen done + zlen l <= num ->
  parse_loop fuel (pre ++ attrs_wire l ++ suf) (zlen pre + zlen (attrs_wire l)) num (zlen pre) done
  = Some (Some (OPRT_OK, done ++ received_all l suf)).
Proof.
  induction l as [|a l IH]; intros fuel pre suf num done Hl H32 Hf Hn.
  - change (zlen (attrs_wire [])) with 0. cbn [received_all]. rewrite app_nil_r. destruct fuel; cbn [parse_loop]; case_bool; (lia || done).
  - apply list.Forall_cons in Hl as [Ha Hl]. destruct fuel as [|fuel]; [cbn in Hf; lia|]. cbn [parse_loop].
    rewrite attrs_wire_cons in *. pose proof (attr_len_pos a Ha). pose proof (zlen_nonneg (attrs_wire l)).
    rewrite zlen_app, (zlen_attr_wire a Ha). case_bool; [|lia]. cbn [negb]. rewrite zlen_cons in Hn. pose proof (zlen_nonneg l).
    case_bool; [lia|]. rewrite <- !app_assoc in *. rewrite get_attr_value_ok by done. cbn [mbind option_bind].
    change (negb (OPRT_OK =? OPRT_OK)) with false. cbv iota. rewrite <- zlen_app.
    replace (zlen pre + (7 + a_length a + zlen (attrs_wire l))) with (zlen (pre ++ attr_wire a) + zlen (attrs_wire l))
      by (rewrite zlen_app, (zlen_attr_wire a Ha); lia).
    rewrite (app_assoc pre). rewrite IH; [|done|by rewrite <- app_assoc|cbn in Hf; lia|rewrite zlen_app, zlen_one; lia].
    cbn [received_all]. by rewrite <- app_assoc.
Qed.

Lemma attrs_count l : Forall attr_ok l -> zlen l * 8 <= zlen (attrs_wire l).
Proof.
  induction 1 as [|a l Ha Hl IH]; [done|]. rewrite attrs_wire_cons, zlen_app, zlen_cons, (zlen_attr_wire a Ha).
  pose proof (attr_len_pos a Ha). lia.
Qed.

Lemma parse_user_attrs_ok malloc fuel l suf :
  (forall n, malloc n = true) -> Forall attr_ok l -> zlen (attrs_wire l ++ suf) < 4294967296 -> (List.length l <= fuel)%nat ->
  tuya_parse_user_attrs malloc fuel (attrs_wire l ++ suf) (zlen (attrs_wire l))
  = Some (Some (OPRT_OK, Some (received_all l suf, zlen l))).
Proof.
  intros Hm Hl H32 Hf. unfold tuya_parse_user_attrs, tuya_ai_get_attr_num.
  pose proof (attrs_count l Hl). pose proof (zlen_nonneg l). rewrite zlen_app in H32. pose proof (zlen_nonneg suf).
  pose proof (num_loop_ok l fuel [] suf 0 Hl) as Hn. cbn [app] in Hn. change (zlen []) with 0 in Hn. rewrite !Z.add_0_l in Hn.
  rewrite Hn by (rewrite ?zlen_app; lia). cbn [mbind option_bind]. rewrite Hm. cbn [negb].
  pose proof (parse_loop_ok l fuel [] suf (zlen l) [] Hl) as Hp. cbn [app] in Hp. change (zlen []) with 0 in Hp.
  rewrite !Z.add_0_l in Hp. change (@zlen AI_ATTRIBUTE_T []) with 0 in Hp. rewrite Hp by (rewrite ?zlen_app; lia). done.
Qed.

(** (C30) Attributes that are packed and parsed come back: the parser finds as many as were
    packed, of the same types, lengths and values, whatever follows them in the buffer; its two
    passes end within as many rounds and stay inside the buffer and the array. *)
Theorem ai_attrs_roundtrip (malloc : Z -> bool) (l : list AI_ATTRIBUTE_T) (suf : list Z) (fuel : nat) :
  (forall n, malloc n = true) -> Forall attr_ok l -> zlen (attrs_wire l ++ suf) < 4294967296 -> (List.length l <= fuel)%nat ->
  exists buf, tuya_pack_user_attrs malloc l = Some (OPRT_OK, Some buf)
    /\ exists l', tuya_parse_user_attrs malloc fuel (buf ++ suf) (zlen buf) = Some (Some (OPRT_OK, Some (l', zlen l)))
    /\ Forall2 (fun a a' => a_type a' = a_type a /\ payload_type a' = payload_type a /\ a_length a' = a_length a
                  /\ value_wire a' = value_wire a) l l'.
Proof.
  intros Hm Hl H32 Hf. exists (attrs_wire l). rewrite zlen_app in H32. pose proof (zlen_nonneg suf).
  split; [apply pack_user_attrs_ok; [done|done|lia]|]. exists (received_all l suf).
  split; [apply parse_user_attrs_ok; (done || rewrite zlen_app; lia)|]. clear -Hl.
  induction Hl as [|a l Ha Hl IH]; cbn [received_all]; constructor; [|done]. split_and!; try done.
  pose proof (zlen_value_wire a Ha) as Hz. unfold value_wire at 1. unfold received. cbn [a_value a_length].
  unfold value_wire in *. destruct (a_value a) as [v|v|v|v|p|p]; try done; cbn [from_option id];
    rewrite <- Hz at 1; apply ztake_app.
Qed.

Definition demo_attrs : list AI_ATTRIBUTE_T :=
  [ {| a_type := AI_ATTR_CONNECT_STATUS_CODE; payload_type := ATTR_PT_U16; a_length := 2; a_value := v_u16 200 |};
    {| a_type := AI_ATTR_CONNECTION_ID; payload_type := ATTR_PT_STR; a_length := 3; a_value := v_str (Some [97; 98; 99; 0]) |};
    {| a_type := AI_ATTR_CLIENT_TS; payload_type := ATTR_PT_U64; a_length := 8; a_value := v_u64 1700000000123 |} ].

Lemma demo_attrs_ok : Forall attr_ok demo_attrs.
Proof.
  unfold demo_attrs, attr_ok, is_u16, is_u64, AI_ATTR_CONNECT_STATUS_CODE, AI_ATTR_CONNECT_CLOSE_ERR_CODE, AI_ATTR_CONNECTION_ID, AI_ATTR_CLIENT_TS.
  repeat apply list.Forall_cons_2; [..|by apply list.Forall_nil]; cbn [a_type payload_type a_length a_value];
    split_and!; try lia; try done; by intros [].
Qed.

Lemma ai_attrs_roundtrip_witness :
  exists buf, tuya_pack_user_attrs (fun _ => true) demo_attrs = Some (OPRT_OK, Some buf)
    /\ exists l', tuya_parse_user_attrs (fun _ => true) 3 (buf ++ [1; 2]) (zlen buf) = Some (Some (OPRT_OK, Some (l', 3)))
    /\ Forall2 (fun a a' => a_type a' = a_type a /\ payload_type a' = payload_type a /\ a_length a' = a_length a
                  /\ value_wire a' = value_wire a) demo_attrs l'.
Proof.
  apply (ai_attrs_roundtrip (fun _ => true) demo_attrs [1; 2] 3);
    [done|apply demo_attrs_ok|vm_compute; reflexivity|apply le_n].
Defined.

(** * The requests build well-formed attributes *)

(** What the protocol asks for: the type of a field, the tag of its value and the bytes of
    the value, numbers in network order; and its bytes in a packet. *)
Definition field : Type := Z * Z * list Z.
Definition field_wire (f : field) : list Z :=
  let '(type, tag, bytes) := f in be 2 type ++ [tag] ++ be 4 (zlen bytes) ++ bytes.

Section Requests.
Context (malloc : Z -> bool) (Hm : forall n, malloc n = true).

(** A creation that gives the well-formed attribute of a field. *)
Definition good (o : option (option AI_ATTRIBUTE_T)) (f : field) : Prop :=
  exists a, o = Some (Some a) /\ attr_ok a /\ attr_wire a = field_wire f.

(** A type that the parser does not restrict to 16-bit numbers. *)
Definition free_type (t : Z) : Prop :=
  is_u16 t /\ t <> AI_ATTR_CONNECT_STATUS_CODE /\ t <> AI_ATTR_CONNECT_CLOSE_ERR_CODE.

(** A C string of at least one character, and one that may be absent. *)
Definition c_string (p : list Z) : Prop := exists s, p = cstr s /\ chars_ok s /\ s <> [].
Definition opt_string (p : option (list Z)) : Prop := match p with Some p => c_string p | None => True end.
Definition user_ok (p : option (list Z)) (n : Z) : Prop := match p with Some p => 1 <= n <= zlen p | None => True end.

Lemma le_bytes_small n v : 0 <= v < 2 ^ (8 * Z.of_nat n) -> le_val (le_bytes n v) = v.
Proof. intros Hv. rewrite le_val_bytes. by apply Z.mod_small. Qed.

Lemma good_u8 t v : free_type t -> is_u8 v -> good (tuya_ai_create_attribute malloc t ATTR_PT_U8 (le_bytes 1 v) 1) (t, ATTR_PT_U8, [v]).
Proof.
  intros (Ht & H1 & H2) Hv. unfold tuya_ai_create_attribute. rewrite Hm. cbn. eexists. split; [reflexivity|].
  rewrite Z.mod_small by (unfold is_u8 in *; lia). split; [|done]. split; [done|]. cbn. by split; [intros [?|?]; done|].
Qed.

Lemma good_u16 t v : is_u16 t -> is_u16 v -> good (tuya_ai_create_attribute malloc t ATTR_PT_U16 (le_bytes 2 v) 2) (t, ATTR_PT_U16, be 2 v).
Proof.
  intros Ht Hv. unfold tuya_ai_create_attribute. rewrite Hm. cbn [negb]. eval_tags.
  rewrite slice_whole by done. cbn [mbind option_bind]. rewrite le_bytes_small by exact Hv.
  eexists. split; [reflexivity|]. split; [|done]. split; [done|]. cbn. done.
Qed.

Lemma good_u32 t v : free_type t -> is_u32 v -> good (tuya_ai_create_attribute malloc t ATTR_PT_U32 (le_bytes 4 v) 4) (t, ATTR_PT_U32, be 4 v).
Proof.
  intros (Ht & H1 & H2) Hv. unfold tuya_ai_create_attribute. rewrite Hm. cbn [negb]. eval_tags.
  rewrite slice_whole by done. cbn [mbind option_bind]. rewrite le_bytes_small by exact Hv.
  eexists. split; [reflexivity|]. split; [|done]. split; [done|]. cbn. by split; [intros [?|?]; done|].
Qed.

Lemma good_u64 t v : free_type t -> is_u64 v -> good (tuya_ai_create_attribute malloc t ATTR_PT_U64 (le_bytes 8 v) 8) (t, ATTR_PT_U64, be 8 v).
Proof.
  intros (Ht & H1 & H2) Hv. unfold tuya_ai_create_attribute. rewrite Hm. cbn [negb]. eval_tags.
  rewrite slice_whole by done. cbn [mbind option_bind]. rewrite le_bytes_small by exact Hv.
  eexists. split; [reflexivity|]. split; [|done]. split; [done|]. cbn. by split; [intros [?|?]; done|].
Qed.

Lemma strlen_text s : chars_ok s -> strlen (cstr s) = Some (zlen s).
Proof.
  unfold cstr. induction 1 as [|c s Hc Hs IH]; [done|]. cbn [app strlen]. case_bool; [lia|]. rewrite IH. cbn.
  rewrite zlen_cons. f_equal. lia.
Qed.

(** The characters of a C string. *)
Definition c_text (p : list Z) : list Z := take (List.length p - 1) p.
Lemma attr_text_cstr s : c_text (cstr s) = s.
Proof. unfold c_text, cstr. rewrite length_app. cbn [List.length]. rewrite Nat.add_sub. apply take_app_length. Qed.

Lemma good_text t s : free_type t -> chars_ok s -> s <> [] ->
  good (tuya_ai_create_attribute malloc t ATTR_PT_STR (cstr s) (zlen s)) (t, ATTR_PT_STR, s).
Proof.
  intros (Ht & H1 & H2) Hs Hn. unfold tuya_ai_create_attribute. rewrite Hm. cbn [negb]. eval_tags. unfold mm_strdup.
  rewrite strlen_text by done. cbn [mbind option_bind]. rewrite Hm. cbn [negb]. unfold cstr. rewrite slice_prefix.
  cbn [mbind option_bind]. assert (1 <= zlen s) by (destruct s; [done|rewrite zlen_cons; pose proof (zlen_nonneg s); lia]).
  eexists. split; [reflexivity|]. split.
  - split; [done|]. cbn [a_type payload_type a_length a_value]. split; [intros [?|?]; done|]. split; [done|]. rewrite zlen_app, zlen_one. lia.
  - unfold attr_wire, field_wire, value_wire. cbn [a_type payload_type a_length a_value from_option id]. by rewrite ztake_app.
Qed.

Lemma good_str t p : free_type t -> c_string p ->
  good (n ← strlen p; tuya_ai_create_attribute malloc t ATTR_PT_STR p n) (t, ATTR_PT_STR, c_text p).
Proof.
  intros Ht (s & -> & Hs & Hne). rewrite strlen_text, attr_text_cstr by done. cbn [mbind option_bind]. by apply good_text.
Qed.

Lemma good_bytes t p n : free_type t -> 1 <= n <= zlen p ->
  good (tuya_ai_create_attribute malloc t ATTR_PT_BYTES p n) (t, ATTR_PT_BYTES, take (Z.to_nat n) p).
Proof.
  intros (Ht & H1 & H2) Hn. unfold tuya_ai_create_attribute. rewrite !Hm. cbn [negb]. eval_tags.
  rewrite slice_eq by lia. cbn [mbind option_bind]. rewrite drop_0. eexists. split; [reflexivity|]. split.
  - split; [done|]. cbn [a_type payload_type a_length a_value]. split; [intros [?|?]; done|]. split; [done|]. rewrite zlen_take; lia.
  - unfold attr_wire, field_wire, value_wire. cbn [a_type payload_type a_length a_value from_option id].
    rewrite take_take, Nat.min_id. by rewrite zlen_take by lia.
Qed.

Lemma created_good l fs : Forall2 good l fs -> (List.length l <= 10)%nat ->
  exists attrs, created l = Some (OPRT_OK, attrs) /\ Forall attr_ok attrs /\ List.length attrs = List.length l
    /\ attrs_wire attrs = mjoin (field_wire <$> fs).
Proof.
  intros Hl. assert (exists attrs, mapM id l = Some (Some <$> attrs) /\ Forall attr_ok attrs /\ List.length attrs = List.length l
                       /\ attrs_wire attrs = mjoin (field_wire <$> fs))
    as (attrs & E & Hok & Hn & Hw).
  { induction Hl as [|o f l fs (a & -> & Ha & Hf) Hl (attrs & E & Hok & Hn & Hw)]; [by exists []|]. exists (a :: attrs).
    cbn [mapM id mbind option_bind]. rewrite E. split_and!; [done|by constructor|cbn; by rewrite Hn|].
    rewrite attrs_wire_cons, Hw, Hf. done. }
  intros H10. exists attrs. unfold created, AI_MAX_ATTR_NUM. rewrite (proj2 (Z.ltb_ge _ _)) by (unfold zlen; lia). rewrite E. cbn [mbind option_bind]. unfold ai_check_attr_created.
  assert (mapM id (Some <$> attrs) = Some attrs) as ->; [|done].
  clear. induction attrs as [|a attrs IH]; [done|]. cbn [fmap list_fmap mapM id mbind option_bind]. by rewrite IH.
Qed.

(** Optional fields: [when_field] is the mirror of [when]. *)
Definition when_field {A} (p : option A) (f : A -> field) : list field := match p with Some x => [f x] | None => [] end.

Lemma good_when {A} (p : option A) f g : (forall x, p = Some x -> good (f x) (g x)) -> Forall2 good (when p f) (when_field p g).
Proof. intros H. destruct p; cbn; [|constructor]. by repeat constructor; apply H. Qed.

Lemma good_opt_str t p : free_type t -> opt_string p ->
  Forall2 good (when p (fun p => n ← strlen p; tuya_ai_create_attribute malloc t ATTR_PT_STR p n))
    (when_field p (fun p => (t, ATTR_PT_STR, c_text p))).
Proof. intros Ht Hp. apply good_when. intros x ->. by apply good_str. Qed.

Lemma good_if (b : bool) o f : (b = true -> good o f) -> Forall2 good (if b then [o] else []) (if b then [f] else []).
Proof. intros H. destruct b; repeat constructor. by apply H. Qed.

Lemma good_user p n : user_ok p n ->
  Forall2 good (when p (fun p => tuya_ai_create_attribute malloc AI_ATTR_USER_DATA ATTR_PT_BYTES p n))
    (when_field p (fun p => (AI_ATTR_USER_DATA, ATTR_PT_BYTES, take (Z.to_nat n) p))).
Proof. intros Hp. apply good_when. intros x ->. by apply good_bytes. Qed.

Definition option_fields (o : AI_ATTR_OPTION_T) : list field :=
  when_field (user_data o) (fun p => (AI_ATTR_USER_DATA, ATTR_PT_BYTES, take (Z.to_nat (user_len o)) p))
  ++ when_field (session_id_list o) (fun p => (AI_ATTR_SESSION_ID_LIST, ATTR_PT_STR, c_text p)).

Lemma good_option o :
  user_ok (user_data o) (user_len o) -> opt_string (session_id_list o) -> Forall2 good (option_attrs malloc o) (option_fields o).
Proof. intros H1 H2. apply Forall2_app; [by apply good_user|]. by apply good_opt_str. Qed.
End Requests.

(** The requests of the protocol with the arguments their functions take. *)
Inductive ai_request :=
| rq_conn_close (code : Z)
| rq_auth (cfg : AI_SERVER_CFG_INFO_T)
| rq_hello (read_buf write_buf heartbeat max_fragment : Z) (crypt_random sign_random : list Z)
    (connection_id : option (list Z)) (cfg : AI_SERVER_CFG_INFO_T)
| rq_refresh (connection_id : option (list Z))
| rq_ping (ts : Z)
| rq_session_new (session : AI_SESSION_NEW_ATTR_T)
| rq_session_close (session_id : list Z) (code : Z)
| rq_video (video : AI_VIDEO_ATTR_BASE_T) (option : AI_ATTR_OPTION_T)
| rq_audio (audio : AI_AUDIO_ATTR_BASE_T) (option : AI_ATTR_OPTION_T)
| rq_image (image : AI_IMAGE_ATTR_BASE_T) (option : AI_ATTR_OPTION_T)
| rq_file (file : AI_FILE_ATTR_BASE_T) (option : AI_ATTR_OPTION_T)
| rq_text (session_ids : option (list Z))
| rq_event (event : AI_EVENT_ATTR_T) (type ts : Z).

Definition request_attrs (malloc : Z -> bool) (r : ai_request) : option (Z * list AI_ATTRIBUTE_T) :=
  match r with
  | rq_conn_close code => create_conn_close_attrs malloc code
  | rq_auth cfg => create_auth_req_attrs malloc cfg
  | rq_hello rb wb hb mf cr sr cid cfg => create_clt_hello_attrs malloc rb wb hb mf cr sr cid cfg
  | rq_refresh cid => create_refresh_req_attrs malloc cid
  | rq_ping ts => create_ping_attrs malloc ts
  | rq_session_new s => create_seesion_new_attrs malloc s
  | rq_session_close i code => create_seesion_close_attrs malloc i code
  | rq_video v o => create_video_attrs malloc v o
  | rq_audio a o => create_audio_attrs malloc a o
  | rq_image i o => create_image_attrs malloc i o
  | rq_file f o => create_file_attrs malloc f o
  | rq_text s => create_text_attrs malloc s
  | rq_event e t ts => create_event_attrs malloc e t ts
  end.

(** The fields of each request, in order. *)
Definition request_fields (r : ai_request) : list field :=
  match r with
  | rq_conn_close code => [(AI_ATTR_CONNECT_CLOSE_ERR_CODE, ATTR_PT_U16, be 2 code)]
  | rq_auth cfg =>
      [(AI_ATTR_USER_NAME, ATTR_PT_STR, c_text (username cfg)); (AI_ATTR_PASSWORD, ATTR_PT_STR, c_text (credential cfg))]
  | rq_hello rb wb hb mf cr sr cid cfg =>
      [(AI_ATTR_CLIENT_TYPE, ATTR_PT_U8, [ATTR_CLIENT_TYPE_DEVICE]); (AI_ATTR_CLIENT_ID, ATTR_PT_STR, c_text (client_id cfg));
       (AI_ATTR_DERIVED_ALGORITHM, ATTR_PT_STR, c_text (derived_algorithm cfg));
       (AI_ATTR_DERIVED_IV, ATTR_PT_STR, c_text (derived_iv cfg)); (AI_ATTR_ENCRYPT_RANDOM, ATTR_PT_STR, c_text cr);
       (AI_ATTR_SIGN_RANDOM, ATTR_PT_STR, c_text sr); (AI_ATTR_MAX_FRAGMENT_LEN, ATTR_PT_U32, be 4 mf)]
      ++ (if 0 <? rb then [(AI_ATTR_READ_BUFFER_SIZE, ATTR_PT_U32, be 4 rb)] else [])
      ++ (if 0 <? wb then [(AI_ATTR_WRITE_BUFFER_SIZE, ATTR_PT_U32, be 4 wb)] else [])
      ++ when_field cid (fun p => (AI_ATTR_CONNECTION_ID, ATTR_PT_STR, c_text p))
      ++ (if 0 <? hb then [(AI_ATTR_PING_INTERVAL, ATTR_PT_U32, be 4 (hb * 1000))] else [])
  | rq_refresh cid => when_field cid (fun p => (AI_ATTR_CONNECTION_ID, ATTR_PT_STR, c_text p))
  | rq_ping ts => [(AI_ATTR_CLIENT_TS, ATTR_PT_U64, be 8 ts)]
  | rq_session_new s =>
      [(AI_ATTR_SESSION_ID, ATTR_PT_STR, c_text (s_id s)); (AI_ATTR_BIZ_CODE, ATTR_PT_U32, be 4 (biz_code s));
       (AI_ATTR_BIZ_TAG, ATTR_PT_U64, be 8 (biz_tag s))]
      ++ when_field (token s) (fun p => (AI_ATTR_AGENT_TOKEN, ATTR_PT_STR, c_text p))
      ++ when_field (s_user_data s) (fun p => (AI_ATTR_USER_DATA, ATTR_PT_BYTES, take (Z.to_nat (s_user_len s)) p))
  | rq_session_close i code =>
      [(AI_ATTR_SESSION_ID, ATTR_PT_STR, c_text i); (AI_ATTR_SESSION_CLOSE_ERR_CODE, ATTR_PT_U16, be 2 code)]
  | rq_video v o =>
      [(AI_ATTR_VIDEO_CODEC_TYPE, ATTR_PT_U16, be 2 (v_codec_type v)); (AI_ATTR_VIDEO_SAMPLE_RATE, ATTR_PT_U32, be 4 (v_sample_rate v));
       (AI_ATTR_VIDEO_WIDTH, ATTR_PT_U16, be 2 (v_width v)); (AI_ATTR_VIDEO_HEIGHT, ATTR_PT_U16, be 2 (v_height v));
       (AI_ATTR_VIDEO_FPS, ATTR_PT_U16, be 2 (v_fps v))] ++ option_fields o
  | rq_audio a o =>
      [(AI_ATTR_AUDIO_CODEC_TYPE, ATTR_PT_U16, be 2 (codec_type a)); (AI_ATTR_AUDIO_SAMPLE_RATE, ATTR_PT_U32, be 4 (sample_rate a));
       (AI_ATTR_AUDIO_CHANNELS, ATTR_PT_U16, be 2 (channels a)); (AI_ATTR_AUDIO_DEPTH, ATTR_PT_U16, be 2 (bit_depth a))]
      ++ (if codec_type a =? AUDIO_CODEC_SPEEX
          then [(AI_ATTR_AUDIO_FRAME_SIZE, ATTR_PT_U16, be 2 (if 0 <? frame_size a then frame_size a else 42))] else [])
      ++ option_fields o
  | rq_image i o =>
      [(AI_ATTR_IMAGE_FORMAT, ATTR_PT_U8, [i_format i])]
      ++ (if 0 <? i_width i then [(AI_ATTR_IMAGE_WIDTH, ATTR_PT_U16, be 2 (i_width i))] else [])
      ++ (if 0 <? i_height i then [(AI_ATTR_IMAGE_HEIGHT, ATTR_PT_U16, be 2 (i_height i))] else [])
      ++ option_fields o
  | rq_file f o =>
      [(AI_ATTR_FILE_FORMAT, ATTR_PT_U8, [f_format f]); (AI_ATTR_FILE_NAME, ATTR_PT_STR, c_text (file_name f))] ++ option_fields o
  | rq_text s => when_field s (fun p => (AI_ATTR_SESSION_ID_LIST, ATTR_PT_STR, c_text p))
  | rq_event e t ts =>
      [(AI_ATTR_SESSION_ID, ATTR_PT_STR, c_text (e_session_id e)); (AI_ATTR_EVENT_ID, ATTR_PT_STR, c_text (event_id e))]
      ++ when_field (cmd_data e) (fun p => (AI_ATTR_CMD_DATA, ATTR_PT_STR, c_text p))
      ++ (if t =? AI_EVENT_END then [(AI_ATTR_EVENT_TS, ATTR_PT_U64, be 8 ts)] else [])
      ++ when_field (e_user_data e) (fun p => (AI_ATTR_USER_DATA, ATTR_PT_BYTES, take (Z.to_nat (e_user_len e)) p))
  end.

(** Numbers of their widths, strings of at least one character, user data of at least one
    byte and inside its memory. *)
Definition options_ok (o : AI_ATTR_OPTION_T) : Prop := user_ok (user_data o) (user_len o) /\ opt_string (session_id_list o).
Definition random_ok (p : list Z) : Prop := exists s, p = cstr s /\ chars_ok s /\ zlen s = AI_RANDOM_LEN.
Definition request_ok (r : ai_request) : Prop :=
  match r with
  | rq_conn_close code => is_u16 code
  | rq_auth cfg => c_string (username cfg) /\ c_string (credential cfg)
  | rq_hello rb wb hb mf cr sr cid cfg =>
      (is_u32 rb /\ is_u32 wb /\ is_u32 (hb * 1000) /\ is_u32 mf) /\ (rb = 0 \/ wb = 0 \/ cid = None \/ hb = 0) /\ random_ok cr /\ random_ok sr /\ opt_string cid
      /\ c_string (client_id cfg) /\ c_string (derived_algorithm cfg) /\ c_string (derived_iv cfg)
  | rq_refresh cid => opt_string cid
  | rq_ping ts => is_u64 ts
  | rq_session_new s =>
      c_string (s_id s) /\ is_u32 (biz_code s) /\ is_u64 (biz_tag s) /\ opt_string (token s) /\ user_ok (s_user_data s) (s_user_len s)
  | rq_session_close i code => c_string i /\ is_u16 code
  | rq_video v o =>
      (is_u16 (v_codec_type v) /\ is_u32 (v_sample_rate v) /\ is_u16 (v_width v) /\ is_u16 (v_height v) /\ is_u16 (v_fps v)) /\ options_ok o
  | rq_audio a o =>
      (is_u16 (codec_type a) /\ is_u32 (sample_rate a) /\ is_u16 (channels a) /\ is_u16 (bit_depth a) /\ is_u16 (frame_size a)) /\ options_ok o
  | rq_image i o => (is_u8 (i_format i) /\ is_u16 (i_width i) /\ is_u16 (i_height i)) /\ options_ok o
  | rq_file f o => (is_u8 (f_format f) /\ c_string (file_name f)) /\ options_ok o
  | rq_text s => opt_string s
  | rq_event e t ts =>
      (c_string (e_session_id e) /\ c_string (event_id e) /\ opt_string (cmd_data e) /\ is_u64 ts) /\ user_ok (e_user_data e) (e_user_len e)
  end.

Lemma good_random malloc t p : (forall n, malloc n = true) -> free_type t -> random_ok p ->
  good (tuya_ai_create_attribute malloc t ATTR_PT_STR p AI_RANDOM_LEN) (t, ATTR_PT_STR, c_text p).
Proof. intros Hm Ht (s & -> & Hs & Hl). rewrite attr_text_cstr, <- Hl. apply good_text; try done. by intros ->. Qed.

(** The default frame size of a codec is chosen where the attribute is created. *)
Lemma good_frame_size malloc (n : Z) : (forall n, malloc n = true) -> is_u16 n ->
  good (if 0 <? n then tuya_ai_create_attribute malloc AI_ATTR_AUDIO_FRAME_SIZE ATTR_PT_U16 (le_bytes 2 n) 2
        else tuya_ai_create_attribute malloc AI_ATTR_AUDIO_FRAME_SIZE ATTR_PT_U16 (le_bytes 2 42) 2)
    (AI_ATTR_AUDIO_FRAME_SIZE, ATTR_PT_U16, be 2 (if 0 <? n then n else 42)).
Proof. intros Hm Hn. by destruct (0 <? n); apply good_u16. Qed.

Create HintDb ai_attr.
#[export] Hint Resolve good_u8 good_u16 good_u32 good_u64 good_str good_random good_opt_str good_user good_option good_if good_frame_size : ai_attr.
#[export] Hint Extern 1 (free_type _) => done : ai_attr.
#[export] Hint Extern 1 (is_u16 AI_ATTR_CONNECT_CLOSE_ERR_CODE) => done : ai_attr.
#[export] Hint Extern 2 (is_u16 _) => done : ai_attr.
#[export] Hint Extern 2 (is_u8 _) => done : ai_attr.

(** A conditional attribute is at most one, the options of a medium are at most two. *)
Lemma length_when {A} (p : option A) (f : A -> option (option AI_ATTRIBUTE_T)) : (List.length (when p f) <= 1)%nat.
Proof. destruct p; cbn; lia. Qed.
Lemma length_if (b : bool) (o : option (option AI_ATTRIBUTE_T)) : (List.length (if b then [o] else []) <= 1)%nat.
Proof. destruct b; cbn; lia. Qed.
Lemma length_option malloc o : (List.length (option_attrs malloc o) <= 2)%nat.
Proof. unfold option_attrs. rewrite length_app. etransitivity; [apply Nat.add_le_mono; apply length_when|done]. Qed.

Ltac count_attrs :=
  rewrite ?length_app;
  repeat match goal with
    | |- context [List.length (when ?p ?f)] => generalize (length_when p f); generalize (List.length (when p f)); intros ? ?
    | |- context [List.length (if ?b then [?o] else [])] =>
        generalize (length_if b o); generalize (List.length (if b then [o] else [])); intros ? ?
    | |- context [List.length (option_attrs ?m ?o)] =>
        generalize (length_option m o); generalize (List.length (option_attrs m o)); intros ? ?
    end; cbn [List.length]; lia.

(** Cuts a list of creations into its pieces. *)
Ltac good_list :=
  repeat (apply Forall2_app || apply Forall2_cons_2 || apply Forall2_nil_2); eauto with ai_attr.

(** (C31) Every request carries its fields: for numbers of their widths, strings of at least one
    character and user data of at least one byte, and with memory to allocate, the creation
    succeeds, each attribute has the tag, the length and the union member that belong together,
    and what packing them gives is, in order, exactly the fields of the request, each with its
    type, its tag, its length and its value in network order. There are at most ten attributes,
    the size of the array; the hello must leave out one of its four optional ones. *)
Theorem ai_requests_well_formed (malloc : Z -> bool) (r : ai_request) :
  (forall n, malloc n = true) -> request_ok r -> zlen (mjoin (field_wire <$> request_fields r)) < 4294967296 ->
  exists attrs, request_attrs malloc r = Some (OPRT_OK, attrs) /\ Forall attr_ok attrs /\ zlen attrs <= 10
    /\ tuya_pack_user_attrs malloc attrs = Some (OPRT_OK, Some (mjoin (field_wire <$> request_fields r))).
Proof.
  intros Hm Hr H32.
  assert (forall l, request_attrs malloc r = created l -> Forall2 good l (request_fields r) -> (List.length l <= 10)%nat ->
            exists attrs, request_attrs malloc r = Some (OPRT_OK, attrs) /\ Forall attr_ok attrs /\ zlen attrs <= 10
              /\ tuya_pack_user_attrs malloc attrs = Some (OPRT_OK, Some (mjoin (field_wire <$> request_fields r)))) as Hc.
  { intros l E Hg Hl. destruct (created_good l _ Hg Hl) as (attrs & Ec & Hok & Hn & Hw). exists attrs. rewrite E, Ec.
    split_and!; [done|done|unfold zlen; lia|]. rewrite <- Hw in *. by apply pack_user_attrs_ok. }
  clear H32. destruct r; cbn [request_ok] in Hr; unfold options_ok in Hr; destruct_and? Hr;
    (eapply Hc; [reflexivity|cbn [request_fields]; good_list|try by count_attrs]).
  repeat match goal with H : _ \/ _ |- _ => destruct H as [H|H] end; subst; cbn [when Z.mul Z.ltb Z.compare]; count_attrs.
Qed.

Definition demo_video : ai_request :=
  rq_video {| v_codec_type := 2; v_sample_rate := 90000; v_width := 640; v_height := 480; v_fps := 30 |}
    {| user_len := 2; user_data := Some [1; 2]; session_id_list := Some (cstr (str "s1")) |}.

Lemma ai_requests_well_formed_witness :
  exists attrs, request_attrs (fun _ => true) demo_video = Some (OPRT_OK, attrs) /\ Forall attr_ok attrs /\ zlen attrs <= 10
    /\ tuya_pack_user_attrs (fun _ => true) attrs
      = Some (OPRT_OK, Some ([0; 71; 2; 0; 0; 0; 2; 0; 2] ++ [0; 72; 3; 0; 0; 0; 4; 0; 1; 95; 144] ++ [0; 73; 2; 0; 0; 0; 2; 2; 128]
                             ++ [0; 74; 2; 0; 0; 0; 2; 1; 224] ++ [0; 75; 2; 0; 0; 0; 2; 0; 30] ++ [0; 111; 5; 0; 0; 0; 2; 1; 2]
                             ++ [0; 112; 6; 0; 0; 0; 2; 115; 49])).
Proof.
  apply (ai_requests_well_formed (fun _ => true) demo_video); [done| |vm_compute; reflexivity].
  unfold demo_video, request_ok, options_ok, user_ok, opt_string, is_u16, is_u32.
  cbn [v_codec_type v_sample_rate v_width v_height v_fps user_len user_data session_id_list].
  split; [lia|]. split; [vm_compute; split; discriminate|]. exists (str "s1"). split_and!; [done| |done].
  change (str "s1") with [115; 49]. repeat apply list.Forall_cons_2; try apply list.Forall_nil; lia.
Defined.

(** * Faults *)

(** The hello with both buffer sizes, a connection identifier and a heartbeat has eleven
    attributes for the ten places of the array. *)
Lemma ai_hello_overflow malloc rb wb hb mf cr sr c cfg : 0 < rb -> 0 < wb -> 0 < hb ->
  create_clt_hello_attrs malloc rb wb hb mf cr sr (Some c) cfg = None.
Proof. intros Hr Hw Hh. unfold create_clt_hello_attrs. by rewrite !(proj2 (Z.ltb_lt 0 _)) by done. Qed.

(** An attribute whose length is 2^32 - 7 leads the counting pass back to where it stands:
    the loop does not end, whatever the other bytes are. *)
Theorem ai_attr_num_diverges (t pt : Z) (suf : list Z) (attr_len : Z) :
  0 < attr_len -> forall fuel,
  tuya_ai_get_attr_num fuel (be 2 t ++ [pt] ++ be 4 (4294967296 - 7) ++ suf) attr_len = Some None.
Proof.
  intros Hl fuel. unfold tuya_ai_get_attr_num. generalize 0 at 2 as idx. induction fuel as [|fuel IH]; intros idx; cbn [num_loop];
    case_bool; try lia; [done|]. cbn [negb].
  change (u32 (u32 (0 + 2) + 1)) with 3. rewrite (app_assoc (be 2 t)).
  rewrite (slice_mid_n (be 2 t ++ [pt])) by (rewrite ?zlen_app, ?zlen_be; done). cbn [mbind option_bind].
  change (u32 (u32 (3 + 4) + u32 (UNI_NTOHL (le_val (be 4 (4294967296 - 7)))))) with 0.
  rewrite <- (app_assoc (be 2 t)). apply IH.
Qed.

Lemma ai_attr_num_diverges_witness :
  tuya_ai_get_attr_num 1000 (be 2 AI_ATTR_USER_DATA ++ [ATTR_PT_BYTES] ++ be 4 (4294967296 - 7) ++ []) 7 = Some None.
Proof. apply (ai_attr_num_diverges AI_ATTR_USER_DATA ATTR_PT_BYTES [] 7). lia. Defined.

(** A string of which no copy could be made is packed through its null pointer. *)
Example ai_strdup_failure :
  (a ← tuya_ai_create_attribute (fun n => negb (n =? 3)) AI_ATTR_CONNECTION_ID ATTR_PT_STR (cstr (str "id")) 2;
   attrs ← mapM id [a];
   tuya_pack_user_attrs (fun _ => true) attrs) = None.
Proof. vm_compute. reflexivity. Qed.

(** An attribute with an empty string is built and sent, and refused by the parser. *)
Example ai_empty_string_refused :
  ('(_, attrs) ← created [tuya_ai_create_attribute (fun _ => true) AI_ATTR_FILE_NAME ATTR_PT_STR (cstr []) 0];
   '(_, buf) ← tuya_pack_user_attrs (fun _ => true) attrs;
   buf ← buf;
   tuya_parse_user_attrs (fun _ => true) 1 buf (zlen buf)) = Some (Some (OPRT_COM_ERROR, None)).
Proof. vm_compute. reflexivity. Qed.
