(* ===== verification/AiPacket.v ===== *)
(** The packets of the AI channel, version 1 with security level 4:
    [src/tuya_ai_service/svc_ai_basic/src/tuya_ai_protocol.c], writing, fragmenting,
    signing and encrypting a payload, and reading it back. *)
From Stdlib Require Import ZArith Lia.
From stdpp Require Import base tactics option list numbers.
From S2P Require Import Prelude Text Endian Cipher Hash Tools AiAttr.

Local Open Scope Z_scope.

Definition AI_VERSION : Z := 1.
Definition AI_KEY_LEN : Z := 32.
Definition AI_IV_LEN : Z := 16.
Definition AI_SIGN_LEN : Z := 32.
Definition AI_GCM_TAG_LEN : Z := 16.
Definition AI_ADD_PKT_LEN : Z := 128.
Definition AI_PACKET_SL0 : Z := 0.
Definition AI_PACKET_SL2 : Z := 2.
Definition AI_PACKET_SL3 : Z := 3.
Definition AI_PACKET_SL4 : Z := 4.
Definition AI_PACKET_NO_FRAG : Z := 0.
Definition AI_PACKET_FRAG_START : Z := 1.
Definition AI_PACKET_FRAG_ING : Z := 2.
Definition AI_PACKET_FRAG_END : Z := 3.
Definition AI_PT_CLIENT_HELLO : Z := 1.
Definition AI_PT_VIDEO : Z := 30.
Definition AI_PT_AUDIO : Z := 31.
Definition AI_PT_IMAGE : Z := 32.
Definition AI_PT_FILE : Z := 33.
Definition AI_PT_TEXT : Z := 34.
Definition OPRT_RESOURCE_NOT_READY : Z := -23.

(** [SIZEOF(AI_PACKET_HEAD_T)], [SIZEOF(AI_PAYLOAD_HEAD_T)] and the media heads. *)
Definition PACKET_HEAD_SIZE : Z := 5.
Definition PAYLOAD_HEAD_SIZE : Z := 1.
Definition AV_HEAD_SIZE : Z := 23.
Definition IMAGE_HEAD_SIZE : Z := 15.
Definition FILE_HEAD_SIZE : Z := 7.

(** * The transport

    What [tuya_transporter_read] will find: bytes that have arrived together, or a failing
    call. When nothing is left the peer has closed. [tx] holds the answers of the next
    calls of [tuya_transporter_write]; when it is empty everything is accepted. *)
Inductive rx_item := rx_data (b : list Z) | rx_err (rc : Z).
Record transport := { rx : list rx_item; tx : list Z; sent_bytes : list Z }.

(** The return value, the bytes put into the buffer and what is left. *)
Definition tuya_transporter_read (t : transport) (len : Z) : Z * list Z * transport :=
  let left l := {| rx := l; tx := tx t; sent_bytes := sent_bytes t |} in
  match rx t with
  | [] => (0, [], t)
  | rx_err rc :: l => (Z.min rc 0, [], left l)
  | rx_data b :: l =>
      if zlen b <=? len then (zlen b, b, left l)
      else (len, take (Z.to_nat len) b, left (rx_data (drop (Z.to_nat len) b) :: l))
  end.

Definition tuya_transporter_write (t : transport) (buf : list Z) : Z * transport :=
  let rt := match tx t with [] => zlen buf | n :: _ => Z.min n (zlen buf) end in
  (rt, {| rx := rx t; tx := tl (tx t); sent_bytes := sent_bytes t ++ take (Z.to_nat rt) buf |}).

(** * The state *)

Record AI_RECV_FRAG_MNG_T := { r_frag_flag : Z; r_offset : Z; r_data : option (list Z) }.

(** [send_frag_mng] are the five offsets. [iv_mask] and [rsa_public_key] belong to
    version 2; [recv_buf] is cleared at each read. *)
Record AI_BASIC_PROTO_T := {
  transporter : option transport;
  crypt_key : list Z; sign_key : list Z;
  sequence_in : Z; sequence_out : Z;
  crypt_random : list Z; sign_random : list Z;
  sl : Z; connected : bool; connection_id : option (list Z);
  encrypt_iv : list Z; decrypt_iv : list Z;
  recv_frag_mng : AI_RECV_FRAG_MNG_T; send_frag_mng : list Z;
  frag_flag : bool; file_seq : Z; text_seq : Z
}.

Definition with_transporter (p : AI_BASIC_PROTO_T) (t : option transport) : AI_BASIC_PROTO_T :=
  {| transporter := t; crypt_key := crypt_key p; sign_key := sign_key p; sequence_in := sequence_in p; sequence_out := sequence_out p;
     crypt_random := crypt_random p; sign_random := sign_random p; sl := sl p; connected := connected p; connection_id := connection_id p;
     encrypt_iv := encrypt_iv p; decrypt_iv := decrypt_iv p; recv_frag_mng := recv_frag_mng p; send_frag_mng := send_frag_mng p;
     frag_flag := frag_flag p; file_seq := file_seq p; text_seq := text_seq p |}.
Definition with_sequence (p : AI_BASIC_PROTO_T) (i o : Z) : AI_BASIC_PROTO_T :=
  {| transporter := transporter p; crypt_key := crypt_key p; sign_key := sign_key p; sequence_in := i; sequence_out := o;
     crypt_random := crypt_random p; sign_random := sign_random p; sl := sl p; connected := connected p; connection_id := connection_id p;
     encrypt_iv := encrypt_iv p; decrypt_iv := decrypt_iv p; recv_frag_mng := recv_frag_mng p; send_frag_mng := send_frag_mng p;
     frag_flag := frag_flag p; file_seq := file_seq p; text_seq := text_seq p |}.
Definition with_recv (p : AI_BASIC_PROTO_T) (iv : list Z) (m : AI_RECV_FRAG_MNG_T) : AI_BASIC_PROTO_T :=
  {| transporter := transporter p; crypt_key := crypt_key p; sign_key := sign_key p; sequence_in := sequence_in p; sequence_out := sequence_out p;
     crypt_random := crypt_random p; sign_random := sign_random p; sl := sl p; connected := connected p; connection_id := connection_id p;
     encrypt_iv := encrypt_iv p; decrypt_iv := iv; recv_frag_mng := m; send_frag_mng := send_frag_mng p;
     frag_flag := frag_flag p; file_seq := file_seq p; text_seq := text_seq p |}.
Definition with_send_frag (p : AI_BASIC_PROTO_T) (l : list Z) : AI_BASIC_PROTO_T :=
  {| transporter := transporter p; crypt_key := crypt_key p; sign_key := sign_key p; sequence_in := sequence_in p; sequence_out := sequence_out p;
     crypt_random := crypt_random p; sign_random := sign_random p; sl := sl p; connected := connected p; connection_id := connection_id p;
     encrypt_iv := encrypt_iv p; decrypt_iv := decrypt_iv p; recv_frag_mng := recv_frag_mng p; send_frag_mng := l;
     frag_flag := frag_flag p; file_seq := file_seq p; text_seq := text_seq p |}.

(** [memset] to zero. *)
Definition frag_idle : AI_RECV_FRAG_MNG_T := {| r_frag_flag := AI_PACKET_NO_FRAG; r_offset := 0; r_data := None |}.

(** A writer of the caller: what its [update] answers in the stages [PRE_WRITE] and
    [GET_SEQUENCE], if it has one, and the code of its [write]. *)
Record AI_PACKET_WRITER_T := { w_update : option (Z * Z); w_write : list Z -> Z }.

(** [data] is the memory at the pointer; no attribute is [NULL] (see
    [ai_check_attr_created]). *)
Record AI_SEND_PACKET_T := {
  p_type : Z; attrs : list AI_ATTRIBUTE_T; total_len : Z; len : Z; data : list Z; writer : option AI_PACKET_WRITER_T }.

Definition with_data (i : AI_SEND_PACKET_T) (d : list Z) (n : Z) : AI_SEND_PACKET_T :=
  {| p_type := p_type i; attrs := attrs i; total_len := total_len i; len := n; data := d; writer := writer i |}.

(** The flags byte of [AI_PACKET_HEAD_T], least significant field first. *)
Definition head_flags (iv_flag : bool) (sl frag : Z) : Z :=
  Z.lor (Z.b2z iv_flag) (Z.lor (Z.shiftl (Z.land sl 31) 1) (Z.shiftl (Z.land frag 3) 6)).
Definition flags_iv (b : Z) : bool := negb (Z.land b 1 =? 0).
Definition flags_frag (b : Z) : Z := Z.land (Z.shiftr b 6) 3.

(** [AI_PAYLOAD_HEAD_T]. *)
Definition payload_head (has_attr : bool) (type : Z) : Z := Z.lor (Z.b2z has_attr) (Z.shiftl (Z.land type 127) 1).
Definition head_attr (b : Z) : bool := negb (Z.land b 1 =? 0).
Definition head_type (b : Z) : Z := Z.land (Z.shiftr b 1) 127.

Definition next_seq (s : Z) : Z := let s := u16 (s + 1) in if s =? 0 then 1 else s.

(** * Lengths *)

Definition ai_get_sl (p : AI_BASIC_PROTO_T) (info : option AI_SEND_PACKET_T) (is_decrypt : bool) : option Z :=
  if match info with Some i => bool_decide (is_Some (writer i)) | None => false end then Some AI_PACKET_SL0
  else if is_decrypt then Some (sl p)
  else i ← info; if p_type i =? AI_PT_CLIENT_HELLO then Some AI_PACKET_SL0 else Some (sl p).

(** The flags are the fourth byte. *)
Definition ai_get_head_len (buf : list Z) : option Z :=
  b ← rd buf 3;
  Some (PACKET_HEAD_SIZE + (if flags_iv b then AI_IV_LEN else 0) + 4).

Definition ai_get_packet_len (buf : list Z) : option Z :=
  b ← rd buf 3;
  l ← slice buf (PACKET_HEAD_SIZE + (if flags_iv b then AI_IV_LEN else 0)) 4;
  Some (u32 (UNI_NTOHL (le_val l))).

Definition ai_get_payload_len (buf : list Z) : option Z :=
  n ← ai_get_packet_len buf; Some (u32 (n - AI_SIGN_LEN)).

Definition ai_get_send_attr_len (info : AI_SEND_PACKET_T) : Z :=
  if bool_decide (attrs info = []) then 0 else attrs_size (attrs info) 4.

Definition tuya_ai_is_need_attr (frag : Z) : bool := (frag =? AI_PACKET_NO_FRAG) || (frag =? AI_PACKET_FRAG_START).

Definition ai_get_send_payload_len (info : AI_SEND_PACKET_T) (frag : Z) : Z :=
  u32 ((if tuya_ai_is_need_attr frag then u32 (u32 (PAYLOAD_HEAD_SIZE + ai_get_send_attr_len info) + 4) else 0) + len info).

Definition ai_is_need_iv (info : AI_SEND_PACKET_T) (frag : Z) : bool :=
  if bool_decide (is_Some (writer info)) then false
  else negb ((AI_PT_CLIENT_HELLO =? p_type info) || (AI_PACKET_FRAG_ING =? frag) || (AI_PACKET_FRAG_END =? frag)).

Definition ai_get_send_pkt_len (p : AI_BASIC_PROTO_T) (info : AI_SEND_PACKET_T) (frag : Z) : option Z :=
  type ← ai_get_sl p (Some info) false;
  let len := PACKET_HEAD_SIZE + (if ai_is_need_iv info frag then AI_IV_LEN else 0) + 4 in
  let len := u32 (len + ai_get_send_payload_len info frag) in
  let len := u32 (len + AI_SIGN_LEN) in
  Some (if negb (type =? AI_PACKET_SL0) then u32 (len + AI_ADD_PKT_LEN) else len).

Section Packets.
Context `{!MbedtlsCipher} (sha256 : Md) (malloc : Z -> bool) (szw ctx_size : Z).
(** [AI_MAX_FRAGMENT_LENGTH], and whether plain [char] is signed. *)
Context (max_fragment : Z) (char_signed : bool).

(** The return code and the signature. *)
Definition ai_packet_sign (p : AI_BASIC_PROTO_T) (buf : list Z) : option (Z * list Z) :=
  head_len ← ai_get_head_len buf;
  payload_len ← ai_get_payload_len buf;
  if u32 (head_len + payload_len) <=? 64 then
    d ← slice buf 0 (u32 (head_len + payload_len));
    tal_sha256_mac sha256 malloc ctx_size (sign_key p) AI_KEY_LEN d (u32 (head_len + payload_len))
  else
    a ← slice buf 0 32;
    b ← slice buf (head_len + (if 32 <? payload_len then payload_len - 32 else 0)) (if 32 <? payload_len then 32 else payload_len);
    d ← blit (zrepl 64 0) 0 (a ++ b);
    tal_sha256_mac sha256 malloc ctx_size (sign_key p) AI_KEY_LEN d 64.

(** * Encryption *)

(** The buffer and the padded length. *)
Definition ai_encrypt_add_pkcs (p : list Z) (len : Z) : option (list Z * Z) :=
  let cz := if len <? 16 then 16 - len else 16 - len mod 16 in
  p ← blit p len (zrepl cz cz);
  Some (p, len + cz).

(** [output] is the memory from the pointer on. The branches of the levels 2 and 3 are
    compiled out, and level 6 belongs to version 2: the result is the code, the memory and
    [*en_len], which is 0 before. *)
Definition ai_encrypt_packet (p : AI_BASIC_PROTO_T) (info : AI_SEND_PACKET_T) (data : list Z) (len : Z) (output : list Z)
  : option (Z * list Z * Z) :=
  sl ← ai_get_sl p (Some info) false;
  if (sl =? AI_PACKET_SL2) || (sl =? AI_PACKET_SL3) then Some (OPRT_OK, output, 0)
  else if sl =? AI_PACKET_SL4 then
    d ← slice data 0 len;
    output ← blit output 0 d;
    '(output, data_out_len) ← ai_encrypt_add_pkcs output len;
    '(rt, r) ← mbedtls_cipher_auth_encrypt_wrapper malloc szw
      (Some (gcm_params MBEDTLS_CIPHER_AES_256_GCM (crypt_key p) (encrypt_iv p) [] output AI_KEY_LEN AI_IV_LEN 0 data_out_len))
      AI_GCM_TAG_LEN;
    match r with
    | Some (out, tag) =>
        output ← blit output 0 out;
        output ← blit output (zlen out) tag;
        Some (rt, output, zlen out + AI_GCM_TAG_LEN)
    | None =>
        output ← blit output 0 (zrepl AI_GCM_TAG_LEN 0);
        Some (rt, output, AI_GCM_TAG_LEN)
    end
  else if sl =? AI_PACKET_SL0 then
    d ← slice data 0 len;
    output ← blit output 0 d;
    Some (OPRT_OK, output, len)
  else Some (OPRT_COM_ERROR, output, 0).

(** [data] is the memory from the payload on; the result is the code, [output] and
    [*de_len]. *)
Definition ai_decrypt_packet (p : AI_BASIC_PROTO_T) (data : list Z) (len : Z) (output : list Z) : option (Z * list Z * Z) :=
  sl ← ai_get_sl p None true;
  if (sl =? AI_PACKET_SL2) || (sl =? AI_PACKET_SL3) then Some (OPRT_OK, output, 0)
  else if sl =? AI_PACKET_SL4 then
    '(rt, r) ← mbedtls_cipher_auth_decrypt_wrapper malloc szw
      (Some (gcm_params MBEDTLS_CIPHER_AES_256_GCM (crypt_key p) (decrypt_iv p) [] data AI_KEY_LEN AI_IV_LEN 0 (u32 (len - AI_GCM_TAG_LEN))))
      (drop (Z.to_nat (len - AI_GCM_TAG_LEN)) data) AI_GCM_TAG_LEN;
    '(output, de_len) ← match r with Some out => o ← blit output 0 out; Some (o, zlen out) | None => Some (output, 0) end;
    if negb (rt =? OPRT_OK) then Some (rt, output, de_len)
    else
      c ← rd output (u32 (de_len - 1));
      Some (OPRT_OK, output, u32 (de_len - (if char_signed then s8 c else c)))
  else if sl =? AI_PACKET_SL0 then
    d ← slice data 0 len;
    output ← blit output 0 d;
    Some (OPRT_OK, output, len)
  else Some (OPRT_COM_ERROR, output, 0).

(** * Writing *)

(** The attributes part of the payload: code, buffer and offset. *)
Definition put_attr_part (info : AI_SEND_PACKET_T) (buf : list Z) : option (Z * list Z * Z) :=
  if bool_decide (attrs info = []) then Some (OPRT_OK, buf, PAYLOAD_HEAD_SIZE)
  else
    buf ← blit buf PAYLOAD_HEAD_SIZE (le_bytes 4 (UNI_HTONL (u32 (ai_get_send_attr_len info - 4))));
    put_attrs (attrs info) buf (PAYLOAD_HEAD_SIZE + 4).

(** [payload_buf] is the memory from the pointer on; the result is the code, that memory
    and [*payload_len]. *)
Definition ai_pack_payload (p : AI_BASIC_PROTO_T) (info : AI_SEND_PACKET_T) (payload_buf : list Z) (frag origin_len : Z)
  : option (Z * list Z * Z) :=
  let packet_len := ai_get_send_payload_len info frag in
  if negb (malloc packet_len) then Some (OPRT_MALLOC_FAILED, payload_buf, 0)
  else
    let buf := zrepl packet_len 0 in
    '(rt, buf, offset) ←
      (if tuya_ai_is_need_attr frag then
         '(rt, buf, offset) ← put_attr_part info buf;
         if negb (rt =? OPRT_OK) then Some (rt, buf, offset)
         else
           buf ← blit buf 0 [payload_head (negb (bool_decide (attrs info = []))) (p_type info)];
           buf ← blit buf offset (le_bytes 4 (UNI_HTONL origin_len));
           Some (OPRT_OK, buf, u32 (offset + 4))
       else Some (OPRT_OK, buf, 0));
    if negb (rt =? OPRT_OK) then Some (rt, payload_buf, 0)
    else
      d ← slice (data info) 0 (len info);
      buf ← blit buf offset d;
      ai_encrypt_packet p info buf packet_len payload_buf.

(** [while (remaining_len > 0)]: at most one round for each byte. *)
Fixpoint write_loop (fuel : nat) (t : transport) (buf : list Z) : Z * transport :=
  if zlen buf <=? 0 then (OPRT_OK, t)
  else
    match fuel with
    | O => (OPRT_COM_ERROR, t)
    | S fuel =>
        let '(rt, t) := tuya_transporter_write t buf in
        if 0 <? rt then write_loop fuel t (drop (Z.to_nat rt) buf) else (OPRT_COM_ERROR, t)
    end.

Definition default_write (t : option transport) (buf : list Z) : Z * option transport :=
  match t with
  | None => (OPRT_INVALID_PARM, None)
  | Some t =>
      if zlen buf =? 0 then (OPRT_INVALID_PARM, Some t)
      else let '(rt, t) := write_loop (length buf) t buf in (rt, Some t)
  end.

(** The sequence number of the packet: the state, and the number or the code with which
    the writer refuses. *)
Definition take_sequence (p : AI_BASIC_PROTO_T) (info : AI_SEND_PACKET_T) : AI_BASIC_PROTO_T * (Z + Z) :=
  match writer info ≫= w_update with
  | Some (rt, sequence) => (p, if negb (rt =? OPRT_OK) then inl rt else inr sequence)
  | None => (with_sequence p (sequence_in p) (next_seq (sequence_out p)), inr (sequence_out p))
  end.

(** The packet in the buffer allocated for it: code and bytes to send. *)
Definition build_packet (p : AI_BASIC_PROTO_T) (info : AI_SEND_PACKET_T) (frag origin_len sequence uncrypt_len : Z)
  : option (Z * list Z) :=
  sl ← ai_get_sl p (Some info) false;
  let iv := ai_is_need_iv info frag in
  buf ← blit (zrepl uncrypt_len 0) 0 ([AI_VERSION] ++ le_bytes 2 (UNI_HTONS sequence) ++ [head_flags iv sl frag] ++ [0]);
  let offset := PACKET_HEAD_SIZE in
  buf ← (if iv then v ← slice (encrypt_iv p) 0 AI_IV_LEN; blit buf offset v else Some buf);
  let offset := offset + (if iv then AI_IV_LEN else 0) + 4 in
  '(rt, out, payload_len) ← ai_pack_payload p info (drop (Z.to_nat offset) buf) frag origin_len;
  let buf := take (Z.to_nat offset) buf ++ out in
  if negb (rt =? OPRT_OK) then Some (rt, [])
  else
    buf ← blit buf (offset - 4) (le_bytes 4 (UNI_HTONL (u32 (payload_len + AI_SIGN_LEN))));
    '(rt, signature) ← ai_packet_sign p buf;
    if negb (rt =? OPRT_OK) then Some (rt, [])
    else
      s ← slice signature 0 AI_SIGN_LEN;
      buf ← blit buf (offset + payload_len) s;
      b ← slice buf 0 (offset + payload_len + AI_SIGN_LEN);
      Some (OPRT_OK, b).

Definition ai_packet_write (p : AI_BASIC_PROTO_T) (info : AI_SEND_PACKET_T) (frag origin_len : Z)
  : option (Z * AI_BASIC_PROTO_T) :=
  let '(p, s) := take_sequence p info in
  match s with
  | inl rt => Some (rt, p)
  | inr sequence =>
      uncrypt_len ← ai_get_send_pkt_len p info frag;
      if max_fragment <? uncrypt_len then Some (OPRT_COM_ERROR, p)
      else if negb (malloc uncrypt_len) then Some (OPRT_MALLOC_FAILED, p)
      else
        '(rt, b) ← build_packet p info frag origin_len sequence uncrypt_len;
        if negb (rt =? OPRT_OK) then Some (rt, p)
        else
          match writer info with
          | Some w => Some (w_write w b, p)
          | None => let '(rt, t) := default_write (transporter p) b in Some (rt, with_transporter p t)
          end
  end.

(** * Sending *)

(** [while (offset < origin_len)]: every round sends at least one byte. *)
Fixpoint frag_loop (fuel : nat) (p : AI_BASIC_PROTO_T) (info : AI_SEND_PACKET_T) (origin_len offset : Z) : option (Z * AI_BASIC_PROTO_T) :=
  if negb (offset <? origin_len) then Some (OPRT_OK, p)
  else
    match fuel with
    | O => None
    | S fuel =>
        let min_pkt_len := PACKET_HEAD_SIZE + 2 * AI_ADD_PKT_LEN in
        let one_packet_len :=
          if offset =? 0 then u32 (max_fragment - min_pkt_len - ai_get_send_attr_len info) else u32 (max_fragment - min_pkt_len) in
        let frag_len := if one_packet_len <? u32 (origin_len - offset) then one_packet_len else u32 (origin_len - offset) in
        let i := with_data info (drop (Z.to_nat offset) (data info)) frag_len in
        '(rt, p) ← ai_packet_write p i
          (if offset =? 0 then AI_PACKET_FRAG_START
           else if u32 (offset + frag_len) =? origin_len then AI_PACKET_FRAG_END else AI_PACKET_FRAG_ING) origin_len;
        if negb (rt =? OPRT_OK) then Some (rt, p) else frag_loop fuel p info origin_len (u32 (offset + frag_len))
    end.

Definition tuya_ai_basic_pkt_send (ai_basic_proto : option AI_BASIC_PROTO_T) (info : AI_SEND_PACKET_T)
  : option (Z * option AI_BASIC_PROTO_T) :=
  match ai_basic_proto with
  | None => Some (OPRT_COM_ERROR, None)
  | Some p =>
      if negb (connected p) then Some (OPRT_COM_ERROR, Some p)
      else
        send_pkt_len ← ai_get_send_pkt_len p info AI_PACKET_NO_FRAG;
        '(rt, p) ← (if send_pkt_len <=? max_fragment then ai_packet_write p info AI_PACKET_NO_FRAG (len info)
                    else frag_loop (Z.to_nat (len info)) p info (len info) 0);
        Some (rt, Some p)
  end.

(** The size of the media head a fragment repeats. *)
Definition biz_head_len (type : Z) : option Z :=
  if (type =? AI_PT_VIDEO) || (type =? AI_PT_AUDIO) then Some AV_HEAD_SIZE
  else if type =? AI_PT_IMAGE then Some IMAGE_HEAD_SIZE
  else if (type =? AI_PT_FILE) || (type =? AI_PT_TEXT) then Some FILE_HEAD_SIZE
  else None.

(** The offset that [update] is asked for is replaced by the one of the table in any
    case. The table has five entries; [SIZEOF] of it is 20. *)
Definition ai_basic_get_send_frag (p : AI_BASIC_PROTO_T) (info : AI_SEND_PACKET_T) : option (AI_BASIC_PROTO_T * AI_SEND_PACKET_T * Z) :=
  let idx := u8 (p_type info - AI_PT_VIDEO) in
  if 20 <=? idx then Some (p, info, AI_PACKET_NO_FRAG)
  else
    let head := default 0 (biz_head_len (p_type info)) in
    let actual_len := if bool_decide (is_Some (biz_head_len (p_type info))) then u32 (len info - head) else 0 in
    let actual_total_len := if bool_decide (is_Some (biz_head_len (p_type info))) then u32 (total_len info - head) else 0 in
    let rest := with_data info (drop (Z.to_nat head) (data info)) (u32 (len info - head)) in
    offset ← rd (send_frag_mng p) idx;
    if offset =? 0 then
      l ← wr (send_frag_mng p) idx (u32 (offset + actual_len));
      Some (with_send_frag p l, info, AI_PACKET_FRAG_START)
    else if u32 (offset + actual_len) =? actual_total_len then
      l ← wr (send_frag_mng p) idx 0;
      Some (with_send_frag p l, rest, AI_PACKET_FRAG_END)
    else if u32 (offset + actual_len) <? actual_total_len then
      l ← wr (send_frag_mng p) idx (u32 (offset + actual_len));
      Some (with_send_frag p l, rest, AI_PACKET_FRAG_ING)
    else
      l ← wr (send_frag_mng p) idx 0;
      Some (with_send_frag p l, info, AI_PACKET_NO_FRAG).

Definition ai_basic_reset_send_frag (ai_basic_proto : option AI_BASIC_PROTO_T) (type : Z) : option (option AI_BASIC_PROTO_T) :=
  p ← ai_basic_proto;
  l ← wr (send_frag_mng p) (u8 (type - AI_PT_VIDEO)) 0;
  Some (Some (with_send_frag p l)).

Definition tuya_ai_basic_pkt_frag_send (ai_basic_proto : option AI_BASIC_PROTO_T) (info : AI_SEND_PACKET_T)
  : option (Z * option AI_BASIC_PROTO_T) :=
  if max_fragment <? len info then Some (OPRT_COM_ERROR, ai_basic_proto)
  else
    match ai_basic_proto with
    | None => p ← ai_basic_reset_send_frag None (p_type info); Some (OPRT_COM_ERROR, p)
    | Some p =>
        if negb (connected p) then
          p ← ai_basic_reset_send_frag (Some p) (p_type info); Some (OPRT_COM_ERROR, p)
        else
          '(p, info, frag) ← ai_basic_get_send_frag p info;
          '(rt, p) ← ai_packet_write p info frag (total_len info);
          if negb (rt =? OPRT_OK) then p ← ai_basic_reset_send_frag (Some p) (p_type info); Some (rt, p)
          else Some (rt, Some p)
    end.

(** * Reading *)

(** [while (total_recv_len < need_recv_len)] of the head: the code of the last read, or the
    bytes. *)
Fixpoint head_loop (fuel : nat) (t : transport) (need : Z) (got : list Z) : Z * list Z * transport :=
  if need <=? zlen got then (zlen got, got, t)
  else
    match fuel with
    | O => (OPRT_COM_ERROR, got, t)
    | S fuel =>
        let '(rc, b, t) := tuya_transporter_read t (need - zlen got) in
        if rc <=? 0 then (rc, got, t) else head_loop fuel t need (got ++ b)
    end.

(** The length of the head or the error, the head, the transport and [decrypt_iv]. *)
Definition ai_baisc_read_pkt_head (t : transport) (decrypt_iv : list Z) : option (Z * list Z * transport * list Z) :=
  let '(rc, head, t) := head_loop (Z.to_nat PACKET_HEAD_SIZE) t PACKET_HEAD_SIZE [] in
  if zlen head <? PACKET_HEAD_SIZE then Some (if bool_decide (head = []) then rc else OPRT_COM_ERROR, head, t, decrypt_iv)
  else
    b ← rd head 3;
    let need := 4 + (if flags_iv b then AI_IV_LEN else 0) in
    let '(rc, more, t) := head_loop (Z.to_nat need) t need [] in
    if zlen more <? need then Some (OPRT_COM_ERROR, head ++ more, t, decrypt_iv)
    else
      iv ← (if flags_iv b then v ← slice more 0 AI_IV_LEN; blit decrypt_iv 0 v else Some decrypt_iv);
      Some (PACKET_HEAD_SIZE + need, head ++ more, t, iv).

(** [while (packet_len + head_len > offset)]: [buf] is [recv_buf] and [last] the result of
    the last read; one read that is not ready is repeated. The result is the new [recv_len]
    and whether the body is complete. *)
Fixpoint body_loop (fuel : nat) (t : transport) (buf : list Z) (total offset last : Z) (timeout : bool)
  : option (Z * bool * list Z * transport) :=
  if total <=? offset then Some (last, true, buf, t)
  else
    match fuel with
    | O => None
    | S fuel =>
        let '(rc, b, t) := tuya_transporter_read t (total - offset) in
        if rc <=? 0 then
          if (rc =? OPRT_RESOURCE_NOT_READY) && negb timeout then body_loop fuel t buf total offset rc true
          else Some (OPRT_COM_ERROR, false, buf, t)
        else
          buf ← blit buf offset b;
          body_loop fuel t buf total (offset + rc) rc timeout
    end.

(** How the first part of [tuya_ai_basic_pkt_read] ends: at the label [EXIT] with the value
    it returns, with a return, or with the decrypted packet: its fragment flag, the buffer,
    the length and [recv_len]. *)
Inductive read_end := at_exit (rc : Z) | returned (rc : Z) | packet (frag : Z) (decrypt_buf : list Z) (decrypt_len recv_len : Z).

Definition read_packet (p : AI_BASIC_PROTO_T) : option (read_end * AI_BASIC_PROTO_T) :=
  match transporter p with
  | None => Some (at_exit OPRT_INVALID_PARM, p)
  | Some t =>
  '(recv_len, head, t, iv) ← ai_baisc_read_pkt_head t (decrypt_iv p);
  let p := with_transporter (with_recv p iv (recv_frag_mng p)) (Some t) in
  if recv_len <=? 0 then Some (at_exit recv_len, p)
  else
    recv_buf ← blit (zrepl (max_fragment + AI_ADD_PKT_LEN) 0) 0 head;
    head_len ← ai_get_head_len recv_buf;
    packet_len ← ai_get_packet_len recv_buf;
    if max_fragment + AI_ADD_PKT_LEN <? u32 (packet_len + head_len) then Some (at_exit OPRT_RESOURCE_NOT_READY, p)
    else
      s ← slice recv_buf 1 2;
      let sequence := UNI_NTOHS (le_val s) in
      if sequence <=? sequence_in p then Some (at_exit recv_len, p)
      else
        let p := with_sequence p (if 0xFFFF <=? sequence then 0 else sequence) (sequence_out p) in
        let total := u32 (packet_len + head_len) in
        '(recv_len, whole, recv_buf, t) ← body_loop (S (Z.to_nat (total - recv_len))) t recv_buf total recv_len recv_len false;
        let p := with_transporter p (Some t) in
        if negb whole then Some (at_exit recv_len, p)
        else
          '(rt, calc_sign) ← ai_packet_sign p recv_buf;
          if negb (rt =? OPRT_OK) then Some (at_exit recv_len, p)
          else
            payload_len ← ai_get_payload_len recv_buf;
            packet_sign ← slice recv_buf (head_len + payload_len) AI_SIGN_LEN;
            calc_sign ← slice calc_sign 0 AI_SIGN_LEN;
            if negb (bool_decide (calc_sign = packet_sign)) then Some (at_exit OPRT_RESOURCE_NOT_READY, p)
            else
              let size := u32 (u32 (packet_len + head_len) + AI_ADD_PKT_LEN) in
              if negb (malloc size) then Some (returned OPRT_MALLOC_FAILED, p)
              else
                '(rt, decrypt_buf, decrypt_len) ← ai_decrypt_packet p (drop (Z.to_nat head_len) recv_buf) payload_len (zrepl size 0);
                if negb (rt =? OPRT_OK) then Some (at_exit recv_len, p)
                else
                  b ← rd recv_buf 3;
                  Some (packet (flags_frag b) decrypt_buf decrypt_len recv_len, p)
  end.

(** The label [EXIT]. *)
Definition exit_state (p : AI_BASIC_PROTO_T) : AI_BASIC_PROTO_T := with_recv p (decrypt_iv p) frag_idle.

(** The start of a fragmented packet: the new [recv_frag_mng], or [None] for a packet that
    is refused. *)
Definition frag_start (decrypt_buf : list Z) (decrypt_len : Z) : option (option AI_RECV_FRAG_MNG_T) :=
  b ← rd decrypt_buf 0;
  '(frag_offset, origin_len) ←
    (if head_attr b then
       l ← slice decrypt_buf PAYLOAD_HEAD_SIZE 4;
       let frag_offset := u32 (PAYLOAD_HEAD_SIZE + 4 + u32 (UNI_NTOHL (le_val l))) in
       o ← slice decrypt_buf frag_offset 4;
       Some (frag_offset, u32 (UNI_NTOHL (le_val o)))
     else
       o ← slice decrypt_buf PAYLOAD_HEAD_SIZE 4;
       Some (0, u32 (UNI_NTOHL (le_val o))));
  if origin_len <=? decrypt_len then Some None
  else
    let frag_total_len := u32 (u32 (origin_len + frag_offset) + AI_ADD_PKT_LEN) in
    if negb (malloc frag_total_len) then Some None
    else
      d ← slice decrypt_buf 0 decrypt_len;
      mem ← blit (zrepl frag_total_len 0) 0 d;
      Some (Some {| r_frag_flag := AI_PACKET_FRAG_START; r_offset := decrypt_len; r_data := Some mem |}).

(** A fragment behind the first one. *)
Definition frag_append (p : AI_BASIC_PROTO_T) (decrypt_buf : list Z) (decrypt_len frag : Z) : option AI_RECV_FRAG_MNG_T :=
  mem ← r_data (recv_frag_mng p);
  d ← slice decrypt_buf 0 decrypt_len;
  mem ← blit mem (r_offset (recv_frag_mng p)) d;
  Some {| r_frag_flag := frag; r_offset := u32 (r_offset (recv_frag_mng p) + decrypt_len); r_data := Some mem |}.

(** The return code, the state and [*out], [*out_len], [*out_frag] if they are set; the
    outer [None] is a fault, [Some None] says that the fuel, one unit for each packet, is
    used up. *)
Fixpoint tuya_ai_basic_pkt_read (fuel : nat) (p : AI_BASIC_PROTO_T)
  : option (option (Z * AI_BASIC_PROTO_T * option (list Z * Z * Z))) :=
  match fuel with
  | O => Some None
  | S fuel =>
      '(r, p) ← read_packet p;
      match r with
      | at_exit rc => Some (Some (rc, exit_state p, None))
      | returned rc => Some (Some (rc, p, None))
      | packet frag decrypt_buf decrypt_len recv_len =>
          let m := recv_frag_mng p in
          let continue m :=
            r ← tuya_ai_basic_pkt_read fuel (with_recv p (decrypt_iv p) m);
            match r with
            | None => Some None
            | Some (rt, p, out) =>
                if negb (rt =? OPRT_OK) then Some (Some (recv_len, exit_state p, out)) else Some (Some (rt, p, out))
            end in
          if frag_flag p then Some (Some (OPRT_OK, p, Some (decrypt_buf, decrypt_len, frag)))
          else if ((r_frag_flag m =? AI_PACKET_FRAG_START) || (r_frag_flag m =? AI_PACKET_FRAG_ING))
                  && negb ((frag =? AI_PACKET_FRAG_ING) || (frag =? AI_PACKET_FRAG_END)) then
            Some (Some (recv_len, exit_state p, None))
          else if frag =? AI_PACKET_FRAG_START then
            m ← frag_start decrypt_buf decrypt_len;
            match m with None => Some (Some (recv_len, exit_state p, None)) | Some m => continue m end
          else if frag =? AI_PACKET_FRAG_ING then
            m ← frag_append p decrypt_buf decrypt_len frag;
            continue m
          else if frag =? AI_PACKET_FRAG_END then
            m ← frag_append p decrypt_buf decrypt_len frag;
            d ← r_data m;
            Some (Some (OPRT_OK, with_recv p (decrypt_iv p) m, Some (d, r_offset m, AI_PACKET_NO_FRAG)))
          else Some (Some (OPRT_OK, p, Some (decrypt_buf, decrypt_len, AI_PACKET_NO_FRAG)))
      end
  end.

(** [tuya_ai_basic_pkt_free]: [owned] says that the buffer is the one of [recv_frag_mng]. *)
Definition tuya_ai_basic_pkt_free (p : AI_BASIC_PROTO_T) (owned : bool) : AI_BASIC_PROTO_T := if owned then exit_state p else p.

(** [tuya_ai_basic_get_pkt_type]. *)
Definition tuya_ai_basic_get_pkt_type (buf : list Z) : option Z := b ← rd buf 0; Some (head_type b).
End Packets.

(** * The wire format *)

(** What is signed of a packet: all of it up to 64 bytes, otherwise its ends. *)
Definition sign_text (b : list Z) : list Z :=
  if zlen b <=? 64 then b else take 32 b ++ drop (Z.to_nat (zlen b - 32)) b.

(** The payload of an unfragmented packet or of the first fragment: [d] is its data. *)
Definition plain_payload (info : AI_SEND_PACKET_T) (origin_len : Z) (d : list Z) : list Z :=
  [payload_head (negb (bool_decide (attrs info = []))) (p_type info)]
  ++ (if bool_decide (attrs info = []) then [] else be 4 (zlen (attrs_wire (attrs info))) ++ attrs_wire (attrs info))
  ++ be 4 origin_len ++ d.

Section Format.
Context `{!MbedtlsCipher} (dg : list Z -> list Z).

(** The packet of a payload: under the key [key] and the vector [iv] the cipher gives [ct]
    and [tag], and the signature is the MAC under [skey]. *)
Definition packet_head (iv : list Z) (ivf : bool) (frag seq n : Z) : list Z :=
  [AI_VERSION] ++ be 2 seq ++ [head_flags ivf AI_PACKET_SL4 frag] ++ [0] ++ (if ivf then iv else []) ++ be 4 n.

Definition packet_wire (key skey iv : list Z) (ivf : bool) (frag seq : Z) (plain w : list Z) : Prop :=
  exists ct tag cz, 1 <= cz <= 16 /\ zlen ct = zlen plain + cz /\ 16 <= zlen ct /\ zlen tag = AI_GCM_TAG_LEN
    /\ auth_encrypt_ext MBEDTLS_CIPHER_AES_256_GCM key iv [] (plain ++ zrepl cz cz) 16 = (0, ct ++ tag)
    /\ let body := packet_head iv ivf frag seq (zlen ct + AI_GCM_TAG_LEN + AI_SIGN_LEN) ++ ct ++ tag in
       w = body ++ hmac dg skey (sign_text body).
End Format.

Lemma flags_ok ivf frag : 0 <= frag < 4 ->
  flags_iv (head_flags ivf AI_PACKET_SL4 frag) = ivf /\ flags_frag (head_flags ivf AI_PACKET_SL4 frag) = frag.
Proof.
  intros Hf. assert (frag = 0 \/ frag = 1 \/ frag = 2 \/ frag = 3) as [-> | [-> | [-> | ->]]] by lia; by destruct ivf.
Qed.

Definition head_size (ivf : bool) : Z := PACKET_HEAD_SIZE + (if ivf then AI_IV_LEN else 0) + 4.

Lemma zlen_packet_head iv ivf frag seq n : zlen iv = AI_IV_LEN -> zlen (packet_head iv ivf frag seq n) = head_size ivf.
Proof.
  intros Hi. unfold packet_head, head_size. rewrite !zlen_app, !zlen_be. unfold PACKET_HEAD_SIZE. destruct ivf; rewrite ?Hi; done.
Qed.

(** The readers of the head of a packet. *)
Lemma head_reads iv ivf frag seq n tail :
  zlen iv = AI_IV_LEN -> 0 <= frag < 4 -> is_u32 n ->
  let b := packet_head iv ivf frag seq n ++ tail in
  ai_get_head_len b = Some (head_size ivf) /\ ai_get_packet_len b = Some n
  /\ ai_get_payload_len b = Some (u32 (n - AI_SIGN_LEN)) /\ slice b 1 2 = Some (be 2 seq)
  /\ rd b 3 = Some (head_flags ivf AI_PACKET_SL4 frag).
Proof.
  intros Hi Hf Hn b.
  assert (rd b 3 = Some (head_flags ivf AI_PACKET_SL4 frag)) as E3.
  { unfold b, packet_head. rewrite <- !app_assoc. rewrite (app_assoc [AI_VERSION]).
    exact (rd_mid ([AI_VERSION] ++ be 2 seq) _ _). }
  destruct (flags_ok ivf frag Hf) as [Fi Ff].
  assert (ai_get_packet_len b = Some n) as En.
  { unfold ai_get_packet_len. rewrite E3. cbn [mbind option_bind]. rewrite Fi.
    assert (slice b (PACKET_HEAD_SIZE + (if ivf then AI_IV_LEN else 0)) 4 = Some (be 4 n)) as ->.
    { unfold b, packet_head. rewrite !app_assoc, <- (app_assoc _ (be 4 n)). apply slice_mid_n; [|apply zlen_be].
      rewrite !zlen_app, zlen_be. unfold PACKET_HEAD_SIZE. destruct ivf; rewrite ?Hi; done. }
    cbn [mbind option_bind]. rewrite load_ntohl, u32_small by done. done. }
  split_and!.
  - unfold ai_get_head_len. rewrite E3. cbn [mbind option_bind]. by rewrite Fi.
  - done.
  - unfold ai_get_payload_len. by rewrite En.
  - unfold b, packet_head. rewrite <- !app_assoc. apply (slice_mid_n [AI_VERSION]); [done|apply zlen_be].
  - done.
Qed.

Section Correct.
Context `{!MbedtlsCipher} `{!Aes256Gcm} (sha256 : Md) (malloc : Z -> bool) (szw ctx_size max_fragment : Z) (char_signed : bool).
Context (dg : list Z -> list Z) (absorbed : md_ctx sha256 -> list Z -> Prop) (L : MdLaws sha256 SHA256_SIZE dg absorbed).
Context (Hm : forall n, malloc n = true) (Hszw : 32 <= szw) (Hmax : 1024 <= max_fragment <= 512000).

(** The keys and the vectors in their buffers, which end with a terminator. *)
Definition keys (p : AI_BASIC_PROTO_T) (key skey : list Z) : Prop :=
  (exists k, crypt_key p = key ++ k) /\ (exists k, sign_key p = skey ++ k)
  /\ zlen key = AI_KEY_LEN /\ zlen skey = AI_KEY_LEN /\ bytes_ok skey /\ sl p = AI_PACKET_SL4.

Lemma zlen_hmac k m : zlen (hmac dg k m) = 32.
Proof. unfold hmac. apply (size_law _ _ _ _ L). Qed.

(** ** The signature *)

Lemma take_drop_app {A} (l1 l2 : list A) n : n <= zlen l2 -> 0 <= n ->
  drop (Z.to_nat (zlen (l1 ++ l2) - n)) (l1 ++ l2) = drop (Z.to_nat (zlen l2 - n)) l2.
Proof.
  intros Hn Hp. rewrite zlen_app. replace (Z.to_nat (zlen l1 + zlen l2 - n)) with (length l1 + Z.to_nat (zlen l2 - n))%nat by (unfold zlen in *; lia).
  rewrite <- drop_drop, drop_app_length. done.
Qed.

Lemma packet_sign_ok p key skey iv ivf frag seq body tail n :
  keys p key skey -> zlen iv = AI_IV_LEN -> 0 <= frag < 4 -> n = zlen body + AI_SIGN_LEN -> 32 <= zlen body -> zlen body < 16777216 ->
  ai_packet_sign sha256 malloc ctx_size p (packet_head iv ivf frag seq n ++ body ++ tail)
  = Some (OPRT_OK, hmac dg skey (sign_text (packet_head iv ivf frag seq n ++ body))).
Proof.
  intros (_ & (k & Es) & _ & Hsk & Hskb & _) Hi Hf Hn Hb1 Hb2. unfold ai_packet_sign. unfold AI_SIGN_LEN in Hn.
  destruct (head_reads iv ivf frag seq n (body ++ tail) Hi Hf) as (E1 & _ & E3 & _ & _); [unfold is_u32; lia|].
  rewrite E1, E3. cbn [mbind option_bind]. unfold AI_SIGN_LEN. replace (n - 32) with (zlen body) by lia.
  pose proof (zlen_packet_head iv ivf frag seq n Hi) as Hh. assert (0 < head_size ivf < 64) as Hhs by (destruct ivf; done).
  rewrite (u32_small (zlen body)) by (unfold is_u32; lia). rewrite (u32_small (head_size ivf + zlen body)) by (unfold is_u32; lia).
  set (h := packet_head iv ivf frag seq n) in *. assert (zlen (h ++ body) = head_size ivf + zlen body) as Hz by (rewrite zlen_app; lia).
  assert (forall d, tal_sha256_mac sha256 malloc ctx_size (sign_key p) AI_KEY_LEN d (zlen d) = Some (OPRT_OK, hmac dg skey d)) as Hmac.
  { intros d. rewrite Es, <- Hsk. pose proof (tal_mac_ok sha256 SHA256_SIZE ctx_size malloc dg absorbed L (Hm _) skey k d [] Hskb ltac:(done)) as E.
    by rewrite app_nil_r in E. }
  unfold sign_text. rewrite Hz. destruct (Z.leb_spec (head_size ivf + zlen body) 64).
  - rewrite app_assoc, (slice_prefix_n (h ++ body)) by done. cbn [mbind option_bind]. rewrite <- Hz. apply Hmac.
  - assert (slice (h ++ body ++ tail) 0 32 = Some (take 32 (h ++ body))) as ->.
    { rewrite app_assoc, slice_eq by (rewrite ?zlen_app; pose proof (zlen_nonneg tail); lia). cbn [drop Z.to_nat].
      rewrite drop_0. rewrite take_app_le; [done|]. unfold zlen in *. lia. }
    cbn [mbind option_bind].
    assert (slice (h ++ body ++ tail) (head_size ivf + (if 32 <? zlen body then zlen body - 32 else 0))
              (if 32 <? zlen body then 32 else zlen body) = Some (drop (Z.to_nat (zlen (h ++ body) - 32)) (h ++ body))) as ->.
    { rewrite take_drop_app by lia.
      replace (head_size ivf + (if 32 <? zlen body then zlen body - 32 else 0)) with (zlen (h ++ take (Z.to_nat (zlen body - 32)) body))
        by (rewrite zlen_app, zlen_take by lia; case_bool; lia).
      assert (h ++ body ++ tail = (h ++ take (Z.to_nat (zlen body - 32)) body) ++ drop (Z.to_nat (zlen body - 32)) body ++ tail) as ->.
      { rewrite <- (app_assoc h), (app_assoc (take _ _)), take_drop. done. }
      apply slice_mid_n; [done|]. rewrite zlen_drop by lia. case_bool; lia. }
    cbn [mbind option_bind]. rewrite Hz.
    set (d := take 32 (h ++ body) ++ _). assert (zlen d = 64) as Hd.
    { unfold d. rewrite zlen_app, (zlen_take 32) by lia. rewrite zlen_drop by lia. lia. }
    rewrite blit_front by (rewrite zlen_zrepl; lia). rewrite zdrop_all by (rewrite zlen_zrepl; lia). rewrite app_nil_r.
    cbn [mbind option_bind]. rewrite <- Hd. apply Hmac.
Qed.

(** ** Encryption *)

Definition vector (buf iv : list Z) : Prop := (exists k, buf = iv ++ k) /\ zlen iv = AI_IV_LEN.

Lemma add_pkcs_ok x suf : 16 <= zlen suf ->
  exists cz suf', ai_encrypt_add_pkcs (x ++ suf) (zlen x) = Some ((x ++ zrepl cz cz) ++ suf', zlen x + cz)
    /\ 1 <= cz <= 16 /\ 16 <= zlen x + cz /\ zlen suf' = zlen suf - cz.
Proof.
  intros Hs. pose proof (zlen_nonneg x). exists (16 - zlen x mod 16). pose proof (Z.mod_pos_bound (zlen x) 16).
  unfold ai_encrypt_add_pkcs. replace (if zlen x <? 16 then 16 - zlen x else 16 - zlen x mod 16) with (16 - zlen x mod 16)
    by (case_bool; [rewrite Z.mod_small; lia|done]).
  destruct (blit_step x suf (zrepl (16 - zlen x mod 16) (16 - zlen x mod 16)) (zlen x) eq_refl) as (s' & E & Hl);
    [rewrite zlen_zrepl; lia|]. exists s'. rewrite E. cbn [mbind option_bind]. rewrite zlen_zrepl in Hl by lia.
  split_and!; try done; try lia. destruct (Z.lt_ge_cases (zlen x) 16); [rewrite Z.mod_small; lia|lia].
Qed.

Lemma encrypt_packet_ok p info key skey iv plain output :
  keys p key skey -> vector (encrypt_iv p) iv -> writer info = None -> p_type info <> AI_PT_CLIENT_HELLO ->
  zlen plain + 32 <= zlen output -> zlen plain < 16777216 ->
  exists ct tag cz output',
    ai_encrypt_packet malloc szw p info plain (zlen plain) output
      = Some (OPRT_OK, (ct ++ tag) ++ output', zlen ct + AI_GCM_TAG_LEN)
    /\ zlen output' = zlen output - zlen ct - 16
    /\ 1 <= cz <= 16 /\ zlen ct = zlen plain + cz /\ 16 <= zlen ct /\ zlen tag = AI_GCM_TAG_LEN
    /\ auth_encrypt_ext MBEDTLS_CIPHER_AES_256_GCM key iv [] (plain ++ zrepl cz cz) 16 = (0, ct ++ tag).
Proof.
  intros ((k & Ek) & _ & Hk & _ & _ & Hsl) ((k' & Ei) & Hi) Hw Ht Ho Hp. unfold ai_encrypt_packet, ai_get_sl. rewrite Hw.
  rewrite bool_decide_eq_false_2 by (intros [? ?]; done). cbv iota. cbn [mbind option_bind].
  rewrite (proj2 (Z.eqb_neq _ _) Ht), Hsl. change (AI_PACKET_SL4 =? AI_PACKET_SL4) with true.
  change ((AI_PACKET_SL4 =? AI_PACKET_SL2) || (AI_PACKET_SL4 =? AI_PACKET_SL3))%bool with false. cbv iota. cbn [mbind option_bind].
  rewrite slice_whole by done. cbn [mbind option_bind]. rewrite blit_front by lia. cbn [mbind option_bind].
  pose proof (zlen_nonneg plain).
  destruct (add_pkcs_ok plain (drop (Z.to_nat (zlen plain)) output)) as (cz & suf & Ec & Hcz & H16 & Hsuf); [rewrite zlen_drop; lia|].
  rewrite zlen_drop in Hsuf by lia. rewrite Ec. cbn [mbind option_bind]. rewrite Ek, Ei.
  assert (zlen (plain ++ zrepl cz cz) = zlen plain + cz) as Hz by (rewrite zlen_app, zlen_zrepl by lia; lia).
  destruct (gcm_encrypt_wrapper (ty := MBEDTLS_CIPHER_AES_256_GCM) malloc szw Hm Hszw key k iv k' [] [] (plain ++ zrepl cz cz) suf)
    as (ct & tag & Ew & Hct & Htag & Ha); [done|done|rewrite Hz; lia|].
  rewrite Hz in Ew, Hct. cbn [app] in Ew. change (zlen []) with 0 in Ew.
  change AI_KEY_LEN with 32. change AI_IV_LEN with 16. change AI_GCM_TAG_LEN with 16. rewrite Ew. cbn [mbind option_bind].
  rewrite blit_prefix by lia. cbn [mbind option_bind].
  destruct (blit_step ct suf tag (zlen ct) eq_refl) as (o & -> & Hl); [lia|]. cbn [mbind option_bind].
  exists ct, tag, cz, o. split_and!; (done || lia).
Qed.

Lemma decrypt_packet_ok p key skey iv plain ct tag cz rest size :
  keys p key skey -> vector (decrypt_iv p) iv ->
  1 <= cz <= 16 -> zlen ct = zlen plain + cz -> zlen tag = AI_GCM_TAG_LEN -> zlen ct < 16777216 -> zlen ct <= size ->
  auth_encrypt_ext MBEDTLS_CIPHER_AES_256_GCM key iv [] (plain ++ zrepl cz cz) 16 = (0, ct ++ tag) ->
  exists tail, ai_decrypt_packet malloc szw char_signed p (ct ++ tag ++ rest) (zlen ct + 16) (zrepl size 0)
      = Some (OPRT_OK, plain ++ tail, zlen plain)
    /\ zlen (plain ++ tail) = size.
Proof.
  intros ((k & Ek) & _ & Hk & _ & _ & Hsl) ((k' & Ei) & Hi) Hcz Hct Htag H24 Hsz Ha. unfold ai_decrypt_packet, ai_get_sl.
  cbn [mbind option_bind]. rewrite Hsl. change (AI_PACKET_SL4 =? AI_PACKET_SL4) with true.
  change ((AI_PACKET_SL4 =? AI_PACKET_SL2) || (AI_PACKET_SL4 =? AI_PACKET_SL3))%bool with false. cbv iota. cbn [mbind option_bind].
  change AI_GCM_TAG_LEN with 16 in *. change AI_KEY_LEN with 32 in *. change AI_IV_LEN with 16 in *. pose proof (zlen_nonneg plain).
  replace (zlen ct + 16 - 16) with (zlen ct) by lia. rewrite (u32_small (zlen ct)) by (unfold is_u32; lia). rewrite zdrop_app.
  pose proof (gcm_decrypt_wrapper (ty := MBEDTLS_CIPHER_AES_256_GCM) malloc szw Hm Hszw key k iv k' [] [] (plain ++ zrepl cz cz) ct (tag ++ rest) tag rest
                Hk Hi ltac:(lia) Htag Ha 32) as Ew.
  cbn [app] in Ew. change (zlen []) with 0 in Ew. rewrite Ek, Ei, Ew. cbn [mbind option_bind].
  assert (zlen (plain ++ zrepl cz cz) = zlen plain + cz) as Hz by (rewrite zlen_app, zlen_zrepl by lia; lia).
  rewrite blit_front by (rewrite zlen_zrepl; lia). cbn [mbind option_bind]. change (negb (OPRT_OK =? OPRT_OK)) with false. cbv iota.
  rewrite Hz. rewrite (u32_small (zlen plain + cz - 1)) by (unfold is_u32; lia).
  set (tl := drop _ _). assert (rd ((plain ++ zrepl cz cz) ++ tl) (zlen plain + cz - 1) = Some cz) as ->.
  { assert (zrepl cz cz = zrepl (cz - 1) cz ++ [cz]) as ->.
    { unfold zrepl. replace (Z.to_nat cz) with (Z.to_nat (cz - 1) + 1)%nat by lia. rewrite replicate_add. done. }
    rewrite (app_assoc plain), <- (app_assoc _ [cz]). replace (zlen plain + cz - 1) with (zlen (plain ++ zrepl (cz - 1) cz))
      by (rewrite zlen_app, zlen_zrepl by lia; lia). exact (rd_mid _ _ _). }
  cbn [mbind option_bind]. exists (zrepl cz cz ++ tl). rewrite <- app_assoc.
  assert ((if char_signed then s8 cz else cz) = cz) as ->.
  { destruct char_signed; [|done]. unfold s8, swrap. rewrite Z.mod_small by lia. lia. }
  rewrite u32_small by (unfold is_u32; lia). split; [do 2 f_equal; lia|].
  rewrite app_assoc, zlen_app, Hz. unfold tl. rewrite zlen_drop, zlen_zrepl by (rewrite ?zlen_zrepl; lia). lia.
Qed.

(** ** Building a packet *)

Lemma zlen_plain info o d : zlen (plain_payload info o d)
  = 1 + (if bool_decide (attrs info = []) then 0 else 4 + zlen (attrs_wire (attrs info))) + 4 + zlen d.
Proof. unfold plain_payload. rewrite !zlen_app, zlen_be, zlen_one. case_bool_decide; rewrite ?zlen_app, ?zlen_be; [change (zlen []) with 0|]; lia. Qed.

(** What a request must satisfy to be packed. *)
Definition info_ok (info : AI_SEND_PACKET_T) : Prop :=
  Forall attr_ok (attrs info) /\ zlen (attrs_wire (attrs info)) < 1048576 /\ writer info = None
  /\ p_type info <> AI_PT_CLIENT_HELLO.

Lemma send_attr_len_ok info : info_ok info ->
  ai_get_send_attr_len info = if bool_decide (attrs info = []) then 0 else 4 + zlen (attrs_wire (attrs info)).
Proof.
  intros (Ha & Hl & _ & _). unfold ai_get_send_attr_len. case_bool_decide; [done|]. apply attrs_size_eq; [done|lia|lia].
Qed.

(** The first fragment and the others. *)
Definition fragment (info : AI_SEND_PACKET_T) (frag origin_len : Z) (d : list Z) : list Z :=
  if tuya_ai_is_need_attr frag then plain_payload info origin_len d else d.

Lemma send_payload_len_ok info frag o d d' : info_ok info -> data info = d ++ d' -> len info = zlen d -> zlen d < 8388608 ->
  ai_get_send_payload_len info frag = zlen (fragment info frag o d).
Proof.
  intros Hi Hd Hl Hs. pose proof Hi as (Ha & Hal & _ & _). pose proof (zlen_nonneg (attrs_wire (attrs info))). pose proof (zlen_nonneg d).
  unfold ai_get_send_payload_len, fragment. rewrite Hl. destruct (tuya_ai_is_need_attr frag).
  - rewrite zlen_plain, send_attr_len_ok by done. unfold PAYLOAD_HEAD_SIZE. case_bool_decide; norm_widths; lia.
  - norm_widths. lia.
Qed.

(** The attributes with their length in front. *)
Definition attr_part (info : AI_SEND_PACKET_T) : list Z :=
  if bool_decide (attrs info = []) then [] else be 4 (zlen (attrs_wire (attrs info))) ++ attrs_wire (attrs info).

Lemma zlen_attr_part info : info_ok info -> zlen (attr_part info) = ai_get_send_attr_len info.
Proof. intros Hi. rewrite send_attr_len_ok by done. unfold attr_part. case_bool_decide; rewrite ?zlen_app, ?zlen_be; [done|lia]. Qed.

Lemma put_attr_part_ok info x buf : info_ok info -> zlen (attr_part info) <= zlen buf -> zlen buf < 16777216 ->
  exists suf, put_attr_part info (x :: buf) = Some (OPRT_OK, (x :: attr_part info) ++ suf, 1 + zlen (attr_part info))
    /\ zlen suf = zlen buf - zlen (attr_part info).
Proof.
  intros Hi Hb H24. pose proof Hi as (Ha & Hl & _ & _). pose proof (zlen_nonneg (attrs_wire (attrs info))).
  unfold put_attr_part. rewrite send_attr_len_ok by done. unfold attr_part in *. case_bool_decide as E.
  - exists buf. split; [done|]. change (zlen []) with 0. lia.
  - rewrite zlen_app, zlen_be in *. rewrite (u32_small (4 + _ - 4)) by (unfold is_u32; lia).
    replace (4 + zlen (attrs_wire (attrs info)) - 4) with (zlen (attrs_wire (attrs info))) by lia.
    rewrite store_htonl_be. destruct (blit_step [x] buf (be 4 (zlen (attrs_wire (attrs info)))) PAYLOAD_HEAD_SIZE eq_refl) as (s1 & E1 & L1);
      [rewrite zlen_be; lia|]. cbn [app] in E1. rewrite E1. cbn [mbind option_bind]. rewrite zlen_be in L1.
    destruct (put_attrs_ok (attrs info) (x :: be 4 (zlen (attrs_wire (attrs info)))) s1 Ha) as (s2 & E2 & L2);
      [lia|rewrite zlen_cons, zlen_be; lia|].
    rewrite zlen_cons, zlen_be in E2. change (1 + Z.of_nat 4) with (PAYLOAD_HEAD_SIZE + 4) in E2. cbn [app] in *. rewrite E2.
    exists s2. split; [|lia]. do 2 f_equal. unfold PAYLOAD_HEAD_SIZE. lia.
Qed.

Lemma pack_payload_ok p info frag o d d' pb : info_ok info -> data info = d ++ d' -> len info = zlen d -> zlen d < 8388608 ->
  ai_pack_payload malloc szw p info pb frag o
  = ai_encrypt_packet malloc szw p info (fragment info frag o d) (zlen (fragment info frag o d)) pb.
Proof.
  intros Hi Hd Hl Hs. pose proof Hi as (Ha & Hal & _ & _). pose proof (zlen_nonneg (attrs_wire (attrs info))). pose proof (zlen_nonneg d).
  unfold ai_pack_payload. rewrite (send_payload_len_ok info frag o d d') by done. rewrite Hm. cbn [negb]. unfold fragment.
  rewrite Hd, Hl. rewrite slice_prefix. destruct (tuya_ai_is_need_attr frag).
  - assert (zlen (plain_payload info o d) = 1 + (zlen (attr_part info) + (4 + zlen d))) as Hz.
    { rewrite zlen_plain, zlen_attr_part, send_attr_len_ok by done. case_bool_decide; lia. }
    assert (0 <= zlen (attr_part info) < 1048580) as Hb.
    { rewrite zlen_attr_part, send_attr_len_ok by done. case_bool_decide; lia. }
    rewrite Hz. unfold zrepl. replace (Z.to_nat (1 + (zlen (attr_part info) + (4 + zlen d))))
      with (S (Z.to_nat (zlen (attr_part info) + (4 + zlen d)))) by lia. cbn [replicate]. fold (@zrepl Z (zlen (attr_part info) + (4 + zlen d)) 0).
    destruct (put_attr_part_ok info 0 (zrepl (zlen (attr_part info) + (4 + zlen d)) 0) Hi) as (suf & E & Hsuf);
      rewrite ?zlen_zrepl by lia; [lia|lia|].
    rewrite zlen_zrepl in Hsuf by lia. rewrite E. cbn [mbind option_bind]. change (negb (OPRT_OK =? OPRT_OK)) with false. cbv iota.
    set (ph := payload_head _ _).
    assert (blit ((0 :: attr_part info) ++ suf) 0 [ph] = Some (([ph] ++ attr_part info) ++ suf)) as -> by (apply (blit_prefix [0] [ph]); done).
    cbn [mbind option_bind]. rewrite store_htonl_be.
    destruct (blit_step ([ph] ++ attr_part info) suf (be 4 o) (1 + zlen (attr_part info))) as (s1 & -> & L1);
      [rewrite zlen_app; done|rewrite zlen_be; lia|]. cbn [mbind option_bind]. change (negb (OPRT_OK =? OPRT_OK)) with false. cbv iota.
    rewrite zlen_be in L1. rewrite u32_small by (unfold is_u32; lia).
    destruct (blit_step (([ph] ++ attr_part info) ++ be 4 o) s1 d (1 + zlen (attr_part info) + 4)) as (s2 & -> & L2);
      [rewrite !zlen_app, zlen_be; change (zlen [ph]) with 1; lia|lia|]. cbn [mbind option_bind].
    rewrite (zlen_zero s2) by lia. rewrite app_nil_r, <- !app_assoc. done.
  - cbn [mbind option_bind]. change (negb (OPRT_OK =? OPRT_OK)) with false. cbv iota.
    rewrite blit_front by (rewrite zlen_zrepl; lia). rewrite zdrop_all by (rewrite zlen_zrepl; lia). by rewrite app_nil_r.
Qed.

Lemma get_sl_ok p info : writer info = None -> p_type info <> AI_PT_CLIENT_HELLO -> ai_get_sl p (Some info) false = Some (sl p).
Proof.
  intros Hw Ht. unfold ai_get_sl. rewrite Hw, bool_decide_eq_false_2 by (intros [? ?]; done). cbn [mbind option_bind].
  by rewrite (proj2 (Z.eqb_neq _ _) Ht).
Qed.

Lemma need_iv_ok info frag : info_ok info -> 0 <= frag < 4 -> ai_is_need_iv info frag = tuya_ai_is_need_attr frag.
Proof.
  intros (_ & _ & Hw & Ht) Hf. unfold ai_is_need_iv. rewrite Hw, bool_decide_eq_false_2 by (intros [? ?]; done).
  rewrite (Z.eqb_sym AI_PT_CLIENT_HELLO), (proj2 (Z.eqb_neq _ _) Ht).
  assert (frag = 0 \/ frag = 1 \/ frag = 2 \/ frag = 3) as [-> | [-> | [-> | ->]]] by lia; done.
Qed.

Lemma blit_pre {A} (pre suf src : list A) : zlen src <= zlen suf ->
  blit (pre ++ suf) (zlen pre) src = Some (pre ++ src ++ drop (Z.to_nat (zlen src)) suf).
Proof. apply blit_cursor. Qed.

Lemma build_packet_ok p info key skey iv frag o d d' seq uncrypt_len :
  keys p key skey -> vector (encrypt_iv p) iv -> info_ok info -> data info = d ++ d' -> len info = zlen d -> zlen d < 8388608 ->
  0 <= frag < 4 -> is_u16 seq ->
  uncrypt_len = head_size (tuya_ai_is_need_attr frag) + zlen (fragment info frag o d) + 160 ->
  exists w, build_packet sha256 malloc szw ctx_size p info frag o seq uncrypt_len = Some (OPRT_OK, w)
    /\ packet_wire dg key skey iv (tuya_ai_is_need_attr frag) frag seq (fragment info frag o d) w.
Proof.
  intros Hk Hv Hi Hd Hl Hs Hf Hseq Hu. pose proof Hi as (Ha & Hal & Hw & Ht). pose proof Hv as ((k' & Ei) & Hiv).
  assert (zlen (fragment info frag o d) < 16000000) as H24.
  { unfold fragment. destruct (tuya_ai_is_need_attr frag); [|lia]. rewrite zlen_plain. case_bool_decide; lia. }
  pose proof (zlen_nonneg (fragment info frag o d)). unfold build_packet. rewrite get_sl_ok by done. cbn [mbind option_bind].
  pose proof Hk as (_ & _ & _ & _ & _ & Esl). rewrite Esl, need_iv_ok by done. rewrite store_htons by done.
  set (ivf := tuya_ai_is_need_attr frag) in *. set (h5 := [AI_VERSION] ++ _).
  assert (zlen h5 = 5) as Hh5 by (unfold h5; rewrite !zlen_app, zlen_be; done).
  assert (5 + (if ivf then 16 else 0) + 4 = head_size ivf) as Hhs by done. assert (0 < head_size ivf) as Hp by (destruct ivf; done).
  rewrite blit_front by (rewrite zlen_zrepl; lia). cbn [mbind option_bind]. rewrite Hh5. set (r1 := drop _ _).
  assert (zlen r1 = uncrypt_len - 5) as Hr1 by (unfold r1; rewrite zlen_drop, zlen_zrepl by (rewrite ?zlen_zrepl; lia); lia).
  assert (exists r2, (if ivf then v ← slice (encrypt_iv p) 0 AI_IV_LEN; blit (h5 ++ r1) PACKET_HEAD_SIZE v else Some (h5 ++ r1))
            = Some ((h5 ++ (if ivf then iv else [])) ++ r2) /\ zlen r2 = uncrypt_len - 5 - (if ivf then 16 else 0)) as (r2 & -> & Hr2).
  { destruct ivf; [|exists r1; rewrite app_nil_r; split; [done|lia]].
    rewrite Ei, slice_prefix_n by done. cbn [mbind option_bind]. change AI_IV_LEN with 16 in Hiv.
    destruct (blit_step h5 r1 iv PACKET_HEAD_SIZE Hh5) as (r2 & -> & L2); [lia|]. exists r2. split; [done|lia]. }
  cbn [mbind option_bind]. change AI_IV_LEN with 16 in *. change PACKET_HEAD_SIZE with 5. rewrite Hhs.
  destruct (split_at r2 4) as (z4 & r3 & -> & Hz4); [lia|]. rewrite zlen_app in Hr2.
  set (front := h5 ++ (if ivf then iv else [])).
  assert (zlen (front ++ z4) = head_size ivf) as Hfr.
  { unfold front. rewrite !zlen_app, Hz4, Hh5, <- Hhs. destruct ivf; [rewrite Hiv|change (zlen []) with 0]; lia. }
  rewrite (app_assoc front), <- Hfr, ztake_app, zdrop_app, Hfr.
  rewrite (pack_payload_ok p info frag o d d') by done.
  destruct (encrypt_packet_ok p info key skey iv (fragment info frag o d) r3 Hk Hv Hw Ht) as (ct & tag & cz & o3 & E & Lo & Hcz & Hct & H16 & Htag & Hae); [lia|lia|].
  rewrite E. cbn [mbind option_bind]. change (negb (OPRT_OK =? OPRT_OK)) with false. cbv iota. change AI_GCM_TAG_LEN with 16 in *.
  change AI_SIGN_LEN with 32. rewrite u32_small by (unfold is_u32; lia). rewrite store_htonl_be.
  replace (head_size ivf - 4) with (zlen front) by (rewrite zlen_app in Hfr; lia). rewrite <- (app_assoc front z4).
  rewrite (blit_mid front z4) by (rewrite zlen_be; lia). cbn [mbind option_bind].
  set (n := zlen ct + 16 + 32). assert (front ++ be 4 n = packet_head iv ivf frag seq n) as Hpk.
  { unfold front, h5, packet_head. rewrite <- !app_assoc. done. }
  assert (forall x, front ++ be 4 n ++ (ct ++ tag) ++ x = packet_head iv ivf frag seq n ++ (ct ++ tag) ++ x) as Hb
    by (intros x; by rewrite app_assoc, Hpk).
  rewrite Hb. rewrite (packet_sign_ok p key skey iv ivf frag seq (ct ++ tag) o3 n Hk Hiv Hf) by (unfold n; rewrite ?zlen_app; change AI_SIGN_LEN with 32; lia).
  cbn [mbind option_bind]. change (negb (OPRT_OK =? OPRT_OK)) with false. cbv iota.
  set (sg := hmac dg skey _). assert (zlen sg = 32) as Hsg by apply zlen_hmac. rewrite slice_whole by done. cbn [mbind option_bind].
  pose proof (zlen_packet_head iv ivf frag seq n Hiv) as Hph.
  set (body := packet_head iv ivf frag seq n ++ ct ++ tag) in *.
  assert (packet_head iv ivf frag seq n ++ (ct ++ tag) ++ o3 = body ++ o3) as -> by (unfold body; by rewrite <- !app_assoc).
  assert (head_size ivf + (zlen ct + 16) = zlen body) as -> by (unfold body; rewrite !zlen_app; lia).
  destruct (blit_step body o3 sg (zlen body) eq_refl) as (o4 & -> & L4); [lia|]. cbn [mbind option_bind].
  rewrite (slice_prefix_n (body ++ sg)) by (rewrite zlen_app; lia). cbn [mbind option_bind].
  eexists. split; [reflexivity|]. exists ct, tag, cz. split_and!; try done; try lia.
Qed.

(** ** Sending *)

(** The transport takes at least one byte at each call. *)
Definition tx_ok (t : transport) : Prop := Forall (fun n => 0 < n) (tx t).

Lemma write_loop_ok fuel : forall t buf, tx_ok t -> (length buf <= fuel)%nat ->
  exists t', write_loop fuel t buf = (OPRT_OK, t') /\ sent_bytes t' = sent_bytes t ++ buf /\ rx t' = rx t /\ tx_ok t'.
Proof.
  induction fuel as [|fuel IH]; intros t buf Ht Hf.
  - destruct buf; [|cbn in Hf; lia]. exists t. by rewrite app_nil_r.
  - cbn [write_loop]. case_bool; [exists t; rewrite (zlen_zero buf) by (pose proof (zlen_nonneg buf); lia); by rewrite app_nil_r|].
    unfold tuya_transporter_write. set (rt := match tx t with [] => zlen buf | n :: _ => Z.min n (zlen buf) end).
    assert (0 < rt <= zlen buf) as Hr by (unfold rt; unfold tx_ok in Ht; destruct Ht as [|n l]; lia).
    case_bool; [|lia].
    destruct (IH {| rx := rx t; tx := tl (tx t); sent_bytes := sent_bytes t ++ take (Z.to_nat rt) buf |} (drop (Z.to_nat rt) buf)) as (t' & E & Es & Er & Et).
    { unfold tx_ok in *. cbn [tx]. by destruct Ht. }
    { rewrite length_drop. unfold zlen in *. lia. }
    exists t'. rewrite E. cbn [sent_bytes rx] in *. rewrite Es, <- app_assoc, take_drop. done.
Qed.

Lemma zlen_packet_wire key skey iv ivf frag seq plain w : zlen iv = AI_IV_LEN -> packet_wire dg key skey iv ivf frag seq plain w ->
  head_size ivf + zlen plain + 49 <= zlen w <= head_size ivf + zlen plain + 64.
Proof.
  intros Hi (ct & tag & cz & Hcz & Hct & _ & Htag & _ & ->). change AI_GCM_TAG_LEN with 16 in Htag.
  rewrite !zlen_app, zlen_packet_head, zlen_hmac by done. lia.
Qed.

(** A peer that can send: its keys, its vector, its transport. *)
Record sender (p : AI_BASIC_PROTO_T) (key skey iv : list Z) (t : transport) : Prop := {
  s_keys : keys p key skey; s_iv : vector (encrypt_iv p) iv; s_transport : transporter p = Some t; s_tx : tx_ok t;
  s_connected : connected p = true; s_seq : 1 <= sequence_out p <= 65535 }.

Lemma next_seq_range s : 1 <= s <= 65535 -> 1 <= next_seq s <= 65535.
Proof. intros Hs. unfold next_seq, u16, wrap. case_bool; [lia|]. pose proof (Z.mod_pos_bound (s + 1) (2 ^ 16)). lia. Qed.

Lemma packet_write_ok p key skey iv t info frag o d d' :
  sender p key skey iv t -> info_ok info -> data info = d ++ d' -> len info = zlen d -> 0 <= frag < 4 ->
  head_size (tuya_ai_is_need_attr frag) + zlen (fragment info frag o d) + 160 <= max_fragment ->
  exists w p' t', ai_packet_write sha256 malloc szw ctx_size max_fragment p info frag o = Some (OPRT_OK, p')
    /\ packet_wire dg key skey iv (tuya_ai_is_need_attr frag) frag (sequence_out p) (fragment info frag o d) w
    /\ sender p' key skey iv t' /\ sequence_out p' = next_seq (sequence_out p)
    /\ sent_bytes t' = sent_bytes t ++ w /\ rx t' = rx t.
Proof.
  intros [Hk Hv Ht Htx Hc Hq] Hi Hd Hl Hf Hsz. pose proof Hi as (Ha & Hal & Hw & Hty).
  assert (0 < head_size (tuya_ai_is_need_attr frag)) as Hhp by (by destruct (tuya_ai_is_need_attr frag)).
  assert (zlen d <= zlen (fragment info frag o d)) as Hdl.
  { unfold fragment. destruct (tuya_ai_is_need_attr frag); [|lia]. rewrite zlen_plain. pose proof (zlen_nonneg (attrs_wire (attrs info))). case_bool_decide; lia. }
  pose proof (zlen_nonneg d). unfold ai_packet_write, take_sequence. rewrite Hw. cbn [mbind option_bind].
  unfold ai_get_send_pkt_len. rewrite get_sl_ok by done. cbn [mbind option_bind sl with_sequence].
  rewrite (send_payload_len_ok info frag o d d') by (done || lia). pose proof Hk as (_ & _ & _ & _ & _ & Esl). rewrite Esl.
  change (negb (AI_PACKET_SL4 =? AI_PACKET_SL0)) with true. cbv iota. rewrite need_iv_ok by done. fold (head_size (tuya_ai_is_need_attr frag)).
  unfold AI_SIGN_LEN, AI_ADD_PKT_LEN. rewrite (u32_small (head_size _ + _)) by (unfold is_u32; lia).
  rewrite (u32_small (head_size _ + _ + 32)) by (unfold is_u32; lia). rewrite (u32_small (head_size _ + _ + 32 + 128)) by (unfold is_u32; lia).
  case_bool; [lia|]. rewrite Hm. cbn [negb].
  set (p1 := with_sequence p (sequence_in p) (next_seq (sequence_out p))).
  destruct (build_packet_ok p1 info key skey iv frag o d d' (sequence_out p) (head_size (tuya_ai_is_need_attr frag) + zlen (fragment info frag o d) + 32 + 128))
    as (w & -> & Hwire); [done|done|done|done|done|lia|done|unfold is_u16; lia|lia|]. cbn [mbind option_bind].
  change (negb (OPRT_OK =? OPRT_OK)) with false. cbv iota. cbn [transporter p1 with_sequence]. rewrite Ht. unfold default_write.
  pose proof (zlen_packet_wire _ _ _ _ _ _ _ _ (proj2 Hv) Hwire) as Hwl. case_bool; [lia|].
  destruct (write_loop_ok (length w) t w Htx) as (t' & -> & Es & Er & Etx); [lia|].
  exists w, (with_transporter p1 (Some t')), t'. split; [done|]. split; [done|].
  split; [|done]. constructor; try done. by apply next_seq_range.
Qed.

(** The packets behind the first fragment: [ws] carries the data [d] from the number [seq]
    on; [seq'] is the number after them. *)
Inductive tail_packets (key skey iv : list Z) : Z -> list Z -> list Z -> Z -> Prop :=
| tail_end seq d w :
    head_size false + zlen d + 160 <= max_fragment ->
    packet_wire dg key skey iv false AI_PACKET_FRAG_END seq d w -> tail_packets key skey iv seq d w (next_seq seq)
| tail_ing seq c d w ws seq' :
    head_size false + zlen c + 160 <= max_fragment ->
    packet_wire dg key skey iv false AI_PACKET_FRAG_ING seq c w -> tail_packets key skey iv (next_seq seq) d ws seq' ->
    tail_packets key skey iv seq (c ++ d) (w ++ ws) seq'.

(** A message: one packet, or a first fragment and the others. *)
Inductive message (key skey iv : list Z) (info : AI_SEND_PACKET_T) (all : list Z) : Z -> list Z -> Z -> Prop :=
| message_whole seq w :
    head_size true + zlen (plain_payload info (zlen all) all) + 160 <= max_fragment ->
    packet_wire dg key skey iv true AI_PACKET_NO_FRAG seq (plain_payload info (zlen all) all) w ->
    message key skey iv info all seq w (next_seq seq)
| message_cut seq d1 d2 w ws seq' :
    all = d1 ++ d2 -> head_size true + zlen (plain_payload info (zlen all) d1) + 160 <= max_fragment ->
    zlen (plain_payload info (zlen all) d1) = max_fragment - 256 -> max_fragment < zlen all + zlen (attr_part info) + 190 ->
    packet_wire dg key skey iv true AI_PACKET_FRAG_START seq (plain_payload info (zlen all) d1) w ->
    tail_packets key skey iv (next_seq seq) d2 ws seq' ->
    message key skey iv info all seq (w ++ ws) seq'.

Lemma with_data_ok info d n : info_ok info -> info_ok (with_data info d n).
Proof. done. Qed.

Lemma frag_loop_tail fuel : forall p key skey iv t info offset,
  sender p key skey iv t -> info_ok info -> 0 < offset < len info -> len info <= zlen (data info) -> len info < 4194304 ->
  len info - offset <= Z.of_nat fuel ->
  exists ws seq' p' t', frag_loop sha256 malloc szw ctx_size max_fragment fuel p info (len info) offset = Some (OPRT_OK, p')
    /\ tail_packets key skey iv (sequence_out p) (take (Z.to_nat (len info - offset)) (drop (Z.to_nat offset) (data info))) ws seq'
    /\ sender p' key skey iv t' /\ sequence_out p' = seq' /\ sent_bytes t' = sent_bytes t ++ ws /\ rx t' = rx t.
Proof.
  induction fuel as [|fuel IH]; intros p key skey iv t info offset Hs Hi Ho Hl H22 Hf; [lia|]. cbn [frag_loop].
  rewrite (proj2 (Z.ltb_lt offset (len info))) by lia. cbn [negb]. rewrite (proj2 (Z.eqb_neq offset 0)) by lia. unfold PACKET_HEAD_SIZE, AI_ADD_PKT_LEN.
  rewrite (u32_small (max_fragment - _)) by (unfold is_u32; lia). rewrite (u32_small (len info - offset)) by (unfold is_u32; lia).
  set (n := if max_fragment - (5 + 2 * 128) <? len info - offset then max_fragment - (5 + 2 * 128) else len info - offset).
  assert (0 < n <= len info - offset /\ n <= max_fragment - 261) as [Hn1 Hn2] by (unfold n; case_bool; lia).
  rewrite (u32_small (offset + n)) by (unfold is_u32; lia).
  set (rest := drop (Z.to_nat offset) (data info)). assert (zlen rest = zlen (data info) - offset) as Hrest by (apply zlen_drop; lia).
  set (frag := if offset + n =? len info then AI_PACKET_FRAG_END else AI_PACKET_FRAG_ING).
  assert (tuya_ai_is_need_attr frag = false) as Ena by (unfold frag; by case_bool).
  assert (zlen (take (Z.to_nat n) rest) = n) as Htk by (apply zlen_take; lia).
  destruct (packet_write_ok p key skey iv t (with_data info rest n) frag (len info) (take (Z.to_nat n) rest) (drop (Z.to_nat n) rest))
    as (w & p1 & t1 & E & Hw & Hs1 & Eq & Es & Er); [done|by apply with_data_ok|by rewrite take_drop|by rewrite Htk|unfold frag; case_bool; done| |].
  { rewrite Ena. unfold fragment. rewrite Ena, Htk. change (head_size false) with 9. lia. }
  rewrite Ena in Hw. unfold fragment in Hw. rewrite Ena in Hw. rewrite E. cbn [mbind option_bind].
  change (negb (OPRT_OK =? OPRT_OK)) with false. cbv iota. unfold frag in Hw. destruct (Z.eqb_spec (offset + n) (len info)) as [Heq|Hne].
  - exists w, (next_seq (sequence_out p)), p1, t1. split.
    { rewrite Heq. destruct fuel; cbn [frag_loop]; by rewrite Z.ltb_irrefl. }
    split; [|done]. replace (len info - offset) with n by lia. constructor; [|done]. rewrite Htk. change (head_size false) with 9. lia.
  - destruct (IH p1 key skey iv t1 info (offset + n) Hs1 Hi) as (ws & seq' & p2 & t2 & E2 & Htl & Hs2 & Eq2 & Es2 & Er2); [lia|done|done|lia|].
    exists (w ++ ws), seq', p2, t2. split; [done|]. split; [|split_and!; try done].
    + replace (take (Z.to_nat (len info - offset)) rest) with (take (Z.to_nat n) rest ++ take (Z.to_nat (len info - (offset + n))) (drop (Z.to_nat (offset + n)) (data info))).
      { econstructor; [|exact Hw|by rewrite <- Eq]. rewrite Htk. change (head_size false) with 9. lia. }
      replace (Z.to_nat (len info - offset)) with (Z.to_nat n + Z.to_nat (len info - (offset + n)))%nat by lia.
      unfold rest. replace (Z.to_nat (offset + n)) with (Z.to_nat offset + Z.to_nat n)%nat by lia. rewrite <- drop_drop.
      apply take_take_drop.
    + rewrite Es2, Es. by rewrite app_assoc.
    + by rewrite Er2.
Qed.

(** What is sent for a request that fits a packet, or whose attributes fit the first
    fragment. *)
Lemma pkt_send_ok p key skey iv t info all rest :
  sender p key skey iv t -> info_ok info -> data info = all ++ rest -> len info = zlen all -> zlen all < 4194304 ->
  (len info + zlen (attr_part info) + 190 <= max_fragment
   \/ zlen (attr_part info) + 262 <= max_fragment) ->
  exists ws seq' p' t', tuya_ai_basic_pkt_send sha256 malloc szw ctx_size max_fragment (Some p) info = Some (OPRT_OK, Some p')
    /\ message key skey iv info all (sequence_out p) ws seq'
    /\ sender p' key skey iv t' /\ sequence_out p' = seq' /\ sent_bytes t' = sent_bytes t ++ ws /\ rx t' = rx t.
Proof.
  intros Hs Hi Hd Hl H22 Hsz. pose proof Hi as (Ha & Hal & Hw & Hty). pose proof (zlen_nonneg all). pose proof (zlen_nonneg (attr_part info)).
  assert (forall o d, zlen (plain_payload info o d) = 1 + zlen (attr_part info) + 4 + zlen d) as Hpl.
  { intros o d. rewrite zlen_plain, zlen_attr_part, send_attr_len_ok by done. case_bool_decide; lia. }
  unfold tuya_ai_basic_pkt_send. rewrite (s_connected _ _ _ _ _ Hs). cbn [negb]. unfold ai_get_send_pkt_len at 1.
  rewrite get_sl_ok by done. cbn [mbind option_bind]. rewrite (send_payload_len_ok info AI_PACKET_NO_FRAG (zlen all) all rest) by (done || lia).
  pose proof (s_keys _ _ _ _ _ Hs) as (_ & _ & _ & _ & _ & Esl). rewrite Esl. change (negb (AI_PACKET_SL4 =? AI_PACKET_SL0)) with true. cbv iota.
  rewrite need_iv_ok by done. change (tuya_ai_is_need_attr AI_PACKET_NO_FRAG) with true. cbv iota. fold (head_size true).
  change (PACKET_HEAD_SIZE + AI_IV_LEN + 4) with 25. assert (zlen (attr_part info) < 1048580) as Hab.
  { rewrite zlen_attr_part, send_attr_len_ok by done. case_bool_decide; lia. }
  unfold fragment. change (tuya_ai_is_need_attr AI_PACKET_NO_FRAG) with true. cbv iota. rewrite Hpl. unfold AI_SIGN_LEN, AI_ADD_PKT_LEN.
  rewrite (u32_small (25 + _)) by (unfold is_u32; lia). rewrite (u32_small (25 + _ + 32)) by (unfold is_u32; lia).
  rewrite (u32_small (25 + _ + 32 + 128)) by (unfold is_u32; lia). case_bool.
  - destruct (packet_write_ok p key skey iv t info AI_PACKET_NO_FRAG (len info) all rest) as (w & p1 & t1 & -> & Hwire & Hs1 & Eq & Es & Er);
      [done|done|done|done|done| |].
    { unfold fragment. change (tuya_ai_is_need_attr AI_PACKET_NO_FRAG) with true. cbv iota. rewrite Hpl. change (head_size true) with 25. lia. }
    cbn [mbind option_bind]. exists w, (next_seq (sequence_out p)), p1, t1. split; [done|]. split; [|done].
    unfold fragment in Hwire. change (tuya_ai_is_need_attr AI_PACKET_NO_FRAG) with true in Hwire. cbv iota in Hwire. rewrite Hl in Hwire.
    constructor; [|done]. rewrite Hpl. change (head_size true) with 25. lia.
  - destruct Hsz as [?|Hat]; [lia|]. assert (exists f, Z.to_nat (len info) = S f /\ len info - 1 <= Z.of_nat f) as (f & -> & Hfuel)
      by (exists (Z.to_nat (len info) - 1)%nat; lia).
    cbn [frag_loop]. rewrite (proj2 (Z.ltb_lt 0 (len info))) by lia. cbn [negb]. change (0 =? 0) with true. cbv iota. unfold PACKET_HEAD_SIZE, AI_ADD_PKT_LEN.
    rewrite <- zlen_attr_part by done. rewrite (u32_small (max_fragment - _ - _)), Z.sub_0_r, (u32_small (len info)) by (unfold is_u32; lia).
    case_bool; [|lia]. set (n := max_fragment - (5 + 2 * 128) - zlen (attr_part info)). cbn [drop Z.to_nat]. rewrite Z.add_0_l, (u32_small n) by (unfold is_u32; lia).
    rewrite drop_0. assert (zlen (take (Z.to_nat n) all) = n) as Htk by (apply zlen_take; lia).
    destruct (packet_write_ok p key skey iv t (with_data info (data info) n) AI_PACKET_FRAG_START (len info) (take (Z.to_nat n) all) (drop (Z.to_nat n) all ++ rest))
      as (w & p1 & t1 & -> & Hwire & Hs1 & Eq & Es & Er); [done|by apply with_data_ok|cbn [data with_data]; by rewrite app_assoc, take_drop|by rewrite Htk|done| |].
    { unfold fragment. change (tuya_ai_is_need_attr AI_PACKET_FRAG_START) with true. cbv iota. change (plain_payload (with_data info (data info) n)) with (plain_payload info).
      rewrite Hpl, Htk. change (head_size true) with 25. lia. }
    cbn [mbind option_bind]. change (negb (OPRT_OK =? OPRT_OK)) with false. cbv iota.
    unfold fragment in Hwire. change (tuya_ai_is_need_attr AI_PACKET_FRAG_START) with true in Hwire. cbv iota in Hwire.
    change (plain_payload (with_data info (data info) n)) with (plain_payload info) in Hwire. rewrite Hl in Hwire.
    destruct (frag_loop_tail f p1 key skey iv t1 info n Hs1 Hi) as (ws & seq' & p2 & t2 & -> & Htl & Hs2 & Eq2 & Es2 & Er2); [lia|rewrite Hd, zlen_app; pose proof (zlen_nonneg rest); lia|lia|lia|].
    cbn [mbind option_bind]. exists (w ++ ws), seq', p2, t2. split; [done|]. split; [|split_and!; [done|done|by rewrite Es2, Es, app_assoc|by rewrite Er2]].
    rewrite Eq in Htl. assert (take (Z.to_nat (len info - n)) (drop (Z.to_nat n) (data info)) = drop (Z.to_nat n) all) as Et.
    { rewrite Hd, drop_app_le by (unfold zlen in *; lia). rewrite take_app_le by (rewrite length_drop; unfold zlen in *; lia).
      apply take_ge. rewrite length_drop. unfold zlen in *. lia. }
    rewrite Et in Htl. apply (message_cut _ _ _ _ _ _ (take (Z.to_nat n) all) (drop (Z.to_nat n) all)); [by rewrite take_drop| | |lia|done|done].
    + rewrite Hpl, Htk. change (head_size true) with 25. lia.
    + rewrite Hpl, Htk. lia.
Qed.

(** ** Reading *)

(** Bytes that arrive in pieces of any size, without an error. *)
Definition chunk_bytes (x : rx_item) : list Z := match x with rx_data b => b | rx_err _ => [] end.
Definition rx_bytes (t : transport) : list Z := mjoin (chunk_bytes <$> rx t).
Definition chunks_ok (t : transport) : Prop := Forall (fun x => chunk_bytes x <> []) (rx t).

Lemma transporter_read_ok t n : chunks_ok t -> rx_bytes t <> [] -> 0 < n ->
  exists b t', tuya_transporter_read t n = (zlen b, b, t') /\ 0 < zlen b <= n /\ rx_bytes t = b ++ rx_bytes t' /\ chunks_ok t'.
Proof.
  unfold chunks_ok, rx_bytes, tuya_transporter_read. intros Hc Hne Hn. destruct (rx t) as [|[b|rc] l]; [done| |apply list.Forall_cons in Hc as [Hb _]; done].
  apply list.Forall_cons in Hc as [Hb Hl]. cbn [chunk_bytes] in Hb. assert (0 < zlen b) as Hbp by (destruct b; [done|rewrite zlen_cons; pose proof (zlen_nonneg b); lia]).
  case_bool.
  - eexists b, _. split; [done|]. split; [lia|]. by split.
  - exists (take (Z.to_nat n) b). eexists. rewrite zlen_take by lia. split; [done|]. split; [lia|]. cbn [rx fmap list_fmap chunk_bytes mjoin list_join].
    rewrite app_assoc, take_drop. split; [done|]. apply list.Forall_cons. split; [|done]. cbn [chunk_bytes]. intros E.
    assert (zlen (drop (Z.to_nat n) b) = zlen b - n) as Hz by (apply zlen_drop; lia). rewrite E in Hz. change (zlen []) with 0 in Hz. lia.
Qed.

(** A prefix of the front of the bytes. *)
Lemma app_prefix {A} (b r x rest : list A) : b ++ r = x ++ rest -> zlen b <= zlen x -> exists x', x = b ++ x' /\ r = x' ++ rest.
Proof.
  intros E Hl. exists (drop (length b) x). assert (take (length b) x = b) as Et.
  { pose proof (f_equal (take (length b)) E) as E'. rewrite take_app_length, take_app_le in E' by (unfold zlen in *; lia). done. }
  split; [by rewrite <- Et at 1; rewrite take_drop|].
  pose proof (f_equal (drop (length b)) E) as E'. rewrite drop_app_length, drop_app_le in E' by (unfold zlen in *; lia). done.
Qed.

Lemma head_loop_ok fuel : forall t need got x rest,
  chunks_ok t -> rx_bytes t = x ++ rest -> need = zlen got + zlen x -> (length x <= fuel)%nat ->
  exists t', head_loop fuel t need got = (need, got ++ x, t') /\ rx_bytes t' = rest /\ chunks_ok t'.
Proof.
  induction fuel as [|fuel IH]; intros t need got x rest Hc Hx Hn Hf.
  - destruct x; [|cbn in Hf; lia]. change (zlen []) with 0 in Hn. cbn [head_loop]. case_bool; [|lia]. exists t. rewrite app_nil_r.
    split; [|done]. do 2 f_equal. lia.
  - cbn [head_loop]. case_bool.
    + assert (x = []) as -> by (apply zlen_zero; pose proof (zlen_nonneg x); lia). change (zlen []) with 0 in Hn. exists t. rewrite app_nil_r. split; [|done]. do 2 f_equal. lia.
    + assert (x <> []) as Hne by (intros ->; change (zlen []) with 0 in Hn; lia).
      destruct (transporter_read_ok t (need - zlen got)) as (b & t1 & -> & Hb & Eb & Hc1); [done|rewrite Hx; by destruct x|lia|].
      case_bool; [lia|]. rewrite Hx in Eb. symmetry in Eb. destruct (app_prefix b (rx_bytes t1) x rest Eb) as (x' & -> & Er); [lia|].
      rewrite zlen_app in Hn. destruct (IH t1 need (got ++ b) x' rest Hc1 Er) as (t2 & -> & E2 & Hc2).
      { rewrite zlen_app. lia. } { rewrite length_app in Hf. unfold zlen in Hb. lia. }
      exists t2. by rewrite <- app_assoc.
Qed.

Lemma body_loop_ok fuel : forall t pre old x rest last timeout,
  chunks_ok t -> rx_bytes t = x ++ rest -> zlen x <= zlen old -> (length x <= fuel)%nat -> 0 < last ->
  exists t' rl, body_loop fuel t (pre ++ old) (zlen pre + zlen x) (zlen pre) last timeout
      = Some (rl, true, pre ++ x ++ drop (length x) old, t')
    /\ rx_bytes t' = rest /\ chunks_ok t' /\ 0 < rl.
Proof.
  induction fuel as [|fuel IH]; intros t pre old x rest last timeout Hc Hx Ho Hf Hl.
  - destruct x; [|cbn in Hf; lia]. change (zlen []) with 0. cbn [body_loop]. rewrite Z.add_0_r, Z.leb_refl. exists t, last. done.
  - cbn [body_loop]. destruct (Z.leb_spec (zlen pre + zlen x) (zlen pre)).
    + assert (x = []) as -> by (apply zlen_zero; pose proof (zlen_nonneg x); lia). exists t, last. done.
    + assert (x <> []) as Hne by (intros ->; change (zlen []) with 0 in *; lia).
      destruct (transporter_read_ok t (zlen pre + zlen x - zlen pre)) as (b & t1 & -> & Hb & Eb & Hc1); [done|rewrite Hx; by destruct x|lia|].
      rewrite (proj2 (Z.leb_gt (zlen b) 0)) by lia. rewrite Hx in Eb. symmetry in Eb.
      destruct (app_prefix b (rx_bytes t1) x rest Eb) as (x' & -> & Er); [lia|]. rewrite zlen_app in *.
      rewrite blit_pre by (pose proof (zlen_nonneg x'); lia). cbn [mbind option_bind]. rewrite app_assoc.
      replace (zlen pre + (zlen b + zlen x')) with (zlen (pre ++ b) + zlen x') by (rewrite zlen_app; lia).
      replace (zlen pre + zlen b) with (zlen (pre ++ b)) by (rewrite zlen_app; lia).
      destruct (IH t1 (pre ++ b) (drop (Z.to_nat (zlen b)) old) x' rest (zlen b) timeout Hc1 Er) as (t2 & rl & -> & E2 & Hc2 & Hrl);
        [rewrite zlen_drop by (pose proof (zlen_nonneg x'); lia); lia|rewrite length_app in Hf; unfold zlen in Hb; lia|lia|].
      exists t2, rl. split; [|done]. rewrite length_app, drop_drop, <- !app_assoc. do 7 f_equal. unfold zlen. lia.
Qed.

(** A peer that can receive the number [seq] next. *)
Record reader (q : AI_BASIC_PROTO_T) (key skey : list Z) (seq : Z) (bytes : list Z) : Prop := {
  r_keys : keys q key skey; r_iv : AI_IV_LEN <= zlen (decrypt_iv q);
  r_transport : exists t, transporter q = Some t /\ chunks_ok t /\ rx_bytes t = bytes;
  r_flag : frag_flag q = false; r_seq : sequence_in q < seq }.

Lemma read_head_ok t iv0 iv ivf frag seq n rest :
  zlen iv = AI_IV_LEN -> 0 <= frag < 4 -> is_u32 n -> AI_IV_LEN <= zlen iv0 -> chunks_ok t -> rx_bytes t = packet_head iv ivf frag seq n ++ rest ->
  exists t' iv', ai_baisc_read_pkt_head t iv0 = Some (head_size ivf, packet_head iv ivf frag seq n, t', iv')
    /\ rx_bytes t' = rest /\ chunks_ok t' /\ zlen iv' = zlen iv0
    /\ (if ivf then exists k, iv' = iv ++ k else iv' = iv0).
Proof.
  intros Hi Hf Hn H0' Hc Hx. set (h5 := [AI_VERSION] ++ be 2 seq ++ [head_flags ivf AI_PACKET_SL4 frag] ++ [0]).
  set (more := (if ivf then iv else []) ++ be 4 n).
  assert (packet_head iv ivf frag seq n = h5 ++ more) as Eh by (unfold packet_head, h5, more; rewrite <- !app_assoc; done).
  assert (zlen h5 = 5) as Hh5 by (unfold h5; rewrite !zlen_app, zlen_be; done).
  assert (zlen more = 4 + (if ivf then AI_IV_LEN else 0)) as Hmo.
  { unfold more. rewrite zlen_app, zlen_be. destruct ivf; [rewrite Hi|change (zlen []) with 0]; lia. }
  rewrite Eh in *. rewrite <- app_assoc in Hx. unfold ai_baisc_read_pkt_head.
  destruct (head_loop_ok (Z.to_nat PACKET_HEAD_SIZE) t PACKET_HEAD_SIZE [] h5 (more ++ rest) Hc Hx) as (t1 & -> & E1 & Hc1);
    [change (zlen []) with 0; rewrite Hh5; done|unfold zlen in Hh5; change (Z.to_nat PACKET_HEAD_SIZE) with 5%nat; lia|].
  cbn [app]. rewrite Hh5. change (5 <? PACKET_HEAD_SIZE) with false. cbv iota.
  assert (rd h5 3 = Some (head_flags ivf AI_PACKET_SL4 frag)) as ->.
  { unfold h5. rewrite (app_assoc [AI_VERSION]). exact (rd_mid ([AI_VERSION] ++ be 2 seq) _ _). }
  cbn [mbind option_bind]. rewrite (proj1 (flags_ok ivf frag Hf)). rewrite <- Hmo.
  destruct (head_loop_ok (Z.to_nat (zlen more)) t1 (zlen more) [] more rest Hc1 E1) as (t2 & -> & E2 & Hc2);
    [done|rewrite zlen_nat; lia|].
  cbn [app]. rewrite Z.ltb_irrefl.
  assert (PACKET_HEAD_SIZE + zlen more = head_size ivf) as -> by (rewrite Hmo; destruct ivf; done).
  destruct ivf.
  - unfold more. rewrite (slice_prefix_n iv) by done. cbn [mbind option_bind].
    rewrite blit_front by (rewrite Hi; done). cbn [mbind option_bind]. exists t2. eexists. split; [done|]. split; [done|]. split; [done|].
    pose proof (zlen_nonneg iv). split; [rewrite zlen_app, zlen_drop by lia; lia|]. by eexists.
  - exists t2, iv0. done.
Qed.

Lemma read_packet_ok q key skey iv ivf frag seq plain w rest :
  reader q key skey seq (w ++ rest) -> zlen iv = AI_IV_LEN -> (ivf = false -> vector (decrypt_iv q) iv) ->
  1 <= seq <= 65535 -> 0 <= frag < 4 -> head_size ivf + zlen plain + 160 <= max_fragment ->
  packet_wire dg key skey iv ivf frag seq plain w ->
  exists q' rl tail, read_packet sha256 malloc szw ctx_size max_fragment char_signed q = Some (packet frag (plain ++ tail) (zlen plain) rl, q')
    /\ reader q' key skey (next_seq seq) rest /\ vector (decrypt_iv q') iv /\ recv_frag_mng q' = recv_frag_mng q /\ 0 < rl
    /\ zlen plain + 4 <= zlen (plain ++ tail) < 1048576.
Proof.
  intros [Hk Hdi (t & Et & Hc & Hx) Hfl Hsq] Hi Hnv Hs Hf Hsz Hw. pose proof (zlen_packet_wire _ _ _ _ _ _ _ _ Hi Hw) as Hwl.
  destruct Hw as (ct & tag & cz & Hcz & Hct & H16 & Htag & Ha & Ew). change AI_GCM_TAG_LEN with 16 in *. change AI_SIGN_LEN with 32 in *.
  set (n := zlen ct + 16 + 32) in *. assert (0 < head_size ivf <= 25) as Hhp by (by destruct ivf). pose proof (zlen_nonneg plain).
  assert (is_u32 n) as Hn by (unfold is_u32, n; lia). cbv zeta in Ew. set (sg := hmac dg skey _) in Ew. assert (zlen sg = 32) as Hsg by apply zlen_hmac.
  set (h := packet_head iv ivf frag seq n) in *. assert (zlen h = head_size ivf) as Hh by (by apply zlen_packet_head).
  unfold read_packet. rewrite Et. cbn [mbind option_bind].
  destruct (read_head_ok t (decrypt_iv q) iv ivf frag seq n ((ct ++ tag ++ sg) ++ rest) Hi Hf Hn Hdi Hc) as (t1 & iv1 & -> & Ex1 & Hc1 & Hl1 & Hiv1).
  { rewrite Hx, Ew. fold h. rewrite <- !app_assoc. done. }
  cbn [mbind option_bind]. fold h. case_bool; [lia|]. rewrite blit_front by (rewrite Hh, zlen_zrepl; unfold AI_ADD_PKT_LEN; lia).
  cbn [mbind option_bind]. set (room := drop _ _). assert (zlen room = max_fragment + 128 - head_size ivf) as Hroom.
  { unfold room. rewrite zlen_drop, zlen_zrepl by (rewrite ?zlen_zrepl; unfold AI_ADD_PKT_LEN; lia). unfold AI_ADD_PKT_LEN. lia. }
  destruct (head_reads iv ivf frag seq n room Hi Hf Hn) as (R1 & R2 & _ & R4 & _). fold h in R1, R2, R4. rewrite R1, R2. cbn [mbind option_bind].
  rewrite (u32_small (n + head_size ivf)) by (unfold is_u32, n; lia). change AI_ADD_PKT_LEN with 128.
  assert (n + head_size ivf = zlen w) as Hnw by (rewrite Ew, !zlen_app, Hh; unfold n; lia).
  rewrite (proj2 (Z.ltb_ge _ _)) by lia. rewrite R4. cbn [mbind option_bind]. rewrite load_ntohs by (unfold is_u16; lia).
  cbn [sequence_in with_transporter with_recv]. rewrite (proj2 (Z.leb_gt _ _)) by done.
  assert (zlen (ct ++ tag ++ sg) = n) as Hbody by (unfold n; rewrite !zlen_app; lia).
  destruct (body_loop_ok (S (Z.to_nat (n + head_size ivf - head_size ivf))) t1 h room (ct ++ tag ++ sg) rest (head_size ivf) false Hc1 Ex1)
    as (t2 & rl & Eb & Ex2 & Hc2 & Hrl); [lia|unfold zlen in Hbody; lia|lia|].
  rewrite Hbody, Hh in Eb. rewrite (Z.add_comm n) in *. rewrite Eb. cbn [mbind option_bind negb].
  set (q1 := with_transporter _ (Some t2)).
  assert (keys q1 key skey) as Hk1 by exact Hk. assert (vector (decrypt_iv q1) iv) as Hv1.
  { cbn. split; [|done]. destruct ivf; [done|]. subst iv1. apply Hnv. done. }
  set (tl := drop _ room). rewrite <- app_assoc, <- app_assoc.
  assert (h ++ ct ++ tag ++ sg ++ tl = h ++ (ct ++ tag) ++ sg ++ tl) as E1 by (by rewrite <- app_assoc). rewrite E1.
  pose proof (packet_sign_ok q1 key skey iv ivf frag seq (ct ++ tag) (sg ++ tl) n Hk1 Hi Hf) as Esg. fold h in Esg.
  rewrite Esg by (unfold n; rewrite ?zlen_app; change AI_SIGN_LEN with 32; lia).
  cbn [mbind option_bind]. change (negb (OPRT_OK =? OPRT_OK)) with false. cbv iota. fold h.
  assert (hmac dg skey (sign_text (h ++ ct ++ tag)) = sg) as -> by done.
  destruct (head_reads iv ivf frag seq n ((ct ++ tag) ++ sg ++ tl) Hi Hf Hn) as (_ & _ & R5 & _ & R6). fold h in R5, R6. rewrite R5. cbn [mbind option_bind].
  change AI_SIGN_LEN with 32. assert (u32 (n - 32) = zlen ct + 16) as -> by (rewrite u32_small; unfold is_u32, n; lia).
  rewrite (app_assoc h (ct ++ tag)). rewrite (slice_mid_n (h ++ ct ++ tag) sg) by (rewrite ?zlen_app; lia). cbn [mbind option_bind].
  rewrite slice_whole by done. cbn [mbind option_bind]. rewrite bool_decide_eq_true_2 by done. cbn [negb]. rewrite Hm. cbn [negb].
  rewrite <- (app_assoc h), <- Hh, zdrop_app. rewrite Hh. rewrite (u32_small (head_size ivf + n + 128)) by (unfold is_u32, n; lia).
  rewrite <- (app_assoc ct).
  destruct (decrypt_packet_ok q1 key skey iv plain ct tag cz (sg ++ tl) (head_size ivf + n + 128) Hk1 Hv1 Hcz Hct Htag) as (tail & -> & Hz); [lia|unfold n; lia|done|].
  cbn [mbind option_bind]. change (negb (OPRT_OK =? OPRT_OK)) with false. cbv iota.
  rewrite <- (app_assoc ct) in R6. rewrite R6. cbn [mbind option_bind]. rewrite (proj2 (flags_ok ivf frag Hf)).
  exists q1, rl, tail. split; [done|]. split; [|split_and!; [done|done|done|unfold n in Hz; lia|unfold n in Hz; lia]].
  constructor; [done|cbn; lia|by exists t2|done|]. cbn. unfold next_seq, u16, wrap. change (2 ^ 16) with 65536. destruct (Z.leb_spec 65535 seq).
  - replace (seq + 1) with 65536 by lia. done.
  - rewrite Z.mod_small by lia. case_bool; lia.
Qed.

(** ** Putting the fragments together *)

Lemma head_attr_ok a type : head_attr (payload_head a type) = a.
Proof.
  unfold head_attr, payload_head. set (b := Z.lor _ _). pose proof (Z.land_ones b 1 ltac:(done)) as E. change (Z.ones 1) with 1 in E.
  rewrite E. change (2 ^ 1) with 2. rewrite <- Z.bit0_mod. unfold b. rewrite Z.lor_spec, Z.shiftl_spec_low by done. by destruct a.
Qed.

Lemma plain_payload_app info o d1 d2 : plain_payload info o (d1 ++ d2) = plain_payload info o d1 ++ d2.
Proof. unfold plain_payload. by rewrite <- !app_assoc. Qed.

(** Where the first fragment has its [origin_len]. *)
Definition origin_offset (info : AI_SEND_PACKET_T) : Z := if bool_decide (attrs info = []) then 0 else 1 + 4 + zlen (attrs_wire (attrs info)).

Lemma frag_start_reads info o d1 tail n : info_ok info -> 0 <= o < 4194304 ->
  frag_start malloc (plain_payload info o d1 ++ tail) n
  = if o <=? n then Some None
    else
      d ← slice (plain_payload info o d1 ++ tail) 0 n;
      mem ← blit (zrepl (o + origin_offset info + AI_ADD_PKT_LEN) 0) 0 d;
      Some (Some {| r_frag_flag := AI_PACKET_FRAG_START; r_offset := n; r_data := Some mem |}).
Proof.
  intros (Ha & Hal & _ & _) Ho. pose proof (zlen_nonneg (attrs_wire (attrs info))).
  assert (0 <= origin_offset info < 2000000) as Hoo by (unfold origin_offset; case_bool_decide; lia).
  set (pl := plain_payload info o d1 ++ tail). unfold frag_start. set (b := payload_head (negb (bool_decide (attrs info = []))) (p_type info)).
  assert (rd pl 0 = Some b) as -> by done. cbn [mbind option_bind]. unfold b. rewrite head_attr_ok.
  assert ((if negb (bool_decide (attrs info = [])) then
             l ← slice pl PAYLOAD_HEAD_SIZE 4;
             x ← slice pl (u32 (PAYLOAD_HEAD_SIZE + 4 + u32 (UNI_NTOHL (le_val l)))) 4;
             Some (u32 (PAYLOAD_HEAD_SIZE + 4 + u32 (UNI_NTOHL (le_val l))), u32 (UNI_NTOHL (le_val x)))
           else x ← slice pl PAYLOAD_HEAD_SIZE 4; Some (0, u32 (UNI_NTOHL (le_val x)))) = Some (origin_offset info, o)) as ->.
  { unfold origin_offset, pl, plain_payload. fold b. set (aw := attrs_wire (attrs info)) in *. case_bool_decide; cbn [negb].
    - rewrite app_nil_l, <- !app_assoc. rewrite (slice_mid_n [b] (be 4 o)) by (rewrite ?zlen_be; done). cbn [mbind option_bind].
      rewrite load_ntohl, u32_small by (unfold is_u32; lia). done.
    - rewrite <- !app_assoc. rewrite (slice_mid_n [b] (be 4 (zlen aw))) by (rewrite ?zlen_be; done). cbn [mbind option_bind].
      rewrite load_ntohl, !u32_small by (unfold is_u32, PAYLOAD_HEAD_SIZE; rewrite ?u32_small by (unfold is_u32; lia); lia).
      rewrite (app_assoc [b]), (app_assoc _ aw). rewrite (slice_mid_n (([b] ++ be 4 (zlen aw)) ++ aw) (be 4 o))
        by (rewrite ?zlen_app, ?zlen_be; unfold PAYLOAD_HEAD_SIZE; change (zlen [b]) with 1; lia).
      cbn [mbind option_bind]. rewrite load_ntohl, u32_small by (unfold is_u32; lia). done. }
  cbn [mbind option_bind]. case_bool; [done|]. rewrite (u32_small (o + _)) by (unfold is_u32; lia).
  rewrite u32_small by (unfold is_u32, AI_ADD_PKT_LEN; lia). by rewrite Hm.
Qed.

Lemma frag_start_spec info o d1 tail : info_ok info -> 0 <= o < 4194304 -> zlen (plain_payload info o d1) < o ->
  exists room, frag_start malloc (plain_payload info o d1 ++ tail) (zlen (plain_payload info o d1))
      = Some (Some {| r_frag_flag := AI_PACKET_FRAG_START; r_offset := zlen (plain_payload info o d1);
                      r_data := Some (plain_payload info o d1 ++ room) |})
    /\ o - zlen d1 <= zlen room < 8388608.
Proof.
  intros Hi Ho Hlt. pose proof (zlen_plain info o d1) as Hz. pose proof (zlen_nonneg d1). pose proof (zlen_nonneg (plain_payload info o d1)).
  assert (zlen (plain_payload info o d1) <= origin_offset info + zlen d1 + 9 /\ 0 <= origin_offset info < 2000000) as [Hpf Hoo].
  { destruct Hi as (_ & Hal & _). unfold origin_offset. pose proof (zlen_nonneg (attrs_wire (attrs info))). case_bool_decide; lia. }
  rewrite frag_start_reads by done. case_bool; [lia|]. rewrite slice_prefix_n by done. cbn [mbind option_bind].
  unfold AI_ADD_PKT_LEN. rewrite blit_front by (rewrite zlen_zrepl; lia). cbn [mbind option_bind]. eexists. split; [done|].
  rewrite zlen_drop, zlen_zrepl by (rewrite ?zlen_zrepl; lia). lia.
Qed.

(** The reader waits for a fragment behind [acc], for which it has [room]. *)
Definition receiving (q : AI_BASIC_PROTO_T) (acc room : list Z) : Prop :=
  (r_frag_flag (recv_frag_mng q) = AI_PACKET_FRAG_START \/ r_frag_flag (recv_frag_mng q) = AI_PACKET_FRAG_ING)
  /\ r_offset (recv_frag_mng q) = zlen acc /\ r_data (recv_frag_mng q) = Some (acc ++ room).

Lemma frag_append_spec q acc room d tail frag : receiving q acc room -> zlen d <= zlen room -> zlen acc + zlen d < 4294967296 ->
  exists room', frag_append q (d ++ tail) (zlen d) frag
      = Some {| r_frag_flag := frag; r_offset := zlen (acc ++ d); r_data := Some ((acc ++ d) ++ room') |}
    /\ zlen room' = zlen room - zlen d.
Proof.
  intros (_ & Eo & Ed) Hr Hb. pose proof (zlen_nonneg acc). pose proof (zlen_nonneg d). unfold frag_append. rewrite Ed, Eo. cbn [mbind option_bind].
  rewrite slice_prefix_n by done. cbn [mbind option_bind]. destruct (blit_step acc room d (zlen acc) eq_refl Hr) as (room' & -> & Hl).
  cbn [mbind option_bind]. exists room'. rewrite zlen_app, u32_small by (unfold is_u32; lia). done.
Qed.

Notation pkt_read := (tuya_ai_basic_pkt_read sha256 malloc szw ctx_size max_fragment char_signed).

(** One packet through the reader, by its fragment flag. *)
Lemma reader_recv q key skey seq bytes m : reader q key skey seq bytes -> reader (with_recv q (decrypt_iv q) m) key skey seq bytes.
Proof. by intros []. Qed.

Lemma continue_ok fuel q m rl q' out :
  pkt_read fuel (with_recv q (decrypt_iv q) m) = Some (Some (OPRT_OK, q', out)) ->
  (r ← pkt_read fuel (with_recv q (decrypt_iv q) m);
   match r with
   | None => Some None
   | Some (rt, p, out) => if negb (rt =? OPRT_OK) then Some (Some (rl, exit_state p, out)) else Some (Some (rt, p, out))
   end) = Some (Some (OPRT_OK, q', out)).
Proof. intros ->. done. Qed.

(** A reader that is not in the middle of a message. *)
Definition ready (q : AI_BASIC_PROTO_T) : Prop :=
  ((r_frag_flag (recv_frag_mng q) =? AI_PACKET_FRAG_START) || (r_frag_flag (recv_frag_mng q) =? AI_PACKET_FRAG_ING))%bool = false.

Lemma tail_read key skey iv seq d ws seq' : zlen iv = AI_IV_LEN -> tail_packets key skey iv seq d ws seq' ->
  forall q acc room rest fuel, reader q key skey seq (ws ++ rest) -> (exists k, decrypt_iv q = iv ++ k) -> 1 <= seq <= 65535 ->
  receiving q acc room -> zlen d <= zlen room -> zlen acc + zlen d < 16777216 -> (length ws <= fuel)%nat ->
  exists q' room', pkt_read fuel q = Some (Some (OPRT_OK, q', Some ((acc ++ d) ++ room', zlen (acc ++ d), AI_PACKET_NO_FRAG)))
    /\ reader q' key skey seq' rest /\ ready q' /\ zlen room' <= zlen room.
Proof.
  intros Hi Ht. induction Ht as [seq d w Hsz Hw|seq c d w ws seq' Hsz Hw Ht IH]; intros q acc room rest fuel Hr Hv Hs Hrc Hd Hb Hf;
    pose proof (zlen_packet_wire key skey iv _ _ _ _ _ Hi Hw) as Hwl; change (head_size false) with 9 in *.
  - destruct fuel as [|fuel]; [exfalso; pose proof (zlen_nonneg d); unfold zlen in *; lia|].
    destruct (read_packet_ok q key skey iv false AI_PACKET_FRAG_END seq d w rest Hr Hi) as (q1 & rl & tail & E & Hr1 & _ & Em & _ & _); [by split|done|done|done|done|].
    destruct (frag_append_spec q1 acc room d tail AI_PACKET_FRAG_END) as (room' & Ea & Hl); [by unfold receiving; rewrite Em|done|lia|].
    cbn [tuya_ai_basic_pkt_read]. rewrite E. cbn [mbind option_bind]. rewrite (r_flag _ _ _ _ _ Hr1), Em.
    destruct Hrc as (Hfl & _). change (negb ((AI_PACKET_FRAG_END =? AI_PACKET_FRAG_ING) || (AI_PACKET_FRAG_END =? AI_PACKET_FRAG_END)))%bool with false.
    rewrite andb_false_r. change (AI_PACKET_FRAG_END =? AI_PACKET_FRAG_START) with false. change (AI_PACKET_FRAG_END =? AI_PACKET_FRAG_ING) with false.
    change (AI_PACKET_FRAG_END =? AI_PACKET_FRAG_END) with true. cbv iota. rewrite Ea. cbn [mbind option_bind r_data r_offset].
    pose proof (zlen_nonneg d). eexists _, room'. split; [done|]. split; [by apply reader_recv|]. split; [done|lia].
  - destruct fuel as [|fuel]; [exfalso; pose proof (zlen_nonneg c); rewrite length_app in Hf; unfold zlen in *; lia|].
    rewrite <- app_assoc in Hr. rewrite zlen_app in Hd, Hb. pose proof (zlen_nonneg d). pose proof (zlen_nonneg c).
    destruct (read_packet_ok q key skey iv false AI_PACKET_FRAG_ING seq c w (ws ++ rest) Hr Hi) as (q1 & rl & tail & E & Hr1 & Hv1 & Em & _ & _); [by split|done|done|done|done|].
    destruct (frag_append_spec q1 acc room c tail AI_PACKET_FRAG_ING) as (room' & Ea & Hl); [by unfold receiving; rewrite Em|lia|lia|].
    cbn [tuya_ai_basic_pkt_read]. rewrite E. cbn [mbind option_bind]. rewrite (r_flag _ _ _ _ _ Hr1), Em.
    change (negb ((AI_PACKET_FRAG_ING =? AI_PACKET_FRAG_ING) || (AI_PACKET_FRAG_ING =? AI_PACKET_FRAG_END)))%bool with false.
    rewrite andb_false_r. change (AI_PACKET_FRAG_ING =? AI_PACKET_FRAG_START) with false. change (AI_PACKET_FRAG_ING =? AI_PACKET_FRAG_ING) with true.
    cbv iota. rewrite Ea. cbn [mbind option_bind].
    set (m := {| r_frag_flag := AI_PACKET_FRAG_ING; r_offset := _; r_data := _ |}).
    destruct (IH (with_recv q1 (decrypt_iv q1) m) (acc ++ c) room' rest fuel) as (q2 & room2 & E2 & Hr2 & Hy2 & Hl2).
    + by apply reader_recv.
    + apply Hv1.
    + by apply next_seq_range.
    + split; [by right|done].
    + lia.
    + rewrite zlen_app. lia.
    + rewrite length_app in Hf. unfold zlen in *. lia.
    + exists q2, room2. rewrite <- (app_assoc acc) in E2. split; [by apply continue_ok|]. split_and!; [done|done|lia].
Qed.

Lemma message_read key skey iv info all seq ws seq' : info_ok info -> zlen all < 4194304 -> zlen iv = AI_IV_LEN ->
  (zlen all + zlen (attr_part info) + 190 <= max_fragment \/ max_fragment - 256 < zlen all) ->
  message key skey iv info all seq ws seq' ->
  forall q rest fuel, reader q key skey seq (ws ++ rest) -> ready q -> 1 <= seq <= 65535 -> (length ws <= fuel)%nat ->
  exists q' tail, pkt_read fuel q
      = Some (Some (OPRT_OK, q', Some (plain_payload info (zlen all) all ++ tail, zlen (plain_payload info (zlen all) all), AI_PACKET_NO_FRAG)))
    /\ reader q' key skey seq' rest /\ ready q' /\ zlen tail < 8388608.
Proof.
  intros Hio H22 Hi Hbig Hmsg. destruct Hmsg as [seq w Hsz Hw|seq d1 d2 w ws' seq' Hall Hsz Hlt Hcut Hw Ht]; intros q rest fuel Hr Hy Hs Hf;
    pose proof (zlen_packet_wire key skey iv _ _ _ _ _ Hi Hw) as Hwl; change (head_size true) with 25 in *;
    (destruct fuel as [|fuel]; [exfalso; rewrite ?length_app in Hf; match type of Hwl with context [zlen (plain_payload ?a ?b ?c)] => pose proof (zlen_nonneg (plain_payload a b c)) end; unfold zlen in *; lia|]).
  - destruct (read_packet_ok q key skey iv true AI_PACKET_NO_FRAG seq (plain_payload info (zlen all) all) w rest Hr Hi) as (q1 & rl & tail & E & Hr1 & _ & Em & _ & Htl); [done|done|done|done|done|].
    cbn [tuya_ai_basic_pkt_read]. rewrite E. cbn [mbind option_bind]. rewrite (r_flag _ _ _ _ _ Hr1), Em, Hy. cbn [andb].
    rewrite zlen_app in Htl. pose proof (zlen_nonneg (plain_payload info (zlen all) all)).
    exists q1, tail. split; [done|]. split; [done|]. unfold ready. rewrite Em. split; [done|lia].
  - rewrite <- app_assoc in Hr. destruct (read_packet_ok q key skey iv true AI_PACKET_FRAG_START seq (plain_payload info (zlen all) d1) w (ws' ++ rest) Hr Hi) as (q1 & rl & tail & E & Hr1 & Hv1 & Em & _ & _); [done|done|done|done|done|].
    cbn [tuya_ai_basic_pkt_read]. rewrite E. cbn [mbind option_bind]. rewrite (r_flag _ _ _ _ _ Hr1), Em, Hy. cbn [andb].
    change (AI_PACKET_FRAG_START =? AI_PACKET_FRAG_START) with true. cbv iota. pose proof (zlen_nonneg all).
    destruct (frag_start_spec info (zlen all) d1 tail Hio) as (room & -> & Hroom); [lia|lia|]. cbn [mbind option_bind].
    set (m := {| r_frag_flag := AI_PACKET_FRAG_START; r_offset := _; r_data := _ |}).
    assert (zlen all = zlen d1 + zlen d2) as Hza by (by rewrite Hall, zlen_app).
    destruct (tail_read key skey iv _ d2 ws' seq' Hi Ht (with_recv q1 (decrypt_iv q1) m) (plain_payload info (zlen all) d1) room rest fuel) as (q2 & room2 & E2 & Hr2 & Hy2 & Hl2).
    + by apply reader_recv.
    + apply Hv1.
    + by apply next_seq_range.
    + split; [by left|done].
    + lia.
    + pose proof (zlen_nonneg d1). lia.
    + rewrite length_app in Hf. pose proof (zlen_nonneg (plain_payload info (zlen all) d1)). unfold zlen in *. lia.
    + exists q2, room2. assert (plain_payload info (zlen all) all = plain_payload info (zlen all) d1 ++ d2) as -> by (rewrite <- plain_payload_app; by rewrite Hall at 2). split; [by apply continue_ok|]. split_and!; [done|done|lia].
Qed.

(** A cut message whose data is no longer than its first fragment. *)
Lemma message_refused key skey iv info all seq ws seq' : info_ok info -> zlen all < 4194304 -> zlen iv = AI_IV_LEN ->
  max_fragment < zlen all + zlen (attr_part info) + 190 -> zlen all <= max_fragment - 256 ->
  message key skey iv info all seq ws seq' ->
  forall q rest fuel, reader q key skey seq (ws ++ rest) -> ready q -> 1 <= seq <= 65535 -> (0 < fuel)%nat ->
  exists q' rl, pkt_read fuel q = Some (Some (rl, q', None)) /\ 0 < rl.
Proof.
  intros Hio H22 Hi Hcut Hsmall Hmsg. pose proof (zlen_nonneg all).
  assert (forall d, zlen (plain_payload info (zlen all) d) = 5 + zlen (attr_part info) + zlen d) as Hpl.
  { intros d. rewrite zlen_plain, zlen_attr_part, send_attr_len_ok by done. case_bool_decide; lia. }
  destruct Hmsg as [seq w Hsz Hw|seq d1 d2 w ws' seq' Hall Hsz Hlt _ Hw Ht]; intros q rest fuel Hr Hy Hs Hf;
    [rewrite Hpl in Hsz; change (head_size true) with 25 in Hsz; lia|].
  destruct fuel as [|fuel]; [lia|]. rewrite <- app_assoc in Hr.
  destruct (read_packet_ok q key skey iv true AI_PACKET_FRAG_START seq (plain_payload info (zlen all) d1) w (ws' ++ rest) Hr Hi)
    as (q1 & rl & tail & E & Hr1 & _ & Em & Hrl & _); [done|done|done|done|done|].
  cbn [tuya_ai_basic_pkt_read]. rewrite E. cbn [mbind option_bind]. rewrite (r_flag _ _ _ _ _ Hr1), Em, Hy. cbn [andb].
  change (AI_PACKET_FRAG_START =? AI_PACKET_FRAG_START) with true. cbv iota. rewrite frag_start_reads by (done || lia).
  rewrite (proj2 (Z.leb_le _ _)) by lia. cbn [mbind option_bind]. by exists (exit_state q1), rl.
Qed.

(** * Claims *)

(** (C5) A message that fits a packet, or that has more data than a first fragment, is sent
    with [OPRT_OK], as signed and encrypted packets; a peer with the same keys reads it back
    whole, with its attributes, whatever the pieces in which the transport takes and gives
    the bytes, and both sides are ready for the next message. *)
Theorem ai_message_roundtrip p key skey iv t info all rest :
  sender p key skey iv t -> info_ok info -> data info = all ++ rest -> len info = zlen all -> zlen all < 4194304 ->
  (zlen all + zlen (attr_part info) + 190 <= max_fragment
   \/ (max_fragment - 256 < zlen all /\ zlen (attr_part info) + 262 <= max_fragment)) ->
  exists ws p' t', tuya_ai_basic_pkt_send sha256 malloc szw ctx_size max_fragment (Some p) info = Some (OPRT_OK, Some p')
    /\ sender p' key skey iv t' /\ sent_bytes t' = sent_bytes t ++ ws
    /\ forall q more fuel, reader q key skey (sequence_out p) (ws ++ more) -> ready q -> (length ws <= fuel)%nat ->
       exists q' tail, pkt_read fuel q
           = Some (Some (OPRT_OK, q', Some (plain_payload info (zlen all) all ++ tail, zlen (plain_payload info (zlen all) all), AI_PACKET_NO_FRAG)))
         /\ reader q' key skey (sequence_out p') more /\ ready q'.
Proof.
  intros Hs Hi Hd Hl H22 Hsz.
  destruct (pkt_send_ok p key skey iv t info all rest Hs Hi Hd Hl H22) as (ws & seq' & p' & t' & E & Hmsg & Hs' & Eq & Es & _);
    [destruct Hsz; [left|right]; lia|].
  exists ws, p', t'. split; [done|]. split; [done|]. split; [done|]. intros q more fuel Hr Hy Hf. rewrite Eq.
  destruct (message_read key skey iv info all (sequence_out p) ws seq') with (q := q) (rest := more) (fuel := fuel)
    as (q' & tail & Er & Hr' & Hy' & _); try done; [apply (s_iv _ _ _ _ _ Hs)|destruct Hsz; [left|right]; lia|apply (s_seq _ _ _ _ _ Hs)|].
  by exists q', tail.
Qed.

(** A message between the two sizes of the round trip is sent with [OPRT_OK] as well,
    in fragments, but the reader takes the length of its data for an error, because it
    compares it with the first fragment including the attributes: it returns the length of
    the last read and no packet. *)
Theorem ai_message_lost p key skey iv t info all rest :
  sender p key skey iv t -> info_ok info -> data info = all ++ rest -> len info = zlen all -> zlen all < 4194304 ->
  zlen (attr_part info) + 262 <= max_fragment ->
  max_fragment < zlen all + zlen (attr_part info) + 190 -> zlen all <= max_fragment - 256 ->
  exists ws p' t', tuya_ai_basic_pkt_send sha256 malloc szw ctx_size max_fragment (Some p) info = Some (OPRT_OK, Some p')
    /\ sent_bytes t' = sent_bytes t ++ ws
    /\ forall q more fuel, reader q key skey (sequence_out p) (ws ++ more) -> ready q -> (0 < fuel)%nat ->
       exists q' rl, pkt_read fuel q = Some (Some (rl, q', None)) /\ 0 < rl.
Proof.
  intros Hs Hi Hd Hl H22 Ha Hc Hsm.
  destruct (pkt_send_ok p key skey iv t info all rest Hs Hi Hd Hl H22) as (ws & seq' & p' & t' & E & Hmsg & Hs' & Eq & Es & _); [by right|].
  exists ws, p', t'. split; [done|]. split; [done|]. intros q more fuel Hr Hy Hf.
  apply (message_refused key skey iv info all (sequence_out p) ws seq' Hi H22 (proj2 (s_iv _ _ _ _ _ Hs)) Hc Hsm Hmsg q more); try done.
  apply (s_seq _ _ _ _ _ Hs).
Qed.
End Correct.

(** ** Instances *)

Definition demo_proto (s_out : Z) (t : transport) : AI_BASIC_PROTO_T :=
  {| transporter := Some t; crypt_key := zrepl 32 7 ++ [0]; sign_key := zrepl 32 9 ++ [0]; sequence_in := 0; sequence_out := s_out;
     crypt_random := []; sign_random := []; sl := AI_PACKET_SL4; connected := true; connection_id := None;
     encrypt_iv := zrepl 16 3 ++ [0]; decrypt_iv := zrepl 17 0; recv_frag_mng := frag_idle; send_frag_mng := zrepl 5 0;
     frag_flag := false; file_seq := 1; text_seq := 1 |}.

(** A transport that takes five bytes first, and one that holds [b]. *)
Definition demo_out : transport := {| rx := []; tx := [5]; sent_bytes := [] |}.
Definition demo_in (b : list Z) : transport := {| rx := if bool_decide (b = []) then [] else [rx_data b]; tx := []; sent_bytes := [] |}.

Definition demo_request (data_len : Z) : AI_SEND_PACKET_T :=
  {| p_type := AI_PT_TEXT; attrs := demo_attrs; total_len := data_len; len := data_len; data := zrepl data_len 1; writer := None |}.

Lemma demo_sender : sender (demo_proto 1 demo_out) (zrepl 32 7) (zrepl 32 9) (zrepl 16 3) demo_out.
Proof.
  constructor; try done.
  - split_and!; try done; [by exists [0]|by exists [0]|]. apply list.Forall_replicate. done.
  - split; [by exists [0]|done].
  - by repeat constructor.
Defined.

Lemma demo_reader b : reader (demo_proto 1 (demo_in b)) (zrepl 32 7) (zrepl 32 9) 1 b.
Proof.
  constructor; try done.
  - split_and!; try done; [by exists [0]|by exists [0]|]. apply list.Forall_replicate. done.
  - exists (demo_in b). split; [done|]. unfold chunks_ok, rx_bytes, demo_in. cbn [rx]. case_bool_decide; [by subst|].
    split; [by repeat constructor|]. cbn. by rewrite app_nil_r.
Defined.

Lemma demo_request_ok n : 0 <= n -> info_ok (demo_request n).
Proof. intros Hn. split_and!; try done. apply demo_attrs_ok. Defined.

(** Nine hundred bytes in two fragments. *)
Lemma ai_message_roundtrip_witness :
  exists ws p' t', tuya_ai_basic_pkt_send (toy_md 32) (fun _ => true) 32 108 1024 (Some (demo_proto 1 demo_out)) (demo_request 900)
      = Some (OPRT_OK, Some p')
    /\ sender p' (zrepl 32 7) (zrepl 32 9) (zrepl 16 3) t' /\ sent_bytes t' = sent_bytes demo_out ++ ws
    /\ exists q' tail, tuya_ai_basic_pkt_read (toy_md 32) (fun _ => true) 32 108 1024 true (length ws) (demo_proto 1 (demo_in ws))
        = Some (Some (OPRT_OK, q', Some (plain_payload (demo_request 900) 900 (zrepl 900 1) ++ tail,
                                        zlen (plain_payload (demo_request 900) 900 (zrepl 900 1)), AI_PACKET_NO_FRAG)))
      /\ reader q' (zrepl 32 7) (zrepl 32 9) (sequence_out p') [] /\ ready q'.
Proof.
  destruct (ai_message_roundtrip (toy_md 32) (fun _ => true) 32 108 1024 true (toy_digest 32) eq ltac:(by apply toy_md_laws) ltac:(done) ltac:(lia) ltac:(lia)
              (demo_proto 1 demo_out) (zrepl 32 7) (zrepl 32 9) (zrepl 16 3) demo_out (demo_request 900) (zrepl 900 1) []
              demo_sender ltac:(by apply demo_request_ok) ltac:(by rewrite app_nil_r) ltac:(by rewrite zlen_zrepl) ltac:(by rewrite zlen_zrepl)
              ltac:(right; vm_compute; split; congruence)) as (ws & p' & t' & E & Hs & Es & H).
  exists ws, p', t'. split; [done|]. split; [done|]. split; [done|].
  apply (H (demo_proto 1 (demo_in ws)) [] (length ws)); [rewrite app_nil_r; apply demo_reader|done|done].
Defined.

(** A request whose attributes take more than 66 bytes. *)
Definition demo_wide (attr_len data_len : Z) : AI_SEND_PACKET_T :=
  {| p_type := AI_PT_TEXT;
     attrs := [{| a_type := AI_ATTR_CONNECTION_ID; payload_type := ATTR_PT_STR; a_length := attr_len; a_value := v_str (Some (zrepl attr_len 65)) |}];
     total_len := data_len; len := data_len; data := zrepl data_len 1; writer := None |}.

Lemma demo_wide_ok n : info_ok (demo_wide 100 n).
Proof.
  split_and!; try done. repeat constructor; cbn; try done. by intros [].
Defined.

Lemma ai_message_lost_witness :
  exists ws p' t', tuya_ai_basic_pkt_send (toy_md 32) (fun _ => true) 32 108 1024 (Some (demo_proto 1 demo_out)) (demo_wide 100 740)
      = Some (OPRT_OK, Some p')
    /\ sent_bytes t' = sent_bytes demo_out ++ ws
    /\ exists q' rl, tuya_ai_basic_pkt_read (toy_md 32) (fun _ => true) 32 108 1024 true 9 (demo_proto 1 (demo_in ws)) = Some (Some (rl, q', None))
         /\ 0 < rl.
Proof.
  destruct (ai_message_lost (toy_md 32) (fun _ => true) 32 108 1024 true (toy_digest 32) eq ltac:(by apply toy_md_laws) ltac:(done) ltac:(lia) ltac:(lia)
              (demo_proto 1 demo_out) (zrepl 32 7) (zrepl 32 9) (zrepl 16 3) demo_out (demo_wide 100 740) (zrepl 740 1) []
              demo_sender ltac:(apply demo_wide_ok) ltac:(by rewrite app_nil_r) ltac:(by rewrite zlen_zrepl) ltac:(by rewrite zlen_zrepl)
              ltac:(vm_compute; congruence) ltac:(vm_compute; congruence) ltac:(vm_compute; congruence)) as (ws & p' & t' & E & Es & H).
  exists ws, p', t'. split; [done|]. split; [done|].
  apply (H (demo_proto 1 (demo_in ws)) [] 9%nat); [rewrite app_nil_r; apply demo_reader|done|lia].
Defined.

(** ** Faults *)

Section Faults.
Context `{!MbedtlsCipher} (sha256 : Md) (malloc : Z -> bool) (szw ctx_size max_fragment : Z) (char_signed : bool).

(** [tuya_ai_basic_pkt_frag_send] clears the offset of a protocol that is [NULL]. *)
Lemma ai_frag_send_null info : len info <= max_fragment ->
  tuya_ai_basic_pkt_frag_send sha256 malloc szw ctx_size max_fragment None info = None.
Proof. intros Hl. unfold tuya_ai_basic_pkt_frag_send. case_bool; [lia|done]. Qed.

(** Attributes that do not fit a packet, without data: nothing is sent and the result is
    [OPRT_OK]. *)
Lemma ai_attrs_not_sent p info n : connected p = true -> len info = 0 ->
  ai_get_send_pkt_len p info AI_PACKET_NO_FRAG = Some n -> max_fragment < n ->
  tuya_ai_basic_pkt_send sha256 malloc szw ctx_size max_fragment (Some p) info = Some (OPRT_OK, Some p).
Proof.
  intros Hc Hl Hn Hm. unfold tuya_ai_basic_pkt_send. rewrite Hc, Hn. cbn [negb mbind option_bind]. case_bool; [lia|]. by rewrite Hl.
Qed.

(** A peer that has closed: [OPRT_OK] without a packet. *)
Lemma ai_closed_read fuel p t : transporter p = Some t -> rx t = [] ->
  exists p', tuya_ai_basic_pkt_read sha256 malloc szw ctx_size max_fragment char_signed (S fuel) p = Some (Some (OPRT_OK, p', None)).
Proof.
  intros Ht Hr. cbn [tuya_ai_basic_pkt_read]. unfold read_packet, ai_baisc_read_pkt_head. rewrite Ht.
  change (Z.to_nat PACKET_HEAD_SIZE) with 5%nat. cbn [head_loop]. unfold tuya_transporter_read. rewrite Hr.
  change (PACKET_HEAD_SIZE <=? zlen []) with false. cbv iota beta zeta.
  change (0 <=? 0) with true. cbv iota. change (zlen [] <? PACKET_HEAD_SIZE) with true. cbv iota. cbn [mbind option_bind].
  rewrite bool_decide_eq_true_2 by done. change (0 <=? 0) with true. cbv iota. cbn [mbind option_bind]. by eexists.
Qed.
End Faults.

(** The bytes of a send. *)
Definition demo_bytes (info : AI_SEND_PACKET_T) : list Z :=
  match tuya_ai_basic_pkt_send (toy_md 32) (fun _ => true) 32 108 320 (Some (demo_proto 1 demo_out)) info with
  | Some (_, Some p) => match transporter p with Some t => sent_bytes t | None => [] end
  | _ => []
  end.

(** A fragment whose first one was lost is copied to the null pointer. *)
Example ai_stray_fragment :
  tuya_ai_basic_pkt_read (toy_md 32) (fun _ => true) 32 108 320 true 9 (demo_proto 1 (demo_in (drop 153 (demo_bytes (demo_request 120))))) = None.
Proof. vm_compute. reflexivity. Qed.
