(* ===== verification/Symmetry.v ===== *)
(** The symmetric encryption of [src/tal_security/src/tal_symmetry.c] and its
    mbedTLS port [src/tal_security/src/mbedtls/mbedtls_symmetry.c]: AES in the
    ECB, CBC and CTR modes, PKCS#7 padding, and the allocating wrappers the
    key-value store uses. *)
From Stdlib Require Import ZArith Lia.
From stdpp Require Import base tactics option list numbers.
From S2P Require Import Prelude.

Local Open Scope Z_scope.

(** * The mbedTLS interface

    The functions of [mbedtls/aes.h] the port calls. Each gives its return code
    and what it changes: the context, or the bytes it writes to the output and,
    for CBC, the new initialisation vector. *)

Definition SYMMETRY_DECRYPT : Z := 0.
Definition SYMMETRY_ENCRYPT : Z := 1.

Class MbedtlsAes := {
  mbedtls_aes_context : Type;
  mbedtls_aes_init : mbedtls_aes_context;
  mbedtls_aes_setkey_enc : mbedtls_aes_context -> list Z -> Z -> Z * mbedtls_aes_context;
  mbedtls_aes_setkey_dec : mbedtls_aes_context -> list Z -> Z -> Z * mbedtls_aes_context;
  (* context, mode, one block *)
  mbedtls_aes_crypt_ecb : mbedtls_aes_context -> Z -> list Z -> Z * list Z;
  (* context, mode, initialisation vector, input *)
  mbedtls_aes_crypt_cbc : mbedtls_aes_context -> Z -> list Z -> list Z -> Z * list Z * list Z
}.

Definition enc_context `{MbedtlsAes} (key : list Z) : mbedtls_aes_context :=
  snd (mbedtls_aes_setkey_enc mbedtls_aes_init key (8 * zlen key)).
Definition dec_context `{MbedtlsAes} (key : list Z) : mbedtls_aes_context :=
  snd (mbedtls_aes_setkey_dec mbedtls_aes_init key (8 * zlen key)).

(** A key of 128 or 256 bits. *)
Definition aes_key (key : list Z) : Prop := zlen key = 16 \/ zlen key = 32.

(** What mbedTLS documents of AES: keys of 128 and 256 bits are accepted, whole
    blocks are encrypted to as many bytes, and decryption inverts encryption. *)
Class AesLaws `{MbedtlsAes} : Prop := {
  aes_enc_key key : aes_key key ->
    fst (mbedtls_aes_setkey_enc mbedtls_aes_init key (8 * zlen key)) = 0;
  aes_dec_key key : aes_key key ->
    fst (mbedtls_aes_setkey_dec mbedtls_aes_init key (8 * zlen key)) = 0;
  aes_ecb_enc key b : aes_key key -> zlen b = 16 -> bytes_ok b ->
    exists out, mbedtls_aes_crypt_ecb (enc_context key) SYMMETRY_ENCRYPT b = (0, out)
      /\ zlen out = 16 /\ bytes_ok out
      /\ mbedtls_aes_crypt_ecb (dec_context key) SYMMETRY_DECRYPT out = (0, b);
  aes_cbc_enc key iv data : aes_key key -> zlen iv = 16 -> zlen data mod 16 = 0 -> bytes_ok data ->
    exists out iv' iv'', mbedtls_aes_crypt_cbc (enc_context key) SYMMETRY_ENCRYPT iv data = (0, iv', out)
      /\ zlen out = zlen data /\ zlen iv' = 16 /\ zlen iv'' = 16
      /\ mbedtls_aes_crypt_cbc (dec_context key) SYMMETRY_DECRYPT iv out = (0, iv'', data)
}.

Section Symmetry.
Context `{MbedtlsAes}.

(** * The port *)

(** [ok]: the allocation of the context succeeds; the result of [malloc] is used
    unchecked. *)
Definition tkl_aes_create_init (ok : bool) : option (Z * option mbedtls_aes_context) :=
  if ok then Some (OPRT_OK, Some mbedtls_aes_init) else None.

Definition tkl_aes_free (ctx : option mbedtls_aes_context) : Z := OPRT_OK.

Definition tkl_aes_setkey_enc (ctx : mbedtls_aes_context) (key : list Z) (keybits : Z)
  : option (Z * mbedtls_aes_context) :=
  k ← slice key 0 (keybits / 8);
  let '(rc, ctx) := mbedtls_aes_setkey_enc ctx k keybits in
  Some (if rc =? 0 then OPRT_OK else OPRT_COM_ERROR, ctx).

Definition tkl_aes_setkey_dec (ctx : mbedtls_aes_context) (key : list Z) (keybits : Z)
  : option (Z * mbedtls_aes_context) :=
  k ← slice key 0 (keybits / 8);
  let '(rc, ctx) := mbedtls_aes_setkey_dec ctx k keybits in
  Some (if rc =? 0 then OPRT_OK else OPRT_COM_ERROR, ctx).

(** The blocks are disjoint, so that the loop reads the same input when it works
    in place. *)
Fixpoint ecb_loop (n : nat) (i : Z) (ctx : mbedtls_aes_context) (mode : Z) (input output : list Z)
  : option (Z * list Z) :=
  match n with
  | O => Some (OPRT_OK, output)
  | S n' =>
      b ← slice input i 16;
      let '(rc, o) := mbedtls_aes_crypt_ecb ctx mode b in
      output ← blit output i o;
      if rc =? 0 then ecb_loop n' (i + 16) ctx mode input output else Some (OPRT_COM_ERROR, output)
  end.

Definition tkl_aes_crypt_ecb (ctx : mbedtls_aes_context) (mode length : Z) (input output : list Z)
  : option (Z * list Z) :=
  if negb (length mod 16 =? 0) then Some (OPRT_INVALID_PARM, output)
  else ecb_loop (Z.to_nat (length / 16)) 0 ctx mode input output.

(** The result: the code, the vector and the output buffer. *)
Definition tkl_aes_crypt_cbc (ctx : mbedtls_aes_context) (mode length : Z) (iv input output : list Z)
  : option (Z * list Z * list Z) :=
  v ← slice iv 0 16;
  data ← slice input 0 length;
  let '(rc, v', o) := mbedtls_aes_crypt_cbc ctx mode v data in
  iv ← blit iv 0 v';
  output ← blit output 0 o;
  Some (if rc =? 0 then OPRT_OK else OPRT_COM_ERROR, iv, output).

(** * The modes (tal_symmetry.c) *)

Definition tal_aes_create_init := tkl_aes_create_init.
Definition tal_aes_free := tkl_aes_free.
Definition tal_aes_setkey_enc := tkl_aes_setkey_enc.
Definition tal_aes_setkey_dec := tkl_aes_setkey_dec.
Definition tal_aes_crypt_ecb := tkl_aes_crypt_ecb.
Definition tal_aes_crypt_cbc := tkl_aes_crypt_cbc.

(** [for (i = 16; i > 0; i--) if (++nonce_counter[i - 1] != 0) break;] *)
Fixpoint ctr_inc (n : nat) (counter : list Z) : option (list Z) :=
  match n with
  | O => Some counter
  | S n' =>
      c ← rd counter (Z.of_nat n');
      counter ← wr counter (Z.of_nat n') (u8 (c + 1));
      if u8 (c + 1) =? 0 then ctr_inc n' counter else Some counter
  end.

(** The loop at byte [i]: the code, [n], the counter, the stream block and the
    output. *)
Fixpoint ctr_loop (length : nat) (i : Z) (ctx : mbedtls_aes_context) (n : Z) (counter stream input output : list Z)
  : option (Z * Z * list Z * list Z * list Z) :=
  match length with
  | O => Some (OPRT_OK, n, counter, stream, output)
  | S length' =>
      '(rc, counter, stream) ←
        (if n =? 0 then
           '(rc, stream) ← tal_aes_crypt_ecb ctx SYMMETRY_ENCRYPT 16 counter stream;
           if rc =? OPRT_OK then counter ← ctr_inc 16 counter; Some (rc, counter, stream)
           else Some (rc, counter, stream)
         else Some (OPRT_OK, counter, stream));
      if negb (rc =? OPRT_OK) then Some (rc, n, counter, stream, output)
      else
        c ← rd input i;
        s ← rd stream n;
        output ← wr output i (u8 (Z.lxor c s));
        ctr_loop length' (i + 1) ctx (Z.land (n + 1) 0x0F) counter stream input output
  end.

(** The result: the code, [*nc_off], the counter, the stream block and the
    output; [None] for a pointer is [NULL]. *)
Definition tal_aes_crypt_ctr (ctx : mbedtls_aes_context) (length : Z) (nc_off : option Z)
    (nonce_counter stream_block : option (list Z)) (input output : list Z)
  : option (Z * option Z * option (list Z) * option (list Z) * list Z) :=
  match nc_off, nonce_counter, stream_block with
  | Some n, Some counter, Some stream =>
      if 0x0F <? n then Some (OPRT_INVALID_PARM, nc_off, nonce_counter, stream_block, output)
      else
        '(ret, n', counter, stream, output) ← ctr_loop (Z.to_nat length) 0 ctx n counter stream input output;
        Some (ret, Some (if ret =? OPRT_OK then n' else n), Some counter, Some stream, output)
  | _, _, _ => Some (OPRT_INVALID_PARM, nc_off, nonce_counter, stream_block, output)
  end.

(** The [exit:] of the raw functions: the release of the context replaces the
    code. *)
Definition raw_exit (ctx : option mbedtls_aes_context) (ret : Z) : Z :=
  match ctx with Some c => tal_aes_free (Some c) | None => ret end.

(** [tal_aes128_ecb_encode_raw] and [_decode_raw]: [enc] chooses the two calls
    in which they differ. *)
Definition aes_ecb_raw (enc ok : bool) (keybits : Z) (data : list Z) (len : Z) (out key : list Z)
  : option (Z * list Z) :=
  '(ret, ctx) ← tal_aes_create_init ok;
  if negb (ret =? OPRT_OK) then Some (raw_exit ctx ret, out)
  else
    c ← ctx;
    '(ret, c) ← (if enc then tal_aes_setkey_enc else tal_aes_setkey_dec) c key keybits;
    if negb (ret =? OPRT_OK) then Some (raw_exit (Some c) ret, out)
    else
      '(ret, out) ← tal_aes_crypt_ecb c (if enc then SYMMETRY_ENCRYPT else SYMMETRY_DECRYPT) len data out;
      Some (raw_exit (Some c) ret, out).

Definition tal_aes128_ecb_encode_raw (ok : bool) := aes_ecb_raw true ok 128.
Definition tal_aes128_ecb_decode_raw (ok : bool) := aes_ecb_raw false ok 128.

(** The four CBC functions; the result has the vector after the code. *)
Definition aes_cbc_raw (enc ok : bool) (keybits : Z) (data : list Z) (len : Z) (key iv out : list Z)
  : option (Z * list Z * list Z) :=
  '(ret, ctx) ← tal_aes_create_init ok;
  if negb (ret =? OPRT_OK) then Some (raw_exit ctx ret, iv, out)
  else
    c ← ctx;
    '(ret, c) ← (if enc then tal_aes_setkey_enc else tal_aes_setkey_dec) c key keybits;
    if negb (ret =? OPRT_OK) then Some (raw_exit (Some c) ret, iv, out)
    else
      '(ret, iv, out) ← tal_aes_crypt_cbc c (if enc then SYMMETRY_ENCRYPT else SYMMETRY_DECRYPT) len iv data out;
      Some (raw_exit (Some c) ret, iv, out).

Definition tal_aes128_cbc_encode_raw (ok : bool) := aes_cbc_raw true ok 128.
Definition tal_aes128_cbc_decode_raw (ok : bool) := aes_cbc_raw false ok 128.
Definition tal_aes256_cbc_encode_raw (ok : bool) := aes_cbc_raw true ok 256.
Definition tal_aes256_cbc_decode_raw (ok : bool) := aes_cbc_raw false ok 256.

Definition tal_aes256_ctr_raw (ok : bool) (input : list Z) (len : Z) (key : list Z) (nc_off : option Z)
    (nonce_counter stream_block : option (list Z)) (output : list Z)
  : option (Z * option Z * option (list Z) * option (list Z) * list Z) :=
  '(ret, ctx) ← tal_aes_create_init ok;
  if negb (ret =? OPRT_OK) then Some (raw_exit ctx ret, nc_off, nonce_counter, stream_block, output)
  else
    c ← ctx;
    '(ret, c) ← tal_aes_setkey_enc c key 256;
    if negb (ret =? OPRT_OK) then Some (raw_exit (Some c) ret, nc_off, nonce_counter, stream_block, output)
    else
      '(ret, nc_off, nonce_counter, stream_block, output) ←
        tal_aes_crypt_ctr c len nc_off nonce_counter stream_block input output;
      Some (raw_exit (Some c) ret, nc_off, nonce_counter, stream_block, output).

(** * Padding *)

(** The counter [i] is a [uint8_t]: [padding_len] is at most 16 in every call. *)
Fixpoint pad_loop (n : nat) (i : Z) (output : list Z) (data_len padding_len : Z) : option (list Z) :=
  match n with
  | O => Some output
  | S n' => output ← wr output (data_len + i) (u8 padding_len); pad_loop n' (i + 1) output data_len padding_len
  end.

Definition add_pkcs_padding (output : list Z) (output_len data_len : Z) : option (list Z) :=
  let padding_len := output_len - data_len in
  pad_loop (Z.to_nat padding_len) 0 output data_len padding_len.

Definition Add_Pkcs (p : list Z) (len : Z) : option (list Z * Z) :=
  let cz := 16 - len mod 16 in
  p ← add_pkcs_padding p (u32 (len + cz)) len;
  Some (p, u32 (len + cz)).

Definition tal_pkcs7padding_buffer := Add_Pkcs.

Definition tal_aes_get_actual_length (dec_data : option (list Z)) (dec_data_len : Z) : option Z :=
  match dec_data with
  | None => Some OPRT_INVALID_PARM
  | Some d =>
      if (dec_data_len =? 0) || negb (dec_data_len mod 16 =? 0) then Some OPRT_INVALID_PARM
      else
        lastdata_val ← rd d (dec_data_len - 1);
        if 16 <? lastdata_val then Some (-2)
        else if dec_data_len <=? lastdata_val then Some (-3)
        else Some (s32 (dec_data_len - lastdata_val))
  end.

(** * The allocating functions

    [malloc n] says whether [n] bytes can be allocated, [ok] whether a context
    can. The out-parameters are not [NULL]. The result: the code, the buffer and
    the length stored, if any, and for CBC the vector. *)
Context (malloc : Z -> bool) (ok : bool).

Definition tal_aes128_ecb_encode (data : option (list Z)) (len : Z) (key : option (list Z))
  : option (Z * option (list Z) * option Z) :=
  match data, key with
  | Some data, Some key =>
      if len =? 0 then Some (OPRT_INVALID_PARM, None, None)
      else if negb (malloc (u32 (len + 16))) then Some (OPRT_MALLOC_FAILED, None, None)
      else
        src ← slice data 0 len;
        ec_data ← blit (zrepl (u32 (len + 16)) 0) 0 src;
        '(ec_data, pkcs7Len) ← Add_Pkcs ec_data len;
        '(ret, ec_data) ← tal_aes128_ecb_encode_raw ok ec_data pkcs7Len ec_data key;
        if negb (ret =? OPRT_OK) then Some (ret, None, Some pkcs7Len)
        else Some (OPRT_OK, Some ec_data, Some pkcs7Len)
  | _, _ => Some (OPRT_INVALID_PARM, None, None)
  end.

Definition tal_aes128_ecb_decode (data : option (list Z)) (len : Z) (key : option (list Z))
  : option (Z * option (list Z) * option Z) :=
  match data, key with
  | Some data, Some key =>
      if len =? 0 then Some (OPRT_INVALID_PARM, None, None)
      else if negb (malloc (u32 (len + 1))) then Some (OPRT_MALLOC_FAILED, None, Some len)
      else
        src ← slice data 0 len;
        dec_data ← blit (zrepl (u32 (len + 1)) 0) 0 src;
        dec_data ← wr dec_data len 0;
        '(ret, dec_data) ← tal_aes128_ecb_decode_raw ok dec_data len dec_data key;
        if negb (ret =? OPRT_OK) then Some (ret, None, Some len)
        else dec_data ← wr dec_data len 0; Some (OPRT_OK, Some dec_data, Some len)
  | _, _ => Some (OPRT_INVALID_PARM, None, None)
  end.

Definition tal_aes128_cbc_encode (data : option (list Z)) (len : Z) (key iv : option (list Z))
  : option (Z * option (list Z) * option Z * option (list Z)) :=
  match data, key, iv with
  | Some data, Some key, Some v =>
      if len =? 0 then Some (OPRT_INVALID_PARM, None, None, iv)
      else if negb (malloc (u32 (len + 16))) then Some (OPRT_MALLOC_FAILED, None, None, iv)
      else
        src ← slice data 0 len;
        ec_data ← blit (zrepl (u32 (len + 16)) 0) 0 src;
        '(ec_data, pkcs7Len) ← Add_Pkcs ec_data len;
        '(ret, v, ec_data) ← tal_aes128_cbc_encode_raw ok ec_data pkcs7Len key v ec_data;
        if negb (ret =? OPRT_OK) then Some (ret, None, Some pkcs7Len, Some v)
        else Some (OPRT_OK, Some ec_data, Some pkcs7Len, Some v)
  | _, _, _ => Some (OPRT_INVALID_PARM, None, None, iv)
  end.

Definition tal_aes128_cbc_decode (data : option (list Z)) (len : Z) (key iv : option (list Z))
  : option (Z * option (list Z) * option Z * option (list Z)) :=
  match data, key, iv with
  | Some data, Some key, Some v =>
      if len =? 0 then Some (OPRT_INVALID_PARM, None, None, iv)
      else if negb (malloc (u32 (len + 1))) then Some (OPRT_MALLOC_FAILED, None, Some len, iv)
      else
        src ← slice data 0 len;
        dec_data ← blit (zrepl (u32 (len + 1)) 0) 0 src;
        dec_data ← wr dec_data len 0;
        '(ret, v, dec_data) ← tal_aes128_cbc_decode_raw ok dec_data len key v dec_data;
        if negb (ret =? OPRT_OK) then Some (ret, None, Some len, Some v)
        else dec_data ← wr dec_data len 0; Some (OPRT_OK, Some dec_data, Some len, Some v)
  | _, _, _ => Some (OPRT_INVALID_PARM, None, None, iv)
  end.
End Symmetry.

(** * Proofs *)

(** The PKCS#7 padding of [n] bytes. *)
Definition pkcs7 (n : Z) : list Z := zrepl (16 - n mod 16) (16 - n mod 16).

Lemma pad_len n : 1 <= 16 - n mod 16 <= 16.
Proof. pose proof (Z.mod_pos_bound n 16). lia. Qed.

Lemma pkcs7_len n : zlen (pkcs7 n) = 16 - n mod 16.
Proof. pose proof (pad_len n). apply zlen_zrepl. lia. Qed.

Lemma pkcs7_bytes n : bytes_ok (pkcs7 n).
Proof. pose proof (pad_len n). apply Forall_replicate. unfold is_u8. lia. Qed.

Lemma padded_blocks n : (n + (16 - n mod 16)) mod 16 = 0.
Proof.
  rewrite (Z.div_mod n 16) at 1 by lia. replace (16 * (n / 16) + n mod 16 + (16 - n mod 16))
    with ((n / 16 + 1) * 16) by lia. apply Z_mod_mult.
Qed.

Lemma pad_loop_ok mid data pre suf pl :
  is_u8 pl ->
  pad_loop (length mid) (zlen pre) (data ++ pre ++ mid ++ suf) (zlen data) pl
  = Some (data ++ pre ++ replicate (length mid) pl ++ suf).
Proof.
  intros Hp. revert pre. induction mid as [|x mid IH]; intros pre; cbn [length pad_loop]; [done|].
  pose proof (wr_mid (data ++ pre) x (mid ++ suf) (u8 pl)) as Hw. rewrite zlen_app in Hw.
  rewrite <- app_assoc in Hw. cbn [app] in Hw. cbn [app]. rewrite Hw, u8_small by done.
  cbn [mbind option_bind]. specialize (IH (pre ++ [pl])).
  rewrite zlen_app, zlen_one in IH. rewrite <- !app_assoc in *. cbn [app] in *. apply IH.
Qed.

Lemma Add_Pkcs_ok data suf :
  zlen data + 16 < 4294967296 -> zlen suf = 16 ->
  exists suf', Add_Pkcs (data ++ suf) (zlen data)
    = Some (data ++ pkcs7 (zlen data) ++ suf', zlen (data ++ pkcs7 (zlen data))).
Proof.
  intros Hn Hs. pose proof (pad_len (zlen data)) as Hp. pose proof (zlen_nonneg data).
  rewrite zlen_app, pkcs7_len. set (cz := 16 - zlen data mod 16) in *.
  destruct (split_at suf cz) as (mid & rest & -> & Hm); [lia|]. exists rest.
  unfold Add_Pkcs, add_pkcs_padding. fold cz. norm_widths.
  replace (zlen data + cz - zlen data) with cz by lia.
  pose proof (pad_loop_ok mid data [] rest cz) as Hl. cbn [app] in Hl.
  rewrite <- Hm in Hl at 1 2. rewrite <- zlen_nat, Hm in Hl. change (zlen (@nil Z)) with 0 in Hl.
  rewrite Hl by (unfold is_u8; lia). cbn [mbind option_bind]. done.
Qed.

Section Laws.
Context `{AesLaws}.

Lemma setkey_enc_ok key rest bits :
  aes_key key -> bits = 8 * zlen key ->
  tal_aes_setkey_enc mbedtls_aes_init (key ++ rest) bits = Some (OPRT_OK, enc_context key).
Proof.
  intros Hk ->. unfold tal_aes_setkey_enc, tkl_aes_setkey_enc, enc_context.
  rewrite slice_prefix_n by (rewrite Z.mul_comm, Z.div_mul; lia). cbn [mbind option_bind].
  pose proof (aes_enc_key key Hk) as E. destruct (mbedtls_aes_setkey_enc _ _ _) as [rc c]. cbn in E. by rewrite E.
Qed.

Lemma setkey_dec_ok key rest bits :
  aes_key key -> bits = 8 * zlen key ->
  tal_aes_setkey_dec mbedtls_aes_init (key ++ rest) bits = Some (OPRT_OK, dec_context key).
Proof.
  intros Hk ->. unfold tal_aes_setkey_dec, tkl_aes_setkey_dec, dec_context.
  rewrite slice_prefix_n by (rewrite Z.mul_comm, Z.div_mul; lia). cbn [mbind option_bind].
  pose proof (aes_dec_key key Hk) as E. destruct (mbedtls_aes_setkey_dec _ _ _) as [rc c]. cbn in E. by rewrite E.
Qed.

(** CBC over whole blocks and back, the output in any array. *)
Lemma cbc_raw_into key rest bits iv data suf :
  aes_key key -> bits = 8 * zlen key -> zlen iv = 16 -> zlen data mod 16 = 0 -> bytes_ok data ->
  exists out iv', zlen out = zlen data
    /\ (forall old osuf, zlen old = zlen data ->
         aes_cbc_raw true true bits (data ++ suf) (zlen data) (key ++ rest) iv (old ++ osuf) = Some (OPRT_OK, iv', out ++ osuf))
    /\ forall suf' old osuf, zlen old = zlen data -> exists iv'',
         aes_cbc_raw false true bits (out ++ suf') (zlen data) (key ++ rest) iv (old ++ osuf) = Some (OPRT_OK, iv'', data ++ osuf).
Proof.
  intros Hk Hb Hi Hm Hd. destruct (aes_cbc_enc key iv data Hk Hi Hm Hd) as (out & v1 & v2 & E & Hl & H1 & H2 & D).
  exists out, v1. split; [done|].
  assert (forall w : list Z, zlen w = 16 -> blit iv 0 w = Some w) as Hv.
  { intros w Hw. rewrite blit_front by lia. rewrite zdrop_all by lia. by rewrite app_nil_r. }
  assert (slice iv 0 16 = Some iv) as Hs by (rewrite <- (app_nil_r iv) at 1; by apply slice_prefix_n).
  unfold aes_cbc_raw, tal_aes_create_init, tkl_aes_create_init, tal_aes_crypt_cbc, tkl_aes_crypt_cbc.
  cbn [mbind option_bind negb OPRT_OK Z.eqb]. rewrite setkey_enc_ok, setkey_dec_ok by done.
  cbn [mbind option_bind negb OPRT_OK Z.eqb]. rewrite Hs. cbn [mbind option_bind]. split.
  - intros old osuf Ho. rewrite slice_prefix. cbn [mbind option_bind]. rewrite E, Hv by done. cbn [mbind option_bind].
    by rewrite (blit_prefix old out osuf) by lia.
  - intros suf' old osuf Ho. exists v2. rewrite (slice_prefix_n out suf') by done. cbn [mbind option_bind].
    rewrite D, Hv by done. cbn [mbind option_bind]. by rewrite (blit_prefix old data osuf) by lia.
Qed.

(** In place. *)
Lemma cbc_raw_ok key rest bits iv data suf :
  aes_key key -> bits = 8 * zlen key -> zlen iv = 16 -> zlen data mod 16 = 0 -> bytes_ok data ->
  exists out iv', zlen out = zlen data
    /\ aes_cbc_raw true true bits (data ++ suf) (zlen data) (key ++ rest) iv (data ++ suf)
       = Some (OPRT_OK, iv', out ++ suf)
    /\ forall suf', exists iv'',
         aes_cbc_raw false true bits (out ++ suf') (zlen data) (key ++ rest) iv (out ++ suf')
         = Some (OPRT_OK, iv'', data ++ suf').
Proof.
  intros Hk Hb Hi Hm Hd. destruct (cbc_raw_into key rest bits iv data suf Hk Hb Hi Hm Hd) as (out & iv' & Hl & E & D).
  exists out, iv'. split; [done|]. split; [by apply E|]. intros suf'. by apply D.
Qed.

(** ECB: block by block, the output in any array. *)
Lemma ecb_loop_ok key n data suf :
  aes_key key -> zlen data = 16 * Z.of_nat n -> bytes_ok data ->
  exists out, zlen out = zlen data
    /\ (forall pre pre2 old osuf, zlen pre = zlen pre2 -> zlen old = zlen data ->
         ecb_loop n (zlen pre) (enc_context key) SYMMETRY_ENCRYPT (pre2 ++ data ++ suf) (pre ++ old ++ osuf)
         = Some (OPRT_OK, pre ++ out ++ osuf))
    /\ forall suf' don don' old osuf, zlen don = zlen don' -> zlen old = zlen data ->
         ecb_loop n (zlen don) (dec_context key) SYMMETRY_DECRYPT (don' ++ out ++ suf') (don ++ old ++ osuf)
         = Some (OPRT_OK, don ++ data ++ osuf).
Proof.
  intros Hk. revert data. induction n as [|n IH]; intros data Hd Hb.
  { apply zlen_zero in Hd as ->. exists []. split; [done|]. split; [intros pre pre2 old osuf _ Ho|intros suf' don don' old osuf _ Ho];
      by rewrite (zlen_zero old Ho). }
  destruct (split_at data 16) as (b & data' & -> & Hb16); [lia|]. rewrite zlen_app in *.
  apply Forall_app in Hb as [Hb1 Hb2].
  destruct (aes_ecb_enc key b Hk Hb16 Hb1) as (o & E & Ho & _ & D).
  destruct (IH data') as (out & Hlen & IE & ID); [lia|done|].
  exists (o ++ out). split; [rewrite zlen_app; lia|]. cbn [ecb_loop].
  split; [intros pre pre2 old osuf Hl Ho2|intros suf' don don' old osuf Hl Ho2];
    destruct (split_at old 16) as (o1 & old' & -> & Ho1); [lia| |lia|]; rewrite zlen_app in Ho2; rewrite <- !app_assoc, Hl.
  - rewrite (slice_mid_n pre2 b) by done. cbn [mbind option_bind]. rewrite <- Hl, E, (blit_mid pre o1 o) by lia.
    cbn [mbind option_bind Z.eqb]. specialize (IE (pre ++ o) (pre2 ++ b) old' osuf). rewrite !zlen_app, Ho in IE. rewrite <- !app_assoc in IE. apply IE; lia.
  - rewrite (slice_mid_n don' o) by done. cbn [mbind option_bind]. rewrite <- Hl, D, (blit_mid don o1 b) by lia.
    cbn [mbind option_bind Z.eqb]. specialize (ID suf' (don ++ b) (don' ++ o) old' osuf). rewrite !zlen_app, Hb16 in ID. rewrite <- !app_assoc in ID. apply ID; lia.
Qed.

Lemma ecb_raw_into key rest bits data suf :
  aes_key key -> bits = 8 * zlen key -> zlen data mod 16 = 0 -> bytes_ok data ->
  exists out, zlen out = zlen data
    /\ (forall old osuf, zlen old = zlen data ->
         aes_ecb_raw true true bits (data ++ suf) (zlen data) (old ++ osuf) (key ++ rest) = Some (OPRT_OK, out ++ osuf))
    /\ forall suf' old osuf, zlen old = zlen data ->
         aes_ecb_raw false true bits (out ++ suf') (zlen data) (old ++ osuf) (key ++ rest) = Some (OPRT_OK, data ++ osuf).
Proof.
  intros Hk Hb Hm Hd. pose proof (zlen_nonneg data).
  destruct (ecb_loop_ok key (Z.to_nat (zlen data / 16)) data suf) as (out & Hl & E & D); [done| |done|].
  { pose proof (Z.div_pos (zlen data) 16). pose proof (Z.div_mod (zlen data) 16). lia. }
  exists out. split; [done|].
  unfold aes_ecb_raw, tal_aes_create_init, tkl_aes_create_init, tal_aes_crypt_ecb, tkl_aes_crypt_ecb.
  cbn [mbind option_bind negb OPRT_OK Z.eqb]. rewrite setkey_enc_ok, setkey_dec_ok by done.
  cbn [mbind option_bind negb OPRT_OK Z.eqb]. rewrite Hm. cbn [negb Z.eqb].
  split; [intros old osuf Ho|intros suf' old osuf Ho].
  - specialize (E [] [] old osuf eq_refl Ho). cbn [app] in E. change (zlen (@nil Z)) with 0 in E. by rewrite E.
  - specialize (D suf' [] [] old osuf eq_refl Ho). cbn [app] in D. change (zlen (@nil Z)) with 0 in D. by rewrite D.
Qed.

(** In place. *)
Lemma ecb_raw_ok key rest bits data suf :
  aes_key key -> bits = 8 * zlen key -> zlen data mod 16 = 0 -> bytes_ok data ->
  exists out, zlen out = zlen data
    /\ aes_ecb_raw true true bits (data ++ suf) (zlen data) (data ++ suf) (key ++ rest)
       = Some (OPRT_OK, out ++ suf)
    /\ forall suf', aes_ecb_raw false true bits (out ++ suf') (zlen data) (out ++ suf') (key ++ rest)
                    = Some (OPRT_OK, data ++ suf').
Proof.
  intros Hk Hb Hm Hd. destruct (ecb_raw_into key rest bits data suf Hk Hb Hm Hd) as (out & Hl & E & D).
  exists out. split; [done|]. split; [by apply E|]. intros suf'. by apply D.
Qed.

(** What the encoders encrypt. *)
Definition padded (data : list Z) : list Z := data ++ pkcs7 (zlen data).

Lemma padded_ok data : bytes_ok data -> bytes_ok (padded data) /\ zlen (padded data) mod 16 = 0
  /\ zlen data < zlen (padded data) <= zlen data + 16.
Proof.
  intros Hd. pose proof (pad_len (zlen data)). unfold padded. rewrite zlen_app, pkcs7_len. split_and!.
  - apply Forall_app. split; [done|apply pkcs7_bytes].
  - apply padded_blocks.
  - lia.
  - lia.
Qed.

Lemma actual_length_ok data rest :
  bytes_ok data -> 0 < zlen data < 2147483600 ->
  tal_aes_get_actual_length (Some (padded data ++ rest)) (zlen (padded data)) = Some (zlen data).
Proof.
  intros Hb Hd. destruct (padded_ok data Hb) as (_ & Hm & Hl). pose proof (pad_len (zlen data)) as Hp.
  unfold tal_aes_get_actual_length. rewrite Hm. destruct (Z.eqb_spec (zlen (padded data)) 0); [lia|]. cbn [orb negb Z.eqb].
  assert (zlen (padded data) = zlen data + (16 - zlen data mod 16)) as Hpl
    by (unfold padded; by rewrite zlen_app, pkcs7_len).
  assert (rd (padded data ++ rest) (zlen (padded data) - 1) = Some (16 - zlen data mod 16)) as ->.
  { set (cz := 16 - zlen data mod 16) in *.
    assert (padded data = (data ++ zrepl (cz - 1) cz) ++ [cz]) as E.
    { unfold padded, pkcs7. fold cz. rewrite <- app_assoc. f_equal. unfold zrepl.
      replace (Z.to_nat cz) with (Z.to_nat (cz - 1) + 1)%nat by lia. by rewrite replicate_add. }
    rewrite E. rewrite <- app_assoc. cbn [app].
    replace (zlen ((data ++ zrepl (cz - 1) cz) ++ [cz]) - 1) with (zlen (data ++ zrepl (cz - 1) cz))
      by (rewrite (zlen_app _ [cz]), zlen_one; lia). apply rd_mid. }
  cbn [mbind option_bind]. rewrite Hpl. repeat (decide_bool; cbn [negb]). rewrite s32_small; [f_equal|]; lia.
Qed.

Section Alloc.
Context (malloc : Z -> bool) (Hmalloc : forall n, malloc n = true).

(** What the encoders prepare: the padded data in front of the buffer. *)
Lemma prepare_ok data rest :
  zlen data + 16 < 4294967296 ->
  exists suf, (src ← slice (data ++ rest) 0 (zlen data);
               buf ← blit (zrepl (u32 (zlen data + 16)) 0) 0 src;
               Add_Pkcs buf (zlen data)) = Some (padded data ++ suf, zlen (padded data)).
Proof.
  intros Hn. pose proof (zlen_nonneg data). rewrite slice_prefix. cbn [mbind option_bind]. norm_widths.
  rewrite blit_front by (rewrite zlen_zrepl; lia). cbn [mbind option_bind].
  destruct (Add_Pkcs_ok data (drop (Z.to_nat (zlen data)) (zrepl (zlen data + 16) 0))) as (suf & E); [lia| |].
  - rewrite zlen_drop; rewrite zlen_zrepl; lia.
  - exists suf. rewrite E. unfold padded. by rewrite <- app_assoc.
Qed.

(** What the decoders prepare: the data with a terminator. *)
Lemma unpack_ok data rest :
  0 <= zlen data + 1 < 4294967296 ->
  (src ← slice (data ++ rest) 0 (zlen data);
   buf ← blit (zrepl (u32 (zlen data + 1)) 0) 0 src;
   wr buf (zlen data) 0) = Some (data ++ [0]).
Proof.
  intros Hn. pose proof (zlen_nonneg data). rewrite slice_prefix. cbn [mbind option_bind]. norm_widths.
  assert (zrepl (zlen data + 1) 0 = zrepl (zlen data) 0 ++ [0]) as ->.
  { unfold zrepl. replace (Z.to_nat (zlen data + 1)) with (Z.to_nat (zlen data) + 1)%nat by lia.
    by rewrite replicate_add. }
  rewrite blit_prefix by (rewrite zlen_zrepl; lia). cbn [mbind option_bind]. apply wr_mid.
Qed.

Lemma cbc_codec_ok key krest iv data rest :
  zlen key = 16 -> zlen iv = 16 -> bytes_ok data -> 0 < zlen data < 2147483600 ->
  exists ec suf v, zlen ec = zlen (padded data)
    /\ tal_aes128_cbc_encode malloc true (Some (data ++ rest)) (zlen data) (Some (key ++ krest)) (Some iv)
       = Some (OPRT_OK, Some (ec ++ suf), Some (zlen ec), Some v)
    /\ forall r, exists v',
         tal_aes128_cbc_decode malloc true (Some (ec ++ r)) (zlen ec) (Some (key ++ krest)) (Some iv)
         = Some (OPRT_OK, Some (padded data ++ [0]), Some (zlen ec), Some v').
Proof.
  intros Hk Hi Hb Hd. destruct (padded_ok data Hb) as (Hpb & Hm & Hpl).
  destruct (prepare_ok data rest) as [suf Hprep]; [lia|].
  destruct (cbc_raw_ok key krest 128 iv (padded data) suf) as (ec & v & Hec & E & D); [by left|lia|done..|].
  exists ec, suf, v. split; [done|]. unfold tal_aes128_cbc_encode, tal_aes128_cbc_decode. rewrite !Hmalloc.
  cbn [negb]. decide_bool. split.
  - cbn [mbind option_bind] in Hprep |- *. 
    destruct (slice (data ++ rest) 0 (zlen data)) as [src|]; [|done]. cbn [mbind option_bind] in Hprep |- *.
    destruct (blit _ 0 src) as [buf|]; [|done]. cbn [mbind option_bind] in Hprep |- *. rewrite Hprep.
    cbn [mbind option_bind]. unfold tal_aes128_cbc_encode_raw. rewrite E. cbn. by rewrite Hec.
  - intros r. destruct (D [0]) as [v' Dv]. exists v'. decide_bool.
    pose proof (unpack_ok ec r ltac:(lia)) as Hun.
    destruct (slice (ec ++ r) 0 (zlen ec)) as [src|]; [|done]. cbn [mbind option_bind] in Hun |- *.
    destruct (blit _ 0 src) as [buf|]; [|done]. cbn [mbind option_bind] in Hun |- *. rewrite Hun.
    cbn [mbind option_bind]. unfold tal_aes128_cbc_decode_raw. rewrite Hec, Dv.
    cbn [mbind option_bind negb OPRT_OK Z.eqb]. by rewrite (wr_mid (padded data) 0 []).
Qed.

Lemma ecb_codec_ok key krest data rest :
  zlen key = 16 -> bytes_ok data -> 0 < zlen data < 2147483600 ->
  exists ec suf, zlen ec = zlen (padded data)
    /\ tal_aes128_ecb_encode malloc true (Some (data ++ rest)) (zlen data) (Some (key ++ krest))
       = Some (OPRT_OK, Some (ec ++ suf), Some (zlen ec))
    /\ forall r, tal_aes128_ecb_decode malloc true (Some (ec ++ r)) (zlen ec) (Some (key ++ krest))
         = Some (OPRT_OK, Some (padded data ++ [0]), Some (zlen ec)).
Proof.
  intros Hk Hb Hd. destruct (padded_ok data Hb) as (Hpb & Hm & Hpl).
  destruct (prepare_ok data rest) as [suf Hprep]; [lia|].
  destruct (ecb_raw_ok key krest 128 (padded data) suf) as (ec & Hec & E & D); [by left|lia|done..|].
  exists ec, suf. split; [done|]. unfold tal_aes128_ecb_encode, tal_aes128_ecb_decode. rewrite !Hmalloc.
  cbn [negb]. decide_bool. split.
  - destruct (slice (data ++ rest) 0 (zlen data)) as [src|]; [|done]. cbn [mbind option_bind] in Hprep |- *.
    destruct (blit _ 0 src) as [buf|]; [|done]. cbn [mbind option_bind] in Hprep |- *. rewrite Hprep.
    cbn [mbind option_bind]. unfold tal_aes128_ecb_encode_raw. rewrite E. cbn. by rewrite Hec.
  - intros r. decide_bool. pose proof (unpack_ok ec r ltac:(lia)) as Hun.
    destruct (slice (ec ++ r) 0 (zlen ec)) as [src|]; [|done]. cbn [mbind option_bind] in Hun |- *.
    destruct (blit _ 0 src) as [buf|]; [|done]. cbn [mbind option_bind] in Hun |- *. rewrite Hun.
    cbn [mbind option_bind]. unfold tal_aes128_ecb_decode_raw. rewrite Hec, D.
    cbn [mbind option_bind negb OPRT_OK Z.eqb]. by rewrite (wr_mid (padded data) 0 []).
Qed.
End Alloc.

(** ** Counter mode *)

(** [nc_off], the counter and the stream block. *)
Definition ctr_state : Type := Z * list Z * list Z.

Definition ctr_ok (st : ctr_state) : Prop :=
  let '(n, counter, stream) := st in
  0 <= n <= 15 /\ zlen counter = 16 /\ bytes_ok counter /\ zlen stream = 16 /\ bytes_ok stream.

(** The state in which a byte is processed: a new stream block every 16. *)
Definition ctr_refill (key : list Z) (st : ctr_state) : ctr_state :=
  let '(n, counter, stream) := st in
  if n =? 0 then (n, default counter (ctr_inc 16 counter),
                  snd (mbedtls_aes_crypt_ecb (enc_context key) SYMMETRY_ENCRYPT counter))
  else st.

Definition ctr_next (st : ctr_state) : ctr_state :=
  let '(n, counter, stream) := st in ((n + 1) mod 16, counter, stream).

Definition ctr_byte (st : ctr_state) : Z := let '(n, _, stream) := st in default 0 (rd stream n).

Fixpoint ctr_ref (key : list Z) (data : list Z) (st : ctr_state) : list Z * ctr_state :=
  match data with
  | [] => ([], st)
  | c :: data' =>
      let st1 := ctr_refill key st in
      let '(out, st') := ctr_ref key data' (ctr_next st1) in
      (Z.lxor c (ctr_byte st1) :: out, st')
  end.

Lemma wr_bytes l i v l' : bytes_ok l -> is_u8 v -> wr l i v = Some l' -> bytes_ok l'.
Proof. unfold wr. destruct (_ && _); [|done]. intros Hl Hv [= <-]. by apply Forall_insert. Qed.

Lemma ctr_inc_ok n counter :
  Z.of_nat n <= zlen counter -> bytes_ok counter ->
  exists c, ctr_inc n counter = Some c /\ zlen c = zlen counter /\ bytes_ok c.
Proof.
  revert counter. induction n as [|n IH]; intros counter Hn Hb; cbn [ctr_inc]; [eauto|].
  destruct (rd_Some counter (Z.of_nat n)) as [x ->]; [lia|]. cbn [mbind option_bind].
  destruct (wr counter (Z.of_nat n) (u8 (x + 1))) as [c|] eqn:E.
  2: { unfold wr in E. destruct (Z.leb_spec 0 (Z.of_nat n)); [|lia].
       destruct (Z.ltb_spec (Z.of_nat n) (zlen counter)); [done|lia]. }
  cbn [mbind option_bind]. apply wr_bytes in E as Hc; [|done|apply u8_range]. apply wr_Some in E as [_ El].
  destruct (u8 (x + 1) =? 0); [|by eauto]. destruct (IH c) as (c' & -> & Hc' & Hb'); [lia|done|].
  exists c'. by rewrite Hc', El.
Qed.

Lemma ctr_refill_ok key st : aes_key key -> ctr_ok st -> ctr_ok (ctr_refill key st).
Proof.
  intros Hk. destruct st as [[n c] sb]. cbn -[ctr_inc]. intros (Hn & Hc & Hcb & Hs & Hsb).
  destruct (n =? 0); [|done].
  destruct (ctr_inc_ok 16 c) as (c' & -> & Hc' & Hb'); [lia|done|]. cbn [default].
  destruct (aes_ecb_enc key c Hk Hc Hcb) as (o & -> & Ho & Hob & _). cbn. split_and!; done || lia.
Qed.

Lemma ctr_next_ok st : ctr_ok st -> ctr_ok (ctr_next st).
Proof.
  destruct st as [[n c] sb]. cbn. intros (Hn & ?). pose proof (Z.mod_pos_bound (n + 1) 16).
  split; [lia|done].
Qed.

Lemma ctr_byte_ok st : ctr_ok st -> is_u8 (ctr_byte st).
Proof.
  destruct st as [[n c] sb]. cbn. intros (Hn & _ & _ & Hs & Hb). destruct (rd_Some sb n) as [x Hx]; [lia|].
  rewrite Hx. cbn. unfold rd in Hx. destruct (0 <=? n); [|done]. by eapply Forall_lookup_1.
Qed.

Lemma ctr_ref_app key a b st :
  ctr_ref key (a ++ b) st
  = let '(oa, st1) := ctr_ref key a st in let '(ob, st2) := ctr_ref key b st1 in (oa ++ ob, st2).
Proof.
  revert st. induction a as [|c a IH]; intros st; cbn [app ctr_ref]; [by destruct (ctr_ref key b st)|].
  rewrite IH. destruct (ctr_ref key a _) as [oa st1]. by destruct (ctr_ref key b st1).
Qed.

Lemma ctr_ref_ok key data st :
  aes_key key -> ctr_ok st -> bytes_ok data ->
  let '(out, st') := ctr_ref key data st in
  ctr_ok st' /\ bytes_ok out /\ length out = length data /\ ctr_ref key out st = (data, st').
Proof.
  intros Hk. revert st. induction data as [|c data IH]; intros st Hst Hd; cbn [ctr_ref]; [done|].
  apply Forall_cons_1 in Hd as [Hc Hd]. pose proof (ctr_refill_ok key st Hk Hst) as Hr.
  specialize (IH (ctr_next (ctr_refill key st)) (ctr_next_ok _ Hr) Hd).
  destruct (ctr_ref key data _) as [out st'] eqn:E. destruct IH as (H1 & H2 & H3 & H4).
  split_and!; [done| |cbn; lia|].
  - apply Forall_cons_2; [|done]. apply lxor_u8; [done|by apply ctr_byte_ok].
  - cbn [ctr_ref]. rewrite H4. f_equal. f_equal. rewrite Z.lxor_assoc, Z.lxor_nilpotent. apply Z.lxor_0_r.
Qed.

Lemma ctr_refill_code key n counter stream :
  aes_key key -> ctr_ok (n, counter, stream) ->
  exists c1 s1, ctr_refill key (n, counter, stream) = (n, c1, s1)
    /\ (if n =? 0 then
          '(rc, stream) ← tal_aes_crypt_ecb (enc_context key) SYMMETRY_ENCRYPT 16 counter stream;
          if rc =? OPRT_OK then counter ← ctr_inc 16 counter; Some (rc, counter, stream)
          else Some (rc, counter, stream)
        else Some (OPRT_OK, counter, stream)) = Some (OPRT_OK, c1, s1).
Proof.
  intros Hk (Hn & Hc & Hcb & Hs & Hsb). unfold ctr_refill. destruct (n =? 0); [|by eauto].
  destruct (ctr_inc_ok 16 counter) as (c' & -> & _ & _); [lia|done|].
  destruct (aes_ecb_enc key counter Hk Hc Hcb) as (o & E & Ho & _ & _). rewrite E. cbn [snd default].
  eexists _, _. split; [done|]. unfold tal_aes_crypt_ecb, tkl_aes_crypt_ecb.
  change (negb (16 mod 16 =? 0)) with false. change (Z.to_nat (16 / 16)) with 1%nat. cbn [ecb_loop].
  rewrite <- (app_nil_r counter) at 1. rewrite slice_prefix_n by done. cbn [mbind option_bind].
  rewrite E. rewrite blit_front by lia. rewrite zdrop_all, app_nil_r by lia. done.
Qed.

Lemma land_15 n : 0 <= n -> Z.land n 0x0F = n mod 16.
Proof. intros. change 0x0F with (Z.ones 4). by rewrite Z.land_ones by lia. Qed.

Lemma ctr_loop_ok key data pre pre2 old isuf osuf n counter stream :
  aes_key key -> ctr_ok (n, counter, stream) -> bytes_ok data ->
  zlen pre = zlen pre2 -> length old = length data ->
  ctr_loop (length data) (zlen pre) (enc_context key) n counter stream (pre2 ++ data ++ isuf) (pre ++ old ++ osuf)
  = let '(out, (n', c', s')) := ctr_ref key data (n, counter, stream) in
    Some (OPRT_OK, n', c', s', pre ++ out ++ osuf).
Proof.
  intros Hk. revert pre pre2 old n counter stream.
  induction data as [|c data IH]; intros pre pre2 old n counter stream Hst Hd Hp Hl.
  { by destruct old. }
  destruct old as [|x old]; [done|]. cbn in Hl. apply Forall_cons_1 in Hd as [Hc Hd].
  destruct (ctr_refill_code key n counter stream Hk Hst) as (c1 & s1 & Er & Ec).
  pose proof (ctr_refill_ok key _ Hk Hst) as Hst1. rewrite Er in Hst1.
  cbn [length ctr_loop]. rewrite Ec. cbn [mbind option_bind negb OPRT_OK Z.eqb]. cbn [app].
  rewrite Hp at 1. rewrite rd_mid. cbn [mbind option_bind].
  pose proof (ctr_byte_ok _ Hst1) as Hbyte. cbn [ctr_byte] in Hbyte.
  assert (rd s1 n = Some (default 0 (rd s1 n))) as Hrd.
  { destruct Hst1 as (? & _ & _ & ? & _). by destruct (rd_Some s1 n) as [y ->]; [lia|]. }
  rewrite Hrd. cbn [mbind option_bind]. rewrite (wr_mid pre x (old ++ osuf)). cbn [mbind option_bind].
  rewrite u8_small by (by apply lxor_u8).
  specialize (IH (pre ++ [Z.lxor c (default 0 (rd s1 n))]) (pre2 ++ [c]) old ((n + 1) mod 16) c1 s1
                (ctr_next_ok _ Hst1) Hd).
  rewrite !zlen_app, !zlen_one in IH. rewrite <- !app_assoc in IH. cbn [app] in IH.
  rewrite land_15 by (destruct Hst1; lia). rewrite IH by lia.
  cbn [ctr_ref]. rewrite Er. cbn [ctr_next ctr_byte].
  destruct (ctr_ref key data _) as [out [[n' c'] s']]. by rewrite <- app_assoc.
Qed.

Lemma crypt_ctr_ok key data isuf old osuf n counter stream :
  aes_key key -> ctr_ok (n, counter, stream) -> bytes_ok data -> length old = length data ->
  tal_aes_crypt_ctr (enc_context key) (zlen data) (Some n) (Some counter) (Some stream) (data ++ isuf) (old ++ osuf)
  = let '(out, (n', c', s')) := ctr_ref key data (n, counter, stream) in
    Some (OPRT_OK, Some n', Some c', Some s', out ++ osuf).
Proof.
  intros Hk Hst Hd Hl. unfold tal_aes_crypt_ctr. destruct (Z.ltb_spec 15 n); [destruct Hst; lia|].
  rewrite zlen_nat. pose proof (ctr_loop_ok key data [] [] old isuf osuf n counter stream Hk Hst Hd eq_refl Hl) as E.
  change (zlen (@nil Z)) with 0 in E. cbn [app] in E. rewrite E.
  by destruct (ctr_ref key data _) as [out [[n' c'] s']].
Qed.
End Laws.

(** ** An instance, for witnesses: a byte of the key is added to every byte *)

Definition toy_mask (key data : list Z) : list Z := (fun b => Z.lxor b (u8 (hd 0 key))) <$> data.

#[export] Instance toy_aes : MbedtlsAes := {
  mbedtls_aes_context := list Z;
  mbedtls_aes_init := [];
  mbedtls_aes_setkey_enc _ key bits := (if bits =? 8 * zlen key then 0 else -32, key);
  mbedtls_aes_setkey_dec _ key bits := (if bits =? 8 * zlen key then 0 else -32, key);
  mbedtls_aes_crypt_ecb key _ b := (0, toy_mask key b);
  mbedtls_aes_crypt_cbc key _ iv data :=
    if zlen data mod 16 =? 0 then (0, iv, toy_mask key data) else (-34, iv, [])
}.

Lemma toy_mask_len key data : zlen (toy_mask key data) = zlen data.
Proof. unfold zlen, toy_mask. by rewrite length_fmap. Qed.

Lemma toy_mask_twice key data : toy_mask key (toy_mask key data) = data.
Proof.
  unfold toy_mask. rewrite <- list_fmap_compose. rewrite <- (list_fmap_id data) at 2. apply list_fmap_ext.
  intros i x _. cbn. rewrite Z.lxor_assoc, Z.lxor_nilpotent. apply Z.lxor_0_r.
Qed.

#[export] Instance toy_aes_laws : AesLaws.
Proof.
  split.
  - intros key _. cbn. by rewrite Z.eqb_refl.
  - intros key _. cbn. by rewrite Z.eqb_refl.
  - intros key b Hk Hb Hby. exists (toy_mask key b). split_and!; [done|by rewrite toy_mask_len| |].
    + apply Forall_fmap. eapply Forall_impl; [|exact Hby]. intros x Hx. cbn. apply lxor_u8; [done|apply u8_range].
    + cbn. f_equal. apply toy_mask_twice.
  - intros key iv data Hk Hi Hm Hd. exists (toy_mask key data), iv, iv. cbn [mbedtls_aes_crypt_cbc toy_aes].
    rewrite toy_mask_len, Hm. split_and!; try done. cbn. f_equal. apply toy_mask_twice.
Qed.

(** * Properties *)

(** (C27) AES-128 with padding, in both modes: what [tal_aes128_cbc_encode] or
    [tal_aes128_ecb_encode] makes of any data, cut to the length it reports, is
    turned back by the decoder with the same key (and vector) into a buffer whose
    length without the padding, as [tal_aes_get_actual_length] computes it, is the
    length of the data and which starts with the data; the padding fits the
    16 extra bytes allocated for it. *)
Theorem aes128_padding_roundtrip `{AesLaws} (malloc : Z -> bool) (key krest iv data rest r : list Z) :
  (forall n, malloc n = true) -> zlen key = 16 -> zlen iv = 16 -> bytes_ok data -> 0 < zlen data < 2147483600 ->
  (exists ec n v dec v',
     tal_aes128_cbc_encode malloc true (Some (data ++ rest)) (zlen data) (Some (key ++ krest)) (Some iv)
       = Some (OPRT_OK, Some ec, Some n, v)
     /\ n = zlen data + (16 - zlen data mod 16)
     /\ tal_aes128_cbc_decode malloc true (Some (take (Z.to_nat n) ec ++ r)) n (Some (key ++ krest)) (Some iv)
        = Some (OPRT_OK, Some dec, Some n, v')
     /\ tal_aes_get_actual_length (Some dec) n = Some (zlen data)
     /\ slice dec 0 (zlen data) = Some data)
  /\ (exists ec n dec,
     tal_aes128_ecb_encode malloc true (Some (data ++ rest)) (zlen data) (Some (key ++ krest))
       = Some (OPRT_OK, Some ec, Some n)
     /\ n = zlen data + (16 - zlen data mod 16)
     /\ tal_aes128_ecb_decode malloc true (Some (take (Z.to_nat n) ec ++ r)) n (Some (key ++ krest))
        = Some (OPRT_OK, Some dec, Some n)
     /\ tal_aes_get_actual_length (Some dec) n = Some (zlen data)
     /\ slice dec 0 (zlen data) = Some data).
Proof.
  intros Hm Hk Hi Hb Hd.
  assert (zlen (padded data) = zlen data + (16 - zlen data mod 16)) as Hpl
    by (unfold padded; by rewrite zlen_app, pkcs7_len).
  assert (slice (padded data ++ [0]) 0 (zlen data) = Some data) as Hs
    by (unfold padded; rewrite <- app_assoc; apply slice_prefix).
  pose proof (actual_length_ok data [0] Hb Hd) as Ha. split.
  - destruct (cbc_codec_ok malloc Hm key krest iv data rest Hk Hi Hb Hd) as (ec & suf & v & Hec & E & D).
    destruct (D r) as [v' Dv]. exists (ec ++ suf), (zlen ec), (Some v), (padded data ++ [0]), (Some v').
    rewrite ztake_app, E, Dv. rewrite Hec. auto.
  - destruct (ecb_codec_ok malloc Hm key krest data rest Hk Hb Hd) as (ec & suf & Hec & E & D).
    exists (ec ++ suf), (zlen ec), (padded data ++ [0]). rewrite ztake_app, E, D. rewrite Hec. auto.
Qed.

Lemma aes128_padding_roundtrip_witness :
  exists ec n v, tal_aes128_cbc_encode (fun _ => true) true (Some [1; 2; 3]) 3 (Some (zrepl 16 7)) (Some (zrepl 16 0))
    = Some (OPRT_OK, Some ec, Some n, v) /\ n = 16.
Proof.
  destruct (aes128_padding_roundtrip (fun _ => true) (zrepl 16 7) [] (zrepl 16 0) [1; 2; 3] [] [])
    as [(ec & n & v & _ & _ & E & Hn & _) _]; [done|done|done|repeat constructor; lia|done|].
  exists ec, n, v. split; [exact E|exact Hn].
Defined.

(** (C28) Counter mode is a stream cipher: processing [a] and then [b] with the
    state the first call leaves (offset, counter and stream block) gives what one
    call on the concatenation gives, with the same final state, and applying it
    again from the initial state gives the input back. All calls succeed, for
    every well-formed state and every split. *)
Theorem aes_ctr_stream `{AesLaws} (key a b o1 o2 o3 o4 : list Z) (n : Z) (counter stream : list Z) :
  aes_key key -> ctr_ok (n, counter, stream) -> bytes_ok a -> bytes_ok b ->
  length o1 = length a -> length o2 = length b -> length o3 = length (a ++ b) -> length o4 = length (a ++ b) ->
  let ctr len n c s input output := tal_aes_crypt_ctr (enc_context key) len (Some n) (Some c) (Some s) input output in
  exists ca cb n1 c1 s1 n2 c2 s2,
    ctr (zlen a) n counter stream a o1 = Some (OPRT_OK, Some n1, Some c1, Some s1, ca)
    /\ ctr (zlen b) n1 c1 s1 b o2 = Some (OPRT_OK, Some n2, Some c2, Some s2, cb)
    /\ ctr (zlen (a ++ b)) n counter stream (a ++ b) o3 = Some (OPRT_OK, Some n2, Some c2, Some s2, ca ++ cb)
    /\ ctr (zlen (ca ++ cb)) n counter stream (ca ++ cb) o4 = Some (OPRT_OK, Some n2, Some c2, Some s2, a ++ b).
Proof.
  intros Hk Hst Ha Hb H1 H2 H3 H4 ctr.
  assert (forall data o n c s, ctr_ok (n, c, s) -> bytes_ok data -> length o = length data ->
    ctr (zlen data) n c s data o
    = let '(out, (n', c', s')) := ctr_ref key data (n, c, s) in Some (OPRT_OK, Some n', Some c', Some s', out)) as Hc.
  { intros data o n' c' s' Hs Hd Hl. pose proof (crypt_ctr_ok key data [] o [] n' c' s' Hk Hs Hd Hl) as E.
    rewrite !app_nil_r in E. unfold ctr. rewrite E. destruct (ctr_ref _ _ _) as [out [[? ?] ?]]. by rewrite app_nil_r. }
  pose proof (ctr_ref_ok key a _ Hk Hst Ha) as Ra. pose proof (ctr_ref_app key a b (n, counter, stream)) as Rab.
  destruct (ctr_ref key a _) as [ca [[n1 c1] s1]] eqn:Ea. destruct Ra as (Hst1 & Hca & Hla & _).
  pose proof (ctr_ref_ok key b _ Hk Hst1 Hb) as Rb.
  destruct (ctr_ref key b _) as [cb [[n2 c2] s2]] eqn:Eb. destruct Rb as (_ & Hcb & Hlb & _).
  pose proof (ctr_ref_ok key (a ++ b) _ Hk Hst) as Rc. rewrite Rab in Rc.
  destruct Rc as (_ & Hcab & Hlab & Rback); [by apply Forall_app|].
  exists ca, cb, n1, c1, s1, n2, c2, s2. rewrite !Hc by (done || (by apply Forall_app) || lia).
  by rewrite Ea, Eb, Rab, Rback.
Qed.

Lemma aes_ctr_stream_witness :
  exists ca n1 c1 s1,
    tal_aes_crypt_ctr (enc_context (zrepl 16 7)) 2 (Some 0) (Some (zrepl 16 255)) (Some (zrepl 16 0)) [1; 2] [0; 0]
    = Some (OPRT_OK, Some n1, Some c1, Some s1, ca) /\ n1 = 2.
Proof.
  edestruct (aes_ctr_stream (zrepl 16 7) [1; 2] [3] [0; 0] [0] [0; 0; 0] [0; 0; 0] 0 (zrepl 16 255) (zrepl 16 0))
    as (ca & cb & n1 & c1 & s1 & _ & _ & _ & E & _).
  - by left.
  - cbn. split_and!; try done; repeat constructor; lia.
  - repeat constructor; lia.
  - repeat constructor; lia.
  - done.
  - done.
  - done.
  - done.
  - exists ca, n1, c1, s1. split; [exact E|]. vm_compute in E. by injection E.
Defined.

(** An encryption that fails is reported as done: when mbedTLS refuses the key,
    [tal_aes128_cbc_encode] still returns [OPRT_OK], since the release of the
    context overwrites the code, and the buffer it hands out is the padded
    plaintext. *)
Theorem aes_failure_stores_plaintext `{MbedtlsAes} (malloc : Z -> bool) (key krest iv data rest : list Z) :
  (forall n, malloc n = true) -> zlen key = 16 -> 0 < zlen data < 2147483600 ->
  fst (mbedtls_aes_setkey_enc mbedtls_aes_init key 128) <> 0 ->
  exists ec n, tal_aes128_cbc_encode malloc true (Some (data ++ rest)) (zlen data) (Some (key ++ krest)) (Some iv)
    = Some (OPRT_OK, Some ec, Some n, Some iv) /\ slice ec 0 (zlen data) = Some data.
Proof.
  intros Hm Hk Hd Hf. destruct (prepare_ok data rest) as [suf Hprep]; [lia|].
  exists (padded data ++ suf), (zlen (padded data)).
  unfold tal_aes128_cbc_encode. rewrite Hm. cbn [negb]. decide_bool.
  destruct (slice (data ++ rest) 0 (zlen data)) as [src|]; [|done]. cbn [mbind option_bind] in Hprep |- *.
  destruct (blit _ 0 src) as [buf|]; [|done]. cbn [mbind option_bind] in Hprep |- *. rewrite Hprep.
  cbn [mbind option_bind]. unfold tal_aes128_cbc_encode_raw, aes_cbc_raw, tal_aes_create_init, tkl_aes_create_init.
  cbn [mbind option_bind negb OPRT_OK Z.eqb]. unfold tal_aes_setkey_enc, tkl_aes_setkey_enc.
  rewrite slice_prefix_n by done. cbn [mbind option_bind].
  destruct (mbedtls_aes_setkey_enc _ key 128) as [rc c]. cbn in Hf. destruct (Z.eqb_spec rc 0); [done|].
  cbn. split; [done|]. unfold padded. rewrite <- app_assoc. apply slice_prefix.
Qed.

(** An mbedTLS that refuses every key. *)
Definition broken_aes : MbedtlsAes := {|
  mbedtls_aes_context := unit;
  mbedtls_aes_init := tt;
  mbedtls_aes_setkey_enc _ _ _ := (-32, tt);
  mbedtls_aes_setkey_dec _ _ _ := (-32, tt);
  mbedtls_aes_crypt_ecb _ _ _ := (-33, []);
  mbedtls_aes_crypt_cbc _ _ iv _ := (-33, iv, [])
|}.

Lemma aes_failure_stores_plaintext_witness :
  exists ec n, @tal_aes128_cbc_encode broken_aes (fun _ => true) true (Some [1; 2; 3]) 3
                 (Some (zrepl 16 7)) (Some (zrepl 16 0))
    = Some (OPRT_OK, Some ec, Some n, Some (zrepl 16 0)) /\ slice ec 0 3 = Some [1; 2; 3].
Proof.
  apply (@aes_failure_stores_plaintext broken_aes (fun _ => true) (zrepl 16 7) [] (zrepl 16 0) [1; 2; 3] []); done.
Defined.
