(* ===== verification/Protocol.v ===== *)
(** The packet layer of [src/tuya_cloud_service/protocol/tuya_protocol.c]: MQTT
    packets (protocol 2.3), LAN packets and LAN frames (protocol 3.5), with the
    random helpers of [src/common/utilities/uni_random.c]. *)
From Stdlib Require Import ZArith Lia String.
From stdpp Require Import base tactics option list numbers.
From S2P Require Import Prelude Text Endian Cipher.

Local Open Scope Z_scope.

(** [memcpy(&x, p + off, 4); x = UNI_NTOHL(x)]. *)
Definition load_u32 (p : list Z) (off : Z) : option Z :=
  b ← slice p off 4; Some (UNI_NTOHL (le_load b)).

(** The memory from [p + off] on. *)
Definition ptr (p : list Z) (off : Z) : list Z := drop (Z.to_nat off) p.

(** * uni_random.c

    [rnd] is the stream of 32-bit words the TLS library's generator yields, [k]
    the number of words taken. *)

Section Random.
Context (rnd : nat -> Z).

Definition RAND_MAX : Z := 0x7fffffff.

Definition uni_random_int (k : nat) : Z := Z.land (rnd k) RAND_MAX.
Definition uni_random_range (range : Z) (k : nat) : Z :=
  let range := if range =? 0 then 0xff else range in
  uni_random_int k mod range.

Definition seed : list Z := str "0123456789abcdef".

Fixpoint random_string_loop (n : nat) (k : nat) : list Z :=
  match n with
  | O => []
  | S n' => default 0 (rd seed (uni_random_range 16 k)) :: random_string_loop n' (S k)
  end.
Definition uni_random_string (size : Z) (k : nat) : list Z := random_string_loop (Z.to_nat size) k.

(** The nonce loop of [lpv35_frame_serialize]. *)
Fixpoint nonce_loop (n : nat) (k : nat) : list Z :=
  match n with
  | O => []
  | S n' => u8 (uni_random_range 0xFF k) :: nonce_loop n' (S k)
  end.

(** [serial_no] is the static variable; the result is its new value, which is
    returned, and the number of words taken. *)
Definition tuya_pack_protocol_serial_no (serial_no : Z) (k : nat) : Z * nat :=
  let '(serial_no, k) := if serial_no =? 0 then (rnd k, S k) else (serial_no, k) in
  (u32 (serial_no + 1), k).
End Random.

(** * The JSON envelope *)

(** The format of both packers up to the closing brace. *)
Definition json_text (pro t : Z) (src : list Z) : list Z :=
  str "{" ++ quoted "protocol" ++ str ":" ++ print_u32 pro
  ++ str "," ++ quoted "t" ++ str ":" ++ print_u32 t
  ++ str "," ++ quoted "data" ++ str ":" ++ src.

(** * Constants *)

Definition PV_OFFSET_22_32 : Z := 0.
Definition PV_LEN_22_32 : Z := 3.
Definition CRC_OFFSET_22_32 : Z := 3.
Definition SEQ_OFFSET_22_32 : Z := 7.
Definition CMD_FROM_OFFSET_22_32 : Z := 11.
Definition DATA_OFFSET_22_32 : Z := 15.

Definition PV23_VERSION_LEN : Z := 3.
Definition PV23_SEQ_OFFSET : Z := 3.
Definition PV23_CMD_FROM_OFFSET : Z := 7.
Definition PV23_RESERVE_OFFSET : Z := 11.
Definition PV23_NONCE_OFFSET : Z := 12.
Definition PV23_NONCE_LEN : Z := 12.
Definition PV23_DATA_OFFSET : Z := 24.
Definition PV23_TAG_LEN : Z := 16.
Definition PV23_AD_DATA_LEN : Z := 12.
Definition PV23_EXCEPT_DATA_LEN : Z := 40.

Definition TUYA_PV23 : list Z := str "2.3".
Definition TUYA_LPV35 : list Z := str "3.5".

Definition DP_CMD_LAN : Z := 0.
Definition DP_CMD_MQ : Z := 1.

Definition LPV35_FRAME_HEAD : list Z := [0; 0; 0x66; 0x99].
Definition LPV35_FRAME_TAIL : list Z := [0; 0; 0x99; 0x66].
Definition LPV35_FRAME_HEAD_SIZE : Z := 4.
Definition LPV35_FRAME_NONCE_SIZE : Z := 12.
Definition LPV35_FRAME_TAG_SIZE : Z := 16.
Definition LPV35_FRAME_TAIL_SIZE : Z := 4.
Definition LPV35_FRAME_MINI_SIZE : Z := 50.
Definition LPV35_AD_SIZE : Z := 14.   (* sizeof(lpv35_additional_data_t) *)

(** * Packets

    [malloc] and [szw] as in [Cipher]; [t] is the reading of
    [tal_time_get_posix]. The outer [option] is the memory: [None] is an access
    outside an object. A C string is its bytes without the terminator. *)

Section Packets.
Context `{MbedtlsCipher} (malloc : Z -> bool) (szw : Z) (rnd : nat -> Z).

(** ** Parsing *)

Definition parse_data_with_pv23 (data : list Z) (len : Z) (key : list Z) : option (Z * option (list Z)) :=
  v ← slice data 0 PV23_VERSION_LEN;
  if negb (bool_decide (v = TUYA_PV23)) then Some (OPRT_VERSION_FMT_ERR, None)
  else
    seq ← load_u32 data PV23_SEQ_OFFSET;
    cmd_from ← load_u32 data PV23_CMD_FROM_OFFSET;
    r ← rd data PV23_RESERVE_OFFSET;
    if negb (r =? 0) then Some (OPRT_VERSION_FMT_ERR, None)
    else
      let dlen := u32 (len - PV23_EXCEPT_DATA_LEN) in
      let n := u32 (dlen + 1) in
      if negb (malloc n) then Some (OPRT_MALLOC_FAILED, None)
      else
        '(op_ret, written) ← mbedtls_cipher_auth_decrypt_wrapper malloc szw
            (Some {| p_key := key; p_nonce := ptr data PV23_NONCE_OFFSET; p_ad := data;
                     p_data := ptr data PV23_DATA_OFFSET; key_len := 16; nonce_len := PV23_NONCE_LEN;
                     ad_len := PV23_AD_DATA_LEN; data_len := dlen;
                     cipher_type := MBEDTLS_CIPHER_AES_128_GCM |})
            (ptr data (u32 (len - PV23_TAG_LEN))) PV23_TAG_LEN;
        let out := default [] written in
        ec_data ← blit (zrepl n 0) 0 out;
        if negb (op_ret =? OPRT_OK) then Some (op_ret, None)
        else
          ec_data ← wr ec_data (zlen out) 0;
          Some (OPRT_OK, Some ec_data).

Definition parse_data_with_lpv35 (data : list Z) (len : Z) : option (Z * option (list Z)) :=
  pv_buf ← slice data PV_OFFSET_22_32 PV_LEN_22_32;
  seq ← load_u32 data SEQ_OFFSET_22_32;
  cmd_from ← load_u32 data CMD_FROM_OFFSET_22_32;
  let ec_len := u32 (len - DATA_OFFSET_22_32) in
  let n := u32 (ec_len + 1) in
  if negb (malloc n) then Some (OPRT_MALLOC_FAILED, None)
  else
    d ← slice data DATA_OFFSET_22_32 ec_len;
    ec_data ← blit (zrepl n 0) 0 d;
    ec_data ← wr ec_data ec_len 0;
    Some (OPRT_OK, Some ec_data).

(** [len] is an [int], compared with a [size_t]. *)
Definition tuya_parse_protocol_data (cmd : Z) (data : option (list Z)) (len : Z) (key : list Z)
  : option (Z * option (list Z)) :=
  match data with
  | None => Some (OPRT_INVALID_PARM, None)
  | Some data =>
      if size_t szw len <? DATA_OFFSET_22_32 then Some (OPRT_INVALID_PARM, None)
      else
        let pv := if cmd =? DP_CMD_LAN then TUYA_LPV35 else if cmd =? DP_CMD_MQ then TUYA_PV23 else [] in
        if cmd =? DP_CMD_LAN then
          if bool_decide (pv = str "3.5") then parse_data_with_lpv35 data (u32 len)
          else Some (OPRT_COM_ERROR, None)
        else if cmd =? DP_CMD_MQ then
          if bool_decide (pv = str "2.3") then parse_data_with_pv23 data (u32 len) key
          else Some (OPRT_COM_ERROR, None)
        else Some (OPRT_COM_ERROR, None)
  end.

(** ** Packing *)

(** The JSON part both packers start with: the code, or the text. *)
Definition pack_json (src : list Z) (pro t : Z) : Z + list Z :=
  let len := s32 (zlen src + 60) in
  if negb (malloc len) then inl OPRT_MALLOC_FAILED
  else
    let out := json_text pro t src in
    let ret := zlen out in
    if len <=? ret then inl OPRT_BUFFER_NOT_ENOUGH
    else
      let offset := ret in
      if len - 2 <? offset then inl OPRT_BUFFER_NOT_ENOUGH
      else inr (out ++ str "}").

Definition pack_data_with_cmd_pv23 (pv src : option (list Z)) (pro num : Z) (key : option (list Z))
    (t : Z) (k : nat) : option (Z * option (list Z * Z)) :=
  match pv, src, key with
  | Some pv, Some src, Some key =>
      match pack_json src pro t with
      | inl rc => Some (rc, None)
      | inr out =>
          let offset := zlen out in
          if negb (malloc (offset + PV23_EXCEPT_DATA_LEN)) then Some (OPRT_MALLOC_FAILED, None)
          else
            let buf := zrepl (offset + PV23_EXCEPT_DATA_LEN) 0 in
            v ← slice pv 0 PV_LEN_22_32;
            buf ← blit buf 0 v;
            buf ← blit buf PV23_SEQ_OFFSET (le_store (UNI_HTONL num));
            buf ← blit buf PV23_CMD_FROM_OFFSET (le_store (UNI_HTONL 1));
            buf ← blit buf PV23_RESERVE_OFFSET [0];
            buf ← blit buf PV23_NONCE_OFFSET (uni_random_string rnd PV23_NONCE_LEN k);
            '(op_ret, written) ← mbedtls_cipher_auth_encrypt_wrapper malloc szw
                (Some {| p_key := key; p_nonce := ptr buf PV23_NONCE_OFFSET; p_ad := buf;
                         p_data := out ++ [0]; key_len := 16; nonce_len := PV23_NONCE_LEN;
                         ad_len := PV23_AD_DATA_LEN; data_len := zlen out;
                         cipher_type := MBEDTLS_CIPHER_AES_128_GCM |}) PV23_TAG_LEN;
            let '(ct, tag) := default ([], []) written in
            buf ← blit buf PV23_DATA_OFFSET ct;
            buf ← blit buf (PV23_DATA_OFFSET + offset) tag;
            if negb (op_ret =? OPRT_OK) then Some (op_ret, None)
            else Some (OPRT_OK, Some (buf, u32 (PV23_EXCEPT_DATA_LEN + zlen ct)))
      end
  | _, _, _ => Some (OPRT_INVALID_PARM, None)
  end.

Definition pack_data_with_cmd_lpv35 (pv src : option (list Z)) (pro num : Z) (key : option (list Z))
    (t : Z) : option (Z * option (list Z * Z)) :=
  match pv, src, key with
  | Some pv, Some src, Some key =>
      match pack_json src pro t with
      | inl rc => Some (rc, None)
      | inr out =>
          let offset := zlen out in
          if negb (malloc (DATA_OFFSET_22_32 + offset + 16)) then Some (OPRT_MALLOC_FAILED, None)
          else
            let buf := zrepl (DATA_OFFSET_22_32 + offset + 16) 0 in
            buf ← blit buf DATA_OFFSET_22_32 out;
            let out_len := u32 (DATA_OFFSET_22_32 + offset) in
            v ← slice pv 0 PV_LEN_22_32;
            buf ← blit buf PV_OFFSET_22_32 v;
            buf ← blit buf CRC_OFFSET_22_32 (le_store (UNI_HTONL 0));
            buf ← blit buf SEQ_OFFSET_22_32 (le_store (UNI_HTONL num));
            buf ← blit buf CMD_FROM_OFFSET_22_32 (le_store (UNI_HTONL 1));
            Some (OPRT_OK, Some (buf, out_len))
      end
  | _, _, _ => Some (OPRT_INVALID_PARM, None)
  end.

(** The result has the new serial number and the number of random words taken. *)
Definition tuya_pack_protocol_data (cmd : Z) (src : option (list Z)) (pro : Z) (key : option (list Z))
    (serial_no : Z) (t : Z) (k : nat) : option (Z * option (list Z * Z) * Z) :=
  match src with
  | None => Some (OPRT_INVALID_PARM, None, serial_no)
  | Some src =>
      let pv := if cmd =? DP_CMD_LAN then TUYA_LPV35 else if cmd =? DP_CMD_MQ then TUYA_PV23 else [] in
      let '(num, k) := tuya_pack_protocol_serial_no rnd serial_no k in
      if cmd =? DP_CMD_LAN then
        if bool_decide (pv = str "3.5") then
          '(rc, out) ← pack_data_with_cmd_lpv35 (Some pv) (Some src) pro num key t; Some (rc, out, num)
        else Some (OPRT_COM_ERROR, None, num)
      else if cmd =? DP_CMD_MQ then
        if bool_decide (pv = str "2.3") then
          '(rc, out) ← pack_data_with_cmd_pv23 (Some pv) (Some src) pro num key t k; Some (rc, out, num)
        else Some (OPRT_COM_ERROR, None, num)
      else Some (OPRT_COM_ERROR, None, num)
  end.

(** * LAN frames *)

Record lpv35_frame_object_t := {
  sequence : Z; type : Z; fo_data : option (list Z); fo_data_len : Z
}.

Definition lpv35_frame_buffer_size_get (frame_obj : lpv35_frame_object_t) : Z :=
  LPV35_FRAME_HEAD_SIZE + LPV35_AD_SIZE + LPV35_FRAME_NONCE_SIZE + fo_data_len frame_obj
  + LPV35_FRAME_TAG_SIZE + LPV35_FRAME_TAIL_SIZE.

(** The bytes of a [lpv35_additional_data_t] with version 0. *)
Definition additional_data (seq ty length : Z) : list Z :=
  [0; 0] ++ le_store seq ++ le_store ty ++ le_store length.

(** The result: the code, the output buffer, and [*olen] if it is stored. *)
Definition lpv35_frame_serialize (key : option (list Z)) (klen : Z) (input : option lpv35_frame_object_t)
    (output : option (list Z)) (k : nat) : option (Z * option (list Z) * option Z) :=
  match key, input, output with
  | Some key, Some input, Some output =>
      if klen =? 0 then Some (OPRT_INVALID_PARM, Some output, None)
      else
        output ← blit output 0 LPV35_FRAME_HEAD;
        let offset := LPV35_FRAME_HEAD_SIZE in
        let ad := additional_data (UNI_HTONL (sequence input)) (UNI_HTONL (type input))
                    (UNI_HTONL (u32 (LPV35_FRAME_NONCE_SIZE + fo_data_len input + LPV35_FRAME_TAG_SIZE))) in
        output ← blit output offset ad;
        let offset := offset + LPV35_AD_SIZE in
        let nonce := nonce_loop rnd (Z.to_nat LPV35_FRAME_NONCE_SIZE) k in
        output ← blit output offset nonce;
        let offset := offset + LPV35_FRAME_NONCE_SIZE in
        '(op_ret, written) ← mbedtls_cipher_auth_encrypt_wrapper malloc szw
            (Some {| p_key := key; p_nonce := nonce; p_ad := ad; p_data := default [] (fo_data input);
                     key_len := klen; nonce_len := LPV35_FRAME_NONCE_SIZE; ad_len := LPV35_AD_SIZE;
                     data_len := fo_data_len input; cipher_type := MBEDTLS_CIPHER_AES_128_GCM |})
            LPV35_FRAME_TAG_SIZE;
        let '(ct, tag) := default ([], zrepl LPV35_FRAME_TAG_SIZE 0) written in
        output ← blit output offset ct;
        if negb (op_ret =? OPRT_OK) then Some (op_ret, Some output, None)
        else
          let offset := offset + zlen ct in
          output ← blit output offset tag;
          let offset := offset + LPV35_FRAME_TAG_SIZE in
          output ← blit output offset LPV35_FRAME_TAIL;
          let offset := offset + LPV35_FRAME_TAIL_SIZE in
          Some (op_ret, Some output, Some offset)
  | _, _, _ => Some (OPRT_INVALID_PARM, output, None)
  end.

(** [output0] is the object before the call. *)
Definition lpv35_frame_parse (key : option (list Z)) (klen : Z) (input : option (list Z)) (ilen : Z)
    (output0 : lpv35_frame_object_t) : option (Z * lpv35_frame_object_t) :=
  match key, input with
  | Some key, Some input =>
      if (klen =? 0) || (ilen =? 0) then Some (OPRT_INVALID_PARM, output0)
      else
        head ← slice input 0 LPV35_FRAME_HEAD_SIZE;
        if negb (bool_decide (head = LPV35_FRAME_HEAD)) then Some (OPRT_VERSION_FMT_ERR, output0)
        else
          tail ← slice input (ilen - LPV35_FRAME_TAIL_SIZE) LPV35_FRAME_TAIL_SIZE;
          if negb (bool_decide (tail = LPV35_FRAME_TAIL)) then Some (OPRT_VERSION_FMT_ERR, output0)
          else
            let offset := LPV35_FRAME_HEAD_SIZE + 1 + 1 in
            seq ← load_u32 input offset;
            ty ← load_u32 input (offset + 4);
            length ← load_u32 input (offset + 4 + 4);
            let offset := offset + 4 + 4 + 4 in
            let out1 := {| sequence := seq; type := ty; fo_data := fo_data output0;
                           fo_data_len := fo_data_len output0 |} in
            if negb (length =? u32 (ilen - offset - LPV35_FRAME_TAIL_SIZE)) then Some (OPRT_COM_ERROR, out1)
            else
              nonce ← slice input offset LPV35_FRAME_NONCE_SIZE;
              let offset := offset + LPV35_FRAME_NONCE_SIZE in
              let data := ptr input offset in
              let dlen := u32 (length - LPV35_FRAME_NONCE_SIZE - LPV35_FRAME_TAG_SIZE) in
              let offset := s32 (offset + dlen) in
              tag ← slice input offset LPV35_FRAME_TAG_SIZE;
              ad ← slice input LPV35_FRAME_HEAD_SIZE LPV35_AD_SIZE;
              let n := u32 (dlen + 1) in
              if negb (malloc n) then
                Some (OPRT_MALLOC_FAILED,
                      {| sequence := seq; type := ty; fo_data := None; fo_data_len := dlen |})
              else
                let buf := zrepl n 0 in
                '(op_ret, written) ← mbedtls_cipher_auth_decrypt_wrapper malloc szw
                    (Some {| p_key := key; p_nonce := nonce; p_ad := ad; p_data := data; key_len := klen;
                             nonce_len := LPV35_FRAME_NONCE_SIZE; ad_len := LPV35_AD_SIZE;
                             data_len := dlen; cipher_type := MBEDTLS_CIPHER_AES_128_GCM |})
                    tag LPV35_FRAME_TAG_SIZE;
                let out := default [] written in
                buf ← blit buf 0 out;
                if negb (op_ret =? OPRT_OK) then
                  Some (op_ret, {| sequence := seq; type := ty; fo_data := None; fo_data_len := dlen |})
                else
                  Some (op_ret, {| sequence := seq; type := ty; fo_data := Some buf;
                                   fo_data_len := u32 (zlen out) |})
  | _, _ => Some (OPRT_INVALID_PARM, output0)
  end.
End Packets.

Lemma load_u32_mid pre x suf off :
  is_u32 x -> zlen pre = off -> load_u32 (pre ++ be_bytes x ++ suf) off = Some x.
Proof.
  intros Hx Hp. unfold load_u32. rewrite (slice_mid_n pre (be_bytes x) suf) by done.
  cbn [mbind option_bind]. by rewrite ntohl_load.
Qed.

Lemma ptr_app pre suf off : zlen pre = off -> ptr (pre ++ suf) off = suf.
Proof. intros <-. apply zdrop_app. Qed.

Lemma nonce_loop_len rnd n k : zlen (nonce_loop rnd n k) = Z.of_nat n.
Proof.
  revert k. induction n as [|n IH]; intros k; [done|]. cbn [nonce_loop]. rewrite zlen_cons, IH. lia.
Qed.

Lemma random_string_len rnd n k : zlen (random_string_loop rnd n k) = Z.of_nat n.
Proof.
  revert k. induction n as [|n IH]; intros k; [done|]. cbn [random_string_loop]. rewrite zlen_cons, IH. lia.
Qed.

(** * LAN frames: proofs *)

(** The additional data of a frame with [n] bytes of ciphertext. *)
Definition frame_ad (seq ty n : Z) : list Z :=
  [0; 0] ++ be_bytes seq ++ be_bytes ty ++ be_bytes (28 + n).

(** A frame on the wire. *)
Definition frame_bytes (seq ty : Z) (nonce ct tag : list Z) : list Z :=
  LPV35_FRAME_HEAD ++ frame_ad seq ty (zlen ct) ++ nonce ++ ct ++ tag ++ LPV35_FRAME_TAIL.

Lemma frame_ad_len seq ty n : zlen (frame_ad seq ty n) = 14.
Proof. done. Qed.

Section Framing.
Context `{MbedtlsCipher} (malloc : Z -> bool) (szw : Z).
Context (Hmalloc : forall n, malloc n = true).

(** What is left of the parser on a well-framed input: the decryption. *)
Lemma frame_parse_framing key seq ty nonce ct tag rest out0 :
  zlen nonce = 12 -> zlen tag = 16 -> is_u32 seq -> is_u32 ty -> zlen ct + 50 < 2147483648 ->
  lpv35_frame_parse malloc szw (Some key) 16 (Some (frame_bytes seq ty nonce ct tag ++ rest)) (zlen ct + 50) out0
  = '(op_ret, written) ← mbedtls_cipher_auth_decrypt_wrapper malloc szw
       (Some (gcm_params MBEDTLS_CIPHER_AES_128_GCM key nonce (frame_ad seq ty (zlen ct)) (ct ++ tag ++ LPV35_FRAME_TAIL ++ rest)
                16 12 14 (zlen ct))) tag 16;
    buf ← blit (zrepl (zlen ct + 1) 0) 0 (default [] written);
    if negb (op_ret =? OPRT_OK) then
      Some (op_ret, {| sequence := seq; type := ty; fo_data := None; fo_data_len := zlen ct |})
    else Some (op_ret, {| sequence := seq; type := ty; fo_data := Some buf;
                          fo_data_len := u32 (zlen (default [] written)) |}).
Proof.
  intros Hn Ht Hs Hy Hb. pose proof (zlen_nonneg ct). unfold frame_bytes. rewrite <- !app_assoc.
  pose proof (frame_ad_len seq ty (zlen ct)) as La. set (ad := frame_ad seq ty (zlen ct)) in *.
  pose proof (eq_refl : zlen LPV35_FRAME_HEAD = 4) as L1. pose proof (eq_refl : zlen LPV35_FRAME_TAIL = 4) as L2.
  set (input := LPV35_FRAME_HEAD ++ ad ++ nonce ++ ct ++ tag ++ LPV35_FRAME_TAIL ++ rest).
  assert (slice input 0 4 = Some LPV35_FRAME_HEAD) as E1 by (by apply slice_prefix_n).
  assert (slice input (zlen ct + 50 - 4) 4 = Some LPV35_FRAME_TAIL) as E2.
  { unfold input. rewrite !(app_assoc _ _ (LPV35_FRAME_TAIL ++ rest)).
    apply slice_mid_n; [rewrite !zlen_app; lia|done]. }
  assert (load_u32 input 6 = Some seq /\ load_u32 input 10 = Some ty
          /\ load_u32 input 14 = Some (28 + zlen ct)) as (E3 & E4 & E5).
  { unfold input, ad, frame_ad. rewrite <- !app_assoc. split_and!.
    - rewrite app_assoc. by apply load_u32_mid.
    - rewrite app_assoc, (app_assoc _ (be_bytes seq)). by apply load_u32_mid.
    - rewrite app_assoc, (app_assoc _ (be_bytes seq)), (app_assoc _ (be_bytes ty)).
      apply load_u32_mid; [unfold is_u32; lia|done]. }
  assert (slice input 4 14 = Some ad) as E6 by (by apply slice_mid_n).
  assert (slice input 18 12 = Some nonce) as E7.
  { unfold input. rewrite (app_assoc LPV35_FRAME_HEAD). apply slice_mid_n; [rewrite zlen_app; lia|done]. }
  assert (ptr input 30 = ct ++ tag ++ LPV35_FRAME_TAIL ++ rest) as E8.
  { unfold input. rewrite (app_assoc LPV35_FRAME_HEAD), (app_assoc _ nonce).
    apply ptr_app. rewrite !zlen_app. lia. }
  assert (slice input (30 + zlen ct) 16 = Some tag) as E9.
  { unfold input. rewrite (app_assoc LPV35_FRAME_HEAD), (app_assoc _ nonce), (app_assoc _ ct).
    apply slice_mid_n; [rewrite !zlen_app; lia|done]. }
  unfold lpv35_frame_parse. cbn [orb Z.eqb].
  replace (zlen ct + 50 =? 0) with false by (symmetry; apply Z.eqb_neq; lia).
  unfold LPV35_FRAME_HEAD_SIZE, LPV35_FRAME_TAIL_SIZE, LPV35_FRAME_NONCE_SIZE, LPV35_FRAME_TAG_SIZE, LPV35_AD_SIZE.
  rewrite E1. cbn [mbind option_bind]. rewrite bool_decide_true by done. cbn [negb]. rewrite E2.
  cbn [mbind option_bind]. rewrite bool_decide_true by done. cbn [negb].
  change (4 + 1 + 1) with 6. rewrite E3. change (6 + 4) with 10. cbn [mbind option_bind]. rewrite E4.
  change (10 + 4) with 14. cbn [mbind option_bind]. rewrite E5. change (14 + 4) with 18. cbn [mbind option_bind].
  norm_widths. replace (28 + zlen ct =? zlen ct + 50 - 18 - 4) with true by (symmetry; apply Z.eqb_eq; lia).
  cbn [negb]. rewrite E7. cbn [mbind option_bind]. change (18 + 12) with 30.
  replace (28 + zlen ct - 12 - 16) with (zlen ct) by lia. norm_widths. rewrite E9, E6, E8.
  cbn [mbind option_bind]. rewrite Hmalloc. cbn [negb].
  reflexivity.
Qed.
End Framing.

Section Frames.
Context `{Aes128Gcm} (malloc : Z -> bool) (szw : Z) (rnd : nat -> Z).
Context (Hmalloc : forall n, malloc n = true) (Hszw : 32 <= szw).

Lemma frame_serialize_ok key key' seq ty data data' output k :
  zlen key = 16 -> zlen data + 50 <= zlen output -> zlen data + 50 < 2147483648 ->
  exists ct tag rest,
    lpv35_frame_serialize malloc szw rnd (Some (key ++ key')) 16
      (Some {| sequence := seq; type := ty; fo_data := Some (data ++ data'); fo_data_len := zlen data |})
      (Some output) k
    = Some (OPRT_OK, Some (frame_bytes seq ty (nonce_loop rnd 12 k) ct tag ++ rest), Some (zlen data + 50))
    /\ zlen ct = zlen data /\ zlen tag = 16
    /\ auth_encrypt_ext MBEDTLS_CIPHER_AES_128_GCM key (nonce_loop rnd 12 k)
         (frame_ad seq ty (zlen ct)) data 16 = (0, ct ++ tag).
Proof.
  intros Hk Ho Hd. pose proof (zlen_nonneg data).
  pose proof (nonce_loop_len rnd 12 k) as Hn. set (nonce := nonce_loop rnd 12 k) in *.
  destruct (gcm_encrypt_wrapper malloc szw Hmalloc Hszw key key' nonce [] (frame_ad seq ty (zlen data)) [] data data')
    as (ct & tag & Ew & Hc & Ht & Ee); [done|done|lia|].
  pose proof (eq_refl : zlen LPV35_FRAME_HEAD = 4) as L1. pose proof (eq_refl : zlen LPV35_FRAME_TAIL = 4) as L2.
  pose proof (frame_ad_len seq ty (zlen data)) as L3. set (ad := frame_ad seq ty (zlen data)) in *.
  destruct (blit_step [] output LPV35_FRAME_HEAD 0) as (o1 & B1 & S1); [done|lia|].
  destruct (blit_step LPV35_FRAME_HEAD o1 ad 4) as (o2 & B2 & S2); [done|lia|].
  destruct (blit_step (LPV35_FRAME_HEAD ++ ad) o2 nonce 18) as (o3 & B3 & S3); [by rewrite zlen_app; lia|lia|].
  destruct (blit_step ((LPV35_FRAME_HEAD ++ ad) ++ nonce) o3 ct 30) as (o4 & B4 & S4);
    [by rewrite !zlen_app; lia|lia|].
  destruct (blit_step (((LPV35_FRAME_HEAD ++ ad) ++ nonce) ++ ct) o4 tag (30 + zlen ct)) as (o5 & B5 & S5);
    [by rewrite !zlen_app; lia|lia|].
  destruct (blit_step ((((LPV35_FRAME_HEAD ++ ad) ++ nonce) ++ ct) ++ tag) o5 LPV35_FRAME_TAIL (46 + zlen ct))
    as (o6 & B6 & S6); [by rewrite !zlen_app; lia|lia|].
  exists ct, tag, o6. rewrite Hc. split; [|done].
  unfold lpv35_frame_serialize, additional_data. cbn [sequence type fo_data fo_data_len default].
  replace (u32 (LPV35_FRAME_NONCE_SIZE + zlen data + LPV35_FRAME_TAG_SIZE)) with (28 + zlen data)
    by (unfold LPV35_FRAME_NONCE_SIZE, LPV35_FRAME_TAG_SIZE; norm_widths; lia).
  rewrite !store_htonl. fold (frame_ad seq ty (zlen data)). fold ad. cbn [Z.eqb].
  cbn [app] in B1. rewrite B1. cbn [mbind option_bind]. change LPV35_FRAME_HEAD_SIZE with 4. rewrite B2.
  change (Z.to_nat LPV35_FRAME_NONCE_SIZE) with 12%nat. fold nonce.
  cbn [mbind option_bind]. change (4 + LPV35_AD_SIZE) with 18. rewrite B3. cbn [mbind option_bind].
  unfold gcm_params in Ew. rewrite !app_nil_r, L3 in Ew. unfold LPV35_FRAME_NONCE_SIZE, LPV35_AD_SIZE, LPV35_FRAME_TAG_SIZE.
  cbn [from_option]. unfold id.
  rewrite Ew. cbn [mbind option_bind default from_option id negb Z.eqb OPRT_OK].
  change (18 + 12) with 30. rewrite B4. cbn [mbind option_bind].
  rewrite B5. cbn [mbind option_bind]. replace (30 + zlen ct + 16) with (46 + zlen ct) by lia.
  rewrite B6. cbn [mbind option_bind]. unfold frame_bytes. rewrite Hc. fold ad.
  rewrite <- !app_assoc. unfold OPRT_OK, LPV35_FRAME_TAIL_SIZE.
  replace (46 + zlen data + 4) with (zlen data + 50) by lia. reflexivity.
Qed.
Lemma frame_parse_ok key key' seq ty nonce data ct tag rest out0 :
  zlen key = 16 -> zlen nonce = 12 -> zlen tag = 16 -> zlen ct = zlen data ->
  is_u32 seq -> is_u32 ty -> zlen ct + 50 < 2147483648 ->
  auth_encrypt_ext MBEDTLS_CIPHER_AES_128_GCM key nonce (frame_ad seq ty (zlen ct)) data 16 = (0, ct ++ tag) ->
  lpv35_frame_parse malloc szw (Some (key ++ key')) 16
    (Some (frame_bytes seq ty nonce ct tag ++ rest)) (zlen ct + 50) out0
  = Some (OPRT_OK, {| sequence := seq; type := ty; fo_data := Some (data ++ [0]); fo_data_len := zlen data |}).
Proof.
  intros Hk Hn Ht Hc Hs Hy Hb He. pose proof (zlen_nonneg ct). rewrite frame_parse_framing by done.
  pose proof (frame_ad_len seq ty (zlen ct)) as La.
  pose proof (gcm_decrypt_wrapper malloc szw Hmalloc Hszw key key' nonce [] _ [] data ct
                (tag ++ LPV35_FRAME_TAIL ++ rest) tag [] Hk Hn ltac:(lia) Ht He 16) as Ew.
  rewrite !app_nil_r, La in Ew. rewrite Ew. cbn [mbind option_bind from_option]. unfold id.
  rewrite blit_front by (rewrite zlen_zrepl; lia). cbn [mbind option_bind negb Z.eqb OPRT_OK].
  unfold zrepl. rewrite drop_replicate.
  replace (Z.to_nat (zlen ct + 1) - Z.to_nat (zlen data))%nat with 1%nat by (unfold zlen in *; lia).
  rewrite u32_small by (unfold is_u32; lia). done.
Qed.
End Frames.

(** (C23) LAN frames: a frame made by [lpv35_frame_serialize] with a 16-byte key has
    the size [lpv35_frame_buffer_size_get] announces, and [lpv35_frame_parse] with
    the same key gives back sequence, type and data (with a terminator behind
    them), whatever follows the frame in the receive buffer. *)
Theorem lpv35_frame_roundtrip `{Aes128Gcm} (malloc : Z -> bool) (szw : Z) (rnd : nat -> Z) (k : nat)
    (key data output : list Z) (seq ty : Z) (out0 : lpv35_frame_object_t) :
  (forall n, malloc n = true) -> 32 <= szw -> zlen key = 16 -> is_u32 seq -> is_u32 ty ->
  let obj := {| sequence := seq; type := ty; fo_data := Some data; fo_data_len := zlen data |} in
  lpv35_frame_buffer_size_get obj <= zlen output -> zlen output < 2147483648 ->
  exists out',
    lpv35_frame_serialize malloc szw rnd (Some key) 16 (Some obj) (Some output) k
    = Some (OPRT_OK, Some out', Some (lpv35_frame_buffer_size_get obj))
    /\ lpv35_frame_parse malloc szw (Some key) 16 (Some out') (lpv35_frame_buffer_size_get obj) out0
       = Some (OPRT_OK, {| sequence := seq; type := ty; fo_data := Some (data ++ [0]); fo_data_len := zlen data |}).
Proof.
  intros Hm Hw Hk Hs Hy obj Ho Ho2.
  assert (lpv35_frame_buffer_size_get obj = zlen data + 50) as Es
    by (unfold lpv35_frame_buffer_size_get, obj, LPV35_FRAME_HEAD_SIZE, LPV35_AD_SIZE, LPV35_FRAME_NONCE_SIZE,
          LPV35_FRAME_TAG_SIZE, LPV35_FRAME_TAIL_SIZE; cbn [fo_data_len]; lia).
  rewrite Es in *.
  destruct (frame_serialize_ok malloc szw rnd Hm Hw key [] seq ty data [] output k Hk Ho ltac:(lia))
    as (ct & tag & rest & E & Hc & Ht & Ee).
  rewrite !app_nil_r in E. eexists. split; [exact E|].
  rewrite <- Hc at 1. rewrite <- (app_nil_r key). apply frame_parse_ok; try done; first [apply nonce_loop_len | lia].
Qed.

Lemma lpv35_frame_roundtrip_witness :
  exists out',
    lpv35_frame_serialize (fun _ => true) 32 (fun k => 1000 + Z.of_nat k) (Some (zrepl 16 7)) 16
      (Some {| sequence := 5; type := 17; fo_data := Some [1; 2; 3]; fo_data_len := 3 |}) (Some (zrepl 64 255)) 0
    = Some (OPRT_OK, Some out', Some 53)
    /\ lpv35_frame_parse (fun _ => true) 32 (Some (zrepl 16 7)) 16 (Some out') 53
         {| sequence := 0; type := 0; fo_data := None; fo_data_len := 0 |}
       = Some (OPRT_OK, {| sequence := 5; type := 17; fo_data := Some [1; 2; 3; 0]; fo_data_len := 3 |}).
Proof.
  apply (lpv35_frame_roundtrip (fun _ => true) 32 (fun k => 1000 + Z.of_nat k) 0 (zrepl 16 7) [1; 2; 3]
           (zrepl 64 255) 5 17); try done; unfold is_u32; try lia.
Defined.

(** * Short packets *)

Lemma decrypt_wrapper_overrun `{Aes128Gcm} (malloc : Z -> bool) key nonce ad alen data tag :
  16 <= zlen key -> zlen data < 4294967295 -> malloc 15 = true ->
  mbedtls_cipher_auth_decrypt_wrapper malloc 32
    (Some (gcm_params MBEDTLS_CIPHER_AES_128_GCM key nonce ad data 16 12 alen 4294967295)) tag 16 = None.
Proof.
  intros Hk Hd Hm. unfold mbedtls_cipher_auth_decrypt_wrapper, gcm_params.
  cbn [p_key p_nonce p_ad p_data key_len nonce_len ad_len data_len cipher_type].
  rewrite gcm_bitlen, gcm_setup, gcm_block. change (negb (0 =? 0)) with false. change (16 =? 0) with false.
  cbn [negb]. destruct (split_at key 16) as (k1 & k2 & -> & Hk1); [lia|].
  rewrite (slice_prefix_n k1) by done. cbn [mbind option_bind]. rewrite gcm_setkey by done.
  change (size_t 32 (4294967295 + 16)) with 15. rewrite Hm. cbn [negb Z.eqb].
  by rewrite (slice_None data 0 4294967295) by lia.
Qed.

(** A LAN frame whose length field is 27, one less than nonce and tag need,
    passes the length check of [lpv35_frame_parse]: the data length becomes
    [0xFFFFFFFF], [malloc(data_len + 1)] is [malloc(0)], and with a 32-bit [size_t]
    the decrypt wrapper allocates 15 bytes and copies 4 GB into them. *)
Theorem lpv35_length_27_overruns `{Aes128Gcm} (malloc : Z -> bool) (key rest : list Z) (v1 v2 seq ty : Z)
    (body : list Z) (out0 : lpv35_frame_object_t) :
  malloc 0 = true -> malloc 15 = true -> zlen key = 16 -> is_u32 seq -> is_u32 ty -> zlen body = 27 ->
  let input := LPV35_FRAME_HEAD ++ [v1; v2] ++ be_bytes seq ++ be_bytes ty ++ be_bytes 27 ++ body
               ++ LPV35_FRAME_TAIL ++ rest in
  zlen input < 4294967296 ->
  lpv35_frame_parse malloc 32 (Some key) 16 (Some input) 49 out0 = None.
Proof.
  intros Hm0 Hm15 Hk Hs Hy Hb input Hl.
  pose proof (eq_refl : zlen LPV35_FRAME_HEAD = 4) as L1. pose proof (eq_refl : zlen LPV35_FRAME_TAIL = 4) as L2.
  assert (slice input 0 4 = Some LPV35_FRAME_HEAD) as E1 by (by apply slice_prefix_n).
  assert (slice input 45 4 = Some LPV35_FRAME_TAIL) as E2.
  { unfold input. rewrite !(app_assoc _ _ (LPV35_FRAME_TAIL ++ rest)).
    apply slice_mid_n; [|done]. rewrite !zlen_app. cbn. rewrite Hb. done. }
  assert (load_u32 input 6 = Some seq /\ load_u32 input 10 = Some ty
          /\ load_u32 input 14 = Some 27) as (E3 & E4 & E5).
  { unfold input. split_and!.
    - rewrite app_assoc. by apply load_u32_mid.
    - rewrite app_assoc, (app_assoc _ (be_bytes seq)). by apply load_u32_mid.
    - rewrite app_assoc, (app_assoc _ (be_bytes seq)), (app_assoc _ (be_bytes ty)).
      apply load_u32_mid; [unfold is_u32; lia|done]. }
  assert (49 <= zlen input) as H49.
  { unfold input. rewrite !zlen_app. pose proof (zlen_nonneg rest). rewrite !be_bytes_len, Hb, L1, L2.
    change (zlen [v1; v2]) with 2. lia. }
  unfold lpv35_frame_parse. cbn [orb Z.eqb].
  unfold LPV35_FRAME_HEAD_SIZE, LPV35_FRAME_TAIL_SIZE, LPV35_FRAME_NONCE_SIZE, LPV35_FRAME_TAG_SIZE, LPV35_AD_SIZE.
  rewrite E1. cbn [mbind option_bind]. rewrite bool_decide_true by done. cbn [negb].
  change (49 - 4) with 45. rewrite E2. cbn [mbind option_bind]. rewrite bool_decide_true by done. cbn [negb].
  change (4 + 1 + 1) with 6. rewrite E3. change (6 + 4) with 10. cbn [mbind option_bind]. rewrite E4.
  change (10 + 4) with 14. cbn [mbind option_bind]. rewrite E5. change (14 + 4) with 18. cbn [mbind option_bind].
  change (negb (27 =? u32 (49 - 18 - 4))) with false. change (18 + 12) with 30.
  change (u32 (27 - 12 - 16)) with 4294967295. change (s32 (30 + 4294967295)) with 29.
  change (u32 (4294967295 + 1)) with 0.
  rewrite (slice_eq input 18), (slice_eq input 29), (slice_eq input 4) by lia. cbn [mbind option_bind].
  rewrite Hm0. cbn [negb].
  pose proof (decrypt_wrapper_overrun malloc key (take (Z.to_nat 12) (drop (Z.to_nat 18) input))
    (take (Z.to_nat 14) (drop (Z.to_nat 4) input)) 14 (ptr input 30)
    (take (Z.to_nat 16) (drop (Z.to_nat 29) input)) ltac:(lia)) as Ew.
  unfold gcm_params in Ew. rewrite Ew; [done| |done].
  unfold ptr. rewrite zlen_drop by lia. lia.
Qed.

Lemma lpv35_length_27_overruns_witness :
  lpv35_frame_parse (fun _ => true) 32 (Some (zrepl 16 7)) 16
    (Some (LPV35_FRAME_HEAD ++ [0; 0] ++ be_bytes 1 ++ be_bytes 3 ++ be_bytes 27 ++ zrepl 27 9
           ++ LPV35_FRAME_TAIL ++ [0])) 49
    {| sequence := 0; type := 0; fo_data := None; fo_data_len := 0 |} = None.
Proof.
  apply (lpv35_length_27_overruns (fun _ => true) (zrepl 16 7) [0] 0 0 1 3 (zrepl 27 9)); try done;
    unfold is_u32; lia.
Defined.

(** * Packets: proofs *)

Lemma json_text_len pro t src : zlen src <= zlen (json_text pro t src) <= zlen src + 45.
Proof.
  pose proof (dec_digits_len 10 pro []) as H1. pose proof (dec_digits_len 10 t []) as H2.
  pose proof (zlen_nonneg (print_u32 pro)). pose proof (zlen_nonneg (print_u32 t)).
  unfold json_text. rewrite !zlen_app. change (zlen (@nil Z)) with 0 in *.
  fold (print_u32 pro) in H1. fold (print_u32 t) in H2.
  change (zlen (quoted "protocol")) with 10. change (zlen (quoted "t")) with 3. change (zlen (quoted "data")) with 6.
  change (zlen (str "{")) with 1. change (zlen (str ":")) with 1. change (zlen (str ",")) with 1. lia.
Qed.

(** The envelope a packet carries. *)
Definition envelope (pro t : Z) (src : list Z) : list Z := json_text pro t src ++ str "}".

Lemma pack_json_ok malloc src pro t :
  (forall n, malloc n = true) -> zlen src + 60 < 2147483648 ->
  pack_json malloc src pro t = inr (envelope pro t src) /\ zlen src < zlen (envelope pro t src) <= zlen src + 46.
Proof.
  intros Hm Hs. pose proof (json_text_len pro t src). pose proof (zlen_nonneg src).
  unfold pack_json, envelope. rewrite Hm. cbn [negb]. norm_widths.
  destruct (Z.leb_spec (zlen src + 60) (zlen (json_text pro t src))); [lia|].
  destruct (Z.ltb_spec (zlen src + 60 - 2) (zlen (json_text pro t src))); [lia|].
  split; [done|]. rewrite zlen_app. change (zlen (str "}")) with 1. lia.
Qed.

Section PacketProofs.
Context `{Aes128Gcm} (malloc : Z -> bool) (szw : Z) (rnd : nat -> Z).
Context (Hmalloc : forall n, malloc n = true) (Hszw : 32 <= szw).

Lemma pv23_pack_ok src pro num key key' t k :
  zlen key = 16 -> zlen src + 100 < 2147483648 ->
  let out := envelope pro t src in
  exists nonce ct tag,
    pack_data_with_cmd_pv23 malloc szw rnd (Some TUYA_PV23) (Some src) pro num (Some (key ++ key')) t k
    = Some (OPRT_OK, Some ((TUYA_PV23 ++ be_bytes num ++ be_bytes 1 ++ [0]) ++ nonce ++ ct ++ tag, 40 + zlen out))
    /\ zlen nonce = 12 /\ zlen ct = zlen out /\ zlen tag = 16
    /\ auth_encrypt_ext MBEDTLS_CIPHER_AES_128_GCM key nonce
         (TUYA_PV23 ++ be_bytes num ++ be_bytes 1 ++ [0]) out 16 = (0, ct ++ tag).
Proof.
  intros Hk Hs out. destruct (pack_json_ok malloc src pro t Hmalloc ltac:(lia)) as [Ej Hl]. fold out in Ej, Hl.
  pose proof (zlen_nonneg src).
  pose proof (random_string_len rnd 12 k) as Hn. set (nonce := random_string_loop rnd 12 k) in *.
  set (ad := TUYA_PV23 ++ be_bytes num ++ be_bytes 1 ++ [0]). assert (zlen ad = 12) as La by done.
  destruct (blit_step [] (zrepl (zlen out + 40) 0) TUYA_PV23 0) as (o1 & B1 & S1);
    [done|rewrite zlen_zrepl by lia; change (zlen TUYA_PV23) with 3; lia|].
  rewrite zlen_zrepl in S1 by lia. change (zlen TUYA_PV23) with 3 in S1.
  destruct (blit_step TUYA_PV23 o1 (be_bytes num) 3) as (o2 & B2 & S2); [done|rewrite be_bytes_len; lia|].
  rewrite be_bytes_len in S2.
  destruct (blit_step (TUYA_PV23 ++ be_bytes num) o2 (be_bytes 1) 7) as (o3 & B3 & S3);
    [done|rewrite be_bytes_len; lia|]. rewrite be_bytes_len in S3.
  destruct (blit_step ((TUYA_PV23 ++ be_bytes num) ++ be_bytes 1) o3 [0] 11) as (o4 & B4 & S4);
    [done|rewrite zlen_one; lia|]. rewrite zlen_one in S4.
  replace (((TUYA_PV23 ++ be_bytes num) ++ be_bytes 1) ++ [0]) with ad in B4 by (unfold ad; by rewrite !app_assoc).
  destruct (blit_step ad o4 nonce 12) as (o5 & B5 & S5); [done|lia|].
  destruct (gcm_encrypt_wrapper malloc szw Hmalloc Hszw key key' nonce o5 ad (nonce ++ o5) out [0])
    as (ct & tag & Ew & Hc & Ht & Ee); [done|done|lia|].
  destruct (blit_step (ad ++ nonce) o5 ct 24) as (o6 & B6 & S6); [rewrite zlen_app; lia|lia|].
  destruct (blit_step ((ad ++ nonce) ++ ct) o6 tag (24 + zlen out)) as (o7 & B7 & S7); [rewrite !zlen_app; lia|lia|].
  assert (o7 = []) as -> by (apply zlen_zero; lia).
  exists nonce, ct, tag. split; [|done]. unfold pack_data_with_cmd_pv23. rewrite Ej. cbv zeta.
  unfold PV23_EXCEPT_DATA_LEN, PV_LEN_22_32, PV23_SEQ_OFFSET, PV23_CMD_FROM_OFFSET, PV23_RESERVE_OFFSET,
    PV23_NONCE_OFFSET, PV23_NONCE_LEN, PV23_AD_DATA_LEN, PV23_TAG_LEN, PV23_DATA_OFFSET.
  rewrite Hmalloc. cbn [negb app] in *. change (slice TUYA_PV23 0 3) with (Some TUYA_PV23). cbn [mbind option_bind].
  rewrite B1. cbn [mbind option_bind]. rewrite !store_htonl, B2. cbn [mbind option_bind]. rewrite B3.
  cbn [mbind option_bind]. rewrite B4. cbn [mbind option_bind]. unfold uni_random_string.
  change (Z.to_nat 12) with 12%nat. fold nonce. rewrite B5. cbn [mbind option_bind].
  rewrite <- (app_assoc ad nonce o5), (ptr_app ad) by done. unfold gcm_params in Ew. rewrite La in Ew.
  rewrite Ew. cbn [mbind option_bind from_option]. unfold id. rewrite app_assoc, B6. cbn [mbind option_bind].
  rewrite B7. cbn [mbind option_bind negb Z.eqb OPRT_OK]. rewrite app_nil_r, <- !app_assoc, Hc.
  rewrite u32_small by (unfold is_u32; lia). done.
Qed.

Lemma pv23_parse_ok num key key' nonce out ct tag :
  zlen key = 16 -> zlen nonce = 12 -> zlen tag = 16 -> zlen ct = zlen out -> is_u32 num ->
  40 + zlen out < 2147483648 ->
  let ad := TUYA_PV23 ++ be_bytes num ++ be_bytes 1 ++ [0] in
  auth_encrypt_ext MBEDTLS_CIPHER_AES_128_GCM key nonce ad out 16 = (0, ct ++ tag) ->
  parse_data_with_pv23 malloc szw (ad ++ nonce ++ ct ++ tag) (40 + zlen out) (key ++ key')
  = Some (OPRT_OK, Some (out ++ [0])).
Proof.
  intros Hk Hn Ht Hc Hu Hl ad He. pose proof (zlen_nonneg out). assert (zlen ad = 12) as La by done.
  unfold parse_data_with_pv23.
  unfold PV23_EXCEPT_DATA_LEN, PV23_VERSION_LEN, PV23_SEQ_OFFSET, PV23_CMD_FROM_OFFSET, PV23_RESERVE_OFFSET,
    PV23_NONCE_OFFSET, PV23_NONCE_LEN, PV23_AD_DATA_LEN, PV23_TAG_LEN, PV23_DATA_OFFSET.
  set (data := ad ++ nonce ++ ct ++ tag).
  assert (slice data 0 3 = Some TUYA_PV23) as ->.
  { unfold data, ad. rewrite <- !app_assoc. by apply slice_prefix_n. }
  cbn [mbind option_bind]. rewrite bool_decide_true by done. cbn [negb].
  assert (load_u32 data 3 = Some num /\ load_u32 data 7 = Some 1) as [-> ->].
  { unfold data, ad. rewrite <- !app_assoc. split; [by apply load_u32_mid|].
    rewrite (app_assoc TUYA_PV23). apply load_u32_mid; [unfold is_u32; lia|done]. }
  cbn [mbind option_bind]. assert (rd data 11 = Some 0) as -> by done. cbn [mbind option_bind negb Z.eqb].
  replace (40 + zlen out - 40) with (zlen out) by lia. norm_widths.
  rewrite Hmalloc. cbn [negb].
  assert (ptr data 12 = nonce ++ ct ++ tag) as -> by (by apply ptr_app).
  assert (ptr data 24 = ct ++ tag) as ->.
  { unfold data. rewrite app_assoc. apply ptr_app. rewrite zlen_app. lia. }
  assert (ptr data (40 + zlen out - 16) = tag ++ []) as ->.
  { unfold data. rewrite app_assoc, (app_assoc _ ct), app_nil_r. apply ptr_app. rewrite !zlen_app. lia. }
  pose proof (gcm_decrypt_wrapper malloc szw Hmalloc Hszw key key' nonce (ct ++ tag) ad (nonce ++ ct ++ tag)
                out ct tag tag [] Hk Hn ltac:(lia) Ht He 16) as Ew.
  unfold gcm_params in Ew. rewrite La, Hc in Ew. unfold data. rewrite Ew. cbn [mbind option_bind from_option].
  unfold id. rewrite blit_front by (rewrite zlen_zrepl; lia). cbn [mbind option_bind negb Z.eqb OPRT_OK].
  unfold zrepl. rewrite drop_replicate.
  replace (Z.to_nat (zlen out + 1) - Z.to_nat (zlen out))%nat with 1%nat by lia.
  cbn [replicate]. by rewrite wr_mid.
Qed.

Lemma lpv35_pack_ok src pro num key t :
  zlen src + 100 < 2147483648 ->
  let out := envelope pro t src in
  exists rest,
    pack_data_with_cmd_lpv35 malloc (Some TUYA_LPV35) (Some src) pro num (Some key) t
    = Some (OPRT_OK, Some (TUYA_LPV35 ++ be_bytes 0 ++ be_bytes num ++ be_bytes 1 ++ out ++ rest, 15 + zlen out)).
Proof.
  intros Hs out. destruct (pack_json_ok malloc src pro t Hmalloc ltac:(lia)) as [Ej Hl]. fold out in Ej, Hl.
  pose proof (zlen_nonneg src). set (rest := zrepl 16 0).
  assert (zrepl (15 + zlen out + 16) 0
          = zrepl 3 0 ++ zrepl 4 0 ++ zrepl 4 0 ++ zrepl 4 0 ++ zrepl (zlen out) 0 ++ rest) as Ez.
  { unfold rest, zrepl. rewrite <- !replicate_add. f_equal. lia. }
  exists rest. unfold pack_data_with_cmd_lpv35. rewrite Ej. cbv zeta.
  unfold DATA_OFFSET_22_32, PV_LEN_22_32, PV_OFFSET_22_32, CRC_OFFSET_22_32, SEQ_OFFSET_22_32, CMD_FROM_OFFSET_22_32.
  rewrite Hmalloc. cbn [negb]. rewrite Ez, !store_htonl. change (slice TUYA_LPV35 0 3) with (Some TUYA_LPV35).
  assert (forall a b c d o, zlen a = 3 -> zlen b = 4 -> zlen c = 4 -> zlen d = 4 -> zlen o = zlen out ->
    blit (a ++ b ++ c ++ d ++ o ++ rest) 15 out = Some (a ++ b ++ c ++ d ++ out ++ rest)) as B1.
  { intros a b c d o Ha Hb Hc Hd Ho. rewrite !app_assoc. rewrite <- !(app_assoc _ _ rest).
    replace 15 with (zlen (((a ++ b) ++ c) ++ d)) by (rewrite !zlen_app; lia). by apply blit_mid. }
  rewrite B1 by (rewrite zlen_zrepl; lia). cbn [mbind option_bind].
  pose proof (blit_mid [] (zrepl 3 0) TUYA_LPV35) as B0. cbn [app] in B0. change (zlen (@nil Z)) with 0 in B0.
  rewrite B0 by done. cbn [mbind option_bind].
  rewrite (blit_mid TUYA_LPV35 (zrepl 4 0) (be_bytes 0)) by done. cbn [mbind option_bind].
  rewrite (app_assoc TUYA_LPV35), (blit_mid (TUYA_LPV35 ++ be_bytes 0) (zrepl 4 0) (be_bytes num)) by done.
  cbn [mbind option_bind]. rewrite (app_assoc (TUYA_LPV35 ++ be_bytes 0)).
  rewrite (blit_mid ((TUYA_LPV35 ++ be_bytes 0) ++ be_bytes num) (zrepl 4 0) (be_bytes 1)) by done.
  cbn [mbind option_bind]. rewrite <- !app_assoc, u32_small by (unfold is_u32; lia). done.
Qed.

Lemma lpv35_parse_ok num out rest :
  is_u32 num -> 15 + zlen out < 2147483648 ->
  parse_data_with_lpv35 malloc (TUYA_LPV35 ++ be_bytes 0 ++ be_bytes num ++ be_bytes 1 ++ out ++ rest) (15 + zlen out)
  = Some (OPRT_OK, Some (out ++ [0])).
Proof.
  intros Hu Hl. pose proof (zlen_nonneg out). unfold parse_data_with_lpv35.
  unfold DATA_OFFSET_22_32, PV_LEN_22_32, PV_OFFSET_22_32, SEQ_OFFSET_22_32, CMD_FROM_OFFSET_22_32.
  set (data := TUYA_LPV35 ++ be_bytes 0 ++ be_bytes num ++ be_bytes 1 ++ out ++ rest).
  assert (slice data 0 3 = Some TUYA_LPV35) as -> by (by apply slice_prefix_n).
  assert (load_u32 data 7 = Some num) as ->.
  { unfold data. rewrite (app_assoc TUYA_LPV35). by apply load_u32_mid. }
  assert (load_u32 data 11 = Some 1) as ->.
  { unfold data. rewrite (app_assoc TUYA_LPV35), (app_assoc _ (be_bytes num)).
    apply load_u32_mid; [unfold is_u32; lia|done]. }
  assert (slice data 15 (zlen out) = Some out) as Eo.
  { unfold data. rewrite (app_assoc TUYA_LPV35), (app_assoc _ (be_bytes num)), (app_assoc _ (be_bytes 1)).
    by apply slice_mid_n. }
  cbn [mbind option_bind]. replace (15 + zlen out - 15) with (zlen out) by lia. norm_widths.
  rewrite Hmalloc. cbn [negb]. rewrite Eo. cbn [mbind option_bind].
  rewrite blit_front by (rewrite zlen_zrepl; lia). cbn [mbind option_bind].
  unfold zrepl. rewrite drop_replicate.
  replace (Z.to_nat (zlen out + 1) - Z.to_nat (zlen out))%nat with 1%nat by lia.
  cbn [replicate]. by rewrite wr_mid.
Qed.
End PacketProofs.

(** (C22) Packets, over MQTT and over the LAN: with enough memory packing cannot
    fail (the 60 bytes reserved for the JSON envelope are enough for every
    protocol number and time), and parsing the packet with the same key gives the
    envelope [{"protocol":pro,"t":t,"data":src}] as a terminated string. *)
Theorem protocol_packet_roundtrip `{Aes128Gcm} (malloc : Z -> bool) (szw : Z) (rnd : nat -> Z) (k : nat)
    (cmd : Z) (src key : list Z) (pro t serial : Z) :
  (forall n, malloc n = true) -> 32 <= szw -> cmd = DP_CMD_LAN \/ cmd = DP_CMD_MQ ->
  zlen key = 16 -> zlen src + 100 < 2147483648 ->
  exists buf len num,
    tuya_pack_protocol_data malloc szw rnd cmd (Some src) pro (Some key) serial t k
    = Some (OPRT_OK, Some (buf, len), num)
    /\ tuya_parse_protocol_data malloc szw cmd (Some buf) len key
       = Some (OPRT_OK, Some (envelope pro t src ++ [0])).
Proof.
  intros Hm Hw Hcmd Hk Hs. unfold tuya_pack_protocol_data.
  destruct (tuya_pack_protocol_serial_no rnd serial k) as [num k'] eqn:En.
  assert (is_u32 num) as Hu.
  { unfold tuya_pack_protocol_serial_no in En. destruct (serial =? 0); injection En as <- _; apply u32_range. }
  destruct (pack_json_ok malloc src pro t Hm ltac:(lia)) as [_ Hl]. pose proof (zlen_nonneg src).
  destruct Hcmd as [-> | ->]; cbn [Z.eqb Pos.eqb DP_CMD_LAN DP_CMD_MQ]; rewrite bool_decide_true by done.
  - destruct (lpv35_pack_ok malloc Hm src pro num key t Hs) as [rest ->]. cbn [mbind option_bind].
    eexists _, _, _. split; [reflexivity|]. unfold tuya_parse_protocol_data.
    rewrite size_t_small by lia. destruct (Z.ltb_spec (15 + zlen (envelope pro t src)) DATA_OFFSET_22_32);
      [unfold DATA_OFFSET_22_32 in *; lia|].
    cbn [Z.eqb DP_CMD_LAN]. rewrite bool_decide_true by done. rewrite u32_small by (unfold is_u32; lia).
    apply lpv35_parse_ok; [done|done|lia].
  - destruct (pv23_pack_ok malloc szw rnd Hm Hw src pro num key [] t k' Hk Hs)
      as (nonce & ct & tag & E & Hn & Hc & Ht & Ee).
    rewrite app_nil_r in E. rewrite E. cbn [mbind option_bind].
    eexists _, _, _. split; [reflexivity|]. unfold tuya_parse_protocol_data.
    rewrite size_t_small by lia. destruct (Z.ltb_spec (40 + zlen (envelope pro t src)) DATA_OFFSET_22_32);
      [unfold DATA_OFFSET_22_32 in *; lia|].
    cbn [Z.eqb Pos.eqb DP_CMD_LAN DP_CMD_MQ]. rewrite bool_decide_true by done. rewrite u32_small by (unfold is_u32; lia).
    rewrite <- (app_nil_r key). by apply pv23_parse_ok; try done; lia.
Qed.

Lemma protocol_packet_roundtrip_witness :
  exists buf len num,
    tuya_pack_protocol_data (fun _ => true) 32 (fun k => Z.of_nat k) DP_CMD_MQ (Some (str "{}")) 4
      (Some (zrepl 16 7)) 0 1700000000 0 = Some (OPRT_OK, Some (buf, len), num)
    /\ tuya_parse_protocol_data (fun _ => true) 32 DP_CMD_MQ (Some buf) len (zrepl 16 7)
       = Some (OPRT_OK, Some (envelope 4 1700000000 (str "{}") ++ [0])).
Proof.
  apply (protocol_packet_roundtrip (fun _ => true) 32 (fun k => Z.of_nat k) 0 DP_CMD_MQ (str "{}") (zrepl 16 7));
    try done; by right.
Defined.

(** A failing key setup is reported as success: when [mbedtls_cipher_setkey]
    fails, the decrypt wrapper returns its initial [OPRT_OK], and a LAN frame with
    correct framing but any content is accepted as an authentic empty one. *)
Theorem lpv35_setkey_failure_accepted `{MbedtlsCipher} (malloc : Z -> bool) (szw : Z)
    (key nonce ct tag rest : list Z) (seq ty : Z) (out0 : lpv35_frame_object_t) :
  (forall n, malloc n = true) ->
  info_key_bitlen MBEDTLS_CIPHER_AES_128_GCM = Some 128 -> cipher_setup MBEDTLS_CIPHER_AES_128_GCM = 0 ->
  cipher_block_size MBEDTLS_CIPHER_AES_128_GCM = 16 ->
  cipher_setkey MBEDTLS_CIPHER_AES_128_GCM key MBEDTLS_DECRYPT <> 0 -> zlen key = 16 ->
  zlen nonce = 12 -> zlen tag = 16 -> is_u32 seq -> is_u32 ty -> zlen ct + 50 < 2147483648 ->
  exists data,
  lpv35_frame_parse malloc szw (Some key) 16 (Some (frame_bytes seq ty nonce ct tag ++ rest)) (zlen ct + 50) out0
  = Some (OPRT_OK, {| sequence := seq; type := ty; fo_data := Some data; fo_data_len := 0 |}).
Proof.
  intros Hm Hi Hs Hb Hf Hk Hn Ht Hq Hy Hl. rewrite frame_parse_framing by done.
  rewrite (decrypt_wrapper_setkey_fails malloc szw _ key 128); cbn [gcm_params p_key cipher_type]; try done.
  - pose proof (zlen_nonneg ct). cbn [mbind option_bind from_option].
    rewrite blit_front by (rewrite zlen_zrepl by lia; change (zlen (@nil Z)) with 0; lia).
    cbn [mbind option_bind negb]. by eexists.
  - by rewrite Hb.
  - rewrite <- (app_nil_r key) at 1. by apply slice_prefix_n.
Qed.

(** A library whose key setup fails. *)
Definition failing_cipher : MbedtlsCipher := {|
  info_key_bitlen _ := Some 128; cipher_setup _ := 0; cipher_block_size _ := 16;
  cipher_setkey _ _ _ := -24832;
  auth_encrypt_ext _ _ _ _ _ _ := (-1, []); auth_decrypt_ext _ _ _ _ _ _ := (-1, []) |}.

Lemma lpv35_setkey_failure_accepted_witness :
  exists data,
  @lpv35_frame_parse failing_cipher (fun _ => true) 32 (Some (zrepl 16 7)) 16
    (Some (frame_bytes 1 3 (zrepl 12 0) [1; 2; 3] (zrepl 16 9) ++ [])) 53
    {| sequence := 0; type := 0; fo_data := None; fo_data_len := 0 |}
  = Some (OPRT_OK, {| sequence := 1; type := 3; fo_data := Some data; fo_data_len := 0 |}).
Proof.
  apply (@lpv35_setkey_failure_accepted failing_cipher (fun _ => true) 32 (zrepl 16 7) (zrepl 12 0) [1; 2; 3]
           (zrepl 16 9) [] 1 3); try done; unfold is_u32; try lia.
Defined.

(** An MQTT packet of 39 bytes, one less than header, nonce and tag need,
    passes the length check of [tuya_parse_protocol_data] (which is for the LAN
    header of 15 bytes): the data length of the 2.3 parser becomes [0xFFFFFFFF]
    and, with a 32-bit [size_t], decryption reads and writes far outside its
    buffers. *)
Theorem pv23_39_byte_packet_overruns `{Aes128Gcm} (malloc : Z -> bool) (key from body : list Z) (seq : Z) :
  malloc 0 = true -> malloc 15 = true -> zlen key = 16 -> is_u32 seq -> zlen from = 4 -> zlen body = 27 ->
  tuya_parse_protocol_data malloc 32 DP_CMD_MQ (Some (TUYA_PV23 ++ be_bytes seq ++ from ++ [0] ++ body)) 39 key = None.
Proof.
  intros Hm0 Hm15 Hk Hs Hf Hb. unfold tuya_parse_protocol_data. cbn [size_t].
  change (size_t 32 39 <? DATA_OFFSET_22_32) with false. cbn [Z.eqb Pos.eqb DP_CMD_MQ DP_CMD_LAN].
  rewrite bool_decide_true by done. change (u32 39) with 39. unfold parse_data_with_pv23.
  unfold PV23_EXCEPT_DATA_LEN, PV23_VERSION_LEN, PV23_SEQ_OFFSET, PV23_CMD_FROM_OFFSET, PV23_RESERVE_OFFSET,
    PV23_NONCE_OFFSET, PV23_NONCE_LEN, PV23_AD_DATA_LEN, PV23_TAG_LEN, PV23_DATA_OFFSET.
  set (p := TUYA_PV23 ++ be_bytes seq ++ from ++ [0] ++ body).
  assert (zlen p = 39) as Hl.
  { unfold p. rewrite !zlen_app, be_bytes_len, Hf, Hb. done. }
  assert (slice p 0 3 = Some TUYA_PV23) as -> by (by apply slice_prefix_n).
  assert (load_u32 p 3 = Some seq) as -> by (by apply load_u32_mid).
  assert (slice p 7 4 = Some from) as Ef.
  { unfold p. rewrite (app_assoc TUYA_PV23). by apply slice_mid_n. }
  assert (rd p 11 = Some 0) as Er.
  { unfold p. rewrite (app_assoc TUYA_PV23), (app_assoc _ from).
    replace 11 with (zlen ((TUYA_PV23 ++ be_bytes seq) ++ from)) by (rewrite !zlen_app, be_bytes_len, Hf; done).
    apply rd_mid. }
  unfold load_u32. rewrite Ef. cbn [mbind option_bind]. rewrite bool_decide_true by done. cbn [negb].
  rewrite Er. cbn [mbind option_bind negb Z.eqb]. change (u32 (39 - 40)) with 4294967295.
  change (u32 (4294967295 + 1)) with 0. rewrite Hm0. cbn [negb]. change (u32 (39 - 16)) with 23.
  pose proof (decrypt_wrapper_overrun malloc key (ptr p 12) p 12 (ptr p 24) (ptr p 23) ltac:(lia)) as Ew.
  unfold gcm_params in Ew. rewrite Ew; [done| |done]. unfold ptr. rewrite zlen_drop by lia. lia.
Qed.

Lemma pv23_39_byte_packet_overruns_witness :
  tuya_parse_protocol_data (fun _ => true) 32 DP_CMD_MQ
    (Some (TUYA_PV23 ++ be_bytes 9 ++ zrepl 4 1 ++ [0] ++ zrepl 27 5)) 39 (zrepl 16 7) = None.
Proof.
  apply (pv23_39_byte_packet_overruns (fun _ => true) (zrepl 16 7) (zrepl 4 1) (zrepl 27 5) 9); try done;
    unfold is_u32; lia.
Defined.
