(* ===== verification/AiSession.v ===== *)
(** The session of the AI channel, version 1:
    [src/tuya_ai_service/svc_ai_basic/src/tuya_ai_protocol.c], setting up and closing,
    connecting, the requests on the wire and the replies to them. *)
From Stdlib Require Import ZArith Lia.
From stdpp Require Import base tactics option list numbers.
From S2P Require Import Prelude Text Endian Cipher Hash Tools AiAttr AiPacket Protocol.

Local Open Scope Z_scope.

Definition OPRT_AUTHENTICATION_FAIL : Z := -34.
Definition AI_PT_AUTH_REQ : Z := 2.
Definition AI_PT_AUTH_RESP : Z := 3.
Definition AI_PT_PING : Z := 4.
Definition AI_PT_CONN_CLOSE : Z := 6.
Definition AI_PT_SESSION_NEW : Z := 7.
Definition AI_PT_SESSION_CLOSE : Z := 8.
Definition AI_PT_CONN_REFRESH_REQ : Z := 9.
Definition AI_PT_EVENT : Z := 35.
Definition AI_CODE_OK : Z := 200.

Section Session.
Context `{!MbedtlsCipher} (sha256 : Md) (malloc : Z -> bool) (szw ctx_size max_fragment : Z) (char_signed : bool).
(** The random words, and [mbedtls_hkdf] with SHA-256 and no info: salt and key give the
    code and the bytes it writes. *)
Context (rnd : nat -> Z) (hkdf : list Z -> list Z -> Z * list Z).

Abbreviation pkt_send := (tuya_ai_basic_pkt_send sha256 malloc szw ctx_size max_fragment).
Abbreviation pkt_frag_send := (tuya_ai_basic_pkt_frag_send sha256 malloc szw ctx_size max_fragment).
Abbreviation pkt_read := (tuya_ai_basic_pkt_read sha256 malloc szw ctx_size max_fragment char_signed).

(** * Setting up

    [local_key] is the key of the device and [k] the number of random words drawn. *)

(** The code and the random string and key of a buffer pair. *)
Definition ai_generate_key (local_key random key : list Z) (k : nat) : option (Z * list Z * list Z) :=
  random ← blit random 0 (uni_random_string rnd AI_RANDOM_LEN k);
  n ← strlen local_key;
  salt ← slice random 0 AI_RANDOM_LEN;
  ikm ← slice local_key 0 n;
  let '(rt, okm) := hkdf salt ikm in
  key ← blit key 0 okm;
  Some (rt, random, key).

Definition with_crypt (p : AI_BASIC_PROTO_T) (random key : list Z) : AI_BASIC_PROTO_T :=
  {| transporter := transporter p; crypt_key := key; sign_key := sign_key p; sequence_in := sequence_in p; sequence_out := sequence_out p;
     crypt_random := random; sign_random := sign_random p; sl := sl p; connected := connected p; connection_id := connection_id p;
     encrypt_iv := encrypt_iv p; decrypt_iv := decrypt_iv p; recv_frag_mng := recv_frag_mng p; send_frag_mng := send_frag_mng p;
     frag_flag := frag_flag p; file_seq := file_seq p; text_seq := text_seq p |}.
Definition with_sign (p : AI_BASIC_PROTO_T) (random key : list Z) : AI_BASIC_PROTO_T :=
  {| transporter := transporter p; crypt_key := crypt_key p; sign_key := key; sequence_in := sequence_in p; sequence_out := sequence_out p;
     crypt_random := crypt_random p; sign_random := random; sl := sl p; connected := connected p; connection_id := connection_id p;
     encrypt_iv := encrypt_iv p; decrypt_iv := decrypt_iv p; recv_frag_mng := recv_frag_mng p; send_frag_mng := send_frag_mng p;
     frag_flag := frag_flag p; file_seq := file_seq p; text_seq := text_seq p |}.
Definition with_connection (p : AI_BASIC_PROTO_T) (c : bool) (id : option (list Z)) : AI_BASIC_PROTO_T :=
  {| transporter := transporter p; crypt_key := crypt_key p; sign_key := sign_key p; sequence_in := sequence_in p; sequence_out := sequence_out p;
     crypt_random := crypt_random p; sign_random := sign_random p; sl := sl p; connected := c; connection_id := id;
     encrypt_iv := encrypt_iv p; decrypt_iv := decrypt_iv p; recv_frag_mng := recv_frag_mng p; send_frag_mng := send_frag_mng p;
     frag_flag := frag_flag p; file_seq := file_seq p; text_seq := text_seq p |}.
Definition with_frag_flag (p : AI_BASIC_PROTO_T) (f : bool) : AI_BASIC_PROTO_T :=
  {| transporter := transporter p; crypt_key := crypt_key p; sign_key := sign_key p; sequence_in := sequence_in p; sequence_out := sequence_out p;
     crypt_random := crypt_random p; sign_random := sign_random p; sl := sl p; connected := connected p; connection_id := connection_id p;
     encrypt_iv := encrypt_iv p; decrypt_iv := decrypt_iv p; recv_frag_mng := recv_frag_mng p; send_frag_mng := send_frag_mng p;
     frag_flag := f; file_seq := file_seq p; text_seq := text_seq p |}.
Definition with_var_seq (p : AI_BASIC_PROTO_T) (f t : Z) : AI_BASIC_PROTO_T :=
  {| transporter := transporter p; crypt_key := crypt_key p; sign_key := sign_key p; sequence_in := sequence_in p; sequence_out := sequence_out p;
     crypt_random := crypt_random p; sign_random := sign_random p; sl := sl p; connected := connected p; connection_id := connection_id p;
     encrypt_iv := encrypt_iv p; decrypt_iv := decrypt_iv p; recv_frag_mng := recv_frag_mng p; send_frag_mng := send_frag_mng p;
     frag_flag := frag_flag p; file_seq := f; text_seq := t |}.

Definition ai_generate_crypt_key (local_key : list Z) (p : AI_BASIC_PROTO_T) (k : nat) : option (Z * AI_BASIC_PROTO_T) :=
  '(rt, random, key) ← ai_generate_key local_key (crypt_random p) (crypt_key p) k; Some (rt, with_crypt p random key).
Definition ai_generate_sign_key (local_key : list Z) (p : AI_BASIC_PROTO_T) (k : nat) : option (Z * AI_BASIC_PROTO_T) :=
  '(rt, random, key) ← ai_generate_key local_key (sign_random p) (sign_key p) k; Some (rt, with_sign p random key).

(** The codes of the two keys are not looked at; [frag_flag] stays. *)
Definition ai_basic_proto_reinit (local_key : list Z) (p : AI_BASIC_PROTO_T) (k : nat) : option AI_BASIC_PROTO_T :=
  '(_, p) ← ai_generate_crypt_key local_key p k;
  '(_, p) ← ai_generate_sign_key local_key p (k + 32);
  e_iv ← blit (encrypt_iv p) 0 (zrepl AI_IV_LEN 0);
  e_iv ← blit e_iv 0 (uni_random_string rnd AI_IV_LEN (k + 64));
  d_iv ← blit (decrypt_iv p) 0 (zrepl AI_IV_LEN 0);
  Some {| transporter := None; crypt_key := crypt_key p; sign_key := sign_key p; sequence_in := 0; sequence_out := 1;
          crypt_random := crypt_random p; sign_random := sign_random p; sl := AI_PACKET_SL4; connected := false; connection_id := None;
          encrypt_iv := e_iv; decrypt_iv := d_iv; recv_frag_mng := frag_idle; send_frag_mng := zrepl 5 0;
          frag_flag := frag_flag p; file_seq := 1; text_seq := 1 |}.

(** The struct after [memset]. *)
Definition proto_zero : AI_BASIC_PROTO_T :=
  {| transporter := None; crypt_key := zrepl (AI_KEY_LEN + 1) 0; sign_key := zrepl (AI_KEY_LEN + 1) 0; sequence_in := 0; sequence_out := 0;
     crypt_random := zrepl (AI_RANDOM_LEN + 1) 0; sign_random := zrepl (AI_RANDOM_LEN + 1) 0; sl := AI_PACKET_SL0; connected := false;
     connection_id := None; encrypt_iv := zrepl (AI_IV_LEN + 1) 0; decrypt_iv := zrepl (AI_IV_LEN + 1) 0; recv_frag_mng := frag_idle;
     send_frag_mng := zrepl 5 0; frag_flag := false; file_seq := 0; text_seq := 0 |}.

(** [size] is [SIZEOF(AI_BASIC_PROTO_T)] and [mutex_rt] the result of creating the mutex. *)
Definition tuya_ai_basic_setup (size mutex_rt : Z) (local_key : list Z) (proto : option AI_BASIC_PROTO_T) (k : nat)
  : option (Z * option AI_BASIC_PROTO_T) :=
  match proto with
  | Some p => p ← ai_basic_proto_reinit local_key p k; Some (OPRT_OK, Some p)
  | None =>
      if negb (malloc size) then Some (OPRT_MALLOC_FAILED, None)
      else
        '(rt, p) ← ai_generate_crypt_key local_key proto_zero k;
        if negb (rt =? OPRT_OK) then Some (OPRT_COM_ERROR, None)
        else
          '(rt, p) ← ai_generate_sign_key local_key p (k + 32);
          if negb (rt =? OPRT_OK) then Some (OPRT_COM_ERROR, None)
          else if negb (mutex_rt =? OPRT_OK) then Some (OPRT_COM_ERROR, None)
          else
            iv ← blit (encrypt_iv p) 0 (uni_random_string rnd AI_IV_LEN (k + 64));
            Some (OPRT_OK, Some {| transporter := None; crypt_key := crypt_key p; sign_key := sign_key p; sequence_in := 0; sequence_out := 1;
                                   crypt_random := crypt_random p; sign_random := sign_random p; sl := AI_PACKET_SL4; connected := false;
                                   connection_id := None; encrypt_iv := iv; decrypt_iv := decrypt_iv p; recv_frag_mng := frag_idle;
                                   send_frag_mng := zrepl 5 0; frag_flag := false; file_seq := 1; text_seq := 1 |})
  end.

Definition tuya_ai_basic_disconnect (proto : option AI_BASIC_PROTO_T) : option AI_BASIC_PROTO_T := None.

Definition tuya_ai_basic_set_frag (proto : option AI_BASIC_PROTO_T) (flag : bool) : option AI_BASIC_PROTO_T :=
  (fun p => with_frag_flag p flag) <$> proto.

(** [for (idx = 0; idx < cfg->host_num; idx++)]: [results] are the codes of the attempts. *)
Fixpoint connect_loop (results : list Z) (rt : Z) : Z * bool :=
  match results with
  | [] => (rt, false)
  | r :: results => if r =? OPRT_OK then (r, true) else connect_loop results r
  end.

(** [ip_ok]: the linkage gives an address; [created] is the new transporter. *)
Definition tuya_ai_basic_connect (ip_ok : bool) (created : option transport) (results : list Z) (proto : option AI_BASIC_PROTO_T)
  : option (Z * option AI_BASIC_PROTO_T) :=
  if negb ip_ok then Some (OPRT_COM_ERROR, proto)
  else
    p ← proto;
    let p := with_transporter p created in
    match created with
    | None => Some (OPRT_COM_ERROR, Some p)
    | Some _ =>
        let '(rt, ok) := connect_loop results OPRT_OK in
        Some (rt, Some (if ok then with_connection p true (connection_id p) else p))
    end.

(** * Requests *)

Definition request (type : Z) (attrs : list AI_ATTRIBUTE_T) (data : list Z) (n total : Z) (w : option AI_PACKET_WRITER_T) : AI_SEND_PACKET_T :=
  {| p_type := type; attrs := attrs; total_len := total; len := n; data := data; writer := w |}.

(** A request without fragments of its own. *)
Definition send_request (type : Z) (created : option (Z * list AI_ATTRIBUTE_T)) (data : list Z) (n : Z) (w : option AI_PACKET_WRITER_T)
  (proto : option AI_BASIC_PROTO_T) : option (Z * option AI_BASIC_PROTO_T) :=
  '(rt, l) ← created;
  if negb (rt =? OPRT_OK) then Some (rt, proto) else pkt_send proto (request type l data n 0 w).

(** The settings of the hello are those of [create_clt_hello_attrs]. *)
Definition tuya_ai_basic_client_hello (read_buf write_buf heartbeat : Z) (cfg : AI_SERVER_CFG_INFO_T) (proto : option AI_BASIC_PROTO_T) :=
  p ← proto;
  send_request AI_PT_CLIENT_HELLO
    (create_clt_hello_attrs malloc read_buf write_buf heartbeat max_fragment (crypt_random p) (sign_random p) (connection_id p) cfg) [] 0 None proto.

Definition tuya_ai_basic_auth_req (cfg : AI_SERVER_CFG_INFO_T) (proto : option AI_BASIC_PROTO_T) :=
  send_request AI_PT_AUTH_REQ (create_auth_req_attrs malloc cfg) [] 0 None proto.

Definition tuya_ai_basic_refresh_req (proto : option AI_BASIC_PROTO_T) :=
  p ← proto; send_request AI_PT_CONN_REFRESH_REQ (create_refresh_req_attrs malloc (connection_id p)) [] 0 None proto.

(** [ts] is [tal_time_get_posix_ms()]. *)
Definition tuya_ai_basic_ping (ts : Z) (proto : option AI_BASIC_PROTO_T) :=
  send_request AI_PT_PING (create_ping_attrs malloc ts) [] 0 None proto.

Definition tuya_ai_basic_conn_close (code : Z) (proto : option AI_BASIC_PROTO_T) : option (Z * option AI_BASIC_PROTO_T) :=
  '(rt, l) ← create_conn_close_attrs malloc code;
  if negb (rt =? OPRT_OK) then Some (rt, proto)
  else
    '(rt, proto) ← pkt_send proto (request AI_PT_CONN_CLOSE l [] 0 0 None);
    p ← proto;
    Some (rt, Some (with_connection p false (connection_id p))).

Definition tuya_ai_basic_session_new (session : AI_SESSION_NEW_ATTR_T) (data : list Z) (n : Z) (proto : option AI_BASIC_PROTO_T) :=
  send_request AI_PT_SESSION_NEW (create_seesion_new_attrs malloc session) data n None proto.

Definition tuya_ai_basic_session_close (session_id : list Z) (code : Z) (proto : option AI_BASIC_PROTO_T) :=
  send_request AI_PT_SESSION_CLOSE (create_seesion_close_attrs malloc session_id code) [] 0 None proto.

(** A medium: the whole of it, or one of the caller's fragments. No attributes are [None]. *)
Definition send_media (type : Z) (created : option (option (Z * list AI_ATTRIBUTE_T))) (data : list Z) (n total : Z)
  (w : option AI_PACKET_WRITER_T) (proto : option AI_BASIC_PROTO_T) : option (Z * option AI_BASIC_PROTO_T) :=
  '(rt, l) ← match created with None => Some (OPRT_OK, []) | Some c => c end;
  if negb (rt =? OPRT_OK) then Some (rt, proto)
  else
    let pkt := request type l data n total w in
    if n =? total then pkt_send proto pkt else pkt_frag_send proto pkt.

Definition tuya_ai_basic_video (video : option (AI_VIDEO_ATTR_BASE_T * AI_ATTR_OPTION_T)) :=
  send_media AI_PT_VIDEO ((fun v => create_video_attrs malloc v.1 v.2) <$> video).
Definition tuya_ai_basic_audio (audio : option (AI_AUDIO_ATTR_BASE_T * AI_ATTR_OPTION_T)) :=
  send_media AI_PT_AUDIO ((fun a => create_audio_attrs malloc a.1 a.2) <$> audio).
Definition tuya_ai_basic_image (image : option (AI_IMAGE_ATTR_BASE_T * AI_ATTR_OPTION_T)) :=
  send_media AI_PT_IMAGE ((fun i => create_image_attrs malloc i.1 i.2) <$> image).
Definition tuya_ai_basic_file (file : option (AI_FILE_ATTR_BASE_T * AI_ATTR_OPTION_T)) :=
  send_media AI_PT_FILE ((fun f => create_file_attrs malloc f.1 f.2) <$> file).
Definition tuya_ai_basic_text (text : option (option (list Z))) :=
  send_media AI_PT_TEXT (create_text_attrs malloc <$> text).

(** The type of the event stands in the four bytes of its head; [ts] as for the ping. *)
Definition tuya_ai_basic_event (event : option AI_EVENT_ATTR_T) (ts : Z) (data : list Z) (n : Z) (w : option AI_PACKET_WRITER_T)
  (proto : option AI_BASIC_PROTO_T) : option (Z * option AI_BASIC_PROTO_T) :=
  head ← slice data 0 4;
  let type := UNI_NTOHS (le_val (take 2 head)) in
  '(rt, l) ← match event with None => Some (OPRT_OK, []) | Some e => create_event_attrs malloc e type ts end;
  if negb (rt =? OPRT_OK) then Some (rt, proto) else pkt_send proto (request AI_PT_EVENT l data n 0 w).

(** * Replies

    [fuel] bounds the attributes of a reply; in the results the inner [None] says that it
    is used up. *)

Abbreviation parse_attrs := (tuya_parse_user_attrs malloc).

(** The union read as an address, as a 16-bit and as a 64-bit number; the members that
    were not written are zero. *)
Definition value_ptr (v : AI_ATTR_VALUE) : option (list Z) := match v with v_bytes p | v_str p => p | _ => None end.
Definition value_num (v : AI_ATTR_VALUE) : option Z :=
  match v with v_u8 x | v_u16 x | v_u32 x | v_u64 x => Some x | _ => None end.

(** The loop of [__ai_parse_auth_resp]: code, number of valid attributes, identifier. *)
Fixpoint auth_loop (l : list AI_ATTRIBUTE_T) (vaild_num : Z) (id : option (list Z)) : option (Z * Z * option (list Z)) :=
  match l with
  | [] => Some (OPRT_OK, vaild_num, id)
  | a :: l =>
      if a_type a =? AI_ATTR_CONNECT_STATUS_CODE then
        status ← value_num (a_value a);
        if u16 status =? AI_CODE_OK then auth_loop l (vaild_num + 1) id else Some (OPRT_AUTHENTICATION_FAIL, vaild_num, id)
      else if a_type a =? AI_ATTR_CONNECTION_ID then
        if negb (malloc (u32 (a_length a + 1))) then None
        else
          p ← value_ptr (a_value a);
          s ← slice p 0 (a_length a);
          m ← blit (zrepl (u32 (a_length a + 1)) 0) 0 s;
          auth_loop l (vaild_num + 1) (Some m)
      else auth_loop l vaild_num id
  end.

Definition ai_parse_auth_resp (fuel : nat) (de_buf : list Z) (attr_len : Z) (p : AI_BASIC_PROTO_T)
  : option (option (Z * AI_BASIC_PROTO_T)) :=
  r ← parse_attrs fuel de_buf attr_len;
  match r with
  | None => Some None
  | Some (rt, out) =>
      if negb (rt =? OPRT_OK) then Some (Some (rt, p))
      else
        '(l, num) ← out;
        '(rt, vaild_num, id) ← auth_loop (take (Z.to_nat num) l) 0 (connection_id p);
        let rt := if negb (rt =? OPRT_OK) then rt else if negb (vaild_num =? 2) then OPRT_COM_ERROR else OPRT_OK in
        Some (Some (rt, with_connection p (connected p) id))
  end.

Definition tuya_ai_parse_conn_close (fuel : nat) (de_buf : list Z) (attr_len : Z) : option (option Z) :=
  r ← parse_attrs fuel de_buf attr_len;
  match r with
  | None => Some None
  | Some (rt, out) =>
      if negb (rt =? OPRT_OK) then Some (Some rt)
      else
        '(l, num) ← out;
        Some (Some (if existsb (fun a => a_type a =? AI_ATTR_CONNECT_CLOSE_ERR_CODE) (take (Z.to_nat num) l)
                    then OPRT_AUTHENTICATION_FAIL else OPRT_OK))
  end.

(** The length of the attributes, which stands behind the head. *)
Definition reply_attr_len (de_buf : list Z) : option Z :=
  b ← slice de_buf PAYLOAD_HEAD_SIZE 4; Some (u32 (UNI_NTOHL (le_val b))).

Definition tuya_ai_auth_resp (fuel : nat) (p : AI_BASIC_PROTO_T) : option (option (Z * AI_BASIC_PROTO_T)) :=
  r ← pkt_read fuel p;
  match r with
  | None => Some None
  | Some (rt, p, out) =>
      if negb (rt =? OPRT_OK) then Some (Some (rt, p))
      else
        match out with
        | None => Some (Some (OPRT_COM_ERROR, p))
        | Some (de_buf, _, _) =>
            h ← rd de_buf 0;
            if negb (head_attr h) then Some (Some (OPRT_COM_ERROR, p))
            else
              attr_len ← reply_attr_len de_buf;
              let body := drop (Z.to_nat (PAYLOAD_HEAD_SIZE + 4)) de_buf in
              if head_type h =? AI_PT_AUTH_RESP then ai_parse_auth_resp fuel body attr_len p
              else if head_type h =? AI_PT_CONN_CLOSE then
                r ← tuya_ai_parse_conn_close fuel body attr_len;
                Some (match r with Some rt => Some (rt, p) | None => None end)
              else Some (Some (OPRT_COM_ERROR, p))
        end
  end.

(** The code and [*expire], if it is set. *)
Fixpoint refresh_loop (l : list AI_ATTRIBUTE_T) (expire : option Z) : option (Z * option Z) :=
  match l with
  | [] => Some (OPRT_OK, expire)
  | a :: l =>
      if a_type a =? AI_ATTR_CONNECT_STATUS_CODE then
        status ← value_num (a_value a);
        if u16 status =? AI_CODE_OK then refresh_loop l expire else Some (OPRT_COM_ERROR, expire)
      else if a_type a =? AI_ATTR_LAST_EXPIRE_TS then
        t ← value_num (a_value a); refresh_loop l (Some t)
      else refresh_loop l expire
  end.

Definition tuya_ai_refresh_resp (fuel : nat) (de_buf : list Z) (attr_len : Z) : option (option (Z * option Z)) :=
  r ← parse_attrs fuel de_buf attr_len;
  match r with
  | None => Some None
  | Some (rt, out) =>
      if negb (rt =? OPRT_OK) then Some (Some (rt, None))
      else '(l, num) ← out; r ← refresh_loop (take (Z.to_nat num) l) None; Some (Some r)
  end.

(** The times of a pong are only logged. *)
Fixpoint pong_loop (fuel : nat) (attr_data : list Z) (attr_len offset rt : Z) : option (option Z) :=
  if negb (offset <? attr_len) then Some (Some rt)
  else
    match fuel with
    | O => Some None
    | S fuel =>
        '(rt, offset, _) ← tuya_ai_get_attr_value attr_data offset;
        if negb (rt =? OPRT_OK) then Some (Some rt) else pong_loop fuel attr_data attr_len offset rt
    end.

Definition tuya_ai_pong (fuel : nat) (data : list Z) : option (option Z) :=
  h ← rd data 0;
  if negb (head_attr h) then Some (Some OPRT_COM_ERROR)
  else
    attr_len ← reply_attr_len data;
    pong_loop fuel (drop (Z.to_nat (PAYLOAD_HEAD_SIZE + 4)) data) attr_len 0 OPRT_OK.
End Session.

(** * The variable-length sequence numbers *)

Definition var_num (p : AI_BASIC_PROTO_T) (type : Z) : Z :=
  if type =? AI_PT_FILE then file_seq p else if type =? AI_PT_TEXT then text_seq p else 0.

(** [while (num > 0)]: a 32-bit number has at most five groups of seven bits. *)
Fixpoint var_seq_loop (fuel : nat) (num : Z) : list Z :=
  match fuel with
  | O => []
  | S fuel =>
      if num <=? 0 then []
      else
        let b := Z.land num 0x7F in
        let num := Z.shiftr num 7 in
        (if 0 <? num then Z.lor b 0x80 else b) :: var_seq_loop fuel num
  end.

(** The bytes put into the buffer; their number is the result. *)
Definition tuya_ai_basic_get_var_seq (p : AI_BASIC_PROTO_T) (type : Z) : list Z :=
  let num := var_num p type in if num =? 0 then [0] else var_seq_loop 5 num.

Definition tuya_ai_basic_update_var_seq (p : AI_BASIC_PROTO_T) (type : Z) : AI_BASIC_PROTO_T :=
  if type =? AI_PT_FILE then with_var_seq p (u32 (file_seq p + 1)) (text_seq p)
  else if type =? AI_PT_TEXT then with_var_seq p (file_seq p) (u32 (text_seq p + 1))
  else p.

(** * The reply to the authentication *)

(** What the reply must come to: the status has to be 200 in every status attribute, and
    exactly two attributes, status and identifier, may be counted. *)
Fixpoint auth_spec (l : list AI_ATTRIBUTE_T) (n : Z) (id : option (list Z)) : Z * Z * option (list Z) :=
  match l with
  | [] => (OPRT_OK, n, id)
  | a :: l =>
      match a_type a =? AI_ATTR_CONNECT_STATUS_CODE, a_type a =? AI_ATTR_CONNECTION_ID, a_value a with
      | true, _, v_u16 v => if v =? AI_CODE_OK then auth_spec l (n + 1) id else (OPRT_AUTHENTICATION_FAIL, n, id)
      | false, true, v_str (Some _) | false, true, v_bytes (Some _) => auth_spec l (n + 1) (Some (value_wire a ++ [0]))
      | _, _, _ => auth_spec l n id
      end
  end.

Definition auth_code (r : Z * Z * option (list Z)) : Z :=
  let '(rt, n, _) := r in if negb (rt =? OPRT_OK) then rt else if negb (n =? 2) then OPRT_COM_ERROR else OPRT_OK.

(** The identifier of a connection is sent as a string or as bytes. *)
Definition id_text (a : AI_ATTRIBUTE_T) : Prop :=
  a_type a = AI_ATTR_CONNECTION_ID -> payload_type a = ATTR_PT_STR \/ payload_type a = ATTR_PT_BYTES.

Section Replies.
Context (malloc : Z -> bool) (Hm : forall n, malloc n = true).

Lemma auth_loop_received l suf : Forall attr_ok l -> Forall id_text l -> zlen (attrs_wire l) < 4194304 -> forall n id,
  auth_loop malloc (received_all l suf) n id = Some (auth_spec l n id).
Proof.
  intros Hl Hid. induction Hl as [|a l Ha Hl IH]; intros Hw n id; [done|]. apply list.Forall_cons in Hid as [Hida Hid].
  unfold attrs_wire in Hw. cbn [fmap list_fmap mjoin list_join] in Hw. change (mjoin (attr_wire <$> l)) with (attrs_wire l) in Hw. rewrite zlen_app, (zlen_attr_wire a Ha) in Hw.
  pose proof (zlen_nonneg (attrs_wire l)). pose proof (attr_len_pos a Ha) as Hp. cbn [received_all auth_loop auth_spec].
  unfold received. cbn [a_type a_value a_length]. destruct (Z.eqb_spec (a_type a) AI_ATTR_CONNECT_STATUS_CODE) as [Es|Es].
  - destruct Ha as (_ & Hst & Hv). specialize (Hst (or_introl Es)). rewrite Hst in Hv.
    destruct (a_value a) as [v|v|v|v|[p|]|[p|]]; destruct_and? Hv; try done.
    cbn [value_num mbind option_bind]. rewrite u16_small by done. case_bool; [apply IH; (done || lia)|done].
  - destruct (Z.eqb_spec (a_type a) AI_ATTR_CONNECTION_ID) as [Ei|Ei]; [|by destruct (a_value a) as [v|v|v|v|[p|]|[p|]]; apply IH; (done || lia)].
    rewrite Hm. cbn [negb]. pose proof (zlen_value_wire a Ha) as Hz. specialize (Hida Ei).
    destruct Ha as (_ & _ & Hv).
    assert (exists b, value_ptr (match a_value a with v_bytes _ => v_bytes (Some (value_wire a ++ attrs_wire l ++ suf))
              | v_str _ => v_str (Some (value_wire a ++ attrs_wire l ++ suf)) | v => v end) = Some (value_wire a ++ b)
            /\ match a_value a with v_bytes (Some _) | v_str (Some _) => True | _ => False end) as (b & Eb & Hb).
    { destruct (a_value a) as [v|v|v|v|[p|]|[p|]]; destruct_and? Hv; try done; try (by eexists);
        exfalso; destruct Hida as [Hida|Hida]; rewrite Hida in *; done. }
    rewrite Eb. cbn [mbind option_bind]. rewrite slice_prefix_n by done. cbn [mbind option_bind]. rewrite u32_small by (unfold is_u32; lia).
    assert (blit (zrepl (a_length a + 1) 0) 0 (value_wire a) = Some (value_wire a ++ [0])) as ->.
    { rewrite blit_front by (rewrite zlen_zrepl; lia). unfold zrepl. rewrite drop_replicate. do 2 f_equal.
      replace (Z.to_nat (a_length a + 1) - Z.to_nat (zlen (value_wire a)))%nat with 1%nat by lia. done. }
    cbn [mbind option_bind]. rewrite IH by (done || lia). by destruct (a_value a) as [v|v|v|v|[p|]|[p|]].
Qed.

Lemma received_all_length l suf : length (received_all l suf) = length l.
Proof. induction l as [|a l IH]; [done|]. cbn. by rewrite IH. Qed.

Lemma parse_auth_ok fuel l suf p : Forall attr_ok l -> Forall id_text l -> zlen (attrs_wire l) < 4194304 ->
  zlen (attrs_wire l ++ suf) < 4294967296 -> (length l <= fuel)%nat ->
  ai_parse_auth_resp malloc fuel (attrs_wire l ++ suf) (zlen (attrs_wire l)) p
  = Some (Some (auth_code (auth_spec l 0 (connection_id p)), with_connection p (connected p) (auth_spec l 0 (connection_id p)).2)).
Proof.
  intros Hl Hid Hw H32 Hf. unfold ai_parse_auth_resp. rewrite parse_user_attrs_ok by done. cbn [mbind option_bind].
  change (negb (OPRT_OK =? OPRT_OK)) with false. cbv iota. rewrite take_ge by (rewrite received_all_length; unfold zlen; lia).
  rewrite auth_loop_received by done. cbn [mbind option_bind]. by destruct (auth_spec l 0 (connection_id p)) as [[rt n] id].
Qed.
End Replies.

Section Correct.
Context `{!MbedtlsCipher} `{!Aes256Gcm} (sha256 : Md) (malloc : Z -> bool) (szw ctx_size max_fragment : Z) (char_signed : bool).
Context (dg : list Z -> list Z) (absorbed : md_ctx sha256 -> list Z -> Prop) (L : MdLaws sha256 SHA256_SIZE dg absorbed).
Context (Hm : forall n, malloc n = true) (Hszw : 32 <= szw) (Hmax : 1024 <= max_fragment <= 512000).

Abbreviation pkt_send := (tuya_ai_basic_pkt_send sha256 malloc szw ctx_size max_fragment).
Abbreviation pkt_read := (tuya_ai_basic_pkt_read sha256 malloc szw ctx_size max_fragment char_signed).

(** Reading leaves the session alone. *)
Definition same_session (p p' : AI_BASIC_PROTO_T) : Prop := connected p' = connected p /\ connection_id p' = connection_id p.

Lemma read_packet_session p r p' :
  read_packet sha256 malloc szw ctx_size max_fragment char_signed p = Some (r, p') -> same_session p p'.
Proof.
  unfold read_packet. intros Hr. destruct (transporter p); [|by simplify_eq].
  repeat (case_match || simplify_option_eq); done.
Qed.

Lemma pkt_read_session fuel : forall p rt p' out, pkt_read fuel p = Some (Some (rt, p', out)) -> same_session p p'.
Proof.
  induction fuel as [|fuel IH]; intros p rt p' out Hr; [done|]. cbn [tuya_ai_basic_pkt_read] in Hr.
  destruct (read_packet _ _ _ _ _ _ p) as [[r p1]|] eqn:E; [|done]. apply read_packet_session in E as [E1 E2]. unfold same_session. rewrite <- E1, <- E2.
  assert (forall m rl rt p' out, (r ← pkt_read fuel (with_recv p1 (decrypt_iv p1) m);
            match r with
            | None => Some None
            | Some (rt, p, out) => if negb (rt =? OPRT_OK) then Some (Some (rl, exit_state p, out)) else Some (Some (rt, p, out))
            end) = Some (Some (rt, p', out)) -> connected p' = connected p1 /\ connection_id p' = connection_id p1) as Hc.
  { intros m rl rt0 p0 out0 Hk. destruct (pkt_read fuel _) as [[[[rt1 p2] out1]|]|] eqn:E0; [|done|done]. apply IH in E0 as [E3 E4].
    cbn [mbind option_bind] in Hk. case_match; simplify_eq; done. }
  cbn [mbind option_bind] in Hr. destruct r as [rc|rc|frag db dl rl]; [by simplify_eq|by simplify_eq|].
  destruct (frag_flag p1); [by simplify_eq|]. destruct (_ && _)%bool; [by simplify_eq|]. destruct (frag =? AI_PACKET_FRAG_START).
  { destruct (frag_start malloc db dl) as [[m|]|]; cbn [mbind option_bind] in Hr; [|by simplify_eq|done]. by apply Hc in Hr. }
  destruct (frag =? AI_PACKET_FRAG_ING); [destruct (frag_append p1 db dl frag) as [m|]; [|done]; by apply Hc in Hr|].
  destruct (frag =? AI_PACKET_FRAG_END); [|by simplify_eq]. destruct (frag_append p1 db dl frag) as [m|]; [|done].
  cbn [mbind option_bind] in Hr. destruct (r_data m); cbn [mbind option_bind] in Hr; [by simplify_eq|done].
Qed.

(** ** The authentication of a client *)
Lemma auth_request_ok l : Forall attr_ok l -> zlen (attrs_wire l) < 1048576 -> info_ok (request AI_PT_AUTH_RESP l [] 0 0 None).
Proof. intros Hl Hw. unfold info_ok. by repeat split. Qed.

Lemma land_127 x : Z.land x 127 = x mod 128.
Proof. exact (Z.land_ones x 7 ltac:(done)). Qed.

Lemma head_type_ok a type : 0 <= type < 128 -> head_type (payload_head a type) = type.
Proof.
  intros Ht. unfold head_type, payload_head. rewrite !land_127, (Z.mod_small type) by done.
  rewrite Z.shiftr_lor, Z.shiftr_shiftl_l by lia. change (1 - 1) with 0. rewrite Z.shiftl_0_r.
  assert (Z.shiftr (Z.b2z a) 1 = 0) as -> by (by destruct a). rewrite Z.lor_0_l. by apply Z.mod_small.
Qed.

(** (C6) The reply to an authentication request, with any attributes a server can send, is
    understood: over any transport a client with the same keys ends with the code and the
    connection identifier that the attributes say, and the session goes on. *)
Theorem ai_auth_resp_correct p key skey iv t l :
  sender p key skey iv t -> l <> [] -> Forall attr_ok l -> Forall id_text l -> zlen (attrs_wire l) + 200 <= max_fragment ->
  exists ws p' t', pkt_send (Some p) (request AI_PT_AUTH_RESP l [] 0 0 None) = Some (OPRT_OK, Some p')
    /\ sender p' key skey iv t' /\ sent_bytes t' = sent_bytes t ++ ws
    /\ forall q more fuel, reader q key skey (sequence_out p) (ws ++ more) -> ready q -> (length ws + length l <= fuel)%nat ->
       exists q', tuya_ai_auth_resp sha256 malloc szw ctx_size max_fragment char_signed fuel q
                  = Some (Some (auth_code (auth_spec l 0 (connection_id q)), q'))
         /\ connection_id q' = (auth_spec l 0 (connection_id q)).2 /\ connected q' = connected q
         /\ reader q' key skey (sequence_out p') more /\ ready q'.
Proof.
  intros Hs Hne Hl Hid Hw. set (info := request AI_PT_AUTH_RESP l [] 0 0 None).
  assert (info_ok info) as Hi by (apply auth_request_ok; [done|lia]).
  assert (attr_part info = be 4 (zlen (attrs_wire l)) ++ attrs_wire l) as Hap.
  { unfold attr_part. cbn [attrs info request]. by rewrite bool_decide_eq_false_2. }
  assert (zlen (attr_part info) = 4 + zlen (attrs_wire l)) as Hzap by (rewrite Hap, zlen_app, zlen_be; lia).
  destruct (pkt_send_ok sha256 malloc szw ctx_size max_fragment dg absorbed L Hm Hszw Hmax p key skey iv t info [] [] Hs Hi)
    as (ws & seq' & p' & t' & E & Hmsg & Hs' & Eq & Es & _); [done|done|done|left; cbn; lia|].
  exists ws, p', t'. split; [done|]. split; [done|]. split; [done|]. intros q more fuel Hr Hy Hf. rewrite Eq.
  destruct (message_read sha256 malloc szw ctx_size max_fragment char_signed dg absorbed L Hm Hszw Hmax key skey iv info [] (sequence_out p) ws seq' Hi)
    with (q := q) (rest := more) (fuel := fuel) as (q' & tail & Er & Hr' & Hy' & Ht); try done;
    [apply (s_iv _ _ _ _ _ Hs)|left; rewrite Hzap; change (zlen []) with 0; lia|apply (s_seq _ _ _ _ _ Hs)|lia|].
  pose proof (pkt_read_session _ _ _ _ _ Er) as [Hcn Hcid].
  unfold tuya_ai_auth_resp. rewrite Er. cbn [mbind option_bind]. change (negb (OPRT_OK =? OPRT_OK)) with false. cbv iota.
  set (h := payload_head true AI_PT_AUTH_RESP). change (zlen []) with 0.
  assert (plain_payload info 0 [] ++ tail = [h] ++ be 4 (zlen (attrs_wire l)) ++ attrs_wire l ++ (be 4 0 ++ tail)) as Ep.
  { unfold plain_payload. cbn [attrs p_type info request]. rewrite bool_decide_eq_false_2 by done. cbn [negb]. fold h.
    rewrite app_nil_r, <- !app_assoc. done. }
  rewrite Ep. change (rd ([h] ++ _) 0) with (Some h). cbn [mbind option_bind]. unfold h at 1. rewrite head_attr_ok. cbn [negb].
  unfold reply_attr_len. change PAYLOAD_HEAD_SIZE with 1.
  rewrite (slice_mid_n [h] (be 4 (zlen (attrs_wire l)))) by (rewrite ?zlen_be; done). cbn [mbind option_bind].
  pose proof (zlen_nonneg (attrs_wire l)). rewrite load_ntohl, u32_small by (unfold is_u32; lia).
  rewrite (app_assoc [h]). replace (1 + 4) with (zlen ([h] ++ be 4 (zlen (attrs_wire l)))) by (rewrite zlen_app, zlen_be; done).
  rewrite zdrop_app. unfold h. rewrite !head_type_ok by done. change (AI_PT_AUTH_RESP =? AI_PT_AUTH_RESP) with true. cbv iota.
  rewrite parse_auth_ok; [|done|done|done|lia|rewrite !zlen_app, zlen_be; lia|lia].
  rewrite Hcn, Hcid. eexists. split; [done|]. split; [done|]. split; [done|]. split; [|done]. by destruct Hr'.
Qed.
End Correct.

(** * A new session *)

Section Setup.
Context (malloc : Z -> bool) (Hm : forall n, malloc n = true) (rnd : nat -> Z) (hkdf : list Z -> list Z -> Z * list Z).
(** [mbedtls_hkdf] gives the bytes it is asked for. *)
Context (Hh : forall salt ikm, zlen salt = AI_RANDOM_LEN -> exists okm, hkdf salt ikm = (OPRT_OK, okm) /\ zlen okm = AI_KEY_LEN /\ bytes_ok okm).

(** The buffers have their sizes. *)
Record sized (p : AI_BASIC_PROTO_T) : Prop := {
  z_ck : zlen (crypt_key p) = 33; z_sk : zlen (sign_key p) = 33; z_cr : zlen (crypt_random p) = 33; z_sr : zlen (sign_random p) = 33;
  z_ei : zlen (encrypt_iv p) = 17; z_di : zlen (decrypt_iv p) = 17 }.

Lemma random_len n k : 0 <= n -> zlen (uni_random_string rnd n k) = n.
Proof. intros Hn. unfold uni_random_string. rewrite random_string_len. lia. Qed.

(** The key that a random string and the key of the device give. *)
Definition session_key (local_key : list Z) (k : nat) : list Z := (hkdf (uni_random_string rnd AI_RANDOM_LEN k) local_key).2.

Lemma generate_key_ok s random key k : text_ok s -> zlen random = 33 -> zlen key = 33 ->
  exists random' key', ai_generate_key rnd hkdf (cstr s) random key k = Some (OPRT_OK, random', key')
    /\ random' = uni_random_string rnd AI_RANDOM_LEN k ++ drop 32 random /\ key' = session_key s k ++ drop 32 key /\ zlen (session_key s k) = AI_KEY_LEN /\ bytes_ok (session_key s k).
Proof.
  intros Hs Hr Hk. unfold ai_generate_key. pose proof (random_len AI_RANDOM_LEN k ltac:(done)) as Hl.
  unfold session_key. set (r := uni_random_string rnd AI_RANDOM_LEN k) in *. change AI_RANDOM_LEN with 32 in *.
  rewrite blit_front by lia. cbn [mbind option_bind]. rewrite strlen_cstr by done. cbn [mbind option_bind].
  rewrite slice_prefix_n by done. cbn [mbind option_bind]. unfold cstr. rewrite slice_prefix. cbn [mbind option_bind].
  destruct (Hh r s Hl) as (okm & -> & Hz & Hb). cbn [snd]. change AI_KEY_LEN with 32 in *. rewrite blit_front by lia. cbn [mbind option_bind].
  eexists _, _. split; [done|]. rewrite Hl, Hz. by split_and!.
Qed.

(** What is left of a buffer behind the bytes that were replaced. *)
Lemma key_tail (l : list Z) : zlen l = 33 -> exists k, drop 32 l = k /\ zlen k = 1.
Proof. intros Hl. exists (drop 32 l). split; [done|]. change 32%nat with (Z.to_nat 32). rewrite zlen_drop by lia. lia. Qed.

(** Nothing has been sent or received: the counters of the packets, of the files and of the
    texts are those of the start, no message is half sent or half received, there is no
    connection identifier, and the two random strings are [r1] and [r2]. *)
Definition unused (p : AI_BASIC_PROTO_T) (r1 r2 : list Z) : Prop :=
  sequence_out p = 1 /\ sequence_in p = 0 /\ file_seq p = 1 /\ text_seq p = 1 /\ recv_frag_mng p = frag_idle /\ send_frag_mng p = zrepl 5 0
  /\ connection_id p = None /\ take 32 (crypt_random p) = r1 /\ take 32 (sign_random p) = r2 /\ take 16 (decrypt_iv p) = zrepl 16 0.

(** A new session: what the setup leaves. *)
Record fresh (p : AI_BASIC_PROTO_T) (key skey iv r1 r2 : list Z) : Prop := {
  f_sized : sized p; f_keys : keys p key skey; f_iv : vector (encrypt_iv p) iv; f_unused : unused p r1 r2;
  f_idle : connected p = false /\ transporter p = None }.

(** The random strings of a session. *)
Definition random_of (k : nat) : list Z := uni_random_string rnd AI_RANDOM_LEN k.
Lemma zlen_random k buf : zlen buf = 33 -> zlen (random_of k ++ drop 32 buf) = 33.
Proof.
  intros Hb. pose proof (random_len AI_RANDOM_LEN k ltac:(done)) as Hl. fold (random_of k) in Hl. rewrite zlen_app, Hl.
  change 32%nat with (Z.to_nat 32). rewrite zlen_drop by lia. change AI_RANDOM_LEN with 32. lia.
Qed.

Lemma setup_ok size s proto k : text_ok s -> (forall p, proto = Some p -> sized p) ->
  exists p, tuya_ai_basic_setup malloc rnd hkdf size OPRT_OK (cstr s) proto k = Some (OPRT_OK, Some p)
    /\ fresh p (session_key s k) (session_key s (k + 32)) (uni_random_string rnd AI_IV_LEN (k + 64)) (random_of k) (random_of (k + 32))
    /\ frag_flag p = match proto with Some p => frag_flag p | None => false end.
Proof.
  intros Hs Hp. pose proof (random_len AI_IV_LEN (k + 64) ltac:(done)) as Hiv. set (iv := uni_random_string rnd AI_IV_LEN (k + 64)) in *.
  change AI_IV_LEN with 16 in *. unfold tuya_ai_basic_setup, ai_basic_proto_reinit, ai_generate_crypt_key, ai_generate_sign_key. destruct proto as [p|].
  - destruct (Hp p eq_refl) as [Hck Hsk Hcr Hsr Hei Hdi].
    destruct (generate_key_ok s (crypt_random p) (crypt_key p) k Hs Hcr Hck) as (r1 & k1 & -> & -> & -> & Hk1 & Hb1).
    cbn [mbind option_bind sign_random sign_key with_crypt].
    destruct (generate_key_ok s (sign_random p) (sign_key p) (k + 32) Hs Hsr Hsk) as (r2 & k2 & -> & -> & -> & Hk2 & Hb2).
    cbn [mbind option_bind encrypt_iv decrypt_iv with_crypt with_sign]. change AI_IV_LEN with 16. fold iv. change AI_KEY_LEN with 32 in *.
    rewrite (blit_front (encrypt_iv p)) by (rewrite zlen_zrepl; lia). cbn [mbind option_bind].
    rewrite (blit_prefix (zrepl 16 0)) by (rewrite zlen_zrepl; lia). cbn [mbind option_bind].
    rewrite blit_front by (rewrite zlen_zrepl; lia). cbn [mbind option_bind]. eexists. split; [done|]. split; [|done].
    destruct (key_tail _ Hck) as (t1 & -> & Ht1). destruct (key_tail _ Hsk) as (t2 & -> & Ht2). rewrite zlen_zrepl by lia.
    constructor; cbn; try done.
    + constructor; cbn -[drop zlen]; rewrite ?zlen_random by done; try done; rewrite ?zlen_app, ?zlen_drop, ?zlen_zrepl by lia; lia.
    + split_and!; try done; [by eexists|by eexists].
    + split; [by eexists|done].
  - rewrite Hm. cbn [negb].
    destruct (generate_key_ok s (crypt_random proto_zero) (crypt_key proto_zero) k Hs eq_refl eq_refl) as (r1 & k1 & -> & -> & -> & Hk1 & Hb1).
    cbn [mbind option_bind sign_random sign_key with_crypt]. change (negb (OPRT_OK =? OPRT_OK)) with false. cbv iota.
    destruct (generate_key_ok s (sign_random proto_zero) (sign_key proto_zero) (k + 32) Hs eq_refl eq_refl) as (r2 & k2 & -> & -> & -> & Hk2 & Hb2).
    cbn [mbind option_bind encrypt_iv decrypt_iv with_crypt with_sign]. change (negb (OPRT_OK =? OPRT_OK)) with false. cbv iota.
    change AI_IV_LEN with 16. fold iv. change AI_KEY_LEN with 32 in *. rewrite blit_front by (rewrite Hiv; done). cbn [mbind option_bind].
    eexists. split; [done|]. split; [|done]. constructor; cbn; try done.
    + constructor; cbn -[drop zlen]; rewrite ?zlen_random by done; try done; rewrite ?zlen_app, ?Hk1, ?Hk2, ?Hiv; done.
    + split_and!; try done; [by eexists|by eexists].
    + split; [by eexists|done].
Qed.

(** (C7) A client that sets up, for the first time or over an earlier session, and connects to
    one of its hosts has a session with the keys derived from its local key and new random
    strings, in which it can send. Nothing has been sent or received in it, whatever the earlier
    session did: the counters of packets, files and texts are those of the start, no message is
    half sent or half received, the vectors and the connection identifier are new. The one thing
    that stays is [frag_flag], the setting with which the application asks for the fragments
    themselves; if it is off, whole messages are received from the number one on. The key
    derivation is taken to succeed. *)
Theorem ai_connect_ready size s proto k t results :
  text_ok s -> (forall p, proto = Some p -> sized p) -> tx_ok t -> chunks_ok t -> OPRT_OK ∈ results ->
  exists p p', tuya_ai_basic_setup malloc rnd hkdf size OPRT_OK (cstr s) proto k = Some (OPRT_OK, Some p)
    /\ tuya_ai_basic_connect true (Some t) results (Some p) = Some (OPRT_OK, Some p')
    /\ sender p' (session_key s k) (session_key s (k + 32)) (uni_random_string rnd AI_IV_LEN (k + 64)) t
    /\ unused p' (random_of k) (random_of (k + 32)) /\ sized p'
    /\ frag_flag p' = match proto with Some p => frag_flag p | None => false end
    /\ (frag_flag p' = false -> reader p' (session_key s k) (session_key s (k + 32)) 1 (rx_bytes t) /\ ready p').
Proof.
  intros Hs Hp Ht Hc Hok. destruct (setup_ok size s proto k Hs Hp) as (p & E & [Hz Hk Hv Hu _] & Hff).
  assert (forall r, connect_loop results r = (OPRT_OK, true)) as Hl.
  { clear -Hok. induction results as [|x l IH]; intros r; [by apply elem_of_nil in Hok|]. cbn [connect_loop].
    case_bool; [by subst|]. apply IH. apply elem_of_cons in Hok as [?|?]; congruence. }
  exists p, (with_connection (with_transporter p (Some t)) true (connection_id p)). split; [done|].
  split; [unfold tuya_ai_basic_connect; cbn [negb mbind option_bind]; by rewrite Hl|].
  pose proof Hu as (Ho & Hi & _ & _ & Hf & _). destruct Hz as [? ? ? ? ? Hdi]. split; [constructor; try done; cbn; rewrite Ho; lia|].
  split; [exact Hu|]. split; [done|]. split; [done|]. intros Hoff.
  split; [|unfold ready; cbn; by rewrite Hf]. constructor; cbn; [done|rewrite Hdi; done|by exists t|done|rewrite Hi; done].
Qed.
End Setup.

(** * Variable-length numbers *)

(** The reader of such a number: its value and what follows it. *)
Fixpoint var_decode (l : list Z) : option (Z * list Z) :=
  match l with
  | [] => None
  | b :: l => if b <? 128 then Some (b, l) else '(n, l) ← var_decode l; Some (b - 128 + 128 * n, l)
  end.

Lemma var_seq_loop_decode fuel : forall n suf, 0 < n < 2 ^ (7 * Z.of_nat fuel) ->
  var_decode (var_seq_loop fuel n ++ suf) = Some (n, suf).
Proof.
  induction fuel as [|fuel IH]; intros n suf Hn; [change (2 ^ (7 * Z.of_nat 0)) with 1 in Hn; lia|].
  cbn [var_seq_loop]. destruct (Z.leb_spec n 0); [lia|]. rewrite land_127.
  rewrite Z.shiftr_div_pow2 by lia. change (2 ^ 7) with 128. pose proof (Z.div_mod n 128). pose proof (Z.mod_pos_bound n 128).
  destruct (Z.ltb_spec 0 (n / 128)).
  - assert (Z.lor (n mod 128) 128 = n mod 128 + 128) as ->.
    { pose proof (lor_shift 1 (n mod 128) 7). change (Z.shiftl 1 7) with 128 in *. change (1 * 2 ^ 7) with 128 in *.
      rewrite Z.lor_comm. change (2 ^ 7) with 128 in *. lia. }
    cbn [app var_decode]. destruct (Z.ltb_spec (n mod 128 + 128) 128); [lia|]. rewrite IH.
    + cbn [mbind option_bind]. do 2 f_equal. lia.
    + split; [lia|]. apply Z.div_lt_upper_bound; [lia|]. replace (7 * Z.of_nat (S fuel)) with (7 + 7 * Z.of_nat fuel) in Hn by lia.
      rewrite Z.pow_add_r in Hn by lia. change (2 ^ 7) with 128 in Hn. lia.
  - cbn [app var_decode]. destruct (Z.ltb_spec (n mod 128) 128); [|lia]. assert (n / 128 = 0) as E by (pose proof (Z.div_pos n 128); lia).
    rewrite E. assert (var_seq_loop fuel 0 = []) as -> by (by destruct fuel). cbn [app]. do 2 f_equal. lia.
Qed.

Lemma var_seq_loop_len fuel n : (length (var_seq_loop fuel n) <= fuel)%nat.
Proof. revert n. induction fuel as [|fuel IH]; intros n; cbn [var_seq_loop]; [done|]. destruct (n <=? 0); cbn [length]; [lia|]. specialize (IH (Z.shiftr n 7)). lia. Qed.

(** The sequence number of a file or a text is read back from its bytes, whatever follows
    them, and the bytes fit the ten of the callers' buffer. *)
Theorem ai_var_seq_roundtrip p type suf : is_u32 (var_num p type) ->
  var_decode (tuya_ai_basic_get_var_seq p type ++ suf) = Some (var_num p type, suf)
  /\ 1 <= zlen (tuya_ai_basic_get_var_seq p type) <= 5.
Proof.
  unfold is_u32, tuya_ai_basic_get_var_seq. intros Hn. destruct (Z.eqb_spec (var_num p type) 0) as [E|E]; [rewrite E; done|].
  split; [apply var_seq_loop_decode; change (2 ^ (7 * Z.of_nat 5)) with 34359738368; lia|].
  pose proof (var_seq_loop_len 5 (var_num p type)) as Hl. unfold zlen.
  assert (1 <= length (var_seq_loop 5 (var_num p type)))%nat; [|lia].
  cbn [var_seq_loop]. destruct (Z.leb_spec (var_num p type) 0); [lia|]. cbn [length]. lia.
Qed.

Lemma ai_var_seq_roundtrip_witness :
  var_decode (tuya_ai_basic_get_var_seq (with_var_seq proto_zero 300 1) AI_PT_FILE ++ [7]) = Some (300, [7])
  /\ 1 <= zlen (tuya_ai_basic_get_var_seq (with_var_seq proto_zero 300 1) AI_PT_FILE) <= 5.
Proof. apply (ai_var_seq_roundtrip (with_var_seq proto_zero 300 1) AI_PT_FILE [7]). vm_compute. split; congruence. Defined.

(** * Instances *)

Definition auth_attrs : list AI_ATTRIBUTE_T :=
  [ {| a_type := AI_ATTR_CONNECT_STATUS_CODE; payload_type := ATTR_PT_U16; a_length := 2; a_value := v_u16 200 |};
    {| a_type := AI_ATTR_CONNECTION_ID; payload_type := ATTR_PT_STR; a_length := 3; a_value := v_str (Some [97; 98; 99; 0]) |} ].

Lemma auth_attrs_ok : Forall attr_ok auth_attrs /\ Forall id_text auth_attrs.
Proof.
  split; (repeat apply list.Forall_cons_2; [..|by apply list.Forall_nil]); unfold attr_ok, id_text, is_u16; cbn;
    [split_and!; try done; lia|split_and!; try done; try lia; by intros [?|?]|by intros|by left].
Defined.

Lemma ai_auth_resp_correct_witness :
  exists ws p' t', tuya_ai_basic_pkt_send (toy_md 32) (fun _ => true) 32 108 1024 (Some (demo_proto 1 demo_out)) (request AI_PT_AUTH_RESP auth_attrs [] 0 0 None)
      = Some (OPRT_OK, Some p')
    /\ sender p' (zrepl 32 7) (zrepl 32 9) (zrepl 16 3) t' /\ sent_bytes t' = sent_bytes demo_out ++ ws
    /\ exists q', tuya_ai_auth_resp (toy_md 32) (fun _ => true) 32 108 1024 true (length ws + length auth_attrs) (demo_proto 1 (demo_in ws)) = Some (Some (OPRT_OK, q'))
       /\ connection_id q' = Some [97; 98; 99; 0] /\ connected q' = true
       /\ reader q' (zrepl 32 7) (zrepl 32 9) (sequence_out p') [] /\ ready q'.
Proof.
  destruct (ai_auth_resp_correct (toy_md 32) (fun _ => true) 32 108 1024 true (toy_digest 32) eq ltac:(by apply toy_md_laws) ltac:(done) ltac:(lia) ltac:(lia)
              (demo_proto 1 demo_out) (zrepl 32 7) (zrepl 32 9) (zrepl 16 3) demo_out auth_attrs
              demo_sender ltac:(done) (proj1 auth_attrs_ok) (proj2 auth_attrs_ok) ltac:(vm_compute; congruence)) as (ws & p' & t' & E & Hs & Es & H).
  exists ws, p', t'. split; [done|]. split; [done|]. split; [done|].
  apply (H (demo_proto 1 (demo_in ws)) [] (length ws + length auth_attrs)%nat); [rewrite app_nil_r; apply demo_reader|done|done].
Defined.

(** A derivation for the example: the salt, shortened or filled with the key's first byte. *)
Definition toy_hkdf (salt ikm : list Z) : Z * list Z := (OPRT_OK, zrepl 32 (u8 (hd 0 ikm))).

(** An earlier session in the middle of its work. *)
Definition demo_old : AI_BASIC_PROTO_T :=
  {| transporter := Some demo_out; crypt_key := zrepl 32 7 ++ [0]; sign_key := zrepl 32 9 ++ [0]; sequence_in := 41; sequence_out := 900;
     crypt_random := zrepl 33 5; sign_random := zrepl 33 6; sl := AI_PACKET_SL4; connected := true; connection_id := Some (cstr [97]);
     encrypt_iv := zrepl 16 3 ++ [0]; decrypt_iv := zrepl 17 4;
     recv_frag_mng := {| r_frag_flag := AI_PACKET_FRAG_ING; r_offset := 2; r_data := Some [1; 2] |}; send_frag_mng := zrepl 5 8;
     frag_flag := false; file_seq := 12; text_seq := 13 |}.

Lemma ai_connect_ready_witness :
  exists p p', tuya_ai_basic_setup (fun _ => true) Z.of_nat toy_hkdf 25000 OPRT_OK (cstr [65; 66]) (Some demo_old) 0 = Some (OPRT_OK, Some p)
    /\ tuya_ai_basic_connect true (Some demo_out) [OPRT_COM_ERROR; OPRT_OK] (Some p) = Some (OPRT_OK, Some p')
    /\ sender p' (zrepl 32 65) (zrepl 32 65) (uni_random_string Z.of_nat AI_IV_LEN 64) demo_out
    /\ unused p' (random_of Z.of_nat 0) (random_of Z.of_nat 32) /\ sized p' /\ frag_flag p' = false
    /\ (frag_flag p' = false -> reader p' (zrepl 32 65) (zrepl 32 65) 1 [] /\ ready p').
Proof.
  apply (ai_connect_ready (fun _ => true) ltac:(done) Z.of_nat toy_hkdf) with (proto := Some demo_old) (k := 0%nat).
  - intros salt ikm Hs. exists (zrepl 32 (u8 (hd 0 ikm))). split_and!; [done|done|]. apply list.Forall_replicate, u8_range.
  - by repeat constructor.
  - intros p Hp. injection Hp as <-. by constructor.
  - by repeat constructor.
  - by constructor.
  - apply list_elem_of_further, list_elem_of_here.
Defined.

(** * Faults *)

(** Setting up again does not look at the derivation: when it fails the new session goes on
    with the keys of the old one. *)
Lemma ai_reinit_keeps_keys malloc rnd hkdf size s p k : (forall salt ikm, hkdf salt ikm = (OPRT_COM_ERROR, [])) ->
  text_ok s -> sized p ->
  exists p', tuya_ai_basic_setup malloc rnd hkdf size OPRT_OK (cstr s) (Some p) k = Some (OPRT_OK, Some p')
    /\ crypt_key p' = crypt_key p /\ sign_key p' = sign_key p.
Proof.
  intros Hh Hs [Hck Hsk Hcr Hsr Hei Hdi]. pose proof (random_len rnd AI_IV_LEN (k + 64) ltac:(done)) as Hiv.
  pose proof (random_len rnd AI_RANDOM_LEN k ltac:(done)) as H1. pose proof (random_len rnd AI_RANDOM_LEN (k + 32) ltac:(done)) as H2.
  change AI_RANDOM_LEN with 32 in *. change AI_IV_LEN with 16 in *.
  assert (forall random key k, zlen random = 33 -> zlen (uni_random_string rnd 32 k) = 32 ->
            exists r, ai_generate_key rnd hkdf (cstr s) random key k = Some (OPRT_COM_ERROR, r, key)) as Hg.
  { intros random key k' Hr Hl. unfold ai_generate_key. change AI_RANDOM_LEN with 32. rewrite blit_front by lia. cbn [mbind option_bind].
    rewrite strlen_cstr by done. cbn [mbind option_bind]. rewrite slice_prefix_n by done. cbn [mbind option_bind]. unfold cstr.
    rewrite slice_prefix. cbn [mbind option_bind]. rewrite Hh. rewrite blit_front by (change (zlen []) with 0; apply zlen_nonneg).
    cbn [mbind option_bind]. change (Z.to_nat (zlen [])) with 0%nat. rewrite drop_0. by eexists. }
  unfold tuya_ai_basic_setup, ai_basic_proto_reinit, ai_generate_crypt_key, ai_generate_sign_key.
  destruct (Hg (crypt_random p) (crypt_key p) k Hcr H1) as (r1 & ->). cbn [mbind option_bind sign_random sign_key with_crypt].
  destruct (Hg (sign_random p) (sign_key p) (k + 32)%nat Hsr H2) as (r2 & ->). cbn [mbind option_bind encrypt_iv decrypt_iv with_crypt with_sign].
  change AI_IV_LEN with 16. rewrite (blit_front (encrypt_iv p)) by (rewrite zlen_zrepl; lia). cbn [mbind option_bind].
  rewrite (blit_prefix (zrepl 16 0)) by (rewrite zlen_zrepl; lia). cbn [mbind option_bind].
  rewrite blit_front by (rewrite zlen_zrepl; lia). cbn [mbind option_bind]. by eexists.
Qed.

(** Closing without a protocol writes through the null pointer. *)
Lemma ai_conn_close_null sha256 malloc szw ctx_size max_fragment `{!MbedtlsCipher} code : (forall n, malloc n = true) ->
  tuya_ai_basic_conn_close sha256 malloc szw ctx_size max_fragment code None = None.
Proof.
  intros Hm. unfold tuya_ai_basic_conn_close, create_conn_close_attrs, created, tuya_ai_create_attribute. by rewrite Hm.
Qed.

(** A connection without hosts is a success, and the session is not connected. *)
Lemma ai_connect_no_hosts t p : connected p = false ->
  exists p', tuya_ai_basic_connect true (Some t) [] (Some p) = Some (OPRT_OK, Some p') /\ connected p' = false.
Proof. intros Hc. by eexists. Qed.

(** An identifier that comes as a number is taken for an address. *)
Example ai_numeric_id :
  ai_parse_auth_resp (fun _ => true) 3
    (attrs_wire [{| a_type := AI_ATTR_CONNECTION_ID; payload_type := ATTR_PT_U32; a_length := 4; a_value := v_u32 77 |}]) 11 proto_zero = None.
Proof. reflexivity. Qed.
