(* ===== verification/Threads.v ===== *)
(** Programs of threads that share a state: sequences of actions with the points at which
    another thread may run, their execution alone, and the rules to reason about them among
    others (rely and guarantee). *)
From Stdlib Require Import ZArith.
From stdpp Require Import base tactics option relations.
From S2P Require Import Prelude StateM.

(** An action is a program of [StateM] that nothing interrupts. *)
Inductive prog (S A : Type) : Type :=
| Ret (a : A)
| Act (B : Type) (m : ST S B) (k : B -> prog S A)
| Pause (k : prog S A).
Arguments Ret {S A} a.
Arguments Act {S A B} m k.
Arguments Pause {S A} k.

#[export] Instance prog_ret {S} : MRet (prog S) := fun A a => Ret a.
#[export] Instance prog_bind {S} : MBind (prog S) := fun A B f =>
  fix bind p := match p with Ret a => f a | Act m k => Act m (fun b => bind (k b)) | Pause k => Pause (bind k) end.

(** An action, and one during which others run before it is done and before its result is used. *)
Definition act {S A} (m : ST S A) : prog S A := Act m Ret.
Definition blocking {S A} (m : ST S A) : prog S A := Pause (Act m (fun a => Pause (Ret a))).

(** A program by itself. *)
Fixpoint run {S A} (p : prog S A) : ST S A := fun s =>
  match p with Ret a => Some (a, s) | Act m k => r ← m s; run (k r.1) r.2 | Pause k => run k s end.

(** The turn of a thread: up to its next pause. *)
Fixpoint turn {S A} (p : prog S A) (s : S) : option (prog S A * S) :=
  match p with Ret a => Some (Ret a, s) | Act m k => r ← m s; turn (k r.1) r.2 | Pause k => Some (k, s) end.

Lemma run_bind {S A B} (p : prog S A) (f : A -> prog S B) s : run (p ≫= f) s = (r ← run p s; run (f r.1) r.2).
Proof.
  revert s. induction p as [a|C m k IH|k IH]; intros s; cbn [run]; [done| |apply IH].
  change (run (Act m k ≫= f) s) with (r ← m s; run (k r.1 ≫= f) r.2). destruct (m s) as [[b s']|]; [apply IH|done].
Qed.
Lemma run_bind_some {S A B} (p : prog S A) (f : A -> prog S B) s a s1 : run p s = Some (a, s1) -> run (p ≫= f) s = run (f a) s1.
Proof. intros H. by rewrite run_bind, H. Qed.

(** * Reasoning among others

    [R]: what the others do between two turns; [I] holds where a turn ends; [G]: what a turn
    does. *)
Section Among.
Context {S : Type} (R G : S -> S -> Prop) (I : S -> Prop).

(** From [s], in a turn that began at [s0], the program keeps to [G] and [I] at its pauses and
    ends, if it does, where [Q] holds of its result, the start of its last turn and the end. *)
Fixpoint safe {A} (p : prog S A) (Q : A -> S -> S -> Prop) (s0 s : S) : Prop :=
  match p with
  | Ret a => Q a s0 s
  | Act m k => forall b s', m s = Some (b, s') -> safe (k b) Q s0 s'
  | Pause k => (G s0 s /\ I s) /\ forall s', R s s' -> I s' -> safe k Q s' s'
  end.

Lemma safe_bind {A B} (p : prog S A) (f : A -> prog S B) Q s0 s :
  safe p (fun a => safe (f a) Q) s0 s -> safe (p ≫= f) Q s0 s.
Proof.
  revert s0 s. induction p as [a|C m k IH|k IH]; intros s0 s; [done| |].
  - intros H b s' E. apply IH. by apply H.
  - intros [Hp H]. split; [done|]. intros s' HR HI. apply IH. by apply H.
Qed.

Lemma safe_mono {A} (p : prog S A) (Q Q' : A -> S -> S -> Prop) s0 s :
  safe p Q s0 s -> (forall a s0 s, Q a s0 s -> Q' a s0 s) -> safe p Q' s0 s.
Proof.
  intros H HQ. revert s0 s H. induction p as [a|C m k IH|k IH]; intros s0 s; [apply HQ| |].
  - intros H b s' E. apply IH. by apply H.
  - intros [Hp H]. split; [done|]. intros s' HR HI. apply IH. by apply H.
Qed.

(** A thread between two turns. *)
Definition parked {A} (p : prog S A) (Q : A -> S -> S -> Prop) (s : S) : Prop :=
  forall s', R s s' -> I s' -> safe p Q s' s'.

Lemma parked_step {A} (p : prog S A) Q s s' : Transitive R -> parked p Q s -> R s s' -> parked p Q s'.
Proof. intros HT H HR s2 HR2. apply H. by eapply HT. Qed.

(** The turn of such a thread. *)
Lemma turn_safe {A} (p p' : prog S A) Q s0 s s' : safe p Q s0 s -> turn p s = Some (p', s') ->
  (exists a, p' = Ret a /\ Q a s0 s') \/ ((G s0 s' /\ I s') /\ parked p' Q s').
Proof.
  revert s0 s. induction p as [a|C m k IH|k IH]; intros s0 s.
  - intros H E. injection E as <- <-. left. by exists a.
  - intros H E. cbn [turn] in E. destruct (m s) as [[b s1]|] eqn:Em; [|done]. cbn [mbind option_bind fst snd] in E.
    eapply IH; [|exact E]. by apply H.
  - intros H E. injection E as <- <-. by right.
Qed.

(** The usual end of a program: [G], [I] and what is wanted. *)
Definition ends {A} (Q : A -> S -> Prop) : A -> S -> S -> Prop := fun a s0 s => (G s0 s /\ I s) /\ Q a s.

Lemma turn_ends {A} (p p' : prog S A) (Q : A -> S -> Prop) s s' : parked p (ends Q) s -> R s s -> I s ->
  (forall a s s', Q a s -> R s s' -> Q a s') -> (forall s, G s s) ->
  turn p s = Some (p', s') -> (G s s' /\ I s') /\ parked p' (ends Q) s'.
Proof.
  intros H HR HI Hst HG E. destruct (turn_safe p p' (ends Q) s s s' (H s HR HI) E) as [(a & -> & Hp & HQ)|[Hp Hw]]; [|done].
  split; [done|]. intros s2 HR2 HI2. split; [by split|]. by eapply Hst.
Qed.
End Among.
