(* ===== verification/AiClient.v ===== *)
(** The client of the AI channel:
    [src/tuya_ai_service/svc_ai_basic/src/tuya_ai_client.c], the thread that walks from idle
    to running, its reconnection, the heartbeat and the timers around it. The handlers are
    programs of [Threads]: another thread may run wherever one of them is inside an operation
    of the protocol, asks for a server or sleeps. *)
From Stdlib Require Import ZArith Lia String.
From stdpp Require Import base tactics option list numbers relations.
From S2P Require Import Prelude Text StateM Endian Cipher Hash Tools AiAttr AiPacket Protocol AiSession Threads.

Local Open Scope Z_scope.

Definition AI_RECONN_TIME_NUM : Z := 7.
Definition AT_PING_TIMEOUT : Z := 6.
Definition AI_HEARTBEAT_INTERVAL : Z := 120.
Definition AI_IDLE_CHECK_TIME : Z := 30 * 60 * 1000.
Definition OPRT_SVC_MQTT_GW_MQ_OFFLILNE : Z := -5890.
Definition AI_CODE_CLOSE_BY_CLIENT : Z := 601.
Definition AI_PT_PONG : Z := 5.
Definition AI_PT_CONN_REFRESH_RESP : Z := 10.
Definition AI_PT_DELAY_DISCONNECT : Z := 12.
Definition EVENT_AI_CLIENT_RUN : list Z := str "ai.client.run".
Definition EVENT_AI_CLIENT_CLOSE : list Z := str "ai.client.close".

Inductive AI_CLIENT_STATE_E :=
| AI_STATE_IDLE | AI_STATE_SETUP | AI_STATE_CONNECT | AI_STATE_CLIENT_HELLO | AI_STATE_AUTH_REQ | AI_STATE_AUTH_RESP | AI_STATE_RUNNING | AI_STATE_END.

#[export] Instance state_dec : EqDecision AI_CLIENT_STATE_E.
Proof. solve_decision. Defined.

(** [min] and [max] in seconds. *)
Definition reconn : list (Z * Z) := [(5, 10); (10, 20); (20, 40); (40, 80); (80, 160); (160, 320); (320, 640)].

(** The handles of the thread, the timers and the work are not represented; [cb] says that
    a callback is registered. *)
Record AI_BASIC_CLIENT_T := {
  reconn_cnt : Z; state : AI_CLIENT_STATE_E; heartbeat_interval : Z; heartbeat_lost_cnt : Z; cb : bool; terminate : bool;
  start_time : Z; idle_check_enable : bool; recv_biz_pkt : bool }.

(** What the client asks of the rest of the system, in order. *)
Inductive timer := tid | alive_timeout_timer | idle_check_timer.
Inductive effect :=
| e_sleep (ms : Z)
| e_timer_start (t : timer) (ms : Z)
| e_timer_stop (t : timer)
| e_work_start (ms : Z)
| e_work_stop
| e_publish (name : list Z)
| e_callback (data : list Z) (len frag : Z).

(** What it learns from there during one step: the network status, the clock and whether it
    is synchronised, the result of asking for a server and its lease, a random word. *)
Record inputs := { in_mqtt : bool; in_posix : Z; in_time_sync : bool; in_cfg_req : Z; in_cfg_expire : Z; in_random : Z }.

(** The operations of the protocol and the request for a server. *)
Inductive ai_op :=
| op_setup | op_cfg | op_connect | op_hello | op_auth_req | op_auth_resp | op_read | op_refresh | op_ping | op_close.

(** The protocol below: [None] is a fault of it, or that it does not end. Bytes arrive for it
    between its operations. *)
Class AiBasic (P : Type) := {
  basic_setup : P -> option (Z * P);
  basic_connect : P -> option (Z * P);
  basic_client_hello : P -> option (Z * P);
  basic_auth_req : P -> option (Z * P);
  basic_auth_resp : P -> option (Z * P);
  basic_refresh_req : P -> option (Z * P);
  basic_ping : P -> option (Z * P);
  basic_conn_close : Z -> P -> option (Z * P);
  basic_pkt_read : P -> option (Z * P * option (list Z * Z * Z));
  basic_pkt_free : list Z -> P -> option P;
  basic_arrive : list Z -> P -> P
}.

(** What [tuya_ai_client_init] sets up. *)
Definition client_init : AI_BASIC_CLIENT_T :=
  {| reconn_cnt := 0; state := AI_STATE_IDLE; heartbeat_interval := AI_HEARTBEAT_INTERVAL; heartbeat_lost_cnt := 0; cb := false; terminate := false;
     start_time := 0; idle_check_enable := false; recv_biz_pkt := false |}.

Section Client.
Context {P : Type} `{!AiBasic P} (malloc : Z -> bool).

(** [expire] is the lease in the server configuration. [ops] are the operations that have
    ended, each with its code. *)
Record world := { cli : AI_BASIC_CLIENT_T; proto : P; expire : Z; log : list effect; ops : list (ai_op * Z) }.
Definition with_cli (w : world) (c : AI_BASIC_CLIENT_T) : world :=
  {| cli := c; proto := proto w; expire := expire w; log := log w; ops := ops w |}.
Definition with_proto (w : world) (p : P) : world :=
  {| cli := cli w; proto := p; expire := expire w; log := log w; ops := ops w |}.
Definition with_expire (w : world) (x : Z) : world :=
  {| cli := cli w; proto := proto w; expire := x; log := log w; ops := ops w |}.
Definition with_log (w : world) (es : list effect) : world :=
  {| cli := cli w; proto := proto w; expire := expire w; log := log w ++ es; ops := ops w |}.
Definition with_op (w : world) (o : ai_op) (rt : Z) : world :=
  {| cli := cli w; proto := proto w; expire := expire w; log := log w; ops := ops w ++ [(o, rt)] |}.

(** * The programs of the handlers *)
Abbreviation M := (prog world).

Definition get : M AI_BASIC_CLIENT_T := act (fun w => Some (cli w, w)).
Definition put (c : AI_BASIC_CLIENT_T) : M unit := act (fun w => Some (tt, with_cli w c)).
Definition emit (e : effect) : M unit := act (fun w => Some (tt, with_log w [e])).
Definition set_expire (x : Z) : M unit := act (fun w => Some (tt, with_expire w x)).
Definition get_expire : M Z := act (fun w => Some (expire w, w)).
Definition fault {A} : M A := act (fun _ => None).
(** An operation of the protocol, and what the thread does meanwhile: it waits. *)
Definition basic (o : ai_op) (op : P -> option (Z * P)) : M Z :=
  blocking (fun w => r ← op (proto w); Some (r.1, with_op (with_proto w r.2) o r.1)).
Definition read : M (Z * option (list Z * Z * Z)) :=
  blocking (fun w => '(rt, p, out) ← basic_pkt_read (proto w); Some ((rt, out), with_op (with_proto w p) op_read rt)).
Definition free (data : list Z) : M unit :=
  act (fun w => p ← basic_pkt_free data (proto w); Some (tt, with_proto w p)).
(** [tuya_ai_mq_ser_cfg_req]: a request over MQTT. *)
Definition request_cfg (rt : Z) : M Z := blocking (fun w => Some (rt, with_op w op_cfg rt)).
(** [tal_system_sleep] *)
Definition sleep (ms : Z) : M unit := _ ← emit (e_sleep ms); Pause (mret tt).

Definition with_state (c : AI_BASIC_CLIENT_T) (s : AI_CLIENT_STATE_E) : AI_BASIC_CLIENT_T :=
  {| reconn_cnt := reconn_cnt c; state := s; heartbeat_interval := heartbeat_interval c; heartbeat_lost_cnt := heartbeat_lost_cnt c; cb := cb c;
     terminate := terminate c; start_time := start_time c; idle_check_enable := idle_check_enable c; recv_biz_pkt := recv_biz_pkt c |}.
Definition with_reconn (c : AI_BASIC_CLIENT_T) (n : Z) : AI_BASIC_CLIENT_T :=
  {| reconn_cnt := n; state := state c; heartbeat_interval := heartbeat_interval c; heartbeat_lost_cnt := heartbeat_lost_cnt c; cb := cb c;
     terminate := terminate c; start_time := start_time c; idle_check_enable := idle_check_enable c; recv_biz_pkt := recv_biz_pkt c |}.
Definition with_lost (c : AI_BASIC_CLIENT_T) (n : Z) : AI_BASIC_CLIENT_T :=
  {| reconn_cnt := reconn_cnt c; state := state c; heartbeat_interval := heartbeat_interval c; heartbeat_lost_cnt := n; cb := cb c;
     terminate := terminate c; start_time := start_time c; idle_check_enable := idle_check_enable c; recv_biz_pkt := recv_biz_pkt c |}.
Definition with_idle (c : AI_BASIC_CLIENT_T) (start : Z) (enable biz : bool) : AI_BASIC_CLIENT_T :=
  {| reconn_cnt := reconn_cnt c; state := state c; heartbeat_interval := heartbeat_interval c; heartbeat_lost_cnt := heartbeat_lost_cnt c; cb := cb c;
     terminate := terminate c; start_time := start; idle_check_enable := enable; recv_biz_pkt := biz |}.
Definition with_cb (c : AI_BASIC_CLIENT_T) (b t : bool) : AI_BASIC_CLIENT_T :=
  {| reconn_cnt := reconn_cnt c; state := state c; heartbeat_interval := heartbeat_interval c; heartbeat_lost_cnt := heartbeat_lost_cnt c; cb := b;
     terminate := t; start_time := start_time c; idle_check_enable := idle_check_enable c; recv_biz_pkt := recv_biz_pkt c |}.

(** * The handlers *)

Definition ai_get_random_value (i : inputs) (min max : Z) : Z := u32 (min + in_random i mod u32 (max - min + 1)).

Definition ai_client_set_state (s : AI_CLIENT_STATE_E) : M unit := c ← get; put (with_state c s).

Definition ai_stop_alive_time : M unit :=
  c ← get; _ ← put (with_lost c 0); emit (e_timer_stop alive_timeout_timer).

Definition tuya_ai_client_stop_ping : M unit := _ ← emit e_work_stop; ai_stop_alive_time.

Definition tuya_ai_client_start_ping : M unit := c ← get; emit (e_work_start (u32 (heartbeat_interval c * 1000))).

Definition ai_connect : M Z :=
  rt ← basic op_connect basic_connect;
  if negb (rt =? OPRT_OK) then mret rt
  else c ← get; _ ← put (with_reconn c 0); _ ← ai_client_set_state AI_STATE_CLIENT_HELLO; mret rt.

Definition ai_client_hello : M Z :=
  rt ← basic op_hello basic_client_hello;
  if negb (rt =? OPRT_OK) then mret rt else _ ← ai_client_set_state AI_STATE_AUTH_REQ; mret rt.

Definition ai_auth_req : M Z :=
  rt ← basic op_auth_req basic_auth_req;
  if negb (rt =? OPRT_OK) then mret rt else _ ← ai_client_set_state AI_STATE_AUTH_RESP; mret rt.

Definition ai_auth_resp (i : inputs) : M Z :=
  rt ← basic op_auth_resp basic_auth_resp;
  if negb (rt =? OPRT_OK) then mret rt
  else
    c ← get; _ ← put (with_lost c 0);
    _ ← tuya_ai_client_start_ping;
    c ← get; _ ← put (with_idle c (in_posix i) false false);
    _ ← emit (e_timer_start idle_check_timer AI_IDLE_CHECK_TIME);
    _ ← ai_client_set_state AI_STATE_RUNNING;
    _ ← emit (e_publish EVENT_AI_CLIENT_RUN);
    mret rt.

(** The callback of the lease timer. *)
Definition ai_conn_refresh : M unit := _ ← basic op_refresh basic_refresh_req; mret tt.

Definition ai_conn_close : M Z :=
  _ ← emit (e_publish EVENT_AI_CLIENT_CLOSE);
  _ ← tuya_ai_client_stop_ping;
  _ ← basic op_close (basic_conn_close AI_CODE_CLOSE_BY_CLIENT);
  _ ← ai_client_set_state AI_STATE_IDLE;
  mret OPRT_OK.

Definition ai_client_handle_err (i : inputs) : M unit :=
  c ← get;
  match state c with
  | AI_STATE_SETUP =>
      match reconn !! Z.to_nat (reconn_cnt c) with
      | None => fault
      | Some (min, max) =>
          _ ← sleep (u32 (ai_get_random_value i min max * 1000));
          let size := AI_RECONN_TIME_NUM - 1 in
          c ← get;
          put (with_reconn c (if size <=? reconn_cnt c then size else reconn_cnt c + 1))
      end
  | AI_STATE_CONNECT | AI_STATE_AUTH_RESP => _ ← sleep 1000; ai_client_set_state AI_STATE_SETUP
  | AI_STATE_RUNNING => _ ← ai_conn_close; mret tt
  | _ => sleep 1000
  end.

(** The lease is in seconds; the timer takes 32-bit milliseconds. *)
Definition ai_start_expire_tid (i : inputs) : M unit :=
  x ← get_expire;
  let current := in_posix i in
  if x <=? current then mret tt
  else _ ← emit (e_timer_stop tid); emit (e_timer_start tid (u32 (u64 (u64 (x - current - 10) * 1000)))).

(** The attributes of a packet of the server: the bytes behind the head and their length;
    [None] for a packet without attributes. *)
Definition reply_attrs {A} (data : list Z) (f : list Z -> Z -> M A) (d : A) : M A :=
  match rd data 0 with
  | None => fault
  | Some h =>
      if negb (head_attr h) then mret d
      else match reply_attr_len data with
           | None => fault
           | Some n => f (drop (Z.to_nat (PAYLOAD_HEAD_SIZE + 4)) data) n
           end
  end.

Definition ai_handle_refresh_resp (i : inputs) (data : list Z) : M unit :=
  reply_attrs data (fun buf n =>
    match tuya_ai_refresh_resp malloc (List.length buf) buf n with
    | Some (Some (rt, x)) =>
        _ ← match x with Some x => set_expire x | None => mret tt end;
        if negb (rt =? OPRT_OK) then mret tt else ai_start_expire_tid i
    | _ => fault
    end) tt.

Definition ai_handle_conn_close (data : list Z) : M unit :=
  reply_attrs data (fun buf n =>
    match tuya_ai_parse_conn_close malloc (List.length buf) buf n with
    | Some (Some _) => _ ← emit (e_publish EVENT_AI_CLIENT_CLOSE); ai_client_set_state AI_STATE_IDLE
    | _ => fault
    end) tt.

Definition ai_handle_pong (data : list Z) : M unit :=
  match tuya_ai_pong (List.length data) data with Some (Some _) => tuya_ai_client_start_ping | _ => fault end.

Definition ai_delay_dis_req : M unit :=
  c ← get;
  if idle_check_enable c then mret tt
  else _ ← put (with_idle c (start_time c) true false); emit (e_timer_start idle_check_timer AI_IDLE_CHECK_TIME).

(** The callback of the idle timer: its body belongs to version 2. *)
Definition ai_idle_check : M unit := mret tt.

Definition to_callback (data : list Z) (len frag : Z) : M unit :=
  c ← get; _ ← put (with_idle c (start_time c) (idle_check_enable c) true);
  if cb c then emit (e_callback data len frag) else mret tt.

(** [cnt] is a local variable, so that it is 0 where it is compared. *)
Definition ai_running (i : inputs) : M Z :=
  '(rt, out) ← read;
  if rt =? OPRT_RESOURCE_NOT_READY then mret OPRT_OK
  else
    match (if rt =? OPRT_OK then out else None) with
    | None =>
        if (rt =? -1) && in_mqtt i then _ ← sleep 1000; mret OPRT_OK else mret rt
    | Some (de_buf, de_len, frag) =>
        _ ← ai_stop_alive_time;
        _ ← (if (frag =? AI_PACKET_NO_FRAG) || (frag =? AI_PACKET_FRAG_START) then
               match tuya_ai_basic_get_pkt_type de_buf with
               | None => fault
               | Some pkt_type =>
                   if pkt_type =? AI_PT_PONG then ai_handle_pong de_buf
                   else if pkt_type =? AI_PT_CONN_REFRESH_RESP then ai_handle_refresh_resp i de_buf
                   else if pkt_type =? AI_PT_CONN_CLOSE then ai_handle_conn_close de_buf
                   else if pkt_type =? AI_PT_DELAY_DISCONNECT then ai_delay_dis_req
                   else to_callback de_buf de_len frag
               end
             else to_callback de_buf de_len frag);
        _ ← free de_buf;
        mret rt
    end.

Definition ai_idle (i : inputs) : M Z :=
  if negb (in_mqtt i) || negb (in_time_sync i) then mret OPRT_COM_ERROR
  else _ ← ai_client_set_state AI_STATE_SETUP; mret OPRT_OK.

Definition ai_setup (i : inputs) : M Z :=
  rt ← basic op_setup basic_setup;
  if negb (rt =? OPRT_OK) then mret rt
  else
    rt ← request_cfg (in_cfg_req i);
    if negb (rt =? OPRT_OK) then
      _ ← (if rt =? OPRT_SVC_MQTT_GW_MQ_OFFLILNE then ai_client_set_state AI_STATE_IDLE else mret tt); mret rt
    else
      _ ← set_expire (in_cfg_expire i);
      _ ← ai_start_expire_tid i;
      _ ← emit e_work_stop;
      _ ← ai_client_set_state AI_STATE_CONNECT;
      mret OPRT_OK.

(** One round of the thread; [rt] keeps its value in the default case. *)
Definition ai_client_round (i : inputs) (rt : Z) : M Z :=
  c ← get;
  rt ← match state c with
       | AI_STATE_IDLE => ai_idle i
       | AI_STATE_SETUP => ai_setup i
       | AI_STATE_CONNECT => ai_connect
       | AI_STATE_CLIENT_HELLO => ai_client_hello
       | AI_STATE_AUTH_REQ => ai_auth_req
       | AI_STATE_AUTH_RESP => ai_auth_resp i
       | AI_STATE_RUNNING => ai_running i
       | AI_STATE_END => mret rt
       end;
  _ ← (if negb (rt =? OPRT_OK) then ai_client_handle_err i else mret tt);
  mret rt.

(** The heartbeat: the delayed work, and the timer that waits for the answer. *)
Definition ai_ping : M unit :=
  _ ← emit (e_timer_start alive_timeout_timer (AT_PING_TIMEOUT * 1000)); _ ← basic op_ping basic_ping; mret tt.

Definition ai_alive_timeout : M unit :=
  c ← get;
  _ ← put (with_lost c (u8 (heartbeat_lost_cnt c + 1)));
  c ← get;
  if 3 <=? heartbeat_lost_cnt c then _ ← ai_conn_close; mret tt else emit (e_work_start 10).

(** The other functions other modules call. *)
Definition tuya_ai_client_deinit : M unit :=
  _ ← emit (e_publish EVENT_AI_CLIENT_CLOSE); c ← get; put (with_cb c (cb c) true).
Definition tuya_ai_client_reg_cb : M unit := c ← get; put (with_cb c true (terminate c)).
Definition tuya_ai_client_is_ready (c : AI_BASIC_CLIENT_T) : bool := negb (terminate c) && bool_decide (state c = AI_STATE_RUNNING).

(** * The client among the others

    The thread of the client, the thread of the timers, the one of the delayed work, and the
    callers; bytes arrive between their turns. A program that is [Ret] is at its end: the
    thread goes on to its next round, timer or work. A timer may run out at any time. *)
Record system := { shared : world; t_client : prog world Z; t_timer : prog world unit; t_work : prog world unit }.

Definition timer_callbacks : list (prog world unit) := [ai_conn_refresh; ai_alive_timeout; ai_idle_check].

Inductive client_step : system -> system -> Prop :=
| step_round i rt w t k : terminate (cli w) = false ->
    client_step {| shared := w; t_client := Ret rt; t_timer := t; t_work := k |}
                {| shared := w; t_client := ai_client_round i rt; t_timer := t; t_work := k |}
| step_timer h w c k : h ∈ timer_callbacks ->
    client_step {| shared := w; t_client := c; t_timer := Ret tt; t_work := k |}
                {| shared := w; t_client := c; t_timer := h; t_work := k |}
| step_work w c t :
    client_step {| shared := w; t_client := c; t_timer := t; t_work := Ret tt |}
                {| shared := w; t_client := c; t_timer := t; t_work := ai_ping |}
| turn_client w w' c c' t k : turn c w = Some (c', w') ->
    client_step {| shared := w; t_client := c; t_timer := t; t_work := k |}
                {| shared := w'; t_client := c'; t_timer := t; t_work := k |}
| turn_timer w w' c t t' k : turn t w = Some (t', w') ->
    client_step {| shared := w; t_client := c; t_timer := t; t_work := k |}
                {| shared := w'; t_client := c; t_timer := t'; t_work := k |}
| turn_work w w' c t k k' : turn k w = Some (k', w') ->
    client_step {| shared := w; t_client := c; t_timer := t; t_work := k |}
                {| shared := w'; t_client := c; t_timer := t; t_work := k' |}
| step_caller h w w' c t k : h ∈ [tuya_ai_client_reg_cb; tuya_ai_client_deinit] -> run h w = Some (tt, w') ->
    client_step {| shared := w; t_client := c; t_timer := t; t_work := k |}
                {| shared := w'; t_client := c; t_timer := t; t_work := k |}
| step_arrive b w c t k :
    client_step {| shared := w; t_client := c; t_timer := t; t_work := k |}
                {| shared := with_proto w (basic_arrive b (proto w)); t_client := c; t_timer := t; t_work := k |}.

(** After [tuya_ai_client_init]. *)
Definition start_world (p : P) : world := {| cli := client_init; proto := p; expire := 0; log := []; ops := [] |}.
Definition start (p : P) : system := {| shared := start_world p; t_client := Ret OPRT_OK; t_timer := Ret tt; t_work := Ret tt |}.

(** * Reasoning about the handlers *)

Lemma get_bind {B} (f : AI_BASIC_CLIENT_T -> M B) : (get ≫= f) = Act (fun w => Some (cli w, w)) f.
Proof. done. Qed.

Section Keeps.
(** [J s0 w]: what holds at [w] in a turn that began at [s0]. *)
Context {R G : world -> world -> Prop} {I : world -> Prop} (J : world -> world -> Prop).
Context (Hend : forall s0 w, J s0 w -> G s0 w /\ I w) (Hpause : forall s0 w w', J s0 w -> R w w' -> I w' -> J w' w').

(** Started where [Pre] holds, the program keeps [J]. *)
Definition from (Pre : world -> world -> Prop) {A} (m : M A) : Prop :=
  forall s0 w, Pre s0 w -> safe R G I m (fun _ => J) s0 w.
Definition keeps {A} (m : M A) : Prop := from J m.

Lemma from_weaken (Pre : world -> world -> Prop) {A} (m : M A) : (forall s0 w, Pre s0 w -> J s0 w) -> keeps m -> from Pre m.
Proof. intros HP Hm s0 w Hw. by apply Hm, HP. Qed.
Lemma from_bind (Pre : world -> world -> Prop) {A B} (m : M A) (f : A -> M B) :
  (forall s0 w, Pre s0 w -> J s0 w) -> keeps m -> (forall a, keeps (f a)) -> from Pre (m ≫= f).
Proof. intros HP Hm Hf s0 w Hw. apply safe_bind. eapply safe_mono; [by apply Hm, HP|]. intros a s1 w1 H1. by apply Hf. Qed.
Lemma keeps_ret {A} (a : A) : keeps (mret a).
Proof. by intros s0 w Hw. Qed.
Lemma keeps_fault {A} : keeps (@fault A).
Proof. by intros s0 w Hw. Qed.
(** Reading the client and writing a changed one, which nothing interrupts. *)
Lemma from_get (Pre : world -> world -> Prop) {B} (f : AI_BASIC_CLIENT_T -> M B) :
  (forall c, from (fun s0 w => Pre s0 w /\ cli w = c) (f c)) -> from Pre (get ≫= f).
Proof. intros Hf s0 w Hw. rewrite get_bind. intros c w' E. injection E as <- <-. by apply Hf. Qed.
Lemma from_put_bind (Pre : world -> world -> Prop) {B} c (f : unit -> M B) :
  (forall s0 w, Pre s0 w -> J s0 (with_cli w c)) -> keeps (f tt) -> from Pre (put c ≫= f).
Proof. intros HP Hf s0 w Hw [] w' E. injection E as <-. by apply Hf, HP. Qed.
Lemma from_put (Pre : world -> world -> Prop) c : (forall s0 w, Pre s0 w -> J s0 (with_cli w c)) -> from Pre (put c).
Proof. intros HP s0 w Hw [] w' E. injection E as <-. by apply HP. Qed.
Lemma keeps_emit e : (forall s0 w, J s0 w -> J s0 (with_log w [e])) -> keeps (emit e).
Proof. intros He s0 w Hw [] w' E. injection E as <-. by apply He. Qed.
Lemma keeps_set_expire x : (forall s0 w, J s0 w -> J s0 (with_expire w x)) -> keeps (set_expire x).
Proof. intros He s0 w Hw [] w' E. injection E as <-. by apply He. Qed.
Lemma keeps_get_expire : keeps get_expire.
Proof. intros s0 w Hw a w' E. by injection E as <- <-. Qed.
Lemma keeps_free d : (forall s0 w p, J s0 w -> J s0 (with_proto w p)) -> keeps (free d).
Proof. intros He s0 w Hw [] w' E. cbn in E. destruct (basic_pkt_free d (proto w)); [|done]. injection E as <-. by apply He. Qed.
Lemma keeps_pause {A} (m : M A) : keeps m -> keeps (Pause m).
Proof. intros Hm s0 w Hw. split; [by apply Hend|]. intros w' HR HI. apply Hm. by eapply Hpause. Qed.
Lemma keeps_act {A} (m : ST world A) : (forall s0 w a w', J s0 w -> m w = Some (a, w') -> J s0 w') -> keeps (blocking m).
Proof. intros Hm. apply keeps_pause. intros s0 w Hw a w' E. apply (keeps_pause (Ret a)); [apply keeps_ret|]. by eapply Hm. Qed.
Lemma keeps_basic o op : (forall s0 w p rt, J s0 w -> J s0 (with_op (with_proto w p) o rt)) -> keeps (basic o op).
Proof. intros Hw. apply keeps_act. intros s0 w a w' HJ E. destruct (op (proto w)) as [[rt p]|]; [|done]. injection E as <- <-. by apply Hw. Qed.
Lemma keeps_read : (forall s0 w p rt, J s0 w -> J s0 (with_op (with_proto w p) op_read rt)) -> keeps read.
Proof.
  intros Hw. apply keeps_act. intros s0 w a w' HJ E. destruct (basic_pkt_read (proto w)) as [[[rt p] out]|]; [|done].
  injection E as <- <-. by apply Hw.
Qed.
Lemma keeps_request_cfg rt : (forall s0 w, J s0 w -> J s0 (with_op w op_cfg rt)) -> keeps (request_cfg rt).
Proof. intros Hw. apply keeps_act. intros s0 w a w' HJ E. injection E as <- <-. by apply Hw. Qed.
Lemma keeps_sleep ms : (forall s0 w, J s0 w -> J s0 (with_log w [e_sleep ms])) -> keeps (sleep ms).
Proof. intros He. apply from_bind; [done|by apply keeps_emit|intros _]. apply keeps_pause, keeps_ret. Qed.
End Keeps.

Create HintDb client.
#[local] Hint Resolve keeps_ret keeps_fault keeps_get_expire : client.
#[local] Hint Extern 1 (_ <> AI_STATE_END) => discriminate : client.

(** The tactic follows a handler; [put_tac] proves the invariant of a client that is written
    and [log_tac] that of a world with another log, protocol, lease or operation. *)
Ltac keep_with J Hend Hpause put_tac log_tac :=
  cbv beta zeta;
  lazymatch goal with
  | |- keeps _ _ => unfold keeps
  | |- from _ _ (get ≫= _) => apply (from_get J); intros ?
  | |- from _ _ (put _ ≫= _) => apply (from_put_bind J); [put_tac|]
  | |- from _ _ (put _) => apply (from_put J); put_tac
  | |- from _ _ (_ ≫= _) => apply (from_bind J); [by intros ? ? ?; destruct_and?| |intros ?]
  | |- from _ _ (match ?x with _ => _ end) => destruct x eqn:?
  | |- from _ _ _ => apply (from_weaken J); [by intros ? ? ?; destruct_and?|];
      first [solve [eauto with client] | apply (keeps_emit J); log_tac | apply (keeps_sleep J Hend Hpause); log_tac
            | apply (keeps_basic J Hend Hpause); log_tac | apply (keeps_read J Hend Hpause); log_tac | apply (keeps_free J); log_tac
            | apply (keeps_request_cfg J Hend Hpause); log_tac | apply (keeps_set_expire J); log_tac]
  end.

(** Nothing is asked of the others but the invariant. *)
Definition any (w w' : world) : Prop := True.

Section Invariant.
(** Nobody but the handler of errors changes the count of the attempts. *)
Definition effect_ok (e : effect) : Prop := match e with e_sleep ms => ms = 1000 \/ 5000 <= ms <= 640000 | _ => True end.
Definition client_inv (w : world) : Prop :=
  0 <= reconn_cnt (cli w) <= 6 /\ 0 <= heartbeat_lost_cnt (cli w) <= 2 /\ state (cli w) <> AI_STATE_END /\ Forall effect_ok (log w).

Definition inv_J (_ : world) : world -> Prop := client_inv.
Abbreviation keep := (keeps (R := any) (G := any) (I := client_inv) inv_J).
Lemma inv_end s0 w : inv_J s0 w -> any s0 w /\ client_inv w. Proof. done. Qed.
Lemma inv_pause s0 w w' : inv_J s0 w -> any w w' -> client_inv w' -> inv_J w' w'. Proof. done. Qed.

Lemma client_inv_log w e : effect_ok e -> client_inv w -> client_inv (with_log w [e]).
Proof. intros He (H1 & H2 & H3 & H4). split; [exact H1|]. split; [exact H2|]. split; [exact H3|]. apply list.Forall_app_2; [done|by constructor]. Qed.

(** The client that is written differs from the one read in fields the invariant bounds. *)
Ltac inv_put := intros ? ? ?; destruct_and?; subst; unfold inv_J, client_inv in *; destruct_and?; split_and!; cbn; first [done | lia].
Ltac inv_log := first [by intros ? ? ?; apply client_inv_log; [first [exact Logic.I | left; reflexivity]|] | by intros ? ? ? ? | by intros ? ? ?].
Ltac keep_tac := repeat keep_with inv_J inv_end inv_pause inv_put inv_log.

Lemma keep_set_state s : s <> AI_STATE_END -> keep (ai_client_set_state s).
Proof. intros Hs. unfold ai_client_set_state. keep_tac. Qed.
#[local] Hint Resolve keep_set_state : client.
Lemma keep_stop_alive : keep ai_stop_alive_time.
Proof. unfold ai_stop_alive_time. keep_tac. Qed.
#[local] Hint Resolve keep_stop_alive : client.
Lemma keep_stop_ping : keep tuya_ai_client_stop_ping.
Proof. unfold tuya_ai_client_stop_ping. keep_tac. Qed.
Lemma keep_start_ping : keep tuya_ai_client_start_ping.
Proof. unfold tuya_ai_client_start_ping. keep_tac. Qed.
#[local] Hint Resolve keep_stop_ping keep_start_ping : client.

Lemma keep_conn_close : keep ai_conn_close.
Proof. unfold ai_conn_close. keep_tac. Qed.
Lemma keep_start_expire i : keep (ai_start_expire_tid i).
Proof. unfold ai_start_expire_tid. keep_tac. Qed.
#[local] Hint Resolve keep_conn_close keep_start_expire : client.

Lemma keep_reply {A} data (f : list Z -> Z -> M A) d : (forall b n, keep (f b n)) -> keep (reply_attrs data f d).
Proof. intros Hf. unfold reply_attrs. keep_tac. Qed.
Lemma keep_refresh_resp i data : keep (ai_handle_refresh_resp i data).
Proof. apply keep_reply. intros b n. keep_tac. Qed.
Lemma keep_handle_close data : keep (ai_handle_conn_close data).
Proof. apply keep_reply. intros b n. keep_tac. Qed.
Lemma keep_handle_pong data : keep (ai_handle_pong data).
Proof. unfold ai_handle_pong. keep_tac. Qed.
Lemma keep_delay_dis : keep ai_delay_dis_req.
Proof. unfold ai_delay_dis_req. keep_tac. Qed.
Lemma keep_to_callback d n f : keep (to_callback d n f).
Proof. unfold to_callback. keep_tac. Qed.
#[local] Hint Resolve keep_refresh_resp keep_handle_close keep_handle_pong keep_delay_dis keep_to_callback : client.

Lemma keep_idle i : keep (ai_idle i). Proof. unfold ai_idle. keep_tac. Qed.
Lemma keep_setup i : keep (ai_setup i). Proof. unfold ai_setup. keep_tac. Qed.
Lemma keep_connect : keep ai_connect. Proof. unfold ai_connect. keep_tac. Qed.
Lemma keep_hello : keep ai_client_hello. Proof. unfold ai_client_hello. keep_tac. Qed.
Lemma keep_auth_req : keep ai_auth_req. Proof. unfold ai_auth_req. keep_tac. Qed.
Lemma keep_auth_resp i : keep (ai_auth_resp i). Proof. unfold ai_auth_resp. keep_tac. Qed.
Lemma keep_running i : keep (ai_running i). Proof. unfold ai_running. keep_tac. Qed.
#[local] Hint Resolve keep_idle keep_setup keep_connect keep_hello keep_auth_req keep_auth_resp keep_running : client.

(** The waiting time lies in the row of the table. *)
Lemma random_value_range i mn mx : 0 <= mn <= mx -> mx <= 640 -> mn <= ai_get_random_value i mn mx <= mx.
Proof.
  intros H1 H2. unfold ai_get_random_value. rewrite (u32_small (mx - mn + 1)) by (unfold is_u32; lia).
  pose proof (Z.mod_pos_bound (in_random i) (mx - mn + 1)). rewrite u32_small by (unfold is_u32; lia). lia.
Qed.

Lemma reconn_row n : 0 <= n <= 6 -> exists mn mx, reconn !! Z.to_nat n = Some (mn, mx) /\ 5 <= mn <= mx /\ mx <= 640.
Proof.
  intros Hn. assert (n = 0 \/ n = 1 \/ n = 2 \/ n = 3 \/ n = 4 \/ n = 5 \/ n = 6) as H by lia.
  destruct_or! H; subst; eexists _, _; (split; [reflexivity|lia]).
Qed.

(** The count goes up to the last row and stays there. *)
Lemma keep_count : keep (c ← get; put (with_reconn c (if AI_RECONN_TIME_NUM - 1 <=? reconn_cnt c then AI_RECONN_TIME_NUM - 1 else reconn_cnt c + 1))).
Proof.
  apply (from_get inv_J). intros c. apply (from_put inv_J). intros s0 w [(Hr & Hl & Hs & He) <-]. unfold inv_J, client_inv, AI_RECONN_TIME_NUM. cbn -[Z.leb Z.le].
  split_and!; try done; try lia; destruct (Z.leb_spec (7 - 1) (reconn_cnt (cli w))); lia.
Qed.

Lemma keep_handle_err i : keep (ai_client_handle_err i).
Proof.
  unfold ai_client_handle_err. apply (from_get inv_J). intros c. destruct (state c) eqn:Es; try (by keep_tac).
  intros s0 w [Hw <-]. pose proof Hw as (Hr & _).
  destruct (reconn_row _ Hr) as (mn & mx & -> & Hmn & Hmx). pose proof (random_value_range i mn mx) as Hv.
  apply (from_bind inv_J inv_J); [done| |intros _; apply keep_count|done].
  apply (keeps_sleep inv_J inv_end inv_pause). intros s1 w1. apply client_inv_log. right. rewrite u32_small by (unfold is_u32; lia). lia.
Qed.
#[local] Hint Resolve keep_handle_err : client.

Lemma keep_round i rt : keep (ai_client_round i rt).
Proof. unfold ai_client_round. keep_tac. Qed.
Lemma keep_ping : keep ai_ping. Proof. unfold ai_ping. keep_tac. Qed.
Lemma keep_conn_refresh : keep ai_conn_refresh. Proof. unfold ai_conn_refresh. keep_tac. Qed.
Lemma keep_reg_cb : keep tuya_ai_client_reg_cb. Proof. unfold tuya_ai_client_reg_cb. keep_tac. Qed.
Lemma keep_deinit : keep tuya_ai_client_deinit. Proof. unfold tuya_ai_client_deinit. keep_tac. Qed.

(** The third lost answer closes, which puts the count back before the timer's thread pauses. *)
Lemma keep_alive_timeout : keep ai_alive_timeout.
Proof.
  intros s0 w (Hr & Hl & Hs & He) c w1 E. injection E as <- <-. intros [] w1 E. injection E as <-. intros c w1 E. injection E as <- <-.
  cbn [prog_bind cli with_cli with_lost heartbeat_lost_cnt]. rewrite u8_small by (unfold is_u8; lia). destruct (Z.leb_spec 3 (heartbeat_lost_cnt (cli w) + 1)).
  - intros [] w1 E. injection E as <-. intros [] w1 E. injection E as <-. intros c w1 E. injection E as <- <-.
    intros [] w1 E. injection E as <-. intros [] w1 E. injection E as <-. split; [split; [done|]|].
    { unfold client_inv. cbn. split_and!; try done; try lia. rewrite <- !app_assoc. apply list.Forall_app_2; [done|by repeat constructor]. }
    intros w' _ Hw' a w2 E. destruct (basic_conn_close AI_CODE_CLOSE_BY_CLIENT (proto w')) as [[rt p]|]; [|done]. injection E as <- <-.
    split; [done|]. intros w2 _ Hw2. clear -Hw2. intros c w3 E. injection E as <- <-. intros [] w3 E. injection E as <-.
    destruct Hw2 as (? & ? & ? & ?). split_and!; cbn; try done; lia.
  - intros [] w1 E. injection E as <-. split_and!; cbn; try done; try lia. apply list.Forall_app_2; [done|by repeat constructor].
Qed.
End Invariant.

(** * The way to a connection *)

(** The operations only the client's thread uses. *)
Definition of_client (o : ai_op) : bool := match o with op_refresh | op_ping | op_close => false | _ => true end.
Definition client_ops (w : world) : list (ai_op * Z) := List.filter (fun e => of_client e.1) (ops w).

(** What the thread has done, with success, to be in a state: from the connection on each
    state follows from the one before by one operation; a hello or a request for
    authentication that fails is repeated. *)
Inductive handshake : AI_CLIENT_STATE_E -> list (ai_op * Z) -> Prop :=
| hs_idle h : handshake AI_STATE_IDLE h
| hs_setup h : handshake AI_STATE_SETUP h
| hs_connect h : handshake AI_STATE_CONNECT (h ++ [(op_setup, OPRT_OK); (op_cfg, OPRT_OK)])
| hs_hello h : handshake AI_STATE_CONNECT h -> handshake AI_STATE_CLIENT_HELLO (h ++ [(op_connect, OPRT_OK)])
| hs_hello_again h rt : handshake AI_STATE_CLIENT_HELLO h -> rt <> OPRT_OK -> handshake AI_STATE_CLIENT_HELLO (h ++ [(op_hello, rt)])
| hs_auth_req h : handshake AI_STATE_CLIENT_HELLO h -> handshake AI_STATE_AUTH_REQ (h ++ [(op_hello, OPRT_OK)])
| hs_auth_req_again h rt : handshake AI_STATE_AUTH_REQ h -> rt <> OPRT_OK -> handshake AI_STATE_AUTH_REQ (h ++ [(op_auth_req, rt)])
| hs_auth_resp h : handshake AI_STATE_AUTH_REQ h -> handshake AI_STATE_AUTH_RESP (h ++ [(op_auth_req, OPRT_OK)])
| hs_running h : handshake AI_STATE_AUTH_RESP h -> handshake AI_STATE_RUNNING (h ++ [(op_auth_resp, OPRT_OK)])
| hs_read h rt : handshake AI_STATE_RUNNING h -> handshake AI_STATE_RUNNING (h ++ [(op_read, rt)]).

Section Established.
(** What the other threads do to what the client's thread relies on: they close, at most. *)
Definition others (w w' : world) : Prop :=
  client_ops w' = client_ops w /\ (state (cli w') = state (cli w) \/ state (cli w') = AI_STATE_IDLE).
Definition runs_after (w : world) : Prop := state (cli w) = AI_STATE_RUNNING -> handshake AI_STATE_RUNNING (client_ops w).
(** Between two rounds. *)
Definition rests (w : world) : Prop := handshake (state (cli w)) (client_ops w).
(** In a round that began in state [s]. *)
Definition stage (s : AI_CLIENT_STATE_E) (h : list (ai_op * Z)) (w : world) : Prop :=
  client_ops w = h /\ (state (cli w) = s \/ state (cli w) = AI_STATE_IDLE).

#[local] Instance others_trans : Transitive others.
Proof. intros w1 w2 w3 [H1 H2] [H3 H4]. split; [congruence|]. destruct H4 as [-> | ->]; [done|by right]. Qed.
Lemma others_refl w : others w w. Proof. split; [done|by left]. Qed.
Lemma rests_others w w' : rests w -> others w w' -> rests w'.
Proof. unfold rests. intros H [-> [-> | ->]]; [done|constructor]. Qed.
Lemma rests_runs w : rests w -> runs_after w. Proof. unfold rests, runs_after. by intros H <-. Qed.
Lemma runs_others w w' : runs_after w -> others w w' -> runs_after w'.
Proof. unfold runs_after. intros H [-> [-> | ->]]; [done|done]. Qed.
Lemma stage_others s h w w' : stage s h w -> others w w' -> stage s h w'.
Proof. intros [H1 H2] [H3 H4]. split; [congruence|]. destruct H4 as [-> | ->]; [done|by right]. Qed.
Lemma stage_runs s h w : stage s h w -> (s = AI_STATE_RUNNING -> handshake AI_STATE_RUNNING h) -> runs_after w.
Proof. intros [Hc H] Hs E. rewrite Hc. apply Hs. destruct H; congruence. Qed.

Lemma client_ops_op w o rt : client_ops (with_op w o rt) = client_ops w ++ (if of_client o then [(o, rt)] else []).
Proof. unfold client_ops. cbn [ops with_op]. rewrite List.filter_app. cbn. by destruct (of_client o). Qed.

(** ** The other threads *)
Section Others.
Lemma others_end s0 w : others s0 w -> others s0 w /\ True. Proof. done. Qed.
Lemma others_pause s0 w w' : others s0 w -> any w w' -> True -> others w' w'. Proof. intros _ _ _. apply others_refl. Qed.
Abbreviation aside := (keeps (R := any) (G := others) (I := fun _ => True) others).

Ltac aside_put := intros ? ? ?; destruct_and?; subst; match goal with H : others _ _ |- _ => destruct H as [? H']; split; [done|destruct H' as [?|?]; cbn; first [by left | by right]] end.
Ltac aside_log := intros; match goal with H : others _ _ |- _ => destruct H as [? ?]; split; [|done] end;
  rewrite ?client_ops_op; cbn [of_client]; rewrite ?app_nil_r; done.
Ltac aside_tac := repeat keep_with others others_end others_pause aside_put aside_log.

Lemma aside_timer h : h ∈ timer_callbacks -> aside h.
Proof.
  unfold timer_callbacks. intros H. apply elem_of_cons in H as [->|H]; [unfold ai_conn_refresh; by aside_tac|].
  apply elem_of_cons in H as [->|H].
  - unfold ai_alive_timeout, ai_conn_close, tuya_ai_client_stop_ping, ai_stop_alive_time, ai_client_set_state. aside_tac.
  - apply elem_of_cons in H as [->|H]; [unfold ai_idle_check; by aside_tac|]. by apply elem_of_nil in H.
Qed.
Lemma aside_work : aside ai_ping.
Proof. unfold ai_ping. aside_tac. Qed.
Lemma aside_caller h w w' : h ∈ [tuya_ai_client_reg_cb; tuya_ai_client_deinit] -> run h w = Some (tt, w') -> others w w'.
Proof.
  intros H. apply elem_of_cons in H as [->|H]; [|apply elem_of_cons in H as [->|H]; [|by apply elem_of_nil in H]]; intros E; injection E as <-;
    (split; [done|by left]).
Qed.
End Others.

(** ** The thread of the client *)
Section Main.
Abbreviation alone := (safe others any runs_after).

(** In the running state. *)
Definition served (_ w : world) : Prop :=
  handshake AI_STATE_RUNNING (client_ops w) /\ (state (cli w) = AI_STATE_RUNNING \/ state (cli w) = AI_STATE_IDLE).
Lemma served_end s0 w : served s0 w -> any s0 w /\ runs_after w. Proof. intros [H _]. split; [done|]. by intros _. Qed.
Lemma served_pause s0 w w' : served s0 w -> others w w' -> runs_after w' -> served w' w'.
Proof. intros [H1 H2] [E Es] _. split; [by rewrite E|]. destruct Es as [-> | ->]; [done|by right]. Qed.
Abbreviation serves := (keeps (R := others) (G := any) (I := runs_after) served).

Ltac serve_put := intros ? ? ?; destruct_and?; subst; match goal with H : served _ _ |- _ => destruct H as [? ?]; split; [done|cbn; first [done | by right]] end.
Ltac serve_log := intros; match goal with H : served _ _ |- _ => destruct H as [? ?]; split; [|done] end;
  rewrite ?client_ops_op; cbn [of_client]; rewrite ?app_nil_r; first [done | by apply hs_read].
Ltac serve_tac := repeat keep_with served served_end served_pause serve_put serve_log.

Lemma serves_close : serves ai_conn_close.
Proof. unfold ai_conn_close, tuya_ai_client_stop_ping, ai_stop_alive_time, ai_client_set_state. serve_tac. Qed.
Lemma serves_expire i : serves (ai_start_expire_tid i).
Proof. unfold ai_start_expire_tid. serve_tac. Qed.
Lemma serves_callback d n f : serves (to_callback d n f).
Proof. unfold to_callback. serve_tac. Qed.
#[local] Hint Resolve serves_close serves_expire serves_callback : client.
Lemma serves_running i : serves (ai_running i).
Proof.
  unfold ai_running, ai_stop_alive_time, ai_handle_pong, tuya_ai_client_start_ping, ai_handle_refresh_resp, ai_handle_conn_close, ai_client_set_state,
    ai_delay_dis_req, reply_attrs. serve_tac.
Qed.

(** An operation of the thread in another state. *)
Lemma stage_basic {B} s h o op (f : Z -> M B) Q s0 w : s <> AI_STATE_RUNNING -> of_client o = true -> stage s h w ->
  (forall rt w', stage s (h ++ [(o, rt)]) w' -> alone (f rt) Q w' w') -> alone (basic o op ≫= f) Q s0 w.
Proof.
  intros Hs Ho Hw Hf. split; [split; [done|eapply stage_runs; [exact Hw|done]]|]. intros w1 HR1 _. apply (stage_others _ _ _ _ Hw) in HR1.
  intros rt w2 E. destruct (op (proto w1)) as [[r p]|]; [|done]. injection E as <- <-.
  assert (stage s (h ++ [(o, r)]) (with_op (with_proto w1 p) o r)) as H2.
  { destruct HR1 as [H1 H2]. split; [|done]. rewrite client_ops_op, Ho. change (client_ops (with_proto w1 p)) with (client_ops w1). by rewrite H1. }
  split; [split; [done|eapply stage_runs; [exact H2|done]]|]. intros w3 HR3 _. apply Hf. by eapply stage_others.
Qed.
Lemma stage_request {B} s h rt (f : Z -> M B) Q s0 w : s <> AI_STATE_RUNNING -> stage s h w ->
  (forall w', stage s (h ++ [(op_cfg, rt)]) w' -> alone (f rt) Q w' w') -> alone (request_cfg rt ≫= f) Q s0 w.
Proof.
  intros Hs Hw Hf. split; [split; [done|eapply stage_runs; [exact Hw|done]]|]. intros w1 HR1 _. apply (stage_others _ _ _ _ Hw) in HR1.
  intros r w2 E. injection E as <- <-.
  assert (stage s (h ++ [(op_cfg, rt)]) (with_op w1 op_cfg rt)) as H2.
  { destruct HR1 as [H1 H2]. split; [|done]. rewrite client_ops_op. by rewrite H1. }
  split; [split; [done|eapply stage_runs; [exact H2|done]]|]. intros w3 HR3 _. apply Hf. by eapply stage_others.
Qed.
Lemma stage_sleep {B} s h ms (f : unit -> M B) Q s0 w : s <> AI_STATE_RUNNING -> stage s h w ->
  (forall w', stage s h w' -> alone (f tt) Q w' w') -> alone (sleep ms ≫= f) Q s0 w.
Proof.
  intros Hs Hw Hf [] w1 E. injection E as <-. split; [split; [done|eapply stage_runs; [exact Hw|done]]|].
  intros w3 HR3 _. apply Hf. by eapply stage_others.
Qed.

(** What the treatment of an error needs of the operations so far. *)
Definition recovers (s : AI_CLIENT_STATE_E) (h : list (ai_op * Z)) : Prop :=
  match s with AI_STATE_CONNECT | AI_STATE_AUTH_RESP => True | _ => handshake s h end.

Lemma idle_rests w : state (cli w) = AI_STATE_IDLE -> rests w.
Proof. unfold rests. intros ->. constructor. Qed.

Lemma safe_get {B} (f : AI_BASIC_CLIENT_T -> M B) Q s0 w : alone (f (cli w)) Q s0 w -> alone (get ≫= f) Q s0 w.
Proof. intros H. rewrite get_bind. intros c w' E. by injection E as <- <-. Qed.
Lemma safe_put {B} c (f : unit -> M B) Q s0 w : alone (f tt) Q s0 (with_cli w c) -> alone (put c ≫= f) Q s0 w.
Proof. intros H [] w' E. by injection E as <-. Qed.
Lemma safe_put_end c Q s0 w : Q tt s0 (with_cli w c) -> alone (put c) Q s0 w.
Proof. intros H [] w' E. by injection E as <-. Qed.
Lemma safe_tail {A} (m : M A) (Q : A -> world -> world -> Prop) s0 w : alone (m ≫= mret) Q s0 w -> alone m Q s0 w.
Proof.
  revert s0 w. induction m as [a|C m k IH|k IH]; intros s0 w; [done| |].
  - intros H b w' E. apply IH. exact (H b w' E).
  - intros [Hp H]. split; [done|]. intros w' HR HI. apply IH. exact (H w' HR HI).
Qed.

Lemma handle_err_rests i s h s0 w : s <> AI_STATE_END -> stage s h w -> recovers s h ->
  alone (ai_client_handle_err i) (fun _ _ => rests) s0 w.
Proof.
  intros Hn Hw Hr. pose proof Hw as [Eh Hs]. unfold ai_client_handle_err. apply safe_get.
  assert (forall s', s' <> AI_STATE_RUNNING -> stage s' h w -> (forall w', stage s' h w' -> rests w') ->
            alone (sleep 1000) (fun _ _ => rests) s0 w) as Hsleep.
  { intros s' Hs' Hw' Hf. apply safe_tail. eapply stage_sleep; [exact Hs'|exact Hw'|]. intros w' H'. by apply Hf. }
  assert (stage AI_STATE_IDLE h w -> alone (sleep 1000) (fun _ _ => rests) s0 w) as Hidle.
  { intros Hi. eapply (Hsleep AI_STATE_IDLE); [done|exact Hi|]. intros w' [_ H']. apply idle_rests. by destruct H'. }
  destruct Hs as [Es|Es]; [|rewrite Es; apply Hidle; split; [done|by left]].
  assert (forall w', stage s h w' -> rests w' \/ s = AI_STATE_CONNECT \/ s = AI_STATE_AUTH_RESP) as Hst.
  { intros w' [E' Hs']. destruct Hs' as [E2|E2]; [|left; by apply idle_rests]. unfold rests. rewrite E2, E'.
    destruct s; try done; first [by left | by right; left | by right; right]. }
  rewrite Es. destruct s; try done; cbv beta iota.
  - by apply Hidle.
  - destruct (reconn !! Z.to_nat (reconn_cnt (cli w))) as [[mn mx]|]; [|by intros ? ? ?].
    eapply stage_sleep; [|exact Hw|]; [done|]. intros w' H'. cbv zeta. apply safe_get, safe_put_end. unfold rests.
    change (handshake (state (cli w')) (client_ops w')). destruct H' as [_ [-> | ->]]; constructor.
  - eapply stage_sleep; [|exact Hw|]; [done|]. intros w' H'. unfold ai_client_set_state. apply safe_get, safe_put_end. constructor.
  - eapply Hsleep; [|exact Hw|]; [done|]. intros w' H'. destruct (Hst w' H') as [?|[?|?]]; done.
  - eapply Hsleep; [|exact Hw|]; [done|]. intros w' H'. destruct (Hst w' H') as [?|[?|?]]; done.
  - eapply stage_sleep; [|exact Hw|]; [done|]. intros w' H'. unfold ai_client_set_state. apply safe_get, safe_put_end. constructor.
  - apply safe_bind. eapply safe_mono; [apply serves_close; split; [by rewrite Eh|by left]|].
    intros a s1 w1 [H1 [H2|H2]]; unfold rests; cbn; rewrite H2; [done|constructor].
Qed.

(** The handler of a state. *)
Definition handler (i : inputs) (rt : Z) (s : AI_CLIENT_STATE_E) : M Z :=
  match s with
  | AI_STATE_IDLE => ai_idle i
  | AI_STATE_SETUP => ai_setup i
  | AI_STATE_CONNECT => ai_connect
  | AI_STATE_CLIENT_HELLO => ai_client_hello
  | AI_STATE_AUTH_REQ => ai_auth_req
  | AI_STATE_AUTH_RESP => ai_auth_resp i
  | AI_STATE_RUNNING => ai_running i
  | AI_STATE_END => mret rt
  end.

(** Success leads to a state whose operations are done, an error to its treatment. *)
Definition handled (s : AI_CLIENT_STATE_E) (rt : Z) (w : world) : Prop :=
  if rt =? OPRT_OK then rests w else exists h, stage s h w /\ recovers s h.

(** Computes a handler behind its operation: nothing interrupts it. *)
Ltac alone_step := first [apply safe_get | apply safe_put | apply safe_put_end]; cbv beta.
Lemma safe_emit {B} e (f : unit -> M B) Q s0 w : alone (f tt) Q s0 (with_log w [e]) -> alone (emit e ≫= f) Q s0 w.
Proof. intros H [] w' E. by injection E as <-. Qed.

Lemma stage_called s h s' o op (ok : Z -> M Z) s0 w : s <> AI_STATE_RUNNING -> of_client o = true -> stage s h w ->
  (forall rt, rt <> OPRT_OK -> recovers s (h ++ [(o, rt)])) -> handshake s' (h ++ [(o, OPRT_OK)]) ->
  (forall s0 w, exists w', run (ok OPRT_OK) w = Some (OPRT_OK, w') /\ state (cli w') = s' /\ client_ops w' = client_ops w
     /\ (forall Q : Z -> world -> world -> Prop, Q OPRT_OK s0 w' -> alone (ok OPRT_OK) Q s0 w)) ->
  alone (rt ← basic o op; if negb (rt =? OPRT_OK) then mret rt else ok rt) (fun rt _ => handled s rt) s0 w.
Proof.
  intros Hs Ho Hw Hr Hh Hok. eapply stage_basic; [done|done|exact Hw|]. intros rt w' H'. destruct (Z.eqb_spec rt OPRT_OK) as [->|Hrt]; cbn [negb].
  - destruct (Hok w' w') as (w2 & _ & E1 & E2 & H2). apply H2. unfold handled, rests. rewrite Z.eqb_refl, E1, E2. by destruct H' as [-> _].
  - unfold handled. apply Z.eqb_neq in Hrt as Hb. cbn. rewrite Hb. exists (h ++ [(o, rt)]). split; [done|by apply Hr].
Qed.

Lemma safe_expire i (Q : unit -> world -> world -> Prop) s0 w :
  (forall w', client_ops w' = client_ops w -> Q tt s0 w') -> alone (ai_start_expire_tid i) Q s0 w.
Proof.
  intros H. unfold ai_start_expire_tid. apply safe_bind. intros x w1 E. injection E as <- <-. cbn [safe]. cbv zeta.
  destruct (expire w <=? in_posix i); [by apply H|]. apply safe_emit. intros [] w1 E. injection E as <-. by apply H.
Qed.

Lemma handler_handled i rt0 s s0 w : s <> AI_STATE_END -> rests w -> state (cli w) = s ->
  alone (handler i rt0 s) (fun rt _ => handled s rt) s0 w.
Proof.
  intros Hn Hw Es. assert (stage s (client_ops w) w) as Hst by (split; [done|by left]). unfold rests in Hw. rewrite Es in Hw.
  destruct s; try done; cbn [handler].
  - unfold ai_idle. destruct (_ || _)%bool.
    + exists (client_ops w). by split; [|constructor].
    + unfold ai_client_set_state. apply safe_bind, safe_get, safe_put_end. unfold handled, rests. cbn. constructor.
  - unfold ai_setup. eapply stage_basic; [|done|exact Hst|]; [done|]. intros rt w1 H1. destruct (Z.eqb_spec rt OPRT_OK) as [->|Hrt]; cbn [negb].
    + eapply stage_request; [|exact H1|]; [done|]. intros w2 H2. destruct (Z.eqb_spec (in_cfg_req i) OPRT_OK) as [Hc|Hc]; cbn [negb].
      * apply safe_bind. intros [] w3 E. injection E as <-. apply safe_bind, safe_expire. intros w3 E3. apply safe_emit.
        apply safe_bind. unfold ai_client_set_state. apply safe_get, safe_put_end. unfold handled, rests. cbn.
        change (handshake AI_STATE_CONNECT (client_ops w3)). rewrite E3. change (client_ops (with_expire w2 _)) with (client_ops w2).
        destruct H2 as [-> _]. rewrite <- app_assoc, Hc. constructor.
      * apply safe_bind. assert (forall w3, client_ops w3 = client_ops w2 -> stage AI_STATE_SETUP (client_ops w2) w3 ->
                                    handled AI_STATE_SETUP (in_cfg_req i) w3) as Hh.
        { intros w3 E3 H3. unfold handled. apply Z.eqb_neq in Hc. rewrite Hc. exists (client_ops w2). split; [done|constructor]. }
        destruct H2 as [H2 H2']. destruct (in_cfg_req i =? OPRT_SVC_MQTT_GW_MQ_OFFLILNE).
        -- unfold ai_client_set_state. apply safe_get, safe_put_end. apply Hh; [done|]. split; [done|by right].
        -- apply Hh; [done|by split].
    + unfold handled. apply Z.eqb_neq in Hrt. cbn. rewrite Hrt. eexists. split; [exact H1|constructor].
  - unfold ai_connect. eapply (stage_called _ _ AI_STATE_CLIENT_HELLO); [done|done|exact Hst|by intros ? _|by constructor|]. intros s1 w1. eexists. split; [reflexivity|].
    split; [done|]. split; [done|]. intros Q HQ. apply safe_get, safe_put. apply safe_bind. unfold ai_client_set_state. by apply safe_get, safe_put_end.
  - unfold ai_client_hello. eapply (stage_called _ _ AI_STATE_AUTH_REQ); [done|done|exact Hst|by intros ? ?; constructor|by constructor|]. intros s1 w1. eexists. split; [reflexivity|].
    split; [done|]. split; [done|]. intros Q HQ. apply safe_bind. unfold ai_client_set_state. by apply safe_get, safe_put_end.
  - unfold ai_auth_req. eapply (stage_called _ _ AI_STATE_AUTH_RESP); [done|done|exact Hst|by intros ? ?; constructor|by constructor|]. intros s1 w1. eexists. split; [reflexivity|].
    split; [done|]. split; [done|]. intros Q HQ. apply safe_bind. unfold ai_client_set_state. by apply safe_get, safe_put_end.
  - unfold ai_auth_resp. eapply (stage_called _ _ AI_STATE_RUNNING); [done|done|exact Hst|by intros ? _|by constructor|]. intros s1 w1. eexists. split; [reflexivity|].
    split; [done|]. split; [done|]. intros Q HQ. apply safe_get, safe_put. apply safe_bind. unfold tuya_ai_client_start_ping. apply safe_get.
    intros [] w2 E. injection E as <-. apply safe_get, safe_put, safe_emit. apply safe_bind. unfold ai_client_set_state. apply safe_get, safe_put_end.
    apply safe_emit. exact HQ.
  - eapply safe_mono; [apply serves_running; by split; [|left]|]. intros rt s1 w1 [H1 H2]. unfold handled. destruct (rt =? OPRT_OK).
    + unfold rests. destruct H2 as [-> | ->]; [done|constructor].
    + exists (client_ops w1). split; [by split|done].
Qed.

Lemma round_rests i rt0 s0 w : rests w -> alone (ai_client_round i rt0) (fun _ _ => rests) s0 w.
Proof.
  intros Hw. assert (state (cli w) <> AI_STATE_END) as Hn by (intros E; unfold rests in Hw; rewrite E in Hw; inversion Hw). apply safe_get. change (match state (cli w) with AI_STATE_IDLE => ai_idle i | _ => _ end) with (handler i rt0 (state (cli w))).
  apply safe_bind. eapply safe_mono; [by apply handler_handled|]. intros rt s1 w1 H1. apply safe_bind. unfold handled in H1.
  destruct (rt =? OPRT_OK); cbn [negb]; [done|]. destruct H1 as (h & H1 & H2). by eapply handle_err_rests.
Qed.
End Main.

(** ** The whole *)
Abbreviation sure := (fun _ : world => True).
Definition stands_aside (m : M unit) (w : world) : Prop := parked any others sure m (ends others sure (fun _ => sure)) w.
Record ordered (x : system) : Prop := {
  o_runs : runs_after (shared x);
  o_client : parked others any runs_after (t_client x) (ends any runs_after (fun _ => rests)) (shared x);
  o_timer : stands_aside (t_timer x) (shared x);
  o_work : stands_aside (t_work x) (shared x) }.

(** Such a thread does not mind what the rest does. *)
Lemma aside_any t w w' : stands_aside t w -> stands_aside t w'.
Proof. intros H w2 _ HI. by apply H. Qed.
Lemma aside_parked (m : M unit) w : keeps (R := any) (G := others) (I := sure) others m -> stands_aside m w.
Proof. intros Hm w' _ _. eapply safe_mono; [apply Hm, others_refl|]. by intros a s0 s H. Qed.

(** What another thread does between two turns of the client. *)
Lemma ordered_others x w t k : ordered x -> others (shared x) w ->
  stands_aside t w -> stands_aside k w ->
  ordered {| shared := w; t_client := t_client x; t_timer := t; t_work := k |}.
Proof.
  intros [Hr Hc _ _] Ho Ht Hk. constructor; cbn; try done; [by eapply runs_others|]. by eapply parked_step; [apply others_trans|..].
Qed.

Lemma aside_turn t t' w w' : stands_aside t w -> turn t w = Some (t', w') ->
  others w w' /\ stands_aside t' w'.
Proof.
  intros Ht E. destruct (turn_ends any others sure t t' (fun _ => sure) w w' Ht Logic.I Logic.I) as [[H _] H']; try done. apply others_refl.
Qed.

Lemma ordered_step x y : client_step x y -> ordered x -> ordered y.
Proof.
  intros Hs Ho. pose proof Ho as [Hr Hc Ht Hk]. destruct Hs as [i rt w t k _|h w c k Hh|w c t|w w' c c' t k E|w w' c t t' k E|w w' c t k k' E|h w w' c t k Hh E|b w c t k];
    cbn [shared t_client t_timer t_work] in *.
  - constructor; cbn; try done. intros w' HR HI. eapply safe_mono.
    + apply (round_rests i rt). exact (proj2 (Hc w' HR HI)).
    + intros a s0 s H. split; [split; [done|by apply rests_runs]|done].
  - apply (ordered_others _ w h k Ho); [apply others_refl| |done]. by apply aside_parked, aside_timer.
  - apply (ordered_others _ w t ai_ping Ho); [apply others_refl|done|]. by apply aside_parked, aside_work.
  - destruct (turn_ends others any runs_after c c' (fun _ => rests) w w' Hc (others_refl w) Hr (fun _ => rests_others) (fun _ => Logic.I) E)
      as [[_ H1] H2].
    constructor; cbn; [done|done|by eapply aside_any|by eapply aside_any].
  - destruct (aside_turn t t' w w' Ht E) as [H1 H2]. apply (ordered_others _ w' t' k Ho); [done|done|]. by eapply aside_any.
  - destruct (aside_turn k k' w w' Hk E) as [H1 H2]. apply (ordered_others _ w' t k' Ho); [done| |done]. by eapply aside_any.
  - apply (ordered_others _ w' t k Ho); [by eapply aside_caller| |]; by eapply aside_any.
  - apply (ordered_others _ (with_proto w _) t k Ho); [split; [done|by left]| |]; by eapply aside_any.
Qed.

Lemma ordered_start p : ordered (start p).
Proof.
  constructor; cbn.
  - by intros ?.
  - intros w' HR HI. split; [done|]. apply (rests_others (start_world p)); [constructor|done].
  - intros w' _ _. split; [split; [apply others_refl|done]|done].
  - intros w' _ _. split; [split; [apply others_refl|done]|done].
Qed.

Lemma ordered_reachable p x : rtc client_step (start p) x -> ordered x.
Proof. revert x. apply rtc_ind_r; [apply ordered_start|]. intros x y _ Hs Ho. by eapply ordered_step. Qed.
End Established.

Lemma inv_reachable p x : rtc client_step (start p) x ->
  client_inv (shared x)
  /\ parked any any client_inv (t_client x) (ends any client_inv (fun _ _ => True)) (shared x)
  /\ parked any any client_inv (t_timer x) (ends any client_inv (fun _ _ => True)) (shared x)
  /\ parked any any client_inv (t_work x) (ends any client_inv (fun _ _ => True)) (shared x).
Proof.
  assert (forall {A} (m : M A) w, keeps (R := any) (G := any) (I := client_inv) inv_J m ->
            parked any any client_inv m (ends any client_inv (fun _ _ => True)) w) as Hp.
  { intros A m w Hm w' _ HI. eapply safe_mono; [by apply Hm|]. by intros a s0 s H. }
  assert (forall A (m m' : M A) w w', client_inv w -> parked any any client_inv m (ends any client_inv (fun _ _ => True)) w -> turn m w = Some (m', w') ->
            client_inv w' /\ parked any any client_inv m' (ends any client_inv (fun _ _ => True)) w') as Ht.
  { intros A m m' w w' HI Hm E. by destruct (turn_ends any any client_inv m m' (fun _ _ => True) w w' Hm Logic.I HI) as [[_ H] H']. }
  revert x. apply rtc_ind_r; [split_and!; cbn; try done; by constructor|].
  intros x y _ Hs (HI & Hc & Htm & Hk).
  destruct Hs as [i rt w t k _|h w c k Hh|w c t|w w' c c' t k E|w w' c t t' k E|w w' c t k k' E|h w w' c t k Hh E|b w c t k];
    cbn [shared t_client t_timer t_work] in *; unfold parked in *.
  - split_and!; try done. apply (Hp _ _ w), keep_round.
  - split_and!; try done. apply (Hp _ _ w). unfold timer_callbacks in Hh. apply elem_of_cons in Hh as [->|Hh]; [apply keep_conn_refresh|].
    apply elem_of_cons in Hh as [->|Hh]; [apply keep_alive_timeout|]. apply elem_of_cons in Hh as [->|Hh]; [apply keeps_ret|]. by apply elem_of_nil in Hh.
  - split_and!; try done. apply (Hp _ _ w), keep_ping.
  - destruct (Ht _ c c' w w' HI Hc E). by split_and!.
  - destruct (Ht _ t t' w w' HI Htm E). by split_and!.
  - destruct (Ht _ k k' w w' HI Hk E). by split_and!.
  - assert (client_inv w') as HI'; [|by split_and!]. apply elem_of_cons in Hh as [->|Hh]; [by injection E as <-|].
    apply elem_of_cons in Hh as [->|Hh]; [|by apply elem_of_nil in Hh]. injection E as <-. destruct HI as (H1 & H2 & H3 & H4).
    split; [exact H1|]. split; [exact H2|]. split; [exact H3|]. apply list.Forall_app_2; [done|by repeat constructor].
  - by split_and!.
Qed.

(** (C19) However the thread of the client, the timers, the delayed work and the callers
    interleave, a client is in the running state only after its thread has set up the protocol
    and asked for a server, connected, sent the hello and the request for authentication and
    read the reply, each with success, in this order and without setting up or connecting
    again in between, that is on one connection; a hello or a request may have failed and been
    repeated. Each other state, between two rounds of the thread, has the part of this that
    leads to it. The threads switch wherever one is inside an operation of the protocol, asks
    for a server or sleeps; the timer may close the connection meanwhile, but nothing else
    leads to the running state. *)
Theorem ai_client_established p x : rtc client_step (start p) x ->
  (state (cli (shared x)) = AI_STATE_RUNNING -> handshake AI_STATE_RUNNING (client_ops (shared x)))
  /\ forall rt, t_client x = Ret rt -> handshake (state (cli (shared x))) (client_ops (shared x)).
Proof.
  intros H. destruct (ordered_reachable p x H) as [Hr Hc _ _]. split; [exact Hr|]. intros rt E. rewrite E in Hc.
  exact (proj2 (Hc (shared x) (others_refl _) Hr)).
Qed.

(** (C21) The count of the attempts always indexes the table of the waiting times, fewer than
    three answers are missing, the state is one the thread handles, and the thread never
    waits but for a second or for a time of the table. *)
Theorem ai_client_invariant p x : rtc client_step (start p) x -> let w := shared x in
  0 <= reconn_cnt (cli w) < zlen reconn /\ 0 <= heartbeat_lost_cnt (cli w) < 3 /\ state (cli w) <> AI_STATE_END
  /\ forall ms, e_sleep ms ∈ log w -> ms = 1000 \/ 5000 <= ms <= 640000.
Proof.
  intros H. apply inv_reachable in H as ((H1 & H2 & H3 & H4) & _). change (zlen reconn) with 7. split_and!; try done; try lia.
  intros ms Hms. exact (proj1 (list.Forall_forall effect_ok (log (shared x))) H4 _ Hms).
Qed.

(** * Progress

    The thread of the client by itself: no other thread runs meanwhile. *)
Fixpoint rounds (l : list inputs) (rt : Z) (w : world) : option (Z * world) :=
  match l with
  | [] => Some (rt, w)
  | i :: l => r ← run (ai_client_round i rt) w; rounds l r.1 r.2
  end.

(** The handlers as functions of the world. *)
Ltac run_m :=
  unfold basic, read, request_cfg, free, sleep, emit, set_expire, get_expire, get, put, blocking, act;
  cbn [run mbind prog_bind mret prog_ret option_bind fst snd].

(** The handlers that call one operation, computed. *)
Definition called (o : ai_op) (op : P -> option (Z * P)) (ok : world -> world) (w : world) : option (Z * world) :=
  r ← op (proto w); let w1 := with_op (with_proto w r.2) o r.1 in Some (r.1, if r.1 =? OPRT_OK then ok w1 else w1).
Definition changed (f : AI_BASIC_CLIENT_T -> AI_BASIC_CLIENT_T) (es : list effect) (w : world) : world :=
  with_log (with_cli w (f (cli w))) es.
Definition to_running (i : inputs) (c : AI_BASIC_CLIENT_T) : AI_BASIC_CLIENT_T :=
  with_state (with_idle (with_lost c 0) (in_posix i) false false) AI_STATE_RUNNING.
Definition running_effects (c : AI_BASIC_CLIENT_T) : list effect :=
  [e_work_start (u32 (heartbeat_interval c * 1000)); e_timer_start idle_check_timer AI_IDLE_CHECK_TIME; e_publish EVENT_AI_CLIENT_RUN].

Ltac called_tac op :=
  unfold called; run_m; destruct op as [[rt p]|]; [|done]; cbn [option_bind mbind fst snd];
  destruct (Z.eqb_spec rt OPRT_OK) as [->|]; cbn; unfold changed, with_log, with_op, with_cli, with_proto; cbn;
  rewrite ?app_nil_r, <- ?app_assoc; done.

Lemma connect_called w :
  run ai_connect w = called op_connect basic_connect (changed (fun c => with_state (with_reconn c 0) AI_STATE_CLIENT_HELLO) []) w.
Proof. unfold ai_connect, ai_client_set_state. called_tac (basic_connect (proto w)). Qed.
Lemma hello_called w : run ai_client_hello w = called op_hello basic_client_hello (changed (fun c => with_state c AI_STATE_AUTH_REQ) []) w.
Proof. unfold ai_client_hello, ai_client_set_state. called_tac (basic_client_hello (proto w)). Qed.
Lemma auth_req_called w : run ai_auth_req w = called op_auth_req basic_auth_req (changed (fun c => with_state c AI_STATE_AUTH_RESP) []) w.
Proof. unfold ai_auth_req, ai_client_set_state. called_tac (basic_auth_req (proto w)). Qed.
Lemma auth_resp_called i w :
  run (ai_auth_resp i) w = called op_auth_resp basic_auth_resp (fun w => changed (to_running i) (running_effects (cli w)) w) w.
Proof. unfold ai_auth_resp, tuya_ai_client_start_ping, ai_client_set_state. called_tac (basic_auth_resp (proto w)). Qed.

(** Arming the timer of the lease touches neither client nor protocol. *)
Lemma start_expire_run i w : exists es, run (ai_start_expire_tid i) w = Some (tt, changed id es w).
Proof.
  unfold ai_start_expire_tid. run_m. destruct (expire w <=? in_posix i).
  - exists []. unfold changed, with_log, with_cli. rewrite app_nil_r. by destruct w.
  - eexists [_; _]. cbn [run mbind prog_bind option_bind fst snd]. unfold changed, with_log. cbn. by rewrite <- app_assoc.
Qed.

Lemma run_basic o op w : run (basic o op) w = (r ← op (proto w); Some (r.1, with_op (with_proto w r.2) o r.1)).
Proof. unfold basic, blocking. cbn [run]. by destruct (op (proto w)). Qed.
Lemma run_cfg rt w : run (request_cfg rt) w = Some (rt, with_op w op_cfg rt).
Proof. done. Qed.

(** What asking for a server leaves. *)
Definition asked (i : inputs) (w : world) : world :=
  with_expire (with_cli w (with_state (cli w) AI_STATE_CONNECT)) (in_cfg_expire i).

Lemma setup_run i w rt p : basic_setup (proto w) = Some (rt, p) ->
  let w1 := with_op (with_proto w p) op_setup rt in
  let w2 := with_op w1 op_cfg (in_cfg_req i) in
  if negb (rt =? OPRT_OK) then run (ai_setup i) w = Some (rt, w1)
  else if in_cfg_req i =? OPRT_OK then exists es, run (ai_setup i) w = Some (OPRT_OK, changed id es (asked i w2))
  else run (ai_setup i) w = Some (in_cfg_req i, changed (fun c => if in_cfg_req i =? OPRT_SVC_MQTT_GW_MQ_OFFLILNE then with_state c AI_STATE_IDLE else c) [] w2).
Proof.
  intros E w1 w2. unfold ai_setup. rewrite (run_bind_some _ _ _ rt w1) by (rewrite run_basic, E; done).
  destruct (negb (rt =? OPRT_OK)) eqn:Er; [done|]. rewrite (run_bind_some _ _ _ (in_cfg_req i) w2) by done.
  destruct (Z.eqb_spec (in_cfg_req i) OPRT_OK) as [Eq|Eq]; cbn [negb].
  - rewrite (run_bind_some _ _ _ tt (with_expire w2 (in_cfg_expire i))) by done.
    destruct (start_expire_run i (with_expire w2 (in_cfg_expire i))) as (es & Ee). rewrite (run_bind_some _ _ _ _ _ Ee).
    exists (es ++ [e_work_stop]). unfold ai_client_set_state. run_m.
    unfold changed, asked, with_log, with_cli, with_expire. cbn. by rewrite <- app_assoc.
  - clearbody w2. destruct (in_cfg_req i =? OPRT_SVC_MQTT_GW_MQ_OFFLILNE); unfold ai_client_set_state; run_m;
      unfold changed, with_log; cbn; rewrite app_nil_r; by destruct w2.
Qed.

Lemma round_run i rt w : run (ai_client_round i rt) w
  = (r ← run (handler i rt (state (cli w))) w;
     if negb (r.1 =? OPRT_OK) then e ← run (ai_client_handle_err i) r.2; Some (r.1, e.2) else Some r).
Proof.
  change (run (ai_client_round i rt) w) with
    (run (rt ← handler i rt (state (cli w)); _ ← (if negb (rt =? OPRT_OK) then ai_client_handle_err i else mret tt); mret rt) w).
  rewrite run_bind. destruct (run (handler i rt (state (cli w))) w) as [[r w1]|]; [|done]. cbn [mbind option_bind fst snd].
  rewrite run_bind. by destruct (negb (r =? OPRT_OK)).
Qed.

Lemma round_ok i rt w w' : run (handler i rt (state (cli w))) w = Some (OPRT_OK, w') -> run (ai_client_round i rt) w = Some (OPRT_OK, w').
Proof. intros H. rewrite round_run, H. done. Qed.

Lemma round_err i rt w r w1 w' : run (handler i rt (state (cli w))) w = Some (r, w1) -> r <> OPRT_OK ->
  run (ai_client_handle_err i) w1 = Some (tt, w') -> run (ai_client_round i rt) w = Some (r, w').
Proof. intros H Hr He. rewrite round_run, H. cbn [mbind option_bind fst snd]. apply Z.eqb_neq in Hr. rewrite Hr. cbn [negb]. by rewrite He. Qed.

Lemma round_called i rt w o op ok p' : run (handler i rt (state (cli w))) w = called o op ok w -> op (proto w) = Some (OPRT_OK, p') ->
  run (ai_client_round i rt) w = Some (OPRT_OK, ok (with_op (with_proto w p') o OPRT_OK)).
Proof. intros H Ho. apply round_ok. rewrite H. unfold called. by rewrite Ho. Qed.

(** (C25) With the network and the clock ready, a server granted and every operation of the
    protocol successful, an idle client is running after six rounds, with the counts of
    attempts and of missing answers at zero and the heartbeat and the idle timer started. *)
Theorem ai_client_connects i1 i2 i3 i4 i5 i6 rt w p1 p2 p3 p4 p5 :
  state (cli w) = AI_STATE_IDLE -> in_mqtt i1 = true -> in_time_sync i1 = true -> in_cfg_req i2 = OPRT_OK ->
  basic_setup (proto w) = Some (OPRT_OK, p1) -> basic_connect p1 = Some (OPRT_OK, p2) -> basic_client_hello p2 = Some (OPRT_OK, p3) ->
  basic_auth_req p3 = Some (OPRT_OK, p4) -> basic_auth_resp p4 = Some (OPRT_OK, p5) ->
  exists w' es, rounds [i1; i2; i3; i4; i5; i6] rt w = Some (OPRT_OK, w')
    /\ state (cli w') = AI_STATE_RUNNING /\ proto w' = p5 /\ reconn_cnt (cli w') = 0 /\ heartbeat_lost_cnt (cli w') = 0
    /\ tuya_ai_client_is_ready (cli w') = negb (terminate (cli w)) /\ expire w' = in_cfg_expire i2
    /\ log w' = log w ++ es ++ running_effects (cli w).
Proof.
  intros Es Hq Ht Hc E1 E2 E3 E4 E5. cbn [rounds].
  assert (run (ai_client_round i1 rt) w = Some (OPRT_OK, changed (fun c => with_state c AI_STATE_SETUP) [] w)) as ->.
  { apply round_ok. rewrite Es. cbn [handler]. unfold ai_idle. rewrite Hq, Ht. unfold changed, with_log. cbn. by rewrite app_nil_r. }
  cbn [mbind option_bind fst snd]. set (w1 := changed _ _ w). pose proof (setup_run i2 w1 _ _ E1) as Er.
  change (negb (OPRT_OK =? OPRT_OK)) with false in Er. cbv zeta iota in Er. rewrite Hc in Er. change (OPRT_OK =? OPRT_OK) with true in Er. cbv iota in Er. destruct Er as (es & Er).
  erewrite (round_ok i2 OPRT_OK w1) by exact Er. cbn [mbind option_bind fst snd].
  erewrite (round_called i3) by (first [exact (connect_called _)|exact E2]). cbn [mbind option_bind fst snd].
  erewrite (round_called i4) by (first [exact (hello_called _)|exact E3]). cbn [mbind option_bind fst snd].
  erewrite (round_called i5) by (first [exact (auth_req_called _)|exact E4]). cbn [mbind option_bind fst snd].
  erewrite (round_called i6) by (first [exact (auth_resp_called _ _)|exact E5]). cbn [mbind option_bind fst snd].
  eexists _, es. split; [done|]. cbn. unfold tuya_ai_client_is_ready. cbn. rewrite !app_nil_r, andb_true_r, <- app_assoc. by split_and!.
Qed.

(** ** Failing attempts *)

(** The waiting time of the attempt number [n] of a row, counted from the last connection. *)
Definition waits (n : Z) (e : effect) : Prop :=
  exists mn mx s, reconn !! Z.to_nat (Z.min n 6) = Some (mn, mx) /\ mn <= s <= mx /\ e = e_sleep (s * 1000).

Lemma handle_err_setup i w : state (cli w) = AI_STATE_SETUP -> 0 <= reconn_cnt (cli w) <= 6 ->
  exists e, run (ai_client_handle_err i) w = Some (tt, changed (fun c => with_reconn c (Z.min (reconn_cnt c + 1) 6)) [e] w) /\ waits (reconn_cnt (cli w)) e.
Proof.
  intros Es Hn. unfold ai_client_handle_err. run_m. rewrite Es. destruct (reconn_row _ Hn) as (mn & mx & Hrow & Hmn & Hmx). rewrite Hrow.
  pose proof (random_value_range i mn mx) as Hv. set (s := ai_get_random_value i mn mx) in *.
  exists (e_sleep (s * 1000)). split; [|exists mn, mx, s; rewrite Z.min_l by lia; split_and!; try done; lia].
  run_m. rewrite (u32_small (s * 1000)) by (unfold is_u32; lia). unfold changed, with_log, with_cli. cbn [cli proto expire log ops]. do 4 f_equal.
  unfold AI_RECONN_TIME_NUM. destruct (Z.leb_spec (7 - 1) (reconn_cnt (cli w))); lia.
Qed.

(** The effects of [n] attempts from the attempt number [k] on. *)
Fixpoint waiting (k : Z) (es : list effect) : Prop :=
  match es with [] => True | e :: es => waits k e /\ waiting (k + 1) es end.

Lemma waiting_min es : forall k k', Z.min k 6 = Z.min k' 6 -> waiting k es -> waiting k' es.
Proof.
  induction es as [|e es IH]; intros k k' Hk; [done|]. intros [Hw Hr]. split; [|eapply IH; [|exact Hr]; lia].
  destruct Hw as (mn & mx & s & H & Hs). exists mn, mx, s. by rewrite <- Hk.
Qed.

(** An attempt that fails: in the setup of the protocol or in the request for a server, there
    with another code than that the device is offline. *)
Definition attempt_fails (i : inputs) : Prop := forall p, exists rt p', basic_setup p = Some (rt, p')
  /\ (rt = OPRT_OK -> in_cfg_req i <> OPRT_OK /\ in_cfg_req i <> OPRT_SVC_MQTT_GW_MQ_OFFLILNE).

Lemma setup_fails i rt w : attempt_fails i -> state (cli w) = AI_STATE_SETUP -> 0 <= reconn_cnt (cli w) <= 6 ->
  exists r w' e, run (ai_client_round i rt) w = Some (r, w') /\ cli w' = with_reconn (cli w) (Z.min (reconn_cnt (cli w) + 1) 6)
    /\ log w' = log w ++ [e] /\ waits (reconn_cnt (cli w)) e.
Proof.
  intros Hf Es Hn. destruct (Hf (proto w)) as (r & p' & E & Hr). pose proof (setup_run i w r p' E) as Er. cbv zeta in Er.
  assert (exists r' w1, run (ai_setup i) w = Some (r', w1) /\ r' <> OPRT_OK /\ cli w1 = cli w /\ log w1 = log w) as (r' & w1 & E1 & Hr' & Ec & El).
  { destruct (Z.eqb_spec r OPRT_OK) as [->|Hne]; cbn [negb] in Er; [|by eexists _, _].
    destruct (Hr eq_refl) as [H1 H2]. apply Z.eqb_neq in H1 as H1b. apply Z.eqb_neq in H2 as H2b. rewrite H1b, H2b in Er.
    eexists _, _. split; [exact Er|]. split; [done|]. split; [done|]. cbn. by rewrite app_nil_r. }
  destruct (handle_err_setup i w1) as (e & He & Hw); [by rewrite Ec|by rewrite Ec|].
  eexists r', _, e. split; [eapply (round_err i rt w r' w1); [by rewrite Es|done|exact He]|]. rewrite Ec in Hw. cbn. by rewrite Ec, El.
Qed.

Lemma offline_round i rt w p' : state (cli w) = AI_STATE_SETUP -> basic_setup (proto w) = Some (OPRT_OK, p') ->
  in_cfg_req i = OPRT_SVC_MQTT_GW_MQ_OFFLILNE ->
  exists w', run (ai_client_round i rt) w = Some (OPRT_SVC_MQTT_GW_MQ_OFFLILNE, w') /\ cli w' = with_state (cli w) AI_STATE_IDLE
    /\ log w' = log w ++ [e_sleep 1000].
Proof.
  intros Es E Hc. pose proof (setup_run i w _ p' E) as Er. cbv zeta in Er. change (negb (OPRT_OK =? OPRT_OK)) with false in Er. cbv iota in Er.
  rewrite Hc in Er. change (OPRT_SVC_MQTT_GW_MQ_OFFLILNE =? OPRT_OK) with false in Er.
  change (OPRT_SVC_MQTT_GW_MQ_OFFLILNE =? OPRT_SVC_MQTT_GW_MQ_OFFLILNE) with true in Er. cbv iota in Er.
  eexists. split; [eapply round_err; [rewrite Es; exact Er|done|reflexivity]|]. cbn. split; [done|]. by rewrite app_nil_r.
Qed.

(** (C39) While the attempts to set up fail, be it in the setup of the protocol or in the
    request for a server, the client stays in that state and waits after each: a random time of
    the row of the table that belongs to the number of failures since the last connection, of
    the last row when there are more failures than rows. Only the answer that the device is
    offline makes it idle: it waits a second and keeps the number. The rounds are those of the
    client's thread, with no other thread closing the connection meanwhile. *)
Theorem ai_client_backoff l : forall rt w, state (cli w) = AI_STATE_SETUP -> 0 <= reconn_cnt (cli w) <= 6 -> Forall attempt_fails l ->
  exists r w' es, rounds l rt w = Some (r, w') /\ state (cli w') = AI_STATE_SETUP
    /\ reconn_cnt (cli w') = Z.min (reconn_cnt (cli w) + zlen l) 6
    /\ log w' = log w ++ es /\ length es = length l /\ waiting (reconn_cnt (cli w)) es
    /\ forall i p', basic_setup (proto w') = Some (OPRT_OK, p') -> in_cfg_req i = OPRT_SVC_MQTT_GW_MQ_OFFLILNE ->
       exists w2, run (ai_client_round i r) w' = Some (OPRT_SVC_MQTT_GW_MQ_OFFLILNE, w2) /\ state (cli w2) = AI_STATE_IDLE
         /\ reconn_cnt (cli w2) = reconn_cnt (cli w') /\ log w2 = log w' ++ [e_sleep 1000].
Proof.
  induction l as [|i l IH]; intros rt w Es Hn Hf.
  { exists rt, w, []. cbn [rounds waiting length]. rewrite app_nil_r. change (zlen []) with 0. split_and!; try done; [lia|].
    intros i p' E Hc. destruct (offline_round i rt w p' Es E Hc) as (w2 & E2 & Ec & El). exists w2. rewrite Ec. by split_and!. }
  inversion Hf as [|? ? Hi Hf']; subst. cbn [rounds]. destruct (setup_fails i rt w Hi Es Hn) as (r & w1 & e & -> & Ec & El & Hw). cbn [mbind option_bind fst snd].
  destruct (IH r w1) as (r' & w' & es & -> & Es' & En & El' & Hl & Hes & Ho); [by rewrite Ec|rewrite Ec; cbn; lia|done|].
  exists r', w', (e :: es). split; [done|]. split; [done|]. rewrite Ec in En, Hes. cbn [reconn_cnt with_reconn] in En, Hes.
  split; [rewrite En, zlen_cons; pose proof (zlen_nonneg l); lia|]. split; [by rewrite El', El, <- app_assoc|].
  split; [cbn; by f_equal|]. split; [|done]. split; [done|]. eapply waiting_min; [|exact Hes]. lia.
Qed.

(** A hello or a request for authentication that fails is repeated every second, without an
    end: the client does not connect again, the connection is not closed. *)
Lemma ai_client_stuck s op l :
  (s = AI_STATE_CLIENT_HELLO /\ op = basic_client_hello) \/ (s = AI_STATE_AUTH_REQ /\ op = basic_auth_req) ->
  (forall p, exists rt p', op p = Some (rt, p') /\ rt <> OPRT_OK) ->
  forall rt w, state (cli w) = s ->
  exists r w', rounds l rt w = Some (r, w') /\ cli w' = cli w /\ log w' = log w ++ replicate (length l) (e_sleep 1000).
Proof.
  intros Hs Hf. induction l as [|i l IH]; intros rt w Es; cbn [rounds length replicate]; [exists rt, w; by rewrite app_nil_r|].
  destruct (Hf (proto w)) as (r & p' & E & Hr).
  assert (exists w1, run (ai_client_round i rt) w = Some (r, w1) /\ cli w1 = cli w /\ log w1 = log w ++ [e_sleep 1000]) as (w1 & -> & Ec1 & El1).
  { assert (exists o, run (handler i rt s) w = Some (r, with_op (with_proto w p') o r)
        /\ run (ai_client_handle_err i) (with_op (with_proto w p') o r) = Some (tt, with_log (with_op (with_proto w p') o r) [e_sleep 1000]))
      as (o & E1 & E2).
    { apply Z.eqb_neq in Hr as Hb. destruct Hs as [[-> ->]|[-> ->]]; [exists op_hello|exists op_auth_req]; cbn [handler];
        (split; [rewrite ?hello_called, ?auth_req_called; unfold called; rewrite E; cbn [mbind option_bind fst snd]; by rewrite Hb|]);
        unfold ai_client_handle_err; run_m; cbn [with_op with_proto cli]; by rewrite Es. }
    eexists. split; [eapply (round_err i rt w r); [by rewrite Es|done|exact E2]|done]. }
  cbn [mbind option_bind fst snd]. destruct (IH r w1) as (r' & w' & -> & Ec & El); [by rewrite Ec1|].
  exists r', w'. split; [done|]. rewrite Ec, El, Ec1, El1. by rewrite <- app_assoc.
Qed.

(** A connection that the server has closed gives success without a packet: the round ends at
    once, so that the thread spins. *)
Lemma ai_client_spins i rt w p' : state (cli w) = AI_STATE_RUNNING -> basic_pkt_read (proto w) = Some (OPRT_OK, p', None) ->
  run (ai_client_round i rt) w = Some (OPRT_OK, with_op (with_proto w p') op_read OPRT_OK).
Proof.
  intros Es Hr. apply round_ok. rewrite Es. cbn [handler]. unfold ai_running.
  rewrite (run_bind_some _ _ _ (OPRT_OK, None) (with_op (with_proto w p') op_read OPRT_OK)); [done|]. unfold read, blocking. cbn [run]. by rewrite Hr.
Qed.

Lemma conn_close_fault w : basic_conn_close AI_CODE_CLOSE_BY_CLIENT (proto w) = None -> run ai_conn_close w = None.
Proof. intros H. unfold ai_conn_close, tuya_ai_client_stop_ping, ai_stop_alive_time. run_m. cbn [proto with_cli with_log]. by rewrite H. Qed.

(** * Schedules

    A schedule that is given runs the system. *)
Inductive move := mv_round (i : inputs) | mv_client | mv_timer (n : nat) | mv_timer_turn.
Definition go (m : move) (x : system) : option system :=
  match m with
  | mv_round i =>
      match t_client x with
      | Ret rt => if terminate (cli (shared x)) then None
                  else Some {| shared := shared x; t_client := ai_client_round i rt; t_timer := t_timer x; t_work := t_work x |}
      | _ => None
      end
  | mv_client => r ← turn (t_client x) (shared x); Some {| shared := r.2; t_client := r.1; t_timer := t_timer x; t_work := t_work x |}
  | mv_timer n =>
      match t_timer x with
      | Ret tt => h ← timer_callbacks !! n; Some {| shared := shared x; t_client := t_client x; t_timer := h; t_work := t_work x |}
      | _ => None
      end
  | mv_timer_turn => r ← turn (t_timer x) (shared x); Some {| shared := r.2; t_client := t_client x; t_timer := r.1; t_work := t_work x |}
  end.
Fixpoint play (ms : list move) (x : system) : option system := match ms with [] => Some x | m :: ms => y ← go m x; play ms y end.

Lemma go_step m x y : go m x = Some y -> client_step x y.
Proof.
  destruct x as [w c t k], m as [i| |n|]; cbn [go t_client t_timer t_work shared].
  - destruct c as [rt| |]; [|done..]. destruct (terminate (cli w)) eqn:Et; [done|]. intros H. injection H as <-. by apply step_round.
  - destruct (turn c w) as [[c' w']|] eqn:E; [|done]. intros H. injection H as <-. by apply turn_client.
  - destruct t as [[]| |]; [|done..]. destruct (timer_callbacks !! n) as [h|] eqn:E; [|done]. intros H. injection H as <-.
    apply step_timer. by eapply list_elem_of_lookup_2.
  - destruct (turn t w) as [[t' w']|] eqn:E; [|done]. intros H. injection H as <-. by apply turn_timer.
Qed.

Lemma play_steps ms x y : play ms x = Some y -> rtc client_step x y.
Proof.
  revert x. induction ms as [|m ms IH]; intros x; cbn [play].
  - intros H. by injection H as <-.
  - destruct (go m x) as [z|] eqn:E; [|done]. intros H. eapply rtc_l; [by eapply go_step|by apply IH].
Qed.

End Client.

(** * The protocol of the session as the interface

    What the surroundings give to each operation: the address, the transporter and the
    results of connecting, the clock, the server configuration, the local key, the mutex,
    and how many random words were drawn. *)
Record surroundings := {
  s_ip_ok : bool; s_created : option transport; s_results : list Z; s_ts : Z; s_cfg : AI_SERVER_CFG_INFO_T; s_local_key : list Z;
  s_mutex : Z; s_drawn : nat }.

(** [owned]: the packet that was read last is the buffer of [recv_frag_mng]. *)
Record session := { s_proto : option AI_BASIC_PROTO_T; owned : bool; tick : nat }.

Section Instance.
Context `{!MbedtlsCipher} (sha256 : Md) (malloc : Z -> bool) (szw ctx_size max_fragment : Z) (char_signed : bool).
Context (rnd : nat -> Z) (hkdf : list Z -> list Z -> Z * list Z) (size read_buf write_buf heartbeat : Z) (fuel : nat) (env : nat -> surroundings).

Definition operation (op : surroundings -> option AI_BASIC_PROTO_T -> option (Z * option AI_BASIC_PROTO_T)) (s : session) : option (Z * session) :=
  '(rt, p) ← op (env (tick s)) (s_proto s); Some (rt, {| s_proto := p; owned := false; tick := S (tick s) |}).

Definition session_read (s : session) : option (Z * session * option (list Z * Z * Z)) :=
  p ← s_proto s;
  r ← tuya_ai_basic_pkt_read sha256 malloc szw ctx_size max_fragment char_signed fuel p;
  '(rt, p, out) ← r;
  Some (rt, {| s_proto := Some p; owned := negb (frag_flag p) && (r_frag_flag (recv_frag_mng p) =? AI_PACKET_FRAG_END); tick := S (tick s) |}, out).

#[export] Instance session_basic : AiBasic session := {|
  basic_setup := operation (fun e p => tuya_ai_basic_setup malloc rnd hkdf size (s_mutex e) (s_local_key e) p (s_drawn e));
  basic_connect := operation (fun e => tuya_ai_basic_connect (s_ip_ok e) (s_created e) (s_results e));
  basic_client_hello := operation (fun e => tuya_ai_basic_client_hello sha256 malloc szw ctx_size max_fragment read_buf write_buf heartbeat (s_cfg e));
  basic_auth_req := operation (fun e => tuya_ai_basic_auth_req sha256 malloc szw ctx_size max_fragment (s_cfg e));
  basic_auth_resp := operation (fun _ p =>
    p ← p; r ← tuya_ai_auth_resp sha256 malloc szw ctx_size max_fragment char_signed fuel p; '(rt, p) ← r; Some (rt, Some p));
  basic_refresh_req := operation (fun _ => tuya_ai_basic_refresh_req sha256 malloc szw ctx_size max_fragment);
  basic_ping := operation (fun e => tuya_ai_basic_ping sha256 malloc szw ctx_size max_fragment (s_ts e));
  basic_conn_close code := operation (fun _ => tuya_ai_basic_conn_close sha256 malloc szw ctx_size max_fragment code);
  basic_pkt_read := session_read;
  basic_pkt_free _ s := p ← s_proto s; Some {| s_proto := Some (tuya_ai_basic_pkt_free p (owned s)); owned := false; tick := tick s |};
  basic_arrive b s :=
    {| s_proto := (fun p => with_transporter p ((fun t => {| rx := rx t ++ [rx_data b]; tx := tx t; sent_bytes := sent_bytes t |}) <$> transporter p)) <$> s_proto s;
       owned := owned s; tick := tick s |} |}.

(** A session whose timer of answers runs out before it was ever set up: closing the
    connection writes through the null pointer. *)
Lemma ai_close_before_setup w : (forall n, malloc n = true) -> s_proto (proto w) = None -> run ai_conn_close w = None.
Proof.
  intros Hm Hp. apply conn_close_fault. cbn [basic_conn_close session_basic]. unfold operation. rewrite Hp. by rewrite ai_conn_close_null.
Qed.
End Instance.

(** * Instances *)

(** A protocol whose operations all succeed and count themselves. *)
#[local] Instance toy_basic : AiBasic Z := {|
  basic_setup p := Some (OPRT_OK, p + 1); basic_connect p := Some (OPRT_OK, p + 1); basic_client_hello p := Some (OPRT_OK, p + 1);
  basic_auth_req p := Some (OPRT_OK, p + 1); basic_auth_resp p := Some (OPRT_OK, p + 1); basic_refresh_req p := Some (OPRT_OK, p + 1);
  basic_ping p := Some (OPRT_OK, p + 1); basic_conn_close _ p := Some (OPRT_OK, p + 1); basic_pkt_read p := Some (OPRT_OK, p, None);
  basic_pkt_free _ p := Some p; basic_arrive _ p := p |}.

(** A protocol that cannot be set up in every second attempt. *)
Definition broken_basic : AiBasic Z := {|
  basic_setup p := Some (if Z.odd p then OPRT_COM_ERROR else OPRT_OK, p + 1); basic_connect p := None; basic_client_hello p := None;
  basic_auth_req p := None; basic_auth_resp p := None; basic_refresh_req p := None;
  basic_ping p := None; basic_conn_close _ p := None; basic_pkt_read p := None; basic_pkt_free _ p := None;
  basic_arrive _ p := p |}.

Definition good_inputs : inputs :=
  {| in_mqtt := true; in_posix := 1000; in_time_sync := true; in_cfg_req := OPRT_OK; in_cfg_expire := 5000; in_random := 12345 |}.

(** The server does not answer, or says that the device is offline. *)
Definition with_cfg (rt : Z) : inputs :=
  {| in_mqtt := true; in_posix := 1000; in_time_sync := true; in_cfg_req := rt; in_cfg_expire := 5000; in_random := 12345 |}.

Definition toy_world (p : Z) (s : AI_CLIENT_STATE_E) : world :=
  {| cli := with_state client_init s; proto := p; expire := 0; log := []; ops := [] |}.

(** The six rounds to a running client: each begins and takes as many turns as it has pauses. *)
Definition toy_round (n : nat) : list move := mv_round good_inputs :: replicate n mv_client.
Definition to_auth_resp : list move := toy_round 1 ++ toy_round 5 ++ toy_round 3 ++ toy_round 3 ++ toy_round 3.

(** Six rounds and a lost answer from the start of the client. *)
Lemma toy_run : exists x, rtc (client_step (fun _ => true)) (start 0) x /\ state (cli (shared x)) = AI_STATE_RUNNING
  /\ heartbeat_lost_cnt (cli (shared x)) = 1 /\ t_client x = Ret OPRT_OK.
Proof.
  eexists. split; [apply (play_steps (fun _ => true) (to_auth_resp ++ toy_round 3 ++ [mv_timer 1; mv_timer_turn])); vm_compute; reflexivity|].
  by vm_compute.
Defined.

Lemma ai_client_established_witness :
  exists x, rtc (client_step (fun _ => true)) (start 0) x /\ state (cli (shared x)) = AI_STATE_RUNNING
    /\ handshake AI_STATE_RUNNING (client_ops (shared x)).
Proof.
  destruct toy_run as (x & H & Hs & _). exists x. split; [done|]. split; [done|].
  destruct (ai_client_established (fun _ => true) 0 x H) as [Hr _]. by apply Hr.
Defined.

Lemma ai_client_invariant_witness :
  exists x, rtc (client_step (fun _ => true)) (start 0) x /\ heartbeat_lost_cnt (cli (shared x)) = 1
    /\ 0 <= reconn_cnt (cli (shared x)) < zlen reconn /\ state (cli (shared x)) <> AI_STATE_END.
Proof.
  destruct toy_run as (x & H & _ & Hl & _). exists x. split; [done|]. split; [done|].
  destruct (ai_client_invariant (fun _ => true) 0 x H) as (H1 & _ & H2 & _). by split.
Defined.

(** The timer of an earlier connection closes while the thread waits for the reply of the
    authentication; the thread then sets the running state over the idle one, and the client
    runs on a connection it has closed. *)
Theorem ai_client_runs_closed : exists x, rtc (client_step (fun _ => true)) (start 0) x /\ state (cli (shared x)) = AI_STATE_RUNNING
  /\ exists h, ops (shared x) = h ++ [(op_auth_req, OPRT_OK); (op_close, OPRT_OK); (op_auth_resp, OPRT_OK)].
Proof.
  eexists. split.
  - apply (play_steps (fun _ => true) (to_auth_resp ++ [mv_round good_inputs; mv_client] ++ [mv_timer 1; mv_timer_turn; mv_timer 1; mv_timer_turn]
      ++ [mv_timer 1; mv_timer_turn; mv_timer_turn; mv_timer_turn] ++ [mv_client; mv_client])). vm_compute. reflexivity.
  - split; [by vm_compute|]. eexists [_; _; _; _]. vm_compute. reflexivity.
Qed.

Lemma ai_client_connects_witness : let i := good_inputs in
  exists w' es, rounds (fun _ => true) [i; i; i; i; i; i] 0 (toy_world 7 AI_STATE_IDLE) = Some (OPRT_OK, w')
    /\ state (cli w') = AI_STATE_RUNNING /\ proto w' = 12 /\ reconn_cnt (cli w') = 0 /\ heartbeat_lost_cnt (cli w') = 0
    /\ tuya_ai_client_is_ready (cli w') = true /\ expire w' = 5000 /\ log w' = es ++ running_effects client_init.
Proof.
  cbv zeta.
  apply (ai_client_connects (fun _ => true) good_inputs good_inputs good_inputs good_inputs good_inputs good_inputs 0 (toy_world 7 AI_STATE_IDLE) 8 9 10 11 12);
    reflexivity.
Defined.

(** Nine attempts that fail in turn in the setup and in the request, and then the answer that
    the device is offline. *)
Lemma ai_client_backoff_witness : let w := toy_world 1 AI_STATE_SETUP in
  exists r w' es, @rounds Z broken_basic (fun _ => true) (replicate 9 (with_cfg OPRT_COM_ERROR)) 0 w = Some (r, w') /\ state (cli w') = AI_STATE_SETUP
    /\ reconn_cnt (cli w') = 6 /\ log w' = es /\ length es = 9%nat /\ waiting 0 es
    /\ forall i p', @basic_setup Z broken_basic (proto w') = Some (OPRT_OK, p') -> in_cfg_req i = OPRT_SVC_MQTT_GW_MQ_OFFLILNE ->
       exists w2, run (@ai_client_round Z broken_basic (fun _ => true) i r) w' = Some (OPRT_SVC_MQTT_GW_MQ_OFFLILNE, w2)
         /\ state (cli w2) = AI_STATE_IDLE /\ reconn_cnt (cli w2) = reconn_cnt (cli w') /\ log w2 = log w' ++ [e_sleep 1000].
Proof.
  cbv zeta. apply (@ai_client_backoff Z broken_basic (fun _ => true)).
  - done.
  - by split.
  - apply list.Forall_replicate. intros p. cbn [basic_setup broken_basic]. by eexists _, _.
Defined.
