(* ===== verification/DpSchema.v ===== *)
(** Data points: the schema of a device, the filter of reported data points, the
    JSON report and the parser of received data points, from
    [src/tuya_cloud_service/schema/dp_schema.c]. *)
From Stdlib Require Import ZArith Lia String.
From stdpp Require Import base tactics option list numbers.
From S2P Require Import Prelude Text.

Local Open Scope Z_scope.

(** * Data (dp_schema.h)

    The unions are inductive types, whose tag is the property type the code keeps
    beside them. C strings are their bytes without the terminator. *)

Definition PROP_BOOL : Z := 0.
Definition PROP_VALUE : Z := 1.
Definition PROP_STR : Z := 2.
Definition PROP_ENUM : Z := 3.
Definition PROP_BITMAP : Z := 4.

Definition T_OBJ_REPT : Z := 0.
Definition T_RAW_REPT : Z := 1.
Definition T_STAT_REPT : Z := 2.
Definition T_RE_TRANS_REPT : Z := 10.

Definition T_OBJ : Z := 0.
Definition T_RAW : Z := 1.
Definition T_FILE : Z := 2.

Definition M_WR : Z := 1.
Definition TRIG_DIRECT : Z := 1.

Definition PSV_TRUE : Z := 1.
Definition PSV_F_ONCE : Z := 2.

Definition PV_STAT_INVALID : Z := 0.
Definition PV_STAT_LOCAL : Z := 1.
Definition PV_STAT_CLOUD : Z := 3.

Definition DP_REPT_NO_FILTER_FLAG : Z := 1.

Inductive dp_value_t :=
| dp_bool (b : bool)
| dp_value (v : Z)           (* int *)
| dp_str (s : list Z)
| dp_enum (v : Z)            (* uint32_t *)
| dp_bitmap (v : Z).         (* uint32_t *)

Definition value_type (v : dp_value_t) : Z :=
  match v with
  | dp_bool _ => PROP_BOOL | dp_value _ => PROP_VALUE | dp_str _ => PROP_STR
  | dp_enum _ => PROP_ENUM | dp_bitmap _ => PROP_BITMAP
  end.

Record dp_obj_t := { dp_id : Z; dp_val : dp_value_t; dp_time : Z }.
Definition dp_type (d : dp_obj_t) : Z := value_type (dp_val d).

Inductive dp_prop_value_t :=
| prop_bool (value : bool)
| prop_int (min max value : Z)
| prop_str (max_len cur_len : Z) (value : option (list Z))
| prop_enum (pp_enum : list (list Z)) (value : Z)
| prop_bitmap (max_len value : Z).

Record dp_desc_t := { id : Z; mode : Z; passive : Z; d_type : Z; trig : Z }.

Record dp_node_t := { desc : dp_desc_t; prop : dp_prop_value_t; pv_stat : Z; time_stamp : Z }.

Definition prop_tp (n : dp_node_t) : Z :=
  match prop n with
  | prop_bool _ => PROP_BOOL | prop_int _ _ _ => PROP_VALUE | prop_str _ _ _ => PROP_STR
  | prop_enum _ _ => PROP_ENUM | prop_bitmap _ _ => PROP_BITMAP
  end.

Record dp_schema_t := { devid : list Z; preprocess : bool; node : list dp_node_t }.

Definition with_nodes (s : dp_schema_t) (l : list dp_node_t) : dp_schema_t :=
  {| devid := devid s; preprocess := preprocess s; node := l |}.

(** * Look-up *)

(** The index of the first node of the id. *)
Fixpoint node_index (l : list dp_node_t) (i : Z) : option nat :=
  match l with
  | [] => None
  | n :: l' => if id (desc n) =? i then Some O else S <$> node_index l' i
  end.

Definition dp_node_find (s : dp_schema_t) (i : Z) : option dp_node_t :=
  k ← node_index (node s) i; node s !! k.

(** The manager's table has [DP_SCHEMA_NUM_MAX] = 1 entries. *)
Record dp_schema_mgr_t := { schema_num : Z; schema_list : list (option dp_schema_t) }.
Definition DP_SCHEMA_NUM_MAX : Z := 1.

Fixpoint schema_search (l : list (option dp_schema_t)) (dev : list Z) : option dp_schema_t :=
  match l with
  | [] => None
  | None :: l' => schema_search l' dev
  | Some s :: l' => if bool_decide (dev = devid s) then Some s else schema_search l' dev
  end.
Definition dp_schema_find (m : dp_schema_mgr_t) (dev : list Z) : option dp_schema_t :=
  schema_search (schema_list m) dev.

Definition dp_node_find_by_devid (m : dp_schema_mgr_t) (dev : list Z) (i : Z) : option dp_node_t :=
  s ← dp_schema_find m dev; dp_node_find s i.

Fixpoint schema_remove (l : list (option dp_schema_t)) (dev : list Z) : option (list (option dp_schema_t)) :=
  match l with
  | [] => None
  | None :: l' => (cons None) <$> schema_remove l' dev
  | Some s :: l' => if bool_decide (dev = devid s) then Some (None :: l')
                    else (cons (Some s)) <$> schema_remove l' dev
  end.
Definition dp_schema_delete (m : dp_schema_mgr_t) (dev : list Z) : Z * dp_schema_mgr_t :=
  match schema_remove (schema_list m) dev with
  | Some l => (OPRT_OK, {| schema_num := u8 (schema_num m - 1); schema_list := l |})
  | None => (OPRT_OK, m)
  end.

(** * Status *)

Definition set_stat (n : dp_node_t) (st : Z) : dp_node_t :=
  {| desc := desc n; prop := prop n; pv_stat := st; time_stamp := time_stamp n |}.
Definition set_prop (n : dp_node_t) (p : dp_prop_value_t) : dp_node_t :=
  {| desc := desc n; prop := p; pv_stat := pv_stat n; time_stamp := time_stamp n |}.
Definition set_time (n : dp_node_t) (t : Z) : dp_node_t :=
  {| desc := desc n; prop := prop n; pv_stat := pv_stat n; time_stamp := t |}.

Definition dp_pv_stat_get (s : dp_schema_t) (i : Z) : Z :=
  match dp_node_find s i with Some n => pv_stat n | None => PV_STAT_INVALID end.

Definition dp_pv_stat_set (s : dp_schema_t) (i st : Z) : dp_schema_t :=
  match node_index (node s) i with
  | Some k => with_nodes s (alter (fun n => set_stat n st) k (node s))
  | None => s
  end.

(** * Reporting *)

Definition cJSON_Number : Z := 8.     (* 1 << 3 *)

Definition dp_type_check (rept_type : Z) (dp : dp_obj_t) (n : dp_node_t) : bool :=
  if (mode (desc n) =? M_WR)
     || (negb (d_type (desc n) =? T_OBJ) && (rept_type =? T_OBJ_REPT))
     || (negb (d_type (desc n) =? T_RAW) && (rept_type =? T_RAW_REPT)) then false
  else if d_type (desc n) =? T_OBJ then
    match prop n, dp_val dp with
    | prop_bool _, dp_bool _ => true
    | prop_int mn mx _, dp_value v => negb ((mx <? v) || (v <? mn))
    | prop_str max_len _ _, dp_str s => negb (u32 max_len <? zlen s)
    | prop_enum names _, dp_enum v => negb (u32 (zlen names) <=? v)
    | prop_bitmap _ _, dp_bitmap _ => dp_type dp =? cJSON_Number
    | _, _ => false
    end
  else d_type (desc n) =? T_RAW.

(** [is_need_update] before the values are compared. *)
Definition force_update (rept_type : Z) (n : dp_node_t) (flags : Z) : bool :=
  (pv_stat n =? PV_STAT_INVALID) || (pv_stat n =? PV_STAT_LOCAL) || (trig (desc n) =? TRIG_DIRECT)
  || (rept_type =? T_STAT_REPT) || negb (Z.land DP_REPT_NO_FILTER_FLAG flags =? 0).

(** The switch over the property types: whether an update is needed, and the
    node with the new cached value. [malloc_ok]: the string cache can grow. *)
Definition update_value (need : bool) (rept_type : Z) (dp : dp_obj_t) (n : dp_node_t) (malloc_ok : bool)
  : bool * dp_node_t :=
  match prop n, dp_val dp with
  | prop_bool old, dp_bool b =>
      let need := need || negb (Bool.eqb old b) in
      (need, if need then set_prop n (prop_bool b) else n)
  | prop_int mn mx old, dp_value v =>
      let need := need || negb (old =? v) in
      (need, if need then set_prop n (prop_int mn mx v) else n)
  | prop_str max_len cur_len old, dp_str s =>
      let need := need || match old with None => true | Some o => negb (bool_decide (o = s)) end in
      if need then
        let '(need, p) :=
          if match old with None => true | Some _ => cur_len <? zlen s end then
            if malloc_ok then (true, prop_str max_len (zlen s) (Some s)) else (false, prop_str max_len (zlen s) None)
          else (true, prop_str max_len cur_len (Some s)) in
        let n := set_prop n p in
        (need, if rept_type =? T_STAT_REPT then set_time n (dp_time dp) else n)
      else (need, n)
  | prop_enum names old, dp_enum v =>
      if u32 (zlen names) <=? v then (need, n)
      else
        let need := need || negb (u32 old =? v) in
        (need, if need then set_prop n (prop_enum names v) else n)
  | prop_bitmap max_len old, dp_bitmap v =>
      let need := need || negb (old =? v) in
      (need, if need then set_prop n (prop_bitmap max_len v) else n)
  | _, _ => (need, n)
  end.

(** The result is [is_need_update], the negation of what the C function returns. *)
Definition dp_rept_update (rept_type : Z) (dp : dp_obj_t) (n : dp_node_t) (flags : Z) (malloc_ok : bool)
  : bool * dp_node_t :=
  let '(need, n) :=
    if d_type (desc n) =? T_OBJ then update_value (force_update rept_type n flags) rept_type dp n malloc_ok
    else if d_type (desc n) =? T_RAW then (true, set_stat n PV_STAT_LOCAL)
    else (false, n) in
  if need then
    let n := set_stat n PV_STAT_LOCAL in
    (true, if rept_type =? T_STAT_REPT then set_time n (dp_time dp) else n)
  else (false, n).

Record dp_rept_in_t := { rept_type : Z; flags : Z; dps : list dp_obj_t }.
Record dp_rept_valid_t := { len : Z; timelen : Z; dpid : list Z }.

(** The bytes the check reserves for an accepted object; [None] is an enum value
    outside the range. *)
Definition entry_size (dp : dp_obj_t) (n : dp_node_t) : option Z :=
  match dp_val dp, prop n with
  | dp_str s, _ => Some (2 * zlen s + 15)
  | dp_enum v, prop_enum names _ =>
      if u32 (zlen names) <=? v then None else name ← rd names v; Some (zlen name + 15)
  | dp_enum v, _ => None
  | _, _ => Some 20
  end.

(** One round of the loop of [dp_rept_valid_check]: an error code, or the state. *)
Definition check_one (s : dp_schema_t) (rt fl : Z) (dp : dp_obj_t) (malloc_ok : bool)
    (nodes : list dp_node_t) (v : dp_rept_valid_t) : list dp_node_t * (Z + dp_rept_valid_t) :=
  match node_index nodes (dp_id dp) with
  | None => (nodes, inr v)
  | Some k =>
      match nodes !! k with
      | None => (nodes, inr v)
      | Some n =>
          if negb (dp_type dp =? prop_tp n) then (nodes, inl OPRT_SVC_DP_TP_NOT_MATCH)
          else
            let '(skip, n') :=
              if rt =? T_RE_TRANS_REPT then (false, n)
              else if negb (dp_type_check rt dp n) then (true, n)
              else if preprocess s && (passive (desc n) =? PSV_TRUE) then (true, n)
              else let '(need, n') := dp_rept_update rt dp n fl malloc_ok in (negb need, n') in
            let nodes' := <[k := n']> nodes in
            if skip : bool then (nodes', inr v)
            else
              match entry_size dp n' with
              | None => (nodes', inl OPRT_SVC_DP_TYPE_PROP_ILLEGAL)
              | Some sz =>
                  (nodes', inr {| len := u16 (len v + sz);
                                  timelen := if dp_time dp =? 0 then timelen v else u16 (timelen v + 30);
                                  dpid := dpid v ++ [dp_id dp] |})
              end
      end
  end.

Fixpoint check_loop (s : dp_schema_t) (rt fl : Z) (l : list dp_obj_t) (malloc_ok : bool)
    (nodes : list dp_node_t) (v : dp_rept_valid_t) : list dp_node_t * (Z + dp_rept_valid_t) :=
  match l with
  | [] => (nodes, inr v)
  | dp :: l' =>
      match check_one s rt fl dp malloc_ok nodes v with
      | (nodes', inl rc) => (nodes', inl rc)
      | (nodes', inr v') => check_loop s rt fl l' malloc_ok nodes' v'
      end
  end.

(** [dpvalid] is zeroed by the caller; its [num] is the length of [dpid]. *)
Definition dp_rept_valid_check (s : dp_schema_t) (dpin : dp_rept_in_t) (malloc_ok : bool)
  : Z * dp_schema_t * dp_rept_valid_t :=
  let zero := {| len := 0; timelen := 0; dpid := [] |} in
  let '(nodes, r) := check_loop s (rept_type dpin) (flags dpin) (dps dpin) malloc_ok (node s) zero in
  match r with
  | inl rc => (rc, with_nodes s nodes, zero)
  | inr v => (if bool_decide (dpid v = []) then OPRT_SVC_DP_ID_NOT_FOUND else OPRT_OK, with_nodes s nodes, v)
  end.

(** * The JSON report *)

(** [dp_snprintf_append] of [txt] behind the bytes written: [None] is [false]. *)
Definition dp_snprintf_append (buf_len : Z) (buf txt : list Z) : option (list Z) :=
  let offset := zlen buf in
  if buf_len <=? offset then None
  else if buf_len - offset <=? zlen txt then None
  else Some (buf ++ txt).

Fixpoint find_dp (l : list dp_obj_t) (i : Z) : option dp_obj_t :=
  match l with
  | [] => None
  | d :: l' => if i =? dp_id d then Some d else find_dp l' i
  end.

Section Report.
(** [cJSON_PrintUnformatted(cJSON_CreateString(s))], [None] when it fails. *)
Context (cjson_string : list Z -> option (list Z)).

Definition key_text (i : Z) : list Z := [34] ++ print_u32 i ++ [34; 58].

(** The entry of an object, with the comma behind it; a string that cannot be
    printed has none. *)
Definition entry_text (dp : dp_obj_t) (n : dp_node_t) : option (list Z) :=
  match dp_val dp, prop n with
  | dp_bool b, _ => Some (key_text (dp_id dp) ++ str (if b then "true" else "false") ++ [44])
  | dp_value v, _ => Some (key_text (dp_id dp) ++ print_int v ++ [44])
  | dp_bitmap v, _ => Some (key_text (dp_id dp) ++ print_u32 v ++ [44])
  | dp_str s, _ => Some (match cjson_string s with
                         | Some t => key_text (dp_id dp) ++ t ++ [44]
                         | None => []
                         end)
  | dp_enum v, prop_enum names _ => name ← rd names v; Some (key_text (dp_id dp) ++ [34] ++ name ++ [34; 44])
  | dp_enum _, _ => None
  end.

(** The loop over the accepted ids: an error code, or both texts. The outer
    [option] is the memory. *)
Fixpoint output_loop (s : dp_schema_t) (l : list dp_obj_t) (v : dp_rept_valid_t) (need_time : bool)
    (ids : list Z) (buf tbuf : list Z) : option (Z + list Z * list Z) :=
  match ids with
  | [] => Some (inr (buf, tbuf))
  | i :: ids' =>
      match find_dp l i with
      | None => Some (inl OPRT_SVC_DP_ID_NOT_FOUND)
      | Some dp =>
          match dp_node_find s (dp_id dp) with
          | None => Some (inl OPRT_SVC_DP_ID_NOT_FOUND)
          | Some n =>
              if negb (dp_type dp =? prop_tp n) then Some (inl OPRT_SVC_DP_TP_NOT_MATCH)
              else
                txt ← entry_text dp n;
                match (if bool_decide (txt = []) then Some buf else dp_snprintf_append (len v) buf txt) with
                | None => Some (inl OPRT_BUFFER_NOT_ENOUGH)
                | Some buf' =>
                    match (if need_time && negb (dp_time dp =? 0)
                           then dp_snprintf_append (timelen v) tbuf
                                  (key_text (dp_id dp) ++ print_u32 (dp_time dp) ++ [44])
                           else Some tbuf) with
                    | None => Some (inl OPRT_BUFFER_NOT_ENOUGH)
                    | Some tbuf' => output_loop s l v need_time ids' buf' tbuf'
                    end
                end
          end
      end
  end.

(** The last byte written becomes the closing brace. *)
Definition close_text (buf : list Z) : list Z := take (length buf - 1) buf ++ str "}".

(** [want_time]: [dpout->timejson] is set. The texts without their terminator. *)
Definition dp_rept_json_output (s : dp_schema_t) (dpin : dp_rept_in_t) (v : dp_rept_valid_t)
    (want_time : bool) (malloc : Z -> bool) : option (Z * option (list Z) * option (list Z)) :=
  if negb (malloc (len v)) then Some (OPRT_MALLOC_FAILED, None, None)
  else
    let stat := (rept_type dpin =? T_STAT_REPT) && negb (timelen v =? 0) && want_time in
    if stat && negb (malloc (timelen v)) then Some (OPRT_MALLOC_FAILED, None, None)
    else if len v =? 0 then Some (OPRT_BUFFER_NOT_ENOUGH, None, None)
    else
      r ← output_loop s (dps dpin) v stat (dpid v) (str "{") (str "{");
      match r with
      | inl rc => Some (rc, None, None)
      | inr (buf, tbuf) =>
          if len v <=? zlen buf + 1 then Some (OPRT_BUFFER_NOT_ENOUGH, None, None)
          else if stat then
            if timelen v <=? zlen tbuf + 1 then Some (OPRT_BUFFER_NOT_ENOUGH, Some (close_text buf), None)
            else Some (OPRT_OK, Some (close_text buf), Some (close_text tbuf))
          else Some (OPRT_OK, Some (close_text buf), None)
      end.
End Report.

(** * The report envelope *)

(** The parts of [dp_rept_json_append] in order; each [snprintf] fails when it
    does not fit. *)
Fixpoint append_parts (n : Z) (buf : list Z) (parts : list (list Z)) : option (list Z) :=
  match parts with
  | [] => Some buf
  | p :: parts' => if n - zlen buf <=? zlen p then None else append_parts n (buf ++ p) parts'
  end.

Definition dp_rept_json_append (s : option dp_schema_t) (data time type : option (list Z)) (rept_seq : Z)
    (out : bool) (malloc : Z -> bool) : Z * option (list Z) :=
  match s, data with
  | Some s, Some data =>
      if negb out then (OPRT_INVALID_PARM, None)
      else
        let n := zlen data + match time with None => 0 | Some t => zlen t end + 128 in
        if negb (malloc n) then (OPRT_MALLOC_FAILED, None)
        else
          let parts :=
            [str "{" ++ quoted "dps" ++ str ":" ++ data ++ str "," ++ quoted "devId" ++ str ":" ++ [34] ++ devid s ++ [34]]
            ++ match time with Some t => [str "," ++ quoted "t" ++ str ":" ++ t] | None => [] end
            ++ (if 0 <? rept_seq then [str "," ++ quoted "seq" ++ str ":" ++ [34] ++ print_u32 rept_seq ++ [34]] else [])
            ++ match type with Some t => [str "," ++ quoted "type" ++ str ":" ++ [34] ++ t ++ [34]] | None => [] end in
          match append_parts n [] parts with
          | None => (OPRT_COM_ERROR, None)
          | Some tmp => (OPRT_OK, Some (tmp ++ str "}"))
          end
  | _, _ => (OPRT_INVALID_PARM, None)
  end.

(** * The objects of a schema text *)

(** The scanner of [dp_node_pos_decode] at position [i] with [brace] open braces;
    [start] is what [pos[n].start] holds. Positions are [uint16_t]. *)
Fixpoint pos_scan (json : list Z) (i brace start : Z) (pos : list (Z * Z)) (pos_num : Z) : list (Z * Z) :=
  match json with
  | [] => pos
  | c :: json' =>
      if c =? 123 then
        pos_scan json' (i + 1) (brace + 1) (if brace =? 0 then u16 i else start) pos pos_num
      else if c =? 125 then
        let brace := brace - 1 in
        let pos := if brace =? 0 then pos ++ [(start, u16 i)] else pos in
        if pos_num <=? zlen pos then pos else pos_scan json' (i + 1) brace start pos pos_num
      else pos_scan json' (i + 1) brace start pos pos_num
  end.

Definition dp_node_pos_decode (schema_json : option (list Z)) (pos_num : Z) : list (Z * Z) :=
  match schema_json with None => [] | Some j => pos_scan j 0 0 0 [] pos_num end.

Definition MAX_ITEM_LEN : Z := 1024.

(** The copy of one object into the work buffer of [dp_node_parse]; the text of
    the schema is terminated. *)
Definition item_copy (schema_json : list Z) (pos : Z * Z) : option (list Z) :=
  let '(start, stop) := pos in
  o ← slice (schema_json ++ [0]) start (stop - start + 1);
  blit (zrepl MAX_ITEM_LEN 0) 0 o.

(** * Receiving *)

Definition cJSON_False : Z := 1.
Definition cJSON_True : Z := 2.
Definition cJSON_String : Z := 16.

Record cjson_item := { string : list Z; c_type : Z; valueint : Z; valuestring : list Z }.

(** [atoi] of the C library: blanks, a sign, digits. *)
Fixpoint atoi_digits (s : list Z) (acc : Z) : Z :=
  match s with
  | [] => acc
  | c :: s' => if (48 <=? c) && (c <=? 57) then atoi_digits s' (s32 (acc * 10 + (c - 48))) else acc
  end.
Fixpoint skip_blanks (s : list Z) : list Z :=
  match s with
  | [] => []
  | c :: s' => if (c =? 32) || ((9 <=? c) && (c <=? 13)) then skip_blanks s' else s
  end.
Definition atoi (s : list Z) : Z :=
  match skip_blanks s with
  | 45 :: s' => s32 (- atoi_digits s' 0)
  | 43 :: s' => atoi_digits s' 0
  | s' => atoi_digits s' 0
  end.

(** What the callback gets. *)
Inductive dp_recv :=
| recv_raw (i : Z) (n : Z) (data : list Z)
| recv_obj (cnt : Z) (l : list dp_obj_t).

Definition zero_obj : dp_obj_t := {| dp_id := 0; dp_val := dp_bool false; dp_time := 0 |}.

Section Receive.
(** [tuya_base64_decode], the clock, the callback pointer and the allocations. *)
Context (b64 : list Z -> list Z) (now : Z) (has_cb malloc_obj malloc_raw : bool).

Definition set_passive (n : dp_node_t) (p : Z) : dp_node_t :=
  {| desc := {| id := id (desc n); mode := mode (desc n); passive := p; d_type := d_type (desc n);
                trig := trig (desc n) |};
     prop := prop n; pv_stat := pv_stat n; time_stamp := time_stamp n |}.

(** The first loop: the passive flags, and the number of object items. *)
Fixpoint recv_count (pre : bool) (items : list cjson_item) (nodes : list dp_node_t) (cnt : Z)
  : list dp_node_t * Z :=
  match items with
  | [] => (nodes, cnt)
  | item :: items' =>
      match node_index nodes (atoi (string item)) with
      | None => recv_count pre items' nodes cnt
      | Some k =>
          let nodes' := if pre then alter (fun n => if passive (desc n) =? PSV_TRUE
                                                    then set_passive n PSV_F_ONCE else n) k nodes else nodes in
          let is_obj := match nodes !! k with Some n => d_type (desc n) =? T_OBJ | None => false end in
          recv_count pre items' nodes' (if is_obj then u16 (cnt + 1) else cnt)
      end
  end.

(** The value of an item for a node: [None] skips it. *)
Definition item_value (n : dp_node_t) (item : cjson_item) : option dp_value_t :=
  match prop n with
  | prop_bool _ => if (c_type item =? cJSON_True) || (c_type item =? cJSON_False)
                   then Some (dp_bool (c_type item =? cJSON_True)) else None
  | prop_int _ _ _ => if c_type item =? cJSON_Number then Some (dp_value (valueint item)) else None
  | prop_str _ _ _ => if c_type item =? cJSON_String then Some (dp_str (valuestring item)) else None
  | prop_enum names _ =>
      if c_type item =? cJSON_String then
        match list_find (fun x => x = valuestring item) names with
        | Some (j, _) => Some (dp_enum (Z.of_nat j))
        | None => None
        end
      else Some (dp_enum 0)
  | prop_bitmap _ _ => Some (dp_bitmap (u32 (valueint item)))
  end.

(** The second loop. The result: the state, with [true] when an allocation
    failed; [None] is a write outside [dpobj]. *)
Fixpoint recv_fill (items : list cjson_item) (nodes : list dp_node_t) (dpobj : option (list dp_obj_t)) (i : Z)
    (calls : list dp_recv) : option (bool * list dp_node_t * option (list dp_obj_t) * list dp_recv) :=
  match items with
  | [] => Some (false, nodes, dpobj, calls)
  | item :: items' =>
      match node_index nodes (atoi (string item)) with
      | None => recv_fill items' nodes dpobj i calls
      | Some k =>
          n ← nodes !! k;
          if (d_type (desc n) =? T_RAW) && (c_type item =? cJSON_String) then
            if malloc_raw then
              let data := b64 (valuestring item) in
              recv_fill items' nodes dpobj i
                (if has_cb then calls ++ [recv_raw (id (desc n)) (u16 (zlen data)) data] else calls)
            else Some (true, nodes, dpobj, calls)
          else
            let nodes' := <[k := set_stat n PV_STAT_LOCAL]> nodes in
            match item_value n item with
            | None => recv_fill items' nodes' dpobj i calls
            | Some v =>
                arr ← dpobj;
                arr' ← wr arr i {| dp_id := id (desc n); dp_val := v; dp_time := now |};
                recv_fill items' nodes' (Some arr') (i + 1) calls
            end
      end
  end.

(** [items] are the children of the "dps" object, if the message has one. *)
Definition dp_data_recv_parse (s : option dp_schema_t) (items : option (list cjson_item))
  : option (Z * option dp_schema_t * list dp_recv) :=
  match s, items with
  | Some s, Some items =>
      let '(nodes, cnt) := recv_count (preprocess s) items (node s) 0 in
      if negb (cnt =? 0) && negb malloc_obj then Some (OPRT_MALLOC_FAILED, Some (with_nodes s nodes), [])
      else
        let dpobj := if cnt =? 0 then None else Some (zrepl cnt zero_obj) in
        '(failed, nodes, dpobj, calls) ← recv_fill items nodes dpobj 0 [];
        let calls := match dpobj with
                     | Some l => if has_cb && negb (failed : bool) then calls ++ [recv_obj cnt l] else calls
                     | None => calls
                     end in
        Some (OPRT_OK, Some (with_nodes s nodes), calls)
  | _, _ => Some (OPRT_COM_ERROR, s, [])
  end.
End Receive.

(** * Look-up: proofs *)

Definition node_at (l : list dp_node_t) (i : Z) : option dp_node_t := k ← node_index l i; l !! k.

Lemma node_index_spec l i k : node_index l i = Some k -> exists n, l !! k = Some n /\ id (desc n) = i.
Proof.
  revert k. induction l as [|n l IH]; intros k; cbn; [done|]. case_bool.
  - intros [= <-]. by exists n.
  - destruct (node_index l i) as [k'|]; cbn; [|done]. intros [= <-]. cbn. by apply IH.
Qed.

Lemma node_at_id l i n : node_at l i = Some n -> id (desc n) = i.
Proof.
  unfold node_at. destruct (node_index l i) as [k|] eqn:E; cbn; [|done]. intros Hn.
  destruct (node_index_spec _ _ _ E) as (m & Hm & Hi). congruence.
Qed.

(** Replacing the node of an id by one of the same id. *)
Lemma node_at_insert l i k n n' :
  node_index l i = Some k -> l !! k = Some n -> id (desc n') = id (desc n) ->
  node_at (<[k := n']> l) i = Some n' /\ (forall j, j <> i -> node_at (<[k := n']> l) j = node_at l j).
Proof.
  unfold node_at. revert k. induction l as [|m l IH]; intros k Hk Hn Hid; cbn in Hk; [done|].
  destruct (Z.eqb_spec (id (desc m)) i) as [Em|Em].
  - injection Hk as <-. cbn in Hn. injection Hn as ->. cbn. rewrite Hid, Em, Z.eqb_refl. split; [done|].
    intros j Hj. destruct (Z.eqb_spec i j); [congruence|]. by destruct (node_index l j).
  - destruct (node_index l i) as [k'|] eqn:Ek; cbn in Hk; [|done]. injection Hk as <-. cbn in Hn.
    destruct (IH k' eq_refl Hn Hid) as [H1 H2]. cbn. split.
    + destruct (Z.eqb_spec (id (desc m)) i); [done|].
      destruct (node_index (<[k' := n']> l) i); cbn in *; done.
    + intros j Hj. specialize (H2 j Hj). destruct (id (desc m) =? j); [done|].
      destruct (node_index (<[k' := n']> l) j), (node_index l j); cbn in *; done.
Qed.

(** * Reporting: proofs *)

(** What parsing a schema establishes and reporting keeps: enum values index
    their names, cached strings fit their buffers, and nodes that are not objects
    have the zero property. *)
Definition node_ok (n : dp_node_t) : Prop :=
  (d_type (desc n) <> T_OBJ -> prop n = prop_bool false)
  /\ match prop n with
     | prop_enum names v => 0 <= v < zlen names /\ zlen names < 2147483648
     | prop_str _ cur (Some s) => zlen s <= cur
     | _ => True
     end.
Definition nodes_ok (l : list dp_node_t) : Prop := Forall node_ok l.

Definition obj_ok (d : dp_obj_t) : Prop :=
  is_u8 (dp_id d) /\ match dp_val d with dp_enum v => 0 <= v | _ => True end.

(** The node caches the value, and the value is in the range of the schema. *)
Definition caches (n : dp_node_t) (v : dp_value_t) : Prop :=
  match prop n, v with
  | prop_bool b, dp_bool b' => b = b'
  | prop_int mn mx x, dp_value v => x = v /\ mn <= v <= mx
  | prop_str max _ o, dp_str s => o = Some s /\ zlen s <= u32 max
  | prop_enum names x, dp_enum v => x = v /\ v < zlen names
  | _, _ => False
  end.

(** An object that was accepted for a report. *)
Definition accepted (n : dp_node_t) (d : dp_obj_t) : Prop :=
  pv_stat n = PV_STAT_LOCAL /\ dp_type d = prop_tp n /\ (d_type (desc n) = T_OBJ -> caches n (dp_val d)).

Lemma set_prop_ok n p :
  d_type (desc n) = T_OBJ ->
  match p with
  | prop_enum names v => 0 <= v < zlen names /\ zlen names < 2147483648
  | prop_str _ cur (Some s) => zlen s <= cur
  | _ => True
  end -> node_ok (set_prop n p).
Proof. intros Ho Hp. split; [cbn; congruence|exact Hp]. Qed.

Lemma set_time_ok n t : node_ok n -> node_ok (set_time n t).
Proof. done. Qed.
Lemma set_stat_ok n st : node_ok n -> node_ok (set_stat n st).
Proof. done. Qed.

Lemma update_value_ok need0 rt d n need n' :
  node_ok n -> obj_ok d -> d_type (desc n) = T_OBJ -> dp_type d = prop_tp n -> dp_type_check rt d n = true ->
  update_value need0 rt d n true = (need, n') ->
  node_ok n' /\ desc n' = desc n /\ (need = false -> n' = n)
  /\ (need = true -> prop_tp n' = prop_tp n /\ caches n' (dp_val d)).
Proof.
  intros Hn [_ Hv] Ho Ht Hc. pose proof Hn as [_ Hp]. unfold dp_type_check in Hc.
  destruct (_ || _) eqn:Eg in Hc; [done|]. clear Eg. rewrite Ho in Hc. cbn [Z.eqb T_OBJ] in Hc. unfold update_value, dp_type, prop_tp, caches in *.
  destruct (prop n) as [old|mn mx old|mx cur old|names old|mx old] eqn:Ep, (dp_val d) as [b|v|s|v|v] eqn:Ev;
    try done.
  - destruct (need0 || _); intros [= <- <-]; split_and!; try done; by apply set_prop_ok.
  - apply negb_true_iff, orb_false_iff in Hc as [H1 H2]. bool_hyps.
    destruct (need0 || _); intros [= <- <-]; split_and!; try done; by apply set_prop_ok.
  - apply negb_true_iff in Hc. bool_hyps.
    destruct (need0 || _); [|by intros [= <- <-]; split_and!].
    assert (forall cur', zlen s <= cur' -> node_ok (set_prop n (prop_str mx cur' (Some s)))) as Hok
      by (intros; by apply set_prop_ok).
    destruct old as [o|].
    + destruct (Z.ltb_spec cur (zlen s)); destruct (rt =? T_STAT_REPT); intros [= <- <-];
        split_and!; try done; first [apply set_time_ok|idtac]; apply Hok; lia.
    + destruct (rt =? T_STAT_REPT); intros [= <- <-]; split_and!; try done;
        first [apply set_time_ok|idtac]; apply Hok; lia.
  - destruct Hp as [Hi Hl]. rewrite u32_small in * by (unfold is_u32; lia).
    destruct (Z.leb_spec (zlen names) v); [done|].
    destruct (need0 || _); intros [= <- <-]; split_and!; try done; (apply set_prop_ok; done || lia).
Qed.

Lemma update_ok rt d n fl need n' :
  node_ok n -> obj_ok d -> dp_type d = prop_tp n -> dp_type_check rt d n = true ->
  dp_rept_update rt d n fl true = (need, n') ->
  node_ok n' /\ desc n' = desc n /\ (need = false -> n' = n) /\ (need = true -> accepted n' d).
Proof.
  intros Hn Hd Ht Hc. unfold dp_rept_update.
  destruct (Z.eqb_spec (d_type (desc n)) T_OBJ) as [Eo|Eo].
  - destruct (update_value _ rt d n true) as [need1 n1] eqn:Eu.
    destruct (update_value_ok _ rt d n need1 n1 Hn Hd Eo Ht Hc Eu) as (H1 & H2 & H3 & H4).
    destruct need1.
    + destruct (H4 eq_refl) as [H5 H6]. intros [= <- <-]. unfold accepted.
      destruct (rt =? T_STAT_REPT); split_and!; try done; intros _; split_and!; try done; by rewrite Ht, <- H5.
    + intros [= <- <-]. split_and!; try done; by rewrite H3.
  - destruct (Z.eqb_spec (d_type (desc n)) T_RAW) as [Er|Er].
    + intros [= <- <-]. unfold accepted. destruct (rt =? T_STAT_REPT); split_and!; done.
    + intros [= <- <-]. split_and!; done.
Qed.

Lemma entry_size_ok n d :
  node_ok n -> obj_ok d -> accepted n d -> exists sz, entry_size d n = Some sz /\ 0 <= sz.
Proof.
  intros [Hz Hp] [_ Hv] (_ & Ht & Hc). unfold entry_size, dp_type, prop_tp, caches in *.
  destruct (dp_val d) as [b|v|s|v|v] eqn:Ev; try by (eexists; split; [done|lia]).
  - eexists. split; [done|]. pose proof (zlen_nonneg s). lia.
  - destruct (prop n) as [| | |names x|] eqn:Ep; try done. destruct Hp as [Hx Hl].
    assert (d_type (desc n) = T_OBJ) as Ho.
    { destruct (decide (d_type (desc n) = T_OBJ)) as [|Hne]; [done|]. by specialize (Hz Hne). }
    destruct (Hc Ho) as [-> Hlt]. rewrite u32_small by (unfold is_u32; lia).
    destruct (Z.leb_spec (zlen names) v); [lia|]. destruct (rd_Some names v) as [name En]; [lia|].
    rewrite En. eexists. split; [done|]. pose proof (zlen_nonneg name). lia.
Qed.

(** The state after an accepted object of size [sz]. *)
Definition valid_add (v : dp_rept_valid_t) (d : dp_obj_t) (sz : Z) : dp_rept_valid_t :=
  {| len := u16 (len v + sz); timelen := if dp_time d =? 0 then timelen v else u16 (timelen v + 30);
     dpid := dpid v ++ [dp_id d] |}.

(** The object is accepted in the nodes, with its size. *)
Definition reported (nodes : list dp_node_t) (d : dp_obj_t) (sz : Z) : Prop :=
  exists n, node_at nodes (dp_id d) = Some n /\ accepted n d /\ entry_size d n = Some sz /\ 0 <= sz.

Lemma check_one_ok s rt fl d nodes v nodes' r :
  nodes_ok nodes -> obj_ok d -> rt <> T_RE_TRANS_REPT ->
  check_one s rt fl d true nodes v = (nodes', r) ->
  nodes_ok nodes' /\ (forall j, j <> dp_id d -> node_at nodes' j = node_at nodes j)
  /\ ((r = inr v /\ nodes' = nodes)
      \/ (r = inl OPRT_SVC_DP_TP_NOT_MATCH /\ nodes' = nodes)
      \/ (exists sz, reported nodes' d sz /\ r = inr (valid_add v d sz))).
Proof.
  intros Hn Hd Hr. unfold check_one.
  destruct (node_index nodes (dp_id d)) as [k|] eqn:Ek; [|intros [= <- <-]; tauto].
  destruct (node_index_spec _ _ _ Ek) as (n & Ekn & Hi). rewrite Ekn.
  destruct (Z.eqb_spec (dp_type d) (prop_tp n)) as [Ht|]; cbn [negb]; [|intros [= <- <-]; tauto].
  apply Z.eqb_neq in Hr. rewrite Hr.
  assert (<[k := n]> nodes = nodes) as Eid by (by apply list_insert_id).
  destruct (dp_type_check rt d n) eqn:Etc; cbn [negb]; [|rewrite Eid; intros [= <- <-]; tauto].
  destruct (preprocess s && _); [rewrite Eid; intros [= <- <-]; tauto|].
  destruct (dp_rept_update rt d n fl true) as [need n'] eqn:Eu.
  assert (node_ok n) as Hno by (eapply Forall_lookup_1; [exact Hn|exact Ekn]).
  destruct (update_ok rt d n fl need n' Hno Hd Ht Etc Eu) as (H1 & H2 & H3 & H4).
  destruct (node_at_insert nodes (dp_id d) k n n' Ek Ekn) as [Ha Hb]; [by rewrite H2|].
  destruct need; cbn [negb].
  - destruct (entry_size_ok n' d H1 Hd (H4 eq_refl)) as (sz & Es & Hs). rewrite Es. intros [= <- <-].
    split; [by apply Forall_insert|]. split; [done|]. right. right. exists sz. split; [|done].
    exists n'. split_and!; try done. by apply H4.
  - rewrite (H3 eq_refl), Eid. intros [= <- <-]. tauto.
Qed.

Lemma reported_frame nodes nodes' d sz :
  node_at nodes' (dp_id d) = node_at nodes (dp_id d) -> reported nodes d sz -> reported nodes' d sz.
Proof. unfold reported. by intros ->. Qed.

Definition sumz (l : list Z) : Z := foldr Z.add 0 l.

Lemma u16_add_l a b : u16 (u16 a + b) = u16 (a + b).
Proof. unfold u16, wrap. apply Zplus_mod_idemp_l. Qed.

Lemma check_loop_ok s rt fl l : forall nodes v nodes' v',
  nodes_ok nodes -> Forall obj_ok l -> NoDup (dp_id <$> l) -> rt <> T_RE_TRANS_REPT ->
  check_loop s rt fl l true nodes v = (nodes', inr v') ->
  exists acc szs,
    nodes_ok nodes' /\ (forall j, j ∉ dp_id <$> l -> node_at nodes' j = node_at nodes j)
    /\ acc `sublist_of` l /\ Forall2 (reported nodes') acc szs
    /\ dpid v' = dpid v ++ (dp_id <$> acc) /\ u16 (len v') = u16 (len v + sumz szs)
    /\ (forall d, d ∈ l -> d ∉ acc -> node_at nodes' (dp_id d) = node_at nodes (dp_id d)).
Proof.
  induction l as [|d l IH]; intros nodes v nodes' v' Hn Hl Hu Hr; cbn [check_loop].
  { intros [= <- <-]. exists [], []. cbn. rewrite app_nil_r, Z.add_0_r. by split_and!. }
  apply Forall_cons_1 in Hl as [Hd Hl]. cbn in Hu. apply list.NoDup_cons in Hu as [Hnd Hu].
  destruct (check_one s rt fl d true nodes v) as [nodes1 r1] eqn:E1.
  destruct (check_one_ok s rt fl d nodes v nodes1 r1 Hn Hd Hr E1) as (Hn1 & Hf1 & Hc).
  assert (forall r, r1 = inr r -> check_loop s rt fl l true nodes1 r = (nodes', inr v') ->
    exists acc szs, nodes_ok nodes' /\ (forall j, j ∉ dp_id <$> d :: l -> node_at nodes' j = node_at nodes j)
    /\ node_at nodes' (dp_id d) = node_at nodes1 (dp_id d)
    /\ acc `sublist_of` l /\ Forall2 (reported nodes') acc szs
    /\ dpid v' = dpid r ++ (dp_id <$> acc) /\ u16 (len v') = u16 (len r + sumz szs)
    /\ (forall x, x ∈ l -> x ∉ acc -> node_at nodes' (dp_id x) = node_at nodes (dp_id x))) as Hrest.
  { intros r -> E2. destruct (IH nodes1 r nodes' v' Hn1 Hl Hu Hr E2) as (acc & szs & A1 & A2 & A3 & A4 & A5 & A6 & A7).
    exists acc, szs. split_and!; try done.
    - intros j Hj. cbn in Hj. rewrite not_elem_of_cons in Hj. destruct Hj as [Hj1 Hj2].
      rewrite A2 by done. by apply Hf1.
    - by apply A2.
    - intros x Hx Hxa. rewrite A7 by done. apply Hf1. intros Heq. destruct Hnd. rewrite <- Heq.
      by apply list_elem_of_fmap_2. }
  destruct Hc as [[-> ->] | [[-> _] | (sz & Hrep & ->)]]; [| done |].
  - intros E2. destruct (Hrest v eq_refl E2) as (acc & szs & B1 & B2 & B3 & B4 & B5 & B6 & B7 & B8).
    exists acc, szs. split_and!; try done; [by apply sublist_cons|].
    intros x [->|Hx]%elem_of_cons Hxa; [done|by apply B8].
  - intros E2. destruct (Hrest _ eq_refl E2) as (acc & szs & B1 & B2 & B3 & B4 & B5 & B6 & B7 & B8).
    exists (d :: acc), (sz :: szs). split_and!; try done.
    + by apply sublist_skip.
    + constructor; [by apply (reported_frame nodes1)|done].
    + rewrite B6. cbn. by rewrite <- app_assoc.
    + rewrite B7. cbn [valid_add len sumz foldr]. rewrite u16_add_l. f_equal. unfold sumz. lia.
    + intros x [->|Hx]%elem_of_cons [Hxd Hxa]%not_elem_of_cons; [done|]. by apply B8.
Qed.

Lemma check_one_err s rt fl d mok nodes v nodes' rc :
  check_one s rt fl d mok nodes v = (nodes', inl rc) -> rc <> OPRT_OK.
Proof.
  unfold check_one. destruct (node_index nodes (dp_id d)) as [k|]; [|done]. destruct (nodes !! k) as [n|]; [|done].
  destruct (negb (dp_type d =? prop_tp n)); [by intros [= _ <-]|].
  destruct (if rt =? T_RE_TRANS_REPT then _ else _) as [[|] n']; [done|].
  destruct (entry_size d n'); [done|]. by intros [= _ <-].
Qed.

Lemma check_loop_err s rt fl l mok : forall nodes v nodes' rc,
  check_loop s rt fl l mok nodes v = (nodes', inl rc) -> rc <> OPRT_OK.
Proof.
  induction l as [|d l IH]; intros nodes v nodes' rc; cbn [check_loop]; [done|].
  destruct (check_one s rt fl d mok nodes v) as [nodes1 [rc1|v1]] eqn:E; [|apply IH].
  intros [= <- <-]. by eapply check_one_err.
Qed.

Lemma find_dp_elem l d : NoDup (dp_id <$> l) -> d ∈ l -> find_dp l (dp_id d) = Some d.
Proof.
  induction l as [|x l IH]; [by intros _ H%elem_of_nil|]. cbn. intros [Hx Hn]%list.NoDup_cons [->|Hd]%elem_of_cons.
  - by rewrite Z.eqb_refl.
  - destruct (Z.eqb_spec (dp_id d) (dp_id x)) as [E|]; [|by apply IH].
    destruct Hx. rewrite <- E. by apply list_elem_of_fmap_2.
Qed.

Lemma Forall2_elem {A B} (P : A -> B -> Prop) l k x : Forall2 P l k -> x ∈ l -> exists y, P x y.
Proof.
  induction 1 as [|a b l k Hab H IH]; [by intros H%elem_of_nil|]. intros [->|Hx]%elem_of_cons; [by exists b|by apply IH].
Qed.

(** A report before its objects are checked. *)
Definition report_ok (s : dp_schema_t) (dpin : dp_rept_in_t) : Prop :=
  nodes_ok (node s) /\ Forall obj_ok (dps dpin) /\ NoDup (dp_id <$> dps dpin)
  /\ rept_type dpin <> T_RE_TRANS_REPT.

Lemma valid_check_ok s dpin s' v :
  report_ok s dpin -> dp_rept_valid_check s dpin true = (OPRT_OK, s', v) ->
  exists acc szs,
    nodes_ok (node s') /\ acc `sublist_of` dps dpin /\ Forall2 (reported (node s')) acc szs
    /\ dpid v = dp_id <$> acc /\ acc <> [] /\ u16 (len v) = u16 (sumz szs)
    /\ (forall d, d ∈ dps dpin -> d ∉ acc -> dp_node_find s' (dp_id d) = dp_node_find s (dp_id d)).
Proof.
  intros (Hn & Hd & Hu & Hr). unfold dp_rept_valid_check.
  destruct (check_loop s (rept_type dpin) (flags dpin) (dps dpin) true (node s) _) as [nodes [rc|v1]] eqn:E.
  { intros [= -> <- <-]. by apply check_loop_err in E. }
  destruct (check_loop_ok _ _ _ _ _ _ _ _ Hn Hd Hu Hr E) as (acc & szs & A1 & A2 & A3 & A4 & A5 & A6 & A7).
  destruct (bool_decide_reflect (dpid v1 = [])) as [|Hne]; [done|]. intros [= <- <-].
  exists acc, szs. cbn in *. split_and!; try done. by intros ->.
Qed.

(** What an accepted report leaves in the schema. *)
Lemma valid_check_caches (s s' : dp_schema_t) (dpin : dp_rept_in_t) (v : dp_rept_valid_t) :
  report_ok s dpin -> dp_rept_valid_check s dpin true = (OPRT_OK, s', v) ->
  nodes_ok (node s')
  /\ (forall d, d ∈ dps dpin -> dp_id d ∈ dpid v ->
        exists n, dp_node_find s' (dp_id d) = Some n /\ accepted n d)
  /\ (forall d, d ∈ dps dpin -> dp_id d ∉ dpid v -> dp_node_find s' (dp_id d) = dp_node_find s (dp_id d)).
Proof.
  intros Hok Hv. destruct (valid_check_ok s dpin s' v Hok Hv) as (acc & szs & A1 & A2 & A3 & A4 & _ & _ & A5).
  split; [done|]. rewrite A4. split.
  - intros d Hd (d' & Ed & Hd')%list_elem_of_fmap. destruct Hok as (_ & _ & Hu & _).
    pose proof (find_dp_elem _ d Hu Hd) as E1.
    pose proof (find_dp_elem _ d' Hu (elem_of_sublist _ _ _ Hd' A2)) as E2.
    assert (d = d') as <- by congruence.
    destruct (Forall2_elem _ _ _ d A3 Hd') as (sz & n & En & Ha & _). by exists n.
  - intros d Hd Hni. apply A5; [done|]. intros Hda. destruct Hni. by apply list_elem_of_fmap_2.
Qed.

(** A retransmission: neither the range is checked nor anything cached. *)
Definition retransmitted (nodes : list dp_node_t) (d : dp_obj_t) : Prop :=
  exists n, node_at nodes (dp_id d) = Some n /\ dp_type d = prop_tp n.

Lemma check_loop_retrans s fl l mok : forall nodes v nodes' v',
  check_loop s T_RE_TRANS_REPT fl l mok nodes v = (nodes', inr v') ->
  nodes' = nodes /\ exists acc, acc `sublist_of` l /\ Forall (retransmitted nodes) acc /\ dpid v' = dpid v ++ (dp_id <$> acc).
Proof.
  induction l as [|d l IH]; intros nodes v nodes' v'; cbn [check_loop].
  { intros [= <- <-]. split; [done|]. exists []. by rewrite app_nil_r. }
  unfold check_one. destruct (node_index nodes (dp_id d)) as [k|] eqn:Ek.
  2: { intros E. destruct (IH _ _ _ _ E) as (-> & acc & H1 & H2 & H3). split; [done|]. exists acc. split_and!; try done. by apply sublist_cons. }
  destruct (node_index_spec _ _ _ Ek) as (n & Ekn & Hi). rewrite Ekn.
  destruct (Z.eqb_spec (dp_type d) (prop_tp n)) as [Ht|]; cbn [negb]; [|done].
  change (T_RE_TRANS_REPT =? T_RE_TRANS_REPT) with true. cbv iota. cbn [andb]. rewrite (list_insert_id _ _ _ Ekn).
  destruct (entry_size d n) as [sz|]; [|done]. intros E. destruct (IH _ _ _ _ E) as (-> & acc & H1 & H2 & H3).
  split; [done|]. exists (d :: acc). split_and!; [by apply sublist_skip| |rewrite H3; cbn; by rewrite <- app_assoc].
  constructor; [|done]. exists n. split; [|done]. unfold node_at. by rewrite Ek.
Qed.

Lemma retrans_check (s s' : dp_schema_t) (dpin : dp_rept_in_t) (v : dp_rept_valid_t) :
  rept_type dpin = T_RE_TRANS_REPT -> NoDup (dp_id <$> dps dpin) -> dp_rept_valid_check s dpin true = (OPRT_OK, s', v) ->
  s' = s /\ forall d, d ∈ dps dpin -> dp_id d ∈ dpid v -> exists n, dp_node_find s (dp_id d) = Some n /\ dp_type d = prop_tp n.
Proof.
  intros Hr Hu. unfold dp_rept_valid_check. rewrite Hr.
  destruct (check_loop s T_RE_TRANS_REPT (flags dpin) (dps dpin) true (node s) _) as [nodes [rc|v1]] eqn:E.
  { intros [= -> _ _]. by apply check_loop_err in E. }
  apply check_loop_retrans in E as (-> & acc & H1 & H2 & H3). destruct (bool_decide _); [done|]. intros [= <- <-]. split; [by destruct s|].
  rewrite H3. cbn [app dpid]. intros d Hd (d' & Ed & Hd')%list_elem_of_fmap. assert (d = d') as <-.
  { pose proof (find_dp_elem _ d Hu Hd). pose proof (find_dp_elem _ d' Hu (elem_of_sublist _ _ _ Hd' H1)). congruence. }
  rewrite list.Forall_forall in H2. by apply H2.
Qed.

(** (C32) Accepting a report, when [dp_rept_valid_check] accepts objects of distinct ids (and
    memory is not exhausted). Unless the report is a retransmission, every accepted object is of
    the type of its data point, which is marked as not yet in the cloud; for a data point of
    the object kind the value is in the range of the schema and is what the schema caches now,
    for a raw one nothing is cached. Every object that is not accepted leaves its data point
    untouched, enum values still index their names and strings still fit their buffers. A
    retransmission changes nothing in the schema: of an accepted object only the type is
    checked (and the index of an enum), not the range, and no value is cached. *)
Theorem dp_report_caches (s s' : dp_schema_t) (dpin : dp_rept_in_t) (v : dp_rept_valid_t) :
  nodes_ok (node s) -> Forall obj_ok (dps dpin) -> NoDup (dp_id <$> dps dpin) -> dp_rept_valid_check s dpin true = (OPRT_OK, s', v) ->
  if rept_type dpin =? T_RE_TRANS_REPT then
    s' = s /\ forall d, d ∈ dps dpin -> dp_id d ∈ dpid v -> exists n, dp_node_find s (dp_id d) = Some n /\ dp_type d = prop_tp n
  else
    nodes_ok (node s')
    /\ (forall d, d ∈ dps dpin -> dp_id d ∈ dpid v ->
          exists n, dp_node_find s' (dp_id d) = Some n /\ accepted n d)
    /\ (forall d, d ∈ dps dpin -> dp_id d ∉ dpid v -> dp_node_find s' (dp_id d) = dp_node_find s (dp_id d)).
Proof.
  intros Hn Ho Hu Hv. destruct (Z.eqb_spec (rept_type dpin) T_RE_TRANS_REPT) as [Hr|Hr].
  - by apply (retrans_check s s' dpin v).
  - by apply valid_check_caches.
Qed.

Definition demo_node (i : Z) (p : dp_prop_value_t) : dp_node_t :=
  {| desc := {| id := i; mode := 0; passive := 0; d_type := T_OBJ; trig := 0 |};
     prop := p; pv_stat := PV_STAT_CLOUD; time_stamp := 0 |}.
Definition demo_schema : dp_schema_t :=
  {| devid := [100]; preprocess := false;
     node := [demo_node 1 (prop_bool false); demo_node 2 (prop_int 0 1000 7);
              demo_node 3 (prop_enum [[97]; [98]] 0); demo_node 4 (prop_bitmap 8 0)] |}.
Definition demo_report : dp_rept_in_t :=
  {| rept_type := T_OBJ_REPT; flags := 0;
     dps := [ {| dp_id := 1; dp_val := dp_bool true; dp_time := 0 |};
              {| dp_id := 2; dp_val := dp_value 7; dp_time := 0 |};
              {| dp_id := 3; dp_val := dp_enum 1; dp_time := 0 |} ] |}.

Lemma demo_report_ok : report_ok demo_schema demo_report.
Proof.
  split_and!; try done.
  - repeat constructor; cbn; try done; lia.
  - repeat constructor; cbn; unfold is_u8; try done; lia.
  - by apply (bool_decide_unpack _); vm_compute.
Qed.

Lemma dp_report_caches_witness :
  let '(rc, s', v) := dp_rept_valid_check demo_schema demo_report true in
  dpid v = [1; 3] /\ nodes_ok (node s')
  /\ (forall d, d ∈ dps demo_report -> dp_id d ∈ dpid v ->
        exists n, dp_node_find s' (dp_id d) = Some n /\ accepted n d)
  /\ (forall d, d ∈ dps demo_report -> dp_id d ∉ dpid v ->
        dp_node_find s' (dp_id d) = dp_node_find demo_schema (dp_id d)).
Proof.
  split; [reflexivity|]. destruct demo_report_ok as (H1 & H2 & H3 & _).
  apply (dp_report_caches demo_schema _ demo_report _ H1 H2 H3). reflexivity.
Defined.

(** A retransmission of a value outside the range of its data point. *)
Example dp_retransmission_unchecked :
  dp_rept_valid_check demo_schema
    {| rept_type := T_RE_TRANS_REPT; flags := 0; dps := [ {| dp_id := 2; dp_val := dp_value 5000; dp_time := 0 |} ] |} true
  = (OPRT_OK, demo_schema, {| len := 20; timelen := 0; dpid := [2] |}).
Proof. reflexivity. Qed.

(** * The report text: proofs *)

Lemma key_text_len i : zlen (key_text i) = zlen (print_u32 i) + 3.
Proof. unfold key_text. rewrite !zlen_app. change (zlen [34]) with 1. change (zlen [34; 58]) with 2. lia. Qed.

Section Texts.
Context (cjson_string : list Z -> option (list Z)).

(** A string cJSON prints without six-byte escapes. *)
Definition prints (v : dp_value_t) : Prop :=
  match v with
  | dp_str s => exists t, cjson_string s = Some t /\ 2 <= zlen t <= 2 * zlen s + 2
  | _ => True
  end.

(** The text of an accepted object is at least two bytes shorter than its
    reservation, three unless it is a long value of a long id. *)
Lemma entry_text_ok n d sz :
  node_ok n -> obj_ok d -> accepted n d -> entry_size d n = Some sz -> prints (dp_val d) ->
  exists txt, entry_text cjson_string d n = Some txt /\ 0 < zlen txt <= sz - 2
    /\ ((forall x, dp_val d = dp_value x -> -1000000000 < x \/ dp_id d < 100) -> zlen txt <= sz - 3).
Proof.
  intros [Hz Hp] [Hi Hv] (_ & Ht & Hc) Hs Hpr. pose proof (print_u32_byte _ Hi) as Hk.
  pose proof (zlen_nonneg (print_u32 (dp_id d))). pose proof (key_text_len (dp_id d)) as Ek.
  unfold entry_size, entry_text, prints, dp_type, prop_tp, caches in *.
  destruct (dp_val d) as [b|x|s|x|x] eqn:Ev.
  - injection Hs as <-. eexists. split; [done|]. rewrite !zlen_app, Ek, (zlen_one (A:=Z)).
    destruct b; [change (zlen (str "true")) with 4|change (zlen (str "false")) with 5]; lia.
  - injection Hs as <-. eexists. split; [done|]. rewrite !zlen_app, Ek, (zlen_one (A:=Z)).
    pose proof (print_int_len x). pose proof (zlen_nonneg (print_int x)). split; [lia|].
    intros Hx. unfold is_u8 in Hi. destruct (Hx x eq_refl) as [Hx1|Hx1].
    + assert (zlen (print_int x) <= 10); [|lia]. unfold print_int. case_bool; [|apply print_u32_len].
      rewrite zlen_cons. pose proof (dec_digits_bound 8 10 (- x) []) as Hd. rewrite (zlen_nil (A:=Z)) in Hd.
      change (10 ^ Z.of_nat 9) with 1000000000 in Hd. unfold print_u32. lia.
    + assert (zlen (print_u32 (dp_id d)) <= 2); [|lia].
      pose proof (dec_digits_bound 1 10 (dp_id d) []) as Hd. rewrite (zlen_nil (A:=Z)) in Hd.
      change (10 ^ Z.of_nat 2) with 100 in Hd. unfold print_u32. lia.
  - injection Hs as <-. destruct Hpr as (t & -> & Htl). eexists. split; [done|].
    rewrite !zlen_app, Ek, (zlen_one (A:=Z)). lia.
  - destruct (prop n) as [| | |names y|] eqn:Ep; try done. destruct (_ <=? _); [done|].
    destruct (rd names x) as [name|]; cbn [mbind option_bind] in Hs |- *; [|done]. injection Hs as <-. eexists. split; [done|].
    rewrite !zlen_app, Ek. change (zlen [34]) with 1. change (zlen [34; 44]) with 2.
    pose proof (zlen_nonneg name). lia.
  - exfalso. destruct (prop n) eqn:Ep; try done.
    destruct (decide (d_type (desc n) = T_OBJ)) as [Ho|Ho]; [by apply Hc|by specialize (Hz Ho)].
Qed.

Definition entry_ok (s : dp_schema_t) (v : dp_rept_valid_t) (d : dp_obj_t) (txt : list Z) (sz : Z) : Prop :=
  exists n, dp_node_find s (dp_id d) = Some n /\ dp_type d = prop_tp n
    /\ entry_text cjson_string d n = Some txt /\ 0 < zlen txt <= sz - 2.

Lemma output_loop_ok s l v acc : forall txts szs buf tbuf,
  NoDup (dp_id <$> l) -> (forall d, d ∈ acc -> d ∈ l) -> Forall3 (entry_ok s v) acc txts szs ->
  zlen buf + sumz szs <= len v + 1 ->
  output_loop cjson_string s l v false (dp_id <$> acc) buf tbuf = Some (inr (buf ++ concat txts, tbuf)).
Proof.
  intros txts szs buf tbuf Hu Hin H. revert buf.
  induction H as [|d txt sz acc txts szs He H IH]; intros buf Hb; [cbn; by rewrite app_nil_r|].
  rewrite fmap_cons. cbn [output_loop concat andb]. destruct He as (n & Hn & Ht & Htx & Hl).
  rewrite (find_dp_elem l d Hu) by (apply Hin; left). rewrite Hn, Ht, Z.eqb_refl. cbn [negb].
  rewrite Htx. cbn [mbind option_bind]. rewrite bool_decide_false by (intros ->; rewrite (zlen_nil (A:=Z)) in Hl; lia).
  cbn [sumz foldr] in Hb. fold (sumz szs) in Hb.
  assert (0 <= sumz szs).
  { clear -H. induction H as [|d txt sz acc txts szs (n & _ & _ & _ & Hl) H IH]; cbn; [lia|]. unfold sumz in IH. lia. }
  unfold dp_snprintf_append. pose proof (zlen_nonneg buf).
  destruct (Z.leb_spec (len v) (zlen buf)); [lia|].
  destruct (Z.leb_spec (len v - zlen buf) (zlen txt)); [lia|].
  rewrite IH; [by rewrite app_assoc| |rewrite zlen_app; lia]. intros x Hx. apply Hin. by right.
Qed.
End Texts.

(** The bytes reserved for the accepted ids, before they are stored in 16 bits. *)
Definition report_size (s : dp_schema_t) (l : list dp_obj_t) (ids : list Z) : Z :=
  sumz ((fun i => default 0 (d ← find_dp l i; n ← dp_node_find s i; entry_size d n)) <$> ids).

Lemma check_loop_len s rt fl l mok : forall nodes v nodes' v',
  is_u16 (len v) -> check_loop s rt fl l mok nodes v = (nodes', inr v') -> is_u16 (len v').
Proof.
  induction l as [|d l IH]; intros nodes v nodes' v' Hv; cbn [check_loop]; [by intros [= _ <-]|].
  destruct (check_one s rt fl d mok nodes v) as [nodes1 [rc|v1]] eqn:E; [done|]. apply IH. revert E.
  unfold check_one. destruct (node_index nodes (dp_id d)) as [k|]; [|by intros [= _ <-]].
  destruct (nodes !! k) as [n|]; [|by intros [= _ <-]]. destruct (negb _); [done|].
  destruct (if rt =? T_RE_TRANS_REPT then _ else _) as [[|] n']; [by intros [= _ <-]|].
  destruct (entry_size d n'); [|done]. intros [= _ <-]. apply u16_range.
Qed.

Lemma valid_check_len s dpin rc s' v :
  dp_rept_valid_check s dpin true = (rc, s', v) -> is_u16 (len v).
Proof.
  unfold dp_rept_valid_check. destruct (check_loop _ _ _ _ _ _ _) as [nodes [e|v1]] eqn:E.
  - intros [= _ _ <-]. unfold is_u16. cbn. lia.
  - intros [= _ _ <-]. eapply check_loop_len; [|exact E]. unfold is_u16. cbn. lia.
Qed.

Lemma report_size_acc s l acc szs :
  NoDup (dp_id <$> l) -> (forall d, d ∈ acc -> d ∈ l) -> Forall2 (reported (node s)) acc szs ->
  report_size s l (dp_id <$> acc) = sumz szs /\ 0 <= sumz szs.
Proof.
  intros Hu Hin H. induction H as [|d sz acc szs (n & Hn & _ & Hs & H0) H IH]; [done|].
  destruct IH as [IH1 IH2]; [intros x Hx; apply Hin; by right|].
  unfold report_size in *. rewrite !fmap_cons. cbn [sumz foldr].
  rewrite (find_dp_elem l d Hu) by (apply Hin; left). cbn [mbind option_bind].
  replace (dp_node_find s (dp_id d)) with (Some n) by done. cbn [mbind option_bind]. rewrite Hs. cbn [default from_option].
  unfold sumz, Datatypes.id in *. lia.
Qed.

Lemma node_at_ok l i n : nodes_ok l -> node_at l i = Some n -> node_ok n.
Proof.
  unfold node_at. intros Hl. destruct (node_index l i) as [k|]; cbn; [|done]. intros Hn.
  by eapply Forall_lookup_1.
Qed.

(** The entry of an accepted object, with the slack of its text. *)
Definition entry_slack cjson (s : dp_schema_t) v (d : dp_obj_t) (txt : list Z) (sz : Z) : Prop :=
  entry_ok cjson s v d txt sz
  /\ ((forall x, dp_val d = dp_value x -> -1000000000 < x \/ dp_id d < 100) -> zlen txt <= sz - 3).

Lemma entries_exist cjson s v acc szs :
  nodes_ok (node s) -> Forall obj_ok acc -> Forall (fun d => prints cjson (dp_val d)) acc ->
  Forall2 (reported (node s)) acc szs -> exists txts, Forall3 (entry_slack cjson s v) acc txts szs.
Proof.
  intros Hn Ho Hp H. induction H as [|d sz acc szs (n & En & Ha & Hs & _) H IH]; [exists []; constructor|].
  apply Forall_cons_1 in Ho as [Ho1 Ho], Hp as [Hp1 Hp]. destruct (IH Ho Hp) as [txts HF].
  destruct (entry_text_ok cjson n d sz (node_at_ok _ _ _ Hn En) Ho1 Ha Hs Hp1) as (txt & Et & Hl & Hl3).
  exists (txt :: txts). constructor; [|done]. split; [|done]. exists n. split_and!; try done; try lia. apply Ha.
Qed.

Lemma entries_ok cjson s v acc txts szs :
  Forall3 (entry_slack cjson s v) acc txts szs -> Forall3 (entry_ok cjson s v) acc txts szs.
Proof. induction 1 as [|d txt sz acc txts szs [H _] _ IH]; by constructor. Qed.

Lemma entries_total cjson s v acc txts szs :
  Forall3 (entry_slack cjson s v) acc txts szs ->
  zlen (concat txts) <= sumz szs - 2 * zlen acc
  /\ (forall d, acc = [d] -> (forall x, dp_val d = dp_value x -> -1000000000 < x \/ dp_id d < 100) ->
       zlen (concat txts) <= sumz szs - 3).
Proof.
  induction 1 as [|d txt sz acc txts szs [He H3] H [IH _]]; [done|].
  destruct He as (n & _ & _ & _ & Hl). cbn [concat sumz foldr]. fold (sumz szs). rewrite zlen_app, zlen_cons.
  split; [lia|]. intros d' [= <- ->] Hx. inversion H; subst. cbn [concat sumz foldr] in *.
  rewrite (zlen_nil (A:=Z)). specialize (H3 Hx). lia.
Qed.

Lemma entries_texts cjson s v l acc txts szs :
  NoDup (dp_id <$> l) -> (forall d, d ∈ acc -> d ∈ l) -> Forall3 (entry_slack cjson s v) acc txts szs ->
  Forall2 (fun i txt => exists d n, find_dp l i = Some d /\ dp_node_find s i = Some n
             /\ entry_text cjson d n = Some txt) (dp_id <$> acc) txts.
Proof.
  intros Hu Hin H. induction H as [|d txt sz acc txts szs [(n & Hn & _ & Ht & _) _] H IH]; cbn; constructor.
  - exists d, n. split_and!; try done. apply find_dp_elem; [done|]. apply Hin. left.
  - apply IH. intros x Hx. apply Hin. by right.
Qed.

(** (C33) The report text, of a report that is no retransmission and names each id once, and
    without a text of the times: when the check accepted the objects, cJSON prints their
    strings without six-byte escapes and the sizes add up to less than 64 KiB, the
    bytes the check reserved are enough, and [dp_rept_json_output] yields the JSON
    object of the accepted data points; a report of one single value needs in
    addition a value above -10^9 or an id below 100. An id that is named more than once breaks
    the reservation ([dp_repeated_id_refused]). *)
Theorem dp_report_json_fits (cjson_string : list Z -> option (list Z)) (malloc : Z -> bool)
    (s s' : dp_schema_t) (dpin : dp_rept_in_t) (v : dp_rept_valid_t) :
  report_ok s dpin -> Forall (fun d => prints cjson_string (dp_val d)) (dps dpin) ->
  (forall n, malloc n = true) -> dp_rept_valid_check s dpin true = (OPRT_OK, s', v) ->
  report_size s' (dps dpin) (dpid v) < 65536 ->
  (forall i d x, dpid v = [i] -> find_dp (dps dpin) i = Some d -> dp_val d = dp_value x ->
     -1000000000 < x \/ i < 100) ->
  exists txts,
    Forall2 (fun i txt => exists d n, find_dp (dps dpin) i = Some d /\ dp_node_find s' i = Some n
               /\ entry_text cjson_string d n = Some txt) (dpid v) txts
    /\ dp_rept_json_output cjson_string s' dpin v false malloc
       = Some (OPRT_OK, Some (close_text (str "{" ++ concat txts)), None).
Proof.
  intros Hok Hpr Hm Hv Hsz Hone. pose proof (valid_check_len _ _ _ _ _ Hv) as Hu16.
  destruct (valid_check_ok s dpin s' v Hok Hv) as (acc & szs & A1 & A2 & A3 & A4 & A6 & A7 & _).
  destruct Hok as (Hn & Hd & Hu & Hr).
  assert (forall d, d ∈ acc -> d ∈ dps dpin) as Hin by (intros d Hda; by eapply elem_of_sublist).
  destruct (report_size_acc s' (dps dpin) acc szs Hu Hin A3) as [Es H0]. rewrite <- A4 in Es.
  rewrite (u16_small (len v)), u16_small in A7 by (done || unfold is_u16; lia).
  destruct (entries_exist cjson_string s' v acc szs A1) as (txts & HF); [| |exact A3|].
  { apply list.Forall_forall. intros d Hda. rewrite list.Forall_forall in Hd. by apply Hd, Hin. }
  { apply list.Forall_forall. intros d Hda. rewrite list.Forall_forall in Hpr. by apply Hpr, Hin. }
  exists txts. split.
  - rewrite A4. apply (entries_texts cjson_string s' v (dps dpin) acc txts szs Hu Hin HF).
  - unfold dp_rept_json_output. rewrite Hm. cbn [negb]. rewrite andb_false_r. cbn [andb].
    pose proof (entries_total _ _ _ _ _ _ HF) as [Ht Ht3].
    assert (0 < zlen acc) by (destruct acc; [done|rewrite zlen_cons; pose proof (zlen_nonneg acc); lia]).
    assert (zlen (concat txts) <= sumz szs - 3) as Hc.
    { destruct acc as [|d [|d2 acc]]; [done| |rewrite !zlen_cons in Ht; pose proof (zlen_nonneg acc); lia].
      apply (Ht3 d eq_refl). intros x Ex. apply (Hone (dp_id d) d x); [by rewrite A4| |done].
      apply find_dp_elem; [done|]. apply Hin. left. }
    pose proof (zlen_nonneg (concat txts)). destruct (Z.eqb_spec (len v) 0); [lia|].
    rewrite A4, (output_loop_ok cjson_string s' (dps dpin) v acc txts szs _ _ Hu Hin (entries_ok _ _ _ _ _ _ HF))
      by (change (zlen (str "{")) with 1; lia).
    cbn [mbind option_bind]. rewrite zlen_app. change (zlen (str "{")) with 1.
    destruct (Z.leb_spec (len v) (1 + zlen (concat txts) + 1)); [lia|]. done.
Qed.

Lemma dp_report_json_fits_witness :
  let '(rc, s', v) := dp_rept_valid_check demo_schema demo_report true in
  exists txts,
    Forall2 (fun i txt => exists d n, find_dp (dps demo_report) i = Some d /\ dp_node_find s' i = Some n
               /\ entry_text (fun s => Some ([34] ++ s ++ [34])) d n = Some txt) (dpid v) txts
    /\ dp_rept_json_output (fun s => Some ([34] ++ s ++ [34])) s' demo_report v false (fun _ => true)
       = Some (OPRT_OK, Some (close_text (str "{" ++ concat txts)), None).
Proof.
  apply (dp_report_json_fits (fun s => Some ([34] ++ s ++ [34])) (fun _ => true) demo_schema _ demo_report).
  - exact demo_report_ok.
  - repeat constructor.
  - done.
  - reflexivity.
  - by vm_compute.
  - done.
Defined.

(** A report that names one id three times: the check reserves the bytes of each object, the
    text has the first object three times, and the report is refused. *)
Definition string_schema : dp_schema_t :=
  {| devid := [100]; preprocess := false; node := [demo_node 1 (prop_str 100 0 None)] |}.
Definition repeated_report : dp_rept_in_t :=
  {| rept_type := T_OBJ_REPT; flags := 0;
     dps := [ {| dp_id := 1; dp_val := dp_str (zrepl 25 97); dp_time := 0 |}; {| dp_id := 1; dp_val := dp_str []; dp_time := 0 |};
              {| dp_id := 1; dp_val := dp_str []; dp_time := 0 |} ] |}.
Theorem dp_repeated_id_refused : exists s' v, dp_rept_valid_check string_schema repeated_report true = (OPRT_OK, s', v)
  /\ len v = 95 /\ dpid v = [1; 1; 1]
  /\ dp_rept_json_output (fun s => Some ([34] ++ s ++ [34])) s' repeated_report v false (fun _ => true) = Some (OPRT_BUFFER_NOT_ENOUGH, None, None).
Proof. eexists _, _. split; [reflexivity|]. by split_and!. Qed.

(** A report of one value of eleven characters with an id of three digits is
    refused: the check reserves 20 bytes, text and terminator take 20, and
    [dp_rept_json_output] asks for one more. *)
Theorem dp_single_value_too_long (cjson_string : list Z -> option (list Z)) (malloc : Z -> bool)
    (s : dp_schema_t) (n : dp_node_t) (dpin : dp_rept_in_t) (v : dp_rept_valid_t) (i x t mn mx old : Z) :
  (forall n, malloc n = true) -> 100 <= i < 256 -> -2147483648 <= x <= -1000000000 ->
  dps dpin = [ {| dp_id := i; dp_val := dp_value x; dp_time := t |} ] -> rept_type dpin = T_OBJ_REPT ->
  dp_node_find s i = Some n -> prop n = prop_int mn mx old -> len v = 20 -> dpid v = [i] ->
  dp_rept_json_output cjson_string s dpin v false malloc = Some (OPRT_BUFFER_NOT_ENOUGH, None, None).
Proof.
  intros Hm Hi Hx Hd Hr Hn Hp Hl Hv. unfold dp_rept_json_output. rewrite Hm, Hl, Hv, Hd, Hr. cbn [negb].
  rewrite andb_false_r. cbn [andb Z.eqb]. cbn [output_loop find_dp dp_id]. rewrite Z.eqb_refl. cbn [dp_id].
  rewrite Hn. unfold dp_type, prop_tp, entry_text. cbn [dp_val value_type dp_id dp_time]. rewrite Hp.
  cbn [Z.eqb negb PROP_VALUE Pos.eqb mbind option_bind andb].
  assert (zlen (key_text i ++ print_int x ++ [44]) = 18) as E.
  { rewrite !zlen_app, key_text_len, (zlen_one (A:=Z)). unfold print_int. destruct (Z.ltb_spec x 0); [|lia].
    rewrite zlen_cons. unfold print_u32.
    pose proof (dec_digits_bound 2 10 i []) as B1. pose proof (dec_digits_lower 2 10 i []) as B2.
    pose proof (dec_digits_bound 9 10 (- x) []) as B3. pose proof (dec_digits_lower 9 10 (- x) []) as B4.
    rewrite (zlen_nil (A:=Z)) in B1, B2, B3, B4. change (10 ^ Z.of_nat 3) with 1000 in B1.
    change (10 ^ Z.of_nat 2) with 100 in B2. change (10 ^ Z.of_nat 10) with 10000000000 in B3.
    change (10 ^ Z.of_nat 9) with 1000000000 in B4. lia. }
  rewrite bool_decide_false by (intros H; rewrite H, (zlen_nil (A:=Z)) in E; lia).
  unfold dp_snprintf_append. rewrite E, Hl. change (zlen (str "{")) with 1. cbn [Z.leb Z.compare Pos.compare Pos.compare_cont].
  change (20 - 1 <=? 18) with false. cbn [mbind option_bind]. rewrite zlen_app, E. done.
Qed.

Lemma dp_single_value_too_long_witness :
  dp_rept_json_output (fun s => Some s)
    {| devid := []; preprocess := false; node := [demo_node 101 (prop_int (-2147483648) 0 0)] |}
    {| rept_type := T_OBJ_REPT; flags := 0; dps := [ {| dp_id := 101; dp_val := dp_value (-1000000000); dp_time := 0 |} ] |}
    {| len := 20; timelen := 0; dpid := [101] |} false (fun _ => true) = Some (OPRT_BUFFER_NOT_ENOUGH, None, None).
Proof.
  apply (dp_single_value_too_long (fun s => Some s) (fun _ => true) _ (demo_node 101 (prop_int (-2147483648) 0 0))
           _ _ 101 (-1000000000) 0 (-2147483648) 0 0); try done; lia.
Defined.

(** ** Bitmaps *)

Definition is_bitmap (d : dp_obj_t) : Prop := exists x, dp_val d = dp_bitmap x.

Lemma check_one_bitmap s rt fl d mok nodes v :
  nodes_ok nodes -> is_bitmap d -> rt <> T_RE_TRANS_REPT ->
  check_one s rt fl d mok nodes v = (nodes, inr v)
  \/ check_one s rt fl d mok nodes v = (nodes, inl OPRT_SVC_DP_TP_NOT_MATCH).
Proof.
  intros Hn [x Hx] Hr. unfold check_one.
  destruct (node_index nodes (dp_id d)) as [k|]; [|by left]. destruct (nodes !! k) as [n|] eqn:Ek; [|by left].
  destruct (Z.eqb_spec (dp_type d) (prop_tp n)) as [Ht|]; cbn [negb]; [|by right].
  apply Z.eqb_neq in Hr. rewrite Hr.
  assert (dp_type_check rt d n = false) as ->.
  { destruct (Forall_lookup_1 _ _ _ _ Hn Ek) as [Hz _]. unfold dp_type_check.
    destruct (_ || _); [done|]. unfold dp_type, prop_tp in *. rewrite Hx in *.
    destruct (Z.eqb_spec (d_type (desc n)) T_OBJ) as [|Ho]; [by destruct (prop n)|]. by rewrite (Hz Ho) in Ht. }
  cbn [negb]. left. by rewrite list_insert_id.
Qed.

(** Bitmap data points cannot be reported: the range check of a bitmap compares
    the property type of the object (4) with the JSON type [cJSON_Number] (8), so a
    report of bitmaps is refused whatever the values, and changes nothing. *)
Theorem dp_bitmap_never_reported (s s' : dp_schema_t) (dpin : dp_rept_in_t) (mok : bool) (rc : Z) (v : dp_rept_valid_t) :
  nodes_ok (node s) -> Forall is_bitmap (dps dpin) -> rept_type dpin <> T_RE_TRANS_REPT ->
  dp_rept_valid_check s dpin mok = (rc, s', v) -> rc <> OPRT_OK /\ node s' = node s.
Proof.
  intros Hn Hb Hr. unfold dp_rept_valid_check.
  assert (forall v0, (exists r, check_loop s (rept_type dpin) (flags dpin) (dps dpin) mok (node s) v0 = (node s, r)
    /\ (r = inr v0 \/ r = inl OPRT_SVC_DP_TP_NOT_MATCH))) as H.
  { intros v0. induction Hb as [|d l Hd Hl IH]; cbn [check_loop]; [by exists (inr v0); split; [|left]|].
    destruct (check_one_bitmap s (rept_type dpin) (flags dpin) d mok (node s) v0 Hn Hd Hr) as [-> | ->].
    - exact IH.
    - by eexists; split; [|right]. }
  destruct (H {| len := 0; timelen := 0; dpid := [] |}) as (r & -> & [-> | ->]); by intros [= <- <- <-].
Qed.

Lemma dp_bitmap_never_reported_witness :
  OPRT_SVC_DP_ID_NOT_FOUND <> OPRT_OK /\ node demo_schema = node demo_schema.
Proof.
  apply (dp_bitmap_never_reported demo_schema demo_schema
    {| rept_type := T_OBJ_REPT; flags := 1; dps := [ {| dp_id := 4; dp_val := dp_bitmap 3; dp_time := 0 |} ] |}
    true OPRT_SVC_DP_ID_NOT_FOUND {| len := 0; timelen := 0; dpid := [] |}).
  - exact (proj1 demo_report_ok).
  - repeat constructor. by eexists.
  - done.
  - reflexivity.
Defined.

(** * Receiving: proofs *)

(** A received raw data point whose value is a boolean instead of a string is
    not handled as raw: it falls through to the object path, whose array was not
    allocated because the message has no object data point, and the store goes
    through the null pointer. *)
Theorem dp_raw_with_bool_faults (b64 : list Z -> list Z) (now : Z) (has_cb malloc_obj malloc_raw : bool)
    (s : dp_schema_t) (n : dp_node_t) (item : cjson_item) :
  preprocess s = false -> dp_node_find s (atoi (string item)) = Some n -> d_type (desc n) = T_RAW ->
  prop n = prop_bool false -> c_type item = cJSON_True ->
  dp_data_recv_parse b64 now has_cb malloc_obj malloc_raw (Some s) (Some [item]) = None.
Proof.
  intros Hpre Hn Ht Hp Hc. unfold dp_data_recv_parse, dp_node_find in *. cbn [recv_count recv_fill].
  destruct (node_index (node s) (atoi (string item))) as [k|] eqn:Ek; cbn in Hn; [|done].
  rewrite Hpre, Hn, Ht. cbn [Z.eqb T_RAW T_OBJ negb andb]. rewrite Ek, Hn. cbn [mbind option_bind].
  rewrite Ht, Hc. cbn [Z.eqb T_RAW Pos.eqb cJSON_True cJSON_String andb]. unfold item_value. rewrite Hp, Hc. done.
Qed.

Lemma dp_raw_with_bool_faults_witness :
  dp_data_recv_parse (fun s => s) 0 true true true
    (Some {| devid := []; preprocess := false;
             node := [ {| desc := {| id := 7; mode := 0; passive := 0; d_type := T_RAW; trig := 0 |};
                          prop := prop_bool false; pv_stat := 0; time_stamp := 0 |} ] |})
    (Some [ {| string := [55]; c_type := cJSON_True; valueint := 0; valuestring := [] |} ]) = None.
Proof.
  apply (dp_raw_with_bool_faults (fun s => s) 0 true true true _
           {| desc := {| id := 7; mode := 0; passive := 0; d_type := T_RAW; trig := 0 |};
              prop := prop_bool false; pv_stat := 0; time_stamp := 0 |}); reflexivity.
Defined.

(** An object data point whose item has the wrong JSON type is skipped, but
    still counted: the callback is given a zeroed object of id 0 in its place. *)
Theorem dp_recv_phantom_object (b64 : list Z -> list Z) (now : Z) (malloc_raw : bool)
    (s : dp_schema_t) (n : dp_node_t) (item : cjson_item) (mn mx old : Z) :
  preprocess s = false -> dp_node_find s (atoi (string item)) = Some n -> d_type (desc n) = T_OBJ ->
  prop n = prop_int mn mx old -> c_type item <> cJSON_Number ->
  exists s', dp_data_recv_parse b64 now true true malloc_raw (Some s) (Some [item])
             = Some (OPRT_OK, s', [recv_obj 1 [zero_obj]]).
Proof.
  intros Hpre Hn Ht Hp Hc. unfold dp_data_recv_parse, dp_node_find in *. cbn [recv_count recv_fill].
  destruct (node_index (node s) (atoi (string item))) as [k|] eqn:Ek; cbn in Hn; [|done].
  rewrite Hpre, Hn, Ht. cbn [Z.eqb T_OBJ negb andb]. change (u16 (0 + 1)) with 1. cbn [Z.eqb negb andb].
  rewrite Ek, Hn. cbn [mbind option_bind]. rewrite Ht. cbn [Z.eqb T_OBJ T_RAW andb].
  unfold item_value. rewrite Hp. apply Z.eqb_neq in Hc. rewrite Hc. by eexists.
Qed.

Lemma dp_recv_phantom_object_witness :
  exists s', dp_data_recv_parse (fun s => s) 0 true true true (Some demo_schema)
               (Some [ {| string := [50]; c_type := cJSON_String; valueint := 0; valuestring := [57] |} ])
             = Some (OPRT_OK, s', [recv_obj 1 [zero_obj]]).
Proof.
  apply (dp_recv_phantom_object (fun s => s) 0 true demo_schema (demo_node 2 (prop_int 0 1000 7)) _ 0 1000 7);
    try reflexivity; done.
Defined.

(** * Schema texts: proofs *)

Lemma pos_scan_flat body rest i start pos num :
  Forall (fun c => c <> 123 /\ c <> 125) body -> 0 < num ->
  pos_scan (body ++ rest) i 1 start pos num = pos_scan rest (i + zlen body) 1 start pos num.
Proof.
  intros H. revert i. induction H as [|c body [H1 H2] H IH]; intros i Hn.
  - cbn [app]. by rewrite (zlen_nil (A:=Z)), Z.add_0_r.
  - cbn [app pos_scan]. apply Z.eqb_neq in H1, H2. rewrite H1, H2, IH by done. rewrite zlen_cons. f_equal. lia.
Qed.

(** A schema object of more than 1024 bytes overruns the work buffer of
    [dp_node_parse]: the scanner finds the object, and the copy into the buffer of
    [MAX_ITEM_LEN] bytes is not bounded. *)
Theorem dp_schema_long_object_overruns (body : list Z) :
  Forall (fun c => c <> 123 /\ c <> 125) body -> 1022 < zlen body < 65534 ->
  let text := str "{" ++ body ++ str "}" in
  dp_node_pos_decode (Some text) 255 = [(0, zlen body + 1)] /\ item_copy text (0, zlen body + 1) = None.
Proof.
  intros Hb Hl text. split.
  - unfold dp_node_pos_decode, text. change (str "{") with [123]. change (str "}") with [125].
    cbn [app pos_scan]. change (123 =? 123) with true. change (0 =? 0) with true. cbn iota.
    change (u16 0) with 0. change (0 + 1) with 1. rewrite pos_scan_flat by (done || lia). cbn [pos_scan].
    change (125 =? 123) with false. change (125 =? 125) with true. change (1 - 1 =? 0) with true. cbn iota.
    rewrite u16_small by (unfold is_u16; lia). cbn [app].
    change (255 <=? zlen [(0, 1 + zlen body)]) with false. cbn iota. f_equal. f_equal. lia.
  - unfold item_copy. replace (zlen body + 1 - 0 + 1) with (zlen text)
      by (unfold text; rewrite !zlen_app; change (zlen (str "{")) with 1; change (zlen (str "}")) with 1; lia).
    rewrite slice_prefix. cbn [mbind option_bind]. apply blit_None. rewrite zlen_zrepl by (unfold MAX_ITEM_LEN; lia).
    unfold MAX_ITEM_LEN, text. rewrite !zlen_app. change (zlen (str "{")) with 1. change (zlen (str "}")) with 1. lia.
Qed.

Lemma dp_schema_long_object_overruns_witness :
  let text := str "{" ++ zrepl 1100 97 ++ str "}" in
  dp_node_pos_decode (Some text) 255 = [(0, 1101)] /\ item_copy text (0, 1101) = None.
Proof.
  apply (dp_schema_long_object_overruns (zrepl 1100 97)).
  - apply Forall_replicate. lia.
  - rewrite zlen_zrepl; lia.
Defined.
