(* ===== verification/BleDp.v ===== *)
(** Data points over BLE: the key-length-value lists of
    [src/tuya_cloud_service/ble/ble_dp.c], the report and query that write them and
    the command parser that reads them. *)
From Stdlib Require Import ZArith Lia String.
From stdpp Require Import base tactics option list numbers.
From S2P Require Import Prelude Text Endian Protocol DpSchema.

Local Open Scope Z_scope.

(** * Types and nodes *)

Definition DT_RAW : Z := 0.
Definition DT_BOOL : Z := 1.
Definition DT_VALUE : Z := 2.
Definition DT_STRING : Z := 3.
Definition DT_ENUM : Z := 4.
Definition DT_BITMAP : Z := 5.
Definition DT_LMT : Z := 10.

Definition DT_VALUE_LEN : Z := 4.
Definition DT_BOOL_LEN : Z := 4.
Definition DT_ENUM_LEN : Z := 4.
Definition DT_BITMAP_MAX : Z := 4.

Definition FRM_STATE_QUERY : Z := 0x0003.
Definition FRM_DP_CMD_SEND_V4 : Z := 0x0027.
Definition FRM_DP_STAT_REPORT_V4 : Z := 0x8006.
Definition FRM_DP_STAT_REPORT_WITH_TIME_V4 : Z := 0x8007.
Definition TUYA_BLE_TRANSMISSION_MAX_DATA_LEN : Z := 995.

(** [sizeof(klv_node_s)] and the size of a pointer on the 32-bit targets. *)
Definition KLV_NODE_SIZE : Z := 12.
Definition POINTER_SIZE : Z := 4.

(** [k_data] is the memory allocated for the node; [[]] is [NULL]. A list of nodes is
    the linked list from its head; [[]] is the [NULL] list. *)
Record klv_node_s := { k_id : Z; k_type : Z; k_len : Z; k_data : list Z }.

(** What was sent: packet type, acknowledged number and data. *)
Abbreviation sent := (list (Z * Z * list Z)).

(** The 32-bit word at a pointer. *)
Definition ld_u32 (p : list Z) : option Z := le_load <$> slice p 0 4.

(** The memory and the new length. *)
Definition tuya_change_bt_dp_tlv (type : Z) (data : list Z) (len : Z) : option (list Z * Z) :=
  if type =? DT_ENUM then
    v ← ld_u32 data;
    if v <=? 0xff then d ← blit data 0 [u8 v]; Some (d, 1)
    else if v <=? 0xffff then d ← blit data 0 (take 2 (le_store (UNI_HTONS (u16 v)))); Some (d, 2)
    else d ← blit data 0 (le_store (UNI_HTONL v)); Some (d, 4)
  else if type =? DT_BOOL then
    v ← ld_u32 data;
    d ← blit data 0 [u8 v];
    Some (d, 1)
  else Some (data, len).

Section Klv.
(** Whether an allocation of a size succeeds. *)
Context (malloc : Z -> bool).

Definition bad_len (type len : Z) : bool :=
  ((type =? DT_VALUE) && negb (len =? DT_VALUE_LEN)) || ((type =? DT_BITMAP) && (DT_BITMAP_MAX <? len))
  || ((type =? DT_BOOL) && negb (len =? DT_BOOL_LEN)) || ((type =? DT_ENUM) && negb (len =? DT_ENUM_LEN)).

(** A new head of the list. On failure the list is freed and the result is [NULL]. *)
Definition make_klv_list (head : list klv_node_s) (id type : Z) (data : option (list Z)) (len : Z)
  : option (list klv_node_s) :=
  match data with
  | None => Some []
  | Some data =>
      if DT_LMT <=? type then Some []
      else if bad_len type len then Some []
      else if (0 <? len) && negb (malloc len) then Some []
      else
        p_data ← (if 0 <? len then slice data 0 len else Some []);
        '(p_data, len) ← tuya_change_bt_dp_tlv type p_data len;
        if negb (malloc KLV_NODE_SIZE) then Some []
        else if (0 <? len) && negb (malloc len) then Some []
        else
          mem ← (if (type =? DT_VALUE) || (type =? DT_BITMAP) then
                   tmp ← ld_u32 p_data;
                   blit (zrepl len 0) 0
                     [Z.land (Z.shiftr tmp 24) 0xff; Z.land (Z.shiftr tmp 16) 0xff; Z.land (Z.shiftr tmp 8) 0xff; Z.land tmp 0xff]
                 else if 0 <? len then slice p_data 0 len else Some []);
          Some ({| k_id := id; k_type := type; k_len := len; k_data := mem |} :: head)
  end.

(** The bytes of a node: id, type, length (most significant byte first) and data. *)
Definition node_bytes (n : klv_node_s) : option (list Z) :=
  data ← (if 0 <? k_len n then slice (k_data n) 0 (k_len n) else Some []);
  Some ([k_id n; k_type n; Z.land (Z.shiftr (k_len n) 8) 0xff; u8 (k_len n)] ++ data).

Fixpoint nodes_bytes (l : list klv_node_s) : option (list Z) :=
  match l with [] => Some [] | n :: l' => b ← node_bytes n; r ← nodes_bytes l'; Some (b ++ r) end.

Fixpoint klv_size (l : list klv_node_s) (n : Z) : Z :=
  match l with [] => n | k :: l' => klv_size l' (u32 (n + (KLV_NODE_SIZE + k_len k - POINTER_SIZE))) end.

(** [sn] is the static counter; the result is the return code, the data and the new
    counter. The [type] of the C function is the constant 1. *)
Definition klvlist_2_data (sn : Z) (l : list klv_node_s) (time_stamp : option Z) (query : bool) (flag : Z)
  : option (Z * list Z * Z) :=
  if bool_decide (l = []) then Some (OPRT_INVALID_PARM, [], sn)
  else
    let mk_data_len := klv_size l (7 + match time_stamp with Some _ => 5 | None => 0 end) in
    if negb (malloc mk_data_len) then Some (OPRT_MALLOC_FAILED, [], sn)
    else
      let head :=
        [0; Z.shiftr (Z.land sn 0xff000000) 24; Z.shiftr (Z.land sn 0xff0000) 16; Z.shiftr (Z.land sn 0xff00) 8;
         Z.land sn 0xff; if query then 1 else 0; flag]
        ++ match time_stamp with Some t => 1 :: le_store t | None => [] end in
      body ← nodes_bytes l;
      if mk_data_len <? zlen (head ++ body) then None
      else Some (OPRT_OK, head ++ body, u32 (sn + 1)).

(** The loop of [data_2_klvlist]: the return code and the list. *)
Fixpoint klv_loop (fuel : nat) (data : list Z) (len offset : Z) (klv_list : list klv_node_s)
  : option (Z * list klv_node_s) :=
  match fuel with
  | O => None
  | S fuel' =>
      if u32 (len - offset) <? 4 then Some (OPRT_COM_ERROR, [])
      else if negb (malloc KLV_NODE_SIZE) then Some (OPRT_MALLOC_FAILED, [])
      else
        id ← rd data offset;
        type ← rd data (offset + 1);
        hi ← rd data (offset + 2);
        lo ← rd data (offset + 3);
        let n := u16 (Z.shiftl hi 8 + lo) in
        let offset := offset + 4 in
        if (0 <? n) && negb (malloc (n + 1)) then Some (OPRT_MALLOC_FAILED, [])
        else if (0 <? n) && (u32 (len - offset) <? n) then Some (OPRT_COM_ERROR, [])
        else
          mem ← (if 0 <? n then b ← slice data offset n; Some (b ++ [0]) else Some []);
          let klv_list := {| k_id := id; k_type := type; k_len := n; k_data := mem |} :: klv_list in
          if offset + n <? len then klv_loop fuel' data len (offset + n) klv_list
          else Some (OPRT_OK, klv_list)
  end.

(** [data] is the memory from the pointer on, which may be shorter than [len]. *)
Definition data_2_klvlist (data : list Z) (len : Z) : option (Z * list klv_node_s) :=
  klv_loop (S (Z.to_nat len)) data len 0 [].

(** * Reports *)

(** The value of an object in memory: its type, bytes and length. *)
Definition obj_klv (v : dp_value_t) : Z * list Z * Z :=
  match v with
  | dp_bool b => (DT_BOOL, le_store (Z.b2z b), DT_BOOL_LEN)
  | dp_value v => (DT_VALUE, le_store v, DT_VALUE_LEN)
  | dp_str s => (DT_STRING, s ++ [0], u16 (zlen s))
  | dp_enum v => (DT_ENUM, le_store v, DT_ENUM_LEN)
  | dp_bitmap v => (DT_BITMAP, le_store v, DT_BITMAP_MAX)
  end.

Fixpoint make_obj_dp_klv_list (dps : list dp_obj_t) (p_node : list klv_node_s) : option (list klv_node_s) :=
  match dps with
  | [] => Some p_node
  | d :: dps' =>
      let '(new_type, new_data, new_len) := obj_klv (dp_val d) in
      p_node ← make_klv_list p_node (dp_id d) new_type (Some new_data) new_len;
      make_obj_dp_klv_list dps' p_node
  end.

(** What the lower layers answer to a packet. *)
Context (send_rc : Z -> list Z -> Z).

Definition dp_data_report_data (type : Z) (p_data : list Z) : Z * sent :=
  if bool_decide (p_data = []) || (TUYA_BLE_TRANSMISSION_MAX_DATA_LEN <? zlen p_data) then (OPRT_INVALID_PARM, [])
  else (send_rc type p_data, [(type, 0, p_data)]).

(** The return code, what was sent and the counter. *)
Definition ty_bt_dp_data_report (sn : Z) (p_node : list klv_node_s) (time_stamp : Z) : option (Z * sent * Z) :=
  if bool_decide (p_node = []) then Some (OPRT_INVALID_PARM, [], sn)
  else
    let time_stamp := UNI_HTONL time_stamp in
    let p_time_stamp := if 0 <? time_stamp then Some time_stamp else None in
    '(_, p_new_data, sn) ← klvlist_2_data sn p_node p_time_stamp false 0;
    let type := match p_time_stamp with Some _ => FRM_DP_STAT_REPORT_WITH_TIME_V4 | None => FRM_DP_STAT_REPORT_V4 end in
    let '(ret, out) := dp_data_report_data type p_new_data in
    Some (ret, out, sn).

Definition dp_get_time_stamp (now : Z) (dp_data : list dp_obj_t) : Z :=
  match dp_data with
  | [] => now
  | d :: _ => if dp_time d =? 0 then now else dp_time d
  end.

(** [dp_raw]: id and data of the raw data point of a [T_RAW_REPT]. *)
Definition ble_dp_report (now sn : Z) (dpin : dp_rept_in_t) (dp_raw : Z * list Z) : option (Z * sent * Z) :=
  if rept_type dpin =? T_OBJ_REPT then
    p_node ← make_obj_dp_klv_list (dps dpin) [];
    ty_bt_dp_data_report sn p_node (dp_get_time_stamp now (dps dpin))
  else if rept_type dpin =? T_STAT_REPT then ty_bt_dp_data_report sn [] 0
  else if rept_type dpin =? T_RAW_REPT then
    p_node ← make_klv_list [] (fst dp_raw) DT_RAW (Some (snd dp_raw)) (u16 (zlen (snd dp_raw)));
    ty_bt_dp_data_report sn p_node 0
  else Some (OPRT_INVALID_PARM, [], sn).

Definition tuya_ble_dp_report := ble_dp_report.

(** * The query *)

(** The cached value of a node in memory; a string that was never set is [NULL]. *)
Definition prop_klv (p : dp_prop_value_t) : Z * option (list Z) * Z :=
  match p with
  | prop_bool v => (DT_BOOL, Some (le_store (Z.b2z v)), DT_BOOL_LEN)
  | prop_int _ _ v => (DT_VALUE, Some (le_store v), DT_VALUE_LEN)
  | prop_str _ _ (Some s) => (DT_STRING, Some (s ++ [0]), u16 (zlen s))
  | prop_str _ _ None => (DT_STRING, None, 0)
  | prop_enum _ v => (DT_ENUM, Some (le_store v), DT_ENUM_LEN)
  | prop_bitmap _ v => (DT_BITMAP, Some (le_store v), DT_BITMAP_MAX)
  end.

Fixpoint query_loop (nodes : list dp_node_t) (p_node : list klv_node_s) : option (list klv_node_s) :=
  match nodes with
  | [] => Some p_node
  | n :: nodes' =>
      if mode (desc n) =? M_WR then query_loop nodes' p_node
      else if d_type (desc n) =? T_OBJ then
        let '(new_type, new_data, new_len) := prop_klv (prop n) in
        p_node ← make_klv_list p_node (id (desc n)) new_type new_data new_len;
        query_loop nodes' p_node
      else query_loop nodes' p_node
  end.

Record ble_packet_t := { p_sn : Z; p_type : Z; p_len : Z; p_data : list Z }.

(** [schema]: what [dp_schema_find] gives for the device. *)
Definition ble_dp_query (sn : Z) (schema : option dp_schema_t) (req : ble_packet_t) : option (Z * sent * Z) :=
  let out := [(p_type req, p_sn req, [0])] in
  match schema with
  | None => Some (OPRT_INVALID_PARM, out, sn)
  | Some s =>
      p_node ← query_loop (node s) [];
      if bool_decide (p_node = []) then Some (OPRT_OK, out, sn)
      else
        '(_, p_new_data, sn) ← klvlist_2_data sn p_node None true 0;
        Some (OPRT_OK, out ++ snd (dp_data_report_data FRM_DP_STAT_REPORT_V4 p_new_data), sn)
  end.

(** * Commands *)

(** [tuya_base64_encode]. *)
Context (b64_encode : list Z -> list Z).

(** A string of C in memory: the bytes before the terminator. *)
Fixpoint c_string (l : list Z) : option (list Z) :=
  match l with [] => None | c :: l' => if c =? 0 then Some [] else s ← c_string l'; Some (c :: s) end.

Definition bool_item (key : list Z) (b : bool) : cjson_item :=
  {| string := key; c_type := if b then cJSON_True else cJSON_False; valueint := 0; valuestring := [] |}.
Definition number_item (key : list Z) (v : Z) : cjson_item :=
  {| string := key; c_type := cJSON_Number; valueint := v; valuestring := [] |}.
Definition string_item (key s : list Z) : cjson_item :=
  {| string := key; c_type := cJSON_String; valueint := 0; valuestring := s |}.

(** The switch over a received node: an error code, or what is added to the object. *)
Definition node_item (schema : option dp_schema_t) (n : klv_node_s) : option (Z + option cjson_item) :=
  let key := print_u32 (k_id n) in
  if k_type n =? DT_RAW then
    if negb (malloc (k_len n / 3 * 4 + 5)) then Some (inl OPRT_MALLOC_FAILED)
    else
      d ← slice (k_data n) 0 (k_len n);
      p_base64 ← blit (zrepl (k_len n / 3 * 4 + 5) 0) 0 (b64_encode d ++ [0]);
      s ← c_string p_base64;
      Some (inr (Some (string_item key s)))
  else if k_type n =? DT_BOOL then
    b ← rd (k_data n) 0;
    Some (inr (Some (bool_item key (negb (b =? 0)))))
  else if (k_type n =? DT_BITMAP) || (k_type n =? DT_VALUE) then
    d0 ← rd (k_data n) 0;
    d1 ← rd (k_data n) 1;
    d2 ← rd (k_data n) 2;
    d3 ← rd (k_data n) 3;
    Some (inr (Some (number_item key (s32 (Z.shiftl d0 24 + Z.shiftl d1 16 + Z.shiftl d2 8 + d3)))))
  else if k_type n =? DT_ENUM then
    val ← rd (k_data n) 0;
    s ← schema;
    match dp_node_find s (k_id n) with
    | None => Some (inr None)
    | Some dpnode =>
        match prop dpnode with
        | prop_enum pp_enum _ => name ← rd pp_enum val; Some (inr (Some (string_item key name)))
        | _ => None
        end
    end
  else if k_type n =? DT_STRING then
    s ← (if bool_decide (k_data n = []) then Some [] else c_string (k_data n));
    Some (inr (Some (string_item key s)))
  else Some (inr None).

(** The items of the "dps" object. *)
Fixpoint dps_loop (schema : option dp_schema_t) (l : list klv_node_s) (p_dps : list cjson_item)
  : option (Z + list cjson_item) :=
  match l with
  | [] => Some (inr p_dps)
  | n :: l' =>
      r ← node_item schema n;
      match r with
      | inl rc => Some (inl rc)
      | inr None => dps_loop schema l' p_dps
      | inr (Some item) => dps_loop schema l' (p_dps ++ [item])
      end
  end.

(** What was sent, and the items handed to [tuya_iot_dp_parse] or the return code.
    [client_schema] is [client->schema]. *)
Definition ble_dp_req (client_schema : option dp_schema_t) (req : ble_packet_t) : option (sent * (Z + list cjson_item)) :=
  if p_type req =? FRM_DP_CMD_SEND_V4 then
    head ← slice (p_data req) 0 5;
    let out := [(FRM_DP_CMD_SEND_V4, p_sn req, head ++ [0])] in
    let len := u16 (p_len req - 5) in
    '(ret, l) ← data_2_klvlist (drop 5 (p_data req)) len;
    if negb (ret =? OPRT_OK) then Some (out, inl OPRT_CJSON_PARSE_ERR)
    else
      r ← dps_loop client_schema l [];
      Some (out, r)
  else Some ([], inl OPRT_NOT_SUPPORTED).
End Klv.

(** * The wire format *)

(** An entry: id, type and data. *)
Abbreviation klv := (Z * Z * list Z)%type.

Definition wire (e : klv) : list Z :=
  let '(i, t, d) := e in [i; t; zlen d / 256; zlen d mod 256] ++ d.
Definition wires (es : list klv) : list Z := concat (wire <$> es).

Definition klv_ok (e : klv) : Prop := zlen (snd e) < 65536.

(** The node that the parser makes of an entry. *)
Definition recv_node (e : klv) : klv_node_s :=
  let '(i, t, d) := e in
  {| k_id := i; k_type := t; k_len := zlen d; k_data := if bool_decide (d = []) then [] else d ++ [0] |}.

Lemma zlen_wire e : zlen (wire e) = 4 + zlen (snd e).
Proof. destruct e as [[i t] d]. cbn [wire app snd]. rewrite !zlen_cons. lia. Qed.

Lemma wires_cons e es : wires (e :: es) = wire e ++ wires es.
Proof. done. Qed.

Lemma wires_app a b : wires (a ++ b) = wires a ++ wires b.
Proof. unfold wires. by rewrite fmap_app, concat_app. Qed.

Lemma wires_nil es : wires es = [] -> es = [].
Proof. destruct es as [|e es]; [done|]. rewrite wires_cons. by destruct e as [[? ?] ?]. Qed.

Lemma rd_behind {A} (pre l : list A) j : 0 <= j -> rd (pre ++ l) (zlen pre + j) = rd l j.
Proof.
  intros Hj. unfold rd. pose proof (zlen_nonneg pre). destruct (Z.leb_spec 0 (zlen pre + j)); [|lia].
  destruct (Z.leb_spec 0 j); [|lia]. rewrite lookup_app_r by (unfold zlen; lia). f_equal. unfold zlen. lia.
Qed.

Lemma klv_len_bytes n : 0 <= n < 65536 -> u16 (Z.shiftl (n / 256) 8 + n mod 256) = n.
Proof.
  intros Hn. rewrite Z.shiftl_mul_pow2 by lia. change (2 ^ 8) with 256.
  replace (n / 256 * 256 + n mod 256) with n by (pose proof (Z.div_mod n 256); lia). apply u16_small. unfold is_u16. lia.
Qed.

(** One round of the parser on a whole entry. *)
Lemma klv_step malloc f pre e rest len acc :
  klv_ok e -> malloc KLV_NODE_SIZE = true -> (0 <? zlen (snd e)) && negb (malloc (zlen (snd e) + 1)) = false ->
  len = zlen (pre ++ wire e ++ rest) -> len < 2 ^ 32 ->
  klv_loop malloc (S f) (pre ++ wire e ++ rest) len (zlen pre) acc
  = if bool_decide (rest = []) then Some (OPRT_OK, recv_node e :: acc)
    else klv_loop malloc f ((pre ++ wire e) ++ rest) len (zlen (pre ++ wire e)) (recv_node e :: acc).
Proof.
  intros Hl Hm Hm' Hlen H32. rewrite !zlen_app, zlen_wire in *. unfold klv_ok in Hl. destruct e as [[i t] d]. cbn [fst snd] in *.
  pose proof (zlen_nonneg pre). pose proof (zlen_nonneg d). pose proof (zlen_nonneg rest).
  cbn [klv_loop]. rewrite (u32_small (len - zlen pre)) by (unfold is_u32; lia).
  destruct (Z.ltb_spec (len - zlen pre) 4); [lia|]. rewrite Hm. cbn [negb].
  rewrite <- (Z.add_0_r (zlen pre)) at 1. rewrite !rd_behind by lia.
  change (rd (wire (i, t, d) ++ rest) 0) with (Some i). change (rd (wire (i, t, d) ++ rest) 1) with (Some t).
  change (rd (wire (i, t, d) ++ rest) 2) with (Some (zlen d / 256)).
  change (rd (wire (i, t, d) ++ rest) 3) with (Some (zlen d mod 256)). cbn [mbind option_bind].
  rewrite klv_len_bytes, Hm' by lia.
  rewrite (u32_small (len - (zlen pre + 4))) by (unfold is_u32; lia).
  destruct (Z.ltb_spec (len - (zlen pre + 4)) (zlen d)); [lia|]. rewrite andb_false_r.
  assert ((if 0 <? zlen d then b ← slice (pre ++ wire (i, t, d) ++ rest) (zlen pre + 4) (zlen d); Some (b ++ [0]) else Some [])
          = Some (if bool_decide (d = []) then [] else d ++ [0])) as ->.
  { destruct d as [|b d]; [done|]. assert (0 < zlen (b :: d)) by (rewrite zlen_cons; pose proof (zlen_nonneg d); lia).
    destruct (Z.ltb_spec 0 (zlen (b :: d))); [|lia]. set (h := [i; t; zlen (b :: d) / 256; zlen (b :: d) mod 256]).
    assert (pre ++ wire (i, t, b :: d) ++ rest = (pre ++ h) ++ (b :: d) ++ rest) as -> by (by rewrite <- app_assoc).
    rewrite (slice_mid_n (pre ++ h) (b :: d) rest); [done| |done]. by rewrite zlen_app. }
  cbn [mbind option_bind]. change ({| k_id := i; k_type := t; k_len := zlen d; k_data := _ |}) with (recv_node (i, t, d)).
  rewrite <- (app_assoc pre). destruct (Z.ltb_spec (zlen pre + 4 + zlen d) len).
  - rewrite bool_decide_eq_false_2 by (intros ->; change (zlen []) with 0 in *; lia). f_equal. lia.
  - rewrite bool_decide_eq_true_2; [done|]. apply zlen_zero. lia.
Qed.

(** The ways an entry is refused. *)
Lemma klv_refused malloc f pre i t h lo rest acc :
  0 <= h < 256 -> 0 <= lo < 256 -> malloc KLV_NODE_SIZE = true -> zlen (pre ++ i :: t :: h :: lo :: rest) < 2 ^ 32 ->
  let n := h * 256 + lo in
  forall rc,
    (if (0 <? n) && negb (malloc (n + 1)) then Some OPRT_MALLOC_FAILED
     else if (0 <? n) && (zlen rest <? n) then Some OPRT_COM_ERROR else None) = Some rc ->
    klv_loop malloc (S f) (pre ++ i :: t :: h :: lo :: rest) (zlen (pre ++ i :: t :: h :: lo :: rest)) (zlen pre) acc = Some (rc, []).
Proof.
  intros Hh Hlo Hm H32 n rc Hrc. set (r := i :: t :: h :: lo :: rest) in *.
  assert (zlen r = 4 + zlen rest) as Hr by (unfold r; rewrite !zlen_cons; lia).
  pose proof (zlen_nonneg rest). pose proof (zlen_nonneg pre). rewrite zlen_app in *.
  assert (u16 (Z.shiftl h 8 + lo) = n) as Hn by (rewrite Z.shiftl_mul_pow2, u16_small by (unfold is_u16; lia); done).
  cbn [klv_loop]. rewrite u32_small by (unfold is_u32; lia). destruct (Z.ltb_spec (zlen pre + zlen r - zlen pre) 4); [lia|].
  rewrite Hm. cbn [negb]. rewrite <- (Z.add_0_r (zlen pre)) at 1. rewrite !rd_behind by lia.
  change (rd r 0) with (Some i). change (rd r 1) with (Some t). change (rd r 2) with (Some h). change (rd r 3) with (Some lo).
  cbn [mbind option_bind]. rewrite Hn. replace (zlen pre + zlen r - (zlen pre + 4)) with (zlen rest) by lia.
  rewrite (u32_small (zlen rest)) by (unfold is_u32; lia).
  destruct ((0 <? n) && negb (malloc (n + 1))); [by injection Hrc as <-|].
  destruct ((0 <? n) && (zlen rest <? n)); [by injection Hrc as <-|done].
Qed.

(** The parser on any bytes: it ends inside them, and accepts just the lists of entries. *)
Lemma klv_loop_sound malloc fuel pre rest acc :
  bytes_ok rest -> zlen (pre ++ rest) < 2 ^ 32 -> (length rest < fuel)%nat ->
  exists rc l, klv_loop malloc fuel (pre ++ rest) (zlen (pre ++ rest)) (zlen pre) acc = Some (rc, l)
    /\ ((rc = OPRT_OK /\ exists es, es <> [] /\ Forall klv_ok es /\ rest = wires es /\ l = rev (recv_node <$> es) ++ acc)
        \/ (rc <> OPRT_OK /\ l = [])).
Proof.
  revert pre rest acc. induction fuel as [|f IH]; intros pre rest acc Hb H32 Hf; [lia|].
  assert (zlen (pre ++ rest) - zlen pre = zlen rest) as Hsub by (rewrite zlen_app; lia).
  pose proof (zlen_nonneg rest). pose proof (zlen_nonneg pre). assert (zlen rest < 2 ^ 32) by lia.
  destruct (Z.lt_ge_cases (zlen rest) 4) as [H4|H4].
  { cbn [klv_loop]. rewrite Hsub, u32_small by (unfold is_u32; lia). decide_bool. exists OPRT_COM_ERROR, []. split; [done|]. by right. }
  destruct (malloc KLV_NODE_SIZE) eqn:Em1.
  2: { cbn [klv_loop]. rewrite Hsub, u32_small by (unfold is_u32; lia). decide_bool. rewrite Em1.
       exists OPRT_MALLOC_FAILED, []. split; [done|]. by right. }
  destruct rest as [|i [|t [|h [|lo rest']]]]; try (exfalso; by apply H4).
  assert (is_u8 h /\ is_u8 lo) as [Hh Hlo].
  { do 2 apply Forall_cons_1 in Hb as [_ Hb]. apply Forall_cons_1 in Hb as [Hh Hb]. by apply Forall_cons_1 in Hb as [Hlo _]. }
  assert (bytes_ok rest') as Hb' by (by do 4 apply Forall_cons_1 in Hb as [_ Hb]).
  unfold is_u8 in Hh, Hlo. set (n := h * 256 + lo).
  set (rest := i :: t :: h :: lo :: rest') in *. assert (zlen rest = 4 + zlen rest') as Hzr by (unfold rest; rewrite !zlen_cons; lia).
  pose proof (klv_refused malloc f pre i t h lo rest' acc Hh Hlo Em1 H32) as Hk. cbv zeta in Hk. fold rest n in Hk.
  destruct ((0 <? n) && negb (malloc (n + 1))) eqn:Em2.
  { exists OPRT_MALLOC_FAILED, []. split; [by apply Hk|by right]. }
  destruct ((0 <? n) && (zlen rest' <? n)) eqn:El.
  { exists OPRT_COM_ERROR, []. split; [by apply Hk|by right]. }
  clear Hk. destruct (split_at rest' n) as (d & r2 & -> & Hd).
  { pose proof (zlen_nonneg rest'). destruct (Z.ltb_spec 0 n); [|lia]. cbn [andb] in El. bool_hyps. lia. }
  apply Forall_app in Hb' as [_ Hb2].
  assert (rest = wire (i, t, d) ++ r2) as ->.
  { unfold rest. cbn [wire app]. rewrite Hd. unfold n. rewrite Z.div_add_l, (Z.div_small lo), Z.add_0_r by lia.
    rewrite Z.add_comm, Z.mod_add, Z.mod_small by lia. done. }
  rewrite klv_step; [|unfold klv_ok; cbn; lia|done|cbn [snd]; by rewrite Hd|done|done].
  case_bool_decide as Hr2.
  { subst r2. exists OPRT_OK, (recv_node (i, t, d) :: acc). split; [done|]. left. split; [done|]. exists [(i, t, d)].
    split_and!; [done|constructor; [unfold klv_ok; cbn; lia|constructor]|done|done]. }
  rewrite app_assoc in H32. destruct (IH (pre ++ wire (i, t, d)) r2 (recv_node (i, t, d) :: acc) Hb2 H32) as (rc & l & E & Hc).
  { rewrite length_app in Hf. unfold zlen in Hzr. cbn in Hf. lia. }
  exists rc, l. rewrite app_assoc, E. split; [done|]. destruct Hc as [(-> & es & Hes & Hok & -> & ->)|Hc]; [left|by right].
  split; [done|]. exists ((i, t, d) :: es). split_and!; [done|constructor; [unfold klv_ok; cbn; lia|done]|done|].
  cbn [fmap list_fmap rev]. by rewrite <- app_assoc.
Qed.

(** Entries are accepted when memory lasts. *)
Lemma klv_loop_wires malloc fuel pre es acc :
  (forall n, malloc n = true) -> es <> [] -> Forall klv_ok es -> zlen (pre ++ wires es) < 2 ^ 32 -> (length es <= fuel)%nat ->
  klv_loop malloc fuel (pre ++ wires es) (zlen (pre ++ wires es)) (zlen pre) acc = Some (OPRT_OK, rev (recv_node <$> es) ++ acc).
Proof.
  intros Hm. revert fuel pre acc. induction es as [|e es IH]; intros fuel pre acc Hne Hok H32 Hf; [done|].
  destruct fuel as [|f]; [cbn in Hf; lia|]. apply Forall_cons_1 in Hok as [He Hok]. rewrite wires_cons in *.
  rewrite klv_step; [|done|done|by rewrite Hm, andb_false_r|done|done]. cbn [fmap list_fmap rev].
  destruct es as [|e' es]; [done|]. rewrite bool_decide_eq_false_2 by (intros E%wires_nil; done).
  rewrite app_assoc in H32 |- *. rewrite IH; [|done|done|done|cbn in Hf |- *; lia]. by rewrite <- app_assoc.
Qed.

Lemma wires_length es : (length es <= length (wires es))%nat.
Proof.
  induction es as [|e es IH]; [done|]. rewrite wires_cons, length_app. pose proof (zlen_wire e).
  pose proof (zlen_nonneg (snd e)). unfold zlen in *. cbn. lia.
Qed.

Lemma data_2_klvlist_wires malloc es :
  (forall n, malloc n = true) -> es <> [] -> Forall klv_ok es -> zlen (wires es) < 2 ^ 32 ->
  data_2_klvlist malloc (wires es) (zlen (wires es)) = Some (OPRT_OK, rev (recv_node <$> es)).
Proof.
  intros Hm Hne Hok H32. unfold data_2_klvlist. pose proof (wires_length es).
  pose proof (klv_loop_wires malloc (S (Z.to_nat (zlen (wires es)))) [] es [] Hm Hne Hok) as Hw.
  cbn [app] in Hw. change (zlen []) with 0 in Hw. rewrite app_nil_r in Hw. apply Hw; [done|]. rewrite zlen_nat. lia.
Qed.

(** The parser of a received list ends inside the packet, whatever its bytes and
    whichever allocation fails; it accepts only lists of whole entries, keeping each id, type and
    value with a terminator behind it, newest first; and with memory it accepts all of them. *)
Theorem ble_klv_parse (malloc : Z -> bool) (data : list Z) :
  bytes_ok data -> zlen data < 2 ^ 32 ->
  exists rc l, data_2_klvlist malloc data (zlen data) = Some (rc, l)
    /\ (rc = OPRT_OK -> exists es, es <> [] /\ Forall klv_ok es /\ data = wires es /\ l = rev (recv_node <$> es))
    /\ ((forall n, malloc n = true) -> forall es, es <> [] -> Forall klv_ok es -> data = wires es ->
          rc = OPRT_OK /\ l = rev (recv_node <$> es)).
Proof.
  intros Hb H32. destruct (klv_loop_sound malloc (S (Z.to_nat (zlen data))) [] data []) as (rc & l & E & Hc);
    [done|done|rewrite zlen_nat; lia|]. cbn [app] in E. unfold data_2_klvlist. exists rc, l. split; [exact E|]. split.
  - intros ->. destruct Hc as [(_ & es & ? & ? & -> & ->)|[? _]]; [|done]. exists es. by rewrite app_nil_r.
  - intros Hm es Hne Hok ->. pose proof (data_2_klvlist_wires malloc es Hm Hne Hok H32) as Hw. unfold data_2_klvlist in Hw.
    change (zlen []) with 0 in E. rewrite Hw in E. by injection E as <- <-.
Qed.

Lemma ble_klv_parse_witness :
  exists rc l, data_2_klvlist (fun _ => true) [1; 1; 0; 1; 1; 9; 3; 0; 2; 104; 105] 11 = Some (rc, l)
    /\ rc = OPRT_OK /\ l = [ {| k_id := 9; k_type := 3; k_len := 2; k_data := [104; 105; 0] |};
                            {| k_id := 1; k_type := 1; k_len := 1; k_data := [1; 0] |} ].
Proof.
  destruct (ble_klv_parse (fun _ => true) [1; 1; 0; 1; 1; 9; 3; 0; 2; 104; 105]) as (rc & l & E & _ & H).
  - repeat (constructor; [unfold is_u8; lia|]). constructor.
  - vm_compute. reflexivity.
  - exists rc, l. split; [exact E|]. apply (H (fun _ => eq_refl) [(1, 1, [1]); (9, 3, [104; 105])]);
      [discriminate| |reflexivity]. repeat (constructor; [vm_compute; reflexivity|]). constructor.
Defined.

(** * Writing *)

Definition send_node (e : klv) : klv_node_s :=
  let '(i, t, d) := e in {| k_id := i; k_type := t; k_len := zlen d; k_data := d |}.

Lemma node_bytes_ok e : klv_ok e -> node_bytes (send_node e) = Some (wire e).
Proof.
  destruct e as [[i t] d]. unfold klv_ok. cbn [snd]. intros Hd. unfold node_bytes. cbn [send_node k_len k_data k_id k_type].
  pose proof (zlen_nonneg d).
  assert ((if 0 <? zlen d then slice d 0 (zlen d) else Some []) = Some d) as ->.
  { destruct (Z.ltb_spec 0 (zlen d)); [pose proof (slice_prefix d []) as Hs; by rewrite app_nil_r in Hs|].
    rewrite (zlen_zero d); [done|lia]. }
  cbn [mbind option_bind wire]. do 2 f_equal. f_equal. f_equal.
  - rewrite Z.shiftr_div_pow2 by lia. change (2 ^ 8) with 256. change 0xff with (Z.ones 8).
    rewrite Z.land_ones by lia. rewrite Z.mod_small; [done|]. split; [apply Z.div_pos; lia|]. apply Z.div_lt_upper_bound; lia.
Qed.

Lemma nodes_bytes_ok es : Forall klv_ok es -> nodes_bytes (send_node <$> es) = Some (wires es).
Proof.
  induction 1 as [|e es He _ IH]; [done|]. cbn [fmap list_fmap nodes_bytes]. rewrite node_bytes_ok by done.
  cbn [mbind option_bind]. change (list_fmap _ _ send_node es) with (send_node <$> es). by rewrite IH.
Qed.

Lemma klv_size_bound es n :
  Forall klv_ok es -> 0 <= n -> n + 2 * zlen (wires es) < 2 ^ 32 -> n + zlen (wires es) <= klv_size (send_node <$> es) n.
Proof.
  intros H. revert n. induction H as [|[[i t] d] es He _ IH]; intros n Hn Hs; cbn [fmap list_fmap klv_size].
  { change (zlen (wires [])) with 0. lia. }
  change (list_fmap _ _ send_node es) with (send_node <$> es). rewrite wires_cons, zlen_app, zlen_wire in *.
  cbn [send_node k_len snd] in *. pose proof (zlen_nonneg d). pose proof (zlen_nonneg (wires es)).
  unfold KLV_NODE_SIZE, POINTER_SIZE. rewrite u32_small by (unfold is_u32; lia). specialize (IH (n + (12 + zlen d - 4)) ltac:(lia) ltac:(lia)).
  lia.
Qed.

Definition header_len (time_stamp : option Z) : Z := 7 + match time_stamp with Some _ => 5 | None => 0 end.

(** The message: a header, then the entries. *)
Lemma klvlist_2_data_ok malloc sn es time query flag :
  (forall n, malloc n = true) -> es <> [] -> Forall klv_ok es -> zlen (wires es) < 2 ^ 30 ->
  exists h, klvlist_2_data malloc sn (send_node <$> es) time query flag = Some (OPRT_OK, h ++ wires es, u32 (sn + 1))
    /\ zlen h = header_len time.
Proof.
  intros Hm Hne Hok Hs. unfold klvlist_2_data. rewrite bool_decide_eq_false_2 by (by destruct es). rewrite Hm. cbn [negb].
  rewrite nodes_bytes_ok by done. cbn [mbind option_bind]. fold (header_len time). rewrite zlen_app.
  match goal with |- context [zlen ?h + zlen (wires es)] => set (hd := h) end.
  assert (zlen hd = header_len time) as Hh by (unfold hd, header_len; by destruct time).
  assert (0 <= header_len time < 13) by (unfold header_len; destruct time; lia).
  pose proof (klv_size_bound es (header_len time) Hok ltac:(lia) ltac:(lia)). pose proof (zlen_nonneg (wires es)).
  destruct (Z.ltb_spec (klv_size (send_node <$> es) (header_len time)) (zlen hd + zlen (wires es))); [lia|].
  by exists hd.
Qed.

(** * Values on the wire *)

Definition klv_type (v : dp_value_t) : Z :=
  match v with
  | dp_bool _ => DT_BOOL | dp_value _ => DT_VALUE | dp_str _ => DT_STRING | dp_enum _ => DT_ENUM | dp_bitmap _ => DT_BITMAP
  end.

Definition wire_value (v : dp_value_t) : list Z :=
  match v with
  | dp_bool b => [Z.b2z b]
  | dp_value v => be_bytes (u32 v)
  | dp_str s => s
  | dp_enum v => [v]
  | dp_bitmap v => be_bytes (u32 v)
  end.

Definition entry_of (d : dp_obj_t) : klv := (dp_id d, klv_type (dp_val d), wire_value (dp_val d)).

(** The values the format can carry. *)
Definition wire_ok (v : dp_value_t) : Prop :=
  match v with
  | dp_bool _ => True
  | dp_value v => - 2 ^ 31 <= v < 2 ^ 31
  | dp_str s => chars_ok s /\ zlen s < 65536
  | dp_enum v => is_u8 v
  | dp_bitmap v => is_u32 v
  end.

Lemma ld_u32_store x suf : ld_u32 (le_store x ++ suf) = Some (u32 x).
Proof.
  unfold ld_u32. rewrite (slice_prefix_n (le_store x) suf) by done. cbn [fmap option_fmap option_map].
  by rewrite le_load_val, le_store_bytes, le_val_bytes.
Qed.

Lemma be_of_word x : is_u32 x ->
  [Z.land (Z.shiftr x 24) 0xff; Z.land (Z.shiftr x 16) 0xff; Z.land (Z.shiftr x 8) 0xff; Z.land x 0xff] = be_bytes x.
Proof.
  intros _. change 0xff with (Z.ones 8). rewrite !Z.land_ones, !Z.shiftr_div_pow2 by lia. done.
Qed.

Lemma zlen_wire_value v : wire_ok v -> zlen (wire_value v) < 65536.
Proof. destruct v; cbn [wire_value wire_ok]; [done|done|intros [_ ?]; done|done|done]. Qed.

Lemma entry_klv_ok d : wire_ok (dp_val d) -> klv_ok (entry_of d).
Proof. intros H. unfold klv_ok, entry_of. cbn [snd]. by apply zlen_wire_value. Qed.

(** The node made of a word. *)
Lemma make_word malloc l i t x : (forall n, malloc n = true) -> (t = DT_VALUE \/ t = DT_BITMAP) ->
  make_klv_list malloc l i t (Some (le_store x)) 4 = Some (send_node (i, t, be_bytes (u32 x)) :: l).
Proof.
  intros Hm Ht. pose proof (ld_u32_store x []) as Hld. rewrite app_nil_r in Hld. unfold make_klv_list.
  destruct Ht as [-> | ->]; cbn -[ld_u32 le_store be_bytes u32 blit slice];
    rewrite !Hm; cbn -[ld_u32 le_store be_bytes u32 blit slice];
    rewrite (slice_whole (le_store x)) by done; cbn -[ld_u32 le_store be_bytes u32 blit slice];
    rewrite Hld; cbn -[be_bytes u32 blit]; rewrite be_of_word by apply u32_range; done.
Qed.

Lemma make_obj_ok malloc l d :
  (forall n, malloc n = true) -> wire_ok (dp_val d) ->
  (let '(t, b, n) := obj_klv (dp_val d) in make_klv_list malloc l (dp_id d) t (Some b) n) = Some (send_node (entry_of d) :: l).
Proof.
  intros Hm Hv. unfold entry_of. destruct (dp_val d) as [b|v|s|v|v]; cbn [obj_klv klv_type wire_value wire_ok] in *.
  - unfold make_klv_list. cbn -[ld_u32 le_store slice blit]. rewrite !Hm. 
    destruct b; cbn -[ld_u32 le_store slice blit]; rewrite (slice_whole (le_store _)) by done; cbn -[ld_u32 le_store slice blit];
      (change (ld_u32 (le_store 1)) with (Some 1) || change (ld_u32 (le_store 0)) with (Some 0)); cbn -[le_store slice blit];
      rewrite blit_front by done; cbn -[slice]; rewrite Hm; done.
  - apply make_word; [done|by left].
  - destruct Hv as [_ Hs]. pose proof (zlen_nonneg s). rewrite u16_small by (unfold is_u16; lia). unfold make_klv_list.
    change (DT_LMT <=? DT_STRING) with false. change (bad_len DT_STRING (zlen s)) with false. rewrite !Hm.
    cbn [negb]. rewrite !andb_false_r.
    assert ((if 0 <? zlen s then slice (s ++ [0]) 0 (zlen s) else Some []) = Some s) as ->.
    { destruct (Z.ltb_spec 0 (zlen s)); [apply slice_prefix|]. by rewrite (zlen_zero s) by lia. }
    cbn -[slice]. rewrite ?Hm. cbn [negb]. rewrite andb_false_r.
    assert ((if 0 <? zlen s then slice s 0 (zlen s) else Some []) = Some s) as ->; [|done].
    destruct (Z.ltb_spec 0 (zlen s)); [by apply slice_whole|]. by rewrite (zlen_zero s) by lia.
  - unfold is_u8 in Hv. unfold make_klv_list. cbn -[ld_u32 le_store slice blit]. rewrite !Hm. cbn -[ld_u32 le_store slice blit].
    rewrite (slice_whole (le_store v)) by done. cbn -[ld_u32 le_store blit].
    pose proof (ld_u32_store v []) as Hld. rewrite app_nil_r in Hld. rewrite Hld. cbn -[le_store blit].
    rewrite u32_small by (unfold is_u32; lia). destruct (Z.leb_spec v 255); [|lia]. rewrite u8_small by done.
    rewrite blit_front by done. change (Z.to_nat (zlen [v])) with 1%nat.
    cbn -[le_store slice app]. rewrite !Hm. cbn -[le_store slice app]. by rewrite (slice_prefix_n [v]).
  - apply make_word; [done|by right].
Qed.

(** The list of a report: the last object first. *)
Lemma make_obj_list_ok malloc dps acc :
  (forall n, malloc n = true) -> Forall (fun d => wire_ok (dp_val d)) dps ->
  make_obj_dp_klv_list malloc dps (send_node <$> acc) = Some (send_node <$> (rev (entry_of <$> dps) ++ acc)).
Proof.
  intros Hm H. revert acc. induction H as [|d dps Hd _ IH]; intros acc; [done|]. cbn [make_obj_dp_klv_list].
  pose proof (make_obj_ok malloc (send_node <$> acc) d Hm Hd) as E.
  destruct (obj_klv (dp_val d)) as [[t b] n]. rewrite E. cbn [mbind option_bind].
  specialize (IH (entry_of d :: acc)). cbn [fmap list_fmap rev] in IH |- *. rewrite <- app_assoc. exact IH.
Qed.

(** * Values received *)

(** The value fits the property of the node. *)
Definition fits (p : dp_prop_value_t) (v : dp_value_t) : Prop :=
  match p, v with
  | prop_bool _, dp_bool _ | prop_int _ _ _, dp_value _ | prop_str _ _ _, dp_str _ | prop_bitmap _ _, dp_bitmap _ => True
  | prop_enum names _, dp_enum v => NoDup names /\ v < zlen names
  | _, _ => False
  end.

Definition deliverable (s : dp_schema_t) (d : dp_obj_t) : Prop :=
  is_u8 (dp_id d) /\ wire_ok (dp_val d)
  /\ exists n, dp_node_find s (dp_id d) = Some n /\ d_type (desc n) = T_OBJ /\ fits (prop n) (dp_val d).

(** An item that the schema reads as the object. *)
Definition item_rel (s : dp_schema_t) (d : dp_obj_t) (item : cjson_item) : Prop :=
  atoi (string item) = dp_id d
  /\ exists n, dp_node_find s (dp_id d) = Some n /\ id (desc n) = dp_id d /\ d_type (desc n) = T_OBJ
       /\ item_value n item = Some (dp_val d).

Lemma atoi_print i : is_u8 i -> atoi (print_u32 i) = i.
Proof.
  intros Hi. apply Z.eqb_eq. apply (below_forall 256 (fun i => atoi (print_u32 i) =? i)); [by vm_compute|exact Hi].
Qed.

Lemma dp_node_find_id s i n : dp_node_find s i = Some n -> id (desc n) = i.
Proof. apply node_at_id. Qed.

Lemma word_sum x : is_u32 x ->
  Z.shiftl (x / 16777216 mod 256) 24 + Z.shiftl (x / 65536 mod 256) 16 + Z.shiftl (x / 256 mod 256) 8 + x mod 256 = x.
Proof.
  intros Hx. pose proof (word_of_bytes x Hx) as H. rewrite !Z.shiftl_mul_pow2 by lia.
  change (2 ^ 24) with 16777216. change (2 ^ 16) with 65536. change (2 ^ 8) with 256. lia.
Qed.

Lemma node_item_word malloc b64 sch i t x :
  t = DT_VALUE \/ t = DT_BITMAP -> is_u32 x ->
  node_item malloc b64 sch (recv_node (i, t, be_bytes x)) = Some (inr (Some (number_item (print_u32 i) (s32 x)))).
Proof.
  intros Ht Hx. unfold node_item. cbn [recv_node k_type k_id k_data]. rewrite bool_decide_eq_false_2 by done.
  change (rd (be_bytes x ++ [0]) 0) with (Some (x / 16777216 mod 256)).
  change (rd (be_bytes x ++ [0]) 1) with (Some (x / 65536 mod 256)).
  change (rd (be_bytes x ++ [0]) 2) with (Some (x / 256 mod 256)).
  change (rd (be_bytes x ++ [0]) 3) with (Some (x mod 256)). cbn [mbind option_bind]. rewrite word_sum by done.
  by destruct Ht as [-> | ->].
Qed.

Lemma c_string_ok s r : Forall (fun c => c <> 0) s -> c_string (s ++ 0 :: r) = Some s.
Proof.
  induction 1 as [|c s Hc _ IH]; cbn [c_string app]; [done|]. destruct (Z.eqb_spec c 0); [done|]. by rewrite IH.
Qed.

Lemma list_find_name (names : list (list Z)) v name :
  NoDup names -> names !! v = Some name -> list_find (fun x => x = name) names = Some (v, name).
Proof.
  intros Hnd Hv. apply list_find_Some. split_and!; [done|done|]. intros j y Hj Hlt ->.
  pose proof (NoDup_lookup _ _ _ _ Hnd Hj Hv). lia.
Qed.

Lemma node_item_ok malloc b64 s d :
  deliverable s d ->
  exists item, node_item malloc b64 (Some s) (recv_node (entry_of d)) = Some (inr (Some item)) /\ item_rel s d item.
Proof.
  intros (Hi & Hw & n & Hn & Ht & Hf). pose proof (dp_node_find_id _ _ _ Hn) as Hid. unfold item_rel, entry_of.
  destruct (dp_val d) as [b|v|t|v|v]; cbn [klv_type wire_value wire_ok] in *.
  - exists (bool_item (print_u32 (dp_id d)) b). split; [by destruct b|]. split; [by apply atoi_print|]. exists n.
    unfold item_value. destruct (prop n); try done. by destruct b.
  - eexists. split; [apply node_item_word; [by left|apply u32_range]|]. split; [by apply atoi_print|]. exists n.
    unfold item_value. destruct (prop n); try done. split_and!; [done..|]. cbn. do 2 f_equal.
    unfold u32, wrap, s32. apply swrap_mod; lia.
  - destruct Hw as [Ht0 _]. apply chars_bytes in Ht0 as [_ Ht0]. exists (string_item (print_u32 (dp_id d)) t). split.
    + unfold node_item. cbn [recv_node k_type k_id k_data]. cbn -[print_u32 c_string string_item].
      destruct (decide (t = [])) as [->|Et]; [done|]. rewrite (bool_decide_eq_false_2 (t = [])) by done.
      rewrite bool_decide_eq_false_2 by (by destruct t). by rewrite (c_string_ok t []).
    + split; [by apply atoi_print|]. exists n. unfold item_value. destruct (prop n); done.
  - unfold is_u8 in Hw. destruct (prop n) as [| | |names c|] eqn:Ep; try done. destruct Hf as [Hnd Hv].
    destruct (rd_Some names v) as [name Hname]; [lia|]. exists (string_item (print_u32 (dp_id d)) name). split.
    + unfold node_item. cbn [recv_node k_type k_id k_data]. cbn -[print_u32 rd string_item dp_node_find].
      change (rd [v; 0] 0) with (Some v). cbn [mbind option_bind]. by rewrite Hn, Ep, Hname.
    + split; [by apply atoi_print|]. exists n. unfold item_value. rewrite Ep. split_and!; [done..|].
      unfold rd in Hname. destruct (Z.leb_spec 0 v); [|done]. cbn -[list_find]. rewrite (list_find_name _ _ _ Hnd Hname).
      do 2 f_equal. lia.
  - eexists. split; [apply node_item_word; [by right|by apply u32_range]|]. split; [by apply atoi_print|]. exists n.
    unfold item_value. destruct (prop n); try done. split_and!; [done..|]. cbn -[u32 s32]. do 2 f_equal.
    rewrite (u32_small v) by done. unfold is_u32 in Hw. unfold u32, wrap, s32, swrap. rewrite Zminus_mod, Zmod_mod, <- Zminus_mod.
    rewrite Z.add_simpl_r. apply Z.mod_small. lia.
Qed.

Lemma dps_loop_ok malloc b64 s dps acc :
  Forall (deliverable s) dps ->
  exists items, dps_loop malloc b64 (Some s) (recv_node <$> (entry_of <$> dps)) acc = Some (inr (acc ++ items))
    /\ Forall2 (item_rel s) dps items.
Proof.
  intros H. revert acc. induction H as [|d dps Hd _ IH]; intros acc.
  { exists []. split; [by rewrite app_nil_r|constructor]. }
  destruct (node_item_ok malloc b64 s d Hd) as (item & E & Hr). destruct (IH (acc ++ [item])) as (items & E' & Hrs).
  exists (item :: items). split; [|by constructor]. cbn [fmap list_fmap dps_loop]. rewrite E. cbn [mbind option_bind].
  rewrite <- app_assoc in E'. exact E'.
Qed.

(** What receiving a message leaves of a node: its id, type and property. *)
Definition node_key (n : dp_node_t) : Z * Z * dp_prop_value_t := (id (desc n), d_type (desc n), prop n).

Lemma node_index_key nodes nodes' i : node_key <$> nodes = node_key <$> nodes' -> node_index nodes i = node_index nodes' i.
Proof.
  revert nodes'. induction nodes as [|n nodes IH]; intros [|n' nodes']; try done. cbn [fmap list_fmap node_index].
  intros [= E1 _ _ E]. rewrite E1. by rewrite (IH nodes' E).
Qed.

Lemma key_lookup (nodes nodes' : list dp_node_t) k n :
  node_key <$> nodes = node_key <$> nodes' -> nodes !! k = Some n -> exists n', nodes' !! k = Some n' /\ node_key n' = node_key n.
Proof.
  intros E Hn. pose proof (list_lookup_fmap node_key nodes k) as H. rewrite E, list_lookup_fmap, Hn in H. cbn in H.
  destruct (nodes' !! k) as [n'|]; [|done]. injection H as H1 H2 H3. exists n'. split; [done|]. unfold node_key. congruence.
Qed.

Lemma key_alter (nodes : list dp_node_t) (k : nat) f : (forall n, node_key (f n) = node_key n) -> node_key <$> alter f k nodes = node_key <$> nodes.
Proof.
  intros Hf. revert k. induction nodes as [|n nodes IH]; intros [|k]; [done|done| |].
  - change (node_key (f n) :: (node_key <$> nodes) = node_key n :: (node_key <$> nodes)). by rewrite Hf.
  - change (node_key n :: (node_key <$> alter f k nodes) = node_key n :: (node_key <$> nodes)). f_equal. apply IH.
Qed.

Lemma key_insert (nodes : list dp_node_t) (k : nat) n n' : nodes !! k = Some n -> node_key n' = node_key n -> node_key <$> <[k := n']> nodes = node_key <$> nodes.
Proof.
  intros Hn Hk. rewrite list_fmap_insert, Hk. apply list_insert_id. by rewrite list_lookup_fmap, Hn.
Qed.

Section Receiving.
Context (s : dp_schema_t) (b64 : list Z -> list Z) (now : Z) (malloc_raw : bool).

Lemma item_node nodes d item :
  node_key <$> nodes = node_key <$> node s -> item_rel s d item ->
  exists k n, node_index nodes (atoi (string item)) = Some k /\ nodes !! k = Some n /\ id (desc n) = dp_id d
    /\ d_type (desc n) = T_OBJ /\ item_value n item = Some (dp_val d).
Proof.
  intros E (Ha & n & Hn & Hid & Ht & Hv). rewrite Ha, (node_index_key _ _ _ E). unfold dp_node_find in Hn.
  apply bind_Some in Hn as (k & Hk & Hn). destruct (key_lookup _ _ _ _ (eq_sym E) Hn) as (n' & Hn' & Ek). injection Ek as E1 E2 E3.
  exists k, n'. split_and!; [done|done|congruence|congruence|]. unfold item_value in *. by rewrite E3.
Qed.

Lemma recv_count_ok pre nodes dps items cnt :
  node_key <$> nodes = node_key <$> node s -> Forall2 (item_rel s) dps items -> 0 <= cnt -> cnt + zlen dps < 65536 ->
  exists nodes', recv_count pre items nodes cnt = (nodes', cnt + zlen dps) /\ node_key <$> nodes' = node_key <$> node s.
Proof.
  intros E H. revert nodes cnt E. induction H as [|d item dps items Hr _ IH]; intros nodes cnt E H0 Hc; cbn [recv_count].
  { exists nodes. change (zlen []) with 0. by rewrite Z.add_0_r. }
  rewrite zlen_cons in *. pose proof (zlen_nonneg dps). destruct (item_node nodes d item E Hr) as (k & n & -> & Hn & _ & Ht & _).
  rewrite Hn, Ht. change (T_OBJ =? T_OBJ) with true. cbv iota. rewrite u16_small by (unfold is_u16; lia).
  replace (cnt + (1 + zlen dps)) with (cnt + 1 + zlen dps) by lia. apply IH; [|lia|lia].
  destruct pre; [|done]. rewrite key_alter; [done|]. intros m. by destruct (passive (desc m) =? PSV_TRUE).
Qed.

(** The object the callback is given. *)
Definition delivered (d : dp_obj_t) : dp_obj_t := {| dp_id := dp_id d; dp_val := dp_val d; dp_time := now |}.

Lemma recv_fill_ok nodes dps items arr rest calls :
  node_key <$> nodes = node_key <$> node s -> Forall2 (item_rel s) dps items -> length rest = length dps ->
  exists nodes', recv_fill b64 now true malloc_raw items nodes (Some (arr ++ rest)) (zlen arr) calls
    = Some (false, nodes', Some (arr ++ (delivered <$> dps)), calls) /\ node_key <$> nodes' = node_key <$> node s.
Proof.
  intros E H. revert nodes arr rest E. induction H as [|d item dps items Hr _ IH]; intros nodes arr rest E Hl; cbn [recv_fill].
  { destruct rest; [|done]. by exists nodes. }
  destruct rest as [|x rest]; [done|]. injection Hl as Hl. destruct (item_node nodes d item E Hr) as (k & n & -> & Hn & Hid & Ht & Hv).
  rewrite Hn. cbn [mbind option_bind]. rewrite Ht. change (T_OBJ =? T_RAW) with false. cbn [andb]. rewrite Hv, wr_mid.
  cbn [mbind option_bind]. destruct (IH (<[k:=set_stat n PV_STAT_LOCAL]> nodes) (arr ++ [delivered d]) rest) as (nodes' & E' & Hk).
  - rewrite (key_insert _ _ n); [done|done|done].
  - done.
  - exists nodes'. rewrite zlen_app, zlen_one, <- !app_assoc in E'. unfold delivered in E' at 1. rewrite <- Hid in E'. split; [|done].
    exact E'.
Qed.

(** Items that the schema reads as objects are delivered as these objects. *)
Lemma recv_parse_ok dps items :
  Forall2 (item_rel s) dps items -> dps <> [] -> zlen dps < 65536 ->
  exists s', dp_data_recv_parse b64 now true true malloc_raw (Some s) (Some items)
    = Some (OPRT_OK, Some s', [recv_obj (zlen dps) (delivered <$> dps)]).
Proof.
  intros H Hne Hl. unfold dp_data_recv_parse.
  destruct (recv_count_ok (preprocess s) (node s) dps items 0 eq_refl H) as (nodes & Ec & Hk); [lia|lia|]. rewrite Ec, Z.add_0_l.
  assert (0 < zlen dps) as Hp by (destruct dps; [done|]; rewrite zlen_cons; pose proof (zlen_nonneg dps); lia).
  destruct (Z.eqb_spec (zlen dps) 0); [lia|]. cbn [negb andb].
  destruct (recv_fill_ok nodes dps items [] (zrepl (zlen dps) zero_obj) [] Hk H) as (nodes' & Ef & _).
  { unfold zrepl. rewrite length_replicate. by rewrite zlen_nat. }
  cbn [app] in Ef. change (zlen []) with 0 in Ef. rewrite Ef. cbn [mbind option_bind negb andb app]. by eexists.
Qed.
End Receiving.

(** (C36) Objects of every type that are put on the BLE wire and come back in a command are
    delivered to the application as the same objects, in the same order: through the lists of
    the report, the message, the parser of the command, the JSON object and the schema. The
    values are those the wire holds ([wire_ok]): the number of an enumerated value is sent
    in one byte, so it is below 256, and a text has less than 65536 characters. *)
Theorem ble_dp_roundtrip (b64e b64d : list Z -> list Z) (now sn flag : Z) (time : option Z) (query mr : bool)
    (s : dp_schema_t) (dps : list dp_obj_t) (hdr : list Z) (req : ble_packet_t) (malloc : Z -> bool) :
  (forall n, malloc n = true) -> dps <> [] -> Forall (deliverable s) dps ->
  zlen hdr = 5 -> p_type req = FRM_DP_CMD_SEND_V4 -> p_len req = zlen (p_data req) -> p_len req < 65536 ->
  p_data req = hdr ++ wires (rev (entry_of <$> dps)) ->
  exists l h items s',
    make_obj_dp_klv_list malloc dps [] = Some l
    /\ klvlist_2_data malloc sn l time query flag = Some (OPRT_OK, h ++ wires (rev (entry_of <$> dps)), u32 (sn + 1))
    /\ zlen h = header_len time
    /\ ble_dp_req malloc b64e (Some s) req = Some ([(FRM_DP_CMD_SEND_V4, p_sn req, hdr ++ [0])], inr items)
    /\ dp_data_recv_parse b64d now true true mr (Some s) (Some items)
       = Some (OPRT_OK, Some s', [recv_obj (zlen dps) (delivered now <$> dps)]).
Proof.
  intros Hm Hne Hd Hh Ht Hlen H16 Hdata. set (es := rev (entry_of <$> dps)) in *.
  assert (Forall (fun d => wire_ok (dp_val d)) dps) as Hw by (eapply list.Forall_impl; [exact Hd|]; intros d Hx; apply Hx).
  assert (Forall klv_ok es) as Hok.
  { unfold es. apply Forall_rev, Forall_fmap. eapply list.Forall_impl; [exact Hw|]. intros d. apply entry_klv_ok. }
  assert (es <> []) as Hes by (intros E; apply (f_equal (@rev klv)) in E; unfold es in E; rewrite rev_involutive in E; by destruct dps).
  rewrite Hdata, zlen_app, Hh in Hlen. pose proof (zlen_nonneg (wires es)).
  pose proof (make_obj_list_ok malloc dps [] Hm Hw) as Em. rewrite app_nil_r in Em. fold es in Em.
  destruct (klvlist_2_data_ok malloc sn es time query flag Hm Hes Hok) as (h & Ek & Hhl); [lia|].
  destruct (dps_loop_ok malloc b64e s dps [] Hd) as (items & Ed & Hr). cbn [app] in Ed.
  assert (zlen dps <= zlen (wires es)) as Hcnt.
  { pose proof (wires_length es) as Hwl. unfold es in Hwl at 1. rewrite length_rev, length_fmap in Hwl. unfold zlen. lia. }
  destruct (recv_parse_ok s b64d now mr dps items Hr Hne) as (s' & Ep); [lia|].
  exists (send_node <$> es), h, items, s'. split_and!; [exact Em|exact Ek|exact Hhl| |exact Ep].
  unfold ble_dp_req. rewrite Ht, Z.eqb_refl, Hdata, (slice_prefix_n hdr) by done. cbn [mbind option_bind].
  rewrite u16_small by (unfold is_u16; lia). replace (p_len req - 5) with (zlen (wires es)) by lia.
  assert (drop 5 (hdr ++ wires es) = wires es) as -> by (rewrite <- (zdrop_app hdr (wires es)) at 2; by rewrite Hh).
  rewrite data_2_klvlist_wires by (done || lia). cbn [mbind option_bind]. change (negb (OPRT_OK =? OPRT_OK)) with false. cbv iota.
  assert (rev (recv_node <$> es) = recv_node <$> (entry_of <$> dps)) as ->.
  { transitivity (rev (rev (recv_node <$> (entry_of <$> dps)))); [|apply rev_involutive]. f_equal.
    exact (map_rev recv_node (entry_of <$> dps)). }
  by rewrite Ed.
Qed.

(** A device with one data point of every type. *)
Definition ble_node (i : Z) (p : dp_prop_value_t) : dp_node_t :=
  {| desc := {| id := i; mode := 0; passive := 0; d_type := T_OBJ; trig := 0 |}; prop := p; pv_stat := 0; time_stamp := 0 |}.

Definition ble_schema : dp_schema_t :=
  {| devid := str "dev"; preprocess := true;
     node := [ble_node 1 (prop_bool false); ble_node 2 (prop_int 0 100 0); ble_node 3 (prop_str 10 0 None);
              ble_node 4 (prop_enum [str "low"; str "high"] 0); ble_node 5 (prop_bitmap 3 0)] |}.

Definition ble_values : list dp_obj_t :=
  [ {| dp_id := 1; dp_val := dp_bool true; dp_time := 0 |}; {| dp_id := 2; dp_val := dp_value (-5); dp_time := 0 |};
    {| dp_id := 3; dp_val := dp_str (str "hi"); dp_time := 0 |}; {| dp_id := 4; dp_val := dp_enum 1; dp_time := 0 |};
    {| dp_id := 5; dp_val := dp_bitmap 4000000000; dp_time := 0 |} ].

Definition ble_request (data : list Z) : ble_packet_t :=
  {| p_sn := 7; p_type := FRM_DP_CMD_SEND_V4; p_len := zlen data; p_data := data |}.

Lemma ble_values_deliverable : Forall (deliverable ble_schema) ble_values.
Proof.
  assert (forall d, is_u8 (dp_id d) -> wire_ok (dp_val d) ->
            (exists n, dp_node_find ble_schema (dp_id d) = Some n /\ d_type (desc n) = T_OBJ /\ fits (prop n) (dp_val d)) ->
            deliverable ble_schema d) as H by done.
  unfold ble_values. repeat apply list.Forall_cons_2; try apply list.Forall_nil; try done; apply H; cbn [dp_id dp_val wire_ok];
    try (unfold is_u8; lia); try done; try (eexists; split; [vm_compute; reflexivity|]; done).
  - change (str "hi") with [104; 105]. split; [|done]. do 2 (constructor; [lia|]). constructor.
  - eexists. split; [vm_compute; reflexivity|]. split; [done|]. split; [|done]. by apply (bool_decide_unpack _); vm_compute.
Qed.

Lemma ble_dp_roundtrip_witness :
  exists l h items s',
    make_obj_dp_klv_list (fun _ => true) ble_values [] = Some l
    /\ klvlist_2_data (fun _ => true) 1 l None false 0
       = Some (OPRT_OK, h ++ [5; 5; 0; 4; 238; 107; 40; 0; 4; 4; 0; 1; 1; 3; 3; 0; 2; 104; 105; 2; 2; 0; 4; 255; 255; 255; 251; 1; 1; 0; 1; 1], 2)
    /\ zlen h = 7
    /\ ble_dp_req (fun _ => true) (fun x => x) (Some ble_schema)
         (ble_request [0; 0; 0; 0; 9; 5; 5; 0; 4; 238; 107; 40; 0; 4; 4; 0; 1; 1; 3; 3; 0; 2; 104; 105; 2; 2; 0; 4; 255; 255; 255; 251; 1; 1; 0; 1; 1])
       = Some ([(FRM_DP_CMD_SEND_V4, 7, [0; 0; 0; 0; 9; 0])], inr items)
    /\ dp_data_recv_parse (fun x => x) 100 true true true (Some ble_schema) (Some items)
       = Some (OPRT_OK, Some s', [recv_obj 5 (delivered 100 <$> ble_values)]).
Proof.
  apply (ble_dp_roundtrip (fun x => x) (fun x => x) 100 1 0 None false true ble_schema ble_values [0; 0; 0; 0; 9]
           (ble_request [0; 0; 0; 0; 9; 5; 5; 0; 4; 238; 107; 40; 0; 4; 4; 0; 1; 1; 3; 3; 0; 2; 104; 105; 2; 2; 0; 4; 255; 255; 255; 251; 1; 1; 0; 1; 1]));
    try reflexivity; [discriminate|apply ble_values_deliverable].
Defined.

(** * Faults *)

(** A received entry whose data is shorter than what its type reads. *)
Definition too_short (e : klv) : Prop :=
  let '(_, t, d) := e in
  (t = DT_VALUE \/ t = DT_BITMAP) /\ zlen d <= 2 \/ (t = DT_BOOL \/ t = DT_ENUM) /\ d = [].

Lemma too_short_item malloc b64 sch e : too_short e -> node_item malloc b64 sch (recv_node e) = None.
Proof.
  destruct e as [[i t] d]. intros [[Ht Hd]|[Ht ->]].
  - destruct d as [|d0 [|d1 [|d2 d]]]; [by destruct Ht as [-> | ->]..|].
    rewrite !zlen_cons in Hd. pose proof (zlen_nonneg d). lia.
  - by destruct Ht as [-> | ->].
Qed.

(** The lengths of a received command are not checked against the types: for a value or
    bitmap of at most two bytes, or an empty boolean or enum, the handler reads outside the
    memory of the node (or through its null pointer). *)
Theorem ble_short_value_overreads (malloc : Z -> bool) (b64 : list Z -> list Z) (sch : option dp_schema_t)
    (hdr : list Z) (e : klv) (req : ble_packet_t) :
  (forall n, malloc n = true) -> too_short e -> zlen hdr = 5 -> p_type req = FRM_DP_CMD_SEND_V4 ->
  p_data req = hdr ++ wire e -> p_len req = zlen (p_data req) ->
  ble_dp_req malloc b64 sch req = None.
Proof.
  intros Hm Hs Hh Ht Hdata Hlen. assert (zlen (snd e) <= 2) as Hle.
  { destruct e as [[i t] d]. destruct Hs as [[_ ?]|[_ ->]]; [done|]. cbn [snd]. change (zlen []) with 0. lia. }
  pose proof (zlen_nonneg (snd e)). rewrite Hdata, zlen_app, zlen_wire, Hh in Hlen.
  unfold ble_dp_req. rewrite Ht, Z.eqb_refl, Hdata, (slice_prefix_n hdr) by done. cbn [mbind option_bind].
  rewrite u16_small by (unfold is_u16; lia). replace (p_len req - 5) with (zlen (wire e)) by (rewrite zlen_wire; lia).
  assert (drop 5 (hdr ++ wire e) = wires [e]) as ->.
  { unfold wires. cbn [fmap list_fmap concat]. rewrite app_nil_r. rewrite <- (zdrop_app hdr (wire e)) at 2. by rewrite Hh. }
  assert (zlen (wire e) = zlen (wires [e])) as -> by (unfold wires; cbn [fmap list_fmap concat]; by rewrite app_nil_r).
  rewrite data_2_klvlist_wires; [|done|done|constructor; [unfold klv_ok; lia|constructor]|].
  - cbn [mbind option_bind fmap list_fmap rev app]. change (negb (OPRT_OK =? OPRT_OK)) with false. cbv iota. cbn [dps_loop].
    by rewrite too_short_item.
  - unfold wires. cbn [fmap list_fmap concat]. rewrite app_nil_r, zlen_wire. lia.
Qed.

Lemma ble_short_value_overreads_witness :
  ble_dp_req (fun _ => true) (fun x => x) (Some ble_schema) (ble_request [0; 0; 0; 0; 9; 2; 2; 0; 1; 50]) = None.
Proof.
  apply (ble_short_value_overreads (fun _ => true) (fun x => x) (Some ble_schema) [0; 0; 0; 0; 9] (2, DT_VALUE, [50]));
    try reflexivity. left. split; [by left|vm_compute; discriminate].
Defined.

(** A readable string that was never set ends the list built so far: the answer to a
    query then holds only what follows it, and nothing when it is the last data point. *)
Theorem ble_query_unset_string (malloc : Z -> bool) (send_rc : Z -> list Z -> Z) (sn : Z) (s : dp_schema_t) (l : list dp_node_t)
    (n : dp_node_t) (max_len cur_len : Z) (k : list klv_node_s) (req : ble_packet_t) :
  node s = l ++ [n] -> mode (desc n) <> M_WR -> d_type (desc n) = T_OBJ -> prop n = prop_str max_len cur_len None ->
  query_loop malloc l [] = Some k ->
  ble_dp_query malloc send_rc sn (Some s) req = Some (OPRT_OK, [(p_type req, p_sn req, [0])], sn).
Proof.
  intros Hs Hm Ht Hp Hk. unfold ble_dp_query. rewrite Hs.
  assert (forall acc k, query_loop malloc l acc = Some k -> query_loop malloc (l ++ [n]) acc = Some []) as H.
  { clear Hs Hk k. induction l as [|m l IH]; intros acc k; cbn [query_loop app].
    - intros _. apply Z.eqb_neq in Hm. by rewrite Hm, Ht, Hp.
    - destruct (mode (desc m) =? M_WR); [apply IH|]. destruct (d_type (desc m) =? T_OBJ); [|apply IH].
      destruct (prop_klv (prop m)) as [[t b] j]. destruct (make_klv_list _ _ _ _ _ _); [|done]. cbn [mbind option_bind]. apply IH. }
  by rewrite (H [] k Hk).
Qed.

Lemma ble_query_unset_string_witness :
  ble_dp_query (fun _ => true) (fun _ _ => 0) 1
    (Some {| devid := []; preprocess := false; node := [ble_node 1 (prop_bool true); ble_node 3 (prop_str 10 0 None)] |})
    {| p_sn := 7; p_type := FRM_STATE_QUERY; p_len := 0; p_data := [] |} = Some (OPRT_OK, [(FRM_STATE_QUERY, 7, [0])], 1).
Proof.
  eapply (ble_query_unset_string (fun _ => true) (fun _ _ => 0) 1 _ [ble_node 1 (prop_bool true)] (ble_node 3 (prop_str 10 0 None)) 10 0);
    [reflexivity|vm_compute; discriminate|reflexivity|reflexivity|reflexivity].
Defined.

(** An enum value above 255 is written in two bytes, of which the reader takes the first. *)
Example ble_enum_truncated :
  make_klv_list (fun _ => true) [] 4 DT_ENUM (Some (le_store 300)) 4
  = Some [ {| k_id := 4; k_type := DT_ENUM; k_len := 2; k_data := [1; 44] |} ].
Proof. vm_compute. reflexivity. Qed.

(** A command of less than five bytes wraps the length of its list, and the parser leaves
    the receive buffer of 1024 bytes. *)
Example ble_short_command_overreads :
  ble_dp_req (fun _ => true) (fun x => x) (Some ble_schema)
    {| p_sn := 7; p_type := FRM_DP_CMD_SEND_V4; p_len := 4; p_data := zrepl 1024 0 |} = None.
Proof. vm_compute. reflexivity. Qed.
