(* ===== verification/IotDp.v ===== *)
(** The entry points of [src/tuya_cloud_service/schema/tuya_iot_dp.c]: reporting over
    BLE, LAN and MQTT, acknowledgement and synchronisation, reception on the work
    queue; with the dumps of [dp_schema.c] they use. *)
From Stdlib Require Import ZArith Lia String.
From stdpp Require Import base tactics option list numbers.
From S2P Require Import Prelude Text Endian Protocol DpSchema BleDp.

Local Open Scope Z_scope.

Definition DP_DUMP_STAT_LOCAL_FLAG : Z := 2.
Definition DP_APPEND_HEADER_FLAG : Z := 4.
Definition OPRT_CR_CJSON_ERR : Z := -7.

(** [sizeof] of [dp_rept_in_t], [dp_obj_t], [dp_rept_valid_t] and [dp_recv_msg_t] on the
    32-bit targets. *)
Definition SIZEOF_REPT_IN : Z := 20.
Definition SIZEOF_OBJ : Z := 12.
Definition SIZEOF_VALID : Z := 12.
Definition SIZEOF_MSG : Z := 16.

(** The device client, the schemas and whether the delayed work was created. *)
Record iot_state := { is_activated : bool; client_devid : list Z; mgr : dp_schema_mgr_t; s_tmm_dp_sync : bool }.

(** What the functions hand to other parts: packets, texts for the LAN and the broker
    (with the ids to mark when it
    acknowledges), delayed work, and what the application
    is given. *)
Inductive iot_event :=
| ev_ble (s : sent)
| ev_lan (text : option (list Z))
| ev_mqtt (dpsjson : list Z) (ack : option (list Z))
| ev_delayed (ms : Z)
| ev_handler (r : dp_recv).

(** The schema behind a pointer into the manager's table. *)
Fixpoint schema_store (l : list (option dp_schema_t)) (dev : list Z) (s : dp_schema_t) : list (option dp_schema_t) :=
  match l with
  | [] => []
  | None :: l' => None :: schema_store l' dev s
  | Some s0 :: l' => if bool_decide (dev = devid s0) then Some s :: l' else Some s0 :: schema_store l' dev s
  end.

Definition with_schema (st : iot_state) (dev : list Z) (s : dp_schema_t) : iot_state :=
  {| is_activated := is_activated st; client_devid := client_devid st;
     mgr := {| schema_num := schema_num (mgr st); schema_list := schema_store (schema_list (mgr st)) dev s |};
     s_tmm_dp_sync := s_tmm_dp_sync st |}.

(** * The dumps *)

(** The object with the data point added, and the length counted for it. *)
Definition dp_obj_json_create (root : list cjson_item) (n : dp_node_t) : option (list cjson_item * Z) :=
  let dpid := print_u32 (id (desc n)) in
  match prop n with
  | prop_bool v => Some (root ++ [bool_item dpid v], 10)
  | prop_int _ _ v => Some (root ++ [number_item dpid v], 10)
  | prop_str _ _ (Some v) => Some (root ++ [string_item dpid v], 10 + zlen v)
  | prop_str _ _ None => Some (root, 0)
  | prop_enum pp_enum v => name ← rd pp_enum v; Some (root ++ [string_item dpid name], 10 + zlen name)
  | prop_bitmap _ v => Some (root ++ [number_item dpid v], 10)
  end.

Definition in_cloud (n : dp_node_t) : bool := (d_type (desc n) =? T_OBJ) && (pv_stat n =? PV_STAT_CLOUD).
Definition stat_local (n : dp_node_t) : bool := (d_type (desc n) =? T_OBJ) && negb (pv_stat n =? PV_STAT_CLOUD).

(** The loop of [dp_obj_dump_all_json]. *)
Fixpoint dump_all (local_only : bool) (nodes : list dp_node_t) (cjson : list cjson_item) (length : Z)
  : option (list cjson_item * Z) :=
  match nodes with
  | [] => Some (cjson, length)
  | n :: nodes' =>
      if local_only && in_cloud n then dump_all local_only nodes' cjson length
      else '(cjson, k) ← dp_obj_json_create cjson n; dump_all local_only nodes' cjson (length + k)
  end.

(** The second loop of [dp_obj_dump_stat_local_json]; [num] is [dp_stat_local_num]. *)
Fixpoint dump_local (num : Z) (nodes : list dp_node_t) (dpid : list Z) (cjson : list cjson_item) (length : Z)
  : option (list Z * list cjson_item * Z) :=
  match nodes with
  | [] => Some (dpid, cjson, length)
  | n :: nodes' =>
      if in_cloud n then dump_local num nodes' dpid cjson length
      else if zlen dpid <? num then
        '(cjson, k) ← dp_obj_json_create cjson n;
        dump_local num nodes' (dpid ++ [id (desc n)]) cjson (length + k)
      else dump_local num nodes' dpid cjson length
  end.

(** The message that carries data points to the broker. *)
Definition report_text (dev dps : list Z) : list Z :=
  str "{" ++ quoted "devId" ++ str ":" ++ [34] ++ dev ++ [34] ++ str "," ++ quoted "dps" ++ str ":" ++ dps ++ str "}".

Section Iot.
(** Allocation; [cJSON_PrintUnformatted] of a string and of an object; base64. *)
Context (malloc : Z -> bool) (cjson_string : list Z -> option (list Z)) (cjson_print : list cjson_item -> option (list Z))
  (b64_encode b64_decode : list Z -> list Z).
(** The clock, the state of the channels and what the lower layers answer. *)
Context (now : Z) (ble_connected lan_connected iot_connected : bool)
  (send_rc : Z -> list Z -> Z) (lan_rc : option (list Z) -> Z) (mqtt_rc : list Z -> Z) (init_rc start_rc work_rc : Z).

Definition dp_obj_dump_all_json (s : option dp_schema_t) (flags : Z) : option (option (list Z)) :=
  match s with
  | None => Some None
  | Some s =>
      '(cjson, length) ← dump_all (negb (Z.land DP_DUMP_STAT_LOCAL_FLAG flags =? 0)) (node s) [] 0;
      if length =? 0 then Some None
      else match cjson_print cjson with
           | None => Some None
           | Some tmp =>
               if negb (malloc (zlen tmp + 1)) then Some None
               else if negb (Z.land flags DP_APPEND_HEADER_FLAG =? 0)
               then match dp_rept_json_append (Some s) (Some tmp) None None 0 true malloc with
                    | (_, Some out) => Some (Some out)
                    | (_, None) => Some (Some tmp)
                    end
               else Some (Some tmp)
           end
  end.

(** The return code, the ids and the text; nothing is set when nothing is local. *)
Definition dp_obj_dump_stat_local_json (s : option dp_schema_t) (flags : Z)
  : option (Z * option (list Z) * option (list Z)) :=
  s ← s;
  let num := u8 (zlen (List.filter stat_local (node s))) in
  if num =? 0 then Some (OPRT_OK, None, None)
  else if negb (malloc (SIZEOF_VALID + num)) then Some (OPRT_MALLOC_FAILED, None, None)
  else
    '(dpid, cjson, length) ← dump_local num (node s) [] [] 0;
    if length =? 0 then Some (OPRT_SVC_DP_ID_NOT_FOUND, None, None)
    else match cjson_print cjson with
         | None => Some (OPRT_CR_CJSON_ERR, None, None)
         | Some jsonstr =>
             let out := if negb (Z.land flags DP_APPEND_HEADER_FLAG =? 0)
                        then snd (dp_rept_json_append (Some s) (Some jsonstr) None None 0 true malloc)
                        else if malloc (zlen jsonstr + 1) then Some jsonstr else None in
             Some (OPRT_OK, Some dpid, out)
         end.

(** * Synchronisation *)

(** [tuya_iot_dp_report_json_common] without a time: the text in a buffer of 64 bytes more than
    the data points, and its length as 16 bits. *)
Definition report_json (dev : list Z) (dps : option (list Z)) (ack : option (list Z)) : Z * list iot_event :=
  match dps with
  | None => (OPRT_INVALID_PARM, [])
  | Some dps =>
      let buf_len := zlen dps + 64 in
      if negb (malloc buf_len) then (OPRT_MALLOC_FAILED, [])
      else
        let buffer := report_text dev dps in
        if buf_len <=? zlen buffer then (OPRT_BUFFER_NOT_ENOUGH, [])
        else
          let payload := take (Z.to_nat (u16 (zlen buffer))) buffer in
          (mqtt_rc payload, [ev_mqtt payload ack])
  end.

Definition tuya_iot_dp_sync_start (st : iot_state) (timeout_s : Z) : Z * iot_state * list iot_event :=
  if negb (s_tmm_dp_sync st) && negb (init_rc =? OPRT_OK) then (init_rc, st, [])
  else
    let st := {| is_activated := is_activated st; client_devid := client_devid st; mgr := mgr st; s_tmm_dp_sync := true |} in
    (start_rc, st, [ev_delayed (u32 (timeout_s * 1000))]).

(** The ids of [dpvalid] are those of a schema of the device [dev]. *)
Definition dp_sync_cb (result : Z) (st : iot_state) (dev : list Z) (dpid : list Z) : option (iot_state * list iot_event) :=
  if result =? OPRT_OK then
    s ← dp_schema_find (mgr st) dev;
    Some (with_schema st dev (foldl (fun s i => dp_pv_stat_set s i PV_STAT_CLOUD) s dpid), [])
  else
    let '(_, st, ev) := tuya_iot_dp_sync_start st 5 in
    Some (st, ev).

Definition tuya_iot_dp_sync_process (st : iot_state) : option (list iot_event) :=
  if negb iot_connected then Some [ev_delayed 5000]
  else
    '(ret, dpvalid, dpsjson) ← dp_obj_dump_stat_local_json (dp_schema_find (mgr st) (client_devid st)) 0;
    if negb (ret =? OPRT_OK) then Some [ev_delayed 5000]
    else Some (snd (report_json (client_devid st) dpsjson dpvalid)).

(** * Reception *)

Record dp_recv_msg_t := { m_devid : list Z; m_items : option (list cjson_item) }.

(** [has_handler]: [client->config.event_handler] is set. *)
Definition tuya_iot_dp_event_dispatch (has_handler : bool) (r : dp_recv) : list iot_event :=
  if has_handler then [ev_handler r] else [].

(** A command: its "devId" if it has one, and its "dps". The result is the return code
    and the message that was queued. *)
Definition tuya_iot_dp_parse (st : iot_state) (cmd_js : option (option (list Z) * option (list cjson_item)))
  : Z * option dp_recv_msg_t :=
  match cmd_js with
  | None => (OPRT_CJSON_GET_ERR, None)
  | Some (dev, items) =>
      if negb (malloc SIZEOF_MSG) then (OPRT_MALLOC_FAILED, None)
      else if work_rc =? OPRT_OK
      then (OPRT_OK, Some {| m_devid := match dev with Some d => d | None => client_devid st end; m_items := items |})
      else (work_rc, None)
  end.

Definition tuya_iot_dp_parse_on_worq (has_handler malloc_obj malloc_raw : bool) (st : iot_state) (msg : dp_recv_msg_t)
  : option (iot_state * list iot_event) :=
  '(_, s', calls) ← dp_data_recv_parse b64_decode now true malloc_obj malloc_raw (dp_schema_find (mgr st) (m_devid msg)) (m_items msg);
  Some (match s' with Some s' => with_schema st (m_devid msg) s' | None => st end,
        mbind (tuya_iot_dp_event_dispatch has_handler) calls).

(** * Reports *)

(** The copies of the accepted objects behind [ble_dpin + sizeof(dp_rept_in_t)], in a block of
    [size] bytes; the pointer is to elements of [dp_rept_in_t]. *)
Definition BLE_DPS_OFFSET : Z := SIZEOF_REPT_IN * SIZEOF_REPT_IN.

Fixpoint last_dp (l : list dp_obj_t) (i : Z) : option dp_obj_t :=
  match l with
  | [] => None
  | d :: l' => match last_dp l' i with Some d' => Some d' | None => if dp_id d =? i then Some d else None end
  end.

Fixpoint copy_valid (ids : list Z) (dps : list dp_obj_t) (i size : Z) : option (list dp_obj_t) :=
  match ids with
  | [] => Some []
  | dpid :: ids' =>
      d ← last_dp dps dpid;
      if BLE_DPS_OFFSET + (i + 1) * SIZEOF_OBJ <=? size then
        r ← copy_valid ids' dps (i + 1) size;
        Some (d :: r)
      else None
  end.

(** [sn] is the counter of the BLE reports. *)
Definition tuya_iot_dp_obj_report (st : iot_state) (sn : Z) (dev : list Z) (dps : option (list dp_obj_t)) (flags : Z)
  : option (Z * iot_state * list iot_event) :=
  if negb (is_activated st) then Some (OPRT_COM_ERROR, st, [])
  else
    match dps with
    | None => Some (OPRT_INVALID_PARM, st, [])
    | Some dps =>
        if u16 (zlen dps) =? 0 then Some (OPRT_INVALID_PARM, st, [])
        else match dp_schema_find (mgr st) dev with
        | None => Some (OPRT_INVALID_PARM, st, [])
        | Some schema =>
            if negb (malloc (SIZEOF_VALID + zlen dps)) then Some (OPRT_MALLOC_FAILED, st, [])
            else
              let dpin := {| rept_type := T_OBJ_REPT; DpSchema.flags := flags; DpSchema.dps := take (Z.to_nat (u8 (zlen dps))) dps |} in
              let '(ret, schema, dpvalid) := dp_rept_valid_check schema dpin (malloc 1) in
              let st := with_schema st dev schema in
              if negb (ret =? OPRT_OK) then Some (ret, st, [])
              else if ble_connected then
                let size := SIZEOF_REPT_IN + SIZEOF_OBJ * zlen (dpid dpvalid) in
                if negb (malloc size) then Some (OPRT_MALLOC_FAILED, st, [])
                else
                  copied ← copy_valid (dpid dpvalid) (DpSchema.dps dpin) 0 size;
                  let ble_dpin := {| rept_type := T_OBJ_REPT; DpSchema.flags := flags; DpSchema.dps := copied |} in
                  '(ret, out, _) ← tuya_ble_dp_report malloc send_rc now sn ble_dpin (0, []);
                  let '(_, st, ev) := tuya_iot_dp_sync_start st 5 in
                  Some (ret, st, ev_ble out :: ev)
              else
                '(ret, dpsjson, _) ← dp_rept_json_output cjson_string schema dpin dpvalid false malloc;
                if negb (ret =? OPRT_OK) then Some (ret, st, [])
                else
                  let '(ret, st, ev1) :=
                    if lan_connected then
                      let out := snd (dp_rept_json_append (Some schema) dpsjson None None 0 true malloc) in
                      let '(_, st, ev) := tuya_iot_dp_sync_start st 5 in
                      (lan_rc out, st, ev_lan out :: ev)
                    else (ret, st, []) in
                  let '(ret, ev2) := if iot_connected then report_json (client_devid st) dpsjson (Some (dpid dpvalid)) else (ret, []) in
                  Some (ret, st, ev1 ++ ev2)
        end
    end.

Definition tuya_iot_dp_obj_dump (st : iot_state) (dev : option (list Z)) (flags : Z) : option (option (list Z)) :=
  if negb (is_activated st) then Some None
  else dp_obj_dump_all_json (dp_schema_find (mgr st) (match dev with Some d => d | None => client_devid st end)) flags.

Definition raw_len (n : Z) : Z := u32 (n / 3 * 4 + (if n mod 3 =? 0 then 0 else 4) + 20 + 1).

(** The text of a raw data point, in a buffer of [encode_len] bytes. *)
Definition raw_text (encode_len i : Z) (data : list Z) : option (option (list Z)) :=
  let header := str "{" ++ [34] ++ print_u32 i ++ [34] ++ str ":" ++ [34] in
  if encode_len <=? zlen header then Some None
  else
    let text := header ++ b64_encode data in
    if encode_len <=? zlen text then None
    else if encode_len - zlen text <=? 2 then Some None
    else Some (Some (text ++ [34] ++ str "}")).

Definition tuya_iot_dp_raw_report (st : iot_state) (sn : Z) (dev : option (list Z)) (i : Z) (data : list Z)
  : option (Z * list iot_event) :=
  if negb (is_activated st) then Some (OPRT_COM_ERROR, [])
  else match dp_schema_find (mgr st) (match dev with Some d => d | None => client_devid st end) with
  | None => Some (OPRT_INVALID_PARM, [])
  | Some schema =>
      if ble_connected then
        '(ret, out, _) ← tuya_ble_dp_report malloc send_rc now sn
          {| rept_type := T_RAW_REPT; DpSchema.flags := 0; DpSchema.dps := [] |} (i, data);
        Some (ret, [ev_ble out])
      else if negb (malloc (raw_len (zlen data))) then Some (OPRT_MALLOC_FAILED, [])
      else
        text ← raw_text (raw_len (zlen data)) i data;
        match text with
        | None => Some (OPRT_BUFFER_NOT_ENOUGH, [])
        | Some text =>
            let '(ret, ev1) := if lan_connected
                               then let out := snd (dp_rept_json_append (Some schema) (Some text) None None 0 true malloc) in
                                    (lan_rc out, [ev_lan out])
                               else (OPRT_OK, []) in
            let '(ret, ev2) := if iot_connected then report_json (client_devid st) (Some text) None else (ret, []) in
            Some (ret, ev1 ++ ev2)
        end
  end.
End Iot.

(** * Look-up *)

Lemma find_pv_set s i st j :
  dp_node_find (dp_pv_stat_set s i st) j = (if decide (i = j) then (fun n => set_stat n st) <$> dp_node_find s j else dp_node_find s j).
Proof.
  unfold dp_pv_stat_set, dp_node_find. destruct (node_index (node s) i) as [k|] eqn:Ek; cbn [with_nodes node].
  2: { destruct (decide (i = j)) as [<-|]; [by rewrite Ek|done]. }
  destruct (node_index_spec _ _ _ Ek) as (n & Hn & Hi).
  rewrite <- (node_index_key (node s)) by (symmetry; by apply key_alter). destruct (node_index (node s) j) as [k'|] eqn:Ek'; cbn.
  2: { by destruct (decide (i = j)). }
  destruct (decide (i = j)) as [<-|Hij].
  - rewrite Ek in Ek'. injection Ek' as <-. by rewrite list_lookup_alter_eq.
  - rewrite list_lookup_alter_ne; [done|]. intros <-. destruct (node_index_spec _ _ _ Ek') as (n' & Hn' & Hj). congruence.
Qed.

(** The nodes after an acknowledgement. *)
Definition acked (s : dp_schema_t) (ids : list Z) : dp_schema_t := foldl (fun s i => dp_pv_stat_set s i PV_STAT_CLOUD) s ids.

Lemma find_acked s ids j :
  dp_node_find (acked s ids) j
  = (if decide (j ∈ ids) then (fun n => set_stat n PV_STAT_CLOUD) <$> dp_node_find s j else dp_node_find s j).
Proof.
  revert s. unfold acked. induction ids as [|i ids IH]; intros s; cbn [foldl].
  { destruct (decide (j ∈ [])) as [H|]; [by apply elem_of_nil in H|done]. }
  rewrite IH, find_pv_set. destruct (decide (j ∈ ids)) as [Hj|Hj], (decide (i = j)) as [->|Hij].
  - rewrite decide_True by (by left). by destruct (dp_node_find s j).
  - rewrite decide_True by (by right). done.
  - rewrite decide_True by (by left). done.
  - rewrite decide_False; [done|]. intros [?|?]%elem_of_cons; [congruence|done].
Qed.

Lemma acked_devid s ids : devid (acked s ids) = devid s.
Proof.
  revert s. unfold acked. induction ids as [|i ids IH]; intros s; cbn [foldl]; [done|]. rewrite IH. unfold dp_pv_stat_set.
  by destruct (node_index (node s) i).
Qed.

Lemma schema_find_devid m dev s : dp_schema_find m dev = Some s -> devid s = dev.
Proof.
  unfold dp_schema_find. induction (schema_list m) as [|[s0|] l IH]; cbn [schema_search]; [done| |done].
  case_bool_decide; [by intros [= <-]|done].
Qed.

Lemma find_with_schema st dev s s' :
  dp_schema_find (mgr st) dev = Some s -> devid s' = dev -> dp_schema_find (mgr (with_schema st dev s')) dev = Some s'.
Proof.
  unfold dp_schema_find. cbn [with_schema mgr schema_list]. intros H Hd. revert H.
  induction (schema_list (mgr st)) as [|[s0|] l IH]; cbn [schema_search schema_store]; [done| |done].
  case_bool_decide as E; intros H; cbn [schema_search].
  - rewrite bool_decide_eq_true_2; done.
  - rewrite bool_decide_eq_false_2 by done. by apply IH.
Qed.

Lemma sync_cb_ok i_rc s_rc st dev s ids :
  dp_schema_find (mgr st) dev = Some s ->
  dp_sync_cb i_rc s_rc OPRT_OK st dev ids = Some (with_schema st dev (acked s ids), [])
  /\ dp_schema_find (mgr (with_schema st dev (acked s ids))) dev = Some (acked s ids).
Proof.
  intros H. split.
  - unfold dp_sync_cb. change (OPRT_OK =? OPRT_OK) with true. cbv iota. by rewrite H.
  - eapply find_with_schema; [done|]. rewrite acked_devid. by eapply schema_find_devid.
Qed.

(** * Synchronisation: proofs *)

(** A string that was never set has nothing to send. *)
Definition has_value (n : dp_node_t) : bool := match prop n with prop_str _ _ None => false | _ => true end.

(** The entry of a data point: its id and its cached value. *)
Definition cached_item (n : dp_node_t) : list cjson_item :=
  let key := print_u32 (id (desc n)) in
  match prop n with
  | prop_bool v => [bool_item key v]
  | prop_int _ _ v => [number_item key v]
  | prop_str _ _ (Some v) => [string_item key v]
  | prop_str _ _ None => []
  | prop_enum names v => [string_item key (default [] (rd names v))]
  | prop_bitmap _ v => [number_item key v]
  end.

Lemma json_create_ok root n :
  node_ok n -> d_type (desc n) = T_OBJ ->
  exists k, dp_obj_json_create root n = Some (root ++ cached_item n, k) /\ 0 <= k /\ (has_value n = true -> 0 < k).
Proof.
  intros Hn Ht. unfold dp_obj_json_create, cached_item, has_value. unfold node_ok in Hn.
  destruct (prop n) as [b|mn mx v|ml cl [v|]|names v|ml v]; try (eexists; split; [reflexivity|]; lia).
  - eexists. split; [reflexivity|]. pose proof (zlen_nonneg v). lia.
  - eexists. rewrite app_nil_r. split; [reflexivity|]. lia.
  - destruct (rd_Some names v) as [name Hname]; [naive_solver lia|]. rewrite Hname. eexists. split; [reflexivity|].
    pose proof (zlen_nonneg name). lia.
Qed.

Definition local_ids (l : list dp_node_t) : list Z := (fun n => id (desc n)) <$> List.filter stat_local l.
(** The entries of the data points that are not in the cloud. *)
Definition local_items (l : list dp_node_t) : list cjson_item := mjoin (cached_item <$> List.filter stat_local l).

Lemma dump_local_ok num nodes dpid cjson length :
  Forall node_ok nodes -> Forall (fun n => d_type (desc n) = T_OBJ) nodes -> zlen dpid + zlen (local_ids nodes) <= num ->
  exists length', dump_local num nodes dpid cjson length = Some (dpid ++ local_ids nodes, cjson ++ local_items nodes, length')
    /\ length <= length' /\ (Exists (fun n => stat_local n = true /\ has_value n = true) nodes -> length < length').
Proof.
  intros Hn Ht. revert dpid cjson length. induction nodes as [|n nodes IH]; intros dpid cjson length Hnum; cbn [dump_local].
  { exists length. split; [unfold local_items; cbn; by rewrite !app_nil_r|]. split; [lia|]. by intros ?%Exists_nil. }
  apply Forall_cons_1 in Hn as [Hn1 Hn]. apply Forall_cons_1 in Ht as [Ht1 Ht]. unfold local_ids, local_items in *. cbn [List.filter] in *.
  assert (stat_local n = negb (in_cloud n)) as Hsl by (unfold stat_local, in_cloud; rewrite Ht1; done).
  destruct (in_cloud n) eqn:Ec; rewrite Hsl in *; cbn [negb] in *.
  - destruct (IH Hn Ht dpid cjson length Hnum) as (k & E & H1 & H2). exists k. split; [done|]. split; [done|].
    intros [[? _]|Hx]%Exists_cons; [congruence|auto].
  - change ((fun n => id (desc n)) <$> n :: List.filter stat_local nodes)
      with (id (desc n) :: ((fun n => id (desc n)) <$> List.filter stat_local nodes)) in *.
    rewrite zlen_cons in Hnum. pose proof (zlen_nonneg ((fun n => id (desc n)) <$> List.filter stat_local nodes)).
    destruct (Z.ltb_spec (zlen dpid) num); [|lia]. destruct (json_create_ok cjson n Hn1 Ht1) as (k1 & E1 & K1 & K2).
    rewrite E1. cbn [mbind option_bind].
    destruct (IH Hn Ht (dpid ++ [id (desc n)]) (cjson ++ cached_item n) (length + k1)) as (k & E & H1 & H2); [rewrite zlen_app, zlen_one; lia|].
    exists k. rewrite E, <- !app_assoc. split; [done|]. split; [lia|].
    intros [[_ Hv]|Hx]%Exists_cons; [specialize (K2 Hv); lia|specialize (H2 Hx); lia].
Qed.

Lemma report_json_ok malloc mqtt_rc dev dps ack :
  (forall n, malloc n = true) -> zlen dev <= 44 -> zlen dps < 65000 ->
  report_json malloc mqtt_rc dev (Some dps) ack = (mqtt_rc (report_text dev dps), [ev_mqtt (report_text dev dps) ack]).
Proof.
  intros Hm Hd Hs. unfold report_json. rewrite Hm. cbn [negb].
  assert (zlen (report_text dev dps) = zlen dev + zlen dps + 19) as Hl.
  { unfold report_text. rewrite !zlen_app. change (zlen (str "{")) with 1. change (zlen (quoted "devId")) with 7.
    change (zlen (quoted "dps")) with 5. change (zlen (str ":")) with 1. change (zlen (str ",")) with 1.
    change (zlen (str "}")) with 1. change (zlen [34]) with 1. lia. }
  pose proof (zlen_nonneg dev). pose proof (zlen_nonneg dps). rewrite Hl. decide_bool.
  rewrite u16_small by (unfold is_u16; lia). rewrite ztake_all by lia. done.
Qed.

Lemma local_count l : zlen (List.filter stat_local l) = zlen (local_ids l).
Proof. unfold local_ids, zlen. by rewrite length_fmap. Qed.

Lemma local_ids_in s i n : dp_node_find s i = Some n -> stat_local n = true -> i ∈ local_ids (node s).
Proof.
  intros Hn Hl. pose proof (dp_node_find_id _ _ _ Hn) as Hi. unfold dp_node_find in Hn. apply bind_Some in Hn as (k & _ & Hk).
  apply list_elem_of_fmap. exists n. split; [done|]. apply list_elem_of_In, filter_In. split; [|done].
  apply list_elem_of_In. by eapply list_elem_of_lookup_2.
Qed.

Section Sync.
Context (malloc : Z -> bool) (cjson_print : list cjson_item -> option (list Z)) (mqtt_rc : list Z -> Z) (init_rc start_rc : Z).

(** (C35) One round of synchronisation, for a schema of object data points of which at least one
    that is not in the cloud has a value: the connected device publishes, in one message, the
    object that cJSON prints of the ids and cached values of all data points that are not in the
    cloud, in the order of the schema, as long as this text is shorter than 65000 bytes. When
    the broker acknowledges it, every data point is marked as in the cloud, with nothing else
    changed. A string that was never set has no entry in the object; it is marked all the same. *)
Theorem iot_sync_completes (st : iot_state) (s : dp_schema_t) (text : list Z) :
  (forall n, malloc n = true) -> cjson_print (local_items (node s)) = Some text -> zlen text < 65000 -> zlen (client_devid st) <= 44 ->
  dp_schema_find (mgr st) (client_devid st) = Some s -> nodes_ok (node s) -> Forall (fun n => d_type (desc n) = T_OBJ) (node s) ->
  zlen (node s) < 256 -> Exists (fun n => stat_local n = true /\ has_value n = true) (node s) ->
  exists st' s',
    tuya_iot_dp_sync_process malloc cjson_print true mqtt_rc st
      = Some [ev_mqtt (report_text (client_devid st) text) (Some (local_ids (node s)))]
    /\ dp_sync_cb init_rc start_rc OPRT_OK st (client_devid st) (local_ids (node s)) = Some (st', [])
    /\ dp_schema_find (mgr st') (client_devid st) = Some s'
    /\ forall i, dp_node_find s' i = (fun n => set_stat n PV_STAT_CLOUD) <$> dp_node_find s i.
Proof.
  intros Hm Htext Htl Hdev Hs Hn Ht Hl Hx.
  assert (zlen (local_ids (node s)) <= zlen (node s)) as Hle.
  { rewrite <- local_count. unfold zlen. pose proof (filter_length_le stat_local (node s)). lia. }
  assert (0 < zlen (local_ids (node s))) as Hpos.
  { rewrite <- local_count. apply Exists_exists in Hx as (n & Hin & Hsl & _).
    assert (In n (List.filter stat_local (node s))) as H by (by apply filter_In).
    destruct (List.filter stat_local (node s)); [done|]. rewrite zlen_cons. pose proof (zlen_nonneg l). lia. }
  destruct (dump_local_ok (zlen (local_ids (node s))) (node s) [] [] 0 Hn Ht) as (k & E & _ & K); [change (zlen []) with 0; lia|].
  specialize (K Hx). destruct (sync_cb_ok init_rc start_rc st (client_devid st) s (local_ids (node s)) Hs) as [E1 E2].
  exists (with_schema st (client_devid st) (acked s (local_ids (node s)))), (acked s (local_ids (node s))).
  split_and!; [|done|done|].
  - unfold tuya_iot_dp_sync_process. cbn [negb]. rewrite Hs. unfold dp_obj_dump_stat_local_json. cbn [mbind option_bind].
    rewrite local_count, u8_small by (unfold is_u8; lia). destruct (Z.eqb_spec (zlen (local_ids (node s))) 0); [lia|].
    rewrite Hm. cbn [negb]. rewrite E. cbn [mbind option_bind app]. destruct (Z.eqb_spec k 0); [lia|]. rewrite Htext.
    change (Z.land 0 DP_APPEND_HEADER_FLAG =? 0) with true. cbn [negb]. rewrite Hm. cbn [mbind option_bind].
    change (negb (OPRT_OK =? OPRT_OK)) with false. cbv iota. by rewrite report_json_ok.
  - intros i. rewrite find_acked. destruct (decide (i ∈ local_ids (node s))) as [|Hni]; [done|].
    destruct (dp_node_find s i) as [n|] eqn:Hi; [|done]. cbn [fmap option_fmap option_map]. f_equal.
    destruct (decide (pv_stat n = PV_STAT_CLOUD)) as [Hc|Hne]; [unfold set_stat; rewrite <- Hc; by destruct n|].
    destruct Hni. eapply local_ids_in; [done|]. unfold stat_local.
    assert (d_type (desc n) = T_OBJ) as ->.
    { unfold dp_node_find in Hi. apply bind_Some in Hi as (j & _ & Hj). rewrite list.Forall_forall in Ht.
      apply Ht. by eapply list_elem_of_lookup_2. }
    apply Z.eqb_neq in Hne. by rewrite Hne.
Qed.
End Sync.

Definition iot_demo_schema : dp_schema_t :=
  {| devid := str "dev"; preprocess := false;
     node := [demo_node 1 (prop_bool true); ble_node 2 (prop_int 0 100 7); ble_node 3 (prop_str 10 0 None); ble_node 4 (prop_str 10 2 (Some (str "on")))] |}.
Definition iot_demo (s : dp_schema_t) : iot_state :=
  {| is_activated := true; client_devid := str "dev"; mgr := {| schema_num := 1; schema_list := [Some s] |}; s_tmm_dp_sync := false |}.

(** The text of an object, for strings without escapes. *)
Definition item_text (i : cjson_item) : list Z :=
  [34] ++ string i ++ [34; 58] ++ (if c_type i =? c_type (string_item [] []) then [34] ++ valuestring i ++ [34] else print_int (valueint i)).
Definition demo_print (l : list cjson_item) : option (list Z) :=
  Some (str "{" ++ match item_text <$> l with [] => [] | t :: ts => t ++ mjoin ((fun t => 44 :: t) <$> ts) end ++ str "}").

Lemma iot_sync_completes_witness :
  exists st' s',
    tuya_iot_dp_sync_process (fun _ => true) demo_print true (fun _ => 0) (iot_demo iot_demo_schema)
      = Some [ev_mqtt (report_text (str "dev") (str "{" ++ quoted "2" ++ str ":7," ++ quoted "4" ++ str ":" ++ quoted "on" ++ str "}")) (Some [2; 3; 4])]
    /\ dp_sync_cb 0 0 OPRT_OK (iot_demo iot_demo_schema) (str "dev") [2; 3; 4] = Some (st', [])
    /\ dp_schema_find (mgr st') (str "dev") = Some s'
    /\ forall i, dp_node_find s' i = (fun n => set_stat n PV_STAT_CLOUD) <$> dp_node_find iot_demo_schema i.
Proof.
  apply (iot_sync_completes (fun _ => true) demo_print (fun _ => 0) 0 0 (iot_demo iot_demo_schema) iot_demo_schema).
  - reflexivity.
  - reflexivity.
  - vm_compute. reflexivity.
  - vm_compute. discriminate.
  - reflexivity.
  - unfold nodes_ok, iot_demo_schema. cbn [node].
    repeat (apply list.Forall_cons_2; [split; [intros Hc; destruct (Hc eq_refl)|first [exact I|vm_compute; discriminate]]|]). apply list.Forall_nil_2.
  - unfold iot_demo_schema. cbn [node]. repeat (apply list.Forall_cons_2; [reflexivity|]). apply list.Forall_nil_2.
  - vm_compute. reflexivity.
  - unfold iot_demo_schema. cbn [node]. right. left. split; reflexivity.
Defined.

(** A string that was never set is acknowledged with the others: the schema has it in the cloud,
    which never got a value. *)
Lemma iot_unset_acked (s : dp_schema_t) (i : Z) (n : dp_node_t) (ml cl : Z) :
  dp_node_find s i = Some n -> prop n = prop_str ml cl None -> stat_local n = true ->
  cached_item n = [] /\ pv_stat <$> dp_node_find (acked s (local_ids (node s))) i = Some PV_STAT_CLOUD.
Proof.
  intros Hn Hp Hl. split; [unfold cached_item; by rewrite Hp|]. rewrite find_acked, decide_True by (by eapply local_ids_in). by rewrite Hn.
Qed.

(** * Reports: proofs *)

Section Report.
Context (malloc : Z -> bool) (cjson_string : list Z -> option (list Z)) (now : Z) (lan_connected iot_connected : bool)
  (send_rc : Z -> list Z -> Z) (lan_rc : option (list Z) -> Z) (mqtt_rc : list Z -> Z) (init_rc start_rc : Z).
Abbreviation obj_report ble := (tuya_iot_dp_obj_report malloc cjson_string now ble lan_connected iot_connected send_rc lan_rc mqtt_rc init_rc start_rc).

Lemma copy_valid_out ids l i : ids <> [] -> 0 <= i -> copy_valid ids l i (SIZEOF_REPT_IN + SIZEOF_OBJ * (i + zlen ids)) = None.
Proof.
  intros Hne Hi. revert i Hi. induction ids as [|x ids IH]; intros i Hi; [done|]. cbn [copy_valid].
  destruct (last_dp l x) as [d|]; [|done]. cbn [mbind option_bind]. rewrite zlen_cons. pose proof (zlen_nonneg ids).
  case_bool; [|done]. destruct ids as [|y ids].
  - change (zlen []) with 0 in *. unfold BLE_DPS_OFFSET, SIZEOF_REPT_IN, SIZEOF_OBJ in *. lia.
  - replace (i + (1 + zlen (y :: ids))) with (i + 1 + zlen (y :: ids)) by lia. rewrite IH by (done || lia). done.
Qed.

(** With a BLE connection every accepted report is copied behind the end of the block
    allocated for it: the pointer is advanced by [sizeof(dp_rept_in_t)] elements, not bytes. *)
Theorem iot_ble_report_overruns (st : iot_state) (sn : Z) (dev : list Z) (l : list dp_obj_t) (flags : Z)
    (s s' : dp_schema_t) (v : dp_rept_valid_t) :
  (forall n, malloc n = true) -> is_activated st = true -> dp_schema_find (mgr st) dev = Some s -> 0 < zlen l < 256 ->
  dp_rept_valid_check s {| rept_type := T_OBJ_REPT; DpSchema.flags := flags; DpSchema.dps := l |} true = (OPRT_OK, s', v) ->
  obj_report true st sn dev (Some l) flags = None.
Proof.
  intros Hm Ha Hs Hl Hv. unfold tuya_iot_dp_obj_report. rewrite Ha. cbn [negb]. rewrite u16_small by (unfold is_u16; lia).
  destruct (Z.eqb_spec (zlen l) 0); [lia|]. rewrite Hs, !Hm. cbn [negb]. rewrite u8_small by (unfold is_u8; lia).
  rewrite ztake_all, Hv by done. change (negb (OPRT_OK =? OPRT_OK)) with false. cbv iota.
  assert (dpid v <> []) as Hne.
  { unfold dp_rept_valid_check in Hv. destruct (check_loop _ _ _ _ _ _ _) as [nodes [rc|v1]] eqn:El.
    - injection Hv as -> _ _. by apply check_loop_err in El.
    - case_bool_decide as E; [done|]. injection Hv as _ <-. done. }
  rewrite Hm. cbn [negb]. pose proof (copy_valid_out (dpid v) l 0 Hne ltac:(lia)) as Hc. rewrite Z.add_0_l in Hc.
  cbn [DpSchema.dps]. by rewrite Hc.
Qed.

(** A report and its acknowledgement: an accepted report is published over MQTT as the
    text of [dp_rept_json_output], and when it is acknowledged every reported data point is in
    the cloud and still caches the reported value; the others are as they were. *)
Theorem iot_report_acknowledged (st : iot_state) (sn : Z) (dev : list Z) (l : list dp_obj_t) (flags : Z)
    (s s' : dp_schema_t) (v : dp_rept_valid_t) (text : list Z) :
  (forall n, malloc n = true) -> is_activated st = true -> iot_connected = true -> dp_schema_find (mgr st) dev = Some s -> 0 < zlen l < 256 ->
  let dpin := {| rept_type := T_OBJ_REPT; DpSchema.flags := flags; DpSchema.dps := l |} in
  report_ok s dpin -> dp_rept_valid_check s dpin true = (OPRT_OK, s', v) ->
  dp_rept_json_output cjson_string s' dpin v false malloc = Some (OPRT_OK, Some text, None) -> zlen (client_devid st) <= 44 -> zlen text < 65000 ->
  exists rc st1 ev st2 s2,
    obj_report false st sn dev (Some l) flags = Some (rc, st1, ev ++ [ev_mqtt (report_text (client_devid st) text) (Some (dpid v))])
    /\ dp_sync_cb init_rc start_rc OPRT_OK st1 dev (dpid v) = Some (st2, [])
    /\ dp_schema_find (mgr st2) dev = Some s2
    /\ forall d, d ∈ l ->
         (dp_id d ∈ dpid v -> exists n, dp_node_find s2 (dp_id d) = Some n /\ pv_stat n = PV_STAT_CLOUD
                                /\ (d_type (desc n) = T_OBJ -> caches n (dp_val d)))
         /\ (dp_id d ∉ dpid v -> dp_node_find s2 (dp_id d) = dp_node_find s (dp_id d)).
Proof.
  intros Hm Ha Hi Hs Hl dpin Hok Hv Ht Hdev Htl. destruct (valid_check_caches s s' dpin v Hok Hv) as (_ & Hacc & Hrej).
  assert (devid s' = dev) as Hd.
  { rewrite <- (schema_find_devid _ _ _ Hs). unfold dp_rept_valid_check in Hv. destruct (check_loop _ _ _ _ _ _ _) as [nodes [rc|v1]];
      injection Hv as _ <- _; done. }
  pose proof (find_with_schema st dev s s' Hs Hd) as Hs1.
  assert (exists rc st1 ev, obj_report false st sn dev (Some l) flags = Some (rc, st1, ev ++ [ev_mqtt (report_text (client_devid st) text) (Some (dpid v))])
            /\ mgr st1 = mgr (with_schema st dev s')) as (rc & st1 & ev & E & Em).
  { unfold tuya_iot_dp_obj_report. rewrite Ha. cbn [negb]. rewrite u16_small by (unfold is_u16; lia).
    destruct (Z.eqb_spec (zlen l) 0); [lia|]. rewrite Hs, !Hm. cbn [negb]. rewrite u8_small by (unfold is_u8; lia).
    rewrite ztake_all by done. fold dpin. rewrite Hv. change (negb (OPRT_OK =? OPRT_OK)) with false. cbv iota. rewrite Ht.
    cbn [mbind option_bind]. change (negb (OPRT_OK =? OPRT_OK)) with false. cbv iota. rewrite Hi.
    destruct lan_connected; unfold tuya_iot_dp_sync_start; [destruct (negb _ && negb _)|]; cbn [client_devid with_schema];
      rewrite report_json_ok by done; [by eexists _, _, [_]|by eexists _, _, [_; _]|by eexists _, _, []]. }
  rewrite <- Em in Hs1. destruct (sync_cb_ok init_rc start_rc st1 dev s' (dpid v) Hs1) as [E1 E2].
  exists rc, st1, ev, (with_schema st1 dev (acked s' (dpid v))), (acked s' (dpid v)). split_and!; [done|done|done|].
  intros d Hin. split; intros Hid; rewrite find_acked.
  - rewrite decide_True by done. destruct (Hacc d Hin Hid) as (n & -> & _ & _ & Hc). by exists (set_stat n PV_STAT_CLOUD).
  - rewrite decide_False by done. by apply Hrej.
Qed.
End Report.

Lemma demo_find : dp_schema_find (mgr (iot_demo demo_schema)) [100] = Some demo_schema.
Proof. reflexivity. Qed.

Lemma iot_ble_report_overruns_witness :
  tuya_iot_dp_obj_report (fun _ => true) (fun s => Some s) 0 true false true (fun _ _ => 0) (fun _ => 0) (fun _ => 0) 0 0
    (iot_demo demo_schema) 1 [100] (Some (DpSchema.dps demo_report)) 0 = None.
Proof.
  eapply (iot_ble_report_overruns (fun _ => true) (fun s => Some s) 0 false true (fun _ _ => 0) (fun _ => 0) (fun _ => 0) 0 0
            (iot_demo demo_schema) 1 [100] (DpSchema.dps demo_report) 0 demo_schema);
    [reflexivity|reflexivity|reflexivity|split; vm_compute; reflexivity|vm_compute; reflexivity].
Defined.

Lemma iot_report_acknowledged_witness :
  exists rc st1 ev st2 s2,
    tuya_iot_dp_obj_report (fun _ => true) (fun s => Some s) 0 false true true (fun _ _ => 0) (fun _ => 0) (fun _ => 0) 0 0
      (iot_demo demo_schema) 1 [100] (Some (DpSchema.dps demo_report)) 0
      = Some (rc, st1, ev ++ [ev_mqtt (report_text (str "dev") [123; 34; 49; 34; 58; 116; 114; 117; 101; 44; 34; 51; 34; 58; 34; 98; 34; 125]) (Some [1; 3])])
    /\ dp_sync_cb 0 0 OPRT_OK st1 [100] [1; 3] = Some (st2, [])
    /\ dp_schema_find (mgr st2) [100] = Some s2
    /\ forall d, d ∈ DpSchema.dps demo_report ->
         (dp_id d ∈ [1; 3] -> exists n, dp_node_find s2 (dp_id d) = Some n /\ pv_stat n = PV_STAT_CLOUD
                                /\ (d_type (desc n) = T_OBJ -> caches n (dp_val d)))
         /\ (dp_id d ∉ [1; 3] -> dp_node_find s2 (dp_id d) = dp_node_find demo_schema (dp_id d)).
Proof.
  eapply (iot_report_acknowledged (fun _ => true) (fun s => Some s) 0 true true (fun _ _ => 0) (fun _ => 0) (fun _ => 0) 0 0
            (iot_demo demo_schema) 1 [100] (DpSchema.dps demo_report) 0 demo_schema _ {| len := 36; timelen := 0; dpid := [1; 3] |});
    [reflexivity|reflexivity|reflexivity|reflexivity|split; vm_compute; reflexivity|apply demo_report_ok|vm_compute; reflexivity|vm_compute; reflexivity|vm_compute; discriminate|vm_compute; reflexivity].
Defined.

(** * Faults *)

(** A raw data point takes the place of a local object in the dump: the object is never sent. *)
Example iot_raw_hides_local :
  let raw := {| desc := {| id := 1; mode := 0; passive := 0; d_type := T_RAW; trig := 0 |}; prop := prop_bool false; pv_stat := 0; time_stamp := 0 |} in
  let s := {| devid := str "dev"; preprocess := false; node := [raw; ble_node 2 (prop_int 0 100 7)] |} in
  tuya_iot_dp_sync_process (fun _ => true) (fun l => Some (mjoin (string <$> l))) true (fun _ => 0) (iot_demo s)
  = Some [ev_mqtt (report_text (str "dev") (str "1")) (Some [1])].
Proof. vm_compute. reflexivity. Qed.

(** When only an unset string is local, the round fails and is repeated for ever. *)
Example iot_unset_string_repeats :
  let s := {| devid := str "dev"; preprocess := false; node := [ble_node 3 (prop_str 10 0 None)] |} in
  tuya_iot_dp_sync_process (fun _ => true) (fun l => Some (mjoin (string <$> l))) true (fun _ => 0) (iot_demo s) = Some [ev_delayed 5000].
Proof. vm_compute. reflexivity. Qed.

(** 256 objects in one report: none is looked at. *)
Example iot_report_256 :
  let d := {| dp_id := 1; dp_val := dp_bool true; dp_time := 0 |} in
  exists st, tuya_iot_dp_obj_report (fun _ => true) (fun s => Some s) 0 false true true (fun _ _ => 0) (fun _ => 0) (fun _ => 0) 0 0
    (iot_demo demo_schema) 1 [100] (Some (zrepl 256 d)) 0 = Some (OPRT_SVC_DP_ID_NOT_FOUND, st, []).
Proof. eexists. vm_compute. reflexivity. Qed.

(** The device goes offline between a report and its acknowledgement, and the value changes:
    the acknowledgement of the old value marks the new one as in the cloud. *)
Definition ack_race : option (list iot_event * Z * dp_prop_value_t) :=
  let rep on st v := tuya_iot_dp_obj_report (fun _ => true) (fun s => Some s) 0 false false on (fun _ _ => 0) (fun _ => 0) (fun _ => 0) 0 0
                       st 1 [100] (Some [{| dp_id := 2; dp_val := dp_value v; dp_time := 0 |}]) 0 in
  '(_, st, ev1) ← rep true (iot_demo demo_schema) 20;
  '(_, st, ev2) ← rep false st 30;
  '(st, _) ← dp_sync_cb 0 0 OPRT_OK st [100] [2];
  s ← dp_schema_find (mgr st) [100];
  n ← dp_node_find s 2;
  Some (ev1 ++ ev2, pv_stat n, prop n).

Example iot_ack_hides_newer_value :
  ack_race = Some ([ev_mqtt (report_text (str "dev") (str "{" ++ key_text 2 ++ str "20}")) (Some [2])], PV_STAT_CLOUD, prop_int 0 1000 30).
Proof. vm_compute. reflexivity. Qed.
