(* ===== verification/Kv.v ===== *)
(** The key-value store: the JSON records of [src/tal_kv/src/kv_serialize.c] and
    the encrypted files of [src/tal_kv/src/tal_kv.c]. The JSON parser (cJSON), the
    file system (littlefs), base64 and SHA-256 are parameters with their
    documented behaviour. *)
From Stdlib Require Import ZArith Lia String.
From stdpp Require Import base tactics option list numbers gmap.
From S2P Require Import Prelude Text Symmetry.

Local Open Scope Z_scope.

(** * Integers in memory, little endian *)

(** Reading and writing an integer object of [n] bytes. *)
Definition load (n : Z) (signed : bool) (p : list Z) : option Z :=
  b ← slice p 0 n; Some (if signed then swrap (8 * n) (le_val b) else le_val b).
Definition store (n : Z) (p : list Z) (v : Z) : option (list Z) := blit p 0 (le_bytes (Z.to_nat n) v).

(** The C string at a pointer; [None] when it is not terminated. *)
Fixpoint c_string (p : list Z) : option (list Z) :=
  match p with
  | [] => None
  | c :: p' => if c =? 0 then Some [] else s ← c_string p'; Some (c :: s)
  end.

(** * Data (tal_kv.h)

    [val] is the memory from the pointer on. *)

Definition KV_CHAR : Z := 0.
Definition KV_BYTE : Z := 1.
Definition KV_SHORT : Z := 2.
Definition KV_USHORT : Z := 3.
Definition KV_INT : Z := 4.
Definition KV_BOOL : Z := 5.
Definition KV_STRING : Z := 6.
Definition KV_RAW : Z := 7.

Record kv_db_t := { key : list Z; tp : Z; val : list Z; len : Z }.

Definition set_val (d : kv_db_t) (v : list Z) : kv_db_t :=
  {| key := key d; tp := tp d; val := v; len := len d |}.

(** What the code uses of a cJSON item. *)
Definition cJSON_False : Z := 1.
Definition cJSON_True : Z := 2.
Definition cJSON_NULL : Z := 4.
Definition cJSON_Number : Z := 8.
Definition cJSON_String : Z := 16.
Record cJSON := { type : Z; valueint : Z; valuestring : list Z }.

(** * Serialisation *)

Section Serialize.
(** Whether the compiler's [char] is signed, and [mbedtls_base64_encode]. *)
Context (char_signed : bool) (b64_encode : list Z -> list Z).

(** The size of one record: value, then key. *)
Definition entry_size (d : kv_db_t) : option Z :=
  v ← (if tp d <=? KV_INT then Some (11 + 6)
       else if tp d =? KV_BOOL then Some (6 + 6)
       else if tp d =? KV_STRING then
         c ← rd (val d) 0; Some (if c =? 0 then len d + 4 + 4 else len d + 6)
       else if tp d =? KV_RAW then
         Some (len d / 3 * 4 + (if len d mod 3 =? 0 then 0 else 4) + (if len d =? 0 then 4 + 4 else 6))
       else Some 0);
  Some (v + (zlen (key d) + 2)).

Fixpoint size_loop (db : list kv_db_t) (acc : Z) : option Z :=
  match db with
  | [] => Some acc
  | d :: db' => s ← entry_size d; size_loop db' (u32 (acc + s))
  end.

(** [sprintf(buf + offset, ...)]: the text and its terminator. The buffer has [cap]
    bytes of which the first are [buf]. *)
Definition put (cap : Z) (buf txt : list Z) : option (list Z) :=
  if zlen buf + zlen txt + 1 <=? cap then Some (buf ++ txt) else None.

(** [buf[offset++] = c]. *)
Definition put_char (cap : Z) (buf : list Z) (c : Z) : option (list Z) :=
  if zlen buf + 1 <=? cap then Some (buf ++ [c]) else None.

(** The switch over the types: an error code, or the buffer. *)
Definition put_value (cap : Z) (buf : list Z) (d : kv_db_t) : option (Z + list Z) :=
  if tp d =? KV_CHAR then v ← load 1 char_signed (val d); b ← put cap buf (print_int v); Some (inr b)
  else if tp d =? KV_BYTE then v ← load 1 false (val d); b ← put cap buf (print_int v); Some (inr b)
  else if tp d =? KV_SHORT then v ← load 2 true (val d); b ← put cap buf (print_int v); Some (inr b)
  else if tp d =? KV_USHORT then v ← load 2 false (val d); b ← put cap buf (print_int v); Some (inr b)
  else if tp d =? KV_INT then v ← load 4 true (val d); b ← put cap buf (print_int v); Some (inr b)
  else if tp d =? KV_BOOL then
    v ← load 4 true (val d); b ← put cap buf (str (if v =? 0 then "false" else "true")); Some (inr b)
  else if tp d =? KV_STRING then
    c ← rd (val d) 0;
    if c =? 0 then b ← put cap buf (str "null"); Some (inr b)
    else s ← c_string (val d); b ← put cap buf ([34] ++ s ++ [34]); Some (inr b)
  else if tp d =? KV_RAW then
    if len d =? 0 then b ← put cap buf (str "null"); Some (inr b)
    else
      b ← put cap buf [34];
      data ← slice (val d) 0 (len d);
      b ← put cap b (b64_encode data);
      b ← put_char cap b 34;
      Some (inr b)
  else Some (inl OPRT_COM_ERROR).

Fixpoint put_loop (cap : Z) (db : list kv_db_t) (buf : list Z) : option (Z + list Z) :=
  match db with
  | [] => Some (inr buf)
  | d :: db' =>
      buf ← put cap buf ([34] ++ key d ++ [34; 58]);
      r ← put_value cap buf d;
      match r with
      | inl rc => Some (inl rc)
      | inr buf => buf ← put cap buf [44]; put_loop cap db' buf
      end
  end.

(** The text without its terminator; its length is [*out_len]. *)
Definition kv_serialize (malloc : Z -> bool) (db : list kv_db_t) : option (Z * option (list Z)) :=
  cap ← size_loop db 0;
  let cap := u32 (cap + 3) in
  if negb (malloc cap) then Some (OPRT_MALLOC_FAILED, None)
  else
    buf ← put cap [] [123];
    r ← put_loop cap db buf;
    match r with
    | inl rc => Some (rc, None)
    | inr buf =>
        buf ← (match db with [] => Some buf | _ => wr buf (zlen buf - 1) 32 end);
        buf ← put_char cap buf 125;
        z ← put_char cap buf 0;
        Some (OPRT_OK, Some buf)
    end.
End Serialize.

(** * Deserialisation *)

Section Deserialize.
(** [cJSON_Parse], [cJSON_GetObjectItem] and [mbedtls_base64_decode]. *)
Context {root : Type} (cjson_parse : list Z -> option root) (cjson_get : root -> list Z -> option cJSON)
  (b64_decode : list Z -> list Z).

(** The type check of an item. *)
Definition item_fits (d : kv_db_t) (json : cJSON) : bool :=
  negb (((tp d <=? KV_INT) && negb (type json =? cJSON_Number))
        || ((tp d =? KV_BOOL) && (cJSON_True <? type json))
        || (((tp d =? KV_STRING) || (tp d =? KV_RAW))
            && negb (type json =? cJSON_String) && negb (type json =? cJSON_NULL))).

Definition in_range (v lo hi : Z) : bool := negb ((v <? lo) || (hi <? v)).

(** The switch over the types: an error code, or the entry. *)
Definition get_value (d : kv_db_t) (json : cJSON) : option (Z + kv_db_t) :=
  let int n lo hi :=
    if in_range (valueint json) lo hi then v ← store n (val d) (valueint json); Some (inr (set_val d v))
    else Some (inl OPRT_COM_ERROR) in
  if tp d =? KV_CHAR then int 1 (-128) 127
  else if tp d =? KV_BYTE then int 1 0 255
  else if tp d =? KV_SHORT then int 2 (-32768) 32767
  else if tp d =? KV_USHORT then int 2 0 65535
  else if tp d =? KV_INT then v ← store 4 (val d) (valueint json); Some (inr (set_val d v))
  else if tp d =? KV_BOOL then
    v ← store 4 (val d) (if type json =? cJSON_False then 0 else 1); Some (inr (set_val d v))
  else if tp d =? KV_STRING then
    if type json =? cJSON_NULL then v ← wr (val d) 0 0; Some (inr (set_val d v))
    else if len d <? u32 (zlen (valuestring json) + 1) then Some (inl OPRT_COM_ERROR)
    else v ← blit (val d) 0 (valuestring json ++ [0]); Some (inr (set_val d v))
  else if tp d =? KV_RAW then
    if type json =? cJSON_NULL
    then Some (inr {| key := key d; tp := tp d; val := val d; len := 0 |})
    else v ← blit (val d) 0 (b64_decode (valuestring json)); Some (inr (set_val d v))
  else Some (inl OPRT_COM_ERROR).

(** The entries in order; on an error the ones before are changed. *)
Fixpoint get_loop (r : root) (db : list kv_db_t) : option (Z * list kv_db_t) :=
  match db with
  | [] => Some (OPRT_OK, [])
  | d :: db' =>
      let next d := '(rc, db') ← get_loop r db'; Some (rc, d :: db') in
      match cjson_get r (key d) with
      | None => v ← blit (val d) 0 (zrepl (len d) 0); next (set_val d v)
      | Some json =>
          if item_fits d json then
            x ← get_value d json;
            match x with inl rc => Some (rc, db) | inr d => next d end
          else Some (OPRT_CJSON_GET_ERR, db)
      end
  end.

Definition kv_deserialize (text : list Z) (db : list kv_db_t) : option (Z * list kv_db_t) :=
  match cjson_parse text with
  | None => Some (OPRT_CJSON_PARSE_ERR, db)
  | Some r => get_loop r db
  end.
End Deserialize.

(** What mbedTLS documents of base64: four characters for three bytes, padded, and
    decoding inverts encoding. *)
Class Base64Laws (enc dec : list Z -> list Z) : Prop := {
  b64_len l : zlen (enc l) = (zlen l + 2) / 3 * 4;
  b64_chars l : bytes_ok l -> Forall (fun c => 0 < c < 256) (enc l);
  b64_codec l : bytes_ok l -> dec (enc l) = l
}.

(** * The encrypted files (tal_kv.c) *)

(** ** The file system

    The functions of [lfs.h] the store calls. [lfs_content] is what the files
    hold; the laws are what littlefs documents: opening with [CREAT|TRUNC],
    writing from the start and closing replaces a file and touches no other; a
    file that exists opens for reading with its size and its bytes; removing
    removes. Every call may fail. *)

Definition LFS_ERR_OK : Z := 0.
Definition LFS_ERR_NOENT : Z := -2.
Definition LFS_O_RDONLY : Z := 1.
Definition LFS_ERR_IO : Z := -5.
Definition LFS_O_RDWR : Z := 3.
Definition LFS_O_CREAT : Z := 0x0100.
Definition LFS_O_TRUNC : Z := 0x0400.
Definition LFS_WRITE_FLAGS : Z := Z.lor (Z.lor LFS_O_RDWR LFS_O_CREAT) LFS_O_TRUNC.

Class LittleFs := {
  lfs_t : Type;
  lfs_file_t : Type;
  lfs_file_open : lfs_t -> list Z -> Z -> Z * lfs_t * option lfs_file_t;
  lfs_file_rewind : lfs_t -> lfs_file_t -> lfs_t * lfs_file_t;
  lfs_file_write : lfs_t -> lfs_file_t -> list Z -> Z * lfs_t * lfs_file_t;
  lfs_file_size : lfs_t -> lfs_file_t -> Z;
  lfs_file_read : lfs_t -> lfs_file_t -> Z -> Z * list Z * lfs_t * lfs_file_t;
  lfs_file_close : lfs_t -> lfs_file_t -> Z * lfs_t;
  lfs_remove : lfs_t -> list Z -> Z * lfs_t;
  lfs_content : lfs_t -> gmap (list Z) (list Z);

  lfs_open_handle fs k fl fs1 f : lfs_file_open fs k fl = (LFS_ERR_OK, fs1, f) -> is_Some f;
  lfs_write_file fs k fs1 f fs2 f2 fs3 f3 fs4 data :
    lfs_file_open fs k LFS_WRITE_FLAGS = (LFS_ERR_OK, fs1, Some f) ->
    lfs_file_rewind fs1 f = (fs2, f2) ->
    lfs_file_write fs2 f2 data = (zlen data, fs3, f3) ->
    lfs_file_close fs3 f3 = (LFS_ERR_OK, fs4) ->
    lfs_content fs4 = <[k := data]> (lfs_content fs);
  lfs_read_file fs k data :
    lfs_content fs !! k = Some data ->
    exists fs1 f fs2 f2, lfs_file_open fs k LFS_O_RDONLY = (LFS_ERR_OK, fs1, Some f)
      /\ lfs_file_size fs1 f = zlen data
      /\ lfs_file_read fs1 f (zlen data) = (zlen data, data, fs2, f2)
      /\ lfs_content (lfs_file_close fs2 f2).2 = lfs_content fs;
  lfs_missing_file fs k :
    lfs_content fs !! k = None ->
    exists fs1 f, lfs_file_open fs k LFS_O_RDONLY = (LFS_ERR_NOENT, fs1, f) /\ lfs_content fs1 = lfs_content fs;
  lfs_remove_file fs k rc fs' :
    lfs_remove fs k = (rc, fs') ->
    lfs_content fs' = if rc =? LFS_ERR_OK then delete k (lfs_content fs) else lfs_content fs
}.

(** ** The keys *)

Definition TAL_LV_KEY_LEN : Z := 16.
Record tal_kv_cfg_t := { cfg_seed : list Z; cfg_key : list Z }.

(** The part of [tal_kv_init] that derives the configuration from the caller's:
    two hashes, cut to 16 bytes, in arrays of 17 cleared ones. *)
Definition kv_derive (sha256 : list Z -> list Z) (kv_cfg : tal_kv_cfg_t) : option tal_kv_cfg_t :=
  s ← slice (cfg_seed kv_cfg) 0 TAL_LV_KEY_LEN;
  hs ← slice (sha256 s) 0 TAL_LV_KEY_LEN;
  seed ← blit (zrepl (TAL_LV_KEY_LEN + 1) 0) 0 hs;
  k ← slice (cfg_key kv_cfg) 0 TAL_LV_KEY_LEN;
  hk ← slice (sha256 k) 0 TAL_LV_KEY_LEN;
  kk ← blit (zrepl (TAL_LV_KEY_LEN + 1) 0) 0 hk;
  Some {| cfg_seed := seed; cfg_key := kk |}.

(** [lfs_cfg.lookahead_size] as computed from the number of blocks. *)
Definition lookahead_size (block_count : Z) : Z := u32 (block_count / 8 + u32 (8 - block_count / 8)).

Section Store.
Context `{LittleFs} `{MbedtlsAes} (malloc : Z -> bool) (ok : bool) (cfg : tal_kv_cfg_t).

(** The body of [tal_kv_set], with what it ignores: the result has the code, the code that
    [lfs_file_close] gave ([LFS_ERR_OK] where no file was open) and the file system. [None]
    for a pointer is [NULL]. *)
Definition kv_set_closing (fs : lfs_t) (key value : option (list Z)) (length : Z) : option (Z * Z * lfs_t) :=
  match key, value with
  | Some key, Some value =>
      if length =? 0 then Some (OPRT_INVALID_PARM, LFS_ERR_OK, fs)
      else
        let '(result, fs, file) := lfs_file_open fs key LFS_WRITE_FLAGS in
        if negb (result =? LFS_ERR_OK) then Some (result, LFS_ERR_OK, fs)
        else
          file ← file;
          iv ← slice (cfg_seed cfg) 0 16;
          '(result, ec_data, ec_len, _) ←
            tal_aes128_cbc_encode malloc ok (Some value) (u32 length) (Some (cfg_key cfg)) (Some iv);
          if negb (result =? OPRT_OK) then let '(closed, fs) := lfs_file_close fs file in Some (result, closed, fs)
          else
            ec_data ← ec_data;
            ec_len ← ec_len;
            let '(fs, file) := lfs_file_rewind fs file in
            data ← slice ec_data 0 ec_len;
            let '(result, fs, file) := lfs_file_write fs file data in
            let '(closed, fs) := lfs_file_close fs file in
            Some (if result =? ec_len then OPRT_OK else OPRT_KVS_WR_FAIL, closed, fs)
  | _, _ => Some (OPRT_INVALID_PARM, LFS_ERR_OK, fs)
  end.
(** What the caller sees. *)
Definition tal_kv_set (fs : lfs_t) (key value : option (list Z)) (length : Z) : option (Z * lfs_t) :=
  '(rc, _, fs) ← kv_set_closing fs key value length; Some (rc, fs).

(** The result: the code, the file system, and the buffer and the length that
    were stored through the pointers. *)
Definition tal_kv_get (fs : lfs_t) (key : option (list Z)) : option (Z * lfs_t * option (list Z) * option Z) :=
  match key with
  | None => Some (OPRT_INVALID_PARM, fs, None, None)
  | Some key =>
      let '(result, fs, file) := lfs_file_open fs key LFS_O_RDONLY in
      if negb (result =? LFS_ERR_OK) then Some (result, fs, None, None)
      else
        file ← file;
        let ec_len := u32 (lfs_file_size fs file) in
        if negb (malloc (u32 (ec_len + 1))) then Some (OPRT_MALLOC_FAILED, fs, None, None)
        else
          let '(result, bytes, fs, file) := lfs_file_read fs file ec_len in
          ec_data ← blit (zrepl (u32 (ec_len + 1)) 0) 0 bytes;
          let '(_, fs) := lfs_file_close fs file in
          if result <=? 0 then Some (OPRT_KVS_RD_FAIL, fs, None, Some 0)
          else
            iv ← slice (cfg_seed cfg) 0 16;
            '(result, dec_data, dec_len, _) ←
              tal_aes128_cbc_decode malloc ok (Some ec_data) ec_len (Some (cfg_key cfg)) (Some iv);
            n ← tal_aes_get_actual_length dec_data (default 0 dec_len);
            let dec_len := u32 n in
            if negb (result =? OPRT_OK) || (ec_len <? dec_len) then Some (OPRT_BUFFER_NOT_ENOUGH, fs, None, None)
            else
              dec_data ← dec_data;
              dec_data ← wr dec_data dec_len 0;
              Some (OPRT_OK, fs, Some dec_data, Some dec_len)
  end.

Definition tal_kv_del (fs : lfs_t) (key : list Z) : Z * lfs_t :=
  let '(result, fs) := lfs_remove fs key in
  (if result =? LFS_ERR_OK then OPRT_OK else OPRT_COM_ERROR, fs).

(** ** Records *)

Context {root : Type} (cjson_parse : list Z -> option root) (cjson_get : root -> list Z -> option cJSON)
  (b64_decode b64_encode : list Z -> list Z) (char_signed : bool).

Definition serialize_set_closing (fs : lfs_t) (key : option (list Z)) (db : option (list kv_db_t))
  : option (Z * Z * lfs_t) :=
  match db with
  | None | Some [] => Some (OPRT_INVALID_PARM, LFS_ERR_OK, fs)
  | Some db =>
      '(ret, buf) ← kv_serialize char_signed b64_encode malloc db;
      if negb (ret =? OPRT_OK) then Some (ret, LFS_ERR_OK, fs)
      else
        buf ← buf;
        kv_set_closing fs key (Some (buf ++ [0])) (zlen buf)
  end.
Definition tal_kv_serialize_set (fs : lfs_t) (key : option (list Z)) (db : option (list kv_db_t)) : option (Z * lfs_t) :=
  '(rc, _, fs) ← serialize_set_closing fs key db; Some (rc, fs).

Definition tal_kv_serialize_get (fs : lfs_t) (key : option (list Z)) (db : option (list kv_db_t))
  : option (Z * lfs_t * option (list kv_db_t)) :=
  match db, key with
  | None, _ | Some [], _ | _, None => Some (OPRT_INVALID_PARM, fs, db)
  | Some db', Some _ =>
      '(ret, fs, buf, _) ← tal_kv_get fs key;
      if negb (ret =? OPRT_OK) then Some (ret, fs, db)
      else
        buf ← buf;
        text ← c_string buf;
        '(ret, db') ← kv_deserialize cjson_parse cjson_get b64_decode text db';
        Some (ret, fs, Some db')
  end.
End Store.

(** * Proofs *)

(** ** Memory *)

(** The values an object of [n] bytes can hold. *)
Definition int_range (n : Z) (signed : bool) (z : Z) : Prop :=
  if signed then - 2 ^ (8 * n - 1) <= z < 2 ^ (8 * n - 1) else 0 <= z < 2 ^ (8 * n).

Lemma load_ok n signed p :
  0 < n <= zlen p -> bytes_ok p -> exists z, load n signed p = Some z /\ int_range n signed z.
Proof.
  intros Hn Hb. unfold load. destruct (split_at p n) as (b & r & -> & Hl); [lia|].
  rewrite slice_prefix_n by done. cbn [mbind option_bind]. eexists. split; [done|].
  apply Forall_app in Hb as [Hb _]. pose proof (le_val_range b Hb) as Hr. rewrite Hl in Hr.
  destruct signed; [|done]. apply swrap_range. lia.
Qed.

Lemma store_load n signed p z :
  0 < n <= zlen p -> int_range n signed z ->
  exists p', store n p z = Some p' /\ zlen p' = zlen p /\ load n signed p' = Some z.
Proof.
  intros Hn Hz. unfold store, load.
  assert (zlen (le_bytes (Z.to_nat n) z) = n) as Hl by (unfold zlen; rewrite le_bytes_len; lia).
  rewrite blit_front by lia. eexists. split; [done|]. split.
  - rewrite zlen_app, zlen_drop; lia.
  - rewrite slice_prefix_n by done. cbn [mbind option_bind]. f_equal. rewrite le_val_bytes, Z2Nat.id by lia.
    destruct signed; cbn in Hz; [apply swrap_mod; lia|by apply Z.mod_small].
Qed.

Lemma c_string_app s r : Forall (fun c => c <> 0) s -> c_string (s ++ 0 :: r) = Some s.
Proof.
  induction 1 as [|c s Hc Hs IH]; cbn [app c_string]; [done|]. destruct (Z.eqb_spec c 0); [done|]. by rewrite IH.
Qed.

Lemma c_string_split p s : c_string p = Some s -> Forall (fun c => c <> 0) s /\ exists r, p = s ++ 0 :: r.
Proof.
  revert s. induction p as [|c p IH]; intros s; cbn; [done|]. destruct (Z.eqb_spec c 0) as [->|Hc].
  - intros [= <-]. split; [constructor|by exists p].
  - destruct (c_string p) as [s'|]; [|done]. intros [= <-]. destruct (IH s' eq_refl) as (Hs & r & ->).
    split; [by constructor|by exists r].
Qed.

(** ** Values *)

(** What an entry holds. *)
Inductive kv_value := VInt (z : Z) | VBool (b : bool) | VStr (s : list Z) | VRaw (l : list Z).

(** The integer object of a numeric type: its bytes and whether it is signed. *)
Definition int_type (cs : bool) (t : Z) : option (Z * bool) :=
  if t =? KV_CHAR then Some (1, cs) else if t =? KV_BYTE then Some (1, false)
  else if t =? KV_SHORT then Some (2, true) else if t =? KV_USHORT then Some (2, false)
  else if t =? KV_INT then Some (4, true) else None.

Definition kv_read (cs : bool) (d : kv_db_t) : option kv_value :=
  match int_type cs (tp d) with
  | Some (n, signed) => VInt <$> load n signed (val d)
  | None =>
      if tp d =? KV_BOOL then (fun v => VBool (negb (v =? 0))) <$> load 4 true (val d)
      else if tp d =? KV_STRING then VStr <$> c_string (val d)
      else VRaw <$> slice (val d) 0 (len d)
  end.

(** The memory an entry's type and length promise. *)
Definition kv_room (d : kv_db_t) : Prop :=
  0 <= tp d <= KV_RAW /\ is_u16 (len d) /\ bytes_ok (val d)
  /\ match int_type true (tp d) with
     | Some (n, _) => n <= zlen (val d)
     | None => if tp d =? KV_BOOL then 4 <= zlen (val d)
               else if tp d =? KV_STRING then 0 < len d <= zlen (val d)
               else len d <= zlen (val d)
     end.

(** An entry that can be written: a string is terminated within its length. *)
Definition kv_ok (d : kv_db_t) : Prop :=
  kv_room d /\ (tp d = KV_STRING -> exists s, c_string (val d) = Some s /\ zlen s < len d).

Ltac kv_cases t :=
  assert (t = KV_CHAR \/ t = KV_BYTE \/ t = KV_SHORT \/ t = KV_USHORT \/ t = KV_INT
          \/ t = KV_BOOL \/ t = KV_STRING \/ t = KV_RAW) as [?|[?|[?|[?|[?|[?|[?|?]]]]]]]
    by (unfold KV_CHAR, KV_BYTE, KV_SHORT, KV_USHORT, KV_INT, KV_BOOL, KV_STRING, KV_RAW in *; lia).

Definition value_text (enc : list Z -> list Z) (v : kv_value) : list Z :=
  match v with
  | VInt z => print_int z
  | VBool b => str (if b then "true" else "false")
  | VStr [] | VRaw [] => str "null"
  | VStr s => [34] ++ s ++ [34]
  | VRaw l => [34] ++ enc l ++ [34]
  end.

(** A member of the object. *)
Definition member (enc : list Z -> list Z) (k : list Z) (v : kv_value) : list Z :=
  [34] ++ k ++ [34; 58] ++ value_text enc v.

Lemma kv_read_ok cs d : kv_ok d -> exists v, kv_read cs d = Some v.
Proof.
  intros [(Ht & Hl & Hb & Hr) Hs]. unfold kv_read, is_u16 in *.
  kv_cases (tp d); match goal with E : tp d = _ |- _ => rewrite E in * end; cbn in Hr |- *;
    try (destruct (load_ok 1 cs (val d)) as (z & -> & _); [lia|done|by eexists]);
    try (destruct (load_ok 1 false (val d)) as (z & -> & _); [lia|done|by eexists]);
    try (destruct (load_ok 2 true (val d)) as (z & -> & _); [lia|done|by eexists]);
    try (destruct (load_ok 2 false (val d)) as (z & -> & _); [lia|done|by eexists]);
    try (destruct (load_ok 4 true (val d)) as (z & -> & _); [lia|done|by eexists]).
  - destruct (Hs eq_refl) as (s & -> & _). by eexists.
  - rewrite slice_eq by lia. by eexists.
Qed.

(** ** The text *)

#[local] Hint Rewrite @zlen_nil : zlen.

Section Text_.
Context (cs : bool) (enc : list Z -> list Z)
  (enc_len : forall l, zlen (enc l) = (zlen l + 2) / 3 * 4).

Lemma b64_size n : 0 <= n -> (n + 2) / 3 * 4 = n / 3 * 4 + (if n mod 3 =? 0 then 0 else 4).
Proof.
  intros Hn. pose proof (Z.div_mod n 3 ltac:(lia)). pose proof (Z.mod_pos_bound n 3 ltac:(lia)).
  destruct (Z.eqb_spec (n mod 3) 0) as [E|E].
  - replace ((n + 2) / 3) with (n / 3); [lia|]. apply Z.div_unique with 2; lia.
  - replace ((n + 2) / 3) with (n / 3 + 1); [lia|]. apply Z.div_unique with (n mod 3 - 1); lia.
Qed.

Lemma rd_head (p s r : list Z) : p = s ++ 0 :: r -> rd p 0 = Some (hd 0 s).
Proof. intros ->. by destruct s. Qed.

(** The size reserved for an entry holds its member and a comma. *)
Lemma kv_entry_size_ok d v :
  kv_ok d -> kv_read cs d = Some v ->
  exists sz, entry_size d = Some sz /\ zlen (member enc (key d) v) + 1 <= sz.
Proof.
  intros [(Ht & Hl & Hb & Hr) Hs] Hv. unfold member. autorewrite with zlen.
  pose proof (zlen_nonneg (key d)). unfold kv_read, entry_size, is_u16 in *.
  kv_cases (tp d); match goal with E : tp d = _ |- _ => rewrite E in *; clear E end;
    cbn -[rd slice load c_string str] in Hr, Hv |- *;
    try (destruct (load _ _ _) as [z|]; [|done]; injection Hv as <-; cbn [value_text];
         pose proof (print_int_len z); eexists; split; [done|]; lia).
  - destruct (load _ _ _) as [z|]; [|done]. injection Hv as <-. eexists. split; [done|]. cbn [value_text].
    assert (zlen (str (if negb (z =? 0) then "true" else "false")) <= 5) by (by destruct (z =? 0)). lia.
  - destruct (Hs eq_refl) as (s & Es & Hsl). rewrite Es in Hv. injection Hv as <-.
    apply c_string_split in Es as (Hnz & r & ->). rewrite (rd_head _ s r) by done. cbn [mbind option_bind].
    eexists. split; [done|]. destruct s as [|c s]; cbn [hd value_text].
    + change (zlen (str "null")) with 4. cbn. lia.
    + apply Forall_cons_1 in Hnz as [Hc _]. destruct (Z.eqb_spec c 0); [done|].
      autorewrite with zlen in *. lia.
  - rewrite slice_eq in Hv by lia. injection Hv as <-. rewrite drop_0. eexists. split; [done|].
    pose proof (b64_size (len d) ltac:(lia)) as Hsz.
    destruct (take (Z.to_nat (len d)) (val d)) as [|x l] eqn:El; cbn [value_text].
    + assert (len d = 0) as -> by (rewrite <- (zlen_take (len d) (val d)), El by lia; done).
      change (zlen (str "null")) with 4. change (0 / 3 * 4) with 0. change (0 mod 3 =? 0) with true. cbn. lia.
    + assert (zlen (x :: l) = len d) as Hxl by (rewrite <- El; apply zlen_take; lia).
      destruct (Z.eqb_spec (len d) 0) as [E|]; [rewrite E, zlen_cons in Hxl; pose proof (zlen_nonneg l); lia|].
      autorewrite with zlen. rewrite enc_len, Hxl. lia.
Qed.

Lemma put_ok cap buf txt : zlen buf + zlen txt + 1 <= cap -> put cap buf txt = Some (buf ++ txt).
Proof. intros. unfold put. by decide_bool. Qed.

Lemma put_value_ok cap buf d v :
  kv_ok d -> kv_read cs d = Some v -> zlen buf + zlen (value_text enc v) + 1 <= cap ->
  put_value cs enc cap buf d = Some (inr (buf ++ value_text enc v)).
Proof.
  intros [(Ht & Hl & Hb & Hr) Hs] Hv Hc. unfold kv_read, put_value, is_u16 in *.
  kv_cases (tp d); match goal with E : tp d = _ |- _ => rewrite E in *; clear E end;
    cbn -[rd slice load c_string str] in Hr, Hv |- *;
    try (destruct (load _ _ _) as [z|]; [|done]; injection Hv as <-; cbn [mbind option_bind]; by rewrite put_ok).
  - destruct (load _ _ _) as [z|]; [|done]. injection Hv as <-. cbn [mbind option_bind value_text] in *.
    rewrite put_ok; by destruct (z =? 0).
  - destruct (Hs eq_refl) as (s & Es & Hsl). rewrite Es in Hv |- *. injection Hv as <-.
    apply c_string_split in Es as (Hnz & r & ->). rewrite (rd_head _ s r) by done. cbn [mbind option_bind].
    destruct s as [|c s]; cbn [hd value_text] in *; [by rewrite put_ok|].
    apply Forall_cons_1 in Hnz as [Hcz _]. destruct (Z.eqb_spec c 0); [done|]. by rewrite put_ok.
  - rewrite slice_eq in Hv |- * by lia. injection Hv as <-. rewrite drop_0 in *.
    destruct (take (Z.to_nat (len d)) (val d)) as [|x l] eqn:El; cbn [value_text] in *.
    + assert (len d = 0) as -> by (rewrite <- (zlen_take (len d) (val d)), El by lia; done).
      cbn [Z.eqb]. by rewrite put_ok.
    + assert (zlen (x :: l) = len d) as Hxl by (rewrite <- El; apply zlen_take; lia).
      destruct (Z.eqb_spec (len d) 0) as [E|]; [rewrite E, zlen_cons in Hxl; pose proof (zlen_nonneg l); lia|].
      autorewrite with zlen in Hc. pose proof (zlen_nonneg (enc (x :: l))).
      rewrite put_ok by (rewrite zlen_one; lia). cbn [mbind option_bind].
      rewrite put_ok by (autorewrite with zlen; lia). cbn [mbind option_bind]. unfold put_char.
      autorewrite with zlen. decide_bool. cbn [mbind option_bind]. by rewrite <- !app_assoc.
Qed.

(** The sizes, without wrap-around. *)
Definition db_size (db : list kv_db_t) : Z := foldr (fun d n => default 0 (entry_size d) + n) 0 db.

Definition readable (d : kv_db_t) (v : kv_value) : Prop := kv_ok d /\ kv_read cs d = Some v.

Lemma db_size_nonneg db vs : Forall2 readable db vs -> 0 <= db_size db.
Proof.
  induction 1 as [|d v db vs [Hd Hv] _ IH]; cbn; [lia|].
  destruct (kv_entry_size_ok d v Hd Hv) as (sz & E & Hsz). unfold db_size in IH. rewrite E. cbn.
  pose proof (zlen_nonneg (member enc (key d) v)). lia.
Qed.

Lemma size_loop_ok db vs acc :
  Forall2 readable db vs -> 0 <= acc -> acc + db_size db < 4294967296 -> size_loop db acc = Some (acc + db_size db).
Proof.
  intros H. revert acc. induction H as [|d v db vs [Hd Hv] Hdb IH]; intros acc Ha Hb; cbn in *; [f_equal; lia|].
  destruct (kv_entry_size_ok d v Hd Hv) as (sz & E & Hsz). rewrite E in *. cbn -[member] in *.
  pose proof (zlen_nonneg (member enc (key d) v)). pose proof (db_size_nonneg db vs Hdb).
  unfold db_size in *. norm_widths. rewrite IH by lia. f_equal. lia.
Qed.

Definition members (db : list kv_db_t) (vs : list kv_value) : list (list Z) :=
  zip_with (fun d v => member enc (key d) v) db vs.

Lemma put_loop_ok cap db vs buf :
  Forall2 readable db vs -> zlen buf + db_size db + 2 <= cap ->
  put_loop cs enc cap db buf = Some (inr (buf ++ concat ((.++ [44]) <$> members db vs))).
Proof.
  intros H. revert buf. induction H as [|d v db vs [Hd Hv] Hdb IH]; intros buf Hc; cbn [put_loop].
  { cbn. by rewrite app_nil_r. }
  destruct (kv_entry_size_ok d v Hd Hv) as (sz & E & Hsz). cbn in Hc. rewrite E in Hc. cbn in Hc.
  pose proof (db_size_nonneg db vs Hdb) as H0. unfold db_size in *. unfold member in Hsz.
  autorewrite with zlen in Hsz. pose proof (zlen_nonneg (value_text enc v)).
  rewrite put_ok by (autorewrite with zlen; lia). cbn [mbind option_bind].
  rewrite (put_value_ok cap _ d v) by (done || (autorewrite with zlen; lia)).
  cbn [mbind option_bind].
  rewrite put_ok by (autorewrite with zlen; lia). cbn [mbind option_bind].
  rewrite IH by (autorewrite with zlen; lia).
  unfold members, member. cbn [zip_with fmap list_fmap concat app]. rewrite <- !app_assoc. cbn [app].
  by rewrite <- !app_assoc.
Qed.

(** The members separated by commas, with a blank behind the last. *)
Fixpoint join (ms : list (list Z)) : list Z :=
  match ms with
  | [] => []
  | [m] => m ++ [32]
  | m :: ms' => m ++ [44] ++ join ms'
  end.

Lemma concat_join ms : ms <> [] -> exists q, concat ((.++ [44]) <$> ms) = q ++ [44] /\ join ms = q ++ [32].
Proof.
  induction ms as [|m ms IH]; [done|]. intros _. destruct ms as [|m' ms].
  { exists m. cbn. by rewrite app_nil_r. }
  destruct IH as (q & E & J); [done|]. exists (m ++ [44] ++ q). split.
  - change (concat ((.++ [44]) <$> (m :: m' :: ms))) with ((m ++ [44]) ++ concat ((.++ [44]) <$> (m' :: ms))).
    rewrite E. by rewrite <- !app_assoc.
  - change (join (m :: m' :: ms)) with (m ++ [44] ++ join (m' :: ms)). rewrite J. by rewrite <- !app_assoc.
Qed.

(** The JSON object of a record. *)
Definition object_text (db : list kv_db_t) (vs : list kv_value) : list Z := [123] ++ join (members db vs) ++ [125].

Lemma kv_serialize_ok malloc db vs :
  (forall n, malloc n = true) -> Forall2 readable db vs -> db_size db + 3 < 4294967296 ->
  kv_serialize cs enc malloc db = Some (OPRT_OK, Some (object_text db vs)).
Proof.
  intros Hm H Hs. pose proof (db_size_nonneg db vs H). unfold kv_serialize.
  rewrite (size_loop_ok db vs) by (done || lia). cbn [mbind option_bind]. rewrite Hm. cbn [negb]. norm_widths.
  rewrite put_ok by (autorewrite with zlen; lia). cbn [mbind option_bind app].
  rewrite (put_loop_ok _ db vs) by (done || (autorewrite with zlen; lia)). cbn [mbind option_bind].
  assert (zlen (concat ((.++ [44]) <$> members db vs)) <= db_size db) as Hlen.
  { clear -H enc_len. induction H as [|d v db vs [Hd Hv] Hdb IH]; [done|].
    destruct (kv_entry_size_ok d v Hd Hv) as (sz & E & Hsz). unfold db_size, members in *.
    cbn [zip_with fmap list_fmap concat foldr]. rewrite E. cbn [from_option]. rewrite zlen_app, zlen_app, zlen_one.
    change (id sz) with sz. lia. }
  assert ((match db with [] => Some ([123] ++ concat ((.++ [44]) <$> members db vs))
           | _ => wr ([123] ++ concat ((.++ [44]) <$> members db vs))
                     (zlen ([123] ++ concat ((.++ [44]) <$> members db vs)) - 1) 32 end)
          = Some ([123] ++ join (members db vs))
          /\ zlen (join (members db vs)) = zlen (concat ((.++ [44]) <$> members db vs))) as [E Hj].
  { destruct H as [|d v db vs Hd Hdb]; [done|]. destruct (concat_join (members (d :: db) (v :: vs))) as (q & Eq & Jq); [done|].
    rewrite Eq, Jq. split; [|by rewrite !zlen_app, !zlen_one]. rewrite app_assoc.
    replace (zlen (([123] ++ q) ++ [44]) - 1) with (zlen ([123] ++ q)) by (rewrite (zlen_app ([123] ++ q)), zlen_one; lia).
    rewrite wr_mid. by rewrite <- app_assoc. }
  rewrite E. cbn [mbind option_bind]. unfold put_char. autorewrite with zlen. rewrite Hj.
  decide_bool. cbn [mbind option_bind]. autorewrite with zlen. rewrite Hj. decide_bool. cbn [mbind option_bind].
  unfold object_text. by rewrite <- app_assoc.
Qed.
End Text_.

(** ** Reading back *)

(** The item cJSON makes of a value's text. *)
Definition item_of (enc : list Z -> list Z) (v : kv_value) : cJSON :=
  match v with
  | VInt z => {| type := cJSON_Number; valueint := z; valuestring := [] |}
  | VBool b => {| type := if b then cJSON_True else cJSON_False; valueint := if b then 1 else 0; valuestring := [] |}
  | VStr [] | VRaw [] => {| type := cJSON_NULL; valueint := 0; valuestring := [] |}
  | VStr s => {| type := cJSON_String; valueint := 0; valuestring := s |}
  | VRaw l => {| type := cJSON_String; valueint := 0; valuestring := enc l |}
  end.

(** A value of the type and the length of an entry. *)
Definition value_of (cs : bool) (d : kv_db_t) (v : kv_value) : Prop :=
  match int_type cs (tp d), v with
  | Some (n, signed), VInt z => int_range n signed z
  | None, VBool _ => tp d = KV_BOOL
  | None, VStr s => tp d = KV_STRING /\ zlen s < len d /\ Forall (fun c => c <> 0) s
  | None, VRaw l => tp d = KV_RAW /\ zlen l = len d /\ bytes_ok l
  | _, _ => False
  end.

Lemma readable_value cs d v : readable cs d v -> value_of cs d v.
Proof.
  intros [[(Ht & Hl & Hb & Hr) Hs] Hv]. unfold value_of, kv_read, is_u16 in *.
  kv_cases (tp d); match goal with E : tp d = _ |- _ => rewrite E in * end;
    cbn -[rd slice load c_string] in Hr, Hv |- *;
    try (match type of Hv with context [load ?n ?s ?p] =>
           destruct (load_ok n s p) as (z & Ez & Hz); [lia|done|]; rewrite Ez in Hv end;
         injection Hv as <-; done).
  - destruct (Hs eq_refl) as (s & Es & Hsl). rewrite Es in Hv. injection Hv as <-.
    apply c_string_split in Es as [Hnz _]. done.
  - rewrite slice_eq in Hv by lia. injection Hv as <-. rewrite drop_0.
    split_and!; [done|apply zlen_take; lia|by apply Forall_take].
Qed.

Section Read.
Context {root : Type} (cjson_get : root -> list Z -> option cJSON) (enc dec : list Z -> list Z)
  (codec : forall l, bytes_ok l -> dec (enc l) = l).

Lemma get_value_int d n sg z str_ :
  kv_room d -> int_type true (tp d) = Some (n, sg) -> int_range n sg z ->
  exists d', get_value dec d {| type := cJSON_Number; valueint := z; valuestring := str_ |} = Some (inr d')
    /\ kv_read true d' = Some (VInt z).
Proof.
  intros (Ht & Hl & Hb & Hr) Hi Hz. rewrite Hi in Hr.
  assert (0 < n) as Hn.
  { unfold int_type in Hi. kv_cases (tp d); match goal with E : tp d = _ |- _ => rewrite E in Hi end;
      cbn in Hi; try done; injection Hi as <- <-; lia. }
  destruct (store_load n sg (val d) z) as (p & Ep & Hp & Hld); [lia|done|].
  exists (set_val d p). unfold kv_read. cbn [tp val set_val]. rewrite Hi, Hld. split; [|done].
  unfold get_value. cbn [valueint].
  kv_cases (tp d); match goal with E : tp d = _ |- _ => rewrite E in * end;
    cbn in Hi; try done; injection Hi as <- <-; unfold int_range in Hz; cbn in Hz;
    cbn -[store in_range]; rewrite Ep;
    try (match goal with |- context [in_range z ?lo ?hi] =>
           assert (in_range z lo hi = true) as -> by
             (unfold in_range; destruct (Z.ltb_spec z lo), (Z.ltb_spec hi z); done || lia) end);
    done.
Qed.

(** An entry takes the value of its item. *)
Lemma get_value_ok d v :
  kv_room d -> value_of true d v ->
  item_fits d (item_of enc v) = true
  /\ exists d', get_value dec d (item_of enc v) = Some (inr d') /\ kv_read true d' = Some v.
Proof.
  intros Hroom Hv. unfold value_of in Hv. destruct (int_type true (tp d)) as [[n sg]|] eqn:Hi.
  { destruct v as [z|b|s|l]; try done. split; [|by eapply get_value_int].
    destruct Hroom as (Ht & _). unfold item_fits.
    kv_cases (tp d); match goal with E : tp d = _ |- _ => rewrite E in * end; done. }
  destruct Hroom as (Ht & Hl & Hb & Hr). rewrite Hi in Hr. unfold is_u16, item_fits, get_value, kv_read in *.
  destruct v as [z|b|s|l]; [done| | |]; cbn in Hv;
    [pose proof Hv as E|pose proof (proj1 Hv) as E|pose proof (proj1 Hv) as E]; rewrite E in *; clear Hi;
    cbn -[load store blit wr item_of] in Hr |- *.
  - (* bool *)
    destruct (store_load 4 true (val d) (if b then 1 else 0)) as (p & Ep & Hp & Hld); [lia|destruct b; cbn; lia|].
    split; [by destruct b|]. exists (set_val d p). cbn [tp val set_val]. rewrite E.
    destruct b; cbn -[load store] in Ep, Hld |- *; by rewrite Ep, Hld.
  - (* string *)
    destruct Hv as (_ & Hsl & Hnz). destruct s as [|c s]; cbn -[blit wr].
    + split; [done|]. destruct (val d) as [|x p] eqn:Ev; [change (zlen (@nil Z)) with 0 in Hr; lia|].
      rewrite (wr_mid [] x p 0 : wr (x :: p) 0 0 = Some (0 :: p)). eexists. split; [done|]. cbn.
      rewrite E. done.
    + split; [done|]. pose proof (zlen_nonneg (c :: s)). norm_widths.
      destruct (Z.ltb_spec (len d) (zlen (c :: s) + 1)); [lia|].
      rewrite blit_front by (change (c :: s ++ [0]) with ((c :: s) ++ [0]); rewrite zlen_app, zlen_one; lia).
      eexists. split; [done|]. cbn [tp val set_val]. rewrite E. cbn -[c_string app].
      set (r := drop _ (val d)). replace ((c :: s ++ [0]) ++ r) with ((c :: s) ++ 0 :: r)
        by (cbn; by rewrite <- app_assoc). by rewrite c_string_app.
  - (* raw *)
    destruct Hv as (_ & Hll & Hlb). destruct l as [|x l]; cbn -[blit].
    + split; [done|]. eexists. split; [done|]. cbn -[slice]. by rewrite slice_eq by lia.
    + split; [done|]. rewrite codec, blit_front by (done || lia). eexists. split; [done|]. cbn [tp val len set_val].
      rewrite E. cbn -[slice app]. by rewrite slice_prefix_n.
Qed.

(** The same entries: names, types and lengths. *)
Definition same_entry (d d2 : kv_db_t) : Prop := key d2 = key d /\ tp d2 = tp d /\ len d2 = len d /\ kv_room d2.

Lemma get_loop_ok r db db2 vs :
  Forall2 (readable true) db vs -> Forall2 same_entry db db2 ->
  Forall2 (fun d v => cjson_get r (key d) = Some (item_of enc v)) db vs ->
  exists db3, get_loop cjson_get dec r db2 = Some (OPRT_OK, db3)
    /\ Forall2 (fun d v => kv_read true d = Some v) db3 vs.
Proof.
  intros H. revert db2. induction H as [|d v db vs Hd Hdb IH]; intros db2 H2 Hj.
  { inversion H2; subst. by exists []. }
  inversion H2 as [|? d2 ? db2' (Hk & Ht & Hl & Hroom) H2' E1 E2]; subst.
  apply Forall2_cons in Hj as [Hj Hjs]. destruct (IH db2' H2' Hjs) as (db3 & E & Hr).
  assert (value_of true d2 v) as Hv by (pose proof (readable_value _ _ _ Hd) as Hv; unfold value_of in *; by rewrite Ht, Hl).
  destruct (get_value_ok d2 v Hroom Hv) as (Hfit & d' & Eg & Erd).
  exists (d' :: db3). cbn [get_loop]. rewrite Hk, Hj, Hfit, Eg. cbn [mbind option_bind]. rewrite E. cbn. by split; [|constructor].
Qed.
End Read.

(** ** The characters of a record *)

Definition entry_ok (cs : bool) (d : kv_db_t) (v : kv_value) : Prop := readable cs d v /\ chars_ok (key d).

Lemma value_chars cs enc d v :
  (forall l, bytes_ok l -> chars_ok (enc l)) -> readable cs d v -> chars_ok (value_text enc v).
Proof.
  intros Henc Hd. assert (chars_ok [34]) as Hq by (constructor; [lia|constructor]).
  assert (chars_ok (str "null") /\ chars_ok (str "true") /\ chars_ok (str "false")) as (Hn & Ht & Hf)
    by (split_and!; repeat constructor; lia).
  pose proof (readable_value cs d v Hd) as Hv. destruct Hd as [[(_ & _ & Hb & _) _] Hr].
  unfold value_of in Hv. destruct v as [z|[]|[|c s]|[|x l]]; cbn [value_text]; try done.
  - apply print_int_chars.
  - destruct (int_type cs (tp d)) as [[n sg]|] eqn:Ei; [done|]. destruct Hv as (Et & _ & Hnz).
    unfold kv_read in Hr. rewrite Ei, Et in Hr. cbn -[c_string] in Hr.
    destruct (c_string (val d)) as [s'|] eqn:Es; [|done]. injection Hr as ->.
    apply c_string_split in Es as [_ [r Er]]. rewrite Er in Hb. apply Forall_app in Hb as [Hb _].
    repeat apply Forall_app_2; try done. apply Forall_forall. intros y Hy.
    rewrite Forall_forall in Hb, Hnz. specialize (Hb y Hy). specialize (Hnz y Hy). unfold is_u8 in Hb. cbn in *. lia.
  - destruct (int_type cs (tp d)) as [[n sg]|]; [done|]. destruct Hv as (_ & _ & Hlb).
    repeat apply Forall_app_2; try done. by apply Henc.
Qed.

Lemma join_chars ms : Forall chars_ok ms -> chars_ok (join ms).
Proof.
  induction 1 as [|m ms Hm Hms IH]; [constructor|]. destruct ms as [|m' ms].
  - apply Forall_app_2; [done|]. constructor; [lia|constructor].
  - apply Forall_app_2; [done|]. constructor; [lia|done].
Qed.

Lemma object_chars cs enc db vs :
  (forall l, bytes_ok l -> chars_ok (enc l)) -> Forall2 (entry_ok cs) db vs -> chars_ok (object_text enc db vs).
Proof.
  intros Henc H. unfold object_text. apply Forall_app_2; [constructor; [lia|constructor]|].
  apply Forall_app_2; [|constructor; [lia|constructor]]. apply join_chars. unfold members.
  induction H as [|d v db vs [Hd Hk] Hdb IH]; cbn [zip_with]; constructor; [|done].
  unfold member. repeat apply Forall_app_2; try done; try (repeat constructor; lia). by eapply value_chars.
Qed.

Lemma join_len enc cs db vs :
  (forall l, zlen (enc l) = (zlen l + 2) / 3 * 4) -> Forall2 (readable cs) db vs ->
  zlen (join (members enc db vs)) <= db_size db.
Proof.
  intros Hl H. induction H as [|d v db vs [Hd Hv] Hdb IH]; [done|].
  destruct (kv_entry_size_ok cs enc Hl d v Hd Hv) as (sz & E & Hsz).
  pose proof (db_size_nonneg cs enc Hl db vs Hdb). unfold db_size, members in *.
  cbn [zip_with foldr]. rewrite E. change (default 0 (Some sz)) with sz.
  destruct (zip_with _ db vs) as [|m ms] eqn:Em.
  - change (join [member enc (key d) v]) with (member enc (key d) v ++ [32]). rewrite zlen_app, zlen_one. lia.
  - change (join (member enc (key d) v :: m :: ms)) with (member enc (key d) v ++ [44] ++ join (m :: ms)).
    rewrite !zlen_app, zlen_one. lia.
Qed.

(** ** The files *)

Section Files.
Context `{LittleFs} `{AesLaws} (malloc : Z -> bool) (Hmalloc : forall n, malloc n = true)
  (cfg : tal_kv_cfg_t) (Hseed : 16 <= zlen (cfg_seed cfg)) (Hkey : 16 <= zlen (cfg_key cfg)).

(** A value the store can hold. *)
Definition storable (v : list Z) : Prop := bytes_ok v /\ 0 < zlen v < 2147483600.

(** The file contents that give a value back. *)
Definition stores (v ec : list Z) : Prop :=
  forall fs k, lfs_content fs !! k = Some ec ->
  exists fs' r, tal_kv_get malloc true cfg fs (Some k) = Some (OPRT_OK, fs', Some (v ++ 0 :: r), Some (zlen v))
    /\ lfs_content fs' = lfs_content fs.

Lemma kv_keys : exists s sr k kr, cfg_seed cfg = s ++ sr /\ zlen s = 16 /\ cfg_key cfg = k ++ kr /\ zlen k = 16.
Proof.
  destruct (split_at (cfg_seed cfg) 16) as (s & sr & E & Hs); [lia|].
  destruct (split_at (cfg_key cfg) 16) as (k & kr & E2 & Hk); [lia|]. by exists s, sr, k, kr.
Qed.

(** A file with what the encoder made gives the value back. *)
Lemma decoded_stores v ec s sr k kr :
  storable v -> cfg_seed cfg = s ++ sr -> zlen s = 16 -> cfg_key cfg = k ++ kr -> zlen ec = zlen (padded v) ->
  (forall r, exists iv, tal_aes128_cbc_decode malloc true (Some (ec ++ r)) (zlen ec) (Some (k ++ kr)) (Some s)
     = Some (OPRT_OK, Some (padded v ++ [0]), Some (zlen ec), Some iv)) ->
  stores v ec.
Proof.
  intros [Hb Hv] Es Hs Ek Hec D fs key Hk. destruct (padded_ok v Hb) as (_ & _ & Hl).
  destruct (lfs_read_file fs key ec Hk) as (fs1 & f & fs2 & f2 & Eo & Esz & Er & Ec).
  exists (lfs_file_close fs2 f2).2, (drop 1 (pkcs7 (zlen v)) ++ [0]). split; [|done].
  destruct (lfs_file_close fs2 f2) as [closed fs3] eqn:Ecl.
  unfold tal_kv_get. rewrite Eo. cbn [negb LFS_ERR_OK Z.eqb mbind option_bind]. rewrite Esz. norm_widths.
  rewrite Hmalloc. cbn [negb]. rewrite Er. rewrite Es, slice_prefix_n by done.
  rewrite blit_front by (rewrite zlen_zrepl; lia). cbn [mbind option_bind]. rewrite Ecl.
  destruct (Z.leb_spec (zlen ec) 0); [lia|]. rewrite Ek. edestruct D as [iv ->]. cbn [mbind option_bind from_option].
  change (id (zlen ec)) with (zlen ec). rewrite Hec, actual_length_ok by done. cbn [mbind option_bind]. norm_widths.
  destruct (Z.ltb_spec (zlen (padded v)) (zlen v)); [lia|]. cbn [negb orb OPRT_OK Z.eqb mbind option_bind].
  assert (exists x t, pkcs7 (zlen v) = x :: t) as (x & t & Ep).
  { pose proof (pkcs7_len (zlen v)) as Hp. pose proof (pad_len (zlen v)).
    destruct (pkcs7 (zlen v)) as [|x t]; [|by eexists _, _]. change (zlen (@nil Z)) with 0 in Hp. lia. }
  unfold padded. rewrite Ep. rewrite <- app_assoc. cbn [app]. rewrite wr_mid. done.
Qed.

Lemma kv_set_ok fs key v rest :
  storable v ->
  exists rc closed fs', kv_set_closing malloc true cfg fs (Some key) (Some (v ++ rest)) (zlen v) = Some (rc, closed, fs')
    /\ (rc = OPRT_OK -> closed = LFS_ERR_OK -> exists ec, lfs_content fs' = <[key := ec]> (lfs_content fs) /\ stores v ec).
Proof.
  intros Hst. pose proof Hst as [Hb Hv]. destruct kv_keys as (s & sr & k & kr & Es & Hs & Ek & Hk).
  unfold kv_set_closing. destruct (Z.eqb_spec (zlen v) 0); [lia|].
  destruct (lfs_file_open fs key LFS_WRITE_FLAGS) as [[rc fs1] f] eqn:Eo.
  destruct (Z.eqb_spec rc LFS_ERR_OK) as [->|Hrc]; cbn [negb]; [|by eexists _, _, _].
  destruct (lfs_open_handle _ _ _ _ _ Eo) as [f' ->]. cbn [mbind option_bind].
  rewrite Es, slice_prefix_n by done. cbn [mbind option_bind]. norm_widths. rewrite Ek.
  destruct (cbc_codec_ok malloc Hmalloc k kr s v rest Hk Hs Hb Hv) as (ec & suf & iv & Hec & -> & D).
  cbn [mbind option_bind negb OPRT_OK Z.eqb].
  destruct (lfs_file_rewind fs1 f') as [fs2 f2] eqn:Erw. rewrite slice_prefix. cbn [mbind option_bind].
  destruct (lfs_file_write fs2 f2 ec) as [[wn fs3] f3] eqn:Ew.
  destruct (lfs_file_close fs3 f3) as [closed fs4] eqn:Ecl.
  eexists _, _, _. split; [done|]. destruct (Z.eqb_spec wn (zlen ec)) as [->|]; [|done]. intros _ ->.
  exists ec. split; [by eapply lfs_write_file|]. by eapply decoded_stores.
Qed.

(** The file system holds the map [m]: the same keys, and each file gives its
    value. *)
Definition kv_holds (fs : lfs_t) (m : gmap (list Z) (list Z)) : Prop :=
  forall key, match m !! key with
              | Some v => exists ec, lfs_content fs !! key = Some ec /\ stores v ec
              | None => lfs_content fs !! key = None
              end.

Lemma kv_holds_content fs fs' m : lfs_content fs' = lfs_content fs -> kv_holds fs m -> kv_holds fs' m.
Proof. intros E Hm key. rewrite E. apply Hm. Qed.

Lemma kv_holds_insert fs fs' m key v ec :
  kv_holds fs m -> stores v ec -> lfs_content fs' = <[key := ec]> (lfs_content fs) -> kv_holds fs' (<[key := v]> m).
Proof.
  intros Hm Hs E key'. rewrite E. destruct (decide (key = key')) as [->|Hne].
  - rewrite !lookup_insert_eq. by exists ec.
  - rewrite !lookup_insert_ne by done. apply Hm.
Qed.

Lemma kv_holds_delete fs fs' m key :
  kv_holds fs m -> lfs_content fs' = delete key (lfs_content fs) -> kv_holds fs' (delete key m).
Proof.
  intros Hm E key'. rewrite E. destruct (decide (key = key')) as [->|Hne].
  - by rewrite !lookup_delete_eq.
  - rewrite !lookup_delete_ne by done. apply Hm.
Qed.

Lemma kv_get_ok fs m key :
  kv_holds fs m ->
  exists rc fs' val n, tal_kv_get malloc true cfg fs (Some key) = Some (rc, fs', val, n) /\ kv_holds fs' m
    /\ match m !! key with
       | Some v => rc = OPRT_OK /\ n = Some (zlen v) /\ exists r, val = Some (v ++ 0 :: r)
       | None => rc = LFS_ERR_NOENT /\ val = None /\ n = None
       end.
Proof.
  intros Hm. pose proof (Hm key) as Hk. destruct (m !! key) as [v|] eqn:E.
  - destruct Hk as (ec & Hc & Hs). destruct (Hs fs key Hc) as (fs' & r & -> & Ec).
    eexists _, _, _, _. split; [done|]. split; [by eapply kv_holds_content|]. eauto.
  - destruct (lfs_missing_file fs key Hk) as (fs1 & f & Eo & Ec). unfold tal_kv_get. rewrite Eo. cbn.
    eexists _, _, _, _. split; [done|]. split; [by eapply kv_holds_content|]. done.
Qed.
End Files.

(** * Instances, for witnesses *)

(** ** RFC 4648 *)

Definition b64_char (x : Z) : Z :=
  if x <? 26 then 65 + x else if x <? 52 then 71 + x else if x <? 62 then x - 4 else if x =? 62 then 43 else 47.
Definition b64_digit (c : Z) : Z :=
  if (65 <=? c) && (c <=? 90) then c - 65 else if (97 <=? c) && (c <=? 122) then c - 71
  else if (48 <=? c) && (c <=? 57) then c + 4 else if c =? 43 then 62 else 63.

Fixpoint rfc_encode (l : list Z) : list Z :=
  match l with
  | [] => []
  | [a] => [b64_char (a / 4); b64_char (a mod 4 * 16); 61; 61]
  | [a; b] => [b64_char (a / 4); b64_char (a mod 4 * 16 + b / 16); b64_char (b mod 16 * 4); 61]
  | a :: b :: c :: l' =>
      b64_char (a / 4) :: b64_char (a mod 4 * 16 + b / 16) :: b64_char (b mod 16 * 4 + c / 64)
      :: b64_char (c mod 64) :: rfc_encode l'
  end.

Fixpoint rfc_decode (t : list Z) : list Z :=
  match t with
  | p :: q :: r :: s :: t' =>
      let a := b64_digit p * 4 + b64_digit q / 16 in
      let b := b64_digit q mod 16 * 16 + b64_digit r / 4 in
      let c := b64_digit r mod 4 * 64 + b64_digit s in
      if s =? 61 then (if r =? 61 then [a] else [a; b]) else a :: b :: c :: rfc_decode t'
  | _ => []
  end.

Lemma b64_char_ok x : 0 <= x < 64 -> b64_digit (b64_char x) = x /\ b64_char x <> 61 /\ 0 < b64_char x < 256.
Proof.
  intros Hx. assert ((b64_digit (b64_char x) =? x) && negb (b64_char x =? 61)
    && ((0 <? b64_char x) && (b64_char x <? 256)) = true) as E.
  { apply (below_forall 64 (fun x => (b64_digit (b64_char x) =? x) && negb (b64_char x =? 61)
      && ((0 <? b64_char x) && (b64_char x <? 256)))); [by vm_compute|done]. }
  apply andb_true_iff in E as [E ?]. bool_hyps. done || (split_and!; lia).
Qed.

Lemma list_ind3 (P : list Z -> Prop) :
  P [] -> (forall a, P [a]) -> (forall a b, P [a; b]) -> (forall a b c l, P l -> P (a :: b :: c :: l)) ->
  forall l, P l.
Proof.
  intros H0 H1 H2 H3. fix IH 1. intros [|a [|b [|c l]]]; [done|apply H1|apply H2|apply H3, IH].
Qed.

Lemma byte_groups a b c :
  is_u8 a -> is_u8 b -> is_u8 c ->
  (0 <= a / 4 < 64 /\ 0 <= a mod 4 * 16 < 64 /\ 0 <= a mod 4 * 16 + b / 16 < 64)
  /\ (0 <= b mod 16 * 4 < 64 /\ 0 <= b mod 16 * 4 + c / 64 < 64 /\ 0 <= c mod 64 < 64).
Proof. unfold is_u8. intros. Z.to_euclidean_division_equations. lia. Qed.

Lemma byte_digits a b c :
  is_u8 a -> is_u8 b -> is_u8 c ->
  a / 4 * 4 + (a mod 4 * 16 + b / 16) / 16 = a
  /\ (a mod 4 * 16 + b / 16) mod 16 * 16 + (b mod 16 * 4 + c / 64) / 4 = b
  /\ (b mod 16 * 4 + c / 64) mod 4 * 64 + c mod 64 = c.
Proof.
  unfold is_u8. intros Ha Hb Hc.
  assert (0 <= b / 16 < 16 /\ 0 <= c / 64 < 4) as [H1 H2] by (Z.to_euclidean_division_equations; lia).
  rewrite (Z.add_comm (a mod 4 * 16)), (Z.add_comm (b mod 16 * 4)), !Z.div_add, !Z.mod_add by lia.
  rewrite (Z.div_small (b / 16)), (Z.mod_small (b / 16)), (Z.div_small (c / 64)), (Z.mod_small (c / 64)) by lia.
  pose proof (Z.div_mod a 4). pose proof (Z.div_mod b 16). pose proof (Z.div_mod c 64). lia.
Qed.

Ltac b64_bytes :=
  unfold bytes_ok in *; repeat match goal with H : Forall is_u8 (_ :: _) |- _ => apply Forall_cons_1 in H as [? H] end.
Ltac b64_groups a b c :=
  destruct (byte_groups a b c) as ((? & ? & ?) & ? & ? & ?);
  [done || (unfold is_u8; lia)|done || (unfold is_u8; lia)|done || (unfold is_u8; lia)|].
Ltac b64_all :=
  repeat (apply Forall_cons_2;
    [cbn beta; match goal with
               | |- context [b64_char ?x] => destruct (b64_char_ok x) as (_ & _ & ?); [lia|assumption]
               | _ => lia
               end|]);
  try apply Forall_nil_2.
Ltac b64_digits :=
  repeat match goal with |- context [b64_digit (b64_char ?x)] =>
    let E := fresh in destruct (b64_char_ok x) as (E & ? & ?); [lia|]; rewrite E end;
  repeat match goal with H : b64_char ?x <> 61 |- context [b64_char ?x =? 61] =>
    destruct (Z.eqb_spec (b64_char x) 61); [done|] end;
  cbn [Z.eqb Pos.eqb].

#[export] Instance rfc_laws : Base64Laws rfc_encode rfc_decode.
Proof.
  split.
  - induction l as [|a|a b|a b c l IH] using list_ind3; [done..|]. cbn [rfc_encode]. rewrite !zlen_cons, IH.
    replace (1 + (1 + (1 + zlen l)) + 2) with (zlen l + 2 + 1 * 3) by lia. rewrite Z.div_add by lia. lia.
  - induction l as [|a|a b|a b c l IH] using list_ind3; intros Hb; cbn [rfc_encode]; b64_bytes; [constructor| | |].
    + b64_groups a 0 0. b64_all.
    + b64_groups a b 0. b64_all.
    + b64_groups a b c. b64_all. by apply IH.
  - induction l as [|a|a b|a b c l IH] using list_ind3; intros Hb; b64_bytes; [done| | |]; cbn [rfc_encode rfc_decode].
    + b64_groups a 0 0. b64_digits. destruct (byte_digits a 0 0) as (E & _); [done..|].
      rewrite Z.add_0_r in E. by rewrite E.
    + b64_groups a b 0. b64_digits. destruct (byte_digits a b 0) as (E & E2 & _); [done..|].
      rewrite Z.add_0_r in E2. by rewrite E, E2.
    + b64_groups a b c. b64_digits. rewrite IH by done. destruct (byte_digits a b c) as (E & E2 & E3); [done..|].
      by rewrite E, E2, E3.
Qed.

(** ** A file system in memory

    What was written is in the handle until the file is closed, and lost when that fails,
    which it does for the files [bad] names. *)
Program Definition disk (bad : list Z -> bool) : LittleFs := {|
  lfs_t := gmap (list Z) (list Z);
  lfs_file_t := list Z * option (list Z);
  lfs_file_open fs k fl :=
    if fl =? LFS_WRITE_FLAGS then (LFS_ERR_OK, fs, Some (k, Some []))
    else match fs !! k with Some _ => (LFS_ERR_OK, fs, Some (k, None)) | None => (LFS_ERR_NOENT, fs, None) end;
  lfs_file_rewind fs f := (fs, f);
  lfs_file_write fs f data := (zlen data, fs, (f.1, Some data));
  lfs_file_size fs f := zlen (default [] (fs !! f.1));
  lfs_file_read fs f n := (zlen (take (Z.to_nat n) (default [] (fs !! f.1))), take (Z.to_nat n) (default [] (fs !! f.1)), fs, f);
  lfs_file_close fs f :=
    match f.2 with
    | Some data => if bad f.1 then (LFS_ERR_IO, fs) else (LFS_ERR_OK, <[f.1 := data]> fs)
    | None => (LFS_ERR_OK, fs)
    end;
  lfs_remove fs k := match fs !! k with Some _ => (LFS_ERR_OK, delete k fs) | None => (LFS_ERR_NOENT, fs) end;
  lfs_content fs := fs
|}.
Next Obligation.
  intros bad fs k fl fs1 f H. cbn in H. destruct (fl =? LFS_WRITE_FLAGS); [by injection H as <- <-|].
  destruct (fs !! k); [by injection H as <- <-|done].
Qed.
Next Obligation.
  intros bad fs k fs1 f fs2 f2 fs3 f3 fs4 data Ho Hr Hw Hc. cbn in *. injection Ho as <- <-. injection Hr as <- <-.
  injection Hw as <- <-. cbn in Hc. destruct (bad k); [done|]. by injection Hc as <-.
Qed.
Next Obligation.
  intros bad fs k data H. cbn. rewrite H. exists fs, (k, None), fs, (k, None). cbn. rewrite H. cbn.
  rewrite (ztake_all (zlen data) data) by lia. done.
Qed.
Next Obligation. intros bad fs k H. cbn. rewrite H. by exists fs, None. Qed.
Next Obligation.
  intros bad fs k rc fs' H. cbn in *. destruct (fs !! k) eqn:E; injection H as <- <-; cbn; [done|done].
Qed.
(** One that never fails. *)
#[export] Instance map_fs : LittleFs := disk (fun _ => false).

(** ** A reader of flat JSON objects *)

Fixpoint read_until (c : Z) (l : list Z) : option (list Z * list Z) :=
  match l with
  | [] => None
  | x :: l' => if x =? c then Some ([], l') else '(s, r) ← read_until c l'; Some (x :: s, r)
  end.

Fixpoint read_digits (l : list Z) (acc : Z) : Z * list Z :=
  match l with
  | c :: l' => if (48 <=? c) && (c <=? 57) then read_digits l' (acc * 10 + (c - 48)) else (acc, l)
  | [] => (acc, [])
  end.

Definition read_value (l : list Z) : option (cJSON * list Z) :=
  let item t v s := {| type := t; valueint := v; valuestring := s |} in
  match l with
  | 34 :: l' => '(s, r) ← read_until 34 l'; Some (item cJSON_String 0 s, r)
  | 110 :: _ => Some (item cJSON_NULL 0 [], drop 4 l)
  | 116 :: _ => Some (item cJSON_True 1 [], drop 4 l)
  | 102 :: _ => Some (item cJSON_False 0 [], drop 5 l)
  | 45 :: l' => let '(n, r) := read_digits l' 0 in Some (item cJSON_Number (- n) [], r)
  | _ => let '(n, r) := read_digits l 0 in Some (item cJSON_Number n [], r)
  end.

Fixpoint read_members (fuel : nat) (l : list Z) : option (list (list Z * cJSON)) :=
  match fuel, l with
  | S f, 34 :: l' =>
      '(k, r) ← read_until 34 l';
      match r with
      | 58 :: r' =>
          '(v, r2) ← read_value r';
          match r2 with
          | 44 :: r3 => ms ← read_members f r3; Some ((k, v) :: ms)
          | _ => Some [(k, v)]
          end
      | _ => None
      end
  | _, _ => None
  end.

Definition read_object (l : list Z) : option (list (list Z * cJSON)) :=
  match l with 123 :: l' => read_members (length l') l' | _ => None end.

Definition get_member (r : list (list Z * cJSON)) (k : list Z) : option cJSON :=
  snd <$> find (fun p => bool_decide (p.1 = k)) r.

(** * Properties *)

(** ** Sequences of calls *)

Inductive kv_op := KSet (k v : list Z) | KGet (k : list Z) | KDel (k : list Z).

(** What a call answers: a code, or the value a read stored through its pointers. [Unclosed]
    is a write that was answered with success although its file could not be closed. *)
Inductive kv_answer := Code (rc : Z) | Value (v : list Z) | Unclosed.

Section Runs.
Context `{LittleFs} `{MbedtlsAes} (cfg : tal_kv_cfg_t).

Definition kv_call (fs : lfs_t) (op : kv_op) : option (kv_answer * lfs_t) :=
  match op with
  | KSet k v =>
      '(rc, closed, fs) ← kv_set_closing (fun _ => true) true cfg fs (Some k) (Some v) (zlen v);
      Some (if (rc =? OPRT_OK) && negb (closed =? LFS_ERR_OK) then Unclosed else Code rc, fs)
  | KGet k =>
      '(rc, fs, buf, n) ← tal_kv_get (fun _ => true) true cfg fs (Some k);
      if rc =? OPRT_OK then buf ← buf; n ← n; v ← slice buf 0 n; Some (Value v, fs) else Some (Code rc, fs)
  | KDel k => let '(rc, fs) := tal_kv_del fs k in Some (Code rc, fs)
  end.

(** Calls in order, up to a write that fails or whose file is not closed. *)
Fixpoint kv_run (fs : lfs_t) (ops : list kv_op) : option (list kv_answer * lfs_t) :=
  match ops with
  | [] => Some ([], fs)
  | op :: ops' =>
      '(a, fs) ← kv_call fs op;
      match op, a with
      | KSet _ _, Unclosed => Some ([a], fs)
      | KSet _ _, Code rc => if rc =? OPRT_OK then '(l, fs) ← kv_run fs ops'; Some (a :: l, fs) else Some ([a], fs)
      | _, _ => '(l, fs) ← kv_run fs ops'; Some (a :: l, fs)
      end
  end.
End Runs.

(** The specification: a finite map. Removal may fail and then changes nothing. *)
Inductive map_step : gmap (list Z) (list Z) -> kv_op -> kv_answer -> gmap (list Z) (list Z) -> Prop :=
| map_set m k v : map_step m (KSet k v) (Code OPRT_OK) (<[k := v]> m)
| map_get m k v : m !! k = Some v -> map_step m (KGet k) (Value v) m
| map_get_none m k : m !! k = None -> map_step m (KGet k) (Code LFS_ERR_NOENT) m
| map_del m k : map_step m (KDel k) (Code OPRT_OK) (delete k m)
| map_del_err m k : map_step m (KDel k) (Code OPRT_COM_ERROR) m.

Inductive map_run : gmap (list Z) (list Z) -> list kv_op -> list kv_answer -> Prop :=
| map_done m : map_run m [] []
| map_next m op a m' ops l : map_step m op a m' -> map_run m' ops l -> map_run m (op :: ops) (a :: l)
| map_fail m k v a ops : a <> Code OPRT_OK -> map_run m (KSet k v :: ops) [a].

Definition op_ok (op : kv_op) : Prop := match op with KSet _ v => storable v | _ => True end.

Section RunLemmas.
Context `{LittleFs} `{AesLaws} (cfg : tal_kv_cfg_t) (Hseed : 16 <= zlen (cfg_seed cfg)) (Hkey : 16 <= zlen (cfg_key cfg)).
Let malloc : Z -> bool := fun _ => true.

Lemma kv_set_answer fs k v v' fs1 : kv_call cfg fs (KSet k v) <> Some (Value v', fs1).
Proof. cbn [kv_call]. destruct (kv_set_closing _ _ _ _ _ _ _) as [[[rc closed] fs']|]; [|done]. cbn [mbind option_bind]. by destruct (_ && _). Qed.

(** Each call is a step of the map, or a write that failed or was not closed. *)
Lemma kv_call_ok fs m op :
  kv_holds malloc cfg fs m -> op_ok op ->
  exists a fs', kv_call cfg fs op = Some (a, fs')
    /\ ((exists m', map_step m op a m' /\ kv_holds malloc cfg fs' m')
        \/ exists k v, op = KSet k v /\ a <> Code OPRT_OK).
Proof.
  intros Hm Hop. destruct op as [k v|k|k]; cbn [kv_call].
  - destruct (kv_set_ok malloc ltac:(done) cfg Hseed Hkey fs k v [] Hop) as (rc & closed & fs' & E & Hok).
    rewrite app_nil_r in E. unfold malloc in E. rewrite E. cbn [mbind option_bind]. eexists _, _. split; [done|].
    destruct (Z.eqb_spec rc OPRT_OK) as [->|Hrc]; [|right; exists k, v; split; [done|by intros [= ?]]].
    destruct (Z.eqb_spec closed LFS_ERR_OK) as [->|Hcl]; [left|right; by exists k, v].
    destruct (Hok eq_refl eq_refl) as (ec & Ec & Hs). exists (<[k := v]> m).
    split; [constructor|by eapply kv_holds_insert].
  - destruct (kv_get_ok malloc cfg fs m k Hm) as (rc & fs' & buf & n & E & Hm' & Hans).
    unfold malloc in E. rewrite E. cbn [mbind option_bind]. destruct (m !! k) as [v|] eqn:Ek.
    + destruct Hans as (-> & -> & r & ->). cbn [OPRT_OK Z.eqb mbind option_bind].
      rewrite slice_prefix. cbn [mbind option_bind]. eexists _, _. split; [done|].
      left. exists m. split; [by constructor|done].
    + destruct Hans as (-> & -> & ->). cbn [LFS_ERR_NOENT OPRT_OK Z.eqb]. eexists _, _. split; [done|].
      left. exists m. split; [by constructor|done].
  - unfold tal_kv_del. destruct (lfs_remove fs k) as [rc fs'] eqn:E. apply lfs_remove_file in E.
    destruct (Z.eqb_spec rc LFS_ERR_OK) as [_|_]; eexists _, _; (split; [done|]); left.
    + exists (delete k m). split; [constructor|by eapply kv_holds_delete].
    + exists m. split; [constructor|by eapply kv_holds_content].
Qed.

Lemma kv_run_ok fs m ops :
  kv_holds malloc cfg fs m -> Forall op_ok ops ->
  exists l fs', kv_run cfg fs ops = Some (l, fs') /\ map_run m ops l.
Proof.
  intros Hm Hops. revert fs m Hm. induction Hops as [|op ops Hop Hops IH]; intros fs m Hm.
  { exists [], fs. split; [done|constructor]. }
  destruct (kv_call_ok fs m op Hm Hop) as (a & fs1 & E & Hstep). cbn [kv_run]. rewrite E. cbn [mbind option_bind].
  destruct Hstep as [(m' & Hs & Hm')|(k & v & -> & Hrc)].
  - destruct (IH fs1 m' Hm') as (l & fs2 & El & Hl).
    exists (a :: l), fs2. split; [|by econstructor]. inversion Hs; subst; cbn [OPRT_OK Z.eqb]; by rewrite El.
  - assert (map_run m (KSet k v :: ops) [a]) as Hend by by constructor. destruct a as [rc|v'|]; [|by destruct (kv_set_answer fs k v v' fs1)|by eexists _, _].
    destruct (Z.eqb_spec rc OPRT_OK) as [->|_]; [done|]. by eexists _, _.
Qed.
End RunLemmas.

(** (C12) The store is a finite map: from a file system without files, every
    sequence of [tal_kv_set], [tal_kv_get] and [tal_kv_del] returns, and its
    answers are those of a map from names to values - a read gives the value of
    the last write, with its length, through encryption, padding and the file
    system; a name never written, or deleted, gives [LFS_ERR_NOENT] - up to the
    first write the file system fails, be it in opening, writing or closing the file. A
    failure to close is one that [tal_kv_set] answers with success. *)
Theorem kv_store_refines_map `{LittleFs} `{AesLaws} (cfg : tal_kv_cfg_t) (fs : lfs_t) (ops : list kv_op) :
  16 <= zlen (cfg_seed cfg) -> 16 <= zlen (cfg_key cfg) -> lfs_content fs = ∅ -> Forall op_ok ops ->
  exists answers fs', kv_run cfg fs ops = Some (answers, fs') /\ map_run ∅ ops answers.
Proof.
  intros Hs Hk Hfs Hops. apply kv_run_ok; [done..| |done].
  intros key. by rewrite Hfs, !lookup_empty.
Qed.

Lemma kv_store_refines_map_witness :
  exists answers fs',
    @kv_run map_fs toy_aes {| cfg_seed := zrepl 17 3; cfg_key := zrepl 17 5 |} (∅ : gmap (list Z) (list Z))
      [KSet [97] [1; 2; 3]; KGet [97]; KSet [97] [9]; KGet [97]; KDel [97]; KGet [97]] = Some (answers, fs')
    /\ answers = [Code 0; Value [1; 2; 3]; Code 0; Value [9]; Code 0; Code (-2)].
Proof.
  destruct (@kv_store_refines_map map_fs toy_aes toy_aes_laws {| cfg_seed := zrepl 17 3; cfg_key := zrepl 17 5 |}
    (∅ : gmap (list Z) (list Z)) [KSet [97] [1; 2; 3]; KGet [97]; KSet [97] [9]; KGet [97]; KDel [97]; KGet [97]])
    as (answers & fs' & E & _);
    [by vm_compute|by vm_compute|done|repeat first [apply Forall_cons_2; [first [done | split; [repeat constructor; lia|done]]|] | apply Forall_nil_2]|].
  exists answers, fs'. split; [exact E|]. revert E. vm_compute. by intros [= <- _].
Defined.

(** ** Records *)

(** Serialising never overruns its buffer: for every list of entries whose
    memory is what their types promise, the size computed in advance is enough
    for every [sprintf] and the terminator, and the result is the JSON object of
    the values the entries hold, of at most that size. *)
Theorem kv_serialize_fits (cs : bool) (enc : list Z -> list Z) (malloc : Z -> bool) (db : list kv_db_t) :
  (forall l, zlen (enc l) = (zlen l + 2) / 3 * 4) -> (forall n, malloc n = true) ->
  Forall kv_ok db -> db_size db + 3 < 4294967296 ->
  exists vs, Forall2 (fun d v => kv_read cs d = Some v) db vs
    /\ kv_serialize cs enc malloc db = Some (OPRT_OK, Some (object_text enc db vs))
    /\ zlen (object_text enc db vs) + 1 <= db_size db + 3.
Proof.
  intros Henc Hm Hok Hs. assert (exists vs, Forall2 (readable cs) db vs) as [vs Hvs].
  { clear Hs. induction Hok as [|d db Hd Hdb [vs IH]]; [by exists []|].
    destruct (kv_read_ok cs d Hd) as [v Hv]. exists (v :: vs). constructor; [by split|done]. }
  exists vs. split_and!.
  - eapply Forall2_impl; [exact Hvs|]. by intros d v [].
  - by apply kv_serialize_ok.
  - pose proof (join_len enc cs db vs Henc Hvs). unfold object_text. rewrite !zlen_app, !zlen_one. lia.
Qed.

(** A record with an entry of each kind. *)
Definition demo : list kv_db_t :=
  [{| key := str "n"; tp := KV_CHAR; val := [251]; len := 1 |};
   {| key := str "up"; tp := KV_BOOL; val := [1; 0; 0; 0]; len := 4 |};
   {| key := str "s"; tp := KV_STRING; val := str "on" ++ [0; 7]; len := 4 |};
   {| key := str "raw"; tp := KV_RAW; val := [250; 0; 1; 2]; len := 4 |}].

(** Entries to read it into. *)
Definition blank (db : list kv_db_t) : list kv_db_t := (fun d => set_val d (zrepl (len d) 170)) <$> db.

Definition demo_values : list kv_value := [VInt (-5); VBool true; VStr (str "on"); VRaw [250; 0; 1; 2]].

(** Bounds and bytes of a closed entry. *)
Ltac closed := first [by vm_compute | repeat constructor; by vm_compute].

Lemma demo_ok : Forall kv_ok demo.
Proof.
  repeat apply Forall_cons_2; try apply Forall_nil_2; (split; [unfold kv_room; split_and!; closed|]); try done.
  intros _. by exists (str "on").
Qed.

Lemma demo_entries : Forall2 (entry_ok true) demo demo_values /\ Forall2 same_entry demo (blank demo).
Proof.
  pose proof demo_ok as Hok. unfold demo in *.
  repeat match goal with H : Forall kv_ok (_ :: _) |- _ => apply Forall_cons_1 in H as [? H] end.
  split; cbn [blank fmap list_fmap]; repeat first [apply Forall2_cons_2|apply Forall2_nil_2].
  1-4: split; [by split|closed].
  all: unfold same_entry, kv_room; split_and!; closed.
Qed.

Lemma kv_serialize_fits_witness :
  exists text, kv_serialize true rfc_encode (fun _ => true) demo = Some (OPRT_OK, Some text)
    /\ zlen text = 45 /\ c_string (text ++ [0]) = Some text.
Proof.
  destruct (kv_serialize_fits true rfc_encode (fun _ => true) demo) as (vs & _ & E & _);
    [by apply b64_len|done|exact demo_ok|by vm_compute|].
  exists (object_text rfc_encode demo vs). split; [exact E|].
  generalize dependent (object_text rfc_encode demo vs). intros text E. revert E. vm_compute. intros [= <-]. by split.
Defined.

(** (C11) A record written is a record read: for entries with sound memory whose
    text the JSON parser reads back member by member, [tal_kv_serialize_set]
    returns, and when it reports success and the file was closed, whose code it
    does not look at, [tal_kv_serialize_get] into entries of
    the same names, types and lengths succeeds and leaves in each the value the
    written entry had - through printing, base64, padding, encryption, the file
    system, decryption, the parser and the range checks. *)
Theorem kv_record_roundtrip `{LittleFs} `{AesLaws} {root : Type} (parse : list Z -> option root)
    (get : root -> list Z -> option cJSON) (enc dec : list Z -> list Z) `{Base64Laws enc dec}
    (cfg : tal_kv_cfg_t) (fs : lfs_t) (name : list Z) (db db2 : list kv_db_t) (vs : list kv_value) (r : root) :
  16 <= zlen (cfg_seed cfg) -> 16 <= zlen (cfg_key cfg) ->
  db <> [] -> Forall2 (entry_ok true) db vs -> Forall2 same_entry db db2 -> db_size db < 2147483500 ->
  parse (object_text enc db vs) = Some r ->
  Forall2 (fun d v => get r (key d) = Some (item_of enc v)) db vs ->
  exists rc closed fs1,
    serialize_set_closing (fun _ => true) true cfg enc true fs (Some name) (Some db) = Some (rc, closed, fs1)
    /\ tal_kv_serialize_set (fun _ => true) true cfg enc true fs (Some name) (Some db) = Some (rc, fs1)
    /\ (rc = OPRT_OK -> closed = LFS_ERR_OK -> exists fs2 db3,
         tal_kv_serialize_get (fun _ => true) true cfg parse get dec fs1 (Some name) (Some db2)
           = Some (OPRT_OK, fs2, Some db3)
         /\ Forall2 (fun d v => kv_read true d = Some v) db3 vs).
Proof.
  intros Hs Hk Hne Hdb Hdb2 Hsz Hp Hg.
  assert (Forall2 (readable true) db vs) as Hr by (eapply Forall2_impl; [exact Hdb|]; by intros d v []).
  set (text := object_text enc db vs) in *.
  destruct (chars_bytes text) as [Hb Hnz]; [by apply (object_chars true), Hdb; apply b64_chars|].
  assert (storable text) as Hst.
  { split; [done|]. pose proof (join_len enc true db vs b64_len Hr). unfold text, object_text.
    rewrite !zlen_app, !zlen_one. pose proof (zlen_nonneg (join (members enc db vs))). lia. }
  destruct (kv_set_ok (fun _ => true) ltac:(done) cfg Hs Hk fs name text [0] Hst) as (rc & closed & fs1 & E & Hok).
  assert (serialize_set_closing (fun _ => true) true cfg enc true fs (Some name) (Some db) = Some (rc, closed, fs1)) as Es.
  { unfold serialize_set_closing. destruct db as [|d0 db]; [done|].
    rewrite (kv_serialize_ok true enc b64_len (fun _ => true) (d0 :: db) vs) by (done || lia). exact E. }
  exists rc, closed, fs1. split_and!; [done|unfold tal_kv_serialize_set; by rewrite Es|].
  - intros -> ->. destruct (Hok eq_refl eq_refl) as (ec & Ec & Hstores).
    destruct (Hstores fs1 name) as (fs2 & rest & Eg & _); [by rewrite Ec, lookup_insert_eq|].
    destruct (get_loop_ok get enc dec b64_codec r db db2 vs Hr Hdb2 Hg) as (db3 & El & Hdb3).
    exists fs2, db3. split; [|done]. unfold tal_kv_serialize_get.
    destruct db2 as [|d2 db2]; [inversion Hdb2; congruence|]. rewrite Eg. cbn [mbind option_bind negb OPRT_OK Z.eqb].
    rewrite c_string_app by done. cbn [mbind option_bind]. unfold kv_deserialize. rewrite Hp, El. done.
Qed.

Lemma kv_record_roundtrip_witness :
  exists rc fs1,
    @tal_kv_serialize_set map_fs toy_aes (fun _ => true) true
      {| cfg_seed := zrepl 17 3; cfg_key := zrepl 17 5 |} rfc_encode true (∅ : gmap (list Z) (list Z)) (Some (str "f")) (Some demo)
      = Some (rc, fs1)
    /\ rc = OPRT_OK.
Proof.
  destruct (read_object (object_text rfc_encode demo demo_values)) as [r|] eqn:Er; [|by vm_compute in Er].
  destruct (@kv_record_roundtrip map_fs toy_aes toy_aes_laws _ read_object get_member rfc_encode rfc_decode rfc_laws
    {| cfg_seed := zrepl 17 3; cfg_key := zrepl 17 5 |} (∅ : gmap (list Z) (list Z)) (str "f") demo (blank demo)
    demo_values r) as (rc & closed & fs1 & _ & E & _);
    [by vm_compute|by vm_compute|done|apply demo_entries|apply demo_entries|by vm_compute|exact Er| |].
  - revert Er. vm_compute. intros [= <-]. repeat constructor.
  - exists rc, fs1. split; [exact E|]. revert E. vm_compute. by intros [= <- _].
Defined.

(** ** What goes wrong *)

(** A string is written without escapes: a quote in the value closes the
    string of the text early. *)
Lemma kv_string_not_escaped :
  kv_serialize true rfc_encode (fun _ => true)
    [{| key := str "k"; tp := KV_STRING; val := [97; 34; 98; 0]; len := 4 |}]
  = Some (OPRT_OK, Some ([123; 34; 107; 34; 58] ++ [34; 97; 34; 98; 34] ++ [32; 125]))
  /\ read_object ([123; 34; 107; 34; 58] ++ [34; 97; 34; 98; 34] ++ [32; 125])
     = Some [(str "k", {| type := cJSON_String; valueint := 0; valuestring := [97] |})].
Proof. by vm_compute. Qed.

(** Decoding a raw value has the length of the text, not of the memory, as its
    limit: a record with a longer value than the entry overruns it. *)
Lemma kv_raw_overruns d l `{Base64Laws enc dec} :
  tp d = KV_RAW -> bytes_ok l -> zlen (val d) < zlen l ->
  get_value dec d {| type := cJSON_String; valueint := 0; valuestring := enc l |} = None.
Proof.
  intros Ht Hb Hl. unfold get_value. rewrite Ht. cbn -[blit]. rewrite b64_codec by done.
  unfold blit. destruct (Z.leb_spec (0 + zlen l) (zlen (val d))); [lia|done].
Qed.

(** With an unsigned [char] a character above 127 is written as a number that the
    range check of the reader refuses. *)
Lemma kv_char_refused z :
  128 <= z < 256 ->
  let d := {| key := str "c"; tp := KV_CHAR; val := [z]; len := 1 |} in
  kv_read false d = Some (VInt z) /\ get_value rfc_decode d (item_of rfc_encode (VInt z)) = Some (inl OPRT_COM_ERROR).
Proof.
  intros Hz d. unfold kv_read, get_value, d. cbn -[load in_range]. split.
  - assert (load 1 false [z] = Some z) as E; [|by rewrite E].
    unfold load. change (slice [z] 0 1) with (Some [z]). cbn -[Z.mul Z.add]. f_equal. lia.
  - unfold in_range. destruct (Z.ltb_spec z (-128)); [lia|]. destruct (Z.ltb_spec 127 z); [done|lia].
Qed.

(** The file is truncated before the value is encrypted: a write that fails for
    want of memory destroys the value that was stored. *)
Lemma kv_failed_set_truncates (fs : gmap (list Z) (list Z)) (k v : list Z) cfg :
  16 <= zlen (cfg_seed cfg) -> 0 < zlen v < 2147483600 -> bytes_ok v ->
  @tal_kv_set map_fs toy_aes (fun _ => false) true cfg fs (Some k) (Some v) (zlen v)
  = Some (OPRT_MALLOC_FAILED, <[k := []]> fs).
Proof.
  intros Hs Hv Hb. unfold tal_kv_set, kv_set_closing. destruct (Z.eqb_spec (zlen v) 0); [lia|].
  cbn [lfs_file_open map_fs disk]. change (LFS_WRITE_FLAGS =? LFS_WRITE_FLAGS) with true.
  cbn [negb LFS_ERR_OK Z.eqb mbind option_bind]. rewrite slice_eq by lia. cbn [mbind option_bind].
  unfold tal_aes128_cbc_encode. norm_widths. destruct (Z.eqb_spec (zlen v) 0); [lia|]. done.
Qed.

(** A file that cannot be closed: the write is answered with success, and the store still
    has what it had before. *)
Lemma kv_unclosed_set_lost (fs : gmap (list Z) (list Z)) (k v : list Z) cfg :
  16 <= zlen (cfg_seed cfg) -> 16 <= zlen (cfg_key cfg) -> storable v ->
  @tal_kv_set (disk (fun _ => true)) toy_aes (fun _ => true) true cfg fs (Some k) (Some v) (zlen v) = Some (OPRT_OK, fs).
Proof.
  intros Hs Hk Hv. destruct (split_at (cfg_seed cfg) 16 ltac:(lia)) as (iv & sr & Es & Hiv). destruct (split_at (cfg_key cfg) 16 ltac:(lia)) as (key & kr & Ek & Hkey).
  pose proof Hv as [Hb Hl]. unfold tal_kv_set, kv_set_closing. destruct (Z.eqb_spec (zlen v) 0); [lia|].
  cbn [lfs_file_open disk]. change (LFS_WRITE_FLAGS =? LFS_WRITE_FLAGS) with true. cbn [negb LFS_ERR_OK Z.eqb mbind option_bind].
  rewrite Es, slice_prefix_n by done. cbn [mbind option_bind]. norm_widths. rewrite Ek.
  destruct (@cbc_codec_ok toy_aes toy_aes_laws (fun _ => true) ltac:(done) key kr iv v [] Hkey Hiv Hb Hl) as (ec & suf & iv' & Hec & E & _).
  rewrite app_nil_r in E. rewrite E. cbn [mbind option_bind negb OPRT_OK Z.eqb lfs_file_rewind disk]. rewrite slice_prefix.
  cbn [mbind option_bind lfs_file_write lfs_file_close disk fst snd]. by rewrite Z.eqb_refl.
Qed.
