(* ===== verification/BleCrypt.v ===== *)
(** The encryption of the BLE channel: [src/tuya_cloud_service/ble/ble_cryption.c], the keys
    of its modes, the two directions and the compressed device id. *)
From Stdlib Require Import ZArith Lia.
From stdpp Require Import base tactics option list numbers.
From S2P Require Import Prelude Tools Hash Endian Symmetry.

Local Open Scope Z_scope.

Definition ENCRYPTION_MODE_NONE : Z := 0.
Definition ENCRYPTION_MODE_KEY_11 : Z := 11.
Definition ENCRYPTION_MODE_KEY_12 : Z := 12.
Definition ENCRYPTION_MODE_KEY_14 : Z := 14.
Definition ENCRYPTION_MODE_SESSION_KEY15 : Z := 15.
Definition ENCRYPTION_MODE_KEY_16 : Z := 16.
Definition ENCRYPTION_MODE_MAX : Z := 17.
Definition KEY_IN_BUFFER_LEN_MAX : Z := 64.
Definition AUTH_KEY_LEN : Z := 32.
Definition LOGIN_KEY_LEN_16 : Z := 16.
Definition SECRET_KEY_LEN : Z := 16.
Definition PAIR_RANDOM_LEN : Z := 6.
Definition BLE_ID_LEN : Z := 16.

(** The memory behind the pointers; [user_rand] is never used. *)
Record ble_crypto_param_t := { auth_key : list Z; login_key : list Z; sec_key : list Z; uuid : list Z; pair_rand : list Z }.

(** The static variables [service_rand] and [key_out_key11], of 16 bytes. *)
Record crypt_globals := { service_rand : list Z; key_out_key11 : list Z }.
Definition crypt_init : crypt_globals := {| service_rand := zrepl 16 0; key_out_key11 := zrepl 16 0 |}.

Section Cryption.
Context `{MbedtlsAes} (md5 : Md) (malloc : Z -> bool) (ctx_size : Z) (aes_ok : bool).

(** [tal_md5_ret(input, len, out)] into an array. *)
Definition md5_into (input : list Z) (len : Z) (out : list Z) : option (list Z) :=
  '(_, d) ← tal_md5_ret md5 malloc ctx_size input len; blit out 0 d.

(** [memcpy(key_in_buffer + len, src, n); len += n]. *)
Definition key_add (st : list Z * Z) (src : list Z) (n : Z) : option (list Z * Z) :=
  d ← slice src 0 n; b ← blit st.1 st.2 d; Some (b, u16 (st.2 + n)).

(** The switch over the mode. *)
Definition key_input (g : crypt_globals) (p : ble_crypto_param_t) (mode : Z) (st : list Z * Z) : option (list Z * Z) :=
  if mode =? ENCRYPTION_MODE_KEY_11 then
    st ← key_add st (auth_key p) AUTH_KEY_LEN; st ← key_add st (uuid p) 16; key_add st (service_rand g) 16
  else if mode =? ENCRYPTION_MODE_KEY_12 then
    st ← key_add st (key_out_key11 g) 16; key_add st (pair_rand p) PAIR_RANDOM_LEN
  else if mode =? ENCRYPTION_MODE_KEY_14 then
    st ← key_add st (login_key p) LOGIN_KEY_LEN_16; key_add st (sec_key p) SECRET_KEY_LEN
  else if mode =? ENCRYPTION_MODE_SESSION_KEY15 then
    st ← key_add st (login_key p) LOGIN_KEY_LEN_16; st ← key_add st (sec_key p) SECRET_KEY_LEN; key_add st (pair_rand p) PAIR_RANDOM_LEN
  else if mode =? ENCRYPTION_MODE_KEY_16 then
    st ← key_add st (auth_key p) AUTH_KEY_LEN;
    uuid_key ← md5_into (uuid p) 16 (zrepl 16 0);
    st ← key_add st uuid_key 16; key_add st (service_rand g) 16
  else Some st.

Definition ble_key_generate (g : crypt_globals) (p : ble_crypto_param_t) (mode : Z) (key_out : list Z)
  : option (bool * crypt_globals * list Z) :=
  if ENCRYPTION_MODE_MAX <=? mode then Some (false, g, key_out)
  else if mode =? ENCRYPTION_MODE_NONE then Some (true, g, key_out)
  else
    st ← key_add (zrepl KEY_IN_BUFFER_LEN_MAX 0, 0) (auth_key p) AUTH_KEY_LEN;
    '(key_in_buffer, len) ← key_input g p mode (st.1, 0);
    if len =? 0 then Some (false, g, key_out)
    else
      key_out_hex ← md5_into key_in_buffer len (zrepl 16 0);
      key_out ← blit key_out 0 key_out_hex;
      Some (true, if mode =? ENCRYPTION_MODE_KEY_11 then {| service_rand := service_rand g; key_out_key11 := key_out_hex |} else g, key_out).

(** Nothing is added to a whole number of blocks. *)
Definition ble_add_pkcs (p : list Z) (len : Z) : option (list Z * Z) :=
  if len mod 16 =? 0 then Some (p, len)
  else let cz := 16 - len mod 16 in p ← blit p len (zrepl cz cz); Some (p, u16 (len + cz)).

Definition tuya_ble_register_key_generate (g : crypt_globals) (output auth_key : list Z) : option (bool * list Z) :=
  '(rt, output) ← tal_aes128_ecb_encode_raw aes_ok (service_rand g) 16 output auth_key; Some (rt =? OPRT_OK, output).

(** [mem] is the content of the fresh allocation. *)
Definition tuya_ble_adv_id_encrypt (mem : list Z) (key in_buf : list Z) (in_len : Z) (out_buf : list Z) : option (Z * list Z) :=
  let bufsize := 57 in
  if bufsize - 16 <? in_len * 2 + 1 then Some (OPRT_INVALID_PARM, out_buf)
  else if negb (malloc (bufsize * 2)) then Some (OPRT_MALLOC_FAILED, out_buf)
  else
    aes_key ← md5_into key 16 (zrepl 16 0);
    aes_buf ← hex2str mem in_buf in_len;
    '(aes_buf, pkcslen) ← ble_add_pkcs aes_buf (in_len * 2 + 1);
    if bufsize * 2 <? pkcslen then Some (OPRT_COM_ERROR, out_buf)
    else
      '(rt, out) ← tal_aes128_ecb_encode_raw aes_ok aes_buf pkcslen (drop (Z.to_nat bufsize) aes_buf) aes_key;
      out_buf ← (if rt =? OPRT_OK then d ← slice out 0 16; blit out_buf 0 d else Some out_buf);
      Some (rt, out_buf).

Definition tuya_ble_rsp_id_encrypt (key : list Z) (key_len : Z) (in_buf : list Z) (in_len : Z) (out_buf : list Z) : option (Z * list Z) :=
  aes_key ← md5_into key key_len (zrepl 16 0);
  '(rt, _, out_buf) ← tal_aes128_cbc_encode_raw aes_ok in_buf in_len aes_key aes_key out_buf;
  Some (rt, out_buf).

(** The code, [out_len] where it is set, the globals and the output buffer; the padding is
    written to the caller's input. *)
Definition tuya_ble_encryption (g : crypt_globals) (p : ble_crypto_param_t) (encryption_mode : Z) (iv in_buf : list Z) (in_len : Z)
    (out_buf : list Z) : option (Z * crypt_globals * option Z * list Z) :=
  if ENCRYPTION_MODE_MAX <=? encryption_mode then Some (2, g, None, out_buf)
  else if encryption_mode =? ENCRYPTION_MODE_NONE then
    d ← slice in_buf 0 in_len; out_buf ← blit out_buf 0 d; Some (0, g, Some in_len, out_buf)
  else
    '(in_buf, len) ← ble_add_pkcs in_buf (u16 in_len);
    '(ok, g, key) ← ble_key_generate g p encryption_mode (zrepl 16 0);
    if ok : bool then
      '(rt, _, out_buf) ← tal_aes128_cbc_encode_raw aes_ok in_buf len key iv out_buf;
      Some (if rt =? OPRT_OK then 0 else 3, g, Some len, out_buf)
    else Some (4, g, None, out_buf).

Definition tuya_ble_decryption (g : crypt_globals) (p : ble_crypto_param_t) (in_buf : list Z) (in_len : Z) (out_buf : list Z)
  : option (Z * crypt_globals * option Z * list Z) :=
  if in_len <? 17 then Some (1, g, None, out_buf)
  else
    mode ← rd in_buf 0;
    if ENCRYPTION_MODE_MAX <=? mode then Some (2, g, None, out_buf)
    else if mode =? ENCRYPTION_MODE_NONE then
      let len := u16 (in_len - 1) in
      d ← slice in_buf 1 len; out_buf ← blit out_buf 0 d; Some (0, g, Some len, out_buf)
    else
      let len := u16 (in_len - 17) in
      rand ← slice in_buf 1 16;
      let g := if (mode =? ENCRYPTION_MODE_KEY_11) || (mode =? ENCRYPTION_MODE_KEY_16)
               then {| service_rand := rand; key_out_key11 := key_out_key11 g |} else g in
      '(ok, g, key) ← ble_key_generate g p mode (zrepl 16 0);
      if ok : bool then
        '(rt, _, out_buf) ← tal_aes128_cbc_decode_raw aes_ok (drop 17 in_buf) len key rand out_buf;
        Some (if rt =? OPRT_OK then 0 else 3, g, Some len, out_buf)
      else Some (4, g, None, out_buf).
End Cryption.

(** * The compressed id *)

(** The six bits of a character; [old] is what the place held, which other characters leave. *)
Definition id_char (c old : Z) : Z :=
  if (0x30 <=? c) && (c <=? 0x39) then c - 0x30
  else if (0x41 <=? c) && (c <=? 0x5A) then c - 0x41 + 36
  else if (0x61 <=? c) && (c <=? 0x7A) then c - 0x61 + 10
  else old.

(** The three bytes of four places. *)
Definition id_pack (t0 t1 t2 t3 : Z) : list Z :=
  [Z.lor (u8 (Z.shiftl (Z.land t0 0x3F) 2)) (Z.land (Z.shiftr t1 4) 0x03);
   Z.lor (u8 (Z.shiftl (Z.land t1 0x0F) 4)) (Z.land (Z.shiftr t2 2) 0x0F);
   Z.lor (u8 (Z.shiftl (Z.land t2 0x03) 6)) (Z.land t3 0x3F)].

(** [temp] is not initialised. *)
Fixpoint id_loop (n : nat) (i : Z) (inp out temp : list Z) : option (list Z) :=
  match n with
  | O => Some out
  | S n =>
      c0 ← rd inp (i * 4); c1 ← rd inp (i * 4 + 1); c2 ← rd inp (i * 4 + 2); c3 ← rd inp (i * 4 + 3);
      t0 ← rd temp 0; t1 ← rd temp 1; t2 ← rd temp 2; t3 ← rd temp 3;
      let t0 := id_char c0 t0 in let t1 := id_char c1 t1 in let t2 := id_char c2 t2 in let t3 := id_char c3 t3 in
      out ← blit out (i * 3) (id_pack t0 t1 t2 t3);
      id_loop n (i + 1) inp out [t0; t1; t2; t3]
  end.

Definition tuya_ble_id_compress (temp inp out : list Z) : option (list Z) :=
  out ← id_loop 5 0 inp out temp; wr out 15 0xFF.

(** * The keys *)

(** The pointers reach as far as they are read. *)
Record params_ok (p : ble_crypto_param_t) : Prop := {
  pk_auth : 32 <= zlen (auth_key p); pk_login : 16 <= zlen (login_key p); pk_sec : 16 <= zlen (sec_key p);
  pk_uuid : 16 <= zlen (uuid p); pk_rand : 6 <= zlen (pair_rand p) }.
Record globals_ok (g : crypt_globals) : Prop := { gk_rand : zlen (service_rand g) = 16; gk_key11 : zlen (key_out_key11 g) = 16 }.

(** The first [n] bytes. *)
Definition first (n : nat) (l : list Z) : list Z := take n l.

(** What is digested, and the modes that have a key. *)
Definition key_text (D : list Z -> list Z) (g : crypt_globals) (p : ble_crypto_param_t) (mode : Z) : list Z :=
  if mode =? ENCRYPTION_MODE_KEY_11 then first 32 (auth_key p) ++ first 16 (uuid p) ++ service_rand g
  else if mode =? ENCRYPTION_MODE_KEY_12 then key_out_key11 g ++ first 6 (pair_rand p)
  else if mode =? ENCRYPTION_MODE_KEY_14 then first 16 (login_key p) ++ first 16 (sec_key p)
  else if mode =? ENCRYPTION_MODE_SESSION_KEY15 then first 16 (login_key p) ++ first 16 (sec_key p) ++ first 6 (pair_rand p)
  else if mode =? ENCRYPTION_MODE_KEY_16 then first 32 (auth_key p) ++ D (first 16 (uuid p)) ++ service_rand g
  else [].
Definition keyed (mode : Z) : Prop := mode = 11 \/ mode = 12 \/ mode = 14 \/ mode = 15 \/ mode = 16.

(** The globals after a key was made. *)
Definition after_key (g : crypt_globals) (mode : Z) (key : list Z) : crypt_globals :=
  if mode =? ENCRYPTION_MODE_KEY_11 then {| service_rand := service_rand g; key_out_key11 := key |} else g.
(** The vector of a received packet is the random number of two keys. *)
Definition with_rand (g : crypt_globals) (mode : Z) (iv : list Z) : crypt_globals :=
  if (mode =? ENCRYPTION_MODE_KEY_11) || (mode =? ENCRYPTION_MODE_KEY_16)
  then {| service_rand := iv; key_out_key11 := key_out_key11 g |} else g.

Lemma key_add_ok pre suf src n : 0 <= n < 65536 - zlen pre -> n <= zlen src -> n <= zlen suf ->
  exists suf', key_add (pre ++ suf, zlen pre) src n = Some ((pre ++ first (Z.to_nat n) src) ++ suf', zlen (pre ++ first (Z.to_nat n) src))
    /\ zlen suf' = zlen suf - n.
Proof.
  intros Hn Hs Hsuf. unfold key_add, first. cbn [fst snd].
  assert (zlen (take (Z.to_nat n) src) = n) as Hl by (apply zlen_take; lia).
  rewrite slice_eq by lia. change (drop (Z.to_nat 0) src) with src. cbn [mbind option_bind].
  destruct (blit_step pre suf (take (Z.to_nat n) src) (zlen pre) eq_refl ltac:(lia)) as (suf' & E & Hl').
  rewrite E. cbn [mbind option_bind]. exists suf'. rewrite zlen_app, Hl. split; [|lia].
  rewrite u16_small by (unfold is_u16; pose proof (zlen_nonneg pre); lia). done.
Qed.

Lemma blit_exact (old d : list Z) : zlen old = zlen d -> blit old 0 d = Some d.
Proof. intros Hl. rewrite <- (app_nil_r old) at 1. rewrite <- (app_nil_r d) at 2. by apply blit_prefix. Qed.

Section Keys.
Context `{AesLaws} (md5 : Md) (D : list Z -> list Z) (absorbed : md_ctx md5 -> list Z -> Prop) (malloc : Z -> bool) (ctx_size : Z).
Context (L : MdLaws md5 MD5_SIZE D absorbed) (Hm : malloc ctx_size = true).

Lemma md5_into_ok d d' old osuf : zlen old = 16 -> md5_into md5 malloc ctx_size (d ++ d') (zlen d) (old ++ osuf) = Some (D d ++ osuf).
Proof.
  intros Ho. unfold md5_into, tal_md5_ret. rewrite (tal_ret_ok md5 MD5_SIZE ctx_size malloc D absorbed L Hm). cbn [mbind option_bind].
  apply blit_prefix. rewrite (size_law _ _ _ _ L). exact Ho.
Qed.
Lemma md5_exact d d' : md5_into md5 malloc ctx_size (d ++ d') (zlen d) (zrepl 16 0) = Some (D d).
Proof. rewrite <- (app_nil_r (zrepl 16 0)), <- (app_nil_r (D d)). by apply md5_into_ok. Qed.
Lemma zlen_H d : zlen (D d) = 16.
Proof. exact (size_law _ _ _ _ L d). Qed.

Ltac key_step :=
  match goal with
  | |- context [key_add (?pre ++ ?suf, zlen ?pre) ?src ?n] =>
      let s := fresh "s" in let E := fresh "E" in let L := fresh "L" in
      destruct (key_add_ok pre suf src n) as (s & E & L); [rewrite ?zlen_app; change (zlen (@nil Z)) with 0; lia..|];
      rewrite E; cbn [mbind option_bind]; clear E;
      change (Z.to_nat 32) with 32%nat in *; change (Z.to_nat 16) with 16%nat in *; change (Z.to_nat 6) with 6%nat in *
  end.

Ltac key_done E1 E2 E3 := eexists; split; [rewrite ?E1, ?E2, ?E3; cbn [app]; rewrite <- ?app_assoc; reflexivity|rewrite !zlen_app; lia].

(** The bytes that are digested; the buffer begins with the authorisation key, which is
    overwritten. *)
Lemma key_input_ok g p mode buf : keyed mode -> params_ok p -> globals_ok g -> zlen buf = 64 ->
  exists suf, key_input md5 malloc ctx_size g p mode (buf, 0) = Some (key_text D g p mode ++ suf, zlen (key_text D g p mode))
    /\ 0 < zlen (key_text D g p mode).
Proof.
  intros Hk [P1 P2 P3 P4 P5] [G1 G2] Hb.
  assert (forall n (l : list Z), n <= zlen l -> 0 <= n -> zlen (first (Z.to_nat n) l) = n) as Hf by (intros; apply zlen_take; lia).
  assert (first 16 (service_rand g) = service_rand g /\ first 16 (key_out_key11 g) = key_out_key11 g) as [S1 S2].
  { unfold first. rewrite !take_ge by (unfold zlen in *; lia). done. }
  assert (first 16 (D (first 16 (uuid p))) = D (first 16 (uuid p))) as S3.
  { unfold first. rewrite take_ge; [done|]. pose proof (zlen_H (take 16 (uuid p))). unfold zlen in *; lia. }
  pose proof (Hf 32 (auth_key p) P1 ltac:(lia)). pose proof (Hf 16 (login_key p) P2 ltac:(lia)). pose proof (Hf 16 (sec_key p) P3 ltac:(lia)).
  pose proof (Hf 16 (uuid p) P4 ltac:(lia)). pose proof (Hf 6 (pair_rand p) P5 ltac:(lia)). pose proof (f_equal zlen S1). pose proof (f_equal zlen S2). pose proof (f_equal zlen S3). pose proof (zlen_H (first 16 (uuid p))).
  change (Z.to_nat 32) with 32%nat in *. change (Z.to_nat 16) with 16%nat in *. change (Z.to_nat 6) with 6%nat in *.
  destruct Hk as [-> | [-> | [-> | [-> | ->]]]]; unfold key_input, key_text; cbn [Z.eqb Pos.eqb ENCRYPTION_MODE_KEY_11 ENCRYPTION_MODE_KEY_12
    ENCRYPTION_MODE_KEY_14 ENCRYPTION_MODE_SESSION_KEY15 ENCRYPTION_MODE_KEY_16];
    unfold AUTH_KEY_LEN, LOGIN_KEY_LEN_16, SECRET_KEY_LEN, PAIR_RANDOM_LEN.
  all: change (buf, 0) with ([] ++ buf, zlen (@nil Z)).
  - do 3 key_step. key_done S1 S2 S3.
  - do 2 key_step. key_done S1 S2 S3.
  - do 2 key_step. key_done S1 S2 S3.
  - do 3 key_step. key_done S1 S2 S3.
  - assert (md5_into md5 malloc ctx_size (uuid p) 16 (zrepl 16 0) = Some (D (first 16 (uuid p)))) as Eu.
    { rewrite <- (md5_exact (first 16 (uuid p)) (drop 16 (uuid p))). unfold first in *. rewrite take_drop. by f_equal. }
    key_step. rewrite Eu. cbn [mbind option_bind]. do 2 key_step. key_done S1 S2 S3.
Qed.

(** A mode with a key makes the digest of its text. *)
Lemma key_generate_ok g p mode : keyed mode -> params_ok p -> globals_ok g ->
  ble_key_generate md5 malloc ctx_size g p mode (zrepl 16 0)
  = Some (true, after_key g mode (D (key_text D g p mode)), D (key_text D g p mode)).
Proof.
  intros Hk Hp Hg. unfold ble_key_generate.
  destruct (key_add_ok [] (zrepl 64 0) (auth_key p) 32) as (s & E & Ls); [done|by destruct Hp|done|].
  cbn [app] in E. change (zlen []) with 0 in E. change (Z.to_nat 32) with 32%nat in E.
  assert (zlen (first 32 (auth_key p)) = 32) as Ha by (apply (zlen_take 32); destruct Hp; lia).
  destruct (key_input_ok g p mode (first 32 (auth_key p) ++ s) Hk Hp Hg) as (suf & E2 & Hl).
  { rewrite zlen_app, Ha, Ls. change (zlen (zrepl 64 (0:Z))) with 64. lia. }
  replace (ENCRYPTION_MODE_MAX <=? mode) with false by (unfold keyed, ENCRYPTION_MODE_MAX in *; lia).
  replace (mode =? ENCRYPTION_MODE_NONE) with false by (unfold keyed, ENCRYPTION_MODE_NONE in *; lia).
  unfold KEY_IN_BUFFER_LEN_MAX, AUTH_KEY_LEN. rewrite E. cbn [mbind option_bind fst snd]. rewrite E2. cbn [mbind option_bind].
  replace (zlen (key_text D g p mode) =? 0) with false by lia. rewrite md5_exact. cbn [mbind option_bind].
  rewrite (blit_exact (zrepl 16 0)) by (rewrite zlen_H; done). cbn [mbind option_bind]. unfold after_key. by case_match.
Qed.

(** ** The two directions *)

(** The padding of a whole number of blocks is empty. *)
Definition pad (n : Z) : list Z := if n mod 16 =? 0 then [] else zrepl (16 - n mod 16) (16 - n mod 16).
Lemma zlen_pad n : 0 <= zlen (pad n) < 16 /\ (n + zlen (pad n)) mod 16 = 0.
Proof.
  unfold pad. pose proof (Z.mod_pos_bound n 16 ltac:(lia)). destruct (Z.eqb_spec (n mod 16) 0) as [E|E].
  - change (zlen []) with 0. rewrite Z.add_0_r. lia.
  - rewrite zlen_zrepl by lia. split; [lia|]. rewrite (Z.div_mod n 16) at 1 by lia.
    replace (16 * (n / 16) + n mod 16 + (16 - n mod 16)) with ((n / 16 + 1) * 16) by lia. by apply Z.mod_mul.
Qed.
Lemma pad_ok n : bytes_ok (pad n).
Proof.
  unfold pad. pose proof (Z.mod_pos_bound n 16 ltac:(lia)). case_match; [constructor|].
  unfold zrepl. apply Forall_replicate. unfold is_u8. lia.
Qed.
Lemma ble_add_pkcs_ok data suf : zlen data < 65520 -> 15 <= zlen suf ->
  exists suf', ble_add_pkcs (data ++ suf) (zlen data) = Some ((data ++ pad (zlen data)) ++ suf', zlen (data ++ pad (zlen data)))
    /\ zlen suf' = zlen suf - zlen (pad (zlen data)).
Proof.
  intros Hd Hs. unfold ble_add_pkcs. pose proof (zlen_nonneg data). pose proof (zlen_pad (zlen data)) as [Hp _]. rewrite zlen_app. unfold pad in *.
  pose proof (Z.mod_pos_bound (zlen data) 16 ltac:(lia)). destruct (Z.eqb_spec (zlen data mod 16) 0).
  - exists suf. rewrite app_nil_r. change (zlen []) with 0. rewrite Z.add_0_r. split; [done|lia].
  - destruct (blit_step data suf (zrepl (16 - zlen data mod 16) (16 - zlen data mod 16)) (zlen data) eq_refl) as (suf' & E & El);
      [rewrite zlen_zrepl; lia|]. rewrite E. cbn [mbind option_bind]. exists suf'. rewrite zlen_zrepl in * by lia.
    rewrite u16_small by (unfold is_u16; lia). split; [done|lia].
Qed.

(** What one side encrypts the other decrypts, when both digest the same bytes; what lies
    around the data in the buffers stays. *)
Lemma crypt_ok g p g' p' mode iv data suf :
  keyed mode -> params_ok p -> params_ok p' -> globals_ok g -> globals_ok g' -> zlen iv = 16 ->
  bytes_ok data -> zlen data < 65520 -> 15 <= zlen suf ->
  key_text D (with_rand g' mode iv) p' mode = key_text D g p mode ->
  let plen := zlen data + zlen (pad (zlen data)) in
  let key := D (key_text D g p mode) in
  exists ct, zlen ct = plen
    /\ (forall old osuf, zlen old = plen ->
         tuya_ble_encryption md5 malloc ctx_size true g p mode iv (data ++ suf) (zlen data) (old ++ osuf)
         = Some (0, after_key g mode key, Some plen, ct ++ osuf))
    /\ forall rest old osuf, zlen old = plen ->
         tuya_ble_decryption md5 malloc ctx_size true g' p' (mode :: iv ++ ct ++ rest) (17 + plen) (old ++ osuf)
         = Some (0, after_key (with_rand g' mode iv) mode key, Some plen, (data ++ pad (zlen data)) ++ osuf).
Proof.
  intros Hk Hp Hp' Hg Hg' Hiv Hd Hl Hs Ht plen key. pose proof (zlen_pad (zlen data)) as [Hpad Hmod]. pose proof (zlen_nonneg data).
  destruct (ble_add_pkcs_ok data suf Hl Hs) as (suf' & Ea & _).
  destruct (cbc_raw_into key [] 128 iv (data ++ pad (zlen data)) suf') as (ct & iv' & Hct & E & De).
  { left. apply zlen_H. } { change (16 * 8) with 128. unfold key. by rewrite zlen_H. } { done. } { by rewrite zlen_app. }
  { apply Forall_app. split; [done|apply pad_ok]. }
  rewrite zlen_app in Hct. exists ct. split; [done|]. rewrite app_nil_r in E, De. rewrite zlen_app in Ea, E, De. fold plen in Ea, E, De, Hct.
  assert (mode < ENCRYPTION_MODE_MAX /\ mode <> ENCRYPTION_MODE_NONE) as [M1 M2] by (unfold keyed, ENCRYPTION_MODE_MAX, ENCRYPTION_MODE_NONE in *; lia).
  split.
  - intros old osuf Ho. unfold tuya_ble_encryption. replace (ENCRYPTION_MODE_MAX <=? mode) with false by lia.
    replace (mode =? ENCRYPTION_MODE_NONE) with false by lia. rewrite u16_small by (unfold is_u16; lia). rewrite Ea. cbn [mbind option_bind].
    rewrite key_generate_ok by done. cbn [mbind option_bind]. unfold tal_aes128_cbc_encode_raw. fold key. rewrite E by done. done.
  - intros rest old osuf Ho. unfold tuya_ble_decryption. replace (17 + plen <? 17) with false by lia. change (rd (mode :: iv ++ ct ++ rest) 0) with (Some mode).
    cbn [mbind option_bind]. replace (ENCRYPTION_MODE_MAX <=? mode) with false by lia. replace (mode =? ENCRYPTION_MODE_NONE) with false by lia.
    replace (17 + plen - 17) with plen by lia. rewrite u16_small by (unfold is_u16, plen; lia).
    change (mode :: iv ++ ct ++ rest) with ([mode] ++ iv ++ ct ++ rest). rewrite (slice_mid_n [mode] iv _ 1 16) by done. cbn [mbind option_bind].
    change (if (mode =? ENCRYPTION_MODE_KEY_11) || (mode =? ENCRYPTION_MODE_KEY_16) then {| service_rand := iv; key_out_key11 := key_out_key11 g' |} else g')
      with (with_rand g' mode iv).
    rewrite key_generate_ok; [|done|done|by destruct Hg'; unfold with_rand; case_match; split]. rewrite Ht. fold key. cbn [mbind option_bind].
    change (drop 17 ([mode] ++ iv ++ ct ++ rest)) with (drop 16 (iv ++ ct ++ rest)).
    rewrite (drop_app_length' iv) by (unfold zlen in Hiv; lia). unfold tal_aes128_cbc_decode_raw.
    destruct (De rest old osuf) as (iv2 & ->); [done|]. done.
Qed.

(** ** The ids of the advertisement *)

Lemma hex_text_ok l : bytes_ok l -> bytes_ok (hex_text l).
Proof.
  assert (forall d, 0 <= d < 16 -> is_u8 (hex_digit d)) as Hd.
  { intros d Hd. unfold hex_digit, is_u8. destruct (Z.ltb_spec 57 (48 + d)); lia. }
  unfold hex_text. induction 1 as [|x l Hx _ IH]; [constructor|]. cbn [mbind list_bind]. unfold is_u8 in Hx.
  repeat apply Forall_cons; [apply Hd; Z.div_mod_to_equations; lia..|exact IH].
Qed.
Lemma adv_id_ok mem key krest id irest old osuf : zlen mem = 114 -> zlen key = 16 -> zlen id = 16 -> bytes_ok id -> zlen old = 16 ->
  malloc 114 = true ->
  exists out, zlen out = 16 /\ tuya_ble_adv_id_encrypt md5 malloc ctx_size true mem (key ++ krest) (id ++ irest) 16 (old ++ osuf) = Some (OPRT_OK, out ++ osuf).
Proof.
  intros Hmem Hk Hi Hid Ho Hm114. unfold tuya_ble_adv_id_encrypt. change (57 - 16 <? 16 * 2 + 1) with false. change (57 * 2) with 114. rewrite Hm114.
  cbn [negb]. pose proof (md5_exact key krest) as Em. rewrite Hk in Em. rewrite Em. cbn [mbind option_bind].
  destruct (hex2str_text id irest mem ltac:(lia)) as (s1 & E1 & L1). rewrite Hi in E1. rewrite E1. cbn [mbind option_bind].
  assert (zlen (hex_text id ++ [0]) = 33) as Hz by (rewrite zlen_app, zlen_hex_text, Hi; done).
  destruct (ble_add_pkcs_ok (hex_text id ++ [0]) s1) as (s2 & E2 & L2); [lia..|]. rewrite <- app_assoc, Hz in E2. cbn [app] in E2.
  change (16 * 2 + 1) with 33. rewrite E2. cbn [mbind option_bind].
  set (t := (hex_text id ++ [0]) ++ pad 33) in *. assert (zlen t = 48) as Ht by (unfold t; rewrite zlen_app, Hz; done).
  replace (hex_text id ++ 0 :: pad 33) with t in * by (unfold t; by rewrite <- app_assoc). rewrite Hz in L2. change (zlen (pad 33)) with 15 in L2.
  rewrite ?Ht. change (114 <? 48) with false.
  destruct (split_at (drop (Z.to_nat 57) (t ++ s2)) 48) as (o1 & o2 & -> & Lo); [rewrite zlen_drop; rewrite ?zlen_app; lia|].
  assert (bytes_ok t) as Hb. { unfold t. apply Forall_app_2; [apply Forall_app_2; [by apply hex_text_ok|by repeat constructor]|apply pad_ok]. }
  destruct (ecb_raw_into (D key) [] 128 t s2) as (out & Lout & E & _); [left; apply zlen_H|by rewrite zlen_H|by rewrite Ht|done|].
  rewrite app_nil_r, Ht in E. unfold tal_aes128_ecb_encode_raw. rewrite E by done. cbn [mbind option_bind]. change (OPRT_OK =? OPRT_OK) with true. cbv iota.
  destruct (split_at out 16) as (x & y & -> & Lx); [lia|]. rewrite <- app_assoc, slice_prefix_n by done. cbn [mbind option_bind].
  exists x. split; [done|]. rewrite blit_prefix by lia. done.
Qed.
Lemma rsp_id_ok key krest klen id irest old osuf : zlen key = klen -> zlen id = 16 -> bytes_ok id -> zlen old = 16 ->
  exists out, zlen out = 16 /\ tuya_ble_rsp_id_encrypt md5 malloc ctx_size true (key ++ krest) klen (id ++ irest) 16 (old ++ osuf) = Some (OPRT_OK, out ++ osuf).
Proof.
  intros <- Hi Hid Ho. unfold tuya_ble_rsp_id_encrypt. rewrite md5_exact. cbn [mbind option_bind].
  destruct (cbc_raw_into (D key) [] 128 (D key) id irest) as (out & iv' & Lo & E & _); [left; apply zlen_H|by rewrite zlen_H|apply zlen_H|by rewrite Hi|done|].
  rewrite app_nil_r, Hi in E. unfold tal_aes128_cbc_encode_raw. rewrite E by done. exists out. split; [lia|done].
Qed.

(** A packet that says it is not encrypted is taken as it is. *)
Lemma plain_ok g p data rest old osuf : 16 <= zlen data < 65535 -> zlen old = zlen data ->
  tuya_ble_decryption md5 malloc ctx_size true g p (ENCRYPTION_MODE_NONE :: data ++ rest) (1 + zlen data) (old ++ osuf)
  = Some (0, g, Some (zlen data), data ++ osuf).
Proof.
  intros Hd Ho. unfold tuya_ble_decryption. replace (1 + zlen data <? 17) with false by lia.
  change (rd (ENCRYPTION_MODE_NONE :: data ++ rest) 0) with (Some ENCRYPTION_MODE_NONE). cbn [mbind option_bind].
  change (ENCRYPTION_MODE_MAX <=? ENCRYPTION_MODE_NONE) with false. change (ENCRYPTION_MODE_NONE =? ENCRYPTION_MODE_NONE) with true. cbv iota zeta.
  replace (1 + zlen data - 1) with (zlen data) by lia. rewrite u16_small by (unfold is_u16; lia).
  change (ENCRYPTION_MODE_NONE :: data ++ rest) with ([ENCRYPTION_MODE_NONE] ++ data ++ rest).
  rewrite (slice_mid_n [ENCRYPTION_MODE_NONE] data) by done. cbn [mbind option_bind]. by rewrite blit_prefix.
Qed.
End Keys.

(** * The compressed id and back *)

Definition alnum (c : Z) : Prop := 0x30 <= c <= 0x39 \/ 0x41 <= c <= 0x5A \/ 0x61 <= c <= 0x7A.
(** The character of a six-bit value. *)
Definition id_letter (v : Z) : Z := if v <? 10 then v + 0x30 else if v <? 36 then v - 10 + 0x61 else v - 36 + 0x41.
(** The characters of the packed bytes, four for three. *)
Fixpoint id_text (l : list Z) : list Z :=
  match l with
  | b0 :: b1 :: b2 :: l =>
      id_letter (b0 / 4) :: id_letter (b0 mod 4 * 16 + b1 / 16) :: id_letter (b1 mod 16 * 4 + b2 / 64) :: id_letter (b2 mod 64) :: id_text l
  | _ => []
  end.

Lemma id_char_letter c old : alnum c -> 0 <= id_char c old < 64 /\ id_letter (id_char c old) = c.
Proof. unfold alnum, id_char, id_letter. intros Hc. repeat case_match; lia. Qed.

Lemma id_pack_ok t0 t1 t2 t3 : 0 <= t0 < 64 -> 0 <= t1 < 64 -> 0 <= t2 < 64 -> 0 <= t3 < 64 ->
  id_pack t0 t1 t2 t3 = [t0 * 4 + t1 / 16; t1 mod 16 * 16 + t2 / 4; t2 mod 4 * 64 + t3].
Proof.
  intros H0 H1 H2 H3. unfold id_pack.
  assert (forall x k, 0 <= k -> Z.land x (Z.ones k) = x mod 2 ^ k) as Hland by (intros; by apply Z.land_ones).
  change 0x3F with (Z.ones 6). change 0x03 with (Z.ones 2). change 0x0F with (Z.ones 4). rewrite !Hland by lia. rewrite !Z.shiftr_div_pow2 by lia.
  change (2 ^ 6) with 64. change (2 ^ 4) with 16. change (2 ^ 2) with 4.
  rewrite (Z.mod_small t0), (Z.mod_small t3) by lia.
  assert (forall x k, 0 <= x -> x * 2 ^ k < 256 -> 0 <= k -> u8 (Z.shiftl x k) = Z.shiftl x k) as Hu.
  { intros x k Hx Hxk Hk. rewrite Z.shiftl_mul_pow2 by lia. apply u8_small. unfold is_u8. pose proof (Z.pow_pos_nonneg 2 k). nia. }
  pose proof (Z.mod_pos_bound t1 16). pose proof (Z.mod_pos_bound t2 4).
  rewrite !Hu by lia. rewrite (Z.mod_small (t1 / 16)), (Z.mod_small (t2 / 4)) by (Z.div_mod_to_equations; lia).
  rewrite !lor_shift by (Z.div_mod_to_equations; lia). done.
Qed.
Lemma id_unpack_ok t0 t1 t2 t3 l : 0 <= t0 < 64 -> 0 <= t1 < 64 -> 0 <= t2 < 64 -> 0 <= t3 < 64 ->
  id_text (id_pack t0 t1 t2 t3 ++ l) = id_letter t0 :: id_letter t1 :: id_letter t2 :: id_letter t3 :: id_text l.
Proof. intros H0 H1 H2 H3. rewrite id_pack_ok by done. cbn [app id_text]. repeat f_equal; Z.div_mod_to_equations; lia. Qed.

Lemma rd_off {A} (pre l : list A) i : 0 <= i -> rd (pre ++ l) (zlen pre + i) = rd l i.
Proof.
  intros Hi. unfold rd, zlen. destruct (Z.leb_spec 0 i), (Z.leb_spec 0 (Z.of_nat (length pre) + i)); try lia.
  rewrite lookup_app_r by lia. f_equal. lia.
Qed.
Lemma rd_four pre (c0 c1 c2 c3 : Z) l :
  rd (pre ++ c0 :: c1 :: c2 :: c3 :: l) (zlen pre) = Some c0 /\ rd (pre ++ c0 :: c1 :: c2 :: c3 :: l) (zlen pre + 1) = Some c1
  /\ rd (pre ++ c0 :: c1 :: c2 :: c3 :: l) (zlen pre + 2) = Some c2 /\ rd (pre ++ c0 :: c1 :: c2 :: c3 :: l) (zlen pre + 3) = Some c3.
Proof. split_and!; [apply rd_mid|by rewrite rd_off by lia..]. Qed.
Lemma id_loop_ok n : forall pre text suf opre osuf temp, length text = (4 * n)%nat -> Forall alnum text -> zlen temp = 4 ->
  zlen pre mod 4 = 0 -> zlen opre = zlen pre / 4 * 3 -> 3 * Z.of_nat n <= zlen osuf ->
  exists packed osuf', id_loop n (zlen pre / 4) (pre ++ text ++ suf) (opre ++ osuf) temp = Some (opre ++ packed ++ osuf')
    /\ length packed = (3 * n)%nat /\ zlen osuf' = zlen osuf - 3 * Z.of_nat n /\ id_text packed = text.
Proof.
  induction n as [|n IH]; intros pre text suf opre osuf temp Hlen Ht Htemp Hpre Ho Hos.
  { destruct text; [|cbn in Hlen; lia]. exists [], osuf. split_and!; try done. lia. }
  destruct text as [|c0 [|c1 [|c2 [|c3 text]]]]; try (cbn in Hlen; lia). destruct temp as [|x0 [|x1 [|x2 [|x3 [|]]]]]; try (unfold zlen in Htemp; cbn in Htemp; lia).
  rewrite !list.Forall_cons in Ht. destruct Ht as (A0 & A1 & A2 & A3 & Ht).
  pose proof (id_char_letter c0 x0 A0) as [B0 D0]. pose proof (id_char_letter c1 x1 A1) as [B1 D1].
  pose proof (id_char_letter c2 x2 A2) as [B2 D2]. pose proof (id_char_letter c3 x3 A3) as [B3 D3].
  destruct (rd_four pre c0 c1 c2 c3 (text ++ suf)) as (R0 & R1 & R2 & R3).
  cbn [id_loop]. replace (zlen pre / 4 * 4) with (zlen pre) by (Z.div_mod_to_equations; lia). cbn [app]. rewrite R0, R1, R2, R3.
  assert (rd [x0; x1; x2; x3] 0 = Some x0 /\ rd [x0; x1; x2; x3] 1 = Some x1 /\ rd [x0; x1; x2; x3] 2 = Some x2 /\ rd [x0; x1; x2; x3] 3 = Some x3)
    as (T0 & T1 & T2 & T3) by done.
  rewrite T0, T1, T2, T3. cbn [mbind option_bind]. rewrite <- Ho.
  set (p4 := id_pack _ _ _ _). assert (zlen p4 = 3) as Hp4 by done.
  destruct (blit_step opre osuf p4 (zlen opre) eq_refl ltac:(lia)) as (os & E & Los). rewrite E. cbn [mbind option_bind].
  replace (zlen pre / 4 + 1) with (zlen (pre ++ [c0; c1; c2; c3]) / 4) by (rewrite zlen_app; change (zlen [c0; c1; c2; c3]) with 4; Z.div_mod_to_equations; lia).
  destruct (IH (pre ++ [c0; c1; c2; c3]) text suf (opre ++ p4) os [id_char c0 x0; id_char c1 x1; id_char c2 x2; id_char c3 x3])
    as (packed & os2 & E2 & L1 & L2 & Htx); try done; rewrite ?zlen_app; change (zlen [c0; c1; c2; c3]) with 4; try (Z.div_mod_to_equations; lia).
  { cbn in Hlen. lia. }
  rewrite <- (app_assoc pre), zlen_app in E2. cbn [app] in E2. change (zlen [c0; c1; c2; c3]) with 4 in E2. rewrite E2. exists (p4 ++ packed), os2. split_and!.
  - by rewrite <- app_assoc.
  - rewrite length_app, L1. cbn. lia.
  - lia.
  - unfold p4. rewrite id_unpack_ok by done. by rewrite D0, D1, D2, D3, Htx.
Qed.

(** The compressed id of twenty letters and digits determines them: read back four for
    three, the first fifteen bytes give the id, and the last byte is the mark. *)
Theorem ble_id_roundtrip temp id rest out : zlen id = 20 -> Forall alnum id -> zlen temp = 4 -> 16 <= zlen out ->
  exists packed r, tuya_ble_id_compress temp (id ++ rest) out = Some (packed ++ 0xFF :: r)
    /\ zlen packed = 15 /\ zlen r = zlen out - 16 /\ id_text packed = id.
Proof.
  intros Hl Hid Ht Ho. destruct (id_loop_ok 5 [] id rest [] out temp) as (packed & os & E & L1 & L2 & Htx); try done.
  { unfold zlen in Hl. lia. } { cbn. lia. }
  cbn [app] in E. change (zlen [] / 4) with 0 in E. unfold tuya_ble_id_compress. rewrite E. cbn [mbind option_bind].
  assert (zlen packed = 15) as Hp by (unfold zlen; lia). destruct os as [|x os]; [change (zlen (@nil Z)) with 0 in L2; lia|].
  replace (wr (packed ++ x :: os) 15 0xFF) with (Some (packed ++ 0xFF :: os)) by (rewrite <- Hp; by rewrite wr_mid). exists packed, os. rewrite zlen_cons in L2. split_and!; try done. lia.
Qed.

Lemma ble_id_roundtrip_witness :
  exists packed r, tuya_ble_id_compress [0; 0; 0; 0] ([48; 57; 97; 122; 65; 90; 49; 98; 67; 50; 100; 69; 51; 102; 71; 52; 104; 73; 53; 106] ++ [0]) (zrepl 17 0)
    = Some (packed ++ 0xFF :: r) /\ id_text packed = [48; 57; 97; 122; 65; 90; 49; 98; 67; 50; 100; 69; 51; 102; 71; 52; 104; 73; 53; 106].
Proof.
  destruct (ble_id_roundtrip [0; 0; 0; 0] [48; 57; 97; 122; 65; 90; 49; 98; 67; 50; 100; 69; 51; 102; 71; 52; 104; 73; 53; 106] [0] (zrepl 17 0))
    as (packed & r & E & _ & _ & Ht); [done| |done|done|exact (ex_intro _ packed (ex_intro _ r (conj E Ht)))].
  repeat (apply list.Forall_cons; split; [unfold alnum; lia|]). constructor.
Defined.
