(* ===== verification/BleMgr.v ===== *)
(** The manager of the BLE channel: [src/tuya_cloud_service/ble/ble_mgr.c], which seals and
    opens packets, cuts and joins them with [BleFrame], advertises the device and handles
    the events of the radio. *)
From Stdlib Require Import ZArith Lia String.
From stdpp Require Import base tactics option list numbers.
From S2P Require Import Prelude Text StateM Endian Tools Crc Hash Symmetry BleFrame BleCrypt.

Local Open Scope Z_scope.

Definition FRM_QRY_DEV_INFO_REQ : Z := 0x0000.
Definition FRM_PAIR_REQ : Z := 0x0001.
Definition FRM_UNBONDING_REQ : Z := 0x0005.
Definition FRM_DEVICE_RESET : Z := 0x0006.
Definition FRM_RPT_NET_STAT_REQ : Z := 0x001E.
Definition BLE_PACKET_MIN_LEN : Z := 14.
Definition BLE_CONN_MONITOR_TIME : Z := 30000.
Definition TUYA_BLE_NAME_LEN : Z := 5.
Definition BLE_SESSION_MAX : Z := 4.
Definition TUYA_BLE_DEVICE_COMMUNICATION_ABILITY : Z := 0x000C.
Definition TUYA_BLE_TRANS_DATA_SUBPACK_LEN : Z := TUYA_BLE_AIR_FRAME_MAX - 64.
Definition TUYA_BLE_PROTOCOL_VERSION_HIGN : Z := 4.
Definition TUYA_BLE_PROTOCOL_VERSION_LOW : Z := 4.
Definition PRODUCT_KEY_LEN : Z := 16.
Definition TRSMITR_SIZE : Z := 24.
Definition ADV_FLAG_BOND : Z := 0x80.
Definition ADV_FLAG_UUID_COMP : Z := 0x01.
Definition NETMGR_LINK_DOWN : Z := 0.

(** [data] is [None] for the null pointer. *)
Record ble_packet_t := { sn : Z; type : Z; len : Z; data : option (list Z); encrypt_mode : Z }.

(** The functions of the sessions: the one of this file, and those of others by a number. *)
Inductive ble_session_fn_t := ble_session_system | session_other (n : Z).

(** The parts of [tuya_ble_mgr_t]. [recv] is [packet_recv] as [BleFrame] has it, [dec_buf] its
    last field; [peer_char] is the write characteristic in [peer_info]. *)
Record tuya_ble_mgr_t := {
  id : list Z; is_id_comp : bool; ble_rand : list Z; is_paired : bool; peer_char : Z; send_sn : Z; recv_sn : Z;
  recv : ble_packet_recv_t; dec_buf : list Z; session : list (option ble_session_fn_t) }.

(** What the manager reads of the device client. *)
Record ble_client_t := {
  c_productkey : list Z; c_authkey : list Z; c_seckey : list Z; c_localkey : list Z; c_name : list Z; is_activated : bool }.

Inductive effect :=
| e_air (pkt : list Z) | e_disconnect | e_pair_timer_start (ms : Z) | e_pair_timer_stop | e_iot_reset
| e_adv_data (adv rsp : list Z) | e_adv_start | e_adv_stop | e_session (n : Z) (p : ble_packet_t).

(** The manager, the client, the static variables of [ble_trsmitr.c], [ble_cryption.c] and of
    the monitor, and the number of random draws so far. *)
Record world := {
  ble : tuya_ble_mgr_t; client : ble_client_t; frame : ble_globals; crypt : crypt_globals; s_iot_conn_stat : bool; draws : nat; log : list effect }.

Definition set_activated (c : ble_client_t) (b : bool) : ble_client_t :=
  {| c_productkey := c_productkey c; c_authkey := c_authkey c; c_seckey := c_seckey c; c_localkey := c_localkey c; c_name := c_name c; is_activated := b |}.

Section Mgr.
Context {HA : MbedtlsAes} (md5 : Md) (malloc : Z -> bool) (ctx_size : Z) (aes_ok : bool).
(** The contents of a fresh allocation; the bytes of a random draw; the code of the radio for
    a packet after those sent before; what [netmgr_conn_get] gives, which the device sends
    as one byte; [TUYA_SECURITY_LEVEL]. *)
Context (fresh : Z -> list Z) (random : nat -> Z -> list Z) (air_send : list (list Z) -> list Z -> Z) (netstat security_level : Z).

(** * The monad *)
Definition M : Type -> Type := ST world.
Definition get_ble : M tuya_ble_mgr_t := st_gets ble.
Definition get_client : M ble_client_t := st_gets client.
Definition upd_ble (f : tuya_ble_mgr_t -> tuya_ble_mgr_t) : M unit := st_modify (fun w =>
  {| ble := f (ble w); client := client w; frame := frame w; crypt := crypt w; s_iot_conn_stat := s_iot_conn_stat w; draws := draws w; log := log w |}).
Definition deactivate : M unit := st_modify (fun w =>
  {| ble := ble w; client := set_activated (client w) false; frame := frame w; crypt := crypt w; s_iot_conn_stat := s_iot_conn_stat w; draws := draws w; log := log w |}).
Definition put_frame (g : ble_globals) : M unit := st_modify (fun w =>
  {| ble := ble w; client := client w; frame := g; crypt := crypt w; s_iot_conn_stat := s_iot_conn_stat w; draws := draws w; log := log w |}).
Definition put_crypt (g : crypt_globals) : M unit := st_modify (fun w =>
  {| ble := ble w; client := client w; frame := frame w; crypt := g; s_iot_conn_stat := s_iot_conn_stat w; draws := draws w; log := log w |}).
Definition put_stat (b : bool) : M unit := st_modify (fun w =>
  {| ble := ble w; client := client w; frame := frame w; crypt := crypt w; s_iot_conn_stat := b; draws := draws w; log := log w |}).
Definition emits (es : list effect) : M unit := st_modify (fun w =>
  {| ble := ble w; client := client w; frame := frame w; crypt := crypt w; s_iot_conn_stat := s_iot_conn_stat w; draws := draws w; log := log w ++ es |}).
Definition emit (e : effect) : M unit := emits [e].
Definition pure {A} : option A -> M A := st_pure.
Definition uni_random_bytes (n : Z) : M (list Z) := fun w =>
  Some (random (draws w) n,
    {| ble := ble w; client := client w; frame := frame w; crypt := crypt w; s_iot_conn_stat := s_iot_conn_stat w; draws := S (draws w); log := log w |}).

Definition with_send_sn (b : tuya_ble_mgr_t) (s : Z) : tuya_ble_mgr_t :=
  {| id := id b; is_id_comp := is_id_comp b; ble_rand := ble_rand b; is_paired := is_paired b; peer_char := peer_char b; send_sn := s; recv_sn := recv_sn b;
     recv := recv b; dec_buf := dec_buf b; session := session b |}.
Definition with_recv_sn (b : tuya_ble_mgr_t) (s : Z) : tuya_ble_mgr_t :=
  {| id := id b; is_id_comp := is_id_comp b; ble_rand := ble_rand b; is_paired := is_paired b; peer_char := peer_char b; send_sn := send_sn b; recv_sn := s;
     recv := recv b; dec_buf := dec_buf b; session := session b |}.
Definition with_recv (b : tuya_ble_mgr_t) (r : ble_packet_recv_t) (d : list Z) : tuya_ble_mgr_t :=
  {| id := id b; is_id_comp := is_id_comp b; ble_rand := ble_rand b; is_paired := is_paired b; peer_char := peer_char b; send_sn := send_sn b;
     recv_sn := recv_sn b; recv := r; dec_buf := d; session := session b |}.
Definition with_rand_bytes (b : tuya_ble_mgr_t) (r : list Z) : tuya_ble_mgr_t :=
  {| id := id b; is_id_comp := is_id_comp b; ble_rand := r; is_paired := is_paired b; peer_char := peer_char b; send_sn := send_sn b;
     recv_sn := recv_sn b; recv := recv b; dec_buf := dec_buf b; session := session b |}.
Definition with_link (b : tuya_ble_mgr_t) (paired : bool) (char : Z) : tuya_ble_mgr_t :=
  {| id := id b; is_id_comp := is_id_comp b; ble_rand := ble_rand b; is_paired := paired; peer_char := char; send_sn := send_sn b;
     recv_sn := recv_sn b; recv := recv b; dec_buf := dec_buf b; session := session b |}.
Definition with_session (b : tuya_ble_mgr_t) (l : list (option ble_session_fn_t)) : tuya_ble_mgr_t :=
  {| id := id b; is_id_comp := is_id_comp b; ble_rand := ble_rand b; is_paired := is_paired b; peer_char := peer_char b; send_sn := send_sn b;
     recv_sn := recv_sn b; recv := recv b; dec_buf := dec_buf b; session := l |}.
(** [ble->crypto_param]: pointers into the client and the manager. *)
Definition crypto_param (b : tuya_ble_mgr_t) (c : ble_client_t) : ble_crypto_param_t :=
  {| auth_key := c_authkey c; login_key := c_localkey c; sec_key := c_seckey c; uuid := id b; pair_rand := ble_rand b |}.

(** * Packets out *)

(** The big-endian bytes as the code writes them. *)
Definition put32 (v : Z) : list Z := [u8 (Z.shiftr v 24); u8 (Z.shiftr v 16); u8 (Z.shiftr v 8); u8 v].
Definition put16 (v : Z) : list Z := [u8 (Z.shiftr v 8); u8 v].

(** The plain packet in the fresh array, and its length; nothing checks that it fits. *)
Definition frame_build (mem : list Z) (sn_ : Z) (packet : ble_packet_t) : option (list Z * Z) :=
  b ← blit mem 0 (put32 sn_ ++ put32 (sn packet) ++ put16 (type packet) ++ put16 (len packet));
  b ← match data packet with None => Some b | Some d => d ← slice d 0 (len packet); blit b 12 d end;
  let n := 12 + len packet in
  crc ← get_crc_16 b n;
  b ← blit b n (put16 crc);
  Some (b, n + 2).

(** The code, and the sealed packet with its length. *)
Definition ble_packet_encode (packet : ble_packet_t) : M (Z * option (list Z * Z)) :=
  if negb (malloc TUYA_BLE_AIR_FRAME_MAX) then mret (OPRT_COM_ERROR, None)
  else
    b ← get_ble;
    _ ← upd_ble (fun b => with_send_sn b (u32 (send_sn b + 1)));
    '(ble_frame, frame_len) ← pure (frame_build (fresh TUYA_BLE_AIR_FRAME_MAX) (send_sn b) packet);
    enc_buf ← pure (wr (fresh TUYA_BLE_AIR_FRAME_MAX) 0 (encrypt_mode packet));
    let padding_len := 17 + (if frame_len mod 16 =? 0 then 0 else 16 - frame_len mod 16) in
    if TUYA_BLE_AIR_FRAME_MAX <? frame_len + padding_len then mret (OPRT_COM_ERROR, None)
    else
      iv ← uni_random_bytes 16;
      enc_buf ← pure (blit enc_buf 1 iv);
      b ← get_ble; c ← get_client; g ← st_gets crypt;
      '(rc, g, enc_len, out) ← pure (tuya_ble_encryption md5 malloc ctx_size aes_ok g (crypto_param b c) (encrypt_mode packet) iv ble_frame frame_len
                                       (drop 17 enc_buf));
      _ ← put_crypt g;
      if rc =? 0 then n ← pure enc_len; mret (OPRT_OK, Some (take 17 enc_buf ++ out, u32 (n + 17))) else mret (OPRT_COM_ERROR, None).

(** The loop of the subpackages is [BleFrame.resp_loop]. *)
Definition ble_packet_resp (resp : ble_packet_t) : M Z :=
  '(rt, out) ← ble_packet_encode resp;
  if negb (rt =? OPRT_OK) then mret rt
  else
    '(outbuf, outlen) ← pure out;
    g ← st_gets frame;
    if negb (malloc (ble_frame_packet_len_get g)) then mret OPRT_MALLOC_FAILED
    else
      match ble_frame_trsmitr_create g (malloc TRSMITR_SIZE, malloc (ble_frame_packet_len_get g)) with
      | None => mret OPRT_MALLOC_FAILED
      | Some t =>
          '(rt, g, air) ← pure (resp_loop air_send (S (Z.to_nat outlen)) g (Some t) outbuf outlen []);
          _ ← put_frame g; _ ← emits (e_air <$> air);
          mret rt
      end.

Definition tuya_ble_send_packet (packet : ble_packet_t) : M Z :=
  b ← get_ble; c ← get_client;
  if negb (is_paired b) then mret OPRT_OK
  else
    let mode := if type packet =? FRM_QRY_DEV_INFO_REQ
                then (if is_activated c then ENCRYPTION_MODE_KEY_14 else ENCRYPTION_MODE_KEY_11)
                else (if is_activated c then ENCRYPTION_MODE_SESSION_KEY15 else ENCRYPTION_MODE_KEY_12) in
    ble_packet_resp {| sn := sn packet; type := type packet; len := len packet; data := data packet; encrypt_mode := mode |}.

Definition tuya_ble_send (type_ ack_sn : Z) (data_ : option (list Z)) (len_ : Z) : M Z :=
  tuya_ble_send_packet {| sn := ack_sn; type := type_; len := u16 len_; data := data_; encrypt_mode := 0 |}.

(** * Packets in *)

(** [buf[i] << 8] and [+= buf[i + 1]] into a [uint16_t]; four bytes into a [uint32_t]. *)
Definition get16 (l : list Z) (i : Z) : option Z := a ← rd l i; b ← rd l (i + 1); Some (u16 (Z.shiftl a 8 + b)).
Definition get32 (l : list Z) (i : Z) : option Z :=
  a ← rd l i; b ← rd l (i + 1); c ← rd l (i + 2); d ← rd l (i + 3);
  Some (u32 (Z.shiftl a 24 + Z.shiftl b 16 + Z.shiftl c 8 + d)).

(** The decrypted packet: its serial number, type and data; [None] inside when the length or
    the checksum is wrong. *)
Definition packet_parse (dec : list Z) : option (option (Z * Z * Z)) :=
  data_len ← get16 dec 10;
  if TUYA_BLE_AIR_FRAME_MAX <? data_len + BLE_PACKET_MIN_LEN then Some None
  else
    our_crc ← get16 dec (12 + data_len);
    his_crc ← get_crc_16 dec (data_len + 12);
    if negb (our_crc =? his_crc) then Some None
    else s ← get32 dec 0; t ← get16 dec 8; Some (Some (s, t, data_len)).

Definition ble_packet_recv (buf : list Z) (blen : Z) : M (Z * option ble_packet_t) :=
  b ← get_ble;
  '(rt, r) ← pure (ble_packet_trsmitr (recv b) buf blen);
  _ ← upd_ble (fun b => with_recv b r (dec_buf b));
  if negb (rt =? OPRT_OK) then mret (rt, None)
  else if TUYA_BLE_AIR_FRAME_MAX <? raw_len r then mret (OPRT_INVALID_PARM, None)
  else if version (trsmitr r) <? 2 then mret (OPRT_INVALID_PARM, None)
  else
    c ← get_client; g ← st_gets crypt;
    '(rc, g, _, dec) ← pure (tuya_ble_decryption md5 malloc ctx_size aes_ok g (crypto_param b c) (raw_buf r) (raw_len r) (zrepl TUYA_BLE_AIR_FRAME_MAX 0));
    _ ← put_crypt g; _ ← upd_ble (fun b => with_recv b r dec);
    if negb (rc =? 0) then mret (OPRT_INVALID_PARM, None)
    else
      p ← pure (packet_parse dec);
      match p with
      | None => mret (OPRT_INVALID_PARM, None)
      | Some (s, t, n) =>
          if s <=? recv_sn b then _ ← emit e_disconnect; mret (OPRT_INVALID_PARM, None)
          else
            _ ← upd_ble (fun b => with_recv_sn b s);
            mode ← pure (rd (raw_buf r) 0);
            if n =? 0 then mret (OPRT_OK, Some {| sn := s; type := t; len := n; data := None; encrypt_mode := mode |})
            else if negb (malloc n) then mret (OPRT_MALLOC_FAILED, None)
            else d ← pure (slice dec 12 n); mret (OPRT_OK, Some {| sn := s; type := t; len := n; data := Some d; encrypt_mode := mode |})
      end.

(** * The advertisement *)

(** [ble_adv_set]: the advertisement and the scan response, arrays of 31 bytes, and their
    lengths. [mem] is the content of the allocation of [tuya_ble_adv_id_encrypt]. *)
Definition frame_ctrl (link : Z) (bound : bool) : Z :=
  Z.lor (Z.lor (Z.lor (Z.lor (Z.lor (Z.lor 0 (Z.shiftl 1 2)) (Z.shiftl 1 3)) (Z.shiftl 1 8)) (if link =? NETMGR_LINK_DOWN then Z.shiftl 1 9 else 0))
    (if bound then Z.shiftl 1 11 else 0)) (Z.shiftl 1 14).

Definition ble_adv_set (b : tuya_ble_mgr_t) (c : ble_client_t) (link : Z) (adv_data rsp_data : list Z) : option (list Z * Z * list Z * Z) :=
  let fc := frame_ctrl link (is_activated c) in
  let key_in := [u8 (Z.shiftr fc 8); u8 fc; 0; BLE_ID_LEN] in
  adv ← blit adv_data 0 ([0x02; 0x01; 0x06; 0x03; 0x02; 0x50; 0xFD; 3 + 2 + 2 + BLE_ID_LEN; 0x16; 0x50; 0xFD] ++ key_in);
  let flag := Z.lor (if is_id_comp b then ADV_FLAG_UUID_COMP else 0) (if is_activated c then ADV_FLAG_BOND else 0) in
  rsp ← blit rsp_data 0 [0x17; 0xFF; 0xD0; 0x07; 0; Z.shiftr TUYA_BLE_DEVICE_COMMUNICATION_ABILITY 8; u8 TUYA_BLE_DEVICE_COMMUNICATION_ABILITY; flag];
  adv ← (if is_activated c then
           '(_, out) ← tuya_ble_adv_id_encrypt md5 malloc ctx_size aes_ok (fresh 114) (c_seckey c) (id b) BLE_ID_LEN (drop 15 adv); Some (take 15 adv ++ out)
         else d ← slice (c_productkey c) 0 BLE_ID_LEN; blit adv 15 d);
  '(_, out) ← tuya_ble_rsp_id_encrypt md5 malloc ctx_size aes_ok (drop 11 adv) (BLE_ID_LEN + 4) (id b) BLE_ID_LEN (drop 8 rsp);
  let rsp := take 8 rsp ++ out in
  n ← strlen (c_name c);
  let n := if TUYA_BLE_NAME_LEN <? u8 n then TUYA_BLE_NAME_LEN else u8 n in
  name ← slice (c_name c) 0 n;
  rsp ← blit rsp 24 ([n + 1; 0x09] ++ name);
  Some (adv, 31, rsp, 26 + n).

(** The arrays start from zero; when the ciphers do not fail, every byte below the lengths is
    written anew. *)
Definition ble_adv_update : M unit :=
  b ← get_ble; c ← get_client;
  '(adv, an, rsp, rn) ← pure (ble_adv_set b c netstat (zrepl 31 0) (zrepl 31 0));
  if is_paired b then emit (e_adv_data (take (Z.to_nat an) adv) (take (Z.to_nat rn) rsp))
  else emits [e_adv_stop; e_adv_data (take (Z.to_nat an) adv) (take (Z.to_nat rn) rsp); e_adv_start].

(** * The timers and the sessions *)
Definition ble_pair_timeout_cb : M unit := emit e_disconnect.

Definition ble_mointor_timer_cb (iot_connected : bool) : M unit :=
  stat ← st_gets s_iot_conn_stat; b ← get_ble;
  if iot_connected then
    if stat : bool then mret tt
    else _ ← (if is_paired b then emit e_disconnect else emit e_adv_stop); put_stat true
  else
    if negb stat then mret tt
    else _ ← put_stat false; if is_paired b then mret tt else ble_adv_update.

Definition tuya_ble_is_connected (b : option tuya_ble_mgr_t) : bool := match b with None => false | Some b => is_paired b end.

Definition tuya_ble_session_add (t : Z) (fn : ble_session_fn_t) : M Z :=
  if t <? BLE_SESSION_MAX then _ ← upd_ble (fun b => with_session b (<[Z.to_nat t := Some fn]> (session b))); mret OPRT_OK else mret OPRT_INVALID_PARM.
Definition tuya_ble_session_del (t : Z) : M Z :=
  if t <? BLE_SESSION_MAX then _ ← upd_ble (fun b => with_session b (<[Z.to_nat t := None]> (session b))); mret OPRT_OK else mret OPRT_INVALID_PARM.

(** * The session of this file *)
Definition answer_packet (req : ble_packet_t) (bytes : list Z) : ble_packet_t :=
  {| sn := sn req; type := type req; len := zlen bytes; data := Some bytes; encrypt_mode := encrypt_mode req |}.

Definition ble_unbind_req (req : ble_packet_t) : M Z :=
  _ ← ble_packet_resp (answer_packet req [1]);
  _ ← emit e_iot_reset;
  _ ← deactivate;
  _ ← emit e_disconnect;
  mret OPRT_OK.

Definition ble_pair_req (req : ble_packet_t) : M Z :=
  d ← pure (data req); d ← pure (slice d 0 BLE_ID_LEN);
  b ← get_ble; i ← pure (slice (id b) 0 BLE_ID_LEN);
  c ← get_client;
  result ← (if bool_decide (d = i) then
              _ ← emit e_pair_timer_stop; _ ← upd_ble (fun b => with_link b true (peer_char b)); mret (if is_activated c then 2 else 0)
            else mret 1);
  rt ← ble_packet_resp (answer_packet req [result]);
  rt ← (if negb (rt =? OPRT_OK) then mret rt else tuya_ble_send FRM_RPT_NET_STAT_REQ 0 (Some [netstat]) 1);
  _ ← (if result =? 1 then emit e_disconnect else mret tt);
  mret rt.

(** The information block in [pbuf], and its length. *)
Definition ble_dev_info_make (pbuf : list Z) : M (list Z * Z) :=
  c ← get_client;
  pbuf ← pure (blit pbuf 0 [0; 0; TUYA_BLE_PROTOCOL_VERSION_HIGN; TUYA_BLE_PROTOCOL_VERSION_LOW; Z.lor (Z.shiftl 1 0) (Z.shiftl 1 2);
                            if is_activated c then 1 else 0]);
  r ← uni_random_bytes 6;
  _ ← upd_ble (fun b => with_rand_bytes b r);
  pbuf ← pure (blit pbuf 6 r);
  g ← st_gets crypt;
  '(_, key) ← pure (tuya_ble_register_key_generate aes_ok g (drop 14 pbuf) (c_authkey c));
  let pbuf := take 14 pbuf ++ key in
  pbuf ← pure (blit pbuf 52 [Z.shiftr TUYA_BLE_DEVICE_COMMUNICATION_ABILITY 8; u8 TUYA_BLE_DEVICE_COMMUNICATION_ABILITY; Z.lor (Z.shiftl 1 1) (Z.shiftl 1 2)]);
  pbuf ← pure (wr pbuf 83 1); pbuf ← pure (wr pbuf 86 1); pbuf ← pure (wr pbuf 95 PRODUCT_KEY_LEN);
  pbuf ← pure (blit pbuf 96 (zrepl PRODUCT_KEY_LEN 0));
  pbuf ← pure (blit pbuf (96 + PRODUCT_KEY_LEN)
    [0; 0; 2; Z.shiftr (Z.land TUYA_BLE_TRANS_DATA_SUBPACK_LEN 0xFF00) 8; Z.land TUYA_BLE_TRANS_DATA_SUBPACK_LEN 0x00FF; 1; security_level; 1; 0]);
  mret (pbuf, 121).

(** A failed allocation leaves the null pointer in [trsmitr->subpkg], an array of no bytes. *)
Definition set_subpkg (r : ble_packet_recv_t) (l : list Z) : ble_packet_recv_t :=
  let t := trsmitr r in
  {| trsmitr := {| total := total t; version := version t; seq := seq t; pkg_desc := pkg_desc t; subpkg_num := subpkg_num t;
                   pkg_trsmitr_cnt := pkg_trsmitr_cnt t; subpkg_len := subpkg_len t; subpkg := l |};
     raw_len := raw_len r; raw_buf := raw_buf r |}.

Definition ble_dev_info_req (req : ble_packet_t) : M Z :=
  d ← pure (data req); d0 ← pure (rd d 0); d1 ← pure (rd d 1);
  let pkg_len := u16 (Z.land (Z.shiftl d0 8) 0xff00 + Z.land d1 0xff) in
  g ← st_gets frame; _ ← put_frame (ble_frame_packet_len_set g pkg_len);
  if negb (malloc pkg_len) then _ ← upd_ble (fun b => with_recv b (set_subpkg (recv b) []) (dec_buf b)); mret OPRT_MALLOC_FAILED
  else
    _ ← upd_ble (fun b => with_recv b (set_subpkg (recv b) (zrepl pkg_len 0)) (dec_buf b));
    if negb (malloc 128) then mret OPRT_MALLOC_FAILED
    else
      '(pbuf, n) ← ble_dev_info_make (zrepl 128 0);
      d ← pure (slice pbuf 0 n);
      ble_packet_resp (answer_packet req d).

Definition ble_session_system_process (packet : ble_packet_t) : M unit :=
  if type packet =? FRM_QRY_DEV_INFO_REQ then _ ← ble_dev_info_req packet; mret tt
  else if type packet =? FRM_PAIR_REQ then _ ← ble_pair_req packet; mret tt
  else if (type packet =? FRM_UNBONDING_REQ) || (type packet =? FRM_DEVICE_RESET) then _ ← ble_unbind_req packet; mret tt
  else mret tt.

Definition session_call (f : option ble_session_fn_t) (packet : ble_packet_t) : M unit :=
  match f with None => mret tt | Some ble_session_system => ble_session_system_process packet | Some (session_other n) => emit (e_session n packet) end.
Fixpoint session_loop (l : list (option ble_session_fn_t)) (packet : ble_packet_t) : M unit :=
  match l with [] => mret tt | f :: l => _ ← session_call f packet; session_loop l packet end.

(** * The events of the radio

    [iot_connected] is what [tuya_iot_is_connected] gives; a write names its characteristic. *)
Inductive ble_event :=
| ev_stack_init (result : Z) | ev_connect (result : Z) (char : Z) | ev_disconnect (iot_connected : bool) | ev_write (char : Z) (report : list Z) | ev_other.

Definition tal_ble_event_callback (ev : ble_event) : M unit :=
  b ← get_ble;
  match ev with
  | ev_stack_init r => if r =? 0 then ble_adv_update else mret tt
  | ev_connect r char =>
      if r =? 0 then
        _ ← upd_ble (fun b => with_send_sn (with_recv_sn (with_link b (is_paired b) char) 0) 1); emit (e_pair_timer_start BLE_CONN_MONITOR_TIME)
      else upd_ble (fun b => with_link b (is_paired b) 0)
  | ev_disconnect conn =>
      _ ← upd_ble (fun b => with_rand_bytes (with_link b (is_paired b) 0) (zrepl 6 0));
      _ ← emit e_pair_timer_stop;
      _ ← upd_ble (fun b => with_link b false (peer_char b));
      if conn : bool then mret tt else ble_adv_update
  | ev_write char report =>
      if char =? peer_char b then
        '(ret, p) ← ble_packet_recv report (zlen report);
        if negb (ret =? OPRT_OK) then mret tt else p ← pure p; b ← get_ble; session_loop (session b) p
      else mret tt
  | ev_other => mret tt
  end.

(** ** Starting

    What [tuya_ble_init] makes of the client's identity: the id, compressed when it is long,
    and the sessions. *)
Definition ble_id_make (temp uuid_ : list Z) : option (list Z * bool) :=
  n ← strlen uuid_;
  if 20 <=? n then i ← tuya_ble_id_compress temp uuid_ (zrepl 17 0); Some (i, true)
  else d ← slice uuid_ 0 16; i ← blit (zrepl 17 0) 0 d; Some (i, false).
Definition ble_mgr_new (temp uuid_ : list Z) (r : ble_packet_recv_t) : option tuya_ble_mgr_t :=
  '(i, comp) ← ble_id_make temp uuid_;
  Some {| id := i; is_id_comp := comp; ble_rand := zrepl 6 0; is_paired := false; peer_char := 0; send_sn := 0; recv_sn := 0; recv := r;
          dec_buf := zrepl TUYA_BLE_AIR_FRAME_MAX 0; session := [Some ble_session_system; Some (session_other 1); Some (session_other 2); None] |}.

(** It frees the manager, its timers and its transmitter. *)
Definition tuya_ble_deinit (s : option tuya_ble_mgr_t) : Z * option tuya_ble_mgr_t := (OPRT_OK, None).

(** The first code that is not [OPRT_OK]. *)
Fixpoint first_error (l : list Z) : Z := match l with [] => OPRT_OK | r :: l => if r =? OPRT_OK then first_error l else r end.

(** [cfg] is [None] for the null pointer, and its client too; [allocs] the outcomes of the
    four allocations, [codes] those of the two timers, the start of the monitor and the radio.
    The fields of the receiver are what the allocation holds. *)
Definition tuya_ble_init (cfg : option (option (list Z))) (s : option tuya_ble_mgr_t) (g : ble_globals) (temp : list Z)
    (allocs : bool * bool * (bool * bool)) (codes : list Z) (mem_len : Z) (mem_buf : list Z) : option (Z * option tuya_ble_mgr_t) :=
  match cfg with
  | None | Some None => Some (OPRT_INVALID_PARM, s)
  | Some (Some uuid_) =>
      match s with
      | Some _ => Some (OPRT_OK, s)
      | None =>
          if negb (allocs.1.1 && allocs.1.2) then Some (OPRT_MALLOC_FAILED, None)
          else
            match ble_frame_trsmitr_create g allocs.2 with
            | None => Some (OPRT_MALLOC_FAILED, None)
            | Some t =>
                b ← ble_mgr_new temp uuid_ {| trsmitr := t; raw_len := mem_len; raw_buf := mem_buf |};
                let rt := first_error codes in
                if rt =? OPRT_OK then Some (OPRT_OK, Some b) else Some (rt, (tuya_ble_deinit (Some b)).2)
            end
      end
  end.
End Mgr.

(** * Packets there and back *)

Lemma zlen_put32 v : zlen (put32 v) = 4.
Proof. done. Qed.
Lemma zlen_put16 v : zlen (put16 v) = 2.
Proof. done. Qed.
Lemma put32_ok v : bytes_ok (put32 v).
Proof. repeat constructor; apply u8_range. Qed.
Lemma put16_ok v : bytes_ok (put16 v).
Proof. repeat constructor; apply u8_range. Qed.
Lemma rd_at {A} pre (x : A) suf i : i = zlen pre -> rd (pre ++ x :: suf) i = Some x.
Proof. intros ->. apply rd_mid. Qed.

Lemma get16_at pre v suf i : i = zlen pre -> get16 (pre ++ put16 v ++ suf) i = Some (u16 v).
Proof.
  intros ->. unfold get16, put16. cbn [app]. rewrite rd_mid, rd_off by lia. cbn [rd Z.leb lookup list_lookup Z.to_nat]. cbn [mbind option_bind].
  change (rd (u8 (Z.shiftr v 8) :: u8 v :: suf) 1) with (Some (u8 v)). cbn [mbind option_bind]. f_equal.
  unfold u16, u8, wrap. rewrite Z.shiftr_div_pow2, Z.shiftl_mul_pow2 by lia. change (2 ^ 8) with 256. change (2 ^ 16) with 65536. Z.div_mod_to_equations; lia.
Qed.
Lemma get32_at pre v suf i : i = zlen pre -> get32 (pre ++ put32 v ++ suf) i = Some (u32 v).
Proof.
  intros ->. unfold get32, put32. cbn [app]. destruct (rd_four pre (u8 (Z.shiftr v 24)) (u8 (Z.shiftr v 16)) (u8 (Z.shiftr v 8)) (u8 v) suf) as (-> & -> & -> & ->).
  cbn [mbind option_bind]. f_equal. rewrite !Z.shiftr_div_pow2, !Z.shiftl_mul_pow2 by lia. unfold u32 at 2. unfold wrap.
  rewrite <- (le_val_bytes 4). cbn [le_bytes le_val]. unfold u8, wrap. rewrite !Z.div_div by lia.
  change (2 ^ 8) with 256. change (256 * 256) with (2 ^ 16). change (2 ^ 16 * 256) with (2 ^ 24). rewrite u32_small.
  - change (2 ^ 8) with 256. lia.
  - unfold is_u32. pose proof (Z.mod_pos_bound v 256). pose proof (Z.mod_pos_bound (v / 256) 256). pose proof (Z.mod_pos_bound (v / 2 ^ 16) 256).
    pose proof (Z.mod_pos_bound (v / 2 ^ 24) 256). lia.
Qed.

(** The bytes before the checksum, and the whole plain packet. *)
Definition payload (p : ble_packet_t) : list Z := match data p with Some d => d | None => [] end.
Definition body (s : Z) (p : ble_packet_t) : list Z := put32 s ++ put32 (sn p) ++ put16 (type p) ++ put16 (len p) ++ payload p.
Definition plain (s : Z) (p : ble_packet_t) : list Z := body s p ++ put16 (crc_ref CRC16_POLY 0xffff (body s p)).
(** Packets of bytes, with their lengths. *)
Record packet_ok (p : ble_packet_t) : Prop := {
  po_len : len p = zlen (payload p); po_bytes : bytes_ok (payload p); po_type : is_u16 (type p) }.

Lemma zlen_body s p : packet_ok p -> zlen (body s p) = 12 + len p.
Proof. intros [-> _ _]. unfold body. rewrite !zlen_app, !zlen_put32, !zlen_put16. lia. Qed.
Lemma zlen_plain_packet s p : packet_ok p -> zlen (plain s p) = 14 + len p.
Proof. intros Hp. unfold plain. rewrite zlen_app, zlen_body by done. rewrite zlen_put16. lia. Qed.
Lemma body_ok s p : packet_ok p -> bytes_ok (body s p).
Proof. intros [_ Hb _]. unfold body. repeat apply Forall_app_2; first [apply put32_ok|apply put16_ok|done]. Qed.
Lemma plain_bytes s p : packet_ok p -> bytes_ok (plain s p).
Proof. intros Hp. apply Forall_app_2; [by apply body_ok|apply put16_ok]. Qed.

Lemma frame_build_ok mem s p : packet_ok p -> 14 + len p <= zlen mem ->
  exists suf, frame_build mem s p = Some (plain s p ++ suf, zlen (plain s p)) /\ zlen suf = zlen mem - zlen (plain s p).
Proof.
  intros Hp Hm. rewrite zlen_plain_packet by done. destruct (Hp) as [Hl Hb Ht]. pose proof (zlen_nonneg (payload p)).
  unfold frame_build. set (h := put32 s ++ put32 (sn p) ++ put16 (type p) ++ put16 (len p)). assert (zlen h = 12) as Hh by done.
  destruct (blit_step [] mem h 0 eq_refl ltac:(lia)) as (s1 & E1 & L1). cbn [app] in E1. rewrite E1. cbn [mbind option_bind].
  assert (exists s2, match data p with None => Some (h ++ s1) | Some d => d ← slice d 0 (len p); blit (h ++ s1) 12 d end
    = Some (body s p ++ s2) /\ zlen s2 = zlen s1 - len p) as (s2 & E2 & L2).
  { replace (body s p) with (h ++ payload p) by (unfold body, h; by rewrite <- !app_assoc). unfold payload in *. destruct (data p) as [d|].
    - rewrite slice_whole by done. cbn [mbind option_bind]. rewrite <- Hh. destruct (blit_step h s1 d (zlen h) eq_refl ltac:(lia)) as (s2 & -> & L2). exists s2. split; [done|lia].
    - exists s1. rewrite app_nil_r. change (zlen []) with 0 in Hl. split; [done|lia]. }
  rewrite E2. cbn [mbind option_bind]. pose proof (zlen_body s p Hp) as Hz. unfold get_crc_16. rewrite <- Hz, zlen_nat, crc16_loop_ref by (by apply body_ok).
  cbn [mbind option_bind]. destruct (blit_step (body s p) s2 (put16 (crc_ref CRC16_POLY 0xffff (body s p))) _ eq_refl) as (s3 & E3 & L3).
  { rewrite zlen_put16. lia. }
  rewrite E3. cbn [mbind option_bind]. exists s3. rewrite zlen_put16 in L3. split; [|lia]. do 2 f_equal. lia.
Qed.

Lemma packet_parse_ok s p rest : packet_ok p -> is_u32 s -> 14 + len p <= TUYA_BLE_AIR_FRAME_MAX ->
  packet_parse (plain s p ++ rest) = Some (Some (s, type p, len p)) /\ slice (plain s p ++ rest) 12 (len p) = Some (payload p).
Proof.
  intros Hp Hs Hm. pose proof (zlen_body s p Hp) as Hz. destruct (Hp) as [Hl Hb Ht]. pose proof (zlen_nonneg (payload p)). unfold TUYA_BLE_AIR_FRAME_MAX in Hm.
  pose proof (crc16_ref_u16 (body s p) 0xffff ltac:(done) (body_ok s p Hp)) as Hc.
  assert (is_u16 (len p)) as Hlu by (unfold is_u16; lia). split.
  - unfold packet_parse.
    assert (get16 (plain s p ++ rest) 10 = Some (len p)) as ->.
    { unfold plain, body. rewrite <- !app_assoc. rewrite (app_assoc (put32 s)), (app_assoc (put32 s ++ _)).
      rewrite get16_at by done. by rewrite u16_small. }
    cbn [mbind option_bind]. unfold TUYA_BLE_AIR_FRAME_MAX, BLE_PACKET_MIN_LEN. replace (1024 <? len p + 14) with false by lia.
    assert (get16 (plain s p ++ rest) (12 + len p) = Some (crc_ref CRC16_POLY 0xffff (body s p))) as ->.
    { unfold plain. rewrite <- app_assoc. rewrite get16_at by lia. by rewrite u16_small. }
    cbn [mbind option_bind]. unfold get_crc_16. replace (Z.to_nat (len p + 12)) with (length (body s p)) by (unfold zlen in Hz; lia).
    replace (plain s p ++ rest) with (body s p ++ put16 (crc_ref CRC16_POLY 0xffff (body s p)) ++ rest) at 1 by (unfold plain; by rewrite <- app_assoc).
    rewrite crc16_loop_ref by (by apply body_ok). cbn [mbind option_bind]. rewrite Z.eqb_refl. cbn [negb].
    assert (get32 (plain s p ++ rest) 0 = Some s) as ->.
    { unfold plain, body. rewrite <- !app_assoc. change (put32 s ++ ?x) with ([] ++ put32 s ++ x). rewrite get32_at by done. by rewrite u32_small. }
    cbn [mbind option_bind].
    assert (get16 (plain s p ++ rest) 8 = Some (type p)) as ->; [|done].
    unfold plain, body. rewrite <- !app_assoc. rewrite (app_assoc (put32 s)). rewrite get16_at by done. by rewrite u16_small.
  - replace (plain s p ++ rest) with ((put32 s ++ put32 (sn p) ++ put16 (type p) ++ put16 (len p)) ++ payload p ++ put16 (crc_ref CRC16_POLY 0xffff (body s p)) ++ rest)
      by (unfold plain, body; by rewrite <- !app_assoc).
    rewrite Hl. by apply slice_mid_n.
Qed.

Ltac wp_step :=
  cbv beta zeta;
  lazymatch goal with
  | |- wp (_ ≫= _) _ _ => apply wp_bind
  | |- wp (mret _) _ _ => apply wp_ret
  | |- wp get_ble _ _ => apply wp_gets
  | |- wp get_client _ _ => apply wp_gets
  | |- wp (st_gets _) _ _ => apply wp_gets
  | |- wp (upd_ble _) _ _ => apply wp_modify
  | |- wp deactivate _ _ => apply wp_modify
  | |- wp (put_crypt _) _ _ => apply wp_modify
  | |- wp (put_frame _) _ _ => apply wp_modify
  | |- wp (emits _) _ _ => apply wp_modify
  | |- wp (emit _) _ _ => apply wp_modify
  | |- wp (if 0 =? 0 then _ else _) _ _ => change (0 =? 0) with true; cbv iota
  | |- wp (if false then _ else _) _ _ => cbv iota
  | |- wp (if true then _ else _) _ _ => cbv iota
  | |- wp (let '(_, _) := (_, _) in _) _ _ => cbv iota
  | |- wp (match Some _ with _ => _ end) _ _ => cbv iota
  end.
Ltac wp_go := repeat wp_step; cbn [ble client frame crypt s_iot_conn_stat draws log].
Lemma wp_random random n (Q : list Z -> world -> Prop) w :
  Q (random (draws w) n) {| ble := ble w; client := client w; frame := frame w; crypt := crypt w; s_iot_conn_stat := s_iot_conn_stat w; draws := S (draws w); log := log w |} ->
  wp (uni_random_bytes random n) Q w.
Proof. intros H. eexists _, _. split; [reflexivity|done]. Qed.

Section Channel.
Context `{AesLaws} (md5 : Md) (D : list Z -> list Z) (absorbed : md_ctx md5 -> list Z -> Prop) (malloc : Z -> bool) (ctx_size : Z).
Context (fresh : Z -> list Z) (random : nat -> Z -> list Z) (air_send : list (list Z) -> list Z -> Z) (netstat security_level : Z).
(** The digest is one, and nothing runs out. *)
Context (L : MdLaws md5 MD5_SIZE D absorbed) (Hm : forall n, malloc n = true).
Context (Hfresh : forall n, 0 <= n -> zlen (fresh n) = n) (Hrandom : forall k n, 0 <= n -> zlen (random k n) = n).

Definition world_params (w : world) : ble_crypto_param_t := crypto_param (ble w) (client w).
(** What the peer digests for the key of [mode] is what the device digests. *)
Definition seal_key (wp w : world) (mode : Z) : Prop :=
  key_text D (with_rand (crypt w) mode (random (draws wp) 16)) (world_params w) mode = key_text D (crypt wp) (world_params wp) mode.

(** A packet that fits is sealed so that the other end opens it. *)
Lemma encode_ok w g' p' packet : packet_ok packet -> keyed (encrypt_mode packet) -> params_ok (world_params w) -> params_ok p' ->
  globals_ok (crypt w) -> globals_ok g' ->
  key_text D (with_rand g' (encrypt_mode packet) (random (draws w) 16)) p' (encrypt_mode packet) = key_text D (crypt w) (world_params w) (encrypt_mode packet) ->
  let f := plain (send_sn (ble w)) packet in
  let n := 17 + zlen f + zlen (pad (zlen f)) in
  n <= TUYA_BLE_AIR_FRAME_MAX ->
  wp (ble_packet_encode md5 malloc ctx_size true fresh random packet) (fun r w' => exists sealed rest key, r = (OPRT_OK, Some (sealed ++ rest, n)) /\ zlen sealed = n /\ rd sealed 0 = Some (encrypt_mode packet)
    /\ send_sn (ble w') = u32 (send_sn (ble w) + 1)
    /\ forall rest old osuf, zlen old = zlen f + zlen (pad (zlen f)) ->
         tuya_ble_decryption md5 malloc ctx_size true g' p' (sealed ++ rest) n (old ++ osuf)
         = Some (0, after_key (with_rand g' (encrypt_mode packet) (random (draws w) 16)) (encrypt_mode packet) key, Some (n - 17), (f ++ pad (zlen f)) ++ osuf)) w.
Proof.
  intros Hp Hk Hpar Hp' Hg Hg' Ht f n Hn. unfold TUYA_BLE_AIR_FRAME_MAX in Hn.
  pose proof (zlen_pad (zlen f)) as [Hpad _]. pose proof (zlen_plain_packet (send_sn (ble w)) packet Hp) as Hf. fold f in Hf. pose proof (zlen_nonneg f).
  destruct (frame_build_ok (fresh 1024) (send_sn (ble w)) packet Hp) as (fsuf & Eb & Lf); [rewrite Hfresh by lia; lia|]. fold f in Eb, Lf.
  rewrite Hfresh in Lf by lia. pose proof (Hrandom (draws w) 16 ltac:(lia)) as Hiv. set (iv := random (draws w) 16) in *. set (mode := encrypt_mode packet) in *.
  assert (exists es, wr (fresh 1024) 0 mode = Some (mode :: es) /\ zlen es = 1023) as (es & Ew & Le).
  { pose proof (Hfresh 1024 ltac:(lia)) as Hl. destruct (fresh 1024) as [|x es]; [done|]. rewrite zlen_cons in Hl. exists es. split; [apply (wr_mid [])|lia]. }
  destruct (crypt_ok md5 D absorbed malloc ctx_size L (Hm _) (crypt w) (world_params w) g' p' mode iv f fsuf) as (ct & Lct & Een & Ede);
    try done; [by apply plain_bytes|lia|lia|].
  destruct (blit_step [mode] es iv 1 eq_refl ltac:(lia)) as (es1 & Ei & Le1). cbn [app] in Ei.
  destruct (split_at es1 (zlen f + zlen (pad (zlen f)))) as (old & osuf & -> & Lo); [lia|].
  set (key := D (key_text D (crypt w) (world_params w) mode)) in *. fold (world_params w).
  unfold ble_packet_encode. rewrite Hm. cbn [negb]. unfold TUYA_BLE_AIR_FRAME_MAX. wp_go.
  eapply wp_pure; [exact Eb|]. wp_go. eapply wp_pure; [exact Ew|]. wp_go.
  replace (17 + (if zlen f mod 16 =? 0 then 0 else 16 - zlen f mod 16)) with (17 + zlen (pad (zlen f))).
  2: { unfold pad. pose proof (Z.mod_pos_bound (zlen f) 16 ltac:(lia)). destruct (Z.eqb_spec (zlen f mod 16) 0); [done|]. rewrite zlen_zrepl; lia. }
  replace (1024 <? zlen f + (17 + zlen (pad (zlen f)))) with false by lia. wp_go. apply wp_random. fold iv. wp_go. eapply wp_pure; [exact Ei|]. wp_go. 
  assert (drop 17 (mode :: iv ++ old ++ osuf) = old ++ osuf) as Edrop. 
  { change (drop 17 (mode :: ?x)) with (drop 16 x). apply drop_app_length'. unfold zlen in Hiv. lia. }
  eapply wp_pure; [rewrite Edrop; apply Een; lia|]. wp_go. eapply wp_pure; [done|]. wp_go.
  rewrite u32_small by (unfold is_u32; lia).
  exists (mode :: iv ++ ct), osuf, key. split_and!.
  - replace (zlen f + zlen (pad (zlen f)) + 17) with n by lia.
    assert (take 17 (mode :: iv ++ old ++ osuf) = mode :: iv) as ->.
    { change (take 17 (mode :: ?x)) with (mode :: take 16 x). f_equal. apply take_app_length'. unfold zlen in Hiv. lia. }
    cbn [app]. by rewrite <- app_assoc.
  - rewrite zlen_cons, zlen_app. lia.
  - done.
  - done.
  - intros rest o os Ho. specialize (Ede rest o os Ho). cbn [app] in *. rewrite <- app_assoc. replace n with (17 + (zlen f + zlen (pad (zlen f)))) by lia.
    by replace (17 + (zlen f + zlen (pad (zlen f))) - 17) with (zlen f + zlen (pad (zlen f))) by lia.
Qed.

(** What the receiver hands to the sessions, and the state in which it does. *)
Definition delivered (s : Z) (p : ble_packet_t) : ble_packet_t :=
  {| sn := s; type := type p; len := len p; data := if len p =? 0 then None else Some (payload p); encrypt_mode := encrypt_mode p |}.
Definition received (w : world) (r : ble_packet_recv_t) (dec : list Z) (g : crypt_globals) (s : Z) : world :=
  {| ble := with_recv_sn (with_recv (ble w) r dec) s; client := client w; frame := frame w; crypt := g; s_iot_conn_stat := s_iot_conn_stat w;
     draws := draws w; log := log w |}.
Definition collecting (w : world) (r : ble_packet_recv_t) : world :=
  {| ble := with_recv (ble w) r (dec_buf (ble w)); client := client w; frame := frame w; crypt := crypt w; s_iot_conn_stat := s_iot_conn_stat w;
     draws := draws w; log := log w |}.

(** The writes of the peer, one after the other. *)
Definition on_event : ble_event -> M unit := tal_ble_event_callback md5 malloc ctx_size true fresh random air_send netstat security_level.
Fixpoint writes (char : Z) (pkts : list (list Z)) : M unit :=
  match pkts with [] => mret tt | p :: ps => _ ← on_event (ev_write char p); writes char ps end.
Definition sessions : list (option ble_session_fn_t) -> ble_packet_t -> M unit :=
  session_loop md5 malloc ctx_size true fresh random air_send netstat security_level.

(** The receiver holds a packet that opens. *)
Definition opens (w : world) (r : ble_packet_recv_t) (s : Z) (p : ble_packet_t) (g : crypt_globals) (rest : list Z) : Prop :=
  packet_ok p /\ is_u32 s /\ recv_sn (ble w) < s /\ 14 + len p <= TUYA_BLE_AIR_FRAME_MAX
  /\ raw_len r <= TUYA_BLE_AIR_FRAME_MAX /\ 2 <= version (trsmitr r) /\ rd (raw_buf r) 0 = Some (encrypt_mode p)
  /\ exists n, tuya_ble_decryption md5 malloc ctx_size true (crypt w) (world_params w) (raw_buf r) (raw_len r) (zrepl TUYA_BLE_AIR_FRAME_MAX 0)
     = Some (0, g, n, plain s p ++ rest).

Lemma recv_ok w report r s p g rest : ble_packet_trsmitr (recv (ble w)) report (zlen report) = Some (OPRT_OK, r) -> opens w r s p g rest ->
  ble_packet_recv md5 malloc ctx_size true report (zlen report) w = Some ((OPRT_OK, Some (delivered s p)), received w r (plain s p ++ rest) g s).
Proof.
  intros Er (Hp & Hs & Hsn & Hn & Hl & Hv & Hmode & m & Ed). destruct (packet_parse_ok s p rest Hp Hs Hn) as [Epp Esl].
  cut (wp (ble_packet_recv md5 malloc ctx_size true report (zlen report))
    (fun a w' => a = (OPRT_OK, Some (delivered s p)) /\ w' = received w r (plain s p ++ rest) g s) w).
  { by intros (a & w' & -> & -> & ->). }
  unfold ble_packet_recv. wp_go. eapply wp_pure; [exact Er|]. wp_go. change (negb (OPRT_OK =? OPRT_OK)) with false.
  replace (TUYA_BLE_AIR_FRAME_MAX <? raw_len r) with false by lia. replace (version (trsmitr r) <? 2) with false by lia. wp_go.
  eapply wp_pure; [exact Ed|]. wp_go. change (negb (0 =? 0)) with false. wp_go. eapply wp_pure; [exact Epp|]. wp_go.
  replace (s <=? recv_sn (ble w)) with false by lia. wp_go. eapply wp_pure; [exact Hmode|]. wp_go.
  unfold delivered. destruct (len p =? 0); wp_go; [done|]. rewrite Hm. cbn [negb]. wp_go. eapply wp_pure; [exact Esl|]. wp_go. done.
Qed.

Lemma write_last w report r s p g rest : ble_packet_trsmitr (recv (ble w)) report (zlen report) = Some (OPRT_OK, r) -> opens w r s p g rest ->
  on_event (ev_write (peer_char (ble w)) report) w = sessions (session (ble w)) (delivered s p) (received w r (plain s p ++ rest) g s).
Proof.
  intros Er Ho. pose proof (recv_ok w report r s p g rest Er Ho) as E. unfold on_event, tal_ble_event_callback.
  change ((get_ble ≫= ?f) w) with (f (ble w) w). cbv beta iota. rewrite Z.eqb_refl.
  etransitivity; [apply (st_bind_run _ _ _ _ _ E)|]. done.
Qed.
Lemma write_more w report r : ble_packet_trsmitr (recv (ble w)) report (zlen report) = Some (OPRT_SVC_BT_API_TRSMITR_CONTINUE, r) ->
  on_event (ev_write (peer_char (ble w)) report) w = Some (tt, collecting w r).
Proof.
  intros Er. assert (ble_packet_recv md5 malloc ctx_size true report (zlen report) w = Some ((OPRT_SVC_BT_API_TRSMITR_CONTINUE, None), collecting w r)) as E.
  { cut (wp (ble_packet_recv md5 malloc ctx_size true report (zlen report))
      (fun a w' => a = (OPRT_SVC_BT_API_TRSMITR_CONTINUE, None) /\ w' = collecting w r) w).
    { by intros (a & w' & -> & -> & ->). }
    unfold ble_packet_recv. wp_go. eapply wp_pure; [exact Er|]. wp_go. change (negb (OPRT_SVC_BT_API_TRSMITR_CONTINUE =? OPRT_OK)) with true. wp_go. done. }
  unfold on_event, tal_ble_event_callback. change ((get_ble ≫= ?f) w) with (f (ble w) w). cbv beta iota. rewrite Z.eqb_refl.
  etransitivity; [apply (st_bind_run _ _ _ _ _ E)|]. done.
Qed.

Lemma writes_ok p0 pkts r s p g rest : takes p0 pkts r -> forall w, recv (ble w) = p0 -> opens w r s p g rest ->
  writes (peer_char (ble w)) pkts w = sessions (session (ble w)) (delivered s p) (received w r (plain s p ++ rest) g s).
Proof.
  induction 1 as [p0 pkt r E|p0 pkt p1 pkts r E _ IH]; intros w <- Ho; cbn [writes].
  - etransitivity; [unfold mbind, st_bind; rewrite (write_last w pkt r s p g rest E Ho); reflexivity|].
    by destruct (sessions _ _ _) as [[[] ?]|].
  - etransitivity; [apply (st_bind_run _ _ _ _ _ (write_more w pkt p1 E))|]. apply (IH (collecting w p1)); done.
Qed.

(** What the receiver needs of its buffers, for pieces of at most [plen] bytes. *)
Definition buffers_ok (r : ble_packet_recv_t) (plen : Z) : Prop :=
  zlen (raw_buf r) = TUYA_BLE_AIR_FRAME_MAX /\ plen <= zlen (subpkg (trsmitr r)) /\ 0 <= subpkg_num (trsmitr r) < 0x10000000.

(** (C1) A packet that one side seals the other side hands to its sessions, exactly as it was
    and exactly once: whatever the mode with a key, when both sides digest the same bytes for
    it, and whatever the length of the pieces into which the radio cuts the sealed packet;
    the serial number of the packet becomes the last one received. Until the last piece only
    the collected bytes change. *)
Theorem ble_channel_delivers phone w packet t ver :
  let mode := encrypt_mode packet in
  let s := send_sn (ble phone) in
  let n := 31 + len packet + zlen (pad (14 + len packet)) in
  let plen := s_ble_frame_packet_len (frame phone) in
  packet_ok packet -> keyed mode -> is_u32 s -> n <= TUYA_BLE_AIR_FRAME_MAX ->
  params_ok (world_params phone) -> params_ok (world_params w) -> globals_ok (crypt phone) -> globals_ok (crypt w) -> seal_key phone w mode ->
  ble_frame_trsmitr_create (frame phone) (true, true) = Some t -> 0 <= s_ble_frame_seq (frame phone) -> 7 <= plen < 65536 -> 2 <= ver < 16 ->
  buffers_ok (recv (ble w)) plen -> recv_sn (ble w) < s ->
  exists out phone' pkts r dec g,
    ble_packet_encode md5 malloc ctx_size true fresh random packet phone = Some ((OPRT_OK, Some (out, n)), phone')
    /\ send_frame (S (Z.to_nat n)) (frame phone) (Some t) ver out n = Some (OPRT_OK, pkts)
    /\ Forall (fun pkt => zlen pkt <= plen) pkts
    /\ writes (peer_char (ble w)) pkts w = sessions (session (ble w)) (delivered s packet) (received w r dec g s).
Proof.
  intros mode s n plen Hp Hk Hs Hn Hpp Hpw Hgp Hgw Hkey Hc Hseq Hpl Hv (B1 & B2 & B3) Hsn. pose proof (zlen_plain_packet s packet Hp) as Hf.
  assert (0 <= len packet /\ 0 <= zlen (pad (14 + len packet))) as [Hlp Hpad] by (destruct Hp as [-> _ _]; split; apply zlen_nonneg). unfold TUYA_BLE_AIR_FRAME_MAX in Hn.
  destruct (encode_ok phone (crypt w) (world_params w) packet) as (a & phone' & E & sealed & out & key & -> & Hl & Hmode & _ & Hdec); try done.
  { fold s. rewrite Hf. unfold TUYA_BLE_AIR_FRAME_MAX. lia. }
  fold s in E, Hl, Hdec. rewrite Hf in E, Hl, Hdec. replace (17 + (14 + len packet) + zlen (pad (14 + len packet))) with n in * by lia.
  destruct (send_init_fresh (frame phone) t ver n Hc Hseq ltac:(lia)) as (g1 & t1 & sq & Hi & Hg1 & Hsq & Ht1).
  destruct (frame_rest (S (Z.to_nat n)) (frame phone) t g1 t1 (recv (ble w)) sealed ver sq 0 0) as (pkts & r & Es & Hall & Htk & Hrl & (suf & Hrb) & Hrv & _);
    rewrite ?Hg1, ?Hl; try (done || lia).
  rewrite Hl in Es, Hrl. rewrite Hg1 in Hall. set (m := 14 + len packet) in *. set (q := zlen (pad m)) in *.
  exists (sealed ++ out), phone', pkts, r. eexists _, _. split_and!; [done|by apply send_frame_more|done|].
  eapply writes_ok; [exact Htk|done|]. unfold opens, TUYA_BLE_AIR_FRAME_MAX. rewrite Hrb, Hrl, Hrv. split_and!; try (done || lia).
  - rewrite <- Hmode. destruct sealed as [|x l]; [unfold zlen in Hl; cbn in Hl; lia|done].
  - eexists. replace (zrepl 1024 0) with (zrepl (m + q) 0 ++ zrepl (1024 - (m + q)) (0 : Z))
      by (unfold zrepl; rewrite <- replicate_add; f_equal; lia).
    rewrite Hdec by (apply zlen_zrepl; lia). rewrite <- app_assoc. reflexivity.
Qed.
End Channel.

(** * Serial numbers *)

(** The packets handed to the sessions of other files. *)
Definition calls (l : list effect) : list (Z * ble_packet_t) := omap (fun e => match e with e_session n p => Some (n, p) | _ => None end) l.
Definition shown (w : world) : Z * list (Z * ble_packet_t) := (recv_sn (ble w), calls (log w)).

Section Serials.
Context {HA : MbedtlsAes} (md5 : Md) (malloc : Z -> bool) (ctx_size : Z) (aes_ok : bool).
Context (fresh : Z -> list Z) (random : nat -> Z -> list Z) (air_send : list (list Z) -> list Z -> Z) (netstat security_level : Z).

Lemma calls_app l1 l2 : calls (l1 ++ l2) = calls l1 ++ calls l2.
Proof. apply omap_app. Qed.
Lemma leaves_emits l : calls l = [] -> leaves shown (emits l).
Proof. intros Hl. apply leaves_modify. intros w. unfold shown. cbn [ble log]. by rewrite calls_app, Hl, app_nil_r. Qed.
Lemma leaves_upd f : (forall b, recv_sn (f b) = recv_sn b) -> leaves shown (upd_ble f).
Proof. intros Hf. apply leaves_modify. intros w. unfold shown. cbn [ble log]. by rewrite Hf. Qed.
Lemma leaves_air l : leaves shown (emits (e_air <$> l)).
Proof. apply leaves_emits. induction l as [|x l IH]; [done|exact IH]. Qed.
Lemma leaves_get_ble : leaves shown get_ble.
Proof. apply leaves_gets. Qed.
Lemma leaves_get_client : leaves shown get_client.
Proof. apply leaves_gets. Qed.
Lemma leaves_put_crypt g : leaves shown (put_crypt g).
Proof. by apply leaves_modify. Qed.
Lemma leaves_put_frame g : leaves shown (put_frame g).
Proof. by apply leaves_modify. Qed.
Lemma leaves_put_stat b : leaves shown (put_stat b).
Proof. by apply leaves_modify. Qed.
Lemma leaves_deactivate : leaves shown deactivate.
Proof. by apply leaves_modify. Qed.
Lemma leaves_random n : leaves shown (uni_random_bytes random n).
Proof. intros w a w' E. by injection E as _ <-. Qed.
Lemma leaves_mpure {A} (x : option A) : leaves shown (pure x).
Proof. apply leaves_pure. Qed.
Hint Resolve leaves_air leaves_get_ble leaves_get_client leaves_put_crypt leaves_put_frame leaves_put_stat leaves_deactivate leaves_random leaves_mpure : leaves.
Hint Extern 1 (leaves _ (upd_ble _)) => apply leaves_upd; reflexivity : leaves.
Hint Extern 1 (leaves _ (emit _)) => apply leaves_emits; reflexivity : leaves.
Hint Extern 2 (leaves _ (emits _)) => apply leaves_emits; reflexivity : leaves.
Hint Extern 1 (leaves _ (mret _)) => apply leaves_ret : leaves.

Lemma leaves_encode p : leaves shown (ble_packet_encode md5 malloc ctx_size aes_ok fresh random p).
Proof. unfold ble_packet_encode. leaves_tac. Qed.
Hint Resolve leaves_encode : leaves.
Lemma leaves_resp p : leaves shown (ble_packet_resp md5 malloc ctx_size aes_ok fresh random air_send p).
Proof. unfold ble_packet_resp. leaves_tac. Qed.
Hint Resolve leaves_resp : leaves.
Lemma leaves_send t a d l : leaves shown (tuya_ble_send md5 malloc ctx_size aes_ok fresh random air_send t a d l).
Proof. unfold tuya_ble_send, tuya_ble_send_packet. leaves_tac. Qed.
Lemma leaves_make l : leaves shown (ble_dev_info_make aes_ok random security_level l).
Proof. unfold ble_dev_info_make. leaves_tac. Qed.
Hint Resolve leaves_send leaves_make : leaves.
Lemma leaves_system p : leaves shown (ble_session_system_process md5 malloc ctx_size aes_ok fresh random air_send netstat security_level p).
Proof. unfold ble_session_system_process, ble_dev_info_req, ble_pair_req, ble_unbind_req. leaves_tac. Qed.
Lemma leaves_adv : leaves shown (ble_adv_update md5 malloc ctx_size aes_ok fresh netstat).
Proof. unfold ble_adv_update. leaves_tac. Qed.
Hint Resolve leaves_system leaves_adv : leaves.

Ltac run_inv :=
  repeat match goal with
  | H : (_ ≫= _) _ = Some _ |- _ => apply st_bind_inv in H as (? & ? & ? & ?)
  | H : mret _ _ = Some _ |- _ => injection H as ? ?; subst
  | H : get_ble _ = Some _ |- _ => injection H as ? ?; subst
  | H : get_client _ = Some _ |- _ => injection H as ? ?; subst
  | H : st_gets _ _ = Some _ |- _ => injection H as ? ?; subst
  | H : upd_ble _ _ = Some _ |- _ => injection H as ? ?; subst
  | H : put_crypt _ _ = Some _ |- _ => injection H as ? ?; subst
  | H : emit _ _ = Some _ |- _ => injection H as ? ?; subst
  | H : pure _ _ = Some _ |- _ => apply st_pure_inv in H as [? ?]; subst
  | H : (if ?x then _ else _) _ = Some _ |- _ => destruct x eqn:?
  | H : (let '(_, _) := ?x in _) _ = Some _ |- _ => destruct x
  | H : match ?x with _ => _ end _ = Some _ |- _ => destruct x eqn:?
  end.

(** A packet that is taken carries the new last serial number, which is above the old one;
    otherwise the number does not go down. *)
Lemma recv_serials report n : forall w r p w', ble_packet_recv md5 malloc ctx_size aes_ok report n w = Some ((r, p), w') ->
  calls (log w') = calls (log w) /\ recv_sn (ble w) <= recv_sn (ble w')
  /\ (r = OPRT_OK -> forall q, p = Some q -> recv_sn (ble w) < sn q /\ sn q = recv_sn (ble w')).
Proof.
  intros w r p w' E. unfold ble_packet_recv in E. run_inv; cbn [ble log recv_sn with_recv with_recv_sn] in *;
    rewrite ?calls_app; cbn; rewrite ?app_nil_r; split_and!; try done; try lia; intros ? ? [= <-]; cbn; lia.
Qed.

(** What a step may do to the serial numbers. *)
Definition grows (w w' : world) : Prop :=
  recv_sn (ble w) <= recv_sn (ble w') /\ exists c, calls (log w') = calls (log w) ++ c /\ Forall (fun x => recv_sn (ble w) < sn x.2 <= recv_sn (ble w')) c.
Lemma grows_leaves {A} (m : M A) w a w' : leaves shown m -> m w = Some (a, w') -> grows w w'.
Proof. intros Hl E. pose proof (Hl _ _ _ E) as Hs. injection Hs as Hs Hc. split; [lia|]. exists []. by rewrite app_nil_r. Qed.
Lemma grows_trans w1 w2 w3 : grows w1 w2 -> grows w2 w3 -> grows w1 w3.
Proof.
  intros [H1 (c1 & E1 & F1)] [H2 (c2 & E2 & F2)]. split; [lia|]. exists (c1 ++ c2). split; [by rewrite E2, E1, app_assoc|].
  apply Forall_app_2; eapply list.Forall_impl; [exact F1| |exact F2|]; cbn; intros; lia.
Qed.

Lemma session_loop_serials p l : forall w u w',
  session_loop md5 malloc ctx_size aes_ok fresh random air_send netstat security_level l p w = Some (u, w') ->
  recv_sn (ble w') = recv_sn (ble w) /\ exists c, calls (log w') = calls (log w) ++ c /\ Forall (fun x => x.2 = p) c.
Proof.
  induction l as [|f l IH]; intros w u w' E; cbn [session_loop] in E.
  { injection E as _ <-. split; [done|]. exists []. by rewrite app_nil_r. }
  apply st_bind_inv in E as ([] & w1 & E1 & E). apply IH in E as (R & c & C & F).
  destruct f as [[|n]|]; cbn [session_call] in E1.
  - pose proof (leaves_system _ _ _ _ E1) as Hs. injection Hs as Hs Hc. rewrite R, Hs. split; [done|]. exists c. by rewrite C, Hc.
  - injection E1 as <-. cbn [ble log] in *. split; [done|]. exists ((n, p) :: c). rewrite C, calls_app. cbn. rewrite <- app_assoc. split; [done|]. by constructor.
  - injection E1 as <-. split; [done|]. by exists c.
Qed.

(** The radio, the timers and the application, in any order. *)
Inductive ble_step := on_radio (ev : ble_event) | on_monitor (connected : bool) | on_pair_timeout | on_send (type_ ack_sn : Z) (data_ : option (list Z)) (len_ : Z).
Definition do_step (st : ble_step) : M unit :=
  match st with
  | on_radio ev => tal_ble_event_callback md5 malloc ctx_size aes_ok fresh random air_send netstat security_level ev
  | on_monitor c => ble_mointor_timer_cb md5 malloc ctx_size aes_ok fresh netstat c
  | on_pair_timeout => ble_pair_timeout_cb
  | on_send t a d l => _ ← tuya_ble_send md5 malloc ctx_size aes_ok fresh random air_send t a d l; mret tt
  end.
Fixpoint do_steps (l : list ble_step) : M unit := match l with [] => mret tt | st :: l => _ ← do_step st; do_steps l end.
(** No peer connects. *)
Definition no_connect (st : ble_step) : Prop := match st with on_radio (ev_connect 0 _) => False | _ => True end.

Lemma step_serials st w u w' : no_connect st -> do_step st w = Some (u, w') -> grows w w'.
Proof.
  destruct st as [ev|c| |t a d n]; cbn [do_step]; intros Hc E; [|eapply grows_leaves; [|exact E]..].
  - destruct ev as [r|r char|c|char report|]; unfold tal_ble_event_callback in E; change ((get_ble ≫= ?f) w) with (f (ble w) w) in E; cbv beta iota in E;
      [eapply grows_leaves; [|exact E]; leaves_tac| |eapply grows_leaves; [|exact E]; leaves_tac| |eapply grows_leaves; [|exact E]; leaves_tac].
    + destruct (r =? 0) eqn:Er; [apply Z.eqb_eq in Er; by subst|]. eapply grows_leaves; [|exact E]. eauto with leaves.
    + destruct (char =? _); [|eapply grows_leaves; [|exact E]; leaves_tac].
      apply st_bind_inv in E as ([ret p] & w1 & E1 & E). apply recv_serials in E1 as (C1 & R1 & P1). cbv beta iota in E.
      assert (w' = w1 \/ exists q c, calls (log w') = calls (log w1) ++ c /\ Forall (fun x => x.2 = q) c /\ recv_sn (ble w') = recv_sn (ble w1)
        /\ recv_sn (ble w) < sn q /\ sn q = recv_sn (ble w1)) as [->|(q & c & C & F & R & Hq)].
      { destruct (ret =? OPRT_OK) eqn:Er; cbn [negb] in E; [apply Z.eqb_eq in Er as ->|left; by injection E]. right. run_inv.
        match goal with H : session_loop _ _ _ _ _ _ _ _ _ _ _ _ = _ |- _ => apply session_loop_serials in H as (R & c & C & F) end. exists x, c. by specialize (P1 eq_refl x eq_refl). }
      * split; [done|]. exists []. by rewrite C1, app_nil_r.
      * split; [lia|]. exists c. rewrite C, C1. split; [done|]. eapply list.Forall_impl; [exact F|]. intros x ->. lia.
  - unfold ble_mointor_timer_cb. leaves_tac.
  - unfold ble_pair_timeout_cb. leaves_tac.
  - leaves_tac.
Qed.
Lemma steps_serials l : forall w u w', Forall no_connect l -> do_steps l w = Some (u, w') -> grows w w'.
Proof.
  induction l as [|st l IH]; intros w u w' Hl E; cbn [do_steps] in E.
  { eapply grows_leaves; [|exact E]. apply leaves_ret. }
  apply list.Forall_cons in Hl as [Hs Hl]. apply st_bind_inv in E as (a & w1 & E1 & E2). eapply grows_trans; [by eapply step_serials|by eapply IH].
Qed.

(** (C2) No packet is taken twice. While no peer connects anew, and whatever the radio, the
    timers and the application do, the packets handed to the sessions later carry larger
    serial numbers than those handed earlier, and all carry larger ones than the last one
    received at the start. *)
Theorem ble_no_replay l1 l2 w w1 w2 : Forall no_connect (l1 ++ l2) -> do_steps l1 w = Some (tt, w1) -> do_steps l2 w1 = Some (tt, w2) ->
  exists c1 c2, calls (log w1) = calls (log w) ++ c1 /\ calls (log w2) = calls (log w1) ++ c2
    /\ Forall (fun x => recv_sn (ble w) < sn x.2) (c1 ++ c2) /\ (forall x y, x ∈ c1 -> y ∈ c2 -> sn x.2 < sn y.2).
Proof.
  intros Hl E1 E2. apply Forall_app in Hl as [Hl1 Hl2]. apply steps_serials in E1 as [R1 (c1 & C1 & F1)]; [|done].
  apply steps_serials in E2 as [R2 (c2 & C2 & F2)]; [|done]. exists c1, c2. split_and!; [done..| |].
  - apply Forall_app_2; eapply list.Forall_impl; [exact F1| |exact F2|]; cbn; intros; lia.
  - intros x y Hx Hy. rewrite list.Forall_forall in F1, F2. specialize (F1 x Hx). specialize (F2 y Hy). cbn in *. lia.
Qed.
End Serials.

(** * Commands without a key *)

Section Plain.
Context `{AesLaws} (md5 : Md) (malloc : Z -> bool) (ctx_size : Z).
Context (fresh : Z -> list Z) (random : nat -> Z -> list Z) (air_send : list (list Z) -> list Z -> Z) (netstat security_level : Z).
Context (Hm : forall n, malloc n = true) (Hfresh : forall n, 0 <= n -> zlen (fresh n) = n) (Hrandom : forall k n, 0 <= n -> zlen (random k n) = n).

Lemma encode_plain_ok w p : packet_ok p -> encrypt_mode p = ENCRYPTION_MODE_NONE -> 46 + len p <= TUYA_BLE_AIR_FRAME_MAX ->
  wp (ble_packet_encode md5 malloc ctx_size true fresh random p)
    (fun r w' => client w' = client w /\ frame w' = frame w /\ exists out rest, r = (OPRT_OK, Some (out ++ rest, zlen out)) /\ zlen out <= TUYA_BLE_AIR_FRAME_MAX) w.
Proof.
  intros Hp Hmode Hn. unfold TUYA_BLE_AIR_FRAME_MAX in Hn. pose proof (zlen_plain_packet (send_sn (ble w)) p Hp) as Hf. set (f := plain (send_sn (ble w)) p) in *.
  assert (0 <= len p) by (destruct Hp as [-> _ _]; apply zlen_nonneg).
  destruct (frame_build_ok (fresh 1024) (send_sn (ble w)) p Hp) as (fsuf & Eb & Lf); [rewrite Hfresh by lia; lia|]. fold f in Eb, Lf.
  assert (exists es, wr (fresh 1024) 0 0 = Some (0 :: es) /\ zlen es = 1023) as (es & Ew & Le).
  { pose proof (Hfresh 1024 ltac:(lia)) as Hl. destruct (fresh 1024) as [|x es]; [done|]. rewrite zlen_cons in Hl. exists es. split; [apply (wr_mid [])|lia]. }
  pose proof (Hrandom (draws w) 16 ltac:(lia)) as Hiv. set (iv := random (draws w) 16) in *.
  destruct (blit_step [0] es iv 1 eq_refl ltac:(lia)) as (es1 & Ei & Le1). cbn [app] in Ei.
  destruct (blit_step [] es1 f 0 eq_refl ltac:(lia)) as (es2 & E2 & Le2). cbn [app] in E2.
  unfold ble_packet_encode. rewrite Hm. cbn [negb]. unfold TUYA_BLE_AIR_FRAME_MAX. wp_go. eapply wp_pure; [exact Eb|]. wp_go. rewrite Hmode.
  eapply wp_pure; [exact Ew|]. wp_go. fold f.
  assert (0 <= (if zlen f mod 16 =? 0 then 0 else 16 - zlen f mod 16) <= 15)
    by (pose proof (Z.mod_pos_bound (zlen f) 16 ltac:(lia)); destruct (Z.eqb_spec (zlen f mod 16) 0); lia).
  replace (1024 <? zlen f + (17 + (if zlen f mod 16 =? 0 then 0 else 16 - zlen f mod 16))) with false by lia. wp_go. apply wp_random. fold iv. wp_go.
  eapply wp_pure; [exact Ei|]. wp_go. change (drop 17 (0 :: iv ++ es1)) with (drop 16 (iv ++ es1)). rewrite drop_app_length' by (unfold zlen in Hiv; lia).
  eapply wp_pure. { unfold tuya_ble_encryption. cbn [Z.leb]. change (ENCRYPTION_MODE_MAX <=? ENCRYPTION_MODE_NONE) with false. change (ENCRYPTION_MODE_NONE =? ENCRYPTION_MODE_NONE) with true. cbv iota.
    rewrite slice_prefix. cbn [mbind option_bind]. rewrite E2. reflexivity. }
  wp_go. eapply wp_pure; [done|]. wp_go. split_and!; [done..|]. exists (0 :: iv ++ f), es2.
  change (take 17 (0 :: iv ++ es1)) with (0 :: take 16 (iv ++ es1)). rewrite take_app_length' by (unfold zlen in Hiv; lia).
  rewrite u32_small by (unfold is_u32; lia). cbn [app]. rewrite <- app_assoc, zlen_cons, zlen_app, Hiv. split; [do 3 f_equal; lia|unfold TUYA_BLE_AIR_FRAME_MAX; lia].
Qed.

(** The transmitter can cut a response. *)
Definition can_send (w : world) : Prop := 0 <= s_ble_frame_seq (frame w) /\ 7 <= s_ble_frame_packet_len (frame w) < 65536.

Lemma resp_plain_ok w p : packet_ok p -> encrypt_mode p = ENCRYPTION_MODE_NONE -> 46 + len p <= TUYA_BLE_AIR_FRAME_MAX -> can_send w ->
  wp (ble_packet_resp md5 malloc ctx_size true fresh random air_send p) (fun _ w' => client w' = client w) w.
Proof.
  intros Hp Hmode Hn [Hs Hl]. unfold ble_packet_resp. apply wp_bind. eapply wp_weaken; [by apply encode_plain_ok|].
  intros [rt o] w' (Hc & Hf & out & rest & [= -> ->] & Hz). cbv beta iota. change (negb (OPRT_OK =? OPRT_OK)) with false. wp_go.
  eapply wp_pure; [done|]. wp_go. rewrite Hm. cbn [negb]. rewrite Hm, Hf. unfold ble_frame_trsmitr_create at 1. cbn [fst snd andb].
  destruct (resp_once air_send (Z.to_nat (zlen out)) (frame w) _ out rest eq_refl Hs Hl) as ([[rt g'] air] & E); [unfold TUYA_BLE_AIR_FRAME_MAX in Hz; lia|].
  wp_go. eapply wp_pure; [exact E|]. wp_go. done.
Qed.

(** The other sessions only take the packet. *)
Lemma others_ok l p : Forall (fun f => f <> Some ble_session_system) l -> forall w,
  wp (session_loop md5 malloc ctx_size true fresh random air_send netstat security_level l p) (fun _ w' => client w' = client w /\ exists es, log w' = log w ++ es) w.
Proof.
  induction 1 as [|f l Hf _ IH]; intros w; cbn [session_loop].
  { wp_go. split; [done|]. exists []. by rewrite app_nil_r. }
  apply wp_bind. destruct f as [[|n]|]; [done|..]; cbn [session_call].
  - wp_go. eapply wp_weaken; [apply IH|]. cbn [client log]. intros _ w' [Hc (es & He)]. split; [done|]. eexists. by rewrite He, <- app_assoc.
  - wp_go. apply IH.
Qed.
(** (C38) The mode byte of a packet chooses the key, and mode 0 none: a reset command that was
    sealed with nothing, from any peer and without pairing, is obeyed. The device is reset and
    is no longer activated, whatever its keys are. *)
Theorem ble_plain_reset w l s sq t : can_send w -> buffers_ok (recv (ble w)) 17 -> session (ble w) = Some ble_session_system :: l ->
  Forall (fun f => f <> Some ble_session_system) l -> is_u32 s -> recv_sn (ble w) < s -> 0 <= sq < 16 ->
  t = FRM_UNBONDING_REQ \/ t = FRM_DEVICE_RESET ->
  let p := {| sn := s; type := t; len := 2; data := Some [0; 0]; encrypt_mode := ENCRYPTION_MODE_NONE |} in
  let report := header_bytes 0 17 4 sq ++ ENCRYPTION_MODE_NONE :: plain s p in
  wp (on_event md5 malloc ctx_size fresh random air_send netstat security_level (ev_write (peer_char (ble w)) report))
    (fun _ w' => is_activated (client w') = false /\ e_iot_reset ∈ log w') w.
Proof.
  intros Hcs (B1 & B2 & B3) Hses Hl Hs Hsn Hsq Ht p report.
  assert (packet_ok p) as Hp by (split; [done|repeat constructor; done|destruct Ht as [-> | ->]; done]).
  assert (zlen (plain s p) = 16) as Hz by (by rewrite zlen_plain_packet).
  destruct (packet_recv_spec (recv (ble w)) 17 4 sq 0 [] (ENCRYPTION_MODE_NONE :: plain s p)) as (r & E & _ & _ & Hrl & (suf & Hrb) & Hv & _);
    rewrite ?zlen_cons, ?Hz; try (done || lia). cbn [app] in *. rewrite zlen_cons, Hz in E, Hrl.
  unfold wp. erewrite (write_last md5 malloc ctx_size fresh random air_send netstat security_level Hm w report r s p (crypt w) (zrepl 1008 0)); [|exact E|].
  2: { unfold opens, TUYA_BLE_AIR_FRAME_MAX. rewrite Hrl, Hrb, Hv. split_and!; try (done || lia). eexists.
       change (zrepl 1024 (0 : Z)) with (zrepl 16 (0 : Z) ++ zrepl 1008 (0 : Z)). replace (1 + 16) with (1 + zlen (plain s p)) by lia.
       apply plain_ok; rewrite Hz; [lia|done]. }
  fold (wp (sessions md5 malloc ctx_size fresh random air_send netstat security_level (session (ble w)) (delivered s p))
    (fun _ w' => is_activated (client w') = false /\ e_iot_reset ∈ log w') (received w r (plain s p ++ zrepl 1008 0) (crypt w) s)).
  rewrite Hses. unfold sessions. cbn [session_loop session_call]. set (w1 := received _ _ _ _ _). apply wp_bind.
  assert (can_send w1) as Hcs1 by done. clearbody w1. unfold ble_session_system_process, delivered. cbn [type p len data encrypt_mode].
  destruct Ht as [-> | ->]; cbn [Z.eqb orb FRM_QRY_DEV_INFO_REQ FRM_PAIR_REQ FRM_UNBONDING_REQ FRM_DEVICE_RESET Pos.eqb].
  all: unfold ble_unbind_req; wp_go; eapply wp_weaken; [apply resp_plain_ok; [split; [done|repeat constructor; done|done]|done|done|done]|].
  all: intros ? w2 Hc2; cbv beta; wp_go; eapply wp_weaken; [by apply others_ok|]; intros ? w3 [Hc3 (es & He)];
    rewrite Hc3, He; cbn [client log]; split; [done|]; rewrite !elem_of_app; left; left; right; by left.
Qed.
End Plain.

(** * The advertisement *)

(** A list of structures as the standard has it: length, type, data. *)
Fixpoint ad_parse (fuel : nat) (l : list Z) : option (list (Z * list Z)) :=
  match fuel, l with
  | _, [] => Some []
  | S fuel, n :: t :: l => d ← slice l 0 (n - 1); rest ← ad_parse fuel (drop (length d) l); Some ((t, d) :: rest)
  | _, _ => None
  end.
Lemma ad_parse_cons fuel n t d l : n - 1 = zlen d -> ad_parse (S fuel) (n :: t :: d ++ l) = rest ← ad_parse fuel l; Some ((t, d) :: rest).
Proof. intros E. cbn [ad_parse]. rewrite E, slice_prefix. cbn [mbind option_bind]. by rewrite drop_app_length. Qed.

Section Adv.
Context `{AesLaws} (md5 : Md) (D : list Z -> list Z) (absorbed : md_ctx md5 -> list Z -> Prop) (malloc : Z -> bool) (ctx_size : Z).
Context (fresh : Z -> list Z) (L : MdLaws md5 MD5_SIZE D absorbed) (Hm : forall n, malloc n = true) (Hfresh : forall n, 0 <= n -> zlen (fresh n) = n).

(** (C37) The advertisement and the scan response fit the 31 bytes of the radio, whatever the
    identity, the name and the link: the first is full, the second ends after at most five
    characters of the name, and both are well-formed lists of structures. The service data
    carry the frame control and 16 bytes of identity, in the clear until the device is
    activated. *)
Theorem ble_adv_fits b c link adv0 rsp0 name r : zlen adv0 = 31 -> zlen rsp0 = 31 -> 16 <= zlen (id b) -> bytes_ok (id b) ->
  16 <= zlen (c_productkey c) -> 16 <= zlen (c_seckey c) -> c_name c = name ++ 0 :: r -> text_ok name -> zlen name < 256 ->
  let n := Z.min (zlen name) TUYA_BLE_NAME_LEN in
  let fc := frame_ctrl link (is_activated c) in
  exists adv rsp d m, ble_adv_set md5 malloc ctx_size true fresh b c link adv0 rsp0 = Some (adv, 31, rsp, 26 + n)
    /\ zlen adv = 31 /\ zlen rsp = 31
    /\ ad_parse 3 adv = Some [(0x01, [0x06]); (0x02, [0x50; 0xFD]); (0x16, [0x50; 0xFD; u8 (Z.shiftr fc 8); u8 fc; 0; 16] ++ d)]
    /\ zlen d = 16 /\ (is_activated c = false -> d = take 16 (c_productkey c))
    /\ ad_parse 2 (take (Z.to_nat (26 + n)) rsp) = Some [(0xFF, m); (0x09, take (Z.to_nat n) name)].
Proof.
  intros Ha Hr Hid Hib Hpk Hsk Hname Htx Hnl n fc. pose proof (zlen_nonneg name). unfold TUYA_BLE_NAME_LEN in n.
  destruct (split_at (id b) 16) as (id1 & id2 & Eid & Li); [lia|]. assert (bytes_ok id1) as Hi1 by (rewrite Eid in Hib; by apply Forall_app in Hib as [? _]).
  destruct (split_at adv0 15) as (a0 & a1 & -> & La0); [lia|]. rewrite zlen_app in Ha. destruct (split_at2 rsp0 8 16) as (r0 & r1 & r2 & -> & Lr0 & Lr1); [lia..|].
  rewrite !zlen_app in Hr. unfold ble_adv_set. fold fc. rewrite blit_prefix by done. cbn [mbind option_bind].
  set (h := [0x02; 0x01; 0x06; 0x03; 0x02; 0x50; 0xFD; 3 + 2 + 2 + BLE_ID_LEN; 0x16; 0x50; 0xFD] ++ [u8 (Z.shiftr fc 8); u8 fc; 0; BLE_ID_LEN]).
  assert (forall x, drop 15 (h ++ x) = x /\ take 15 (h ++ x) = h /\ drop 11 (h ++ x) = [u8 (Z.shiftr fc 8); u8 fc; 0; 16] ++ x) as Hh by done.
  rewrite blit_prefix by done. cbn [mbind option_bind]. set (g := [0x17; 0xFF; _; _; _; _; _; _]).
  assert (forall x, drop 8 (g ++ x) = x /\ take 8 (g ++ x) = g) as Hg by done.
  assert (exists d, zlen d = 16 /\ (is_activated c = false -> d = take 16 (c_productkey c)) /\ (if is_activated c then
           '(_, out) ← tuya_ble_adv_id_encrypt md5 malloc ctx_size true (fresh 114) (c_seckey c) (id b) BLE_ID_LEN (drop 15 (h ++ a1)); Some (take 15 (h ++ a1) ++ out)
         else d ← slice (c_productkey c) 0 BLE_ID_LEN; blit (h ++ a1) 15 d) = Some (h ++ d)) as (d & Ld & Hd & ->).
  { destruct (is_activated c).
    - destruct (split_at (c_seckey c) 16) as (k1 & k2 & -> & Lk); [lia|]. destruct (Hh a1) as (-> & -> & _). rewrite Eid, <- (app_nil_r a1).
      destruct (adv_id_ok md5 D absorbed malloc ctx_size L (Hm _) (fresh 114) k1 k2 id1 id2 a1 []) as (out & Lo & E); try done; [by apply Hfresh|lia|].
      unfold BLE_ID_LEN. rewrite E. cbn [mbind option_bind]. exists out. by rewrite app_nil_r.
    - destruct (split_at (c_productkey c) 16) as (k1 & k2 & -> & Lk); [lia|]. unfold BLE_ID_LEN. rewrite slice_prefix_n by done. cbn [mbind option_bind].
      exists k1. split_and!; [done| |].
      + intros _. symmetry. apply take_app_length'. unfold zlen in Lk. lia.
      + change 15 with (zlen h). pose proof (blit_mid h a1 k1 [] ltac:(lia)) as E. by rewrite !app_nil_r in E. }
  cbn [mbind option_bind]. destruct (Hh d) as (_ & _ & ->). destruct (Hg (r1 ++ r2)) as (-> & ->). unfold BLE_ID_LEN. rewrite Eid.
  destruct (rsp_id_ok md5 D absorbed malloc ctx_size L (Hm _) ([u8 (Z.shiftr fc 8); u8 fc; 0; 16] ++ d) [] (16 + 4) id1 id2 r1 r2) as (m & Lm & E);
    [rewrite zlen_app, Ld; done|done..|]. rewrite app_nil_r in E. rewrite E. cbn [mbind option_bind]. rewrite Hname.
  rewrite strlen_before by done. cbn [mbind option_bind]. rewrite u8_small by (unfold is_u8; lia).
  replace (if TUYA_BLE_NAME_LEN <? zlen name then TUYA_BLE_NAME_LEN else zlen name) with n
    by (unfold n, TUYA_BLE_NAME_LEN; destruct (Z.ltb_spec 5 (zlen name)); lia).
  set (nm := take (Z.to_nat n) name) in *. assert (zlen nm = n) as Ln by (apply zlen_take; lia).
  assert (slice (name ++ 0 :: r) 0 n = Some nm) as ->.
  { rewrite <- (take_drop (Z.to_nat n) name), <- app_assoc. by apply slice_prefix_n. }
  cbn [mbind option_bind].
  destruct (blit_step (g ++ m) r2 ([n + 1; 0x09] ++ nm) 24) as (r3 & E3 & L3); [rewrite zlen_app, Lm; done|rewrite !zlen_app, Ln; change (zlen [n + 1; 9]) with 2; lia|].
  rewrite <- app_assoc in E3. rewrite E3. cbn [mbind option_bind]. rewrite !zlen_app, Ln in L3. change (zlen [n + 1; 9]) with 2 in L3.
  eexists _, _, d, (drop 2 g ++ m). split_and!; [reflexivity|rewrite zlen_app, Ld; done| | |done|done|].
  - rewrite !zlen_app, Ln, Lm, L3. change (zlen g) with 8. change (zlen [n + 1; 9]) with 2. lia.
  - unfold h. change (ad_parse 3 (([2; 1; 6; 3; 2; 80; 253; 3 + 2 + 2 + BLE_ID_LEN; 22; 80; 253] ++ ?x) ++ d))
      with (ad_parse 3 (2 :: 1 :: [6] ++ 3 :: 2 :: [80; 253] ++ 23 :: 22 :: ([80; 253] ++ x) ++ d)).
    do 2 rewrite ad_parse_cons by done. set (sd := _ ++ d). rewrite <- (app_nil_r sd), ad_parse_cons by (unfold sd; rewrite zlen_app, Ld; done). by rewrite app_nil_r.
  - replace (take _ _) with (g ++ m ++ [n + 1; 9] ++ nm).
    2: { symmetry. rewrite <- !app_assoc. rewrite !(app_assoc g), !(app_assoc (g ++ m)), !(app_assoc ((g ++ m) ++ [n + 1; 9])). apply take_app_length'.
         unfold zlen in Lm, Ln. rewrite !length_app. cbn [length g]. lia. }
    change (g ++ ?x) with (23 :: 255 :: drop 2 g ++ x). rewrite app_assoc. rewrite ad_parse_cons by (rewrite zlen_app, Lm; done).
    change ([n + 1; 9] ++ nm) with (n + 1 :: 9 :: nm). rewrite <- (app_nil_r nm), ad_parse_cons by lia. by rewrite app_nil_r.
Qed.
End Adv.

(** * Witnesses *)

Definition sample_trsmitr : ble_frame_trsmitr_t :=
  {| total := 0; version := 0; seq := 0; pkg_desc := 0; subpkg_num := 0; pkg_trsmitr_cnt := 0; subpkg_len := 0; subpkg := zrepl 20 0 |}.
Definition sample_mgr (send recv : Z) (l : list (option ble_session_fn_t)) : tuya_ble_mgr_t :=
  {| id := zrepl 17 65; is_id_comp := false; ble_rand := zrepl 6 3; is_paired := false; peer_char := 7; send_sn := send; recv_sn := recv;
     recv := {| trsmitr := sample_trsmitr; raw_len := 0; raw_buf := zrepl 1024 0 |}; dec_buf := zrepl 1024 0; session := l |}.
Definition sample_client : ble_client_t :=
  {| c_productkey := zrepl 17 66; c_authkey := zrepl 33 67; c_seckey := zrepl 17 68; c_localkey := zrepl 17 69; c_name := [84; 89; 0]; is_activated := true |}.
Definition sample_world (b : tuya_ble_mgr_t) : world :=
  {| ble := b; client := sample_client; frame := {| s_ble_frame_seq := 0; s_ble_frame_packet_len := 20 |}; crypt := crypt_init; s_iot_conn_stat := false;
     draws := 0; log := [] |}.
Definition sample_packet : ble_packet_t := {| sn := 9; type := 0x8001; len := 3; data := Some [1; 2; 3]; encrypt_mode := ENCRYPTION_MODE_SESSION_KEY15 |}.
Definition sample_fresh (n : Z) : list Z := zrepl n 0.
Definition sample_random (k : nat) (n : Z) : list Z := zrepl n 5.
Definition sample_send (air : list (list Z)) (pkt : list Z) : Z := OPRT_OK.
(** A packet in one piece, in the clear. *)
Definition sample_report (s : Z) : list Z :=
  header_bytes 0 17 4 0 ++ ENCRYPTION_MODE_NONE :: plain s {| sn := 0; type := 0x8001; len := 2; data := Some [0; 0]; encrypt_mode := ENCRYPTION_MODE_NONE |}.

Lemma ble_channel_delivers_witness :
  let phone := sample_world (sample_mgr 4 0 []) in
  let w := sample_world (sample_mgr 1 3 [Some (session_other 1)]) in
  exists out phone' pkts r dec g,
    ble_packet_encode (toy_md 16) (fun _ => true) 92 true sample_fresh sample_random sample_packet phone
    = Some ((OPRT_OK, Some (out, 31 + len sample_packet + zlen (pad (14 + len sample_packet)))), phone')
    /\ send_frame (S (Z.to_nat (31 + len sample_packet + zlen (pad (14 + len sample_packet))))) (frame phone) (Some sample_trsmitr) 4 out
         (31 + len sample_packet + zlen (pad (14 + len sample_packet))) = Some (OPRT_OK, pkts)
    /\ Forall (fun pkt => zlen pkt <= 20) pkts
    /\ writes (toy_md 16) (fun _ => true) 92 sample_fresh sample_random sample_send 0 0 7 pkts w
       = sessions (toy_md 16) (fun _ => true) 92 sample_fresh sample_random sample_send 0 0 [Some (session_other 1)] (delivered 4 sample_packet) (received w r dec g 4).
Proof.
  intros phone w.
  refine (ble_channel_delivers (toy_md 16) (toy_digest 16) eq (fun _ => true) 92 sample_fresh sample_random sample_send 0 0 _ _ _ _
    phone w sample_packet sample_trsmitr 4 _ _ _ _ _ _ _ _ _ _ _ _ _ _ _).
  - by apply toy_md_laws.
  - done.
  - intros n Hn. by apply zlen_zrepl.
  - intros k n Hn. by apply zlen_zrepl.
  - constructor; [done|repeat constructor; done|done].
  - do 3 right. by left.
  - done.
  - done.
  - by constructor.
  - by constructor.
  - by constructor.
  - by constructor.
  - reflexivity.
  - reflexivity.
  - done.
  - done.
  - done.
  - done.
  - done.
Defined.

Definition after (l : list ble_step) (w : world) : world :=
  match do_steps (toy_md 16) (fun _ => true) 92 true sample_fresh sample_random sample_send 0 0 l w with Some (_, w') => w' | None => w end.
Lemma after_run l w :
  match do_steps (toy_md 16) (fun _ => true) 92 true sample_fresh sample_random sample_send 0 0 l w with Some _ => true | None => false end = true ->
  do_steps (toy_md 16) (fun _ => true) 92 true sample_fresh sample_random sample_send 0 0 l w = Some (tt, after l w).
Proof. unfold after. by destruct (do_steps _ _ _ _ _ _ _ _ _ _ _) as [[[] w']|]. Qed.

(** The packet with number 4 is taken once though it comes twice, and then the one with 6. *)
Lemma ble_no_replay_witness :
  let w := sample_world (sample_mgr 1 3 [Some (session_other 1)]) in
  let l1 := [on_radio (ev_write 7 (sample_report 4)); on_radio (ev_write 7 (sample_report 4))] in
  let l2 := [on_monitor true; on_radio (ev_write 7 (sample_report 6))] in
  (fun x => sn x.2) <$> calls (log (after l2 (after l1 w))) = [4; 6]
  /\ exists c1 c2, calls (log (after l1 w)) = calls (log w) ++ c1 /\ calls (log (after l2 (after l1 w))) = calls (log (after l1 w)) ++ c2
    /\ Forall (fun x => 3 < sn x.2) (c1 ++ c2) /\ (forall x y, x ∈ c1 -> y ∈ c2 -> sn x.2 < sn y.2).
Proof.
  intros w l1 l2. split; [by vm_compute|].
  refine (ble_no_replay (toy_md 16) (fun _ => true) 92 true sample_fresh sample_random sample_send 0 0 l1 l2 w (after l1 w) (after l2 (after l1 w)) _ _ _).
  - repeat constructor.
  - apply after_run. by vm_compute.
  - apply after_run. by vm_compute.
Defined.

Lemma ble_plain_reset_witness :
  let w := sample_world (sample_mgr 1 3 [Some ble_session_system; Some (session_other 1)]) in
  let p := {| sn := 4; type := FRM_DEVICE_RESET; len := 2; data := Some [0; 0]; encrypt_mode := ENCRYPTION_MODE_NONE |} in
  wp (on_event (toy_md 16) (fun _ => true) 92 sample_fresh sample_random sample_send 0 0
       (ev_write 7 (header_bytes 0 17 4 0 ++ ENCRYPTION_MODE_NONE :: plain 4 p)))
    (fun _ w' => is_activated (client w') = false /\ e_iot_reset ∈ log w') w.
Proof.
  intros w p. refine (ble_plain_reset (toy_md 16) (fun _ => true) 92 sample_fresh sample_random sample_send 0 0 _ _ _ w [Some (session_other 1)] 4 0
    FRM_DEVICE_RESET _ _ _ _ _ _ _ _); try done.
  - intros n Hn. by apply zlen_zrepl.
  - intros k n Hn. by apply zlen_zrepl.
  - by constructor.
  - by right.
Defined.

Lemma ble_adv_fits_witness :
  let b := sample_mgr 1 3 [] in
  exists adv rsp d m, ble_adv_set (toy_md 16) (fun _ => true) 92 true sample_fresh b sample_client 0 (zrepl 31 0) (zrepl 31 9) = Some (adv, 31, rsp, 28)
    /\ zlen adv = 31 /\ zlen rsp = 31
    /\ ad_parse 3 adv = Some [(0x01, [0x06]); (0x02, [0x50; 0xFD]); (0x16, [0x50; 0xFD; 75; 12; 0; 16] ++ d)]
    /\ zlen d = 16 /\ (is_activated sample_client = false -> d = take 16 (c_productkey sample_client))
    /\ ad_parse 2 (take (Z.to_nat 28) rsp) = Some [(0xFF, m); (0x09, [84; 89])].
Proof.
  intros b. refine (ble_adv_fits (toy_md 16) (toy_digest 16) eq (fun _ => true) 92 sample_fresh _ _ _ b sample_client 0 (zrepl 31 0) (zrepl 31 9) [84; 89] []
    _ _ _ _ _ _ _ _ _); try done.
  - by apply toy_md_laws.
  - intros n Hn. by apply zlen_zrepl.
  - by repeat constructor.
  - by repeat constructor.
Defined.
