(* ===== verification/Json.v ===== *)
(** The calls of cJSON the client and the pairing over BLE make, as an interface with the
    laws its documentation gives. *)
From Stdlib Require Import ZArith Lia.
From stdpp Require Import base tactics option list numbers.
From S2P Require Import Prelude Tools.

Local Open Scope Z_scope.

(** Names are compared without their case, taking an item out leaves the others, and what
    is printed can be parsed. [cjson_string] is the member [valuestring], which only strings
    have. *)
Definition lower (c : Z) : Z := if (65 <=? c) && (c <=? 90) then c + 32 else c.
Class CJson := {
  cjson : Type;
  cJSON_Parse : list Z -> option cjson;
  cJSON_GetObjectItem : cjson -> list Z -> option cjson;
  cjson_string : cjson -> option (list Z);
  cJSON_DetachItemFromObject : cjson -> list Z -> cjson;
  cJSON_PrintUnformatted : cjson -> list Z }.
Class CJsonLaws `{CJson} := {
  detach_other j k k' : lower <$> k <> lower <$> k' -> cJSON_GetObjectItem (cJSON_DetachItemFromObject j k) k' = cJSON_GetObjectItem j k';
  print_text j : text_ok (cJSON_PrintUnformatted j) /\ 0 < zlen (cJSON_PrintUnformatted j) < 2147483600;
  parse_print j rest : exists j', cJSON_Parse (cJSON_PrintUnformatted j ++ 0 :: rest) = Some j'
    /\ forall k, (cjson_string <$> cJSON_GetObjectItem j' k) = (cjson_string <$> cJSON_GetObjectItem j k) }.
