(* ===== verification/BleChannel.v ===== *)
(** The transparent channel over BLE: [src/tuya_cloud_service/ble/ble_channel.c], which cuts
    and joins large data above the packets of [BleMgr], and its user [ble_netcfg.c], which
    takes the network and the token of a pairing. *)
From Stdlib Require Import ZArith Lia String.
From stdpp Require Import base tactics option list numbers.
From S2P Require Import Prelude Text StateM Tools Json BleFrame BleMgr.

Local Open Scope Z_scope.

Definition FRM_DOWNLINK_TRANSPARENT_REQ : Z := 0x801B.
Definition FRM_UPLINK_TRANSPARENT_REQ : Z := 0x801C.
Definition FRM_DOWNLINK_TRANSPARENT_SPEC_REQ : Z := 0x801E.
Definition FRM_UPLINK_TRANSPARENT_SPEC_REQ : Z := 0x801F.
Definition FRM_DATA_TRANS_SUBCMD_BT_NETCFG : Z := 0x0001.
Definition SUBPACKET_RECV_ALL_DONE : Z := 0.
Definition SUBPACKET_RECV_ONE_AND_NEXT : Z := 1.
Definition BLE_CHANNLE_NETCFG : Z := 1.
Definition BLE_CHANNEL_MAX : Z := 2.
Definition WIFI_SSID_LEN : Z := 32.
Definition WIFI_PASSWD_LEN : Z := 64.
Definition WL_TOKEN_LEN : Z := 16.

(** [rsp_data] is the block, [subpack_data] the place two bytes into it. *)
Record ble_channel_mgr_t := { rsp_data : option (list Z); subpack_no : Z; subpack_sent : Z; subpack_len : Z }.
Definition channel_mgr_init : ble_channel_mgr_t := {| rsp_data := None; subpack_no := 0; subpack_sent := 0; subpack_len := 0 |}.

(** The static variables of [ble_session_channel_process]. *)
Record downlink := { totalLen : Z; pBuffer : option (list Z); receivedLen : Z }.

(** The functions of the channels: the one of [ble_netcfg.c], and others by a number. *)
Inductive ble_channel_fn_t := handle_net_cfg_fn | channel_other (n : Z).

Record netcfg_info_t := { ssid : list Z; s_len : Z; passwd : list Z; p_len : Z; token : list Z; t_len : Z }.
(** [netcfg_finish_cb] says that the pointer is set. *)
Record ble_netcfg_t := { netcfg_info : netcfg_info_t; netcfg_finish_cb : bool }.

Inductive channel_effect :=
| c_send (type_ ack_sn : Z) (bytes : list Z) | c_call (n : Z) (data : list Z) | c_finish (info : netcfg_info_t) | c_register | c_adv_update.

Record channel_world := {
  uplink : ble_channel_mgr_t; down : downlink; channel : list (option ble_channel_fn_t); bt_netcfg : ble_netcfg_t; did : list channel_effect }.

Section Channel.
Context {CJ : CJson} (malloc : Z -> bool).
(** The contents of a fresh allocation, and of the first byte of the answer, which is sent
    without being set. *)
Context (fresh : Z -> list Z) (stack : Z).

(** * The state *)
Definition C : Type -> Type := ST channel_world.
Definition put_uplink (u : ble_channel_mgr_t) : C unit := st_modify (fun w =>
  {| uplink := u; down := down w; channel := channel w; bt_netcfg := bt_netcfg w; did := did w |}).
Definition put_down (d : downlink) : C unit := st_modify (fun w =>
  {| uplink := uplink w; down := d; channel := channel w; bt_netcfg := bt_netcfg w; did := did w |}).
Definition upd_channel (f : list (option ble_channel_fn_t) -> list (option ble_channel_fn_t)) : C unit := st_modify (fun w =>
  {| uplink := uplink w; down := down w; channel := f (channel w); bt_netcfg := bt_netcfg w; did := did w |}).
Definition put_netcfg (n : ble_netcfg_t) : C unit := st_modify (fun w =>
  {| uplink := uplink w; down := down w; channel := channel w; bt_netcfg := n; did := did w |}).
Definition does (e : channel_effect) : C unit := st_modify (fun w =>
  {| uplink := uplink w; down := down w; channel := channel w; bt_netcfg := bt_netcfg w; did := did w ++ [e] |}).
Definition val {A} : option A -> C A := st_pure.

Definition set_info (i : netcfg_info_t) : C unit :=
  n ← st_gets bt_netcfg; put_netcfg {| netcfg_info := i; netcfg_finish_cb := netcfg_finish_cb n |}.

(** * The channels *)
Definition ble_channel_add (t : Z) (fn : ble_channel_fn_t) : C Z :=
  if t <? BLE_CHANNEL_MAX then _ ← upd_channel (<[Z.to_nat t := Some fn]>); mret OPRT_OK else mret OPRT_INVALID_PARM.
Definition ble_channel_del (t : Z) : C Z :=
  if t <? BLE_CHANNEL_MAX then _ ← upd_channel (<[Z.to_nat t := None]>); mret OPRT_OK else mret OPRT_INVALID_PARM.

(** * The pairing *)

(** [strnlen(p, n)]. *)
Fixpoint strnlen (n : nat) (p : list Z) : option Z :=
  match n with
  | O => Some 0
  | S n => match p with [] => None | c :: p => if c =? 0 then Some 0 else k ← strnlen n p; Some (1 + k) end
  end.

(** The check of a member and its copy into a cleared array of [max + 1] bytes: [None] inside
    when the length is wrong. *)
Definition netcfg_field (s : list Z) (max : Z) : option (option (list Z * Z)) :=
  n ← strnlen (Z.to_nat (max + 1)) s;
  if (n =? 0) || (max <? n) then Some None
  else
    d ← slice s 0 n; a ← blit (zrepl (max + 1) 0) 0 d; a ← wr a n 0;
    Some (Some (a, u8 n)).

Definition netcfg_clear : netcfg_info_t :=
  {| ssid := zrepl (WIFI_SSID_LEN + 1) 0; s_len := 0; passwd := zrepl (WIFI_PASSWD_LEN + 1) 0; p_len := 0; token := zrepl (WL_TOKEN_LEN + 1) 0; t_len := 0 |}.

Definition netcfg_member (json : cjson) (name : string) : option (list Z) := i ← cJSON_GetObjectItem json (str name); cjson_string i.

(** Up to [__exit]: the result. *)
Definition net_cfg_take (json : cjson) : C Z :=
  match netcfg_member json "ssid", netcfg_member json "token" with
  | Some ssid_, Some token_ =>
      match netcfg_member json "pwd" with
      | None => mret (u8 OPRT_CJSON_GET_ERR)
      | Some passwd_ =>
          _ ← set_info netcfg_clear;
          s ← val (netcfg_field ssid_ WIFI_SSID_LEN);
          match s with
          | None => mret (u8 OPRT_CJSON_GET_ERR)
          | Some (sa, sl) =>
              let i := {| ssid := sa; s_len := sl; passwd := passwd netcfg_clear; p_len := 0; token := token netcfg_clear; t_len := 0 |} in
              _ ← set_info i;
              p ← val (netcfg_field passwd_ WIFI_PASSWD_LEN);
              match p with
              | None => mret (u8 OPRT_CJSON_GET_ERR)
              | Some (pa, pl) =>
                  let i := {| ssid := sa; s_len := sl; passwd := pa; p_len := pl; token := token netcfg_clear; t_len := 0 |} in
                  _ ← set_info i;
                  t ← val (netcfg_field token_ WL_TOKEN_LEN);
                  match t with
                  | None => mret (u8 OPRT_CJSON_GET_ERR)
                  | Some (ta, tl) =>
                      let i := {| ssid := sa; s_len := sl; passwd := pa; p_len := pl; token := ta; t_len := tl |} in
                      _ ← set_info i;
                      n ← st_gets bt_netcfg;
                      _ ← val (if netcfg_finish_cb n then Some tt else None);
                      _ ← does (c_finish i);
                      _ ← (match cJSON_GetObjectItem json (str "reg") with Some _ => does c_register | None => mret tt end);
                      mret 0
                  end
              end
          end
      end
  | _, _ => mret (u8 OPRT_CJSON_GET_ERR)
  end.

(** [cJSON_Parse] reads its text up to the terminator. *)
Definition handle_net_cfg (data : list Z) : C unit :=
  _ ← val (strlen data);
  result ← match cJSON_Parse data with None => mret (u8 OPRT_CJSON_PARSE_ERR) | Some json => net_cfg_take json end;
  does (c_send FRM_UPLINK_TRANSPARENT_REQ 0 [stack; 0x00; 0x00; FRM_DATA_TRANS_SUBCMD_BT_NETCFG; result]).

Definition ble_netcfg_start (cb : bool) : C Z :=
  n ← st_gets bt_netcfg;
  _ ← put_netcfg {| netcfg_info := netcfg_info n; netcfg_finish_cb := cb |};
  _ ← ble_channel_add BLE_CHANNLE_NETCFG handle_net_cfg_fn;
  _ ← does c_adv_update;
  mret OPRT_OK.
Definition ble_netcfg_stop : C Z := _ ← ble_channel_del BLE_CHANNLE_NETCFG; mret OPRT_OK.
(** [netcfg_register] gives its code. *)
Definition ble_netcfg_init (netcfg_register : Z) : C Z :=
  _ ← put_netcfg {| netcfg_info := netcfg_clear; netcfg_finish_cb := false |}; mret netcfg_register.

Definition ble_channel_process (data : list Z) : C unit :=
  d0 ← val (rd data 0); d1 ← val (rd data 1);
  let type_ := Z.lor (Z.shiftl d0 8) d1 in
  c ← st_gets channel;
  if type_ <? BLE_CHANNEL_MAX then
    match c !! Z.to_nat type_ with
    | Some (Some handle_net_cfg_fn) => handle_net_cfg (drop 2 data)
    | Some (Some (channel_other n)) => does (c_call n (drop 2 data))
    | _ => mret tt
    end
  else mret tt.

(** * Data to the peer *)

(** The bytes of the next subpackage and its payload's length. The loop of the length is that
    of [BleFrame], at an offset of at most 7. *)
Definition subpack_make (m : ble_channel_mgr_t) (data : list Z) : option (list Z * Z) :=
  b ← blit (zrepl TUYA_BLE_TRANS_DATA_SUBPACK_LEN 0) 0 [0x00; 0x03; u8 (subpack_no m)];
  '(b, off) ← (if subpack_no m =? 0 then
                 '(b, off) ← num_encode 4 b 3 (subpack_len m);
                 b ← wr b off (Z.shiftl TUYA_BLE_PROTOCOL_VERSION_HIGN 4); Some (b, off + 1)
               else Some (b, 3));
  let n := u16 (TUYA_BLE_TRANS_DATA_SUBPACK_LEN - off) in
  let n := if u32 (subpack_len m - subpack_sent m) <? n then u16 (u32 (subpack_len m - subpack_sent m)) else n in
  d ← slice data (subpack_sent m) n;
  b ← blit b off d;
  bytes ← slice b 0 (off + n);
  Some (bytes, n).

Definition response_to_app_by_subpack (type_ : Z) : C unit :=
  m ← st_gets uplink;
  match rsp_data m with
  | None => mret tt
  | Some d =>
      if negb (malloc TUYA_BLE_TRANS_DATA_SUBPACK_LEN) then mret tt
      else if subpack_sent m <? subpack_len m then
        '(bytes, n) ← val (subpack_make m (drop 2 d));
        _ ← does (c_send type_ 0 bytes);
        put_uplink {| rsp_data := rsp_data m; subpack_no := u32 (subpack_no m + 1); subpack_sent := u32 (subpack_sent m + n); subpack_len := subpack_len m |}
      else mret tt
  end.

Definition ble_channle_ack (type_ : Z) (data_ : list Z) (len_ : Z) : C unit :=
  _ ← put_uplink {| rsp_data := Some data_; subpack_no := 0; subpack_sent := 0; subpack_len := u32 (len_ - 2) |};
  response_to_app_by_subpack type_.

(** * Data from the peer *)

(** The number at the front, and how many bytes it has; the loop is that of [BleFrame]. *)
Definition extract_packet_len (raw_data : list Z) : option (Z * Z) := num_decode 4 raw_data 0 1 0.

(** [memcpy(pBuffer + receivedLen, pRawData + offset, curSubpacketLen)]: nothing checks that
    it fits. *)
Definition down_copy (total : Z) (buf : list Z) (recv_ : Z) (d : list Z) (len_ offset : Z) : C Z :=
  let cur := u32 (len_ - offset) in
  x ← val (slice d offset cur); b ← val (blit buf recv_ x);
  _ ← put_down {| totalLen := total; pBuffer := Some b; receivedLen := u32 (recv_ + cur) |};
  mret cur.

(** [ble_channel_ack_t], packed. *)
Definition ack_bytes (flag status cur_no cur_len recv_ total_ : Z) : list Z :=
  le_bytes 2 (u16 flag) ++ [u8 status] ++ le_bytes 2 (u16 cur_no) ++ le_bytes 2 (u16 cur_len) ++ le_bytes 4 recv_ ++ le_bytes 4 total_.
Definition ACK_SIZE : Z := 15.

Definition down_ack (req : ble_packet_t) (d0 d1 cur_no cur_len : Z) : C unit :=
  w ← st_gets down;
  if negb (malloc ACK_SIZE) then put_down {| totalLen := totalLen w; pBuffer := None; receivedLen := receivedLen w |}
  else
    let ack status := ack_bytes (Z.lor (Z.shiftl d1 8) d0) status cur_no cur_len (receivedLen w) (totalLen w) in
    if receivedLen w <? totalLen w then does (c_send (type req) (sn req) (ack SUBPACKET_RECV_ONE_AND_NEXT))
    else
      _ ← does (c_send (type req) (sn req) (ack SUBPACKET_RECV_ALL_DONE));
      b ← val (pBuffer w);
      ble_channel_process b.

Definition down_process (req : ble_packet_t) (d : list Z) : C unit :=
  d0 ← val (rd d 0); d1 ← val (rd d 1);
  if negb (Z.land d1 0x02 =? 0) then
    d2 ← val (rd d 2);
    if d2 =? 0 then
      '(total_, n) ← val (extract_packet_len (drop 3 d));
      if negb (malloc total_) then put_down {| totalLen := total_; pBuffer := None; receivedLen := 0 |}
      else cur ← down_copy total_ (fresh total_) 0 d (len req) (3 + n + 1); down_ack req d0 d1 0 cur
    else
      w ← st_gets down;
      match pBuffer w with
      | None => mret tt
      | Some b =>
          '(no, n) ← val (extract_packet_len (drop 2 d));
          cur ← down_copy (totalLen w) b (receivedLen w) d (len req) (2 + n); down_ack req d0 d1 no cur
      end
  else ble_channel_process (drop 2 d).

Definition up_process (type_ : Z) (d : list Z) : C unit :=
  status ← val (rd d 2);
  if status =? 0 then put_uplink channel_mgr_init
  else if status =? 1 then response_to_app_by_subpack type_
  else if status =? 2 then
    m ← st_gets uplink;
    _ ← put_uplink {| rsp_data := rsp_data m; subpack_no := 0; subpack_sent := 0; subpack_len := subpack_len m |};
    response_to_app_by_subpack type_
  else mret tt.

Definition ble_session_channel_process (req : ble_packet_t) : C unit :=
  if (type req =? FRM_DOWNLINK_TRANSPARENT_REQ) || (type req =? FRM_DOWNLINK_TRANSPARENT_SPEC_REQ) then d ← val (data req); down_process req d
  else if (type req =? FRM_UPLINK_TRANSPARENT_REQ) || (type req =? FRM_UPLINK_TRANSPARENT_SPEC_REQ) then d ← val (data req); up_process (type req) d
  else mret tt.
End Channel.

(** * Data over the channel and back *)

Ltac ch_step :=
  cbv beta zeta;
  lazymatch goal with
  | |- wp (_ ≫= _) _ _ => apply wp_bind
  | |- wp (mret _) _ _ => apply wp_ret
  | |- wp (st_gets _) _ _ => apply wp_gets
  | |- wp (put_uplink _) _ _ => apply wp_modify
  | |- wp (put_down _) _ _ => apply wp_modify
  | |- wp (put_netcfg _) _ _ => apply wp_modify
  | |- wp (does _) _ _ => apply wp_modify
  | |- wp (if false then _ else _) _ _ => cbv iota
  | |- wp (if true then _ else _) _ _ => cbv iota
  | |- wp (let '(_, _) := (_, _) in _) _ _ => cbv iota
  end.
Ltac ch_go := repeat ch_step; cbn [uplink down channel bt_netcfg did].

(** The header of subpackage [no] of [L] bytes. *)
Definition subpack_header (no L : Z) : list Z :=
  [0x00; 0x03; u8 no] ++ (if no =? 0 then num_bytes 4 L ++ [0x40] else []).
Lemma zlen_subpack_header no L : 3 <= zlen (subpack_header no L) <= 8.
Proof.
  unfold subpack_header. rewrite zlen_app. change (zlen [0; 3; u8 no]) with 3. pose proof (num_bytes_len 4 L).
  destruct (no =? 0); [rewrite zlen_app; change (zlen [64]) with 1|change (zlen []) with 0]; lia.
Qed.
(** The payload of the next subpackage. *)
Definition subpack_size (no L sent : Z) : Z := Z.min (960 - zlen (subpack_header no L)) (L - sent).

Lemma subpack_make_ok m data : let L := zlen data in subpack_len m = L -> 0 <= subpack_sent m <= L -> 0 <= subpack_no m -> L < 0x10000000 ->
  let n := subpack_size (subpack_no m) L (subpack_sent m) in
  subpack_make m data = Some (subpack_header (subpack_no m) L ++ take (Z.to_nat n) (drop (Z.to_nat (subpack_sent m)) data), n).
Proof.
  intros L HL Hs Hno Hmax n. pose proof (zlen_subpack_header (subpack_no m) L) as Hh. unfold subpack_make.
  change TUYA_BLE_TRANS_DATA_SUBPACK_LEN with 960.
  destruct (blit_step [] (zrepl 960 0) [0; 3; u8 (subpack_no m)] 0 eq_refl ltac:(done)) as (s1 & E1 & L1). rewrite !app_nil_l in E1. rewrite E1. cbn [mbind option_bind].
  change (zlen (zrepl 960 0)) with 960 in L1. change (zlen [0; 3; u8 (subpack_no m)]) with 3 in L1.
  set (h := subpack_header (subpack_no m) L) in *.
  assert (exists s2, (if subpack_no m =? 0 then
    '(b, off) ← num_encode 4 ([0; 3; u8 (subpack_no m)] ++ s1) 3 (subpack_len m); b ← wr b off (Z.shiftl TUYA_BLE_PROTOCOL_VERSION_HIGN 4); Some (b, off + 1)
    else Some ([0; 3; u8 (subpack_no m)] ++ s1, 3)) = Some (h ++ s2, zlen h) /\ zlen s2 = 960 - zlen h) as (s2 & -> & L2).
  { unfold h, subpack_header. destruct (subpack_no m =? 0).
    - rewrite HL. pose proof (num_bytes_len 4 L) as Hnb. destruct (num_encode_spec 4 L [0; 3; u8 (subpack_no m)] s1) as (s2 & E2 & L2);
        [apply zlen_nonneg|done|lia|]. change (zlen [0; 3; u8 (subpack_no m)]) with 3 in E2. rewrite E2. cbn [mbind option_bind].
      destruct s2 as [|x s2]; [change (zlen (@nil Z)) with 0 in L2; lia|]. rewrite zlen_cons in L2.
      replace (3 + zlen (num_bytes 4 L)) with (zlen ([0; 3; u8 (subpack_no m)] ++ num_bytes 4 L)) by (rewrite zlen_app; done).
      rewrite app_assoc, wr_mid. cbn [mbind option_bind]. exists s2. change (Z.shiftl TUYA_BLE_PROTOCOL_VERSION_HIGN 4) with 0x40.
      rewrite !zlen_app. change (zlen [64]) with 1. change (zlen [0; 3; u8 (subpack_no m)]) with 3. split; [|lia]. f_equal. f_equal; [|lia]. rewrite <- !app_assoc. done.
    - exists s1. rewrite app_nil_r. split; [done|]. change (zlen [0; 3; u8 (subpack_no m)]) with 3. lia. }
  cbn [mbind option_bind]. fold h in n. unfold subpack_size in n. fold h in n. rewrite HL. rewrite u32_small by (unfold is_u32; lia).
  rewrite u16_small by (unfold is_u16; lia).
  replace (if L - subpack_sent m <? 960 - zlen h then u16 (L - subpack_sent m) else 960 - zlen h) with n
    by (destruct (Z.ltb_spec (L - subpack_sent m) (960 - zlen h)); rewrite ?u16_small by (unfold is_u16; lia); lia).
  rewrite slice_eq by (fold L; lia). cbn [mbind option_bind]. set (d := take _ _). assert (zlen d = n) as Hd by (apply zlen_take; rewrite zlen_drop; fold L; lia).
  destruct (blit_step h s2 d (zlen h) eq_refl ltac:(lia)) as (s3 & E3 & _). rewrite E3. cbn [mbind option_bind].
  rewrite slice_prefix_n by (rewrite zlen_app; lia). done.
Qed.

Section Data.
Context {CJ : CJson} (malloc : Z -> bool) (fresh : Z -> list Z) (stack : Z).
Context (Hm : forall n, malloc n = true) (Hfresh : forall n, 0 <= n -> zlen (fresh n) = n).

Definition on_packet : ble_packet_t -> C unit := ble_session_channel_process malloc fresh stack.
Definition down_packet (s : Z) (p : list Z) : ble_packet_t :=
  {| sn := s; type := FRM_DOWNLINK_TRANSPARENT_REQ; len := zlen p; data := Some p; encrypt_mode := 0 |}.
(** The peer asks for the next subpackage. *)
Definition up_packet (s : Z) : ble_packet_t := {| sn := s; type := FRM_UPLINK_TRANSPARENT_REQ; len := 3; data := Some [0; 0; 1]; encrypt_mode := 0 |}.

(** The first [i] bytes of [text] are here. *)
Definition holds (d : downlink) (text : list Z) (i : Z) : Prop :=
  totalLen d = zlen text /\ receivedLen d = i /\ exists suf, pBuffer d = Some (take (Z.to_nat i) text ++ suf) /\ zlen suf = zlen text - i.

Lemma extract_ok v suf : 0 <= v < 0x10000000 -> extract_packet_len (num_bytes 4 v ++ suf) = Some (v, zlen (num_bytes 4 v)).
Proof.
  intros Hv. unfold extract_packet_len. pose proof (num_decode_spec 4 v [] suf 1 0) as E. cbn [app] in E.
  rewrite (zlen_nil (A:=Z)), !Z.add_0_l, !Z.mul_1_l in E. apply E; try done; simpl; lia.
Qed.

Lemma down_copy_ok w text i chunk suf h : zlen h + zlen chunk < 0x10000000 -> i + zlen chunk <= zlen text < 0x10000000 -> 0 <= i ->
  take (Z.to_nat (i + zlen chunk)) text = take (Z.to_nat i) text ++ chunk -> zlen suf = zlen text - i ->
  exists d', holds d' text (i + zlen chunk)
    /\ down_copy (zlen text) (take (Z.to_nat i) text ++ suf) i (h ++ chunk) (zlen (h ++ chunk)) (zlen h) w
       = Some (zlen chunk, {| uplink := uplink w; down := d'; channel := channel w; bt_netcfg := bt_netcfg w; did := did w |}).
Proof.
  intros Hl Hi H0 Ht Hs. pose proof (zlen_nonneg chunk). pose proof (zlen_nonneg h).
  assert (zlen (take (Z.to_nat i) text) = i) as Hti by (apply zlen_take; lia).
  destruct (blit_step (take (Z.to_nat i) text) suf chunk i Hti ltac:(lia)) as (suf' & E & L').
  eexists {| totalLen := zlen text; pBuffer := Some _; receivedLen := i + zlen chunk |}. split.
  - split; [done|]. split; [done|]. exists suf'. rewrite Ht. split; [done|lia].
  - unfold down_copy. rewrite zlen_app. replace (zlen h + zlen chunk - zlen h) with (zlen chunk) by lia. rewrite u32_small by (unfold is_u32; lia).
    rewrite (st_bind_run _ _ w chunk w) by (unfold val, st_pure; by rewrite slice_suffix).
    rewrite (st_bind_run _ _ w ((take (Z.to_nat i) text ++ chunk) ++ suf') w) by (unfold val, st_pure; by rewrite E).
    rewrite u32_small by (unfold is_u32; lia). done.
Qed.

Definition acked (w : channel_world) (d : downlink) (s : Z) (ack : list Z) : channel_world :=
  {| uplink := uplink w; down := d; channel := channel w; bt_netcfg := bt_netcfg w; did := did w ++ [c_send FRM_DOWNLINK_TRANSPARENT_REQ s ack] |}.

Lemma down_process_first req L chunk w : 0 <= L < 0x10000000 ->
  down_process malloc fresh stack req (subpack_header 0 L ++ chunk) w
  = (cur ← down_copy L (fresh L) 0 (subpack_header 0 L ++ chunk) (len req) (zlen (subpack_header 0 L)); down_ack malloc stack req 0 3 0 cur) w.
Proof.
  intros HL. assert (zlen (subpack_header 0 L) = 3 + zlen (num_bytes 4 L) + 1) as Hz.
  { unfold subpack_header. cbn [Z.eqb]. rewrite !zlen_app. change (zlen [0; 3; u8 0]) with 3. change (zlen [64]) with 1. lia. }
  assert (subpack_header 0 L ++ chunk = 0 :: 3 :: 0 :: num_bytes 4 L ++ 0x40 :: chunk) as E.
  { unfold subpack_header. cbn [Z.eqb]. rewrite <- !app_assoc. done. }
  rewrite E, Hz. unfold down_process.
  rewrite (st_bind_run _ _ w 0 w) by done. rewrite (st_bind_run _ _ w 3 w) by done. change (negb (Z.land 3 0x02 =? 0)) with true. cbv iota.
  rewrite (st_bind_run _ _ w 0 w) by done. cbn [Z.eqb]. change (drop 3 (0 :: 3 :: 0 :: ?x)) with x.
  rewrite (st_bind_run _ _ w (L, zlen (num_bytes 4 L)) w) by (unfold val, st_pure; by rewrite extract_ok).
  rewrite Hm. done.
Qed.
Lemma down_process_next req no L chunk b w : 0 < no < 128 -> pBuffer (down w) = Some b ->
  down_process malloc fresh stack req (subpack_header no L ++ chunk) w
  = (cur ← down_copy (totalLen (down w)) b (receivedLen (down w)) (subpack_header no L ++ chunk) (len req) 3; down_ack malloc stack req 0 3 no cur) w.
Proof.
  intros Hno Hb. assert (subpack_header no L ++ chunk = 0 :: 3 :: num_bytes 4 no ++ chunk) as E.
  { unfold subpack_header. replace (no =? 0) with false by lia. cbn [num_bytes]. rewrite Z.div_small by lia. cbn [Z.eqb]. rewrite Z.mod_small by lia.
    by rewrite u8_small by (unfold is_u8; lia). }
  assert (num_bytes 4 no = [no]) as En.
  { cbn [num_bytes]. rewrite Z.div_small by lia. cbn [Z.eqb]. by rewrite Z.mod_small by lia. }
  rewrite E. unfold down_process.
  rewrite (st_bind_run _ _ w 0 w) by done. rewrite (st_bind_run _ _ w 3 w) by done. change (negb (Z.land 3 0x02 =? 0)) with true. cbv iota.
  rewrite (st_bind_run _ _ w no w) by (rewrite En; done). replace (no =? 0) with false by lia.
  rewrite (st_bind_run _ _ w (down w) w) by done. rewrite Hb. change (drop 2 (0 :: 3 :: ?x)) with x.
  rewrite (st_bind_run _ _ w (no, zlen (num_bytes 4 no)) w) by (unfold val, st_pure; by rewrite extract_ok by lia).
  by rewrite En.
Qed.
(** The acknowledgement of subpackage [no] with [n] bytes, after which [i] of the [L] bytes
    are here: it asks for the next one until all are here. *)
Definition channel_ack (L no n i : Z) : list Z :=
  ack_bytes 0x0300 (if i <? L then SUBPACKET_RECV_ONE_AND_NEXT else SUBPACKET_RECV_ALL_DONE) no n i L.

Lemma down_ack_ok req no cur w text i : holds (down w) text i -> i <= zlen text ->
  down_ack malloc stack req 0 3 no cur w
  = (if i <? zlen text then mret tt else ble_channel_process stack text)
      {| uplink := uplink w; down := down w; channel := channel w; bt_netcfg := bt_netcfg w;
         did := did w ++ [c_send (type req) (sn req) (channel_ack (zlen text) no cur i)] |}.
Proof.
  intros (Ht & Hr & suf & Hb & Hs) Hi. unfold down_ack. rewrite (st_bind_run _ _ w (down w) w) by done. rewrite Hm. cbn [negb]. rewrite Ht, Hr.
  unfold channel_ack. destruct (Z.ltb_spec i (zlen text)).
  - reflexivity.
  - etransitivity; [apply st_bind_run; reflexivity|]. rewrite (zlen_zero suf), app_nil_r, ztake_all in Hb by lia. rewrite Hb. done.
Qed.

(** One subpackage of the sender at the receiver. *)
Lemma down_step w s text no i n : let p := subpack_header no (zlen text) ++ take (Z.to_nat n) (drop (Z.to_nat i) text) in
  zlen text < 0x1000000 -> 0 <= i -> 0 <= n -> i + n <= zlen text -> 0 <= no < 128 -> (if no =? 0 then i = 0 else holds (down w) text i) ->
  exists d', holds d' text (i + n)
    /\ on_packet (down_packet s p) w
       = (if i + n <? zlen text then mret tt else ble_channel_process stack text) (acked w d' s (channel_ack (zlen text) no n (i + n))).
Proof.
  intros p Hl H0 Hn Hin Hno Hst. set (chunk := take (Z.to_nat n) (drop (Z.to_nat i) text)) in *.
  assert (zlen chunk = n) as Hc by (apply zlen_take; rewrite zlen_drop; lia).
  pose proof (zlen_subpack_header no (zlen text)) as Hh. pose proof (zlen_nonneg text).
  assert (take (Z.to_nat (i + n)) text = take (Z.to_nat i) text ++ chunk) as Ht by (unfold chunk; rewrite take_take_drop; f_equal; lia).
  rewrite <- Hc in Hin, Ht |- *. unfold on_packet, ble_session_channel_process. cbn [type down_packet Z.eqb orb].
  change ((FRM_DOWNLINK_TRANSPARENT_REQ =? FRM_DOWNLINK_TRANSPARENT_REQ) || _) with true. cbv iota. cbn [data down_packet].
  rewrite (st_bind_run _ _ w p w) by done.
  assert (exists suf, take (Z.to_nat i) text ++ suf = (if no =? 0 then fresh (zlen text) else default [] (pBuffer (down w))) /\ zlen suf = zlen text - i
    /\ ((no =? 0) = false -> totalLen (down w) = zlen text /\ receivedLen (down w) = i /\ pBuffer (down w) = Some (take (Z.to_nat i) text ++ suf))) as (suf & Eb & Ls & Hb).
  { destruct (no =? 0); [subst i; exists (fresh (zlen text)); rewrite Hfresh by lia; split_and!; [done|lia|done]|].
    destruct Hst as (H1 & H2 & suf & H3 & H4). exists suf. rewrite H3. done. }
  destruct (down_copy_ok w text i chunk suf (subpack_header no (zlen text))) as (d' & Hd & Ec); try done; try lia.
  pose proof (down_ack_ok (down_packet s p) no (zlen chunk) {| uplink := uplink w; down := d'; channel := channel w; bt_netcfg := bt_netcfg w; did := did w |}
    text (i + zlen chunk) Hd Hin) as Ea.
  exists d'. split; [done|]. destruct (Z.eqb_spec no 0) as [->|Hne].
  - subst i. unfold p in *. rewrite down_process_first by lia. rewrite <- Eb. etransitivity; [apply (st_bind_run _ _ _ _ _ Ec)|]. exact Ea.
  - destruct (Hb eq_refl) as (H1 & H2 & H3). unfold p in *. rewrite (down_process_next _ no (zlen text) chunk _ w ltac:(lia) H3). rewrite H1, H2.
    replace 3 with (zlen (subpack_header no (zlen text))) at 1
      by (unfold subpack_header; replace (no =? 0) with false by lia; by rewrite app_nil_r).
    etransitivity; [apply (st_bind_run _ _ _ _ _ Ec)|]. exact Ea.
Qed.
(** The sender with [no] subpackages and [sent] bytes of [text] behind it. *)
Definition sender (b0 b1 : Z) (text : list Z) (no sent : Z) : ble_channel_mgr_t :=
  {| rsp_data := Some (b0 :: b1 :: text); subpack_no := no; subpack_sent := sent; subpack_len := zlen text |}.
Definition says (a : channel_world) (u : ble_channel_mgr_t) (p : list Z) : channel_world :=
  {| uplink := u; down := down a; channel := channel a; bt_netcfg := bt_netcfg a; did := did a ++ [c_send FRM_UPLINK_TRANSPARENT_REQ 0 p] |}.

Lemma respond_ok a b0 b1 text no i : let n := subpack_size no (zlen text) i in
  uplink a = sender b0 b1 text no i -> 0 <= no < 1000 -> 0 <= i < zlen text -> zlen text < 0x1000000 ->
  response_to_app_by_subpack malloc FRM_UPLINK_TRANSPARENT_REQ a
  = Some (tt, says a (sender b0 b1 text (no + 1) (i + n)) (subpack_header no (zlen text) ++ take (Z.to_nat n) (drop (Z.to_nat i) text))).
Proof.
  intros n Hu Hno Hi Hl. pose proof (zlen_subpack_header no (zlen text)) as Hh. assert (0 <= n <= zlen text - i) as Hn by (unfold n, subpack_size; lia).
  unfold response_to_app_by_subpack. etransitivity; [apply (st_bind_run _ _ a (uplink a) a); done|]. rewrite Hu. cbn [sender rsp_data]. rewrite Hm. cbn [negb sender subpack_sent subpack_len].
  replace (i <? zlen text) with true by lia. change (drop 2 (b0 :: b1 :: text)) with text.
  pose proof (subpack_make_ok (sender b0 b1 text no i) text eq_refl ltac:(cbn; lia) ltac:(cbn; lia) ltac:(lia)) as E. cbn [sender subpack_no subpack_sent] in E. fold n in E.
  etransitivity; [eapply st_bind_run; unfold val, st_pure; rewrite E; reflexivity|].
  etransitivity; [apply st_bind_run; reflexivity|]. unfold put_uplink, st_modify, says, sender. cbn [subpack_no subpack_sent subpack_len rsp_data].
  by rewrite !u32_small by (unfold is_u32; lia).
Qed.
Lemma up_step a b0 b1 text no i s : let n := subpack_size no (zlen text) i in
  uplink a = sender b0 b1 text no i -> 0 <= no < 1000 -> 0 <= i < zlen text -> zlen text < 0x1000000 ->
  on_packet (up_packet s) a
  = Some (tt, says a (sender b0 b1 text (no + 1) (i + n)) (subpack_header no (zlen text) ++ take (Z.to_nat n) (drop (Z.to_nat i) text))).
Proof. intros n Hu Hno Hi Hl. etransitivity; [|exact (respond_ok a b0 b1 text no i Hu Hno Hi Hl)]. done. Qed.

(** The requests of the peer one after the other, and the subpackages one after the other. *)
Fixpoint asks (n : nat) : C unit := match n with O => mret tt | S n => _ ← on_packet (up_packet 0); asks n end.
Fixpoint feed (s : Z) (pkts : list (list Z)) : C unit := match pkts with [] => mret tt | p :: ps => _ ← on_packet (down_packet s p); feed s ps end.

(** The bytes subpackage [no] carries of [L], and those of a list that starts with it. *)
Definition carried (L no : Z) (p : list Z) : Z := zlen p - zlen (subpack_header no L).
Fixpoint carried_all (L no : Z) (pkts : list (list Z)) : Z :=
  match pkts with [] => 0 | p :: ps => carried L no p + carried_all L (no + 1) ps end.
(** One acknowledgement for each subpackage, with its number, its bytes and what has come. *)
Fixpoint channel_acks (L no i : Z) (pkts : list (list Z)) : list (list Z) :=
  match pkts with
  | [] => []
  | p :: ps => channel_ack L no (carried L no p) (i + carried L no p) :: channel_acks L (no + 1) (i + carried L no p) ps
  end.

(** The receiver after the last subpackage. *)
Definition after_feed (b b' : channel_world) (s : Z) (acks : list (list Z)) : Prop :=
  uplink b' = uplink b /\ channel b' = channel b /\ bt_netcfg b' = bt_netcfg b /\ did b' = did b ++ (c_send FRM_DOWNLINK_TRANSPARENT_REQ s <$> acks).
Lemma after_acked b d s ack b' acks : after_feed (acked b d s ack) b' s acks -> after_feed b b' s (ack :: acks).
Proof. intros (H1 & H2 & H3 & H4). split_and!; [done..|]. rewrite H4. cbn. by rewrite <- app_assoc. Qed.
Lemma feed_last (m : C unit) w : (_ ← m; mret tt) w = m w.
Proof. unfold mbind, st_bind. by destruct (m w) as [[[] ?]|]. Qed.

Lemma transfer_rest b0 b1 text s fuel : forall a b no i, uplink a = sender b0 b1 text no i -> 1 <= no -> 952 + 957 * (no - 1) <= i < zlen text ->
  zlen text <= 122491 -> holds (down b) text i -> (Z.to_nat (zlen text - i) <= fuel)%nat ->
  exists pkts a' b', asks (length pkts) a = Some (tt, a') /\ did a' = did a ++ (c_send FRM_UPLINK_TRANSPARENT_REQ 0 <$> pkts)
    /\ Forall (fun p => zlen p <= 960) pkts /\ carried_all (zlen text) no pkts = zlen text - i
    /\ feed s pkts b = ble_channel_process stack text b' /\ after_feed b b' s (channel_acks (zlen text) no i pkts).
Proof.
  induction fuel as [|fuel IH]; intros a b no i Ha Hno Hi Hl Hb Hf; [lia|].
  assert (zlen (subpack_header no (zlen text)) = 3) as Hh by (unfold subpack_header; replace (no =? 0) with false by lia; by rewrite app_nil_r).
  assert (subpack_size no (zlen text) i = Z.min 957 (zlen text - i)) as Hn by (unfold subpack_size; lia).
  pose proof (up_step a b0 b1 text no i 0 Ha ltac:(lia) ltac:(lia) ltac:(lia)) as Eu. rewrite Hn in Eu. set (n := Z.min 957 (zlen text - i)) in *.
  destruct (down_step b s text no i n) as (d' & Hd & Ed); [lia..|replace (no =? 0) with false by lia; done|].
  set (p := _ ++ take (Z.to_nat n) _) in *. set (ack := channel_ack _ _ _ _) in Ed.
  assert (carried (zlen text) no p = n) as Hcar by (unfold carried, p; rewrite zlen_app, zlen_take by (rewrite zlen_drop; lia); lia).
  assert (zlen p <= 960) as Hp by (unfold carried in Hcar; lia).
  destruct (Z.ltb_spec (i + n) (zlen text)) as [Hlt|Hge].
  - destruct (IH (says a (sender b0 b1 text (no + 1) (i + n)) p) (acked b d' s ack) (no + 1) (i + n)) as (pkts & a' & b' & E1 & E2 & E3 & E6 & E4 & E5); [done|lia..|done|lia|].
    exists (p :: pkts), a', b'. split_and!.
    + cbn [asks length]. etransitivity; [apply (st_bind_run _ _ _ _ _ Eu)|]. exact E1.
    + rewrite E2. cbn. by rewrite <- app_assoc.
    + by constructor.
    + cbn [carried_all]. rewrite Hcar. lia.
    + cbn [feed]. etransitivity; [apply (st_bind_run _ _ _ _ _ Ed)|]. exact E4.
    + cbn [channel_acks]. rewrite Hcar. by eapply after_acked.
  - exists [p], (says a (sender b0 b1 text (no + 1) (i + n)) p), (acked b d' s ack). split_and!.
    + cbn [asks length]. etransitivity; [apply (st_bind_run _ _ _ _ _ Eu)|]. reflexivity.
    + done.
    + by repeat constructor.
    + cbn [carried_all]. rewrite Hcar. lia.
    + cbn [feed]. rewrite feed_last. exact Ed.
    + cbn [channel_acks]. rewrite Hcar. by split_and!.
Qed.
End Data.

(** The whole exchange. *)
Lemma transfer_ok {CJ : CJson} malloc fresh stack a b b0 b1 text s : (forall n, malloc n = true) -> (forall n, 0 <= n -> zlen (fresh n) = n) ->
  0 < zlen text <= 122491 ->
  exists pkts a' b',
    (_ ← ble_channle_ack malloc FRM_UPLINK_TRANSPARENT_REQ (b0 :: b1 :: text) (zlen text + 2); asks malloc fresh stack (pred (length pkts))) a = Some (tt, a')
    /\ did a' = did a ++ (c_send FRM_UPLINK_TRANSPARENT_REQ 0 <$> pkts) /\ Forall (fun p => zlen p <= 960) pkts
    /\ carried_all (zlen text) 0 pkts = zlen text
    /\ feed malloc fresh stack s pkts b = ble_channel_process stack text b' /\ after_feed b b' s (channel_acks (zlen text) 0 0 pkts).
Proof.
  intros Hm Hf Hl. unfold ble_channle_ack. replace (zlen text + 2 - 2) with (zlen text) by lia. rewrite u32_small by (unfold is_u32; lia).
  set (a0 := {| uplink := sender b0 b1 text 0 0; down := down a; channel := channel a; bt_netcfg := bt_netcfg a; did := did a |}).
  pose proof (zlen_subpack_header 0 (zlen text)) as Hh. set (n := subpack_size 0 (zlen text) 0).
  assert (n = Z.min (960 - zlen (subpack_header 0 (zlen text))) (zlen text)) as Hn by (unfold n, subpack_size; lia).
  pose proof (respond_ok malloc Hm a0 b0 b1 text 0 0 eq_refl ltac:(lia) ltac:(lia) ltac:(lia)) as Eu. fold n in Eu.
  destruct (down_step malloc fresh stack Hm Hf b s text 0 0 n) as (d' & Hd & Ed); [lia..|done|]. set (p := _ ++ take (Z.to_nat n) _) in *.
  assert (carried (zlen text) 0 p = n) as Hcar by (unfold carried, p; rewrite zlen_app, zlen_take by (rewrite zlen_drop; lia); lia).
  assert (zlen p <= 960) as Hp by (unfold carried in Hcar; lia). rewrite Z.add_0_l in *. set (ack := channel_ack _ _ _ _) in Ed.
  assert (forall m a2, m (says a0 (sender b0 b1 text 1 n) p) = Some (tt, a2) ->
    (_ ← (_ ← put_uplink (sender b0 b1 text 0 0); response_to_app_by_subpack malloc FRM_UPLINK_TRANSPARENT_REQ); m) a = Some (tt, a2)) as Hrun.
  { intros m a2 E. etransitivity; [apply st_bind_run; etransitivity; [apply st_bind_run; reflexivity|exact Eu]|]. exact E. }
  destruct (Z.ltb_spec n (zlen text)) as [Hlt|Hge].
  - destruct (transfer_rest malloc fresh stack Hm Hf b0 b1 text s (Z.to_nat (zlen text)) (says a0 (sender b0 b1 text 1 n) p) (acked b d' s ack) 1 n)
      as (pkts & a' & b' & E1 & E2 & E3 & E6 & E4 & E5); [done|lia|lia|lia|done|lia|].
    exists (p :: pkts), a', b'. split_and!.
    + cbn [length pred]. apply Hrun. exact E1.
    + rewrite E2. cbn. by rewrite <- app_assoc.
    + by constructor.
    + cbn [carried_all]. rewrite Hcar. change (0 + 1) with 1. lia.
    + cbn [feed]. etransitivity; [apply (st_bind_run _ _ _ _ _ Ed)|]. exact E4.
    + cbn [channel_acks]. rewrite Hcar, Z.add_0_l. change (0 + 1) with 1. by eapply after_acked.
  - exists [p], (says a0 (sender b0 b1 text 1 n) p), (acked b d' s ack). split_and!.
    + cbn [length pred]. apply Hrun. reflexivity.
    + done.
    + by repeat constructor.
    + cbn [carried_all]. rewrite Hcar. lia.
    + cbn [feed]. rewrite feed_last. exact Ed.
    + cbn [channel_acks]. rewrite Hcar, Z.add_0_l. change (0 + 1) with 1. by split_and!.
Qed.

(** (C4) Data of up to 122491 bytes that one device sends in subpackages, as many as the peer
    asks for, another joins again: its channel takes exactly the data, once, after the last
    subpackage. It sends one acknowledgement for each subpackage, with the number of the
    subpackage, the bytes it carried, the bytes received so far and the total, which asks for
    the next one as long as bytes are missing and says that all is done when none is. No
    subpackage is longer than 960 bytes, and together they carry the data. Every allocation is
    taken to succeed, and the packets to arrive in order. *)
Theorem ble_channel_roundtrip {CJ : CJson} malloc fresh stack a b b0 b1 text s : (forall n, malloc n = true) -> (forall n, 0 <= n -> zlen (fresh n) = n) ->
  0 < zlen text <= 122491 ->
  exists pkts a' b',
    (_ ← ble_channle_ack malloc FRM_UPLINK_TRANSPARENT_REQ (b0 :: b1 :: text) (zlen text + 2); asks malloc fresh stack (pred (length pkts))) a = Some (tt, a')
    /\ did a' = did a ++ (c_send FRM_UPLINK_TRANSPARENT_REQ 0 <$> pkts) /\ Forall (fun p => zlen p <= 960) pkts
    /\ carried_all (zlen text) 0 pkts = zlen text
    /\ feed malloc fresh stack s pkts b = ble_channel_process stack text b' /\ after_feed b b' s (channel_acks (zlen text) 0 0 pkts).
Proof. apply transfer_ok. Qed.

(** A later subpackage that is longer than what is left of the announced length is copied
    over the end of the buffer. *)
Theorem ble_channel_overruns {CJ : CJson} malloc fresh stack w s no L chunk b : pBuffer (down w) = Some b -> 0 < no < 128 ->
  0 <= receivedLen (down w) -> zlen b < receivedLen (down w) + zlen chunk -> zlen chunk < 65000 ->
  on_packet malloc fresh stack (down_packet s (subpack_header no L ++ chunk)) w = None.
Proof.
  intros Hb Hno Hr Hl Hc. pose proof (zlen_nonneg chunk). assert (zlen (subpack_header no L) = 3) as Hh.
  { unfold subpack_header. replace (no =? 0) with false by lia. by rewrite app_nil_r. }
  unfold on_packet, ble_session_channel_process. cbn [type down_packet].
  change ((FRM_DOWNLINK_TRANSPARENT_REQ =? FRM_DOWNLINK_TRANSPARENT_REQ) || _) with true. cbv iota. cbn [data].
  etransitivity; [apply (st_bind_run _ _ w (subpack_header no L ++ chunk) w); done|]. rewrite (down_process_next _ _ _ _ no L chunk b w Hno Hb).
  unfold down_copy. cbn [len down_packet]. rewrite zlen_app, Hh. replace (3 + zlen chunk - 3) with (zlen chunk) by lia. rewrite u32_small by (unfold is_u32; lia).
  unfold mbind, st_bind, val, st_pure. rewrite <- Hh at 1. rewrite slice_suffix. cbn [mbind option_bind fst snd]. by rewrite blit_None.
Qed.

(** * The pairing *)

Lemma strnlen_ok n : forall s r, text_ok s -> strnlen n (s ++ 0 :: r) = Some (Z.min (Z.of_nat n) (zlen s)).
Proof.
  induction n as [|n IH]; intros s r Hs; [cbn; f_equal; pose proof (zlen_nonneg s); lia|]. destruct Hs as [|c s Hc Hs].
  - done.
  - cbn [app strnlen]. destruct (Z.eqb_spec c 0); [lia|]. rewrite IH by done. cbn [mbind option_bind]. f_equal. rewrite zlen_cons. lia.
Qed.
(** The array that holds a text. *)
Definition text_field (max : Z) (s : list Z) : list Z := s ++ zrepl (max + 1 - zlen s) 0.
Lemma netcfg_field_ok s max : text_ok s -> 0 <= max < 256 ->
  netcfg_field (cstr s) max = Some (if (zlen s =? 0) || (max <? zlen s) then None else Some (text_field max s, zlen s)).
Proof.
  intros Hs Hmax. unfold netcfg_field, cstr. pose proof (zlen_nonneg s). rewrite strnlen_ok by done. cbn [mbind option_bind].
  rewrite Z2Nat.id by lia. destruct (Z.ltb_spec max (zlen s)) as [Hlt|Hge].
  - rewrite orb_true_r. replace (Z.min (max + 1) (zlen s)) with (max + 1) by lia. replace (max <? max + 1) with true by lia. by rewrite orb_true_r.
  - replace (Z.min (max + 1) (zlen s)) with (zlen s) by lia. replace (max <? zlen s) with false by lia. destruct (Z.eqb_spec (zlen s) 0); [done|]. cbn [orb].
    rewrite slice_prefix. cbn [mbind option_bind]. replace (zrepl (max + 1) 0) with (zrepl (zlen s) 0 ++ 0 :: zrepl (max - zlen s) (0 : Z)).
    2: { unfold zrepl. change (0 :: replicate (Z.to_nat (max - zlen s)) 0) with (replicate (S (Z.to_nat (max - zlen s))) (0 : Z)).
         rewrite <- replicate_add. f_equal. lia. }
    rewrite blit_prefix by (rewrite zlen_zrepl; lia). cbn [mbind option_bind]. rewrite wr_mid. cbn [mbind option_bind].
    rewrite u8_small by (unfold is_u8; lia). do 4 f_equal. unfold text_field, zrepl. f_equal. by replace (Z.to_nat (max + 1 - zlen s)) with (S (Z.to_nat (max - zlen s))) by lia.
Qed.

Definition fits (s : list Z) (max : Z) : bool := negb ((zlen s =? 0) || (max <? zlen s)).
(** The answer and what is done when the three members are these. *)
Definition netcfg_good (s p t : option (list Z)) : option netcfg_info_t :=
  s ← s; p ← p; t ← t;
  if fits s WIFI_SSID_LEN && fits p WIFI_PASSWD_LEN && fits t WL_TOKEN_LEN then
    Some {| ssid := text_field WIFI_SSID_LEN s; s_len := zlen s; passwd := text_field WIFI_PASSWD_LEN p; p_len := zlen p;
            token := text_field WL_TOKEN_LEN t; t_len := zlen t |}
  else None.
Definition netcfg_does (info : option netcfg_info_t) (reg : bool) : list channel_effect :=
  match info with Some i => c_finish i :: (if reg then [c_register] else []) | None => [] end.
Definition netcfg_answer (stack : Z) (info : option netcfg_info_t) : channel_effect :=
  c_send FRM_UPLINK_TRANSPARENT_REQ 0 [stack; 0; 0; FRM_DATA_TRANS_SUBCMD_BT_NETCFG; match info with Some _ => 0 | None => u8 OPRT_CJSON_GET_ERR end].

Section Pairing.
Context {CJ : CJson}.
Lemma net_cfg_take_ok json w s p t : netcfg_finish_cb (bt_netcfg w) = true ->
  netcfg_member json "ssid" = cstr <$> s -> netcfg_member json "pwd" = cstr <$> p -> netcfg_member json "token" = cstr <$> t ->
  (forall x, x ∈ [s; p; t] -> forall l, x = Some l -> text_ok l) ->
  wp (net_cfg_take json) (fun r w' => r = (match netcfg_good s p t with Some _ => 0 | None => u8 OPRT_CJSON_GET_ERR end)
    /\ did w' = did w ++ netcfg_does (netcfg_good s p t) (match cJSON_GetObjectItem json (str "reg") with Some _ => true | None => false end)) w.
Proof.
  intros Hcb Es Ep Et Hok. unfold net_cfg_take. rewrite Es, Ep, Et.
  assert (forall w1 : channel_world, did w1 = did w -> u8 OPRT_CJSON_GET_ERR = u8 OPRT_CJSON_GET_ERR /\ did w1 = did w ++ []) as Hbad by (intros w1 ->; by rewrite app_nil_r).
  destruct s as [s|]; cbn [fmap option_fmap option_map]; [|ch_go; by apply Hbad].
  destruct t as [t|]; cbn [fmap option_fmap option_map]; [|ch_go; destruct p; by apply Hbad].
  destruct p as [p|]; cbn [fmap option_fmap option_map]; [|ch_go; by apply Hbad].
  assert (text_ok s /\ text_ok p /\ text_ok t) as (Hs & Hp & Ht) by (split_and!; [eapply (Hok (Some s))|eapply (Hok (Some p))|eapply (Hok (Some t))]; try done; first [by left|by right; left|by right; right; left]).
  unfold netcfg_good, fits. cbn [mbind option_bind]. unfold set_info. ch_go.
  eapply wp_pure; [apply (netcfg_field_ok s WIFI_SSID_LEN Hs); done|]. destruct ((zlen s =? 0) || _); cbn [negb andb]; [ch_go; by apply Hbad|]. ch_go.
  eapply wp_pure; [apply (netcfg_field_ok p WIFI_PASSWD_LEN Hp); done|]. destruct ((zlen p =? 0) || _); cbn [negb andb]; [ch_go; by apply Hbad|]. ch_go.
  eapply wp_pure; [apply (netcfg_field_ok t WL_TOKEN_LEN Ht); done|]. destruct ((zlen t =? 0) || _); cbn [negb andb]; [ch_go; by apply Hbad|]. ch_go.
  cbn [netcfg_finish_cb]. rewrite Hcb. eapply wp_pure; [done|]. ch_go. destruct (cJSON_GetObjectItem json (str "reg")); ch_go; by rewrite <- ?app_assoc.
Qed.

(** The handler on a text that cJSON can parse. *)
Lemma handle_net_cfg_ok json data stack w s p t : netcfg_finish_cb (bt_netcfg w) = true -> is_Some (strlen data) -> cJSON_Parse data = Some json ->
  netcfg_member json "ssid" = cstr <$> s -> netcfg_member json "pwd" = cstr <$> p -> netcfg_member json "token" = cstr <$> t ->
  (forall x, x ∈ [s; p; t] -> forall l, x = Some l -> text_ok l) ->
  wp (handle_net_cfg stack data) (fun _ w' => did w' = did w
    ++ netcfg_does (netcfg_good s p t) (match cJSON_GetObjectItem json (str "reg") with Some _ => true | None => false end)
    ++ [netcfg_answer stack (netcfg_good s p t)]) w.
Proof.
  intros Hcb [n Hn] Hj Es Ep Et Hok. unfold handle_net_cfg. ch_go. eapply wp_pure; [exact Hn|]. rewrite Hj. ch_go.
  eapply wp_weaken; [by apply (net_cfg_take_ok json w s p t)|]. intros r w' [-> Hd]. ch_go. by rewrite Hd, <- app_assoc.
Qed.

(** (C3) The pairing over the channel: a text for the network configuration, sent in
    subpackages with the NUL behind it (a text sent without one is parsed beyond its end) and
    joined again, is taken exactly when it has the three members within their
    lengths. The callback of the configuration then gets the network, the password and the
    token as they were sent, once, and the answer is 0; otherwise it is not called and the
    answer is the error. *)
Theorem ble_pairing_delivers malloc fresh stack a b b0 b1 text json x y z s : (forall n, malloc n = true) -> (forall n, 0 <= n -> zlen (fresh n) = n) ->
  zlen text <= 122000 -> text_ok text -> channel b !! 1%nat = Some (Some handle_net_cfg_fn) -> netcfg_finish_cb (bt_netcfg b) = true ->
  cJSON_Parse (cstr text) = Some json ->
  netcfg_member json "ssid" = cstr <$> x -> netcfg_member json "pwd" = cstr <$> y -> netcfg_member json "token" = cstr <$> z ->
  (forall u, u ∈ [x; y; z] -> forall l, u = Some l -> text_ok l) ->
  let data_ := 0 :: 1 :: cstr text in
  let reg := match cJSON_GetObjectItem json (str "reg") with Some _ => true | None => false end in
  exists pkts a' acks,
    (_ ← ble_channle_ack malloc FRM_UPLINK_TRANSPARENT_REQ (b0 :: b1 :: data_) (zlen data_ + 2); asks malloc fresh stack (pred (length pkts))) a = Some (tt, a')
    /\ did a' = did a ++ (c_send FRM_UPLINK_TRANSPARENT_REQ 0 <$> pkts)
    /\ wp (feed malloc fresh stack s pkts) (fun _ b' => did b' = did b ++ (c_send FRM_DOWNLINK_TRANSPARENT_REQ s <$> acks)
         ++ netcfg_does (netcfg_good x y z) reg ++ [netcfg_answer stack (netcfg_good x y z)]) b.
Proof.
  intros Hm Hf Hl Htx Hch Hcb Hj Ex Ey Ez Hok data_ reg. pose proof (zlen_nonneg text).
  destruct (transfer_ok malloc fresh stack a b b0 b1 data_ s Hm Hf) as (pkts & a' & b' & E1 & E2 & _ & _ & E3 & _ & C1 & C2 & C3).
  { unfold data_, cstr. rewrite !zlen_cons, zlen_app. change (zlen [0]) with 1. lia. }
  exists pkts, a', (channel_acks (zlen data_) 0 0 pkts). split; [done|]. split; [done|].
  assert (wp (ble_channel_process stack data_) (fun _ b2 => did b2 = did b' ++ netcfg_does (netcfg_good x y z) reg ++ [netcfg_answer stack (netcfg_good x y z)]) b') as (u & b2 & Eb & Hb).
  { unfold ble_channel_process. ch_go. eapply wp_pure; [done|]. ch_go. eapply wp_pure; [done|]. ch_go. change (Z.lor (Z.shiftl 0 8) 1) with 1.
    change (1 <? BLE_CHANNEL_MAX) with true. cbv iota. rewrite C1. change (Z.to_nat 1) with 1%nat. rewrite Hch. change (drop 2 data_) with (cstr text).
    apply (handle_net_cfg_ok json (cstr text) stack b' x y z); try done; [by rewrite C2|]. rewrite strlen_cstr by done. by eexists. }
  exists u, b2. split; [by rewrite E3|]. by rewrite Hb, C3, <- app_assoc.
Qed.
End Pairing.

(** * Witnesses *)

Inductive pair_json := pair_root | pair_text (s : list Z).
Definition pair_member (k : list Z) : option pair_json :=
  if bool_decide (k = str "ssid") then Some (pair_text (cstr (str "home")))
  else if bool_decide (k = str "pwd") then Some (pair_text (cstr (str "secret")))
  else if bool_decide (k = str "token") then Some (pair_text (cstr (str "AYabc123")))
  else None.
#[local] Instance pair_cjson : CJson := {|
  cjson := pair_json;
  cJSON_Parse p := match p with 123 :: _ => Some pair_root | _ => None end;
  cJSON_GetObjectItem j k := match j with pair_root => pair_member k | pair_text _ => None end;
  cjson_string j := match j with pair_root => None | pair_text s => Some s end;
  cJSON_DetachItemFromObject j k := j;
  cJSON_PrintUnformatted j := [123] |}.
Definition pair_fresh (n : Z) : list Z := zrepl n 9.
Definition pair_world : channel_world :=
  {| uplink := channel_mgr_init; down := {| totalLen := 0; pBuffer := None; receivedLen := 0 |}; channel := [None; Some handle_net_cfg_fn];
     bt_netcfg := {| netcfg_info := netcfg_clear; netcfg_finish_cb := true |}; did := [] |}.

Lemma ble_channel_roundtrip_witness : exists pkts a' b',
  (_ ← ble_channle_ack (fun _ => true) FRM_UPLINK_TRANSPARENT_REQ (0 :: 0 :: zrepl 2000 7) (zlen (zrepl 2000 7) + 2);
   asks (fun _ => true) pair_fresh 0 (pred (length pkts))) pair_world = Some (tt, a')
  /\ did a' = [] ++ (c_send FRM_UPLINK_TRANSPARENT_REQ 0 <$> pkts) /\ Forall (fun p => zlen p <= 960) pkts
  /\ carried_all (zlen (zrepl 2000 7)) 0 pkts = zlen (zrepl 2000 7)
  /\ feed (fun _ => true) pair_fresh 0 5 pkts pair_world = ble_channel_process 0 (zrepl 2000 7) b'
  /\ after_feed pair_world b' 5 (channel_acks (zlen (zrepl 2000 7)) 0 0 pkts).
Proof.
  refine (ble_channel_roundtrip (fun _ => true) pair_fresh 0 pair_world pair_world 0 0 (zrepl 2000 7) 5 _ _ _).
  - done.
  - intros n Hn. by apply zlen_zrepl.
  - rewrite zlen_zrepl; lia.
Defined.

Lemma ble_pairing_delivers_witness :
  let text := str "{}" in
  let info := {| ssid := text_field 32 (str "home"); s_len := 4; passwd := text_field 64 (str "secret"); p_len := 6;
                 token := text_field 16 (str "AYabc123"); t_len := 8 |} in
  exists pkts a' acks,
    (_ ← ble_channle_ack (fun _ => true) FRM_UPLINK_TRANSPARENT_REQ (0 :: 0 :: 0 :: 1 :: cstr text) (zlen (0 :: 1 :: cstr text) + 2);
     asks (fun _ => true) pair_fresh 0 (pred (length pkts))) pair_world = Some (tt, a')
    /\ did a' = [] ++ (c_send FRM_UPLINK_TRANSPARENT_REQ 0 <$> pkts)
    /\ wp (feed (fun _ => true) pair_fresh 0 5 pkts) (fun _ b' => did b' = [] ++ (c_send FRM_DOWNLINK_TRANSPARENT_REQ 5 <$> acks)
         ++ [c_finish info] ++ [c_send FRM_UPLINK_TRANSPARENT_REQ 0 [0; 0; 0; 1; 0]]) pair_world.
Proof.
  intros text info.
  refine (ble_pairing_delivers (fun _ => true) pair_fresh 0 pair_world pair_world 0 0 text pair_root (Some (str "home")) (Some (str "secret"))
    (Some (str "AYabc123")) 5 _ _ _ _ _ _ _ _ _ _ _); try done.
  - intros n Hn. by apply zlen_zrepl.
  - by repeat constructor.
  - intros u Hu l ->. repeat (apply elem_of_cons in Hu as [Hu|Hu]; [injection Hu as ->; by repeat constructor|]). by apply elem_of_nil in Hu.
Defined.
