(* ===== verification/KvStore.v ===== *)
(** What the cloud service asks of the key-value store: the interface of
    [src/tal_kv/src/tal_kv.c] with its contract, and the two stores that keep it, the
    encrypted files of [Kv] and a finite map. *)
From Stdlib Require Import ZArith Lia.
From stdpp Require Import base tactics option list numbers gmap.
From S2P Require Import Prelude Symmetry Kv.

Local Open Scope Z_scope.

(** The calls; results as those of [Kv.tal_kv_set] and [Kv.tal_kv_get]. The contents of a
    store are a map from names to values: what was written is read back with a
    terminator behind it, unless the write failed, after which nothing is promised.
    [kv_commits] says that a write reaches the medium: [tal_kv_set] answers with success
    also when the file cannot be closed. *)
Class KvStore := {
  kv_state : Type;
  kv_set : kv_state -> list Z -> list Z -> Z -> option (Z * kv_state);
  kv_get : kv_state -> list Z -> option (Z * kv_state * option (list Z) * option Z);
  kv_del : kv_state -> list Z -> Z * kv_state;
  kv_contents : kv_state -> gmap (list Z) (list Z) -> Prop;
  kv_commits : kv_state -> list Z -> list Z -> Z -> Prop;

  kv_get_spec s m k :
    kv_contents s m ->
    exists rc s' val n, kv_get s k = Some (rc, s', val, n) /\ kv_contents s' m
      /\ match m !! k with
         | Some v => rc = OPRT_OK /\ n = Some (zlen v) /\ exists r, val = Some (v ++ 0 :: r)
         | None => rc <> OPRT_OK /\ val = None
         end;
  kv_set_spec s m k v rest :
    kv_contents s m -> storable v ->
    exists rc s', kv_set s k (v ++ rest) (zlen v) = Some (rc, s') 
      /\ (rc = OPRT_OK -> kv_commits s k (v ++ rest) (zlen v) -> kv_contents s' (<[k := v]> m));
  kv_set_empty s k v : exists rc, kv_set s k v 0 = Some (rc, s) /\ rc <> OPRT_OK;
  kv_del_spec s m k :
    kv_contents s m -> exists rc s', kv_del s k = (rc, s') /\ kv_contents s' (if rc =? OPRT_OK then delete k m else m)
}.

(** ** The encrypted files *)
Section Files.
Context `{LittleFs} `{AesLaws} (cfg : tal_kv_cfg_t) (Hseed : 16 <= zlen (cfg_seed cfg)) (Hkey : 16 <= zlen (cfg_key cfg)).

#[export] Program Instance file_store : KvStore := {|
  kv_state := lfs_t;
  kv_set fs k v n := tal_kv_set (fun _ => true) true cfg fs (Some k) (Some v) n;
  kv_get fs k := tal_kv_get (fun _ => true) true cfg fs (Some k);
  kv_del fs k := tal_kv_del fs k;
  kv_contents := kv_holds (fun _ => true) cfg;
  kv_commits fs k v n := forall rc closed fs', kv_set_closing (fun _ => true) true cfg fs (Some k) (Some v) n = Some (rc, closed, fs') -> closed = LFS_ERR_OK |}.
Next Obligation.
  intros fs m k Hm. destruct (kv_get_ok _ cfg fs m k Hm) as (rc & fs' & val & n & E & Hm' & Hk). exists rc, fs', val, n.
  split; [done|]. split; [done|]. destruct (m !! k); [done|]. by destruct Hk as (-> & -> & _).
Qed.
Next Obligation.
  intros fs m k v rest Hm Hv. destruct (kv_set_ok _ ltac:(done) cfg Hseed Hkey fs k v rest Hv) as (rc & closed & fs' & E & Hok).
  exists rc, fs'. split; [unfold tal_kv_set; by rewrite E|]. intros Hrc Hc. destruct (Hok Hrc (Hc _ _ _ E)) as (ec & Ec & Hs). by eapply kv_holds_insert.
Qed.
Next Obligation. intros fs k v. exists OPRT_INVALID_PARM. by split. Qed.
Next Obligation.
  intros fs m k Hm. unfold tal_kv_del. destruct (lfs_remove fs k) as [rc fs'] eqn:E. apply lfs_remove_file in E.
  eexists _, _. split; [reflexivity|]. destruct (Z.eqb_spec rc LFS_ERR_OK) as [_|_]; cbn.
  - by eapply kv_holds_delete.
  - by eapply kv_holds_content.
Qed.
End Files.

(** ** A map in memory, whose writes fail where [fails] says so, and its deletes where
    [keeps] does *)
Definition map_set (fails : list Z -> bool) (m : gmap (list Z) (list Z)) (k v : list Z) (n : Z) : option (Z * gmap (list Z) (list Z)) :=
  if n =? 0 then Some (OPRT_INVALID_PARM, m)
  else if fails k then Some (OPRT_KVS_WR_FAIL, m)
  else v ← slice v 0 n; Some (OPRT_OK, <[k := v]> m).
Definition map_get (m : gmap (list Z) (list Z)) (k : list Z) : option (Z * gmap (list Z) (list Z) * option (list Z) * option Z) :=
  match m !! k with
  | Some v => Some (OPRT_OK, m, Some (v ++ [0]), Some (zlen v))
  | None => Some (OPRT_KVS_RD_FAIL, m, None, None)
  end.

Program Definition map_store (fails keeps : list Z -> bool) : KvStore := {|
  kv_state := gmap (list Z) (list Z);
  kv_set := map_set fails;
  kv_get := map_get;
  kv_del m k := if keeps k then (OPRT_COM_ERROR, m) else (OPRT_OK, delete k m);
  kv_contents := eq;
  kv_commits _ _ _ _ := True |}.
Next Obligation.
  intros fails keeps s m k ->. unfold map_get. destruct (m !! k) as [v|] eqn:E; eexists _, _, _, _; (split; [done|]); (split; [done|]).
  - split_and!; try done. by exists [].
  - done.
Qed.
Next Obligation.
  intros fails keeps s m k v rest -> [_ Hv]. unfold map_set. destruct (Z.eqb_spec (zlen v) 0); [lia|]. destruct (fails k); [by eexists _, _|].
  rewrite slice_prefix_n by done. eexists _, _. split; [done|]. by intros _.
Qed.
Next Obligation. intros fails keeps s k v. exists OPRT_INVALID_PARM. by split. Qed.
Next Obligation. intros fails keeps s m k ->. destruct (keeps k); by eexists _, _. Qed.
