(* ===== verification/IotClient.v ===== *)
(** The device client: [src/tuya_cloud_service/cloud/tuya_iot.c], from the stored activation
    over pairing, activation and connection to the running client and its reset, with the
    parts of [tuya_endpoint.c] that keep their data in the key-value store. *)
From Stdlib Require Import ZArith Lia String.
From stdpp Require Import base tactics option list numbers gmap relations.
From S2P Require Import Prelude Text StateM Tools Json KvStore.

Local Open Scope Z_scope.

Definition OPRT_MSG_OUT_OF_LIMIT : Z := -35.
Definition MAX_LENGTH_UUID : Z := 25.
Definition MAX_LENGTH_DEVICE_ID : Z := 25.
Definition MAX_LENGTH_SECKEY : Z := 16.
Definition MAX_LENGTH_LOCALKEY : Z := 16.
Definition MAX_LENGTH_SCHEMA_ID : Z := 16.
Definition MAX_LENGTH_TIMEZONE : Z := 6.
Definition MAX_LENGTH_REGION : Z := 2.
Definition MAX_LENGTH_REGIST : Z := 4.
Definition MAX_TOKEN_GET_NUM : Z := 2.
Definition VERSION_BUFFER_MAX : Z := 128.
Definition AUTO_UPGRADE_CHECK_INTERVAL : Z := 86400000.
Definition DEV_STATUS_RESET_FACTORY : Z := 2.
Definition EVENT_TIME_SYNC : list Z := str "time.sync".
Definition EVENT_RESET : list Z := str "dev.reset".
Definition EVENT_MQTT_CONNECTED : list Z := str "mqtt.con".
Definition EVENT_MQTT_DISCONNECTED : list Z := str "mqtt.disc".
Definition BS_VERSION : list Z := str "40.07".
Definition PV_VERSION : list Z := str "2.3".

Inductive tuya_run_state_t :=
| STATE_IDLE | STATE_START | STATE_DATA_LOAD | STATE_ENDPOINT_GET | STATE_ENDPOINT_UPDATE | STATE_TOKEN_PENDING | STATE_ACTIVATING
| STATE_NETWORK_CHECK | STATE_NETWORK_RECONNECT | STATE_STARTUP_UPDATE | STATE_MQTT_CONNECT_START | STATE_MQTT_CONNECTING
| STATE_MQTT_RECONNECT | STATE_MQTT_YIELD | STATE_RESTART | STATE_RESET | STATE_STOP | STATE_EXIT.

Inductive tuya_client_status_t :=
| TUYA_STATUS_UNACTIVE | TUYA_STATUS_NETCFG_IDLE | TUYA_STATUS_UNCONNECT_ROUTER | TUYA_STATUS_WIFI_CONNECTED | TUYA_STATUS_MQTT_CONNECTED.

Inductive tuya_reset_type_t :=
| TUYA_RESET_TYPE_FACTORY | TUYA_RESET_TYPE_REMOTE_UNACTIVE | TUYA_RESET_TYPE_LOCAL_UNACTIVE | TUYA_RESET_TYPE_REMOTE_FACTORY
| TUYA_RESET_TYPE_DATA_FACTORY.

(** The events the client sends to the application, with the values they carry. *)
Inductive tuya_event :=
| TUYA_EVENT_RESET (t : tuya_reset_type_t) | TUYA_EVENT_BIND_START | TUYA_EVENT_BIND_TOKEN_ON (token : list Z)
| TUYA_EVENT_ACTIVATE_SUCCESSED | TUYA_EVENT_MQTT_CONNECTED | TUYA_EVENT_MQTT_DISCONNECT | TUYA_EVENT_RESET_COMPLETE
| TUYA_EVENT_TIMESTAMP_SYNC (t : Z) | TUYA_EVENT_BINDED_NOTIFY.

#[export] Instance run_state_dec : EqDecision tuya_run_state_t.
Proof. solve_decision. Defined.

(** Strings are memory with a terminator; [storage_namespace] is [None] for the null pointer,
    [event_handler] and [network_check] say whether the function is given. *)
Record tuya_iot_config_t := {
  uuid : list Z; software_ver : option (list Z); modules : option (list Z); storage_namespace : option (list Z);
  event_handler : bool; network_check : bool }.

Record tuya_activated_data_t := { devid : list Z; seckey : list Z; localkey : list Z; schemaId : list Z; timezone : list Z }.
Record tuya_binding_info_t := { token : list Z; region : list Z; regist_key : list Z }.

(** The parts of [tuya_iot_client_t] the functions below use. [token_result], [token_sem]
    and [token_cb] are those of [token_get], whose semaphore holds at most one post;
    [schema] says that the pointer is set. *)
Record tuya_iot_client_t := {
  config : tuya_iot_config_t; activate : tuya_activated_data_t;
  token_result : Z; token_sem : bool; token_cb : list Z;
  binding : option tuya_binding_info_t; status : tuya_client_status_t;
  state : tuya_run_state_t; nextstate : tuya_run_state_t; is_activated : bool; schema : bool }.

(** What the client does to the rest of the system, in order. *)
Inductive effect :=
| e_event (ev : tuya_event) | e_publish (name : list Z) | e_sleep (ms : Z)
| e_token_get (cb : Z) | e_activate (token : list Z) (devid : option (list Z)) | e_version_post (text : list Z)
| e_set_posix (t : Z) | e_set_zone (zone : list Z)
| e_schema_create (devid text : list Z) | e_schema_delete (devid : list Z)
| e_mqtt_init | e_mqtt_start | e_mqtt_register | e_mqtt_loop | e_mqtt_stop | e_mqtt_destroy
| e_matop_init | e_matop_yield | e_matop_reset | e_matop_destroy | e_sync_check | e_upgrade_timer (ms : Z) | e_upgrade_info
| e_endpoint_region (region regist_key : list Z) | e_endpoint_cert (cert : list Z)
| e_calloc | e_free | e_link_subscribe | e_lan_disable | e_netcfg_stop.

(** [strncpy(dst, p, n - 1); dst[n - 1] = 0] into an array of [n] bytes: the new array,
    [None] when [p] is read past its end. *)
Fixpoint strncpy (n : nat) (p : list Z) : option (list Z) :=
  match n with
  | O => Some []
  | S n => match p with
           | [] => None
           | c :: p => if c =? 0 then Some (replicate (S n) 0) else l ← strncpy n p; Some (c :: l)
           end
  end.
Definition copy_string (size : Z) (p : list Z) : option (list Z) := l ← strncpy (Z.to_nat (size - 1)) p; Some (l ++ [0]).

(** The text up to the terminator. *)
Definition c_text (p : list Z) : option (list Z) := n ← strlen p; slice p 0 n.

Section Client.
Context {KS : KvStore} {CJ : CJson}.
(** [dp_schema_create] for a device and a text: whether it gives a schema;
    [tal_time_set_time_zone] for a zone: its code. *)
Context (dp_schema_create : list Z -> list Z -> bool) (set_time_zone : list Z -> Z).

(** The answer to the activation request; [freed]: [result] was released. *)
Record atop_base_response_t := { success : bool; result : option cjson; t : Z; freed : bool }.

(** The callbacks of the MQTT service that run inside its loop. *)
Inductive callback :=
| on_reset_cmd (has_gwId factory : bool) | on_unbind (sync_rc sync_status : Z) | on_connected (timer_running : bool) | on_disconnect.

(** What the rest of the system answers during one call. *)
Record inputs := {
  i_network : bool; i_domain_rc : Z; i_update : Z; i_cert : list Z; i_domain : option (list Z);
  i_calloc : bool; i_activate : Z; i_response : atop_base_response_t; i_version_malloc : bool; i_version : Z;
  i_mqtt_start : Z; i_connected : bool; i_in_loop : list callback }.

(** [subscribed]: the client is a one-time subscriber of the activation event; [waiting]: the
    client thread is inside [tal_semaphore_wait_forever]. *)
Record world := { client : tuya_iot_client_t; kv : kv_state; subscribed : bool; waiting : bool; log : list effect }.

(** * The monad *)
Definition M : Type -> Type := ST world.

Definition get : M tuya_iot_client_t := st_gets client.
Definition put (c : tuya_iot_client_t) : M unit :=
  st_modify (fun w => {| client := c; kv := kv w; subscribed := subscribed w; waiting := waiting w; log := log w |}).
Definition emit (e : effect) : M unit :=
  st_modify (fun w => {| client := client w; kv := kv w; subscribed := subscribed w; waiting := waiting w; log := log w ++ [e] |}).
Definition set_subscribed (b : bool) : M unit :=
  st_modify (fun w => {| client := client w; kv := kv w; subscribed := b; waiting := waiting w; log := log w |}).
Definition set_waiting (b : bool) : M unit :=
  st_modify (fun w => {| client := client w; kv := kv w; subscribed := subscribed w; waiting := b; log := log w |}).
Definition pure {A} : option A -> M A := st_pure.
Definition on_store {A} (op : kv_state -> option (A * kv_state)) : M A := fun w =>
  r ← op (kv w); Some (r.1, {| client := client w; kv := r.2; subscribed := subscribed w; waiting := waiting w; log := log w |}).

Definition iot_kv_set (key value : list Z) (n : Z) : M Z := on_store (fun s => kv_set s key value n).
Definition iot_kv_get (key : list Z) : M (Z * option (list Z) * option Z) :=
  on_store (fun s => '(rc, s, val, n) ← kv_get s key; Some ((rc, val, n), s)).
Definition iot_kv_del (key : list Z) : M Z := on_store (fun s => Some (kv_del s key)).

Definition with_next (c : tuya_iot_client_t) (s : tuya_run_state_t) : tuya_iot_client_t :=
  {| config := config c; activate := activate c; token_result := token_result c; token_sem := token_sem c; token_cb := token_cb c;
     binding := binding c; status := status c; state := state c; nextstate := s; is_activated := is_activated c; schema := schema c |}.
Definition with_state (c : tuya_iot_client_t) (s : tuya_run_state_t) : tuya_iot_client_t :=
  {| config := config c; activate := activate c; token_result := token_result c; token_sem := token_sem c; token_cb := token_cb c;
     binding := binding c; status := status c; state := s; nextstate := nextstate c; is_activated := is_activated c; schema := schema c |}.
Definition with_status (c : tuya_iot_client_t) (s : tuya_client_status_t) : tuya_iot_client_t :=
  {| config := config c; activate := activate c; token_result := token_result c; token_sem := token_sem c; token_cb := token_cb c;
     binding := binding c; status := s; state := state c; nextstate := nextstate c; is_activated := is_activated c; schema := schema c |}.
Definition with_binding (c : tuya_iot_client_t) (b : option tuya_binding_info_t) : tuya_iot_client_t :=
  {| config := config c; activate := activate c; token_result := token_result c; token_sem := token_sem c; token_cb := token_cb c;
     binding := b; status := status c; state := state c; nextstate := nextstate c; is_activated := is_activated c; schema := schema c |}.
Definition with_token (c : tuya_iot_client_t) (rt : Z) (sem : bool) : tuya_iot_client_t :=
  {| config := config c; activate := activate c; token_result := rt; token_sem := sem; token_cb := token_cb c;
     binding := binding c; status := status c; state := state c; nextstate := nextstate c; is_activated := is_activated c; schema := schema c |}.
Definition with_activated (c : tuya_iot_client_t) (a : tuya_activated_data_t) (act sch : bool) : tuya_iot_client_t :=
  {| config := config c; activate := a; token_result := token_result c; token_sem := token_sem c; token_cb := token_cb c;
     binding := binding c; status := status c; state := state c; nextstate := nextstate c; is_activated := act; schema := sch |}.
Definition with_config (c : tuya_iot_client_t) (g : tuya_iot_config_t) : tuya_iot_client_t :=
  {| config := g; activate := activate c; token_result := token_result c; token_sem := token_sem c; token_cb := token_cb c;
     binding := binding c; status := status c; state := state c; nextstate := nextstate c; is_activated := is_activated c; schema := schema c |}.
Definition with_cb (c : tuya_iot_client_t) (l : list Z) : tuya_iot_client_t :=
  {| config := config c; activate := activate c; token_result := token_result c; token_sem := token_sem c; token_cb := l;
     binding := binding c; status := status c; state := state c; nextstate := nextstate c; is_activated := is_activated c; schema := schema c |}.

Definition set_next (s : tuya_run_state_t) : M unit := c ← get; put (with_next c s).
Definition set_status (s : tuya_client_status_t) : M unit := c ← get; put (with_status c s).
Definition set_binding (b : option tuya_binding_info_t) : M unit := c ← get; put (with_binding c b).

Definition iot_dispatch_event (ev : tuya_event) : M unit :=
  c ← get; if event_handler (config c) then emit (e_event ev) else mret tt.

(** [client->config.storage_namespace], which [tuya_iot_init] made non-null, as a name. *)
Definition namespace (c : tuya_iot_client_t) : option (list Z) := p ← storage_namespace (config c); c_text p.
(** [snprintf(buf, size, "%s...", namespace)]. *)
Definition key_text (size : Z) (ns suffix : list Z) : list Z := take (Z.to_nat (size - 1)) (ns ++ suffix).

(** * The stored activation *)

(** The member of an item that must be there, as a string. *)
Definition string_of (root : cjson) (name : list Z) : option (list Z) := item ← cJSON_GetObjectItem root name; cjson_string item.

Definition has_item (root : cjson) (name : list Z) : bool := match cJSON_GetObjectItem root name with Some _ => true | None => false end.

Definition activate_json_string_parse (s : list Z) (out : tuya_activated_data_t) : option (Z * tuya_activated_data_t) :=
  match cJSON_Parse s with
  | None => Some (OPRT_CJSON_PARSE_ERR, out)
  | Some root =>
      if negb (has_item root (str "devId")) || negb (has_item root (str "secKey"))
         || negb (has_item root (str "localKey")) || negb (has_item root (str "schemaId"))
      then Some (OPRT_CJSON_GET_ERR, out)
      else
        d ← string_of root (str "devId"); d ← copy_string (MAX_LENGTH_DEVICE_ID + 1) d;
        k ← string_of root (str "secKey"); k ← copy_string (MAX_LENGTH_SECKEY + 1) k;
        l ← string_of root (str "localKey"); l ← copy_string (MAX_LENGTH_LOCALKEY + 1) l;
        s ← string_of root (str "schemaId"); s ← copy_string (MAX_LENGTH_SCHEMA_ID + 1) s;
        z ← match cJSON_GetObjectItem root (str "stdTimeZone") with
            | None => Some (timezone out)
            | Some item => z ← cjson_string item; copy_string (MAX_LENGTH_TIMEZONE + 1) z
            end;
        Some (OPRT_OK, {| devid := d; seckey := k; localkey := l; schemaId := s; timezone := z |})
  end.

(** Whether a schema was created. *)
Definition schema_instance_create (dev schema_id : list Z) : M bool :=
  key ← pure (c_text schema_id);
  '(rc, data, _) ← iot_kv_get key;
  if negb (rc =? OPRT_OK) then mret false
  else
    data ← pure data; text ← pure (c_text data); name ← pure (c_text dev);
    _ ← emit (e_schema_create name text);
    mret (dp_schema_create name text).

(** It writes to [client->activate], as both callers ask. *)
Definition activated_data_read : M Z :=
  c ← get;
  key ← pure (namespace c);
  '(rc, buf, _) ← iot_kv_get key;
  if negb (rc =? OPRT_OK) then mret rc
  else
    buf ← pure buf;
    '(rt, out) ← pure (activate_json_string_parse buf (activate c));
    _ ← put (with_activated c out (is_activated c) (schema c));
    if negb (rt =? OPRT_OK) then mret rt
    else _ ← emit (e_set_zone (timezone out)); mret (set_time_zone (timezone out)).

(** * Activation *)

(** The code, and the response with the ownership of its result. *)
Definition activate_response_parse (r : atop_base_response_t) : M (Z * atop_base_response_t) :=
  match result r with
  | None => mret (OPRT_INVALID_PARM, r)
  | Some root =>
      if negb (success r) then mret (OPRT_INVALID_PARM, r)
      else if negb (has_item root (str "schema")) || negb (has_item root (str "schemaId")) then
        mret (OPRT_CJSON_GET_ERR, {| success := success r; result := result r; t := t r; freed := true |})
      else
        sid ← pure (string_of root (str "schemaId")); key ← pure (c_text sid);
        text ← pure (string_of root (str "schema")); n ← pure (strlen text);
        let root := cJSON_DetachItemFromObject root (str "schema") in
        let r := {| success := success r; result := Some root; t := t r; freed := freed r |} in
        rt ← iot_kv_set key text n;
        if negb (rt =? OPRT_OK) then mret (OPRT_KVS_WR_FAIL, r)
        else
          let out := cJSON_PrintUnformatted root in
          c ← get; key ← pure (namespace c);
          rt ← iot_kv_set key (cstr out) (zlen out);
          mret (if negb (rt =? OPRT_OK) then OPRT_KVS_WR_FAIL else OPRT_OK, r)
  end.

(** The result is released if it was not yet: a second release is a fault. *)
Definition atop_base_response_free (r : atop_base_response_t) : option unit :=
  if success r && match result r with Some _ => true | None => false end then if freed r then None else Some tt else Some tt.

(** The device id of an earlier activation. *)
Definition client_activate_devid (ns : list Z) : M (option (list Z)) :=
  '(rc, val, n) ← iot_kv_get (key_text (MAX_LENGTH_UUID + 7) ns (str ".devid"));
  if rc =? OPRT_OK then
    v ← pure val; n ← pure n; v ← pure (slice v 0 n); d ← pure (blit (zrepl (MAX_LENGTH_DEVICE_ID + 1) 0) 0 v);
    d ← pure (c_text d); mret (Some d)
  else mret None.

Definition client_activate_process (i : inputs) (tok : list Z) : M Z :=
  c ← get; ns ← pure (namespace c);
  dev ← client_activate_devid ns;
  _ ← emit (e_activate tok dev);
  if negb (i_activate i =? OPRT_OK) then _ ← set_next STATE_RESTART; mret (i_activate i)
  else
    _ ← emit (e_set_posix (t (i_response i)));
    _ ← iot_dispatch_event (TUYA_EVENT_TIMESTAMP_SYNC (s32 (t (i_response i))));
    '(rt, r) ← activate_response_parse (i_response i);
    _ ← pure (atop_base_response_free r);
    _ ← emit (e_publish EVENT_TIME_SYNC);
    mret rt.

(** * The endpoint

    [tuya_endpoint.c]: region and registration key of the pairing, certificate and domain
    of the servers. What is put into [endpoint_mgr] besides is an effect; the
    certificate and the domain that are stored are given. *)
Definition tuya_region_regist_key_write (reg key : list Z) : M Z :=
  n ← pure (strlen reg); rt ← iot_kv_set (str "region") reg n;
  if negb (rt =? OPRT_OK) then mret OPRT_KVS_WR_FAIL
  else
    n ← pure (strlen key); rt ← iot_kv_set (str "regist_key") key n;
    mret (if negb (rt =? OPRT_OK) then OPRT_KVS_WR_FAIL else OPRT_OK).

Definition tuya_endpoint_region_regist_set (reg key : list Z) : M Z :=
  rt ← tuya_region_regist_key_write reg key;
  if negb (rt =? OPRT_OK) then mret OPRT_KVS_WR_FAIL
  else
    reg ← pure (copy_string (MAX_LENGTH_REGION + 1) reg); key ← pure (copy_string (MAX_LENGTH_REGIST + 1) key);
    _ ← emit (e_endpoint_region reg key); mret OPRT_OK.

Definition tuya_endpoint_cert_get : M Z :=
  '(rc, cert, _) ← iot_kv_get (str "endpoint.cert");
  _ ← match cert with Some c => emit (e_endpoint_cert c) | None => mret tt end; mret rc.
(** The record is decoded by [tal_kv_serialize_get], whose code is given. *)
Definition tuya_endpoint_domain_get (i : inputs) : M Z :=
  '(rc, _, _) ← iot_kv_get (str "endpoint.domain"); mret (if negb (rc =? OPRT_OK) then rc else i_domain_rc i).
Definition tuya_endpoint_cert_set (i : inputs) : M Z := iot_kv_set (str "endpoint.cert") (i_cert i) (zlen (i_cert i)).
(** The text of the record is given, if it can be made. *)
Definition tuya_endpoint_domain_set (i : inputs) : M Z :=
  match i_domain i with None => mret OPRT_MALLOC_FAILED | Some d => iot_kv_set (str "endpoint.domain") d (zlen d) end.
Definition tuya_endpoint_remove : M Z :=
  _ ← iot_kv_del (str "region"); _ ← iot_kv_del (str "regist_key"); _ ← iot_kv_del (str "endpoint.cert");
  _ ← iot_kv_del (str "endpoint.domain"); mret OPRT_OK.

(** * The version *)

(** [snprintf(buf + version_len, remain, ...)]: the text so far and what is added, [None]
    when it does not fit. *)
Definition version_append (size : Z) (buf txt : list Z) : option (list Z) :=
  if size - zlen buf <=? zlen txt then None else Some (buf ++ txt).
Definition bq (s : string) : list Z := [92; 34] ++ str s ++ [92; 34].
Definition version_main (ver : list Z) : list Z :=
  str "{" ++ bq "otaChannel" ++ str ":" ++ print_int 0 ++ str "," ++ bq "protocolVer" ++ str ":" ++ [92; 34] ++ PV_VERSION ++ [92; 34] ++ str ","
  ++ bq "baselineVer" ++ str ":" ++ [92; 34] ++ BS_VERSION ++ [92; 34] ++ str "," ++ bq "softVer" ++ str ":" ++ [92; 34] ++ ver ++ [92; 34] ++ str "}".

(** The text of all versions; the inner [None] says that it does not fit its buffer. *)
Definition version_text (mods : option (list Z)) (ver : list Z) : option (option (list Z)) :=
  '(size, head) ← match mods with
                  | Some m =>
                      m ← c_text m;
                      let size := VERSION_BUFFER_MAX + zlen m + 10 in
                      Some (size, if zlen m =? 0 then None else version_append size (take (length m - 1) m) (str ","))
                  | None => Some (VERSION_BUFFER_MAX, version_append VERSION_BUFFER_MAX [] (str "["))
                  end;
  Some (head ← head; b ← version_append size head (version_main ver); version_append size b (str "]")).

(** [memcmp(a, b, n) == 0]. *)
Definition mem_equal (a b : list Z) (n : Z) : option bool := x ← slice a 0 n; y ← slice b 0 n; Some (bool_decide (x = y)).

Definition tuya_iot_version_update_sync (i : inputs) : M Z :=
  c ← get;
  match software_ver (config c), storage_namespace (config c) with
  | Some v, Some _ =>
      v ← pure (c_text v); ns ← pure (namespace c);
      if (zlen v =? 0) || (zlen ns =? 0) then mret OPRT_INVALID_PARM
      else if negb (i_version_malloc i) then mret OPRT_INVALID_PARM
      else
        txt ← pure (version_text (modules (config c)) v);
        match txt with
        | None => mret OPRT_BUFFER_NOT_ENOUGH
        | Some txt =>
            let key := key_text 32 ns (str ".ver") in
            '(_, buf, _) ← iot_kv_get key;
            same ← match buf with None => mret false | Some b => pure (mem_equal txt b (zlen txt)) end;
            if same : bool then mret OPRT_OK
            else
              _ ← emit (e_version_post txt);
              if negb (i_version i =? OPRT_OK) then mret (i_version i) else iot_kv_set key txt (zlen txt)
        end
  | _, _ => mret OPRT_INVALID_PARM
  end.

Definition tuya_iot_extension_modules_version_update (i : inputs) (version : option (list Z)) : M Z :=
  match version with
  | None => mret OPRT_INVALID_PARM
  | Some v =>
      v0 ← pure (rd v 0);
      if v0 =? 0 then mret OPRT_INVALID_PARM
      else
        c ← get; let g := config c in
        _ ← put (with_config c {| uuid := uuid g; software_ver := software_ver g; modules := Some v; storage_namespace := storage_namespace g;
                                  event_handler := event_handler g; network_check := network_check g |});
        tuya_iot_version_update_sync i
  end.

(** * The callbacks of the MQTT service *)
Definition mqtt_service_reset_cmd_on (has_gwId factory : bool) : M unit :=
  if negb has_gwId then pure None
  else
    _ ← iot_dispatch_event (TUYA_EVENT_RESET (if factory then TUYA_RESET_TYPE_REMOTE_FACTORY else TUYA_RESET_TYPE_REMOTE_UNACTIVE));
    set_next STATE_RESET.

Definition mqtt_client_unbind_on (sync_rc sync_status : Z) : M unit :=
  _ ← set_next STATE_RESET;
  _ ← emit e_sync_check;
  iot_dispatch_event (TUYA_EVENT_RESET (if (sync_rc =? OPRT_OK) && (sync_status =? DEV_STATUS_RESET_FACTORY)
                                        then TUYA_RESET_TYPE_REMOTE_FACTORY else TUYA_RESET_TYPE_REMOTE_UNACTIVE)).

Definition mqtt_client_connected_on (timer_running : bool) : M unit :=
  _ ← emit e_matop_init;
  _ ← (if timer_running then mret tt else emit (e_upgrade_timer 1000));
  _ ← iot_dispatch_event TUYA_EVENT_MQTT_CONNECTED;
  emit (e_publish EVENT_MQTT_CONNECTED).

Definition mqtt_client_disconnect_on : M unit :=
  _ ← emit e_matop_destroy;
  _ ← iot_dispatch_event TUYA_EVENT_MQTT_DISCONNECT;
  emit (e_publish EVENT_MQTT_DISCONNECTED).

Definition run_callback (cb : callback) : M unit :=
  match cb with
  | on_reset_cmd g f => mqtt_service_reset_cmd_on g f
  | on_unbind rc st => mqtt_client_unbind_on rc st
  | on_connected r => mqtt_client_connected_on r
  | on_disconnect => mqtt_client_disconnect_on
  end.
Fixpoint run_callbacks (l : list callback) : M unit :=
  match l with [] => mret tt | cb :: l => _ ← run_callback cb; run_callbacks l end.

(** * The states *)
Definition tuya_iot_activated_data_remove : M Z :=
  c ← get;
  if negb (is_activated c) then mret OPRT_COM_ERROR
  else
    _ ← put (with_activated c (activate c) false (schema c));
    _ ← emit e_lan_disable; _ ← emit e_netcfg_stop;
    name ← pure (c_text (devid (activate c))); _ ← emit (e_schema_delete name);
    sid ← pure (c_text (schemaId (activate c))); _ ← iot_kv_del sid;
    ns ← pure (namespace c); _ ← iot_kv_del ns;
    _ ← tuya_endpoint_remove;
    _ ← iot_dispatch_event TUYA_EVENT_RESET_COMPLETE;
    mret OPRT_OK.

Definition run_state_startup_update (i : inputs) : M unit := _ ← tuya_iot_version_update_sync i; emit e_mqtt_init.

Definition run_state_mqtt_connect_start (i : inputs) : M Z :=
  _ ← emit e_mqtt_start;
  if negb (i_mqtt_start i =? OPRT_OK) then mret (i_mqtt_start i) else _ ← emit e_mqtt_register; mret (i_mqtt_start i).

Definition run_state_restart : M unit := mret tt.

Definition run_state_reset (i : inputs) : M Z :=
  c ← get;
  _ ← (if is_activated c && i_connected i then emit e_mqtt_stop else mret tt);
  _ ← emit e_mqtt_destroy;
  ns ← pure (namespace c);
  d ← pure (strlen (devid (activate c)));
  _ ← iot_kv_set (key_text 32 ns (str ".devid")) (devid (activate c)) d;
  _ ← emit (e_publish EVENT_RESET);
  tuya_iot_activated_data_remove.

(** [tuya_iot_token_get_pending] up to the semaphore, and behind it. *)
Fixpoint token_callbacks (l : list Z) : M unit :=
  match l with [] => mret tt | cb :: l => _ ← emit (e_token_get cb); token_callbacks l end.
Definition token_pending : M unit :=
  _ ← iot_dispatch_event TUYA_EVENT_BIND_START;
  c ← get; _ ← token_callbacks (token_cb c);
  set_waiting true.
Definition token_resume : M Z :=
  _ ← set_waiting false;
  c ← get; _ ← put (with_token c (token_result c) false);
  if negb (token_result c =? OPRT_OK) then _ ← emit e_free; _ ← set_binding None; mret OPRT_OK
  else
    b ← pure (binding c);
    _ ← tuya_endpoint_region_regist_set (region b) (regist_key b);
    _ ← iot_dispatch_event (TUYA_EVENT_BIND_TOKEN_ON (token b));
    _ ← set_next STATE_NETWORK_CHECK;
    mret OPRT_OK.

Definition network_ok (c : tuya_iot_client_t) (i : inputs) : bool := network_check (config c) && i_network i.

Definition state_activating (i : inputs) : M Z :=
  c ← get; b ← pure (binding c);
  rt ← client_activate_process i (token b);
  if negb (rt =? OPRT_OK) then _ ← emit (e_sleep 1000); mret rt
  else
    _ ← emit e_free; _ ← set_binding None;
    rd ← activated_data_read;
    if negb (rd =? OPRT_OK) then _ ← set_next STATE_RESET; mret rt
    else
      c ← get;
      ok ← schema_instance_create (devid (activate c)) (schemaId (activate c));
      c ← get; _ ← put (with_activated c (activate c) (is_activated c) ok);
      if negb ok then _ ← set_next STATE_RESET; mret rt
      else
        r1 ← tuya_endpoint_cert_set i; r2 ← tuya_endpoint_domain_set i;
        c ← get; _ ← put (with_activated c (activate c) true (schema c));
        _ ← set_next STATE_STARTUP_UPDATE;
        _ ← iot_dispatch_event TUYA_EVENT_ACTIVATE_SUCCESSED;
        mret (Z.lor r1 r2).

(** The switch of [tuya_iot_yield]. [TUYA_CALL_ERR_LOG] of the subscription has no effect on the client; the subscription of
    the activation event is one-time and made once. *)
Definition yield_in (i : inputs) (st : tuya_run_state_t) : M Z :=
  c ← get;
  match st with
  | STATE_MQTT_YIELD => _ ← emit e_mqtt_loop; _ ← run_callbacks (i_in_loop i); _ ← emit e_matop_yield; mret OPRT_OK
  | STATE_IDLE => _ ← emit (e_sleep 500); mret OPRT_OK
  | STATE_START =>
      _ ← (if is_activated c then _ ← set_next STATE_NETWORK_CHECK; set_status TUYA_STATUS_UNCONNECT_ROUTER
           else _ ← set_next STATE_DATA_LOAD; set_status TUYA_STATUS_UNACTIVE);
      _ ← emit e_link_subscribe; mret OPRT_OK
  | STATE_DATA_LOAD =>
      if is_activated c then _ ← set_next STATE_NETWORK_CHECK; mret OPRT_OK
      else if negb (i_calloc i) then _ ← set_binding None; mret OPRT_OK
      else
        _ ← emit e_calloc;
        _ ← set_binding (Some {| token := zrepl 9 0; region := zrepl 3 0; regist_key := zrepl 5 0 |});
        _ ← set_subscribed true;
        _ ← set_next STATE_TOKEN_PENDING; mret OPRT_OK
  | STATE_TOKEN_PENDING => _ ← token_pending; mret OPRT_OK
  | STATE_NETWORK_CHECK =>
      if network_ok c i then
        _ ← set_status TUYA_STATUS_WIFI_CONNECTED;
        _ ← set_next (if is_activated c then STATE_ENDPOINT_GET else STATE_ENDPOINT_UPDATE); mret OPRT_OK
      else _ ← emit (e_sleep 1000); mret OPRT_OK
  | STATE_ENDPOINT_GET =>
      r1 ← tuya_endpoint_cert_get; r2 ← tuya_endpoint_domain_get i;
      let rt := Z.lor r1 r2 in
      _ ← set_next (if negb (rt =? OPRT_OK) then STATE_ENDPOINT_UPDATE else STATE_STARTUP_UPDATE); mret rt
  | STATE_ENDPOINT_UPDATE =>
      if negb (i_update i =? OPRT_OK) then _ ← emit (e_sleep 1000); mret (i_update i)
      else if is_activated c then
        r1 ← tuya_endpoint_cert_set i; r2 ← tuya_endpoint_domain_set i;
        _ ← set_next STATE_STARTUP_UPDATE; mret (Z.lor r1 r2)
      else _ ← set_next STATE_ACTIVATING; mret (i_update i)
  | STATE_ACTIVATING => state_activating i
  | STATE_STARTUP_UPDATE =>
      _ ← iot_dispatch_event TUYA_EVENT_BINDED_NOTIFY; _ ← run_state_startup_update i;
      _ ← set_next STATE_MQTT_CONNECT_START; mret OPRT_OK
  | STATE_MQTT_CONNECT_START =>
      rt ← run_state_mqtt_connect_start i;
      _ ← (if rt =? OPRT_OK then set_next STATE_MQTT_CONNECTING else mret tt); mret OPRT_OK
  | STATE_MQTT_CONNECTING =>
      _ ← (if i_connected i then _ ← set_status TUYA_STATUS_MQTT_CONNECTED; set_next STATE_MQTT_YIELD else mret tt); mret OPRT_OK
  | STATE_MQTT_RECONNECT =>
      _ ← emit e_mqtt_stop;
      _ ← (if network_ok c i then _ ← set_status TUYA_STATUS_WIFI_CONNECTED; set_next STATE_MQTT_CONNECT_START
           else _ ← set_status TUYA_STATUS_UNCONNECT_ROUTER; set_next STATE_NETWORK_RECONNECT);
      mret OPRT_OK
  | STATE_NETWORK_RECONNECT =>
      _ ← (if network_ok c i then _ ← set_status TUYA_STATUS_WIFI_CONNECTED; set_next STATE_MQTT_CONNECT_START else emit (e_sleep 1000));
      mret OPRT_OK
  | STATE_RESTART => _ ← run_state_restart; _ ← set_next STATE_START; mret OPRT_OK
  | STATE_RESET => _ ← run_state_reset i; _ ← set_next STATE_RESTART; mret OPRT_OK
  | STATE_STOP => _ ← emit e_mqtt_stop; _ ← emit e_mqtt_destroy; _ ← set_next STATE_IDLE; mret OPRT_OK
  | STATE_EXIT => mret OPRT_OK
  end.

Definition tuya_iot_yield (i : inputs) : M Z :=
  c ← get; _ ← put (with_state c (nextstate c));
  c ← get; yield_in i (state c).

(** * The other calls *)
Definition tuya_iot_start : M Z :=
  c ← get; if negb (bool_decide (state c = STATE_IDLE)) then mret OPRT_COM_ERROR else _ ← set_next STATE_START; mret OPRT_OK.
Definition tuya_iot_stop : M Z := _ ← set_next STATE_STOP; mret OPRT_OK.
Definition tuya_iot_reconnect : M Z :=
  c ← get; if negb (bool_decide (state c = STATE_MQTT_YIELD)) then mret OPRT_COM_ERROR else _ ← set_next STATE_MQTT_RECONNECT; mret OPRT_OK.

(** [matop] is the code of [matop_service_client_reset]. *)
Definition tuya_iot_reset (matop : Z) : M Z :=
  c ← get;
  ret ← (if bool_decide (state c = STATE_MQTT_YIELD) && is_activated c then _ ← emit e_matop_reset; mret matop else mret OPRT_OK);
  _ ← iot_dispatch_event (TUYA_EVENT_RESET TUYA_RESET_TYPE_FACTORY);
  _ ← set_next STATE_RESET;
  c ← get;
  _ ← (if bool_decide (state c = STATE_TOKEN_PENDING) then put (with_token c OPRT_COM_ERROR true) else mret tt);
  mret ret.

(** The one-time subscriber of the activation event: it writes through [client->binding]. *)
Definition tuya_iot_token_activate_evt (b : tuya_binding_info_t) : M Z :=
  c ← get; _ ← pure (binding c);
  _ ← set_binding (Some b);
  c ← get; _ ← put (with_token c OPRT_OK true);
  mret OPRT_OK.
Definition publish_activate (b : tuya_binding_info_t) : M Z := _ ← set_subscribed false; tuya_iot_token_activate_evt b.

(** The subscriber of the change of the link. *)
Definition tuya_iot_link_type_change_cb : M Z := _ ← tuya_iot_reconnect; mret OPRT_OK.

Definition tuya_iot_activated (c : option tuya_iot_client_t) : bool := match c with None => false | Some c => is_activated c end.

(** [None] are null pointers; a callback is known by its address. *)
Definition tuya_iot_token_get_port_register (cb : option Z) : M Z :=
  match cb with
  | None => mret OPRT_INVALID_PARM
  | Some f =>
      c ← get;
      if existsb (Z.eqb f) (token_cb c) then mret OPRT_OK
      else if zlen (token_cb c) <? MAX_TOKEN_GET_NUM then _ ← put (with_cb c (token_cb c ++ [f])); mret OPRT_OK
      else mret OPRT_MSG_OUT_OF_LIMIT
  end.

Definition check_auto_upgrade_timeout_on (connected : bool) : M unit :=
  _ ← (if connected then emit e_upgrade_info else mret tt); emit (e_upgrade_timer AUTO_UPGRADE_CHECK_INTERVAL).

(** The cleared structure. *)
Definition activated_zero : tuya_activated_data_t :=
  {| devid := zrepl 26 0; seckey := zrepl 17 0; localkey := zrepl 17 0; schemaId := zrepl 17 0; timezone := zrepl 7 0 |}.
Definition client_zero (g : tuya_iot_config_t) : tuya_iot_client_t :=
  {| config := g; activate := activated_zero; token_result := 0; token_sem := false; token_cb := []; binding := None;
     status := TUYA_STATUS_UNACTIVE; state := STATE_IDLE; nextstate := STATE_IDLE; is_activated := false; schema := false |}.

(** [tuya_iot_init]; [creates] are the results of creating the timer and of the three
    services behind it, of which the first failure is returned. *)
Definition tuya_iot_init (creates : list Z) (g : tuya_iot_config_t) : M Z :=
  let g := {| uuid := uuid g; software_ver := software_ver g; modules := modules g;
              storage_namespace := Some (default (uuid g) (storage_namespace g));
              event_handler := event_handler g; network_check := network_check g |} in
  _ ← put (client_zero g);
  rt ← activated_data_read;
  _ ← (if rt =? OPRT_OK then
         c ← get;
         ok ← schema_instance_create (devid (activate c)) (schemaId (activate c));
         c ← get; put (with_activated c (activate c) (if ok : bool then true else is_activated c) ok)
       else mret tt);
  mret (default OPRT_OK (list_find (fun r => r <> OPRT_OK) creates ≫= fun x => Some x.2)).

(** * The client among the others

    Calls of other threads come between the calls of the client thread, and while this one
    waits for a token; each is one step. *)
Definition with_kv (w : world) (s : kv_state) : world :=
  {| client := client w; kv := s; subscribed := subscribed w; waiting := waiting w; log := log w |}.

Inductive iot_step : world -> world -> Prop :=
| step_yield i rt w w' : waiting w = false -> tuya_iot_yield i w = Some (rt, w') -> iot_step w w'
| step_resume rt w w' : waiting w = true -> token_sem (client w) = true -> token_resume w = Some (rt, w') -> iot_step w w'
| step_start rt w w' : tuya_iot_start w = Some (rt, w') -> iot_step w w'
| step_stop rt w w' : tuya_iot_stop w = Some (rt, w') -> iot_step w w'
| step_reconnect rt w w' : tuya_iot_reconnect w = Some (rt, w') -> iot_step w w'
| step_reset m rt w w' : tuya_iot_reset m w = Some (rt, w') -> iot_step w w'
| step_activate b rt w w' : subscribed w = true -> publish_activate b w = Some (rt, w') -> iot_step w w'
| step_link rt w w' : tuya_iot_link_type_change_cb w = Some (rt, w') -> iot_step w w'
| step_register cb rt w w' : tuya_iot_token_get_port_register cb w = Some (rt, w') -> iot_step w w'.

#[local] Arguments str : simpl never.
#[local] Arguments tuya_iot_version_update_sync : simpl never.
#[local] Arguments activate_response_parse : simpl never.
#[local] Arguments EVENT_TIME_SYNC : simpl never.
#[local] Arguments EVENT_RESET : simpl never.
#[local] Arguments EVENT_MQTT_CONNECTED : simpl never.
#[local] Arguments EVENT_MQTT_DISCONNECTED : simpl never.

(** * The control part of the state

    Most calls only use the store and the rest of the system. *)
Definition ctl (w : world) : tuya_iot_client_t * bool * bool := (client w, subscribed w, waiting w).

Lemma leaves_on_store {A} (op : kv_state -> option (A * kv_state)) : leaves ctl (on_store op).
Proof. intros w a w' H. unfold on_store in H. destruct (op (kv w)) as [r|]; [|done]. by injection H as _ <-. Qed.
Lemma leaves_emit e : leaves ctl (emit e).
Proof. by apply leaves_modify. Qed.
#[local] Hint Resolve leaves_on_store leaves_emit : leaves.
#[local] Hint Extern 1 (leaves _ (iot_kv_set _ _ _)) => apply leaves_on_store : leaves.
#[local] Hint Extern 1 (leaves _ (iot_kv_get _)) => apply leaves_on_store : leaves.
#[local] Hint Extern 1 (leaves _ (iot_kv_del _)) => apply leaves_on_store : leaves.
#[local] Hint Extern 1 (leaves _ get) => apply leaves_gets : leaves.
#[local] Hint Extern 1 (leaves _ (pure _)) => apply leaves_pure : leaves.

Lemma leaves_dispatch ev : leaves ctl (iot_dispatch_event ev). Proof. unfold iot_dispatch_event. leaves_tac. Qed.
#[local] Hint Resolve leaves_dispatch : leaves.
Lemma leaves_schema_instance d s : leaves ctl (schema_instance_create d s). Proof. unfold schema_instance_create. leaves_tac. Qed.
Lemma leaves_activate_devid ns : leaves ctl (client_activate_devid ns). Proof. unfold client_activate_devid. leaves_tac. Qed.
Lemma leaves_response_parse r : leaves ctl (activate_response_parse r). Proof. unfold activate_response_parse. leaves_tac. Qed.
Lemma leaves_regist_set r k : leaves ctl (tuya_endpoint_region_regist_set r k).
Proof. unfold tuya_endpoint_region_regist_set, tuya_region_regist_key_write. leaves_tac. Qed.
Lemma leaves_cert_get : leaves ctl (tuya_endpoint_cert_get). Proof. unfold tuya_endpoint_cert_get. leaves_tac. Qed.
Lemma leaves_domain_get i : leaves ctl (tuya_endpoint_domain_get i). Proof. unfold tuya_endpoint_domain_get. leaves_tac. Qed.
Lemma leaves_cert_set i : leaves ctl (tuya_endpoint_cert_set i). Proof. unfold tuya_endpoint_cert_set. leaves_tac. Qed.
Lemma leaves_domain_set i : leaves ctl (tuya_endpoint_domain_set i). Proof. unfold tuya_endpoint_domain_set. leaves_tac. Qed.
Lemma leaves_remove : leaves ctl tuya_endpoint_remove. Proof. unfold tuya_endpoint_remove. leaves_tac. Qed.
Lemma leaves_version i : leaves ctl (tuya_iot_version_update_sync i). Proof. unfold tuya_iot_version_update_sync. leaves_tac. Qed.
#[local] Hint Resolve leaves_activate_devid leaves_schema_instance leaves_response_parse leaves_regist_set leaves_cert_get leaves_domain_get leaves_cert_set leaves_domain_set
  leaves_remove leaves_version : leaves.
Lemma leaves_startup i : leaves ctl (run_state_startup_update i). Proof. unfold run_state_startup_update. leaves_tac. Qed.
Lemma leaves_connect_start i : leaves ctl (run_state_mqtt_connect_start i). Proof. unfold run_state_mqtt_connect_start. leaves_tac. Qed.
Lemma leaves_token_callbacks l : leaves ctl (token_callbacks l).
Proof. induction l; cbn [token_callbacks]; leaves_tac. Qed.
#[local] Hint Resolve leaves_startup leaves_connect_start leaves_token_callbacks : leaves.

Lemma unit_run (w1 w2 : world) (u : unit) : Some (tt, w1) = Some (u, w2) -> w2 = w1.
Proof. congruence. Qed.
(** Takes a run apart: what a call leaves is equal before and after it. *)
Ltac run_leaves H :=
  lazymatch type of H with
  | ?m ?w = Some (_, ?w') =>
      let L := fresh "L" in let E := fresh "E" in
      assert (leaves ctl m) as L by (solve [eauto with leaves]);
      pose proof (L _ _ _ H) as E; clear L H; unfold ctl in E; cbn in E; injection E as ? ? ?
  end.
Ltac run_inv :=
  repeat match goal with
  | H : (_ ≫= _) _ = Some _ |- _ => apply st_bind_inv in H as (? & ? & ? & ?)
  | H : mret _ _ = Some _ |- _ => injection H as ? ?; subst
  | H : get _ = Some _ |- _ => injection H as ? ?; subst
  | H : put _ _ = Some _ |- _ => apply unit_run in H; cbn in H; subst
  | H : emit _ _ = Some _ |- _ => apply unit_run in H; cbn in H; subst
  | H : set_waiting _ _ = Some _ |- _ => apply unit_run in H; cbn in H; subst
  | H : set_subscribed _ _ = Some _ |- _ => apply unit_run in H; cbn in H; subst
  | H : set_next _ _ = Some _ |- _ => apply unit_run in H; cbn in H; subst
  | H : set_status _ _ = Some _ |- _ => apply unit_run in H; cbn in H; subst
  | H : set_binding _ _ = Some _ |- _ => apply unit_run in H; cbn in H; subst
  | H : (match ?x with _ => _ end) _ = Some _ |- _ => destruct x eqn:?
  | H : pure _ _ = Some _ |- _ => apply st_pure_inv in H as [? ?]; subst
  | H : _ _ = Some (_, _) |- _ => run_leaves H
  end.

(** ** The invariant *)

(** The states that talk to the cloud as an activated device, and those of the way there
    that need the data of the pairing. *)
Definition online (s : tuya_run_state_t) : bool :=
  match s with
  | STATE_ENDPOINT_GET | STATE_STARTUP_UPDATE | STATE_MQTT_CONNECT_START | STATE_MQTT_CONNECTING | STATE_MQTT_RECONNECT | STATE_MQTT_YIELD
  | STATE_NETWORK_RECONNECT => true
  | _ => false
  end.
Definition pairing (s : tuya_run_state_t) : bool :=
  match s with STATE_NETWORK_CHECK | STATE_ENDPOINT_UPDATE | STATE_ACTIVATING => true | _ => false end.

Record client_ok (c : tuya_iot_client_t) (wait : bool) : Prop := {
  ok_schema : is_activated c = true -> schema c = true;
  ok_state : online (state c) = true -> is_activated c = true;
  ok_next : online (nextstate c) = true -> is_activated c = true;
  ok_activating : nextstate c = STATE_ACTIVATING -> is_activated c = false;
  ok_binding : is_activated c = false -> pairing (nextstate c) = true -> binding c <> None;
  ok_waiting : wait = true -> state c = STATE_TOKEN_PENDING
               /\ (nextstate c = STATE_TOKEN_PENDING \/ nextstate c = STATE_RESET \/ nextstate c = STATE_STOP) }.
Definition iot_inv (w : world) : Prop := client_ok (client w) (waiting w).

Lemma ctl_inv w w' : ctl w' = ctl w -> iot_inv w -> iot_inv w'.
Proof. unfold ctl, iot_inv. intros E. by injection E as -> _ ->. Qed.

(** A client that was written field by field. *)
Ltac chain_tac :=
  unfold iot_inv in *; cbn in *;
  repeat match goal with
  | H : client ?x = _ |- _ => is_var x; rewrite H in *; clear H
  | H : waiting ?x = _ |- _ => is_var x; rewrite H in *; clear H
  | H : subscribed ?x = _ |- _ => is_var x; rewrite H in *; clear H
  end; cbn in *.
Ltac field_tac :=
  chain_tac;
  repeat match goal with H : client_ok _ _ |- _ => destruct H end;
  constructor; cbn; intros; try done; try congruence; eauto.

Lemma resume_inv w rt w' : iot_inv w -> waiting w = true -> token_resume w = Some (rt, w') -> iot_inv w'.
Proof.
  intros Hi Hw H. unfold token_resume in H. run_inv.
  - pose proof (ok_waiting _ _ Hi Hw) as [Es En]. field_tac. destruct En as [E|[E|E]]; rewrite E in *; done.
  - field_tac.
Qed.

(** A callback of the loop only asks for a reset. *)
Lemma callbacks_run l : forall w u w', run_callbacks l w = Some (u, w') ->
  waiting w' = waiting w /\ (client w' = client w \/ client w' = with_next (client w) STATE_RESET).
Proof.
  induction l as [|cb l IH]; intros w u w' H; cbn [run_callbacks] in H; [run_inv; auto|].
  apply st_bind_inv in H as ([] & w1 & H1 & H2). apply IH in H2 as [Ew2 Ec2].
  assert (waiting w1 = waiting w /\ (client w1 = client w \/ client w1 = with_next (client w) STATE_RESET)) as [Ew1 Ec1].
  { destruct cb; cbn [run_callback] in H1;
      unfold mqtt_service_reset_cmd_on, mqtt_client_unbind_on, mqtt_client_connected_on, mqtt_client_disconnect_on in H1; run_inv; try done;
      chain_tac; auto. }
  split; [congruence|]. destruct Ec2 as [->| ->]; destruct Ec1 as [->| ->]; auto.
Qed.

(** The activation leaves the control part but for the next state and the data. *)
Lemma activate_process_run i b w rt w' : client_activate_process i b w = Some (rt, w') ->
  waiting w' = waiting w /\ (client w' = client w \/ client w' = with_next (client w) STATE_RESTART /\ rt <> OPRT_OK).
Proof.
  unfold client_activate_process. intros H. run_inv; try done; chain_tac; auto.
  all: (split; [done|]; right; split; [done|]; by apply Z.eqb_neq, negb_true_iff).
Qed.

Lemma same_activated c : with_activated c (activate c) (is_activated c) (schema c) = c.
Proof. by destruct c. Qed.

Lemma activated_read_run w rt w' : activated_data_read w = Some (rt, w') ->
  waiting w' = waiting w /\ exists a, client w' = with_activated (client w) a (is_activated (client w)) (schema (client w)).
Proof.
  unfold activated_data_read. intros H. run_inv; chain_tac; (split; [done|]); eexists; try reflexivity.
  symmetry. apply same_activated.
Qed.

Lemma data_remove_run w rt w' : tuya_iot_activated_data_remove w = Some (rt, w') ->
  waiting w' = waiting w /\ client w' = with_activated (client w) (activate (client w)) false (schema (client w)).
Proof.
  unfold tuya_iot_activated_data_remove. intros H. run_inv; chain_tac; [|done].
  split; [done|]. apply negb_true_iff in Heqb. rewrite <- Heqb. symmetry. apply same_activated.
Qed.

Lemma reset_run i w rt w' : run_state_reset i w = Some (rt, w') ->
  waiting w' = waiting w /\ client w' = with_activated (client w) (activate (client w)) false (schema (client w)).
Proof.
  unfold run_state_reset. intros H. run_inv;
    match goal with H : tuya_iot_activated_data_remove _ = _ |- _ => apply data_remove_run in H as [Ew Ec] end; chain_tac; done.
Qed.

Lemma activating_inv i w rt w' : iot_inv w -> waiting w = false -> nextstate (client w) = STATE_ACTIVATING -> state (client w) = STATE_ACTIVATING ->
  state_activating i w = Some (rt, w') -> iot_inv w'.
Proof.
  intros Hi Hw Hn Hs H. pose proof (ok_activating _ _ Hi Hn) as Ha. unfold state_activating in H. run_inv.
  all: match goal with H : client_activate_process _ _ _ = _ |- _ => apply activate_process_run in H as [Ew Ec] end.
  { destruct Ec as [Ec|[Ec _]]; field_tac. }
  all: match goal with H : negb (?r =? OPRT_OK) = false, E : _ \/ _ /\ ?r <> OPRT_OK |- _ =>
         apply negb_false_iff, Z.eqb_eq in H; destruct E as [Ec|[_ ?]]; [|done] end.
  all: match goal with H : activated_data_read _ = _ |- _ => apply activated_read_run in H as (Ew2 & a & Ec2) end.
  all: run_inv; field_tac; by apply negb_false_iff.
Qed.

Lemma enter_inv w : iot_inv w -> waiting w = false ->
  iot_inv {| client := with_state (client w) (nextstate (client w)); kv := kv w; subscribed := subscribed w; waiting := waiting w; log := log w |}.
Proof. intros Hi Hw. field_tac. Qed.

Lemma yield_inv i w rt w' : iot_inv w -> waiting w = false -> tuya_iot_yield i w = Some (rt, w') -> iot_inv w'.
Proof.
  intros Hi Hw H. apply enter_inv in Hi; [|done]. unfold tuya_iot_yield in H.
  apply st_bind_inv in H as (c & w1 & Hc & H). injection Hc as <- <-.
  apply st_bind_inv in H as (u & w1 & Hp & H). apply unit_run in Hp. rewrite <- Hp in Hi.
  apply st_bind_inv in H as (c & w2 & Hc & H). injection Hc as <- <-. unfold yield_in in H.
  apply st_bind_inv in H as (c & w2 & Hc & H). injection Hc as <- <-.
  assert (state (client w1) = nextstate (client w1)) as En by (by rewrite Hp).
  assert (waiting w1 = false) as Hw1 by (by rewrite Hp). clear Hp Hw w u.
  pose proof (ok_next _ _ Hi) as A1. pose proof (ok_binding _ _ Hi) as A2. rewrite <- En in A1, A2.
  destruct (state (client w1)) eqn:Es; cbn in A1, A2.
  all: try (run_inv; field_tac; done).
  all: try specialize (A1 eq_refl).
  - run_inv; field_tac. by rewrite <- En in *.
  - run_inv; field_tac. by case_match.
  - unfold token_pending in H. run_inv; field_tac.
  - by eapply activating_inv.
  - run_inv; field_tac; destruct (is_activated (client w1)); try done; by apply A2.
  - run_inv. match goal with H : run_callbacks _ _ = _ |- _ => apply callbacks_run in H as [Ew [Ec|Ec]] end; field_tac.
  - run_inv. match goal with H : run_state_reset _ _ = _ |- _ => apply reset_run in H as [Ew Ec] end. field_tac; by rewrite Es in *.
Qed.

Lemma step_inv w w' : iot_step w w' -> iot_inv w -> iot_inv w'.
Proof.
  intros Hs Hi. destruct Hs as [i rt w w' Hw H|rt w w' Hw Hp H|rt w w' H|rt w w' H|rt w w' H|m rt w w' H|b rt w w' Hb H|rt w w' H|cb rt w w' H].
  - by eapply yield_inv.
  - by eapply resume_inv.
  - unfold tuya_iot_start in H. run_inv; [done|]. apply negb_false_iff, bool_decide_eq_true in Heqb. field_tac.
    destruct ok_waiting0 as [E _]; [done|]. rewrite Heqb in E. done.
  - unfold tuya_iot_stop in H. run_inv. field_tac. destruct ok_waiting0 as [E _]; [done|]. eauto.
  - unfold tuya_iot_reconnect in H. run_inv; [done|]. apply negb_false_iff, bool_decide_eq_true in Heqb. field_tac.
    + apply ok_state0. by rewrite Heqb.
    + destruct ok_waiting0 as [E _]; [done|]. rewrite Heqb in E. done.
  - unfold tuya_iot_reset in H. run_inv; field_tac; destruct ok_waiting0 as [E _]; try done; eauto.
  - unfold publish_activate, tuya_iot_token_activate_evt in H. run_inv. field_tac.
  - unfold tuya_iot_link_type_change_cb, tuya_iot_reconnect in H. run_inv; [done|]. apply negb_false_iff, bool_decide_eq_true in Heqb. field_tac.
    + apply ok_state0. by rewrite Heqb.
    + destruct ok_waiting0 as [E _]; [done|]. rewrite Heqb in E. done.
  - unfold tuya_iot_token_get_port_register in H. destruct cb as [f|]; run_inv; try done; field_tac.
Qed.

(** A client that [tuya_iot_init] has set up, in a thread that does not wait. *)
Definition booted (w : world) : Prop := exists creates g w0 rt, waiting w0 = false /\ tuya_iot_init creates g w0 = Some (rt, w).

Lemma booted_inv w : booted w -> iot_inv w.
Proof.
  intros (creates & g & w0 & rt & Hw & H). unfold tuya_iot_init in H. run_inv.
  all: match goal with H : activated_data_read _ = _ |- _ => apply activated_read_run in H as (Ew2 & a & Ec2) end.
  all: run_inv; field_tac. by case_match.
Qed.

Lemma iot_reachable w0 w : booted w0 -> rtc iot_step w0 w -> iot_inv w.
Proof. intros Hb. revert w. apply rtc_ind_r; [by apply booted_inv|]. intros w1 w2 _ Hs Hi. by eapply step_inv. Qed.

(** (C15) Whatever other threads ask between the calls of the client thread and while it waits
    for a token: the states behind the activation that talk to the cloud ([online]: the
    address of the endpoint, the report of the version, the MQTT connection from its start,
    running and connected) are only entered by an activated client with a schema; the two
    states that talk to the cloud before it are left out of [online]: the update of the
    endpoint and the activation. An activation is only asked for when the data of the
    pairing are there and the client is not activated yet, and a thread that waits is in
    the pending state. *)
Theorem iot_cloud_activated w0 w : booted w0 -> rtc iot_step w0 w ->
  (online (state (client w)) = true -> is_activated (client w) = true /\ schema (client w) = true)
  /\ (nextstate (client w) = STATE_ACTIVATING -> is_activated (client w) = false /\ exists b, binding (client w) = Some b)
  /\ (waiting w = true -> state (client w) = STATE_TOKEN_PENDING).
Proof.
  intros Hb Hr. pose proof (iot_reachable _ _ Hb Hr) as [H1 H2 H3 H4 H5 H6]. split_and!.
  - intros Ho. split; [by apply H2|by apply H1, H2].
  - intros Hn. pose proof (H4 Hn) as Ha. split; [done|]. specialize (H5 Ha). rewrite Hn in H5.
    destruct (binding (client w)) as [b|]; [by exists b|]. by destruct H5.
  - intros Hw. by apply H6.
Qed.
End Client.
