(* ===== verification/IotActivation.v ===== *)
(** What the device client keeps over a restart: the activation in the key-value store,
    from the answer of the cloud to the next [tuya_iot_init], and its removal by a reset. *)
From Stdlib Require Import ZArith Lia String.
From stdpp Require Import base tactics option list numbers gmap relations.
From S2P Require Import Prelude Text StateM Tools Json Kv KvStore IotClient.

Local Open Scope Z_scope.

(** * Strings in arrays *)

Lemma c_text_ok s r : text_ok s -> c_text (s ++ 0 :: r) = Some s.
Proof. intros Hs. unfold c_text. rewrite strlen_before by done. cbn. by rewrite slice_prefix. Qed.
Lemma c_text_cstr s : text_ok s -> c_text (cstr s) = Some s.
Proof. apply (c_text_ok s []). Qed.
Lemma text_bytes s : text_ok s -> bytes_ok s.
Proof. intros Hs. eapply list.Forall_impl; [exact Hs|]. unfold is_u8. cbn. lia. Qed.
Lemma text_storable s : text_ok s -> 0 < zlen s < 2147483600 -> storable s.
Proof. intros Hs Hl. split; [by apply text_bytes|done]. Qed.

(** A text in an array of [size] bytes. *)
Definition field (size : Z) (s : list Z) : list Z := s ++ zrepl (size - zlen s) 0.

Lemma strncpy_ok s : forall n r, text_ok s -> (length s <= n)%nat -> strncpy n (s ++ 0 :: r) = Some (s ++ replicate (n - length s) 0).
Proof.
  induction s as [|c s IH]; intros n r Hs Hn.
  - destruct n; done.
  - apply list.Forall_cons in Hs as [Hc Hs]. destruct n as [|n]; [cbn in Hn; lia|]. cbn [app strncpy]. destruct (Z.eqb_spec c 0); [lia|].
    rewrite IH by (done || (cbn in Hn; lia)). done.
Qed.
Lemma copy_string_ok size s r : text_ok s -> zlen s < size -> copy_string size (s ++ 0 :: r) = Some (field size s).
Proof.
  intros Hs Hl. pose proof (zlen_nonneg s). unfold copy_string. rewrite strncpy_ok by (done || (unfold zlen in *; lia)). cbn [mbind option_bind].
  unfold field. rewrite <- app_assoc. do 2 f_equal. unfold zrepl. change [0] with (replicate 1 (0 : Z)). rewrite <- replicate_add. f_equal. unfold zlen in *. lia.
Qed.
Lemma field_cstr size s : zlen s < size -> exists r, field size s = s ++ 0 :: r.
Proof. intros Hl. unfold field, zrepl. destruct (Z.to_nat (size - zlen s)) as [|n] eqn:E; [lia|]. by eexists. Qed.
Lemma c_text_field size s : text_ok s -> zlen s < size -> c_text (field size s) = Some s.
Proof. intros Hs Hl. destruct (field_cstr size s Hl) as [r ->]. by apply c_text_ok. Qed.

(** * The calls, forward *)

(** A store whose writes do not fail. *)
Class Reliable `{KvStore} : Prop := {
  reliable_set s m k v rest : kv_contents s m -> storable v ->
    exists s', kv_set s k (v ++ rest) (zlen v) = Some (OPRT_OK, s') /\ kv_contents s' (<[k := v]> m) }.
(** What a removal makes of the contents. A store whose removals work: the name is gone, whatever the code, which is an error
    for a name that was not there. *)
Definition deletes_as `{KvStore} (del : gmap (list Z) (list Z) -> list Z -> gmap (list Z) (list Z)) : Prop :=
  forall s m k, kv_contents s m -> kv_contents (kv_del s k).2 (del m k).
Definition deletes_work `{KvStore} : Prop := deletes_as (fun m k => delete k m).
(** One whose removals change nothing. *)
Definition deletes_fail `{KvStore} : Prop := deletes_as (fun m _ => m).

#[export] Instance map_reliable keeps : @Reliable (map_store (fun _ => false) keeps).
Proof.
  split. intros s m k v rest -> [_ Hv]. cbn. unfold map_set. destruct (Z.eqb_spec (zlen v) 0); [lia|].
  rewrite slice_prefix_n by done. by eexists.
Qed.

Section Calls.
Context {KS : KvStore} {RS : Reliable} {CJ : CJson} {CL : CJsonLaws}.
Context (dp_schema_create : list Z -> list Z -> bool) (set_time_zone : list Z -> Z).

Definition add_log (w : world) (es : list effect) : world :=
  {| client := client w; kv := kv w; subscribed := subscribed w; waiting := waiting w; log := log w ++ es |}.
Definition set_client (w : world) (c : tuya_iot_client_t) : world :=
  {| client := c; kv := kv w; subscribed := subscribed w; waiting := waiting w; log := log w |}.

Lemma wp_get Q w : Q (client w) w -> wp get Q w.
Proof. apply wp_gets. Qed.
Lemma wp_put c (Q : unit -> world -> Prop) w : Q tt (set_client w c) -> wp (put c) Q w.
Proof. by apply wp_run. Qed.
Lemma wp_emit e (Q : unit -> world -> Prop) w : Q tt (add_log w [e]) -> wp (emit e) Q w.
Proof. by apply wp_run. Qed.
Lemma wp_next s (Q : unit -> world -> Prop) w : Q tt (set_client w (with_next (client w) s)) -> wp (set_next s) Q w.
Proof. intros H. by apply wp_bind, wp_get, wp_put. Qed.
Lemma wp_binding b (Q : unit -> world -> Prop) w : Q tt (set_client w (with_binding (client w) b)) -> wp (set_binding b) Q w.
Proof. intros H. by apply wp_bind, wp_get, wp_put. Qed.
Lemma wp_some {A} (x : option A) a (Q : A -> world -> Prop) w : x = Some a -> Q a w -> wp (pure x) Q w.
Proof. apply wp_pure. Qed.
Lemma wp_event ev (Q : unit -> world -> Prop) w : (forall es, Q tt (add_log w es)) -> wp (iot_dispatch_event ev) Q w.
Proof.
  intros H. apply wp_bind, wp_get. destruct (event_handler (config (client w))); [by apply wp_emit|].
  apply wp_ret. specialize (H []). unfold add_log in H. rewrite app_nil_r in H. by destruct w.
Qed.

Lemma wp_kv_set k v rest (Q : Z -> world -> Prop) w m : kv_contents (kv w) m -> storable v ->
  (forall s, kv_contents s (<[k := v]> m) -> Q OPRT_OK (with_kv w s)) -> wp (iot_kv_set k (v ++ rest) (zlen v)) Q w.
Proof.
  intros Hm Hv HQ. destruct (reliable_set _ m k v rest Hm Hv) as (s & E & Hs).
  apply (wp_run _ OPRT_OK w (with_kv w s)); [|by apply HQ]. unfold iot_kv_set, on_store. by rewrite E.
Qed.
Lemma wp_kv_put k v (Q : Z -> world -> Prop) w m : kv_contents (kv w) m -> storable v ->
  (forall s, kv_contents s (<[k := v]> m) -> Q OPRT_OK (with_kv w s)) -> wp (iot_kv_set k v (zlen v)) Q w.
Proof. intros Hm Hv HQ. rewrite <- (app_nil_r v) at 1. by eapply wp_kv_set. Qed.
Lemma wp_kv_get k v (Q : Z * option (list Z) * option Z -> world -> Prop) w m : kv_contents (kv w) m -> m !! k = Some v ->
  (forall s r, kv_contents s m -> Q (OPRT_OK, Some (v ++ 0 :: r), Some (zlen v)) (with_kv w s)) -> wp (iot_kv_get k) Q w.
Proof.
  intros Hm Hk HQ. destruct (kv_get_spec _ m k Hm) as (rc & s & val & n & E & Hs & Hv). rewrite Hk in Hv. destruct Hv as (-> & -> & r & ->).
  eapply wp_run; [unfold iot_kv_get, on_store; rewrite E; reflexivity|]. by apply HQ.
Qed.
Lemma wp_kv_missing k (Q : Z * option (list Z) * option Z -> world -> Prop) w m : kv_contents (kv w) m -> m !! k = None ->
  (forall s rc n, kv_contents s m -> rc <> OPRT_OK -> Q (rc, None, n) (with_kv w s)) -> wp (iot_kv_get k) Q w.
Proof.
  intros Hm Hk HQ. destruct (kv_get_spec _ m k Hm) as (rc & s & val & n & E & Hs & Hv). rewrite Hk in Hv. destruct Hv as (Hrc & ->).
  eapply wp_run; [unfold iot_kv_get, on_store; rewrite E; reflexivity|]. by apply HQ.
Qed.
Lemma wp_kv_del del k (Q : Z -> world -> Prop) w m : deletes_as del -> kv_contents (kv w) m ->
  (forall rc s, kv_contents s (del m k) -> Q rc (with_kv w s)) -> wp (iot_kv_del k) Q w.
Proof.
  intros Hdel Hm HQ. pose proof (Hdel (kv w) m k Hm) as Hs. destruct (kv_del (kv w) k) as [rc s] eqn:E.
  eapply wp_run; [unfold iot_kv_del, on_store; rewrite E; reflexivity|]. by apply HQ.
Qed.
End Calls.

(** One call after the other; the calls of the store are left. *)
Ltac wp_step :=
  cbv beta zeta;
  lazymatch goal with
  | |- wp (_ ≫= _) _ _ => apply wp_bind
  | |- wp (mret _) _ _ => apply wp_ret
  | |- wp (if negb (OPRT_OK =? OPRT_OK) then _ else _) _ _ => change (negb (OPRT_OK =? OPRT_OK)) with false; cbv iota
  | |- wp (if OPRT_OK =? OPRT_OK then _ else _) _ _ => change (OPRT_OK =? OPRT_OK) with true; cbv iota
  | |- wp (if false then _ else _) _ _ => cbv iota
  | |- wp (if true then _ else _) _ _ => cbv iota
  | |- wp get _ _ => apply wp_get
  | |- wp (put _) _ _ => apply wp_put
  | |- wp (emit _) _ _ => apply wp_emit
  | |- wp (set_next _) _ _ => apply wp_next
  | |- wp (set_binding _) _ _ => apply wp_binding
  | |- wp (iot_dispatch_event _) _ _ => apply wp_event; intros ?
  end.
Ltac wp_go := repeat wp_step; cbn [client kv subscribed waiting log set_client add_log with_kv].

(** * The activation *)

Section Activation.
Context {KS : KvStore} {RS : Reliable} {CJ : CJson} {CL : CJsonLaws}.
Context (dp_schema_create : list Z -> list Z -> bool) (set_time_zone : list Z -> Z).

(** The strings of a complete answer: each fits the place it is kept in. *)
Record answer (j : cjson) (sid txt dv sk lk tz : list Z) : Prop := {
  an_sid : string_of j (str "schemaId") = Some (cstr sid);
  an_txt : string_of j (str "schema") = Some (cstr txt);
  an_dv : string_of j (str "devId") = Some (cstr dv);
  an_sk : string_of j (str "secKey") = Some (cstr sk);
  an_lk : string_of j (str "localKey") = Some (cstr lk);
  an_tz : string_of j (str "stdTimeZone") = Some (cstr tz);
  an_text : Forall text_ok [sid; txt; dv; sk; lk; tz];
  an_len : 0 < zlen sid <= MAX_LENGTH_SCHEMA_ID /\ 0 < zlen txt < 2147483600 /\ 0 < zlen dv <= MAX_LENGTH_DEVICE_ID
           /\ zlen sk <= MAX_LENGTH_SECKEY /\ zlen lk <= MAX_LENGTH_LOCALKEY /\ zlen tz <= MAX_LENGTH_TIMEZONE }.

Definition activated_data (sid dv sk lk tz : list Z) : tuya_activated_data_t :=
  {| devid := field 26 dv; seckey := field 17 sk; localkey := field 17 lk; schemaId := field 17 sid; timezone := field 7 tz |}.

(** An item is there when its string is. *)
Lemma string_has j k s : string_of j k = Some s -> has_item j k = true.
Proof. unfold string_of, has_item. by destruct (cJSON_GetObjectItem j k). Qed.
Lemma string_item j k s : string_of j k = Some s -> exists i, cJSON_GetObjectItem j k = Some i /\ cjson_string i = Some s.
Proof. unfold string_of. destruct (cJSON_GetObjectItem j k) as [i|]; [|done]. by exists i. Qed.
Lemma string_of_join j k : string_of j k = mjoin (cjson_string <$> cJSON_GetObjectItem j k).
Proof. unfold string_of. by destruct (cJSON_GetObjectItem j k). Qed.

(** What is stored without the schema and parsed again has the same strings. *)
Lemma stored_strings j j' : (forall k, (cjson_string <$> cJSON_GetObjectItem j' k) =
    (cjson_string <$> cJSON_GetObjectItem (cJSON_DetachItemFromObject j (str "schema")) k)) ->
  forall k s, lower <$> str "schema" <> lower <$> k -> string_of j k = Some s -> string_of j' k = Some s.
Proof.
  intros H k s Hk Hs. rewrite string_of_join, H, <- string_of_join. unfold string_of in *. by rewrite detach_other.
Qed.

Lemma parse_ok j j' sid txt dv sk lk tz buf out : answer j sid txt dv sk lk tz -> cJSON_Parse buf = Some j' ->
  (forall k s, lower <$> str "schema" <> lower <$> k -> string_of j k = Some s -> string_of j' k = Some s) ->
  activate_json_string_parse buf out = Some (OPRT_OK, activated_data sid dv sk lk tz).
Proof.
  intros [Hsid Htxt Hdv Hsk Hlk Htz Ht Hl] Hp Hj. unfold activate_json_string_parse. rewrite Hp.
  apply Hj in Hsid, Hdv, Hsk, Hlk, Htz; try (by vm_compute). rewrite !(string_has j' _ _ Hsid), !(string_has j' _ _ Hdv),
    !(string_has j' _ _ Hsk), !(string_has j' _ _ Hlk). cbn [negb orb].
  rewrite !list.Forall_cons in Ht. destruct Ht as (T1 & T2 & T3 & T4 & T5 & T6 & _).
  unfold MAX_LENGTH_SCHEMA_ID, MAX_LENGTH_DEVICE_ID, MAX_LENGTH_SECKEY, MAX_LENGTH_LOCALKEY, MAX_LENGTH_TIMEZONE in *.
  rewrite Hdv, Hsk, Hlk, Hsid. cbn [mbind option_bind]. destruct (string_item _ _ _ Htz) as (i & -> & ->). cbn [mbind option_bind].
  unfold cstr. rewrite !copy_string_ok by (done || lia). done.
Qed.

Lemma activated_read_ok w m ns j sid txt dv sk lk tz (Q : Z -> world -> Prop) :
  namespace (client w) = Some ns -> kv_contents (kv w) m -> answer j sid txt dv sk lk tz ->
  m !! ns = Some (cJSON_PrintUnformatted (cJSON_DetachItemFromObject j (str "schema"))) ->
  (forall s es, kv_contents s m ->
     Q (set_time_zone (field 7 tz))
       (add_log (set_client (with_kv w s) (with_activated (client w) (activated_data sid dv sk lk tz) (is_activated (client w)) (schema (client w)))) es)) ->
  wp (activated_data_read set_time_zone) Q w.
Proof.
  intros Hns Hm Ha Hk HQ. unfold activated_data_read. do 2 wp_step. wp_step. eapply wp_some; [exact Hns|]. wp_step.
  eapply wp_kv_get; [exact Hm|exact Hk|]. intros s r Hs. cbv beta iota. do 2 wp_step. eapply wp_some; [done|]. wp_step.
  destruct (parse_print (cJSON_DetachItemFromObject j (str "schema")) r) as (j' & Hp & Hj).
  eapply wp_some; [eapply parse_ok; [exact Ha|exact Hp|by apply stored_strings]|]. cbv beta iota.
  wp_go. exact (HQ s [e_set_zone (field 7 tz)] Hs).
Qed.

Lemma schema_create_ok w m j sid txt dv sk lk tz (Q : bool -> world -> Prop) :
  kv_contents (kv w) m -> answer j sid txt dv sk lk tz -> m !! sid = Some txt ->
  (forall s es, kv_contents s m -> Q (dp_schema_create dv txt) (add_log (with_kv w s) es)) ->
  wp (schema_instance_create dp_schema_create (field 26 dv) (field 17 sid)) Q w.
Proof.
  intros Hm [_ _ _ _ _ _ Ht Hl] Hk HQ. rewrite !list.Forall_cons in Ht. destruct Ht as (T1 & T2 & T3 & _).
  unfold MAX_LENGTH_SCHEMA_ID, MAX_LENGTH_DEVICE_ID in *. unfold schema_instance_create.
  wp_step. eapply wp_some; [apply c_text_field; [done|lia]|]. wp_step. eapply wp_kv_get; [exact Hm|exact Hk|]. intros s r Hs.
 cbv beta iota. do 2 wp_step. eapply wp_some; [done|]. wp_step.
  eapply wp_some; [by apply c_text_ok|]. wp_step. eapply wp_some; [apply c_text_field; [done|lia]|]. wp_go. by apply HQ.
Qed.

(** The next start of the program. *)
Lemma reboot_ok w0 g m ns j sid txt dv sk lk tz creates :
  kv_contents (kv w0) m -> c_text (default (uuid g) (storage_namespace g)) = Some ns -> answer j sid txt dv sk lk tz ->
  m !! ns = Some (cJSON_PrintUnformatted (cJSON_DetachItemFromObject j (str "schema"))) -> m !! sid = Some txt ->
  set_time_zone (field 7 tz) = OPRT_OK -> dp_schema_create dv txt = true ->
  wp (tuya_iot_init dp_schema_create set_time_zone creates g)
    (fun _ w => is_activated (client w) = true /\ activate (client w) = activated_data sid dv sk lk tz /\ kv_contents (kv w) m) w0.
Proof.
  intros Hm Hns Ha Hk Hs Hz Hd. unfold tuya_iot_init. do 3 wp_step. eapply activated_read_ok; [|exact Hm|exact Ha|exact Hk|].
  { unfold namespace. cbn. exact Hns. }
  intros s es Hs1. rewrite Hz. do 5 wp_step. cbn [client add_log set_client activate with_activated activated_data devid schemaId].
  eapply schema_create_ok; [exact Hs1|exact Ha|exact Hs|]. intros s2 es2 Hs2. rewrite Hd. wp_go. by split_and!.
Qed.

(** A start without a stored activation. *)
Lemma reboot_unactivated w0 g m ns creates :
  kv_contents (kv w0) m -> c_text (default (uuid g) (storage_namespace g)) = Some ns -> m !! ns = None ->
  wp (tuya_iot_init dp_schema_create set_time_zone creates g) (fun _ w => is_activated (client w) = false /\ kv_contents (kv w) m) w0.
Proof.
  intros Hm Hns Hk. unfold tuya_iot_init, activated_data_read. do 5 wp_step. wp_step. eapply wp_some; [unfold namespace; cbn; exact Hns|].
  wp_step. eapply wp_kv_missing; [exact Hm|exact Hk|]. intros s rc n Hs Hrc. cbv beta iota. apply Z.eqb_neq in Hrc. rewrite Hrc. cbn [negb].
  wp_step. rewrite Hrc. wp_go. by split.
Qed.

(** ** The answer of the cloud *)

(** What the activation leaves in the store. *)
Definition stored (m : gmap (list Z) (list Z)) (ns : list Z) (j : cjson) (sid txt : list Z) : gmap (list Z) (list Z) :=
  <[ns := cJSON_PrintUnformatted (cJSON_DetachItemFromObject j (str "schema"))]> (<[sid := txt]> m).
(** The device id of an earlier activation, as far as the client can take it. *)
Definition devid_key (ns : list Z) : list Z := key_text 32 ns (str ".devid").
Definition saved_ok (m : gmap (list Z) (list Z)) (ns : list Z) : Prop :=
  forall d, m !! devid_key ns = Some d -> text_ok d /\ zlen d <= MAX_LENGTH_DEVICE_ID.

Lemma saved_devid_ok w m ns (Q : option (list Z) -> world -> Prop) : kv_contents (kv w) m -> saved_ok m ns ->
  (forall s, kv_contents s m -> Q (m !! devid_key ns) (with_kv w s)) ->
  wp (client_activate_devid ns) Q w.
Proof.
  intros Hm Hd HQ. unfold client_activate_devid. wp_step. change (key_text (MAX_LENGTH_UUID + 7) ns (str ".devid")) with (devid_key ns).
  destruct (m !! devid_key ns) as [d|] eqn:E.
  - destruct (Hd d E) as [Ht Hl]. pose proof (zlen_nonneg d).
    eapply wp_kv_get; [exact Hm|exact E|]. intros s r Hs. cbv beta iota. do 2 wp_step. eapply wp_some; [done|]. wp_step. eapply wp_some; [done|].
    wp_step. eapply wp_some; [apply slice_prefix|]. wp_step.
    assert (zlen d < zlen (zrepl (MAX_LENGTH_DEVICE_ID + 1) (0 : Z))) as Hz by (rewrite zlen_zrepl by done; unfold MAX_LENGTH_DEVICE_ID in *; lia).
    eapply wp_some; [apply blit_front; lia|]. wp_step.
    destruct (drop (Z.to_nat (zlen d)) (zrepl (MAX_LENGTH_DEVICE_ID + 1) 0)) as [|x l] eqn:Ed.
    { apply (f_equal length) in Ed. rewrite length_drop in Ed. unfold zlen in *. cbn [length] in Ed. lia. }
    assert (x = 0) as ->.
    { unfold zrepl in Ed. rewrite drop_replicate in Ed.
      destruct (_ - _)%nat; [done|]. by injection Ed. }
    eapply wp_some; [by apply c_text_ok|]. wp_step. by apply HQ.
  - eapply wp_kv_missing; [exact Hm|exact E|]. intros s rc n Hs Hrc. cbv beta iota. apply Z.eqb_neq in Hrc. rewrite Hrc. wp_step. by apply HQ.
Qed.

(** The request was answered. *)
Definition answered (i : inputs) (j : cjson) : Prop :=
  i_activate i = OPRT_OK /\ success (i_response i) = true /\ result (i_response i) = Some j /\ freed (i_response i) = false.

Lemma response_ok w m ns i j sid txt dv sk lk tz (Q : Z * atop_base_response_t -> world -> Prop) :
  namespace (client w) = Some ns -> kv_contents (kv w) m -> answered i j -> answer j sid txt dv sk lk tz ->
  (forall s r, kv_contents s (stored m ns j sid txt) -> freed r = false -> Q (OPRT_OK, r) (with_kv w s)) ->
  wp (activate_response_parse (i_response i)) Q w.
Proof.
  intros Hns Hm (_ & Hok & Hr & Hf) [Hsid Htxt _ _ _ _ Ht Hl] HQ. unfold activate_response_parse. rewrite Hr, Hok. cbn [negb].
  rewrite (string_has _ _ _ Hsid), (string_has _ _ _ Htxt). cbn [negb orb].
  rewrite !list.Forall_cons in Ht. destruct Ht as (T1 & T2 & _).
  wp_step. eapply wp_some; [exact Hsid|]. wp_step. eapply wp_some; [by apply c_text_cstr|].
  wp_step. eapply wp_some; [exact Htxt|]. wp_step. eapply wp_some; [by apply strlen_cstr|]. wp_step.
  eapply wp_kv_set; [exact Hm|apply text_storable; [done|lia]|]. intros s1 H1. do 4 wp_step. eapply wp_some; [exact Hns|]. wp_step.
  destruct (print_text (cJSON_DetachItemFromObject j (str "schema"))) as [P1 P2].
  eapply wp_kv_set; [exact H1|by apply text_storable|]. intros s2 H2. wp_step. by apply HQ.
Qed.

Lemma process_ok w m ns i tok j sid txt dv sk lk tz (Q : Z -> world -> Prop) :
  namespace (client w) = Some ns -> kv_contents (kv w) m -> saved_ok m ns -> answered i j -> answer j sid txt dv sk lk tz ->
  (forall s es, kv_contents s (stored m ns j sid txt) -> Q OPRT_OK (add_log (with_kv w s) (e_activate tok (m !! devid_key ns) :: es))) ->
  wp (client_activate_process i tok) Q w.
Proof.
  intros Hns Hm Hd Hi Ha HQ. unfold client_activate_process. do 2 wp_step. wp_step. eapply wp_some; [exact Hns|]. wp_step.
  eapply saved_devid_ok; [exact Hm|exact Hd|]. intros s1 H1. do 2 wp_step. rewrite (proj1 Hi). do 6 wp_step.
  eapply (response_ok _ m); [exact Hns|exact H1|exact Hi|exact Ha|]. intros s2 r H2 Hf. cbv beta iota. wp_step.
  eapply (wp_some _ tt). { unfold atop_base_response_free. rewrite Hf. by case_match. }
  wp_go. specialize (HQ s2 (e_set_posix (t (i_response i)) :: es ++ [e_publish EVENT_TIME_SYNC]) H2).
  unfold add_log, with_kv in *. cbn in *. rewrite <- !app_assoc. exact HQ.
Qed.

(** ** The state ACTIVATING *)

(** The names under which the activation is kept do not meet. *)
Definition names_ok (ns sid : list Z) : Prop := NoDup [ns; sid; str "endpoint.cert"; str "endpoint.domain"].

Definition with_endpoint (m : gmap (list Z) (list Z)) (cert dom : list Z) : gmap (list Z) (list Z) :=
  <[str "endpoint.domain" := dom]> (<[str "endpoint.cert" := cert]> m).

Lemma stored_lookups m ns j sid txt : ns <> sid ->
  stored m ns j sid txt !! ns = Some (cJSON_PrintUnformatted (cJSON_DetachItemFromObject j (str "schema"))) /\ stored m ns j sid txt !! sid = Some txt.
Proof. intros Hn. unfold stored. by rewrite lookup_insert_eq, lookup_insert_ne, lookup_insert_eq. Qed.
Lemma endpoint_lookup m cert dom k : k <> str "endpoint.cert" -> k <> str "endpoint.domain" -> with_endpoint m cert dom !! k = m !! k.
Proof. intros H1 H2. unfold with_endpoint. by rewrite !lookup_insert_ne. Qed.

Lemma cert_set_ok w m i (Q : Z -> world -> Prop) : kv_contents (kv w) m -> storable (i_cert i) ->
  (forall s, kv_contents s (<[str "endpoint.cert" := i_cert i]> m) -> Q OPRT_OK (with_kv w s)) -> wp (tuya_endpoint_cert_set i) Q w.
Proof. intros Hm Hc HQ. by eapply wp_kv_put. Qed.
Lemma domain_set_ok w m i dom (Q : Z -> world -> Prop) : kv_contents (kv w) m -> i_domain i = Some dom -> storable dom ->
  (forall s, kv_contents s (<[str "endpoint.domain" := dom]> m) -> Q OPRT_OK (with_kv w s)) -> wp (tuya_endpoint_domain_set i) Q w.
Proof. intros Hm Hi Hc HQ. unfold tuya_endpoint_domain_set. rewrite Hi. by eapply wp_kv_put. Qed.

(** What the activation needs: an answer that is complete and fits, a zone and a schema
    that are accepted, and servers to keep. *)
Record activation (i : inputs) (j : cjson) (sid txt dv sk lk tz dom : list Z) : Prop := {
  av_answered : answered i j; av_answer : answer j sid txt dv sk lk tz;
  av_zone : set_time_zone (field 7 tz) = OPRT_OK; av_schema : dp_schema_create dv txt = true;
  av_cert : storable (i_cert i); av_domain : i_domain i = Some dom; av_dom : storable dom }.

Lemma activating_ok w m ns b i j sid txt dv sk lk tz dom (Q : Z -> world -> Prop) :
  namespace (client w) = Some ns -> names_ok ns sid -> kv_contents (kv w) m -> saved_ok m ns -> binding (client w) = Some b ->
  activation i j sid txt dv sk lk tz dom ->
  (forall w', client w' = with_next (with_activated (with_binding (client w) None) (activated_data sid dv sk lk tz) true true) STATE_STARTUP_UPDATE ->
     kv_contents (kv w') (with_endpoint (stored m ns j sid txt) (i_cert i) dom) -> subscribed w' = subscribed w -> waiting w' = waiting w ->
     (exists es, log w' = log w ++ e_activate (token b) (m !! devid_key ns) :: es) -> Q OPRT_OK w') ->
  wp (state_activating dp_schema_create set_time_zone i) Q w.
Proof.
  intros Hns Hnd Hm Hd Hb [Hi Ha Hz Hs Hc Hi2 Hdom] HQ.
  assert (ns <> sid) as Hne by (unfold names_ok in Hnd; apply NoDup_cons in Hnd as [Hnd _]; set_solver).
  destruct (stored_lookups m ns j sid txt Hne) as [L1 L2].
  unfold state_activating. do 3 wp_step. eapply wp_some; [exact Hb|]. wp_step.
  eapply process_ok; [exact Hns|exact Hm|exact Hd|exact Hi|exact Ha|]. intros s1 es1 H1. do 6 wp_step.
  eapply activated_read_ok; [exact Hns|exact H1|exact Ha|exact L1|]. intros s2 es2 H2. rewrite Hz. do 4 wp_step.
  eapply schema_create_ok; [exact H2|exact Ha|exact L2|]. intros s3 es3 H3. rewrite Hs. do 4 wp_step. cbn [negb]. wp_step.
  eapply cert_set_ok; [exact H3|exact Hc|]. intros s4 H4. wp_step.
  eapply domain_set_ok; [exact H4|exact Hi2|exact Hdom|]. intros s5 H5. wp_go.
  apply HQ; [done|exact H5|done|done|]. cbn [log add_log set_client with_kv]. eexists. by rewrite <- !app_assoc, <- app_comm_cons.
Qed.

Abbreviation yield := (tuya_iot_yield dp_schema_create set_time_zone).
Abbreviation init := (tuya_iot_init dp_schema_create set_time_zone).

(** One pass of the client thread in a state that is known. *)
Lemma wp_yield i st (Q : Z -> world -> Prop) w : nextstate (client w) = st ->
  (forall w', w' = set_client w (with_state (client w) st) -> wp (yield_in dp_schema_create set_time_zone i st) Q w') -> wp (yield i) Q w.
Proof. intros Hn H. unfold tuya_iot_yield. do 5 wp_step. wp_step. cbn [client set_client with_state state]. rewrite Hn. by apply H. Qed.

(** (C16) The activation survives a restart of the program: when the cloud answers a client
    that is activating with a complete answer whose strings fit, whose time zone is set and
    whose schema is accepted, over a store whose writes succeed, the client becomes
    activated with the data of the answer, having named the device id it had before, and a
    later start over the store it left, whatever its configuration besides the namespace,
    is activated with the same data. *)
Theorem iot_activation_survives w m ns b i j sid txt dv sk lk tz dom :
  nextstate (client w) = STATE_ACTIVATING -> namespace (client w) = Some ns -> names_ok ns sid -> kv_contents (kv w) m -> saved_ok m ns ->
  binding (client w) = Some b -> activation i j sid txt dv sk lk tz dom ->
  exists w1, yield i w = Some (OPRT_OK, w1)
    /\ is_activated (client w1) = true /\ nextstate (client w1) = STATE_STARTUP_UPDATE
    /\ activate (client w1) = activated_data sid dv sk lk tz
    /\ (exists es, log w1 = log w ++ e_activate (token b) (m !! devid_key ns) :: es)
    /\ forall w0 creates g, kv w0 = kv w1 -> c_text (default (uuid g) (storage_namespace g)) = Some ns ->
         exists rc w2, init creates g w0 = Some (rc, w2) /\ is_activated (client w2) = true /\ activate (client w2) = activate (client w1).
Proof.
  intros Hn Hns Hnd Hm Hd Hb Ha.
  assert (wp (yield i) (fun rt w1 => rt = OPRT_OK /\ is_activated (client w1) = true /\ nextstate (client w1) = STATE_STARTUP_UPDATE
    /\ activate (client w1) = activated_data sid dv sk lk tz /\ (exists es, log w1 = log w ++ e_activate (token b) (m !! devid_key ns) :: es)
    /\ kv_contents (kv w1) (with_endpoint (stored m ns j sid txt) (i_cert i) dom)) w) as (rt & w1 & E & -> & H1 & H2 & H3 & H4 & H5).
  { eapply wp_yield; [exact Hn|]. intros w' ->. eapply activating_ok; [exact Hns|exact Hnd|exact Hm|exact Hd|exact Hb|exact Ha|].
    intros w' Ec Hs _ _ Hl. rewrite Ec. by split_and!. }
  exists w1. split_and!; try done. intros w0 creates g Hk Hg.
  destruct Ha as [Hi Ha Hz Hs Hc Hi2 Hdom].
  pose proof Hnd as Hnd2. unfold names_ok in Hnd2. rewrite !NoDup_cons in Hnd2. destruct Hnd2 as (N1 & N2 & _).
  rewrite !not_elem_of_cons in N1, N2. destruct N1 as (N1 & N3 & [N4 _]%not_elem_of_cons), N2 as (N5 & N6 & _).
  destruct (stored_lookups m ns j sid txt N1) as [L1 L2]. rewrite <- Hk in H5.
  destruct (reboot_ok w0 g _ ns j sid txt dv sk lk tz creates H5 Hg Ha) as (rc & w2 & E2 & R1 & R2 & _).
  { by rewrite endpoint_lookup. }
  { by rewrite endpoint_lookup. }
  { done. }
  { done. }
  exists rc, w2. split_and!; [done|done|]. by rewrite R2, H3.
Qed.

(** ** The reset *)

(** The names that end alike are those that were made alike. *)
Lemma ends_ne (a b : list Z) : last a <> last b -> a <> b.
Proof. by intros H ->. Qed.
Lemma key_text_full ns suffix : zlen ns + zlen suffix < 32 -> key_text 32 ns suffix = ns ++ suffix.
Proof. intros Hl. unfold key_text. rewrite firstn_all2; [done|]. rewrite length_app. unfold zlen in Hl. lia. Qed.
Lemma key_ne ns suffix k : zlen ns <= 25 -> (suffix = str ".devid" \/ suffix = str ".ver") -> last k <> last suffix -> key_text 32 ns suffix <> k.
Proof.
  intros Hl Hs Hk. rewrite key_text_full by (destruct Hs as [-> | ->]; unfold zlen in *; cbn; lia).
  intros <-. apply Hk. by destruct Hs as [-> | ->]; rewrite last_app.
Qed.

Lemma key_ne_ns ns suffix : zlen ns <= 25 -> (suffix = str ".devid" \/ suffix = str ".ver") -> key_text 32 ns suffix <> ns.
Proof.
  intros Hl Hs. rewrite key_text_full by (destruct Hs as [-> | ->]; unfold zlen in *; cbn; lia).
  intros Hc. apply (f_equal length) in Hc. rewrite length_app in Hc. destruct Hs as [-> | ->]; cbn in Hc; lia.
Qed.

Definition endpoint_names : list (list Z) := [str "region"; str "regist_key"; str "endpoint.cert"; str "endpoint.domain"].
Definition delete_all (ks : list (list Z)) (m : gmap (list Z) (list Z)) : gmap (list Z) (list Z) := foldl (fun m k => delete k m) m ks.
Lemma delete_all_in ks : forall m k, k ∈ ks \/ m !! k = None -> delete_all ks m !! k = None.
Proof.
  induction ks as [|k0 ks IH]; intros m k Hk; [set_solver|]. apply IH. destruct Hk as [Hk|Hk].
  - apply elem_of_cons in Hk as [->|Hk]; [right; by rewrite lookup_delete_eq|by left].
  - right. by apply lookup_delete_None; right.
Qed.
Lemma delete_all_out ks : forall m k, k ∉ ks -> delete_all ks m !! k = m !! k.
Proof.
  induction ks as [|k0 ks IH]; intros m k Hk; [done|]. apply not_elem_of_cons in Hk as [H1 H2].
  change (delete_all ks (delete k0 m) !! k = m !! k). rewrite IH by done. by apply lookup_delete_ne.
Qed.

(** What a reset removes. *)
Definition reset_names (ns sid : list Z) : list (list Z) := sid :: ns :: endpoint_names.

(** An activated client: the texts in its arrays. *)
Record kept (c : tuya_iot_client_t) (ns sid dv : list Z) : Prop := {
  kp_ns : namespace c = Some ns; kp_dv : devid (activate c) = field 26 dv; kp_sid : schemaId (activate c) = field 17 sid;
  kp_text : text_ok dv /\ text_ok sid; kp_len : 0 < zlen dv <= MAX_LENGTH_DEVICE_ID /\ zlen sid <= MAX_LENGTH_SCHEMA_ID }.

Lemma iot_remove_ok del w m ns sid dv (Q : Z -> world -> Prop) : deletes_as del -> is_activated (client w) = true -> kept (client w) ns sid dv -> kv_contents (kv w) m ->
  (forall w', client w' = with_activated (client w) (activate (client w)) false (schema (client w)) ->
     kv_contents (kv w') (foldl del m (reset_names ns sid)) -> Q OPRT_OK w') ->
  wp tuya_iot_activated_data_remove Q w.
Proof.
  intros Hdel Ha [Hns Hdv Hsid [T1 T2] [L1 L2]] Hm HQ. unfold MAX_LENGTH_DEVICE_ID, MAX_LENGTH_SCHEMA_ID in *.
  unfold tuya_iot_activated_data_remove. repeat wp_step. rewrite Ha. cbn [negb]. repeat wp_step.
  eapply wp_some; [rewrite Hdv; apply c_text_field; [done|lia]|]. repeat wp_step.
  eapply wp_some; [rewrite Hsid; apply c_text_field; [done|lia]|]. repeat wp_step.
  eapply wp_kv_del; [exact Hdel|exact Hm|]. intros rc1 s1 H1. repeat wp_step. eapply wp_some; [exact Hns|]. repeat wp_step.
  eapply wp_kv_del; [exact Hdel|exact H1|]. intros rc2 s2 H2. repeat wp_step. unfold tuya_endpoint_remove. repeat wp_step.
  eapply wp_kv_del; [exact Hdel|exact H2|]. intros rc3 s3 H3. repeat wp_step. eapply wp_kv_del; [exact Hdel|exact H3|]. intros rc4 s4 H4. repeat wp_step.
  eapply wp_kv_del; [exact Hdel|exact H4|]. intros rc5 s5 H5. repeat wp_step. eapply wp_kv_del; [exact Hdel|exact H5|]. intros rc6 s6 H6. wp_go.
  by apply HQ.
Qed.

Lemma kept_devid c ns sid dv : kept c ns sid dv -> exists r, devid (activate c) = dv ++ 0 :: r.
Proof. intros [_ -> _ _ L]. unfold MAX_LENGTH_DEVICE_ID in L. apply field_cstr. lia. Qed.

Lemma reset_ok del w i m ns sid dv (Q : Z -> world -> Prop) : deletes_as del -> is_activated (client w) = true -> kept (client w) ns sid dv -> kv_contents (kv w) m ->
  (forall w', client w' = with_activated (client w) (activate (client w)) false (schema (client w)) ->
     kv_contents (kv w') (foldl del (<[devid_key ns := dv]> m) (reset_names ns sid)) -> Q OPRT_OK w') ->
  wp (run_state_reset i) Q w.
Proof.
  intros Hdel Ha Hk Hm HQ. destruct (kept_devid _ _ _ _ Hk) as [r Hr]. pose proof Hk as [Hns _ _ [T1 _] [L1 _]]. unfold MAX_LENGTH_DEVICE_ID in L1.
  unfold run_state_reset. repeat wp_step.
  assert (forall es, wp
    (_ ← emit e_mqtt_destroy; ns ← pure (namespace (client w)); d ← pure (strlen (devid (activate (client w))));
     _ ← iot_kv_set (key_text 32 ns (str ".devid")) (devid (activate (client w))) d; _ ← emit (e_publish EVENT_RESET);
     tuya_iot_activated_data_remove) Q (add_log w es)) as H.
  { intros es. repeat wp_step. eapply wp_some; [exact Hns|]. repeat wp_step. rewrite Hr. eapply wp_some; [by apply strlen_before|]. repeat wp_step.
    eapply wp_kv_set; [exact Hm|apply text_storable; [done|lia]|]. intros s H. repeat wp_step.
    eapply iot_remove_ok; [exact Hdel|exact Ha|exact Hk|exact H|]. intros w2
    Ec Hm2. by apply HQ; rewrite ?Ec. }
  destruct (is_activated (client w) && i_connected i); [by apply wp_emit, H|].
  apply wp_ret. specialize (H []). unfold add_log in H. rewrite app_nil_r in H. by destruct w.
Qed.

(** One pass in the reset state, whatever removals do. *)
Lemma reset_pass del w i m ns sid dv : deletes_as del ->
  nextstate (client w) = STATE_RESET -> is_activated (client w) = true -> kept (client w) ns sid dv -> kv_contents (kv w) m ->
  exists w1, yield i w = Some (OPRT_OK, w1) /\ is_activated (client w1) = false /\ nextstate (client w1) = STATE_RESTART
    /\ kv_contents (kv w1) (foldl del (<[devid_key ns := dv]> m) (reset_names ns sid)).
Proof.
  intros Hdel Hn Ha Hk Hm.
  assert (wp (yield i) (fun rt w1 => rt = OPRT_OK /\ is_activated (client w1) = false /\ nextstate (client w1) = STATE_RESTART
    /\ kv_contents (kv w1) (foldl del (<[devid_key ns := dv]> m) (reset_names ns sid))) w) as (rt & w1 & E & -> & H); [|by exists w1].
  eapply wp_yield; [exact Hn|]. intros w' ->. unfold yield_in. repeat wp_step.
  eapply (reset_ok del _ i m ns sid dv _ Hdel); [exact Ha|destruct Hk; constructor; assumption|exact Hm|]. intros w2 Ec Hm2. wp_go. rewrite Ec. by split_and!.
Qed.

(** (C18) A reset of an activated client, over a store that carries out its writes and
    removals, forgets the activation and keeps the device id: the
    client goes to restart and is not activated, the activation data, the schema and what
    is kept of the servers are gone from the store and nothing else is, a later start over
    that store is not activated, and the device id is where the next activation reads the
    one it names. The codes of the removals are not looked at, so over a store that fails
    them the activation survives the reset. *)
Theorem iot_reset_forgets w i m ns sid dv :
  deletes_work ->
  nextstate (client w) = STATE_RESET -> is_activated (client w) = true -> kept (client w) ns sid dv -> zlen ns <= 25 -> sid <> devid_key ns ->
  kv_contents (kv w) m ->
  exists w1 m1, yield i w = Some (OPRT_OK, w1)
    /\ is_activated (client w1) = false /\ nextstate (client w1) = STATE_RESTART
    /\ kv_contents (kv w1) m1 /\ m1 !! devid_key ns = Some dv /\ saved_ok m1 ns
    /\ (forall k, k ∈ reset_names ns sid -> m1 !! k = None)
    /\ (forall k, k ∉ reset_names ns sid -> k <> devid_key ns -> m1 !! k = m !! k)
    /\ forall w0 creates g, kv w0 = kv w1 -> c_text (default (uuid g) (storage_namespace g)) = Some ns ->
         exists rc w2, init creates g w0 = Some (rc, w2) /\ is_activated (client w2) = false.
Proof.
  intros Hdel Hn Ha Hk Hl Hsid Hm. destruct (reset_pass _ w i m ns sid dv Hdel Hn Ha Hk Hm) as (w1 & E & H1 & H2 & H3).
  set (m1 := foldl (fun m k => delete k m) (<[devid_key ns := dv]> m) (reset_names ns sid)) in H3.
  assert (devid_key ns ∉ reset_names ns sid) as Hd.
  { unfold reset_names, endpoint_names, devid_key. do 6 rewrite not_elem_of_cons.
    split_and!; [done| |apply key_ne; [done|by left|done]..|by apply not_elem_of_nil].
    rewrite key_text_full by (unfold zlen in *; cbn; lia). intros Hc. apply (f_equal length) in Hc. rewrite length_app in Hc. cbn in Hc. lia. }
  assert (m1 !! devid_key ns = Some dv) as Hdv.
  { transitivity (<[devid_key ns := dv]> m !! devid_key ns); [by apply delete_all_out|apply lookup_insert_eq]. }
  exists w1, m1. split_and!; try done.
  - intros d Hd2. rewrite Hdv in Hd2. injection Hd2 as <-. destruct Hk as [_ _ _ [T _] [L _]]. split; [done|lia].
  - intros k Hk2. apply delete_all_in. by left.
  - intros k Hk2 Hk3. transitivity (<[devid_key ns := dv]> m !! k); [by apply delete_all_out|by apply lookup_insert_ne].
  - intros w0 creates g Hw0 Hg. rewrite <- Hw0 in H3.
    destruct (reboot_unactivated w0 g m1 ns creates H3 Hg) as (rc & w2 & E2 & R & _); [|by exists rc, w2].
    apply delete_all_in. left. unfold reset_names. set_solver.
Qed.

(** The removals of a reset fail: the pass still answers with success and the client is no
    longer activated, but the next start is, with the same activation. *)
Theorem iot_reset_survived w i m ns sid dv j txt sk lk tz w0 creates g :
  deletes_fail ->
  nextstate (client w) = STATE_RESET -> is_activated (client w) = true -> kept (client w) ns sid dv -> zlen ns <= 25 -> sid <> devid_key ns ->
  kv_contents (kv w) m -> answer j sid txt dv sk lk tz ->
  m !! ns = Some (cJSON_PrintUnformatted (cJSON_DetachItemFromObject j (str "schema"))) -> m !! sid = Some txt ->
  set_time_zone (field 7 tz) = OPRT_OK -> dp_schema_create dv txt = true ->
  c_text (default (uuid g) (storage_namespace g)) = Some ns ->
  exists w1, yield i w = Some (OPRT_OK, w1) /\ is_activated (client w1) = false
    /\ (kv w0 = kv w1 -> exists rc w2, init creates g w0 = Some (rc, w2) /\ is_activated (client w2) = true
         /\ activate (client w2) = activated_data sid dv sk lk tz).
Proof.
  intros Hdel Hn Ha Hk Hl Hsid Hm Hj Hns Htxt Hz Hd Hg. destruct (reset_pass _ w i m ns sid dv Hdel Hn Ha Hk Hm) as (w1 & E & H1 & _ & H3).
  exists w1. split; [done|]. split; [done|]. intros Hw0. rewrite <- Hw0 in H3.
  change (kv_contents (kv w0) (<[devid_key ns := dv]> m)) in H3.
  destruct (reboot_ok w0 g _ ns j sid txt dv sk lk tz creates H3 Hg Hj) as (rc & w2 & E2 & R & R2 & _); [| |done..|by exists rc, w2].
  - rewrite lookup_insert_ne; [done|]. unfold devid_key. apply key_ne_ns; [done|by left].
  - by rewrite lookup_insert_ne.
Qed.

(** ** From the start to the connection *)






(** The texts of a pairing. *)
Record paired (b : tuya_binding_info_t) (reg rk : list Z) : Prop := {
  pa_region : region b = field (MAX_LENGTH_REGION + 1) reg; pa_regist : regist_key b = field (MAX_LENGTH_REGIST + 1) rk;
  pa_text : text_ok reg /\ text_ok rk; pa_len : 0 < zlen reg <= MAX_LENGTH_REGION /\ 0 < zlen rk <= MAX_LENGTH_REGIST }.

Definition with_pairing (m : gmap (list Z) (list Z)) (reg rk : list Z) : gmap (list Z) (list Z) :=
  <[str "regist_key" := rk]> (<[str "region" := reg]> m).

Lemma regist_set_ok w m b reg rk (Q : Z -> world -> Prop) : kv_contents (kv w) m -> paired b reg rk ->
  (forall s es, kv_contents s (with_pairing m reg rk) -> Q OPRT_OK (add_log (with_kv w s) es)) ->
  wp (tuya_endpoint_region_regist_set (region b) (regist_key b)) Q w.
Proof.
  intros Hm [-> -> [T1 T2] [L1 L2]] HQ. unfold MAX_LENGTH_REGION, MAX_LENGTH_REGIST in *.
  destruct (field_cstr (2 + 1) reg) as [r1 ->]; [lia|]. destruct (field_cstr (4 + 1) rk) as [r2 ->]; [lia|].
  unfold tuya_endpoint_region_regist_set, tuya_region_regist_key_write. repeat wp_step.
  eapply wp_some; [by apply strlen_before|]. repeat wp_step. eapply wp_kv_set; [exact Hm|apply text_storable; [done|lia]|]. intros s1 H1. repeat wp_step.
  eapply wp_some; [by apply strlen_before|]. repeat wp_step. eapply wp_kv_set; [exact H1|apply text_storable; [done|lia]|]. intros s2 H2. repeat wp_step. cbn [negb OPRT_OK Z.eqb]. repeat wp_step.
  eapply wp_some; [apply copy_string_ok; [done|unfold MAX_LENGTH_REGION; lia]|]. repeat wp_step.
  eapply wp_some; [apply copy_string_ok; [done|unfold MAX_LENGTH_REGIST; lia]|]. repeat wp_step. by apply HQ.
Qed.


(** Where the client, the store and the thread are. *)
Record at_ (c : tuya_iot_client_t) (k : gmap (list Z) (list Z)) (sub wt : bool) (w : world) : Prop := {
  at_client : client w = c; at_kv : kv_contents (kv w) k; at_sub : subscribed w = sub; at_wait : waiting w = wt }.




(** The token arrives and the thread goes on. *)
Lemma resume_ok c m w b0 b reg rk : at_ c m true true w -> binding c = Some b0 -> paired b reg rk ->
  wp (_ ← publish_activate b; token_resume)
    (fun _ => at_ (with_next (with_token (with_binding c (Some b)) OPRT_OK false) STATE_NETWORK_CHECK) (with_pairing m reg rk) false false) w.
Proof.
  intros [<- Hk _ _] Hb Hp. unfold publish_activate, tuya_iot_token_activate_evt. repeat wp_step. eapply (wp_run _ tt); [done|]. repeat wp_step.
  eapply wp_some; [exact Hb|]. unfold token_resume. repeat wp_step. eapply (wp_run _ tt); [done|]. repeat wp_step.
  cbn [client set_client with_token token_result]. repeat wp_step. eapply wp_some; [done|]. repeat wp_step.
  eapply regist_set_ok; [exact Hk|exact Hp|]. intros s es2 Hs. wp_go. by split.
Qed.




(** ** What goes wrong *)

(** An answer without a schema is released twice. *)
Lemma missing_schema_faults i w j rt r w' : success (i_response i) = true -> result (i_response i) = Some j -> has_item j (str "schema") = false ->
  activate_response_parse (i_response i) w = Some ((rt, r), w') -> atop_base_response_free r = None.
Proof.
  intros Hs Hr Hj. unfold activate_response_parse. rewrite Hr, Hs, Hj. cbn [negb orb]. intros E. injection E as _ <- _.
  by unfold atop_base_response_free.
Qed.

(** A client whose thread waits for the token. *)
Definition waits (w : world) : Prop :=
  state (client w) = STATE_TOKEN_PENDING /\ nextstate (client w) = STATE_TOKEN_PENDING /\ waiting w = true /\ subscribed w = true.

(** A reset wakes the thread, which drops the binding; the subscription stays, and an
    activation event that comes then writes through the null pointer. *)
Lemma token_after_reset_faults w mc b : waits w ->
  exists w1, (_ ← tuya_iot_reset mc; token_resume) w = Some (OPRT_OK, w1) /\ nextstate (client w1) = STATE_RESET /\ publish_activate b w1 = None.
Proof.
  intros (Hs & Hn & Hw & Hsub).
  assert (wp (_ ← tuya_iot_reset mc; token_resume) (fun rt w1 => rt = OPRT_OK /\ nextstate (client w1) = STATE_RESET /\ publish_activate b w1 = None) w)
    as (rt & w1 & E & -> & H); [|by exists w1].
  unfold tuya_iot_reset. repeat wp_step. rewrite Hs, bool_decide_false by done. cbn [andb]. repeat wp_step. cbn [client set_client add_log with_next state]. rewrite Hs, bool_decide_true by done. repeat wp_step.
  unfold token_resume. wp_step. eapply (wp_run _ tt); [done|]. repeat wp_step. cbn. repeat wp_step. by cbn.
Qed.

(** A stop that is asked for while the thread waits is lost when the token comes. *)
Lemma stop_lost_to_token w m b b0 reg rk : waits w -> binding (client w) = Some b0 -> kv_contents (kv w) m -> paired b reg rk ->
  exists w1 rt, (_ ← tuya_iot_stop; _ ← publish_activate b; token_resume) w = Some (rt, w1) /\ nextstate (client w1) = STATE_NETWORK_CHECK.
Proof.
  intros (Hs & Hn & Hw & Hsub) Hb Hm Hp.
  assert (wp (_ ← tuya_iot_stop; _ ← publish_activate b; token_resume) (fun _ w1 => nextstate (client w1) = STATE_NETWORK_CHECK) w)
    as (rt & w1 & E & H); [|by exists w1, rt].
  unfold tuya_iot_stop. do 4 wp_step.
  eapply wp_weaken; [apply (resume_ok (with_next (client w) STATE_STOP) m _ b0 b reg rk); [by split|done|done]|].
  intros rt w1 [E _ _ _]. by rewrite E.
Qed.
End Activation.

(** * A sample

    A cloud with one answer, written as one byte with the schema and as another without. *)
Inductive sample_json := SObject (with_schema : bool) | SString (s : list Z).
Definition sample_member (b : bool) (k : list Z) : option sample_json :=
  let k := lower <$> k in
  if bool_decide (k = str "schemaid") then Some (SString (cstr (str "s1")))
  else if bool_decide (k = str "schema") then if b then Some (SString (cstr (str "[]"))) else None
  else if bool_decide (k = str "devid") then Some (SString (cstr (str "d1")))
  else if bool_decide (k = str "seckey") then Some (SString (cstr (str "k1")))
  else if bool_decide (k = str "localkey") then Some (SString (cstr (str "l1")))
  else if bool_decide (k = str "stdtimezone") then Some (SString (cstr (str "+08:00")))
  else None.
#[local] Instance sample_cjson : CJson := {|
  cjson := sample_json;
  cJSON_Parse p := match p with 1 :: _ => Some (SObject true) | 2 :: _ => Some (SObject false) | 3 :: _ => Some (SString []) | _ => None end;
  cJSON_GetObjectItem j k := match j with SObject b => sample_member b k | SString _ => None end;
  cjson_string j := match j with SObject _ => None | SString s => Some s end;
  cJSON_DetachItemFromObject j k := match j with
    | SObject b => SObject (if bool_decide ((lower <$> k) = str "schema") then false else b) | SString s => SString s end;
  cJSON_PrintUnformatted j := match j with SObject true => [1] | SObject false => [2] | SString _ => [3] end |}.
#[local] Instance sample_laws : CJsonLaws.
Proof.
  split.
  - intros [b|s] k k' Hk; cbn; [|done]. case_bool_decide as E; [|done]. rewrite E in Hk. unfold sample_member.
    case_bool_decide; [done|]. case_bool_decide; [by destruct Hk|done].
  - intros [[]|s]; (split; [by repeat constructor|done]).
  - intros [[]|s] rest; eexists; split; try reflexivity; done.
Qed.

Definition accept_schema (_ _ : list Z) : bool := true.
Definition accept_zone (_ : list Z) : Z := OPRT_OK.
Definition sample_config : tuya_iot_config_t :=
  {| uuid := cstr (str "uuid1"); software_ver := Some (cstr (str "1.0.0")); modules := None; storage_namespace := Some (cstr (str "ns1"));
     event_handler := true; network_check := true |}.
Definition sample_inputs : inputs :=
  {| i_network := true; i_domain_rc := 0; i_update := 0; i_cert := [1; 2; 3]; i_domain := Some [4; 5]; i_calloc := true;
     i_activate := 0; i_response := {| success := true; result := Some (SObject true); t := 1700000000; freed := false |};
     i_version_malloc := true; i_version := 0; i_mqtt_start := 0; i_connected := true; i_in_loop := [] |}.
Definition sample_binding : tuya_binding_info_t :=
  {| token := field 9 (str "token123"); region := field 3 (str "EU"); regist_key := field 5 (str "key1") |}.
#[local] Existing Instance map_reliable.
#[local] Instance sample_store : KvStore := map_store (fun _ => false) (fun _ => false).
Definition sample_client (c : tuya_iot_client_t) (m : gmap (list Z) (list Z)) : world (KS := sample_store) :=
  {| client := c; kv := m; subscribed := false; waiting := false; log := [] |}.

Lemma sample_activation : activation accept_schema accept_zone sample_inputs (SObject true)
  (str "s1") (str "[]") (str "d1") (str "k1") (str "l1") (str "+08:00") [4; 5].
Proof. split; try done; [split; try done| |]; by repeat constructor. Qed.
Lemma sample_names : names_ok (str "ns1") (str "s1").
Proof. by apply (bool_decide_unpack _). Qed.
Lemma sample_saved : saved_ok ∅ (str "ns1").
Proof. intros d Hd. by rewrite lookup_empty in Hd. Qed.

Lemma iot_activation_survives_witness :
  let w := sample_client (with_binding (with_next (client_zero sample_config) STATE_ACTIVATING) (Some sample_binding)) ∅ in
  exists w1, tuya_iot_yield accept_schema accept_zone sample_inputs w = Some (OPRT_OK, w1) /\ is_activated (client w1) = true.
Proof.
  destruct (iot_activation_survives accept_schema accept_zone
    (sample_client (with_binding (with_next (client_zero sample_config) STATE_ACTIVATING) (Some sample_binding)) ∅)
    ∅ (str "ns1") sample_binding sample_inputs _ _ _ _ _ _ _ _ eq_refl eq_refl sample_names eq_refl sample_saved eq_refl sample_activation)
    as (w1 & E & Ha & _).
  exists w1. by split.
Defined.

Lemma iot_reset_forgets_witness :
  let a := {| devid := field 26 (str "d1"); seckey := field 17 (str "k1"); localkey := field 17 (str "l1"); schemaId := field 17 (str "s1");
              timezone := field 7 (str "+08:00") |} in
  let w := sample_client (with_next (with_activated (client_zero sample_config) a true true) STATE_RESET) ∅ in
  exists w1, tuya_iot_yield accept_schema accept_zone sample_inputs w = Some (OPRT_OK, w1) /\ is_activated (client w1) = false.
Proof.
  intros a w.
  destruct (iot_reset_forgets accept_schema accept_zone w sample_inputs ∅ (str "ns1") (str "s1") (str "d1")
    ltac:(by intros ? ? ? ->) eq_refl eq_refl)
    as (w1 & m1 & E & Ha & _).
  - split; try done. split; by repeat constructor.
  - done.
  - done.
  - done.
  - exists w1. by split.
Defined.


(** A run of the sample: the start, the wait for the token, the token, and seven passes. *)
Fixpoint passes (n : nat) (w : world) : option world :=
  match n with
  | O => Some w
  | S n => if waiting w then None else '(_, w) ← tuya_iot_yield accept_schema accept_zone sample_inputs w; passes n w
  end.
Lemma passes_steps n : forall w w', passes n w = Some w' -> rtc (iot_step accept_schema accept_zone) w w'.
Proof.
  induction n as [|n IH]; intros w w' H; cbn [passes] in H; [injection H as <-; done|]. destruct (waiting w) eqn:Ew; [done|].
  apply bind_Some in H as ([rt w1] & E & H). eapply rtc_l; [by eapply step_yield|by apply IH].
Qed.

Definition sample_booted : option (Z * world) :=
  tuya_iot_init accept_schema accept_zone [] sample_config (sample_client (client_zero sample_config) ∅).
Definition sample_waiting : option world := '(_, w) ← sample_booted; '(_, w) ← tuya_iot_start w; passes 3 w.
Definition sample_token : option world :=
  w ← sample_waiting; if subscribed w then snd <$> publish_activate sample_binding w else None.
Definition sample_connected : option world :=
  w ← sample_token; if waiting w && token_sem (client w) then '(_, w) ← token_resume w; passes 7 w else None.

Lemma sample_connects : exists w0 w, booted accept_schema accept_zone w0 /\ rtc (iot_step accept_schema accept_zone) w0 w
  /\ state (client w) = STATE_MQTT_YIELD.
Proof.
  assert ((fun w => state (client w)) <$> sample_connected = Some STATE_MQTT_YIELD) as (w & E & Hs)%fmap_Some by (vm_compute; reflexivity).
  symmetry in Hs.
  apply bind_Some in E as (w2 & E2 & E). destruct (waiting w2) eqn:Hw, (token_sem (client w2)) eqn:Ht; try discriminate E.
  apply bind_Some in E as ([r3 w3] & E3 & E). apply bind_Some in E2 as (w1 & E1 & E2).
  destruct (subscribed w1) eqn:Hsub; [|discriminate E2]. apply fmap_Some in E2 as ([r2 w2'] & E2 & ->).
  apply bind_Some in E1 as ([r0 w0] & E0 & E1). apply bind_Some in E1 as ([r1 w1'] & E4 & E1).
  exists w0, w. split; [|split; [|exact Hs]].
  - exact (ex_intro _ [] (ex_intro _ sample_config (ex_intro _ (sample_client (client_zero sample_config) ∅) (ex_intro _ r0 (conj eq_refl E0))))).
  - eapply rtc_l; [exact (step_start _ _ _ _ _ E4)|]. etransitivity; [exact (passes_steps 3 _ _ E1)|].
    eapply rtc_l; [exact (step_activate _ _ _ _ _ _ Hsub E2)|]. eapply rtc_l; [exact (step_resume _ _ _ _ _ Hw Ht E3)|]. exact (passes_steps 7 _ _ E).
Qed.

Lemma iot_cloud_activated_witness :
  exists w, state (client w) = STATE_MQTT_YIELD /\ is_activated (client w) = true /\ schema (client w) = true.
Proof.
  destruct sample_connects as (w0 & w & Hb & Hr & Hs). exists w. split; [exact Hs|].
  apply (proj1 (iot_cloud_activated accept_schema accept_zone w0 w Hb Hr)). by rewrite Hs.
Defined.
