(* ===== verification/HashMap.v ===== *)
(** The chained hash map of [tools/porting/adapter/utilities/src/tuya_hashmap.c]
    over the list with back pointers of [tuya_hlist.h], on an explicit heap, and
    its refinement to a list of entries. *)
From Stdlib Require Import ZArith Lia.
From stdpp Require Import base tactics option list numbers gmap.
From S2P Require Import Prelude Crc.

Local Open Scope Z_scope.

(** * The list of tuya_hlist.h

    The back pointer of a node is the address of the pointer that leads to it:
    the head of a bucket or the [next] field of a node. *)

Abbreviation loc := positive.

Inductive cell := Head (i : Z) | Next (p : loc).

#[export] Instance cell_eq_dec : EqDecision cell.
Proof. solve_decision. Defined.

(** An element: its key, its data and its node. [list_] is the array of heads.
    A key is a pointer that the map keeps; its text is taken to stay as it is
    while the element is in the map. *)
Record HASHMAP_T := {
  size : Z;
  table_size : Z;
  list_ : list (option loc);
  hnext : gmap loc (option loc);
  pprev : gmap loc (option cell);
  elem : gmap loc (list Z * Z)
}.

Definition set_hnext (m : HASHMAP_T) (p : loc) (v : option loc) : option HASHMAP_T :=
  _ ← hnext m !! p;
  Some {| size := size m; table_size := table_size m; list_ := list_ m; hnext := <[p := v]> (hnext m);
          pprev := pprev m; elem := elem m |}.
Definition set_pprev (m : HASHMAP_T) (p : loc) (c : cell) : option HASHMAP_T :=
  _ ← pprev m !! p;
  Some {| size := size m; table_size := table_size m; list_ := list_ m; hnext := hnext m;
          pprev := <[p := Some c]> (pprev m); elem := elem m |}.
(** A store through a back pointer. *)
Definition set_cell (m : HASHMAP_T) (c : cell) (v : option loc) : option HASHMAP_T :=
  match c with
  | Next p => set_hnext m p v
  | Head i =>
      l ← wr (list_ m) i v;
      Some {| size := size m; table_size := table_size m; list_ := l; hnext := hnext m; pprev := pprev m; elem := elem m |}
  end.

Definition tuya_hlist_empty (m : HASHMAP_T) (i : Z) : option bool :=
  f ← rd (list_ m) i; Some (match f with None => true | Some _ => false end).

Definition tuya_hlist_add_head (m : HASHMAP_T) (n : loc) (i : Z) : option HASHMAP_T :=
  first ← rd (list_ m) i;
  m ← set_hnext m n first;
  m ← (match first with Some f => set_pprev m f (Next n) | None => Some m end);
  m ← set_cell m (Head i) (Some n);
  set_pprev m n (Head i).

Definition hlist_del (m : HASHMAP_T) (n : loc) : option HASHMAP_T :=
  nx ← hnext m !! n;
  pp ← pprev m !! n;
  pp ← pp;
  m ← set_cell m pp nx;
  match nx with Some x => set_pprev m x pp | None => Some m end.

(** * Hashing *)

Definition crc32_tab : list Z := [
  0x00000000; 0x77073096; 0xee0e612c; 0x990951ba; 0x076dc419; 0x706af48f; 0xe963a535; 0x9e6495a3;
  0x0edb8832; 0x79dcb8a4; 0xe0d5e91e; 0x97d2d988; 0x09b64c2b; 0x7eb17cbd; 0xe7b82d07; 0x90bf1d91;
  0x1db71064; 0x6ab020f2; 0xf3b97148; 0x84be41de; 0x1adad47d; 0x6ddde4eb; 0xf4d4b551; 0x83d385c7;
  0x136c9856; 0x646ba8c0; 0xfd62f97a; 0x8a65c9ec; 0x14015c4f; 0x63066cd9; 0xfa0f3d63; 0x8d080df5;
  0x3b6e20c8; 0x4c69105e; 0xd56041e4; 0xa2677172; 0x3c03e4d1; 0x4b04d447; 0xd20d85fd; 0xa50ab56b;
  0x35b5a8fa; 0x42b2986c; 0xdbbbc9d6; 0xacbcf940; 0x32d86ce3; 0x45df5c75; 0xdcd60dcf; 0xabd13d59;
  0x26d930ac; 0x51de003a; 0xc8d75180; 0xbfd06116; 0x21b4f4b5; 0x56b3c423; 0xcfba9599; 0xb8bda50f;
  0x2802b89e; 0x5f058808; 0xc60cd9b2; 0xb10be924; 0x2f6f7c87; 0x58684c11; 0xc1611dab; 0xb6662d3d;
  0x76dc4190; 0x01db7106; 0x98d220bc; 0xefd5102a; 0x71b18589; 0x06b6b51f; 0x9fbfe4a5; 0xe8b8d433;
  0x7807c9a2; 0x0f00f934; 0x9609a88e; 0xe10e9818; 0x7f6a0dbb; 0x086d3d2d; 0x91646c97; 0xe6635c01;
  0x6b6b51f4; 0x1c6c6162; 0x856530d8; 0xf262004e; 0x6c0695ed; 0x1b01a57b; 0x8208f4c1; 0xf50fc457;
  0x65b0d9c6; 0x12b7e950; 0x8bbeb8ea; 0xfcb9887c; 0x62dd1ddf; 0x15da2d49; 0x8cd37cf3; 0xfbd44c65;
  0x4db26158; 0x3ab551ce; 0xa3bc0074; 0xd4bb30e2; 0x4adfa541; 0x3dd895d7; 0xa4d1c46d; 0xd3d6f4fb;
  0x4369e96a; 0x346ed9fc; 0xad678846; 0xda60b8d0; 0x44042d73; 0x33031de5; 0xaa0a4c5f; 0xdd0d7cc9;
  0x5005713c; 0x270241aa; 0xbe0b1010; 0xc90c2086; 0x5768b525; 0x206f85b3; 0xb966d409; 0xce61e49f;
  0x5edef90e; 0x29d9c998; 0xb0d09822; 0xc7d7a8b4; 0x59b33d17; 0x2eb40d81; 0xb7bd5c3b; 0xc0ba6cad;
  0xedb88320; 0x9abfb3b6; 0x03b6e20c; 0x74b1d29a; 0xead54739; 0x9dd277af; 0x04db2615; 0x73dc1683;
  0xe3630b12; 0x94643b84; 0x0d6d6a3e; 0x7a6a5aa8; 0xe40ecf0b; 0x9309ff9d; 0x0a00ae27; 0x7d079eb1;
  0xf00f9344; 0x8708a3d2; 0x1e01f268; 0x6906c2fe; 0xf762575d; 0x806567cb; 0x196c3671; 0x6e6b06e7;
  0xfed41b76; 0x89d32be0; 0x10da7a5a; 0x67dd4acc; 0xf9b9df6f; 0x8ebeeff9; 0x17b7be43; 0x60b08ed5;
  0xd6d6a3e8; 0xa1d1937e; 0x38d8c2c4; 0x4fdff252; 0xd1bb67f1; 0xa6bc5767; 0x3fb506dd; 0x48b2364b;
  0xd80d2bda; 0xaf0a1b4c; 0x36034af6; 0x41047a60; 0xdf60efc3; 0xa867df55; 0x316e8eef; 0x4669be79;
  0xcb61b38c; 0xbc66831a; 0x256fd2a0; 0x5268e236; 0xcc0c7795; 0xbb0b4703; 0x220216b9; 0x5505262f;
  0xc5ba3bbe; 0xb2bd0b28; 0x2bb45a92; 0x5cb36a04; 0xc2d7ffa7; 0xb5d0cf31; 0x2cd99e8b; 0x5bdeae1d;
  0x9b64c2b0; 0xec63f226; 0x756aa39c; 0x026d930a; 0x9c0906a9; 0xeb0e363f; 0x72076785; 0x05005713;
  0x95bf4a82; 0xe2b87a14; 0x7bb12bae; 0x0cb61b38; 0x92d28e9b; 0xe5d5be0d; 0x7cdcefb7; 0x0bdbdf21;
  0x86d3d2d4; 0xf1d4e242; 0x68ddb3f8; 0x1fda836e; 0x81be16cd; 0xf6b9265b; 0x6fb077e1; 0x18b74777;
  0x88085ae6; 0xff0f6a70; 0x66063bca; 0x11010b5c; 0x8f659eff; 0xf862ae69; 0x616bffd3; 0x166ccf45;
  0xa00ae278; 0xd70dd2ee; 0x4e048354; 0x3903b3c2; 0xa7672661; 0xd06016f7; 0x4969474d; 0x3e6e77db;
  0xaed16a4a; 0xd9d65adc; 0x40df0b66; 0x37d83bf0; 0xa9bcae53; 0xdebb9ec5; 0x47b2cf7f; 0x30b5ffe9;
  0xbdbdf21c; 0xcabac28a; 0x53b39330; 0x24b4a3a6; 0xbad03605; 0xcdd70693; 0x54de5729; 0x23d967bf;
  0xb3667a2e; 0xc4614ab8; 0x5d681b02; 0x2a6f2b94; 0xb40bbe37; 0xc30c8ea1; 0x5a05df1b; 0x2d02ef8d].

Fixpoint crc32_hashmap (s : list Z) (crc32val : Z) : option Z :=
  match s with
  | [] => Some crc32val
  | c :: s' => t ← rd crc32_tab (Z.land (Z.lxor crc32val c) 0xff); crc32_hashmap s' (Z.lxor t (Z.shiftr crc32val 8))
  end.

(** The mixing of the checksum. *)
Definition hash_mix (key : Z) : Z :=
  let key := u32 (key + u32 (Z.shiftl key 12)) in
  let key := Z.lxor key (Z.shiftr key 22) in
  let key := u32 (key + u32 (Z.shiftl key 4)) in
  let key := Z.lxor key (Z.shiftr key 9) in
  let key := u32 (key + u32 (Z.shiftl key 10)) in
  let key := Z.lxor key (Z.shiftr key 2) in
  let key := u32 (key + u32 (Z.shiftl key 7)) in
  let key := Z.lxor key (Z.shiftr key 12) in
  u32 (Z.shiftr key 3 * 2654435761).

Definition hashmap_hash_int (m : HASHMAP_T) (key : list Z) : option Z :=
  crc ← crc32_hashmap key 0;
  if u32 (table_size m) =? 0 then None else Some (hash_mix crc mod u32 (table_size m)).

(** * Operations *)

Definition MAP_MISSING : Z := -2.
Definition MAP_OMEM : Z := -1.
Definition MAP_OK : Z := 0.

(** [strlen(a) == strlen(b) && strcmp(a, b) == 0]. *)
Definition same_key (a b : list Z) : bool := (zlen a =? zlen b) && bool_decide (a = b).

(** The loop of [__hash_find] and [__hash_find_next_element] from [pos]; the
    fuel is for the length of the chain. *)
Fixpoint find_from (fuel : nat) (m : HASHMAP_T) (key : list Z) (pos : option loc) : option (option loc) :=
  match pos, fuel with
  | None, _ => Some None
  | Some p, S f =>
      e ← elem m !! p;
      if same_key key (fst e) then Some (Some p)
      else nx ← hnext m !! p; find_from f m key nx
  | Some _, O => None
  end.

Definition hash_find_next_element (fuel : nat) (m : HASHMAP_T) (curr : loc) : option (option loc) :=
  e ← elem m !! curr; nx ← hnext m !! curr; find_from fuel m (fst e) nx.

Definition hash_find (fuel : nat) (m : HASHMAP_T) (key : list Z) : option (option loc) :=
  curr ← hashmap_hash_int m key;
  e ← tuya_hlist_empty m curr;
  if (e : bool) then Some None else first ← rd (list_ m) curr; find_from fuel m key first.

(** [ok1] and [ok2]: the two allocations. *)
Definition tuya_hashmap_new (ok1 ok2 : bool) (tsize : Z) : option HASHMAP_T :=
  if tsize =? 0 then None
  else if ok1 && ok2 then
    Some {| size := 0; table_size := s32 tsize; list_ := zrepl tsize None; hnext := ∅; pprev := ∅; elem := ∅ |}
  else None.

(** [p]: the new element. *)
Definition tuya_hashmap_put (m : HASHMAP_T) (p : option loc) (key : list Z) (data : Z) : option (Z * HASHMAP_T) :=
  match p with
  | None => Some (MAP_OMEM, m)
  | Some p =>
      let m := {| size := size m; table_size := table_size m; list_ := list_ m; hnext := <[p := None]> (hnext m);
                  pprev := <[p := None]> (pprev m); elem := <[p := (key, data)]> (elem m) |} in
      curr ← hashmap_hash_int m key;
      m ← tuya_hlist_add_head m p curr;
      Some (MAP_OK, {| size := s32 (size m + 1); table_size := table_size m; list_ := list_ m; hnext := hnext m;
                       pprev := pprev m; elem := elem m |})
  end.

(** The code and [*arg]. *)
Definition tuya_hashmap_get (fuel : nat) (m : HASHMAP_T) (key : list Z) : option (Z * Z) :=
  element ← hash_find fuel m key;
  match element with
  | None => Some (MAP_MISSING, 0)
  | Some p => e ← elem m !! p; Some (MAP_OK, snd e)
  end.

(** The code and the iterator, which is the address of the data of an element. *)
Definition tuya_hashmap_data_traversal (fuel : nat) (m : HASHMAP_T) (key : list Z) (iter : option loc)
  : option (Z * option loc) :=
  element ← (match iter with None => hash_find fuel m key | Some curr => hash_find_next_element fuel m curr end);
  match element with
  | None => Some (MAP_MISSING, @None loc)
  | Some p => Some (MAP_OK, Some p)
  end.

(** The loop of [tuya_hashmap_remove]: [tmp_element] when it ends. *)
Fixpoint remove_scan (fuel : nat) (m : HASHMAP_T) (key : list Z) (data : Z) (pos tmp : option loc) : option (option loc) :=
  match pos, fuel with
  | None, _ => Some tmp
  | Some p, S f =>
      e ← elem m !! p;
      if same_key key (fst e) && ((data =? 0) || (snd e =? data)) then Some (Some p)
      else nx ← hnext m !! p; remove_scan f m key data nx (Some p)
  | Some _, O => None
  end.

Definition tuya_hashmap_remove (fuel : nat) (m : HASHMAP_T) (key : list Z) (data : Z) : option (Z * HASHMAP_T) :=
  curr ← hashmap_hash_int m key;
  e ← tuya_hlist_empty m curr;
  if (e : bool) then Some (MAP_MISSING, m)
  else
    first ← rd (list_ m) curr;
    tmp_element ← remove_scan fuel m key data first None;
    match tmp_element with
    | None => Some (MAP_MISSING, m)
    | Some p =>
        m ← hlist_del m p;
        Some (MAP_OK, {| size := s32 (size m - 1); table_size := table_size m; list_ := list_ m;
                         hnext := delete p (hnext m); pprev := delete p (pprev m); elem := delete p (elem m) |})
    end.

Definition tuya_hashmap_length (m : option HASHMAP_T) : Z := match m with Some m => size m | None => 0 end.

(** * Proofs *)

(** ** The hash *)

Lemma crc32_tab_eq : crc32_tab = s_crc32.
Proof. by vm_compute. Qed.

Lemma crc32_hashmap_ok s h : bytes_ok s -> crc32_hashmap s h = Some (crc_ref CRC32_POLY h s).
Proof.
  intros Hs. revert h. induction Hs as [|c s Hc Hs IH]; intros h; cbn [crc32_hashmap]; [done|].
  rewrite crc_ref_cons, crc32_tab_eq, s_crc32_entry by apply land_byte. cbn [mbind option_bind]. rewrite IH. f_equal.
  unfold crc_step. by rewrite (crc_bits_table _ (Z.lxor h c)), Z.shiftr_lxor, (shiftr_byte c Hc), Z.lxor_0_r.
Qed.

(** The bucket of a key. *)
Definition key_hash_def (n : Z) (key : list Z) : Z := hash_mix (crc_ref CRC32_POLY 0 key) mod n.
Definition key_hash_aux : seal key_hash_def.
Proof. by eexists. Qed.
Definition key_hash : Z -> list Z -> Z := unseal key_hash_aux.

Lemma key_hash_eq n key : key_hash n key = hash_mix (crc_ref CRC32_POLY 0 key) mod n.
Proof. unfold key_hash. by rewrite (seal_eq key_hash_aux). Qed.

Lemma hash_int_ok m key :
  bytes_ok key -> 0 < table_size m < 2147483648 ->
  hashmap_hash_int m key = Some (key_hash (table_size m) key) /\ 0 <= key_hash (table_size m) key < table_size m.
Proof.
  intros Hk Ht. unfold hashmap_hash_int. rewrite crc32_hashmap_ok by done. cbn [mbind option_bind].
  rewrite (u32_small (table_size m)) by (unfold is_u32; lia).
  destruct (Z.eqb_spec (table_size m) 0); [lia|]. rewrite key_hash_eq. split; [reflexivity|]. apply Z.mod_pos_bound. lia.
Qed.

Lemma same_key_eq a b : same_key a b = bool_decide (a = b).
Proof.
  unfold same_key. destruct (decide (a = b)) as [->|]; [|rewrite bool_decide_false by done; apply andb_false_r].
  rewrite bool_decide_true by done. by rewrite Z.eqb_refl.
Qed.

(** ** Chains

    [hchain hn pp c v l]: the pointer in [c] is [v], and from it the chain of
    nodes is [l], each with the cell before it as its back pointer. *)
Fixpoint hchain (hn : gmap loc (option loc)) (pp : gmap loc (option cell)) (c : cell) (v : option loc) (l : list loc) : Prop :=
  match l with
  | [] => v = None
  | x :: l' => v = Some x /\ pp !! x = Some (Some c) /\ exists nx, hn !! x = Some nx /\ hchain hn pp (Next x) nx l'
  end.

Lemma hchain_ext hn pp hn' pp' c v l :
  (forall x, x ∈ l -> hn' !! x = hn !! x /\ pp' !! x = pp !! x) -> hchain hn pp c v l -> hchain hn' pp' c v l.
Proof.
  revert c v. induction l as [|x l IH]; intros c v Hx; cbn; [done|]. intros (-> & Hp & nx & Hn & Hc).
  destruct (Hx x) as [En Ep]; [set_solver|]. rewrite En, Ep. split_and!; [done|done|]. exists nx.
  split; [done|]. apply IH; [|done]. set_solver.
Qed.

Lemma hchain_cons hn pp c v l x :
  NoDup (x :: l) -> hchain hn pp c v l ->
  hchain (<[x := v]> hn)
    (<[x := Some c]> (match v with Some f => <[f := Some (Next x)]> pp | None => pp end)) c (Some x) (x :: l).
Proof.
  intros [Hx Hl]%NoDup_cons Hc. cbn. split_and!; [done|by rewrite lookup_insert_eq|].
  exists v. rewrite lookup_insert_eq. split; [done|].
  destruct l as [|y l]; cbn in Hc |- *; [done|]. destruct Hc as (-> & Hp & nx & Hn & Hc).
  apply NoDup_cons in Hl as [Hy Hl]. assert (x <> y) by set_solver. split; [done|]. split.
  { by rewrite lookup_insert_ne, lookup_insert_eq by done. }
  exists nx. rewrite lookup_insert_ne by done. split; [done|].
  eapply hchain_ext; [|exact Hc]. intros z Hz. rewrite !lookup_insert_ne by set_solver. done.
Qed.

(** The cell that leads to what follows [l]. *)
Definition last_cell (c : cell) (l : list loc) : cell := match last l with Some q => Next q | None => c end.

Lemma last_cell_cons c a l : last_cell c (a :: l) = last_cell (Next a) l.
Proof. unfold last_cell. rewrite last_cons. by destruct (last l). Qed.

Lemma last_in (l : list loc) q : last l = Some q -> q ∈ l.
Proof. intros H. apply last_Some in H as [l' ->]. set_solver. Qed.

(** Unlinking a node: the store through its back pointer, and the back pointer
    of its successor. *)
Lemma hchain_del hn pp c0 v l1 x l2 :
  NoDup (l1 ++ x :: l2) -> hchain hn pp c0 v (l1 ++ x :: l2) ->
  exists nx, hn !! x = Some nx /\ pp !! x = Some (Some (last_cell c0 l1))
    /\ (nx = None \/ exists y, nx = Some y /\ y ∈ l2)
    /\ let pp' := match nx with Some y => <[y := Some (last_cell c0 l1)]> pp | None => pp end in
       match last l1 with
       | Some q => is_Some (hn !! q) /\ hchain (<[q := nx]> hn) pp' c0 v (l1 ++ l2)
       | None => v = Some x /\ hchain hn pp' c0 nx l2
       end.
Proof.
  revert c0 v. induction l1 as [|a l1 IH]; intros c0 v Hnd Hc.
  - cbn in Hc. destruct Hc as (-> & Hp & nx & Hn & Hc). exists nx. cbn. split_and!; [done|done| |done|].
    + destruct l2; cbn in Hc; [by left|right]. destruct Hc as (-> & _). eexists. split; [done|set_solver].
    + apply NoDup_cons in Hnd as [_ Hnd]. destruct l2 as [|y l2]; cbn in Hc |- *; [done|].
      destruct Hc as (-> & Hpy & nx2 & Hny & Hc). rewrite lookup_insert_eq. split_and!; [done|done|].
      exists nx2. split; [done|]. apply NoDup_cons in Hnd as [Hy _]. eapply hchain_ext; [|exact Hc].
      intros z Hz. rewrite lookup_insert_ne by set_solver. done.
  - cbn in Hc. destruct Hc as (-> & Hpa & nxa & Hna & Hc).
    cbn in Hnd. apply NoDup_cons in Hnd as [Ha Hnd]. destruct (IH _ _ Hnd Hc) as (nx & Hn & Hp & Hnx & Hrest).
    exists nx. rewrite last_cell_cons. split_and!; [done|done|done|].
    rewrite last_cons. cbn zeta in Hrest |- *.
    set (pp' := match nx with Some y => <[y := _]> pp | None => pp end) in *.
    assert (pp' !! a = pp !! a) as Epa.
    { unfold pp'. destruct nx as [y|]; [|done]. destruct Hnx as [|(y' & [= <-] & Hy)]; [done|].
      rewrite lookup_insert_ne by set_solver. done. }
    destruct (last l1) as [q|] eqn:El.
    + destruct Hrest as [Hq Hc']. split; [done|]. cbn. rewrite Epa. split_and!; [done|done|].
      exists nxa. rewrite lookup_insert_ne by (apply last_in in El; set_solver). done.
    + apply last_None in El as ->. destruct Hrest as [-> Hc']. split; [by eexists|]. cbn. rewrite Epa.
      split_and!; [done|done|]. exists nx. rewrite lookup_insert_eq. split; [done|].
      eapply hchain_ext; [|exact Hc']. intros z Hz. rewrite lookup_insert_ne by set_solver. done.
Qed.

(** ** The map as a list of entries, newest first *)

Abbreviation entry := (loc * (list Z * Z))%type.

Definition keyed (key : list Z) (e : entry) : bool := bool_decide (fst (snd e) = key).
(** What [tuya_hashmap_remove] looks for. *)
Definition matches (key : list Z) (data : Z) (e : entry) : bool :=
  keyed key e && ((data =? 0) || (snd (snd e) =? data)).

Definition bucket (n i : Z) (es : list entry) : list entry := filter (fun e => key_hash n (fst (snd e)) = i) es.

Record hash_ok (m : HASHMAP_T) (es : list entry) : Prop := {
  ho_table : 0 < table_size m < 2147483648;
  ho_list : zlen (list_ m) = table_size m;
  ho_size : size m = s32 (zlen es);
  ho_nodup : NoDup (fst <$> es);
  ho_elem : Forall (fun e => elem m !! fst e = Some (snd e)) es;
  ho_keys : Forall (fun e : entry => bytes_ok (fst (snd e))) es;
  ho_chain i : 0 <= i < table_size m ->
    exists v, rd (list_ m) i = Some v /\ hchain (hnext m) (pprev m) (Head i) v (fst <$> bucket (table_size m) i es)
}.

Lemma bucket_app n i es1 es2 : bucket n i (es1 ++ es2) = bucket n i es1 ++ bucket n i es2.
Proof. apply filter_app. Qed.

Lemma bucket_in n es e : bucket n (key_hash n (fst (snd e))) (e :: es) = e :: bucket n (key_hash n (fst (snd e))) es.
Proof. unfold bucket. by rewrite filter_cons_True. Qed.

Lemma bucket_out n i es e : key_hash n (fst (snd e)) <> i -> bucket n i (e :: es) = bucket n i es.
Proof. intros. unfold bucket. by rewrite filter_cons_False. Qed.

Lemma bucket_length n i es : (length (bucket n i es) <= length es)%nat.
Proof. apply length_filter. Qed.

Lemma bucket_nodup n i es : NoDup (fst <$> es) -> NoDup (fst <$> bucket n i es).
Proof. intros. eapply sublist_NoDup; [done|]. apply fmap_sublist. unfold bucket. apply sublist_filter. Qed.

Lemma bucket_sub n i es x : x ∈ fst <$> bucket n i es -> x ∈ fst <$> es.
Proof.
  intros (e & -> & He)%list_elem_of_fmap. apply list_elem_of_filter in He as [_ He]. by apply list_elem_of_fmap_2.
Qed.

(** An entry is in one bucket. *)
Lemma bucket_unique n i es e : NoDup (fst <$> es) -> e ∈ es -> fst e ∈ fst <$> bucket n i es -> key_hash n (fst (snd e)) = i.
Proof.
  intros Hnd He (e' & E & He')%list_elem_of_fmap. apply list_elem_of_filter in He' as [Hi He'].
  assert (e = e') as ->; [|done]. apply list_elem_of_lookup in He as [a Ha]. apply list_elem_of_lookup in He' as [b Hb].
  assert (a = b) as ->; [|congruence]. eapply (NoDup_lookup (fst <$> es)); [done|..]; rewrite list_lookup_fmap.
  - by rewrite Ha.
  - by rewrite Hb, E.
Qed.

Lemma find_bucket n (P : entry -> bool) key es :
  (forall e, P e = true -> fst (snd e) = key) -> List.find P (bucket n (key_hash n key) es) = List.find P es.
Proof.
  intros HP. induction es as [|e es IH]; [done|]. cbn [List.find]. destruct (P e) eqn:E.
  - rewrite <- (HP e E), bucket_in. cbn. by rewrite E.
  - destruct (decide (key_hash n (fst (snd e)) = key_hash n key)) as [Ek|Ek].
    + rewrite <- Ek, bucket_in, Ek. cbn. by rewrite E.
    + by rewrite bucket_out.
Qed.

Lemma keyed_key key e : keyed key e = true -> fst (snd e) = key.
Proof. apply bool_decide_eq_true_1. Qed.

Lemma matches_key key data e : matches key data e = true -> fst (snd e) = key.
Proof. unfold matches. intros H. apply andb_true_iff in H as [H _]. by apply keyed_key. Qed.

(** ** Searching *)

Lemma find_from_ok fuel m key c v bs :
  hchain (hnext m) (pprev m) c v (fst <$> bs) -> Forall (fun e => elem m !! fst e = Some (snd e)) bs ->
  (length bs <= fuel)%nat -> find_from fuel m key v = Some (fst <$> List.find (keyed key) bs).
Proof.
  intros Hc Hb. revert fuel c v Hc. induction Hb as [|e bs He Hb IH]; intros fuel c v Hc Hf.
  - cbn in Hc. subst v. by destruct fuel.
  - cbn in Hc. destruct Hc as (-> & _ & nx & Hn & Hc). destruct fuel as [|fuel]; [cbn in Hf; lia|].
    cbn [find_from List.find]. rewrite He. cbn [mbind option_bind]. rewrite same_key_eq.
    change (bool_decide (fst (snd e) = key)) with (keyed key e).
    replace (bool_decide (key = fst (snd e))) with (keyed key e).
    2:{ unfold keyed. apply bool_decide_ext. done. }
    destruct (keyed key e); [done|]. rewrite Hn. cbn [mbind option_bind]. eapply IH; [exact Hc|]. cbn in Hf. lia.
Qed.

Lemma remove_scan_ok fuel m key data c v tmp bs :
  hchain (hnext m) (pprev m) c v (fst <$> bs) -> Forall (fun e => elem m !! fst e = Some (snd e)) bs ->
  (length bs <= fuel)%nat ->
  remove_scan fuel m key data v tmp
  = Some (match List.find (matches key data) bs with
          | Some e => Some (fst e)
          | None => match last bs with Some e => Some (fst e) | None => tmp end
          end).
Proof.
  intros Hc Hb. revert fuel c v tmp Hc. induction Hb as [|e bs He Hb IH]; intros fuel c v tmp Hc Hf.
  - cbn in Hc. subst v. by destruct fuel.
  - cbn in Hc. destruct Hc as (-> & _ & nx & Hn & Hc). destruct fuel as [|fuel]; [cbn in Hf; lia|].
    cbn [remove_scan List.find]. rewrite He. cbn [mbind option_bind]. rewrite same_key_eq.
    assert (bool_decide (key = fst (snd e)) && ((data =? 0) || (snd (snd e) =? data)) = matches key data e) as ->.
    { unfold matches, keyed. f_equal. apply bool_decide_ext. done. }
    destruct (matches key data e); [done|]. rewrite Hn. cbn [mbind option_bind].
    rewrite (IH fuel (Next (fst e)) nx (Some (fst e)) Hc) by (cbn in Hf; lia).
    rewrite last_cons. by destruct (List.find (matches key data) bs), (last bs).
Qed.

Lemma hchain_empty hn pp c v l : hchain hn pp c v l -> match v with None => true | Some _ => false end = bool_decide (l = []).
Proof. destruct l; cbn; [by intros ->|]. by intros (-> & _). Qed.

Lemma hash_elems m es n i : hash_ok m es -> Forall (fun e => elem m !! fst e = Some (snd e)) (bucket n i es).
Proof. intros H. apply Forall_forall. intros e He. apply list_elem_of_filter in He as [_ He]. by apply (proj1 (Forall_forall _ _) (ho_elem _ _ H)). Qed.

Lemma hash_find_ok fuel m es key :
  hash_ok m es -> bytes_ok key -> (length es <= fuel)%nat ->
  hash_find fuel m key = Some (fst <$> List.find (keyed key) es).
Proof.
  intros H Hk Hf. destruct (hash_int_ok m key Hk (ho_table _ _ H)) as [Eh Hr]. unfold hash_find, tuya_hlist_empty.
  rewrite Eh. cbn [mbind option_bind]. destruct (ho_chain _ _ H _ Hr) as (v & -> & Hc). cbn [mbind option_bind].
  set (bs := bucket (table_size m) (key_hash (table_size m) key) es) in *.
  assert (List.find (keyed key) es = List.find (keyed key) bs) as -> by (symmetry; apply find_bucket, keyed_key).
  rewrite (find_from_ok fuel m key (Head (key_hash (table_size m) key)) v bs);
    [|exact Hc|by apply hash_elems|etrans; [apply bucket_length|done]].
  rewrite (hchain_empty _ _ _ _ _ Hc). destruct bs; done.
Qed.

(** ** Insertion *)

(** Entries whose nodes a change leaves alone keep their chain. *)
Lemma other_bucket m hn' pp' es i j :
  i <> j -> NoDup (fst <$> es) ->
  (forall x, x ∈ fst <$> es -> x ∉ fst <$> bucket (table_size m) i es ->
     hn' !! x = hnext m !! x /\ pp' !! x = pprev m !! x) ->
  forall v, hchain (hnext m) (pprev m) (Head j) v (fst <$> bucket (table_size m) j es) ->
    hchain hn' pp' (Head j) v (fst <$> bucket (table_size m) j es).
Proof.
  intros Hij Hnd Hx v. apply hchain_ext. intros x Hj. apply Hx; [by eapply bucket_sub|]. intros Hi.
  apply list_elem_of_fmap in Hj as (e & -> & He). apply list_elem_of_filter in He as [Ej He].
  rewrite (bucket_unique _ _ _ _ Hnd He Hi) in Ej. done.
Qed.

Lemma rd_wr_eq {A} (l : list A) i v l' : wr l i v = Some l' -> rd l' i = Some v.
Proof.
  unfold wr, rd. destruct (_ && _) eqn:E; [|done]. intros [= <-]. bool_hyps. unfold zlen in *. decide_bool.
  apply list_lookup_insert_eq. lia.
Qed.

Lemma rd_wr_ne {A} (l : list A) i j v l' : wr l i v = Some l' -> i <> j -> rd l' j = rd l j.
Proof.
  unfold wr, rd. destruct (_ && _) eqn:E; [|done]. intros [= <-] Hij. bool_hyps.
  destruct (Z.leb_spec 0 j); [|done]. apply list_lookup_insert_ne. lia.
Qed.

Lemma wr_in {A} (l : list A) i v : 0 <= i < zlen l -> exists l', wr l i v = Some l'.
Proof. intros. unfold wr. do 2 decide_bool. by eexists. Qed.

Lemma hm_put_ok m es p key data :
  hash_ok m es -> bytes_ok key -> p ∉ fst <$> es ->
  exists m', tuya_hashmap_put m (Some p) key data = Some (MAP_OK, m') /\ hash_ok m' ((p, (key, data)) :: es).
Proof.
  intros H Hk Hp. destruct (hash_int_ok m key Hk (ho_table _ _ H)) as [Eh Hr]. unfold tuya_hashmap_put.
  unfold hashmap_hash_int in *. cbn [table_size]. rewrite Eh. cbn [mbind option_bind]. clear Eh.
  set (i := key_hash (table_size m) key) in *. destruct (ho_chain _ _ H i Hr) as (v & Ev & Hc).
  unfold tuya_hlist_add_head. cbn [list_ hnext pprev]. rewrite Ev. cbn [mbind option_bind].
  unfold set_hnext. cbn [hnext]. rewrite lookup_insert_eq. cbn [mbind option_bind list_ pprev]. rewrite insert_insert_eq.
  destruct (wr_in (list_ m) i (Some p)) as [l' El]; [rewrite (ho_list _ _ H); done|].
  assert (NoDup (p :: (fst <$> bucket (table_size m) i es))) as Hnd.
  { apply NoDup_cons. split; [|by apply bucket_nodup, (ho_nodup _ _ H)]. intros Hb. by apply bucket_sub in Hb. }
  set (pp := match v with Some f => <[f := Some (Next p)]> (<[p := None]> (pprev m)) | None => <[p := None]> (pprev m) end).
  assert (forall M, hnext M = <[p := v]> (hnext m) -> pprev M = <[p := None]> (pprev m) -> list_ M = list_ m ->
    (M ← (match v with Some f => set_pprev M f (Next p) | None => Some M end);
     M ← set_cell M (Head i) (Some p); set_pprev M p (Head i))
    = Some {| size := size M; table_size := table_size M; list_ := l'; hnext := hnext M;
              pprev := <[p := Some (Head i)]> pp; elem := elem M |}) as Ew.
  { intros M Hn Hpp Hl. unfold set_pprev, set_cell, pp. destruct v as [f|].
    - destruct (bucket (table_size m) i es) as [|e bs]; cbn in Hc; [done|]. destruct Hc as ([= ->] & Hpf & _).
      apply NoDup_cons in Hnd as [Hpn _]. rewrite Hpp, lookup_insert_ne by set_solver. rewrite Hpf.
      cbn [mbind option_bind list_]. rewrite Hl, El. cbn [mbind option_bind pprev].
      rewrite lookup_insert_ne, lookup_insert_eq by set_solver. done.
    - cbn [mbind option_bind list_]. rewrite Hl, El. cbn [mbind option_bind pprev]. by rewrite Hpp, lookup_insert_eq. }
  rewrite Ew by done. cbn [mbind option_bind]. eexists. split; [done|]. clear Ew.
  split; cbn [table_size list_ size elem hnext pprev].
  - apply (ho_table _ _ H).
  - apply wr_Some in El as [_ ->]. apply (ho_list _ _ H).
  - rewrite (ho_size _ _ H), zlen_cons. unfold s32, swrap.
    replace ((zlen es + 2 ^ (32 - 1)) mod 2 ^ 32 - 2 ^ (32 - 1) + 1 + 2 ^ (32 - 1))
      with ((zlen es + 2 ^ (32 - 1)) mod 2 ^ 32 + 1) by lia.
    rewrite Z.add_mod_idemp_l by done. do 2 f_equal. lia.
  - cbn. apply NoDup_cons. split; [done|apply (ho_nodup _ _ H)].
  - constructor; [by rewrite lookup_insert_eq|]. apply Forall_forall. intros e He.
    rewrite lookup_insert_ne; [by apply (proj1 (Forall_forall _ _) (ho_elem _ _ H))|].
    intros ->. apply Hp. by apply list_elem_of_fmap_2.
  - constructor; [done|apply (ho_keys _ _ H)].
  - intros j Hj. destruct (decide (i = j)) as [<-|Hij].
    + exists (Some p). split; [by eapply rd_wr_eq|].
      pose proof (bucket_in (table_size m) es (p, (key, data))) as Eb. cbn [fst snd] in Eb. fold i in Eb. rewrite Eb.
      cbn [fmap list_fmap fst]. apply (hchain_cons _ _ (Head i) _ _ p Hnd) in Hc.
      eapply hchain_ext; [|exact Hc]. intros x Hx. split; [done|]. destruct (decide (x = p)) as [->|Hxp].
      { by rewrite !lookup_insert_eq. }
      do 2 (rewrite lookup_insert_ne by done; symmetry). unfold pp. destruct v as [f|]; [|by rewrite lookup_insert_ne].
      destruct (decide (x = f)) as [->|Hxf]; [by rewrite !lookup_insert_eq|]. by rewrite !lookup_insert_ne.
    + destruct (ho_chain _ _ H j Hj) as (w & Ew & Hw). exists w. split.
      { erewrite rd_wr_ne; done. }
      rewrite bucket_out by done.
      eapply other_bucket; [exact Hij|apply (ho_nodup _ _ H)| |exact Hw].
      intros x Hx Hxi. assert (x <> p) by (intros ->; done).
      do 2 rewrite lookup_insert_ne by done. split; [done|]. unfold pp. destruct v as [f|]; [|by rewrite lookup_insert_ne].
      rewrite !lookup_insert_ne; [done|done|]. intros ->.
      destruct (bucket (table_size m) i es) as [|e bs]; cbn in Hc; [done|]. destruct Hc as ([= ->] & _). cbn in Hxi. set_solver.
Qed.

(** ** Removal *)

Definition drop_elem (m : HASHMAP_T) (p : loc) : HASHMAP_T :=
  {| size := s32 (size m - 1); table_size := table_size m; list_ := list_ m;
     hnext := delete p (hnext m); pprev := delete p (pprev m); elem := delete p (elem m) |}.

(** What unlinking changes: the cell before the node and the back pointer after
    it, both of the same bucket. *)
Lemma hlist_del_ok m i v b1 x b2 :
  NoDup (b1 ++ x :: b2) -> rd (list_ m) i = Some v -> hchain (hnext m) (pprev m) (Head i) v (b1 ++ x :: b2) ->
  exists m', hlist_del m x = Some m' /\ table_size m' = table_size m /\ size m' = size m /\ elem m' = elem m
    /\ zlen (list_ m') = zlen (list_ m)
    /\ (exists v', rd (list_ m') i = Some v' /\ hchain (hnext m') (pprev m') (Head i) v' (b1 ++ b2))
    /\ (forall j, j <> i -> rd (list_ m') j = rd (list_ m) j)
    /\ (forall y, y ∉ b1 ++ x :: b2 -> hnext m' !! y = hnext m !! y /\ pprev m' !! y = pprev m !! y).
Proof.
  intros Hnd Hv Hc. destruct (hchain_del _ _ _ _ _ _ _ Hnd Hc) as (nx & Hn & Hp & Hnx & Hrest).
  set (pp' := match nx with Some y => <[y := Some (last_cell (Head i) b1)]> (pprev m) | None => pprev m end) in *.
  cbn zeta in Hrest. fold pp' in Hrest.
  assert (forall M, pprev M = pprev m ->
    match nx with Some y => set_pprev M y (last_cell (Head i) b1) | None => Some M end
    = Some {| size := size M; table_size := table_size M; list_ := list_ M; hnext := hnext M; pprev := pp'; elem := elem M |}) as Ew.
  { intros M EM. unfold pp', set_pprev. destruct nx as [y|]; [|by rewrite <- EM; destruct M].
    destruct Hnx as [|(y' & [= <-] & Hy)]; [done|]. rewrite EM.
    assert (is_Some (pprev m !! y)) as [c ->]; [|done].
    clear -Hc Hy. revert Hc. generalize (Head i). revert v. induction b1 as [|a b1 IH]; intros v c Hc.
    - cbn in Hc. destruct Hc as (_ & _ & nx & _ & Hc). revert Hc. generalize (Next x). revert nx.
      induction b2 as [|z b2 IH2]; intros nx c' Hc; [set_solver|]. cbn in Hc. destruct Hc as (_ & Hz & nx' & _ & Hc).
      apply list_elem_of_In in Hy as [->|Hy]; [by eexists|]. apply list_elem_of_In in Hy. by eapply IH2.
    - cbn in Hc. destruct Hc as (_ & _ & nx & _ & Hc). by eapply IH. }
  assert (forall y, y ∉ b1 ++ x :: b2 -> pp' !! y = pprev m !! y) as Hpp.
  { intros y Hy. unfold pp'. destruct Hnx as [->|(z & -> & Hz)]; [done|]. rewrite lookup_insert_ne by set_solver. done. }
  unfold hlist_del. rewrite Hn, Hp. cbn [mbind option_bind]. unfold last_cell in *.
  destruct (last b1) as [q|] eqn:El.
  - destruct Hrest as [[w Hq] Hc']. cbn [set_cell]. unfold set_hnext. rewrite Hq. cbn [mbind option_bind]. rewrite Ew by done.
    eexists. split; [done|]. cbn. split_and!; try done; [by exists v|]. intros y Hy. rewrite Hpp by done. split; [|done].
    rewrite lookup_insert_ne; [done|]. intros ->. apply last_in in El. set_solver.
  - destruct Hrest as [-> Hc']. apply last_None in El as ->. cbn [set_cell].
    destruct (wr_in (list_ m) i nx) as [l' El].
    { unfold rd in Hv. destruct (Z.leb_spec 0 i); [|done]. apply lookup_lt_Some in Hv. unfold zlen. lia. }
    rewrite El. cbn [mbind option_bind]. rewrite Ew by done. eexists. split; [done|]. cbn.
    pose proof (wr_Some _ _ _ _ El) as [_ Hl]. split_and!; try done.
    + exists nx. split; [by eapply rd_wr_eq|done].
    + intros j Hj. by eapply rd_wr_ne.
    + intros y Hy. split; [done|]. by apply Hpp.
Qed.

Lemma del_ok m l1 e l2 :
  hash_ok m (l1 ++ e :: l2) ->
  exists m', hlist_del m (fst e) = Some m' /\ hash_ok (drop_elem m' (fst e)) (l1 ++ l2).
Proof.
  intros H. pose proof (ho_nodup _ _ H) as Hnd.
  assert (bytes_ok (fst (snd e))) as Hk by (pose proof (ho_keys _ _ H) as Hks; by apply Forall_app in Hks as [_ [? _]%Forall_cons_1]).
  set (n := table_size m) in *.
  destruct (hash_int_ok m (fst (snd e)) Hk (ho_table _ _ H)) as [_ Hr]. fold n in Hr.
  set (i := key_hash n (fst (snd e))) in *. destruct (ho_chain _ _ H i Hr) as (v & Ev & Hc). fold n in Hc.
  rewrite bucket_app in Hc. unfold i in Hc at 3. rewrite bucket_in in Hc. fold i in Hc.
  rewrite fmap_app in Hc. cbn [fmap list_fmap] in Hc.
  pose proof (bucket_nodup n i _ Hnd) as Hb. rewrite bucket_app in Hb. unfold i in Hb at 2. rewrite bucket_in in Hb. fold i in Hb.
  rewrite fmap_app in Hb. cbn [fmap list_fmap] in Hb.
  destruct (hlist_del_ok m i v _ (fst e) _ Hb Ev Hc) as (m' & E & Et & Es & Ee & El & (v' & Ev' & Hc') & Ho & Hf).
  exists m'. split; [done|].
  assert (fst e ∉ fst <$> (l1 ++ l2)) as He.
  { rewrite fmap_app in Hnd |- *. cbn in Hnd. apply NoDup_app in Hnd as (_ & Hd & Hnd).
    apply NoDup_cons in Hnd as [? _]. set_solver. }
  assert (NoDup (fst <$> (l1 ++ l2))) as Hnd'.
  { rewrite fmap_app in Hnd |- *. cbn in Hnd. apply NoDup_app in Hnd as (? & Hd & Hnd).
    apply NoDup_cons in Hnd as [_ ?]. apply NoDup_app. split_and!; [done|set_solver|done]. }
  split; cbn [drop_elem table_size list_ size elem hnext pprev]; rewrite ?Et; fold n.
  - apply (ho_table _ _ H).
  - rewrite El. apply (ho_list _ _ H).
  - rewrite Es, (ho_size _ _ H), !zlen_app, zlen_cons. unfold s32, swrap.
    set (k := zlen l1 + (1 + zlen l2) + 2 ^ (32 - 1)).
    replace (k mod 2 ^ 32 - 2 ^ (32 - 1) - 1 + 2 ^ (32 - 1)) with (k mod 2 ^ 32 - 1) by lia.
    rewrite Zminus_mod_idemp_l. unfold k. do 2 f_equal. lia.
  - done.
  - apply Forall_forall. intros x Hx. rewrite lookup_delete_ne.
    2:{ intros E2. apply He. rewrite E2. by apply list_elem_of_fmap_2. }
    rewrite Ee. apply (proj1 (Forall_forall _ _) (ho_elem _ _ H)). set_solver.
  - pose proof (ho_keys _ _ H) as Hks. apply Forall_app in Hks as [? [_ ?]%Forall_cons_1]. by apply Forall_app_2.
  - intros j Hj. destruct (decide (j = i)) as [->|Hij].
    + exists v'. split; [done|]. rewrite bucket_app, fmap_app. eapply hchain_ext; [|exact Hc'].
      intros x Hx. rewrite <- fmap_app, <- bucket_app in Hx. apply bucket_sub in Hx.
      assert (fst e <> x) by (intros E3; apply He; by rewrite E3). by rewrite !lookup_delete_ne.
    + rewrite Ho by done. destruct (ho_chain _ _ H j Hj) as (w & Ew & Hw). exists w. split; [done|]. fold n in Hw.
      rewrite bucket_app in Hw. rewrite bucket_out in Hw by (unfold i in Hij; congruence). rewrite <- bucket_app in Hw.
      eapply hchain_ext; [|exact Hw]. intros x Hx. pose proof (bucket_sub _ _ _ _ Hx) as Hx1.
      assert (fst e <> x) by (intros E3; apply He; by rewrite E3).
      rewrite !lookup_delete_ne by done. apply Hf. intros Hx'.
      assert (x ∈ fst <$> bucket n i (l1 ++ l2)) as Hxi.
      { rewrite bucket_app, fmap_app. apply elem_of_app in Hx' as [Hx'|Hx']; apply elem_of_app; [by left|].
        apply elem_of_cons in Hx' as [Hx'|Hx']; [congruence|by right]. }
      apply list_elem_of_fmap in Hx as (d & -> & Hd). apply list_elem_of_filter in Hd as [Ej Hd].
      rewrite (bucket_unique _ _ _ _ Hnd' Hd Hxi) in Ej. done.
Qed.

Lemma find_split {A} (P : A -> bool) l :
  match List.find P l with
  | Some e => exists a b, l = a ++ e :: b /\ P e = true /\ Forall (fun x => P x = false) a
  | None => Forall (fun x => P x = false) l
  end.
Proof.
  induction l as [|x l IH]; cbn [List.find]; [constructor|]. destruct (P x) eqn:E; [by exists [], l|].
  destruct (List.find P l) as [e|]; [|by constructor]. destruct IH as (a & b & -> & He & Ha).
  exists (x :: a), b. split_and!; [done|done|by constructor].
Qed.

(** The entry [tuya_hashmap_remove] takes: the first match, or else the last
    entry of the bucket. *)
Definition victim (n : Z) (key : list Z) (data : Z) (es : list entry) : option entry :=
  match List.find (matches key data) es with
  | Some e => Some e
  | None => last (bucket n (key_hash n key) es)
  end.

Lemma remove_ok fuel m es key data :
  hash_ok m es -> bytes_ok key -> (length es <= fuel)%nat ->
  match victim (table_size m) key data es with
  | None => tuya_hashmap_remove fuel m key data = Some (MAP_MISSING, m)
  | Some e => e ∈ es /\ forall l1 l2, es = l1 ++ e :: l2 ->
      exists m', tuya_hashmap_remove fuel m key data = Some (MAP_OK, m') /\ hash_ok m' (l1 ++ l2)
  end.
Proof.
  intros H Hk Hf. destruct (hash_int_ok m key Hk (ho_table _ _ H)) as [Eh Hr].
  unfold tuya_hashmap_remove, tuya_hlist_empty, victim. rewrite Eh. cbn [mbind option_bind].
  destruct (ho_chain _ _ H _ Hr) as (v & -> & Hc). cbn [mbind option_bind]. rewrite (hchain_empty _ _ _ _ _ Hc).
  set (n := table_size m) in *. set (bs := bucket n (key_hash n key) es) in *.
  assert (List.find (matches key data) es = List.find (matches key data) bs) as ->
    by (symmetry; apply find_bucket, matches_key).
  rewrite (remove_scan_ok fuel m key data _ v None bs Hc) by
    (by apply hash_elems || (etrans; [apply bucket_length|done])).
  assert (forall e, e ∈ bs -> e ∈ es) as Hsub by (intros e He; by apply list_elem_of_filter in He as [_ He]).
  assert (forall e, e ∈ bs -> e ∈ es /\ forall l1 l2, es = l1 ++ e :: l2 ->
    exists m', (m' ← hlist_del m (fst e); Some (MAP_OK, drop_elem m' (fst e))) = Some (MAP_OK, m') /\ hash_ok m' (l1 ++ l2)) as Hdel.
  { intros e He. split; [by apply Hsub|]. intros l1 l2 ->. destruct (del_ok m l1 e l2 H) as (m' & -> & Hok).
    eexists. split; [done|exact Hok]. }
  destruct bs as [|b bs'] eqn:Eb; [done|]. cbn [fmap list_fmap]. rewrite bool_decide_false by done. cbn [mbind option_bind].
  pose proof (find_split (matches key data) (b :: bs')) as Hfs.
  destruct (List.find (matches key data) (b :: bs')) as [e|].
  - destruct Hfs as (a & c & E & _). apply Hdel. rewrite E. set_solver.
  - destruct (last (b :: bs')) as [e|] eqn:El; [|by apply last_None in El].
    apply Hdel. apply last_Some in El as [l' ->]. set_solver.
Qed.

(** ** Iteration *)

(** [TUYA_HASHMAP_FOR_EACH_DATA] of tuya_hashmap.h: the data the loop visits. *)
Fixpoint for_each_data (n fuel : nat) (m : HASHMAP_T) (key : list Z) (iter : option loc) : option (list Z) :=
  match n with
  | O => None
  | S n' =>
      '(rc, iter) ← tuya_hashmap_data_traversal fuel m key iter;
      if rc =? MAP_OK then
        p ← iter; e ← elem m !! p; l ← for_each_data n' fuel m key iter; Some (snd e :: l)
      else Some []
  end.

Lemma hchain_suffix hn pp c v b1 x b2 :
  hchain hn pp c v (b1 ++ x :: b2) -> exists nx, hn !! x = Some nx /\ hchain hn pp (Next x) nx b2.
Proof.
  revert c v. induction b1 as [|a b1 IH]; intros c v; cbn; [intros (_ & _ & ?); done|].
  intros (_ & _ & nx & _ & Hc). by eapply IH.
Qed.

Lemma find_next_ok fuel m l1 e l2 :
  hash_ok m (l1 ++ e :: l2) -> (length l2 <= fuel)%nat ->
  hash_find_next_element fuel m (fst e) = Some (fst <$> List.find (keyed (fst (snd e))) l2).
Proof.
  intros H Hf. set (n := table_size m). set (key := fst (snd e)).
  assert (bytes_ok key) as Hk by (pose proof (ho_keys _ _ H) as Hks; by apply Forall_app in Hks as [_ [? _]%Forall_cons_1]).
  destruct (hash_int_ok m key Hk (ho_table _ _ H)) as [_ Hr]. destruct (ho_chain _ _ H _ Hr) as (v & _ & Hc). fold n in Hc.
  pose proof (ho_elem _ _ H) as Hes. apply Forall_app in Hes as [_ [He Hes]%Forall_cons_1].
  rewrite bucket_app in Hc. unfold key in Hc at 3. rewrite bucket_in in Hc. fold key in Hc. rewrite fmap_app in Hc.
  cbn [fmap list_fmap] in Hc. apply hchain_suffix in Hc as (nx & Hn & Hc).
  unfold hash_find_next_element. rewrite He. cbn [mbind option_bind]. rewrite Hn. cbn [mbind option_bind]. fold key.
  rewrite <- (find_bucket n (keyed key) key l2 (keyed_key key)). eapply find_from_ok; [exact Hc| |].
  - apply Forall_forall. intros x Hx. apply list_elem_of_filter in Hx as [_ Hx]. by apply (proj1 (Forall_forall _ _) Hes).
  - etrans; [apply bucket_length|done].
Qed.

Definition data_of (key : list Z) (es : list entry) : list Z := (fun e : entry => snd (snd e)) <$> List.filter (keyed key) es.

Lemma hm_filter_none {A} (P : A -> bool) l : Forall (fun x => P x = false) l -> List.filter P l = [].
Proof. induction 1 as [|x l Hx _ IH]; cbn; [done|]. by rewrite Hx. Qed.

Lemma for_each_rest n fuel m l1 l2 key iter :
  hash_ok m (l1 ++ l2) -> (length l2 < n)%nat -> (length (l1 ++ l2) <= fuel)%nat ->
  tuya_hashmap_data_traversal fuel m key iter
    = Some (match List.find (keyed key) l2 with Some e => (MAP_OK, Some (fst e)) | None => (MAP_MISSING, None) end) ->
  for_each_data n fuel m key iter = Some (data_of key l2).
Proof.
  revert l1 l2 iter. induction n as [|n IH]; intros l1 l2 iter H Hn Hf Ht; [lia|].
  cbn [for_each_data]. rewrite Ht. cbn [mbind option_bind]. unfold data_of.
  pose proof (find_split (keyed key) l2) as Hs. destruct (List.find (keyed key) l2) as [e|].
  - destruct Hs as (a & b & -> & He & Ha). cbn [mbind option_bind]. cbn [MAP_OK Z.eqb].
    rewrite List.filter_app, hm_filter_none by done. cbn [app List.filter]. rewrite He. cbn [fmap list_fmap].
    pose proof (ho_elem _ _ H) as Hes. apply Forall_app in Hes as [_ Hes]. apply Forall_app in Hes as [_ [Ee _]%Forall_cons_1].
    rewrite Ee. cbn [mbind option_bind]. rewrite (IH ((l1 ++ a) ++ [e]) b); [done|..].
    + by rewrite <- !app_assoc.
    + rewrite length_app in Hn. cbn in Hn. lia.
    + by rewrite <- !app_assoc.
    + unfold tuya_hashmap_data_traversal. rewrite (find_next_ok fuel m (l1 ++ a) e b).
      * rewrite (keyed_key _ _ He). cbn [mbind option_bind]. by destruct (List.find (keyed key) b).
      * by rewrite <- app_assoc.
      * rewrite !length_app in Hf. cbn in Hf. lia.
  - cbn. by rewrite hm_filter_none.
Qed.

(** * Properties *)

(** ** Sequences of calls *)

Inductive hm_op := HPut (key : list Z) (data : Z) | HGet (key : list Z) | HRemove (key : list Z) (data : Z)
  | HForEach (key : list Z) | HLength.
Inductive hm_answer := HCode (rc : Z) | HData (rc data : Z) | HAll (l : list Z) | HLen (n : Z).

Section Calls.
(** [alloc]: the address of a new element, given those in use. *)
Context (alloc : gset loc -> loc) (fuel : nat).

Definition hm_call (m : HASHMAP_T) (op : hm_op) : option (hm_answer * HASHMAP_T) :=
  match op with
  | HPut key data => '(rc, m) ← tuya_hashmap_put m (Some (alloc (dom (elem m)))) key data; Some (HCode rc, m)
  | HGet key => '(rc, d) ← tuya_hashmap_get fuel m key; Some (HData rc d, m)
  | HRemove key data => '(rc, m) ← tuya_hashmap_remove fuel m key data; Some (HCode rc, m)
  | HForEach key => l ← for_each_data fuel fuel m key None; Some (HAll l, m)
  | HLength => Some (HLen (tuya_hashmap_length (Some m)), m)
  end.

Fixpoint hm_run (m : HASHMAP_T) (ops : list hm_op) : option (list hm_answer * HASHMAP_T) :=
  match ops with
  | [] => Some ([], m)
  | op :: ops' => '(a, m) ← hm_call m op; '(l, m) ← hm_run m ops'; Some (a :: l, m)
  end.
End Calls.

(** The specification: a list of keys and data, newest first. *)
Definition pair_matches (key : list Z) (data : Z) (kd : list Z * Z) : bool :=
  bool_decide (fst kd = key) && ((data =? 0) || (snd kd =? data)).

Fixpoint drop_first {A} (P : A -> bool) (l : list A) : list A :=
  match l with [] => [] | x :: l' => if P x then l' else x :: drop_first P l' end.

Definition hm_spec (l : list (list Z * Z)) (op : hm_op) : hm_answer * list (list Z * Z) :=
  match op with
  | HPut key data => (HCode MAP_OK, (key, data) :: l)
  | HGet key =>
      (match List.find (pair_matches key 0) l with Some kd => HData MAP_OK (snd kd) | None => HData MAP_MISSING 0 end, l)
  | HRemove key data => (HCode MAP_OK, drop_first (pair_matches key data) l)
  | HForEach key => (HAll (snd <$> List.filter (pair_matches key 0) l), l)
  | HLength => (HLen (zlen l), l)
  end.

Fixpoint hm_spec_run (l : list (list Z * Z)) (ops : list hm_op) : list hm_answer :=
  match ops with [] => [] | op :: ops' => fst (hm_spec l op) :: hm_spec_run (snd (hm_spec l op)) ops' end.

(** Keys are strings; what is removed is there; the count fits an [int]. *)
Definition hm_op_ok (l : list (list Z * Z)) (op : hm_op) : bool :=
  match op with
  | HPut key _ | HGet key | HForEach key => forallb (fun c => (0 <=? c) && (c <? 256)) key
  | HRemove key data => existsb (pair_matches key data) l
  | HLength => zlen l <? 2147483648
  end.

Fixpoint hm_ops_ok (l : list (list Z * Z)) (ops : list hm_op) : bool :=
  match ops with [] => true | op :: ops' => hm_op_ok l op && hm_ops_ok (snd (hm_spec l op)) ops' end.

Lemma pair_matches_entry key data e : pair_matches key data (snd e) = matches key data (e : entry).
Proof. done. Qed.

Lemma pair_matches_key key e : pair_matches key 0 (snd e) = keyed key (e : entry).
Proof. unfold pair_matches, keyed. apply andb_true_r. Qed.

Lemma find_view key (es : list entry) : List.find (pair_matches key 0) (snd <$> es) = snd <$> List.find (keyed key) es.
Proof. induction es as [|e es IH]; [done|]. cbn [fmap list_fmap List.find]. rewrite pair_matches_key. by destruct (keyed key e). Qed.

Lemma filter_view key (es : list entry) :
  List.filter (pair_matches key 0) (snd <$> es) = snd <$> List.filter (keyed key) es.
Proof.
  induction es as [|e es IH]; [done|]. cbn [fmap list_fmap List.filter]. rewrite pair_matches_key.
  destruct (keyed key e); cbn [fmap list_fmap]; [f_equal|]; exact IH.
Qed.

Lemma remove_view (P : list Z * Z -> bool) l1 (e : entry) l2 :
  Forall (fun x => P (snd x) = false) l1 -> P (snd e) = true ->
  drop_first P (snd <$> (l1 ++ e :: l2)) = snd <$> (l1 ++ l2).
Proof. intros Hl He. induction Hl as [|x l1 Hx _ IH]; cbn; [by rewrite He|]. rewrite Hx. f_equal. apply IH. Qed.

Lemma bytes_b key : forallb (fun c => (0 <=? c) && (c <? 256)) key = true -> bytes_ok key.
Proof.
  intros H. apply Forall_forall. intros c Hc. rewrite forallb_forall in H. specialize (H c).
  rewrite <- list_elem_of_In in H. specialize (H Hc). bool_hyps. unfold is_u8. lia.
Qed.

Lemma hm_for_each_ok n fuel m es key :
  hash_ok m es -> bytes_ok key -> (length es < n)%nat -> (length es <= fuel)%nat ->
  for_each_data n fuel m key None = Some (data_of key es).
Proof.
  intros H Hk Hn Hf. apply (for_each_rest n fuel m [] es); [done..|]. unfold tuya_hashmap_data_traversal.
  rewrite (hash_find_ok fuel m es key H Hk Hf). cbn [mbind option_bind]. by destruct (List.find (keyed key) es).
Qed.

Lemma hm_call_ok alloc fuel m es op :
  (forall X, alloc X ∉ X) -> hash_ok m es -> (length es < fuel)%nat -> hm_op_ok (snd <$> es) op = true ->
  exists m' es', hm_call alloc fuel m op = Some (fst (hm_spec (snd <$> es) op), m')
    /\ hash_ok m' es' /\ snd <$> es' = snd (hm_spec (snd <$> es) op).
Proof.
  intros Ha H Hf Hop. destruct op as [key data|key|key data|key|]; cbn [hm_op_ok hm_call hm_spec fst snd] in *.
  - destruct (hm_put_ok m es (alloc (dom (elem m))) key data H (bytes_b _ Hop)) as (m' & E & Hm').
    { intros (e & E & He)%list_elem_of_fmap. apply (Ha (dom (elem m))). rewrite E. apply elem_of_dom.
      rewrite (proj1 (Forall_forall _ _) (ho_elem _ _ H) e He). by eexists. }
    rewrite E. cbn [mbind option_bind]. by eexists _, _.
  - unfold tuya_hashmap_get. rewrite (hash_find_ok fuel m es key H (bytes_b _ Hop)) by lia. cbn [mbind option_bind].
    rewrite find_view. exists m, es. split; [|done].
    pose proof (find_split (keyed key) es) as Hs. destruct (List.find (keyed key) es) as [e|]; [|done].
    destruct Hs as (a & b & -> & _). cbn. pose proof (ho_elem _ _ H) as Hes.
    apply Forall_app in Hes as [_ [-> _]%Forall_cons_1]. done.
  - pose proof (find_split (matches key data) es) as Hs. destruct (List.find (matches key data) es) as [e|] eqn:Ef.
    + destruct Hs as (l1 & l2 & -> & He & Hl1).
      assert (bytes_ok key) as Hk.
      { rewrite <- (matches_key _ _ _ He). pose proof (ho_keys _ _ H) as Hks. by apply Forall_app in Hks as [_ [? _]%Forall_cons_1]. }
      pose proof (remove_ok fuel m _ key data H Hk ltac:(lia)) as Hr. unfold victim in Hr. rewrite Ef in Hr.
      destruct Hr as (_ & Hr). destruct (Hr l1 l2 eq_refl) as (m' & -> & Hm'). cbn [mbind option_bind].
      eexists _, _. split_and!; [done|exact Hm'|]. symmetry. by apply remove_view.
    + exfalso. apply existsb_exists in Hop as (kd & Hin & Hm). apply list_elem_of_In, list_elem_of_fmap in Hin as (e & -> & He).
      rewrite Forall_forall in Hs. specialize (Hs e He). cbn in Hs. rewrite pair_matches_entry in Hm. congruence.
  - rewrite (hm_for_each_ok fuel fuel m es key H (bytes_b _ Hop)) by lia. cbn [mbind option_bind]. exists m, es.
    split; [|done]. unfold data_of. by rewrite filter_view, <- list_fmap_compose.
  - exists m, es. split; [|done]. cbn. do 3 f_equal. rewrite (ho_size _ _ H). apply Z.ltb_lt in Hop.
    unfold zlen in *. rewrite length_fmap in *. apply s32_small. lia.
Qed.

Lemma hm_run_ok alloc fuel m es ops :
  (forall X, alloc X ∉ X) -> hash_ok m es -> (length es + length ops <= fuel)%nat -> hm_ops_ok (snd <$> es) ops = true ->
  exists m', hm_run alloc fuel m ops = Some (hm_spec_run (snd <$> es) ops, m').
Proof.
  intros Ha. revert m es. induction ops as [|op ops IH]; intros m es H Hf Hops; [by exists m|].
  cbn [hm_ops_ok] in Hops. apply andb_true_iff in Hops as [Hop Hops].
  destruct (hm_call_ok alloc fuel m es op Ha H ltac:(cbn in Hf; lia) Hop) as (m1 & es1 & E & H1 & Hv).
  assert (length (snd <$> es1) <= S (length (snd <$> es)))%nat as Hlen.
  { rewrite Hv. destruct op; cbn [hm_spec snd]; try (cbn [length]; lia). generalize (snd <$> es). intros l.
    induction l as [|x l IHl]; cbn; [lia|]. destruct (pair_matches key data x); cbn; lia. }
  rewrite !length_fmap in Hlen.
  cbn [hm_run hm_spec_run]. rewrite E. cbn [mbind option_bind]. rewrite <- Hv in Hops |- *.
  destruct (IH m1 es1 H1) as (m' & ->); [cbn in Hf; lia|done|]. by exists m'.
Qed.

Lemma new_ok n : 0 < n < 2147483648 -> exists m, tuya_hashmap_new true true n = Some m /\ hash_ok m [] /\ table_size m = n.
Proof.
  intros Hn. unfold tuya_hashmap_new. decide_bool. cbn [andb]. eexists. split; [done|].
  assert (s32 n = n) as E by (apply s32_small; lia). split; [|done].
  split; cbn [table_size list_ size elem hnext pprev]; rewrite ?E; try done; [|constructor|].
  - apply zlen_zrepl. lia.
  - intros i Hi. exists None. split; [|done]. unfold rd, zrepl. decide_bool. apply lookup_replicate. split; [done|lia].
Qed.

(** (C10) The hash map is a list of entries, newest first, per key: for every
    table size, every allocator that returns unused addresses and every sequence
    of calls in which what is removed is present, [tuya_hashmap_put], [_get],
    [_remove], [_length] and the loop over the data of a key never leave the heap
    or the table, and answer as the list does: a later [put] of a key hides the
    earlier ones, [remove] takes the newest match, and the loop gives all data of
    the key. *)
Theorem hashmap_refines (alloc : gset loc -> loc) (n : Z) (fuel : nat) (ops : list hm_op) :
  (forall X, alloc X ∉ X) -> 0 < n < 2147483648 -> (length ops <= fuel)%nat -> hm_ops_ok [] ops = true ->
  exists m m', tuya_hashmap_new true true n = Some m
    /\ hm_run alloc fuel m ops = Some (hm_spec_run [] ops, m').
Proof.
  intros Ha Hn Hf Hops. destruct (new_ok n Hn) as (m & E & Hm & _).
  destruct (hm_run_ok alloc fuel m [] ops Ha Hm) as (m' & Er); [cbn; lia|exact Hops|]. exists m, m'. by split.
Qed.

Definition hm_demo : list hm_op :=
  [HPut [97] 5; HPut [98] 6; HPut [97] 7; HGet [97]; HForEach [97]; HRemove [97] 5; HRemove [97] 0; HGet [97]; HLength].

Lemma hashmap_refines_witness :
  exists m m', tuya_hashmap_new true true 3 = Some m /\ hm_run fresh 9 m hm_demo =
    Some ([HCode 0; HCode 0; HCode 0; HData 0 7; HAll [7; 5]; HCode 0; HCode 0; HData (-2) 0; HLen 1], m').
Proof. exact (hashmap_refines fresh 3 9 hm_demo is_fresh ltac:(done) ltac:(done) ltac:(done)). Defined.

(** Removing a key that is not in the map removes another one: when its bucket
    is not empty, the search leaves its cursor on the last element, which
    [tuya_hashmap_remove] then unlinks, frees and reports as [MAP_OK]. *)
Theorem hashmap_remove_absent_key (fuel : nat) (m : HASHMAP_T) (es : list entry) (key : list Z) (data : Z) (e : entry) :
  hash_ok m es -> bytes_ok key -> (length es <= fuel)%nat ->
  Forall (fun x : entry => fst (snd x) <> key) es ->
  last (bucket (table_size m) (key_hash (table_size m) key) es) = Some e ->
  exists m' l1 l2, tuya_hashmap_remove fuel m key data = Some (MAP_OK, m')
    /\ es = l1 ++ e :: l2 /\ fst (snd e) <> key /\ hash_ok m' (l1 ++ l2).
Proof.
  intros H Hk Hf Hno Hl. pose proof (remove_ok fuel m es key data H Hk Hf) as Hr. unfold victim in Hr.
  pose proof (find_split (matches key data) es) as Hs. destruct (List.find (matches key data) es) as [d|].
  { exfalso. destruct Hs as (a & b & -> & Hd & _). apply Forall_app in Hno as [_ [Hno _]%Forall_cons_1].
    apply Hno, (matches_key _ _ _ Hd). }
  rewrite Hl in Hr. destruct Hr as [He Hr]. apply list_elem_of_split in He as (l1 & l2 & ->).
  destruct (Hr l1 l2 eq_refl) as (m' & E & Hm'). exists m', l1, l2. split_and!; [done|done| |done].
  by apply Forall_app in Hno as [_ [Hno _]%Forall_cons_1].
Qed.

Lemma hashmap_remove_absent_key_witness :
  exists m m' m'', tuya_hashmap_new true true 1 = Some m
    /\ tuya_hashmap_put m (Some 1%positive) [97] 5 = Some (MAP_OK, m')
    /\ tuya_hashmap_remove 1 m' [98] 0 = Some (MAP_OK, m'').
Proof.
  destruct (new_ok 1 ltac:(done)) as (m & E & Hm & Ht).
  assert (bytes_ok [97] /\ bytes_ok [98]) as [Ha Hb] by (split; repeat constructor; done).
  destruct (hm_put_ok m [] 1%positive [97] 5 Hm Ha ltac:(set_solver)) as (m' & Ep & Hm').
  destruct (hashmap_remove_absent_key 1 m' [(1%positive, ([97], 5))] [98] 0 (1%positive, ([97], 5)))
    as (m'' & l1 & l2 & Er & _); [exact Hm'|exact Hb|apply le_n|by repeat constructor| |by exists m, m', m''].
  assert (table_size m' = 1) as ->.
  { revert Ep. unfold tuya_hashmap_new in E. injection E as <-. vm_compute. by intros [= <-]. }
  assert (forall k, key_hash 1 k = 0) as Hz by (intros k; rewrite key_hash_eq; apply Z.mod_1_r).
  rewrite Hz. pose proof (bucket_in 1 [] (1%positive, ([97], 5))) as Eb. cbn [fst snd] in Eb. rewrite Hz in Eb. by rewrite Eb.
Defined.
