(* ===== verification/MemHeap.v ===== *)
(** The memory heap of [tools/porting/adapter/utilities/src/tuya_mem_heap.c]: an
    allocator that keeps its bookkeeping inside the memory it hands out, on
    byte-addressed memory. Each operation keeps the blocks laid out end to end,
    the free ones linked in order of address and joined; see [MemClient] for the
    calls as a client sees them. *)
From Stdlib Require Import ZArith Lia.
From stdpp Require Import base tactics option list numbers gmap.
From S2P Require Import Prelude.

Local Open Scope Z_scope.

(** * Memory

    Every address that may be used is in the domain; other accesses fail. *)

Abbreviation mem := (gmap Z Z).

Fixpoint ld_bytes (n : nat) (m : mem) (a : Z) : option (list Z) :=
  match n with O => Some [] | S n' => b ← m !! a; l ← ld_bytes n' m (a + 1); Some (b :: l) end.

Fixpoint st_bytes (l : list Z) (m : mem) (a : Z) : option mem :=
  match l with [] => Some m | b :: l' => _ ← m !! a; st_bytes l' (<[a := b]> m) (a + 1) end.

Definition stb (m : mem) (a b : Z) : option mem := st_bytes [b] m a.

(** [NULL]. *)
Definition NULL : Z := 0.

Definition MEM_BLOCK_MIN_SIZE : Z := 24.
Definition FIT_FIND_DEPTH : Z := 3.
Definition MEM_BLOCK_STAT_USE : Z := 0x55.
Definition MEM_BLOCK_STAT_FREE : Z := 0xaa.
Definition MEM_DBG_LEAK_MAGIC : Z := 0x13572468.
Definition MEM_HEAP_LIST_NUM : Z := 4.

Record MEM_Heap_t := { free_list : Z; base : Z; size : Z; free : Z; free_watermark : Z }.

(** The memory and the globals of the file. *)
Record heap_state := {
  memory : mem;
  mem_heap_list : list MEM_Heap_t;
  s_heap_free_size : Z;
  s_heap_free_size_watermark : Z
}.

Section Heap.
(** [sizeof(unsigned long)], also the size of a pointer, and [MEM_ALIGN_NUM]. *)
Context (W A : Z).

Definition ulong (z : Z) : Z := z mod 2 ^ (8 * W).

Definition ldw (m : mem) (a : Z) : option Z := le_val <$> ld_bytes (Z.to_nat W) m a.
Definition stw (m : mem) (a v : Z) : option mem := st_bytes (le_bytes (Z.to_nat W) v) m a.

Definition ALIGN_UP (x : Z) : Z := Z.land (ulong (x + (A - 1))) (Z.lnot (A - 1)).
Definition ALIGN_DOWN (x : Z) : Z := Z.land x (Z.lnot (A - 1)).

(** [sizeof(MEM_HeapBlock_t) - sizeof(unsigned long)]: the word of the size; the
    word of [next] is the first of the payload. *)
Definition MEM_BLOCK_HEAD_SIZE : Z := W.
Definition MEM_HEAP_MIN_SIZE : Z := MEM_BLOCK_MIN_SIZE + MEM_BLOCK_HEAD_SIZE.

Definition block_size (m : mem) (b : Z) : option Z := ldw m b.
Definition block_next (m : mem) (b : Z) : option Z := ldw m (b + W).
Definition set_block_size (m : mem) (b v : Z) : option mem := stw m b v.
Definition set_block_next (m : mem) (b v : Z) : option mem := stw m (b + W) v.

(** [MEM_DOG_ADDR(block)]: the last byte of a block. *)
Definition dog_get (m : mem) (b : Z) : option Z := s ← block_size m b; m !! (b + s - 1).
Definition dog_set (m : mem) (b v : Z) : option mem := s ← block_size m b; stb m (b + s - 1) v.

(** * One heap *)

Definition mem_heap_init (m : mem) (ptr sz s_free : Z) : option (Z * mem * MEM_Heap_t * Z) :=
  let p := ALIGN_UP ptr in
  let sz1 := ALIGN_DOWN (ulong (sz - (p - ptr))) in
  if sz1 <? MEM_HEAP_MIN_SIZE
  then Some (-1, m, {| free_list := NULL; base := ptr; size := sz; free := 0; free_watermark := 0 |}, s_free)
  else
    m ← set_block_next m p NULL;
    m ← set_block_size m p sz1;
    m ← dog_set m p MEM_BLOCK_STAT_FREE;
    Some (0, m, {| free_list := p; base := ptr; size := sz; free := sz1; free_watermark := sz1 |}, ulong (s_free + sz1)).

(** The inner loop of [mem_chunk_get]: a smaller block that is large enough,
    among the next ones; the best block and its predecessor. *)
Fixpoint best_scan (fuel : nat) (m : mem) (sz this pre bak cur find_num : Z) : option (Z * Z) :=
  if cur =? NULL then Some (this, pre)
  else match fuel with
  | O => None
  | S f =>
      s ← block_size m cur;
      ts ← block_size m this;
      let better := (sz <=? s) && (s <=? ts) in
      let this := if better then cur else this in
      let pre := if better then bak else pre in
      let find_num := if better then find_num + 1 else find_num in
      if FIT_FIND_DEPTH <=? find_num then Some (this, pre)
      else nx ← block_next m cur; best_scan f m sz this pre cur nx find_num
  end.

(** Cutting the block off the end of [this], or taking it whole: the memory, the
    head of the free list and the block. *)
Definition carve (m : mem) (fl sz this pre : Z) : option (mem * Z * Z) :=
  ts ← block_size m this;
  if MEM_HEAP_MIN_SIZE <=? ulong (ts - sz) then
    m ← set_block_size m this (ulong (ts - sz));
    m ← dog_set m this MEM_BLOCK_STAT_FREE;
    s ← block_size m this;
    let new_block := this + s in
    m ← set_block_size m new_block sz;
    m ← dog_set m new_block MEM_BLOCK_STAT_USE;
    Some (m, fl, new_block)
  else
    nx ← block_next m this;
    m' ← (if pre =? NULL then Some m else set_block_next m pre nx);
    m'' ← dog_set m' this MEM_BLOCK_STAT_USE;
    Some (m'', if pre =? NULL then nx else fl, this).

(** The outer loop from [this]; a block of [NULL] is failure. *)
Fixpoint chunk_loop (fuel : nat) (m : mem) (fl sz pre this : Z) : option (mem * Z * Z) :=
  if this =? NULL then Some (m, fl, NULL)
  else match fuel with
  | O => None
  | S f =>
      s ← block_size m this;
      nx ← block_next m this;
      if sz <=? s then
        '(this, pre) ← best_scan f m sz this pre this nx 0;
        carve m fl sz this pre
      else chunk_loop f m fl sz this nx
  end.

Definition mem_chunk_get (fuel : nat) (m : mem) (h : MEM_Heap_t) (sz : Z) : option (mem * Z * Z) :=
  chunk_loop fuel m (free_list h) sz NULL (free_list h).

Definition block_need (sz : Z) : Z := ulong (ALIGN_UP (ulong (sz + 1)) + MEM_BLOCK_HEAD_SIZE).

(** The pointer, the memory, the heap and the two global counters. *)
Definition MEM_Allocate (fuel : nat) (m : mem) (h : MEM_Heap_t) (gf gw : Z) (sz : Z)
  : option (Z * mem * MEM_Heap_t * Z * Z) :=
  if sz =? 0 then Some (NULL, m, h, gf, gw)
  else
    let sz := if sz <? 4 then 4 else sz in
    let new_size := block_need sz in
    if new_size <? sz then Some (NULL, m, h, gf, gw)
    else
      '(m, fl, block) ← mem_chunk_get fuel m h new_size;
      if block =? NULL
      then Some (NULL, m, {| free_list := fl; base := base h; size := size h; free := free h; free_watermark := free_watermark h |}, gf, gw)
      else
        s ← block_size m block;
        let fr := ulong (free h - s) in
        let gf := ulong (gf - s) in
        Some (block + MEM_BLOCK_HEAD_SIZE, m,
              {| free_list := fl; base := base h; size := size h; free := fr; free_watermark := Z.min (free_watermark h) fr |},
              gf, Z.min gw gf).

(** The search for the place of a block in the free list: its neighbours. *)
Fixpoint place_loop (fuel : nat) (m : mem) (fb pre nx : Z) : option (Z * Z) :=
  if negb (nx =? NULL) && (nx <? fb)
  then match fuel with
       | O => None
       | S f => n ← block_next m nx; place_loop f m fb nx n
       end
  else Some (pre, nx).

(** Linking the block behind [pre], or joining it with [pre]: the memory, the head
    of the free list and the block that now holds it. *)
Definition link_front (m : mem) (fl fb pre nx : Z) : option (mem * Z * Z) :=
  m ← set_block_next m fb nx;
  if pre =? NULL then Some (m, fb, fb)
  else
    ps ← block_size m pre;
    if pre + ps =? fb then s ← block_size m fb; m ← set_block_size m pre (ulong (ps + s)); Some (m, fl, pre)
    else m ← set_block_next m pre fb; Some (m, fl, fb).

(** Joining with the next free block. *)
Definition link_back (m : mem) (pre nx : Z) : option mem :=
  if nx =? NULL then Some m
  else
    ps ← block_size m pre;
    if pre + ps =? nx then
      s ← block_size m nx;
      m ← set_block_size m pre (ulong (ps + s));
      n ← block_next m nx;
      set_block_next m pre n
    else Some m.

Definition MEM_Deallocate (fuel : nat) (m : mem) (h : MEM_Heap_t) (gf : Z) (ptr : Z) : option (mem * MEM_Heap_t * Z) :=
  if ptr =? NULL then Some (m, h, gf)
  else
    let fb := ptr - MEM_BLOCK_HEAD_SIZE in
    dog ← dog_get m fb;
    if negb (dog =? MEM_BLOCK_STAT_USE) then Some (m, h, gf)
    else
      m ← dog_set m fb MEM_BLOCK_STAT_FREE;
      s ← block_size m fb;
      '(pre, nx) ← place_loop fuel m fb NULL (free_list h);
      '(m, fl, pre) ← link_front m (free_list h) fb pre nx;
      m ← link_back m pre nx;
      Some (m, {| free_list := fl; base := base h; size := size h; free := ulong (free h + s); free_watermark := free_watermark h |},
            ulong (gf + s)).

(** * The heaps

    A handle is [None] for 0 or the index of a heap. *)

Definition set_heap (st : heap_state) (i : Z) (m : mem) (h : MEM_Heap_t) (gf gw : Z) : option heap_state :=
  l ← wr (mem_heap_list st) i h;
  Some {| memory := m; mem_heap_list := l; s_heap_free_size := gf; s_heap_free_size_watermark := gw |}.

Fixpoint free_slot (l : list MEM_Heap_t) (i : Z) : option Z :=
  match l with [] => None | h :: l' => if size h =? 0 then Some i else free_slot l' (i + 1) end.

(** The result is the index of the heap. *)
Definition MEM_HeapCreate (st : heap_state) (ptr sz : Z) : option (option Z * heap_state) :=
  if (ptr =? NULL) || (sz =? 0) then Some (None, st)
  else match free_slot (mem_heap_list st) 0 with
  | None => Some (None, st)
  | Some i =>
      old ← rd (mem_heap_list st) i;
      '(rc, m, h, gf) ← mem_heap_init (memory st) ptr sz (s_heap_free_size st);
      if rc =? 0 then st ← set_heap st i m h gf gf; Some (Some i, st)
      else
        st ← set_heap st i m {| free_list := free_list old; base := base h; size := 0; free := free old;
                                free_watermark := free_watermark old |} gf (s_heap_free_size_watermark st);
        Some (None, st)
  end.

Definition MEM_HeapDelete (st : heap_state) (handle : option Z) : option heap_state :=
  match handle with
  | None => Some st
  | Some i =>
      set_heap st i (memory st) {| free_list := NULL; base := NULL; size := 0; free := 0; free_watermark := 0 |}
        (s_heap_free_size st) (s_heap_free_size_watermark st)
  end.

Definition tuya_mem_heap_create (st : heap_state) (start_addr sz : Z) : option (Z * option Z * heap_state) :=
  '(h, st) ← MEM_HeapCreate st start_addr sz;
  match h with None => Some (-1, None, st) | Some i => Some (0, Some i, st) end.

Definition tuya_mem_heap_delete (st : heap_state) (handle : option Z) : option (Z * heap_state) :=
  st ← MEM_HeapDelete st handle; Some (0, st).

Definition alloc_in (fuel : nat) (st : heap_state) (i sz : Z) : option (Z * heap_state) :=
  h ← rd (mem_heap_list st) i;
  '(p, m, h, gf, gw) ← MEM_Allocate fuel (memory st) h (s_heap_free_size st) (s_heap_free_size_watermark st) sz;
  st ← set_heap st i m h gf gw;
  Some (p, st).

(** The loop of [tuya_mem_heap_malloc] over all heaps. *)
Fixpoint malloc_any (n fuel : nat) (st : heap_state) (i sz : Z) : option (Z * heap_state) :=
  match n with
  | O => Some (NULL, st)
  | S n' =>
      h ← rd (mem_heap_list st) i;
      if 0 <? size h then
        if u32 (sz + MEM_BLOCK_MIN_SIZE) <? free h then
          '(p, st) ← alloc_in fuel st i sz;
          if p =? NULL then malloc_any n' fuel st (i + 1) sz else Some (p, st)
        else malloc_any n' fuel st (i + 1) sz
      else Some (NULL, st)
  end.

Definition tuya_mem_heap_malloc (fuel : nat) (st : heap_state) (handle : option Z) (sz : Z) : option (Z * heap_state) :=
  match handle with
  | Some i => alloc_in fuel st i sz
  | None => malloc_any (Z.to_nat MEM_HEAP_LIST_NUM) fuel st 0 sz
  end.

Definition with_memory (st : heap_state) (m : mem) : heap_state :=
  {| memory := m; mem_heap_list := mem_heap_list st; s_heap_free_size := s_heap_free_size st;
     s_heap_free_size_watermark := s_heap_free_size_watermark st |}.

Definition tuya_mem_heap_calloc (fuel : nat) (st : heap_state) (handle : option Z) (sz : Z) : option (Z * heap_state) :=
  '(p, st) ← tuya_mem_heap_malloc fuel st handle sz;
  if p =? NULL then Some (p, st) else m ← st_bytes (zrepl sz 0) (memory st) p; Some (p, with_memory st m).

Definition free_in (fuel : nat) (st : heap_state) (i ptr : Z) : option heap_state :=
  h ← rd (mem_heap_list st) i;
  '(m, h, gf) ← MEM_Deallocate fuel (memory st) h (s_heap_free_size st) ptr;
  set_heap st i m h gf (s_heap_free_size_watermark st).

Fixpoint free_any (n fuel : nat) (st : heap_state) (i ptr : Z) : option heap_state :=
  match n with
  | O => Some st
  | S n' =>
      h ← rd (mem_heap_list st) i;
      if 0 <? size h then
        if (base h <? ptr) && (ptr <? base h + size h) then free_in fuel st i ptr
        else free_any n' fuel st (i + 1) ptr
      else Some st
  end.

Definition tuya_mem_heap_free (fuel : nat) (st : heap_state) (handle : option Z) (ptr : Z) : option heap_state :=
  match handle with
  | Some i => free_in fuel st i ptr
  | None => free_any (Z.to_nat MEM_HEAP_LIST_NUM) fuel st 0 ptr
  end.

(** [memcpy(dst, src, n)]. *)
Definition mem_copy (m : mem) (dst src n : Z) : option mem := l ← ld_bytes (Z.to_nat n) m src; st_bytes l m dst.

Definition tuya_mem_heap_realloc (fuel : nat) (st : heap_state) (handle : option Z) (ptr sz : Z) : option (Z * heap_state) :=
  if ptr =? NULL then tuya_mem_heap_malloc fuel st handle sz
  else
    let old_block := ptr - MEM_BLOCK_HEAD_SIZE in
    dog ← dog_get (memory st) old_block;
    if negb (dog =? MEM_BLOCK_STAT_USE) then Some (NULL, st)
    else
      let sz := if sz <? 4 then 4 else sz in
      let new_size := ulong (ALIGN_UP (u32 (sz + 1)) + MEM_BLOCK_HEAD_SIZE) in
      s ← block_size (memory st) old_block;
      if new_size <=? s then Some (ptr, st)
      else
        '(tmp, st) ← tuya_mem_heap_malloc fuel st handle sz;
        if tmp =? NULL then Some (NULL, st)
        else
          s ← block_size (memory st) old_block;
          m ← mem_copy (memory st) tmp ptr (ulong (s - MEM_BLOCK_HEAD_SIZE));
          st ← tuya_mem_heap_free fuel (with_memory st m) handle ptr;
          Some (tmp, st).

(** * Diagnosis *)

Record MEM_HeapStatus_t := {
  st_size : Z; st_free : Z; st_free_largest : Z; st_valid : Z; st_used_block : Z; st_free_block : Z
}.

(** The walk over the blocks from [addr]; [fb] is the next block of the free list.
    The leak record of a used block is only printed. *)
Fixpoint status_loop (fuel : nat) (m : mem) (addr top_addr fb : Z) (st : MEM_HeapStatus_t) : option MEM_HeapStatus_t :=
  if addr <? top_addr then
    match fuel with
    | O => None
    | S f =>
        dog ← dog_get m addr;
        s ← block_size m addr;
        if dog =? MEM_BLOCK_STAT_USE then
          if addr =? fb then Some st
          else
            magic ← ldw m (addr + s - A - W);
            status_loop f m (ulong (addr + s)) top_addr fb
              {| st_size := st_size st; st_free := st_free st; st_free_largest := st_free_largest st; st_valid := st_valid st;
                 st_used_block := st_used_block st + 1; st_free_block := st_free_block st |}
        else if dog =? MEM_BLOCK_STAT_FREE then
          if negb (addr =? fb) then Some st
          else
            let this := ulong (s - MEM_BLOCK_HEAD_SIZE - 1) in
            fb ← block_next m fb;
            status_loop f m (ulong (addr + s)) top_addr fb
              {| st_size := st_size st; st_free := ulong (st_free st + this); st_free_largest := Z.max (st_free_largest st) this;
                 st_valid := st_valid st; st_used_block := st_used_block st; st_free_block := st_free_block st + 1 |}
        else Some st
    end
  else if (addr =? top_addr) && (fb =? NULL) then
    Some {| st_size := st_size st; st_free := st_free st; st_free_largest := st_free_largest st; st_valid := 1;
            st_used_block := st_used_block st; st_free_block := st_free_block st |}
  else Some st.

Definition MEM_HeapStatus (fuel : nat) (m : mem) (h : MEM_Heap_t) : option MEM_HeapStatus_t :=
  status_loop fuel m (ALIGN_UP (base h)) (ALIGN_DOWN (ulong (base h + size h))) (free_list h)
    {| st_size := size h; st_free := 0; st_free_largest := 0; st_valid := 0; st_used_block := 0; st_free_block := 0 |}.

Definition tuya_mem_heap_available (st : heap_state) (handle : option Z) : option Z :=
  match handle with
  | None => Some (s_heap_free_size st)
  | Some i => h ← rd (mem_heap_list st) i; Some (free h)
  end.
End Heap.

(** * Proofs *)

(** ** Loads and stores *)

(** [m'] is [m] outside [[lo, hi)]; nothing is unmapped. *)
Definition upd (m m' : mem) (lo hi : Z) : Prop :=
  (forall x, ~ (lo <= x < hi) -> m' !! x = m !! x) /\ (forall x, is_Some (m !! x) -> is_Some (m' !! x)).

Definition mapped (m : mem) (lo hi : Z) : Prop := forall x, lo <= x < hi -> is_Some (m !! x).

Lemma upd_refl m lo hi : upd m m lo hi.
Proof. by split. Qed.

Lemma upd_weaken m m' lo hi lo' hi' : lo' <= lo -> hi <= hi' -> upd m m' lo hi -> upd m m' lo' hi'.
Proof. intros H1 H2 [H H']. split; [|done]. intros x Hx. apply H. lia. Qed.

Lemma upd_trans m1 m2 m3 lo hi : upd m1 m2 lo hi -> upd m2 m3 lo hi -> upd m1 m3 lo hi.
Proof. intros [H H'] [K K']. split; [|auto]. intros x Hx. by rewrite K, H. Qed.

Lemma upd_mapped m m' lo hi l h : upd m m' lo hi -> mapped m l h -> mapped m' l h.
Proof. intros [_ H] Hm x Hx. by apply H, Hm. Qed.

Lemma mapped_sub m lo hi lo' hi' : mapped m lo hi -> lo <= lo' -> hi' <= hi -> mapped m lo' hi'.
Proof. intros H ? ? x Hx. apply H. lia. Qed.

Lemma ld_bytes_ext n m m' a :
  (forall x, a <= x < a + Z.of_nat n -> m' !! x = m !! x) -> ld_bytes n m' a = ld_bytes n m a.
Proof.
  revert a. induction n as [|n IH]; intros a H; cbn; [done|]. rewrite H by lia. rewrite IH; [done|]. intros x Hx. apply H. lia.
Qed.

Lemma st_bytes_ok l m a :
  mapped m a (a + zlen l) ->
  exists m', st_bytes l m a = Some m' /\ upd m m' a (a + zlen l) /\ ld_bytes (length l) m' a = Some l.
Proof.
  revert m a. induction l as [|b l IH]; intros m a Hm; cbn [st_bytes length ld_bytes].
  { exists m. split_and!; [done|apply upd_refl|done]. }
  rewrite zlen_cons in Hm. pose proof (zlen_nonneg l). destruct (Hm a) as [c Hc]; [lia|]. rewrite Hc. cbn [mbind option_bind].
  destruct (IH (<[a := b]> m) (a + 1)) as (m' & E & Hu & Hl).
  { intros x Hx. destruct (decide (a = x)) as [->|Hne]; [rewrite lookup_insert_eq; by eexists|].
    rewrite lookup_insert_ne by done. apply Hm. lia. }
  exists m'. split; [done|]. destruct Hu as [Hu Hu']. split; [split|].
  - intros x Hx. rewrite zlen_cons in Hx. rewrite Hu by lia. apply lookup_insert_ne. lia.
  - intros x Hx. apply Hu'. destruct (decide (a = x)) as [->|Hne]; [rewrite lookup_insert_eq; by eexists|].
    by rewrite lookup_insert_ne.
  - rewrite Hu by lia. rewrite lookup_insert_eq. cbn. by rewrite Hl.
Qed.

(** The 32-bit target. *)
Abbreviation ldw4 := (ldw 4).
Abbreviation stw4 := (stw 4).

Lemma ldw_ext m m' a : (forall x, a <= x < a + 4 -> m' !! x = m !! x) -> ldw4 m' a = ldw4 m a.
Proof. intros H. unfold ldw. f_equal. apply ld_bytes_ext. intros x Hx. apply H. lia. Qed.

Lemma stw_ok m a v :
  0 <= v < 2 ^ 32 -> mapped m a (a + 4) ->
  exists m', stw4 m a v = Some m' /\ upd m m' a (a + 4) /\ ldw4 m' a = Some v.
Proof.
  intros Hv Hm. unfold stw, ldw. set (l := le_bytes (Z.to_nat 4) v).
  assert (length l = 4%nat) as Hl by apply le_bytes_len.
  assert (zlen l = 4) as Hz by (unfold zlen; by rewrite Hl).
  destruct (st_bytes_ok l m a) as (m' & E & Hu & Ed); rewrite ?Hz in *; [done|].
  exists m'. split_and!; [done|done|]. change (Z.to_nat 4) with 4%nat. rewrite <- Hl, Ed. cbn [fmap option_fmap option_map].
  f_equal. unfold l. rewrite le_val_bytes. apply Z.mod_small. exact Hv.
Qed.

Lemma stb_ok m a b : is_Some (m !! a) -> exists m', stb m a b = Some m' /\ upd m m' a (a + 1) /\ m' !! a = Some b.
Proof.
  intros Hm. unfold stb. destruct (st_bytes_ok [b] m a) as (m' & E & Hu & Ed).
  { intros x Hx. change (zlen [b]) with 1 in Hx. by replace x with a by lia. }
  exists m'. split_and!; [done|exact Hu|]. cbn in Ed. by destruct (m' !! a) as [c|]; [injection Ed as ->|].
Qed.

(** ** The blocks

    [layout m lo bs hi f e]: the blocks [bs], with their sizes and whether they
    are used, follow each other from [lo] to [hi]; the free ones are linked in
    this order, where [f] is the first pointer of the chain and [e] the last. *)
Abbreviation blk := (Z * bool)%type.

Definition blk_ok (m : mem) (lo : Z) (b : blk) : Prop :=
  8 < fst b /\ fst b mod 4 = 0 /\ ldw4 m lo = Some (fst b)
  /\ m !! (lo + fst b - 1) = Some (if snd b then MEM_BLOCK_STAT_USE else MEM_BLOCK_STAT_FREE).

Fixpoint layout (m : mem) (lo : Z) (bs : list blk) (hi f e : Z) : Prop :=
  match bs with
  | [] => lo = hi /\ f = e
  | b :: bs' =>
      blk_ok m lo b
      /\ if snd b then layout m (lo + fst b) bs' hi f e
         else f = lo /\ exists f', ldw4 m (lo + 4) = Some f' /\ layout m (lo + fst b) bs' hi f' e
  end.

Definition sizes (bs : list blk) : Z := foldr (fun b n => fst b + n) 0 bs.

Lemma sizes_app l1 l2 : sizes (l1 ++ l2) = sizes l1 + sizes l2.
Proof. unfold sizes. induction l1 as [|b l1 IH]; cbn [app foldr]; lia. Qed.

Lemma layout_hi m lo bs hi f e : layout m lo bs hi f e -> hi = lo + sizes bs /\ 0 <= sizes bs.
Proof.
  unfold sizes. revert lo f. induction bs as [|[s u] bs IH]; intros lo f; cbn [layout foldr fst snd]; [lia|].
  intros [(Hs & _) H]. cbn in Hs. destruct u.
  - apply IH in H. lia.
  - destruct H as (_ & f' & _ & H). apply IH in H. lia.
Qed.

Lemma layout_app m lo l1 l2 hi f e :
  layout m lo (l1 ++ l2) hi f e <-> exists fm, layout m lo l1 (lo + sizes l1) f fm /\ layout m (lo + sizes l1) l2 hi fm e.
Proof.
  unfold sizes. revert lo f. induction l1 as [|[s u] l1 IH]; intros lo f; cbn [app layout foldr fst snd].
  { rewrite Z.add_0_r. split; [intros H; by exists f|]. by intros (? & [_ ->] & H). }
  set (n := foldr _ 0 l1) in *. replace (lo + (s + n)) with (lo + s + n) by lia. destruct u.
  - rewrite IH. split; [intros (Hb & fm & H1 & H2)|intros (fm & (Hb & H1) & H2)]; eauto 10.
  - split.
    + intros (Hb & Hf & f' & Hn & H). apply IH in H as (fm & H1 & H2). eauto 10.
    + intros (fm & (Hb & Hf & f' & Hn & H1) & H2). split_and!; [done|done|]. exists f'. split; [done|]. apply IH. eauto.
Qed.

(** A memory that agrees on the blocks has the same layout. *)
Lemma layout_ext m m' lo bs hi f e :
  (forall x, lo <= x < hi -> m' !! x = m !! x) -> layout m lo bs hi f e -> layout m' lo bs hi f e.
Proof.
  revert lo f. induction bs as [|[s u] bs IH]; intros lo f Hm; [done|]. intros Hl.
  pose proof (layout_hi _ _ _ _ _ _ Hl) as [Hhi _]. cbn [layout fst snd] in *. unfold sizes in Hhi. cbn [foldr fst] in Hhi.
  destruct Hl as [(Hs & Ha & Hz & Hd) H]. cbn [fst snd] in *.
  assert (0 <= sizes bs) as Hnn by (destruct u; [|destruct H as (_ & ? & _ & H)]; apply (layout_hi _ _ _ _ _ _ H)).
  unfold sizes in Hnn. assert (blk_ok m' lo (s, u)) as Hb.
  { split_and!; cbn [fst snd]; [done|done| |].
    - rewrite (ldw_ext m m'); [done|]. intros x Hx. apply Hm. lia.
    - rewrite Hm by lia. done. }
  split; [done|]. destruct u.
  - apply IH; [|done]. intros x Hx. apply Hm. lia.
  - destruct H as (-> & f' & Hf & H). split; [done|]. exists f'. split.
    + rewrite (ldw_ext m m'); [done|]. intros x Hx. apply Hm. lia.
    + apply IH; [|done]. intros x Hx. apply Hm. lia.
Qed.

Definition is_used (b : blk) : Prop := snd b = true.

Lemma sizes_cons s u bs : sizes ((s, u) :: bs) = s + sizes bs.
Proof. done. Qed.
#[local] Hint Rewrite sizes_app sizes_cons : sizes.

Lemma layout_used m lo bs hi f e : Forall is_used bs -> layout m lo bs hi f e -> f = e /\ forall g, layout m lo bs hi g g.
Proof.
  intros H. revert lo f. induction H as [|[s u] bs Hu Hbs IH]; intros lo f; cbn [layout fst snd]; [naive_solver|].
  red in Hu. cbn in Hu. subst u. intros [Hb Hl]. apply IH in Hl as [-> Hl]. split; [done|]. intros g. by split.
Qed.

(** The chain leads to the first free block. *)
Lemma layout_first m lo bs hi f e :
  layout m lo bs hi f e ->
  (Forall is_used bs /\ f = e)
  \/ exists u s bs', bs = u ++ (s, false) :: bs' /\ Forall is_used u /\ f = lo + sizes u.
Proof.
  revert lo f. induction bs as [|[s u] bs IH]; intros lo f; cbn [layout fst snd]; [intros [_ ->]; by left|].
  intros [Hb Hl]. destruct u.
  - apply IH in Hl as [[Hu ->]|(u & s' & bs' & -> & Hu & ->)]; [left|right].
    + split; [by constructor|done].
    + exists ((s, true) :: u), s', bs'. split_and!; [done|by constructor|]. rewrite sizes_cons. lia.
  - right. destruct Hl as [-> _]. exists [], s, bs. split_and!; [done|done|]. unfold sizes. cbn. lia.
Qed.

(** [pre_block] of the searches: the last free block, or [NULL]. *)
Fixpoint last_free (lo : Z) (bs : list blk) : Z :=
  match bs with
  | [] => NULL
  | (s, u) :: bs' => let r := last_free (lo + s) bs' in if u then r else if r =? NULL then lo else r
  end.

Lemma last_free_used lo bs : Forall is_used bs -> last_free lo bs = NULL.
Proof. intros H. revert lo. induction H as [|[s u] bs Hu _ IH]; intros lo; [done|]. red in Hu. cbn in Hu |- *. subst u. apply IH. Qed.

Definition positive_blocks (bs : list blk) : Prop := Forall (fun b => 8 < fst b) bs.

Lemma layout_positive m lo bs hi f e : layout m lo bs hi f e -> positive_blocks bs.
Proof.
  revert lo f. induction bs as [|[s u] bs IH]; intros lo f; cbn [layout fst snd]; [constructor|].
  intros [(Hs & _) Hl]. constructor; [done|]. destruct u; [by eapply IH|]. destruct Hl as (_ & ? & _ & Hl). by eapply IH.
Qed.

Lemma sizes_nonneg bs : positive_blocks bs -> 0 <= sizes bs.
Proof. induction 1 as [|[s u] bs Hs _ IH]; [done|]. rewrite sizes_cons. cbn in Hs. lia. Qed.

Lemma last_free_app lo k s u :
  0 < lo -> positive_blocks k -> Forall is_used u -> last_free lo (k ++ (s, false) :: u) = lo + sizes k.
Proof.
  intros Hlo Hk Hu. revert lo Hlo. induction Hk as [|[s' u'] k Hs Hk IH]; intros lo Hlo; cbn [app last_free].
  - rewrite last_free_used by done. unfold sizes. cbn. lia.
  - rewrite sizes_cons. cbn in Hs. rewrite IH by lia. pose proof (sizes_nonneg k Hk). unfold NULL.
    destruct u'; [lia|]. destruct (Z.eqb_spec (lo + s' + sizes k) 0); lia.
Qed.

Lemma last_free_split lo bs :
  0 < lo -> positive_blocks bs ->
  (Forall is_used bs /\ last_free lo bs = NULL)
  \/ exists k s u, bs = k ++ (s, false) :: u /\ Forall is_used u /\ last_free lo bs = lo + sizes k.
Proof.
  intros Hlo Hp. assert (Forall is_used bs \/ exists k s u, bs = k ++ (s, false) :: u /\ Forall is_used u) as [H|(k & s & u & -> & Hu)].
  { clear. induction bs as [|[s u] bs [IH|(k & s' & u' & -> & Hu')]]; [by left| |].
    - destruct u; [left; by constructor|right]. by exists [], s, bs.
    - right. exists ((s, u) :: k), s', u'. by split. }
  - left. split; [done|]. by apply last_free_used.
  - right. exists k, s, u. split_and!; [done|done|]. apply last_free_app; [done| |done].
    by apply Forall_app in Hp as [? _].
Qed.

(** A block of a layout. *)
Lemma layout_block m lo l1 b l2 hi f e :
  layout m lo (l1 ++ b :: l2) hi f e -> blk_ok m (lo + sizes l1) b.
Proof. intros H. apply layout_app in H as (fm & _ & H). cbn [layout] in H. apply H. Qed.

Lemma layout_free m lo l1 s l2 hi f e :
  layout m lo (l1 ++ (s, false) :: l2) hi f e ->
  layout m lo l1 (lo + sizes l1) f (lo + sizes l1)
  /\ exists f', ldw4 m (lo + sizes l1 + 4) = Some f' /\ layout m (lo + sizes l1 + s) l2 hi f' e.
Proof. intros H. apply layout_app in H as (fm & H1 & H2). cbn [layout fst snd] in H2. destruct H2 as (_ & -> & H2). by split. Qed.

(** ** The searches *)

(** A block and its predecessor in the free list. *)
Definition candidate (lo : Z) (bs : list blk) (sz this pre : Z) : Prop :=
  exists l1 s l2, bs = l1 ++ (s, false) :: l2 /\ sz <= s /\ this = lo + sizes l1 /\ pre = last_free lo l1.

Lemma free_pos m lo l1 s l2 hi f e :
  0 < lo -> layout m lo (l1 ++ (s, false) :: l2) hi f e -> 0 < lo + sizes l1.
Proof. intros Hlo H. apply layout_positive, Forall_app in H as [H _]. pose proof (sizes_nonneg l1 H). lia. Qed.

(** The next free block behind a split of the blocks. *)
Lemma next_free m lo l1 s l2 hi f :
  layout m lo (l1 ++ (s, false) :: l2) hi f NULL ->
  exists nx, ldw4 m (lo + sizes l1 + 4) = Some nx
    /\ ((Forall is_used l2 /\ nx = NULL)
        \/ exists u s' l3, l2 = u ++ (s', false) :: l3 /\ Forall is_used u /\ nx = lo + sizes (l1 ++ (s, false) :: u)).
Proof.
  intros H. destruct (layout_free _ _ _ _ _ _ _ _ H) as (_ & nx & Hn & Hl). exists nx. split; [done|].
  destruct (layout_first _ _ _ _ _ _ Hl) as [[Hu ->]|(u & s' & l3 & -> & Hu & ->)]; [by left|right].
  exists u, s', l3. split_and!; [done|done|]. rewrite sizes_app, sizes_cons. lia.
Qed.

Lemma best_scan_ok m lo bs hi f sz fuel this pre k1 sb k2 cur n :
  0 < lo -> layout m lo bs hi f NULL -> candidate lo bs sz this pre ->
  bs = k1 ++ (sb, false) :: k2 -> ldw4 m (lo + sizes k1 + 4) = Some cur -> (length k2 < fuel)%nat ->
  exists this' pre', best_scan 4 fuel m sz this pre (lo + sizes k1) cur n = Some (this', pre') /\ candidate lo bs sz this' pre'.
Proof.
  intros Hlo Hl. revert this pre k1 sb k2 cur n. induction fuel as [|fuel IH]; intros this pre k1 sb k2 cur n Hc Hbs Hcur Hf; [lia|].
  pose proof Hl as Hl1. rewrite Hbs in Hl1. destruct (next_free _ _ _ _ _ _ _ Hl1) as (nx & Hn & Hnext).
  rewrite Hcur in Hn. injection Hn as <-. destruct Hnext as [[Hu ->]|(u & s' & l3 & -> & Hu & ->)].
  { exists this, pre. by split. }
  cbn [best_scan]. set (k1' := k1 ++ (sb, false) :: u) in *.
  assert (bs = k1' ++ (s', false) :: l3) as Hbs' by (rewrite Hbs; unfold k1'; by rewrite <- app_assoc).
  pose proof Hl as Hl2. rewrite Hbs' in Hl2. pose proof (free_pos _ _ _ _ _ _ _ _ Hlo Hl2) as Hpos.
  unfold NULL. destruct (Z.eqb_spec (lo + sizes k1') 0); [lia|].
  pose proof (layout_block _ _ _ _ _ _ _ _ Hl2) as (_ & _ & Hsz & _). unfold block_size. rewrite Hsz. cbn [mbind option_bind fst].
  destruct Hc as (c1 & sc & c2 & Ec & Hsc & Eth & Epre).
  pose proof Hl as Hl3. rewrite Ec in Hl3. pose proof (layout_block _ _ _ _ _ _ _ _ Hl3) as (_ & _ & Hsz' & _).
  rewrite Eth, Hsz'. cbn [mbind option_bind fst].
  destruct (next_free _ _ _ _ _ _ _ Hl2) as (nx & Hn & _). unfold block_next.
  assert (lo + sizes k1 = last_free lo k1') as Ebak.
  { unfold k1'. rewrite last_free_app; [done|done| |done]. apply layout_positive in Hl1. by apply Forall_app in Hl1 as [? _]. }
  destruct ((sz <=? s') && (s' <=? sc)) eqn:Eb.
  - assert (candidate lo bs sz (lo + sizes k1') (lo + sizes k1)) as Hc'.
    { exists k1', s', l3. bool_hyps. split_and!; [done|lia|done|done]. }
    destruct (FIT_FIND_DEPTH <=? n + 1); [by eexists _, _|]. rewrite Hn. cbn [mbind option_bind].
    eapply IH; [exact Hc'|exact Hbs'|exact Hn|]. rewrite length_app in Hf. cbn in Hf. lia.
  - assert (candidate lo bs sz (lo + sizes c1) pre) as Hc' by (exists c1, sc, c2; done).
    destruct (FIT_FIND_DEPTH <=? n); [by eexists _, _|]. rewrite Hn. cbn [mbind option_bind].
    eapply IH; [exact Hc'|exact Hbs'|exact Hn|]. rewrite length_app in Hf. cbn in Hf. lia.
Qed.

(** No free block is large enough. *)
Definition too_small (sz : Z) (bs : list blk) : Prop := Forall (fun b => snd b = false -> fst b < sz) bs.

Lemma used_too_small sz bs : Forall is_used bs -> too_small sz bs.
Proof. intros H. eapply Forall_impl; [exact H|]. intros b Hb Hf. unfold is_used in Hb. congruence. Qed.

Lemma chunk_loop_ok m lo bs hi f fl sz fuel l1 l2 this :
  0 < lo -> layout m lo bs hi f NULL -> bs = l1 ++ l2 -> too_small sz l1 ->
  ((Forall is_used l2 /\ this = NULL)
   \/ exists u s l3, l2 = u ++ (s, false) :: l3 /\ Forall is_used u /\ this = lo + sizes (l1 ++ u)) ->
  (length l2 < fuel)%nat ->
  (too_small sz bs /\ chunk_loop 4 fuel m fl sz (last_free lo l1) this = Some (m, fl, NULL))
  \/ exists this' pre, candidate lo bs sz this' pre /\ chunk_loop 4 fuel m fl sz (last_free lo l1) this = carve 4 m fl sz this' pre.
Proof.
  intros Hlo Hl. revert l1 l2 this. induction fuel as [|fuel IH]; intros l1 l2 this Hbs Hsm Hthis Hf; [lia|].
  destruct Hthis as [[Hu ->]|(u & s & l3 & -> & Hu & ->)].
  { left. split; [|done]. rewrite Hbs. apply Forall_app_2; [done|by apply used_too_small]. }
  set (k := l1 ++ u) in *. assert (bs = k ++ (s, false) :: l3) as Hbs' by (rewrite Hbs; unfold k; by rewrite <- app_assoc).
  pose proof Hl as Hl1. rewrite Hbs' in Hl1. pose proof (free_pos _ _ _ _ _ _ _ _ Hlo Hl1) as Hpos.
  cbn [chunk_loop]. unfold NULL. destruct (Z.eqb_spec (lo + sizes k) 0); [lia|].
  pose proof (layout_block _ _ _ _ _ _ _ _ Hl1) as (_ & _ & Hsz & _). unfold block_size, block_next. rewrite Hsz.
  cbn [mbind option_bind fst]. destruct (next_free _ _ _ _ _ _ _ Hl1) as (nx & Hn & Hnext). rewrite Hn. cbn [mbind option_bind].
  assert (last_free lo l1 = last_free lo k) as Epre.
  { unfold k. apply layout_positive in Hl1. unfold k in Hl1. apply Forall_app in Hl1 as [Hp _]. apply Forall_app in Hp as [Hp _].
    destruct (last_free_split lo l1 Hlo Hp) as [[Hu1 ->]|(k1 & s1 & u1 & -> & Hu1 & ->)].
    - symmetry. apply last_free_used. by apply Forall_app_2.
    - rewrite <- app_assoc. cbn [app]. symmetry. apply last_free_app; [done| |by apply Forall_app_2].
      by apply Forall_app in Hp as [? _]. }
  destruct (Z.leb_spec sz s) as [Hle|Hgt].
  - right. assert (candidate lo bs sz (lo + sizes k) (last_free lo l1)) as Hc by (exists k, s, l3; by rewrite Epre).
    destruct (best_scan_ok m lo bs hi f sz fuel _ _ k s l3 nx 0 Hlo Hl Hc Hbs' Hn) as (this' & pre' & Eb & Hc').
    { rewrite length_app in Hf. cbn in Hf. lia. }
    rewrite Eb. cbn [mbind option_bind]. by exists this', pre'.
  - assert (too_small sz (k ++ [(s, false)])) as Hsm'.
    { unfold k. rewrite <- app_assoc. apply Forall_app_2; [done|]. apply Forall_app_2; [by apply used_too_small|]. by repeat constructor. }
    assert (lo + sizes k = last_free lo (k ++ [(s, false)])) as Ek.
    { symmetry. apply last_free_app; [done| |constructor]. apply layout_positive in Hl1. by apply Forall_app in Hl1 as [? _]. }
    rewrite Ek. apply (IH (k ++ [(s, false)]) l3); [by rewrite <- app_assoc|done| |rewrite length_app in Hf; cbn in Hf; lia].
    destruct Hnext as [?|(u' & s' & l4 & -> & Hu' & ->)]; [by left|right]. exists u', s', l4.
    split_and!; [done|done|]. f_equal. f_equal. by rewrite <- app_assoc.
Qed.

(** ** What a change leaves alone *)

(** An address inside a free block. *)
Definition free_at (lo : Z) (bs : list blk) (x : Z) : Prop :=
  exists l1 s l2, bs = l1 ++ (s, false) :: l2 /\ lo + sizes l1 <= x < lo + sizes l1 + s.

(** Only free blocks changed. *)
Definition keeps (m m' : mem) (lo : Z) (bs : list blk) : Prop :=
  (forall x, ~ free_at lo bs x -> m' !! x = m !! x) /\ (forall x, is_Some (m !! x) -> is_Some (m' !! x)).

Lemma keeps_trans m1 m2 m3 lo bs : keeps m1 m2 lo bs -> keeps m2 m3 lo bs -> keeps m1 m3 lo bs.
Proof. intros [H H'] [K K']. split; [|auto]. intros x Hx. by rewrite K, H. Qed.

Lemma upd_keeps m m' lo bs a b : upd m m' a b -> (forall x, a <= x < b -> free_at lo bs x) -> keeps m m' lo bs.
Proof.
  intros [H H'] Hf. split; [|done]. intros x Hx. apply H. intros Hab. by apply Hx, Hf.
Qed.

Lemma keeps_refl m lo bs : keeps m m lo bs.
Proof. by split. Qed.

Lemma free_at_intro lo l1 s l2 x : lo + sizes l1 <= x < lo + sizes l1 + s -> free_at lo (l1 ++ (s, false) :: l2) x.
Proof. intros. by exists l1, s, l2. Qed.

Lemma free_at_app_l lo l1 l2 x : free_at lo l1 x -> free_at lo (l1 ++ l2) x.
Proof. intros (a & s & b & -> & Hx). exists a, s, (b ++ l2). rewrite <- app_assoc. by split. Qed.

Lemma sizes_split_le k1 b1 k2 l1 b2 l2 :
  positive_blocks (k1 ++ b1 :: k2) -> k1 ++ b1 :: k2 = l1 ++ b2 :: l2 ->
  (k1 = l1 /\ b1 = b2) \/ sizes k1 + fst b1 <= sizes l1 \/ sizes l1 + fst b2 <= sizes k1.
Proof.
  revert l1. induction k1 as [|c k1 IH]; intros l1 Hp E.
  - destruct l1 as [|d l1]; cbn in E; injection E as -> E; [by left|]. right; left. subst k2.
    cbn in Hp. apply Forall_cons_1 in Hp as [_ Hp]. apply Forall_app in Hp as [Hp _]. pose proof (sizes_nonneg l1 Hp).
    unfold sizes in *. cbn [foldr]. lia.
  - destruct l1 as [|d l1]; cbn in E; injection E as -> E.
    + right; right. cbn in Hp. apply Forall_cons_1 in Hp as [_ Hp]. apply Forall_app in Hp as [Hp _].
      pose proof (sizes_nonneg k1 Hp). unfold sizes in *. cbn [foldr]. lia.
    + cbn in Hp. apply Forall_cons_1 in Hp as [_ Hp]. destruct (IH l1 Hp E) as [[-> ->]|H]; [by left|right].
      unfold sizes in *. cbn [foldr]. lia.
Qed.

Lemma used_not_free lo k1 s k2 x :
  positive_blocks (k1 ++ (s, true) :: k2) -> lo + sizes k1 <= x < lo + sizes k1 + s ->
  ~ free_at lo (k1 ++ (s, true) :: k2) x.
Proof.
  intros Hp Hx (l1 & t & l2 & E & Hx'). destruct (sizes_split_le _ _ _ _ _ _ Hp E) as [[_ ?]|H]; [done|]. cbn in H. lia.
Qed.

(** Replacing the last link of a chain. *)
Lemma relink_ok m lo l1 f fm g :
  0 < lo -> layout m lo l1 (lo + sizes l1) f fm -> mapped m lo (lo + sizes l1) -> 0 <= g < 2 ^ 32 ->
  (last_free lo l1 = NULL /\ f = fm /\ layout m lo l1 (lo + sizes l1) g g)
  \/ (last_free lo l1 <> NULL /\ exists m', set_block_next 4 m (last_free lo l1) g = Some m'
        /\ layout m' lo l1 (lo + sizes l1) f g /\ upd m m' (last_free lo l1 + 4) (last_free lo l1 + 8)
        /\ lo <= last_free lo l1 /\ last_free lo l1 + 8 < lo + sizes l1
        /\ forall x, last_free lo l1 <= x < last_free lo l1 + 8 -> free_at lo l1 x).
Proof.
  intros Hlo Hl Hm Hg. pose proof (layout_positive _ _ _ _ _ _ Hl) as Hp.
  destruct (last_free_split lo l1 Hlo Hp) as [[Hu E]|(k & s & u & -> & Hu & E)].
  { left. destruct (layout_used _ _ _ _ _ _ Hu Hl) as [-> H]. by split_and!. }
  right. pose proof (free_pos _ _ _ _ _ _ _ _ Hlo Hl) as Hpos. rewrite E. split; [unfold NULL; lia|].
  apply Forall_app in Hp as [Hpk Hpu]. apply Forall_cons_1 in Hpu as [Hs Hpu]. cbn in Hs.
  pose proof (sizes_nonneg k Hpk). pose proof (sizes_nonneg u Hpu).
  rewrite sizes_app, sizes_cons in *. destruct (layout_free _ _ _ _ _ _ _ _ Hl) as (Hk & f' & Hn & Hlu).
  pose proof (layout_block _ _ _ _ _ _ _ _ Hl) as (Hb1 & Hb2 & Hb3 & Hb4). cbn [fst snd] in *.
  destruct (stw_ok m (lo + sizes k + 4) g Hg) as (m' & Em & Hupd & Hld); [apply (mapped_sub _ _ _ _ _ Hm); lia|].
  exists m'. unfold set_block_next. rewrite Em. split_and!; [done| |by replace (lo + sizes k + 8) with (lo + sizes k + 4 + 4) by lia|lia|lia|].
  - destruct Hupd as [Hupd _]. apply layout_app. exists (lo + sizes k). split.
    { eapply layout_ext; [|exact Hk]. intros x Hx. apply Hupd. lia. }
    cbn [layout fst snd]. split.
    { split_and!; cbn [fst snd]; [done|done| |].
      - rewrite (ldw_ext m m'); [done|]. intros x Hx. apply Hupd. lia.
      - rewrite Hupd by lia. done. }
    split; [done|]. exists g. split; [done|]. destruct (layout_used _ _ _ _ _ _ Hu Hlu) as [_ Hg'].
    eapply layout_ext; [|apply Hg']. intros x Hx. apply Hupd. lia.
  - intros x Hx. apply free_at_intro. lia.
Qed.

(** ** Allocation *)

Lemma ulong_small z : 0 <= z < 2 ^ 32 -> ulong 4 z = z.
Proof. intros. by apply Z.mod_small. Qed.

Lemma dog_set_ok m b s v :
  ldw4 m b = Some s -> 8 < s -> mapped m b (b + s) ->
  exists m', dog_set 4 m b v = Some m' /\ upd m m' (b + s - 1) (b + s) /\ m' !! (b + s - 1) = Some v.
Proof.
  intros Hs Hb Hm. unfold dog_set, block_size. rewrite Hs. cbn [mbind option_bind].
  destruct (stb_ok m (b + s - 1) v) as (m' & E & Hu & Hd); [apply Hm; lia|].
  exists m'. split; [done|]. split; [|done]. eapply upd_weaken; [| |exact Hu]; lia.
Qed.

(** How a block is taken: the whole of a free block, or its end. *)
Definition taken (bs l1 : list blk) (s : Z) (l2 : list blk) : Prop :=
  exists k t, bs = k ++ (t, false) :: l2 /\ ((l1 = k /\ s = t) \/ (l1 = k ++ [(t - s, false)] /\ 28 <= t - s)).

(** Cutting the end off. *)
Lemma carve_split_ok m lo l1 t l2 hi fl sz pre :
  0 < lo -> hi < 2 ^ 32 -> layout m lo (l1 ++ (t, false) :: l2) hi fl NULL -> mapped m lo hi ->
  8 < sz -> sz mod 4 = 0 -> 28 <= t - sz ->
  exists m', carve 4 m fl sz (lo + sizes l1) pre = Some (m', fl, lo + sizes (l1 ++ [(t - sz, false)]))
    /\ layout m' lo ((l1 ++ [(t - sz, false)]) ++ (sz, true) :: l2) hi fl NULL
    /\ upd m m' (lo + sizes l1) (lo + sizes l1 + t).
Proof.
  intros Hlo Hhi Hl Hm Hsz Ha Ht. set (p := lo + sizes l1). set (r := t - sz).
  pose proof (free_pos _ _ _ _ _ _ _ _ Hlo Hl) as Hpos. fold p in Hpos.
  pose proof (layout_hi _ _ _ _ _ _ Hl) as [Hh _]. rewrite sizes_app, sizes_cons in Hh.
  pose proof (layout_positive _ _ _ _ _ _ Hl) as Hp. apply Forall_app in Hp as [Hp1 Hp2].
  apply Forall_cons_1 in Hp2 as [_ Hp2]. pose proof (sizes_nonneg l1 Hp1). pose proof (sizes_nonneg l2 Hp2).
  destruct (layout_free _ _ _ _ _ _ _ _ Hl) as (Hk & f' & Hn & Hr). fold p in Hk, Hn, Hr.
  pose proof (layout_block _ _ _ _ _ _ _ _ Hl) as (Hb1 & Hb2 & Hb3 & _). fold p in Hb3. cbn [fst snd] in *.
  assert (p + t <= hi /\ lo <= p) as [Hpt Hlp] by lia.
  unfold carve, block_size, set_block_size, MEM_HEAP_MIN_SIZE, MEM_BLOCK_MIN_SIZE, MEM_BLOCK_HEAD_SIZE. rewrite Hb3.
  cbn [mbind option_bind]. rewrite ulong_small by (unfold r; lia). fold r.
  destruct (Z.leb_spec (24 + 4) r); [|unfold r in *; lia].
  destruct (stw_ok m p r) as (m1 & E1 & U1 & L1); [unfold r; lia|apply (mapped_sub _ _ _ _ _ Hm); lia|].
  rewrite E1. cbn [mbind option_bind]. pose proof (upd_mapped _ _ _ _ _ _ U1 Hm) as M1.
  destruct (dog_set_ok m1 p r MEM_BLOCK_STAT_FREE L1) as (m2 & E2 & U2 & D2); [unfold r; lia|apply (mapped_sub _ _ _ _ _ M1); unfold r; lia|].
  rewrite E2. cbn [mbind option_bind]. pose proof (upd_mapped _ _ _ _ _ _ U2 M1) as M2.
  assert (ldw4 m2 p = Some r) as L2 by (rewrite (ldw_ext m1 m2); [done|]; intros x Hx; apply U2; unfold r in *; lia).
  rewrite L2. cbn [mbind option_bind].
  destruct (stw_ok m2 (p + r) sz) as (m3 & E3 & U3 & L3); [lia|apply (mapped_sub _ _ _ _ _ M2); unfold r; lia|].
  rewrite E3. cbn [mbind option_bind]. pose proof (upd_mapped _ _ _ _ _ _ U3 M2) as M3.
  destruct (dog_set_ok m3 (p + r) sz MEM_BLOCK_STAT_USE L3) as (m4 & E4 & U4 & D4); [lia|apply (mapped_sub _ _ _ _ _ M3); unfold r; lia|].
  rewrite E4. cbn [mbind option_bind]. exists m4.
  assert (upd m m4 p (p + t)) as U.
  { eapply upd_trans; [|eapply upd_trans; [|eapply upd_trans]];
      (eapply upd_weaken; [| |eassumption]); unfold r; lia. }
  split_and!; [|clear E1 E2 E3 E4|done].
  { replace (lo + sizes (l1 ++ [(r, false)])) with (p + r); [done|].
    rewrite sizes_app, sizes_cons. change (sizes []) with 0. unfold p. lia. }
  destruct U as [U _]. rewrite <- app_assoc. cbn [app]. apply layout_app. exists p. split.
  { eapply layout_ext; [|exact Hk]. intros x Hx. apply U. lia. }
  fold p. cbn [layout fst snd]. split.
  { split_and!; cbn [fst snd]; [lia| | |].
    - unfold r. rewrite Zminus_mod, Hb2, Ha. done.
    - rewrite <- L2. apply ldw_ext. intros x Hx. destruct U3 as [U3 _], U4 as [U4 _]. rewrite U4, U3; [done|lia|lia].
    - destruct U3 as [U3 _], U4 as [U4 _]. rewrite U4, U3 by lia. done. }
  split; [done|]. exists f'. split.
  { rewrite <- Hn. apply ldw_ext. intros x Hx. destruct U1 as [U1 _], U2 as [U2 _], U3 as [U3 _], U4 as [U4 _].
    rewrite U4, U3, U2, U1 by lia. done. }
  split.
  { split_and!; cbn [fst snd]; [done|done| |].
    - rewrite <- L3. apply ldw_ext. intros x Hx. apply U4. lia.
    - done. }
  replace (p + r + sz) with (p + t) by (unfold r; lia). eapply layout_ext; [|exact Hr]. intros x Hx. apply U. lia.
Qed.

(** Taking the block whole. *)
Lemma carve_whole_ok m lo l1 t l2 hi fl sz :
  0 < lo -> hi < 2 ^ 32 -> layout m lo (l1 ++ (t, false) :: l2) hi fl NULL -> mapped m lo hi ->
  8 < sz <= t -> t - sz < 28 ->
  exists m' fl', carve 4 m fl sz (lo + sizes l1) (last_free lo l1) = Some (m', fl', lo + sizes l1)
    /\ layout m' lo (l1 ++ (t, true) :: l2) hi fl' NULL /\ keeps m m' lo (l1 ++ (t, false) :: l2).
Proof.
  intros Hlo Hhi Hl Hm Hsz Ht. set (p := lo + sizes l1).
  pose proof (layout_hi _ _ _ _ _ _ Hl) as [Hh _]. rewrite sizes_app, sizes_cons in Hh.
  pose proof (layout_positive _ _ _ _ _ _ Hl) as Hp. apply Forall_app in Hp as [Hp1 Hp2].
  apply Forall_cons_1 in Hp2 as [_ Hp2]. pose proof (sizes_nonneg l1 Hp1). pose proof (sizes_nonneg l2 Hp2).
  destruct (layout_free _ _ _ _ _ _ _ _ Hl) as (Hk & f' & Hn & Hr). fold p in Hk, Hn, Hr.
  pose proof (layout_block _ _ _ _ _ _ _ _ Hl) as (Hb1 & Hb2 & Hb3 & _). fold p in Hb3. cbn [fst snd] in *.
  assert (p + t <= hi /\ lo <= p) as [Hpt Hlp] by lia.
  unfold carve, block_size, block_next, MEM_HEAP_MIN_SIZE, MEM_BLOCK_MIN_SIZE, MEM_BLOCK_HEAD_SIZE. rewrite Hb3.
  cbn [mbind option_bind]. rewrite ulong_small by lia. destruct (Z.leb_spec (24 + 4) (t - sz)); [lia|].
  rewrite Hn. cbn [mbind option_bind].
  assert (0 <= f' < 2 ^ 32) as Hf'.
  { destruct (layout_first _ _ _ _ _ _ Hr) as [[_ ->]|(u & s & l3 & -> & Hu & ->)]; [unfold NULL; lia|].
    apply Forall_app in Hp2 as [Hpu Hp3]. apply Forall_cons_1 in Hp3 as [Hs Hp3]. cbn in Hs.
    pose proof (sizes_nonneg u Hpu). pose proof (sizes_nonneg l3 Hp3). rewrite sizes_app, sizes_cons in Hh. lia. }
  assert (forall m1 fl', mapped m1 lo hi -> (forall x, p <= x < hi -> m1 !! x = m !! x) -> layout m1 lo l1 p fl' f' ->
    exists m', dog_set 4 m1 p MEM_BLOCK_STAT_USE = Some m' /\ layout m' lo (l1 ++ (t, true) :: l2) hi fl' NULL
      /\ upd m1 m' (p + t - 1) (p + t)) as Hdog.
  { intros m1 fl' M1 S1 K1. assert (ldw4 m1 p = Some t) as L1 by (rewrite <- Hb3; apply ldw_ext; intros x Hx; apply S1; lia).
    destruct (dog_set_ok m1 p t MEM_BLOCK_STAT_USE L1 Hb1) as (m' & E & U & D); [apply (mapped_sub _ _ _ _ _ M1); lia|].
    exists m'. split_and!; [done| |done]. destruct U as [U _]. apply layout_app. exists f'. fold p. split.
    - eapply layout_ext; [|exact K1]. intros x Hx. apply U. lia.
    - cbn [layout fst snd]. split.
      + split_and!; cbn [fst snd]; [done|done| |done]. rewrite <- L1. apply ldw_ext. intros x Hx. apply U. lia.
      + eapply layout_ext; [|exact Hr]. intros x Hx. rewrite U by lia. apply S1. lia. }
  assert (forall x, p <= x < p + t -> free_at lo (l1 ++ (t, false) :: l2) x) as Hfree by (intros x Hx; by apply free_at_intro).
  destruct (relink_ok m lo l1 fl p f' Hlo Hk) as [(E & -> & K)|(E & m1 & E1 & K & U1 & Hlp1 & Hlp2 & Hf1)];
    [apply (mapped_sub _ _ _ _ _ Hm); lia|done| |].
  - rewrite E. change (NULL =? NULL) with true. cbn [mbind option_bind].
    destruct (Hdog m f' Hm ltac:(done) K) as (m' & -> & L' & U'). cbn [mbind option_bind]. exists m', f'. split_and!; [done|done|].
    eapply upd_keeps; [exact U'|]. intros x Hx. apply Hfree. lia.
  - destruct (Z.eqb_spec (last_free lo l1) NULL) as [|_]; [done|]. rewrite E1. cbn [mbind option_bind].
    fold p in Hlp2. destruct (Hdog m1 fl (upd_mapped _ _ _ _ _ _ U1 Hm)) as (m' & -> & L' & U'); [|exact K|].
    { intros x Hx. apply U1. lia. }
    cbn [mbind option_bind]. exists m', fl. split_and!; [done|done|]. eapply keeps_trans.
    + eapply upd_keeps; [exact U1|]. intros x Hx. apply free_at_app_l, Hf1. lia.
    + eapply upd_keeps; [exact U'|]. intros x Hx. apply Hfree. lia.
Qed.

Lemma carve_ok m lo bs hi fl sz this pre :
  0 < lo -> hi < 2 ^ 32 -> layout m lo bs hi fl NULL -> mapped m lo hi -> candidate lo bs sz this pre ->
  8 < sz -> sz mod 4 = 0 ->
  exists m' fl' l1 s l2, carve 4 m fl sz this pre = Some (m', fl', lo + sizes l1)
    /\ sz <= s /\ layout m' lo (l1 ++ (s, true) :: l2) hi fl' NULL /\ keeps m m' lo bs /\ taken bs l1 s l2.
Proof.
  intros Hlo Hhi Hl Hm (l1 & t & l2 & -> & Hst & -> & ->) Hsz Ha. destruct (Z.leb_spec 28 (t - sz)) as [Hbig|Hsmall].
  - destruct (carve_split_ok m lo l1 t l2 hi fl sz (last_free lo l1) Hlo Hhi Hl Hm Hsz Ha Hbig) as (m' & E & L & U).
    exists m', fl, (l1 ++ [(t - sz, false)]), sz, l2. split_and!; [done|lia|done| |].
    + eapply upd_keeps; [exact U|]. intros x Hx. by apply free_at_intro.
    + exists l1, t. split; [done|]. right. split; [done|lia].
  - destruct (carve_whole_ok m lo l1 t l2 hi fl sz Hlo Hhi Hl Hm ltac:(lia) Hsmall) as (m' & fl' & E & L & K).
    exists m', fl', l1, t, l2. split_and!; [done|lia|done|done|]. exists l1, t. split; [done|]. by left.
Qed.

(** ** The state of a heap *)

Lemma mask_4 x : Z.land x (Z.lnot (4 - 1)) = x / 4 * 4.
Proof.
  change (4 - 1) with (Z.ones 2). rewrite <- Z.ldiff_land, Z.ldiff_ones_r, Z.shiftl_mul_pow2, Z.shiftr_div_pow2 by lia. done.
Qed.

Lemma ALIGN_UP_4 x : 0 <= x -> x + 3 < 2 ^ 32 -> ALIGN_UP 4 4 x = (x + 3) / 4 * 4.
Proof. intros. unfold ALIGN_UP. rewrite ulong_small by lia. by rewrite mask_4. Qed.

Lemma block_need_cases sz :
  4 <= sz < 2 ^ 32 -> block_need 4 4 sz < sz \/ (block_need 4 4 sz = (sz + 4) / 4 * 4 + 4 /\ block_need 4 4 sz < 2 ^ 32).
Proof.
  intros Hsz. unfold block_need, MEM_BLOCK_HEAD_SIZE. destruct (Z.ltb_spec (sz + 4) (2 ^ 32)) as [Hlt|Hge].
  - rewrite (ulong_small (sz + 1)), ALIGN_UP_4 by lia. replace (sz + 1 + 3) with (sz + 4) by lia.
    assert ((sz + 4) / 4 * 4 <= sz + 4) by (pose proof (Z.mul_div_le (sz + 4) 4); lia).
    destruct (Z.ltb_spec ((sz + 4) / 4 * 4 + 4) (2 ^ 32)) as [H1|H1].
    + right. rewrite ulong_small; [done|]. pose proof (Z.div_pos (sz + 4) 4). lia.
    + left. unfold ulong. change (2 ^ (8 * 4)) with (2 ^ 32).
      replace ((sz + 4) / 4 * 4 + 4) with ((sz + 4) / 4 * 4 + 4 - 2 ^ 32 + 1 * 2 ^ 32) by lia.
      rewrite Z.mod_add, Z.mod_small by lia. lia.
  - left. assert (ALIGN_UP 4 4 (ulong 4 (sz + 1)) = 0) as ->; [|change (ulong 4 (0 + 4)) with 4; lia].
    assert (sz = 2 ^ 32 - 4 \/ sz = 2 ^ 32 - 3 \/ sz = 2 ^ 32 - 2 \/ sz = 2 ^ 32 - 1) as [H|[H|[H|H]]] by lia; rewrite H; by vm_compute.
Qed.

Definition free_size (bs : list blk) : Z := foldr (fun (b : blk) n => if snd b then n else fst b + n) 0 bs.

Lemma free_size_app l1 l2 : free_size (l1 ++ l2) = free_size l1 + free_size l2.
Proof. unfold free_size. induction l1 as [|[s []] l1 IH]; cbn [app foldr snd fst]; lia. Qed.

Lemma free_size_cons s u bs : free_size ((s, u) :: bs) = (if u then 0 else s) + free_size bs.
Proof. by destruct u. Qed.

Lemma free_size_le bs : positive_blocks bs -> 0 <= free_size bs <= sizes bs.
Proof.
  induction 1 as [|[s u] bs Hs _ IH]; [done|]. rewrite free_size_cons, sizes_cons. cbn in Hs. destruct u; lia.
Qed.

(** Free blocks are joined: no two are neighbours. *)
Fixpoint nofrag (bs : list blk) : Prop :=
  match bs with
  | b :: ((c :: _) as r) => snd b || snd c = true /\ nofrag r
  | _ => True
  end.

Lemma nofrag_cut l1 b l2 : nofrag (l1 ++ b :: l2) <-> nofrag (l1 ++ [b]) /\ nofrag (b :: l2).
Proof.
  induction l1 as [|c l1 IH]; [cbn [app nofrag]; tauto|]. destruct l1 as [|d l1].
  - cbn [app nofrag]. destruct l2; tauto.
  - change ((c :: d :: l1) ++ b :: l2) with (c :: d :: (l1 ++ b :: l2)).
    change ((c :: d :: l1) ++ [b]) with (c :: d :: (l1 ++ [b])).
    change (snd c || snd d = true /\ nofrag ((d :: l1) ++ b :: l2)
      <-> (snd c || snd d = true /\ nofrag ((d :: l1) ++ [b])) /\ nofrag (b :: l2)). rewrite IH. tauto.
Qed.

Lemma nofrag_used_r l s : nofrag (l ++ [(s, true)]) <-> nofrag l.
Proof.
  induction l as [|c l IH]; [done|]. destruct l as [|d l].
  - cbn. rewrite orb_true_r. tauto.
  - change (snd c || snd d = true /\ nofrag ((d :: l) ++ [(s, true)]) <-> snd c || snd d = true /\ nofrag (d :: l)).
    rewrite IH. tauto.
Qed.

Lemma nofrag_used_l l s : nofrag ((s, true) :: l) <-> nofrag l.
Proof. destruct l; cbn; tauto. Qed.

Lemma nofrag_size_r l s t u : nofrag (l ++ [(s, u)]) -> nofrag (l ++ [(t, u)]).
Proof.
  induction l as [|c l IH]; [done|]. destruct l as [|d l]; [done|].
  change (snd c || snd d = true /\ nofrag ((d :: l) ++ [(s, u)]) -> snd c || snd d = true /\ nofrag ((d :: l) ++ [(t, u)])).
  intros [? ?]. split; [done|by apply IH].
Qed.

Lemma nofrag_size_l l s t u : nofrag ((s, u) :: l) -> nofrag ((t, u) :: l).
Proof. by destruct l. Qed.

Record heap_ok (m : mem) (h : MEM_Heap_t) (lo hi : Z) (bs : list blk) : Prop := {
  hk_layout : layout m lo bs hi (free_list h) NULL;
  hk_mapped : mapped m lo hi;
  hk_lo : 0 < lo /\ lo mod 4 = 0;
  hk_hi : hi < 2 ^ 32;
  hk_free : free h = free_size bs;
  hk_nofrag : nofrag bs
}.

Lemma heap_positive m h lo hi bs : heap_ok m h lo hi bs -> positive_blocks bs.
Proof. intros H. eapply layout_positive, hk_layout, H. Qed.

Lemma heap_hi m h lo hi bs : heap_ok m h lo hi bs -> hi = lo + sizes bs.
Proof. intros H. eapply layout_hi, hk_layout, H. Qed.

Lemma heap_ok_eq m h h' lo hi bs :
  free_list h' = free_list h -> free h' = free h -> heap_ok m h lo hi bs -> heap_ok m h' lo hi bs.
Proof. intros E1 E2 [? ? ? ? ? ?]. split; rewrite ?E1, ?E2; done. Qed.

(** Taking a block keeps the free ones joined, and the count right. *)
Lemma taken_ok bs l1 s l2 :
  taken bs l1 s l2 -> nofrag bs ->
  nofrag (l1 ++ (s, true) :: l2) /\ free_size (l1 ++ (s, true) :: l2) = free_size bs - s
  /\ sizes (l1 ++ (s, true) :: l2) = sizes bs.
Proof.
  intros (k & t & -> & H) Hn. apply nofrag_cut in Hn as [Hk Hl].
  assert (nofrag l2) as Hl2 by (destruct l2; [done|apply Hl]).
  assert (nofrag k) as Hk1.
  { destruct k as [|b k] using rev_ind; [done|]. rewrite <- app_assoc in Hk. cbn in Hk. apply nofrag_cut in Hk as [Hk _]. exact Hk. }
  split; [apply nofrag_cut; split; [apply nofrag_used_r|by apply nofrag_used_l]|].
  - destruct H as [[-> ->]|[-> _]]; [done|]. by eapply nofrag_size_r.
  - rewrite !free_size_app, !free_size_cons, !sizes_app, !sizes_cons. destruct H as [[-> ->]|[-> _]]; [lia|].
    rewrite free_size_app, free_size_cons, sizes_app, sizes_cons. change (free_size []) with 0. change (sizes []) with 0. lia.
Qed.

Lemma alloc_ok m h lo hi bs fuel gf gw sz :
  heap_ok m h lo hi bs -> 0 <= sz < 2 ^ 32 -> (length bs < fuel)%nat ->
  exists p m' h' gf' gw', MEM_Allocate 4 4 fuel m h gf gw sz = Some (p, m', h', gf', gw')
    /\ base h' = base h /\ size h' = size h
    /\ ((p = NULL /\ m' = m /\ heap_ok m h' lo hi bs
         /\ (sz = 0 \/ block_need 4 4 (Z.max sz 4) < sz \/ too_small (block_need 4 4 (Z.max sz 4)) bs))
        \/ exists l1 s l2, p = lo + sizes l1 + 4 /\ sz + 5 <= s /\ block_need 4 4 (Z.max sz 4) <= s
             /\ heap_ok m' h' lo hi (l1 ++ (s, true) :: l2) /\ keeps m m' lo bs /\ taken bs l1 s l2).
Proof.
  intros H Hsz Hf. unfold MEM_Allocate. destruct (Z.eqb_spec sz 0) as [->|Hz].
  { eexists _, _, _, _, _. split_and!; [done|done|done|]. left. auto. }
  assert ((if sz <? 4 then 4 else sz) = Z.max sz 4) as -> by (destruct (Z.ltb_spec sz 4); lia).
  set (q := Z.max sz 4). destruct (block_need_cases q) as [Hw|[Hneed Hw]]; [unfold q; lia|..].
  { destruct (Z.ltb_spec (block_need 4 4 q) q); [|lia]. eexists _, _, _, _, _. split_and!; [done|done|done|]. left.
    split_and!; try done. right. unfold q in *. destruct (Z.max_spec sz 4) as [[? E]|[? E]]; rewrite E in *; [|by left].
    exfalso. revert Hw. by vm_compute. }
  set (n := block_need 4 4 q) in *. pose proof (Z.mul_succ_div_gt (q + 4) 4 ltac:(lia)).
  assert (q + 5 <= n /\ n mod 4 = 0 /\ 8 < n) as (Hn1 & Hn2 & Hn3).
  { split_and!; [lia| |unfold q in *; lia]. rewrite Hneed. replace ((q + 4) / 4 * 4 + 4) with (((q + 4) / 4 + 1) * 4) by lia.
    apply Z.mod_mul. lia. }
  destruct (Z.ltb_spec n q); [lia|]. unfold mem_chunk_get.
  pose proof (hk_layout _ _ _ _ _ H) as Hl. pose proof (hk_lo _ _ _ _ _ H) as [Hlo Hlo4]. pose proof (hk_hi _ _ _ _ _ H) as Hhi.
  destruct (chunk_loop_ok m lo bs hi (free_list h) (free_list h) n fuel [] bs (free_list h) Hlo Hl) as [[Hsm E]|(this & pre & Hc & E)];
    [done|constructor| |done|..].
  { destruct (layout_first _ _ _ _ _ _ Hl) as [?|(u & s & l3 & -> & Hu & ->)]; [by left|right]. by exists u, s, l3. }
  - cbn [last_free] in E. rewrite E. cbn [mbind option_bind]. change (NULL =? NULL) with true.
    eexists _, _, _, _, _. split_and!; [done|done|done|]. left. split_and!; [done|done| |auto].
    by eapply heap_ok_eq; [..|exact H].
  - destruct (carve_ok m lo bs hi (free_list h) n this pre Hlo Hhi Hl (hk_mapped _ _ _ _ _ H) Hc Hn3 Hn2)
      as (m' & fl' & l1 & s & l2 & E2 & Hs & L' & K & T).
    cbn [last_free] in E. rewrite E, E2. cbn [mbind option_bind].
    pose proof (layout_positive _ _ _ _ _ _ L') as Hp. pose proof (layout_hi _ _ _ _ _ _ L') as [Hhi' _].
    destruct (taken_ok _ _ _ _ T (hk_nofrag _ _ _ _ _ H)) as (Hnf & Hfs & Hss).
    pose proof (free_size_le _ Hp) as Hfl. pose proof (free_size_le _ (heap_positive _ _ _ _ _ H)) as Hfl0.
    assert (0 < lo + sizes l1) as Hpos.
    { apply Forall_app in Hp as [Hp _]. pose proof (sizes_nonneg l1 Hp). lia. }
    unfold NULL. destruct (Z.eqb_spec (lo + sizes l1) 0); [lia|].
    pose proof (layout_block _ _ _ _ _ _ _ _ L') as (_ & _ & Hb & _). unfold block_size. rewrite Hb. cbn [mbind option_bind fst].
    eexists _, _, _, _, _. split_and!; [done|done|done|]. right. exists l1, s, l2. unfold MEM_BLOCK_HEAD_SIZE.
    split_and!; [done|unfold q in *; lia|done| |done|done]. split; cbn [free_list free].
    + exact L'.
    + destruct K as [_ K]. intros x Hx. apply K, (hk_mapped _ _ _ _ _ H). done.
    + done.
    + done.
    + rewrite (hk_free _ _ _ _ _ H), ulong_small; lia.
    + done.
Qed.

(** ** Release *)

Lemma place_loop_ok m lo l1 fm fuel k1 k2 g p :
  0 < lo -> l1 = k1 ++ k2 -> positive_blocks k1 -> layout m (lo + sizes k1) k2 p g fm -> p = lo + sizes l1 ->
  (fm = NULL \/ p <= fm) -> (length k2 < fuel)%nat ->
  place_loop 4 fuel m p (last_free lo k1) g = Some (last_free lo l1, fm).
Proof.
  intros Hlo. revert k1 k2 g. induction fuel as [|fuel IH]; intros k1 k2 g Hl1 Hp Hl Hpe Hfm Hf; [lia|].
  pose proof (sizes_nonneg k1 Hp). pose proof (layout_positive _ _ _ _ _ _ Hl) as Hp2.
  destruct (layout_first _ _ _ _ _ _ Hl) as [[Hu ->]|(u & s & k3 & -> & Hu & ->)].
  - assert (last_free lo l1 = last_free lo k1) as ->.
    { subst l1. destruct (last_free_split lo k1 Hlo Hp) as [[Hu1 ->]|(a & t & u1 & -> & Hu1 & ->)].
      - apply last_free_used. by apply Forall_app_2.
      - rewrite <- app_assoc. cbn [app]. apply last_free_app; [done| |by apply Forall_app_2]. by apply Forall_app in Hp as [? _]. }
    cbn [place_loop]. unfold NULL in *. destruct Hfm as [->|Hge]; [done|].
    destruct (Z.eqb_spec fm 0) as [->|]; [done|]. cbn [negb andb]. destruct (Z.ltb_spec fm p); [lia|done].
  - apply Forall_app in Hp2 as [Hpu Hp2]. apply Forall_cons_1 in Hp2 as [Hs Hp3]. cbn in Hs.
    pose proof (sizes_nonneg u Hpu). pose proof (sizes_nonneg k3 Hp3).
    subst l1. rewrite !sizes_app, sizes_cons in Hpe.
    destruct (layout_free _ _ _ _ _ _ _ _ Hl) as (_ & f' & Hn & Hr).
    cbn [place_loop]. unfold NULL in *. destruct (Z.eqb_spec (lo + sizes k1 + sizes u) 0); [lia|]. cbn [negb andb].
    destruct (Z.ltb_spec (lo + sizes k1 + sizes u) p); [|lia]. unfold block_next. rewrite Hn. cbn [mbind option_bind].
    assert (lo + sizes k1 + sizes u = last_free lo (k1 ++ u ++ [(s, false)])) as ->.
    { rewrite app_assoc, last_free_app; [rewrite sizes_app; lia|done|by apply Forall_app_2|constructor]. }
    apply (IH _ k3); [by rewrite <- !app_assoc|repeat apply Forall_app_2; try done; by repeat constructor| |rewrite !sizes_app, sizes_cons; lia|done|].
    + rewrite !sizes_app, sizes_cons. change (sizes []) with 0.
      replace (lo + (sizes k1 + (sizes u + (s + 0)))) with (lo + sizes k1 + sizes u + s) by lia. done.
    + rewrite length_app in Hf. cbn in Hf. lia.
Qed.

(** The blocks after joining with a free block in front. *)
Definition join_l (l1 : list blk) (s : Z) (k : list blk) (t : Z) : Prop :=
  (k = l1 /\ t = s /\ nofrag (l1 ++ [(s, false)])) \/ (exists a, l1 = k ++ [(a, false)] /\ t = a + s).

(** The last free block ends where the next block starts only if it is the last. *)
Lemma last_free_adjacent lo k s u :
  0 < lo -> positive_blocks (k ++ (s, false) :: u) -> Forall is_used u ->
  last_free lo (k ++ (s, false) :: u) + s = lo + sizes (k ++ (s, false) :: u) -> u = [].
Proof.
  intros Hlo Hp Hu. apply Forall_app in Hp as [Hp Hp2]. rewrite last_free_app by done. rewrite sizes_app, sizes_cons.
  apply Forall_cons_1 in Hp2 as [_ Hp2]. destruct Hp2 as [|[t v] u Ht Hp2]; [done|].
  pose proof (sizes_nonneg u Hp2). rewrite sizes_cons. cbn in Ht. lia.
Qed.

Lemma nofrag_new l s : nofrag l -> (forall k a, l <> k ++ [(a, false)]) -> nofrag (l ++ [(s, false)]).
Proof.
  intros Hn Hl. destruct l as [|[a u] l _] using rev_ind; [done|]. rewrite <- app_assoc. cbn [app]. apply nofrag_cut.
  destruct u; [|by destruct (Hl l a)]. split; [done|]. by cbn.
Qed.

Lemma link_front_ok m lo l1 p f fm s l2 hi :
  0 < lo -> hi < 2 ^ 32 -> mapped m lo hi -> p = lo + sizes l1 -> layout m lo l1 p f fm ->
  ldw4 m p = Some s -> 8 < s -> s mod 4 = 0 -> m !! (p + s - 1) = Some MEM_BLOCK_STAT_FREE ->
  layout m (p + s) l2 hi fm NULL -> nofrag l1 ->
  exists m' fl' k t, link_front 4 m f p (last_free lo l1) fm = Some (m', fl', lo + sizes k)
    /\ layout m' lo (k ++ (t, false) :: l2) hi fl' NULL /\ keeps m m' lo (k ++ (t, false) :: l2)
    /\ mapped m' lo hi /\ join_l l1 s k t.
Proof.
  intros Hlo Hhi Hm Hp Hl1 Hs Hs8 Hs4 Hd Hl2 Hnf.
  pose proof (layout_positive _ _ _ _ _ _ Hl1) as Hp1. pose proof (layout_positive _ _ _ _ _ _ Hl2) as Hp2.
  pose proof (sizes_nonneg l1 Hp1). pose proof (sizes_nonneg l2 Hp2). pose proof (layout_hi _ _ _ _ _ _ Hl2) as [Hh _].
  assert (0 <= fm < 2 ^ 32) as Hfm.
  { destruct (layout_first _ _ _ _ _ _ Hl2) as [[_ ->]|(u & b & l3 & -> & _ & ->)]; [unfold NULL; lia|].
    apply Forall_app in Hp2 as [Hpu Hp3]. apply Forall_cons_1 in Hp3 as [? Hp3]. cbn in *.
    pose proof (sizes_nonneg u Hpu). pose proof (sizes_nonneg l3 Hp3). rewrite sizes_app, sizes_cons in Hh. lia. }
  unfold link_front, set_block_next. destruct (stw_ok m (p + 4) fm Hfm) as (m1 & E1 & U1 & L1);
    [apply (mapped_sub _ _ _ _ _ Hm); lia|]. rewrite E1. cbn [mbind option_bind].
  pose proof (upd_mapped _ _ _ _ _ _ U1 Hm) as M1.
  assert (layout m1 lo l1 p f fm) as Hl1'.
  { eapply layout_ext; [|exact Hl1]. intros x Hx. apply U1. lia. }
  assert (layout m1 (p + s) l2 hi fm NULL) as Hl2'.
  { eapply layout_ext; [|exact Hl2]. intros x Hx. apply U1. lia. }
  assert (ldw4 m1 p = Some s) as Hs1 by (rewrite (ldw_ext m m1); [done|]; intros x Hx; apply U1; lia).
  assert (m1 !! (p + s - 1) = Some MEM_BLOCK_STAT_FREE) as Hd1 by (destruct U1 as [U1 _]; by rewrite U1 by lia).
  (* the block, linked after [l1] *)
  assert (forall m2 fl, (forall x, p <= x -> m2 !! x = m1 !! x) -> layout m2 lo l1 p fl p ->
    layout m2 lo (l1 ++ (s, false) :: l2) hi fl NULL) as Hput.
  { intros m2 fl S2 K2. apply layout_app. exists p. rewrite <- Hp. split; [done|]. cbn [layout fst snd]. split.
    - split_and!; cbn [fst snd]; [done|done| |].
      + rewrite (ldw_ext m1 m2); [done|]. intros x Hx. apply S2. lia.
      + rewrite S2 by lia. done.
    - split; [done|]. exists fm. split; [rewrite (ldw_ext m1 m2); [done|]; intros x Hx; apply S2; lia|].
      eapply layout_ext; [|exact Hl2']. intros x Hx. apply S2. lia. }
  assert (forall x, p <= x < p + s -> free_at lo (l1 ++ (s, false) :: l2) x) as Hfree by (intros x Hx; apply free_at_intro; lia).
  rewrite Hp in Hl1'. destruct (last_free_split lo l1 Hlo Hp1) as [[Hu E]|(k & a & u & Ek & Hu & E)].
  - (* no free block in front *)
    rewrite E. change (NULL =? NULL) with true. cbn iota. exists m1, p, l1, s.
    destruct (layout_used _ _ _ _ _ _ Hu Hl1') as [_ Hg]. rewrite <- Hp in Hg.
    split_and!; [by rewrite <- Hp|by apply Hput| |done|].
    + eapply upd_keeps; [exact U1|]. intros x Hx. apply Hfree. lia.
    + left. split_and!; [done|done|]. apply nofrag_new; [done|]. intros k a ->. apply Forall_app in Hu as [_ [Hu _]%Forall_cons_1]. done.
  - subst l1. pose proof (free_pos _ _ _ _ _ _ _ _ Hlo Hl1') as Hpos.
    pose proof (layout_block _ _ _ _ _ _ _ _ Hl1') as (Ha8 & Ha4 & Hsa & Hda). cbn [fst snd] in *.
    pose proof Hp1 as Hp1'. apply Forall_app in Hp1' as [Hpk Hpu]. apply Forall_cons_1 in Hpu as [_ Hpu].
    pose proof (sizes_nonneg k Hpk). pose proof (sizes_nonneg u Hpu). rewrite sizes_app, sizes_cons in Hp.
    rewrite E. unfold NULL. destruct (Z.eqb_spec (lo + sizes k) 0); [lia|].
    unfold block_size, set_block_size. rewrite Hsa. cbn [mbind option_bind].
    destruct (Z.eqb_spec (lo + sizes k + a) p) as [Eadj|Enadj].
    + (* joined *)
      assert (u = []) as -> by (eapply (last_free_adjacent lo k a u Hlo Hp1 Hu); rewrite E, sizes_app, sizes_cons; lia).
      change (sizes []) with 0 in *. rewrite Hs1. cbn [mbind option_bind]. rewrite ulong_small by lia.
      destruct (stw_ok m1 (lo + sizes k) (a + s)) as (m2 & E2 & U2 & L2); [lia|apply (mapped_sub _ _ _ _ _ M1); lia|].
      rewrite E2. cbn [mbind option_bind]. exists m2, f, k, (a + s).
      destruct (layout_free _ _ _ _ _ _ _ _ Hl1') as (Hk & f' & Hn & Hr). cbn [layout] in Hr. destruct Hr as [_ ->].
      assert (layout m2 lo (k ++ (a + s, false) :: l2) hi f NULL) as Hl.
      { apply layout_app. exists (lo + sizes k). destruct U2 as [U2 _]. split.
        - eapply layout_ext; [|exact Hk]. intros x Hx. apply U2. lia.
        - cbn [layout fst snd]. split.
          + split_and!; cbn [fst snd]; [lia| |done|].
            * rewrite Z.add_mod, Ha4, Hs4 by lia. done.
            * rewrite U2 by lia. rewrite <- Hd1. f_equal. lia.
          + split; [done|]. exists fm. split.
            * rewrite (ldw_ext m1 m2); [done|]. intros x Hx. apply U2. lia.
            * replace (lo + sizes k + (a + s)) with (p + s) by lia. eapply layout_ext; [|exact Hl2']. intros x Hx. apply U2. lia. }
      split_and!; [done|done| |by eapply upd_mapped|right; by exists a].
      eapply keeps_trans; (eapply upd_keeps; [eassumption|]); intros x Hx; apply free_at_intro; lia.
    + (* linked behind it *)
      destruct (relink_ok m1 lo _ f fm p Hlo Hl1') as [(E3 & _)|(_ & m2 & E2 & K2 & U2 & Hlp1 & Hlp2 & Hf2)];
        [apply (mapped_sub _ _ _ _ _ M1); [lia|rewrite sizes_app, sizes_cons; lia]|lia|rewrite E in E3; unfold NULL in E3; lia|].
      rewrite E in *. unfold set_block_next in E2. rewrite E2. cbn [mbind option_bind].
      rewrite sizes_app, sizes_cons in K2, Hlp2. rewrite <- Hp in K2, Hlp2.
      exists m2, f, (k ++ (a, false) :: u), s. rewrite sizes_app, sizes_cons, <- Hp.
      split_and!; [done| | |by eapply upd_mapped|].
      * apply Hput; [|done]. intros x Hx. apply U2. lia.
      * eapply keeps_trans; (eapply upd_keeps; [eassumption|]).
        -- intros x Hx. apply Hfree. lia.
        -- intros x Hx. apply free_at_app_l, Hf2. lia.
      * left. split_and!; [done|done|]. apply nofrag_new; [done|]. intros k' b Ekb.
        destruct u as [|[c v] u _] using rev_ind.
        { change (sizes []) with 0 in *. apply Enadj. lia. }
        apply Forall_app in Hu as [_ [Hv _]%Forall_cons_1]. red in Hv. cbn in Hv. subst v.
        rewrite app_comm_cons, app_assoc in Ekb. apply app_inj_tail in Ekb as [_ ?]. done.
Qed.

(** The blocks after joining with a free block behind. *)
Definition join_r (t : Z) (l2 : list blk) (t' : Z) (l : list blk) : Prop :=
  (l = l2 /\ t' = t /\ nofrag ((t, false) :: l2)) \/ (exists b, l2 = (b, false) :: l /\ t' = t + b).

Lemma layout_det m m' lo bs hi f f' e : layout m lo bs hi f e -> layout m' lo bs hi f' e -> f = f'.
Proof.
  revert lo f f'. induction bs as [|[s u] bs IH]; intros lo f f'; cbn [layout fst snd].
  - by intros [_ ->] [_ ->].
  - intros [_ H] [_ H']. destruct u; [by eapply IH|]. destruct H as [-> _], H' as [-> _]. done.
Qed.

Lemma link_back_ok m lo k t l2 hi fl nx :
  0 < lo -> hi < 2 ^ 32 -> mapped m lo hi -> layout m lo (k ++ (t, false) :: l2) hi fl NULL -> nofrag l2 ->
  ldw4 m (lo + sizes k + 4) = Some nx ->
  exists m' t' l, link_back 4 m (lo + sizes k) nx = Some m'
    /\ layout m' lo (k ++ (t', false) :: l) hi fl NULL /\ keeps m m' lo (k ++ (t', false) :: l)
    /\ mapped m' lo hi /\ join_r t l2 t' l.
Proof.
  intros Hlo Hhi Hm Hl Hnf Hnx. set (q := lo + sizes k) in *.
  pose proof (layout_positive _ _ _ _ _ _ Hl) as Hp. apply Forall_app in Hp as [Hpk Hp]. apply Forall_cons_1 in Hp as [Ht Hp2].
  cbn in Ht. pose proof (sizes_nonneg k Hpk). pose proof (sizes_nonneg l2 Hp2).
  pose proof (layout_hi _ _ _ _ _ _ Hl) as [Hh _]. rewrite sizes_app, sizes_cons in Hh.
  destruct (layout_free _ _ _ _ _ _ _ _ Hl) as (Hk & f' & Hn & Hr). fold q in Hk, Hn, Hr. rewrite Hnx in Hn. injection Hn as <-.
  pose proof (layout_block _ _ _ _ _ _ _ _ Hl) as (_ & Ht4 & Hs & Hd). fold q in Hs, Hd. cbn [fst snd] in *.
  unfold link_back, block_size. destruct l2 as [|[b u] l].
  - cbn [layout] in Hr. destruct Hr as [_ ->]. change (NULL =? NULL) with true. cbn iota. exists m, t, [].
    split_and!; [done|done|apply keeps_refl|done|]. by left.
  - apply Forall_cons_1 in Hp2 as [Hb Hp2]. cbn in Hb. pose proof (sizes_nonneg l Hp2). rewrite sizes_cons in Hh.
    destruct u.
    + (* a used block behind *)
      assert (nx = NULL \/ q + t < nx) as Hfar.
      { destruct (layout_first _ _ _ _ _ _ Hr) as [[_ ->]|(u & b' & l3 & E & Hu & ->)]; [by left|right].
        destruct u as [|[c v] u]; [done|]. cbn in E. injection E as <- <- ->. rewrite sizes_cons.
        apply Forall_app in Hp2 as [Hpu _]. pose proof (sizes_nonneg u Hpu). lia. }
      exists m, t, ((b, true) :: l). split; [|split_and!; [done|apply keeps_refl|done|left; by cbn]].
      destruct (Z.eqb_spec nx NULL); [done|]. rewrite Hs. cbn [mbind option_bind]. destruct (Z.eqb_spec (q + t) nx); [lia|done].
    + (* joined *)
      cbn [layout fst snd] in Hr. destruct Hr as ((_ & Hb4 & Hsb & Hdb) & -> & f2 & Hn2 & Hr). cbn [fst snd] in *.
      unfold NULL. destruct (Z.eqb_spec (q + t) 0); [lia|]. rewrite Hs. cbn [mbind option_bind]. rewrite Z.eqb_refl, Hsb.
      cbn [mbind option_bind]. rewrite ulong_small by lia. unfold set_block_size, block_next, set_block_next.
      destruct (stw_ok m q (t + b)) as (m1 & E1 & U1 & L1); [lia|apply (mapped_sub _ _ _ _ _ Hm); lia|].
      rewrite E1. cbn [mbind option_bind]. pose proof (upd_mapped _ _ _ _ _ _ U1 Hm) as M1.
      assert (ldw4 m1 (q + t + 4) = Some f2) as -> by (rewrite <- Hn2; apply ldw_ext; intros x Hx; apply U1; lia).
      cbn [mbind option_bind].
      assert (0 <= f2 < 2 ^ 32) as Hf2.
      { destruct (layout_first _ _ _ _ _ _ Hr) as [[_ ->]|(u & c & l3 & -> & _ & ->)]; [unfold NULL; lia|].
        apply Forall_app in Hp2 as [Hpu Hp3]. apply Forall_cons_1 in Hp3 as [? Hp3]. cbn in *.
        pose proof (sizes_nonneg u Hpu). pose proof (sizes_nonneg l3 Hp3). rewrite sizes_app, sizes_cons in Hh. lia. }
      destruct (stw_ok m1 (q + 4) f2 Hf2) as (m2 & E2 & U2 & L2); [apply (mapped_sub _ _ _ _ _ M1); lia|].
      rewrite E2. exists m2, (t + b), l. destruct U1 as [U1 U1'], U2 as [U2 U2'].
      split_and!; [done| | |eapply upd_mapped; [by split|done]|right; by exists b].
      * apply layout_app. exists q. split.
        { eapply layout_ext; [|exact Hk]. intros x Hx. rewrite U2, U1 by lia. done. }
        fold q. cbn [layout fst snd]. split.
        { split_and!; cbn [fst snd]; [lia| | |].
          - rewrite Z.add_mod, Ht4, Hb4 by lia. done.
          - rewrite <- L1. apply ldw_ext. intros x Hx. apply U2. lia.
          - rewrite U2, U1 by lia. rewrite <- Hdb. f_equal. lia. }
        split; [done|]. exists f2. split; [done|]. replace (q + (t + b)) with (q + t + b) by lia.
        eapply layout_ext; [|exact Hr]. intros x Hx. rewrite U2, U1 by lia. done.
      * eapply keeps_trans; (eapply upd_keeps; [by split|]); intros x Hx; apply free_at_intro; fold q; lia.
Qed.

(** ** The used blocks *)

Fixpoint used_list (lo : Z) (bs : list blk) : list (Z * Z) :=
  match bs with [] => [] | (s, u) :: bs' => (if u then [(lo, s)] else []) ++ used_list (lo + s) bs' end.

Lemma used_list_app lo l1 l2 : used_list lo (l1 ++ l2) = used_list lo l1 ++ used_list (lo + sizes l1) l2.
Proof.
  revert lo. induction l1 as [|[s u] l1 IH]; intros lo; cbn [app used_list].
  - change (sizes []) with 0. by rewrite Z.add_0_r.
  - rewrite IH, sizes_cons, <- app_assoc. do 3 f_equal. lia.
Qed.

Lemma used_list_split lo bs a s : (a, s) ∈ used_list lo bs -> exists l1 l2, bs = l1 ++ (s, true) :: l2 /\ a = lo + sizes l1.
Proof.
  revert lo. induction bs as [|[t u] bs IH]; intros lo; cbn [used_list]; [by intros ?%elem_of_nil|].
  intros [H|H]%elem_of_app.
  - destruct u; [|by apply elem_of_nil in H]. apply list_elem_of_singleton in H as [= -> ->].
    exists [], bs. split; [done|]. change (sizes []) with 0. lia.
  - apply IH in H as (l1 & l2 & -> & ->). exists ((t, u) :: l1), l2. split; [done|]. rewrite sizes_cons. lia.
Qed.

Lemma used_list_intro lo l1 s l2 : (lo + sizes l1, s) ∈ used_list lo (l1 ++ (s, true) :: l2).
Proof. rewrite used_list_app. cbn [used_list]. set_solver. Qed.

(** Two used blocks are the same or apart. *)
Lemma used_apart lo bs a s b t :
  positive_blocks bs -> (a, s) ∈ used_list lo bs -> (b, t) ∈ used_list lo bs -> (a = b /\ s = t) \/ a + s <= b \/ b + t <= a.
Proof.
  intros Hp (l1 & l2 & -> & ->)%used_list_split (k1 & k2 & E & ->)%used_list_split.
  destruct (sizes_split_le _ _ _ _ _ _ Hp E) as [[-> [= ->]]|H]; [by left|right]. cbn in H. lia.
Qed.

(** Nothing changed in the given used blocks and outside the heap. *)
Definition untouched (m m' : mem) (lo hi : Z) (ul : list (Z * Z)) : Prop :=
  (forall a t x, (a, t) ∈ ul -> a <= x < a + t -> m' !! x = m !! x)
  /\ (forall x, ~ (lo <= x < hi) -> m' !! x = m !! x) /\ (forall x, is_Some (m !! x) -> is_Some (m' !! x)).

Lemma keeps_untouched m m' lo hi bs :
  positive_blocks bs -> hi = lo + sizes bs -> keeps m m' lo bs -> untouched m m' lo hi (used_list lo bs).
Proof.
  intros Hp -> [K K']. split; [|split; [|done]].
  - intros a t x Hin Hx. apply K. apply used_list_split in Hin as (l1 & l2 & -> & ->). by apply used_not_free.
  - intros x Hx. apply K. intros (l1 & s & l2 & -> & Hx'). apply Hx. apply Forall_app in Hp as [Hp1 Hp2].
    apply Forall_cons_1 in Hp2 as [_ Hp2]. pose proof (sizes_nonneg l1 Hp1). pose proof (sizes_nonneg l2 Hp2).
    rewrite sizes_app, sizes_cons. lia.
Qed.

Lemma untouched_trans m1 m2 m3 lo hi ul : untouched m1 m2 lo hi ul -> untouched m2 m3 lo hi ul -> untouched m1 m3 lo hi ul.
Proof.
  intros (H & H' & H'') (K & K' & K''). split_and!; [|intros x Hx; by rewrite K', H'|auto].
  intros a t x Hin Hx. rewrite (K a t x), (H a t x); done.
Qed.

Lemma taken_used lo bs l1 s l2 :
  taken bs l1 s l2 -> exists A B, used_list lo bs = A ++ B /\ used_list lo (l1 ++ (s, true) :: l2) = A ++ (lo + sizes l1, s) :: B.
Proof.
  intros (k & t & -> & [[-> ->]|[-> _]]); rewrite !used_list_app; cbn [used_list app].
  - by eexists _, _.
  - exists (used_list lo k), (used_list (lo + sizes k + t) l2). split; [done|].
    rewrite sizes_app, sizes_cons, app_nil_r. change (sizes []) with 0. do 3 f_equal. lia.
Qed.

Lemma joined_used lo l1 s l2 k t t' l :
  join_l l1 s k t -> join_r t l2 t' l ->
  used_list lo (k ++ (t', false) :: l) = used_list lo l1 ++ used_list (lo + sizes l1 + s) l2.
Proof.
  intros Hl Hr. rewrite used_list_app. cbn [used_list app].
  assert (used_list lo k = used_list lo l1 /\ lo + sizes k + t = lo + sizes l1 + s) as [-> Ek].
  { destruct Hl as [(-> & -> & _)|(a & -> & ->)]; [done|]. rewrite used_list_app, sizes_app, sizes_cons. cbn [used_list app].
    rewrite app_nil_r. change (sizes []) with 0. split; [done|lia]. }
  destruct Hr as [(-> & -> & _)|(b & -> & ->)]; [by rewrite Ek|]. cbn [used_list app]. do 2 f_equal. lia.
Qed.

Lemma joined_ok l1 s l2 k t t' l :
  nofrag l1 -> nofrag l2 -> join_l l1 s k t -> join_r t l2 t' l ->
  nofrag (k ++ (t', false) :: l) /\ free_size (k ++ (t', false) :: l) = free_size l1 + s + free_size l2.
Proof.
  intros N1 N2 Hl Hr. split.
  - apply nofrag_cut. split.
    + destruct Hl as [(-> & -> & H)|(a & -> & ->)]; by eapply nofrag_size_r.
    + destruct Hr as [(-> & -> & H)|(b & -> & ->)]; by eapply nofrag_size_l.
  - rewrite free_size_app, free_size_cons. destruct Hl as [(-> & -> & _)|(a & -> & ->)];
      (destruct Hr as [(-> & -> & _)|(b & -> & ->)]); rewrite ?free_size_app, ?free_size_cons; change (free_size []) with 0; lia.
Qed.

Lemma nofrag_parts l1 b l2 : nofrag (l1 ++ b :: l2) -> nofrag l1 /\ nofrag l2.
Proof.
  intros H. apply nofrag_cut in H as [H1 H2]. split; [|destruct l2; [done|apply H2]].
  destruct l1 as [|c l1 _] using rev_ind; [done|]. rewrite <- app_assoc in H1. cbn in H1. by apply nofrag_cut in H1 as [H1 _].
Qed.

(** What linking writes. *)
Lemma stw_outside m m' a v x : stw4 m a v = Some m' -> ~ (a <= x < a + 4) -> m' !! x = m !! x.
Proof.
  unfold stw. generalize (le_bytes_len (Z.to_nat 4) v). generalize (le_bytes (Z.to_nat 4) v). intros l Hl E Hx.
  destruct l as [|b0 [|b1 [|b2 [|b3 [|]]]]]; try (exfalso; revert Hl; cbn; lia). cbn [st_bytes] in E.
  repeat (apply bind_Some in E as (? & _ & E)). injection E as <-. rewrite !lookup_insert_ne by lia. done.
Qed.

Lemma link_front_outside m fl fb pre nx m' fl' q x :
  link_front 4 m fl fb pre nx = Some (m', fl', q) -> ~ (fb + 4 <= x < fb + 8) -> ~ (pre <= x < pre + 8) -> m' !! x = m !! x.
Proof.
  unfold link_front, set_block_next, set_block_size. intros (m1 & E1 & E)%bind_Some H1 H2.
  rewrite <- (stw_outside _ _ _ _ x E1) by lia. destruct (pre =? NULL); [by injection E as -> _|].
  apply bind_Some in E as (ps & _ & E). destruct (pre + ps =? fb); repeat (apply bind_Some in E as (? & ? & E)); injection E as <- _ _;
    (eapply stw_outside; [eassumption|lia]).
Qed.

Lemma link_back_outside m pre nx m' x : link_back 4 m pre nx = Some m' -> ~ (pre <= x < pre + 8) -> m' !! x = m !! x.
Proof.
  unfold link_back, set_block_next, set_block_size. intros E Hx. destruct (nx =? NULL); [by injection E as ->|].
  apply bind_Some in E as (ps & _ & E). destruct (pre + ps =? nx); [|by injection E as ->].
  apply bind_Some in E as (s & _ & E). apply bind_Some in E as (m1 & E1 & E). apply bind_Some in E as (n & _ & E).
  rewrite (stw_outside _ _ _ _ x E) by lia. eapply stw_outside; [eassumption|lia].
Qed.

(** A released block is marked free, also inside a joined one. *)
Lemma freed_dog m1 m2 m3 lo l1 s k t t' l hi f fl fl' nx :
  0 < lo -> positive_blocks l1 -> 8 < s -> ldw4 m1 (lo + sizes l1) = Some s -> m1 !! (lo + sizes l1 + s - 1) = Some MEM_BLOCK_STAT_FREE ->
  link_front 4 m1 f (lo + sizes l1) (last_free lo l1) nx = Some (m2, fl, lo + sizes k) ->
  link_back 4 m2 (lo + sizes k) nx = Some m3 -> join_l l1 s k t ->
  layout m3 lo (k ++ (t', false) :: l) hi fl' NULL -> dog_get 4 m3 (lo + sizes l1) = Some MEM_BLOCK_STAT_FREE.
Proof.
  intros Hlo Hp Hs Hw Hd E2 E3 [(-> & _ & _)|(a & -> & _)] L3; unfold dog_get, block_size.
  { apply layout_block in L3 as (_ & _ & Hw3 & Hd3). rewrite Hw3. exact Hd3. }
  apply Forall_app in Hp as [Hpk Ha]. rewrite last_free_app in E2 by (done || constructor). apply Forall_cons_1 in Ha as [Ha _]. cbn in Ha. pose proof (sizes_nonneg k Hpk).
  rewrite sizes_app, sizes_cons in *. change (sizes []) with 0 in *.
  assert (forall x, lo + (sizes k + (a + 0)) <= x < lo + (sizes k + (a + 0)) + 4 \/ lo + (sizes k + (a + 0)) + 8 <= x -> m3 !! x = m1 !! x) as Hx.
  { intros x Hx. rewrite (link_back_outside _ _ _ _ x E3) by lia. eapply link_front_outside; [exact E2|lia..]. }
  rewrite (ldw_ext m1 m3), Hw by (intros x ?; apply Hx; lia). cbn [mbind option_bind]. rewrite Hx by lia. done.
Qed.

Lemma dealloc_ok m h lo hi l1 s l2 fuel gf :
  heap_ok m h lo hi (l1 ++ (s, true) :: l2) -> (length l1 < fuel)%nat ->
  exists m' h' gf' k t l, MEM_Deallocate 4 fuel m h gf (lo + sizes l1 + 4) = Some (m', h', gf')
    /\ base h' = base h /\ size h' = size h
    /\ heap_ok m' h' lo hi (k ++ (t, false) :: l)
    /\ untouched m m' lo hi (used_list lo l1 ++ used_list (lo + sizes l1 + s) l2)
    /\ used_list lo (k ++ (t, false) :: l) = used_list lo l1 ++ used_list (lo + sizes l1 + s) l2
    /\ dog_get 4 m' (lo + sizes l1) = Some MEM_BLOCK_STAT_FREE.
Proof.
  intros H Hf. set (p := lo + sizes l1). pose proof (hk_layout _ _ _ _ _ H) as Hl.
  pose proof (hk_lo _ _ _ _ _ H) as [Hlo Hlo4]. pose proof (hk_hi _ _ _ _ _ H) as Hhi. pose proof (hk_mapped _ _ _ _ _ H) as Hm.
  pose proof (heap_positive _ _ _ _ _ H) as Hp. pose proof Hp as Hp'. apply Forall_app in Hp' as [Hp1 Hp2].
  apply Forall_cons_1 in Hp2 as [Hs8 Hp2]. cbn in Hs8. pose proof (sizes_nonneg l1 Hp1). pose proof (sizes_nonneg l2 Hp2).
  pose proof (heap_hi _ _ _ _ _ H) as Hh. rewrite sizes_app, sizes_cons in Hh.
  destruct (nofrag_parts _ _ _ (hk_nofrag _ _ _ _ _ H)) as [N1 N2].
  pose proof (layout_block _ _ _ _ _ _ _ _ Hl) as (_ & Hs4 & Hs & Hd). fold p in Hs, Hd. cbn [fst snd] in *.
  apply layout_app in Hl as (fm & Hl1 & Hl2). fold p in Hl1, Hl2. cbn [layout fst snd] in Hl2. destruct Hl2 as [_ Hl2].
  unfold MEM_Deallocate, NULL, MEM_BLOCK_HEAD_SIZE. destruct (Z.eqb_spec (p + 4) 0); [lia|].
  replace (p + 4 - 4) with p by lia. unfold dog_get, block_size. rewrite Hs. cbn [mbind option_bind]. rewrite Hd.
  cbn [mbind option_bind]. change (MEM_BLOCK_STAT_USE =? MEM_BLOCK_STAT_USE) with true. cbn [negb].
  destruct (dog_set_ok m p s MEM_BLOCK_STAT_FREE Hs Hs8) as (m1 & E1 & U1 & D1); [apply (mapped_sub _ _ _ _ _ Hm); lia|].
  rewrite E1. cbn [mbind option_bind]. pose proof (upd_mapped _ _ _ _ _ _ U1 Hm) as M1.
  assert (ldw4 m1 p = Some s) as Hs1 by (rewrite (ldw_ext m m1); [done|]; intros x Hx; apply U1; lia).
  rewrite Hs1. cbn [mbind option_bind].
  assert (layout m1 lo l1 p (free_list h) fm) as K1 by (eapply layout_ext; [|exact Hl1]; intros x Hx; apply U1; lia).
  assert (layout m1 (p + s) l2 hi fm NULL) as K2 by (eapply layout_ext; [|exact Hl2]; intros x Hx; apply U1; lia).
  assert (fm = NULL \/ p <= fm) as Hfm.
  { destruct (layout_first _ _ _ _ _ _ K2) as [[_ ->]|(u & b & l3 & -> & _ & ->)]; [by left|right].
    apply Forall_app in Hp2 as [Hpu _]. pose proof (sizes_nonneg u Hpu). lia. }
  assert (place_loop 4 fuel m1 p 0 (free_list h) = Some (last_free lo l1, fm)) as ->.
  { apply (place_loop_ok m1 lo l1 fm fuel [] l1 (free_list h) p Hlo); [done|constructor| |done|done|done].
    change (sizes []) with 0. by rewrite Z.add_0_r. }
  cbn [mbind option_bind].
  destruct (link_front_ok m1 lo l1 p (free_list h) fm s l2 hi Hlo Hhi M1 eq_refl K1 Hs1 Hs8 Hs4 D1 K2 N1)
    as (m2 & fl & k & t & E2 & L2 & Kp2 & M2 & J1).
  rewrite E2. cbn [mbind option_bind].
  destruct (layout_free _ _ _ _ _ _ _ _ L2) as (_ & f' & Hn & Hr).
  assert (f' = fm) as ->.
  { assert (lo + sizes k + t = p + s) as Ek.
    { destruct J1 as [(-> & -> & _)|(a & E & ->)]; [done|]. unfold p. rewrite E, sizes_app, sizes_cons. change (sizes []) with 0. lia. }
    rewrite Ek in Hr. by eapply layout_det. }
  destruct (link_back_ok m2 lo k t l2 hi fl fm Hlo Hhi M2 L2 N2 Hn) as (m3 & t' & l & E3 & L3 & Kp3 & M3 & J2).
  rewrite E3. cbn [mbind option_bind]. eexists m3, _, _, k, t', l.
  destruct (joined_ok _ _ _ _ _ _ _ N1 N2 J1 J2) as [Nf Fs].
  split; [done|]. cbn [base size]. split; [done|]. split; [done|].
  fold p. pose proof (joined_used lo _ _ _ _ _ _ _ J1 J2) as Hul. fold p in Hul.
  pose proof (layout_positive _ _ _ _ _ _ L2) as Hq2. pose proof (layout_positive _ _ _ _ _ _ L3) as Hq3.
  assert (used_list lo (k ++ (t, false) :: l2) = used_list lo l1 ++ used_list (p + s) l2) as Hul2.
  { rewrite used_list_app. cbn [used_list app]. rewrite used_list_app in Hul. cbn [used_list app] in Hul. rewrite <- Hul.
    destruct J2 as [(-> & -> & _)|(b & -> & ->)]; [done|]. cbn [used_list app]. do 2 f_equal. lia. }
  assert (untouched m m3 lo hi (used_list lo l1 ++ used_list (p + s) l2)) as Hun.
  { eapply untouched_trans; [|eapply untouched_trans].
    - split; [|split; [|apply U1]].
      + intros a b x Hin Hx. apply U1. intros Hx2. apply elem_of_app in Hin as [Hin|Hin].
        * apply used_list_split in Hin as (c1 & c2 & -> & ->). unfold p in *. rewrite sizes_app, sizes_cons in *.
          apply Forall_app in Hp1 as [_ Hp1]. apply Forall_cons_1 in Hp1 as [_ Hp1]. pose proof (sizes_nonneg c2 Hp1). lia.
        * apply used_list_split in Hin as (c1 & c2 & -> & ->). apply Forall_app in Hp2 as [Hp2 _].
          pose proof (sizes_nonneg c1 Hp2). lia.
      + intros x Hx. apply U1. lia.
    - rewrite <- Hul2. apply keeps_untouched; [done| |done]. by apply layout_hi in L2 as [? _].
    - rewrite <- Hul. apply keeps_untouched; [done| |done]. by apply layout_hi in L3 as [? _]. }
  split_and!; [|done|done|by eapply freed_dog]. split; cbn [free_list free]; [done|done|done|done| |done].
  rewrite (hk_free _ _ _ _ _ H), ulong_small; rewrite free_size_app, free_size_cons.
  - rewrite Fs. lia.
  - pose proof (free_size_le l1 Hp1). pose proof (free_size_le l2 Hp2). lia.
Qed.
