(* ===== verification/MemClient.v ===== *)
(** The heap of MemHeap.v as its clients see it: the buffers that are live and
    what they hold.  Every call implements a map from addresses to contents. *)
From Stdlib Require Import ZArith Lia.
From stdpp Require Import base tactics option list numbers gmap.
From S2P Require Import Prelude MemHeap.

Local Open Scope Z_scope.

(** * Contents *)

Lemma ld_bytes_spec n m a l :
  ld_bytes n m a = Some l <-> length l = n /\ forall i, (i < n)%nat -> m !! (a + Z.of_nat i) = l !! i.
Proof.
  revert a l. induction n as [|n IH]; intros a l; cbn [ld_bytes].
  - split; [intros [= <-]; split; [done|lia]|]. intros [Hl _]. by destruct l.
  - split.
    + intros (b & Hb & E)%bind_Some. apply bind_Some in E as (l' & Hl' & [= <-]). apply IH in Hl' as [Hl' Hi].
      split; [cbn; lia|]. intros [|i] Hlt; [cbn; by rewrite Z.add_0_r|]. cbn [lookup list_lookup].
      replace (a + Z.of_nat (S i)) with (a + 1 + Z.of_nat i) by lia. by rewrite Hi by lia.
    + intros [Hl Hi]. destruct l as [|b l]; [done|]. pose proof (Hi 0%nat ltac:(lia)) as H0. rewrite Z.add_0_r in H0. rewrite H0.
      cbn [mbind option_bind lookup list_lookup]. assert (ld_bytes n m (a + 1) = Some l) as ->; [|done].
      apply IH. split; [cbn in Hl; lia|]. intros i Hlt.
      replace (a + 1 + Z.of_nat i) with (a + Z.of_nat (S i)) by lia. by rewrite Hi by lia.
Qed.

Lemma ld_bytes_mapped n m a : mapped m a (a + Z.of_nat n) -> exists l, ld_bytes n m a = Some l /\ length l = n.
Proof.
  revert a. induction n as [|n IH]; intros a Hm; [by exists []|]. cbn [ld_bytes]. destruct (Hm a) as [b ->]; [lia|].
  destruct (IH (a + 1)) as (l & -> & Hl); [intros x Hx; apply Hm; lia|]. exists (b :: l). cbn. split; [done|lia].
Qed.

Lemma st_bytes_spec l m a :
  mapped m a (a + zlen l) ->
  exists m', st_bytes l m a = Some m' /\ upd m m' a (a + zlen l)
    /\ forall i, (i < length l)%nat -> m' !! (a + Z.of_nat i) = l !! i.
Proof.
  intros Hm. destruct (st_bytes_ok l m a Hm) as (m' & E & U & Hl). exists m'. split_and!; [done|done|].
  apply ld_bytes_spec in Hl as [_ Hl]. exact Hl.
Qed.

(** A change of the payload of a used block. *)
Lemma payload_ok m m' h lo hi bs a s x y :
  heap_ok m h lo hi bs -> (a, s) ∈ used_list lo bs -> a + 4 <= x -> y <= a + s - 1 -> upd m m' x y -> heap_ok m' h lo hi bs.
Proof.
  intros [Hl Hm Hlo Hhi Hf Hn] Hin Hx Hy U. split; try done; [|by eapply upd_mapped].
  destruct U as [U _]. apply used_list_split in Hin as (l1 & l2 & -> & ->).
  apply layout_app in Hl as (fm & H1 & H2). pose proof (layout_positive _ _ _ _ _ _ H2) as Hp. apply Forall_cons_1 in Hp as [Hs _].
  cbn in Hs. cbn [layout fst snd] in H2. destruct H2 as [(Hb1 & Hb2 & Hb3 & Hb4) H2]. cbn [fst snd] in *.
  apply layout_app. exists fm. split.
  - eapply layout_ext; [|exact H1]. intros z Hz. apply U. lia.
  - cbn [layout fst snd]. split.
    + split_and!; cbn [fst snd]; [done|done| |].
      * rewrite <- Hb3. apply ldw_ext. intros z Hz. apply U. lia.
      * rewrite U by lia. done.
    + eapply layout_ext; [|exact H2]. intros z Hz. apply U. lia.
Qed.

(** ** The live buffers: address and contents *)

Abbreviation buffers := (gmap Z (list Z)).

Record live_ok (m : mem) (lo : Z) (bs : list blk) (live : buffers) : Prop := {
  lv_block p c : live !! p = Some c -> exists s, (p - 4, s) ∈ used_list lo bs /\ zlen c + 5 <= s /\ ld_bytes (length c) m p = Some c;
  lv_all a s : (a, s) ∈ used_list lo bs -> is_Some (live !! (a + 4))
}.

(** A new buffer of [n] bytes at [p]: aligned, in the heap and apart from the others. *)
Definition apart (lo hi : Z) (live : buffers) (p n : Z) : Prop :=
  lo < p /\ p + n < hi /\ p mod 4 = 0 /\ live !! p = None /\ forall q d, live !! q = Some d -> p + n < q \/ q + zlen d < p.

Lemma content_keep m m' a s p n c :
  (forall x, a <= x < a + s -> m' !! x = m !! x) -> p = a + 4 -> Z.of_nat n + 5 <= s ->
  ld_bytes n m p = Some c -> ld_bytes n m' p = Some c.
Proof. intros H -> Hn <-. apply ld_bytes_ext. intros x Hx. apply H. lia. Qed.

Lemma zlen_length {A} (l : list A) : Z.of_nat (length l) = zlen l.
Proof. done. Qed.

Lemma live_alloc m m' h' lo hi bs l1 s l2 live n :
  positive_blocks bs -> live_ok m lo bs live -> heap_ok m' h' lo hi (l1 ++ (s, true) :: l2) -> keeps m m' lo bs -> taken bs l1 s l2 ->
  0 <= n -> n + 5 <= s ->
  apart lo hi live (lo + sizes l1 + 4) n
  /\ exists c, zlen c = n /\ ld_bytes (Z.to_nat n) m' (lo + sizes l1 + 4) = Some c
       /\ live_ok m' lo (l1 ++ (s, true) :: l2) (<[lo + sizes l1 + 4 := c]> live).
Proof.
  intros Hpb Hlv H K T Hn Hns. set (p := lo + sizes l1 + 4).
  pose proof (heap_positive _ _ _ _ _ H) as Hp. pose proof (heap_hi _ _ _ _ _ H) as Hh.
  destruct (taken_used lo _ _ _ _ T) as (UA & UB & Eu & Eu'). rewrite sizes_app, sizes_cons in Hh.
  pose proof Hp as Hp'. apply Forall_app in Hp' as [Hp1 Hp2]. apply Forall_cons_1 in Hp2 as [Hs Hp2]. cbn in Hs.
  pose proof (sizes_nonneg l1 Hp1). pose proof (sizes_nonneg l2 Hp2).
  assert (forall q d, live !! q = Some d -> p + n < q \/ q + zlen d < p) as Hap.
  { intros q d Hq. destruct (lv_block _ _ _ _ Hlv q d Hq) as (t & Hin & Ht & _).
    assert ((q - 4, t) ∈ used_list lo (l1 ++ (s, true) :: l2)) as Hin' by (rewrite Eu'; rewrite Eu in Hin; set_solver).
    destruct (used_apart lo _ _ _ _ _ Hp Hin' (used_list_intro lo l1 s l2)) as [[E _]|[E|E]]; [|unfold p; lia..].
    exfalso. (* the block was free *)
    destruct T as (k & u & -> & Tc). apply used_list_split in Hin as (k1 & k2 & Ek & Eq).
    destruct (sizes_split_le k (u, false) l2 k1 (t, true) k2 Hpb Ek) as [[_ ?]|Hd]; [done|]. cbn in Hd.
    assert (8 < t) as Ht8 by (rewrite Ek in Hpb; by apply Forall_app in Hpb as [_ [? _]%Forall_cons_1]).
    destruct Tc as [[-> ->]|[-> Hu]]; [lia|]. rewrite sizes_app, sizes_cons in E. change (sizes []) with 0 in E. lia. }
  assert (live !! p = None) as Hnone.
  { destruct (live !! p) as [d|] eqn:Ed; [|done]. destruct (Hap p d Ed); pose proof (zlen_nonneg d); lia. }
  split.
  { split_and!; [unfold p; lia|unfold p; lia| |done|done]. destruct (hk_lo _ _ _ _ _ H) as [_ Hlo4].
    assert (sizes l1 mod 4 = 0) as Hs4.
    { pose proof (hk_layout _ _ _ _ _ H) as Hl. apply layout_app in Hl as (fm & Hl & _). clear -Hl. revert Hl.
      generalize (lo + sizes l1), (free_list h'). revert lo. induction l1 as [|[t u] l1 IH]; intros lo hi f; [done|].
      cbn [layout fst snd]. intros [(_ & Ht & _) Hl]. cbn in Ht. rewrite sizes_cons, Z.add_mod by lia.
      assert (sizes l1 mod 4 = 0) as -> by (destruct u; [by eapply IH|]; destruct Hl as (_ & f' & _ & Hl); by eapply IH).
      by rewrite Ht. }
    unfold p. rewrite (Z.add_mod _ 4), (Z.add_mod lo), Hlo4, Hs4 by lia. done. }
  destruct (ld_bytes_mapped (Z.to_nat n) m' p) as (c & Ec & Hc).
  { apply (mapped_sub _ _ _ _ _ (hk_mapped _ _ _ _ _ H)); unfold p; lia. }
  exists c. assert (zlen c = n) as Hzc by (unfold zlen; lia). split_and!; [done|done|]. split.
  - intros q d Hq. destruct (decide (q = p)) as [->|Hqp].
    + rewrite lookup_insert_eq in Hq. injection Hq as <-. exists s. rewrite Hc. split_and!; [|lia|done].
      replace (p - 4) with (lo + sizes l1) by (unfold p; lia). apply used_list_intro.
    + rewrite lookup_insert_ne in Hq by done. destruct (lv_block _ _ _ _ Hlv q d Hq) as (t & Hin & Ht & Hd).
      exists t. split_and!; [rewrite Eu'; rewrite Eu in Hin; set_solver|done|].
      eapply (content_keep m m' (q - 4) t); [|lia|rewrite zlen_length; lia|done].
      destruct (keeps_untouched m m' lo _ bs Hpb eq_refl K) as (Hk & _). intros x Hx. by eapply Hk.
  - intros a t Hin. rewrite Eu' in Hin. apply elem_of_app in Hin as [Hin|Hin].
    + rewrite lookup_insert_is_Some. destruct (decide (p = a + 4)); [by left|right]. split; [done|].
      apply (lv_all _ _ _ _ Hlv a t). rewrite Eu. set_solver.
    + apply elem_of_cons in Hin as [[= -> ->]|Hin]; [unfold p; rewrite lookup_insert_eq; by eexists|].
      rewrite lookup_insert_is_Some. destruct (decide (p = a + 4)); [by left|right]. split; [done|].
      apply (lv_all _ _ _ _ Hlv a t). rewrite Eu. set_solver.
Qed.

Lemma live_free m m' h lo hi l1 s l2 bs' live :
  heap_ok m h lo hi (l1 ++ (s, true) :: l2) -> live_ok m lo (l1 ++ (s, true) :: l2) live ->
  untouched m m' lo hi (used_list lo l1 ++ used_list (lo + sizes l1 + s) l2) ->
  used_list lo bs' = used_list lo l1 ++ used_list (lo + sizes l1 + s) l2 ->
  live_ok m' lo bs' (delete (lo + sizes l1 + 4) live).
Proof.
  intros H Hlv (Hu & _) Eu. set (p := lo + sizes l1 + 4). pose proof (heap_positive _ _ _ _ _ H) as Hp.
  assert (forall x, x ∈ used_list lo (l1 ++ (s, true) :: l2)
            <-> x = (lo + sizes l1, s) \/ x ∈ used_list lo bs') as Hin.
  { intros x. rewrite Eu, used_list_app. cbn [used_list]. set_solver. }
  assert (forall a t, (a, t) ∈ used_list lo bs' -> a <> lo + sizes l1) as Hne.
  { intros a t Ha ->. rewrite Eu in Ha. apply Forall_app in Hp as [Hp1 Hp2]. apply Forall_cons_1 in Hp2 as [Hs Hp2]. cbn in Hs.
    apply elem_of_app in Ha as [Ha|Ha]; apply used_list_split in Ha as (k1 & k2 & -> & E).
    - rewrite sizes_app, sizes_cons in E. apply Forall_app in Hp1 as [_ Hp1]. apply Forall_cons_1 in Hp1 as [Ht Hp1]. cbn in Ht.
      pose proof (sizes_nonneg k2 Hp1). lia.
    - apply Forall_app in Hp2 as [Hp2 _]. pose proof (sizes_nonneg k1 Hp2). lia. }
  split.
  - intros q d Hq. apply lookup_delete_Some in Hq as [Hqp Hq]. destruct (lv_block _ _ _ _ Hlv q d Hq) as (t & Ht & Hd & Hc).
    apply Hin in Ht as [[= E _]|Ht]; [unfold p in Hqp; lia|]. exists t. split_and!; [done|done|].
    eapply (content_keep m m' (q - 4) t); [|lia|rewrite zlen_length; lia|done].
    intros x Hx. rewrite Eu in Ht. by eapply Hu.
  - intros a t Ha. assert (a + 4 <> p) as Hap by (unfold p; specialize (Hne a t Ha); lia).
    rewrite lookup_delete_ne by done. apply (lv_all _ _ _ _ Hlv a t). apply Hin. by right.
Qed.

Lemma used_pos lo bs a s : positive_blocks bs -> (a, s) ∈ used_list lo bs -> 8 < s /\ lo <= a /\ a + s <= lo + sizes bs.
Proof.
  intros Hp (l1 & l2 & -> & ->)%used_list_split. apply Forall_app in Hp as [Hp1 Hp2]. apply Forall_cons_1 in Hp2 as [Hs Hp2].
  cbn in Hs. pose proof (sizes_nonneg l1 Hp1). pose proof (sizes_nonneg l2 Hp2). rewrite sizes_app, sizes_cons. lia.
Qed.

(** Writing into a buffer; the new contents are what is read there. *)
Lemma live_write m m' h lo hi bs live p c s x y c' :
  heap_ok m h lo hi bs -> live_ok m lo bs live -> live !! p = Some c -> (p - 4, s) ∈ used_list lo bs ->
  p <= x -> y <= p + s - 5 -> upd m m' x y -> zlen c' + 5 <= s -> ld_bytes (length c') m' p = Some c' ->
  heap_ok m' h lo hi bs /\ live_ok m' lo bs (<[p := c']> live).
Proof.
  intros H Hlv Hp Hin Hx Hy U Hc' Hl. split; [eapply payload_ok; [done|exact Hin| | |exact U]; lia|].
  pose proof (heap_positive _ _ _ _ _ H) as Hpos. destruct U as [U _]. split.
  - intros q d Hq. destruct (decide (q = p)) as [->|Hqp].
    + rewrite lookup_insert_eq in Hq. injection Hq as <-. by exists s.
    + rewrite lookup_insert_ne in Hq by done. destruct (lv_block _ _ _ _ Hlv q d Hq) as (t & Ht & Hd & Hld).
      exists t. split_and!; [done|done|]. rewrite (ld_bytes_ext _ m m'); [done|]. intros z Hz. rewrite zlen_length in Hz.
      destruct (used_apart lo bs _ _ _ _ Hpos Hin Ht) as [[E _]|[E|E]]; [lia|apply U; lia..].
  - intros a t Ha. rewrite lookup_insert_is_Some. destruct (decide (p = a + 4)); [by left|right].
    split; [done|]. by apply (lv_all _ _ _ _ Hlv a t).
Qed.

Lemma live_used_block m lo bs live p c :
  live_ok m lo bs live -> live !! p = Some c ->
  exists l1 s l2, bs = l1 ++ (s, true) :: l2 /\ p = lo + sizes l1 + 4 /\ zlen c + 5 <= s /\ ld_bytes (length c) m p = Some c.
Proof.
  intros Hlv Hp. destruct (lv_block _ _ _ _ Hlv p c Hp) as (s & Hin & Hs & Hc).
  apply used_list_split in Hin as (l1 & l2 & -> & E). exists l1, s, l2. split_and!; [done|lia|done|done].
Qed.

Lemma blocks_fuel bs : positive_blocks bs -> (length bs <= Z.to_nat (sizes bs))%nat.
Proof.
  intros H. induction H as [|[s u] bs Hs Hp IH]; [apply Nat.le_0_l|]. rewrite sizes_cons. cbn in Hs |- *.
  pose proof (sizes_nonneg bs Hp). lia.
Qed.

(** ** The calls *)

Section Calls.
Context (fuel : nat) (i lo hi : Z) (Hfuel : (Z.to_nat (hi - lo) < fuel)%nat).

(** Heap [i] lies in [[lo, hi)]. *)
Definition has_heap (st : heap_state) (h : MEM_Heap_t) : Prop :=
  rd (mem_heap_list st) i = Some h /\ ALIGN_UP 4 4 (base h) = lo /\ ALIGN_DOWN 4 (ulong 4 (base h + size h)) = hi.

(** Heap [i] holds the buffers. *)
Definition holds (st : heap_state) (live : buffers) : Prop :=
  exists h bs, has_heap st h /\ heap_ok (memory st) h lo hi bs /\ live_ok (memory st) lo bs live.

Lemma heap_fuel m h bs : heap_ok m h lo hi bs -> (length bs < fuel)%nat.
Proof.
  intros H. pose proof (blocks_fuel bs (heap_positive _ _ _ _ _ H)). rewrite (heap_hi _ _ _ _ _ H) in Hfuel.
  replace (lo + sizes bs - lo) with (sizes bs) in Hfuel by lia. lia.
Qed.

Lemma set_heap_ok st m h h0 gf gw :
  has_heap st h0 -> base h = base h0 -> size h = size h0 ->
  exists st', set_heap st i m h gf gw = Some st' /\ has_heap st' h /\ memory st' = m.
Proof.
  intros (Hr & Eb & Es) Hb Hs. unfold set_heap, wr. unfold rd in Hr. destruct (Z.leb_spec 0 i); [|done].
  pose proof (lookup_lt_Some _ _ _ Hr).
  destruct (Z.ltb_spec i (zlen (mem_heap_list st))) as [|Hge]; [|unfold zlen in Hge; lia]. cbn [andb mbind option_bind].
  eexists. split; [done|]. cbn. split; [|done]. split; [|by rewrite Hb, Hs]. unfold rd. decide_bool. by apply list_lookup_insert_eq.
Qed.

(** [n] bytes may be refused: none asked for, other buffers live, or a heap too small. *)
Definition refusable (live : buffers) (n : Z) : Prop := n = 0 \/ live <> ∅ \/ hi - lo < Z.max n 4 + 8.

Lemma all_free bs : used_list lo bs = [] -> nofrag bs -> bs = [] \/ exists s, bs = [(s, false)].
Proof.
  intros Hu Hn. destruct bs as [|[s u] bs]; [by left|right]. destruct u; [done|]. cbn [used_list] in Hu.
  destruct bs as [|[t u] bs]; [by exists s|]. destruct Hn as [Hn _]. cbn in Hn. subst u. done.
Qed.

Lemma refused m h bs live n :
  heap_ok m h lo hi bs -> live_ok m lo bs live -> 0 <= n ->
  n = 0 \/ block_need 4 4 (Z.max n 4) < n \/ too_small (block_need 4 4 (Z.max n 4)) bs -> refusable live n.
Proof.
  intros H Hlv Hn Hc. unfold refusable. destruct (decide (live = ∅)) as [->|]; [|by right; left].
  destruct (Z.lt_ge_cases (hi - lo) (Z.max n 4 + 8)) as [|Hge]; [by right; right|]. left.
  pose proof (hk_hi _ _ _ _ _ H). pose proof (hk_lo _ _ _ _ _ H).
  assert (n = 0 \/ 0 < n) as [|Hpos] by lia; [done|exfalso].
  assert (block_need 4 4 (Z.max n 4) <= Z.max n 4 + 8 /\ Z.max n 4 <= block_need 4 4 (Z.max n 4)) as [Hb1 Hb2].
  { pose proof (Z.mul_div_le (Z.max n 4 + 4) 4). pose proof (Z.mul_succ_div_gt (Z.max n 4 + 4) 4).
    unfold block_need, MEM_BLOCK_HEAD_SIZE. rewrite (ulong_small (_ + 1)), ALIGN_UP_4 by lia.
    replace (Z.max n 4 + 1 + 3) with (Z.max n 4 + 4) by lia. rewrite ulong_small by lia. lia. }
  destruct Hc as [?|[?|Hsm]]; [lia..|].
  assert (used_list lo bs = []) as Hu.
  { destruct (used_list lo bs) as [|[a s] l] eqn:E; [done|]. destruct (lv_all _ _ _ _ Hlv a s) as [c Hc]; [rewrite E; by left|].
    by rewrite lookup_empty in Hc. }
  pose proof (heap_hi _ _ _ _ _ H) as Hh.
  destruct (all_free bs Hu (hk_nofrag _ _ _ _ _ H)) as [->|[s ->]]; [cbn in Hh; lia|].
  apply Forall_cons_1 in Hsm as [Hsm _]. specialize (Hsm eq_refl). cbn in Hsm, Hh. lia.
Qed.

Lemma alloc_in_ok st live n :
  holds st live -> 0 <= n < 2 ^ 32 ->
  exists p st', alloc_in 4 4 fuel st i n = Some (p, st')
    /\ ((p = NULL /\ holds st' live /\ refusable live n)
        \/ exists h' bs' s c, has_heap st' h' /\ heap_ok (memory st') h' lo hi bs'
             /\ (p - 4, s) ∈ used_list lo bs' /\ n + 5 <= s /\ block_need 4 4 (Z.max n 4) <= s
             /\ apart lo hi live p n /\ zlen c = n /\ live_ok (memory st') lo bs' (<[p := c]> live)
             /\ (forall q d, live !! q = Some d -> block_size 4 (memory st') (q - 4) = block_size 4 (memory st) (q - 4))).
Proof.
  intros (h & bs & Hr & H & Hlv) Hn. unfold alloc_in. pose proof Hr as [Hr0 _]. rewrite Hr0. cbn [mbind option_bind].
  destruct (alloc_ok (memory st) h lo hi bs fuel (s_heap_free_size st) (s_heap_free_size_watermark st) n H Hn (heap_fuel _ _ _ H))
    as (p & m' & h' & gf & gw & E & Eb & Esz & Hcase).
  rewrite E. cbn [mbind option_bind]. destruct (set_heap_ok st m' h' h gf gw Hr Eb Esz) as (st' & Es & Hr' & Em).
  rewrite Es. cbn [mbind option_bind]. exists p, st'. split; [done|].
  destruct Hcase as [(-> & -> & H' & Hno)|(l1 & s & l2 & -> & Hs & Hneed & H' & K & T)].
  - left. split; [done|]. split; [|by eapply refused; [exact H|..]; [|lia|]]. exists h', bs. rewrite Em. by split_and!.
  - right. pose proof (live_alloc (memory st) m' h' lo hi bs l1 s l2 live n (heap_positive _ _ _ _ _ H) Hlv H' K T ltac:(lia) Hs)
      as (Hap & c & Hc & _ & Hlv').
    exists h', (l1 ++ (s, true) :: l2), s, c. rewrite Em. split_and!; try done.
    + replace (lo + sizes l1 + 4 - 4) with (lo + sizes l1) by lia. apply used_list_intro.
    + intros q d Hq. destruct (lv_block _ _ _ _ Hlv q d Hq) as (t & Hin & Ht & _). pose proof (zlen_nonneg d). apply ldw_ext.
      destruct (keeps_untouched (memory st) m' lo hi bs (heap_positive _ _ _ _ _ H) (heap_hi _ _ _ _ _ H) K) as (Hk & _).
      intros x Hx. apply (Hk _ _ x Hin). lia.
Qed.

Lemma free_in_ok st live p c :
  holds st live -> live !! p = Some c ->
  exists st', free_in 4 fuel st i p = Some st' /\ holds st' (delete p live)
    /\ dog_get 4 (memory st') (p - 4) = Some MEM_BLOCK_STAT_FREE.
Proof.
  intros (h & bs & Hr & H & Hlv) Hp. destruct (live_used_block _ _ _ _ _ _ Hlv Hp) as (l1 & s & l2 & -> & -> & Hs & Hc).
  unfold free_in. pose proof Hr as [Hr0 _]. rewrite Hr0. cbn [mbind option_bind].
  pose proof (heap_fuel _ _ _ H) as Hf. rewrite length_app in Hf.
  destruct (dealloc_ok (memory st) h lo hi l1 s l2 fuel (s_heap_free_size st) H ltac:(lia))
    as (m' & h' & gf & k & t & l & E & Eb & Esz & H' & Hu & Eu & Hdog).
  rewrite E. cbn [mbind option_bind].
  destruct (set_heap_ok st m' h' h gf (s_heap_free_size_watermark st) Hr Eb Esz) as (st' & Es & Hr' & Em).
  exists st'. split; [done|]. split; [|rewrite Em; by replace (lo + sizes l1 + 4 - 4) with (lo + sizes l1) by lia].
  exists h', (k ++ (t, false) :: l). rewrite Em. split_and!; [done|done|]. by eapply live_free.
Qed.
End Calls.

(** ** Client calls and their specification *)

Inductive hp_op := Malloc (n : Z) | Calloc (n : Z) | Realloc (p n : Z) | Free (p : Z) | Store (p off b : Z) | Load (p off : Z).
Inductive hp_answer := Ptr (p : Z) | Byte (b : Z) | Done.

Section Client.
Context (fuel : nat) (i : Z).

Definition hp_call (st : heap_state) (op : hp_op) : option (hp_answer * heap_state) :=
  match op with
  | Malloc n => '(p, st) ← tuya_mem_heap_malloc 4 4 fuel st (Some i) n; Some (Ptr p, st)
  | Calloc n => '(p, st) ← tuya_mem_heap_calloc 4 4 fuel st (Some i) n; Some (Ptr p, st)
  | Realloc p n => '(q, st) ← tuya_mem_heap_realloc 4 4 fuel st (Some i) p n; Some (Ptr q, st)
  | Free p => st ← tuya_mem_heap_free 4 fuel st (Some i) p; Some (Done, st)
  | Store p off b => m ← stb (memory st) (p + off) b; Some (Done, with_memory st m)
  | Load p off => b ← memory st !! (p + off); Some (Byte b, st)
  end.
End Client.

(** What a client may do with the buffers it has. *)
Definition hp_valid (live : buffers) (op : hp_op) : Prop :=
  match op with
  | Malloc n | Calloc n => 0 <= n < 2 ^ 32
  | Realloc p n => is_Some (live !! p) /\ 0 <= n < 2 ^ 32 - 8
  | Free p => is_Some (live !! p)
  | Store p off _ | Load p off => exists c, live !! p = Some c /\ 0 <= off < zlen c
  end.

(** The specification, for a heap in [[lo, hi)]. *)
Inductive hp_spec (lo hi : Z) (live : buffers) : hp_op -> hp_answer -> buffers -> Prop :=
| sp_malloc n p c : apart lo hi live p n -> zlen c = n -> hp_spec lo hi live (Malloc n) (Ptr p) (<[p := c]> live)
| sp_malloc_null n : refusable lo hi live n -> hp_spec lo hi live (Malloc n) (Ptr NULL) live
| sp_calloc n p : apart lo hi live p n -> hp_spec lo hi live (Calloc n) (Ptr p) (<[p := zrepl n 0]> live)
| sp_calloc_null n : refusable lo hi live n -> hp_spec lo hi live (Calloc n) (Ptr NULL) live
| sp_realloc p n c c' : live !! p = Some c -> zlen c' = n ->
    take (Z.to_nat (Z.min n (zlen c))) c' = take (Z.to_nat (Z.min n (zlen c))) c ->
    hp_spec lo hi live (Realloc p n) (Ptr p) (<[p := c']> live)
| sp_realloc_move p n c q c' : live !! p = Some c -> apart lo hi live q n -> zlen c' = n ->
    take (Z.to_nat (Z.min n (zlen c))) c' = take (Z.to_nat (Z.min n (zlen c))) c ->
    hp_spec lo hi live (Realloc p n) (Ptr q) (delete p (<[q := c']> live))
| sp_realloc_null p n : hp_spec lo hi live (Realloc p n) (Ptr NULL) live
| sp_free p : hp_spec lo hi live (Free p) Done (delete p live)
| sp_store p off b c c' : live !! p = Some c -> wr c off b = Some c' -> hp_spec lo hi live (Store p off b) Done (<[p := c']> live)
| sp_load p off b c : live !! p = Some c -> rd c off = Some b -> hp_spec lo hi live (Load p off) (Byte b) live.

Lemma ld_bytes_take n k m a l : ld_bytes n m a = Some l -> (k <= n)%nat -> ld_bytes k m a = Some (take k l).
Proof.
  rewrite !ld_bytes_spec. intros [Hl Hi] Hk. split; [rewrite length_take; lia|]. intros j Hj.
  rewrite Hi by lia. by rewrite lookup_take_lt.
Qed.

Lemma ld_bytes_agree n m a l k l' : ld_bytes n m a = Some l -> ld_bytes k m a = Some l' -> (k <= n)%nat -> take k l = l'.
Proof. intros H H' Hk. pose proof (ld_bytes_take n k m a l H Hk). congruence. Qed.

Section ClientProofs.
Context (fuel : nat) (i lo hi : Z) (Hfuel : (Z.to_nat (hi - lo) < fuel)%nat).

(** Writing [l] at an offset of a buffer, and any contents read there after. *)
Lemma holds_write st h bs live p c s off l :
  has_heap i lo hi st h -> heap_ok (memory st) h lo hi bs -> live_ok (memory st) lo bs live ->
  live !! p = Some c -> (p - 4, s) ∈ used_list lo bs -> 0 <= off -> off + zlen l + 5 <= s ->
  exists m', st_bytes l (memory st) (p + off) = Some m'
    /\ (forall j, (j < length l)%nat -> m' !! (p + off + Z.of_nat j) = l !! j)
    /\ (forall x, ~ (p + off <= x < p + off + zlen l) -> m' !! x = memory st !! x)
    /\ mapped m' lo hi
    /\ forall c', zlen c' + 5 <= s -> ld_bytes (length c') m' p = Some c' -> holds i lo hi (with_memory st m') (<[p := c']> live).
Proof.
  intros Hr H Hlv Hp Hin Hoff Hs. pose proof (heap_positive _ _ _ _ _ H) as Hpos.
  destruct (used_pos _ _ _ _ Hpos Hin) as (Hs8 & Ha1 & Ha2). rewrite <- (heap_hi _ _ _ _ _ H) in Ha2.
  destruct (st_bytes_spec l (memory st) (p + off)) as (m' & E & U & Hi).
  { apply (mapped_sub _ _ _ _ _ (hk_mapped _ _ _ _ _ H)); lia. }
  exists m'. split_and!; [done|done|apply U|by eapply upd_mapped, (hk_mapped _ _ _ _ _ H)|].
  intros c' Hc' Hl. destruct (live_write (memory st) m' h lo hi bs live p c s (p + off) (p + off + zlen l) c' H Hlv Hp Hin ltac:(lia) ltac:(lia) U Hc' Hl) as [H' Hlv'].
  exists h, bs. by split_and!.
Qed.

Lemma store_ok st live p off b c :
  holds i lo hi st live -> live !! p = Some c -> 0 <= off < zlen c ->
  exists m' c', stb (memory st) (p + off) b = Some m' /\ wr c off b = Some c' /\ holds i lo hi (with_memory st m') (<[p := c']> live).
Proof.
  intros (h & bs & Hr & H & Hlv) Hp Hoff. destruct (lv_block _ _ _ _ Hlv p c Hp) as (s & Hin & Hs & Hc).
  destruct (holds_write st h bs live p c s off [b] Hr H Hlv Hp Hin) as (m' & E & Hb & Hout & _ & Hold); [lia|change (zlen [b]) with 1; lia|].
  exists m'. unfold wr. decide_bool. destruct (Z.leb_spec 0 off); [|lia]. cbn [andb]. eexists. split; [exact E|]. split; [done|].
  apply Hold; [unfold zlen; rewrite length_insert; unfold zlen in Hs; lia|]. rewrite length_insert.
  apply ld_bytes_spec in Hc as [_ Hc]. apply ld_bytes_spec. split; [by rewrite length_insert|]. intros j Hj.
  destruct (decide (Z.to_nat off = j)) as [<-|Hne].
  - rewrite list_lookup_insert_eq by done. change (Some b) with ([b] !! 0%nat). rewrite <- (Hb 0%nat) by (cbn; lia). f_equal. lia.
  - rewrite list_lookup_insert_ne by done. rewrite Hout by (change (zlen [b]) with 1; lia). by apply Hc.
Qed.

Lemma load_content st live p off c :
  holds i lo hi st live -> live !! p = Some c -> 0 <= off < zlen c -> exists b, memory st !! (p + off) = Some b /\ rd c off = Some b.
Proof.
  intros (h & bs & Hr & H & Hlv) Hp Hoff. destruct (lv_block _ _ _ _ Hlv p c Hp) as (s & _ & _ & Hc).
  apply ld_bytes_spec in Hc as [_ Hc]. destruct (rd_Some c off Hoff) as [b Hb]. exists b. split; [|done].
  unfold rd in Hb. destruct (Z.leb_spec 0 off); [|done]. rewrite <- Hb, <- (Hc (Z.to_nat off)) by (unfold zlen in Hoff; lia).
  f_equal. lia.
Qed.

Lemma calloc_ok st live n :
  holds i lo hi st live -> 0 <= n < 2 ^ 32 ->
  exists p st' live', tuya_mem_heap_calloc 4 4 fuel st (Some i) n = Some (p, st')
    /\ hp_spec lo hi live (Calloc n) (Ptr p) live' /\ holds i lo hi st' live'.
Proof.
  intros Hh Hn. unfold tuya_mem_heap_calloc, tuya_mem_heap_malloc.
  destruct (alloc_in_ok fuel i lo hi Hfuel st live n Hh Hn) as (p & st1 & E & Hc). rewrite E. cbn [mbind option_bind].
  destruct Hc as [(-> & H1 & Href)|(h & bs & s & c & Hr & H & Hin & Hs & _ & Hap & Hzc & Hlv & _)].
  { change (NULL =? NULL) with true. exists NULL, st1, live. split_and!; [done|by constructor|done]. }
  assert (0 < lo) as Hlo by (apply (hk_lo _ _ _ _ _ H)).
  assert (lo < p) as Hp by apply Hap. unfold NULL. destruct (Z.eqb_spec p 0); [lia|].
  destruct (holds_write st1 h bs _ p c s 0 (zrepl n 0) Hr H Hlv (lookup_insert_eq _ _ _) Hin) as (m' & E' & Hb & _ & _ & Hold);
    [lia|rewrite zlen_zrepl; lia|].
  rewrite Z.add_0_r in E'. rewrite E'. cbn [mbind option_bind]. exists p, (with_memory st1 m'), (<[p := zrepl n 0]> live).
  split_and!; [done|by constructor|]. rewrite <- (insert_insert_eq live p (zrepl n 0) c). apply Hold; [rewrite zlen_zrepl; lia|].
  apply ld_bytes_spec. split; [done|]. intros j Hj. rewrite <- (Hb j) by done. f_equal. lia.
Qed.

(** The header of a live buffer. *)
Lemma live_header st live p c :
  holds i lo hi st live -> live !! p = Some c ->
  exists s, block_size 4 (memory st) (p - 4) = Some s /\ dog_get 4 (memory st) (p - 4) = Some MEM_BLOCK_STAT_USE
    /\ s mod 4 = 0 /\ zlen c + 5 <= s < 2 ^ 32 /\ 0 < p.
Proof.
  intros (h & bs & _ & H & Hlv) Hp. destruct (live_used_block _ _ _ _ _ _ Hlv Hp) as (l1 & s & l2 & -> & -> & Hs & _).
  pose proof (heap_positive _ _ _ _ _ H) as Hpos. pose proof (heap_hi _ _ _ _ _ H) as Hh. rewrite sizes_app, sizes_cons in Hh.
  apply Forall_app in Hpos as [Hp1 Hp2]. apply Forall_cons_1 in Hp2 as [_ Hp2].
  pose proof (sizes_nonneg l1 Hp1). pose proof (sizes_nonneg l2 Hp2). pose proof (hk_hi _ _ _ _ _ H). pose proof (hk_lo _ _ _ _ _ H).
  pose proof (hk_layout _ _ _ _ _ H) as Hl. apply layout_block in Hl as (_ & Hm & Hb & Hd). cbn [fst snd] in *.
  replace (lo + sizes l1 + 4 - 4) with (lo + sizes l1) by lia. exists s. unfold dog_get, block_size. rewrite Hb.
  cbn [mbind option_bind]. split_and!; [done|done|done|lia..].
Qed.

Lemma realloc_need n : 0 <= n < 2 ^ 32 - 8 ->
  ulong 4 (ALIGN_UP 4 4 (u32 (Z.max n 4 + 1)) + MEM_BLOCK_HEAD_SIZE 4) = block_need 4 4 (Z.max n 4)
  /\ Z.max n 4 + 5 <= block_need 4 4 (Z.max n 4) /\ block_need 4 4 (Z.max n 4) mod 4 = 0.
Proof.
  intros Hn. split; [done|]. destruct (block_need_cases (Z.max n 4)) as [Hw|[Hw _]]; [lia|exfalso|].
  - revert Hw. unfold block_need, MEM_BLOCK_HEAD_SIZE. rewrite (ulong_small (_ + 1)), ALIGN_UP_4 by lia.
    pose proof (Z.mul_div_le (Z.max n 4 + 1 + 3) 4). pose proof (Z.mul_succ_div_gt (Z.max n 4 + 1 + 3) 4).
    rewrite ulong_small by lia. lia.
  - pose proof (Z.mul_succ_div_gt (Z.max n 4 + 4) 4). split; [lia|]. rewrite Hw.
    replace ((Z.max n 4 + 4) / 4 * 4 + 4) with (((Z.max n 4 + 4) / 4 + 1) * 4) by lia. apply Z.mod_mul. lia.
Qed.

(** Two reads of the same address agree on their common prefix. *)
Lemma common_prefix m a l k :
  ld_bytes (length l) m a = Some l -> ld_bytes (length k) m a = Some k ->
  take (Z.to_nat (Z.min (zlen k) (zlen l))) k = take (Z.to_nat (Z.min (zlen k) (zlen l))) l.
Proof.
  intros Hl Hk. set (j := Z.to_nat _). assert (j <= length l /\ j <= length k)%nat as [J1 J2] by (unfold j, zlen; lia).
  pose proof (ld_bytes_take _ j _ _ _ Hl J1). pose proof (ld_bytes_take _ j _ _ _ Hk J2). congruence.
Qed.

(** The block is large enough: the pointer stays. *)
Lemma realloc_stay st live p c n s :
  holds i lo hi st live -> live !! p = Some c -> 0 <= n -> block_size 4 (memory st) (p - 4) = Some s -> n + 5 <= s ->
  exists live', hp_spec lo hi live (Realloc p n) (Ptr p) live' /\ holds i lo hi st live'.
Proof.
  intros (h & bs & Hr & H & Hlv) Hp Hn Hs Hns. destruct (lv_block _ _ _ _ Hlv p c Hp) as (t & Hin & Ht & Hc).
  assert (t = s) as ->.
  { apply used_list_split in Hin as (l1 & l2 & -> & E). pose proof (hk_layout _ _ _ _ _ H) as Hl.
    apply layout_block in Hl as (_ & _ & Hb & _). rewrite <- E in Hb. unfold block_size in Hs. cbn in Hb. congruence. }
  pose proof (heap_positive _ _ _ _ _ H) as Hpos. destruct (used_pos _ _ _ _ Hpos Hin) as (Hs8 & Ha1 & Ha2).
  rewrite <- (heap_hi _ _ _ _ _ H) in Ha2.
  destruct (ld_bytes_mapped (Z.to_nat n) (memory st) p) as (c' & Hc' & Hlen).
  { apply (mapped_sub _ _ _ _ _ (hk_mapped _ _ _ _ _ H)); lia. }
  assert (zlen c' = n) as Hz by (unfold zlen; lia). rewrite <- Hlen in Hc'.
  exists (<[p := c']> live). split.
  - apply sp_realloc with c; [done|done|]. rewrite <- Hz. by eapply common_prefix.
  - destruct (live_write (memory st) (memory st) h lo hi bs live p c s p p c' H Hlv Hp Hin) as [H' Hlv'];
      [lia|lia|apply upd_refl|lia|done|]. by exists h, bs.
Qed.

(** The block is too small: a new one, the old contents copied, the old block released. *)
Lemma realloc_move st st1 live p c n tmp h bs t d s :
  holds i lo hi st live -> live !! p = Some c -> 0 <= n -> n <= zlen d ->
  block_size 4 (memory st) (p - 4) = Some s -> s + 4 <= t -> zlen c + 5 <= s < 2 ^ 32 ->
  has_heap i lo hi st1 h -> heap_ok (memory st1) h lo hi bs -> (tmp - 4, t) ∈ used_list lo bs ->
  zlen d + 5 <= t -> apart lo hi live tmp (zlen d) -> live_ok (memory st1) lo bs (<[tmp := d]> live) ->
  block_size 4 (memory st1) (p - 4) = block_size 4 (memory st) (p - 4) ->
  exists m st' live', mem_copy (memory st1) tmp p (ulong 4 (s - 4)) = Some m
    /\ free_in 4 fuel (with_memory st1 m) i p = Some st'
    /\ hp_spec lo hi live (Realloc p n) (Ptr tmp) live' /\ holds i lo hi st' live'.
Proof.
  intros Hh Hp Hn Hnd Hs Hst Hsc Hr H Hin Hdt Hap Hlv Hsame. pose proof (zlen_nonneg c).
  assert (tmp <> p) as Hne by (intros ->; destruct Hap as (_ & _ & _ & E & _); congruence).
  assert ((<[tmp := d]> live) !! p = Some c) as Hp1 by (by rewrite lookup_insert_ne).
  rewrite ulong_small by lia. unfold mem_copy.
  destruct (lv_block _ _ _ _ Hlv p c Hp1) as (s' & Hins & _ & Hc).
  assert (s' = s) as ->.
  { apply used_list_split in Hins as (l1 & l2 & -> & E). pose proof (hk_layout _ _ _ _ _ H) as Hl.
    apply layout_block in Hl as (_ & _ & Hb & _). rewrite <- E in Hb. rewrite Hs in Hsame. unfold block_size in Hsame.
    cbn in Hb. congruence. }
  pose proof (heap_positive _ _ _ _ _ H) as Hpos. destruct (used_pos _ _ _ _ Hpos Hins) as (_ & Ha1 & Ha2).
  destruct (used_pos _ _ _ _ Hpos Hin) as (_ & Hb1 & Hb2).
  rewrite <- (heap_hi _ _ _ _ _ H) in Ha2, Hb2.
  destruct (ld_bytes_mapped (Z.to_nat (s - 4)) (memory st1) p) as (l & Hl & Hlen).
  { apply (mapped_sub _ _ _ _ _ (hk_mapped _ _ _ _ _ H)); lia. }
  assert (zlen l = s - 4) as Hzl by (unfold zlen; lia). rewrite Hl. cbn [mbind option_bind].
  destruct (holds_write st1 h bs _ tmp d t 0 l Hr H Hlv (lookup_insert_eq _ _ _) Hin) as (m & E & Hb & _ & Hm & Hold); [lia|lia|].
  rewrite Z.add_0_r in E. rewrite E. cbn [mbind option_bind]. exists m.
  destruct (ld_bytes_mapped (Z.to_nat n) m tmp) as (c' & Hc' & Hlen').
  { apply (mapped_sub _ _ _ _ _ Hm); lia. }
  assert (zlen c' = n) as Hz by (unfold zlen; lia). rewrite <- Hlen' in Hc'.
  specialize (Hold c' ltac:(lia) Hc'). rewrite insert_insert_eq in Hold.
  destruct (free_in_ok fuel i lo hi Hfuel (with_memory st1 m) _ p c Hold) as (st' & Ef & Hh' & _).
  { by rewrite lookup_insert_ne. }
  exists st', (delete p (<[tmp := c']> live)). split_and!; [done|done| |done].
  apply sp_realloc_move with c; [done| |done|].
  { destruct Hap as (A1 & A2 & A3 & A4 & A5). split_and!; [done|lia|done|done|]. intros q e Hq. destruct (A5 q e Hq); lia. }
  rewrite <- Hz. eapply (common_prefix m tmp); [|done]. apply ld_bytes_spec. split; [done|]. intros j Hj.
  assert (j < length l)%nat as Hjl by (unfold zlen in Hsc, Hzl; lia).
  specialize (Hb j Hjl). rewrite Z.add_0_r in Hb. rewrite Hb. apply ld_bytes_spec in Hl as [_ Hl]. rewrite <- Hl by lia.
  apply ld_bytes_spec in Hc as [_ Hc]. by apply Hc.
Qed.

Lemma realloc_ok st live p c n :
  holds i lo hi st live -> live !! p = Some c -> 0 <= n < 2 ^ 32 - 8 ->
  exists q st' live', tuya_mem_heap_realloc 4 4 fuel st (Some i) p n = Some (q, st')
    /\ hp_spec lo hi live (Realloc p n) (Ptr q) live' /\ holds i lo hi st' live'.
Proof.
  intros Hh Hp Hn. destruct (live_header st live p c Hh Hp) as (s & Hs & Hd & Hs4 & Hsc & Hp0).
  destruct (realloc_need n Hn) as (En & Hq & Hq4).
  unfold tuya_mem_heap_realloc, tuya_mem_heap_malloc, tuya_mem_heap_free, NULL.
  change (MEM_BLOCK_HEAD_SIZE 4) with 4 in *. destruct (Z.eqb_spec p 0); [lia|].
  rewrite Hd. cbn [mbind option_bind]. change (negb (MEM_BLOCK_STAT_USE =? MEM_BLOCK_STAT_USE)) with false. cbv iota.
  rewrite Hs. cbn [mbind option_bind].
  assert ((if n <? 4 then 4 else n) = Z.max n 4) as -> by (destruct (Z.ltb_spec n 4); lia). rewrite En.
  destruct (Z.leb_spec (block_need 4 4 (Z.max n 4)) s) as [Hle|Hgt].
  { destruct (realloc_stay st live p c n s Hh Hp ltac:(lia) Hs ltac:(lia)) as (live' & ? & ?). by exists p, st, live'. }
  destruct (alloc_in_ok fuel i lo hi Hfuel st live (Z.max n 4) Hh ltac:(lia)) as (tmp & st1 & E & Hc).
  rewrite E. cbn [mbind option_bind].
  destruct Hc as [(-> & H1 & Href)|(h & bs & t & d & Hr & H & Hin & Ht & Hneed & Hap & Hzd & Hlv & Hsame)].
  { change (NULL =? 0) with true. exists 0, st1, live. split_and!; [done|apply sp_realloc_null|done]. }
  rewrite (Z.max_l (Z.max n 4) 4) in Hneed by lia.
  assert (s + 4 <= t) as Hst by (pose proof (Z.div_mod s 4); pose proof (Z.div_mod (block_need 4 4 (Z.max n 4)) 4); lia).
  rewrite <- Hzd in Hap. specialize (Hsame p c Hp).
  destruct (realloc_move st st1 live p c n tmp h bs t d s Hh Hp ltac:(lia) ltac:(lia) Hs Hst Hsc Hr H Hin ltac:(lia) Hap Hlv Hsame)
    as (m & st' & live' & Em & Ef & Hsp & Hh').
  assert (0 < tmp) by (destruct Hap as (? & _); pose proof (hk_lo _ _ _ _ _ H); lia). destruct (Z.eqb_spec tmp 0); [lia|].
  rewrite Hsame, Hs. cbn [mbind option_bind]. rewrite Em. cbn [mbind option_bind]. rewrite Ef. cbn [mbind option_bind].
  by exists tmp, st', live'.
Qed.

(** Every call of a client returns, and as the specification says. *)
Lemma call_ok st live op :
  holds i lo hi st live -> hp_valid live op ->
  exists ans st' live', hp_call fuel i st op = Some (ans, st') /\ hp_spec lo hi live op ans live' /\ holds i lo hi st' live'.
Proof.
  intros Hh Hv. destruct op as [n|n|p n|p|p off b|p off]; cbn [hp_call hp_valid] in *.
  - unfold tuya_mem_heap_malloc. destruct (alloc_in_ok fuel i lo hi Hfuel st live n Hh Hv) as (p & st1 & E & Hc).
    rewrite E. cbn [mbind option_bind]. destruct Hc as [(-> & H1 & Href)|(h & bs & t & d & Hr & H & Hin & Ht & _ & Hap & Hzd & Hlv & _)].
    + exists (Ptr NULL), st1, live. split_and!; [done|by constructor|done].
    + exists (Ptr p), st1, (<[p := d]> live). split_and!; [done|by constructor|by exists h, bs].
  - destruct (calloc_ok st live n Hh Hv) as (p & st' & live' & E & ? & ?). rewrite E. by exists (Ptr p), st', live'.
  - destruct Hv as [[c Hp] Hn]. destruct (realloc_ok st live p c n Hh Hp Hn) as (q & st' & live' & E & ? & ?).
    rewrite E. by exists (Ptr q), st', live'.
  - destruct Hv as [c Hp]. unfold tuya_mem_heap_free. destruct (free_in_ok fuel i lo hi Hfuel st live p c Hh Hp) as (st' & E & ? & _).
    rewrite E. exists Done, st', (delete p live). split_and!; [done|constructor|done].
  - destruct Hv as (c & Hp & Hoff). destruct (store_ok st live p off b c Hh Hp Hoff) as (m & c' & E & Ew & ?).
    rewrite E. exists Done, (with_memory st m), (<[p := c']> live). split_and!; [done|by econstructor|done].
  - destruct Hv as (c & Hp & Hoff). destruct (load_content st live p off c Hh Hp Hoff) as (b & E & Er). rewrite E.
    exists (Byte b), st, live. split_and!; [done|by econstructor|done].
Qed.
End ClientProofs.

(** ** Creation *)

Definition no_heap : MEM_Heap_t := {| free_list := NULL; base := NULL; size := 0; free := 0; free_watermark := 0 |}.

(** The globals before the first call. *)
Definition boot (m : mem) : heap_state :=
  {| memory := m; mem_heap_list := [no_heap; no_heap; no_heap; no_heap]; s_heap_free_size := 0; s_heap_free_size_watermark := 0 |}.

(** The part of a region that the blocks cover. *)
Definition region_lo (start : Z) : Z := (start + 3) / 4 * 4.
Definition region_hi (start sz : Z) : Z := (start + sz) / 4 * 4.

Lemma ALIGN_DOWN_4 x : ALIGN_DOWN 4 x = x / 4 * 4.
Proof. apply mask_4. Qed.

Lemma heap_init_ok m start sz s_free :
  0 < start -> 31 <= sz -> start + sz < 2 ^ 32 -> mapped m start (start + sz) ->
  exists m' h gf, mem_heap_init 4 4 m start sz s_free = Some (0, m', h, gf) /\ base h = start /\ size h = sz
    /\ heap_ok m' h (region_lo start) (region_hi start sz) [(region_hi start sz - region_lo start, false)].
Proof.
  intros Hs Hsz Hhi Hm. unfold mem_heap_init, region_lo, region_hi. rewrite ALIGN_UP_4, ALIGN_DOWN_4 by lia.
  set (p := (start + 3) / 4 * 4). pose proof (Z.div_mod (start + 3) 4). pose proof (Z.mod_pos_bound (start + 3) 4).
  pose proof (Z.div_mod (start + sz) 4). pose proof (Z.mod_pos_bound (start + sz) 4).
  assert (start <= p <= start + 3 /\ p mod 4 = 0) as [Hp Hp4] by (split; [lia|apply Z.mod_mul; lia]).
  rewrite (ulong_small (sz - _)) by lia.
  assert ((sz - (p - start)) / 4 * 4 = (start + sz) / 4 * 4 - p) as ->.
  { replace (sz - (p - start)) with (start + sz + (- ((start + 3) / 4)) * 4) by (unfold p; lia).
    rewrite Z.div_add by lia. unfold p. lia. }
  set (n := (start + sz) / 4 * 4 - p). assert (28 <= n /\ n mod 4 = 0) as [Hn Hn4].
  { split; [unfold n; lia|]. unfold n, p. rewrite <- Z.mul_sub_distr_r. apply Z.mod_mul. lia. }
  change (MEM_HEAP_MIN_SIZE 4) with 28. destruct (Z.ltb_spec n 28); [lia|].
  destruct (stw_ok m (p + 4) NULL) as (m1 & E1 & U1 & V1);
    [by vm_compute|apply (mapped_sub _ _ _ _ _ Hm); lia|]. unfold set_block_next. rewrite E1. cbn [mbind option_bind].
  pose proof (upd_mapped _ _ _ _ _ _ U1 Hm) as Hm1.
  destruct (stw_ok m1 p n) as (m2 & E2 & U2 & V2); [lia|apply (mapped_sub _ _ _ _ _ Hm1); lia|].
  unfold set_block_size. rewrite E2. cbn [mbind option_bind]. pose proof (upd_mapped _ _ _ _ _ _ U2 Hm1) as Hm2.
  destruct (dog_set_ok m2 p n MEM_BLOCK_STAT_FREE) as (m3 & E3 & U3 & V3); [done|lia|apply (mapped_sub _ _ _ _ _ Hm2); unfold n; lia|].
  rewrite E3. cbn [mbind option_bind]. pose proof (upd_mapped _ _ _ _ _ _ U3 Hm2) as Hm3.
  eexists m3, _, _. split; [done|]. split; [done|]. split; [done|].
  split; cbn [free_list free]; [|apply (mapped_sub _ _ _ _ _ Hm3); lia|split; [lia|done]|lia| |done].
  - cbn [layout snd fst]. fold n. split.
    + split_and!; cbn [fst snd]; [lia|done| |done]. rewrite (ldw_ext m2 m3); [done|]. intros x Hx. apply U3. lia.
    + split; [done|]. exists NULL. split; [|split; [lia|done]].
      rewrite (ldw_ext m1 m3); [done|]. intros x Hx. destruct U3 as [U3 _], U2 as [U2 _]. rewrite U3, U2 by lia. done.
  - rewrite free_size_cons. change (free_size []) with 0. lia.
Qed.

(** A region of 31 bytes or more becomes the first heap, with no buffers. *)
Lemma heap_create_ok m start sz :
  0 < start -> 31 <= sz -> start + sz < 2 ^ 32 -> mapped m start (start + sz) ->
  exists st, tuya_mem_heap_create 4 4 (boot m) start sz = Some (0, Some 0, st)
    /\ holds 0 (region_lo start) (region_hi start sz) st ∅.
Proof.
  intros Hs Hsz Hhi Hm. destruct (heap_init_ok m start sz 0 Hs Hsz Hhi Hm) as (m' & h & gf & E & Eb & Es & H).
  unfold tuya_mem_heap_create, MEM_HeapCreate, NULL. destruct (Z.eqb_spec start 0); [lia|]. destruct (Z.eqb_spec sz 0); [lia|].
  cbn [orb]. change (free_slot (mem_heap_list (boot m)) 0) with (Some 0). cbn [boot mem_heap_list memory s_heap_free_size].
  change (rd [no_heap; no_heap; no_heap; no_heap] 0) with (Some no_heap). cbn [mbind option_bind]. rewrite E.
  cbn [mbind option_bind]. change (0 =? 0) with true. cbv iota. unfold set_heap. cbn [mem_heap_list].
  change (wr [no_heap; no_heap; no_heap; no_heap] 0 h) with (Some [h; no_heap; no_heap; no_heap]). cbn [mbind option_bind].
  eexists. split; [done|]. exists h, [(region_hi start sz - region_lo start, false)]. split_and!; [|exact H|].
  - split; [done|]. rewrite Eb, Es, ALIGN_UP_4, ulong_small, ALIGN_DOWN_4 by lia. done.
  - split; [intros p c; by rewrite lookup_empty|]. cbn [used_list]. by intros a s ?%elem_of_nil.
Qed.

(** ** Diagnosis *)

Definition used_blocks (bs : list blk) : Z := zlen (List.filter snd bs).
Definition free_blocks (bs : list blk) : Z := zlen (List.filter (fun b : blk => negb (snd b)) bs).

Ltac status_step :=
  match goal with
  | IH : forall (fuel : nat) (lo fb : Z) (r : MEM_HeapStatus_t), _, Hl : layout _ _ _ _ _ _, Hm : mapped _ _ _
    |- context [status_loop _ _ ?fuel _ ?a _ ?fb ?r1] =>
      destruct (IH fuel a fb r1 Hl) as (r' & E & R1 & R2 & R3 & R4 & R5);
      [lia|lia|done|apply (mapped_sub _ _ _ _ _ Hm); lia|cbn; lia|cbn; lia|];
      exists r'; split; [exact E|]; cbn [st_free st_size st_used_block st_free_block] in *;
      unfold used_blocks, free_blocks in *; cbn [List.filter snd negb]; rewrite free_size_cons, zlen_cons; lia
  end.

Lemma status_loop_ok m fuel lo bs hi fb r :
  layout m lo bs hi fb NULL -> (length bs < fuel)%nat -> 0 < lo -> hi < 2 ^ 32 -> mapped m lo hi ->
  0 <= st_free r -> st_free r + sizes bs < 2 ^ 32 ->
  exists r', status_loop 4 4 fuel m lo hi fb r = Some r'
    /\ st_size r' = st_size r /\ st_valid r' = 1 /\ st_used_block r' = st_used_block r + used_blocks bs
    /\ st_free_block r' = st_free_block r + free_blocks bs
    /\ st_free r' + 5 * free_blocks bs = st_free r + free_size bs.
Proof.
  revert fuel lo fb r. induction bs as [|[s u] bs IH]; intros fuel lo fb r Hl Hf Hlo Hhi Hm Hr1 Hr2.
  { destruct Hl as [<- ->]. destruct fuel as [|fuel]; [cbn in Hf; lia|]. cbn [status_loop]. rewrite Z.ltb_irrefl, !Z.eqb_refl.
    eexists. split; [done|]. cbn [st_size st_valid st_used_block st_free_block st_free].
    change (used_blocks []) with 0. change (free_blocks []) with 0. change (free_size []) with 0. lia. }
  destruct fuel as [|fuel]; [cbn in Hf; lia|]. cbn in Hf.
  pose proof (layout_hi _ _ _ _ _ _ Hl) as [Hh _]. pose proof (layout_positive _ _ _ _ _ _ Hl) as Hp.
  apply Forall_cons_1 in Hp as [Hs Hp]. cbn in Hs. pose proof (sizes_nonneg bs Hp). rewrite sizes_cons in *.
  pose proof Hl as Hl0. destruct Hl as [(_ & _ & Hw & Hd) Hl]. cbn [fst snd] in *.
  cbn [status_loop]. unfold dog_get, block_size, block_next. destruct (Z.ltb_spec lo hi); [|lia]. rewrite Hw.
  cbn [mbind option_bind]. rewrite Hd. cbn [mbind option_bind]. rewrite (ulong_small (lo + s)) by lia.
  destruct u; cbn [fst snd] in *.
  - change (MEM_BLOCK_STAT_USE =? MEM_BLOCK_STAT_USE) with true. cbv iota. destruct (Z.eqb_spec lo fb) as [<-|].
    { exfalso. destruct (layout_first _ _ _ _ _ _ Hl) as [[_ E]|(k & t & l3 & -> & _ & E)]; [unfold NULL in E; lia|].
      apply Forall_app in Hp as [Hp _]. pose proof (sizes_nonneg k Hp). lia. }
    destruct (ld_bytes_mapped (Z.to_nat 4) m (lo + s - 4 - 4)) as (w & Ew & _); [apply (mapped_sub _ _ _ _ _ Hm); lia|].
    unfold ldw at 1. rewrite Ew. cbn [mbind option_bind fmap option_map].
    status_step.
  - change (MEM_BLOCK_STAT_FREE =? MEM_BLOCK_STAT_USE) with false. change (MEM_BLOCK_STAT_FREE =? MEM_BLOCK_STAT_FREE) with true.
    cbv iota. destruct Hl as (-> & f' & Hn & Hl). rewrite Z.eqb_refl. cbn [negb]. rewrite Hn. cbn [mbind option_bind].
    change (MEM_BLOCK_HEAD_SIZE 4) with 4. rewrite (ulong_small (s - 4 - 1)), (ulong_small (st_free r + _)) by lia.
    status_step.
Qed.

Lemma used_blocks_length lo bs : used_blocks bs = zlen (used_list lo bs).
Proof.
  revert lo. unfold used_blocks. induction bs as [|[s u] bs IH]; intros lo; [done|].
  destruct u; cbn [List.filter snd used_list app]; rewrite ?zlen_cons; by rewrite (IH (lo + s)).
Qed.

Lemma used_list_nodup lo bs : positive_blocks bs -> NoDup (map (fun x => fst x + 4) (used_list lo bs)).
Proof.
  revert lo. induction bs as [|[s u] bs IH]; intros lo Hp; [constructor|]. apply Forall_cons_1 in Hp as [Hs Hp]. cbn in Hs.
  destruct u; cbn [used_list app map fst]; [|by apply IH]. constructor; [|by apply IH].
  intros ([a t] & E & Hin)%list_elem_of_fmap. cbn in E. destruct (used_pos _ _ _ _ Hp Hin). lia.
Qed.

(** There are as many used blocks as live buffers. *)
Lemma live_count m h lo hi bs live :
  heap_ok m h lo hi bs -> live_ok m lo bs live -> used_blocks bs = Z.of_nat (base.size live).
Proof.
  intros H Hlv. rewrite (used_blocks_length lo). rewrite <- (size_dom live).
  assert (dom live = list_to_set (map (fun x => fst x + 4) (used_list lo bs)) :> gset Z) as ->.
  { apply set_eq. intros p. rewrite elem_of_dom, elem_of_list_to_set, list_elem_of_fmap. split.
    - intros [c Hc]. destruct (lv_block _ _ _ _ Hlv p c Hc) as (s & Hin & _). exists (p - 4, s). split; [cbn; lia|done].
    - intros ([a s] & -> & Hin). by apply (lv_all _ _ _ _ Hlv a s). }
  rewrite size_list_to_set by (eapply used_list_nodup, heap_positive, H). by rewrite length_map.
Qed.

(** * The claims *)

(** [n] calls of any client, each chosen from the answers so far: they all return, and
    the answers are those of a map of buffers in [[lo, hi)]. *)
Fixpoint simulates (fuel : nat) (i lo hi : Z) (n : nat) (st : heap_state) (live : buffers) : Prop :=
  match n with
  | O => True
  | S n' =>
      forall op, hp_valid live op ->
        exists ans st' live', hp_call fuel i st op = Some (ans, st') /\ hp_spec lo hi live op ans live'
          /\ simulates fuel i lo hi n' st' live'
  end.

Lemma holds_simulates fuel i lo hi n st live :
  (Z.to_nat (hi - lo) < fuel)%nat -> holds i lo hi st live -> simulates fuel i lo hi n st live.
Proof.
  intros Hf. revert st live. induction n as [|n IH]; intros st live Hh; [done|]. intros op Hv.
  destruct (call_ok fuel i lo hi Hf st live op Hh Hv) as (ans & st' & live' & E & Hs & Hh').
  exists ans, st', live'. split_and!; [done|done|by apply IH].
Qed.

(** (C9) The heap made from a region of at least 31 bytes serves any sequence of
    malloc, calloc, realloc, free, loads and stores: every call returns, every new buffer is
    aligned, inside the region and apart from the live ones, no byte of a live buffer changes
    but by a store to it, calloc gives zeroes, realloc keeps the common prefix, and an
    allocation is refused only while other buffers are live or when it cannot fit. *)
Theorem mem_heap_refines_buffers m start sz fuel :
  0 < start -> 31 <= sz -> start + sz < 2 ^ 32 -> mapped m start (start + sz) -> (Z.to_nat sz < fuel)%nat ->
  exists st, tuya_mem_heap_create 4 4 (boot m) start sz = Some (0, Some 0, st)
    /\ forall n, simulates fuel 0 (region_lo start) (region_hi start sz) n st ∅.
Proof.
  intros H1 H2 H3 Hm Hf. destruct (heap_create_ok m start sz H1 H2 H3 Hm) as (st & E & Hh). exists st. split; [done|].
  intros n. apply holds_simulates; [|done]. unfold region_lo, region_hi.
  pose proof (Z.mul_div_le (start + sz) 4). pose proof (Z.mul_succ_div_gt (start + 3) 4). lia.
Qed.

(** 128 bytes at 4097. *)
Definition sample_mem : mem := list_to_map ((fun x => (x, 0)) <$> seqZ 4097 128).

Lemma sample_mapped : mapped sample_mem 4097 (4097 + 128).
Proof.
  intros x Hx. assert (forallb (fun y => bool_decide (is_Some (sample_mem !! y))) (seqZ 4097 128) = true) as H by (vm_compute; done).
  rewrite forallb_forall in H. specialize (H x). eapply bool_decide_eq_true_1, H. apply list_elem_of_In, elem_of_seqZ. lia.
Qed.

Lemma mem_heap_refines_buffers_witness :
  exists st, tuya_mem_heap_create 4 4 (boot sample_mem) 4097 128 = Some (0, Some 0, st)
    /\ forall n, simulates 200 0 4100 4224 n st ∅.
Proof.
  apply (mem_heap_refines_buffers sample_mem 4097 128 200); [lia|lia|lia|apply sample_mapped|vm_compute; lia].
Defined.

(** In every state the calls reach, the walk of the diagnosis over the heap ends in
    its valid result: it meets one used block per live buffer, and its free bytes with the
    five of each block's header and mark are the free count the heap keeps. *)
Theorem mem_heap_status_valid fuel i lo hi st live :
  (Z.to_nat (hi - lo) < fuel)%nat -> holds i lo hi st live ->
  exists h r, rd (mem_heap_list st) i = Some h /\ MEM_HeapStatus 4 4 fuel (memory st) h = Some r
    /\ st_valid r = 1 /\ st_size r = size h /\ st_used_block r = Z.of_nat (base.size live)
    /\ st_free r + 5 * st_free_block r = free h.
Proof.
  intros Hf (h & bs & (Hr & E1 & E2) & H & Hlv). exists h. unfold MEM_HeapStatus. rewrite E1, E2.
  pose proof (hk_lo _ _ _ _ _ H) as [Hlo _]. pose proof (hk_hi _ _ _ _ _ H) as Hhi. pose proof (heap_hi _ _ _ _ _ H) as Hh.
  edestruct (status_loop_ok (memory st) fuel lo bs hi) as (r & E & R1 & R2 & R3 & R4 & R5);
    [apply (hk_layout _ _ _ _ _ H)|by eapply heap_fuel|done|done|apply (hk_mapped _ _ _ _ _ H)| | |].
  3: { exists r. rewrite <- (live_count _ _ _ _ _ _ H Hlv), (hk_free _ _ _ _ _ H). split_and!; [done|exact E|done|done|..].
       - rewrite R3. cbn. lia.
       - rewrite R4. cbn in *. lia. }
  all: cbn; lia.
Qed.

Lemma mem_heap_status_valid_witness :
  exists st, tuya_mem_heap_create 4 4 (boot sample_mem) 4097 128 = Some (0, Some 0, st)
    /\ exists h r, rd (mem_heap_list st) 0 = Some h /\ MEM_HeapStatus 4 4 200 (memory st) h = Some r /\ st_valid r = 1
         /\ st_size r = size h /\ st_used_block r = Z.of_nat (base.size (∅ : buffers)) /\ st_free r + 5 * st_free_block r = free h.
Proof.
  destruct (heap_create_ok sample_mem 4097 128 ltac:(lia) ltac:(lia) ltac:(lia) sample_mapped) as (st & E & Hh).
  exists st. split; [exact E|]. apply (mem_heap_status_valid 200 0 4100 4224 st ∅); [vm_compute; lia|exact Hh].
Defined.

(** Releasing a buffer twice in a row: the second call finds the mark of a free block,
    also when the block was joined with its neighbours, and changes nothing. *)
Theorem mem_heap_double_free fuel i lo hi st live p c :
  (Z.to_nat (hi - lo) < fuel)%nat -> holds i lo hi st live -> live !! p = Some c ->
  exists st', tuya_mem_heap_free 4 fuel st (Some i) p = Some st' /\ tuya_mem_heap_free 4 fuel st' (Some i) p = Some st'.
Proof.
  intros Hf Hh Hp. destruct (live_header fuel i lo hi Hf st live p c Hh Hp) as (_ & _ & _ & _ & _ & Hp0).
  destruct (free_in_ok fuel i lo hi Hf st live p c Hh Hp) as (st' & E & (h & bs & (Hr & _) & _) & Hd). exists st'. split; [done|].
  cbn [tuya_mem_heap_free]. unfold free_in. rewrite Hr. cbn [mbind option_bind]. unfold MEM_Deallocate, NULL.
  destruct (Z.eqb_spec p 0); [lia|]. change (MEM_BLOCK_HEAD_SIZE 4) with 4. rewrite Hd. cbn [mbind option_bind].
  change (negb (MEM_BLOCK_STAT_FREE =? MEM_BLOCK_STAT_USE)) with true. cbn [mbind option_bind]. unfold set_heap, wr.
  unfold rd in Hr. destruct (Z.leb_spec 0 i); [|done]. pose proof (lookup_lt_Some _ _ _ Hr).
  destruct (Z.ltb_spec i (zlen (mem_heap_list st'))) as [|Hge]; [|unfold zlen in Hge; lia]. cbn [andb mbind option_bind].
  rewrite list_insert_id by done. by destruct st'.
Qed.

Lemma mem_heap_double_free_witness :
  exists st p st1 st2, tuya_mem_heap_create 4 4 (boot sample_mem) 4097 128 = Some (0, Some 0, st)
    /\ tuya_mem_heap_malloc 4 4 200 st (Some 0) 10 = Some (p, st1)
    /\ tuya_mem_heap_free 4 200 st1 (Some 0) p = Some st2 /\ tuya_mem_heap_free 4 200 st2 (Some 0) p = Some st2.
Proof.
  destruct (heap_create_ok sample_mem 4097 128 ltac:(lia) ltac:(lia) ltac:(lia) sample_mapped) as (st & E & Hh).
  assert (Z.to_nat (region_hi 4097 128 - region_lo 4097) < 200)%nat as Hf by (vm_compute; lia).
  destruct (alloc_in_ok 200 0 _ _ Hf st ∅ 10 Hh ltac:(lia)) as (p & st1 & E1 & [(_ & _ & Hr)|(h & bs & s & c & H1 & H2 & _ & _ & _ & _ & _ & H3 & _)]).
  - exfalso. destruct Hr as [?|[?|Hr]]; [lia|done|]. vm_compute in Hr. discriminate Hr.
  - destruct (mem_heap_double_free 200 0 _ _ st1 (<[p := c]> ∅) p c Hf) as (st2 & E2 & E3);
      [by exists h, bs|by rewrite lookup_insert_eq|].
    exists st, p, st1, st2. by split_and!.
Defined.

(** With eight-byte words the smallest block has 16 bytes, and its link to the next
    free block lies over its mark: after a malloc and a free of 4 bytes the diagnosis
    stops at the block and calls the heap damaged. *)
Definition word64_session : option (Z * Z) :=
  let m : mem := list_to_map ((fun x => (x, 0)) <$> seqZ 4096 256) in
  '(_, _, st) ← tuya_mem_heap_create 8 8 (boot m) 4096 256;
  '(p, st) ← tuya_mem_heap_malloc 8 8 50 st (Some 0) 4;
  '(q, st) ← tuya_mem_heap_malloc 8 8 50 st (Some 0) 4;
  st ← tuya_mem_heap_free 8 50 st (Some 0) p;
  h ← rd (mem_heap_list st) 0;
  r ← MEM_HeapStatus 8 8 50 (memory st) h;
  dog ← dog_get 8 (memory st) (p - 8);
  Some (dog, st_valid r).

Example word64_mark_lost : word64_session = Some (0, 0).
Proof. vm_compute. reflexivity. Qed.
